(* ===== verification/_CoqProject ===== *)
-Q . S2P
Prelude.v
Mmu.v
Console.v
CMem.v
Str.v
Printfmt.v
PrintfThms.v
Textio.v
KState.v
Pmap.v
FreeList.v
PageTable.v
Walk.v
PmapSpec.v
DemoState.v
BootMap.v
Env.v
E1000.v
Syscall.v
Trap.v
EnvThms.v
SyscallThms.v
TrapThms.v
UserMem.v
PmapThms.v
AddrSpace.v
Isolation.v
Fork.v
ForkThms.v
BlockCache.v
Bc.v
BcSpec.v
Fs.v
FsSpec.v
FileSpec.v
DirSpec.v
FsMain.v
FsThms.v
Serv.v
ServSpec.v
ServThms.v
Umem.v
Pipe.v
PipeThms.v
Fd.v
FdThms.v
Spawn.v
SpawnThms.v
Malloc.v
MallocThms.v
Fsformat.v
FsformatThms.v
ImageThms.v
File.v
FileThms.v
OpenThms.v
Boot.v
Mpconfig.v
Spinlock.v
Kdebug.v
Args.v
Cmdline.v
