(* ===== verification/Prelude.v ===== *)
(** * A verification of the JOS kernel, its C library and its file server

    The program under src/lab is the 64-bit JOS operating system: a kernel (kern/), a
    library linked into every user program (lib/), a file server that is a user
    environment of its own (fs/), a network server (net/) and user programs (user/).
    User environments reach the kernel by traps; the kernel keeps page tables,
    environments and devices; the file server is called with messages that carry
    pages; descriptors, pipes and fork are made in the library from the memory calls
    of the kernel.

    ** How the code is modelled

    Kernel code is a function in the monad [K] over the record [kstate] of KState.v:
    the global variables of the kernel and the physical memory, byte by byte.  A
    function returns to its caller ([Ret]) or does not ([Stop]: it panics, faults, or
    enters user mode).  File server code is a function in the same monad over the memory and the disk of the
    server.  [wp] says that a computation returns and what holds then, so that every
    theorem stated with [wp] includes that the code neither panics nor faults.
    Integers are [Z], reduced to their C width where the code can overflow.  Code that
    several CPUs or environments run on shared memory is a step relation, one access
    at a time.  Loops have structural recursion on their bound, or fuel.

    ** Files

    - Prelude: integers of C width, records with update, the monad and its [wp], lists.
    - Mmu: address arithmetic, entry flags and layout (inc/mmu.h, inc/memlayout.h,
      inc/error.h).  CMem: byte memory, memset and memmove (lib/string.c).
    - Console: the console and its devices (kern/console.c).
    - Str, Printfmt, PrintfThms: strings and strtol (lib/string.c), vprintfmt,
      snprintf (lib/printfmt.c) and both versions of cprintf (kern/printf.c,
      lib/printf.c).  Textio: fprintf, the console device of programs and readline
      (lib/fprintf.c, lib/console.c, lib/readline.c).
    - KState: the kernel's state.  Pmap: kern/pmap.c (page allocator, walks,
      page_insert, page_remove, page_init, user_mem_check).  FreeList, PageTable, Walk,
      PmapSpec: their specifications; UserMem, PmapThms: theorems.  BootMap: the
      mappings that x64_vm_init and mem_init_mp make in the kernel's table.
    - Env: kern/env.c, kern/sched.c and the kernel's use of its lock.  E1000:
      kern/e1000.c.  Syscall: kern/syscall.c, kern/time.c.  Trap: kern/trap.c.
      EnvThms, SyscallThms, TrapThms: theorems.  DemoState: a small machine on which
      the witnesses run.
    - AddrSpace: the memory calls of the environments refine maps of pages; the page
      tables of several environments next to each other.  Isolation: the theorems on
      programs of memory calls.
    - Fork, ForkThms: lib/fork.c, as code that runs in the current environment and
      makes the system calls of Syscall.v.
    - BlockCache, Bc, BcSpec: fs/ide.c and fs/bc.c, on a processor that faults for
      absent pages and sets dirty bits.  Fs, FsMain, FsSpec, FileSpec, DirSpec, FsThms:
      fs/fs.c, with its files (FileSpec) and its directories and paths (DirSpec).
      Serv, ServSpec, ServThms: fs/serv.c and lib/pageref.c.
    - Fsformat, FsformatThms: fs/fsformat.c, the program that makes the disk image on the
      host, over a state with the host's files and what its calls return.  ImageThms: the
      image in the file server.
    - File, FileThms, OpenThms: lib/file.c, a program and the file server it calls.
    - Umem: loads, stores and strings of user code.  Pipe, PipeThms: the accesses of
      lib/pipe.c to a shared pipe.  Fd, FdThms: lib/fd.c and pipe().  Spawn, SpawnThms:
      lib/spawn.c.  Malloc, MallocThms: lib/malloc.c.  All of it is code that runs in
      the current environment and makes the system calls of Syscall.v.
    - Boot: the boot loader boot1/main.c, on physical memory and a disk.
    - Mpconfig: kern/mpconfig.c, the processors in the tables of the firmware.
    - Spinlock: kern/spinlock.c.  Kdebug: kern/kdebug.c.  Args: lib/args.c.  Cmdline:
      the tokens of user/sh.c and the command lines of kern/monitor.c.

    ** What the theorems show

    Memory: page_alloc and page_free are a stack of pages; page_insert and page_remove
    change exactly the entry, the counts, the free list and the TLB as they should, for
    every state of the page tables; a program of memory calls, on the memory of the
    caller and of its children, refines abstract maps of pages, and leaves every other
    environment's view of its memory as it was, provided that it maps from pages it has
    and with permissions that are flags, which the kernel does not check
    ([map_of_nothing_breaks_isolation]); fork gives the child the pages of the
    parent with no page left writable on both sides, and the fault handler makes
    private copies; user_mem_check accepts exactly the ranges whose entries allow the
    access.  The table made at boot maps physical memory at KERNBASE, the arrays that
    users may read, and a stack for each CPU with a gap below it; no user may write above
    UTOP or read above ULIM.
    Environments: ids are never reused, lookups reject what is stale or foreign, the
    scheduler takes the next runnable environment, and one that stays ready has its turn
    within NENV switches.  Calls and traps: the calls that take the id of an environment
    refuse one that is not the caller or its child, messages arrive, the result of a system
    call reaches the caller, trap never returns.  File server: the block cache is
    transparent and flushing is durable; what is written to a file is read back; the
    table of open files stays well formed, and the entry of an open file is left alone by
    every request as long as a client maps its page.  The image that fsformat makes of files of the host is accepted by the server,
    which finds every one of them in it; and what a program gets from open and readn on
    such a file, through messages, descriptor pages and the block cache, are the bytes of
    the host's file.  Library: a pipe is a queue under every interleaving, and on one CPU
    its end is seen only when it is there; pipe() and dup give
    descriptors of the pages they should, or clean up; the child of spawn reads the
    arguments that its parent passed; malloc hands out chunks that do not overlap, and
    free gives back exactly the pages that nothing else needs; formatting ends, stays in
    its buffer, and strtol reads back what was printed; argnext yields the options and
    gettoken the tokens of the line; readline returns the line that the keys make, and
    fprintf hands its output to write in order.  The boot loader enters the
    kernel with its segments in memory; the processors of the firmware's table are found.  The lock excludes, and an address is attributed to
    the function and line that contain it.
    Some theorems show what goes wrong on inputs the code does not expect, such as a
    mapping from an address where nothing is mapped ([map_of_nothing_gives_page_0]), a
    range of addresses that wraps around ([user_mem_check_wraps]), a pipe whose users run on
    two CPUs ([closed_race_on_two_cpus]), a file id that was never opened
    ([unopened_id_panics]) or whose file was removed ([removed_file_id]), the last page of the heap ([malloc_runs_past_end]) and a read error of the host while the image
    is made ([read_error_unnoticed]).

    ** Fuel and bounds

    [printnum] has fuel 64, the digits of a 64-bit number in base 2; [vprintfmt] as much
    as the format is long, and [vprintfmt_returns] shows that it is enough.  The string
    routines have fuel for the length of the string; without a final zero they have no
    result.  The page fault handler of the file server may fault in turn, for the
    bitmap, and [FAULT_DEPTH] is 3; [block_cache_transparent] shows that it is enough.
    The loop of fork runs over the pages from UTEXT to the stack, and the theorem holds
    for every fuel beyond their number; the search of malloc goes twice through the
    arena of 32768 pages, and the theorem holds for every fuel from there on.  A host may
    deliver a file in any pieces: the reads of fsformat have fuel for as many answers as the
    host has prepared and two more.  readn of an open file has a round for each page it
    delivers and one to find the end.  Loops over
    pages, slots, sectors and table entries recurse on the number the code counts to.
    Fuel of the others is an argument and the theorems quantify over it or give the value.

    ** Not modelled

    The assembly of boot and trap entry; the start of CPUs and
    devices (lapic, pci, picirq); the first page table of the boot code and the
    self tests that x64_vm_init calls; the commands of the monitor; the network stack lwip, which is third-party
    code, and the servers around it; the rest of the library (sockets, fstat, opening the
    console, the page fault upcall); running the commands of the shell, and the other user programs.  What the
    kernel prints at run time goes to the console of the model; the messages of its start
    (of i386_detect_memory, env_init, load_icode, e1000_attach and mp_init) and the dump of a
    trap frame are left out.  Clients of the file server map, unmap and store to descriptor
    pages between two rounds of the server ([server_step]), not during one.  In File
    the messages between a program and the server are one step, a round of the server's
    loop; what the kernel does for them is in Syscall.  Stale TLB entries are not modelled: the theorems
    on memory are about the page tables, and [invlpgs] records the flushes the code
    makes. *)
From Stdlib Require Export ZArith Lia.
From stdpp Require Export base tactics numbers option list gmap fin_maps.

#[global] Open Scope Z_scope.

(** ** C integers

    A [w]-bit unsigned C integer is a [Z] in [0, 2^w); arithmetic is done in
    [Z] and reduced with [wrap].  [swrap] is the two's complement reading, for
    [int] and [int32_t]. *)

Definition wrap (w z : Z) : Z := z mod 2 ^ w.
Definition swrap (w z : Z) : Z := (z + 2 ^ (w - 1)) mod 2 ^ w - 2 ^ (w - 1).

Abbreviation u8 := (wrap 8).
Abbreviation u16 := (wrap 16).
Abbreviation u32 := (wrap 32).
Abbreviation u64 := (wrap 64).
Abbreviation i32 := (swrap 32).

Lemma wrap_range w z : 0 <= w -> 0 <= wrap w z < 2 ^ w.
Proof. intros. apply Z.mod_pos_bound. lia. Qed.

Lemma wrap_small w z : 0 <= z < 2 ^ w -> wrap w z = z.
Proof. apply Z.mod_small. Qed.

Lemma swrap_range w z : 0 < w -> - 2 ^ (w - 1) <= swrap w z < 2 ^ (w - 1).
Proof.
  intros Hw. unfold swrap.
  assert (2 ^ w = 2 * 2 ^ (w - 1)) as Hp
    by (rewrite <- Z.pow_succ_r by lia; f_equal; lia).
  pose proof (Z.mod_pos_bound (z + 2 ^ (w - 1)) (2 ^ w) ltac:(lia)). lia.
Qed.

Lemma swrap_small w z :
  0 < w -> - 2 ^ (w - 1) <= z < 2 ^ (w - 1) -> swrap w z = z.
Proof.
  intros Hw Hz. unfold swrap.
  assert (2 ^ w = 2 * 2 ^ (w - 1)) as Hp
    by (rewrite <- Z.pow_succ_r by lia; f_equal; lia).
  rewrite Z.mod_small by lia. lia.
Qed.

Lemma wrap_swrap w z : 0 <= w -> wrap w (swrap w z) = wrap w z.
Proof.
  intros Hw. unfold wrap, swrap. rewrite Zminus_mod_idemp_l. f_equal. lia.
Qed.
Lemma swrap_wrap w z : 0 <= w -> swrap w (wrap w z) = swrap w z.
Proof. intros Hw. unfold wrap, swrap. by rewrite Zplus_mod_idemp_l. Qed.

(** ** Record update

    [s <| f := v |>] is the structure [s] with field [f] assigned [v]: the
    model of the C assignment [s->f = v].  A record takes part by giving its
    eta-expansion as a [Fields] instance; the setter of a projection is found
    by abstracting that projection in the eta-expansion. *)

Class Fields (R : Type) := rebuild : R -> R.
Class Assign {R T : Type} (proj : R -> T) := assign : (T -> T) -> R -> R.
Arguments assign {R T} proj {_} _ _.

Ltac solve_assign :=
  match goal with
  | |- @Assign ?R ?T ?proj =>
      let mk := constr:(@rebuild R _) in
      let mk := eval hnf in mk in
      match eval pattern proj in mk with
      | ?mk' _ => exact (fun (g : T -> T) (r : R) => mk' (fun x : R => g (proj x)) r)
      end
  end.
#[export] Hint Extern 1 (Assign _) => solve_assign : typeclass_instances.

Declare Scope jos_scope.
Delimit Scope jos_scope with jos.
Notation "s <| f := v |>" := (assign f (fun _ => v) s)
  (at level 1, f at next level, left associativity) : jos_scope.
#[global] Open Scope jos_scope.

(** ** State, results and ways of not returning

    A routine of the code is a function from its state to an [outcome]: [Ret]
    when it returns to its caller, [Stop] when it does not (the kernel
    panicked, control left for user mode, ...).  The second parameter says
    which ways of stopping the component has. *)

Inductive outcome (S E A : Type) : Type :=
| Ret (a : A) (s : S)
| Stop (e : E) (s : S).
Arguments Ret {S E A} a s.
Arguments Stop {S E A} e s.

Definition M (S E A : Type) : Type := S -> outcome S E A.

#[export] Instance M_ret S E : MRet (M S E) := fun A a s => Ret a s.
#[export] Instance M_bind S E : MBind (M S E) := fun A B k m s =>
  match m s with
  | Ret a s' => k a s'
  | Stop e s' => Stop e s'
  end.

Definition gets {S E A} (f : S -> A) : M S E A := fun s => Ret (f s) s.
Definition modify {S E} (f : S -> S) : M S E unit := fun s => Ret tt (f s).
Definition stop {S E A} (e : E) : M S E A := fun s => Stop e s.

(** [wp m s Q]: started in [s], [m] returns, and [Q] holds of its result and
    of the state it returns in (total correctness). *)
Definition wp {S E A} (m : M S E A) (s : S) (Q : A -> S -> Prop) : Prop :=
  match m s with
  | Ret a s' => Q a s'
  | Stop _ _ => False
  end.

Section wp.
Context {S E : Type}.
Implicit Types s : S.

Lemma wp_ret {A} (a : A) s (Q : A -> S -> Prop) :
  Q a s -> wp (E:=E) (mret a) s Q.
Proof. done. Qed.

Lemma wp_bind {A B} (m : M S E A) (k : A -> M S E B) s Q :
  wp m s (fun a s' => wp (k a) s' Q) -> wp (m ≫= k) s Q.
Proof. unfold wp, mbind, M_bind. by destruct (m s). Qed.

Lemma wp_bind_assoc {A B C} (m : M S E A) (f : A -> M S E B) (g : B -> M S E C) s Q :
  wp ((m ≫= f) ≫= g) s Q -> wp (m ≫= (fun a => f a ≫= g)) s Q.
Proof. unfold wp, mbind, M_bind. by destruct (m s). Qed.

Lemma wp_mono {A} (m : M S E A) s (P Q : A -> S -> Prop) :
  wp m s P -> (forall a s', P a s' -> Q a s') -> wp m s Q.
Proof. unfold wp. destruct (m s); naive_solver. Qed.

Lemma wp_ext {A} (m m' : M S E A) s Q : m s = m' s -> wp m' s Q -> wp m s Q.
Proof. unfold wp. by intros ->. Qed.

Lemma wp_gets {A} (f : S -> A) s (Q : A -> S -> Prop) :
  Q (f s) s -> wp (E:=E) (gets f) s Q.
Proof. done. Qed.

Lemma wp_modify (f : S -> S) s (Q : unit -> S -> Prop) :
  Q tt (f s) -> wp (E:=E) (modify f) s Q.
Proof. done. Qed.

Lemma wp_elim {A} (m : M S E A) s Q :
  wp m s Q <-> exists a s', m s = Ret a s' /\ Q a s'.
Proof.
  unfold wp. split.
  - destruct (m s) eqn:Hm; [eauto | done].
  - by intros (a & s' & -> & HQ).
Qed.

Lemma bind_Ret {A B} (m : M S E A) (k : A -> M S E B) s a s' :
  m s = Ret a s' -> (m ≫= k) s = k a s'.
Proof. unfold mbind, M_bind. by intros ->. Qed.

Lemma bind_cong {A B} (m m' : M S E A) (k : A -> M S E B) s :
  m s = m' s -> (m ≫= k) s = (m' ≫= k) s.
Proof. unfold mbind, M_bind. by intros ->. Qed.

Lemma bind_Stop {A B} (m : M S E A) (k : A -> M S E B) s e s' :
  m s = Stop e s' -> (m ≫= k) s = Stop e s'.
Proof. unfold mbind, M_bind. by intros ->. Qed.
End wp.

(** *** What a program leaves alone

    Every run of [m] that returns relates its states by [R]. *)
Section keeps.
Context {S E : Type} (R : S -> S -> Prop) `{!PreOrder R}.

Definition keeps {A} (m : M S E A) : Prop := forall s a s', m s = Ret a s' -> R s s'.

Lemma keeps_ret {A} (a : A) : keeps (mret a).
Proof. intros s b s' [= _ <-]. done. Qed.
Lemma keeps_gets {A} (f : S -> A) : keeps (gets f).
Proof. intros s b s' [= _ <-]. done. Qed.
Lemma keeps_stop {A} e : keeps (stop e : M S E A).
Proof. intros s b s' [=]. Qed.
Lemma keeps_modify f : (forall s, R s (f s)) -> keeps (modify f).
Proof. intros H s b s' [= _ <-]. apply H. Qed.
Lemma keeps_bind {A B} (m : M S E A) (k : A -> M S E B) :
  keeps m -> (forall a, keeps (k a)) -> keeps (m ≫= k).
Proof.
  intros Hm Hk s b s'. unfold mbind, M_bind. destruct (m s) as [a s1|] eqn:E1; [|done].
  intros E2. etrans; [by eapply Hm|by eapply Hk].
Qed.
Lemma keeps_wp {A} (m : M S E A) s Q :
  keeps m -> wp m s Q -> wp m s (fun a s' => Q a s' /\ R s s').
Proof. intros Hk. unfold wp. destruct (m s) eqn:E1; [|done]. intros. split; [done|]. by eapply Hk. Qed.
End keeps.

Create HintDb keeps discriminated.

(** Goes through a program; what it calls is found in the database [keeps]. *)
Ltac keeps_step :=
  match goal with
  | |- forall _, keeps _ _ => intros ?
  | |- keeps _ (mret _) => apply keeps_ret; apply _
  | |- keeps _ (gets _) => apply keeps_gets; apply _
  | |- keeps _ (stop _) => apply keeps_stop
  | |- keeps _ (mbind _ _) => apply keeps_bind; [apply _| |intros ?]
  | |- keeps _ (if ?b then _ else _) => destruct b
  | |- keeps _ (match ?x with _ => _ end) => destruct x
  | H : context [keeps _ _] |- _ => apply H
  | |- keeps _ _ => solve [auto with keeps]
  end.
Ltac keeps_auto := repeat keeps_step.

(** The value a run returns, without its state: cheap to evaluate. *)
Definition value_of {S E A} (o : outcome S E A) : option A :=
  match o with Ret a _ => Some a | Stop _ _ => None end.

Lemma value_of_Ret {S E A} (o : outcome S E A) a : value_of o = Some a -> exists s', o = Ret a s'.
Proof. destruct o; [|done]. intros [= ->]. eauto. Qed.

(** One symbolic execution step of the goal's program, for the operations
    that cannot stop. *)
Ltac wstep :=
  match goal with
  | |- wp (mret _) _ _ => apply wp_ret
  | |- wp (gets _) _ _ => apply wp_gets
  | |- wp (modify _) _ _ => apply wp_modify
  | |- wp (mbind _ _) _ _ => apply wp_bind
  end; cbn beta.
Ltac wsteps := repeat wstep.

(** Use the specification [H] of the program at the head of the goal, then go
    on with what it promises. *)
Tactic Notation "wuse" uconstr(H) := eapply wp_mono; [eapply H |]; cbn beta.

(** ** Bit fields of integers *)

Lemma land_low z n : 0 <= n -> Z.land z (2 ^ n - 1) = z mod 2 ^ n.
Proof. intros. rewrite <- Z.land_ones by done. f_equal. rewrite Z.ones_equiv. lia. Qed.

Lemma lor_low_add a b n :
  0 <= n -> a mod 2 ^ n = 0 -> 0 <= b < 2 ^ n -> Z.lor a b = a + b.
Proof.
  intros Hn Ha Hb.
  assert (Z.land a b = 0) as Hab.
  { apply Z.bits_inj'; intros k Hk; rewrite Z.land_spec, Z.bits_0.
    destruct (Z.lt_ge_cases k n).
    - rewrite <- (Z.mod_pow2_bits_low a n k), Ha, Z.bits_0 by lia. done.
    - rewrite <- (Z.mod_small b (2 ^ n)), Z.mod_pow2_bits_high by lia.
      apply andb_false_r. }
  rewrite <- Z.lxor_lor by done. symmetry. by apply Z.add_nocarry_lxor.
Qed.

Lemma lor_range a b n : 0 <= n -> 0 <= a < 2 ^ n -> 0 <= b < 2 ^ n -> 0 <= Z.lor a b < 2 ^ n.
Proof.
  intros Hn Ha Hb. assert (0 <= Z.lor a b) as H0 by (apply Z.lor_nonneg; lia).
  split; [done|]. destruct (decide (Z.lor a b = 0)) as [->|]; [lia|].
  apply Z.log2_lt_pow2; [lia|]. rewrite Z.log2_lor by lia.
  assert (forall z, 0 <= z < 2 ^ n -> 0 < n -> Z.log2 z < n) as Hlog.
  { intros z Hz Hn0. destruct (decide (z = 0)) as [->|]; [done|]. apply Z.log2_lt_pow2; lia. }
  destruct (decide (n = 0)) as [->|]; [|apply Z.max_lub_lt; apply Hlog; lia].
  assert (a = 0 /\ b = 0) as [-> ->] by lia. done.
Qed.

Lemma land_high z n w :
  0 <= n <= w -> 0 <= z < 2 ^ w -> Z.land z (2 ^ w - 2 ^ n) = z - z mod 2 ^ n.
Proof.
  intros Hn Hz.
  assert (Z.land z (2 ^ w - 2 ^ n) = Z.ldiff z (Z.ones n)) as ->.
  { apply Z.bits_inj'; intros k Hk. rewrite Z.land_spec, Z.ldiff_spec.
    replace (2 ^ w - 2 ^ n) with (Z.shiftl (Z.ones (w - n)) n).
    2:{ rewrite Z.shiftl_mul_pow2, Z.ones_equiv by lia.
        replace (2 ^ w) with (2 ^ (w - n) * 2 ^ n) by (rewrite <- Z.pow_add_r by lia; f_equal; lia).
        lia. }
    rewrite Z.shiftl_spec by done.
    destruct (Z.lt_ge_cases k n).
    - rewrite (Z.testbit_neg_r _ (k - n)), (Z.ones_spec_low n k) by lia. by rewrite !andb_false_r.
    - rewrite (Z.ones_spec_high n k) by lia.
      destruct (Z.lt_ge_cases (k - n) (w - n)).
      + rewrite (Z.ones_spec_low (w - n)) by lia. done.
      + rewrite <- (Z.mod_small z (2 ^ w)), Z.mod_pow2_bits_high by lia. done. }
  rewrite Z.ldiff_ones_r by lia.
  rewrite Z.shiftl_mul_pow2, Z.shiftr_div_pow2 by lia.
  rewrite (Z.mod_eq z) by lia. lia.
Qed.
