(* ===== verification/Mmu.v ===== *)
(** * Address arithmetic and descriptors: inc/mmu.h, inc/types.h,
    inc/memlayout.h, inc/error.h

    The macros that take a linear address apart and put it together, the page
    table entry flags, the memory layout, the rounding macros, and the segment,
    TSS and gate descriptors that SEG64, SETTSS and SETGATE fill in. *)
From S2P Require Import Prelude.

(** ** inc/error.h *)
Definition E_UNSPECIFIED : Z := 1.
Definition E_BAD_ENV : Z := 2.
Definition E_INVAL : Z := 3.
Definition E_NO_MEM : Z := 4.
Definition E_NO_FREE_ENV : Z := 5.
Definition E_FAULT : Z := 6.
Definition E_IPC_NOT_RECV : Z := 7.
Definition E_EOF : Z := 8.
Definition E_MAX_OPEN : Z := 10.
Definition E_NOT_SUPP : Z := 15.

(** ** Open modes of inc/lib.h *)
Definition O_RDONLY : Z := 0x0000.
Definition O_WRONLY : Z := 0x0001.
Definition O_ACCMODE : Z := 0x0003.

(** ** Paging constants *)
Definition NPDENTRIES : Z := 512.
Definition NPTENTRIES : Z := 512.
Definition PGSIZE : Z := 4096.
Definition PGSHIFT : Z := 12.
Definition PTSIZE : Z := PGSIZE * NPTENTRIES.
Definition PTXSHIFT : Z := 12.
Definition PDXSHIFT : Z := 21.
Definition PDPESHIFT : Z := 30.
Definition PML4SHIFT : Z := 39.

Definition PTE_P : Z := 0x001.
Definition PTE_W : Z := 0x002.
Definition PTE_U : Z := 0x004.
Definition PTE_PWT : Z := 0x008.
Definition PTE_PCD : Z := 0x010.
Definition PTE_A : Z := 0x020.
Definition PTE_D : Z := 0x040.
Definition PTE_AVAIL : Z := 0xE00.
Definition PTE_SYSCALL : Z := Z.lor (Z.lor (Z.lor PTE_AVAIL PTE_P) PTE_W) PTE_U.

Definition FL_IF : Z := 0x200.
Definition FL_IOPL_3 : Z := 0x3000.

(** inc/lib.h: pages that stay shared across fork and spawn. *)
Definition PTE_SHARE : Z := 0x400.

(** ** Memory layout *)
Definition KERNBASE : Z := 0xF0000000.
Definition IOPHYSMEM : Z := 0x0A0000.
Definition EXTPHYSMEM : Z := 0x100000.
Definition KSTACKTOP : Z := KERNBASE.
Definition KSTKSIZE : Z := 8 * PGSIZE.
Definition KSTKGAP : Z := 8 * PGSIZE.
Definition MMIOLIM : Z := KSTACKTOP - PTSIZE.
Definition MMIOBASE : Z := MMIOLIM - PTSIZE.
Definition ULIM : Z := MMIOBASE.
Definition UVPT : Z := 0x10000000000.
Definition UPAGES : Z := ULIM - PTSIZE.
Definition UENVS : Z := UPAGES - PTSIZE.
Definition UTOP : Z := UENVS.
Definition UXSTACKTOP : Z := UTOP.
Definition USTACKTOP : Z := UTOP - 2 * PGSIZE.
Definition MPENTRY_PADDR : Z := 0x7000.
Definition GD_KT : Z := 0x08.
Definition GD_KD : Z := 0x10.
Definition GD_UT : Z := 0x18.
Definition GD_UD : Z := 0x20.
Definition GD_TSS0 : Z := 0x28.

Create HintDb jos_consts discriminated.
#[export] Hint Unfold E_UNSPECIFIED E_BAD_ENV E_INVAL E_NO_MEM E_NO_FREE_ENV
  E_FAULT E_IPC_NOT_RECV NPDENTRIES NPTENTRIES PGSIZE PGSHIFT PTSIZE PTXSHIFT
  PDXSHIFT PDPESHIFT PML4SHIFT PTE_P PTE_W PTE_U KERNBASE IOPHYSMEM EXTPHYSMEM
  KSTACKTOP KSTKSIZE KSTKGAP MMIOLIM MMIOBASE ULIM UVPT UPAGES UENVS UTOP
  UXSTACKTOP USTACKTOP MPENTRY_PADDR GD_KT GD_KD GD_UT GD_UD GD_TSS0 : jos_consts.

(** [lia] modulo the constants of the headers. *)
Ltac jlia := autounfold with jos_consts in *; lia.

(** ** Rounding: inc/types.h *)
Definition ROUNDDOWN (a n : Z) : Z := a - a mod n.
Definition ROUNDUP (a n : Z) : Z := ROUNDDOWN (u64 (a + n - 1)) n.

(** ** Linear addresses *)
Definition PPN (pa : Z) : Z := Z.shiftr pa PTXSHIFT.
Definition VPN (la : Z) : Z := PPN la.
Definition VPD (la : Z) : Z := Z.shiftr la PDXSHIFT.
Definition VPDPE (la : Z) : Z := Z.shiftr la PDPESHIFT.
Definition VPML4E (la : Z) : Z := Z.shiftr la PML4SHIFT.
Definition PML4 (la : Z) : Z := Z.land (Z.shiftr la PML4SHIFT) 0x1FF.
Definition PDPE (la : Z) : Z := Z.land (Z.shiftr la PDPESHIFT) 0x1FF.
Definition PDX (la : Z) : Z := Z.land (Z.shiftr la PDXSHIFT) 0x1FF.
Definition PTX (la : Z) : Z := Z.land (Z.shiftr la PTXSHIFT) 0x1FF.
Definition PGOFF (la : Z) : Z := Z.land la 0xFFF.
Definition PGADDR (m p d t o : Z) : Z :=
  Z.lor (Z.lor (Z.lor (Z.lor (u64 (Z.shiftl m PML4SHIFT)) (u64 (Z.shiftl p PDPESHIFT)))
                      (u64 (Z.shiftl d PDXSHIFT)))
               (u64 (Z.shiftl t PTXSHIFT)))
        o.

(** [~0xFFF] is an [int]: converted to [physaddr_t] it keeps all high bits. *)
Definition PTE_ADDR (pte : Z) : Z := Z.land pte (u64 (Z.lnot 0xFFF)).

(** The arithmetic reading of the macros. *)
Lemma PPN_div a : PPN a = a / 4096.
Proof. apply Z.shiftr_div_pow2. done. Qed.
Lemma PML4_eq a : PML4 a = a / 549755813888 mod 512.
Proof. unfold PML4. rewrite (land_low _ 9), Z.shiftr_div_pow2 by jlia. done. Qed.
Lemma PDPE_eq a : PDPE a = a / 1073741824 mod 512.
Proof. unfold PDPE. rewrite (land_low _ 9), Z.shiftr_div_pow2 by jlia. done. Qed.
Lemma PDX_eq a : PDX a = a / 2097152 mod 512.
Proof. unfold PDX. rewrite (land_low _ 9), Z.shiftr_div_pow2 by jlia. done. Qed.
Lemma PTX_eq a : PTX a = a / 4096 mod 512.
Proof. unfold PTX. rewrite (land_low _ 9), Z.shiftr_div_pow2 by jlia. done. Qed.
Lemma PGOFF_eq a : PGOFF a = a mod 4096.
Proof. apply (land_low a 12). done. Qed.

Lemma PTE_ADDR_eq e : 0 <= e < 2 ^ 64 -> PTE_ADDR e = e - e mod 4096.
Proof. intros. apply (land_high e 12 64); lia. Qed.

Lemma PPN_PTE_ADDR e : 0 <= e < 2 ^ 64 -> PPN (PTE_ADDR e) = e / 4096.
Proof. intros. rewrite PPN_div, PTE_ADDR_eq by done. Z.div_mod_to_equations. lia. Qed.

Lemma PGADDR_eq m p d t o :
  0 <= m < 512 -> 0 <= p < 512 -> 0 <= d < 512 -> 0 <= t < 512 -> 0 <= o < 4096 ->
  PGADDR m p d t o = m * 549755813888 + p * 1073741824 + d * 2097152 + t * 4096 + o.
Proof.
  intros. unfold PGADDR. autounfold with jos_consts.
  rewrite !Z.shiftl_mul_pow2 by lia. rewrite !wrap_small by lia.
  rewrite (lor_low_add (m * 2 ^ 39) _ 39); [|lia|Z.div_mod_to_equations; lia|lia].
  rewrite (lor_low_add _ (d * 2 ^ 21) 30); [|lia|Z.div_mod_to_equations; lia|lia].
  rewrite (lor_low_add _ (t * 2 ^ 12) 21); [|lia|Z.div_mod_to_equations; lia|lia].
  rewrite (lor_low_add _ o 12); [lia|lia|Z.div_mod_to_equations; lia|lia].
Qed.

Create Rewrite HintDb jos_addr.
#[export] Hint Rewrite PPN_div PML4_eq PDPE_eq PDX_eq PTX_eq PGOFF_eq : jos_addr.

Lemma index_ranges a :
  0 <= PML4 a < 512 /\ 0 <= PDPE a < 512 /\ 0 <= PDX a < 512 /\ 0 <= PTX a < 512 /\
  0 <= PGOFF a < 4096.
Proof. autorewrite with jos_addr. repeat split; apply Z.mod_pos_bound || apply Z.mod_pos_bound; lia. Qed.

(** ** Address round trips *)

(** A linear address is determined by its five fields: PGADDR of the fields of
    [la] is [la], for every 48-bit address. *)
Theorem PGADDR_of_fields la :
  0 <= la < 2 ^ 48 ->
  PGADDR (PML4 la) (PDPE la) (PDX la) (PTX la) (PGOFF la) = la.
Proof.
  intros Hla. destruct (index_ranges la) as (?&?&?&?&?).
  rewrite PGADDR_eq by done. autorewrite with jos_addr.
  Z.div_mod_to_equations. lia.
Qed.

Lemma fields_of_PGADDR m p d t o :
  0 <= m < 512 -> 0 <= p < 512 -> 0 <= d < 512 -> 0 <= t < 512 -> 0 <= o < 4096 ->
  let la := PGADDR m p d t o in
  PML4 la = m /\ PDPE la = p /\ PDX la = d /\ PTX la = t /\ PGOFF la = o.
Proof.
  intros. subst la. rewrite PGADDR_eq by done. autorewrite with jos_addr.
  repeat split; Z.div_mod_to_equations; lia.
Qed.

Lemma VPN_of_indices a b :
  0 <= a < 2 ^ 48 -> 0 <= b < 2 ^ 48 ->
  PML4 a = PML4 b -> PDPE a = PDPE b -> PDX a = PDX b -> PTX a = PTX b ->
  VPN a = VPN b.
Proof.
  unfold VPN. autorewrite with jos_addr. intros. Z.div_mod_to_equations. lia.
Qed.

(** ** Rounding *)

Lemma ROUNDDOWN_spec a n :
  0 < n -> ROUNDDOWN a n mod n = 0 /\ ROUNDDOWN a n <= a < ROUNDDOWN a n + n.
Proof.
  intros. unfold ROUNDDOWN. split.
  - rewrite Zminus_mod_idemp_r, Z.sub_diag. apply Z.mod_0_l. lia.
  - pose proof (Z.mod_pos_bound a n). lia.
Qed.

(** ROUNDUP is the least multiple of [n] at or above [a], as long as
    [a + n - 1] does not wrap around. *)
Lemma ROUNDUP_spec a n :
  0 < n -> 0 <= a -> a + n - 1 < 2 ^ 64 ->
  ROUNDUP a n mod n = 0 /\ a <= ROUNDUP a n < a + n.
Proof.
  intros. unfold ROUNDUP. rewrite wrap_small by lia.
  destruct (ROUNDDOWN_spec (a + n - 1) n); lia.
Qed.

Lemma ROUNDUP_PGSIZE_id va :
  0 <= va < 2 ^ 64 - 4096 -> ROUNDUP va PGSIZE = va <-> va mod 4096 = 0.
Proof.
  intros. destruct (ROUNDUP_spec va PGSIZE) as [Hm Hr]; [jlia..|].
  unfold PGSIZE in *. split; [congruence|]. intros Hva.
  Z.div_mod_to_equations. lia.
Qed.
