(* ===== verification/Console.v ===== *)
(** * The console: kern/console.c

    The keyboard and serial input with its circular buffer, and the output to the
    serial port, the parallel port and the CGA text screen.

    The devices are the environment: [com1_rx] and [kbd_rx] are the bytes that
    the serial port and the keyboard controller have ready (the status port says
    "data available" as long as there are any), and [outs] is the log of [outb]
    instructions.  The waits for a ready output port end after at most 12800
    rounds whatever the port says, and change nothing else. *)
From S2P Require Import Prelude.

Definition COM1 : Z := 0x3F8.
Definition COM_TX : Z := 0.
Definition COM_FCR : Z := 2.
Definition COM_LCR : Z := 3.
Definition COM_LCR_DLAB : Z := 0x80.
Definition COM_LCR_WLEN8 : Z := 0x03.
Definition COM_DLL : Z := 0.
Definition COM_DLM : Z := 1.
Definition COM_MCR : Z := 4.
Definition COM_IER : Z := 1.
Definition COM_IER_RDI : Z := 0x01.
Definition CRT_ROWS : Z := 25.
Definition CRT_COLS : Z := 80.
Definition CRT_SIZE : Z := CRT_ROWS * CRT_COLS.
Definition CONSBUFSIZE : Z := 512.
Definition SHIFT : Z := Z.shiftl 1 0.
Definition CTL : Z := Z.shiftl 1 1.
Definition ALT : Z := Z.shiftl 1 2.
Definition CAPSLOCK : Z := Z.shiftl 1 3.
Definition NUMLOCK : Z := Z.shiftl 1 4.
Definition SCROLLLOCK : Z := Z.shiftl 1 5.
Definition E0ESC : Z := Z.shiftl 1 6.
Definition KEY_DEL : Z := 0xE9.

Record Console := mkConsole {
  cons_buf : gmap Z Z; rpos : Z; wpos : Z;
  shift : Z;                       (* the modifier state of kbd_proc_data *)
  serial_exists : bool;
  com1_rx : list Z; kbd_rx : list Z;
  crt_buf : gmap Z Z; crt_pos : Z; my_color : Z; addr_6845 : Z;
  outs : list (Z * Z)              (* latest last *)
}.
#[export] Instance Console_fields : Fields Console := fun c =>
  mkConsole (cons_buf c) (rpos c) (wpos c) (shift c) (serial_exists c) (com1_rx c)
    (kbd_rx c) (crt_buf c) (crt_pos c) (my_color c) (addr_6845 c) (outs c).

Definition outb (port data : Z) (c : Console) : Console :=
  c <| outs := outs c ++ [(port, u8 data)] |>.

(** ** Serial input *)
Definition serial_proc_data (c : Console) : Z * Console :=
  match com1_rx c with
  | [] => (-1, c)
  | b :: l => (u8 b, c <| com1_rx := l |>)
  end.

(** ** Keyboard input *)

(** A table of 256 bytes: its first entries, the entries given by index, and zero
    elsewhere. *)
Definition code_table (l : list Z) (ix : list (Z * Z)) (i : Z) : Z :=
  match list_find (fun p => p.1 = i) ix with
  | Some (_, p) => p.2
  | None => nth (Z.to_nat i) l 0
  end.

Definition shiftcode : Z -> Z :=
  code_table [] [(0x1D, CTL); (0x2A, SHIFT); (0x36, SHIFT); (0x38, ALT); (0x9D, CTL); (0xB8, ALT)].
Definition togglecode : Z -> Z :=
  code_table [] [(0x3A, CAPSLOCK); (0x45, NUMLOCK); (0x46, SCROLLLOCK)].

Definition normalmap : Z -> Z := code_table [
    0; 27; 49; 50; 51; 52; 53; 54; 55; 56; 57; 48; 45; 61; 8; 9;
    113; 119; 101; 114; 116; 121; 117; 105; 111; 112; 91; 93; 10; 0; 97; 115;
    100; 102; 103; 104; 106; 107; 108; 59; 39; 96; 0; 92; 122; 120; 99; 118;
    98; 110; 109; 44; 46; 47; 0; 42; 0; 32; 0; 0; 0; 0; 0; 0;
    0; 0; 0; 0; 0; 0; 0; 55; 56; 57; 45; 52; 53; 54; 43; 49;
    50; 51; 48; 46; 0; 0; 0; 0]
  [(156, 10); (181, 47); (199, 224); (200, 226); (201, 230); (203, 228); (205, 229); (207, 225); (208, 227); (209, 231); (210, 232); (211, 233)].

Definition shiftmap : Z -> Z := code_table [
    0; 27; 33; 64; 35; 36; 37; 94; 38; 42; 40; 41; 95; 43; 8; 9;
    81; 87; 69; 82; 84; 89; 85; 73; 79; 80; 123; 125; 10; 0; 65; 83;
    68; 70; 71; 72; 74; 75; 76; 58; 34; 126; 0; 124; 90; 88; 67; 86;
    66; 78; 77; 60; 62; 63; 0; 42; 0; 32; 0; 0; 0; 0; 0; 0;
    0; 0; 0; 0; 0; 0; 0; 55; 56; 57; 45; 52; 53; 54; 43; 49;
    50; 51; 48; 46; 0; 0; 0; 0]
  [(156, 10); (181, 47); (199, 224); (200, 226); (201, 230); (203, 228); (205, 229); (207, 225); (208, 227); (209, 231); (210, 232); (211, 233)].

Definition ctlmap : Z -> Z := code_table [
    0; 0; 0; 0; 0; 0; 0; 0; 0; 0; 0; 0; 0; 0; 0; 0;
    17; 23; 5; 18; 20; 25; 21; 9; 15; 16; 0; 0; 13; 0; 1; 19;
    4; 6; 7; 8; 10; 11; 12; 0; 0; 0; 0; 28; 26; 24; 3; 22;
    2; 14; 13; 0; 0; 239; 0; 0]
  [(151, 224); (181, 239); (200, 226); (201, 230); (203, 228); (205, 229); (207, 225); (208, 227); (209, 231); (210, 232); (211, 233)].

Definition charcode (i : Z) : Z -> Z :=
  match i with 0 => normalmap | 1 => shiftmap | _ => ctlmap end.

(** The letters change case under CAPSLOCK ('a' is 97, 'z' 122, 'A' 65, 'Z' 90). *)
Definition capslock (shift ch : Z) : Z :=
  if negb (Z.land shift CAPSLOCK =? 0) then
    if (97 <=? ch) && (ch <=? 122) then ch + (65 - 97)
    else if (65 <=? ch) && (ch <=? 90) then ch + (97 - 65)
    else ch
  else ch.

Definition kbd_proc_data (c : Console) : Z * Console :=
  match kbd_rx c with
  | [] => (-1, c)
  | data :: l =>
      let data := u8 data in
      let c := c <| kbd_rx := l |> in
      if data =? 0xE0 then (0, c <| shift := Z.lor (shift c) E0ESC |>)
      else if negb (Z.land data 0x80 =? 0) then
        let data := if negb (Z.land (shift c) E0ESC =? 0) then data else Z.land data 0x7F in
        (0, c <| shift := Z.ldiff (shift c) (Z.lor (shiftcode data) E0ESC) |>)
      else
        let '(data, sh) :=
          if negb (Z.land (shift c) E0ESC =? 0)
          then (Z.lor data 0x80, Z.ldiff (shift c) E0ESC) else (data, shift c) in
        let sh := Z.lor sh (shiftcode data) in
        let sh := Z.lxor sh (togglecode data) in
        let c := c <| shift := sh |> in
        let ch := capslock sh (charcode (Z.land sh (Z.lor CTL SHIFT)) data) in
        let c := if (Z.land (Z.lnot sh) (Z.lor CTL ALT) =? 0) && (ch =? KEY_DEL)
                 then outb 0x92 0x3 c else c in
        (ch, c)
  end.

(** ** The input buffer *)

(** One character stored by cons_intr. *)
Definition cons_store (ch : Z) (c : Console) : Console :=
  let c := c <| cons_buf := <[wpos c := u8 ch]> (cons_buf c) |> <| wpos := u32 (wpos c + 1) |> in
  if wpos c =? CONSBUFSIZE then c <| wpos := 0 |> else c.

(** [None] when the device never runs dry within the fuel. *)
Fixpoint cons_intr (fuel : nat) (proc : Console -> Z * Console) (c : Console) : option Console :=
  match fuel with
  | O => None
  | S fuel' =>
      let '(ch, c) := proc c in
      if ch =? -1 then Some c
      else if ch =? 0 then cons_intr fuel' proc c
      else cons_intr fuel' proc (cons_store ch c)
  end.

Definition serial_intr (c : Console) : option Console :=
  if serial_exists c then cons_intr (S (length (com1_rx c))) serial_proc_data c else Some c.

Definition kbd_intr (c : Console) : option Console :=
  cons_intr (S (length (kbd_rx c))) kbd_proc_data c.

(** The second half of cons_getc: take a character out of the buffer. *)
Definition cons_take (c : Console) : Z * Console :=
  if negb (rpos c =? wpos c) then
    let ch := default 0 (cons_buf c !! rpos c) in
    let c := c <| rpos := u32 (rpos c + 1) |> in
    (ch, if rpos c =? CONSBUFSIZE then c <| rpos := 0 |> else c)
  else (0, c).

Definition cons_getc (c : Console) : option (Z * Console) :=
  c ← serial_intr c;
  c ← kbd_intr c;
  Some (cons_take c).

(** ** Output *)
Definition serial_putc (ch : Z) (c : Console) : Console := outb (COM1 + COM_TX) ch c.

Definition lpt_putc (ch : Z) (c : Console) : Console :=
  outb (0x378 + 2) 0x08 (outb (0x378 + 2) (Z.lor (Z.lor 0x08 0x04) 0x01) (outb (0x378 + 0) ch c)).

Definition cga_put_color (forg_col backg_col : Z) (c : Console) : Console :=
  c <| my_color := i32 (Z.shiftl backg_col 12 + Z.shiftl forg_col 8) |>.

(** The character with its attribute. *)
Definition cga_attr (ch : Z) (c : Console) : Z :=
  let ch := Z.lor ch (my_color c) in
  if (Z.ldiff ch 0xFF =? 0) && (my_color c =? 0) then Z.lor ch 0x0700 else ch.

(** The screen moves up one line, and the last line is cleared. *)
Definition cga_scroll (m : gmap Z Z) : gmap Z Z :=
  list_to_map ((fun i => (i, if i <? CRT_SIZE - CRT_COLS then default 0 (m !! (i + CRT_COLS))
                             else Z.lor 0x0700 32)) <$> seqZ 0 CRT_SIZE) ∪ m.

Definition cga_tail (c : Console) : Console :=
  let c := if crt_pos c >=? CRT_SIZE
           then c <| crt_buf := cga_scroll (crt_buf c) |> <| crt_pos := u16 (crt_pos c - CRT_COLS) |>
           else c in
  outb (addr_6845 c + 1) (crt_pos c)
    (outb (addr_6845 c) 15
       (outb (addr_6845 c + 1) (Z.shiftr (crt_pos c) 8) (outb (addr_6845 c) 14 c))).

(** cga_putc on a character other than a tab ('\b' is 8, '\n' 10, '\r' 13). *)
Definition cga_putc_plain (ch : Z) (c : Console) : Console :=
  let ch := cga_attr ch c in
  cga_tail
    (match Z.land ch 0xff with
     | 8 =>
         if crt_pos c >? 0 then
           let c := c <| crt_pos := u16 (crt_pos c - 1) |> in
           c <| crt_buf := <[crt_pos c := u16 (Z.lor (Z.ldiff ch 0xff) 32)]> (crt_buf c) |>
         else c
     | 10 =>
         let p := u16 (crt_pos c + CRT_COLS) in
         c <| crt_pos := u16 (p - p mod CRT_COLS) |>
     | 13 => c <| crt_pos := u16 (crt_pos c - crt_pos c mod CRT_COLS) |>
     | _ =>
         c <| crt_buf := <[crt_pos c := u16 ch]> (crt_buf c) |>
           <| crt_pos := u16 (crt_pos c + 1) |>
     end).

(** cons_putc on a character other than a tab. *)
Definition cons_putc_plain (ch : Z) (c : Console) : Console :=
  cga_putc_plain ch (lpt_putc ch (serial_putc ch c)).

(** A tab is five blanks, each sent to all three devices. *)
Definition cga_putc (ch : Z) (c : Console) : Console :=
  if Z.land (cga_attr ch c) 0xff =? 9
  then cga_tail (Nat.iter 5 (cons_putc_plain 32) c)
  else cga_putc_plain ch c.

Definition cons_putc (ch : Z) (c : Console) : Console :=
  cga_putc ch (lpt_putc ch (serial_putc ch c)).

Definition cputchar (ch : Z) (c : Console) : Console := cons_putc ch c.

(** ** The input buffer is a queue

    [ring c q]: the unread characters, oldest first, are [q].  The buffer tells
    empty from full by [rpos = wpos], so it holds at most 511 characters. *)
Record ring (c : Console) (q : list Z) : Prop := {
  ring_rpos : 0 <= rpos c < 512;
  ring_len : Z.of_nat (length q) < 512;
  ring_wpos : wpos c = (rpos c + Z.of_nat (length q)) mod 512;
  ring_get : forall i ch, q !! i = Some ch -> cons_buf c !! ((rpos c + Z.of_nat i) mod 512) = Some ch
}.

Lemma ring_wpos_range c q : ring c q -> 0 <= wpos c < 512.
Proof. intros Hr. rewrite (ring_wpos _ _ Hr). by apply Z.mod_pos_bound. Qed.

(** The index after [i] in the buffer. *)
Lemma next_index i :
  0 <= i < 512 ->
  (if u32 (i + 1) =? CONSBUFSIZE then 0 else u32 (i + 1)) = (i + 1) mod 512.
Proof.
  intros Hi. rewrite wrap_small by lia. unfold CONSBUFSIZE.
  destruct (Z.eqb_spec (i + 1) 512) as [->|]; [done|]. rewrite Z.mod_small; lia.
Qed.

Lemma cons_store_eq ch c :
  0 <= wpos c < 512 ->
  cons_store ch c = c <| cons_buf := <[wpos c := u8 ch]> (cons_buf c) |>
                      <| wpos := (wpos c + 1) mod 512 |>.
Proof.
  intros Hw. rewrite <- next_index by done. unfold cons_store. cbn. by destruct (_ =? _).
Qed.

Lemma cons_store_ring c q ch :
  ring c q -> Z.of_nat (length q) < 511 -> ring (cons_store ch c) (q ++ [u8 ch]).
Proof.
  intros Hr Hl. rewrite cons_store_eq by by eapply ring_wpos_range.
  destruct Hr as [Hrp _ Hw Hg]. split; cbn.
  - done.
  - rewrite length_app. cbn. lia.
  - rewrite Hw, length_app. cbn. rewrite Zplus_mod_idemp_l. f_equal. lia.
  - intros i x. destruct (decide (i < length q)%nat) as [Hi|Hi].
    + rewrite lookup_app_l by done. intros Hx. rewrite lookup_insert_ne; [by apply Hg|].
      rewrite Hw. Z.div_mod_to_equations. lia.
    + rewrite lookup_app_r by lia. intros Hx. apply lookup_lt_Some in Hx as Hlt. cbn in Hlt.
      replace i with (length q) in * by lia. rewrite Nat.sub_diag in Hx. injection Hx as <-.
      rewrite Hw. apply lookup_insert_eq.
Qed.

(** Every byte the device has is stored, in order, but for the zeros. *)
Lemma cons_intr_serial fuel c q :
  ring c q -> (length (com1_rx c) < fuel)%nat ->
  let new := filter (fun b => b <> 0) (u8 <$> com1_rx c) in
  Z.of_nat (length (q ++ new)) < 512 ->
  exists c', cons_intr fuel serial_proc_data c = Some c' /\ ring c' (q ++ new) /\
    com1_rx c' = [] /\ kbd_rx c' = kbd_rx c.
Proof.
  cbn zeta. remember (com1_rx c) as l eqn:Hl. revert fuel c q Hl.
  induction l as [|b l IH]; intros [|fuel] c q Hl Hr Hf Hlen; simpl in Hf; try lia.
  - cbn [cons_intr]. unfold serial_proc_data. rewrite <- Hl. exists c. by rewrite app_nil_r.
  - cbn [cons_intr]. unfold serial_proc_data at 1. rewrite <- Hl.
    pose proof (wrap_range 8 b ltac:(lia)). destruct (Z.eqb_spec (u8 b) (-1)); [lia|].
    rewrite fmap_cons, filter_cons in *. destruct (Z.eqb_spec (u8 b) 0) as [E|E].
    + rewrite decide_False in * by tauto.
      destruct (IH fuel (c <| com1_rx := l |>) q) as (c' & ? & ? & ? & ?); [done| |lia|done|eauto].
      destruct Hr. by split.
    + rewrite decide_True in * by done.
      assert (ring (cons_store (u8 b) (c <| com1_rx := l |>)) (q ++ [u8 b])) as Hr'.
      { rewrite <- (wrap_small 8 (u8 b)) at 2 by done. apply cons_store_ring.
        - destruct Hr. by split.
        - rewrite length_app in Hlen. cbn in Hlen. lia. }
      rewrite cons_store_eq in * by (eapply (ring_wpos_range c), Hr).
      rewrite cons_middle, app_assoc in Hlen |- *.
      edestruct (IH fuel) as (c' & ? & ? & ? & ?); [..|eauto 10]; [done|exact Hr'|lia|done].
Qed.

Lemma cons_take_eq c :
  0 <= rpos c < 512 -> rpos c <> wpos c ->
  cons_take c = (default 0 (cons_buf c !! rpos c), c <| rpos := (rpos c + 1) mod 512 |>).
Proof.
  intros Hr Hne. rewrite <- next_index by done. unfold cons_take.
  destruct (Z.eqb_spec (rpos c) (wpos c)); [done|]. cbn. by destruct (_ =? _).
Qed.

Lemma cons_take_ring c q :
  ring c q -> (cons_take c).1 = default 0 (head q) /\ ring (cons_take c).2 (tail q).
Proof.
  intros Hr. pose proof Hr as [Hrp Hl Hw Hg]. destruct q as [|x q].
  - unfold cons_take. cbn in Hw. rewrite Z.add_0_r, Z.mod_small in Hw by done.
    destruct (Z.eqb_spec (rpos c) (wpos c)); [by split|lia].
  - rewrite cons_take_eq; [|done|cbn [length] in *; rewrite Hw; Z.div_mod_to_equations; lia].
    pose proof (Hg 0%nat x eq_refl) as H0. rewrite Z.add_0_r, Z.mod_small in H0 by done.
    rewrite H0. split; [done|].
    cbn [length] in *. split; cbn.
    + by apply Z.mod_pos_bound.
    + lia.
    + rewrite Hw, Zplus_mod_idemp_l. f_equal. lia.
    + intros i ch Hi. rewrite Zplus_mod_idemp_l. rewrite <- (Hg (S i) ch Hi). f_equal. f_equal. lia.
Qed.

(** cons_getc reads the console input in order: with nothing pending at the
    keyboard, it moves the waiting serial bytes (but for zeros) behind the unread
    characters of the buffer and returns the oldest character of all, or 0 if
    there is none, as long as they number at most 511. *)
Theorem cons_getc_fifo c q :
  ring c q -> serial_exists c = true -> kbd_rx c = [] ->
  let all := q ++ filter (fun b => b <> 0) (u8 <$> com1_rx c) in
  Z.of_nat (length all) < 512 ->
  exists c', cons_getc c = Some (default 0 (head all), c') /\ ring c' (tail all) /\ com1_rx c' = [].
Proof.
  intros Hr Hs Hk all Hl. unfold cons_getc, serial_intr. rewrite Hs.
  destruct (cons_intr_serial (S (length (com1_rx c))) c q Hr ltac:(lia) Hl) as (c1 & -> & Hr1 & Hrx & Hk1).
  cbn. unfold kbd_intr. rewrite Hk1, Hk. cbn [length cons_intr]. unfold kbd_proc_data at 1.
  rewrite Hk1, Hk. cbn. destruct (cons_take_ring c1 all Hr1) as [H1 H2].
  destruct (cons_take c1) as [ch c2] eqn:E. cbn in *. exists c2. split_and!; [by subst|done|].
  unfold cons_take in E. destruct (negb _); [|by simplify_eq].
  injection E as _ <-. cbn. by destruct (_ =? _).
Qed.

Definition demo_console : Console :=
  mkConsole ∅ 510 510 0 true [104; 0; 105] [] ∅ 0 0 0x3D4 [].

Lemma demo_console_ring : ring demo_console [].
Proof. split; cbn; [lia|lia|done|]. intros i ch Hi. by rewrite lookup_nil in Hi. Qed.

Lemma cons_getc_fifo_witness :
  exists c', cons_getc demo_console = Some (104, c') /\ ring c' [105] /\ com1_rx c' = [].
Proof.
  apply (cons_getc_fifo demo_console []).
  - exact demo_console_ring.
  - reflexivity.
  - reflexivity.
  - reflexivity.
Defined.

(** A full buffer is lost: the character that makes 512 of them unread sets
    [wpos] to [rpos], so that the buffer counts as empty. *)
Theorem cons_store_overflow c q ch :
  ring c q -> length q = 511%nat -> ring (cons_store ch c) [].
Proof.
  intros Hr Hl. rewrite cons_store_eq by by eapply ring_wpos_range.
  destruct Hr as [Hrp _ Hw _]. split; cbn; [done|lia| |].
  - rewrite Hw, Hl, Zplus_mod_idemp_l. Z.div_mod_to_equations. lia.
  - intros i x Hi. by rewrite lookup_nil in Hi.
Qed.

Definition full_console : Console :=
  mkConsole (list_to_map ((fun i => (i, 65)) <$> seqZ 0 511)) 0 511 0 true [] [] ∅ 0 0 0x3D4 [].

Lemma cons_store_overflow_witness : ring (cons_store 66 full_console) [].
Proof.
  apply (cons_store_overflow full_console (replicate 511 65)); [|reflexivity].
  split; cbn [rpos wpos cons_buf full_console]; rewrite ?length_replicate; [lia|lia|reflexivity|].
  intros i ch [-> Hi]%lookup_replicate. rewrite Z.add_0_l, Z.mod_small by lia.
  apply elem_of_list_to_map_1.
  - apply (bool_decide_unpack _). vm_compute. exact I.
  - apply list_elem_of_fmap. exists (Z.of_nat i). split; [done|]. apply elem_of_seqZ. lia.
Defined.

(** ** The screen *)

(** The cursor is on the screen, and so is everything ever written. *)
Definition on_screen (c : Console) : Prop :=
  0 <= crt_pos c < CRT_SIZE /\ (forall i, is_Some (crt_buf c !! i) -> 0 <= i < CRT_SIZE).

Lemma outb_on_screen p v c : on_screen (outb p v c) <-> on_screen c.
Proof. done. Qed.

Lemma cga_scroll_range m :
  (forall i, is_Some (m !! i) -> 0 <= i < CRT_SIZE) ->
  forall i, is_Some (cga_scroll m !! i) -> 0 <= i < CRT_SIZE.
Proof.
  intros Hm i. unfold cga_scroll. rewrite lookup_union_is_Some. intros [Hi|Hi]; [|by apply Hm].
  apply elem_of_dom in Hi. rewrite dom_list_to_map in Hi. apply elem_of_list_to_set in Hi.
  rewrite <- list_fmap_compose, list_fmap_id in Hi. apply elem_of_seqZ in Hi. lia.
Qed.

Lemma cga_tail_on_screen c :
  0 <= crt_pos c < CRT_SIZE + CRT_COLS -> (forall i, is_Some (crt_buf c !! i) -> 0 <= i < CRT_SIZE) ->
  on_screen (cga_tail c).
Proof.
  intros Hp Hb. unfold cga_tail. rewrite !outb_on_screen.
  destruct (Z.geb_spec (crt_pos c) CRT_SIZE).
  - split; cbn; [|by apply cga_scroll_range].
    unfold CRT_SIZE, CRT_ROWS, CRT_COLS in *. rewrite wrap_small; lia.
  - split; [lia|done].
Qed.

Lemma cga_putc_plain_on_screen ch c : on_screen c -> on_screen (cga_putc_plain ch c).
Proof.
  intros [Hp Hb]. unfold CRT_SIZE, CRT_ROWS, CRT_COLS in Hp. unfold cga_putc_plain.
  assert (forall i v, 0 <= i < CRT_SIZE ->
    forall j, is_Some (<[i := v]> (crt_buf c) !! j) -> 0 <= j < CRT_SIZE) as Hins.
  { intros i v Hi j [<-|[_ ?]]%lookup_insert_is_Some; auto. }
  pose proof (Z.mod_pos_bound (crt_pos c) 80).
  pose proof (Z.mod_pos_bound (crt_pos c + 80) 80).
  pose proof (Z.mod_le (crt_pos c) 80).
  apply cga_tail_on_screen.
  all: unfold CRT_SIZE, CRT_ROWS, CRT_COLS in *; repeat case_match; cbn;
    rewrite ?(wrap_small 16 (crt_pos c - 1)), ?(wrap_small 16 (crt_pos c + 1)),
      ?(wrap_small 16 (crt_pos c + 80)), ?(wrap_small 16) by lia; try done; try lia.
  all: try (apply Hins; lia).
Qed.

Lemma cons_putc_plain_on_screen ch c : on_screen c -> on_screen (cons_putc_plain ch c).
Proof. intros. by apply cga_putc_plain_on_screen. Qed.

(** Whatever is printed, the cursor stays on the 80 by 25 screen and no
    character is written outside it. *)
Theorem cons_putc_on_screen ch c : on_screen c -> on_screen (cons_putc ch c).
Proof.
  intros Hc. unfold cons_putc, cga_putc. case_match; [|by apply cga_putc_plain_on_screen].
  assert (on_screen (Nat.iter 5 (cons_putc_plain 32) (lpt_putc ch (serial_putc ch c)))) as [? ?].
  { apply Nat.iter_invariant; [intros; by apply cons_putc_plain_on_screen|done]. }
  apply cga_tail_on_screen; [unfold CRT_COLS; lia|done].
Qed.

Lemma cons_putc_on_screen_witness : on_screen (cons_putc 10 (demo_console <| crt_pos := 1999 |>)).
Proof.
  apply (cons_putc_on_screen 10 (demo_console <| crt_pos := 1999 |>)).
  split; [cbn; unfold CRT_SIZE, CRT_ROWS, CRT_COLS; lia|]. intros i [x Hx]. cbn in Hx.
  rewrite lookup_empty in Hx. discriminate Hx.
Defined.
