(* ===== verification/CMem.v ===== *)
(** * Byte memory and the block routines of lib/string.c

    A memory is a finite map from byte addresses to bytes.  Loads and stores of
    wider integers are little-endian.  [memset], [memmove] and [memcpy] are the
    assembly versions the build selects ([#define ASM 1]): the [rep stosl],
    [rep stosb], [rep movsl] and [rep movsb] instructions are the loops that the
    processor runs, with the direction flag chosen by [cld] and [std]. *)
From S2P Require Import Prelude Mmu.

Abbreviation bytes := (gmap Z Z).

Definition ld8 (m : bytes) (a : Z) : Z := u8 (default 0 (m !! a)).
Definition st8 (m : bytes) (a v : Z) : bytes := <[a := u8 v]> m.

(** [n]-byte little-endian accesses. *)
Fixpoint ld (n : nat) (m : bytes) (a : Z) : Z :=
  match n with
  | O => 0
  | S n' => ld8 m a + 256 * ld n' m (a + 1)
  end.

Fixpoint st (n : nat) (m : bytes) (a v : Z) : bytes :=
  match n with
  | O => m
  | S n' => st n' (st8 m a v) (a + 1) (v / 256)
  end.

Abbreviation ld32 := (ld 4).
Abbreviation ld64 := (ld 8).
Abbreviation st32 := (st 4).
Abbreviation st64 := (st 8).

(** ** The string instructions *)
Fixpoint rep_stosb (k : nat) (m : bytes) (di al : Z) : bytes :=
  match k with
  | O => m
  | S k' => rep_stosb k' (st8 m di al) (di + 1) al
  end.

Fixpoint rep_stosl (k : nat) (m : bytes) (di eax : Z) : bytes :=
  match k with
  | O => m
  | S k' => rep_stosl k' (st32 m di eax) (di + 4) eax
  end.

(** [dir] is 1 after [cld] and -1 after [std]. *)
Fixpoint rep_movsb (dir : Z) (k : nat) (m : bytes) (di si : Z) : bytes :=
  match k with
  | O => m
  | S k' => rep_movsb dir k' (st8 m di (ld8 m si)) (di + dir) (si + dir)
  end.

Fixpoint rep_movsl (dir : Z) (k : nat) (m : bytes) (di si : Z) : bytes :=
  match k with
  | O => m
  | S k' => rep_movsl dir k' (st32 m di (ld32 m si)) (di + 4 * dir) (si + 4 * dir)
  end.

(** ** memset, memmove, memcpy *)
Definition memset (m : bytes) (v c n : Z) : bytes :=
  if n =? 0 then m
  else if (v mod 4 =? 0) && (n mod 4 =? 0) then
    let c := Z.land c 0xFF in
    let c := Z.lor (Z.lor (Z.lor (Z.shiftl c 24) (Z.shiftl c 16)) (Z.shiftl c 8)) c in
    rep_stosl (Z.to_nat (n / 4)) m v (u32 c)
  else
    rep_stosb (Z.to_nat n) m v (u8 c).

Definition memmove (m : bytes) (dst src n : Z) : bytes :=
  let s := src in
  let d := dst in
  if (s <? d) && (s + n >? d) then
    let s := s + n in
    let d := d + n in
    if (s mod 4 =? 0) && (d mod 4 =? 0) && (n mod 4 =? 0)
    then rep_movsl (-1) (Z.to_nat (n / 4)) m (d - 4) (s - 4)
    else rep_movsb (-1) (Z.to_nat n) m (d - 1) (s - 1)
  else
    if (s mod 4 =? 0) && (d mod 4 =? 0) && (n mod 4 =? 0)
    then rep_movsl 1 (Z.to_nat (n / 4)) m d s
    else rep_movsb 1 (Z.to_nat n) m d s.

Definition memcpy (m : bytes) (dst src n : Z) : bytes := memmove m dst src n.

(** ** Loads after stores *)

Lemma ld8_range m a : 0 <= ld8 m a < 256.
Proof. apply (wrap_range 8). lia. Qed.

Lemma ld8_st8 m a b v : ld8 (st8 m a v) b = if decide (a = b) then u8 v else ld8 m b.
Proof.
  unfold ld8, st8. destruct (decide (a = b)) as [<-|].
  - rewrite lookup_insert_eq. simpl. unfold wrap. rewrite Z.mod_mod by lia. done.
  - by rewrite lookup_insert_ne by done.
Qed.

Lemma ld_range n m a : 0 <= ld n m a < 256 ^ Z.of_nat n.
Proof.
  revert a. induction n as [|n IH]; intros a; [simpl; lia|].
  cbn [ld]. rewrite Nat2Z.inj_succ, Z.pow_succ_r by lia.
  specialize (IH (a + 1)). pose proof (ld8_range m a). lia.
Qed.

Lemma ld64_range m a : 0 <= ld64 m a < 2 ^ 64.
Proof. apply (ld_range 8). Qed.

Lemma ld8_st n m a v b :
  ld8 (st n m a v) b =
  if decide (a <= b < a + Z.of_nat n) then u8 (v / 256 ^ (b - a)) else ld8 m b.
Proof.
  revert m a v. induction n as [|n IH]; intros m a v.
  - rewrite decide_False by lia. done.
  - cbn [st]. rewrite IH, ld8_st8.
    destruct (decide (a = b)) as [->|Hne].
    + rewrite decide_False by lia. rewrite decide_True by lia.
      rewrite Z.sub_diag, Z.pow_0_r, Z.div_1_r. done.
    + case_decide as Hin.
      * rewrite decide_True by lia. f_equal.
        replace (b - a) with (Z.succ (b - (a + 1))) by lia.
        rewrite Z.pow_succ_r, Z.div_div by lia. done.
      * rewrite decide_False by lia. done.
Qed.

Lemma ld_ext n m m' a :
  (forall b, a <= b < a + Z.of_nat n -> ld8 m b = ld8 m' b) -> ld n m a = ld n m' a.
Proof.
  revert a. induction n as [|n IH]; intros a H; [done|].
  cbn [ld]. rewrite (H a) by lia. f_equal. f_equal. apply IH. intros. apply H. lia.
Qed.

Lemma ld_st_ne n k m a b v :
  a + Z.of_nat n <= b \/ b + Z.of_nat k <= a -> ld k (st n m a v) b = ld k m b.
Proof. intros. apply ld_ext. intros. rewrite ld8_st, decide_False by lia. done. Qed.

Lemma ld_st_eq n m a v :
  ld n (st n m a v) a = v mod 256 ^ Z.of_nat n.
Proof.
  revert m a v. induction n as [|n IH]; intros m a v.
  - simpl. by rewrite Z.mod_1_r.
  - cbn [ld st]. rewrite IH, ld8_st, decide_False, ld8_st8, decide_True by lia.
    rewrite Nat2Z.inj_succ, Z.pow_succ_r, Z.rem_mul_r by lia. unfold wrap. done.
Qed.

(** A 64-bit load returns the last 64-bit value stored at the address. *)
Lemma ld64_st64 m a v : 0 <= v < 2 ^ 64 -> ld64 (st64 m a v) a = v.
Proof. intros. rewrite ld_st_eq. apply Z.mod_small. simpl. lia. Qed.

Lemma ld64_st64_ne m a b v : a + 8 <= b \/ b + 8 <= a -> ld64 (st64 m a v) b = ld64 m b.
Proof. intros. apply ld_st_ne. lia. Qed.

Lemma ld_empty n a : ld n ∅ a = 0.
Proof. revert a. induction n as [|n IH]; intros a; [done|]. cbn [ld]. by rewrite IH. Qed.

Lemma ld_zero n m a b : ld n m a = 0 -> a <= b < a + Z.of_nat n -> ld8 m b = 0.
Proof.
  revert a. induction n as [|n IH]; intros a H Hb; [lia|].
  cbn [ld] in H. pose proof (ld8_range m a). pose proof (ld_range n m (a + 1)).
  destruct (decide (a = b)) as [->|]; [lia|]. apply (IH (a + 1)); lia.
Qed.

(** ** memset *)

(** [ld8_eq m m']: the two memories hold the same bytes.  The map is finer than
    the contents it stands for (an absent byte reads as zero), so states that
    differ only in that are related by this equivalence. *)
Definition ld8_eq (m m' : bytes) : Prop := forall a, ld8 m a = ld8 m' a.

#[export] Instance ld8_eq_equiv : Equivalence ld8_eq.
Proof.
  unfold ld8_eq. split.
  - done.
  - intros m m' H a. by rewrite H.
  - intros m1 m2 m3 H H' a. by rewrite H.
Qed.

#[export] Instance ld_proper n : Proper (ld8_eq ==> eq ==> eq) (ld n).
Proof. intros m m' Hm a ? <-. apply ld_ext. auto. Qed.

Lemma ld8_rep_stosb k m di al a :
  ld8 (rep_stosb k m di al) a =
  if decide (di <= a < di + Z.of_nat k) then u8 al else ld8 m a.
Proof.
  revert m di. induction k as [|k IH]; intros m di.
  - rewrite decide_False by lia. done.
  - cbn [rep_stosb]. rewrite IH, ld8_st8. repeat case_decide; try done; lia.
Qed.

(** The 32-bit pattern memset builds repeats its low byte. *)
Lemma memset_pattern c :
  0 <= c < 256 ->
  u32 (Z.lor (Z.lor (Z.lor (Z.shiftl c 24) (Z.shiftl c 16)) (Z.shiftl c 8)) c)
  = c * 0x01010101.
Proof.
  intros. rewrite !Z.shiftl_mul_pow2 by lia.
  rewrite (lor_low_add (c * 2 ^ 24) _ 24); [|lia|Z.div_mod_to_equations; lia|lia].
  rewrite (lor_low_add _ (c * 2 ^ 8) 16); [|lia|Z.div_mod_to_equations; lia|lia].
  rewrite (lor_low_add _ c 8); [|lia|Z.div_mod_to_equations; lia|lia].
  rewrite wrap_small by lia. lia.
Qed.

Lemma ld8_rep_stosl k m di c a :
  0 <= c < 256 ->
  ld8 (rep_stosl k m di (c * 0x01010101)) a =
  if decide (di <= a < di + 4 * Z.of_nat k) then c else ld8 m a.
Proof.
  intros Hc. revert m di. induction k as [|k IH]; intros m di.
  - rewrite decide_False by lia. done.
  - cbn [rep_stosl]. rewrite IH, ld8_st.
    repeat case_decide; try done; try lia.
    assert (a - di = 0 \/ a - di = 1 \/ a - di = 2 \/ a - di = 3) as Hd by lia.
    unfold wrap.
    destruct Hd as [-> | [-> | [-> | ->]]]; Z.div_mod_to_equations; lia.
Qed.

(** memset writes the byte [c] to the [n] bytes from [v] and nothing else,
    whichever of the two instruction loops it takes. *)
Lemma ld8_memset m v c n a :
  0 <= n ->
  ld8 (memset m v c n) a = if decide (v <= a < v + n) then u8 c else ld8 m a.
Proof.
  intros Hn. unfold memset. destruct (Z.eqb_spec n 0) as [->|Hn0].
  { rewrite decide_False by lia. done. }
  destruct (_ && _) eqn:Hal.
  - apply andb_true_iff in Hal as [_ Hn4%Z.eqb_eq].
    assert (Z.land c 0xFF = u8 c) as -> by apply (land_low c 8 ltac:(lia)).
    rewrite memset_pattern, ld8_rep_stosl by (apply (wrap_range 8); lia).
    replace (4 * Z.of_nat (Z.to_nat (n / 4))) with n; [done|].
    Z.div_mod_to_equations. lia.
  - rewrite ld8_rep_stosb, Z2Nat.id by lia.
    case_decide; [|done]. unfold wrap. rewrite Z.mod_mod by lia. done.
Qed.

Lemma ld64_memset_0 m v n a :
  0 <= n -> v <= a -> a + 8 <= v + n -> ld64 (memset m v 0 n) a = 0.
Proof.
  intros. assert (forall i, a <= i < a + 8 -> ld8 (memset m v 0 n) i = 0) as Hz.
  { intros. rewrite ld8_memset, decide_True by lia. done. }
  cbn [ld]. rewrite !Hz by lia. done.
Qed.

Lemma ld_memset_ne k m v c n a :
  0 <= n -> v + n <= a \/ a + Z.of_nat k <= v -> ld k (memset m v c n) a = ld k m a.
Proof. intros. apply ld_ext. intros. rewrite ld8_memset, decide_False by lia. done. Qed.

(** ** memmove *)

(** [copied m m' d s n]: [m'] is [m] with the [n] bytes at [s] copied to [d],
    all read before any is written. *)
Definition copied (m m' : bytes) (d s n : Z) : Prop :=
  forall a, ld8 m' a = if decide (d <= a < d + n) then ld8 m (s + (a - d)) else ld8 m a.

Lemma copied_word m d s : copied m (st32 m d (ld32 m s)) d s 4.
Proof.
  intros a. rewrite ld8_st. case_decide; [|rewrite decide_False by lia; done].
  rewrite decide_True by lia. cbn [ld].
  pose proof (ld8_range m s). pose proof (ld8_range m (s + 1)).
  pose proof (ld8_range m (s + 1 + 1)). pose proof (ld8_range m (s + 1 + 1 + 1)).
  assert (a - d = 0 \/ a - d = 1 \/ a - d = 2 \/ a - d = 3) as Hd by lia.
  unfold wrap.
  destruct Hd as [-> | [-> | [-> | ->]]];
    [replace (s + 0) with s by lia | replace (s + 1) with (s + 1) by lia
    |replace (s + 2) with (s + 1 + 1) by lia |replace (s + 3) with (s + 1 + 1 + 1) by lia];
    Z.div_mod_to_equations; lia.
Qed.

Lemma copied_byte m d s : copied m (st8 m d (ld8 m s)) d s 1.
Proof.
  intros a. rewrite ld8_st8. pose proof (ld8_range m s).
  case_decide as Ha; [subst|].
  - rewrite decide_True by lia. replace (s + (a - a)) with s by lia.
    by rewrite wrap_small by lia.
  - rewrite decide_False by lia. done.
Qed.

(** Copying a first chunk of [w] bytes and then the rest, going up: right when
    the chunk does not overwrite bytes still to be read. *)
Lemma copied_up m m1 m2 d s w n :
  0 <= w -> 0 <= n -> d <= s \/ s + w + n <= d ->
  copied m m1 d s w -> copied m1 m2 (d + w) (s + w) n -> copied m m2 d s (w + n).
Proof.
  intros ??? H1 H2 a. rewrite H2. repeat case_decide; try lia; rewrite H1.
  - rewrite decide_False by lia. f_equal. lia.
  - rewrite decide_True by lia. done.
  - rewrite decide_False by lia. done.
Qed.

(** The same going down. *)
Lemma copied_down m m1 m2 d s w n :
  0 <= w -> 0 <= n -> s <= d ->
  copied m m1 (d + n) (s + n) w -> copied m1 m2 d s n -> copied m m2 d s (n + w).
Proof.
  intros ??? H1 H2 a. rewrite H2. repeat case_decide; try lia; rewrite H1.
  - rewrite decide_False by lia. done.
  - rewrite decide_True by lia. f_equal. lia.
  - rewrite decide_False by lia. done.
Qed.

Lemma copied_nil m d s : copied m m d s 0.
Proof. intros a. rewrite decide_False by lia. done. Qed.

Lemma copied_movsb_up k m d s :
  d <= s \/ s + Z.of_nat k <= d -> copied m (rep_movsb 1 k m d s) d s (Z.of_nat k).
Proof.
  revert m d s. induction k as [|k IH]; intros m d s Hds; [apply copied_nil|].
  replace (Z.of_nat (S k)) with (1 + Z.of_nat k) by lia.
  eapply copied_up; [lia..|apply copied_byte|apply IH; lia].
Qed.

Lemma copied_movsl_up k m d s :
  d <= s \/ s + 4 * Z.of_nat k <= d -> copied m (rep_movsl 1 k m d s) d s (4 * Z.of_nat k).
Proof.
  revert m d s. induction k as [|k IH]; intros m d s Hds; [apply copied_nil|].
  replace (4 * Z.of_nat (S k)) with (4 + 4 * Z.of_nat k) by lia.
  eapply copied_up; [lia..|apply copied_word|apply IH; lia].
Qed.

Lemma copied_movsb_down k m d s :
  s <= d ->
  copied m (rep_movsb (-1) k m (d + Z.of_nat k - 1) (s + Z.of_nat k - 1)) d s (Z.of_nat k).
Proof.
  revert m. induction k as [|k IH]; intros m Hds; [apply copied_nil|].
  replace (Z.of_nat (S k)) with (Z.of_nat k + 1) by lia. cbn [rep_movsb].
  replace (d + (Z.of_nat k + 1) - 1) with (d + Z.of_nat k) by lia.
  replace (s + (Z.of_nat k + 1) - 1) with (s + Z.of_nat k) by lia.
  eapply copied_down; [lia..|apply copied_byte|by apply IH].
Qed.

Lemma copied_movsl_down k m d s :
  s <= d ->
  copied m (rep_movsl (-1) k m (d + 4 * Z.of_nat k - 4) (s + 4 * Z.of_nat k - 4)) d s
         (4 * Z.of_nat k).
Proof.
  revert m. induction k as [|k IH]; intros m Hds; [apply copied_nil|].
  replace (4 * Z.of_nat (S k)) with (4 * Z.of_nat k + 4) by lia. cbn [rep_movsl].
  replace (d + (4 * Z.of_nat k + 4) - 4) with (d + 4 * Z.of_nat k) by lia.
  replace (s + (4 * Z.of_nat k + 4) - 4) with (s + 4 * Z.of_nat k) by lia.
  eapply copied_down; [lia..|apply copied_word|by apply IH].
Qed.

(** memmove copies [n] bytes as if through a temporary buffer, whatever the
    overlap of source and destination and whichever of its four instruction
    loops it takes. *)
Theorem memmove_copies m dst src n :
  0 <= n -> copied m (memmove m dst src n) dst src n.
Proof.
  intros Hn. unfold memmove. cbv zeta.
  assert (n mod 4 = 0 -> 4 * Z.of_nat (Z.to_nat (n / 4)) = n) as H4
    by (intros; Z.div_mod_to_equations; lia).
  destruct ((src <? dst) && (src + n >? dst)) eqn:Hov.
  - apply andb_true_iff in Hov as [Hlt%Z.ltb_lt Hgt]. rewrite Z.gtb_ltb in Hgt.
    apply Z.ltb_lt in Hgt. destruct (_ && (n mod 4 =? 0)) eqn:Hal.
    + apply andb_true_iff in Hal as [_ Hn4%Z.eqb_eq]. specialize (H4 Hn4).
      pose proof (copied_movsl_down (Z.to_nat (n / 4)) m dst src ltac:(lia)) as Hc.
      by rewrite H4 in Hc.
    + pose proof (copied_movsb_down (Z.to_nat n) m dst src ltac:(lia)) as Hc.
      by rewrite Z2Nat.id in Hc by done.
  - assert (dst <= src \/ src + n <= dst) as Hor.
    { rewrite andb_false_iff, Z.ltb_ge, Z.gtb_ltb, Z.ltb_ge in Hov. lia. }
    destruct (_ && (n mod 4 =? 0)) eqn:Hal.
    + apply andb_true_iff in Hal as [_ Hn4%Z.eqb_eq]. specialize (H4 Hn4).
      pose proof (copied_movsl_up (Z.to_nat (n / 4)) m dst src ltac:(lia)) as Hc.
      by rewrite H4 in Hc.
    + pose proof (copied_movsb_up (Z.to_nat n) m dst src ltac:(lia)) as Hc.
      by rewrite Z2Nat.id in Hc by done.
Qed.

(** ** Lists of bytes *)
Fixpoint st_list (m : bytes) (a : Z) (l : list Z) : bytes :=
  match l with
  | [] => m
  | c :: l' => st_list (st8 m a c) (a + 1) l'
  end.

Lemma ld8_st_list l : forall m a b,
  Forall (fun c => 0 <= c < 256) l ->
  ld8 (st_list m a l) b = if decide (a <= b < a + Z.of_nat (length l)) then default 0 (l !! Z.to_nat (b - a)) else ld8 m b.
Proof.
  induction l as [|c l IH]; intros m a b Hl; [rewrite decide_False by (simpl; lia); done|].
  inversion_clear Hl as [|? ? Hc Hl']. cbn [st_list length]. rewrite IH, ld8_st8 by done.
  rewrite Nat2Z.inj_succ. destruct (decide (a = b)) as [->|Hne].
  - rewrite decide_False, decide_True, Z.sub_diag by lia. simpl. by apply wrap_small.
  - destruct (decide (a + 1 <= b < a + 1 + Z.of_nat (length l))).
    + rewrite decide_True by lia. replace (Z.to_nat (b - a)) with (S (Z.to_nat (b - (a + 1)))) by lia. done.
    + by rewrite decide_False by lia.
Qed.

#[global] Arguments ld : simpl never.
#[global] Arguments st : simpl never.
#[global] Arguments memset : simpl never.
#[global] Arguments memmove : simpl never.
