(* ===== verification/Str.v ===== *)
(** * Strings: the rest of lib/string.c

    Strings are in a byte memory and end with a zero byte.  A loop that looks for
    the end of a string gets fuel; [str_at m p l] says that the string [l] is at [p],
    and with it fuel longer than the string is enough.  [char] is signed, and the
    comparisons are of unsigned bytes. *)
From S2P Require Import Prelude Mmu CMem.

Definition schar (b : Z) : Z := swrap 8 b.

Fixpoint strlen_loop (fuel : nat) (m : bytes) (s n : Z) : option Z :=
  match fuel with
  | O => None
  | S fuel' => if ld8 m s =? 0 then Some n else strlen_loop fuel' m (s + 1) (i32 (n + 1))
  end.
Definition strlen (fuel : nat) (m : bytes) (s : Z) : option Z := strlen_loop fuel m s 0.

(** [size] is a [size_t]; the loop ends with the string or after [size] rounds. *)
Fixpoint strnlen_loop (fuel : nat) (m : bytes) (s size n : Z) : option Z :=
  match fuel with
  | O => None
  | S fuel' =>
      if (0 <? size) && negb (ld8 m s =? 0) then strnlen_loop fuel' m (s + 1) (size - 1) (i32 (n + 1))
      else Some n
  end.
Definition strnlen (fuel : nat) (m : bytes) (s size : Z) : option Z := strnlen_loop fuel m s (u64 size) 0.

Fixpoint strcpy (fuel : nat) (m : bytes) (dst src : Z) : option bytes :=
  match fuel with
  | O => None
  | S fuel' =>
      let c := ld8 m src in
      let m := st8 m dst c in
      if c =? 0 then Some m else strcpy fuel' m (dst + 1) (src + 1)
  end.

Definition strcat (fuel : nat) (m : bytes) (dst src : Z) : option bytes :=
  len ← strlen fuel m dst; strcpy fuel m (dst + len) src.

Fixpoint strncpy (size : nat) (m : bytes) (dst src : Z) : bytes :=
  match size with
  | O => m
  | S k =>
      let m := st8 m dst (ld8 m src) in
      strncpy k m (dst + 1) (if ld8 m src =? 0 then src else src + 1)
  end.

(** The loop of strlcpy, with [size] already decremented, up to the final zero; the
    result is the memory and the end of the copy. *)
Fixpoint strlcpy_loop (size : nat) (m : bytes) (dst src : Z) : bytes * Z :=
  match size with
  | O => (st8 m dst 0, dst)
  | S k =>
      if ld8 m src =? 0 then (st8 m dst 0, dst)
      else strlcpy_loop k (st8 m dst (ld8 m src)) (dst + 1) (src + 1)
  end.
Definition strlcpy (m : bytes) (dst src size : Z) : bytes * Z :=
  if 0 <? size then
    let '(m', e) := strlcpy_loop (Z.to_nat (size - 1)) m dst src in (m', e - dst)
  else (m, 0).

Fixpoint strcmp (fuel : nat) (m : bytes) (p q : Z) : option Z :=
  match fuel with
  | O => None
  | S fuel' =>
      if negb (ld8 m p =? 0) && (ld8 m p =? ld8 m q) then strcmp fuel' m (p + 1) (q + 1)
      else Some (ld8 m p - ld8 m q)
  end.

Fixpoint strncmp (n : nat) (m : bytes) (p q : Z) : Z :=
  match n with
  | O => 0
  | S k =>
      if negb (ld8 m p =? 0) && (ld8 m p =? ld8 m q) then strncmp k m (p + 1) (q + 1)
      else ld8 m p - ld8 m q
  end.

(** The result of strchr is [Some None] for a null pointer. *)
Fixpoint strchr (fuel : nat) (m : bytes) (s c : Z) : option (option Z) :=
  match fuel with
  | O => None
  | S fuel' =>
      if ld8 m s =? 0 then Some None
      else if schar (ld8 m s) =? schar c then Some (Some s)
      else strchr fuel' m (s + 1) c
  end.

Fixpoint strfind (fuel : nat) (m : bytes) (s c : Z) : option Z :=
  match fuel with
  | O => None
  | S fuel' =>
      if (ld8 m s =? 0) || (schar (ld8 m s) =? schar c) then Some s
      else strfind fuel' m (s + 1) c
  end.

Fixpoint memcmp (n : nat) (m : bytes) (s1 s2 : Z) : Z :=
  match n with
  | O => 0
  | S k => if ld8 m s1 =? ld8 m s2 then memcmp k m (s1 + 1) (s2 + 1) else ld8 m s1 - ld8 m s2
  end.

Fixpoint memfind (n : nat) (m : bytes) (s c : Z) : Z :=
  match n with
  | O => s
  | S k => if ld8 m s =? u8 c then s else memfind k m (s + 1) c
  end.

(** ** strtol, on the characters of a string

    The result is the value and what is left of the string, where [*endptr]
    points.  [val] is a [long]. *)
Abbreviation i64 := (swrap 64).

Fixpoint skip_blanks (s : list Z) : list Z :=
  match s with
  | c :: s' => if (c =? 0x20) || (c =? 0x09) then skip_blanks s' else s
  | [] => []
  end.

Definition digit_of (c : Z) : option Z :=
  if (0x30 <=? c) && (c <=? 0x39) then Some (c - 0x30)
  else if (0x61 <=? c) && (c <=? 0x7a) then Some (c - 0x61 + 10)
  else if (0x41 <=? c) && (c <=? 0x5a) then Some (c - 0x41 + 10)
  else None.

Fixpoint strtol_digits (s : list Z) (base val : Z) : Z * list Z :=
  match s with
  | c :: s' =>
      match digit_of c with
      | Some dig => if dig >=? base then (val, s) else strtol_digits s' base (i64 (i64 (val * base) + dig))
      | None => (val, s)
      end
  | [] => (val, [])
  end.

Definition strtol_prefix (s : list Z) (base : Z) : list Z * Z :=
  match s with
  | 0x30 :: 0x78 :: s' => if (base =? 0) || (base =? 16) then (s', 16)
                          else (s, base)
  | 0x30 :: s' => if base =? 0 then (s', 8) else (s, base)
  | _ => if base =? 0 then (s, 10) else (s, base)
  end.

Definition strtol (s : list Z) (base : Z) : Z * list Z :=
  let s := skip_blanks s in
  let '(s, neg) := match s with
                   | 0x2b :: s' => (s', false)
                   | 0x2d :: s' => (s', true)
                   | _ => (s, false)
                   end in
  let '(s, base) := strtol_prefix s base in
  let '(val, rest) := strtol_digits s base 0 in
  (if neg then i64 (- val) else val, rest).

(** ** Strings in memory *)
Fixpoint str_at (m : bytes) (p : Z) (l : list Z) : Prop :=
  match l with
  | [] => ld8 m p = 0
  | c :: l' => ld8 m p = c /\ c <> 0 /\ str_at m (p + 1) l'
  end.

Lemma str_at_ext m m' p l :
  (forall a, p <= a <= p + Z.of_nat (length l) -> ld8 m' a = ld8 m a) -> str_at m p l -> str_at m' p l.
Proof.
  revert p. induction l as [|c l IH]; intros p H; cbn [str_at length] in *; [by rewrite H by lia|].
  rewrite H by lia. intros (? & ? & ?). split_and!; [done..|]. apply IH; [|done]. intros a Ha. apply H. lia.
Qed.

Lemma strlen_ok fuel m s l :
  str_at m s l -> (length l < fuel)%nat -> Z.of_nat (length l) < 2 ^ 31 ->
  strlen fuel m s = Some (Z.of_nat (length l)).
Proof.
  intros Hs Hf Hl. unfold strlen.
  assert (forall n, 0 <= n -> n + Z.of_nat (length l) < 2 ^ 31 ->
    strlen_loop fuel m s n = Some (n + Z.of_nat (length l))) as H; [|rewrite H; [f_equal|..]; lia].
  clear Hl. revert s l Hs Hf. induction fuel as [|fuel IH]; intros s l Hs Hf n Hn Hl; [lia|]. cbn [strlen_loop].
  destruct l as [|c l]; cbn [str_at length] in *.
  - rewrite Hs. cbn. f_equal. lia.
  - destruct Hs as (-> & Hc & Hs). destruct (Z.eqb_spec c 0); [done|].
    rewrite swrap_small by lia. rewrite (IH (s + 1) l Hs) by lia. f_equal. lia.
Qed.

(** strcmp tells equal strings from different ones. *)
Lemma strcmp_ok fuel m p q l1 l2 :
  str_at m p l1 -> str_at m q l2 -> (length l1 < fuel)%nat ->
  exists r, strcmp fuel m p q = Some r /\ (r = 0 <-> l1 = l2).
Proof.
  revert p q l1 l2. induction fuel as [|fuel IH]; intros p q l1 l2 H1 H2 Hf; [lia|]. cbn [strcmp].
  destruct l1 as [|c1 l1], l2 as [|c2 l2]; cbn [str_at length] in *.
  - rewrite H1, H2. cbn. exists 0. done.
  - destruct H2 as (-> & Hc & _). rewrite H1. cbn. eexists. split; [done|]. split; [lia|done].
  - destruct H1 as (-> & Hc & _). rewrite H2. destruct (Z.eqb_spec c1 0); [done|]. cbn.
    eexists. split; [done|]. split; [lia|done].
  - destruct H1 as (-> & Hc1 & H1), H2 as (-> & Hc2 & H2). destruct (Z.eqb_spec c1 0); [done|]. cbn [negb andb].
    destruct (Z.eqb_spec c1 c2) as [->|Hne].
    + destruct (IH _ _ l1 l2 H1 H2 ltac:(lia)) as (r & -> & Hr). exists r. split; [done|]. rewrite Hr. split; congruence.
    + eexists. split; [done|]. split; [lia|congruence].
Qed.

(** strlcpy copies what fits, always ends the copy, and writes nowhere else. *)
Lemma strlcpy_loop_ok l : forall size m dst src,
  str_at m src l -> src + Z.of_nat (length l) < dst \/ dst + Z.of_nat size < src ->
  let k := Nat.min (length l) size in
  exists m', strlcpy_loop size m dst src = (m', dst + Z.of_nat k) /\ str_at m' dst (take k l) /\
    forall a, ~ (dst <= a <= dst + Z.of_nat size) -> ld8 m' a = ld8 m a.
Proof.
  induction l as [|c l IH]; intros size m dst src Hs Hd k; cbn [str_at length] in *.
  - assert (strlcpy_loop size m dst src = (st8 m dst 0, dst)) as -> by (destruct size; cbn; by rewrite ?Hs).
    eexists. split; [f_equal; unfold k; lia|]. split; [cbn; by rewrite ld8_st8, decide_True|].
    intros a Ha. by rewrite ld8_st8, decide_False by lia.
  - destruct Hs as (Hc & Hc0 & Hs). destruct size as [|size]; cbn [strlcpy_loop].
    { eexists. split; [f_equal; unfold k; lia|]. split; [cbn; by rewrite ld8_st8, decide_True|].
      intros a Ha. by rewrite ld8_st8, decide_False by lia. }
    rewrite Hc. destruct (Z.eqb_spec c 0); [done|].
    destruct (IH size (st8 m dst c) (dst + 1) (src + 1)) as (m' & -> & Hs' & Hf).
    { eapply str_at_ext, Hs. intros a Ha. rewrite ld8_st8, decide_False; [done|]. lia. }
    { lia. }
    exists m'. split; [f_equal; unfold k; cbn [Nat.min]; lia|]. split.
    + unfold k. cbn [Nat.min take str_at]. split_and!; [|done|done].
      rewrite Hf by lia. rewrite ld8_st8, decide_True by done. rewrite wrap_small; [done|].
      rewrite <- Hc. apply ld8_range.
    + intros a Ha. rewrite Hf by lia. by rewrite ld8_st8, decide_False by lia.
Qed.
