(* ===== verification/Printfmt.v ===== *)
(** * Formatted output: lib/printfmt.c, kern/printf.c, lib/printf.c

    [putch] and its data are a function on a state [T], as the code takes a function
    and a pointer.  A format is the list of its characters without the final zero.
    The variable arguments are integers or strings: [VS None] is a null pointer; an
    argument that is missing or of the wrong kind is undefined behaviour, [None]. *)
From S2P Require Import Prelude Mmu CMem Str.

Inductive va := VI (z : Z) | VS (s : option (list Z)).

(** Characters. *)
Export String.StringSyntax.
Definition chars (s : String.string) : list Z :=
  List.map (fun a => Z.of_N (Ascii.N_of_ascii a)) (String.list_ascii_of_string s).
#[global] Arguments chars s%_string_scope.
Definition newline : list Z := [0x0a].
Definition MAXERROR : Z := 19.

Section strings.
Import String.
Local Open Scope string_scope.
Definition error_string (e : Z) : option (list Z) :=
  option_map chars
    match e with
    | 1%Z => Some "unspecified error"
    | 2%Z => Some "bad environment"
    | 3%Z => Some "invalid parameter"
    | 4%Z => Some "out of memory"
    | 5%Z => Some "out of environments"
    | 6%Z => Some "segmentation fault"
    | 7%Z => Some "env is not recving"
    | 8%Z => Some "unexpected end of file"
    | 9%Z => Some "no free space on disk"
    | 10%Z => Some "too many files are open"
    | 11%Z => Some "file or block not found"
    | 12%Z => Some "invalid path"
    | 13%Z => Some "file already exists"
    | 14%Z => Some "file is not a valid executable"
    | 15%Z => Some "operation not supported"
    | _ => None
    end.
Definition null_text : list Z := chars "(null)".
Definition error_text : list Z := chars "error ".
End strings.

Definition is_digit (c : Z) : bool := (0x30 <=? c) && (c <=? 0x39).

(** The flags of an escape sequence. *)
Record Flags := mkFlags { padc : Z; width : Z; precision : Z; lflag : Z; altflag : bool }.
#[export] Instance Flags_fields : Fields Flags := fun f =>
  mkFlags (padc f) (width f) (precision f) (lflag f) (altflag f).
Definition no_flags : Flags := mkFlags 0x20 (-1) (-1) 0 false.

(** The loop that reads a decimal number whose first digit is [ch]. *)
Fixpoint read_digits (prec ch : Z) (fmt : list Z) : Z * list Z :=
  let prec := i32 (i32 (prec * 10) + ch - 0x30) in
  match fmt with
  | c :: fmt' => if is_digit c then read_digits prec c fmt' else (prec, fmt)
  | [] => (prec, [])
  end.

Definition process_precision (f : Flags) : Flags :=
  if width f <? 0 then f <| width := precision f |> <| precision := -1 |> else f.

(** From [reswitch] to the character that ends the escape sequence: the flags, that
    character (0 at the end of the format), the rest of the format and of the
    arguments. *)
Fixpoint reswitch (fuel : nat) (f : Flags) (fmt : list Z) (ap : list va) : option (Flags * Z * list Z * list va) :=
  match fuel with
  | O => None
  | S fuel' =>
      match fmt with
      | [] => Some (f, 0, [], ap)
      | ch :: fmt' =>
          if ch =? 0x2d then reswitch fuel' (f <| padc := 0x2d |>) fmt' ap
          else if ch =? 0x30 then reswitch fuel' (f <| padc := 0x30 |>) fmt' ap
          else if is_digit ch then
            let '(prec, rest) := read_digits 0 ch fmt' in
            reswitch fuel' (process_precision (f <| precision := prec |>)) rest ap
          else if ch =? 0x2a then
            match ap with
            | VI z :: ap' => reswitch fuel' (process_precision (f <| precision := i32 z |>)) fmt' ap'
            | _ => None
            end
          else if ch =? 0x2e then
            reswitch fuel' (if width f <? 0 then f <| width := 0 |> else f) fmt' ap
          else if ch =? 0x23 then reswitch fuel' (f <| altflag := true |>) fmt' ap
          else if ch =? 0x6c then reswitch fuel' (f <| lflag := lflag f + 1 |>) fmt' ap
          else Some (f, ch, fmt', ap)
      end
  end.

(** [va_arg] of an integer, by its length flag. *)
Definition getuint (ap : list va) (lflag : Z) : option (Z * list va) :=
  match ap with
  | VI z :: ap' => Some (if 0 <? lflag then u64 z else u32 z, ap')
  | _ => None
  end.
Definition getint (ap : list va) (lflag : Z) : option (Z * list va) :=
  match ap with
  | VI z :: ap' => Some (if 0 <? lflag then i64 z else i32 z, ap')
  | _ => None
  end.

Section putch.
Context {T : Type} (putch : Z -> T -> T).

Fixpoint put_pad (n : nat) (c : Z) (t : T) : T :=
  match n with O => t | S n' => put_pad n' c (putch c t) end.
Fixpoint put_all (l : list Z) (t : T) : T :=
  match l with [] => t | c :: l' => put_all l' (putch c t) end.

Definition hexdigit (d : Z) : Z := if d <? 10 then 0x30 + d else 0x61 + (d - 10).

(** [fuel] bounds the number of digits; [width] is an [int]. *)
Fixpoint printnum (fuel : nat) (num base width padc : Z) (t : T) : option T :=
  match fuel with
  | O => None
  | S fuel' =>
      let width := i32 (width - 1) in
      t ← (if num >=? base then printnum fuel' (num / base) base width padc t
           else Some (put_pad (Z.to_nat width) padc t));
      Some (putch (hexdigit (num mod base)) t)
  end.

(** A 64-bit number has at most 64 digits in any base. *)
Definition DIGITS : nat := 64.

(** The loop over the characters of a string, with the width that is left. *)
Fixpoint put_string (p : list Z) (alt : bool) (prec width : Z) (t : T) : Z * T :=
  match p with
  | [] => (width, t)
  | c :: p' =>
      let ch := schar c in
      if (prec <? 0) || (0 <=? prec - 1) then
        put_string p' alt (if prec <? 0 then prec else prec - 1) (width - 1)
          (putch (if alt && ((ch <? 0x20) || (0x7e <? ch)) then 0x3f else ch) t)
      else (width, t)
  end.

(** strnlen of a string of that length. *)
Definition strnlen_of (p : list Z) (size : Z) : Z := Z.min (Z.of_nat (length p)) (u64 size).

Definition put_str (f : Flags) (p : list Z) (t : T) : T :=
  let pads := (0 <? width f) && negb (padc f =? 0x2d) in
  let w := if pads then width f - strnlen_of p (precision f) else width f in
  let t := if pads then put_pad (Z.to_nat w) (padc f) t else t in
  let w := if pads then Z.min w 0 else w in
  let '(w, t) := put_string p (altflag f) (precision f) w t in
  put_pad (Z.to_nat w) 0x20 t.

Definition put_signed (f : Flags) (num : Z) (t : T) : option T :=
  let t := if num <? 0 then putch 0x2d t else t in
  printnum DIGITS (if num <? 0 then u64 (- num) else num) 10 (width f) (padc f) t.

(** [printfmt(putch, putdat, "error %d", err)] and [printfmt(putch, putdat, "%s", p)]. *)
Definition put_error (err : Z) (t : T) : option T :=
  let err := if err <? 0 then i32 (- err) else err in
  if err <? 0 then None
  else
    match (if err >=? MAXERROR then None else error_string err) with
    | None => put_signed no_flags err (put_all error_text t)
    | Some p => Some (put_str no_flags p t)
    end.

(** The label [number]: printing an argument that was fetched. *)
Definition put_number (f : Flags) (base : Z) (r : option (Z * list va)) (t : T) : option (T * list va) :=
  '(num, ap') ← r; t' ← printnum DIGITS num base (width f) (padc f) t; Some (t', ap').

(** The conversion [ch]: what is printed and the arguments left; [inr] for a
    character that is none. *)
Definition convert (f : Flags) (ch : Z) (ap : list va) (t : T) : option (T * list va) + unit :=
  if ch =? 0x63 then inl (match ap with VI z :: ap' => Some (putch (i32 z) t, ap') | _ => None end)
  else if ch =? 0x65 then
    inl (match ap with VI z :: ap' => t' ← put_error (i32 z) t; Some (t', ap') | _ => None end)
  else if ch =? 0x73 then
    inl (match ap with VS p :: ap' => Some (put_str f (default null_text p) t, ap') | _ => None end)
  else if ch =? 0x64 then
    inl ('(num, ap') ← getint ap (lflag f); t' ← put_signed f num t; Some (t', ap'))
  else if ch =? 0x75 then inl (put_number f 10 (getuint ap (lflag f)) t)
  else if ch =? 0x6f then inl (put_number f 8 (getuint ap (lflag f)) t)
  else if ch =? 0x70 then inl (put_number f 16 (getuint ap 1) (putch 0x78 (putch 0x30 t)))
  else if ch =? 0x78 then inl (put_number f 16 (getuint ap (lflag f)) t)
  else if ch =? 0x25 then inl (Some (putch ch t, ap))
  else inr tt.

(** An unknown conversion prints the % and goes on with what follows it. *)
Fixpoint vprintfmt_loop (fuel : nat) (fmt : list Z) (ap : list va) (t : T) : option T :=
  match fuel with
  | O => None
  | S fuel' =>
      match fmt with
      | [] => Some t
      | ch :: fmt' =>
          if negb (ch =? 0x25) then vprintfmt_loop fuel' fmt' ap (putch ch t)
          else
            '(f, c, rest, ap') ← reswitch (length fmt' + 1) no_flags fmt' ap;
            match convert f c ap' t with
            | inl r => '(t', ap'') ← r; vprintfmt_loop fuel' rest ap'' t'
            | inr _ => vprintfmt_loop fuel' fmt' ap' (putch 0x25 t)
            end
      end
  end.
Definition vprintfmt (fmt : list Z) (ap : list va) (t : T) : option T :=
  vprintfmt_loop (length fmt + 1) fmt ap t.
End putch.

Lemma printnum_S {T} (putch : Z -> T -> T) fuel num base w p t :
  printnum putch (S fuel) num base w p t =
  t' ← (if num >=? base then printnum putch fuel (num / base) base (i32 (w - 1)) p t
        else Some (put_pad putch (Z.to_nat (i32 (w - 1))) p t));
  Some (putch (hexdigit (num mod base)) t').
Proof. done. Qed.
#[global] Arguments printnum : simpl never.

(** ** snprintf *)
Record sprintbuf := mkSprintbuf { sb_mem : bytes; sb_buf : Z; sb_ebuf : Z; sb_cnt : Z }.

Definition sprintputch (ch : Z) (b : sprintbuf) : sprintbuf :=
  let cnt := i32 (sb_cnt b + 1) in
  if sb_buf b <? sb_ebuf b then mkSprintbuf (st8 (sb_mem b) (sb_buf b) ch) (sb_buf b + 1) (sb_ebuf b) cnt
  else mkSprintbuf (sb_mem b) (sb_buf b) (sb_ebuf b) cnt.

(** The result and the memory. *)
Definition vsnprintf (m : bytes) (buf n : Z) (fmt : list Z) (ap : list va) : option (Z * bytes) :=
  let b := mkSprintbuf m buf (buf + n - 1) 0 in
  if (buf =? 0) || (n <? 1) then Some (- E_INVAL, m)
  else
    b ← vprintfmt sprintputch fmt ap b;
    Some (sb_cnt b, st8 (sb_mem b) (sb_buf b) 0).
Definition snprintf (m : bytes) (buf n : Z) (fmt : list Z) (ap : list va) : option (Z * bytes) :=
  vsnprintf m buf n fmt ap.

(** ** The kernel's cprintf: kern/printf.c

    [cputchar] acts on the console.  [*cnt++] increments the parameter and not the
    count it points at. *)
Section kernel.
Context {C : Type} (cputchar : Z -> C -> C).
Definition kern_putch (ch : Z) (t : C * Z) : C * Z := (cputchar ch t.1, t.2).
Definition kern_vcprintf (fmt : list Z) (ap : list va) (c : C) : option (Z * C) :=
  t ← vprintfmt kern_putch fmt ap (c, 0); Some (t.2, t.1).
Definition kern_cprintf (fmt : list Z) (ap : list va) (c : C) : option (Z * C) := kern_vcprintf fmt ap c.
End kernel.

(** ** The cprintf of user environments: lib/printf.c

    [pb_calls] are the strings handed to sys_cputs, the latest first. *)
Record printbuf := mkPrintbuf { pb_idx : Z; pb_cnt : Z; pb_buf : gmap Z Z; pb_calls : list (list Z) }.

Definition buf_chars (buf : gmap Z Z) (n : Z) : list Z :=
  List.map (fun i => default 0 (buf !! i)) (seqZ 0 n).
Definition user_putch (ch : Z) (b : printbuf) : printbuf :=
  let buf := <[pb_idx b := u8 ch]> (pb_buf b) in
  let idx := i32 (pb_idx b + 1) in
  let cnt := i32 (pb_cnt b + 1) in
  if idx =? 256 - 1 then mkPrintbuf 0 cnt buf (buf_chars buf idx :: pb_calls b)
  else mkPrintbuf idx cnt buf (pb_calls b).

(** The count, and the strings of the system calls in order. *)
Definition user_vcprintf (fmt : list Z) (ap : list va) (buf : gmap Z Z) : option (Z * list (list Z)) :=
  b ← vprintfmt user_putch fmt ap (mkPrintbuf 0 0 buf []);
  Some (pb_cnt b, reverse (buf_chars (pb_buf b) (pb_idx b) :: pb_calls b)).
Definition user_cprintf (fmt : list Z) (ap : list va) (buf : gmap Z Z) : option (Z * list (list Z)) :=
  user_vcprintf fmt ap buf.

(** ** What a format prints *)
Definition snoc (c : Z) (l : list Z) : list Z := l ++ [c].
Definition output (fmt : list Z) (ap : list va) : option (list Z) := vprintfmt snoc fmt ap [].

(** *** The output does not depend on where it goes

    [h] maps the state of one [putch] to that of another. *)
Section hom.
Context {T T' : Type} (putch : Z -> T -> T) (putch' : Z -> T' -> T') (h : T -> T').
Hypothesis Hh : forall c t, h (putch c t) = putch' c (h t).

Lemma put_pad_hom n c t : put_pad putch' n c (h t) = h (put_pad putch n c t).
Proof. revert t. induction n as [|n IH]; intros t; cbn; [done|]. by rewrite <- Hh, IH. Qed.
Lemma put_all_hom l t : put_all putch' l (h t) = h (put_all putch l t).
Proof. revert t. induction l as [|c l IH]; intros t; cbn; [done|]. by rewrite <- Hh, IH. Qed.
Lemma printnum_hom fuel num base w p t :
  printnum putch' fuel num base w p (h t) = h <$> printnum putch fuel num base w p t.
Proof.
  revert num w t. induction fuel as [|fuel IH]; intros num w t; [done|]. rewrite !printnum_S.
  destruct (num >=? base).
  - rewrite IH. destruct (printnum putch _ _ _ _ _ t); cbn; [by rewrite Hh|done].
  - cbn. by rewrite put_pad_hom, Hh.
Qed.
Lemma put_string_hom p alt prec w t :
  put_string putch' p alt prec w (h t) = prod_map id h (put_string putch p alt prec w t).
Proof.
  revert prec w t. induction p as [|c p IH]; intros prec w t; cbn [put_string]; [done|].
  destruct ((prec <? 0) || (0 <=? prec - 1)); [|done]. by rewrite <- Hh, IH.
Qed.
Lemma put_str_hom f p t : put_str putch' f p (h t) = h (put_str putch f p t).
Proof.
  unfold put_str. set (b := (0 <? width f) && negb (padc f =? 0x2d)).
  destruct b; rewrite ?put_pad_hom, put_string_hom; destruct (put_string putch _ _ _ _ _) as [w t'];
    cbn; by rewrite put_pad_hom.
Qed.
Lemma put_signed_hom f num t : put_signed putch' f num (h t) = h <$> put_signed putch f num t.
Proof. unfold put_signed. destruct (num <? 0); rewrite <- ?Hh; apply printnum_hom. Qed.
Lemma put_error_hom e t : put_error putch' e (h t) = h <$> put_error putch e t.
Proof.
  unfold put_error. destruct ((if e <? 0 then _ else e) <? 0); [done|].
  destruct (if _ >=? MAXERROR then None else _); [by rewrite put_str_hom|].
  by rewrite put_all_hom, put_signed_hom.
Qed.
Lemma put_number_hom f base r t :
  put_number putch' f base r (h t) = prod_map h id <$> put_number putch f base r t.
Proof.
  unfold put_number. destruct r as [[num ap]|]; [|done]. cbn. rewrite printnum_hom.
  by destruct (printnum putch _ _ _ _ _ t).
Qed.
Lemma convert_hom f c ap t :
  convert putch' f c ap (h t) =
  match convert putch f c ap t with inl r => inl (prod_map h id <$> r) | inr u => inr u end.
Proof.
  unfold convert. rewrite <- !Hh.
  destruct (c =? 0x63). { destruct ap as [|[z|p] ap]; try done. cbn. by rewrite <- Hh. }
  destruct (c =? 0x65). { destruct ap as [|[z|p] ap]; try done. rewrite put_error_hom. by destruct (put_error putch _ t). }
  destruct (c =? 0x73). { destruct ap as [|[z|p] ap]; try done. by rewrite put_str_hom. }
  destruct (c =? 0x64).
  { destruct (getint ap (lflag f)) as [[num ap']|]; [|done]. cbn. rewrite put_signed_hom.
    by destruct (put_signed putch f num t). }
  repeat (case_match; [f_equal; by rewrite ?put_number_hom|]). done.
Qed.
End hom.

Section hom_loop.
Context {T T' : Type} (putch : Z -> T -> T) (putch' : Z -> T' -> T') (h : T -> T').
Hypothesis Hh : forall c t, h (putch c t) = putch' c (h t).
Lemma vprintfmt_loop_hom fuel fmt ap t :
  vprintfmt_loop putch' fuel fmt ap (h t) = h <$> vprintfmt_loop putch fuel fmt ap t.
Proof.
  revert fmt ap t. induction fuel as [|fuel IH]; intros fmt ap t; cbn [vprintfmt_loop]; [done|].
  destruct fmt as [|ch fmt]; [done|]. destruct (negb (ch =? 0x25)); [by rewrite <- Hh, IH|].
  destruct (reswitch _ _ _ _) as [[[[f c] rest] ap']|]; [|done]. cbn -[convert].
  rewrite (convert_hom putch putch' h Hh). destruct (convert putch f c ap' t) as [[[t' ap'']|]|[]]; cbn.
  - apply IH.
  - done.
  - by rewrite <- Hh, IH.
Qed.
End hom_loop.

(** Whatever [putch] does, it gets the characters of the output, in order. *)
Lemma vprintfmt_output {T} (putch : Z -> T -> T) fmt ap t :
  vprintfmt putch fmt ap t = (fun l => put_all putch l t) <$> output fmt ap.
Proof.
  unfold vprintfmt, output. change t with ((fun l => put_all putch l t) []) at 1.
  apply vprintfmt_loop_hom. intros c l. cbn. unfold snoc. generalize t. induction l as [|d l IH]; intros t'; cbn; auto.
Qed.

(** ** Fuel *)

(** A number below [base ^ fuel] is printed. *)
Lemma printnum_total {T} (putch : Z -> T -> T) fuel num base w p t :
  2 <= base -> 0 <= num < base ^ Z.of_nat fuel -> (0 < fuel)%nat ->
  exists t', printnum putch fuel num base w p t = Some t'.
Proof.
  intros Hb. revert num w t. induction fuel as [|fuel IH]; intros num w t Hn Hf; [lia|].
  rewrite printnum_S. rewrite Z.geb_leb. destruct (Z.leb_spec base num); [|cbn; eauto].
  rewrite Nat2Z.inj_succ, Z.pow_succ_r in Hn by lia.
  destruct (IH (num / base) (i32 (w - 1)) t) as [t' ->]; [| |cbn; eauto].
  - split; [apply Z.div_pos; lia|]. apply Z.div_lt_upper_bound; lia.
  - destruct fuel; [cbn in Hn; lia|lia].
Qed.

Lemma printnum_64 {T} (putch : Z -> T -> T) num base w p t :
  2 <= base -> 0 <= num < 2 ^ 64 -> exists t', printnum putch DIGITS num base w p t = Some t'.
Proof.
  intros Hb Hn. apply printnum_total; [done| |unfold DIGITS; lia]. split; [lia|].
  apply (Z.lt_le_trans _ (2 ^ 64)); [lia|]. apply Z.pow_le_mono_l. lia.
Qed.

Lemma read_digits_shorter prec ch fmt prec' rest :
  read_digits prec ch fmt = (prec', rest) -> (length rest <= length fmt)%nat.
Proof.
  revert prec ch. induction fmt as [|c fmt IH]; intros prec ch; cbn; [by intros [= _ <-]|].
  destruct (is_digit c); [|by intros [= _ <-]]. intros ?%IH. lia.
Qed.

(** ** What the arguments have to be

    The arguments an escape sequence takes, integers, error codes and strings: those
    of its stars and that of its conversion. *)
Inductive kind := KInt | KErr | KStr.
Fixpoint scan (fuel : nat) (fmt : list Z) : nat * Z * list Z :=
  match fuel with
  | O => (0%nat, 0, [])
  | S fuel' =>
      match fmt with
      | [] => (0%nat, 0, [])
      | ch :: fmt' =>
          if (ch =? 0x2d) || (ch =? 0x30) || (ch =? 0x2e) || (ch =? 0x23) || (ch =? 0x6c) then scan fuel' fmt'
          else if is_digit ch then scan fuel' (read_digits 0 ch fmt').2
          else if ch =? 0x2a then let '(n, c, rest) := scan fuel' fmt' in (S n, c, rest)
          else (0%nat, ch, fmt')
      end
  end.
Definition takes (c : Z) : option (list kind) :=
  if c =? 0x73 then Some [KStr]
  else if c =? 0x25 then Some []
  else if c =? 0x65 then Some [KErr]
  else if (c =? 0x63) || (c =? 0x64) || (c =? 0x75) || (c =? 0x6f) || (c =? 0x70) || (c =? 0x78)
  then Some [KInt]
  else None.
Fixpoint kinds (fuel : nat) (fmt : list Z) : list kind :=
  match fuel with
  | O => []
  | S fuel' =>
      match fmt with
      | [] => []
      | ch :: fmt' =>
          if negb (ch =? 0x25) then kinds fuel' fmt'
          else
            let '(n, c, rest) := scan (length fmt' + 1) fmt' in
            repeat KInt n ++ match takes c with Some l => l ++ kinds fuel' rest | None => kinds fuel' fmt' end
      end
  end.

(** An argument of the right kind; the code negates an [int] error code, which
    INT_MIN does not allow. *)
Definition suits (k : kind) (a : va) : Prop :=
  match k, a with
  | KInt, VI _ => True
  | KErr, VI z => i32 z <> - 2 ^ 31
  | KStr, VS _ => True
  | _, _ => False
  end.

Lemma scan_spec fuel f fmt args ap n c rest :
  (length fmt < fuel)%nat -> scan fuel fmt = (n, c, rest) -> Forall2 suits (repeat KInt n) args ->
  (length rest <= length fmt)%nat /\ exists f', reswitch fuel f fmt (args ++ ap) = Some (f', c, rest, ap).
Proof.
  revert f fmt args n. induction fuel as [|fuel IH]; intros f fmt args n Hf Hs Ha; [lia|].
  destruct fmt as [|ch fmt]; cbn [scan reswitch] in *; [injection Hs as <- <- <-; inversion Ha; subst; split; [done|]; eauto|].
  cbn [length] in Hf |- *.
  assert (forall f', scan fuel fmt = (n, c, rest) -> (length rest <= S (length fmt))%nat /\
    exists f'', reswitch fuel f' fmt (args ++ ap) = Some (f'', c, rest, ap)) as Hgo.
  { intros f' E. destruct (IH f' fmt args n ltac:(lia) E Ha) as [Hl H]. split; [lia|exact H]. }
  destruct (ch =? 0x2d); [by apply Hgo|]. destruct (ch =? 0x30); [by apply Hgo|]. cbn [orb] in Hs.
  destruct (ch =? 0x2e) eqn:E1.
  { assert (ch = 0x2e) as -> by lia. by apply Hgo. }
  destruct (ch =? 0x23) eqn:E2.
  { assert (ch = 0x23) as -> by lia. by apply Hgo. }
  destruct (ch =? 0x6c) eqn:E3.
  { assert (ch = 0x6c) as -> by lia. by apply Hgo. }
  cbn [orb] in Hs. destruct (is_digit ch).
  - destruct (read_digits 0 ch fmt) as [prec rest'] eqn:Er. pose proof (read_digits_shorter _ _ _ _ _ Er).
    destruct (IH (process_precision (f <| precision := prec |>)) rest' args n ltac:(lia) Hs Ha) as [Hl H']. split; [lia|exact H'].
  - destruct (ch =? 0x2a) eqn:E4.
    + destruct (scan fuel fmt) as [[n' c'] rest'] eqn:Es. injection Hs as <- <- <-.
      destruct args as [|[z|p] args]; cbn in Ha; [by inversion Ha| |by inversion Ha].
      inversion Ha as [|???? _ Ha']; subst; clear Ha. rename Ha' into Ha.
      destruct (IH (process_precision (f <| precision := i32 z |>)) fmt args n' ltac:(lia) Es Ha) as [Hl H']. split; [lia|exact H'].
    + injection Hs as <- <- <-. inversion Ha; subst. split; [lia|]. eauto.
Qed.

Section returns.
Context {T : Type} (putch : Z -> T -> T).

Lemma put_signed_total f num t : - 2 ^ 63 <= num < 2 ^ 63 -> exists t', put_signed putch f num t = Some t'.
Proof.
  intros Hn. unfold put_signed. destruct (Z.ltb_spec num 0).
  - apply printnum_64; [lia|]. by apply wrap_range.
  - apply printnum_64; lia.
Qed.

Lemma put_error_total e t : - 2 ^ 31 < e < 2 ^ 31 -> exists t', put_error putch e t = Some t'.
Proof.
  intros He. unfold put_error. set (err := if e <? 0 then i32 (- e) else e).
  assert (0 <= err < 2 ^ 31) as Hr by (unfold err; destruct (Z.ltb_spec e 0); [rewrite swrap_small|]; lia).
  destruct (Z.ltb_spec err 0); [lia|]. destruct (if err >=? MAXERROR then _ else _); [eauto|].
  apply put_signed_total. lia.
Qed.

Lemma put_number_total f base z ap t :
  2 <= base -> 0 <= z < 2 ^ 64 -> exists t', put_number putch f base (Some (z, ap)) t = Some (t', ap).
Proof.
  intros Hb Hz. unfold put_number. cbn.
  destruct (printnum_64 putch z base (width f) (padc f) t Hb Hz) as [t' ->]. cbn. eauto.
Qed.

Lemma getuint_range z ap l : exists u, getuint (VI z :: ap) l = Some (u, ap) /\ 0 <= u < 2 ^ 64.
Proof.
  cbn. destruct (0 <? l); eexists; (split; [done|]); [by apply wrap_range|].
  pose proof (wrap_range 32 z ltac:(lia)). lia.
Qed.
Lemma getint_range z ap l : exists u, getint (VI z :: ap) l = Some (u, ap) /\ - 2 ^ 63 <= u < 2 ^ 63.
Proof.
  cbn. destruct (0 <? l); eexists; (split; [done|]); [by apply (swrap_range 64)|].
  pose proof (swrap_range 32 z ltac:(lia)). lia.
Qed.

Lemma convert_total f c args ap t l :
  takes c = Some l -> Forall2 suits l args ->
  exists t', convert putch f c (args ++ ap) t = inl (Some (t', ap)).
Proof.
  unfold takes, convert. destruct (c =? 0x73) eqn:E1.
  { intros [= <-] Ha. assert (c = 0x73) as -> by lia. cbn.
    inversion Ha as [|? a ?? Hs Hn]; subst. inversion Hn; subst. destruct a; [done|]. cbn. eauto. }
  destruct (c =? 0x25) eqn:E2.
  { intros [= <-] Ha. inversion Ha; subst. assert (c = 0x25) as -> by lia. cbn. eauto. }
  destruct (c =? 0x65) eqn:Ee.
  { intros [= <-] Ha. assert (c = 0x65) as -> by lia. cbn [Z.eqb Pos.eqb].
    inversion Ha as [|? a ?? Hs Hn]; subst. inversion Hn; subst. destruct a as [z|]; [|done]. cbn [app].
    destruct (put_error_total (i32 z) t) as [t' ->]; [|eauto].
    pose proof (swrap_range 32 z ltac:(lia)) as Hr. change (2 ^ (32 - 1)) with (2 ^ 31) in Hr. cbn [suits] in Hs. lia. }
  destruct (_ || (c =? 0x78)) eqn:E3; [|done]. intros [= <-] Ha.
  inversion Ha as [|? a ?? Hs Hn]; subst. inversion Hn; subst. destruct a as [z|]; [|done]. clear Hs.
  cbn [app]. rewrite !orb_true_iff in E3.
  destruct (getuint_range z ap (lflag f)) as (u & Hu & Hur).
  destruct (c =? 0x63); [eauto|].
  destruct (c =? 0x64).
  { destruct (getint_range z ap (lflag f)) as (i & -> & Hi). cbn.
    destruct (put_signed_total f i t Hi) as [t' ->]. eauto. }
  rewrite Hu. destruct (c =? 0x75); [destruct (put_number_total f 10 u ap t) as [t' ->]; [lia|done|eauto]|].
  destruct (c =? 0x6f); [destruct (put_number_total f 8 u ap t) as [t' ->]; [lia|done|eauto]|].
  destruct (c =? 0x70).
  { destruct (getuint_range z ap 1) as (u' & -> & Hu').
    destruct (put_number_total f 16 u' ap (putch 0x78 (putch 0x30 t))) as [t' ->]; [lia|done|eauto]. }
  destruct (c =? 0x78); [destruct (put_number_total f 16 u ap t) as [t' ->]; [lia|done|eauto]|]. naive_solver.
Qed.

Lemma convert_unknown f c ap t : takes c = None -> convert putch f c ap t = inr tt.
Proof.
  unfold takes, convert. destruct (c =? 0x73); [done|]. destruct (c =? 0x25); [done|].
  repeat (destruct (c =? _); [done|]). done.
Qed.

Lemma vprintfmt_loop_total fuel fmt args ap t :
  (length fmt < fuel)%nat -> Forall2 suits (kinds fuel fmt) args ->
  exists t', vprintfmt_loop putch fuel fmt (args ++ ap) t = Some t'.
Proof.
  revert fmt args t. induction fuel as [|fuel IH]; intros fmt args t Hf Ha; [lia|].
  destruct fmt as [|ch fmt]; cbn [vprintfmt_loop kinds] in *; [eauto|]. cbn [length] in Hf.
  destruct (negb (ch =? 0x25)); [apply IH; [lia|done]|].
  destruct (scan (length fmt + 1) fmt) as [[n c] rest] eqn:Es.
  apply Forall2_app_inv_l in Ha as (a1 & a2 & Ha1 & Ha2 & ->). rewrite <- app_assoc.
  destruct (scan_spec (length fmt + 1) no_flags fmt a1 (a2 ++ ap) n c rest ltac:(lia) Es Ha1) as (Hl & f & ->).
  cbn -[convert]. destruct (takes c) as [l|] eqn:Ht.
  - apply Forall2_app_inv_l in Ha2 as (a3 & a4 & Ha3 & Ha4 & ->). rewrite <- app_assoc.
    destruct (convert_total f c a3 (a4 ++ ap) t l Ht Ha3) as [t' ->]. cbn. apply IH; [lia|done].
  - rewrite convert_unknown by done. apply IH; [lia|done].
Qed.
End returns.
