(* ===== verification/PrintfThms.v ===== *)
(** * Theorems on formatted output and on reading numbers back *)
From S2P Require Import Prelude Mmu CMem Str Printfmt.

(** C22: vprintfmt returns for every format, unknown and unfinished escape sequences
    included, as long as the arguments it asks for are there and of the right kind (and
    the error code of %e is not INT_MIN, which the code negates); extra arguments do no harm. *)
Theorem vprintfmt_returns {T} (putch : Z -> T -> T) fmt args extra t :
  Forall2 suits (kinds (length fmt + 1) fmt) args ->
  exists t', vprintfmt putch fmt (args ++ extra) t = Some t'.
Proof. intros Ha. apply vprintfmt_loop_total; [lia|done]. Qed.

(** ["%5d|%-*s|%y %"] with a number, a width and a string. *)
Definition demo_fmt : list Z := [0x25; 0x35; 0x64; 0x7c; 0x25; 0x2d; 0x2a; 0x73; 0x7c; 0x25; 0x79; 0x20; 0x25].
Lemma vprintfmt_returns_witness :
  exists l, vprintfmt snoc demo_fmt ([VI (-42); VI 4; VS (Some [0x61; 0x62])] ++ [VI 7]) [] = Some l /\
    l = [0x2d; 0x20; 0x20; 0x20; 0x34; 0x32; 0x7c; 0x61; 0x62; 0x20; 0x20; 0x7c; 0x25; 0x79; 0x20; 0x25].
Proof.
  destruct (vprintfmt_returns snoc demo_fmt [VI (-42); VI 4; VS (Some [0x61; 0x62])] [VI 7] []) as [l Hl].
  - vm_compute kinds. repeat constructor; try (vm_compute; discriminate).
  - exists l. split; [exact Hl|]. vm_compute in Hl. by injection Hl as <-.
Defined.

(** ** snprintf *)
Lemma put_all_sprint out : forall b,
  let k := Z.min (Z.of_nat (length out)) (Z.max 0 (sb_ebuf b - sb_buf b)) in
  0 <= sb_cnt b -> sb_cnt b + Z.of_nat (length out) < 2 ^ 31 ->
  let b' := put_all sprintputch out b in
  sb_cnt b' = sb_cnt b + Z.of_nat (length out) /\ sb_buf b' = sb_buf b + k /\ sb_ebuf b' = sb_ebuf b /\
  (forall i c, out !! Z.to_nat i = Some c -> 0 <= i < k -> ld8 (sb_mem b') (sb_buf b + i) = u8 c) /\
  (forall a, ~ (sb_buf b <= a < sb_buf b + k) -> ld8 (sb_mem b') a = ld8 (sb_mem b) a).
Proof.
  induction out as [|ch out IH]; intros b k Hc0 Hc; cbn [put_all length] in *.
  { split_and!; try done; unfold k; lia. }
  assert (sb_cnt (sprintputch ch b) = sb_cnt b + 1) as Hcnt.
  { unfold sprintputch. destruct (_ <? _); cbn; apply swrap_small; lia. }
  assert (sb_ebuf (sprintputch ch b) = sb_ebuf b) as Heb by (unfold sprintputch; by destruct (_ <? _)).
  specialize (IH (sprintputch ch b)). cbn zeta in IH. rewrite Hcnt, Heb in IH.
  destruct IH as (H1 & H2 & H3 & H4 & H5); [lia..|].
  destruct (Z.ltb_spec (sb_buf b) (sb_ebuf b)) as [Hlt|Hge].
  - assert (sb_buf (sprintputch ch b) = sb_buf b + 1 /\ sb_mem (sprintputch ch b) = st8 (sb_mem b) (sb_buf b) ch) as [Hb Hm]
      by (unfold sprintputch; by rewrite (proj2 (Z.ltb_lt _ _) Hlt)).
    rewrite Hb, ?Hm in *.
    replace (Z.min _ _) with (k - 1) in H2, H4, H5 by lia.
    split_and!; [lia|lia|done| |].
    + intros i c Hi Hik. destruct (decide (i = 0)) as [->|Hi0].
      * injection Hi as <-. rewrite Z.add_0_r, H5 by lia. rewrite ld8_st8. by rewrite decide_True.
      * replace (Z.to_nat i) with (S (Z.to_nat (i - 1))) in Hi by lia. cbn in Hi.
        replace (sb_buf b + i) with (sb_buf b + 1 + (i - 1)) by lia. apply H4; [done|lia].
    + intros a Ha. rewrite H5 by lia. rewrite ld8_st8, decide_False by lia. done.
  - assert (sb_buf (sprintputch ch b) = sb_buf b /\ sb_mem (sprintputch ch b) = sb_mem b) as [Hb Hm]
      by (unfold sprintputch; by rewrite (proj2 (Z.ltb_ge _ _) Hge)).
    rewrite Hb, ?Hm in *. replace (Z.min _ _) with 0 in H2, H4, H5 by lia.
    split_and!; try lia. intros a _. apply H5. lia.
Qed.

(** C23: vsnprintf returns the length of the whole output, stores its first [n - 1]
    characters or as many as there are, ends them with a zero, and writes to no byte
    outside the [n] bytes of the buffer. *)
Theorem vsnprintf_bounded m buf n fmt ap out :
  output fmt ap = Some out -> buf <> 0 -> 1 <= n -> Z.of_nat (length out) < 2 ^ 31 ->
  let k := Z.min (Z.of_nat (length out)) (n - 1) in
  exists m', vsnprintf m buf n fmt ap = Some (Z.of_nat (length out), m') /\
    (forall i c, out !! Z.to_nat i = Some c -> 0 <= i < k -> ld8 m' (buf + i) = u8 c) /\
    ld8 m' (buf + k) = 0 /\
    (forall a, ~ (buf <= a < buf + n) -> ld8 m' a = ld8 m a).
Proof.
  intros Hout Hbuf Hn Hlen k. unfold vsnprintf.
  destruct (Z.eqb_spec buf 0); [done|]. destruct (Z.ltb_spec n 1); [lia|]. cbn [orb].
  rewrite vprintfmt_output, Hout. cbn.
  destruct (put_all_sprint out (mkSprintbuf m buf (buf + n - 1) 0)) as (H1 & H2 & _ & H4 & H5); [cbn; lia..|].
  cbn in *. replace (Z.min _ _) with k in H2, H4, H5 by lia.
  rewrite H1, H2. eexists. split; [done|]. split_and!.
  - intros i c Hi Hik. rewrite ld8_st8, decide_False by lia. by apply H4.
  - by rewrite ld8_st8, decide_True.
  - intros a Ha. rewrite ld8_st8, decide_False by lia. apply H5. lia.
Qed.

(** ["hello"] into four bytes. *)
Lemma vsnprintf_bounded_witness :
  exists m', vsnprintf ∅ 0x1000 4 [0x68; 0x65; 0x6c; 0x6c; 0x6f] [] = Some (5, m') /\
    ld8 m' 0x1002 = 0x6c /\ ld8 m' 0x1003 = 0.
Proof.
  destruct (vsnprintf_bounded ∅ 0x1000 4 [0x68; 0x65; 0x6c; 0x6c; 0x6f] [] [0x68; 0x65; 0x6c; 0x6c; 0x6f])
    as (m' & Hm & Hc & Hz & _).
  - reflexivity.
  - lia.
  - lia.
  - reflexivity.
  - exists m'. split_and!; [exact Hm| |exact Hz]. apply (Hc 2 0x6c); [reflexivity|cbn; lia].
Defined.

(** ** The buffer of the user's cprintf *)
Lemma buf_chars_S buf n c :
  0 <= n -> buf_chars (<[n := c]> buf) (n + 1) = buf_chars buf n ++ [c].
Proof.
  intros Hn. unfold buf_chars. rewrite seqZ_app by lia. rewrite map_app. f_equal.
  - apply map_ext_in. intros i Hi%list_elem_of_In%elem_of_seqZ. by rewrite lookup_insert_ne by lia.
  - rewrite Z.add_0_l. change (seqZ n 1) with [Z.of_nat 0 + n]. cbn [List.map]. by rewrite Z.add_0_l, lookup_insert_eq.
Qed.

(** The buffer index stays in the buffer; what was printed is what was handed to the
    system and what is in the buffer. *)
Record pb_inv (l : list Z) (b : printbuf) : Prop := {
  pb_range : 0 <= pb_idx b < 255;
  pb_count : pb_cnt b = Z.of_nat (length l);
  pb_short : Forall (fun c => Z.of_nat (length c) = 255) (pb_calls b);
  pb_all : concat (reverse (pb_calls b)) ++ buf_chars (pb_buf b) (pb_idx b) = List.map u8 l
}.

Lemma user_putch_inv l b c :
  pb_inv l b -> Z.of_nat (length l) + 1 < 2 ^ 31 -> pb_inv (l ++ [c]) (user_putch c b).
Proof.
  intros [Hr Hc Hs Ha] Hl. unfold user_putch. rewrite swrap_small, (swrap_small 32 (pb_cnt b + 1)) by lia.
  change (256 - 1) with 255.
  assert (Z.of_nat (length (l ++ [c])) = pb_cnt b + 1) as Hlen by (rewrite length_app; cbn; lia).
  assert (concat (reverse (pb_calls b)) ++ buf_chars (<[pb_idx b := u8 c]> (pb_buf b)) (pb_idx b + 1) = List.map u8 (l ++ [c])) as Hall.
  { rewrite buf_chars_S by lia. rewrite app_assoc, Ha, map_app. done. }
  destruct (Z.eqb_spec (pb_idx b + 1) 255) as [E|E]; split; cbn [pb_idx pb_cnt pb_buf pb_calls]; try lia; try done.
  - apply Forall_cons. split; [|done]. unfold buf_chars. rewrite length_map, length_seqZ. lia.
  - rewrite reverse_cons, concat_app. cbn [concat]. rewrite app_nil_r.
    change (buf_chars (<[pb_idx b := u8 c]> (pb_buf b)) 0) with (@nil Z). rewrite app_nil_r. exact Hall.
Qed.

Lemma put_all_inv out : forall l b, pb_inv l b -> Z.of_nat (length l) + Z.of_nat (length out) < 2 ^ 31 ->
  pb_inv (l ++ out) (put_all user_putch out b).
Proof.
  induction out as [|c out IH]; intros l b Hi Hl; cbn [put_all length] in *; [by rewrite app_nil_r|].
  replace (l ++ c :: out) with ((l ++ [c]) ++ out) by by rewrite <- app_assoc.
  apply IH; [|rewrite length_app; cbn; lia]. apply user_putch_inv; [done|lia].
Qed.

(** The user's cprintf hands exactly the output to the console, in order, in system
    calls of at most 255 characters, and returns their number; the index never leaves
    the buffer of 256 characters. *)
Theorem user_cprintf_output fmt ap buf out :
  output fmt ap = Some out -> Z.of_nat (length out) < 2 ^ 31 ->
  exists calls, user_cprintf fmt ap buf = Some (Z.of_nat (length out), calls) /\
    concat calls = List.map u8 out /\ Forall (fun c => Z.of_nat (length c) <= 255) calls.
Proof.
  intros Hout Hlen. unfold user_cprintf, user_vcprintf. rewrite vprintfmt_output, Hout. cbn -[reverse].
  destruct (put_all_inv out [] (mkPrintbuf 0 0 buf [])) as [Hr Hc Hs Ha]; [by split; cbn; try lia|cbn; lia|].
  cbn [app] in *. rewrite Hc. eexists. split; [done|]. rewrite reverse_cons, concat_app. cbn [concat]. rewrite app_nil_r.
  split; [exact Ha|]. apply Forall_app. split.
  - apply Forall_reverse. eapply Forall_impl; [exact Hs|]. cbn. lia.
  - apply Forall_singleton. unfold buf_chars. rewrite length_map, length_seqZ. lia.
Qed.

Lemma user_cprintf_output_witness :
  exists calls, user_cprintf [0x25; 0x78] [VI 255] ∅ = Some (2, calls) /\ concat calls = [0x66; 0x66] /\
    Forall (fun c => Z.of_nat (length c) <= 255) calls.
Proof.
  apply (user_cprintf_output [0x25; 0x78] [VI 255] ∅ [0x66; 0x66]).
  - reflexivity.
  - reflexivity.
Defined.

(** The kernel's cprintf sends the output to the console and returns 0 whatever it
    printed. *)
Theorem kern_cprintf_count {C} (cputchar : Z -> C -> C) fmt ap c out :
  output fmt ap = Some out -> kern_cprintf cputchar fmt ap c = Some (0, put_all cputchar out c).
Proof.
  intros Hout. unfold kern_cprintf, kern_vcprintf. rewrite vprintfmt_output, Hout. cbn.
  assert (forall l t, put_all (kern_putch cputchar) l t = (put_all cputchar l t.1, t.2)) as ->; [|done].
  intros l. induction l as [|d l IH]; intros [t n]; cbn; [done|]. by rewrite IH.
Qed.

Lemma kern_cprintf_count_witness : kern_cprintf snoc [0x68; 0x69] [] [] = Some (0, [0x68; 0x69]).
Proof. apply (kern_cprintf_count snoc [0x68; 0x69] [] [] [0x68; 0x69]). reflexivity. Defined.

(** ** Numbers *)

(** The value of a list of digits in positional notation. *)
Definition number_of (base : Z) (ds : list Z) : Z := foldl (fun v c => v * base + default 0 (digit_of c)) 0 ds.
Definition is_numeral (base : Z) (ds : list Z) : Prop :=
  Forall (fun c => exists d, digit_of c = Some d /\ 0 <= d < base) ds.

Lemma digit_hexdigit d : 0 <= d < 16 -> digit_of (hexdigit d) = Some d.
Proof.
  intros Hd. unfold hexdigit, digit_of. destruct (Z.ltb_spec d 10).
  - rewrite (proj2 (andb_true_iff _ _)) by lia. f_equal. lia.
  - destruct ((0x30 <=? 0x61 + (d - 10)) && (0x61 + (d - 10) <=? 0x39)) eqn:E; [lia|].
    rewrite (proj2 (andb_true_iff _ _)) by lia. f_equal. lia.
Qed.

(** [ds] are the digits of [num], without leading zeros. *)
Record numeral (base num : Z) (ds : list Z) : Prop := {
  nu_digits : is_numeral base ds;
  nu_value : number_of base ds = num;
  nu_short : length ds = 1%nat \/ (exists d ds', ds = d :: ds' /\ d <> 0x30);
}.

Lemma put_pad_snoc n p l : put_pad snoc n p l = l ++ repeat p n.
Proof.
  revert l. induction n as [|n IH]; intros l; cbn; [by rewrite app_nil_r|].
  rewrite IH. unfold snoc. by rewrite <- app_assoc.
Qed.

Lemma printnum_numeral fuel num base w p t :
  2 <= base <= 16 -> 0 <= num < base ^ Z.of_nat fuel -> (0 < fuel)%nat ->
  - 2 ^ 31 + Z.of_nat fuel <= w < 2 ^ 31 ->
  exists ds, printnum snoc fuel num base w p t =
    Some (t ++ repeat p (Z.to_nat (w - Z.of_nat (length ds))) ++ ds) /\
    numeral base num ds /\ (num = 0 -> ds = [0x30]).
Proof.
  intros Hb. revert num w t. induction fuel as [|fuel IH]; intros num w t Hn Hf Hw; [lia|].
  rewrite printnum_S, Z.geb_leb, swrap_small by lia. rewrite Nat2Z.inj_succ, Z.pow_succ_r in Hn by lia.
  assert (forall d, 0 <= d < base -> exists e, digit_of (hexdigit d) = Some e /\ 0 <= e < base) as Hdig.
  { intros d Hd. exists d. split; [apply digit_hexdigit; lia|done]. }
  destruct (Z.leb_spec base num) as [Hge|Hlt].
  - destruct (IH (num / base) (w - 1) t) as (ds & -> & [Hds Hv Hs] & _).
    { split; [apply Z.div_pos; lia|]. apply Z.div_lt_upper_bound; lia. }
    { destruct fuel; [cbn in Hn; lia|lia]. }
    { lia. }
    exists (ds ++ [hexdigit (num mod base)]). split; [|split; [split|]].
    + cbn. unfold snoc. rewrite length_app. cbn.
      replace (w - Z.of_nat (length ds + 1)) with (w - 1 - Z.of_nat (length ds)) by lia.
      by rewrite <- !app_assoc.
    + apply Forall_app. split; [done|]. apply Forall_singleton. apply Hdig. apply Z.mod_pos_bound. lia.
    + unfold number_of in *. rewrite foldl_app, Hv. cbn. rewrite digit_hexdigit.
      * cbn. rewrite Z.mul_comm. symmetry. apply Z.div_mod. lia.
      * pose proof (Z.mod_pos_bound num base). lia.
    + right. destruct Hs as [H1|(d & ds' & -> & Hd)]; [|by eexists _, _].
      destruct ds as [|d [|]]; [done| |done]. eexists _, _. split; [done|]. intros ->.
      unfold number_of in Hv. cbn in Hv. pose proof (Z.div_le_lower_bound num base 1 ltac:(lia) ltac:(lia)). lia.
    + lia.
  - exists [hexdigit (num mod base)]. rewrite (Z.mod_small num base) by lia. cbn. split; [|split; [split|]].
    + unfold snoc at 1. by rewrite put_pad_snoc, <- app_assoc.
    + apply Forall_singleton. apply Hdig. lia.
    + unfold number_of. cbn. by rewrite digit_hexdigit by lia.
    + by left.
    + intros ->. done.
Qed.

(** *** Reading digits *)
Lemma numeral_grows base ds u :
  2 <= base -> is_numeral base ds -> 0 <= u -> u <= foldl (fun v c => v * base + default 0 (digit_of c)) u ds.
Proof.
  intros Hb Hds. revert u. induction ds as [|c ds IH]; intros u Hu; cbn [foldl]; [lia|].
  apply Forall_cons in Hds as [(e & He & Her) Hds]. rewrite He. cbn [from_option id].
  assert (u <= u * base + e) by nia. specialize (IH Hds (u * base + e)). lia.
Qed.
Lemma strtol_numeral base ds : forall v rest,
  2 <= base <= 16 -> is_numeral base ds -> 0 <= v -> foldl (fun v c => v * base + default 0 (digit_of c)) v ds < 2 ^ 63 ->
  strtol_digits (ds ++ rest) base v =
  strtol_digits rest base (foldl (fun v c => v * base + default 0 (digit_of c)) v ds).
Proof.
  induction ds as [|c ds IH]; intros v rest Hb Hds Hv Hlt; [done|]. apply Forall_cons in Hds as [(d & Hd & Hdr) Hds].
  cbn [app strtol_digits foldl] in *. rewrite Hd in *. cbn [from_option id] in *. rewrite Z.geb_leb.
  destruct (Z.leb_spec base d); [lia|].
  assert (v * base + d <= foldl (fun v c => v * base + default 0 (digit_of c)) (v * base + d) ds) as Hmono.
  { apply numeral_grows; [lia|done|nia]. }
  assert (0 <= v * base) by nia.
  rewrite (swrap_small 64 (v * base)), (swrap_small 64 (v * base + d)) by lia.
  apply IH; [done|done|lia|done].
Qed.

(** A numeral is read back, in its base and, if it is decimal, also when strtol
    guesses the base. *)
Lemma strtol_read base num ds :
  base = 8 \/ base = 10 \/ base = 16 -> numeral base num ds -> (num = 0 -> ds = [0x30]) -> num < 2 ^ 63 ->
  strtol_digits ds base 0 = (num, []).
Proof.
  intros Hb [Hds Hv _] _ Hlt. rewrite <- (app_nil_r ds).
  rewrite strtol_numeral; [by rewrite <- Hv|lia|done|lia|]. unfold number_of in Hv. by rewrite Hv.
Qed.

Lemma strtol_prefix_10 s : strtol_prefix s 10 = (s, 10).
Proof. unfold strtol_prefix. by repeat case_match. Qed.
Lemma strtol_prefix_0 c s : c <> 0x30 -> strtol_prefix (c :: s) 0 = (c :: s, 10).
Proof. intros Hc. unfold strtol_prefix. by repeat case_match. Qed.

Lemma digit_char c d : digit_of c = Some d -> c <> 0x20 /\ c <> 0x09 /\ c <> 0x2b /\ c <> 0x2d.
Proof. unfold digit_of. intros H. split_and!; intros ->; done. Qed.

(** strtol on an optional minus sign and a string that starts with a digit. *)
Lemma strtol_signed (neg : bool) c d s base :
  digit_of c = Some d ->
  strtol ((if neg then [0x2d] else []) ++ c :: s) base =
  let '(s', base') := strtol_prefix (c :: s) base in
  let '(val, rest) := strtol_digits s' base' 0 in (if neg then i64 (- val) else val, rest).
Proof.
  intros (H1 & H2 & H3 & H4)%digit_char. unfold strtol. destruct neg; cbn [app skip_blanks].
  - done.
  - destruct (Z.eqb_spec c 0x20); [done|]. destruct (Z.eqb_spec c 0x09); [done|]. cbn [orb].
    assert (match c :: s with 0x2b :: s' => (s', false) | 0x2d :: s' => (s', true) | _ => (c :: s, false) end
            = (c :: s, false)) as -> by (repeat case_match; congruence).
    done.
Qed.

(** C24: What "%ld" prints for a [long] other than LONG_MIN, strtol reads back: in base 10 and also when it
    finds the base itself, since no leading zero makes it octal.  Nothing is left of
    the string. *)
Theorem format_strtol_roundtrip z :
  - 2 ^ 63 < z < 2 ^ 63 ->
  exists out, output [0x25; 0x6c; 0x64] [VI z] = Some out /\
    strtol out 10 = (z, []) /\ strtol out 0 = (z, []).
Proof.
  intros Hz. set (neg := z <? 0). set (num := if neg then u64 (- z) else z).
  assert (num = Z.abs z) as Hnum.
  { unfold num, neg. destruct (Z.ltb_spec z 0); [rewrite wrap_small|]; lia. }
  destruct (printnum_numeral 64 num 10 (-1) 0x20 (if neg then [0x2d] else [])) as (ds & Hp & Hnu & H0); [lia| |lia|lia|].
  { rewrite Hnum. split; [lia|]. apply (Z.lt_le_trans _ (2 ^ 63)); [lia|]. by vm_compute. }
  replace (Z.to_nat (-1 - Z.of_nat (length ds))) with 0%nat in Hp by lia. cbn [repeat app] in Hp.
  exists ((if neg then [0x2d] else []) ++ ds). split.
  { unfold output, vprintfmt. cbn -[printnum u64 i64]. rewrite swrap_small by lia.
    unfold put_signed. cbn -[printnum u64 i64]. change (0 <? 0 + 1) with true.
    cbn beta iota. unfold DIGITS. fold neg num. rewrite Hp. done. }
  pose proof (strtol_read 10 num ds ltac:(lia) Hnu H0 ltac:(lia)) as Hr.
  destruct ds as [|c ds']; [destruct Hnu as [_ _ [?|(? & ? & ? & _)]]; done|].
  pose proof (nu_digits _ _ _ Hnu) as [(d & Hd & _) _]%Forall_cons.
  assert ((if neg then i64 (- num) else num) = z) as Hfin.
  { unfold neg in *. destruct (Z.ltb_spec z 0); [rewrite swrap_small|]; lia. }
  rewrite !(strtol_signed _ _ d) by done. rewrite strtol_prefix_10, Hr, Hfin. split; [done|].
  destruct (decide (c = 0x30)) as [->|Hc]; [|by rewrite strtol_prefix_0, Hr, Hfin].
  destruct (nu_short _ _ _ Hnu) as [Hl|(? & ? & [= <- <-] & ?)]; [|done].
  destruct ds' as [|]; [|done]. assert (num = 0) as Hn0.
  { rewrite <- (nu_value _ _ _ Hnu). done. }
  cbn. rewrite <- Hfin, Hn0. by destruct neg.
Qed.

Lemma format_strtol_roundtrip_witness :
  exists out, output [0x25; 0x6c; 0x64] [VI (-1234567890123)] = Some out /\
    strtol out 10 = (-1234567890123, []) /\ strtol out 0 = (-1234567890123, []).
Proof. apply (format_strtol_roundtrip (-1234567890123)). lia. Defined.
