(* ===== verification/Textio.v ===== *)
(** * Text input and output of programs: lib/fprintf.c, lib/console.c, lib/readline.c

    fprintf collects its output in a buffer and hands it to write, whatever device the
    descriptor has; the console device passes it to the kernel in pieces, and reads from
    the keyboard; readline edits a line in its buffer. *)
From S2P Require Import Prelude Mmu CMem Str Printfmt PrintfThms.

(** ** lib/fprintf.c

    [write] is the call of lib/fd.c on the descriptor: what it returns and does depends on
    the device and on the state [W] of the system. *)
Section fprintf.
Context {W : Type} (write : list Z -> W -> Z * W).

Record fprintbuf := mkFprintbuf { fb_idx : Z; fb_result : Z; fb_error : Z; fb_buf : gmap Z Z; fb_world : W }.

Definition writebuf (b : fprintbuf) : fprintbuf :=
  if fb_error b >? 0 then
    let '(r, w) := write (buf_chars (fb_buf b) (fb_idx b)) (fb_world b) in
    let result := if r >? 0 then i64 (fb_result b + r) else fb_result b in
    let error := if negb (r =? fb_idx b) then i32 (if r <? 0 then r else 0) else fb_error b in
    mkFprintbuf (fb_idx b) result error (fb_buf b) w
  else b.

Definition fprintf_putch (ch : Z) (b : fprintbuf) : fprintbuf :=
  let b := mkFprintbuf (i32 (fb_idx b + 1)) (fb_result b) (fb_error b) (<[fb_idx b := u8 ch]> (fb_buf b)) (fb_world b) in
  if fb_idx b =? 256 then
    let b := writebuf b in mkFprintbuf 0 (fb_result b) (fb_error b) (fb_buf b) (fb_world b)
  else b.

(** The result and the state; the buffer has any contents at first. *)
Definition vfprintf (fmt : list Z) (ap : list va) (buf : gmap Z Z) (w : W) : option (Z * W) :=
  b ← vprintfmt fprintf_putch fmt ap (mkFprintbuf 0 0 1 buf w);
  let b := if fb_idx b >? 0 then writebuf b else b in
  Some (i32 (if negb (fb_result b =? 0) then fb_result b else fb_error b), fb_world b).
Definition fprintf (fmt : list Z) (ap : list va) (buf : gmap Z Z) (w : W) : option (Z * W) := vfprintf fmt ap buf w.
Definition printf (fmt : list Z) (ap : list va) (buf : gmap Z Z) (w : W) : option (Z * W) := vfprintf fmt ap buf w.

(** *** What it should do

    Pieces go out one after the other, up to the first that is not taken in full: the
    number of characters taken, 1 or the error, and the state. *)
Fixpoint send (ps : list (list Z)) (taken : Z) (w : W) : Z * Z * W :=
  match ps with
  | [] => (taken, 1, w)
  | p :: ps' =>
      let '(r, w) := write p w in
      let taken := if r >? 0 then taken + r else taken in
      if r =? Z.of_nat (length p) then send ps' taken w
      else (taken, if r <? 0 then r else 0, w)
  end.

(** write returns an error or how many of the characters it took. *)
Hypothesis write_result : forall p w, - 2 ^ 31 <= (write p w).1 <= Z.of_nat (length p).

Lemma send_bounds ps : forall taken w, 0 <= taken ->
  0 <= (send ps taken w).1.1 <= taken + Z.of_nat (length (concat ps)) /\
  ((send ps taken w).1.2 = 1 \/ - 2 ^ 31 <= (send ps taken w).1.2 <= 0).
Proof using write_result.
  induction ps as [|p ps IH]; intros taken w Ht; cbn [send]; [cbn; lia|].
  pose proof (write_result p w) as Hr. destruct (write p w) as [r w1]. cbn [fst] in Hr.
  cbn [concat]. rewrite length_app, Nat2Z.inj_add. rewrite Z.gtb_ltb.
  assert (0 <= (if 0 <? r then taken + r else taken) <= taken + Z.of_nat (length p)) as Htk
    by (destruct (Z.ltb_spec 0 r); lia).
  destruct (Z.eqb_spec r (Z.of_nat (length p))) as [E|E].
  - destruct (IH (if 0 <? r then taken + r else taken) w1) as [H1 H2]; [lia|]. split; [lia|exact H2].
  - cbn [fst snd]. split; [lia|]. right. destruct (Z.ltb_spec r 0); lia.
Qed.

Lemma send_app ps p : forall taken w,
  0 <= taken -> send (ps ++ [p]) taken w =
  (if (send ps taken w).1.2 >? 0 then send [p] (send ps taken w).1.1 (send ps taken w).2 else send ps taken w).
Proof using Type.
  induction ps as [|p' ps IH]; intros taken w Ht; [done|]. cbn [app send]. destruct (write p' w) as [r w1].
  destruct (r =? Z.of_nat (length p')).
  - apply IH. rewrite Z.gtb_ltb. destruct (Z.ltb_spec 0 r); lia.
  - cbn [fst snd]. assert (((if r <? 0 then r else 0) >? 0) = false) as -> by (destruct (Z.ltb_spec r 0); lia). reflexivity.
Qed.

(** The buffer after the output [l]. *)
Record fb_inv (w0 : W) (l : list Z) (b : fprintbuf) (ps : list (list Z)) : Prop := {
  fi_range : 0 <= fb_idx b < 256;
  fi_all : concat ps ++ buf_chars (fb_buf b) (fb_idx b) = List.map u8 l;
  fi_full : Forall (fun p => length p = 256%nat) ps;
  fi_sent : send ps 0 w0 = (fb_result b, fb_error b, fb_world b)
}.

Lemma buf_chars_length buf n : 0 <= n -> Z.of_nat (length (buf_chars buf n)) = n.
Proof using Type. intros Hn. unfold buf_chars. rewrite length_map, length_seqZ. lia. Qed.

Lemma writebuf_sends w0 b ps :
  0 <= fb_idx b -> Z.of_nat (length (concat ps)) + fb_idx b < 2 ^ 31 ->
  send ps 0 w0 = (fb_result b, fb_error b, fb_world b) ->
  let b' := writebuf b in
  send (ps ++ [buf_chars (fb_buf b) (fb_idx b)]) 0 w0 = (fb_result b', fb_error b', fb_world b').
Proof using write_result.
  intros Hi Hl Hs b'. pose proof (send_bounds ps 0 w0 ltac:(lia)) as [Ht He]. rewrite Hs in Ht, He. cbn [fst snd] in Ht, He.
  rewrite send_app by lia. rewrite Hs. cbn [fst snd]. unfold b', writebuf. destruct (fb_error b >? 0) eqn:Eg; [|done].
  assert (fb_error b = 1) as E1 by lia. cbn [send]. set (p := buf_chars (fb_buf b) (fb_idx b)).
  pose proof (write_result p (fb_world b)) as Hr. assert (Z.of_nat (length p) = fb_idx b) as Hp by (by apply buf_chars_length).
  destruct (write p (fb_world b)) as [r w1]. cbn [fst] in Hr. rewrite Hp in *. cbn [fb_result fb_error fb_world].
  rewrite !Z.gtb_ltb. assert ((if 0 <? r then i64 (fb_result b + r) else fb_result b) = (if 0 <? r then fb_result b + r else fb_result b)) as ->.
  { destruct (0 <? r) eqn:E0; [|done]. apply swrap_small; lia. }
  destruct (Z.eqb_spec r (fb_idx b)); cbn [negb]; [by rewrite E1|]. f_equal. f_equal. symmetry. apply swrap_small; [lia|].
  destruct (Z.ltb_spec r 0); lia.
Qed.

Lemma fprintf_putch_inv w0 l b ps c :
  fb_inv w0 l b ps -> Z.of_nat (length l) + 1 < 2 ^ 31 -> exists ps', fb_inv w0 (l ++ [c]) (fprintf_putch c b) ps'.
Proof using write_result.
  intros [Hr Ha Hf Hs] Hl. unfold fprintf_putch. rewrite swrap_small by lia. cbn [fb_idx].
  set (b1 := mkFprintbuf (fb_idx b + 1) (fb_result b) (fb_error b) (<[fb_idx b := u8 c]> (fb_buf b)) (fb_world b)).
  assert (concat ps ++ buf_chars (fb_buf b1) (fb_idx b1) = List.map u8 (l ++ [c])) as Hall.
  { change (fb_buf b1) with (<[fb_idx b := u8 c]> (fb_buf b)). change (fb_idx b1) with (fb_idx b + 1). rewrite buf_chars_S by lia. rewrite app_assoc, Ha, map_app. done. }
  destruct (Z.eqb_spec (fb_idx b + 1) 256) as [E|E].
  2:{ exists ps. split; [cbn; lia|exact Hall|exact Hf|exact Hs]. }
  exists (ps ++ [buf_chars (fb_buf b1) (fb_idx b1)]).
  assert (fb_buf (writebuf b1) = fb_buf b1) as Eb.
  { unfold writebuf. destruct (fb_error b1 >? 0); [|done]. by destruct (write _ _). }
  assert (Z.of_nat (length (concat ps)) + fb_idx b1 < 2 ^ 31) as Hlen.
  { apply (f_equal length) in Hall. rewrite length_app, length_map, length_app in Hall. cbn [length] in Hall.
    pose proof (buf_chars_length (fb_buf b1) (fb_idx b1) ltac:(cbn; lia)). lia. }
  split; cbn [fb_idx fb_buf fb_result fb_error fb_world].
  - lia.
  - rewrite Eb. change (buf_chars (fb_buf b1) 0) with (@nil Z). rewrite app_nil_r, concat_app. cbn [concat]. by rewrite app_nil_r.
  - apply Forall_app. split; [exact Hf|]. apply Forall_singleton.
    pose proof (buf_chars_length (fb_buf b1) (fb_idx b1) ltac:(cbn; lia)) as Hb. change (fb_idx b1) with (fb_idx b + 1) in Hb |- *. lia.
  - apply writebuf_sends; [cbn; lia|exact Hlen|exact Hs].
Qed.

Lemma put_all_fb_inv w0 out : forall l b ps, fb_inv w0 l b ps -> Z.of_nat (length l) + Z.of_nat (length out) < 2 ^ 31 ->
  exists ps', fb_inv w0 (l ++ out) (put_all fprintf_putch out b) ps'.
Proof using write_result.
  induction out as [|c out IH]; intros l b ps Hi Hl; cbn [put_all length] in *; [rewrite app_nil_r; by exists ps|].
  replace (l ++ c :: out) with ((l ++ [c]) ++ out) by by rewrite <- app_assoc.
  destruct (fprintf_putch_inv w0 l b ps c Hi ltac:(lia)) as [ps' Hi']. apply (IH _ _ ps' Hi'). rewrite length_app. cbn. lia.
Qed.

(** fprintf hands its output to write in order, in full buffers of 256 characters and
    a rest, and stops at the first that write does not take in full; it returns the number
    of characters that write took, or if there are none the error. *)
Theorem fprintf_sends fmt ap buf w out :
  output fmt ap = Some out -> Z.of_nat (length out) < 2 ^ 31 ->
  exists ps rest, concat (ps ++ rest) = List.map u8 out /\ Forall (fun p => length p = 256%nat) ps /\
    (rest = [] \/ exists p, rest = [p] /\ (0 < length p < 256)%nat) /\
    let '(taken, err, w') := send (ps ++ rest) 0 w in
    fprintf fmt ap buf w = Some (if taken =? 0 then err else taken, w').
Proof using write_result.
  intros Hout Hlen. unfold fprintf, vfprintf. rewrite vprintfmt_output, Hout. cbn -[put_all].
  destruct (put_all_fb_inv w out [] (mkFprintbuf 0 0 1 buf w) []) as [ps [Hr Ha Hf Hs]]; [by split|done|].
  cbn [app] in *. set (b := put_all fprintf_putch out _) in *. exists ps.
  pose proof (buf_chars_length (fb_buf b) (fb_idx b) ltac:(lia)) as Hb.
  assert (forall rest b', concat (ps ++ rest) = List.map u8 out -> send (ps ++ rest) 0 w = (fb_result b', fb_error b', fb_world b') ->
    let '(taken, err, w') := send (ps ++ rest) 0 w in
    Some (i32 (if negb (fb_result b' =? 0) then fb_result b' else fb_error b'), fb_world b') = Some (if taken =? 0 then err else taken, w')) as Hfin.
  { intros rest b' Hc E. destruct (send_bounds (ps ++ rest) 0 w ltac:(lia)) as [H1 H2]. rewrite E in *. cbn [fst snd] in *.
    rewrite Hc, length_map in H1. f_equal. f_equal. destruct (fb_result b' =? 0); cbn [negb]; apply swrap_small; lia. }
  rewrite Z.gtb_ltb. destruct (Z.ltb_spec 0 (fb_idx b)) as [Hpos|Hz].
  - exists [buf_chars (fb_buf b) (fb_idx b)]. assert (concat (ps ++ [buf_chars (fb_buf b) (fb_idx b)]) = List.map u8 out) as Hc
      by (rewrite concat_app; cbn [concat]; by rewrite app_nil_r).
    split; [exact Hc|]. split; [exact Hf|]. split; [right; eexists; split; [done|lia]|].
    apply (Hfin _ (writebuf b) Hc). apply writebuf_sends; [lia| |exact Hs].
    apply (f_equal length) in Ha. rewrite length_app, length_map in Ha. lia.
  - assert (fb_idx b = 0) as E0 by lia. rewrite E0 in Ha. change (buf_chars (fb_buf b) 0) with (@nil Z) in Ha. rewrite app_nil_r in Ha.
    exists []. rewrite app_nil_r. split; [exact Ha|]. split; [exact Hf|]. split; [by left|].
    pose proof (Hfin [] b) as Hx. rewrite app_nil_r in Hx. by apply Hx.
Qed.
End fprintf.
Arguments mkFprintbuf {W}.

(** ** lib/console.c

    What the kernel returns for the calls of sys_cgetc from now on, 0 when there is no
    key, and the strings given to sys_cputs so far. *)
Record tty := mkTty { t_keys : list Z; t_out : list (list Z) }.
#[export] Instance tty_fields : Fields tty := fun t => mkTty (t_keys t) (t_out t).
Definition tty_cputs (l : list Z) (t : tty) : tty := t <| t_out := t_out t ++ [l] |>.

(** cprintf, of lib/printf.c, whose strings go to sys_cputs; the buffer has any contents. *)
Definition tty_cprintf (fmt : list Z) (ap : list va) (t : tty) : option tty :=
  r ← user_cprintf fmt ap ∅; Some (t <| t_out := t_out t ++ r.2 |>).

Definition tty_cputchar (ch : Z) (t : tty) : tty := tty_cputs [u8 ch] t.

(** The buffer has 128 characters. *)
Fixpoint devcons_write_loop (fuel : nat) (l : list Z) (tot : Z) (t : tty) : option (Z * tty) :=
  match fuel with
  | O => None
  | S fuel' =>
      let n := Z.of_nat (length l) in
      if u64 tot <? n then
        let m := i32 (n - tot) in
        let m := if u64 m >? 128 - 1 then 128 - 1 else m in
        devcons_write_loop fuel' l (i32 (tot + m)) (tty_cputs (take (Z.to_nat m) (drop (Z.to_nat tot) l)) t)
      else Some (tot, t)
  end.
Definition devcons_write (l : list Z) (t : tty) : option (Z * tty) := devcons_write_loop (S (length l)) l 0 t.

(** A character, and the result; [None] if no key is ever pressed. *)
Fixpoint cgetc_loop (keys : list Z) : option (Z * list Z) :=
  match keys with
  | [] => None
  | c :: keys' => if c =? 0 then cgetc_loop keys' else Some (c, keys')
  end.
Definition devcons_read (n : Z) (t : tty) : option (Z * option Z * tty) :=
  if n =? 0 then Some (0, None, t)
  else
    ck ← cgetc_loop (t_keys t);
    let '(c, keys) := ck in
    let t := t <| t_keys := keys |> in
    if c <? 0 then Some (c, None, t) else if c =? 0x04 then Some (0, None, t) else Some (1, Some (u8 c), t).

(** getchar of a program whose descriptor 0 is the console. *)
Definition getchar (t : tty) : option (Z * tty) :=
  r ← devcons_read 1 t;
  let '(r, c, t) := r in
  Some (if r <? 0 then r else if r <? 1 then - E_EOF else default 0 c, t).

(** ** lib/readline.c *)
Definition BUFLEN : Z := 1024.

(** The line, or NULL, with the buffer. *)
Fixpoint readline_loop (fuel : nat) (echoing : bool) (i : Z) (buf : gmap Z Z) (t : tty) : option (option (list Z) * gmap Z Z * tty) :=
  match fuel with
  | O => None
  | S fuel' =>
      ct ← getchar t;
      let '(c, t) := ct in
      let echo ch t := if echoing then tty_cputchar ch t else t in
      if c <? 0 then
        t ← (if negb (c =? - E_EOF) then tty_cprintf (chars "read error: %e" ++ newline) [VI c] t else Some t);
        Some (None, buf, t)
      else if ((c =? 0x08) || (c =? 0x7f)) && (i >? 0) then readline_loop fuel' echoing (i - 1) buf (echo 0x08 t)
      else if (c >=? 0x20) && (i <? BUFLEN - 1) then readline_loop fuel' echoing (i + 1) (<[i := u8 c]> buf) (echo c t)
      else if (c =? 0x0a) || (c =? 0x0d) then
        Some (Some (buf_chars buf i), <[i := 0]> buf, echo 0x0a t)
      else readline_loop fuel' echoing i buf t
  end.

(** [prompt]: the characters of the prompt, which fprintf prints first. *)
Definition readline (prompt : option (list Z)) (echoing : bool) (buf : gmap Z Z) (t : tty) : option (option (list Z) * gmap Z Z * tty) :=
  t ← match prompt with
      | Some p =>
          pt ← fprintf (fun l t => default (- E_INVAL, t) (devcons_write l t)) [0x25; 0x73] [VS (Some p)] ∅ t;
          Some pt.2
      | None => Some t
      end;
  readline_loop (S (length (t_keys t))) echoing 0 buf t.

(** *** Editing on lists

    The keys that end a line, with a line or without one: carriage return and newline,
    and ctl-d and errors. *)
Definition enters (c : Z) : bool := (c =? 0x0a) || (c =? 0x0d).
Definition ends_input (c : Z) : bool := (c <? 0) || (c =? 0x04).

(** What one of the other keys does to the line. *)
Definition type_key (line : list Z) (c : Z) : list Z :=
  if (c =? 0x08) || (c =? 0x7f) then
    if (c =? 0x7f) && bool_decide (line = []) then [c] else removelast line
  else if 0x20 <=? c then take 1023 (line ++ [c])
  else line.
Definition typed (keys : list Z) : list Z := fold_left type_key keys [].

Lemma buf_chars_succ buf n : 0 <= n -> buf_chars buf (n + 1) = buf_chars buf n ++ [default 0 (buf !! n)].
Proof.
  intros Hn. unfold buf_chars. rewrite seqZ_app by lia. rewrite map_app, Z.add_0_l. reflexivity.
Qed.

Lemma buf_chars_pred buf n : 0 < n -> buf_chars buf (n - 1) = removelast (buf_chars buf n).
Proof.
  intros Hn. replace n with (n - 1 + 1) at 2 by lia. rewrite buf_chars_succ by lia.
  rewrite removelast_app by done. cbn. by rewrite app_nil_r.
Qed.

Lemma getchar_key c keys out :
  getchar (mkTty (c :: keys) out) =
  if c =? 0 then getchar (mkTty keys out)
  else Some (if c <? 0 then c else if c =? 0x04 then - E_EOF else u8 c, mkTty keys out).
Proof.
  unfold getchar, devcons_read. cbn [t_keys cgetc_loop]. destruct (Z.eqb_spec c 0); [done|]. cbn.
  destruct (c <? 0) eqn:E; cbn; [by rewrite E|]. by destruct (c =? 4).
Qed.

Lemma type_key_length line c : (length line <= 1023)%nat -> (length (type_key line c) <= 1023)%nat.
Proof.
  intros Hl. unfold type_key. destruct (_ || _); [|destruct (0x20 <=? c); [rewrite length_take; lia|done]].
  destruct (_ && _); [cbn; lia|]. destruct (decide (line = [])) as [->|Hne]; [cbn; lia|].
  rewrite (app_removelast_last 0 Hne), length_app in Hl. lia.
Qed.

(** One key that does not end the line, on the buffer. *)
Lemma readline_loop_key c fuel echoing i buf keys out :
  c < 256 -> c <> 0 -> ends_input c || enters c = false -> 0 <= i < BUFLEN ->
  exists i' buf' out', 0 <= i' < BUFLEN /\ buf_chars buf' i' = type_key (buf_chars buf i) c /\
    (forall j, ~ (0 <= j < BUFLEN) -> buf' !! j = buf !! j) /\
    readline_loop (S fuel) echoing i buf (mkTty (c :: keys) out) = readline_loop fuel echoing i' buf' (mkTty keys out').
Proof.
  unfold ends_input, enters. intros Hc H0 [[Hneg H4]%orb_false_iff Hent]%orb_false_iff Hi.
  cbn [readline_loop]. rewrite getchar_key. destruct (Z.eqb_spec c 0); [done|]. rewrite Hneg, H4. cbn [mbind option_bind].
  rewrite !(wrap_small 8 c) by lia. rewrite Hneg, Hent. unfold type_key. rewrite Z.gtb_ltb, Z.geb_leb.
  assert (Z.of_nat (length (buf_chars buf i)) = i) as Hlen by (apply buf_chars_length; lia).
  assert (bool_decide (buf_chars buf i = []) = (i =? 0)) as ->.
  { destruct (Z.eqb_spec i 0) as [->|Hne]; [done|]. apply bool_decide_false. intros E. rewrite E in Hlen. cbn in Hlen. lia. }
  assert (forall t, exists out', (if echoing then tty_cputchar t (mkTty keys out) else mkTty keys out) = mkTty keys out') as Hecho.
  { intros ch. destruct echoing; by eexists. }
  unfold BUFLEN in *. destruct ((c =? 8) || (c =? 127)) eqn:Ee; cbn [andb].
  - destruct (Z.ltb_spec 0 i) as [Hpos|Hz].
    { destruct (Hecho 8) as [out' ->]. exists (i - 1), buf, out'. split_and!; [lia|lia| |done|done].
      rewrite (proj2 (Z.eqb_neq i 0)), andb_false_r by lia. by rewrite buf_chars_pred by lia. }
    assert (i = 0) as -> by lia. cbn [Z.eqb]. rewrite andb_true_r. change (buf_chars buf 0) with (@nil Z).
    destruct (Z.eqb_spec c 127) as [->|H127].
    + destruct (Hecho 127) as [out' E]. exists 1, (<[0 := 127]> buf), out'. split_and!; [lia|lia| | |cbn; by rewrite E].
      * change 1 with (0 + 1). by rewrite buf_chars_S by lia.
      * intros j Hj. apply lookup_insert_ne. lia.
    + assert (c = 8) as -> by lia. exists 0, buf, out. split_and!; [lia|lia|done..].
  - destruct (Z.leb_spec 32 c) as [Hge|Hlt]; cbn [andb].
    2:{ exists i, buf, out. split_and!; [lia|lia|done..]. }
    destruct (Z.ltb_spec i (1024 - 1)) as [Hroom|Hfull].
    + destruct (Hecho c) as [out' ->]. exists (i + 1), (<[i := c]> buf), out'. split_and!; [lia|lia| | |done].
      * rewrite buf_chars_S by lia. rewrite take_ge; [done|]. rewrite length_app. cbn. lia.
      * intros j Hj. apply lookup_insert_ne. lia.
    + exists i, buf, out. split_and!; [lia|lia| |done|done]. rewrite take_app_le by lia. rewrite take_ge; [done|lia].
Qed.

Lemma readline_loop_no_key fuel echoing i buf keys out :
  readline_loop (S fuel) echoing i buf (mkTty (0 :: keys) out) = readline_loop (S fuel) echoing i buf (mkTty keys out).
Proof. cbn [readline_loop]. by rewrite getchar_key. Qed.

(** The line that is returned, in the buffer with a final zero. *)
Definition line_in (buf' : gmap Z Z) (line : option (list Z)) : Prop :=
  match line with
  | Some l => buf_chars buf' (Z.of_nat (length l)) = l /\ buf' !! Z.of_nat (length l) = Some 0
  | None => True
  end.

Lemma readline_loop_end e fuel echoing i buf keys out :
  - 2 ^ 31 < e < 256 -> ends_input e || enters e = true -> 0 <= i < BUFLEN ->
  exists buf' out', readline_loop (S fuel) echoing i buf (mkTty (e :: keys) out) =
    Some (if enters e then Some (buf_chars buf i) else None, buf', mkTty keys out') /\
    (forall j, ~ (0 <= j < BUFLEN) -> buf' !! j = buf !! j) /\
    line_in buf' (if enters e then Some (buf_chars buf i) else None).
Proof.
  unfold ends_input, enters. intros He Hend Hi. cbn [readline_loop]. rewrite getchar_key.
  assert (Z.of_nat (length (buf_chars buf i)) = i) as Hlen by (apply buf_chars_length; lia).
  destruct (Z.eqb_spec e 0) as [->|_]; [done|]. cbn [mbind option_bind].
  destruct (Z.ltb_spec e 0) as [Hneg|Hpos]; cbn [orb] in Hend.
  { rewrite (proj2 (Z.ltb_lt e 0)) by lia. assert ((e =? 10) || (e =? 13) = false) as -> by lia.
    destruct (negb (e =? - E_EOF)); [|exists buf, out; by split_and!].
    destruct (vprintfmt_loop_total user_putch (length (chars "read error: %e" ++ newline) + 1)
      (chars "read error: %e" ++ newline) [VI e] [] (mkPrintbuf 0 0 ∅ [])) as [b Hb]; [lia| |].
    { vm_compute kinds. constructor; [|done]. unfold suits. rewrite swrap_small; lia. }
    unfold tty_cprintf, user_cprintf, user_vcprintf, vprintfmt. rewrite app_nil_r in Hb. rewrite Hb. cbn [mbind option_bind snd]. eexists buf, _. split; [reflexivity|]. by split. }
  destruct (Z.eqb_spec e 4) as [->|H4].
  { change (- E_EOF <? 0) with true. rewrite Z.eqb_refl. change ((4 =? 10) || (4 =? 13)) with false.
    cbn [negb mbind option_bind]. exists buf, out. by split_and!. }
  cbn [orb] in Hend. rewrite wrap_small by lia.
  rewrite (proj2 (Z.ltb_ge e 0)) by lia. assert ((e =? 8) || (e =? 127) = false) as -> by lia. cbn [andb].
  rewrite Z.geb_leb, (proj2 (Z.leb_gt 32 e)) by lia. cbn [andb]. rewrite Hend.
  exists (<[i := 0]> buf), (if echoing then out ++ [[10]] else out). split; [by destruct echoing|]. split.
  - intros j Hj. apply lookup_insert_ne. lia.
  - cbn. rewrite Hlen. split; [|apply lookup_insert_eq]. unfold buf_chars. apply map_ext_in.
    intros j Hj%list_elem_of_In%elem_of_seqZ. by rewrite lookup_insert_ne by lia.
Qed.

Lemma readline_loop_edits e after before : forall fuel echoing i buf out,
  Forall (fun c => c < 256 /\ ends_input c || enters c = false) before ->
  - 2 ^ 31 < e < 256 -> ends_input e || enters e = true ->
  (length before < fuel)%nat -> 0 <= i < BUFLEN ->
  exists buf' out' line, line = (if enters e then Some (fold_left type_key before (buf_chars buf i)) else None) /\
    readline_loop fuel echoing i buf (mkTty (before ++ e :: after) out) = Some (line, buf', mkTty after out') /\
    (forall j, ~ (0 <= j < BUFLEN) -> buf' !! j = buf !! j) /\ line_in buf' line.
Proof.
  induction before as [|c before IH]; intros [|fuel] echoing i buf out Hk He Hend Hf Hi; cbn [length] in Hf; try lia.
  { destruct (readline_loop_end e fuel echoing i buf after out He Hend Hi) as (buf' & out' & E & Hb & Hl). by eauto 10. }
  apply Forall_cons in Hk as [[Hc Hn] Hk]. cbn [app fold_left]. destruct (decide (c = 0)) as [->|H0].
  { rewrite readline_loop_no_key. apply (IH (S fuel) echoing i buf out); [done..|lia|done]. }
  destruct (readline_loop_key c fuel echoing i buf (before ++ e :: after) out Hc H0 Hn Hi) as (i' & buf' & out' & Hi' & E & Hb & ->).
  destruct (IH fuel echoing i' buf' out' Hk He Hend ltac:(lia) Hi') as (b2 & o2 & line & -> & E2 & Hb2 & Hl). rewrite E in *.
  eexists b2, o2, _. split; [reflexivity|]. split_and!; [exact E2| |exact Hl]. intros j Hj. rewrite Hb2 by done. by apply Hb.
Qed.

(** *** The console gets all of it *)
Lemma devcons_write_loop_ok fuel : forall l tot t,
  Z.of_nat (length l) < 2 ^ 31 -> 0 <= tot <= Z.of_nat (length l) -> Z.of_nat (length l) - tot < Z.of_nat fuel ->
  exists ps, devcons_write_loop fuel l tot t = Some (Z.of_nat (length l), t <| t_out := t_out t ++ ps |>) /\
    concat ps = drop (Z.to_nat tot) l /\ Forall (fun p => (0 < length p <= 127)%nat) ps.
Proof.
  induction fuel as [|fuel IH]; intros l tot t Hl Ht Hf; [lia|]. cbn [devcons_write_loop].
  rewrite (wrap_small 64 tot) by lia. destruct (Z.ltb_spec tot (Z.of_nat (length l))) as [Hlt|Hge].
  2:{ exists []. assert (tot = Z.of_nat (length l)) as -> by lia. rewrite Nat2Z.id, drop_all. split; [|done].
      destruct t. cbn. by rewrite app_nil_r. }
  rewrite (swrap_small 32 (Z.of_nat (length l) - tot)) by lia. rewrite (wrap_small 64 (Z.of_nat (length l) - tot)) by lia.
  set (m := if Z.of_nat (length l) - tot >? 128 - 1 then 128 - 1 else Z.of_nat (length l) - tot).
  assert (0 < m <= 127 /\ tot + m <= Z.of_nat (length l)) as [Hm Hm']
    by (unfold m; rewrite Z.gtb_ltb; destruct (Z.ltb_spec (128 - 1) (Z.of_nat (length l) - tot)); lia).
  rewrite swrap_small by lia. destruct (IH l (tot + m) (tty_cputs (take (Z.to_nat m) (drop (Z.to_nat tot) l)) t)) as (ps & -> & Hc & Hp); [lia..|].
  eexists (_ :: ps). split; [|split].
  - cbn. by rewrite <- app_assoc.
  - cbn [concat]. rewrite Hc. replace (Z.to_nat (tot + m)) with (Z.to_nat tot + Z.to_nat m)%nat by lia.
    rewrite <- drop_drop. apply take_drop.
  - constructor; [|exact Hp]. rewrite length_take, length_drop. lia.
Qed.

(** The console device passes all characters to the kernel, in order and in pieces that
    fit its buffer with a final zero, and returns their number. *)
Theorem devcons_write_all l t :
  Z.of_nat (length l) < 2 ^ 31 ->
  exists ps, devcons_write l t = Some (Z.of_nat (length l), t <| t_out := t_out t ++ ps |>) /\
    concat ps = l /\ Forall (fun p => (0 < length p <= 127)%nat) ps.
Proof. intros Hl. apply (devcons_write_loop_ok (S (length l)) l 0 t); lia. Qed.

Lemma devcons_write_all_witness :
  exists ps, devcons_write (repeat 0x61 200) (mkTty [] []) = Some (200, mkTty [] ps) /\ concat ps = repeat 0x61 200.
Proof.
  destruct (devcons_write_all (repeat 0x61 200) (mkTty [] [])) as (ps & E & Hc & _); [reflexivity|].
  exists ps. split; [exact E|exact Hc].
Defined.

(** *** readline *)

(** The prompt is printed, and takes no key. *)
Lemma devcons_write_keys fuel l : forall tot t r, devcons_write_loop fuel l tot t = Some r -> t_keys r.2 = t_keys t.
Proof.
  induction fuel as [|fuel IH]; intros tot t r; cbn [devcons_write_loop]; [done|].
  destruct (u64 tot <? _); [|by intros [= <-]]. intros H%IH. exact H.
Qed.
Definition cons_write (l : list Z) (t : tty) : Z * tty := default (- E_INVAL, t) (devcons_write l t).
Lemma cons_write_keys l t : t_keys (cons_write l t).2 = t_keys t.
Proof.
  unfold cons_write. destruct (devcons_write l t) as [r|] eqn:E; [|done]. by eapply devcons_write_keys.
Qed.
Lemma writebuf_keys b : t_keys (fb_world (writebuf cons_write b)) = t_keys (fb_world b).
Proof.
  unfold writebuf. destruct (fb_error b >? 0); [|done]. pose proof (cons_write_keys (buf_chars (fb_buf b) (fb_idx b)) (fb_world b)) as H.
  by destruct (cons_write _ _).
Qed.
Lemma put_all_keys out : forall b, t_keys (fb_world (put_all (fprintf_putch cons_write) out b)) = t_keys (fb_world b).
Proof.
  induction out as [|c out IH]; intros b; cbn [put_all]; [done|]. rewrite IH. unfold fprintf_putch.
  destruct (_ =? 256); [|done]. cbn [fb_world]. by rewrite writebuf_keys.
Qed.
Lemma prompt_keys p t : exists r, fprintf cons_write [0x25; 0x73] [VS (Some p)] ∅ t = Some r /\ t_keys r.2 = t_keys t.
Proof.
  unfold fprintf, vfprintf. rewrite vprintfmt_output.
  destruct (vprintfmt_loop_total snoc 3 [0x25; 0x73] [VS (Some p)] [] []) as [out Hout]; [cbn; lia|by repeat constructor|].
  change (output [0x25; 0x73] [VS (Some p)]) with (vprintfmt_loop snoc 3 [0x25; 0x73] ([VS (Some p)] ++ []) []).
  rewrite Hout. cbn -[put_all]. eexists. split; [reflexivity|]. cbn [snd].
  destruct (_ >? 0); rewrite ?writebuf_keys; by rewrite put_all_keys.
Qed.

(** C32: readline on the console, with any prompt or none, returns the line that the keys up
    to the end of the line make when they are typed into a list: backspace and DEL take
    the last character away, a line has at most BUFLEN-1 characters and further ones are
    dropped, other control characters do nothing; but DEL with nothing on the line is
    entered as a character, where backspace does nothing.  Return and newline end the line,
    ctl-d and an error give NULL.  readline takes exactly the keys up to there, whatever
    follows them, leaves the line in its buffer with a final zero, and stores nothing
    outside the buffer. *)
Theorem readline_edits prompt echoing buf t before e after :
  t_keys t = before ++ e :: after ->
  Forall (fun c => c < 256 /\ ends_input c || enters c = false) before ->
  - 2 ^ 31 < e < 256 -> ends_input e || enters e = true ->
  exists buf' t' line, line = (if enters e then Some (typed before) else None) /\
    readline prompt echoing buf t = Some (line, buf', t') /\ t_keys t' = after /\
    (forall j, ~ (0 <= j < BUFLEN) -> buf' !! j = buf !! j) /\ line_in buf' line.
Proof.
  intros Ht Hk He Hend.
  assert (exists t1, t_keys t1 = t_keys t /\
    readline prompt echoing buf t = readline_loop (S (length (t_keys t1))) echoing 0 buf t1) as (t1 & Hk1 & ->).
  { unfold readline. destruct prompt as [p|]; [|by exists t]. destruct (prompt_keys p t) as (r & E & Hr).
    change (fun l t0 => default _ (devcons_write l t0)) with cons_write. rewrite E. by exists r.2. }
  destruct t1 as [keys out]. cbn [t_keys] in *. rewrite Ht in Hk1. subst keys.
  destruct (readline_loop_edits e after before (S (length (before ++ e :: after))) echoing 0 buf out Hk He Hend)
    as (buf' & out' & line & Hl & E & Hb & Hin); [rewrite length_app; lia|done|].
  exists buf', (mkTty after out'), line. by split_and!.
Qed.

(** "> " is printed; "a", "b", erase, "c", return; "d" is left for the next line. *)
Lemma readline_edits_witness :
  exists buf' t', readline (Some [0x3e; 0x20]) true ∅ (mkTty [0x61; 0; 0x62; 0x08; 0x63; 0x0d; 0x64] [])
    = Some (Some [0x61; 0x63], buf', t') /\ t_keys t' = [0x64].
Proof.
  destruct (readline_edits (Some [0x3e; 0x20]) true ∅ (mkTty [0x61; 0; 0x62; 0x08; 0x63; 0x0d; 0x64] [])
    [0x61; 0; 0x62; 0x08; 0x63] 0x0d [0x64]) as (buf' & t' & line & Hl & E & Hk & _).
  - reflexivity.
  - repeat constructor.
  - lia.
  - reflexivity.
  - exists buf', t'. vm_compute in Hl. rewrite Hl in E. split; [exact E|exact Hk].
Defined.

(** Printable characters are the line, up to its length, and a character that is erased
    leaves no trace. *)
Lemma typed_text l : Forall (fun c => 0x20 <= c /\ c <> 0x7f) l -> typed l = take 1023 l.
Proof.
  intros Hl. unfold typed. rewrite <- (app_nil_l l) at 2. assert (length (@nil Z) <= 1023)%nat as H0 by (cbn; lia).
  revert H0. generalize (@nil Z) as line. induction l as [|c l IH]; intros line H0; cbn [fold_left].
  { by rewrite app_nil_r, take_ge. }
  apply Forall_cons in Hl as [[Hc Hd] Hl]. rewrite (IH Hl) by (by apply type_key_length).
  unfold type_key. assert ((c =? 8) || (c =? 127) = false) as -> by lia. rewrite (proj2 (Z.leb_le 32 c)) by lia.
  destruct (decide (length line = 1023%nat)) as [E|E].
  - assert (take 1023 (line ++ [c]) = line) as -> by (rewrite take_app_le, take_ge by lia; done).
    by rewrite !take_app_le by lia.
  - rewrite (take_ge (line ++ [c])); [by rewrite <- app_assoc|]. rewrite length_app. cbn. lia.
Qed.
Lemma typed_erase l c e :
  0x20 <= c -> c <> 0x7f -> e = 0x08 \/ e = 0x7f -> (length (typed l) < 1023)%nat -> typed (l ++ [c; e]) = typed l.
Proof.
  intros Hc Hd He Hl. unfold typed in *. rewrite fold_left_app. cbn [fold_left]. set (line := fold_left type_key l []) in *.
  unfold type_key. assert ((c =? 8) || (c =? 127) = false) as -> by lia. rewrite (proj2 (Z.leb_le 32 c)) by lia.
  assert ((e =? 8) || (e =? 127) = true) as -> by lia. rewrite take_ge by (rewrite length_app; cbn; lia).
  rewrite bool_decide_false, andb_false_r by (by destruct line). rewrite removelast_app by done. cbn. by rewrite app_nil_r.
Qed.

(** Erasing at the beginning of a line with the key DEL enters it as a character. *)
Example del_at_line_start :
  (fun r => r.1.1) <$> readline None true ∅ (mkTty [0x7f; 0x0a] []) = Some (Some [0x7f]) /\
  (fun r => r.1.1) <$> readline None true ∅ (mkTty [0x08; 0x0a] []) = Some (Some []).
Proof. split; reflexivity. Qed.

(** fprintf of nothing returns 1: its error at the start. *)
Example fprintf_of_nothing {W} (write : list Z -> W -> Z * W) w : fprintf write [] [] ∅ w = Some (1, w).
Proof. reflexivity. Qed.

(** A write that takes nothing of the second buffer. *)
Lemma fprintf_sends_witness :
  let write (p : list Z) (n : Z) := (if n =? 0 then Z.of_nat (length p) else 0, n + 1) in
  exists ps rest, concat (ps ++ rest) = repeat 0x61 300 /\ Forall (fun p => length p = 256%nat) ps /\
    let '(taken, err, w') := send write (ps ++ rest) 0 0 in
    fprintf write (repeat 0x61 300) [] ∅ 0 = Some (if taken =? 0 then err else taken, w').
Proof.
  intros write. destruct (fprintf_sends write) with (fmt := repeat 0x61 300) (ap := @nil va) (buf := ∅ : gmap Z Z) (w := 0) (out := repeat 0x61 300)
    as (ps & rest & Hc & Hf & _ & E).
  - intros p n. unfold write. cbn [fst]. destruct (n =? 0); lia.
  - reflexivity.
  - reflexivity.
  - exists ps, rest. split; [exact Hc|]. split; [exact Hf|exact E].
Defined.
