(* ===== verification/KState.v ===== *)
(** * The kernel's state

    The structures of inc/memlayout.h (struct Page), inc/trap.h (PushRegs,
    Trapframe), inc/env.h (struct Env), kern/cpu.h (struct Cpu) and the global
    variables of kern/pmap.c, kern/env.c, kern/sched.c and kern/time.c, with the
    kernel's way of reading and writing memory.

    The arrays [pages] and [envs] are maps from array indices; a pointer into
    one of them is the index it points at, and NULL is [None].  Physical memory
    is a byte memory.  Kernel virtual addresses at or above KERNBASE are the
    direct map of physical memory; other addresses go through the page tables
    that CR3 names, as the processor does it (all four levels present; for a
    write, all four writable, since CR0.WP is set). *)
From S2P Require Import Prelude Mmu CMem Console Printfmt PrintfThms.

(** ** struct Page *)
Record Page := mkPage { pp_link : option Z; pp_ref : Z }.
#[export] Instance Page_fields : Fields Page := fun p => mkPage (pp_link p) (pp_ref p).

(** ** struct PushRegs, struct Trapframe *)
Record PushRegs := mkPushRegs {
  reg_r15 : Z; reg_r14 : Z; reg_r13 : Z; reg_r12 : Z; reg_r11 : Z; reg_r10 : Z;
  reg_r9 : Z; reg_r8 : Z; reg_rsi : Z; reg_rdi : Z; reg_rbp : Z; reg_rdx : Z;
  reg_rcx : Z; reg_rbx : Z; reg_rax : Z
}.
#[export] Instance PushRegs_fields : Fields PushRegs := fun r =>
  mkPushRegs (reg_r15 r) (reg_r14 r) (reg_r13 r) (reg_r12 r) (reg_r11 r) (reg_r10 r)
    (reg_r9 r) (reg_r8 r) (reg_rsi r) (reg_rdi r) (reg_rbp r) (reg_rdx r)
    (reg_rcx r) (reg_rbx r) (reg_rax r).
Definition zero_regs : PushRegs := mkPushRegs 0 0 0 0 0 0 0 0 0 0 0 0 0 0 0.

Record Trapframe := mkTrapframe {
  tf_regs : PushRegs; tf_es : Z; tf_ds : Z; tf_trapno : Z; tf_err : Z; tf_rip : Z;
  tf_cs : Z; tf_eflags : Z; tf_rsp : Z; tf_ss : Z
}.
#[export] Instance Trapframe_fields : Fields Trapframe := fun t =>
  mkTrapframe (tf_regs t) (tf_es t) (tf_ds t) (tf_trapno t) (tf_err t) (tf_rip t)
    (tf_cs t) (tf_eflags t) (tf_rsp t) (tf_ss t).
Definition zero_tf : Trapframe := mkTrapframe zero_regs 0 0 0 0 0 0 0 0 0.

(** ** struct Env *)
Inductive EnvStatus :=
  ENV_FREE | ENV_DYING | ENV_RUNNABLE | ENV_RUNNING | ENV_NOT_RUNNABLE.
Inductive EnvType := ENV_TYPE_USER | ENV_TYPE_IDLE | ENV_TYPE_FS | ENV_TYPE_NS.
(** The value of the enumeration. *)
Definition status_number (st : EnvStatus) : Z :=
  match st with
  | ENV_FREE => 0 | ENV_DYING => 1 | ENV_RUNNABLE => 2 | ENV_RUNNING => 3 | ENV_NOT_RUNNABLE => 4
  end.
#[export] Instance EnvStatus_eq_dec : EqDecision EnvStatus.
Proof. solve_decision. Defined.
#[export] Instance EnvType_eq_dec : EqDecision EnvType.
Proof. solve_decision. Defined.

Record Env := mkEnv {
  env_tf : Trapframe; env_link : option Z; env_id : Z; env_parent_id : Z;
  env_type : EnvType; env_status : EnvStatus; env_runs : Z; env_cpunum : Z;
  env_pml4e : Z; env_cr3 : Z; env_pgfault_upcall : Z; env_ipc_recving : bool;
  env_ipc_dstva : Z; env_ipc_value : Z; env_ipc_from : Z; env_ipc_perm : Z
}.
#[export] Instance Env_fields : Fields Env := fun e =>
  mkEnv (env_tf e) (env_link e) (env_id e) (env_parent_id e) (env_type e)
    (env_status e) (env_runs e) (env_cpunum e) (env_pml4e e) (env_cr3 e)
    (env_pgfault_upcall e) (env_ipc_recving e) (env_ipc_dstva e) (env_ipc_value e)
    (env_ipc_from e) (env_ipc_perm e).
Definition zero_env : Env :=
  mkEnv zero_tf None 0 0 ENV_TYPE_USER ENV_FREE 0 0 0 0 0 false 0 0 0 0.

Definition LOG2NENV : Z := 10.
Definition NENV : Z := Z.shiftl 1 LOG2NENV.
Definition ENVX (envid : Z) : Z := Z.land envid (NENV - 1).
Definition NCPU : Z := 8.
#[export] Hint Unfold LOG2NENV NCPU : jos_consts.

(** ** The network card: struct tx_desc, struct rcv_desc and the driver's arrays *)
Record TxDesc := mkTxDesc {
  tx_addr : Z; tx_length : Z; tx_cso : Z; tx_cmd : Z; tx_status : Z; tx_css : Z; tx_special : Z
}.
Record RcvDesc := mkRcvDesc {
  rcv_addr : Z; rcv_length : Z; rcv_chksum : Z; rcv_status : Z; rcv_errors : Z; rcv_special : Z
}.
#[export] Instance TxDesc_fields : Fields TxDesc := fun d =>
  mkTxDesc (tx_addr d) (tx_length d) (tx_cso d) (tx_cmd d) (tx_status d) (tx_css d) (tx_special d).
#[export] Instance RcvDesc_fields : Fields RcvDesc := fun d =>
  mkRcvDesc (rcv_addr d) (rcv_length d) (rcv_chksum d) (rcv_status d) (rcv_errors d) (rcv_special d).
Record Nic := mkNic {
  e1000_regs : gmap Z Z;           (* the MMIO registers, by 32-bit word index *)
  tx_desc_array : gmap Z TxDesc; tx_pkt_bufs : bytes;
  rcv_desc_array : gmap Z RcvDesc; rcv_pkt_bufs : bytes
}.
#[export] Instance Nic_fields : Fields Nic := fun n =>
  mkNic (e1000_regs n) (tx_desc_array n) (tx_pkt_bufs n) (rcv_desc_array n) (rcv_pkt_bufs n).

(** ** The global variables *)
Record kstate := mkState {
  (* the machine *)
  mem : bytes;                     (* physical memory *)
  cr3 : Z;                         (* of the CPU that runs the kernel code *)
  cpunum : Z;                      (* its number: lapic[ID] >> 24 *)
  invlpgs : list Z;                (* addresses given to invlpg, latest first *)
  (* kern/pmap.c *)
  npages : Z; npages_basemem : Z;
  boot_pml4e : Z; boot_cr3 : Z;
  pages : gmap Z Page;
  page_free_list : option Z;
  nextfree : Z;
  mmio_base : Z;
  user_mem_check_addr : Z;
  (* kern/env.c, kern/cpu.h *)
  envs : gmap Z Env;
  env_free_list : option Z;
  cpu_env : gmap Z Z;              (* cpus[i].cpu_env; absent is NULL *)
  kernel_lock : option Z;          (* the CPU that holds the big kernel lock *)
  (* kern/time.c *)
  ticks : Z;
  (* kern/init.c *)
  panicstr : bool;                 (* some CPU has called panic() *)
  (* kern/console.c, kern/e1000.c *)
  cons : Console; nic : Nic;
  eois : Z                         (* writes to the local APIC's EOI register *)
}.
#[export] Instance kstate_fields : Fields kstate := fun s =>
  mkState (mem s) (cr3 s) (cpunum s) (invlpgs s) (npages s) (npages_basemem s)
    (boot_pml4e s) (boot_cr3 s) (pages s) (page_free_list s) (nextfree s)
    (mmio_base s) (user_mem_check_addr s) (envs s) (env_free_list s) (cpu_env s)
    (kernel_lock s) (ticks s) (panicstr s) (cons s) (nic s) (eois s).

(** How kernel code fails to return to its caller. *)
Inductive kstop :=
| Panic                 (* panic(), or a failed assert() *)
| KernelFault (va : Z)  (* the processor faults in kernel mode: page_fault_handler panics *)
| Undefined             (* C leaves the behaviour undefined: NULL or out-of-bounds access *)
| Diverge               (* a loop of the code did not end *)
| RunEnv (e : Z)        (* iretq into environment [e] *)
| MonitorLoop           (* while (1) monitor(NULL) *)
| Deadlock              (* spins for ever on a lock that another CPU holds *)
| Halt.                 (* hlt with interrupts disabled *)

Abbreviation K := (M kstate kstop).

(** ** cprintf, of kern/printf.c, on the console of the machine *)
Definition cprintf (fmt : list Z) (ap : list va) : K unit := fun s =>
  match kern_cprintf cputchar fmt ap (cons s) with
  | Some (_, c) => Ret tt (s <| cons := c |>)
  | None => Stop Undefined s
  end.

(** The console gets the characters of the output, in order. *)
Lemma cprintf_output fmt ap s out :
  output fmt ap = Some out -> cprintf fmt ap s = Ret tt (s <| cons := put_all cputchar out (cons s) |>).
Proof.
  intros Hout. unfold cprintf. by rewrite (kern_cprintf_count cputchar fmt ap (cons s) out Hout).
Qed.

(** With the arguments the format asks for, it returns, and only the console changes. *)
Lemma cprintf_returns fmt ap s :
  Forall2 suits (kinds (length fmt + 1) fmt) ap -> exists c, cprintf fmt ap s = Ret tt (s <| cons := c |>).
Proof.
  intros Ha. unfold cprintf, kern_cprintf, kern_vcprintf.
  destruct (vprintfmt_loop_total (kern_putch cputchar) (length fmt + 1) fmt ap [] (cons s, 0)) as [t Ht]; [lia|done|].
  rewrite app_nil_r in Ht. unfold vprintfmt. rewrite Ht. eexists. done.
Qed.
Lemma bind_cprintf {A} fmt ap (k : unit -> K A) s :
  Forall2 suits (kinds (length fmt + 1) fmt) ap ->
  exists c, (cprintf fmt ap ≫= k) s = k tt (s <| cons := c |>).
Proof. intros [c Hc]%(cprintf_returns _ _ s). exists c. by rewrite (bind_Ret _ _ _ _ _ Hc). Qed.

Lemma wp_cprintf fmt ap s Q :
  Forall2 suits (kinds (length fmt + 1) fmt) ap -> (forall c, Q tt (s <| cons := c |>)) -> wp (cprintf fmt ap) s Q.
Proof. intros [c Hc]%(cprintf_returns _ _ s) HQ. apply wp_elim. do 2 eexists. split; [exact Hc|apply HQ]. Qed.

(** The state after the cprintf at the head of a program; the arguments fit the
    formats, which are constants. *)
Ltac prints c :=
  match goal with
  | |- context [(cprintf ?f ?a ≫= ?k) ?s] =>
      let H := fresh in
      destruct (bind_cprintf f a k s) as [c H]; [vm_compute kinds; by repeat constructor|]; rewrite H; clear H
  end.
Ltac wprints c := apply wp_cprintf; [vm_compute kinds; by repeat constructor|intros c].

(** ** Address translation *)
Definition mmu_entry_ok (write : bool) (e : Z) : bool :=
  negb (Z.land e PTE_P =? 0) && (negb write || negb (Z.land e PTE_W =? 0)).

Definition mmu (m : bytes) (root : Z) (write : bool) (va : Z) : option Z :=
  let e4 := ld64 m (PTE_ADDR root + 8 * PML4 va) in
  if mmu_entry_ok write e4 then
    let e3 := ld64 m (PTE_ADDR e4 + 8 * PDPE va) in
    if mmu_entry_ok write e3 then
      let e2 := ld64 m (PTE_ADDR e3 + 8 * PDX va) in
      if mmu_entry_ok write e2 then
        let e1 := ld64 m (PTE_ADDR e2 + 8 * PTX va) in
        if mmu_entry_ok write e1 then Some (PTE_ADDR e1 + PGOFF va) else None
      else None
    else None
  else None.

Definition translate (write : bool) (va : Z) : K Z := fun s =>
  if (KERNBASE <=? va) && (va <? 2 ^ 32) then Ret (va - KERNBASE) s
  else match mmu (mem s) (cr3 s) write va with
       | Some pa => Ret pa s
       | None => Stop (KernelFault va) s
       end.

Definition load8 (va : Z) : K Z := pa ← translate false va; gets (fun s => ld8 (mem s) pa).
Definition store8 (va v : Z) : K unit :=
  pa ← translate true va; modify (fun s => s <| mem := st8 (mem s) pa v |>).

Fixpoint loadn (n : nat) (va : Z) : K Z :=
  match n with
  | O => mret 0
  | S n' => b ← load8 va; r ← loadn n' (va + 1); mret (b + 256 * r)
  end.
Fixpoint storen (n : nat) (va v : Z) : K unit :=
  match n with
  | O => mret tt
  | S n' => store8 va v;; storen n' (va + 1) (v / 256)
  end.

(** A 64-bit access.  In the direct map it is one access to physical memory. *)
Definition load64 (va : Z) : K Z :=
  if (KERNBASE <=? va) && (va + 8 <=? 2 ^ 32)
  then gets (fun s => ld64 (mem s) (va - KERNBASE)) else loadn 8 va.
Definition store64 (va v : Z) : K unit :=
  if (KERNBASE <=? va) && (va + 8 <=? 2 ^ 32)
  then modify (fun s => s <| mem := st64 (mem s) (va - KERNBASE) v |>) else storen 8 va v.

(** ** Array elements *)
Definition get_page (pp : Z) : K Page := fun s =>
  match pages s !! pp with Some p => Ret p s | None => Stop Undefined s end.
Definition put_page (pp : Z) (p : Page) : K unit := fun s =>
  match pages s !! pp with
  | Some _ => Ret tt (s <| pages := <[pp := p]> (pages s) |>)
  | None => Stop Undefined s
  end.
Definition get_env (e : Z) : K Env := fun s =>
  match envs s !! e with Some v => Ret v s | None => Stop Undefined s end.
Definition put_env (e : Z) (v : Env) : K unit := fun s =>
  match envs s !! e with
  | Some _ => Ret tt (s <| envs := <[e := v]> (envs s) |>)
  | None => Stop Undefined s
  end.
Definition update_env (e : Z) (f : Env -> Env) : K unit :=
  v ← get_env e; put_env e (f v).

(** [thiscpu->cpu_env], read and assigned. *)
Definition curenv : K (option Z) := gets (fun s => cpu_env s !! cpunum s).
Definition set_curenv (e : option Z) : K unit :=
  modify (fun s => s <| cpu_env := partial_alter (fun _ => e) (cpunum s) (cpu_env s) |>).
Definition the_curenv : K Z :=
  ce ← curenv; match ce with Some e => mret e | None => stop Undefined end.

(** ** PADDR, KADDR and the conversions of kern/pmap.h *)
Definition PADDR (kva : Z) : K Z :=
  if kva <? KERNBASE then stop Panic else mret (kva - KERNBASE).

(** The page number is truncated to 32 bits before it is compared. *)
Definition KADDR (pa : Z) : K Z :=
  n ← gets npages;
  if n <=? u32 (PPN pa) then stop Panic else mret (u64 (pa + KERNBASE)).

Definition page2pa (pp : Z) : Z := u64 (Z.shiftl pp PGSHIFT).
Definition pa2page (pa : Z) : K Z :=
  n ← gets npages; if n <=? PPN pa then stop Panic else mret (PPN pa).
Definition page2kva (pp : Z) : K Z := KADDR (page2pa pp).
