(* ===== verification/Pmap.v ===== *)
(** * Physical pages and page tables: kern/pmap.c

    The operations of kern/pmap.c, one definition per function: the boot-time
    allocator, the page allocator with its linked free list, the four-level page
    table walk that allocates tables on demand, insertion, lookup and removal of
    mappings, the boot-time and MMIO mappings, and the check of user pointers.
    The specifications are in FreeList, PageTable and PmapSpec. *)
From S2P Require Import Prelude Mmu CMem Printfmt KState.

Definition BOOT_PAGE_TABLE_START : Z := 0xf0008000.
Definition BOOT_PAGE_TABLE_END : Z := 0xf000e000.
Definition NVRAM_BASELO : Z := 0x15.
Definition NVRAM_EXTLO : Z := 0x17.
Definition ALLOC_ZERO : Z := Z.shiftl 1 0.

(** [memset] on a page of the direct map. *)
Definition kmemset (kva c n : Z) : K unit :=
  modify (fun s => s <| mem := memset (mem s) (kva - KERNBASE) c n |>).

(** ** Memory detection and the boot-time allocator *)

(** [mc146818_read] reads a byte register of the CMOS clock chip. *)
Definition nvram_read (mc146818_read : Z -> Z) (r : Z) : Z :=
  Z.lor (mc146818_read r) (Z.shiftl (mc146818_read (r + 1)) 8).

Definition i386_detect_memory (mc146818_read : Z -> Z) : K unit :=
  let basemem := nvram_read mc146818_read NVRAM_BASELO * 1024 / PGSIZE in
  let extmem := nvram_read mc146818_read NVRAM_EXTLO * 1024 / PGSIZE in
  modify (fun s => s <| npages_basemem := basemem |>);;
  if negb (extmem =? 0)
  then modify (fun s => s <| npages := EXTPHYSMEM / PGSIZE + extmem |>)
  else modify (fun s => s <| npages := basemem |>).

(** [kend] is the address of the linker's symbol [end]. *)
Definition boot_alloc (kend n : Z) : K Z :=
  nf ← gets nextfree;
  (if nf =? 0 then modify (fun s => s <| nextfree := ROUNDUP kend PGSIZE |>) else mret tt);;
  result ← gets nextfree;
  modify (fun s => s <| nextfree := ROUNDUP (u64 (result + n)) PGSIZE |>);;
  mret result.

(** ** The page allocator *)

(** The chain of tests that keeps page [i] off the free list. *)
Definition page_in_use (i page_start page_end kernel_end : Z) : bool :=
  let within lo hi := ((lo <=? page_start) && (page_start <? hi))
                      || ((lo <=? page_end) && (page_end <? hi)) in
  (i =? 0)
  || within IOPHYSMEM EXTPHYSMEM
  || within EXTPHYSMEM kernel_end
  || within (BOOT_PAGE_TABLE_START - KERNBASE) (BOOT_PAGE_TABLE_END - KERNBASE)
  || (page_start =? MPENTRY_PADDR).

(** The body of the loop of page_init. *)
Definition page_init_body (i page_start page_end kernel_end : Z) : K unit :=
  pg ← get_page i;
  put_page i (pg <| pp_ref := 0 |>);;
  if page_in_use i page_start page_end kernel_end then mret tt
  else
    pg ← get_page i;
    hd ← gets page_free_list;
    put_page i (pg <| pp_link := hd |>);;
    modify (fun s => s <| page_free_list := Some i |>).

Fixpoint page_init_loop (n : nat) (i page_start page_end kernel_end : Z) : K unit :=
  match n with
  | O => mret tt
  | S n' =>
      page_init_body i page_start page_end kernel_end;;
      page_init_loop n' (i + 1) (u32 (page_start + PGSIZE)) (u32 (page_end + PGSIZE)) kernel_end
  end.

Definition page_init : K unit :=
  nf ← gets nextfree;
  kernel_end ← PADDR nf;
  n ← gets npages;
  page_init_loop (Z.to_nat n) 0 0 (PGSIZE - 1) (u32 kernel_end).

Definition page_alloc (alloc_flags : Z) : K (option Z) :=
  currentAvailablePage ← gets page_free_list;
  match currentAvailablePage with
  | None => mret None
  | Some pp =>
      (if negb (Z.land alloc_flags ALLOC_ZERO =? 0)
       then kva ← page2kva pp; kmemset kva 0x00 PGSIZE
       else mret tt);;
      pg ← get_page pp;
      modify (fun s => s <| page_free_list := pp_link pg |>);;
      pg ← get_page pp;
      put_page pp (pg <| pp_link := None |>);;
      mret (Some pp)
  end.

(** The loop of page_free over the list from [p]: is [pp] there? *)
Fixpoint on_free_list (fuel : nat) (p : option Z) (pp : Z) : K bool :=
  match fuel with
  | O => stop Diverge
  | S fuel' =>
      match p with
      | None => mret false
      | Some q =>
          if q =? pp then mret true
          else pg ← get_page q; on_free_list fuel' (pp_link pg) pp
      end
  end.

Definition page_free (pp : Z) : K unit :=
  pg ← get_page pp;
  if negb (pp_ref pg =? 0) then mret tt
  else
    n ← gets npages;
    hd ← gets page_free_list;
    found ← on_free_list (S (Z.to_nat n)) hd pp;
    if found : bool then mret tt
    else
      pg ← get_page pp;
      put_page pp (pg <| pp_link := hd |>);;
      modify (fun s => s <| page_free_list := Some pp |>).

Definition page_initpp (pp : Z) : K unit := put_page pp (mkPage None 0).

Definition page_decref (pp : Z) : K unit :=
  pg ← get_page pp;
  let r := u16 (pp_ref pg - 1) in
  put_page pp (pg <| pp_ref := r |>);;
  if r =? 0 then page_free pp else mret tt.

(** [pp->pp_ref++], and [pp->pp_ref = 0]. *)
Definition page_incref (pp : Z) : K unit :=
  pg ← get_page pp; put_page pp (pg <| pp_ref := u16 (pp_ref pg + 1) |>).
Definition page_zeroref (pp : Z) : K unit :=
  pg ← get_page pp; put_page pp (pg <| pp_ref := 0 |>).

(** ** The page table walk

    The three walk functions share their beginning and their end.  [walk_enter]
    is the beginning: the table entry at [slot] is used if it is not zero, and
    otherwise, if [create] is set, a fresh cleared page is allocated for it.
    [None] is "return NULL"; [Some newPage] goes on, with the page allocated if
    any.  [walk_leave] is the end: when the rest of the walk failed, the page
    allocated at this level is taken back. *)
Definition walk_enter (slot : Z) (create : bool) : K (option (option Z)) :=
  e ← load64 slot;
  if e =? 0 then
    if negb create then mret None
    else
      newPage ← page_alloc 0;
      match newPage with
      | None => mret None
      | Some pp =>
          page_incref pp;;
          store64 slot (Z.lor (Z.lor (Z.lor (page2pa pp) PTE_U) PTE_W) PTE_P);;
          kva ← page2kva pp;
          kmemset kva 0x00 PGSIZE;;
          mret (Some (Some pp))
      end
  else mret (Some None).

Definition walk_leave (slot : Z) (result newPage : option Z) : K unit :=
  match result, newPage with
  | None, Some pp =>
      store64 slot 0;;
      page_zeroref pp;;
      page_free pp
  | _, _ => mret tt
  end.

Definition pgdir_walk (pgdir va : Z) (create : bool) : K (option Z) :=
  let slot := pgdir + 8 * PDX va in
  entered ← walk_enter slot create;
  match entered with
  | None => mret None
  | Some newPage =>
      e ← load64 slot;
      kva ← KADDR (PTE_ADDR e);
      let result := if kva =? 0 then None else Some kva in
      walk_leave slot result newPage;;
      mret result
  end.

Definition pdpe_walk (pdpe va : Z) (create : bool) : K (option Z) :=
  let slot := pdpe + 8 * PDPE va in
  entered ← walk_enter slot create;
  match entered with
  | None => mret None
  | Some newPage =>
      e ← load64 slot;
      pde ← KADDR (PTE_ADDR e);
      result ← pgdir_walk pde va create;
      walk_leave slot result newPage;;
      mret result
  end.

Definition pml4e_walk (pml4e va : Z) (create : bool) : K (option Z) :=
  let slot := pml4e + 8 * PML4 va in
  entered ← walk_enter slot create;
  match entered with
  | None => mret None
  | Some newPage =>
      e ← load64 slot;
      pdpe ← KADDR (PTE_ADDR e);
      result ← pdpe_walk pdpe va create;
      walk_leave slot result newPage;;
      match result with
      | Some r => mret (Some (r + 8 * PTX va))
      | None => mret None
      end
  end.

(** ** Mappings *)
Definition tlb_invalidate (pml4e va : Z) : K unit :=
  if pml4e =? 0 then stop Panic
  else
    ce ← curenv;
    flush ← match ce with
            | None => mret true
            | Some e => v ← get_env e; mret (env_pml4e v =? pml4e)
            end;
    if flush : bool then modify (fun s => s <| invlpgs := va :: invlpgs s |>) else mret tt.

(** The page and the address of its entry. *)
Definition page_lookup (pml4e va : Z) : K (option (Z * Z)) :=
  pte ← pml4e_walk pml4e va false;
  match pte with
  | None => mret None
  | Some pte =>
      e ← load64 pte;
      pp ← pa2page e;
      mret (Some (pp, pte))
  end.

Definition page_remove (pml4e va : Z) : K unit :=
  found ← page_lookup pml4e va;
  match found with
  | None => mret tt
  | Some (pp, pte) =>
      page_decref pp;;
      store64 pte 0;;
      tlb_invalidate pml4e va
  end.

Definition page_insert (pml4e pp va perm : Z) : K Z :=
  pte ← pml4e_walk pml4e va true;
  match pte with
  | None => mret (- E_NO_MEM)
  | Some pte =>
      e ← load64 pte;
      (if negb (PTE_ADDR e =? page2pa pp) then
         (if negb (e =? 0) then page_remove pml4e va else mret tt);;
         store64 pte (page2pa pp);;
         page_incref pp
       else store64 pte (Z.land e (u64 (Z.lnot 0xFFF))));;
      e ← load64 pte;
      store64 pte (Z.lor e (u64 (Z.lor perm PTE_P)));;
      mret 0
  end.

(** The loop runs while [virtual_addr - la < size]; [ppte] NULL is address 0. *)
Fixpoint boot_map_loop (fuel : nat) (pml4e la size perm virtual_addr physical_addr : Z) : K unit :=
  match fuel with
  | O => stop Diverge
  | S fuel' =>
      if u64 (virtual_addr - la) <? size then
        ppte ← pml4e_walk pml4e virtual_addr true;
        store64 (default 0 ppte) (Z.lor (Z.lor physical_addr (u64 perm)) PTE_P);;
        boot_map_loop fuel' pml4e la size perm
          (u64 (virtual_addr + PGSIZE)) (u64 (physical_addr + PGSIZE))
      else mret tt
  end.

Definition boot_map_segment (pml4e la size pa perm : Z) : K unit :=
  boot_map_loop (S (S (Z.to_nat (size / PGSIZE)))) pml4e la size perm la pa.

Definition mmio_map_region (pa size : Z) : K Z :=
  let size := ROUNDUP size PGSIZE in
  base ← gets mmio_base;
  if u64 (base + size) >=? MMIOLIM then stop Panic
  else
    root ← gets boot_pml4e;
    boot_map_segment root base size pa (Z.lor (Z.lor PTE_W PTE_PCD) PTE_PWT);;
    modify (fun s => s <| mmio_base := u64 (base + size) |>);;
    mret base.

(** ** Checking user pointers *)

(** When the test fails the code prints [*ppte], a read of address 0 if the walk
    found no table. *)
Fixpoint user_mem_check_loop (fuel : nat) (pml4e va addr uend perm : Z) : K Z :=
  match fuel with
  | O => stop Diverge
  | S fuel' =>
      if addr <? uend then
        ppte ← pml4e_walk pml4e addr false;
        let want := u64 (Z.lor perm PTE_P) in
        ok ← match ppte with
             | None => mret false
             | Some p => e ← load64 p; mret (Z.land e want =? want)
             end;
        if ok : bool then user_mem_check_loop fuel' pml4e va (u64 (addr + PGSIZE)) uend perm
        else
          e ← load64 (default 0 ppte);
          cprintf (chars "*ppte = %0x, (perm|PTE_P) = %0x" ++ newline) [VI e; VI (Z.lor perm PTE_P)];;
          modify (fun s => s <| user_mem_check_addr :=
            if addr =? va then va else ROUNDDOWN addr PGSIZE |>);;
          mret (- E_FAULT)
      else mret 0
  end.

Definition user_mem_check (env va len perm : Z) : K Z :=
  let uend := ROUNDUP (u64 (va + len)) PGSIZE in
  if u64 (va + len) >=? ULIM then
    modify (fun s => s <| user_mem_check_addr := va |>);;
    mret (- E_FAULT)
  else
    e ← get_env env;
    user_mem_check_loop (S (S (Z.to_nat (uend / PGSIZE)))) (env_pml4e e) va va uend perm.
