(* ===== verification/FreeList.v ===== *)
(** * The page allocator refines a stack of free pages

    The free list of kern/pmap.c is a chain of [pp_link] pointers from
    [page_free_list].  [pmap_wf s l] says that the chain is the list [l] of
    distinct page numbers, and that free pages have a zero reference count.
    page_alloc pops [l] and page_free pushes on it. *)
From S2P Require Import Prelude Mmu CMem KState Pmap.

(** ** The representation predicate *)
Fixpoint lseg (pgs : gmap Z Page) (hd : option Z) (l : list Z) : Prop :=
  match l with
  | [] => hd = None
  | p :: l' => hd = Some p /\ exists pg, pgs !! p = Some pg /\ lseg pgs (pp_link pg) l'
  end.

Record pmap_wf (s : kstate) (l : list Z) : Prop := {
  wf_npages : 0 < npages s <= 65536;
  wf_pages : forall i, is_Some (pages s !! i) <-> 0 <= i < npages s;
  wf_lseg : lseg (pages s) (page_free_list s) l;
  wf_nodup : NoDup l;
  wf_ref : forall i pg, pages s !! i = Some pg -> 0 <= pp_ref pg < 65536;
  wf_free : forall i pg, i ∈ l -> pages s !! i = Some pg -> pp_ref pg = 0
}.

(** What the page allocator and the page table code may change. *)
Definition vm_frame (s s' : kstate) : Prop :=
  s' = s <| mem := mem s' |> <| pages := pages s' |>
         <| page_free_list := page_free_list s' |> <| invlpgs := invlpgs s' |>.

#[export] Instance vm_frame_refl : Reflexive vm_frame.
Proof. intros []. reflexivity. Qed.
#[export] Instance vm_frame_trans : Transitive vm_frame.
Proof. intros s1 s2 s3 H12 H23. unfold vm_frame in *. rewrite H23, H12. reflexivity. Qed.

(** Fields outside the frame. *)
Lemma vm_frame_fields s s' :
  vm_frame s s' ->
  npages s' = npages s /\ envs s' = envs s /\ cpu_env s' = cpu_env s /\
  cpunum s' = cpunum s /\ cr3 s' = cr3 s /\ boot_pml4e s' = boot_pml4e s /\
  boot_cr3 s' = boot_cr3 s /\ env_free_list s' = env_free_list s.
Proof. intros H. unfold vm_frame in H. rewrite H. done. Qed.

(** ** Facts about chains *)
Lemma lseg_ext pgs pgs' hd l :
  (forall p, p ∈ l -> pp_link <$> pgs !! p = pp_link <$> pgs' !! p) ->
  lseg pgs hd l -> lseg pgs' hd l.
Proof.
  revert hd. induction l as [|p l IH]; intros hd Hext; [done|].
  intros (-> & pg & Hpg & Hl). split; [done|].
  specialize (Hext p ltac:(left)) as Hp. rewrite Hpg in Hp. simpl in Hp.
  destruct (pgs' !! p) as [pg'|] eqn:Hpg'; [|done]. injection Hp as Hp.
  exists pg'. split; [done|]. rewrite <- Hp. apply IH; [|done].
  intros q Hq. apply Hext. by right.
Qed.

Lemma lseg_insert pgs hd l q pg :
  q ∉ l -> lseg pgs hd l -> lseg (<[q := pg]> pgs) hd l.
Proof.
  intros Hq. apply lseg_ext. intros p Hp. rewrite lookup_insert_ne; [done|]. set_solver.
Qed.

Lemma NoDup_range_length (l : list Z) n :
  NoDup l -> (forall i, i ∈ l -> 0 <= i < n) -> Z.of_nat (length l) <= Z.max 0 n.
Proof.
  intros Hnd Hr. assert (l ⊆+ seqZ 0 n) as Hs.
  { apply NoDup_submseteq; [done|]. intros i Hi. apply elem_of_seqZ. specialize (Hr i Hi). lia. }
  apply submseteq_length in Hs. rewrite length_seqZ in Hs. lia.
Qed.

Lemma lseg_lookup pgs hd l p : lseg pgs hd l -> p ∈ l -> is_Some (pgs !! p).
Proof.
  revert hd. induction l as [|q l IH]; intros hd; [by intros ? ?%elem_of_nil|].
  intros (_ & pg & Hpg & Hl) [->|Hp]%elem_of_cons; [by rewrite Hpg; eauto|eauto].
Qed.

Lemma wf_free_range s l i : pmap_wf s l -> i ∈ l -> 0 <= i < npages s.
Proof. intros Hwf Hi. apply (wf_pages s l Hwf). eapply lseg_lookup, Hi. apply Hwf. Qed.

Lemma wf_free_length s l : pmap_wf s l -> (length l <= Z.to_nat (npages s))%nat.
Proof.
  intros Hwf. pose proof (NoDup_range_length l (npages s) (wf_nodup _ _ Hwf)
    (fun i Hi => wf_free_range s l i Hwf Hi)). pose proof (wf_npages _ _ Hwf). lia.
Qed.

Lemma wf_page s l i : pmap_wf s l -> 0 <= i < npages s -> exists pg, pages s !! i = Some pg.
Proof. intros Hwf Hi. by apply (wf_pages s l Hwf) in Hi. Qed.

(** The invariant reads only [pages], [page_free_list] and [npages]. *)
Lemma wf_proper s s' l :
  pages s' = pages s -> page_free_list s' = page_free_list s -> npages s' = npages s ->
  pmap_wf s l -> pmap_wf s' l.
Proof. intros E1 E2 E3 []. split; rewrite ?E1, ?E2, ?E3; done. Qed.

(** ** Pages in the direct map *)
Lemma page2pa_eq pp : 0 <= pp < 65536 -> page2pa pp = pp * 4096.
Proof.
  intros. unfold page2pa, PGSHIFT. rewrite Z.shiftl_mul_pow2 by lia.
  apply wrap_small. lia.
Qed.

Lemma KADDR_ok s pa :
  0 <= pa < 2 ^ 44 -> pa / 4096 < npages s -> KADDR pa s = Ret (pa + KERNBASE) s.
Proof.
  intros Hpa Hn. unfold KADDR, gets, mbind, M_bind. rewrite PPN_div.
  rewrite wrap_small by (Z.div_mod_to_equations; lia).
  destruct (Z.leb_spec (npages s) (pa / 4096)); [lia|].
  rewrite wrap_small by jlia. done.
Qed.

Lemma page2kva_ok s pp :
  0 <= pp < npages s -> npages s <= 65536 -> page2kva pp s = Ret (pp * 4096 + KERNBASE) s.
Proof.
  intros. unfold page2kva. rewrite page2pa_eq by lia.
  apply KADDR_ok; [lia|]. rewrite Z.div_mul by lia. lia.
Qed.

(** ** page_alloc *)
Lemma get_page_ok s pp pg : pages s !! pp = Some pg -> get_page pp s = Ret pg s.
Proof. unfold get_page. by intros ->. Qed.
Lemma put_page_ok s pp pg pg' :
  pages s !! pp = Some pg -> put_page pp pg' s = Ret tt (s <| pages := <[pp := pg']> (pages s) |>).
Proof. unfold put_page. by intros ->. Qed.

Definition zeroing (alloc_flags : Z) : bool := negb (Z.land alloc_flags ALLOC_ZERO =? 0).

(** Popping a page from the chain keeps the rest of it. *)
Lemma wf_pop s p l pg m :
  pmap_wf s (p :: l) -> pages s !! p = Some pg ->
  pmap_wf (s <| mem := m |> <| page_free_list := pp_link pg |>
             <| pages := <[p := pg <| pp_link := None |>]> (pages s) |>) l.
Proof.
  intros Hwf Hp. pose proof Hwf as [? Hpages Hl [Hnin Hnd]%NoDup_cons Href Hfree].
  split; cbn; try done.
  - intros i. rewrite lookup_insert_is_Some. rewrite Hpages.
    destruct (decide (p = i)); [subst|naive_solver]. rewrite <- Hpages, Hp. naive_solver.
  - destruct Hl as (_ & pg' & Hpg' & Hl). simplify_eq. by apply lseg_insert.
  - intros i pg'. destruct (decide (p = i)) as [<-|].
    + rewrite lookup_insert_eq. intros [= <-]. cbn. eauto.
    + rewrite lookup_insert_ne by done. eauto.
  - intros i pg' Hi. rewrite lookup_insert_ne by set_solver.
    apply Hfree. by right.
Qed.

(** page_alloc on an empty list. *)
Lemma page_alloc_empty s f : pmap_wf s [] -> page_alloc f s = Ret None s.
Proof. intros [_ _ Hl _ _ _]. unfold page_alloc, gets, mbind, M_bind. by rewrite Hl. Qed.

(** page_alloc on a non-empty list returns its head, with its link cleared, and
    clears the page when asked to; the rest of the list stays. *)
Lemma page_alloc_cons s f p l :
  pmap_wf s (p :: l) ->
  wp (page_alloc f) s (fun r s' =>
    r = Some p /\ pmap_wf s' l /\ vm_frame s s' /\ invlpgs s' = invlpgs s /\
    pages s' = <[p := mkPage None 0]> (pages s) /\
    mem s' = if zeroing f then memset (mem s) (p * 4096) 0 PGSIZE else mem s).
Proof.
  intros Hwf. pose proof Hwf as [? Hpages [Hhd (pg & Hp & Hl)] Hnd Href Hfree].
  assert (0 <= p < npages s) as Hpr by (apply Hpages; eauto).
  assert (pg <| pp_link := None |> = mkPage None 0) as Hpg.
  { rewrite <- (Hfree p pg); [done|left|done]. }
  unfold page_alloc. wsteps. rewrite Hhd.
  set (m' := if zeroing f then memset (mem s) (p * 4096) 0 PGSIZE else mem s).
  apply wp_bind. apply wp_elim. exists tt, (s <| mem := m' |>). split.
  { unfold m', zeroing. destruct (negb _); [|by destruct s].
    erewrite bind_Ret by (apply page2kva_ok; lia).
    unfold kmemset, modify. by rewrite Z.add_simpl_r. }
  wsteps. apply wp_elim. exists pg, (s <| mem := m' |>). split; [by apply get_page_ok|].
  wsteps. apply wp_elim. do 2 eexists. split; [by apply get_page_ok|].
  wsteps. apply wp_elim. do 2 eexists. split; [by eapply put_page_ok|].
  wsteps. split_and!; try done.
  - cbn. eapply wf_proper; [..|by apply (wf_pop s p l pg m')]; done.
  - cbn. by rewrite Hpg.
Qed.

(** ** Changing a page that is not free *)
Lemma wf_set_page s l p pg pg' :
  pmap_wf s l -> pages s !! p = Some pg -> p ∉ l -> 0 <= pp_ref pg' < 65536 ->
  pmap_wf (s <| pages := <[p := pg']> (pages s) |>) l.
Proof.
  intros [? Hpages Hl Hnd Href Hfree] Hp Hnin Hr. split; cbn; try done.
  - intros i. rewrite <- Hpages, lookup_insert_is_Some.
    split; [intros [<-|[_ ?]]; eauto|]. intros ?. destruct (decide (p = i)); auto.
  - by apply lseg_insert.
  - intros i q. rewrite lookup_insert. case_decide; [by intros [= <-]|eauto].
  - intros i q Hi. rewrite lookup_insert_ne; [eauto|]. intros <-. done.
Qed.

Lemma page_incref_spec s l p pg :
  pmap_wf s l -> pages s !! p = Some pg -> p ∉ l ->
  wp (page_incref p) s (fun _ s' =>
    pmap_wf s' l /\
    s' = s <| pages := <[p := mkPage (pp_link pg) (u16 (pp_ref pg + 1))]> (pages s) |>).
Proof.
  intros Hwf Hp Hnin. unfold page_incref. wsteps.
  apply wp_elim. do 2 eexists. split; [by apply get_page_ok|].
  apply wp_elim. do 2 eexists. split; [by eapply put_page_ok|]. split; [|done].
  eapply wf_set_page; [done..|]. apply (wrap_range 16). lia.
Qed.

Lemma page_zeroref_spec s l p pg :
  pmap_wf s l -> pages s !! p = Some pg -> p ∉ l ->
  wp (page_zeroref p) s (fun _ s' =>
    pmap_wf s' l /\ s' = s <| pages := <[p := mkPage (pp_link pg) 0]> (pages s) |>).
Proof.
  intros Hwf Hp Hnin. unfold page_zeroref. wsteps.
  apply wp_elim. do 2 eexists. split; [by apply get_page_ok|].
  apply wp_elim. do 2 eexists. split; [by eapply put_page_ok|]. split; [|done].
  eapply wf_set_page; [done..|]. cbn. lia.
Qed.

(** ** page_free *)
Lemma on_free_list_ok s l hd fuel pp :
  lseg (pages s) hd l -> (length l < fuel)%nat ->
  on_free_list fuel hd pp s = Ret (bool_decide (pp ∈ l)) s.
Proof.
  revert hd fuel. induction l as [|q l IH]; intros hd [|fuel] Hl Hf; simpl in Hf; try lia.
  - simpl in Hl. subst hd. cbn [on_free_list]. rewrite bool_decide_false; [done|]. apply not_elem_of_nil.
  - destruct Hl as (-> & pg & Hpg & Hl). cbn [on_free_list].
    destruct (Z.eqb_spec q pp) as [->|Hne].
    + rewrite bool_decide_true by left. done.
    + erewrite bind_Ret by by apply get_page_ok. rewrite (IH _ _ Hl) by lia.
      f_equal. apply bool_decide_ext. rewrite elem_of_cons. naive_solver.
Qed.

Lemma wf_push s l p pg :
  pmap_wf s l -> pages s !! p = Some pg -> p ∉ l -> pp_ref pg = 0 ->
  pmap_wf (s <| pages := <[p := pg <| pp_link := page_free_list s |>]> (pages s) |>
             <| page_free_list := Some p |>) (p :: l).
Proof.
  intros Hwf Hp Hnin Hr.
  assert (0 <= pp_ref (pg <| pp_link := page_free_list s |>) < 65536) as Hr'
    by (cbn; rewrite Hr; lia).
  pose proof (wf_set_page s l p pg _ Hwf Hp Hnin Hr') as [? Hpages Hl Hnd Href Hfree].
  cbn in *. split; cbn; try done.
  - split; [done|]. eexists. rewrite lookup_insert_eq. split; [done|]. done.
  - by apply NoDup_cons.
  - intros i q [->|Hi]%elem_of_cons; [|by apply Hfree].
    rewrite lookup_insert_eq. by intros [= <-].
Qed.

(** page_free always returns: on a page that is in use or already free it does
    nothing, and otherwise it pushes the page on the free list. *)
Lemma page_free_spec s l p pg :
  pmap_wf s l -> pages s !! p = Some pg ->
  wp (page_free p) s (fun _ s' =>
    if decide (pp_ref pg <> 0 \/ p ∈ l) then s' = s
    else pmap_wf s' (p :: l) /\
         s' = s <| pages := <[p := mkPage (page_free_list s) 0]> (pages s) |>
                <| page_free_list := Some p |>).
Proof.
  intros Hwf Hp. destruct (decide (pp_ref pg <> 0 \/ p ∈ l)) as [Hno|Hyes];
  unfold page_free; wsteps;
  (apply wp_elim; do 2 eexists; split; [by apply get_page_ok|]);
  destruct (Z.eqb_spec (pp_ref pg) 0) as [Hr|Hr]; cbn [negb]; try done; try tauto;
  (wsteps; apply wp_elim; do 2 eexists; split;
   [apply on_free_list_ok; [apply Hwf|]; pose proof (wf_free_length s l Hwf); lia|]).
  { rewrite bool_decide_true by tauto. by apply wp_ret. }
  rewrite bool_decide_false by tauto. wsteps.
  apply wp_elim. do 2 eexists. split; [by apply get_page_ok|].
  wsteps. apply wp_elim. do 2 eexists. split; [by eapply put_page_ok|].
  wsteps. split; [apply wf_push; tauto|]. rewrite <- Hr. done.
Qed.

(** The effect of page_decref on a page that is in use. *)
Lemma page_decref_spec s l p pg :
  pmap_wf s l -> pages s !! p = Some pg -> p ∉ l ->
  wp (page_decref p) s (fun _ s' =>
    vm_frame s s' /\ mem s' = mem s /\ invlpgs s' = invlpgs s /\
    if decide (pp_ref pg = 1)
    then pmap_wf s' (p :: l) /\ pages s' = <[p := mkPage (page_free_list s) 0]> (pages s)
    else pmap_wf s' l /\
         pages s' = <[p := mkPage (pp_link pg) (u16 (pp_ref pg - 1))]> (pages s)).
Proof.
  intros Hwf Hp Hnin. unfold page_decref. wsteps.
  apply wp_elim. do 2 eexists. split; [by apply get_page_ok|].
  wsteps. apply wp_elim. do 2 eexists. split; [by eapply put_page_ok|].
  pose proof (wf_ref _ _ Hwf p pg Hp) as Hr.
  assert (u16 (pp_ref pg - 1) = 0 <-> pp_ref pg = 1) as Hu.
  { unfold wrap. split; [intros; Z.div_mod_to_equations; lia|by intros ->]. }
  pose proof (wf_set_page s l p pg (pg <| pp_ref := u16 (pp_ref pg - 1) |>) Hwf Hp Hnin
    (wrap_range 16 _ ltac:(lia))) as Hwf1.
  destruct (decide (pp_ref pg = 1)) as [E%Hu|E];
    destruct (Z.eqb_spec (u16 (pp_ref pg - 1)) 0) as [E'|E']; try tauto.
  - wuse (page_free_spec _ l p _ Hwf1); [cbn; apply lookup_insert_eq|].
    cbn. rewrite E'. intros _ s'. rewrite decide_False by naive_solver.
    intros [Hwf2 ->]. split_and!; try done. cbn. by rewrite insert_insert_eq.
  - apply wp_ret. done.
Qed.

(** ** page_init

    The pages page_init leaves free, read off the memory map: not page 0, not the
    AP startup page, not the boot page tables, not the I/O hole, not the kernel
    image with what boot_alloc handed out. *)
Definition page_usable (kernel_end i : Z) : Prop :=
  i <> 0 /\ i <> MPENTRY_PADDR / PGSIZE /\ ~ (8 <= i < 14) /\
  ~ (IOPHYSMEM / PGSIZE <= i < EXTPHYSMEM / PGSIZE) /\
  ~ (EXTPHYSMEM / PGSIZE <= i < kernel_end / PGSIZE).

#[export] Instance page_usable_dec kernel_end i : Decision (page_usable kernel_end i).
Proof. unfold page_usable. apply _. Defined.

Lemma page_in_use_spec kernel_end i :
  0 <= i < 65536 -> kernel_end mod PGSIZE = 0 ->
  page_in_use i (i * 4096) (i * 4096 + 4095) kernel_end = false <-> page_usable kernel_end i.
Proof.
  intros Hi Hk. unfold page_in_use, page_usable, BOOT_PAGE_TABLE_START, BOOT_PAGE_TABLE_END.
  autounfold with jos_consts in *. rewrite !orb_false_iff, !andb_false_iff, !Z.leb_gt, !Z.ltb_ge, !Z.eqb_neq.
  change (1048576 / 4096) with 256. change (0xA0000 / 4096) with 160.
  change (0x7000 / 4096) with 7.
  assert (kernel_end = 4096 * (kernel_end / 4096)) by (Z.div_mod_to_equations; lia).
  set (k := kernel_end / 4096) in *. lia.
Qed.

Lemma page_init_body_spec kernel_end i l s :
  pmap_wf s l -> i ∉ l -> 0 <= i < npages s -> kernel_end mod PGSIZE = 0 ->
  wp (page_init_body i (i * 4096) (i * 4096 + 4095) kernel_end) s (fun _ s' =>
    pmap_wf s' (filter (page_usable kernel_end) [i] ++ l) /\ vm_frame s s' /\
    mem s' = mem s /\ (forall q, pages s' !! i = Some q -> pp_ref q = 0) /\
    (forall j, j <> i -> pages s' !! j = pages s !! j)).
Proof.
  intros Hwf Hnin Hi Hk. pose proof (wf_npages _ _ Hwf) as Hnp.
  destruct (wf_page s l i Hwf Hi) as [pg Hpg].
  set (s1 := s <| pages := <[i := pg <| pp_ref := 0 |>]> (pages s) |>).
  assert (pmap_wf s1 l) as Hwf1 by (eapply wf_set_page; [done..|cbn; lia]).
  assert (pages s1 !! i = Some (pg <| pp_ref := 0 |>)) as Hpg1 by apply lookup_insert_eq.
  pose proof (page_in_use_spec kernel_end i ltac:(lia) Hk) as Huse.
  rewrite filter_cons, filter_nil. unfold page_init_body. wsteps.
  apply wp_elim. do 2 eexists. split; [by apply get_page_ok|].
  wsteps. apply wp_elim. do 2 eexists. split; [by eapply put_page_ok|]. fold s1.
  destruct (page_in_use _ _ _ _) eqn:E.
  - rewrite decide_False by (intros ?%Huse; congruence).
    apply wp_ret. split_and!; try done; cbn.
    + rewrite lookup_insert_eq. by intros ? [= <-].
    + intros j Hj. by rewrite lookup_insert_ne.
  - rewrite decide_True by by apply Huse.
    wsteps. apply wp_elim. do 2 eexists. split; [by apply get_page_ok|].
    wsteps. apply wp_elim. do 2 eexists. split; [by eapply put_page_ok|].
    wsteps. split_and!; try done; [by apply wf_push| |]; cbn.
    + rewrite lookup_insert_eq. by intros ? [= <-].
    + intros j Hj. by rewrite !lookup_insert_ne.
Qed.

Lemma page_init_loop_spec kernel_end n i l s :
  pmap_wf s l -> (forall j, j ∈ l -> j < i) -> 0 <= i -> i + Z.of_nat n <= npages s ->
  kernel_end mod PGSIZE = 0 ->
  wp (page_init_loop n i (i * 4096) (i * 4096 + 4095) kernel_end) s (fun _ s' =>
    pmap_wf s' (filter (page_usable kernel_end) (reverse (seqZ i (Z.of_nat n))) ++ l) /\
    vm_frame s s' /\ mem s' = mem s /\
    (forall j pg, i <= j < i + Z.of_nat n -> pages s' !! j = Some pg -> pp_ref pg = 0) /\
    (forall j, j < i -> pages s' !! j = pages s !! j)).
Proof.
  intros Hwf Hl Hi Hn Hk. revert i l s Hwf Hl Hi Hn.
  induction n as [|n IH]; intros i l s Hwf Hl Hi Hn.
  { apply wp_ret. split_and!; try done. lia. }
  assert (i ∉ l) as Hnin by (intros ?%Hl; lia).
  pose proof (wf_npages _ _ Hwf) as Hnp. cbn [page_init_loop]. apply wp_bind.
  wuse (page_init_body_spec kernel_end i l s); [done|done|lia|done|].
  intros _ s2 (Hwf2 & Hfr & Hm & Hr2 & Ho2).
  replace (u32 (i * 4096 + PGSIZE)) with ((i + 1) * 4096) by (rewrite wrap_small; jlia).
  replace (u32 (i * 4096 + 4095 + PGSIZE)) with ((i + 1) * 4096 + 4095)
    by (rewrite wrap_small; jlia).
  destruct (vm_frame_fields s s2 Hfr) as (Hn2 & _).
  wuse (IH (i + 1) _ s2); [done| |lia|lia|].
  { intros j [[_ Hj]%list_elem_of_filter|Hj%Hl]%elem_of_app; [|lia].
    apply list_elem_of_singleton in Hj. lia. }
  intros _ s3 (Hwf3 & Hfr3 & Hm3 & Hr3 & Ho3). split_and!.
  - replace (Z.of_nat (S n)) with (Z.succ (Z.of_nat n)) by lia.
    by rewrite seqZ_cons, Z.pred_succ, reverse_cons, filter_app, <- app_assoc by lia.
  - by etrans.
  - congruence.
  - intros j q Hj. destruct (decide (j = i)) as [->|]; [|apply Hr3; lia].
    rewrite Ho3 by lia. apply Hr2.
  - intros j Hj. rewrite Ho3, Ho2 by lia. done.
Qed.

(** page_init gathers exactly the usable pages on the free list, highest first,
    each once, with every reference count zero. *)
Lemma page_init_spec s :
  pmap_wf s [] -> KERNBASE <= nextfree s < 2 ^ 32 -> nextfree s mod PGSIZE = 0 ->
  wp page_init s (fun _ s' =>
    pmap_wf s' (filter (page_usable (nextfree s - KERNBASE)) (reverse (seqZ 0 (npages s)))) /\
    (forall i pg, pages s' !! i = Some pg -> pp_ref pg = 0) /\
    mem s' = mem s /\ vm_frame s s').
Proof.
  intros Hwf Hnf Hal. unfold page_init. wsteps.
  pose proof (wf_npages _ _ Hwf). unfold PADDR.
  destruct (Z.ltb_spec (nextfree s) KERNBASE); [lia|]. wsteps.
  rewrite wrap_small by jlia.
  wuse (page_init_loop_spec (nextfree s - KERNBASE) (Z.to_nat (npages s)) 0 [] s).
  - done.
  - by intros j ?%elem_of_nil.
  - lia.
  - lia.
  - autounfold with jos_consts in *. Z.div_mod_to_equations. lia.
  - intros _ s' (Hwf' & Hfr & Hm & Hr & _). rewrite Z2Nat.id, app_nil_r in * by lia.
    split_and!; try done. intros i pg Hi. apply (Hr i); [|done].
    destruct (vm_frame_fields s s' Hfr) as [Hn _]. rewrite Z.add_0_l, <- Hn.
    apply (wf_pages _ _ Hwf'). eauto.
Qed.
