(* ===== verification/PageTable.v ===== *)
(** * Page tables as trees, and what a write does to them

    The abstract view of an address space with root frame [r]: [tbl m r p] is
    the frame of the table reached from the root along the indices [p], and
    [pte_of m r va] is the page table entry of [va] (0 when there is none).
    [pt_wf] says the tables reached from [r] form a tree of frames that are in
    range and not free, and that the entries which lead to tables are present.  The walk of kern/pmap.c changes the tables only in ways
    that keep [pte_of]. *)
From S2P Require Import Prelude Mmu CMem KState Pmap FreeList.

Definition pte_at (m : bytes) (f i : Z) : Z := ld64 m (f * 4096 + 8 * i).

Fixpoint tbl (m : bytes) (f : Z) (p : list Z) : option Z :=
  match p with
  | [] => Some f
  | i :: p' => if pte_at m f i =? 0 then None else tbl m (pte_at m f i / 4096) p'
  end.

Definition va_path (va : Z) : list Z := [PML4 va; PDPE va; PDX va].

Definition pte_of (m : bytes) (r va : Z) : Z :=
  match tbl m r (va_path va) with
  | Some f => pte_at m f (PTX va)
  | None => 0
  end.

(** Paths to tables: at most three indices, and not through the entry for UVPT,
    which maps the root onto itself. *)
Definition idx (i : Z) : Prop := 0 <= i < 512.
Definition tpath (p : list Z) : Prop :=
  (length p <= 3)%nat /\ Forall idx p /\ head p <> Some (PML4 UVPT).

(** Addresses whose tables are not reached through the UVPT entry. *)
Definition va_ok (va : Z) : Prop := 0 <= va < 2 ^ 48 /\ PML4 va <> PML4 UVPT.

Record pt_wf (m : bytes) (np : Z) (l : list Z) (r : Z) : Prop := {
  pt_range : forall p f, tpath p -> tbl m r p = Some f -> 0 <= f < np /\ f ∉ l;
  pt_inj : forall p q f, tpath p -> tpath q -> tbl m r p = Some f -> tbl m r q = Some f -> p = q;
  pt_present : forall p f i, tpath (p ++ [i]) -> tbl m r p = Some f -> pte_at m f i <> 0 ->
    Z.odd (pte_at m f i) = true
}.

(** [p] is not one of the tables of the address space [r]. *)
Definition data_page (m : bytes) (r p : Z) : Prop := forall q, tpath q -> tbl m r q <> Some p.

(** ** Paths *)
Lemma va_path_tpath va : va_ok va -> tpath (va_path va).
Proof.
  intros [_ Hne]. destruct (index_ranges va) as (?&?&?&?&?).
  split_and!; [simpl; lia|unfold va_path; by rewrite !Forall_cons, Forall_nil|]. simpl. congruence.
Qed.

Lemma tpath_prefix p q : tpath (p ++ q) -> tpath p.
Proof.
  intros (Hl & Hf & Hh). rewrite length_app in Hl. apply Forall_app in Hf as [Hf _].
  split_and!; [lia|done|]. destruct p; [done|exact Hh].
Qed.

Lemma tpath_nil : tpath [].
Proof. split_and!; [simpl; lia|constructor|done]. Qed.

Lemma va_path_inj va va' :
  va_ok va -> va_ok va' -> va_path va = va_path va' -> PTX va = PTX va' -> VPN va = VPN va'.
Proof. intros [? _] [? _] [= ???] ?. by apply VPN_of_indices. Qed.

Lemma va_path_of_VPN a b : VPN a = VPN b -> va_path a = va_path b /\ PTX a = PTX b.
Proof.
  unfold VPN, va_path. autorewrite with jos_addr. intros E.
  split; [f_equal; [|f_equal; [|f_equal]]|]; Z.div_mod_to_equations; lia.
Qed.

(** ** Entries after a store *)
Lemma pte_at_range m f i : 0 <= pte_at m f i < 2 ^ 64.
Proof. apply ld64_range. Qed.

Lemma pte_at_st m f i v g j :
  idx i -> idx j -> 0 <= v < 2 ^ 64 ->
  pte_at (st64 m (f * 4096 + 8 * i) v) g j =
  if decide (f = g /\ i = j) then v else pte_at m g j.
Proof.
  unfold idx, pte_at. intros Hi Hj Hv. case_decide as Hd.
  - destruct Hd as [-> ->]. by apply ld64_st64.
  - apply ld64_st64_ne. lia.
Qed.

Lemma pte_at_clear_eq m n j : idx j -> pte_at (memset m (n * 4096) 0 PGSIZE) n j = 0.
Proof. unfold idx, pte_at. intros. apply ld64_memset_0; jlia. Qed.

Lemma pte_at_clear_ne m n g j :
  idx j -> g <> n -> pte_at (memset m (n * 4096) 0 PGSIZE) g j = pte_at m g j.
Proof. unfold idx, pte_at. intros. apply ld_memset_ne; jlia. Qed.

(** ** [tbl] *)
Lemma tbl_app m r p q : tbl m r (p ++ q) = f ← tbl m r p; tbl m f q.
Proof. revert r. induction p as [|i p IH]; intros r; [done|]. simpl. case_match; [done|apply IH]. Qed.

Lemma tbl_snoc m r p i :
  tbl m r (p ++ [i]) =
  f ← tbl m r p; if pte_at m f i =? 0 then None else Some (pte_at m f i / 4096).
Proof. apply tbl_app. Qed.

(** Memories that agree on the entries read along [p] reach the same table. *)
Lemma tbl_ext m m' r p :
  (forall p1 i p2 g, p = p1 ++ i :: p2 -> tbl m r p1 = Some g -> pte_at m' g i = pte_at m g i) ->
  tbl m' r p = tbl m r p.
Proof.
  revert r. induction p as [|i p IH]; intros r H; [done|].
  simpl. rewrite (H [] i p r) by done. destruct (pte_at m r i =? 0) eqn:E; [done|].
  apply IH. intros p1 j p2 g -> Hg. apply (H (i :: p1) j p2); [done|]. simpl. by rewrite E.
Qed.

(** No byte of a table of [r] is different. *)
Definition tables_kept (m m' : bytes) (r : Z) : Prop :=
  forall q f a, tpath q -> tbl m r q = Some f -> a / 4096 = f -> ld8 m' a = ld8 m a.

Lemma kept_pte_at m m' f i :
  (forall a, a / 4096 = f -> ld8 m' a = ld8 m a) -> idx i -> pte_at m' f i = pte_at m f i.
Proof.
  intros Hb Hi. apply ld_ext. intros a Ha. apply Hb. unfold idx in Hi. Z.div_mod_to_equations. lia.
Qed.

Lemma kept_tbl m m' r q : tables_kept m m' r -> tpath q -> tbl m' r q = tbl m r q.
Proof.
  intros Hk Hq. apply tbl_ext. intros q1 j q2 g -> Hg. apply kept_pte_at.
  - intros a. by eapply Hk; [eapply tpath_prefix|].
  - destruct Hq as (_ & Hq & _). by decompose_Forall_hyps.
Qed.

Lemma kept_pte m m' r va : tables_kept m m' r -> va_ok va -> pte_of m' r va = pte_of m r va.
Proof.
  intros Hk Hva. pose proof (va_path_tpath va Hva) as Hp. unfold pte_of. rewrite (kept_tbl m m') by done.
  destruct (tbl m r (va_path va)) as [g|] eqn:Hg; [|done].
  apply kept_pte_at; [|apply index_ranges]. intros a. by apply (Hk (va_path va)).
Qed.

Lemma kept_data m m' r p : tables_kept m m' r -> data_page m r p <-> data_page m' r p.
Proof. intros Hk. unfold data_page. split; intros H q Hq; [rewrite (kept_tbl m m')|rewrite <- (kept_tbl m m')]; auto. Qed.

Lemma tpath_last p i : tpath (p ++ [i]) -> tpath p /\ idx i /\ (length p <= 2)%nat.
Proof.
  intros H. split; [by eapply tpath_prefix|]. destruct H as (Hl & Hf & _). rewrite length_app in Hl. simpl in Hl.
  apply Forall_app in Hf as [_ Hf]. split; [by inversion Hf|lia].
Qed.

(** Well-formedness depends only on the tables, and pages that are no tables can
    become free. *)
Lemma pt_wf_kept m m' np l l' r :
  pt_wf m np l r -> tables_kept m m' r -> (forall p, p ∈ l' -> p ∈ l \/ data_page m r p) -> pt_wf m' np l' r.
Proof.
  intros [Hr Hi Hp] Hk Hl. split.
  - intros p f Hp0 Hf. rewrite (kept_tbl m m') in Hf by done. destruct (Hr p f Hp0 Hf) as [? Hn]. split; [done|].
    intros [?|Hd]%Hl; [done|]. by apply (Hd p).
  - intros p q f Hp0 Hq. rewrite !(kept_tbl m m') by done. by apply Hi.
  - intros p f i Hpi Hf. destruct (tpath_last p i Hpi) as (Hp0 & Hix & _). rewrite (kept_tbl m m') in Hf by done.
    rewrite (kept_pte_at m m'); [by eapply Hp| |done]. intros a. by eapply Hk.
Qed.

(** A store to an entry of a last-level table moves no table. *)
Lemma tbl_st_leaf m np l r q f i v p :
  pt_wf m np l r -> tpath q -> length q = 3%nat -> tbl m r q = Some f -> idx i ->
  0 <= v < 2 ^ 64 -> tpath p ->
  tbl (st64 m (f * 4096 + 8 * i) v) r p = tbl m r p.
Proof.
  intros Hwf Hq Hlen Hf Hi Hv Hp. apply tbl_ext. intros p1 j p2 g -> Hg.
  assert (idx j) as Hj by (destruct Hp as (_ & Hp & _); by decompose_Forall_hyps).
  rewrite pte_at_st, decide_False; [done| |done..].
  intros [<- <-]. pose proof (tpath_prefix _ _ Hp) as Hp1.
  pose proof (pt_inj _ _ _ _ Hwf _ _ _ Hq Hp1 Hf Hg) as ->.
  destruct Hp as (Hl & _). rewrite length_app in Hl. simpl in Hl. lia.
Qed.

(** Nor does any change of a last-level table. *)
Lemma pt_wf_leaf_change m m' np l r q g :
  pt_wf m np l r -> tpath q -> length q = 3%nat -> tbl m r q = Some g ->
  (forall p, tpath p -> tbl m' r p = tbl m r p) -> (forall a, a / 4096 <> g -> ld8 m' a = ld8 m a) ->
  pt_wf m' np l r.
Proof.
  intros [Hr Hi Hp] Hq Hlen Hg Ht Hb. split.
  - intros p f Hp0. rewrite Ht by done. by apply Hr.
  - intros p p' f Hp0 Hp'. rewrite !Ht by done. by apply Hi.
  - intros p f i Hpi Hf. destruct (tpath_last p i Hpi) as (Hp0 & Hix & Hl). rewrite Ht in Hf by done.
    rewrite (kept_pte_at m m'); [by eapply Hp| |done]. intros a <-. apply Hb. intros E. rewrite E in Hf.
    rewrite (Hi p q g Hp0 Hq Hf Hg) in Hl. lia.
Qed.

(** It changes the entry of the address it belongs to and of no other. *)
Lemma pte_of_st_leaf m np l r va f v va' :
  pt_wf m np l r -> va_ok va -> va_ok va' -> tbl m r (va_path va) = Some f -> 0 <= v < 2 ^ 64 ->
  pte_of (st64 m (f * 4096 + 8 * PTX va) v) r va' =
  if decide (VPN va' = VPN va) then v else pte_of m r va'.
Proof.
  intros Hwf Hva Hva' Hf Hv. pose proof (va_path_tpath va Hva) as Hp.
  pose proof (va_path_tpath va' Hva') as Hp'.
  assert (idx (PTX va)) as Hi by apply index_ranges.
  assert (idx (PTX va')) as Hi' by apply index_ranges.
  unfold pte_of. rewrite (tbl_st_leaf m np l r (va_path va) f) by done.
  destruct (tbl m r (va_path va')) as [f'|] eqn:Hf'.
  - rewrite pte_at_st by done. case_decide as Hd.
    + destruct Hd as [<- Hx]. rewrite decide_True; [done|].
      apply va_path_inj; [done..| |done]. by eapply (pt_inj _ _ _ _ Hwf).
    + rewrite decide_False; [done|]. intros [E1 E2]%va_path_of_VPN. apply Hd.
      rewrite E1 in Hf'. split; congruence.
  - rewrite decide_False; [done|]. intros [E1 _]%va_path_of_VPN. congruence.
Qed.

(** ** Adding an empty table

    [add_table m f i n] is what the walk does to memory when it hangs the fresh
    frame [n] at entry [i] of the table in frame [f]. *)
Definition add_table (m : bytes) (f i n : Z) : bytes :=
  memset (st64 m (f * 4096 + 8 * i) (n * 4096 + 7)) (n * 4096) 0 PGSIZE.

Lemma ld8_add_table m f i n a :
  a / 4096 <> n -> ~ (f * 4096 + 8 * i <= a < f * 4096 + 8 * i + 8) ->
  ld8 (add_table m f i n) a = ld8 m a.
Proof.
  intros Han Has. unfold add_table.
  rewrite ld8_memset, decide_False by (unfold PGSIZE; Z.div_mod_to_equations; lia).
  rewrite ld8_st, decide_False by lia. done.
Qed.

Section add_table.
Context (m : bytes) (np r n f i : Z) (l q : list Z).
Hypothesis Hwf : pt_wf m np (n :: l) r.
Hypothesis Hq : tpath (q ++ [i]).
Hypothesis Hf : tbl m r q = Some f.
Hypothesis Hzero : pte_at m f i = 0.
Hypothesis Hn : 0 <= n < np.
Hypothesis Hnp : np <= 65536.
Hypothesis Hnl : n ∉ l.

Let Hi : idx i.
Proof. destruct Hq as (_ & [_ H]%Forall_app & _). by inversion H. Qed.

Let Hfn : f <> n.
Proof.
  intros ->. destruct (pt_range _ _ _ _ Hwf q n (tpath_prefix _ _ Hq) Hf) as [_ Hnin].
  apply Hnin. left.
Qed.

Lemma pte_at_add_table g j :
  idx j ->
  pte_at (add_table m f i n) g j =
  if decide (g = n) then 0 else if decide (f = g /\ i = j) then n * 4096 + 7 else pte_at m g j.
Proof.
  intros Hj. unfold add_table. case_decide as Hg.
  - subst g. by apply pte_at_clear_eq.
  - rewrite pte_at_clear_ne, pte_at_st by (done || lia). done.
Qed.

(** Entries other than the new one are as before in the old tables. *)
Lemma add_table_old p1 j p2 g :
  tpath (p1 ++ j :: p2) -> tbl m r p1 = Some g -> p1 ++ [j] <> q ++ [i] ->
  pte_at (add_table m f i n) g j = pte_at m g j.
Proof.
  intros Hp Hg Hne. pose proof (tpath_prefix _ _ Hp) as Hp1.
  destruct (pt_range _ _ _ _ Hwf p1 g Hp1 Hg) as [_ Hgn].
  rewrite pte_at_add_table by (destruct Hp as (_ & Hp & _); by decompose_Forall_hyps).
  rewrite decide_False by set_solver. rewrite decide_False; [done|].
  intros [<- <-]. apply Hne. f_equal.
  eapply (pt_inj _ _ _ _ Hwf); [done|by eapply tpath_prefix|done..].
Qed.

Lemma tbl_add_table_mono p g :
  tpath p -> tbl m r p = Some g -> tbl (add_table m f i n) r p = Some g.
Proof.
  intros Hp Hg. rewrite <- Hg. apply tbl_ext. intros p1 j p2 g1 -> Hg1.
  eapply add_table_old; [done..|]. intros [-> ->]%app_inj_tail.
  rewrite tbl_app, Hg1 in Hg. simplify_eq. simpl in Hg. by rewrite Hzero in Hg.
Qed.

Lemma tbl_add_table_new : tbl (add_table m f i n) r (q ++ [i]) = Some n.
Proof.
  rewrite tbl_snoc, (tbl_add_table_mono q f) by (done || by eapply tpath_prefix).
  simpl. rewrite pte_at_add_table, decide_False, decide_True by done.
  destruct (Z.eqb_spec (n * 4096 + 7) 0); [lia|]. f_equal. Z.div_mod_to_equations. lia.
Qed.

Lemma tbl_add_table_inv p g :
  tpath p -> tbl (add_table m f i n) r p = Some g ->
  tbl m r p = Some g \/ (p = q ++ [i] /\ g = n).
Proof.
  intros Hp Hg. destruct (decide (q ++ [i] `prefix_of` p)) as [[p2 ->]|Hno].
  - right. rewrite tbl_app, tbl_add_table_new in Hg. destruct p2 as [|j p2].
    + rewrite app_nil_r. simpl in Hg. by simplify_eq.
    + exfalso. simpl in Hg. rewrite pte_at_add_table, decide_True in Hg; [done|done|].
      destruct Hp as (_ & [_ Hp]%Forall_app & _). by decompose_Forall_hyps.
  - left. rewrite <- Hg. symmetry. apply tbl_ext. intros p1 j p2 g1 -> Hg1.
    eapply add_table_old; [done..|]. intros [-> ->]%app_inj_tail.
    apply Hno. exists p2. by rewrite <- app_assoc.
Qed.

Lemma pt_wf_add_table : pt_wf (add_table m f i n) np l r.
Proof.
  split.
  - intros p g Hp [Hg|[-> ->]]%tbl_add_table_inv; [| |done].
    + destruct (pt_range _ _ _ _ Hwf p g Hp Hg). set_solver.
    + done.
  - intros p p' g Hp Hp' [Hg|[-> ->]]%tbl_add_table_inv [Hg'|[-> Hgn]]%tbl_add_table_inv; try done.
    + by eapply (pt_inj _ _ _ _ Hwf).
    + subst g. destruct (pt_range _ _ _ _ Hwf p n Hp Hg). set_solver.
    + destruct (pt_range _ _ _ _ Hwf p' n Hp' Hg'). set_solver.
  - intros p g j Hpj Hg. destruct (tpath_last p j Hpj) as (Hp & Hj & _). rewrite pte_at_add_table by done.
    case_decide; [done|]. case_decide.
    { intros _. rewrite Z.odd_add, Z.odd_mul. by rewrite andb_false_r. }
    apply tbl_add_table_inv in Hg as [Hg|[_ ->]]; [by eapply (pt_present _ _ _ _ Hwf)|done|done].
Qed.

Lemma pte_of_add_table va :
  va_ok va -> pte_of (add_table m f i n) r va = pte_of m r va.
Proof.
  intros Hva. pose proof (va_path_tpath va Hva) as Hp.
  assert (idx (PTX va)) as Hx by apply index_ranges. unfold pte_of.
  destruct (tbl m r (va_path va)) as [g|] eqn:Hg.
  - rewrite (tbl_add_table_mono _ g) by done. rewrite pte_at_add_table by done.
    destruct (pt_range _ _ _ _ Hwf _ g Hp Hg) as [_ Hgl].
    rewrite decide_False by set_solver. rewrite decide_False; [done|]. intros [<- _].
    pose proof (pt_inj _ _ _ _ Hwf _ _ _ Hp (tpath_prefix _ _ Hq) Hg Hf) as E.
    destruct Hq as (Hl & _). rewrite length_app, <- E in Hl. simpl in Hl. lia.
  - destruct (tbl (add_table m f i n) r (va_path va)) as [g|] eqn:Hg'; [|done].
    apply tbl_add_table_inv in Hg' as [?|[_ ->]]; [congruence| |done].
    by rewrite pte_at_add_table, decide_True.
Qed.
End add_table.
