(* ===== verification/Walk.v ===== *)
(** * The page table walk is correct

    pml4e_walk with [create] finds or makes the table of an address without
    changing any mapping, or, when memory runs out, gives back every page it
    took; without [create] it only reads. *)
From S2P Require Import Prelude Mmu CMem KState Pmap FreeList PageTable.

(** ** What a successful walk may change *)
Record walk_rel (r va : Z) (s : kstate) (l : list Z) (s' : kstate) (l' : list Z) : Prop := {
  wr_wf : pmap_wf s' l';
  wr_pt : pt_wf (mem s') (npages s') l' r;
  wr_frame : vm_frame s s';
  wr_tlb : invlpgs s' = invlpgs s;
  wr_suffix : l' `suffix_of` l;
  wr_pte : forall va', va_ok va' -> pte_of (mem s') r va' = pte_of (mem s) r va';
  wr_mono : forall p g, tpath p -> tbl (mem s) r p = Some g -> tbl (mem s') r p = Some g;
  wr_inv : forall p g, tpath p -> tbl (mem s') r p = Some g -> g ∉ l -> tbl (mem s) r p = Some g;
  wr_bytes : forall a, a / 4096 ∉ l ->
    (forall p, p `prefix_of` va_path va -> (length p <= 2)%nat -> tbl (mem s) r p <> Some (a / 4096)) ->
    ld8 (mem s') a = ld8 (mem s) a;
  wr_pages : forall i, i ∉ l -> pages s' !! i = pages s !! i
}.

(** ** What a failed walk may change: only the contents of free pages *)
Record fail_rel (s : kstate) (l : list Z) (s' : kstate) : Prop := {
  fr_wf : pmap_wf s' l;
  fr_frame : vm_frame s s';
  fr_tlb : invlpgs s' = invlpgs s;
  fr_bytes : forall a, a / 4096 ∉ l -> ld8 (mem s') a = ld8 (mem s) a;
  fr_pages : forall i, i ∉ l -> pages s' !! i = pages s !! i
}.

Lemma fail_rel_refl s l : pmap_wf s l -> fail_rel s l s.
Proof. by split. Qed.

Lemma walk_rel_refl r va s l :
  pmap_wf s l -> pt_wf (mem s) (npages s) l r -> walk_rel r va s l s l.
Proof. by split. Qed.

Lemma prefix_tpath p va : va_ok va -> p `prefix_of` va_path va -> tpath p.
Proof. intros Hva [k Hk]. apply (tpath_prefix p k). rewrite <- Hk. by apply va_path_tpath. Qed.

Lemma walk_rel_trans r va s1 l1 s2 l2 s3 l3 :
  va_ok va ->
  walk_rel r va s1 l1 s2 l2 -> walk_rel r va s2 l2 s3 l3 -> walk_rel r va s1 l1 s3 l3.
Proof.
  intros Hva [] [].
  assert (forall x, x ∉ l1 -> x ∉ l2) as Hsub.
  { intros x Hx Hx'. apply Hx. destruct wr_suffix0 as [k ->]. set_solver. }
  split; try done; try (by etrans); try congruence.
  - intros va' Hva'. rewrite wr_pte1, wr_pte0; done.
  - eauto.
  - eauto.
  - intros a Ha Hp. rewrite wr_bytes1; [by apply wr_bytes0|auto|].
    intros p Hpre Hlen Hg. apply (Hp p Hpre Hlen). apply wr_inv0; [|done..].
    by eapply prefix_tpath.
  - intros i Hi. rewrite wr_pages1 by auto. by apply wr_pages0.
Qed.

(** ** Accesses to tables through the direct map *)
Lemma load64_table s f i :
  0 <= f < 65536 -> idx i -> load64 (f * 4096 + KERNBASE + 8 * i) s = Ret (pte_at (mem s) f i) s.
Proof.
  unfold idx. intros. unfold load64, gets.
  rewrite (proj2 (Z.leb_le _ _)), (proj2 (Z.leb_le _ _)) by jlia.
  cbn [andb]. unfold pte_at.
  by replace (f * 4096 + KERNBASE + 8 * i - KERNBASE) with (f * 4096 + 8 * i) by lia.
Qed.

Lemma store64_table s f i v :
  0 <= f < 65536 -> idx i ->
  store64 (f * 4096 + KERNBASE + 8 * i) v s = Ret tt (s <| mem := st64 (mem s) (f * 4096 + 8 * i) v |>).
Proof.
  unfold idx. intros. unfold store64, modify.
  rewrite (proj2 (Z.leb_le _ _)), (proj2 (Z.leb_le _ _)) by jlia.
  cbn [andb].
  by replace (f * 4096 + KERNBASE + 8 * i - KERNBASE) with (f * 4096 + 8 * i) by lia.
Qed.

Lemma KADDR_entry s e :
  0 <= e < 2 ^ 64 -> e / 4096 < npages s <= 65536 ->
  KADDR (PTE_ADDR e) s = Ret (e / 4096 * 4096 + KERNBASE) s.
Proof.
  intros He Hn. rewrite PTE_ADDR_eq by done.
  replace (e - e mod 4096) with (e / 4096 * 4096) by (Z.div_mod_to_equations; lia).
  apply KADDR_ok; [|rewrite Z.div_mul by lia; lia]. Z.div_mod_to_equations. lia.
Qed.

Lemma table_entry n :
  0 <= n < 65536 -> Z.lor (Z.lor (Z.lor (page2pa n) PTE_U) PTE_W) PTE_P = n * 4096 + 7.
Proof.
  intros. rewrite page2pa_eq by done. rewrite <- !Z.lor_assoc.
  apply (lor_low_add (n * 4096) 7 12); [lia|Z.div_mod_to_equations; lia|lia].
Qed.

(** ** One level of the walk

    The three functions of the source are the same level at different depths. *)
Definition walk_level (slot : Z) (create : bool) (next : Z -> K (option Z)) : K (option Z) :=
  entered ← walk_enter slot create;
  match entered with
  | None => mret None
  | Some newPage =>
      e ← load64 slot;
      t ← KADDR (PTE_ADDR e);
      result ← next t;
      walk_leave slot result newPage;;
      mret result
  end.

Lemma pgdir_walk_level pgdir va create :
  pgdir_walk pgdir va create =
  walk_level (pgdir + 8 * PDX va) create (fun t => mret (if t =? 0 then None else Some t)).
Proof. reflexivity. Qed.

Lemma pdpe_walk_level pdpe va create :
  pdpe_walk pdpe va create =
  walk_level (pdpe + 8 * PDPE va) create (fun t => pgdir_walk t va create).
Proof. reflexivity. Qed.

Lemma pml4e_walk_level pml4e va create s :
  pml4e_walk pml4e va create s =
  (r ← walk_level (pml4e + 8 * PML4 va) create (fun t => pdpe_walk t va create);
   mret ((fun k => k + 8 * PTX va) <$> r)) s.
Proof.
  unfold pml4e_walk, walk_level. unfold mbind, M_bind.
  destruct (walk_enter _ _ s) as [[np|] s1|]; try done.
  destruct (load64 _ s1) as [e s2|]; try done.
  destruct (KADDR _ s2) as [t s3|]; try done.
  destruct (pdpe_walk _ _ _ s3) as [res s4|]; try done.
  destruct (walk_leave _ _ _ s4) as [[] s5|]; try done.
  by destruct res.
Qed.

(** The situation before a level: the table at path [q] is in frame [f], and the
    address goes on from there with index [i]. *)
Record at_level (r va : Z) (q : list Z) (i : Z) (s : kstate) (l : list Z) (f : Z) : Prop := {
  al_va : va_ok va;
  al_path : q ++ [i] `prefix_of` va_path va;
  al_wf : pmap_wf s l;
  al_pt : pt_wf (mem s) (npages s) l r;
  al_tbl : tbl (mem s) r q = Some f
}.

Section level.
Context (r va i : Z) (q : list Z).

Lemma al_tpath s l f : at_level r va q i s l f -> tpath (q ++ [i]).
Proof. intros []. by eapply prefix_tpath. Qed.

Lemma al_idx s l f : at_level r va q i s l f -> idx i.
Proof. intros (_ & [_ H]%Forall_app & _)%al_tpath. by inversion H. Qed.

Lemma al_frame s l f : at_level r va q i s l f -> 0 <= f < npages s /\ f ∉ l /\ npages s <= 65536.
Proof.
  intros Hal. pose proof (tpath_prefix _ _ (al_tpath _ _ _ Hal)) as Hq. destruct Hal.
  destruct (pt_range _ _ _ _ al_pt0 q f Hq al_tbl0).
  pose proof (wf_npages _ _ al_wf0). tauto.
Qed.

(** The next table, once the entry is not zero. *)
Lemma al_next s l f :
  at_level r va q i s l f -> pte_at (mem s) f i <> 0 ->
  tbl (mem s) r (q ++ [i]) = Some (pte_at (mem s) f i / 4096) /\
  pte_at (mem s) f i / 4096 < npages s.
Proof.
  intros Hal He. assert (tbl (mem s) r (q ++ [i]) = Some (pte_at (mem s) f i / 4096)) as Ht.
  { rewrite tbl_snoc, (al_tbl _ _ _ _ _ _ _ Hal). simpl.
    by destruct (Z.eqb_spec (pte_at (mem s) f i) 0). }
  split; [done|]. eapply (pt_range _ _ _ _ (al_pt _ _ _ _ _ _ _ Hal)); [|done].
  by eapply al_tpath.
Qed.

(** An empty entry on the way: the address has no table. *)
Lemma al_no_table s l f :
  at_level r va q i s l f -> pte_at (mem s) f i = 0 -> tbl (mem s) r (va_path va) = None.
Proof.
  intros [_ [k Hk] _ _ Ht] Hz. rewrite Hk, tbl_app, tbl_snoc, Ht. cbn. by rewrite Hz.
Qed.

Lemma walk_enter_spec s l f :
  at_level r va q i s l f ->
  wp (walk_enter (f * 4096 + KERNBASE + 8 * i) true) s (fun res s' =>
    match res with
    | None => l = [] /\ s' = s /\ pte_at (mem s) f i = 0
    | Some None => s' = s /\ pte_at (mem s) f i <> 0
    | Some (Some n) => exists l', l = n :: l' /\ pte_at (mem s) f i = 0 /\
        pmap_wf s' l' /\ vm_frame s s' /\ invlpgs s' = invlpgs s /\
        mem s' = add_table (mem s) f i n /\ pages s' = <[n := mkPage None 1]> (pages s)
    end).
Proof.
  intros Hal. destruct (al_frame _ _ _ Hal) as (Hf & _ & Hnp).
  pose proof (al_idx _ _ _ Hal) as Hi. pose proof (al_wf _ _ _ _ _ _ _ Hal) as Hwf.
  unfold walk_enter. wsteps. apply wp_elim. do 2 eexists. split; [apply load64_table; [lia|done]|].
  destruct (Z.eqb_spec (pte_at (mem s) f i) 0) as [He|He]; cbn [negb]; [|by apply wp_ret].
  wsteps. destruct l as [|n l].
  { apply wp_elim. do 2 eexists. split; [by apply page_alloc_empty|]. by apply wp_ret. }
  wuse (page_alloc_cons s 0 n l Hwf). intros res s1 (-> & Hwf1 & Hfr1 & Htlb1 & Hpg1 & Hm1).
  cbn in Hm1. destruct (vm_frame_fields _ _ Hfr1) as (Hn1 & _).
  assert (0 <= n < npages s) as Hn by (eapply wf_free_range; [done|left]).
  pose proof (wf_nodup _ _ Hwf) as [Hnl _]%NoDup_cons.
  wsteps. wuse (page_incref_spec s1 l n (mkPage None 0) Hwf1); [rewrite Hpg1; apply lookup_insert_eq|done|].
  intros _ s2 [Hwf2 Hs2]. wsteps. rewrite table_entry by lia.
  apply wp_elim. do 2 eexists. split; [apply store64_table; [lia|done]|].
  wsteps. apply wp_elim. do 2 eexists. split.
  { apply page2kva_ok; rewrite Hs2; cbn; lia. }
  wsteps. unfold kmemset. wsteps. exists l.
  rewrite Hs2 in *. cbn. rewrite Hm1, Hpg1, insert_insert_eq, Z.add_simpl_r.
  split_and!; try done.
  - eapply wf_proper; [..|exact Hwf2]; cbn; by rewrite ?Hpg1, ?insert_insert_eq.
  - etrans; [exact Hfr1|]. done.
Qed.

(** After a page was hung at this level, the level is still well-formed. *)
Lemma walk_rel_enter s l f n s' l' :
  at_level r va q i s l f -> l = n :: l' -> pte_at (mem s) f i = 0 ->
  pmap_wf s' l' -> vm_frame s s' -> invlpgs s' = invlpgs s ->
  mem s' = add_table (mem s) f i n -> pages s' = <[n := mkPage None 1]> (pages s) ->
  walk_rel r va s l s' l' /\ tbl (mem s') r (q ++ [i]) = Some n.
Proof.
  intros Hal -> He Hwf' Hfr Htlb Hm Hpg. pose proof Hal as [Hva Hpre Hwf Hpt Ht].
  pose proof (al_tpath _ _ _ Hal) as Hq. destruct (al_frame _ _ _ Hal) as (Hf & Hfl & Hnp).
  assert (0 <= n < npages s) as Hn by (eapply wf_free_range; [done|left]).
  pose proof (wf_nodup _ _ Hwf) as [Hnl _]%NoDup_cons.
  destruct (vm_frame_fields _ _ Hfr) as (Hn' & _).
  split; [|rewrite Hm; by eapply tbl_add_table_new].
  split; rewrite ?Hm, ?Hn'; try done.
  - by eapply pt_wf_add_table.
  - by exists [n].
  - intros. by eapply pte_of_add_table.
  - intros. by eapply tbl_add_table_mono.
  - intros p g Hp Hg Hgl. eapply tbl_add_table_inv in Hg as [?|[_ ->]]; try done. set_solver.
  - intros a Ha Hpa. pose proof (al_idx _ _ _ Hal) as Hi. unfold idx in Hi.
    apply ld8_add_table; [set_solver|]. intros E. apply (Hpa q).
    + destruct Hpre as [k ->]. exists ([i] ++ k). by rewrite app_assoc.
    + destruct Hq as [Hl _]. rewrite length_app in Hl. simpl in Hl. lia.
    + rewrite Ht. f_equal. Z.div_mod_to_equations. lia.
  - intros j Hj. rewrite Hpg, lookup_insert_ne; [done|]. set_solver.
Qed.

(** When the rest of the walk fails, taking the page back restores everything
    but the contents of free pages. *)
Lemma walk_leave_fail s l f n s1 l1 s2 :
  at_level r va q i s l f -> l = n :: l1 -> pte_at (mem s) f i = 0 ->
  vm_frame s s1 -> invlpgs s1 = invlpgs s ->
  mem s1 = add_table (mem s) f i n -> pages s1 = <[n := mkPage None 1]> (pages s) ->
  fail_rel s1 l1 s2 ->
  wp (walk_leave (f * 4096 + KERNBASE + 8 * i) None (Some n)) s2 (fun _ s3 => fail_rel s l s3).
Proof.
  intros Hal -> He Hfr1 Htlb1 Hm1 Hpg1 [Hwf2 Hfr2 Htlb2 Hb2 Hpg2].
  destruct (al_frame _ _ _ Hal) as (Hf & Hfl & Hnp). pose proof (al_idx _ _ _ Hal) as Hi.
  destruct (vm_frame_fields _ _ (transitivity Hfr1 Hfr2)) as (Hn' & _).
  pose proof (wf_nodup _ _ (al_wf _ _ _ _ _ _ _ Hal)) as [Hnl _]%NoDup_cons.
  assert (pages s2 !! n = Some (mkPage None 1)) as Hn2.
  { rewrite Hpg2, Hpg1 by done. apply lookup_insert_eq. }
  unfold walk_leave. wsteps. apply wp_elim. do 2 eexists.
  split; [apply store64_table; [lia|done]|].
  set (s3 := s2 <| mem := _ |>). wsteps.
  wuse (page_zeroref_spec s3 l1 n (mkPage None 1)); [by eapply wf_proper, Hwf2|done|done|].
  intros _ s4 [Hwf4 Hs4].
  wuse (page_free_spec s4 l1 n (mkPage None 0) Hwf4).
  { rewrite Hs4. cbn. apply lookup_insert_eq. }
  intros _ s5. rewrite decide_False by (cbn; tauto). intros [Hwf5 Hs5]. split; try done.
  - etrans; [exact Hfr1|]. etrans; [exact Hfr2|]. by rewrite Hs5, Hs4.
  - rewrite Hs5, Hs4. cbn. congruence.
  - intros a Ha. rewrite Hs5, Hs4. cbn [mem]. cbn. rewrite ld8_st.
    case_decide as Hs.
    + rewrite Zdiv_0_l. symmetry. eapply (ld_zero 8); [exact He|lia].
    + rewrite Hb2, Hm1 by set_solver.
      apply ld8_add_table; [set_solver|lia].
  - intros j Hj. rewrite Hs5, Hs4. cbn. rewrite !lookup_insert_ne by set_solver.
    rewrite Hpg2, Hpg1, lookup_insert_ne by set_solver. done.
Qed.
End level.

(** ** The walk with [create] set *)

(** The outcome of the walk with [d] levels to go: the frame of the last table, after
    taking at most [d] pages, or,
    when there was none and fewer than [d] pages are free, a failure that changed
    nothing. *)
Definition walk_post (r va : Z) (d : nat) (s : kstate) (l : list Z) (res : option Z) (s' : kstate) : Prop :=
  match res with
  | Some k => exists l' g, walk_rel r va s l s' l' /\
      tbl (mem s') r (va_path va) = Some g /\ k = g * 4096 + KERNBASE /\ (length l <= length l' + d)%nat
  | None => fail_rel s l s' /\ tbl (mem s) r (va_path va) = None /\ (length l < d)%nat
  end.

Lemma walk_post_rel r va d s l s1 l1 k s2 :
  va_ok va -> walk_rel r va s l s1 l1 -> (length l <= S (length l1))%nat ->
  walk_post r va d s1 l1 (Some k) s2 -> walk_post r va (S d) s l (Some k) s2.
Proof.
  intros Hva H1 Hl (l' & g & H2 & Hg & Hk & Hc). exists l', g.
  split_and!; [by eapply walk_rel_trans|done|done|lia].
Qed.

Lemma walk_level_spec r va d q i s l f next :
  at_level r va q i s l f ->
  (forall s1 l1 f1, pmap_wf s1 l1 -> pt_wf (mem s1) (npages s1) l1 r ->
     tbl (mem s1) r (q ++ [i]) = Some f1 ->
     wp (next (f1 * 4096 + KERNBASE)) s1 (walk_post r va d s1 l1)) ->
  wp (walk_level (f * 4096 + KERNBASE + 8 * i) true next) s (walk_post r va (S d) s l).
Proof.
  intros Hal Hnext. pose proof Hal as [Hva Hpre Hwf Hpt Ht].
  destruct (al_frame _ _ _ _ _ _ _ Hal) as (Hf & _ & Hnp).
  pose proof (al_idx _ _ _ _ _ _ _ Hal) as Hi.
  (* the load and the conversion after walk_enter *)
  assert (forall s1 l1 newPage Q, at_level r va q i s1 l1 f -> npages s1 = npages s ->
    pte_at (mem s1) f i <> 0 ->
    wp (next (pte_at (mem s1) f i / 4096 * 4096 + KERNBASE)) s1 (fun res s2 =>
        wp (walk_leave (f * 4096 + KERNBASE + 8 * i) res newPage;; mret res) s2 Q) ->
    wp (e ← load64 (f * 4096 + KERNBASE + 8 * i); t ← KADDR (PTE_ADDR e); result ← next t;
        walk_leave (f * 4096 + KERNBASE + 8 * i) result newPage;; mret result) s1 Q) as Hgo.
  { intros s1 l1 newPage Q Hal1 Hn1 He HQ. destruct (al_next _ _ _ _ _ _ _ Hal1 He) as [_ Hlt].
    wsteps. apply wp_elim. do 2 eexists. split; [apply load64_table; [lia|done]|].
    wsteps. apply wp_elim. do 2 eexists.
    split; [apply KADDR_entry; [apply pte_at_range|lia]|]. wsteps. exact HQ. }
  unfold walk_level. apply wp_bind. wuse (walk_enter_spec r va i q s l f Hal).
  intros [[n|]|] s1 H1; [| |destruct H1 as (-> & -> & Hz); apply wp_ret;
    split_and!; [by apply fail_rel_refl|by eapply al_no_table|simpl; lia]].
  - destruct H1 as (l1 & El & He & Hwf1 & Hfr1 & Htlb1 & Hm1 & Hpg1).
    destruct (walk_rel_enter r va i q s l f n s1 l1 Hal El He Hwf1 Hfr1 Htlb1 Hm1 Hpg1) as [Hrel Hn1].
    pose proof (wr_pt _ _ _ _ _ _ Hrel) as Hpt1. destruct (vm_frame_fields _ _ Hfr1) as (Hnp1 & _).
    assert (at_level r va q i s1 l1 f) as Hal1.
    { split; try done. apply (wr_mono _ _ _ _ _ _ Hrel); [|done].
      eapply tpath_prefix. by eapply al_tpath. }
    assert (pte_at (mem s1) f i <> 0 /\ pte_at (mem s1) f i / 4096 = n) as [He1 En].
    { rewrite tbl_snoc, (al_tbl _ _ _ _ _ _ _ Hal1) in Hn1. simpl in Hn1.
      destruct (Z.eqb_spec (pte_at (mem s1) f i) 0); [done|]. by simplify_eq. }
    eapply (Hgo s1 l1); [done|done|done|]. rewrite En. wuse (Hnext s1 l1 n Hwf1 Hpt1 Hn1).
    intros [k|] s2 H2; wsteps.
    + eapply walk_post_rel; [done|exact Hrel|by rewrite El|done].
    + destruct H2 as (H2 & Hnone & Hshort). wuse (walk_leave_fail r va i q s l f n s1 l1 s2); [done..|].
      intros _ s3 H3. wsteps. split_and!; [done|by eapply al_no_table|]. rewrite El. simpl. lia.
  - destruct H1 as [-> He]. eapply (Hgo s l); [done..|].
    destruct (al_next _ _ _ _ _ _ _ Hal He) as [Hn1 _].
    wuse (Hnext s l _ Hwf Hpt Hn1). intros [k|] s2 H2; wsteps.
    { eapply walk_post_rel; [done|by apply walk_rel_refl|lia|done]. }
    destruct H2 as (? & ? & ?). split_and!; [done|done|lia].
Qed.

Lemma pml4e_walk_create r va s l :
  va_ok va -> pmap_wf s l -> pt_wf (mem s) (npages s) l r ->
  wp (pml4e_walk (r * 4096 + KERNBASE) va true) s (fun res s' =>
    match res with
    | Some k => exists l' g, walk_rel r va s l s' l' /\
        tbl (mem s') r (va_path va) = Some g /\ k = g * 4096 + KERNBASE + 8 * PTX va /\ (length l <= length l' + 3)%nat
    | None => fail_rel s l s' /\ tbl (mem s) r (va_path va) = None /\ (length l < 3)%nat
    end).
Proof.
  intros Hva Hwf Hpt. eapply wp_ext; [apply pml4e_walk_level|]. apply wp_bind.
  wuse (walk_level_spec r va 2 [] (PML4 va) s l r).
  { split; try done. by exists [PDPE va; PDX va]. }
  { intros s1 l1 f1 Hwf1 Hpt1 Hf1. rewrite pdpe_walk_level.
    wuse (walk_level_spec r va 1 [PML4 va] (PDPE va) s1 l1 f1).
    { split; try done. by exists [PDX va]. }
    { intros s2 l2 f2 Hwf2 Hpt2 Hf2. rewrite pgdir_walk_level.
      wuse (walk_level_spec r va 0 [PML4 va; PDPE va] (PDX va) s2 l2 f2).
      { by split. }
      { intros s3 l3 f3 Hwf3 Hpt3 Hf3. apply wp_ret.
        pose proof (pt_range _ _ _ _ Hpt3 _ f3 (va_path_tpath va Hva) Hf3) as [? _].
        destruct (Z.eqb_spec (f3 * 4096 + KERNBASE) 0); [jlia|].
        exists l3, f3. split_and!; [by apply walk_rel_refl|done|done|lia]. }
      done. }
    done. }
  intros [k|] s' H; wsteps; [|done].
  destruct H as (l' & g & Hrel & Hg & -> & Hc). exists l', g. done.
Qed.

(** ** The walk without [create]: a pure lookup *)
Lemma walk_level_lookup r va q i s l f next (res : option Z) :
  at_level r va q i s l f ->
  (pte_at (mem s) f i = 0 -> res = None) ->
  (forall f1, tbl (mem s) r (q ++ [i]) = Some f1 ->
     next (f1 * 4096 + KERNBASE) s = Ret res s) ->
  walk_level (f * 4096 + KERNBASE + 8 * i) false next s = Ret res s.
Proof.
  intros Hal Hnone Hnext. destruct (al_frame _ _ _ _ _ _ _ Hal) as (Hf & _ & Hnp).
  pose proof (al_idx _ _ _ _ _ _ _ Hal) as Hi. unfold walk_level, walk_enter.
  unfold mbind, M_bind. rewrite load64_table by (done || lia).
  destruct (Z.eqb_spec (pte_at (mem s) f i) 0) as [He|He]; cbn [negb].
  - unfold mret, M_ret. by rewrite Hnone.
  - destruct (al_next _ _ _ _ _ _ _ Hal He) as [Hn1 Hlt].
    unfold mret, M_ret. rewrite load64_table, KADDR_entry, Hnext by (done || lia || apply pte_at_range).
    by destruct res.
Qed.

Lemma pml4e_walk_lookup r va s l :
  va_ok va -> pmap_wf s l -> pt_wf (mem s) (npages s) l r ->
  pml4e_walk (r * 4096 + KERNBASE) va false s =
  Ret ((fun g => g * 4096 + KERNBASE + 8 * PTX va) <$> tbl (mem s) r (va_path va)) s.
Proof.
  intros Hva Hwf Hpt. rewrite pml4e_walk_level.
  set (res := (fun g => g * 4096 + KERNBASE) <$> tbl (mem s) r (va_path va)).
  assert (forall p, p `prefix_of` va_path va -> tbl (mem s) r p = None -> res = None) as Hnone.
  { intros p [k Hk] Hp. unfold res. by rewrite Hk, tbl_app, Hp. }
  erewrite bind_Ret; [|apply (walk_level_lookup r va [] (PML4 va) s l r _ res)].
  - unfold res. destruct (tbl _ _ _); done.
  - split; try done. by exists [PDPE va; PDX va].
  - intros He. apply (Hnone [PML4 va]); [by exists [PDPE va; PDX va]|]. simpl. by rewrite He.
  - intros f1 Hf1. cbn [app] in Hf1. rewrite pdpe_walk_level. apply (walk_level_lookup r va [PML4 va] _ s l).
    { split; try done. by exists [PDX va]. }
    { intros He. apply (Hnone [PML4 va; PDPE va]); [by exists [PDX va]|].
      change [PML4 va; PDPE va] with ([PML4 va] ++ [PDPE va]). rewrite tbl_snoc, Hf1.
      simpl. by rewrite He. }
    intros f2 Hf2. cbn [app] in Hf2. rewrite pgdir_walk_level.
    apply (walk_level_lookup r va [PML4 va; PDPE va] _ s l); [by split| |].
    { intros He. apply (Hnone (va_path va)); [done|].
      change (va_path va) with ([PML4 va; PDPE va] ++ [PDX va]). rewrite tbl_snoc, Hf2.
      simpl. by rewrite He. }
    intros f3 Hf3. unfold res. unfold va_path. cbn [app] in Hf3. rewrite Hf3.
    pose proof (pt_range _ _ _ _ Hpt _ f3 (va_path_tpath va Hva) Hf3) as [? _].
    destruct (Z.eqb_spec (f3 * 4096 + KERNBASE) 0); [jlia|done].
Qed.
