(* ===== verification/PmapSpec.v ===== *)
(** * Mappings: page_lookup, page_remove, page_insert, boot_map_segment and
    user_mem_check refine operations on the map from addresses to entries *)
From S2P Require Import Prelude Mmu CMem KState Pmap FreeList PageTable Walk.

(** The reference count of a page. *)
Definition ref (s : kstate) (i : Z) : Z := from_option pp_ref 0 (pages s !! i).

(** The current environment, if any, is an element of [envs]. *)
Definition curenv_ok (s : kstate) : Prop :=
  forall e, cpu_env s !! cpunum s = Some e -> is_Some (envs s !! e).

(** Whether tlb_invalidate flushes: no current environment, or this is its
    address space. *)
Definition flushes (s : kstate) (pml4e : Z) : bool :=
  match cpu_env s !! cpunum s with
  | None => true
  | Some e => bool_decide (env_pml4e <$> envs s !! e = Some pml4e)
  end.

Section space.
Context (r : Z).
Abbreviation root := (r * 4096 + KERNBASE).

(** ** Stores to entries *)
Lemma pt_wf_leaf m np l va g v :
  pt_wf m np l r -> va_ok va -> tbl m r (va_path va) = Some g -> 0 <= v < 2 ^ 64 ->
  pt_wf (st64 m (g * 4096 + 8 * PTX va) v) np l r /\
  tbl (st64 m (g * 4096 + 8 * PTX va) v) r (va_path va) = Some g /\
  (forall p, data_page m r p -> data_page (st64 m (g * 4096 + 8 * PTX va) v) r p).
Proof.
  intros Hpt Hva Hg Hv. pose proof (va_path_tpath va Hva) as Hp.
  assert (forall p, tpath p -> tbl (st64 m (g * 4096 + 8 * PTX va) v) r p = tbl m r p) as Htbl.
  { intros. eapply (tbl_st_leaf m np l r (va_path va)); [done..|apply index_ranges|done|done]. }
  split_and!.
  - eapply pt_wf_leaf_change; [exact Hpt|exact Hp|done|exact Hg|done|].
    intros a Ha. destruct (index_ranges va) as (_ & _ & _ & Hx & _).
    rewrite ld8_st, decide_False; [done|]. Z.div_mod_to_equations. lia.
  - by rewrite Htbl.
  - intros p Hd q Hq. rewrite Htbl by done. by apply Hd.
Qed.

Lemma pt_wf_free m np l p : pt_wf m np l r -> data_page m r p -> pt_wf m np (p :: l) r.
Proof.
  intros Hpt Hd. apply (pt_wf_kept m m np l); [done|done|]. intros q [->|?]%elem_of_cons; auto.
Qed.

Lemma data_page_walk va s l s1 l1 p :
  walk_rel r va s l s1 l1 -> p ∉ l -> data_page (mem s) r p -> data_page (mem s1) r p.
Proof. intros Hrel Hp Hd q Hq Hf. apply (Hd q Hq). by eapply wr_inv. Qed.

Lemma tbl_of_pte m va : pte_of m r va <> 0 -> exists g, tbl m r (va_path va) = Some g /\
  pte_at m g (PTX va) = pte_of m r va.
Proof. unfold pte_of. destruct (tbl _ _ _); [eauto|done]. Qed.

(** ** page_lookup *)
Lemma page_lookup_spec s l va g :
  va_ok va -> pmap_wf s l -> pt_wf (mem s) (npages s) l r ->
  tbl (mem s) r (va_path va) = Some g -> pte_of (mem s) r va / 4096 < npages s ->
  page_lookup root va s =
  Ret (Some (pte_of (mem s) r va / 4096, g * 4096 + KERNBASE + 8 * PTX va)) s.
Proof.
  intros Hva Hwf Hpt Hg Hlt. pose proof (wf_npages _ _ Hwf).
  destruct (pt_range _ _ _ _ Hpt _ g (va_path_tpath va Hva) Hg) as [Hgr _].
  unfold page_lookup. erewrite bind_Ret by by eapply pml4e_walk_lookup.
  rewrite Hg. cbn. erewrite bind_Ret by (apply load64_table; [lia|apply index_ranges]).
  unfold pte_of in *. rewrite Hg in *.
  unfold pa2page, gets, mbind, M_bind. rewrite PPN_div.
  destruct (Z.leb_spec (npages s) (pte_at (mem s) g (PTX va) / 4096)); [lia|done].
Qed.

Lemma page_lookup_none s l va :
  va_ok va -> pmap_wf s l -> pt_wf (mem s) (npages s) l r ->
  tbl (mem s) r (va_path va) = None -> page_lookup root va s = Ret None s.
Proof.
  intros Hva Hwf Hpt Hg. unfold page_lookup.
  erewrite bind_Ret by by eapply pml4e_walk_lookup. by rewrite Hg.
Qed.

Lemma tlb_invalidate_spec s va :
  0 <= r -> curenv_ok s ->
  tlb_invalidate root va s =
  Ret tt (s <| invlpgs := if flushes s root then va :: invlpgs s else invlpgs s |>).
Proof.
  intros Hr Hce. unfold tlb_invalidate, flushes.
  destruct (Z.eqb_spec root 0); [jlia|].
  unfold curenv, gets, mbind, M_bind. destruct (cpu_env s !! cpunum s) as [e|] eqn:He; [|done].
  destruct (Hce e He) as [v Hv]. unfold get_env. rewrite Hv. cbn.
  destruct (Z.eqb_spec (env_pml4e v) root) as [E|E].
  - rewrite bool_decide_true by congruence. done.
  - rewrite bool_decide_false by congruence. by destruct s.
Qed.

(** ** page_remove of a mapped address *)
Lemma page_remove_spec s l va p pg :
  va_ok va -> pmap_wf s l -> pt_wf (mem s) (npages s) l r -> curenv_ok s ->
  pte_of (mem s) r va <> 0 -> p = pte_of (mem s) r va / 4096 ->
  pages s !! p = Some pg -> p ∉ l -> data_page (mem s) r p ->
  wp (page_remove root va) s (fun _ s' => exists l',
    pmap_wf s' l' /\ pt_wf (mem s') (npages s') l' r /\ vm_frame s s' /\
    (exists g, tbl (mem s) r (va_path va) = Some g /\
       mem s' = st64 (mem s) (g * 4096 + 8 * PTX va) 0) /\
    l' = (if decide (pp_ref pg = 1) then p :: l else l) /\
    (forall i, ref s' i = if decide (i = p) then u16 (ref s i - 1) else ref s i) /\
    (forall i, is_Some (pages s' !! i) <-> is_Some (pages s !! i)) /\
    invlpgs s' = if flushes s root then va :: invlpgs s else invlpgs s).
Proof.
  intros Hva Hwf Hpt Hce Hne Hpe Hp Hpl Hd.
  destruct (tbl_of_pte _ _ Hne) as (g & Hg & He).
  destruct (pt_range _ _ _ _ Hpt _ g (va_path_tpath va Hva) Hg) as [Hgr _].
  pose proof (wf_npages _ _ Hwf) as Hnp.
  pose proof (pt_range _ _ _ _ Hpt [] r tpath_nil eq_refl) as [Hr0 _].
  assert (0 <= p < npages s) as Hpr by (apply (wf_pages _ _ Hwf); eauto).
  unfold page_remove. apply wp_bind, wp_elim. do 2 eexists. split.
  { eapply page_lookup_spec; [done..|]. lia. }
  cbn beta iota. rewrite <- Hpe. wsteps. wuse (page_decref_spec s l p pg Hwf Hp Hpl).
  intros _ s1 (Hfr & Hm & Htlb & Hpg). destruct (vm_frame_fields _ _ Hfr) as (Hn & Hen & Hcp & Hcn & _).
  wsteps. apply wp_elim. do 2 eexists. split; [apply store64_table; [lia|apply index_ranges]|].
  rewrite Hm. apply wp_elim. do 2 eexists. split.
  { apply tlb_invalidate_spec; [lia|]. unfold curenv_ok. cbn. by rewrite Hcp, Hcn, Hen. }
  unfold flushes. cbn. rewrite Hcp, Hcn, Hen, Htlb. fold (flushes s root).
  destruct (pt_wf_leaf (mem s) (npages s) l va g 0 Hpt Hva Hg ltac:(lia)) as (Hpt2 & _ & Hd2).
  exists (if decide (pp_ref pg = 1) then p :: l else l).
  destruct (decide (pp_ref pg = 1)) as [E|E]; destruct Hpg as [Hwf1 Hpg1]; rewrite Hn, Hpg1;
    split_and!; eauto; try (by eapply wf_proper, Hwf1); try (by etrans; [exact Hfr|]);
    try (by apply pt_wf_free; auto); intros i; unfold ref; cbn; rewrite ?Hpg1, lookup_insert;
    case_decide; subst; rewrite ?decide_True, ?decide_False, ?Hp by done; cbn; rewrite ?E; done || naive_solver.
Qed.

(** ** page_insert *)

(** What a successful page_insert of [pp] at [va] does: the entry of [va] and no
    other changes; the new page gains a reference and the one it replaces loses
    one (and is freed with the last), nothing at all happening to the counts when
    the page was there already; bytes outside the free pages and the tables of
    the address are untouched. *)
Record insert_rel (va pp perm : Z) (s : kstate) (l : list Z) (s' : kstate) (l' : list Z) : Prop := {
  ir_wf : pmap_wf s' l';
  ir_pt : pt_wf (mem s') (npages s') l' r;
  ir_frame : vm_frame s s';
  ir_pte : forall va', va_ok va' ->
    pte_of (mem s') r va' =
    if decide (VPN va' = VPN va) then Z.lor (pp * 4096) (u64 (Z.lor perm PTE_P))
    else pte_of (mem s) r va';
  ir_free : let old := pte_of (mem s) r va in exists l1, l1 `suffix_of` l /\
    l' = if decide (old <> 0 /\ old / 4096 <> pp /\ ref s (old / 4096) = 1)
         then old / 4096 :: l1 else l1;
  ir_count : (length l <= length l' + 3)%nat;
  ir_ref : let old := pte_of (mem s) r va in forall i, i ∉ l ->
    ref s' i = if decide (old / 4096 = pp) then ref s i
               else if decide (i = pp) then u16 (ref s i + 1)
               else if decide (i = old / 4096 /\ old <> 0) then u16 (ref s i - 1)
               else ref s i;
  ir_tlb : let old := pte_of (mem s) r va in
    invlpgs s' = if decide (old <> 0 /\ old / 4096 <> pp) then
                   if flushes s root then va :: invlpgs s else invlpgs s
                 else invlpgs s;
  ir_tbl : forall p g, tpath p -> tbl (mem s') r p = Some g -> g ∉ l -> tbl (mem s) r p = Some g;
  ir_bytes : forall a, a / 4096 ∉ l ->
    (forall p, p `prefix_of` va_path va -> tbl (mem s) r p <> Some (a / 4096)) ->
    ld8 (mem s') a = ld8 (mem s) a
}.

Lemma ir_data va pp perm s l s' l' p :
  insert_rel va pp perm s l s' l' -> p ∉ l -> data_page (mem s) r p -> data_page (mem s') r p.
Proof. intros H Hp Hd q Hq Hf. by apply (Hd q), (ir_tbl _ _ _ _ _ _ _ H). Qed.
Lemma ir_data_bytes va pp perm s l s' l' a :
  va_ok va -> insert_rel va pp perm s l s' l' -> a / 4096 ∉ l -> data_page (mem s) r (a / 4096) ->
  ld8 (mem s') a = ld8 (mem s) a.
Proof.
  intros Hva H Ha Hd. apply (ir_bytes _ _ _ _ _ _ _ H); [done|]. intros p Hp. by apply Hd, (prefix_tpath p va).
Qed.

(** The page mapped at [va], if any, is a page in use that is not a table. *)
Definition mapped_ok (s : kstate) (l : list Z) (va : Z) : Prop :=
  let p := pte_of (mem s) r va / 4096 in
  pte_of (mem s) r va <> 0 -> p < npages s /\ p ∉ l /\ data_page (mem s) r p.

(** Memories that differ only in the entry of [va], which is in table [g]. *)
Record leaf_upd (va g : Z) (m m' : bytes) : Prop := {
  lu_tbl : forall p, tpath p -> tbl m' r p = tbl m r p;
  lu_pte : forall va', va_ok va' -> VPN va' <> VPN va -> pte_of m' r va' = pte_of m r va';
  lu_bytes : forall a, a / 4096 <> g -> ld8 m' a = ld8 m a
}.

Lemma leaf_upd_refl va g m : leaf_upd va g m m.
Proof. by split. Qed.
Lemma leaf_upd_trans va g m1 m2 m3 :
  leaf_upd va g m1 m2 -> leaf_upd va g m2 m3 -> leaf_upd va g m1 m3.
Proof.
  intros [] []. split; intros; [rewrite lu_tbl1|rewrite lu_pte1|rewrite lu_bytes1]; auto.
Qed.

Lemma leaf_upd_pt va g m m' np l :
  va_ok va -> tbl m r (va_path va) = Some g -> leaf_upd va g m m' -> pt_wf m np l r -> pt_wf m' np l r.
Proof.
  intros Hva Hg [Ht _ Hb] Hpt. by eapply pt_wf_leaf_change; [exact Hpt|by apply va_path_tpath|done|exact Hg|..].
Qed.
Lemma leaf_upd_data va g m m' p : leaf_upd va g m m' -> data_page m r p -> data_page m' r p.
Proof. intros [Ht _ _] Hd q Hq. rewrite Ht by done. by apply Hd. Qed.

Lemma leaf_upd_st va g m np l v :
  pt_wf m np l r -> va_ok va -> tbl m r (va_path va) = Some g -> 0 <= v < 2 ^ 64 ->
  leaf_upd va g m (st64 m (g * 4096 + 8 * PTX va) v).
Proof.
  intros Hpt Hva Hg Hv. split.
  - intros. eapply (tbl_st_leaf m np l r (va_path va)); try done; [by apply va_path_tpath|apply index_ranges].
  - intros va' Hva' Hne. erewrite pte_of_st_leaf, decide_False by done. done.
  - intros a Ha. destruct (index_ranges va) as (_ & _ & _ & Hx & _).
    rewrite ld8_st, decide_False; [done|]. Z.div_mod_to_equations. lia.
Qed.

Lemma pte_of_leaf m va va' g :
  VPN va' = VPN va -> tbl m r (va_path va) = Some g -> pte_of m r va' = pte_at m g (PTX va).
Proof. intros [E1 E2]%va_path_of_VPN Hg. unfold pte_of. by rewrite E1, E2, Hg. Qed.

(** The last two statements of page_insert, after which the entry is
    [pp * 4096 | perm | PTE_P]. *)
Lemma insert_finish s l va g pp perm :
  va_ok va -> pmap_wf s l -> pt_wf (mem s) (npages s) l r -> tbl (mem s) r (va_path va) = Some g ->
  0 <= pp < npages s -> pte_at (mem s) g (PTX va) = pp * 4096 ->
  wp (e ← load64 (g * 4096 + KERNBASE + 8 * PTX va);
      store64 (g * 4096 + KERNBASE + 8 * PTX va) (Z.lor e (u64 (Z.lor perm PTE_P)));; mret 0) s
    (fun res s' => res = 0 /\ s' = s <| mem := mem s' |> /\ leaf_upd va g (mem s) (mem s') /\
       pte_at (mem s') g (PTX va) = Z.lor (pp * 4096) (u64 (Z.lor perm PTE_P))).
Proof.
  intros Hva Hwf Hpt Hg Hpp He. pose proof (wf_npages _ _ Hwf).
  destruct (pt_range _ _ _ _ Hpt _ g (va_path_tpath va Hva) Hg) as [Hgr _].
  assert (idx (PTX va)) as Hi by apply index_ranges.
  assert (0 <= Z.lor (pp * 4096) (u64 (Z.lor perm PTE_P)) < 2 ^ 64) as Hv.
  { apply lor_range; [lia..|]. apply wrap_range. lia. }
  wsteps. apply wp_elim. do 2 eexists. split; [apply load64_table; [lia|done]|].
  wsteps. apply wp_elim. do 2 eexists. split; [apply store64_table; [lia|done]|].
  wsteps. rewrite He. split_and!; try done.
  - eapply leaf_upd_st; done.
  - cbn. by rewrite pte_at_st, decide_True.
Qed.

Lemma PTE_ADDR_page e pp : 0 <= e < 2 ^ 64 -> PTE_ADDR e = pp * 4096 <-> e / 4096 = pp.
Proof. intros. rewrite PTE_ADDR_eq by done. Z.div_mod_to_equations. lia. Qed.

(** The first half of page_insert, up to the entry being [pp * 4096]. *)
Definition insert_attach (pte pp va : Z) : K unit :=
  e ← load64 pte;
  if negb (PTE_ADDR e =? page2pa pp) then
    (if negb (e =? 0) then page_remove root va else mret tt);;
    store64 pte (page2pa pp);;
    page_incref pp
  else store64 pte (Z.land e (u64 (Z.lnot 0xFFF))).

Lemma page_insert_split pp va perm s :
  page_insert root pp va perm s =
  (pte ← pml4e_walk root va true;
   match pte with
   | None => mret (- E_NO_MEM)
   | Some pte =>
       insert_attach pte pp va;;
       e ← load64 pte;
       store64 pte (Z.lor e (u64 (Z.lor perm PTE_P)));;
       mret 0
   end) s.
Proof.
  unfold page_insert, insert_attach. unfold mbind, M_bind.
  destruct (pml4e_walk _ _ _ s) as [[pte|] s1|]; [|done..].
  destruct (load64 pte s1) as [e s2|]; [|done].
  destruct (negb _); [|done]. by destruct (negb _).
Qed.

Record attach_rel (va g pp : Z) (s : kstate) (l : list Z) (s' : kstate) (l' : list Z) : Prop := {
  at_wf : pmap_wf s' l';
  at_frame : vm_frame s s';
  at_upd : leaf_upd va g (mem s) (mem s');
  at_pte : pte_at (mem s') g (PTX va) = pp * 4096;
  at_data : pt_wf (mem s') (npages s') l' r;
  at_free : let old := pte_of (mem s) r va in
    l' = if decide (old <> 0 /\ old / 4096 <> pp /\ ref s (old / 4096) = 1)
         then old / 4096 :: l else l;
  at_ref : let old := pte_of (mem s) r va in forall i,
    ref s' i = if decide (old / 4096 = pp) then ref s i
               else if decide (i = pp) then u16 (ref s i + 1)
               else if decide (i = old / 4096 /\ old <> 0) then u16 (ref s i - 1)
               else ref s i;
  at_tlb : let old := pte_of (mem s) r va in
    invlpgs s' = if decide (old <> 0 /\ old / 4096 <> pp) then
                   if flushes s root then va :: invlpgs s else invlpgs s
                 else invlpgs s
}.

Section attach.
Context (s : kstate) (l : list Z) (va g pp : Z).
Hypothesis Hva : va_ok va.
Hypothesis Hwf : pmap_wf s l.
Hypothesis Hpt : pt_wf (mem s) (npages s) l r.
Hypothesis Hce : curenv_ok s.
Hypothesis Hg : tbl (mem s) r (va_path va) = Some g.
Hypothesis Hpp : 0 < pp < npages s.
Hypothesis Hppl : pp ∉ l.
Hypothesis Hold : mapped_ok s l va.

(** Storing the new page and counting the reference, after the old page, if
    any, was removed. *)
Lemma attach_store s2 l2 :
  pmap_wf s2 l2 -> pt_wf (mem s2) (npages s2) l2 r -> npages s2 = npages s ->
  tbl (mem s2) r (va_path va) = Some g -> pp ∉ l2 ->
  wp (store64 (g * 4096 + KERNBASE + 8 * PTX va) (pp * 4096);; page_incref pp) s2 (fun _ s3 =>
    pmap_wf s3 l2 /\ vm_frame s2 s3 /\ invlpgs s3 = invlpgs s2 /\
    leaf_upd va g (mem s2) (mem s3) /\ pte_at (mem s3) g (PTX va) = pp * 4096 /\
    (forall i, ref s3 i = if decide (i = pp) then u16 (ref s2 i + 1) else ref s2 i)).
Proof.
  intros Hwf2 Hpt2 Hn2 Hg2 Hl2. pose proof (wf_npages _ _ Hwf).
  destruct (pt_range _ _ _ _ Hpt2 _ g (va_path_tpath va Hva) Hg2) as [Hgr _].
  assert (idx (PTX va)) as Hi by apply index_ranges.
  destruct (wf_page s2 l2 pp Hwf2 ltac:(lia)) as [pg Hpg].
  wsteps.
  apply wp_elim. do 2 eexists. split; [apply store64_table; [lia|done]|].
  wuse (page_incref_spec _ l2 pp pg); [by eapply wf_proper, Hwf2|done|done|].
  intros _ s3 [Hwf3 ->]. split_and!; try done.
  - eapply leaf_upd_st; [exact Hpt2|done|done|lia].
  - cbn. by rewrite pte_at_st, decide_True by (done || lia).
  - intros i. unfold ref. cbn. rewrite lookup_insert.
    destruct (decide (pp = i)) as [->|]; case_decide; try done. by rewrite Hpg.
Qed.

Lemma insert_attach_spec :
  wp (insert_attach (g * 4096 + KERNBASE + 8 * PTX va) pp va) s (fun _ s' => exists l',
    attach_rel va g pp s l s' l').
Proof.
  pose proof (wf_npages _ _ Hwf) as Hnp.
  destruct (pt_range _ _ _ _ Hpt _ g (va_path_tpath va Hva) Hg) as [Hgr _].
  assert (idx (PTX va)) as Hi by apply index_ranges.
  pose proof (pte_at_range (mem s) g (PTX va)) as Her.
  assert (pte_of (mem s) r va = pte_at (mem s) g (PTX va)) as Hpte by by apply pte_of_leaf.
  unfold insert_attach. wsteps. apply wp_elim. do 2 eexists.
  split; [apply load64_table; [lia|done]|].
  set (e := pte_at (mem s) g (PTX va)) in *. rewrite page2pa_eq by lia.
  destruct (Z.eqb_spec (PTE_ADDR e) (pp * 4096)) as [E|E]; rewrite PTE_ADDR_page in E by done; cbn [negb].
  - (* the page is there already *)
    apply wp_elim. do 2 eexists. split; [apply store64_table; [lia|done]|].
    assert (Z.land e (u64 (Z.lnot 4095)) = pp * 4096) as -> by (apply PTE_ADDR_page; done).
    assert (leaf_upd va g (mem s) (st64 (mem s) (g * 4096 + 8 * PTX va) (pp * 4096))) as Hu
      by (eapply leaf_upd_st; [exact Hpt|done|done|lia]).
    exists l. split; cbn; rewrite ?Hpte; try done.
    + by eapply wf_proper, Hwf.
    + by rewrite pte_at_st, decide_True by (done || lia).
    + by eapply (leaf_upd_pt va g).
    + rewrite decide_False by tauto. done.
    + intros. by rewrite decide_True.
    + rewrite decide_False by tauto. done.
  - destruct (Z.eqb_spec e 0) as [E0|E0]; cbn [negb].
    + apply wp_bind, wp_ret. wuse (attach_store s l Hwf Hpt eq_refl Hg Hppl).
      intros _ s' (Hwf' & Hfr & Htlb & Hu & He & Href). exists l.
      destruct (vm_frame_fields _ _ Hfr) as (Hn' & _).
      split; cbn; rewrite ?Hpte; try done.
      * rewrite Hn'. by eapply (leaf_upd_pt va g).
      * by rewrite decide_False by tauto.
      * intros i. rewrite decide_False by done. rewrite Href. case_decide; [done|].
        by rewrite decide_False by tauto.
      * by rewrite decide_False by tauto.
    + apply wp_bind. destruct Hold as (Hp1 & Hp2 & Hp3); [congruence|].
      rewrite Hpte in Hp1, Hp2, Hp3.
      destruct (wf_page s l (e / 4096) Hwf) as [pg Hpg]; [Z.div_mod_to_equations; lia|].
      wuse (page_remove_spec s l va (e / 4096) pg); try done; rewrite ?Hpte; try done.
      intros _ s1 (l1 & Hwf1 & Hpt1 & Hfr1 & (g' & Hg' & Hm1) & Hl1 & Href1 & _ & Htlb1).
      replace g' with g in * by congruence. destruct (vm_frame_fields _ _ Hfr1) as (Hn1 & _).
      assert (leaf_upd va g (mem s) (mem s1)) as Hu1
        by (rewrite Hm1; eapply leaf_upd_st; [exact Hpt|done|done|lia]).
      wuse (attach_store s1 l1 Hwf1 Hpt1 Hn1).
      { rewrite (lu_tbl _ _ _ _ Hu1); [done|by apply va_path_tpath]. }
      { subst l1. case_decide; set_solver. }
      intros _ s' (Hwf' & Hfr & Htlb & Hu & He & Href). exists l1.
      destruct (vm_frame_fields _ _ Hfr) as (Hn' & _).
      split; cbn; rewrite ?Hpte; try done.
      * by etrans.
      * by eapply leaf_upd_trans.
      * rewrite Hn'. eapply (leaf_upd_pt va g); [done| |exact Hu|done].
        rewrite (lu_tbl _ _ _ _ Hu1); [done|by apply va_path_tpath].
      * assert (ref s (e / 4096) = pp_ref pg) as -> by (unfold ref; by rewrite Hpg).
        subst l1. destruct (decide (pp_ref pg = 1));
          [rewrite decide_True by tauto|rewrite decide_False by tauto]; done.
      * intros i. rewrite decide_False by done. rewrite Href, Href1.
        destruct (decide (i = pp)) as [->|]; [by rewrite decide_False by congruence|].
        destruct (decide (i = e / 4096));
          [rewrite decide_True by tauto|rewrite decide_False by tauto]; done.
      * rewrite decide_True by tauto. congruence.
Qed.
End attach.

Lemma suffix_not_in (l1 l : list Z) x : l1 `suffix_of` l -> x ∉ l -> x ∉ l1.
Proof. intros [k ->]. set_solver. Qed.

Lemma flushes_frame s s' root' : vm_frame s s' -> flushes s' root' = flushes s root'.
Proof. intros (_ & He & Hc & Hn & _)%vm_frame_fields. unfold flushes. by rewrite He, Hc, Hn. Qed.
Lemma curenv_ok_frame s s' : vm_frame s s' -> curenv_ok s -> curenv_ok s'.
Proof. intros (_ & He & Hc & Hn & _)%vm_frame_fields. unfold curenv_ok. by rewrite He, Hc, Hn. Qed.

Lemma walk_ref va s l s1 l1 i : walk_rel r va s l s1 l1 -> i ∉ l -> ref s1 i = ref s i.
Proof. intros Hrel Hi. unfold ref. by rewrite (wr_pages _ _ _ _ _ _ Hrel). Qed.

Lemma mapped_ok_walk va s l s1 l1 :
  va_ok va -> walk_rel r va s l s1 l1 -> mapped_ok s l va -> mapped_ok s1 l1 va.
Proof.
  intros Hva Hrel Hold. unfold mapped_ok in *.
  rewrite (wr_pte _ _ _ _ _ _ Hrel va Hva). intros Hne. destruct (Hold Hne) as (? & ? & ?).
  destruct (vm_frame_fields _ _ (wr_frame _ _ _ _ _ _ Hrel)) as (-> & _). split_and!; [done| |].
  - eapply suffix_not_in, H0. apply Hrel.
  - by eapply data_page_walk.
Qed.

(** The bytes of other pages survive the walk. *)
Lemma walk_bytes va s l s1 l1 a :
  walk_rel r va s l s1 l1 -> a / 4096 ∉ l ->
  (forall p, p `prefix_of` va_path va -> tbl (mem s) r p <> Some (a / 4096)) ->
  ld8 (mem s1) a = ld8 (mem s) a.
Proof. intros Hrel Ha Hd. apply (wr_bytes _ _ _ _ _ _ Hrel); [done|]. intros p Hp _. by apply Hd. Qed.

Lemma page_insert_spec s l va pp perm :
  va_ok va -> pmap_wf s l -> pt_wf (mem s) (npages s) l r -> curenv_ok s ->
  0 < pp < npages s -> pp ∉ l -> data_page (mem s) r pp -> mapped_ok s l va ->
  wp (page_insert root pp va perm) s (fun res s' =>
    (res = 0 /\ exists l', insert_rel va pp perm s l s' l') \/
    (res = - E_NO_MEM /\ fail_rel s l s' /\ tbl (mem s) r (va_path va) = None /\ (length l < 3)%nat)).
Proof.
  intros Hva Hwf Hpt Hce Hpp Hppl Hppd Hold.
  eapply wp_ext; [apply page_insert_split|]. apply wp_bind.
  wuse (pml4e_walk_create r va s l Hva Hwf Hpt).
  intros [k|] s1 H1; [|apply wp_ret; by right]. destruct H1 as (l1 & g & Hrel & Hg & -> & Hcnt).
  pose proof Hrel as [Hwf1 Hpt1 Hfr1 Htlb1 Hsuf1 Hpte1 _ _ _ _].
  destruct (vm_frame_fields _ _ Hfr1) as (Hn1 & _). apply wp_bind.
  wuse (insert_attach_spec s1 l1 va g pp Hva Hwf1 Hpt1); [by eapply curenv_ok_frame|done|lia| | |].
  { by eapply suffix_not_in. }
  { by eapply mapped_ok_walk. }
  intros _ s2 (l2 & [Hwf2 Hfr2 Hu2 Hpe2 Hpt2 Hl2 Href2 Htlb2]). cbn zeta in *.
  destruct (vm_frame_fields _ _ Hfr2) as (Hn2 & _). rewrite (Hpte1 va Hva) in *.
  wuse (insert_finish s2 l2 va g pp perm Hva Hwf2 Hpt2); [|lia|done|].
  { rewrite (lu_tbl _ _ _ _ Hu2); [done|by apply va_path_tpath]. }
  intros res s3 (-> & Hs3 & Hu3 & Hpe3). left. split; [done|]. exists l2.
  assert (leaf_upd va g (mem s1) (mem s3)) as Hu by by eapply leaf_upd_trans.
  assert (g ∉ l -> tbl (mem s) r (va_path va) = Some g) as Hg0
    by (intros; eapply (wr_inv _ _ _ _ _ _ Hrel); [by apply va_path_tpath|done..]).
  assert (pte_of (mem s) r va <> 0 -> ref s1 (pte_of (mem s) r va / 4096) = ref s (pte_of (mem s) r va / 4096)) as Hrold.
  { intros Hne. eapply walk_ref; [done|]. by apply Hold. }
  split.
  - eapply wf_proper; [..|exact Hwf2]; by rewrite Hs3.
  - replace (npages s3) with (npages s2) by by rewrite Hs3. eapply (leaf_upd_pt va g); [done| |exact Hu3|exact Hpt2].
    rewrite (lu_tbl _ _ _ _ Hu2); [done|by apply va_path_tpath].
  - etrans; [exact Hfr1|]. etrans; [exact Hfr2|]. rewrite Hs3. done.
  - intros va' Hva'. destruct (decide (VPN va' = VPN va)) as [E|E].
    + rewrite (pte_of_leaf _ _ _ g E); [done|]. rewrite (lu_tbl _ _ _ _ Hu); [done|by apply va_path_tpath].
    + rewrite (lu_pte _ _ _ _ Hu) by done. by apply Hpte1.
  - exists l1. split; [done|]. rewrite Hl2.
    destruct (decide (pte_of (mem s) r va = 0)) as [E|E].
    + rewrite !decide_False by tauto. done.
    + by rewrite (Hrold E).
  - rewrite Hl2. clear - Hcnt. case_decide; simpl; lia.
  - intros old i Hi. assert (ref s3 i = ref s2 i) as -> by (unfold ref; by rewrite Hs3).
    rewrite Href2, (walk_ref _ _ _ _ _ _ Hrel Hi). done.
  - assert (invlpgs s3 = invlpgs s2) as -> by by rewrite Hs3.
    rewrite Htlb2, Htlb1, (flushes_frame s s1 _ Hfr1). done.
  - intros p f Hp Hf Hfl. rewrite (lu_tbl _ _ _ _ Hu) in Hf by done. by eapply (wr_inv _ _ _ _ _ _ Hrel).
  - intros a Ha Hd. rewrite (lu_bytes _ _ _ _ Hu); [by eapply walk_bytes|].
    intros <-. apply (Hd (va_path va)); [done|]. by apply Hg0.
Qed.
End space.
