(* ===== verification/DemoState.v ===== *)
(** * A small concrete kernel state

    Thirty-two pages of physical memory, all bytes zero: page 1 is the root table of
    an empty address space, pages 2 and 3 are in use, pages 8 to 31 are free.  It
    has NENV environments, of which environment 0 is current on CPU 0 and the
    others are free.  The concrete instances of the theorems start from it. *)
From S2P Require Import Prelude Mmu CMem Console KState Pmap FreeList PageTable Walk PmapSpec.

Definition demo_free : list Z := [8; 9; 10; 11; 12; 13; 14; 15; 16; 17; 18; 19; 20; 21; 22; 23; 24; 25; 26; 27; 28; 29; 30; 31].

Definition demo_page (i : Z) : Page :=
  if i <? 1 then mkPage None 0
  else if i <? 4 then mkPage None 1
  else if i <? 8 then mkPage None 0
  else mkPage (if i =? 31 then None else Some (i + 1)) 0.

Definition demo_env : Env :=
  zero_env <| env_id := 0x1000 |> <| env_status := ENV_RUNNING |>
           <| env_pml4e := 0xF0001000 |> <| env_cr3 := 0x1000 |>.

Definition demo_envs : gmap Z Env :=
  <[0 := demo_env]>
  (list_to_map ((fun i => (i, zero_env <| env_link := if i =? NENV - 1 then None else Some (i + 1) |>))
                <$> seqZ 0 NENV)).

Definition demo : kstate := {|
  mem := ∅; cr3 := 0x1000; cpunum := 0; invlpgs := [];
  npages := 32; npages_basemem := 32; boot_pml4e := 0xF0001000; boot_cr3 := 0x1000;
  pages := list_to_map ((fun i => (i, demo_page i)) <$> seqZ 0 32);
  page_free_list := Some 8; nextfree := 0; mmio_base := MMIOBASE; user_mem_check_addr := 0;
  envs := demo_envs; env_free_list := Some 1; cpu_env := {[ 0 := 0 ]};
  kernel_lock := Some 0; ticks := 0; panicstr := false; cons := demo_console;
  nic := mkNic ∅ ∅ ∅ ∅ ∅; eois := 0 |}.

Lemma demo_not_free i : i < 8 -> i ∉ demo_free.
Proof. intros Hi. unfold demo_free. rewrite !not_elem_of_cons. split_and!; [lia..|apply not_elem_of_nil]. Qed.

(** Facts about a finite index set, checked one index at a time. *)
Lemma forall_below (P : Z -> bool) n :
  forallb P (seqZ 0 n) = true -> forall i, 0 <= i < n -> P i = true.
Proof. rewrite forallb_forall. intros H i Hi. apply H. apply list_elem_of_In, elem_of_seqZ. lia. Qed.

Lemma lookup_tabulate {A} (f : Z -> A) n i :
  (list_to_map ((fun i => (i, f i)) <$> seqZ 0 n) : gmap Z A) !! i =
  if decide (0 <= i < n) then Some (f i) else None.
Proof.
  case_decide as Hi.
  - apply elem_of_list_to_map_1.
    + rewrite <- list_fmap_compose. rewrite list_fmap_id. apply NoDup_seqZ.
    + apply list_elem_of_fmap. exists i. split; [done|]. apply elem_of_seqZ. lia.
  - apply not_elem_of_list_to_map_1. rewrite <- list_fmap_compose, list_fmap_id.
    intros ?%elem_of_seqZ. lia.
Qed.

Lemma demo_wf : pmap_wf demo demo_free.
Proof.
  assert (forall i, pages demo !! i = if decide (0 <= i < 32) then Some (demo_page i) else None) as Hp
    by (intros; apply lookup_tabulate).
  split.
  - cbn. lia.
  - intros i. rewrite Hp. change (npages demo) with 32. case_decide as Hi.
    + split; [done|eauto].
    + split; [by intros []|lia].
  - cbn [lseg demo_free]. do 24 (split; [reflexivity|]; eexists; split; [reflexivity|]). reflexivity.
  - apply (bool_decide_unpack _). vm_compute. exact I.
  - intros i pg. rewrite Hp. case_decide; [|done]. intros [= <-]. unfold demo_page.
    repeat case_match; cbn; lia.
  - intros i pg Hi. rewrite Hp. case_decide; [|done]. intros [= <-].
    assert (8 <= i) by (destruct (decide (i < 8)) as [Hlt|]; [by apply demo_not_free in Hlt|lia]).
    unfold demo_page.
    destruct (Z.ltb_spec i 1), (Z.ltb_spec i 4), (Z.ltb_spec i 8); cbn; lia.
Qed.

(** An address space whose root table is empty is well formed. *)
Lemma pt_wf_empty m np l r :
  0 <= r < np -> r ∉ l -> (forall i, idx i -> pte_at m r i = 0) -> pt_wf m np l r.
Proof.
  intros Hr Hl Hz. assert (forall p f, tpath p -> tbl m r p = Some f -> p = [] /\ f = r) as Ht.
  { intros [|i p] f (_ & Hp & _) Hf; [by simplify_eq/=|]. simpl in Hf.
    rewrite Hz in Hf; [done|]. by decompose_Forall_hyps. }
  split.
  - intros p f Hp [_ ->]%Ht; done.
  - intros p q f Hp Hq [-> _]%Ht [-> _]%Ht; done.
  - intros p f i (Hp & Hi & _)%tpath_last [_ ->]%Ht; [|done]. by rewrite Hz.
Qed.

Lemma pte_at_no_memory f i : pte_at ∅ f i = 0.
Proof. unfold pte_at. apply ld_empty. Qed.

Lemma demo_pt : pt_wf (mem demo) (npages demo) demo_free 1.
Proof.
  apply pt_wf_empty; [cbn; lia|by apply demo_not_free|]. intros. apply pte_at_no_memory.
Qed.

Lemma demo_tbl p f : tpath p -> tbl ∅ 1 p = Some f -> p = [] /\ f = 1.
Proof. intros _. destruct p as [|i p]; simpl; [naive_solver|]. by rewrite pte_at_no_memory. Qed.

Lemma demo_data p : p <> 1 -> data_page (mem demo) 1 p.
Proof. intros Hp q Hq [_ ->]%demo_tbl; done. Qed.

Lemma demo_pte va : pte_of (mem demo) 1 va = 0.
Proof. unfold pte_of, va_path. cbn [tbl mem demo]. by rewrite pte_at_no_memory. Qed.

Lemma demo_mapped va : mapped_ok 1 demo demo_free va.
Proof. intros H. by rewrite demo_pte in H. Qed.

Lemma demo_curenv : curenv_ok demo.
Proof.
  intros e He. assert (e = 0) as -> by (vm_compute in He; congruence).
  eexists. apply lookup_insert_eq.
Qed.
