(* ===== verification/BootMap.v ===== *)
(** * The kernel's part of the address space: boot_map_segment and the mappings of
      x64_vm_init and mem_init_mp (kern/pmap.c)

    The mappings are made after the page allocator is set up.  The addresses of the
    arrays and stacks, which the linker and boot_alloc determine, are arguments. *)
From S2P Require Import Prelude Mmu CMem Console KState Pmap FreeList PageTable Walk PmapSpec DemoState.

Definition sizeof_Page : Z := 16.
Definition sizeof_Env : Z := 280.

Fixpoint mem_init_mp_loop (n : nat) (i percpu_kstacks : Z) : K unit :=
  match n with
  | O => mret tt
  | S n' =>
      let kstacktop := u32 (KSTACKTOP - i * (KSTKSIZE + KSTKGAP)) in
      root ← gets boot_pml4e;
      pa ← PADDR (percpu_kstacks + i * KSTKSIZE);
      boot_map_segment root (u32 (kstacktop - KSTKSIZE)) KSTKSIZE pa PTE_W;;
      mem_init_mp_loop n' (i + 1) percpu_kstacks
  end.
Definition mem_init_mp (percpu_kstacks : Z) : K unit := mem_init_mp_loop (Z.to_nat NCPU) 0 percpu_kstacks.

(** The part of x64_vm_init that sets up virtual memory. *)
Definition vm_init_mappings (pages envs bootstack percpu_kstacks : Z) : K unit :=
  root ← gets boot_pml4e;
  n ← gets npages;
  let pages_size := ROUNDUP (n * sizeof_Page) PGSIZE in
  let envs_size := ROUNDUP (NENV * sizeof_Env) PGSIZE in
  pages_pa ← PADDR pages;
  boot_map_segment root UPAGES pages_size pages_pa (Z.lor PTE_U PTE_P);;
  boot_map_segment root pages pages_size pages_pa (Z.lor PTE_P PTE_W);;
  envs_pa ← PADDR envs;
  boot_map_segment root UENVS envs_size envs_pa (Z.lor PTE_U PTE_P);;
  boot_map_segment root envs envs_size envs_pa (Z.lor PTE_P PTE_W);;
  stack_pa ← PADDR bootstack;
  boot_map_segment root (KSTACKTOP - KSTKSIZE) KSTKSIZE stack_pa (Z.lor PTE_P PTE_W);;
  boot_map_segment root KERNBASE (u32 (u32 (- 1) - KERNBASE + 1)) 0 (Z.lor PTE_P PTE_W);;
  mem_init_mp percpu_kstacks.

Lemma VPN_div va : VPN va = va / 4096.
Proof. unfold VPN, PPN, PTXSHIFT. by rewrite Z.shiftr_div_pow2. Qed.

(** ** The walk, where the table is there *)
Lemma walk_level_present r va q i s l f next res :
  at_level r va q i s l f -> pte_at (mem s) f i <> 0 ->
  (forall f1, tbl (mem s) r (q ++ [i]) = Some f1 -> next (f1 * 4096 + KERNBASE) s = Ret (Some res) s) ->
  walk_level (f * 4096 + KERNBASE + 8 * i) true next s = Ret (Some res) s.
Proof.
  intros Hal He Hnext. destruct (al_frame _ _ _ _ _ _ _ Hal) as (Hf & _ & Hnp).
  pose proof (al_idx _ _ _ _ _ _ _ Hal) as Hi. unfold walk_level, walk_enter. unfold mbind, M_bind. rewrite load64_table by (done || lia).
  rewrite (proj2 (Z.eqb_neq _ 0)) by done. destruct (al_next _ _ _ _ _ _ _ Hal He) as [Hn1 Hlt].
  unfold mret, M_ret. rewrite load64_table, KADDR_entry, Hnext by (done || lia || apply pte_at_range). done.
Qed.

Lemma pml4e_walk_present r va s l g :
  va_ok va -> pmap_wf s l -> pt_wf (mem s) (npages s) l r -> tbl (mem s) r (va_path va) = Some g ->
  pml4e_walk (r * 4096 + KERNBASE) va true s = Ret (Some (g * 4096 + KERNBASE + 8 * PTX va)) s.
Proof.
  intros Hva Hwf Hpt Hg. rewrite pml4e_walk_level.
  assert (forall q i f, q ++ [i] `prefix_of` va_path va -> tbl (mem s) r q = Some f -> pte_at (mem s) f i <> 0) as Hne.
  { intros q i f [k Hk] Hf Hz. rewrite Hk, tbl_app, tbl_snoc, Hf in Hg. cbn in Hg. by rewrite Hz in Hg. }
  erewrite bind_Ret; [|apply (walk_level_present r va [] (PML4 va) s l r _ (g * 4096 + KERNBASE))]; [done|..].
  - split; try done. by exists [PDPE va; PDX va].
  - apply (Hne []); [by exists [PDPE va; PDX va]|done].
  - intros f1 Hf1. cbn [app] in Hf1. rewrite pdpe_walk_level. apply (walk_level_present r va [PML4 va] _ s l).
    { split; try done. by exists [PDX va]. }
    { apply (Hne [PML4 va]); [by exists [PDX va]|done]. }
    intros f2 Hf2. cbn [app] in Hf2. rewrite pgdir_walk_level.
    apply (walk_level_present r va [PML4 va; PDPE va] _ s l); [by split|by apply (Hne [PML4 va; PDPE va])|].
    intros f3 Hf3. cbn [app] in Hf3. unfold va_path in Hg. rewrite Hg in Hf3. injection Hf3 as <-.
    pose proof (pt_range _ _ _ _ Hpt _ g (va_path_tpath va Hva) Hg) as [? _].
    destruct (Z.eqb_spec (g * 4096 + KERNBASE) 0); [jlia|done].
Qed.

(** ** One segment *)

(** What the loop keeps: the allocator and the tables stay well formed. *)
Record boot_rel (r : Z) (s : kstate) (l : list Z) (s' : kstate) (l' : list Z) : Prop := {
  br_wf : pmap_wf s' l';
  br_pt : pt_wf (mem s') (npages s') l' r;
  br_frame : vm_frame s s';
  br_suffix : l' `suffix_of` l;
  br_pages : forall i, i ∉ l -> pages s' !! i = pages s !! i
}.

Lemma boot_rel_refl r s l : pmap_wf s l -> pt_wf (mem s) (npages s) l r -> boot_rel r s l s l.
Proof. by split. Qed.
Lemma boot_rel_trans r s1 l1 s2 l2 s3 l3 : boot_rel r s1 l1 s2 l2 -> boot_rel r s2 l2 s3 l3 -> boot_rel r s1 l1 s3 l3.
Proof.
  intros [] []. split; try done; try (by etrans). intros i Hi. rewrite br_pages1, br_pages0; [done|done|]. by eapply suffix_not_in.
Qed.

Definition boot_entry (pa perm : Z) : Z := pa + Z.lor perm PTE_P.
Definition segment (la size pa perm : Z) (f : Z -> Z) (va : Z) : Z :=
  if decide (la <= va < la + size) then boot_entry (pa + (va - la) / 4096 * 4096) perm else f va.

Lemma low_va va : 0 <= va < 2 ^ 32 -> va_ok va.
Proof. intros Hva. split; [lia|]. rewrite !PML4_eq. change (UVPT / 549755813888 mod 512) with 2. Z.div_mod_to_equations. lia. Qed.

(** One page. *)
Lemma boot_map_page r s l va v :
  pmap_wf s l -> pt_wf (mem s) (npages s) l r -> va_ok va -> 0 <= v < 2 ^ 64 ->
  let absent := if decide (tbl (mem s) r (va_path va) = None) then 3%nat else 0%nat in
  (absent <= length l)%nat ->
  wp (ppte ← pml4e_walk (r * 4096 + KERNBASE) va true; store64 (default 0 ppte) v) s (fun _ s' => exists l',
    boot_rel r s l s' l' /\ (length l <= length l' + absent)%nat /\ tbl (mem s') r (va_path va) <> None /\
    forall va', va_ok va' -> pte_of (mem s') r va' = if decide (VPN va' = VPN va) then v else pte_of (mem s) r va').
Proof.
  intros Hwf Hpt Hva Hv absent Hl. apply wp_bind.
  assert (forall s1 l1 g, boot_rel r s l s1 l1 -> (length l <= length l1 + absent)%nat -> tbl (mem s1) r (va_path va) = Some g ->
    (forall va', va_ok va' -> pte_of (mem s1) r va' = pte_of (mem s) r va') ->
    wp (store64 (default 0 (Some (g * 4096 + KERNBASE + 8 * PTX va))) v) s1 (fun _ s' => exists l', boot_rel r s l s' l' /\ (length l <= length l' + absent)%nat /\
      tbl (mem s') r (va_path va) <> None /\ forall va', va_ok va' -> pte_of (mem s') r va' = if decide (VPN va' = VPN va) then v else pte_of (mem s) r va')) as Hstore.
  { intros s1 l1 g Hrel Hlen Hg Hpte. pose proof Hrel as [Hwf1 Hpt1 _ _ _]. pose proof (pt_range _ _ _ _ Hpt1 _ g (va_path_tpath va Hva) Hg) as [Hgr _].
    pose proof (wf_npages _ _ Hwf1) as Hnp. cbn [default]. apply wp_elim. do 2 eexists. split; [apply store64_table; [lia|apply index_ranges]|].
    destruct (pt_wf_leaf r (mem s1) (npages s1) l1 va g v Hpt1 Hva Hg Hv) as (Hpt2 & Hg2 & _). exists l1.
    set (s2 := s1 <| mem := _ |>). assert (mem s2 = st64 (mem s1) (g * 4096 + 8 * PTX va) v) as Hm by reflexivity. split_and!; [|done| |].
    - eapply boot_rel_trans; [exact Hrel|]. split; try done. by eapply wf_proper, Hwf1.
    - by rewrite Hm, Hg2.
    - intros va' Hva'. rewrite Hm, (pte_of_st_leaf _ _ _ _ _ _ _ _ Hpt1 Hva Hva' Hg Hv). by rewrite Hpte. }
  unfold absent in *. destruct (tbl (mem s) r (va_path va)) as [g|] eqn:Hg.
  - rewrite decide_False in * by done. apply wp_elim. do 2 eexists. split; [by apply (pml4e_walk_present r va s l g)|].
    apply (Hstore s l g); [by apply boot_rel_refl|lia|done|done].
  - rewrite decide_True in * by done. wuse (pml4e_walk_create r va s l Hva Hwf Hpt). intros [k|] s1 H1; [|destruct H1 as (_ & _ & H1); lia].
    destruct H1 as (l1 & g & Hw & Hg1 & -> & Hlen). apply (Hstore s1 l1 g); [|lia|done|by apply Hw]. by split; apply Hw.
Qed.

Lemma boot_entry_eq pa perm : 0 <= pa -> pa mod 4096 = 0 -> 0 <= perm < 4096 -> Z.lor (Z.lor pa perm) PTE_P = boot_entry pa perm.
Proof.
  intros Hpa Hal Hp. rewrite <- Z.lor_assoc. unfold boot_entry, PTE_P.
  pose proof (lor_range perm 1 12 ltac:(lia) ltac:(lia) ltac:(lia)). apply (lor_low_add pa _ 12); [lia|done|lia].
Qed.

Abbreviation region va := (va / 2097152).
Lemma region_path va va' : 0 <= va < 2 ^ 48 -> 0 <= va' < 2 ^ 48 -> region va = region va' -> va_path va = va_path va'.
Proof.
  intros H H' E. unfold va_path. rewrite !PML4_eq, !PDPE_eq, !PDX_eq, E.
  replace (va / 1073741824) with (region va / 512) by (rewrite Z.div_div by lia; done).
  replace (va' / 1073741824) with (region va' / 512) by (rewrite Z.div_div by lia; done).
  replace (va / 549755813888) with (region va / 262144) by (rewrite Z.div_div by lia; done).
  replace (va' / 549755813888) with (region va' / 262144) by (rewrite Z.div_div by lia; done). by rewrite E.
Qed.

Definition missing (s : kstate) (r va : Z) : Z := if decide (tbl (mem s) r (va_path va) = None) then 1 else 0.

Lemma boot_map_loop_spec n fuel r s l la pa perm i (N : Z) :
  pmap_wf s l -> pt_wf (mem s) (npages s) l r -> 0 <= la -> la mod 4096 = 0 -> la + N * 4096 <= 2 ^ 32 ->
  0 <= pa -> pa mod 4096 = 0 -> pa + N * 4096 <= 2 ^ 52 -> 0 <= perm < 4096 -> 0 <= i -> i + Z.of_nat n = N -> (n < fuel)%nat ->
  3 * (region (la + N * 4096 - 1) - region (la + i * 4096) + missing s r (la + i * 4096)) <= Z.of_nat (length l) ->
  wp (boot_map_loop fuel (r * 4096 + KERNBASE) la (N * 4096) perm (la + i * 4096) (pa + i * 4096)) s (fun _ s' => exists l',
    boot_rel r s l s' l' /\
    Z.of_nat (length l) <= Z.of_nat (length l') + Z.max 0 (3 * (region (la + N * 4096 - 1) - region (la + i * 4096) + missing s r (la + i * 4096))) /\
    forall va, va_ok va -> pte_of (mem s') r va = segment (la + i * 4096) (Z.of_nat n * 4096) (pa + i * 4096) perm (pte_of (mem s) r) va).
Proof.
  revert fuel s l i. induction n as [|n IH]; intros fuel s l i Hwf Hpt Hla Hal Hend Hpa Hpal Hpend Hperm Hi HN Hf Hmem;
    (destruct fuel as [|fuel]; [lia|]); cbn [boot_map_loop]; rewrite (wrap_small 64 (_ - la)) by lia;
    replace (la + i * 4096 - la) with (i * 4096) by lia.
  { rewrite (proj2 (Z.ltb_ge _ _)) by lia. apply wp_ret. exists l. split_and!; [by apply boot_rel_refl|lia|].
    intros va Hva. unfold segment. by rewrite decide_False by lia. }
  rewrite (proj2 (Z.ltb_lt _ _)) by lia. set (va := la + i * 4096) in *. rewrite !wrap_small by (unfold va, PGSIZE; lia).
  rewrite boot_entry_eq; [|lia|Z.div_mod_to_equations; lia|done].
  assert (0 <= boot_entry (pa + i * 4096) perm < 2 ^ 64) as He.
  { unfold boot_entry, PTE_P. pose proof (lor_range perm 1 12 ltac:(lia) ltac:(lia) ltac:(lia)). lia. }
  assert (va_ok va) as Hva by (apply low_va; unfold va; lia). apply wp_bind_assoc, wp_bind.
  assert (region va <= region (la + N * 4096 - 1)) as Hreg by (unfold va; Z.div_mod_to_equations; lia).
  wuse (boot_map_page r s l va _ Hwf Hpt Hva He); [unfold missing in Hmem; case_decide; lia|].
  intros _ s1 (l1 & Hrel & Hlen & Htbl & Hpte). pose proof Hrel as [Hwf1 Hpt1 _ _ _].
  replace (va + PGSIZE) with (la + (i + 1) * 4096) by (unfold va, PGSIZE; lia). replace (pa + i * 4096 + PGSIZE) with (pa + (i + 1) * 4096) by (unfold PGSIZE; lia).
  set (va1 := la + (i + 1) * 4096) in *.
  assert (0 <= missing s r va <= 1 /\ (length l <= length l1 + Z.to_nat (3 * missing s r va))%nat /\ 0 <= missing s1 r va1 <= 1) as (Hm & Hlen1 & Hm1)
    by (unfold missing in *; repeat case_decide; lia).
  assert (region va1 = region va /\ missing s1 r va1 = 0 \/ region va1 = region va + 1) as Hcase.
  { assert (region va1 = region va \/ region va1 = region va + 1) as [E|E] by (unfold va1, va; Z.div_mod_to_equations; lia); [left|by right].
    split; [done|]. unfold missing. rewrite decide_False; [done|]. by rewrite (region_path va1 va) by (unfold va1, va; lia || done). }
  clear Hlen. wuse (IH fuel s1 l1 (i + 1) Hwf1 Hpt1); try done; try lia; fold va1; [lia|]. intros _ s2 (l2 & Hrel2 & Hlen2 & Hpte2). exists l2. split_and!.
  - by eapply boot_rel_trans.
  - lia.
  - intros va' Hva'. rewrite Hpte2 by done. unfold segment. rewrite Hpte by done. rewrite !VPN_div.
    assert (va / 4096 * 4096 = va /\ va1 = va + 4096) as [Hvp Hv1] by (unfold va, va1; Z.div_mod_to_equations; lia).
    destruct (decide (va' / 4096 = va / 4096)) as [E|E].
    + assert (va <= va' < va + 4096) as Hin by (Z.div_mod_to_equations; lia). rewrite decide_False, decide_True by lia. f_equal.
      replace ((va' - va) / 4096) with 0 by (Z.div_mod_to_equations; lia). lia.
    + assert (~ va <= va' < va + 4096) as Hout by (Z.div_mod_to_equations; lia).
      destruct (decide (va1 <= va' < va1 + Z.of_nat n * 4096)) as [Hin|Hno]; [|by rewrite decide_False by lia].
      rewrite decide_True by lia. f_equal. replace ((va' - va) / 4096) with ((va' - va1) / 4096 + 1) by (rewrite Hv1; Z.div_mod_to_equations; lia). lia.
Qed.

Definition regions (la size : Z) : Z := region (la + size - 1) - region la + 1.

Lemma boot_map_segment_spec r s l la size pa perm :
  pmap_wf s l -> pt_wf (mem s) (npages s) l r -> 0 <= la -> la mod 4096 = 0 -> 0 < size -> size mod 4096 = 0 -> la + size <= 2 ^ 32 ->
  0 <= pa -> pa mod 4096 = 0 -> pa + size <= 2 ^ 52 -> 0 <= perm < 4096 -> 3 * regions la size <= Z.of_nat (length l) ->
  wp (boot_map_segment (r * 4096 + KERNBASE) la size pa perm) s (fun _ s' => exists l', boot_rel r s l s' l' /\
    Z.of_nat (length l) <= Z.of_nat (length l') + 3 * regions la size /\
    forall va, va_ok va -> pte_of (mem s') r va = segment la size pa perm (pte_of (mem s) r) va).
Proof.
  intros Hwf Hpt Hla Hal Hs Hsal Hend Hpa Hpal Hpend Hperm Hmem. unfold boot_map_segment, regions in *.
  assert (exists N, size = N * 4096) as [N ->] by (exists (size / 4096); Z.div_mod_to_equations; lia).
  assert (0 <= missing s r la <= 1) as Hm by (unfold missing; case_decide; lia).
  assert (region la <= region (la + N * 4096 - 1)) as Hreg by (Z.div_mod_to_equations; lia).
  pose proof (boot_map_loop_spec (Z.to_nat N) (S (S (Z.to_nat (N * 4096 / PGSIZE)))) r s l la pa perm 0 N) as H.
  rewrite Z.mul_0_l, !Z.add_0_r in H. unfold PGSIZE in *. rewrite Z.div_mul in * by lia.
  wuse H; try done; try lia. intros _ s' (l' & Hrel & Hlen & Hpte). exists l'. split_and!; [done|lia|].
  intros va Hva. rewrite Hpte by done. by rewrite Z2Nat.id by lia.
Qed.

(** ** The whole map *)
Section map.
Context (r : Z) (s0 : kstate) (l0 : list Z).

(** After some segments: [n] times three pages are used at most, and [f] are the entries. *)
Record so_far (n : Z) (f : Z -> Z) (s : kstate) (l : list Z) : Prop := {
  sf_rel : boot_rel r s0 l0 s l;
  sf_len : Z.of_nat (length l0) <= Z.of_nat (length l) + 3 * n;
  sf_pte : forall va, va_ok va -> pte_of (mem s) r va = f va
}.

Lemma so_far_ext n f g s l : so_far n f s l -> (forall va, va_ok va -> g va = f va) -> so_far n g s l.
Proof. intros [] H. split; [done..|]. intros va Hva. rewrite H by done. auto. Qed.

Lemma segment_step n f s l la size pa perm m :
  so_far n f s l -> 0 <= la -> la mod 4096 = 0 -> 0 < size -> size mod 4096 = 0 -> la + size <= 2 ^ 32 ->
  0 <= pa -> pa mod 4096 = 0 -> pa + size <= 2 ^ 52 -> 0 <= perm < 4096 -> regions la size <= m -> 3 * (n + m) <= Z.of_nat (length l0) ->
  wp (boot_map_segment (r * 4096 + KERNBASE) la size pa perm) s (fun _ s' => exists l', so_far (n + m) (segment la size pa perm f) s' l').
Proof.
  intros [Hrel Hlen Hpte] Hla Hal Hs Hsal Hend Hpa Hpal Hpend Hperm Hreg Hmem. pose proof Hrel as [Hwf Hpt _ _ _].
  wuse (boot_map_segment_spec r s l la size pa perm); try done; try lia. intros _ s' (l' & Hrel' & Hlen' & Hpte'). exists l'. split; [by eapply boot_rel_trans|lia|].
  intros va Hva. rewrite Hpte' by done. unfold segment. case_decide; [done|auto].
Qed.

(** The stacks of the CPUs, below KSTACKTOP, each with a gap below it. *)
Definition cpu_of (va : Z) : Z := (KSTACKTOP - 1 - va) / (KSTKSIZE + KSTKGAP).
Definition below_top (va : Z) : Z := (KSTACKTOP - 1 - va) mod (KSTKSIZE + KSTKGAP).
Definition with_stacks (n percpu : Z) (f : Z -> Z) (va : Z) : Z :=
  if decide (0 <= cpu_of va < n /\ below_top va < KSTKSIZE)
  then boot_entry (percpu - KERNBASE + cpu_of va * KSTKSIZE + (KSTKSIZE - 1 - below_top va) / 4096 * 4096) PTE_W
  else f va.

Lemma stack_segment i percpu f va : 0 <= i < NCPU ->
  segment (KSTACKTOP - i * (KSTKSIZE + KSTKGAP) - KSTKSIZE) KSTKSIZE (percpu + i * KSTKSIZE - KERNBASE) PTE_W (with_stacks i percpu f) va =
  with_stacks (i + 1) percpu f va.
Proof.
  intros Hi. unfold segment, with_stacks, cpu_of, below_top. change (KSTKSIZE + KSTKGAP) with 65536. change KSTKSIZE with 32768. change KSTACKTOP with 4026531840.
  set (q := (4026531840 - 1 - va) / 65536). set (d := (4026531840 - 1 - va) mod 65536).
  assert (4026531840 - 1 - va = 65536 * q + d /\ 0 <= d < 65536) as [E Hd] by (unfold q, d; Z.div_mod_to_equations; lia). clearbody q d.
  case_decide as H1.
  - assert (q = i) as -> by lia. rewrite decide_True by lia. f_equal. replace (va - _) with (32768 - 1 - d) by lia. lia.
  - destruct (decide (0 <= q < i /\ d < 32768)) as [H2|H2]; [by rewrite decide_True by lia|]. rewrite decide_False; [done|]. intros [H3 H4].
    assert (q = i) as -> by lia. lia.
Qed.

Lemma mem_init_mp_spec m i n f s l percpu :
  boot_pml4e s0 = r * 4096 + KERNBASE -> so_far n (with_stacks i percpu f) s l -> i + Z.of_nat m = NCPU -> 0 <= i ->
  KERNBASE <= percpu -> percpu mod 4096 = 0 -> percpu + NCPU * KSTKSIZE <= 2 ^ 32 -> 3 * (n + Z.of_nat m) <= Z.of_nat (length l0) ->
  wp (mem_init_mp_loop m i percpu) s (fun _ s' => exists l', so_far (n + Z.of_nat m) (with_stacks NCPU percpu f) s' l').
Proof.
  intros Hroot. revert i n s l. induction m as [|m IH]; intros i n s l Hsf Him Hi Hk Hal Hend Hmem; cbn [mem_init_mp_loop].
  { apply wp_ret. exists l. replace (n + Z.of_nat 0) with n by lia. replace NCPU with i by lia. done. }
  assert (boot_pml4e s = r * 4096 + KERNBASE) as Hr.
  { destruct (vm_frame_fields _ _ (br_frame _ _ _ _ _ (sf_rel _ _ _ _ Hsf))) as (_ & _ & _ & _ & _ & Hb & _). congruence. }
  cbv zeta. change (KSTKSIZE + KSTKGAP) with 65536. unfold NCPU in *. change KSTKSIZE with 32768 in *. change KSTACKTOP with 4026531840. change KERNBASE with 4026531840 in Hk.
  rewrite (wrap_small 32 (4026531840 - i * 65536)), wrap_small by lia. apply wp_bind, wp_gets. rewrite Hr. unfold PADDR. change KERNBASE with 4026531840 at 1 2.
  rewrite (proj2 (Z.ltb_ge _ _)) by lia. apply wp_bind, wp_ret, wp_bind.
  wuse (segment_step n _ s l (4026531840 - i * 65536 - 32768) 32768 (percpu + i * 32768 - 4026531840) PTE_W 1 Hsf); try done; try lia.
  all: try (unfold regions; Z.div_mod_to_equations; lia).
  intros _ s1 (l1 & Hsf1). wuse (IH (i + 1) (n + 1) s1 l1); try done; try lia.
  { eapply so_far_ext; [exact Hsf1|]. intros va _. symmetry. apply (stack_segment i percpu f va). unfold NCPU. lia. }
  intros _ s2 (l2 & Hsf2). exists l2. by replace (n + Z.of_nat (S m)) with (n + 1 + Z.of_nat m) by lia.
Qed.
End map.

(** The entries that the kernel's part of an address space should have: all of physical
    memory at KERNBASE for the kernel, the arrays of pages and environments for reading
    by the user, and a stack for each CPU. *)
Definition kernel_entry (np pages envs percpu : Z) (old : Z -> Z) (va : Z) : Z :=
  if decide (KERNBASE <= va < 2 ^ 32) then boot_entry ((va - KERNBASE) / 4096 * 4096) PTE_W
  else if decide (UPAGES <= va < UPAGES + ROUNDUP (np * sizeof_Page) PGSIZE)
  then boot_entry (pages - KERNBASE + (va - UPAGES) / 4096 * 4096) PTE_U
  else if decide (UENVS <= va < UENVS + ROUNDUP (NENV * sizeof_Env) PGSIZE)
  then boot_entry (envs - KERNBASE + (va - UENVS) / 4096 * 4096) PTE_U
  else with_stacks NCPU percpu old va.

Lemma pages_size_range np : 0 < np <= 65536 -> let size := ROUNDUP (np * sizeof_Page) PGSIZE in
  4096 <= size <= 1048576 /\ size mod 4096 = 0.
Proof. intros Hn. cbv zeta. unfold ROUNDUP, ROUNDDOWN, sizeof_Page, PGSIZE. rewrite wrap_small by lia. Z.div_mod_to_equations. lia. Qed.

Lemma kernel_map_composed np pages envs bootstack percpu old va :
  0 < np <= 65536 -> KERNBASE <= pages -> pages + ROUNDUP (np * sizeof_Page) PGSIZE <= 2 ^ 32 ->
  KERNBASE <= envs -> envs + ROUNDUP (NENV * sizeof_Env) PGSIZE <= 2 ^ 32 ->
  with_stacks NCPU percpu (segment KERNBASE (2 ^ 32 - KERNBASE) 0 3 (segment (KSTACKTOP - KSTKSIZE) KSTKSIZE (bootstack - KERNBASE) 3
    (segment envs (ROUNDUP (NENV * sizeof_Env) PGSIZE) (envs - KERNBASE) 3 (segment UENVS (ROUNDUP (NENV * sizeof_Env) PGSIZE) (envs - KERNBASE) 5
    (segment pages (ROUNDUP (np * sizeof_Page) PGSIZE) (pages - KERNBASE) 3 (segment UPAGES (ROUNDUP (np * sizeof_Page) PGSIZE) (pages - KERNBASE) 5 old)))))) va =
  kernel_entry np pages envs percpu old va.
Proof.
  intros Hn Hp Hpe He Hee. destruct (pages_size_range np Hn) as [Hs _]. cbv zeta in Hs. unfold kernel_entry. set (psize := ROUNDUP (np * sizeof_Page) PGSIZE) in *. clearbody psize.
  change (ROUNDUP (NENV * sizeof_Env) PGSIZE) with 286720 in *.
  unfold with_stacks, segment, cpu_of, below_top. change (KSTKSIZE + KSTKGAP) with 65536. change KSTKSIZE with 32768. unfold NCPU.
  change KSTACKTOP with 4026531840. change KERNBASE with 4026531840 in *. change UPAGES with 4020240384. change UENVS with 4018143232.
  set (q := (4026531840 - 1 - va) / 65536). set (d := (4026531840 - 1 - va) mod 65536).
  assert (4026531840 - 1 - va = 65536 * q + d /\ 0 <= d < 65536) as [E Hd] by (unfold q, d; Z.div_mod_to_equations; lia). clearbody q d.
  destruct (decide (4026531840 <= va < 2 ^ 32)) as [Hk|Hk].
  { rewrite decide_False by lia. by rewrite decide_True by lia. }
  destruct (decide (0 <= q < 8 /\ d < 32768)) as [Hst|Hst].
  { by rewrite !(decide_False (P := _ <= va < _)) by lia. }
  rewrite (decide_False (P := 4026531840 <= va < _)) by lia. rewrite (decide_False (P := 4026531840 - 32768 <= va < _)) by lia.
  rewrite (decide_False (P := envs <= va < _)) by lia. rewrite (decide_False (P := pages <= va < _)) by lia.
  destruct (decide (4020240384 <= va < 4020240384 + psize)) as [Hu|Hu]; [|done]. by rewrite decide_False by lia.
Qed.

Lemma kernel_entry_protects np pages envs percpu old va :
  0 < np <= 65536 -> KERNBASE <= pages -> KERNBASE <= envs -> KERNBASE <= percpu ->
  pages mod 4096 = 0 -> envs mod 4096 = 0 -> percpu mod 4096 = 0 -> UTOP <= va < 2 ^ 32 -> old va = 0 ->
  Z.testbit (kernel_entry np pages envs percpu old va) 2 = true -> Z.testbit (kernel_entry np pages envs percpu old va) 1 = false /\ va < ULIM.
Proof.
  intros Hn Hp He Hc Hpa Hea Hca Hva Hold.
  assert (forall pa perm i, pa mod 4096 = 0 -> 0 <= perm < 4096 -> 0 <= i < 12 -> Z.testbit (boot_entry pa perm) i = Z.testbit (Z.lor perm 1) i) as Hbit.
  { intros pa perm i Ha Hpm Hi. unfold boot_entry, PTE_P. pose proof (lor_range perm 1 12 ltac:(lia) ltac:(lia) ltac:(lia)).
    rewrite <- (lor_low_add pa _ 12) by (lia || done). rewrite Z.lor_spec. replace (Z.testbit pa i) with false; [done|].
    symmetry. replace pa with (pa / 4096 * 2 ^ 12) by (Z.div_mod_to_equations; lia). rewrite <- Z.shiftl_mul_pow2 by lia.
    rewrite Z.shiftl_spec by lia. apply Z.testbit_neg_r. lia. }
  assert (forall a b, a mod 4096 = 0 -> (a - KERNBASE + b / 4096 * 4096) mod 4096 = 0) as Hmod.
  { intros a b Ha. unfold KERNBASE. Z.div_mod_to_equations. lia. }
  destruct (pages_size_range np Hn) as [Hs _]. cbv zeta in Hs. unfold kernel_entry.
  case_decide; [rewrite Hbit; [done|by apply Z.mod_mul|done|lia]|]. case_decide as Hup.
  { rewrite !Hbit by (done || lia || by apply Hmod). intros _. split; [done|]. unfold UPAGES, PTSIZE, PGSIZE, NPTENTRIES in *. jlia. }
  case_decide as Hue.
  { rewrite !Hbit by (done || lia || by apply Hmod). intros _. split; [done|]. change (ROUNDUP (NENV * sizeof_Env) PGSIZE) with 286720 in Hue. jlia. }
  unfold with_stacks. case_decide; [|by rewrite Hold]. rewrite Hbit; [done| |done|lia].
  replace (percpu - KERNBASE + cpu_of va * KSTKSIZE + _) with (percpu - KERNBASE + (cpu_of va * 8 + (KSTKSIZE - 1 - below_top va) / 4096) * 4096 / 4096 * 4096).
  { by apply Hmod. }
  rewrite Z.div_mul by lia. change KSTKSIZE with 32768. lia.
Qed.

(** C5: The memory map of the kernel: after the mappings of x64_vm_init the entries of
    the kernel's page table are as they should be at every address: physical memory at
    KERNBASE, the arrays of pages and environments at UPAGES and UENVS, a stack for each
    CPU with nothing changed in the gaps below them, and everything else as before;
    where the table was empty, the user can read but not write from UTOP to ULIM, and
    neither read nor write above.  The allocator and the tables stay well formed.  429
    free pages are enough for the tables. *)
Theorem kernel_map_correct r s l pages envs bootstack percpu :
  pmap_wf s l -> pt_wf (mem s) (npages s) l r -> boot_pml4e s = r * 4096 + KERNBASE -> 429 <= Z.of_nat (length l) ->
  Forall (fun a => KERNBASE <= a /\ a mod 4096 = 0) [pages; envs; bootstack; percpu] ->
  pages + ROUNDUP (npages s * sizeof_Page) PGSIZE <= 2 ^ 32 -> envs + ROUNDUP (NENV * sizeof_Env) PGSIZE <= 2 ^ 32 ->
  bootstack + KSTKSIZE <= 2 ^ 32 -> percpu + NCPU * KSTKSIZE <= 2 ^ 32 ->
  wp (vm_init_mappings pages envs bootstack percpu) s (fun _ s' => exists l', boot_rel r s l s' l' /\
    (forall va, va_ok va -> pte_of (mem s') r va = kernel_entry (npages s) pages envs percpu (pte_of (mem s) r) va) /\
    (forall va, UTOP <= va < 2 ^ 32 -> pte_of (mem s) r va = 0 ->
      Z.testbit (pte_of (mem s') r va) 2 = true -> Z.testbit (pte_of (mem s') r va) 1 = false /\ va < ULIM)).
Proof.
  intros Hwf Hpt Hroot Hl [[Hp Hpa] [[He Hea] [[Hb Hba] [[Hc Hca] _]%Forall_cons]%Forall_cons]%Forall_cons]%Forall_cons Hpe Hee Hbe Hce.
  pose proof (wf_npages _ _ Hwf) as Hn. destruct (pages_size_range (npages s) Hn) as [Hs Hsa]. cbv zeta in Hs, Hsa.
  unfold vm_init_mappings. apply wp_bind, wp_gets. rewrite Hroot. apply wp_bind, wp_gets. cbv zeta.
  assert (ROUNDUP (NENV * sizeof_Env) PGSIZE = 286720) as HE by done.
  assert (forall a, KERNBASE <= a -> PADDR a = mret (a - KERNBASE)) as HPA by (intros a Ha; unfold PADDR; by rewrite (proj2 (Z.ltb_ge _ _)) by done).
  rewrite !HPA by done. change (Z.lor PTE_U PTE_P) with 5. change (Z.lor PTE_P PTE_W) with 3.
  replace (u32 (u32 (-1) - KERNBASE + 1)) with (2 ^ 32 - KERNBASE) by done.
  assert (so_far r s l 0 (pte_of (mem s) r) s l) as H0 by (split; [by apply boot_rel_refl|lia|done]).
  pose proof (segment_step r s l) as Hseg. unfold regions in Hseg. rewrite HE in *. change KERNBASE with 4026531840 in *.
  apply wp_bind, wp_ret, wp_bind. wuse (Hseg _ _ _ _ UPAGES _ (pages - 4026531840) 5 1 H0); try done; try lia; [change UPAGES with 4020240384; Z.div_mod_to_equations; lia..|].
  intros _ s1 (l1 & H1). apply wp_bind. wuse (Hseg _ _ _ _ pages _ (pages - 4026531840) 3 2 H1); try done; try lia; [Z.div_mod_to_equations; lia..|].
  intros _ s2 (l2 & H2). apply wp_bind, wp_ret, wp_bind. wuse (Hseg _ _ _ _ UENVS _ (envs - 4026531840) 5 1 H2); try done; try lia; [change UENVS with 4018143232; Z.div_mod_to_equations; lia..|].
  intros _ s3 (l3 & H3). apply wp_bind. wuse (Hseg _ _ _ _ envs _ (envs - 4026531840) 3 2 H3); try done; try lia; [Z.div_mod_to_equations; lia..|].
  intros _ s4 (l4 & H4). apply wp_bind, wp_ret, wp_bind.
  wuse (Hseg _ _ _ _ (KSTACKTOP - KSTKSIZE) KSTKSIZE (bootstack - 4026531840) 3 1 H4); try done; try lia; [change KSTKSIZE with 32768 in *; Z.div_mod_to_equations; lia..|].
  intros _ s5 (l5 & H5). apply wp_bind. wuse (Hseg _ _ _ _ 4026531840 _ 0 3 128 H5); try done; try lia.
  intros _ s6 (l6 & H6).
  wuse (mem_init_mp_spec r s l (Z.to_nat NCPU) 0 135 _ s6 l6 percpu Hroot); [|done..|change (Z.of_nat (Z.to_nat NCPU)) with 8; lia|].
  { eapply so_far_ext; [exact H6|]. intros va _. unfold with_stacks. rewrite decide_False; [reflexivity|lia]. }
  intros _ s7 (l7 & [Hrel _ Hpte]). exists l7.
  assert (forall va, va_ok va -> pte_of (mem s7) r va = kernel_entry (npages s) pages envs percpu (pte_of (mem s) r) va) as Hfin.
  { intros va Hva. rewrite Hpte by done. rewrite <- HE. by apply kernel_map_composed. }
  split_and!; [done|done|]. intros va Hva Hold. rewrite Hfin by (apply low_va; split; [|lia]; etrans; [|apply Hva]; done). by apply kernel_entry_protects.
Qed.

(** A machine of four megabytes after page_init. *)
Definition boot_page (i : Z) : Page := mkPage (if (8 <=? i) && (i <? 1023) then Some (i + 1) else None) 0.
Definition boot_state : kstate :=
  demo <| npages := 1024 |> <| pages := list_to_map ((fun i => (i, boot_page i)) <$> seqZ 0 1024) |> <| page_free_list := Some 8 |>.

Lemma boot_page_lookup i : pages boot_state !! i = if decide (0 <= i < 1024) then Some (boot_page i) else None.
Proof. apply (lookup_tabulate boot_page). Qed.

Lemma boot_chain n i : 8 <= i -> i + Z.of_nat n = 1024 -> lseg (pages boot_state) (if decide (i < 1024) then Some i else None) (seqZ i (Z.of_nat n)).
Proof.
  revert i. induction n as [|n IH]; intros i Hi Hn; [by rewrite decide_False by lia|]. rewrite seqZ_cons by lia. rewrite decide_True by lia.
  split; [done|]. exists (boot_page i). rewrite boot_page_lookup, decide_True by lia. split; [done|].
  replace (Z.pred (Z.of_nat (S n))) with (Z.of_nat n) by lia. replace (pp_link (boot_page i)) with (if decide (Z.succ i < 1024) then Some (Z.succ i) else None).
  { apply IH; lia. }
  unfold boot_page. cbn [pp_link]. rewrite (proj2 (Z.leb_le 8 i)) by lia. cbn [andb]. case_decide; [rewrite (proj2 (Z.ltb_lt _ _)) by lia|by rewrite (proj2 (Z.ltb_ge _ _)) by lia]. done.
Qed.

Lemma boot_state_wf : pmap_wf boot_state (seqZ 8 1016).
Proof.
  split.
  - cbn. lia.
  - intros i. rewrite boot_page_lookup. change (npages boot_state) with 1024. case_decide as Hi; split; [done|eauto|by intros []|lia].
  - exact (boot_chain 1016 8 ltac:(lia) eq_refl).
  - apply NoDup_seqZ.
  - intros i pg. rewrite boot_page_lookup. case_decide; [|done]. intros [= <-]. done.
  - intros i pg _. rewrite boot_page_lookup. case_decide; [|done]. by intros [= <-].
Qed.

Lemma kernel_map_correct_witness :
  wp (vm_init_mappings 0xF0110000 0xF0120000 0xF0100000 0xF0180000) boot_state (fun _ s' =>
    pte_of (mem s') 1 (KERNBASE + 0x5123) = 0x5003 /\ pte_of (mem s') 1 UPAGES = 0x110005 /\
    pte_of (mem s') 1 (UENVS + 0x1000) = 0x121005 /\ pte_of (mem s') 1 (KSTACKTOP - 1) = 0x187003 /\ pte_of (mem s') 1 (KSTACKTOP - KSTKSIZE - 1) = 0).
Proof.
  pose proof boot_state_wf as Hwf. assert (pt_wf (mem boot_state) (npages boot_state) (seqZ 8 1016) 1) as Hpt.
  { apply pt_wf_empty; [cbn; lia|intros ?%elem_of_seqZ; lia|]. intros. apply pte_at_no_memory. }
  assert (forall va, pte_of (mem boot_state) 1 va = 0) as Hz by exact demo_pte.
  assert (npages boot_state = 1024 /\ boot_pml4e boot_state = 1 * 4096 + KERNBASE) as [Hn Hr] by done.
  generalize dependent boot_state. intros s Hwf Hpt Hz Hn Hr. eapply wp_mono.
  - apply (kernel_map_correct 1 s (seqZ 8 1016) 0xF0110000 0xF0120000 0xF0100000 0xF0180000 Hwf Hpt Hr); rewrite ?Hn, ?length_seqZ; try done. by repeat constructor.
  - intros _ s' (l' & _ & Hpte & _). rewrite Hn in Hpte. rewrite !Hpte by (by apply low_va). split_and!; try reflexivity. rewrite <- (Hz (KSTACKTOP - KSTKSIZE - 1)). reflexivity.
Defined.
