(* ===== verification/Env.v ===== *)
(** * Environments: kern/env.c, kern/sched.c, and the lock of kern/spinlock.h

    One definition per function, from envid2env to env_run and sched_yield.
    Functions that do not return in the source ([env_pop_tf], [env_run],
    [sched_yield]) end in [Stop]. *)
From S2P Require Import Prelude Mmu CMem Printfmt KState Pmap.

Definition ENVGENSHIFT : Z := 12.
Definition ELF_PROG_LOAD : Z := 1.

(** ** The big kernel lock

    This CPU's view: acquiring a lock it holds is a panic (DEBUG_SPINLOCK), and a
    lock another CPU holds is waited for.  The interleaving of CPUs is in
    Spinlock. *)
Definition lock_kernel : K unit :=
  l ← gets kernel_lock;
  c ← gets cpunum;
  match l with
  | Some c' => if c' =? c then stop Panic else stop Deadlock
  | None => modify (fun s => s <| kernel_lock := Some c |>)
  end.

Definition unlock_kernel : K unit :=
  l ← gets kernel_lock;
  c ← gets cpunum;
  if bool_decide (l = Some c)
  then modify (fun s => s <| kernel_lock := None |>) else stop Panic.

Definition lcr3 (v : Z) : K unit := modify (fun s => s <| cr3 := v |>).

(** ** Looking up an environment

    The result and the value of [*env_store]. *)
Definition envid2env (envid : Z) (checkperm : bool) : K (Z * option Z) :=
  if envid =? 0 then ce ← curenv; mret (0, ce)
  else
    let e := ENVX envid in
    v ← get_env e;
    if bool_decide (env_status v = ENV_FREE) || negb (env_id v =? envid)
    then
      cprintf (newline ++ chars "Reached env id not matching: e->env_id:%d envid:%d") [VI (env_id v); VI envid];;
      cprintf (newline ++ chars "env_status:%d") [VI (status_number (env_status v))];;
      mret (- E_BAD_ENV, None)
    else
      ce ← curenv;
      denied ←
        (if checkperm && negb (bool_decide (ce = Some e)) then
           c ← the_curenv;
           cv ← get_env c;
           mret (negb (env_parent_id v =? env_id cv))
         else mret false);
      if denied : bool then
        cprintf (newline ++ chars "Reached parent id not equal to env id") [];;
        mret (- E_BAD_ENV, None)
      else mret (0, Some e).

(** ** Initialization *)

(** The loop over the array: each environment is free, and linked to the next. *)
Definition link_envs (es : gmap Z Env) : gmap Z Env :=
  list_to_map ((fun i => (i, (default zero_env (es !! i))
     <| env_id := 0 |> <| env_status := ENV_FREE |>
     <| env_link := if i =? NENV - 1 then None else Some (i + 1) |>)) <$> seqZ 0 NENV).

(** memset of the whole array, then the loop. *)
Definition env_init : K unit :=
  modify (fun s => s <| envs := list_to_map ((fun i => (i, zero_env)) <$> seqZ 0 NENV) |>);;
  modify (fun s => s <| envs := link_envs (envs s) |>);;
  modify (fun s => s <| env_free_list := Some 0 |>).

(** The entries of the kernel's page directory from [i] on are shared. *)
Fixpoint copy_entries (n : nat) (dst src i : Z) : K unit :=
  match n with
  | O => mret tt
  | S n' =>
      e ← load64 (src + 8 * i);
      store64 (dst + 8 * i) e;;
      copy_entries n' dst src (i + 1)
  end.

Definition table_flags (pp : Z) : Z := Z.lor (Z.lor (Z.lor (page2pa pp) PTE_U) PTE_W) PTE_P.

Definition env_setup_vm (e : Z) : K Z :=
  p ← page_alloc ALLOC_ZERO;
  match p with
  | None => mret (- E_NO_MEM)
  | Some p =>
      p2 ← page_alloc ALLOC_ZERO;
      match p2 with
      | None => mret (- E_NO_MEM)
      | Some p2 =>
          p3 ← page_alloc ALLOC_ZERO;
          match p3 with
          | None => mret (- E_NO_MEM)
          | Some p3 =>
              pml4e ← KADDR (PTE_ADDR (page2pa p));
              update_env e (fun v => v <| env_pml4e := pml4e |>);;
              store64 (pml4e + 8 * PML4 UTOP) (table_flags p2);;
              x ← load64 (pml4e + 8 * PML4 UTOP);
              pdpe ← KADDR (PTE_ADDR x);
              store64 (pdpe + 8 * PDPE UTOP) (table_flags p3);;
              x ← load64 (pdpe + 8 * PDPE UTOP);
              pgdir ← KADDR (PTE_ADDR x);
              page_incref p;; page_incref p2;; page_incref p3;;
              root ← gets boot_pml4e;
              x ← load64 (root + 8 * PML4 UTOP);
              kernel_pdpe ← KADDR (PTE_ADDR x);
              x ← load64 (kernel_pdpe + 8 * PDPE UTOP);
              kernel_pgdir ← KADDR (PTE_ADDR x);
              copy_entries (Z.to_nat (NPDENTRIES - PTX UTOP)) pgdir kernel_pgdir (PTX UTOP);;
              pa ← PADDR pml4e;
              update_env e (fun v => v <| env_cr3 := pa |>);;
              store64 (pml4e + 8 * PML4 UVPT) (Z.lor (Z.lor pa PTE_P) PTE_U);;
              mret 0
          end
      end
  end.

(** The trap frame env_alloc starts an environment with. *)
Definition initial_tf : Trapframe :=
  zero_tf <| tf_ds := Z.lor GD_UD 3 |> <| tf_es := Z.lor GD_UD 3 |>
          <| tf_ss := Z.lor GD_UD 3 |> <| tf_rsp := USTACKTOP |>
          <| tf_cs := Z.lor GD_UT 3 |> <| tf_eflags := Z.lor 0 FL_IF |>.

Definition next_envid (old e : Z) : Z :=
  let generation := i32 (Z.ldiff (i32 (old + Z.shiftl 1 ENVGENSHIFT)) (NENV - 1)) in
  let generation := if generation <=? 0 then Z.shiftl 1 ENVGENSHIFT else generation in
  Z.lor generation e.

(** The result and the value of [*newenv_store], if it was set. *)
Definition env_alloc (parent_id : Z) : K (Z * option Z) :=
  hd ← gets env_free_list;
  match hd with
  | None => mret (- E_NO_FREE_ENV, None)
  | Some e =>
      r ← env_setup_vm e;
      if r <? 0 then mret (r, None)
      else
        update_env e (fun v =>
          v <| env_id := next_envid (env_id v) e |>
            <| env_parent_id := parent_id |>
            <| env_type := ENV_TYPE_USER |>
            <| env_status := ENV_RUNNABLE |>
            <| env_runs := 0 |>
            <| env_tf := initial_tf |>
            <| env_pgfault_upcall := 0 |>
            <| env_ipc_recving := false |>);;
        v ← get_env e;
        modify (fun s => s <| env_free_list := env_link v |>);;
        ce ← curenv;
        id ← match ce with Some c => cv ← get_env c; mret (env_id cv) | None => mret 0 end;
        cprintf (chars "[%08x] new env %08x" ++ newline) [VI id; VI (env_id v)];;
        mret (0, Some e)
  end.

(** ** Loading a program at boot *)
Fixpoint region_alloc_loop (fuel : nat) (e va_i uend : Z) : K unit :=
  match fuel with
  | O => stop Diverge
  | S fuel' =>
      if va_i <? uend then
        p ← page_alloc ALLOC_ZERO;
        match p with
        | None => stop Panic
        | Some p =>
            v ← get_env e;
            page_insert (env_pml4e v) p va_i (Z.lor (Z.lor PTE_U PTE_W) PTE_P);;
            region_alloc_loop fuel' e (u64 (va_i + PGSIZE)) uend
        end
      else mret tt
  end.

Definition region_alloc (e va len : Z) : K unit :=
  let uend := ROUNDUP (u64 (va + len)) PGSIZE in
  region_alloc_loop (S (Z.to_nat (uend / PGSIZE))) e (ROUNDDOWN va PGSIZE) uend.

(** memset and memcpy at virtual addresses that need not be in the direct map. *)
Fixpoint vmemset (n : nat) (va c : Z) : K unit :=
  match n with
  | O => mret tt
  | S n' => store8 va (u8 c);; vmemset n' (va + 1) c
  end.
Fixpoint vmemcpy (n : nat) (dst src : Z) : K unit :=
  match n with
  | O => mret tt
  | S n' => b ← load8 src; store8 dst b;; vmemcpy n' (dst + 1) (src + 1)
  end.

(** The fields of struct Elf and struct Proghdr, at their offsets. *)
Definition e_entry (elf : Z) : K Z := loadn 8 (elf + 24).
Definition e_phoff (elf : Z) : K Z := loadn 8 (elf + 32).
Definition e_phnum (elf : Z) : K Z := loadn 2 (elf + 56).
Definition p_type (ph : Z) : K Z := loadn 4 ph.
Definition p_offset (ph : Z) : K Z := loadn 8 (ph + 8).
Definition p_va (ph : Z) : K Z := loadn 8 (ph + 16).
Definition p_filesz (ph : Z) : K Z := loadn 8 (ph + 32).
Definition p_memsz (ph : Z) : K Z := loadn 8 (ph + 40).
Definition sizeof_Proghdr : Z := 56.

Fixpoint load_segments (n : nat) (e binary ph : Z) : K unit :=
  match n with
  | O => mret tt
  | S n' =>
      t ← p_type ph;
      (if t =? ELF_PROG_LOAD then
         va ← p_va ph;
         memsz ← p_memsz ph;
         region_alloc e va memsz;;
         vmemset (Z.to_nat memsz) va 0x0;;
         off ← p_offset ph;
         filesz ← p_filesz ph;
         vmemcpy (Z.to_nat filesz) va (u64 (binary + off))
       else mret tt);;
      load_segments n' e binary (ph + sizeof_Proghdr)
  end.

Definition load_icode (e binary : Z) : K unit :=
  phoff ← e_phoff binary;
  let ph := binary + phoff in
  phnum ← e_phnum binary;
  prev_cr3 ← gets (fun s => u32 (cr3 s));
  entry ← e_entry binary;
  update_env e (fun v => v <| env_tf := (env_tf v) <| tf_rip := entry |> |>);;
  v ← get_env e;
  lcr3 (env_cr3 v);;
  load_segments (Z.to_nat phnum) e binary ph;;
  lcr3 prev_cr3;;
  v ← get_env e;
  p ← page_alloc 0;
  match p with
  | None => stop Undefined
  | Some p =>
      page_insert (env_pml4e v) p (USTACKTOP - PGSIZE) (Z.lor PTE_U PTE_W);; mret tt
  end.

Definition env_create (binary : Z) (type : EnvType) : K unit :=
  r ← env_alloc 0;
  match r.2 with
  | None => stop Undefined
  | Some e =>
      (if bool_decide (type = ENV_TYPE_FS)
       then update_env e (fun v => v <| env_tf :=
              (env_tf v) <| tf_eflags := Z.lor (tf_eflags (env_tf v)) FL_IOPL_3 |> |>)
       else mret tt);;
      load_icode e binary;;
      update_env e (fun v => v <| env_type := type |>)
  end.

(** ** Destroying an environment *)

(** The loop over the entries of one page table. *)
Fixpoint free_ptes (n : nat) (pml4e pt pdpe_index pdeno pteno : Z) : K unit :=
  match n with
  | O => mret tt
  | S n' =>
      x ← load64 (pt + 8 * pteno);
      (if negb (Z.land x PTE_P =? 0)
       then page_remove pml4e (PGADDR 0 pdpe_index pdeno pteno 0) else mret tt);;
      free_ptes n' pml4e pt pdpe_index pdeno (pteno + 1)
  end.

(** The loop over the page tables of one page directory; it runs [pteno] up to
    [PTX(~0)] and [pdeno] up to [pdeno_limit], both excluded. *)
Fixpoint free_tables (n : nat) (pml4e pgdir pdpe_index pdeno : Z) : K unit :=
  match n with
  | O => mret tt
  | S n' =>
      x ← load64 (pgdir + 8 * pdeno);
      (if Z.land x PTE_P =? 0 then mret tt
       else
         let pa := PTE_ADDR x in
         pt ← KADDR pa;
         free_ptes (Z.to_nat (PTX (u64 (Z.lnot 0)))) pml4e pt pdpe_index pdeno 0;;
         store64 (pgdir + 8 * pdeno) 0;;
         pp ← pa2page pa;
         page_decref pp);;
      free_tables n' pml4e pgdir pdpe_index (pdeno + 1)
  end.

Fixpoint free_dirs (n : nat) (pml4e pdpe pdpe_index : Z) : K unit :=
  match n with
  | O => mret tt
  | S n' =>
      x ← load64 (pdpe + 8 * pdpe_index);
      (if Z.land x PTE_P =? 0 then mret tt
       else
         pgdir ← KADDR (PTE_ADDR x);
         let pdeno_limit := if pdpe_index =? 3 then PDX UTOP else PDX 0xFFFFFFFF in
         free_tables (Z.to_nat pdeno_limit) pml4e pgdir pdpe_index 0;;
         x ← load64 (pdpe + 8 * pdpe_index);
         store64 (pdpe + 8 * pdpe_index) 0;;
         pp ← pa2page (PTE_ADDR x);
         page_decref pp);;
      free_dirs n' pml4e pdpe (pdpe_index + 1)
  end.

Definition env_free (e : Z) : K unit :=
  ce ← curenv;
  (if bool_decide (ce = Some e) then c ← gets boot_cr3; lcr3 c else mret tt);;
  v ← get_env e;
  let pml4e := env_pml4e v in
  x ← load64 (pml4e + 8 * 0);
  pdpe ← KADDR (PTE_ADDR x);
  free_dirs 4 pml4e pdpe 0;;
  x ← load64 (pml4e + 8 * 0);
  pp ← pa2page (PTE_ADDR x);
  page_decref pp;;
  store64 (pml4e + 8 * 0) 0;;
  v ← get_env e;
  let pa := env_cr3 v in
  update_env e (fun v => v <| env_pml4e := 0 |> <| env_cr3 := 0 |>);;
  pp ← pa2page pa;
  page_decref pp;;
  fl ← gets env_free_list;
  update_env e (fun v => v <| env_status := ENV_FREE |> <| env_link := fl |>);;
  modify (fun s => s <| env_free_list := Some e |>).

(** ** Running an environment *)
Definition env_pop_tf : K unit :=
  e ← the_curenv;
  c ← gets cpunum;
  update_env e (fun v => v <| env_cpunum := c |>);;
  stop (RunEnv e).

Definition env_run (e : Z) : K unit :=
  ce ← curenv;
  match ce with
  | Some c =>
      cv ← get_env c;
      if bool_decide (env_status cv = ENV_RUNNING)
      then update_env c (fun v => v <| env_status := ENV_RUNNABLE |>) else mret tt
  | None => mret tt
  end;;
  set_curenv (Some e);;
  update_env e (fun v => v <| env_status := ENV_RUNNING |> <| env_runs := u32 (env_runs v + 1) |>);;
  unlock_kernel;;
  v ← get_env e;
  lcr3 (env_cr3 v);;
  env_pop_tf.

(** ** The scheduler: kern/sched.c *)

(** The loop that looks for a runnable environment and runs it: [k] wraps around
    only when it is exactly NENV after an increment. *)
Fixpoint sched_loop (n : nat) (k : Z) : K unit :=
  match n with
  | O => mret tt
  | S n' =>
      v ← get_env k;
      (if bool_decide (env_status v = ENV_RUNNABLE) && negb (bool_decide (env_type v = ENV_TYPE_IDLE))
       then env_run k else mret tt);;
      let k := k + 1 in
      sched_loop n' (if k =? NENV then 0 else k)
  end.

(** Is some environment other than an idle one runnable or running? *)
Fixpoint some_alive (n : nat) (i : Z) : K bool :=
  match n with
  | O => mret false
  | S n' =>
      v ← get_env i;
      if negb (bool_decide (env_type v = ENV_TYPE_IDLE)) &&
         (bool_decide (env_status v = ENV_RUNNABLE) || bool_decide (env_status v = ENV_RUNNING))
      then mret true else some_alive n' (i + 1)
  end.

Definition sched_yield : K unit :=
  ce ← curenv;
  let i := match ce with Some e => e | None => 1 end in
  sched_loop (Z.to_nat (NENV - 1)) (i + 1);;
  match ce with
  | Some e =>
      v ← get_env e;
      if bool_decide (env_status v = ENV_RUNNING) then env_run e else mret tt
  | None => mret tt
  end;;
  alive ← some_alive (Z.to_nat NENV) 0;
  if negb alive then cprintf (chars "No more runnable environments!" ++ newline) [];; stop MonitorLoop
  else
    c ← gets cpunum;
    idle ← get_env c;
    if bool_decide (env_status idle = ENV_RUNNABLE) || bool_decide (env_status idle = ENV_RUNNING)
    then env_run c else stop Panic.

Definition env_destroy (e : Z) : K unit :=
  v ← get_env e;
  ce ← curenv;
  if bool_decide (env_status v = ENV_RUNNING) && negb (bool_decide (ce = Some e))
  then update_env e (fun v => v <| env_status := ENV_DYING |>)
  else
    env_free e;;
    ce ← curenv;
    if bool_decide (ce = Some e) then set_curenv None;; sched_yield else mret tt.

(** user_mem_assert, of kern/pmap.c. *)
Definition user_mem_assert (env va len perm : Z) : K unit :=
  r ← user_mem_check env va len (Z.lor perm PTE_U);
  if r <? 0 then
    v ← get_env env;
    addr ← gets user_mem_check_addr;
    cprintf (chars "[%08x] user_mem_check assertion failure for va %08x" ++ newline) [VI (env_id v); VI addr];;
    env_destroy env
  else mret tt.
