(* ===== verification/E1000.v ===== *)
(** * The network card driver: kern/e1000.c

    The transmit and receive rings of 64 descriptors.  The device is the
    environment: it sets the "descriptor done" bits and fills the receive buffers
    between calls, and keeps the value last written to a register.  The words of
    its EEPROM are the parameter [eeprom]. *)
From S2P Require Import Prelude Mmu CMem Console KState Pmap.

Definition E_TX_FULL : Z := 16.
Definition E_RCV_EMPTY : Z := 17.
Definition E_PKT_TOO_LONG : Z := 18.
Definition E1000_TXDESC : Z := 64.
Definition E1000_RCVDESC : Z := 64.
Definition TX_PKT_SIZE : Z := 1518.
Definition RCV_PKT_SIZE : Z := 2048.
Definition E1000_EERD : Z := 0x00014 / 4.
Definition E1000_EERD_START : Z := 0x01.
Definition E1000_EERD_DONE : Z := 0x10.
Definition E1000_TDBAL : Z := 0x03800 / 4.
Definition E1000_TDBAH : Z := 0x03804 / 4.
Definition E1000_TDLEN : Z := 0x03808 / 4.
Definition E1000_TDH : Z := 0x03810 / 4.
Definition E1000_TDT : Z := 0x03818 / 4.
Definition E1000_RDBAL : Z := 0x02800 / 4.
Definition E1000_RDBAH : Z := 0x02804 / 4.
Definition E1000_RDLEN : Z := 0x02808 / 4.
Definition E1000_RDH : Z := 0x02810 / 4.
Definition E1000_RDT : Z := 0x02818 / 4.
Definition E1000_RAL : Z := 0x05400 / 4.
Definition E1000_RAH : Z := 0x05404 / 4.
Definition E1000_TCTL : Z := 0x00400 / 4.
Definition E1000_TCTL_EN : Z := 0x00000002.
Definition E1000_TCTL_PSP : Z := 0x00000008.
Definition E1000_TCTL_CT : Z := 0x00000ff0.
Definition E1000_TCTL_COLD : Z := 0x003ff000.
Definition E1000_RCTL : Z := 0x00100 / 4.
Definition E1000_RCTL_EN : Z := 0x00000002.
Definition E1000_RCTL_LPE : Z := 0x00000020.
Definition E1000_RCTL_LBM : Z := 0x000000C0.
Definition E1000_RCTL_RDMTS : Z := 0x00000300.
Definition E1000_RCTL_MO : Z := 0x00003000.
Definition E1000_RCTL_BAM : Z := 0x00008000.
Definition E1000_RCTL_SZ : Z := 0x00030000.
Definition E1000_RCTL_SECRC : Z := 0x04000000.
Definition E1000_TIPG : Z := 0x00410 / 4.
Definition E1000_TXD_CMD_RS : Z := 0x00000008.
Definition E1000_TXD_CMD_EOP : Z := 0x00000001.
Definition E1000_TXD_STAT_DD : Z := 0x00000001.
Definition E1000_RXD_STAT_DD : Z := 0x01.
Definition E1000_RXD_STAT_EOP : Z := 0x02.

(** ** Registers *)
Definition reg (n : Nic) (r : Z) : Z := default 0 (e1000_regs n !! r).
Definition set_reg (r v : Z) (n : Nic) : Nic := n <| e1000_regs := <[r := u32 v]> (e1000_regs n) |>.
(** [e1000[r] |= v] and [e1000[r] &= ~v]. *)
Definition or_reg (r v : Z) (n : Nic) : Nic := set_reg r (Z.lor (reg n r) v) n.
Definition clear_reg (r v : Z) (n : Nic) : Nic := set_reg r (Z.ldiff (reg n r) v) n.

(** Starting an EEPROM read of word [addr]: when the wait for the DONE bit ends,
    the register holds the word in its upper half. *)
Definition eerd_read (eeprom : Z -> Z) (addr : Z) (n : Nic) : Nic :=
  let n := or_reg E1000_EERD E1000_EERD_START (set_reg E1000_EERD (Z.shiftl addr 8) n) in
  set_reg E1000_EERD
    (Z.lor (Z.lor (Z.shiftl (u16 (eeprom addr)) 16) (Z.shiftl addr 8)) E1000_EERD_DONE) n.

(** ** Attaching the device

    [tx_descs], [tx_bufs], [rcv_descs] and [rcv_bufs] are the physical addresses
    of the driver's arrays. *)
Section attach.
Context (eeprom : Z -> Z) (tx_descs tx_bufs rcv_descs rcv_bufs : Z).

Definition init_rings (n : Nic) : Nic :=
  n <| tx_desc_array :=
         list_to_map ((fun i => (i, mkTxDesc (tx_bufs + i * TX_PKT_SIZE) 0 0 0
                                      (Z.lor 0 E1000_TXD_STAT_DD) 0 0)) <$> seqZ 0 E1000_TXDESC) |>
    <| tx_pkt_bufs := ∅ |>
    <| rcv_desc_array :=
         list_to_map ((fun i => (i, mkRcvDesc (rcv_bufs + i * RCV_PKT_SIZE) 0 0 0 0 0))
                      <$> seqZ 0 E1000_RCVDESC) |>
    <| rcv_pkt_bufs := ∅ |>.

Definition init_transmit (n : Nic) : Nic :=
  let n := set_reg E1000_TDBAL tx_descs n in
  let n := set_reg E1000_TDBAH 0x0 n in
  let n := set_reg E1000_TDLEN (16 * E1000_TXDESC) n in
  let n := set_reg E1000_TDH 0x0 n in
  let n := set_reg E1000_TDT 0x0 n in
  let n := or_reg E1000_TCTL E1000_TCTL_EN n in
  let n := or_reg E1000_TCTL E1000_TCTL_PSP n in
  let n := clear_reg E1000_TCTL E1000_TCTL_CT n in
  let n := or_reg E1000_TCTL (Z.shiftl 0x10 4) n in
  let n := clear_reg E1000_TCTL E1000_TCTL_COLD n in
  let n := or_reg E1000_TCTL (Z.shiftl 0x40 12) n in
  let n := set_reg E1000_TIPG 0x0 n in
  let n := or_reg E1000_TIPG (Z.shiftl 0x6 20) n in
  let n := or_reg E1000_TIPG (Z.shiftl 0x4 10) n in
  or_reg E1000_TIPG 0xA n.

Definition init_receive (n : Nic) : Nic :=
  let n := eerd_read eeprom 0x0 n in
  let n := set_reg E1000_RAL (Z.shiftr (reg n E1000_EERD) 16) n in
  let n := eerd_read eeprom 0x1 n in
  let n := or_reg E1000_RAL (Z.land (reg n E1000_EERD) 0xffff0000) n in
  let n := eerd_read eeprom 0x2 n in
  let n := set_reg E1000_RAH (Z.shiftr (reg n E1000_EERD) 16) n in
  let n := or_reg E1000_RAH (Z.shiftl 0x1 31) n in
  let n := set_reg E1000_RDBAL rcv_descs n in
  let n := set_reg E1000_RDBAH 0x0 n in
  let n := set_reg E1000_RDLEN (16 * E1000_RCVDESC) n in
  let n := set_reg E1000_RDH 0x0 n in
  let n := set_reg E1000_RDT 0x0 n in
  let n := or_reg E1000_RCTL E1000_RCTL_EN n in
  let n := clear_reg E1000_RCTL E1000_RCTL_LPE n in
  let n := clear_reg E1000_RCTL E1000_RCTL_LBM n in
  let n := clear_reg E1000_RCTL E1000_RCTL_RDMTS n in
  let n := clear_reg E1000_RCTL E1000_RCTL_MO n in
  let n := or_reg E1000_RCTL E1000_RCTL_BAM n in
  let n := clear_reg E1000_RCTL E1000_RCTL_SZ n in
  or_reg E1000_RCTL E1000_RCTL_SECRC n.

(** After PCI enabled the device and gave the register window's address and
    size. *)
Definition e1000_attach (reg_base0 reg_size0 : Z) : K Z :=
  mmio_map_region reg_base0 reg_size0;;
  modify (fun s => s <| nic := init_receive (init_transmit (init_rings (nic s))) |>);;
  mret 0.
End attach.

(** ** Transmitting and receiving *)

(** memmove between user memory and the packet buffer arrays, which are
    [limit] bytes long in all. *)
Fixpoint copy_to_tx (n : nat) (dst src limit : Z) : K unit :=
  match n with
  | O => mret tt
  | S n' =>
      b ← load8 src;
      if dst <? limit then
        modify (fun s => s <| nic := (nic s) <| tx_pkt_bufs := st8 (tx_pkt_bufs (nic s)) dst b |> |>);;
        copy_to_tx n' (dst + 1) (src + 1) limit
      else stop Undefined
  end.
Fixpoint copy_from_rcv (n : nat) (dst src limit : Z) : K unit :=
  match n with
  | O => mret tt
  | S n' =>
      b ← gets (fun s => ld8 (rcv_pkt_bufs (nic s)) src);
      if src <? limit then store8 dst b;; copy_from_rcv n' (dst + 1) (src + 1) limit
      else stop Undefined
  end.

Definition e1000_transmit (data len : Z) : K Z :=
  if len >? TX_PKT_SIZE then mret (- E_PKT_TOO_LONG)
  else
    tdt ← gets (fun s => reg (nic s) E1000_TDT);
    d ← gets (fun s => tx_desc_array (nic s) !! tdt);
    match d with
    | None => stop Undefined
    | Some d =>
        if negb (Z.land (tx_status d) E1000_TXD_STAT_DD =? 0) then
          copy_to_tx (Z.to_nat (u64 len)) (tdt * TX_PKT_SIZE) data (E1000_TXDESC * TX_PKT_SIZE);;
          let d := d <| tx_length := u16 len |>
                     <| tx_status := Z.ldiff (tx_status d) E1000_TXD_STAT_DD |>
                     <| tx_cmd := Z.lor (Z.lor (tx_cmd d) E1000_TXD_CMD_RS) E1000_TXD_CMD_EOP |> in
          modify (fun s => s <| nic := set_reg E1000_TDT ((tdt + 1) mod E1000_TXDESC)
            ((nic s) <| tx_desc_array := <[tdt := d]> (tx_desc_array (nic s)) |>) |>);;
          mret 0
        else mret (- E_TX_FULL)
    end.

Definition e1000_receive (data : Z) : K Z :=
  rdt ← gets (fun s => reg (nic s) E1000_RDT);
  d ← gets (fun s => rcv_desc_array (nic s) !! rdt);
  match d with
  | None => stop Undefined
  | Some d =>
      if negb (Z.land (rcv_status d) E1000_RXD_STAT_DD =? 0) then
        if Z.land (rcv_status d) E1000_RXD_STAT_EOP =? 0 then stop Panic
        else
          let len := rcv_length d in
          copy_from_rcv (Z.to_nat len) data (rdt * RCV_PKT_SIZE) (E1000_RCVDESC * RCV_PKT_SIZE);;
          let d := d <| rcv_status :=
            Z.ldiff (Z.ldiff (rcv_status d) E1000_RXD_STAT_DD) E1000_RXD_STAT_EOP |> in
          modify (fun s => s <| nic := set_reg E1000_RDT ((rdt + 1) mod E1000_RCVDESC)
            ((nic s) <| rcv_desc_array := <[rdt := d]> (rcv_desc_array (nic s)) |>) |>);;
          mret len
      else mret (- E_RCV_EMPTY)
  end.
