(* ===== verification/Syscall.v ===== *)
(** * System calls: kern/syscall.c, with the clock of kern/time.c

    One definition per system call and the dispatcher.  Arguments arrive as
    64-bit registers and are converted as the casts of the dispatcher do. *)
From S2P Require Import Prelude Mmu CMem Console Printfmt KState Pmap Env E1000.

(** ** The clock *)
Definition time_init : K unit := modify (fun s => s <| ticks := 0 |>).
Definition time_tick : K unit :=
  modify (fun s => s <| ticks := u32 (ticks s + 1) |>);;
  t ← gets ticks;
  if u32 (t * 10) <? t then stop Panic else mret tt.
Definition time_msec : K Z := gets (fun s => u32 (ticks s * 10)).

(** A pointer that may be NULL. *)
Definition deref (p : option Z) : K Z :=
  match p with Some e => mret e | None => stop Undefined end.

(** ** Console *)

(** [cprintf("%.*s", len, p)]: characters up to a zero byte or to the precision
    (a negative precision is no limit). *)
Fixpoint print_str (fuel : nat) (p precision : Z) : K unit :=
  match fuel with
  | O => stop Diverge
  | S fuel' =>
      ch ← load8 p;
      if (ch =? 0) || negb ((precision <? 0) || (precision - 1 >=? 0)) then mret tt
      else
        modify (fun s => s <| cons := cputchar (swrap 8 ch) (cons s) |>);;
        print_str fuel' (u64 (p + 1)) (if precision <? 0 then precision else precision - 1)
  end.

Definition sys_cputs (s len : Z) : K unit :=
  e ← the_curenv;
  user_mem_assert e s len PTE_U;;
  let precision := i32 len in
  print_str (Z.to_nat (if precision <? 0 then 2 ^ 48 else precision + 1)) s precision.

Definition sys_cgetc : K Z :=
  c ← gets cons;
  match cons_getc c with
  | Some (ch, c) => modify (fun s => s <| cons := c |>);; mret ch
  | None => stop Diverge
  end.

(** ** Environments *)
Definition sys_getenvid : K Z := e ← the_curenv; v ← get_env e; mret (env_id v).

Definition sys_env_destroy (envid : Z) : K Z :=
  r ← envid2env envid true;
  if r.1 <? 0 then mret r.1
  else
    e ← deref r.2;
    ce ← curenv;
    (if bool_decide (ce = Some e) then mret tt
     else
       c ← the_curenv;
       cv ← get_env c;
       v ← get_env e;
       cprintf (chars "[%08x] destroying %08x" ++ newline) [VI (env_id cv); VI (env_id v)]);;
    env_destroy e;;
    mret 0.

Definition sys_yield : K unit := sched_yield.

Definition sys_exofork : K Z :=
  c ← the_curenv;
  cv ← get_env c;
  r ← env_alloc (env_id cv);
  if negb (r.1 =? 0) then mret (- E_NO_FREE_ENV)
  else
    e ← deref r.2;
    update_env e (fun v => v <| env_status := ENV_NOT_RUNNABLE |>);;
    cv ← get_env c;
    update_env e (fun v => v <| env_tf :=
      (env_tf cv) <| tf_regs := (tf_regs (env_tf cv)) <| reg_rax := 0 |> |> |>);;
    v ← get_env e;
    mret (env_id v).

(** The two values sys_env_set_status accepts. *)
Definition settable_status (status : Z) : option EnvStatus :=
  match status with 2 => Some ENV_RUNNABLE | 4 => Some ENV_NOT_RUNNABLE | _ => None end.

Definition sys_env_set_status (envid status : Z) : K Z :=
  r ← envid2env envid true;
  if negb (r.1 =? 0) then mret r.1
  else
    match settable_status status with
    | None => mret (- E_INVAL)
    | Some st =>
        e ← deref r.2;
        update_env e (fun v => v <| env_status := st |>);;
        mret r.1
    end.

(** [*tf], read from the caller's memory. *)
Definition load_trapframe (tf : Z) : K Trapframe :=
  r15 ← loadn 8 tf; r14 ← loadn 8 (tf + 8); r13 ← loadn 8 (tf + 16); r12 ← loadn 8 (tf + 24);
  r11 ← loadn 8 (tf + 32); r10 ← loadn 8 (tf + 40); r9 ← loadn 8 (tf + 48); r8 ← loadn 8 (tf + 56);
  rsi ← loadn 8 (tf + 64); rdi ← loadn 8 (tf + 72); rbp ← loadn 8 (tf + 80); rdx ← loadn 8 (tf + 88);
  rcx ← loadn 8 (tf + 96); rbx ← loadn 8 (tf + 104); rax ← loadn 8 (tf + 112);
  es ← loadn 2 (tf + 120); ds ← loadn 2 (tf + 128); trapno ← loadn 8 (tf + 136);
  err ← loadn 8 (tf + 144); rip ← loadn 8 (tf + 152); cs ← loadn 2 (tf + 160);
  eflags ← loadn 8 (tf + 168); rsp ← loadn 8 (tf + 176); ss ← loadn 2 (tf + 184);
  mret (mkTrapframe (mkPushRegs r15 r14 r13 r12 r11 r10 r9 r8 rsi rdi rbp rdx rcx rbx rax)
          es ds trapno err rip cs eflags rsp ss).

Definition sys_env_set_trapframe (envid tf : Z) : K Z :=
  r ← envid2env envid true;
  if negb (r.1 =? 0) then mret (- E_BAD_ENV)
  else
    e ← deref r.2;
    t ← load_trapframe tf;
    update_env e (fun v => v <| env_tf := t |>);;
    mret r.1.

Definition sys_env_set_pgfault_upcall (envid func : Z) : K Z :=
  r ← envid2env envid true;
  if negb (r.1 =? 0) then mret (- E_BAD_ENV)
  else
    e ← deref r.2;
    update_env e (fun v => v <| env_pgfault_upcall := func |>);;
    mret r.1.

(** ** Memory *)

(** The address test of the page system calls. *)
Definition bad_va (va : Z) : bool := (va >=? UTOP) || negb (ROUNDUP va PGSIZE =? va).

Definition bad_perm (perm : Z) : bool :=
  negb (Z.land perm (Z.lor PTE_U PTE_P) =? Z.lor PTE_U PTE_P)
  || negb (Z.ldiff perm PTE_SYSCALL =? 0).

Definition sys_page_alloc (envid va perm : Z) : K Z :=
  r ← envid2env envid true;
  if negb (r.1 =? 0) then mret (- E_BAD_ENV)
  else if bad_va va then mret (- E_INVAL)
  else if bad_perm perm then mret (- E_INVAL)
  else
    p ← page_alloc ALLOC_ZERO;
    match p with
    | None => mret (- E_NO_MEM)
    | Some p =>
        e ← deref r.2;
        v ← get_env e;
        result ← page_insert (env_pml4e v) p (ROUNDDOWN va PGSIZE) perm;
        (if negb (result =? 0) then page_free p else mret tt);;
        mret result
    end.

Definition sys_page_map (srcenvid srcva dstenvid dstva perm : Z) : K Z :=
  rs ← envid2env srcenvid true;
  rd ← envid2env dstenvid true;
  if negb (rs.1 =? 0) || negb (rd.1 =? 0) then mret (- E_BAD_ENV)
  else if bad_va srcva || bad_va dstva then mret (- E_INVAL)
  else
    src_env ← deref rs.2;
    sv ← get_env src_env;
    src_page ← page_lookup (env_pml4e sv) srcva;
    match src_page with
    | None => mret (- E_INVAL)
    | Some (src_page, _) =>
        dst_env ← deref rd.2;
        dv ← get_env dst_env;
        result_dst ← page_insert (env_pml4e dv) src_page dstva perm;
        if negb (result_dst =? 0) then mret (- E_NO_MEM) else mret result_dst
    end.

Definition sys_page_unmap (envid va : Z) : K Z :=
  r ← envid2env envid true;
  if negb (r.1 =? 0) then mret (- E_BAD_ENV)
  else if bad_va va then mret (- E_INVAL)
  else
    e ← deref r.2;
    v ← get_env e;
    page_remove (env_pml4e v) va;;
    mret 0.

(** ** Messages between environments *)
Definition sys_ipc_try_send (envid value srcva perm : Z) : K Z :=
  r ← envid2env envid false;
  if r.1 <? 0 then
    cprintf (newline ++ chars "Reached dest env bad environment") [];;
    mret (- E_BAD_ENV)
  else
    r0 ← envid2env 0 false;
    if r0.1 <? 0 then mret (- E_BAD_ENV)
    else
      dstenv ← deref r.2;
      dv ← get_env dstenv;
      if negb (env_ipc_recving dv) then mret (- E_IPC_NOT_RECV)
      else
        c ← the_curenv;
        update_env dstenv (fun v => v <| env_ipc_recving := false |>);;
        cv ← get_env c;
        update_env dstenv (fun v => v <| env_ipc_from := env_id cv |> <| env_ipc_value := value |>);;
        sent ←
          (if srcva <? UTOP then
             srcenv ← deref r0.2;
             sv ← get_env srcenv;
             src_page ← page_lookup (env_pml4e sv) srcva;
             match src_page with
             | None => mret (Some (- E_INVAL))
             | Some (src_page, _) =>
                 dv ← get_env dstenv;
                 result_dst ← page_insert (env_pml4e dv) src_page (env_ipc_dstva dv) (i32 perm);
                 if negb (result_dst =? 0) then mret (Some (- E_NO_MEM))
                 else update_env dstenv (fun v => v <| env_ipc_perm := i32 perm |>);; mret None
             end
           else update_env dstenv (fun v => v <| env_ipc_perm := 0 |>);; mret None);
        match sent : option Z with
        | Some err => mret err
        | None => update_env dstenv (fun v => v <| env_status := ENV_RUNNABLE |>);; mret 0
        end.

Definition sys_ipc_recv (dstva : Z) : K Z :=
  r ← envid2env 0 false;
  if r.1 <? 0 then stop Panic
  else if (dstva <? UTOP) && negb (dstva mod PGSIZE =? 0) then mret (- E_INVAL)
  else
    e ← deref r.2;
    update_env e (fun v =>
      v <| env_ipc_recving := true |> <| env_ipc_dstva := dstva |> <| env_ipc_value := 0 |>
        <| env_ipc_perm := 0 |> <| env_ipc_from := 0 |> <| env_status := ENV_NOT_RUNNABLE |>);;
    mret 0.

(** ** Time and network *)
Definition sys_time_msec : K Z := t ← time_msec; mret (i32 t).

Definition sys_net_try_send (data len : Z) : K Z :=
  if data >=? UTOP then mret (- E_INVAL) else e1000_transmit data len.

Definition sys_net_try_receive (data len : Z) : K Z :=
  if data >=? UTOP then mret (- E_INVAL)
  else
    n ← e1000_receive data;
    storen 4 len n;;
    n ← loadn 4 len;
    let n := i32 n in
    if n >? 0 then mret 0 else mret n.

(** ** The dispatcher *)
Inductive Syscallno :=
  SYS_cputs | SYS_cgetc | SYS_getenvid | SYS_env_destroy | SYS_page_alloc | SYS_page_map
| SYS_page_unmap | SYS_exofork | SYS_env_set_status | SYS_env_set_trapframe
| SYS_env_set_pgfault_upcall | SYS_yield | SYS_ipc_try_send | SYS_ipc_recv | SYS_time_msec
| SYS_net_try_send | SYS_net_try_receive.

Definition syscallno_of (n : Z) : option Syscallno :=
  match n with
  | 0 => Some SYS_cputs | 1 => Some SYS_cgetc | 2 => Some SYS_getenvid
  | 3 => Some SYS_env_destroy | 4 => Some SYS_page_alloc | 5 => Some SYS_page_map
  | 6 => Some SYS_page_unmap | 7 => Some SYS_exofork | 8 => Some SYS_env_set_status
  | 9 => Some SYS_env_set_trapframe | 10 => Some SYS_env_set_pgfault_upcall
  | 11 => Some SYS_yield | 12 => Some SYS_ipc_try_send | 13 => Some SYS_ipc_recv
  | 14 => Some SYS_time_msec | 15 => Some SYS_net_try_send | 16 => Some SYS_net_try_receive
  | _ => None
  end.

Definition syscall (syscallno a1 a2 a3 a4 a5 : Z) : K Z :=
  match syscallno_of syscallno with
  | Some SYS_cputs => sys_cputs a1 a2;; mret 0
  | Some SYS_cgetc => sys_cgetc
  | Some SYS_getenvid => sys_getenvid
  | Some SYS_env_destroy => sys_env_destroy (i32 a1)
  | Some SYS_yield => sys_yield;; mret 0
  | Some SYS_exofork => sys_exofork
  | Some SYS_page_alloc => sys_page_alloc (i32 a1) a2 (i32 a3)
  | Some SYS_page_map => sys_page_map (i32 a1) a2 (i32 a3) a4 (i32 a5)
  | Some SYS_page_unmap => sys_page_unmap (i32 a1) a2
  | Some SYS_env_set_status => sys_env_set_status (i32 a1) (i32 a2)
  | Some SYS_env_set_pgfault_upcall => sys_env_set_pgfault_upcall (i32 a1) a2
  | Some SYS_ipc_try_send => sys_ipc_try_send (i32 a1) (u32 a2) a3 (u32 a4)
  | Some SYS_ipc_recv => sys_ipc_recv a1
  | Some SYS_env_set_trapframe => sys_env_set_trapframe (i32 a1) a2
  | Some SYS_time_msec => sys_time_msec
  | Some SYS_net_try_send => sys_net_try_send a1 (i32 a2)
  | Some SYS_net_try_receive => sys_net_try_receive a1 a2
  | None => mret (- E_INVAL)
  end.
