(* ===== verification/Trap.v ===== *)
(** * Traps: kern/trap.c, with the descriptors of inc/mmu.h

    The descriptor tables as SEG64, SETTSS and SETGATE fill them in, the table of
    interrupt gates that trap_init builds, and the trap handler from its entry to
    the return to an environment.

    The entry points of kern/trapentry.S are the parameter [entry]; the kernel
    monitor, which runs commands until it is told to leave, is the parameter
    [monitor]. *)
From S2P Require Import Prelude Mmu CMem Console Printfmt KState Pmap Env E1000 Syscall.

(** ** Trap numbers: inc/trap.h *)
Definition T_DIVIDE : Z := 0.
Definition T_DEBUG : Z := 1.
Definition T_NMI : Z := 2.
Definition T_BRKPT : Z := 3.
Definition T_OFLOW : Z := 4.
Definition T_BOUND : Z := 5.
Definition T_ILLOP : Z := 6.
Definition T_DEVICE : Z := 7.
Definition T_DBLFLT : Z := 8.
Definition T_TSS : Z := 10.
Definition T_SEGNP : Z := 11.
Definition T_STACK : Z := 12.
Definition T_GPFLT : Z := 13.
Definition T_PGFLT : Z := 14.
Definition T_FPERR : Z := 16.
Definition T_ALIGN : Z := 17.
Definition T_MCHK : Z := 18.
Definition T_SIMDERR : Z := 19.
Definition T_SYSCALL : Z := 48.
Definition IRQ_OFFSET : Z := 32.
Definition IRQ_TIMER : Z := 0.
Definition IRQ_KBD : Z := 1.
Definition IRQ_SERIAL : Z := 4.
Definition IRQ_SPURIOUS : Z := 7.

(** ** Segment descriptors *)
Definition STA_X : Z := 0x8.
Definition STA_W : Z := 0x2.
Definition STA_R : Z := 0x2.
Definition STS_T64A : Z := 0x9.
Definition STS_IG64 : Z := 0xE.
Definition STS_TG64 : Z := 0xF.

Record Segdesc := mkSegdesc {
  sd_lim_15_0 : Z; sd_base_15_0 : Z; sd_base_23_16 : Z; sd_type : Z; sd_s : Z; sd_dpl : Z;
  sd_p : Z; sd_lim_19_16 : Z; sd_avl : Z; sd_l : Z; sd_db : Z; sd_g : Z; sd_base_31_24 : Z
}.
Definition SEG_NULL : Segdesc := mkSegdesc 0 0 0 0 0 0 0 0 0 0 0 0 0.
Definition SEG64 (type base lim dpl : Z) : Segdesc :=
  mkSegdesc (Z.land (Z.shiftr lim 12) 0xffff) (Z.land base 0xffff) (Z.land (Z.shiftr base 16) 0xff)
    type 1 dpl 1 (Z.land (Z.shiftr (u32 lim) 28) 0xf) 0 1 0 1 (Z.land (Z.shiftr (u32 base) 24) 0xff).

(** The first entries of [gdt]; those for the CPUs' TSS follow. *)
Definition gdt (i : Z) : Segdesc :=
  if i =? Z.shiftr GD_KT 3 then SEG64 (Z.lor STA_X STA_R) 0x0 0xffffffff 0
  else if i =? Z.shiftr GD_KD 3 then SEG64 STA_W 0x0 0xffffffff 0
  else if i =? Z.shiftr GD_UT 3 then SEG64 (Z.lor STA_X STA_R) 0x0 0xffffffff 3
  else if i =? Z.shiftr GD_UD 3 then SEG64 STA_W 0x0 0xffffffff 3
  else SEG_NULL.

Record SystemSegdesc64 := mkSystemSegdesc64 {
  ssd_lim_15_0 : Z; ssd_base_15_0 : Z; ssd_base_23_16 : Z; ssd_type : Z; ssd_s : Z; ssd_dpl : Z;
  ssd_p : Z; ssd_lim_19_16 : Z; ssd_avl : Z; ssd_rsv1 : Z; ssd_g : Z; ssd_base_31_24 : Z;
  ssd_base_63_32 : Z; ssd_res1 : Z; ssd_clear : Z; ssd_res2 : Z
}.
(** The argument [dpl] of the macro is not used: the level is always 0. *)
Definition SETTSS (type base lim dpl : Z) : SystemSegdesc64 :=
  mkSystemSegdesc64 (Z.land lim 0xffff) (Z.land base 0xffff) (Z.land (Z.shiftr base 16) 0xff)
    type 0 0 1 (Z.land (Z.shiftr lim 16) 0xf) 0 0 0 (Z.land (Z.shiftr base 24) 0xff)
    (Z.land (Z.shiftr base 32) 0xffffffff) 0 0 0.

(** ** Gate descriptors *)
Record Gatedesc := mkGatedesc {
  gd_off_15_0 : Z; gd_ss : Z; gd_ist : Z; gd_rsv1 : Z; gd_type : Z; gd_s : Z; gd_dpl : Z;
  gd_p : Z; gd_off_31_16 : Z; gd_off_32_63 : Z; gd_rsv2 : Z
}.
Definition SETGATE (istrap sel off dpl : Z) : Gatedesc :=
  mkGatedesc (Z.land off 0xffff) sel 0 0 (if negb (istrap =? 0) then STS_TG64 else STS_IG64)
    0 dpl 1 (Z.land (Z.shiftr off 16) 0xffff) (Z.land (Z.shiftr off 32) 0xffffffff) 0.

(** The gates trap_init sets: vector, trap gate or not, and privilege level. *)
Definition gates : list (Z * (Z * Z)) :=
  [(T_DIVIDE, (1, 0)); (T_DEBUG, (0, 0)); (T_NMI, (0, 0)); (T_BRKPT, (0, 3)); (T_OFLOW, (1, 3));
   (T_BOUND, (1, 3)); (T_ILLOP, (1, 3)); (T_DEVICE, (1, 3)); (T_DBLFLT, (1, 3)); (T_TSS, (1, 3));
   (T_SEGNP, (1, 3)); (T_STACK, (1, 3)); (T_GPFLT, (1, 3)); (T_PGFLT, (0, 3)); (T_FPERR, (1, 3));
   (T_ALIGN, (1, 3)); (T_MCHK, (1, 3)); (T_SIMDERR, (1, 3))]
  ++ ((fun i => (IRQ_OFFSET + i, (0, 0))) <$> seqZ 0 16)
  ++ [(T_SYSCALL, (0, 3))].

Definition trap_init (entry : Z -> Z) : gmap Z Gatedesc :=
  list_to_map ((fun g => (g.1, SETGATE g.2.1 GD_KT (entry g.1) g.2.2)) <$> gates).

(** This CPU's kernel stack, its TSS descriptor and the selector given to [ltr];
    [ts] is the address of its task state. *)
Record percpu_trap := mkPercpu { ts_esp0 : Z; tss_desc : SystemSegdesc64; tr : Z }.
Definition trap_init_percpu (cpu_id ts : Z) : percpu_trap :=
  mkPercpu (KSTACKTOP - cpu_id * (KSTKSIZE + KSTKGAP)) (SETTSS STS_T64A ts 104 0)
    (GD_TSS0 + 2 * 8 * cpu_id).

(** ** The trap frame a handler works on: the saved one of an environment, or one
    on the kernel stack, which is never returned to. *)
Inductive tf_ptr := TfEnv (e : Z) | TfStack (tf : Trapframe).

Definition read_tf (p : tf_ptr) : K Trapframe :=
  match p with TfEnv e => v ← get_env e; mret (env_tf v) | TfStack tf => mret tf end.
Definition update_tf (p : tf_ptr) (f : Trapframe -> Trapframe) : K unit :=
  match p with
  | TfEnv e => update_env e (fun v => v <| env_tf := f (env_tf v) |>)
  | TfStack _ => mret tt
  end.

Definition lapic_eoi : K unit := modify (fun s => s <| eois := eois s + 1 |>).

Definition in_console (f : Console -> option Console) : K unit :=
  c ← gets cons;
  match f c with Some c' => modify (fun s => s <| cons := c' |>) | None => stop Diverge end.

Section trap.
Context (monitor : K unit).

Definition divide_error_handler (tf : tf_ptr) : K unit :=
  e ← the_curenv;
  v ← get_env e;
  t ← read_tf tf;
  cprintf (chars "[%08x] user divide error ip %08x" ++ newline) [VI (env_id v); VI (tf_rip t)];;
  env_destroy e.

Definition breakpoint_handler (tf : tf_ptr) : K unit := monitor.

(** The fields of struct UTrapframe, written in the order of the code. *)
Definition store_regs (va : Z) (r : PushRegs) : K unit :=
  storen 8 va (reg_r15 r);; storen 8 (va + 8) (reg_r14 r);; storen 8 (va + 16) (reg_r13 r);;
  storen 8 (va + 24) (reg_r12 r);; storen 8 (va + 32) (reg_r11 r);; storen 8 (va + 40) (reg_r10 r);;
  storen 8 (va + 48) (reg_r9 r);; storen 8 (va + 56) (reg_r8 r);; storen 8 (va + 64) (reg_rsi r);;
  storen 8 (va + 72) (reg_rdi r);; storen 8 (va + 80) (reg_rbp r);; storen 8 (va + 88) (reg_rdx r);;
  storen 8 (va + 96) (reg_rcx r);; storen 8 (va + 104) (reg_rbx r);; storen 8 (va + 112) (reg_rax r).

Definition sizeof_UTrapframe : Z := 160.

(** Where the fault record goes. *)
Definition utf_addr (rsp : Z) : Z :=
  let stktop := if (rsp <? UXSTACKTOP) && (rsp >=? UXSTACKTOP - PGSIZE)
                then u64 (rsp - 8) else UXSTACKTOP in
  u64 (stktop - sizeof_UTrapframe).

Definition page_fault_handler (tf : tf_ptr) (fault_va : Z) : K unit :=
  t ← read_tf tf;
  if tf_cs t =? 0x8 then stop Panic
  else
    e ← the_curenv;
    v ← get_env e;
    if negb (env_pgfault_upcall v =? 0) then
      let utf := utf_addr (tf_rsp t) in
      user_mem_assert e utf sizeof_UTrapframe PTE_W;;
      storen 8 (utf + 152) (tf_rsp t);;
      storen 8 (utf + 144) (tf_eflags t);;
      storen 8 (utf + 136) (tf_rip t);;
      store_regs (utf + 16) (tf_regs t);;
      storen 8 (utf + 8) (tf_err t);;
      storen 8 utf fault_va;;
      update_tf tf (fun t => t <| tf_rip := env_pgfault_upcall v |>);;
      update_tf tf (fun t => t <| tf_rsp := utf |>);;
      env_run e
    else
      cprintf (chars "[%08x] user fault va %08x ip %08x" ++ newline) [VI (env_id v); VI fault_va; VI (tf_rip t)];;
      env_destroy e.

Definition trap_dispatch (tf : tf_ptr) (fault_va : Z) : K unit :=
  t ← read_tf tf;
  let n := tf_trapno t in
  if n =? IRQ_OFFSET + IRQ_SPURIOUS then cprintf (chars "Spurious interrupt on irq 7" ++ newline) []
  else if n =? IRQ_OFFSET + IRQ_KBD then in_console kbd_intr
  else if n =? IRQ_OFFSET + IRQ_SERIAL then in_console serial_intr
  else if i32 n =? T_DIVIDE then divide_error_handler tf
  else if i32 n =? T_PGFLT then page_fault_handler tf fault_va
  else if i32 n =? T_BRKPT then breakpoint_handler tf
  else if i32 n =? IRQ_OFFSET + IRQ_TIMER then
    time_tick;; lapic_eoi;; sched_yield
  else if i32 n =? T_SYSCALL then
    let r := tf_regs t in
    result ← syscall (reg_rax r) (reg_rdx r) (reg_rcx r) (reg_rbx r) (reg_rdi r) (reg_rsi r);
    update_tf tf (fun t => t <| tf_regs := (tf_regs t) <| reg_rax := u64 result |> |>)
  else
    (if (n >=? IRQ_OFFSET) && (n <? IRQ_OFFSET + 16) then lapic_eoi;; sched_yield else mret tt);;
    if tf_cs t =? GD_KT then stop Panic
    else e ← the_curenv; env_destroy e.

(** [eflags_if] is the interrupt flag inside the handler. *)
Definition trap (eflags_if : bool) (tf : Trapframe) (fault_va : Z) : K unit :=
  p ← gets panicstr;
  if p : bool then stop Halt
  else if eflags_if then stop Panic
  else
    tfp ←
      (if Z.land (tf_cs tf) 3 =? 3 then
         lock_kernel;;
         ce ← curenv;
         match ce with
         | None => stop Panic
         | Some c =>
             v ← get_env c;
             (if bool_decide (env_status v = ENV_DYING)
              then env_free c;; set_curenv None;; sched_yield else mret tt);;
             update_env c (fun v => v <| env_tf := tf |>);;
             mret (TfEnv c)
         end
       else mret (TfStack tf));
    trap_dispatch tfp fault_va;;
    ce ← curenv;
    match ce with
    | Some c =>
        v ← get_env c;
        if bool_decide (env_status v = ENV_RUNNING) then env_run c else sched_yield
    | None => sched_yield
    end.

(** The processor's part: an interrupt gate clears the interrupt flag, a trap
    gate leaves it. *)
Definition trap_through_gate (idt : gmap Z Gatedesc) (tf : Trapframe) (fault_va : Z) : K unit :=
  match idt !! tf_trapno tf with
  | Some g => trap ((gd_type g =? STS_TG64) && negb (Z.land (tf_eflags tf) FL_IF =? 0)) tf fault_va
  | None => stop Undefined
  end.
End trap.
