(* ===== verification/EnvThms.v ===== *)
(** * What kern/env.c and kern/sched.c promise *)
From S2P Require Import Prelude Mmu CMem Console Printfmt KState Pmap FreeList PageTable Walk PmapSpec DemoState Env.

(** ** Accesses to environments *)
Lemma get_env_ok s e v : envs s !! e = Some v -> get_env e s = Ret v s.
Proof. unfold get_env. by intros ->. Qed.

Lemma update_env_ok s e v f :
  envs s !! e = Some v -> update_env e f s = Ret tt (s <| envs := <[e := f v]> (envs s) |>).
Proof. intros Hv. unfold update_env, get_env, put_env, mbind, M_bind. by rewrite !Hv. Qed.

Lemma curenv_eq s : curenv s = Ret (cpu_env s !! cpunum s) s.
Proof. done. Qed.

Lemma the_curenv_ok s c : cpu_env s !! cpunum s = Some c -> the_curenv s = Ret c s.
Proof. intros Hc. unfold the_curenv, curenv, gets, mbind, M_bind. by rewrite Hc. Qed.

(** The array of environments has its NENV elements, and the current environment
    is one of them. *)
Record envs_ok (s : kstate) : Prop := {
  eo_all : forall i, is_Some (envs s !! i) <-> 0 <= i < NENV;
  eo_cur : curenv_ok s
}.

Lemma ENVX_range envid : 0 <= ENVX envid < NENV.
Proof.
  unfold ENVX. change (NENV - 1) with (2 ^ 10 - 1). rewrite land_low by lia.
  change NENV with (2 ^ 10). apply Z.mod_pos_bound. lia.
Qed.

(** ** envid2env *)

(** An environment the caller may name: allocated, with this very id, and, when
    permission is checked, the caller itself or one of its children. *)
Definition names_env (s : kstate) (envid : Z) (checkperm : bool) (e : Z) (v : Env) : Prop :=
  e = ENVX envid /\ envs s !! e = Some v /\ env_status v <> ENV_FREE /\ env_id v = envid /\
  (checkperm = true -> cpu_env s !! cpunum s = Some e \/
     exists c cv, cpu_env s !! cpunum s = Some c /\ envs s !! c = Some cv /\ env_parent_id v = env_id cv).

Lemma envid2env_zero s checkperm :
  envid2env 0 checkperm s = Ret (0, cpu_env s !! cpunum s) s.
Proof. done. Qed.

Lemma envid2env_spec s envid checkperm c :
  envs_ok s -> envid <> 0 -> cpu_env s !! cpunum s = Some c ->
  (exists v, envid2env envid checkperm s = Ret (0, Some (ENVX envid)) s /\
     names_env s envid checkperm (ENVX envid) v) \/
  (exists c', envid2env envid checkperm s = Ret (- E_BAD_ENV, None) (s <| cons := c' |>) /\
     forall v, ~ names_env s envid checkperm (ENVX envid) v).
Proof.
  intros Hok Hne Hc. unfold envid2env. destruct (Z.eqb_spec envid 0); [done|].
  destruct (proj2 (eo_all _ Hok (ENVX envid)) (ENVX_range envid)) as [v Hv].
  destruct (eo_cur _ Hok c Hc) as [cv Hcv].
  erewrite bind_Ret by by apply get_env_ok.
  destruct (decide (env_status v = ENV_FREE)) as [Hf|Hf].
  { rewrite bool_decide_true by done. right. cbn [orb]. prints c1. prints c2. exists c2. split; [done|].
    intros v' (_ & Hv' & Hnf & _). congruence. }
  rewrite bool_decide_false by done. destruct (Z.eqb_spec (env_id v) envid) as [Hid|Hid]; cbn [orb negb].
  2:{ right. prints c1. prints c2. exists c2. split; [done|]. intros v' (_ & Hv' & _ & Hid' & _). congruence. }
  erewrite bind_Ret by apply curenv_eq. rewrite Hc.
  destruct checkperm; cbn [andb].
  2:{ left. exists v. by split_and!. }
  destruct (decide (c = ENVX envid)) as [E|E].
  { rewrite bool_decide_true by congruence. left. exists v.
    split; [done|]. split_and!; try done. intros _. left. congruence. }
  rewrite bool_decide_false by congruence. cbn [negb].
  rewrite (bind_Ret _ _ s (negb (env_parent_id v =? env_id cv)) s).
  2:{ erewrite bind_Ret by by apply the_curenv_ok. by erewrite bind_Ret by by apply get_env_ok. }
  destruct (Z.eqb_spec (env_parent_id v) (env_id cv)) as [Hp|Hp]; cbn [negb].
  - left. exists v. split; [done|]. split_and!; try done.
    intros _. right. by exists c, cv.
  - right. prints c1. exists c1. split; [done|].
    intros v' (_ & Hv' & _ & _ & Hperm). destruct (Hperm eq_refl) as [?|(c' & cv' & ? & ? & ?)]; congruence.
Qed.

(** envid2env accepts exactly the environments a caller may name: it succeeds
    with the slot ENVX(envid) when that slot holds an allocated environment with
    this very id (and, when asked to check, it is the caller or a child of the
    caller), and otherwise prints a message and returns -E_BAD_ENV and NULL; nothing
    but the console changes. *)
Theorem envid2env_exact s envid checkperm c :
  envs_ok s -> envid <> 0 -> cpu_env s !! cpunum s = Some c ->
  (exists v, envid2env envid checkperm s = Ret (0, Some (ENVX envid)) s /\
     names_env s envid checkperm (ENVX envid) v) \/
  (exists c', envid2env envid checkperm s = Ret (- E_BAD_ENV, None) (s <| cons := c' |>) /\
     forall v, ~ names_env s envid checkperm (ENVX envid) v).
Proof. apply envid2env_spec. Qed.

Lemma demo_envs_ok : envs_ok demo.
Proof.
  split; [|exact demo_curenv]. intros i. cbn [envs demo]. unfold demo_envs.
  rewrite lookup_insert_is_Some. rewrite lookup_tabulate. case_decide as Hi.
  - split; [done|]. intros _. destruct (decide (0 = i)); [by left|right; by eauto].
  - split; [|done]. intros [<-|[_ []]]; [|done]. exfalso. apply Hi. by vm_compute.
Qed.

Lemma envid2env_exact_witness :
  exists c', envid2env 0x1005 true demo = Ret (- E_BAD_ENV, None) (demo <| cons := c' |>).
Proof.
  destruct (envid2env_exact demo 0x1005 true 0) as [(v & _ & _ & Hv & Hf & _)|(c' & E & _)].
  - exact demo_envs_ok.
  - discriminate.
  - reflexivity.
  - exfalso. apply Hf. cbn [envs demo] in Hv. unfold demo_envs in Hv.
    rewrite lookup_insert_ne, lookup_tabulate in Hv by discriminate.
    rewrite decide_True in Hv by (vm_compute; split; [discriminate|reflexivity]).
    injection Hv as <-. reflexivity.
  - exists c'. exact E.
Defined.

(** ** Fresh identifiers *)
Lemma low_bits_lor g e : 0 <= e < 1024 -> 0 <= g -> g mod 1024 = 0 -> Z.lor g e = g + e.
Proof. intros He _ Hg. by apply (lor_low_add g e 10). Qed.

Lemma ldiff_low z : Z.ldiff z (NENV - 1) = z - z mod 1024.
Proof.
  change (NENV - 1) with (Z.ones 10). rewrite Z.ldiff_ones_r, Z.shiftl_mul_pow2, Z.shiftr_div_pow2 by lia.
  change (2 ^ 10) with 1024. Z.div_mod_to_equations. lia.
Qed.

Lemma next_envid_eq old e :
  0 <= old < 2 ^ 31 -> 0 <= e < 1024 ->
  next_envid old e =
  (if old + 4096 <? 2 ^ 31 then old + 4096 - (old + 4096) mod 1024 else 4096) + e.
Proof.
  intros Ho He. unfold next_envid. change (Z.shiftl 1 ENVGENSHIFT) with 4096. rewrite ldiff_low.
  destruct (Z.ltb_spec (old + 4096) (2 ^ 31)) as [H|H].
  - rewrite (swrap_small 32 (old + 4096)) by lia.
    assert (0 <= (old + 4096) mod 1024 < 1024) by (apply Z.mod_pos_bound; lia).
    rewrite swrap_small by lia.
    destruct (Z.leb_spec (old + 4096 - (old + 4096) mod 1024) 0); [lia|].
    apply low_bits_lor; [done|lia|]. Z.div_mod_to_equations. lia.
  - assert (i32 (old + 4096) = old + 4096 - 2 ^ 32) as -> by (unfold swrap; Z.div_mod_to_equations; lia).
    assert (0 <= (old + 4096 - 2 ^ 32) mod 1024 < 1024) by (apply Z.mod_pos_bound; lia).
    set (g := i32 _).
    assert (g <= 0) as Hg.
    { unfold g. destruct (decide (- 2 ^ 31 <= old + 4096 - 2 ^ 32 - (old + 4096 - 2 ^ 32) mod 1024)).
      - rewrite swrap_small by lia. lia.
      - exfalso. Z.div_mod_to_equations. lia. }
    destruct (Z.leb_spec g 0); [|lia]. apply low_bits_lor; [done|lia|done].
Qed.

(** The id env_alloc gives to slot [e] is positive, has [e] as its index, and
    differs from the id the slot had before, so that stale ids are recognized:
    the generation grows by 4096, and restarts when it would turn negative. *)
Theorem next_envid_fresh old e :
  0 <= e < NENV -> 0 <= old < 2 ^ 31 -> old = 0 \/ ENVX old = e ->
  0 < next_envid old e < 2 ^ 31 /\ ENVX (next_envid old e) = e /\ next_envid old e <> old.
Proof.
  intros He Ho Hx. change NENV with 1024 in He. rewrite next_envid_eq by done.
  assert (forall z, ENVX z = z mod 1024) as Henvx.
  { intros z. unfold ENVX. change (NENV - 1) with (2 ^ 10 - 1). by rewrite land_low by lia. }
  rewrite Henvx in Hx |- *. assert (0 <= (old + 4096) mod 1024 < 1024) by (apply Z.mod_pos_bound; lia).
  destruct (Z.ltb_spec (old + 4096) (2 ^ 31)); split_and!; Z.div_mod_to_equations; lia.
Qed.

Lemma next_envid_fresh_witness :
  0 < next_envid 0x1005 5 < 2 ^ 31 /\ ENVX (next_envid 0x1005 5) = 5 /\ next_envid 0x1005 5 <> 0x1005.
Proof.
  apply (next_envid_fresh 0x1005 5).
  - vm_compute. split; [discriminate|reflexivity].
  - lia.
  - right. reflexivity.
Defined.

(** ** The list of free environments *)
Fixpoint eseg (es : gmap Z Env) (hd : option Z) (l : list Z) : Prop :=
  match l with
  | [] => hd = None
  | e :: l' => hd = Some e /\ exists v, es !! e = Some v /\ eseg es (env_link v) l'
  end.

Lemma eseg_range es n i :
  0 <= i -> i + Z.of_nat n = NENV ->
  (forall j, 0 <= j < NENV -> exists v, es !! j = Some v /\
     env_link v = if j =? NENV - 1 then None else Some (j + 1)) ->
  eseg es (if i =? NENV then None else Some i) (seqZ i (Z.of_nat n)).
Proof.
  intros Hi Hn Hes. revert i Hi Hn. induction n as [|n IH]; intros i Hi Hn.
  - replace i with NENV by lia. rewrite Z.eqb_refl. done.
  - replace (Z.of_nat (S n)) with (Z.succ (Z.of_nat n)) by lia.
    rewrite seqZ_cons, Z.pred_succ by lia. destruct (Z.eqb_spec i NENV); [lia|].
    split; [done|]. destruct (Hes i ltac:(lia)) as (v & Hv & Hl). exists v. split; [done|].
    rewrite Hl. specialize (IH (Z.succ i) ltac:(lia) ltac:(lia)).
    destruct (Z.eqb_spec (Z.succ i) NENV), (Z.eqb_spec i (NENV - 1)); try lia; [exact IH|].
    by replace (i + 1) with (Z.succ i) by lia.
Qed.

(** env_init leaves all NENV environments free with id 0, and chains them in
    the order of the array, so that the first env_alloc returns envs[0]. *)
Theorem env_init_free_list s :
  wp env_init s (fun _ s' =>
    eseg (envs s') (env_free_list s') (seqZ 0 NENV) /\
    (forall i, is_Some (envs s' !! i) <-> 0 <= i < NENV) /\
    (forall i v, envs s' !! i = Some v -> env_status v = ENV_FREE /\ env_id v = 0)).
Proof.
  unfold env_init. wsteps. set (es0 := list_to_map _).
  assert (forall i, link_envs es0 !! i = if decide (0 <= i < NENV)
    then Some (zero_env <| env_link := if i =? NENV - 1 then None else Some (i + 1) |>) else None) as Hes.
  { intros i. unfold link_envs. rewrite lookup_tabulate. case_decide; [|done].
    unfold es0. rewrite lookup_tabulate, decide_True by done. done. }
  clearbody es0. set (es := link_envs es0) in *.
  change (eseg es (Some 0) (seqZ 0 NENV) /\ (forall i, is_Some (es !! i) <-> 0 <= i < NENV) /\
    (forall i v, es !! i = Some v -> env_status v = ENV_FREE /\ env_id v = 0)).
  clearbody es.
  split_and!.
  - apply (eseg_range es (Z.to_nat NENV) 0); [lia|done|]. intros j Hj.
    rewrite Hes, decide_True by done. eauto.
  - intros i. rewrite Hes. case_decide; split; done || by intros [].
  - intros i v. rewrite Hes. case_decide; [|done]. by intros [= <-].
Qed.

(** ** Switching to an environment *)

(** The environments after the outgoing one was put back to ENV_RUNNABLE. *)
Definition paused (s : kstate) : gmap Z Env :=
  match cpu_env s !! cpunum s with
  | None => envs s
  | Some c =>
      match envs s !! c with
      | Some cv =>
          if bool_decide (env_status cv = ENV_RUNNING)
          then <[c := cv <| env_status := ENV_RUNNABLE |>]> (envs s) else envs s
      | None => envs s
      end
  end.

Definition running (s : kstate) (v : Env) : Env :=
  v <| env_status := ENV_RUNNING |> <| env_runs := u32 (env_runs v + 1) |>
    <| env_cpunum := cpunum s |>.

Lemma env_run_spec s e v :
  curenv_ok s -> kernel_lock s = Some (cpunum s) -> paused s !! e = Some v ->
  env_run e s = Stop (RunEnv e)
    (s <| envs := <[e := running s v]> (paused s) |>
       <| cpu_env := <[cpunum s := e]> (cpu_env s) |>
       <| kernel_lock := None |> <| cr3 := env_cr3 v |>).
Proof.
  intros Hce Hlock Hv. unfold env_run.
  set (s1 := s <| envs := paused s |>).
  erewrite bind_Ret by apply curenv_eq.
  assert (match cpu_env s !! cpunum s with
          | Some c => cv ← get_env c;
              if bool_decide (env_status cv = ENV_RUNNING)
              then update_env c (fun v => v <| env_status := ENV_RUNNABLE |>) else mret tt
          | None => mret tt end s = Ret tt s1) as Hpause.
  { unfold s1, paused. destruct (cpu_env s !! cpunum s) as [c|] eqn:Hc; [|by destruct s].
    destruct (Hce c Hc) as [cv Hcv]. erewrite bind_Ret by by apply get_env_ok. rewrite Hcv.
    destruct (bool_decide _); [by apply update_env_ok|by destruct s]. }
  erewrite bind_Ret by exact Hpause.
  set (s2 := s1 <| cpu_env := <[cpunum s := e]> (cpu_env s) |>).
  assert (set_curenv (Some e) s1 = Ret tt s2) as Hset by done.
  erewrite bind_Ret by exact Hset.
  erewrite bind_Ret by (apply update_env_ok; exact Hv).
  set (v1 := v <| env_status := ENV_RUNNING |> <| env_runs := u32 (env_runs v + 1) |>).
  set (s3 := s2 <| envs := <[e := v1]> (paused s) |>).
  assert (unlock_kernel s3 = Ret tt (s3 <| kernel_lock := None |>)) as Hun.
  { unfold unlock_kernel, gets, mbind, M_bind. cbn. rewrite Hlock, bool_decide_true by done. done. }
  erewrite bind_Ret by exact Hun.
  erewrite bind_Ret by (apply get_env_ok; cbn; apply lookup_insert_eq).
  erewrite bind_Ret by reflexivity. unfold env_pop_tf.
  erewrite bind_Ret by (apply the_curenv_ok; cbn; apply lookup_insert_eq).
  erewrite bind_Ret by reflexivity.
  erewrite bind_Ret by (apply update_env_ok; cbn; apply lookup_insert_eq).
  unfold stop. cbn. by rewrite insert_insert_eq.
Qed.

Lemma paused_lookup s e : curenv_ok s ->
  paused s !! e = (fun v => if decide (cpu_env s !! cpunum s = Some e /\ env_status v = ENV_RUNNING)
                            then v <| env_status := ENV_RUNNABLE |> else v) <$> envs s !! e.
Proof.
  intros Hce. unfold paused. destruct (cpu_env s !! cpunum s) as [c|] eqn:Hc.
  2:{ destruct (envs s !! e); [|done]. cbn. by rewrite decide_False by naive_solver. }
  destruct (Hce c Hc) as [cv Hcv]. rewrite Hcv.
  destruct (decide (c = e)) as [<-|Hne].
  - rewrite Hcv. cbn. case_bool_decide.
    + rewrite decide_True by done. apply lookup_insert_eq.
    + by rewrite decide_False, Hcv by naive_solver.
  - assert (forall v, (if decide (Some c = Some e /\ env_status v = ENV_RUNNING)
        then v <| env_status := ENV_RUNNABLE |> else v) = v) as E by (intros; rewrite decide_False; [done|naive_solver]).
    destruct (bool_decide _); rewrite ?lookup_insert_ne by done; destruct (envs s !! e); cbn; by rewrite ?E.
Qed.

(** env_run never returns to its caller. *)
Definition noreturn {A} (m : K A) : Prop := forall s, exists k s', m s = Stop k s'.

Lemma noreturn_bind {A B} (m : K A) (k : A -> K B) : noreturn m -> noreturn (m ≫= k).
Proof. intros Hm s. destruct (Hm s) as (x & s' & E). exists x, s'. by apply bind_Stop. Qed.
Lemma noreturn_cont {A B} (m : K A) (k : A -> K B) : (forall a, noreturn (k a)) -> noreturn (m ≫= k).
Proof. intros Hk s. unfold mbind, M_bind. destruct (m s); [apply Hk|eauto]. Qed.
Lemma noreturn_stop {A} e : noreturn (A:=A) (stop e).
Proof. intros s. by exists e, s. Qed.
Lemma noreturn_env_run e : noreturn (env_run e).
Proof.
  do 7 (apply noreturn_cont; intros). unfold env_pop_tf.
  do 3 (apply noreturn_cont; intros). apply noreturn_stop.
Qed.

(** env_run switches the CPU to [e]: the outgoing environment goes back to
    ENV_RUNNABLE if it was running, [e] is ENV_RUNNING with its run counted and
    its CPU recorded, the kernel lock is released, the address space is [e]'s,
    and control leaves for user mode; no other environment changes. *)
Theorem env_run_switches s e v :
  curenv_ok s -> kernel_lock s = Some (cpunum s) -> envs s !! e = Some v ->
  exists s', env_run e s = Stop (RunEnv e) s' /\
    cpu_env s' !! cpunum s' = Some e /\ kernel_lock s' = None /\ cr3 s' = env_cr3 v /\
    mem s' = mem s /\
    (exists v', envs s' !! e = Some v' /\ env_status v' = ENV_RUNNING /\
       env_runs v' = u32 (env_runs v + 1) /\ env_cpunum v' = cpunum s /\ env_tf v' = env_tf v) /\
    (forall c cv, c <> e -> envs s !! c = Some cv ->
       envs s' !! c = Some (if decide (cpu_env s !! cpunum s = Some c /\ env_status cv = ENV_RUNNING)
                            then cv <| env_status := ENV_RUNNABLE |> else cv)).
Proof.
  intros Hce Hlock Hv. pose proof (paused_lookup s e Hce) as Hp. rewrite Hv in Hp.
  destruct (paused s !! e) as [pv|] eqn:Hpv; [|done]. injection Hp as Hpv'. eexists. split; [by apply (env_run_spec s e pv)|]. cbn.
  assert (env_runs pv = env_runs v /\ env_tf pv = env_tf v /\ env_cr3 pv = env_cr3 v) as (E1 & E2 & E3)
    by (rewrite Hpv'; by case_decide).
  split_and!; try done.
  - apply lookup_insert_eq.
  - exists (running s pv). rewrite lookup_insert_eq. cbn. rewrite E1, E2. done.
  - intros c cv Hne Hcv. rewrite lookup_insert_ne by done. rewrite paused_lookup, Hcv by done. done.
Qed.

Lemma env_run_switches_witness :
  exists s', env_run 3 demo = Stop (RunEnv 3) s' /\ kernel_lock s' = None /\
    envs s' !! 0 = Some (demo_env <| env_status := ENV_RUNNABLE |>).
Proof.
  destruct (env_run_switches demo 3 (zero_env <| env_link := Some 4 |>))
    as (s' & Hs' & _ & Hl & _ & _ & _ & Ho).
  - exact demo_curenv.
  - reflexivity.
  - change (envs demo) with demo_envs. unfold demo_envs.
    rewrite lookup_insert_ne, lookup_tabulate by discriminate.
    rewrite decide_True by (vm_compute; split; [discriminate|reflexivity]). reflexivity.
  - exists s'. split; [exact Hs'|]. split; [exact Hl|].
    rewrite (Ho 0 demo_env); [reflexivity|discriminate|]. apply lookup_insert_eq.
Defined.

(** ** The scheduler *)
Definition ready_env (s : kstate) (k : Z) : bool :=
  match envs s !! k with
  | Some v => bool_decide (env_status v = ENV_RUNNABLE) && negb (bool_decide (env_type v = ENV_TYPE_IDLE))
  | None => false
  end.
Definition alive_env (s : kstate) (k : Z) : bool :=
  match envs s !! k with
  | Some v => negb (bool_decide (env_type v = ENV_TYPE_IDLE)) &&
      (bool_decide (env_status v = ENV_RUNNABLE) || bool_decide (env_status v = ENV_RUNNING))
  | None => false
  end.

(** The slots the loop looks at. *)
Fixpoint visit (n : nat) (k : Z) : list Z :=
  match n with
  | O => []
  | S n' => k :: visit n' (if k + 1 =? NENV then 0 else k + 1)
  end.

Lemma sched_loop_spec s n k :
  (forall i, is_Some (envs s !! i) <-> 0 <= i < NENV) -> Forall (fun i => 0 <= i < NENV) (visit n k) ->
  sched_loop n k s =
  match find (ready_env s) (visit n k) with Some e => env_run e s | None => Ret tt s end.
Proof.
  intros Hall. revert k. induction n as [|n IH]; intros k Hv; [done|].
  cbn [sched_loop visit find] in *. apply Forall_cons in Hv as [Hk Hv].
  destruct (proj2 (Hall k) Hk) as [v Hlk]. erewrite bind_Ret by by apply get_env_ok.
  unfold ready_env at 1. rewrite Hlk. destruct (_ && _).
  - destruct (noreturn_env_run k s) as (x & s' & E). rewrite E. by apply bind_Stop.
  - erewrite bind_Ret by reflexivity. by apply IH.
Qed.

Lemma some_alive_spec s n i :
  (forall i, is_Some (envs s !! i) <-> 0 <= i < NENV) -> 0 <= i -> i + Z.of_nat n <= NENV ->
  some_alive n i s = Ret (existsb (alive_env s) (seqZ i (Z.of_nat n))) s.
Proof.
  intros Hall. revert i. induction n as [|n IH]; intros i Hi Hn; [done|].
  replace (Z.of_nat (S n)) with (Z.succ (Z.of_nat n)) by lia.
  rewrite seqZ_cons, Z.pred_succ by lia. cbn [some_alive existsb].
  destruct (proj2 (Hall i) ltac:(lia)) as [v Hlk]. erewrite bind_Ret by by apply get_env_ok.
  unfold alive_env at 1. rewrite Hlk. destruct (_ && _); [done|].
  rewrite IH by lia. done.
Qed.

Lemma visit_up n k : 0 <= k -> k + Z.of_nat n <= NENV -> visit n k = seqZ k (Z.of_nat n).
Proof.
  revert k. induction n as [|n IH]; intros k Hk Hn; [done|].
  replace (Z.of_nat (S n)) with (Z.succ (Z.of_nat n)) by lia.
  rewrite seqZ_cons, Z.pred_succ by lia. cbn [visit]. f_equal.
  destruct (Z.eqb_spec (k + 1) NENV); [|apply IH; lia].
  replace n with 0%nat by lia. done.
Qed.

Lemma visit_wrap m n k :
  0 <= k -> (0 < m)%nat -> k + Z.of_nat m = NENV -> Z.of_nat n <= NENV ->
  visit (m + n) k = seqZ k (Z.of_nat m) ++ seqZ 0 (Z.of_nat n).
Proof.
  intros Hk Hm Hend Hn. revert k Hk Hend. induction m as [|m IH]; intros k Hk Hend; [lia|].
  replace (Z.of_nat (S m)) with (Z.succ (Z.of_nat m)) by lia.
  rewrite seqZ_cons, Z.pred_succ by lia. cbn [visit Nat.add app]. f_equal.
  destruct (Z.eqb_spec (k + 1) NENV) as [E|E].
  - replace m with 0%nat by lia. apply visit_up; lia.
  - apply IH; lia.
Qed.

(** The other environments, in the order the scheduler tries them. *)
Definition round_robin (i : Z) : list Z := seqZ (i + 1) (NENV - 1 - i) ++ seqZ 0 i.

Lemma visit_round_robin i : 0 <= i < NENV - 1 -> visit (Z.to_nat (NENV - 1)) (i + 1) = round_robin i.
Proof.
  intros Hi. replace (Z.to_nat (NENV - 1)) with (Z.to_nat (NENV - 1 - i) + Z.to_nat i)%nat by lia.
  rewrite visit_wrap by lia. unfold round_robin. f_equal; f_equal; lia.
Qed.

Lemma round_robin_range i : 0 <= i < NENV -> Forall (fun k => 0 <= k < NENV) (round_robin i).
Proof. intros Hi. apply Forall_forall. intros k [Hk|Hk]%elem_of_app; apply elem_of_seqZ in Hk; lia. Qed.

(** What happens when no other environment is ready. *)
Definition sched_rest (s : kstate) (i : Z) : outcome kstate kstop unit :=
  match envs s !! i, envs s !! cpunum s with
  | Some v, Some idle =>
      if bool_decide (env_status v = ENV_RUNNING) then env_run i s
      else if negb (existsb (alive_env s) (seqZ 0 NENV)) then
        Stop MonitorLoop (s <| cons := put_all cputchar (chars "No more runnable environments!" ++ newline) (cons s) |>)
      else if bool_decide (env_status idle = ENV_RUNNABLE) || bool_decide (env_status idle = ENV_RUNNING)
      then env_run (cpunum s) s else Stop Panic s
  | _, _ => Stop Undefined s
  end.

Lemma sched_yield_round_robin_eq s i :
  envs_ok s -> cpu_env s !! cpunum s = Some i -> 0 <= i < NENV - 1 -> 0 <= cpunum s < NCPU ->
  sched_yield s =
  match find (ready_env s) (round_robin i) with
  | Some k => env_run k s
  | None => sched_rest s i
  end.
Proof.
  intros Hok Hc Hi Hcpu. pose proof (eo_all _ Hok) as Hall.
  assert (NCPU < NENV) as Hcn by done.
  destruct (proj2 (Hall i) ltac:(lia)) as [v Hv].
  destruct (proj2 (Hall (cpunum s)) ltac:(lia)) as [w Hw].
  unfold sched_yield. erewrite bind_Ret by apply curenv_eq. rewrite Hc.
  assert (sched_loop (Z.to_nat (NENV - 1)) (i + 1) s =
    match find (ready_env s) (round_robin i) with Some e => env_run e s | None => Ret tt s end) as Hloop.
  { rewrite <- visit_round_robin by done. apply sched_loop_spec; [done|].
    rewrite visit_round_robin by done. apply round_robin_range. lia. }
  destruct (find (ready_env s) (round_robin i)) as [k|].
  { destruct (noreturn_env_run k s) as (x & s' & E). rewrite E in *. by apply bind_Stop. }
  erewrite bind_Ret by exact Hloop. unfold sched_rest. rewrite Hv, Hw.
  destruct (bool_decide (env_status v = ENV_RUNNING)) eqn:Erun.
  { destruct (noreturn_env_run i s) as (x & s' & E). rewrite E. apply bind_Stop.
    erewrite bind_Ret by by apply get_env_ok. by rewrite Erun. }
  rewrite (bind_Ret _ _ s tt s).
  2:{ erewrite bind_Ret by by apply get_env_ok. by rewrite Erun. }
  erewrite bind_Ret by (apply some_alive_spec; [done|lia|done]).
  rewrite Z2Nat.id by (vm_compute; discriminate).
  destruct (negb _).
  { by erewrite bind_Ret by by apply cprintf_output. }
  erewrite bind_Ret by reflexivity. erewrite bind_Ret by by apply get_env_ok. by destruct (_ || _).
Qed.

(** C26: The scheduler is round robin: from the current environment [i] (any but the
    last slot) it switches to the first ready environment in the order
    i+1, ..., NENV-1, 0, ..., i-1; if there is none it keeps running [i] if it can,
    and otherwise runs this CPU's idle environment, or drops into the monitor when
    nothing is left to run. *)
Theorem sched_yield_round_robin s i :
  envs_ok s -> cpu_env s !! cpunum s = Some i -> 0 <= i < NENV - 1 -> 0 <= cpunum s < NCPU ->
  sched_yield s =
  match find (ready_env s) (round_robin i) with
  | Some k => env_run k s
  | None => sched_rest s i
  end.
Proof. apply sched_yield_round_robin_eq. Qed.

(** Environments 0 (running), 7 and 9 (runnable): the scheduler picks 7. *)
Definition with_env (e : Z) (v : Env) (s : kstate) : kstate := s <| envs := <[e := v]> (envs s) |>.
Definition demo_sched : kstate :=
  with_env 7 (zero_env <| env_status := ENV_RUNNABLE |>)
    (with_env 9 (zero_env <| env_status := ENV_RUNNABLE |>) demo).

Lemma with_env_wf e v s l : pmap_wf s l -> pmap_wf (with_env e v s) l.
Proof. by apply wf_proper. Qed.
Lemma with_env_pt e v s l r :
  pt_wf (mem s) (npages s) l r -> pt_wf (mem (with_env e v s)) (npages (with_env e v s)) l r.
Proof. done. Qed.
Lemma with_env_mem e v s : mem (with_env e v s) = mem s.
Proof. done. Qed.
Lemma with_env_cur e v s : cpu_env (with_env e v s) = cpu_env s /\ cpunum (with_env e v s) = cpunum s.
Proof. done. Qed.
Lemma with_env_eq e v s : envs (with_env e v s) !! e = Some v.
Proof. apply lookup_insert_eq. Qed.
Lemma with_env_ne e v s e' : e <> e' -> envs (with_env e v s) !! e' = envs s !! e'.
Proof. apply lookup_insert_ne. Qed.

Lemma envs_ok_with s e v : envs_ok s -> 0 <= e < NENV -> envs_ok (with_env e v s).
Proof.
  intros [Hall Hcur] He. split.
  - intros i. cbn. rewrite lookup_insert_is_Some, Hall. destruct (decide (e = i)); naive_solver.
  - intros c Hc. cbn in *. apply lookup_insert_is_Some. destruct (decide (e = c)); [by left|right].
    split; [done|]. by apply Hcur.
Qed.

Lemma demo_sched_ok : envs_ok demo_sched.
Proof. by repeat apply envs_ok_with; [exact demo_envs_ok|..]. Qed.

Lemma sched_yield_round_robin_witness : sched_yield demo_sched = env_run 7 demo_sched.
Proof.
  rewrite (sched_yield_round_robin demo_sched 0).
  - assert (find (ready_env demo_sched) (round_robin 0) = Some 7) as -> by (vm_compute; reflexivity).
    reflexivity.
  - exact demo_sched_ok.
  - reflexivity.
  - vm_compute. split; [discriminate|reflexivity].
  - vm_compute. split; [discriminate|reflexivity].
Defined.

Lemma sched_yield_last s :
  envs_ok s -> cpu_env s !! cpunum s = Some (NENV - 1) -> sched_yield s = Stop Undefined s.
Proof.
  intros [Hall _] Hc. unfold sched_yield. erewrite bind_Ret by apply curenv_eq. rewrite Hc.
  assert (envs s !! NENV = None) as Hn.
  { destruct (envs s !! NENV) eqn:E; [|done]. exfalso.
    assert (0 <= NENV < NENV) by (apply Hall; eauto). lia. }
  apply bind_Stop. replace (NENV - 1 + 1) with NENV by lia.
  replace (Z.to_nat (NENV - 1)) with (S (Z.to_nat (NENV - 2))) by (vm_compute; reflexivity).
  generalize (Z.to_nat (NENV - 2)) as n. intros n. cbn [sched_loop]. apply bind_Stop.
  unfold get_env. by rewrite Hn.
Qed.

(** From the last slot the scheduler reads past the array: the index is only
    wrapped around after an increment inside the loop, so that it starts at
    NENV. *)
Theorem sched_yield_last_slot s :
  envs_ok s -> cpu_env s !! cpunum s = Some (NENV - 1) -> sched_yield s = Stop Undefined s.
Proof. apply sched_yield_last. Qed.

Lemma sched_yield_last_slot_witness :
  sched_yield (demo <| cpu_env := {[ 0 := 1023 ]} |>) = Stop Undefined (demo <| cpu_env := {[ 0 := 1023 ]} |>).
Proof.
  apply (sched_yield_last_slot (demo <| cpu_env := {[ 0 := 1023 ]} |>)); [|reflexivity].
  split; [exact (eo_all _ demo_envs_ok)|]. intros c Hc. cbn in Hc.
  rewrite lookup_singleton_eq in Hc. injection Hc as <-.
  apply (eo_all _ demo_envs_ok). vm_compute. split; [discriminate|reflexivity].
Defined.

(** How far slot [j] is from slot [i], going up and around. *)
Definition slot_dist (i j : Z) : Z := (j - i) mod NENV.

Lemma round_robin_lookup i n x :
  0 <= i < NENV -> round_robin i !! n = Some x -> 0 <= x < NENV /\ slot_dist i x = Z.of_nat n + 1.
Proof.
  intros Hi Hx. pose proof (round_robin_range i Hi) as Hr. rewrite Forall_lookup in Hr.
  pose proof (Hr _ _ Hx) as Hxr. split; [done|]. unfold round_robin in Hx.
  unfold slot_dist. change NENV with 1024 in *.
  apply lookup_app_Some in Hx as [Hx|[Hn Hx]].
  - apply lookup_seqZ in Hx as [-> ?]. Z.div_mod_to_equations. lia.
  - rewrite length_seqZ in *. apply lookup_seqZ in Hx as [-> ?]. Z.div_mod_to_equations. lia.
Qed.

Lemma find_split {A} (f : A -> bool) l k :
  find f l = Some k -> exists l1 l2, l = l1 ++ k :: l2 /\ f k = true /\ Forall (fun x => f x = false) l1.
Proof.
  induction l as [|x l IH]; cbn; [done|]. destruct (f x) eqn:E.
  - intros [= ->]. by exists [], l.
  - intros (l1 & l2 & -> & ? & ?)%IH. exists (x :: l1), l2. by rewrite Forall_cons.
Qed.

Lemma elem_round_robin i j : 0 <= i < NENV -> 0 <= j < NENV -> j <> i -> j ∈ round_robin i.
Proof. intros. apply elem_of_app. rewrite !elem_of_seqZ. lia. Qed.

(** One switch: CPU [c], which holds the kernel lock, gives up its environment while
    [j] is ready, and runs [k]. *)
Record gives_up (c j : Z) (s : kstate) (k : Z) : Prop := {
  gu_envs : envs_ok s;
  gu_cpu : cpunum s = c;
  gu_lock : kernel_lock s = Some c;
  gu_cur : is_Some (cpu_env s !! c);
  gu_ready : ready_env s j = true;
  gu_run : exists s', sched_yield s = Stop (RunEnv k) s'
}.

(** The slot a CPU switches to is the ready one or one closer to it. *)
Lemma switch_closer c i j k s :
  0 <= c < NCPU -> gives_up c j s k -> cpu_env s !! c = Some i -> i <> j ->
  k = j \/ 0 < slot_dist k j < slot_dist i j.
Proof.
  intros Hcpu [Hok <- Hlock _ Hj [s' Hrun]] Hc Hji.
  assert (0 <= j < NENV) as Hjr.
  { apply (eo_all _ Hok). unfold ready_env in Hj. destruct (envs s !! j); [eauto|done]. }
  assert (0 <= i < NENV) as Hi by by apply (eo_all _ Hok), (eo_cur _ Hok).
  assert (i <> NENV - 1) by (intros ->; by rewrite sched_yield_last in Hrun).
  assert (j ∈ round_robin i) as Hjin by (apply elem_round_robin; lia).
  rewrite (sched_yield_round_robin_eq s i) in Hrun by (done || lia).
  destruct (find (ready_env s) (round_robin i)) as [k'|] eqn:Hf.
  2:{ exfalso. eapply find_none in Hf; [|apply list_elem_of_In, Hjin]. congruence. }
  destruct (find_split _ _ _ Hf) as (l1 & l2 & Hl & Hk' & Hl1).
  assert (round_robin i !! length l1 = Some k') as Hlk by by rewrite Hl, list_lookup_middle.
  destruct (round_robin_lookup i _ _ ltac:(lia) Hlk) as [Hkr Hkd].
  destruct (proj2 (eo_all _ Hok k') Hkr) as [v Hv].
  pose proof (paused_lookup s k' (eo_cur _ Hok)) as Hp. rewrite Hv in Hp. cbn in Hp.
  rewrite (env_run_spec s k' _ (eo_cur _ Hok) Hlock Hp) in Hrun. injection Hrun as <- _.
  destruct (decide (k' = j)) as [|Hkj]; [by left|right].
  apply list_elem_of_lookup in Hjin as [n Hn].
  destruct (round_robin_lookup i _ _ ltac:(lia) Hn) as [_ Hjd].
  assert (length l1 < n)%nat as Hlt.
  { destruct (decide (n < length l1)%nat) as [Hlt|Hge].
    - rewrite Hl, lookup_app_l in Hn by done. rewrite Forall_lookup in Hl1.
      apply Hl1 in Hn. congruence.
    - destruct (decide (n = length l1)) as [->|]; [congruence|lia]. }
  unfold slot_dist in *. change NENV with 1024 in *. Z.div_mod_to_equations. lia.
Qed.

Lemma slot_dist_range i j : 0 <= slot_dist i j < NENV.
Proof. apply Z.mod_pos_bound. done. Qed.

(** A run of switches that has not come to [j] comes closer to it each time. *)
Lemma switches_closer c j (st : nat -> kstate) (pick : nat -> Z) m :
  0 <= c < NCPU ->
  (forall n, (n <= m)%nat -> gives_up c j (st n) (pick n)) ->
  (forall n, (n < m)%nat -> cpu_env (st (S n)) !! c = Some (pick n)) ->
  (forall n, (n <= m)%nat -> pick n <> j) ->
  (0 < m)%nat -> 0 < slot_dist (pick m) j /\ slot_dist (pick m) j + Z.of_nat m < NENV.
Proof.
  intros Hcpu Hup Hcur Hne. induction m as [|m IH]; [lia|]. intros _.
  destruct (switch_closer c (pick m) j (pick (S m)) (st (S m)) Hcpu (Hup (S m) ltac:(lia)) (Hcur m ltac:(lia)) (Hne m ltac:(lia)))
    as [E|Hd]; [by destruct (Hne (S m) ltac:(lia))|].
  split; [lia|]. destruct m as [|m].
  - pose proof (slot_dist_range (pick 0%nat) j). lia.
  - destruct IH as [_ H]; [intros; apply Hup; lia|intros; apply Hcur; lia|intros; apply Hne; lia|lia|lia].
Qed.

(** C30: No environment starves: among any NENV switches that a CPU makes one after the
    other while [j] is ready, one is to [j].  Between two switches anything may happen to
    the state of the kernel, as long as [j] stays ready and the environment that gives
    the CPU up is the one it was given to (one that exits leaves no current environment,
    and then the search starts again at slot 2).  A call of sched_yield in the last slot
    reads past the table and is no switch.  Nothing is asked of the switches after the one
    to [j]. *)
Theorem sched_no_starvation c j (st : nat -> kstate) (pick : nat -> Z) :
  0 <= c < NCPU ->
  (forall n, (n < Z.to_nat NENV)%nat -> (forall m, (m < n)%nat -> pick m <> j) -> gives_up c j (st n) (pick n)) ->
  (forall n, (S n < Z.to_nat NENV)%nat -> (forall m, (m <= n)%nat -> pick m <> j) ->
     cpu_env (st (S n)) !! c = Some (pick n)) ->
  exists n, (n < Z.to_nat NENV)%nat /\ pick n = j.
Proof.
  intros Hcpu Hup Hcur. destruct (decide (Exists (fun n => pick n = j) (seq 0 (Z.to_nat NENV)))) as [H|H].
  { apply Exists_exists in H as (n & Hn%elem_of_seq & E). exists n. split; [lia|done]. }
  exfalso. assert (forall n, (n < Z.to_nat NENV)%nat -> pick n <> j) as Hne.
  { intros n Hn E. apply H, Exists_exists. exists n. split; [apply elem_of_seq; lia|done]. }
  assert (Z.to_nat NENV = 1024%nat) as HN by done.
  destruct (switches_closer c j st pick 1023 Hcpu) as [H1 H2]; [..|lia|].
  - intros n Hn. apply Hup; [lia|]. intros. apply Hne. lia.
  - intros n Hn. apply Hcur; [lia|]. intros. apply Hne. lia.
  - intros n Hn. apply Hne. lia.
  - change NENV with 1024 in H2. lia.
Qed.

(** Environments 7 and 9 are ready; the CPU goes from 0 to 7, whatever happens there,
    and from 7 to 9. *)
Definition demo_turn (n : nat) : kstate :=
  match n with O => demo_sched | _ => demo_sched <| cpu_env := {[ 0 := 7 ]} |> end.
Definition demo_pick (n : nat) : Z := match n with O => 7 | _ => 9 end.

Lemma env_run_runs s k :
  envs_ok s -> 0 <= k < NENV -> kernel_lock s = Some (cpunum s) -> exists s', env_run k s = Stop (RunEnv k) s'.
Proof.
  intros Hok Hk Hlock. destruct (proj2 (eo_all _ Hok k) Hk) as [v Hv].
  pose proof (paused_lookup s k (eo_cur _ Hok)) as Hp. rewrite Hv in Hp. cbn in Hp.
  rewrite (env_run_spec s k _ (eo_cur _ Hok) Hlock Hp). eauto.
Qed.

Lemma envs_ok_current s e : envs_ok s -> 0 <= e < NENV -> envs_ok (s <| cpu_env := {[ cpunum s := e ]} |>).
Proof.
  intros [Hall _] He. split; [exact Hall|]. intros e' He'. cbn in He'. apply lookup_singleton_Some in He' as [_ <-].
  by apply Hall.
Qed.

Lemma demo_turn_ok n : envs_ok (demo_turn n).
Proof. destruct n; [exact demo_sched_ok|]. exact (envs_ok_current demo_sched 7 demo_sched_ok ltac:(by vm_compute)). Qed.

Lemma demo_turn_switch n : (n < 2)%nat -> gives_up 0 9 (demo_turn n) (demo_pick n).
Proof.
  intros Hn. split.
  - apply demo_turn_ok.
  - by destruct n.
  - by destruct n.
  - destruct n; by eexists.
  - destruct n; by vm_compute.
  - set (i := match n with O => 0 | _ => 7 end).
    rewrite (sched_yield_round_robin_eq _ i); [|apply demo_turn_ok|by destruct n|by destruct n; vm_compute|by destruct n; vm_compute].
    assert (find (ready_env (demo_turn n)) (round_robin i) = Some (demo_pick n)) as -> by (destruct n; by vm_compute).
    apply env_run_runs; [apply demo_turn_ok|by destruct n; vm_compute|by destruct n].
Qed.

Lemma sched_no_starvation_witness : exists n, (n < Z.to_nat NENV)%nat /\ demo_pick n = 9.
Proof.
  apply (sched_no_starvation 0 9 demo_turn demo_pick).
  - vm_compute. split; [discriminate|reflexivity].
  - intros n _ Hno. apply demo_turn_switch. destruct n as [|[|n]]; [lia|lia|].
    exfalso. apply (Hno 1%nat); [lia|reflexivity].
  - intros n _ Hno. destruct n as [|n]; [reflexivity|]. exfalso. apply (Hno (S n)); [lia|reflexivity].
Defined.

(** ** Resources that are not given back *)

(** env_setup_vm loses memory when it fails: with one or two pages left it
    returns -E_NO_MEM, but the pages it had already taken are on no list and have
    no references. *)
Theorem env_setup_vm_leaks s e l :
  pmap_wf s l -> (0 < length l < 3)%nat ->
  wp (env_setup_vm e) s (fun r s' => r = - E_NO_MEM /\ pmap_wf s' [] /\
    Forall (fun p => ref s' p = 0) l).
Proof.
  intros Hwf Hl. unfold env_setup_vm. destruct l as [|p l]; [simpl in Hl; lia|]. apply wp_bind.
  wuse (page_alloc_cons s ALLOC_ZERO p l Hwf). intros res s1 (-> & Hwf1 & _ & _ & Hpg1 & _).
  apply wp_bind. destruct l as [|q l].
  - apply wp_elim. do 2 eexists. split; [by apply page_alloc_empty|]. apply wp_ret.
    split_and!; [done|done|]. rewrite Forall_cons, Forall_nil. unfold ref.
    by rewrite Hpg1, lookup_insert_eq.
  - destruct l as [|]; [|simpl in Hl; lia].
    wuse (page_alloc_cons s1 ALLOC_ZERO q [] Hwf1). intros res s2 (-> & Hwf2 & _ & _ & Hpg2 & _).
    apply wp_bind, wp_elim. do 2 eexists. split; [by apply page_alloc_empty|]. apply wp_ret.
    pose proof (wf_nodup _ _ Hwf) as [Hnin _]%NoDup_cons.
    split_and!; [done|done|]. rewrite !Forall_cons, Forall_nil. unfold ref.
    rewrite Hpg2, Hpg1, lookup_insert_eq, lookup_insert_ne, lookup_insert_eq; [done|set_solver].
Qed.

Definition demo_low : kstate :=
  demo <| page_free_list := Some 30 |>.

Lemma demo_low_free i : i ∈ [30; 31] -> i ∈ demo_free.
Proof. unfold demo_free. set_solver. Qed.

Lemma demo_low_wf : pmap_wf demo_low [30; 31].
Proof.
  destruct demo_wf as [H1 H2 _ _ H5 H6]. split; try assumption.
  - split; [reflexivity|]. eexists. split; [reflexivity|].
    split; [reflexivity|]. eexists. split; reflexivity.
  - apply (bool_decide_unpack _). vm_compute. exact I.
  - intros i pg Hi. exact (H6 i pg (demo_low_free i Hi)).
Qed.

Lemma env_setup_vm_leaks_witness :
  wp (env_setup_vm 1) demo_low (fun r s' => r = - E_NO_MEM /\ pmap_wf s' [] /\
    Forall (fun p => ref s' p = 0) [30; 31]).
Proof. apply (env_setup_vm_leaks demo_low 1 [30; 31] demo_low_wf). simpl. lia. Defined.

(** Map page 2 (one reference) at [va] in environment 0, free the environment, and
    read the reference count of the page. *)
Definition refs_after_free (va : Z) : K Z :=
  page_insert 0xF0001000 2 va (Z.lor PTE_U PTE_W);; env_free 0;; pg ← get_page 2; mret (pp_ref pg).

(** env_free does not free everything: its loop over a page table stops before
    the last entry, so the page of the user exception stack, at
    UXSTACKTOP - PGSIZE, keeps its reference, while the page below it is
    released. *)
Theorem env_free_keeps_exception_stack :
  value_of (refs_after_free (UXSTACKTOP - PGSIZE) demo) = Some 2 /\
  value_of (refs_after_free (UXSTACKTOP - 2 * PGSIZE) demo) = Some 1.
Proof. split; vm_compute; reflexivity. Qed.
