(* ===== verification/SyscallThms.v ===== *)
(** * What the system calls promise *)
From S2P Require Import Prelude Mmu CMem Console KState Pmap FreeList PageTable Walk PmapSpec DemoState Env E1000 Syscall EnvThms.

(** ** The clock *)

(** The last tick count whose milliseconds fit in 32 bits. *)
Definition last_tick : Z := 429496729.

(** The clock never runs backwards silently: as long as the milliseconds fit in
    32 bits a tick returns and time_msec is exactly ten times the ticks, and the
    first tick that would overflow panics. *)
Theorem time_tick_overflow s :
  0 <= ticks s <= last_tick ->
  (ticks s < last_tick ->
   wp (time_tick;; time_msec) s (fun ms s' => ticks s' = ticks s + 1 /\ ms = 10 * (ticks s + 1))) /\
  (ticks s = last_tick -> exists s', time_tick s = Stop Panic s').
Proof.
  unfold last_tick. intros Ht. split.
  - intros Hlt. unfold time_tick. wsteps. cbn.
    rewrite (wrap_small 32 (ticks s + 1)), (wrap_small 32 ((ticks s + 1) * 10)) by lia.
    destruct (Z.ltb_spec ((ticks s + 1) * 10) (ticks s + 1)); [lia|]. wsteps. unfold time_msec. wsteps.
    cbn. rewrite ?wrap_small by lia. rewrite ?wrap_small by lia. lia.
  - intros Heq. eexists. unfold time_tick, gets, modify, mbind, M_bind. cbn. rewrite Heq. unfold wrap.
    reflexivity.
Qed.

Lemma time_tick_overflow_witness :
  wp (time_tick;; time_msec) (demo <| ticks := 41 |>) (fun ms s' => ticks s' = 42 /\ ms = 420).
Proof.
  destruct (time_tick_overflow (demo <| ticks := 41 |>)) as [H _]; [cbn; unfold last_tick; lia|].
  apply H. reflexivity.
Defined.

(** ** Dispatch and permissions *)

(** A system call number outside the table returns -E_INVAL and changes
    nothing. *)
Theorem syscall_unknown n a1 a2 a3 a4 a5 s :
  17 <= n -> syscall n a1 a2 a3 a4 a5 s = Ret (- E_INVAL) s.
Proof.
  intros Hn. unfold syscall. assert (syscallno_of n = None) as ->; [|done].
  destruct n as [|n|n]; [lia| |lia]. unfold syscallno_of.
  do 5 (destruct n as [n|n|]; try lia; try reflexivity).
Qed.

Lemma syscall_unknown_witness : syscall 17 0 0 0 0 0 demo = Ret (- E_INVAL) demo.
Proof. apply (syscall_unknown 17). lia. Defined.

(** An id that names neither the caller nor one of its children. *)
Definition foreign (s : kstate) (envid : Z) : Prop :=
  envid <> 0 /\ forall v, ~ names_env s envid true (ENVX envid) v.

Lemma envs_ok_cons s c : envs_ok s -> envs_ok (s <| cons := c |>).
Proof. intros [H1 H2]. by split. Qed.
Lemma foreign_cons s c envid : foreign s envid -> foreign (s <| cons := c |>) envid.
Proof. done. Qed.

Lemma envid2env_denied s envid c :
  envs_ok s -> cpu_env s !! cpunum s = Some c -> foreign s envid ->
  exists c', envid2env envid true s = Ret (- E_BAD_ENV, None) (s <| cons := c' |>).
Proof.
  intros Hok Hc [Hne Hno].
  destruct (envid2env_spec s envid true c Hok Hne Hc) as [(v & _ & Hv)|(c' & E & _)]; [by apply Hno in Hv|eauto].
Qed.

(** Whatever the id, envid2env returns, and changes at most the console. *)
Lemma envid2env_returns s envid checkperm c :
  envs_ok s -> cpu_env s !! cpunum s = Some c ->
  exists r c', envid2env envid checkperm s = Ret r (s <| cons := c' |>).
Proof.
  intros Hok Hc. destruct (decide (envid = 0)) as [->|Hne].
  { exists (0, Some c), (cons s). rewrite envid2env_zero, Hc. by destruct s. }
  destruct (envid2env_spec s envid checkperm c Hok Hne Hc) as [(v & E & _)|(c' & E & _)]; [|eauto].
  exists (0, Some (ENVX envid)), (cons s). rewrite E. by destruct s.
Qed.

(** The ids of the environments that a system call acts on, with the permission of
    their parent. *)
Definition acts_on (n : Syscallno) (a1 a3 : Z) : list Z :=
  match n with
  | SYS_env_destroy | SYS_env_set_status | SYS_env_set_trapframe | SYS_env_set_pgfault_upcall
  | SYS_page_alloc | SYS_page_unmap => [i32 a1]
  | SYS_page_map => [i32 a1; i32 a3]
  | _ => []
  end.

Lemma page_map_denied s srcid srcva dstid dstva perm c :
  envs_ok s -> cpu_env s !! cpunum s = Some c -> foreign s srcid \/ foreign s dstid ->
  exists c', sys_page_map srcid srcva dstid dstva perm s = Ret (- E_BAD_ENV) (s <| cons := c' |>).
Proof.
  intros Hok Hc Hf. unfold sys_page_map.
  destruct Hf as [Hf|Hf].
  - destruct (envid2env_denied s srcid c Hok Hc Hf) as [c1 E1].
    destruct (envid2env_returns (s <| cons := c1 |>) dstid true c (envs_ok_cons s c1 Hok) Hc) as (r & c2 & E2).
    exists c2. erewrite bind_Ret by exact E1. by erewrite bind_Ret by exact E2.
  - destruct (envid2env_returns s srcid true c Hok Hc) as (r & c1 & E1).
    destruct (envid2env_denied (s <| cons := c1 |>) dstid c (envs_ok_cons s c1 Hok) Hc (foreign_cons s c1 _ Hf)) as [c2 E2].
    exists c2. erewrite bind_Ret by exact E1. erewrite bind_Ret by exact E2. cbn [fst]. by rewrite orb_true_r.
Qed.

(** C25: The calls that take the permission of a parent are denied on any other
    environment: env_destroy, env_set_status, env_set_trapframe,
    env_set_pgfault_upcall, page_alloc and page_unmap with an id that does not name the
    caller or one of its children, and page_map when either of its two ids does not,
    return -E_BAD_ENV, and nothing of the state of the kernel changes but the console,
    where envid2env prints a message.  (Sending a message, ipc_try_send, asks for no
    permission and is not one of them.) *)
Theorem syscalls_deny_foreign s n sn a1 a2 a3 a4 a5 envid c :
  envs_ok s -> cpu_env s !! cpunum s = Some c -> syscallno_of n = Some sn ->
  envid ∈ acts_on sn a1 a3 -> foreign s envid ->
  exists c', syscall n a1 a2 a3 a4 a5 s = Ret (- E_BAD_ENV) (s <| cons := c' |>).
Proof.
  intros Hok Hc Hn Hin Hf. unfold syscall. rewrite Hn.
  destruct (envid2env_denied s envid c Hok Hc Hf) as [c' Hd].
  destruct sn; cbn [acts_on] in Hin; try (by apply not_elem_of_nil in Hin);
    try (apply list_elem_of_singleton in Hin as <-; exists c';
      unfold sys_env_destroy, sys_env_set_status, sys_env_set_trapframe, sys_env_set_pgfault_upcall,
        sys_page_alloc, sys_page_unmap; by erewrite bind_Ret by exact Hd).
  apply (page_map_denied s _ _ _ _ _ c); [done..|].
  apply elem_of_cons in Hin as [->|Hin%list_elem_of_singleton]; [by left|right; by subst].
Qed.

Lemma demo_foreign : foreign demo 0x1005.
Proof.
  split; [done|]. intros v (_ & Hv & Hf & _). apply Hf. change (envs demo) with demo_envs in Hv. unfold demo_envs in Hv.
  rewrite lookup_insert_ne, lookup_tabulate in Hv by discriminate.
  rewrite decide_True in Hv by (vm_compute; split; [discriminate|reflexivity]).
  by injection Hv as <-.
Qed.

(** sys_page_map from an environment that does not exist to the caller. *)
Lemma syscalls_deny_foreign_witness :
  exists c', syscall 5 0x1005 0x800000 0x1000 0x801000 7 demo = Ret (- E_BAD_ENV) (demo <| cons := c' |>).
Proof.
  apply (syscalls_deny_foreign demo 5 SYS_page_map 0x1005 0x800000 0x1000 0x801000 7 0x1005 0).
  - exact demo_envs_ok.
  - reflexivity.
  - reflexivity.
  - left.
  - exact demo_foreign.
Defined.

(** ** sys_page_alloc *)

(** Clearing a free page moves no table and changes no entry. *)
Section clear_free.
Context (m : bytes) (np r p : Z) (l : list Z).
Hypothesis Hpt : pt_wf m np l r.
Hypothesis Hp : p ∈ l.
Let m' := memset m (p * 4096) 0 PGSIZE.

Lemma tbl_clear_free q : tpath q -> tbl m' r q = tbl m r q.
Proof.
  intros Hq. apply tbl_ext. intros q1 j q2 g -> Hg.
  apply pte_at_clear_ne.
  - destruct Hq as (_ & Hq & _). by decompose_Forall_hyps.
  - intros ->. destruct (pt_range _ _ _ _ Hpt q1 p (tpath_prefix _ _ Hq) Hg). done.
Qed.

Lemma clear_free_kept : tables_kept m m' r.
Proof.
  intros q f a Hq Hf Ha. unfold m'. rewrite ld8_memset by (unfold PGSIZE; lia). rewrite decide_False; [done|].
  intros Hr. destruct (pt_range _ _ _ _ Hpt q f Hq Hf) as [_ Hn]. apply Hn. replace f with p; [done|].
  unfold PGSIZE in Hr. Z.div_mod_to_equations. lia.
Qed.

Lemma pt_wf_clear_free : pt_wf m' np l r.
Proof. apply (pt_wf_kept m m' np l); [done|apply clear_free_kept|by left]. Qed.

Lemma pte_of_clear_free va : va_ok va -> pte_of m' r va = pte_of m r va.
Proof.
  intros Hva. unfold pte_of. rewrite tbl_clear_free by by apply va_path_tpath.
  destruct (tbl m r (va_path va)) as [g|] eqn:Hg; [|done].
  apply pte_at_clear_ne; [apply index_ranges|]. intros ->.
  destruct (pt_range _ _ _ _ Hpt _ p (va_path_tpath va Hva) Hg). done.
Qed.

Lemma data_page_clear_free q : data_page m r q -> data_page m' r q.
Proof. intros Hd t Ht. rewrite tbl_clear_free by done. by apply Hd. Qed.

Lemma free_data_page : data_page m r p.
Proof. intros q Hq Hf. destruct (pt_range _ _ _ _ Hpt q p Hq Hf). done. Qed.
End clear_free.

Lemma pt_wf_tail m np p l r : pt_wf m np (p :: l) r -> pt_wf m np l r.
Proof.
  intros Hpt. apply (pt_wf_kept m m np (p :: l)); [done|done|]. intros q Hq. left. by right.
Qed.

(** The permissions sys_page_alloc accepts fit in an entry and include PTE_P. *)
Lemma good_perm perm : bad_perm perm = false -> 0 <= perm < 4096 /\ Z.lor perm PTE_P = perm.
Proof.
  unfold bad_perm. intros [H1%negb_false_iff H2%negb_false_iff]%orb_false_iff.
  apply Z.eqb_eq in H1, H2. change (Z.lor PTE_U PTE_P) with 5 in H1.
  assert (Z.land perm PTE_SYSCALL = perm) as Hl.
  { rewrite <- (Z.lor_ldiff_and perm PTE_SYSCALL) at 2. by rewrite H2, Z.lor_0_l. }
  split.
  - assert (Z.land perm (2 ^ 12 - 1) = perm) as H12 by (rewrite <- Hl, <- Z.land_assoc; done).
    rewrite land_low in H12 by lia. rewrite <- H12. by apply Z.mod_pos_bound.
  - apply Z.bits_inj'. intros n Hn. rewrite Z.lor_spec. unfold PTE_P.
    destruct (decide (n = 0)) as [->|].
    + assert (Z.testbit (Z.land perm 5) 0 = true) as Hb by by rewrite H1.
      rewrite Z.land_spec in Hb. apply andb_true_iff in Hb as [-> _]. done.
    + rewrite (Z.bits_above_log2 1) by (cbn; lia). apply orb_false_r.
Qed.

Lemma good_va va : bad_va va = false -> 0 <= va ->
  va_ok va /\ va < UTOP /\ va mod 4096 = 0 /\ ROUNDDOWN va PGSIZE = va.
Proof.
  unfold bad_va. intros [H1 H2%negb_false_iff]%orb_false_iff Hva.
  rewrite Z.geb_leb in H1. apply Z.leb_gt in H1. apply Z.eqb_eq in H2.
  assert (va < 2 ^ 32) by jlia. apply ROUNDUP_PGSIZE_id in H2; [|lia].
  split_and!; try done.
  - split; [lia|]. rewrite !PML4_eq. unfold UVPT. Z.div_mod_to_equations. lia.
  - unfold ROUNDDOWN, PGSIZE. lia.
Qed.

(** What a successful call does to the target's address space. *)
Record page_alloc_rel (r va perm p : Z) (s : kstate) (l : list Z) (s' : kstate) : Prop := {
  pa_wf : exists l', pmap_wf s' l' /\ pt_wf (mem s') (npages s') l' r;
  pa_frame : vm_frame s s';
  pa_pte : forall va', va_ok va' -> pte_of (mem s') r va' =
    if decide (VPN va' = VPN va) then p * 4096 + perm else pte_of (mem s) r va';
  pa_zero : forall a, a / 4096 = p -> ld8 (mem s') a = 0;
  pa_ref : ref s' p = 1;
  pa_bytes : forall a, a / 4096 ∉ l -> data_page (mem s) r (a / 4096) -> ld8 (mem s') a = ld8 (mem s) a
}.

(** sys_page_alloc with acceptable arguments either maps a fresh page, all of
    whose bytes are zero and which has exactly one reference, at [va] with the
    permissions asked for, leaving every other mapping and the contents of every
    page in use alone, or, only when fewer than four pages are free, returns -E_NO_MEM
    with the allocator as it was. *)
Theorem sys_page_alloc_correct s l r envid e v va perm :
  envid2env envid true s = Ret (0, Some e) s -> envs s !! e = Some v ->
  env_pml4e v = r * 4096 + KERNBASE ->
  pmap_wf s l -> pt_wf (mem s) (npages s) l r -> curenv_ok s -> mapped_ok r s l va ->
  0 ∉ l -> 0 <= va -> bad_va va = false -> bad_perm perm = false ->
  wp (sys_page_alloc envid va perm) s (fun res s' =>
    (res = 0 /\ exists p, p ∈ l /\ page_alloc_rel r va perm p s l s') \/
    (res = - E_NO_MEM /\ fail_rel s l s' /\ (length l < 4)%nat)).
Proof.
  intros Henv Hv Hroot Hwf Hpt Hce Hold H0 Hva0 Hva Hperm. unfold sys_page_alloc.
  destruct (good_va va Hva Hva0) as (Hvok & _ & _ & Hrd). destruct (good_perm perm Hperm) as [Hpr HpP].
  pose proof (wf_npages _ _ Hwf) as Hnp.
  apply wp_bind, wp_elim. do 2 eexists. split; [exact Henv|]. cbn [fst snd].
  rewrite Hva, Hperm. cbn [negb Z.eqb]. apply wp_bind. destruct l as [|p l].
  { apply wp_elim. do 2 eexists. split; [by apply page_alloc_empty|]. apply wp_ret. right.
    split_and!; [done|by apply fail_rel_refl|simpl; lia]. }
  assert (0 <= p < npages s) as Hpn by (eapply wf_free_range; [done|left]).
  assert (p <> 0) by set_solver.
  pose proof (wf_nodup _ _ Hwf) as [Hnin _]%NoDup_cons.
  wuse (page_alloc_cons s ALLOC_ZERO p l Hwf). intros res s1 (-> & Hwf1 & Hfr1 & Htlb1 & Hpg1 & Hm1).
  change (zeroing ALLOC_ZERO) with true in Hm1. cbn beta iota in Hm1.
  destruct (vm_frame_fields _ _ Hfr1) as (Hn1 & He1 & _).
  assert (pt_wf (mem s1) (npages s1) (p :: l) r) as Hpt1'
    by (rewrite Hm1, Hn1; eapply pt_wf_clear_free; [done|left]).
  pose proof (pt_wf_tail _ _ _ _ _ Hpt1') as Hpt1.
  assert (forall va', va_ok va' -> pte_of (mem s1) r va' = pte_of (mem s) r va') as Hpte1
    by (intros; rewrite Hm1; eapply pte_of_clear_free; [done|left|done]).
  assert (data_page (mem s1) r p) as Hd1 by (eapply free_data_page; [exact Hpt1'|left]).
  unfold deref. wsteps. apply wp_elim. do 2 eexists. split; [apply get_env_ok; by rewrite He1|].
  rewrite Hroot, Hrd. apply wp_bind.
  wuse (page_insert_spec r s1 l va p perm Hvok Hwf1 Hpt1); [by eapply curenv_ok_frame|lia|done|done| |].
  { unfold mapped_ok in *. rewrite Hpte1 by done. intros Hne. destruct (Hold Hne) as (? & ? & ?).
    rewrite Hn1. split_and!; [done|set_solver|]. rewrite Hm1. eapply data_page_clear_free; [done|left|done]. }
  assert (forall a, a / 4096 <> p -> ld8 (mem s1) a = ld8 (mem s) a) as Hb1.
  { intros a Ha. rewrite Hm1, ld8_memset by (unfold PGSIZE; lia).
    rewrite decide_False; [done|]. unfold PGSIZE. Z.div_mod_to_equations. lia. }
  assert (ref s1 p = 0) as Hr1 by (unfold ref; by rewrite Hpg1, lookup_insert_eq).
  intros res s2 [(-> & l' & Hins)|(-> & Hfail & _ & Hshort)].
  - wsteps. left. split; [done|]. exists p. split; [left|]. pose proof Hins as [Hwf2 Hpt2 Hfr2 Hpte2 _ _ Href2 _ _ _].
    assert (forall a, a / 4096 ∉ l -> data_page (mem s1) r (a / 4096) -> ld8 (mem s2) a = ld8 (mem s1) a) as Hb2
      by (intros; by eapply ir_data_bytes).
    split; try (by etrans).
    + by exists l'.
    + intros va' Hva'. rewrite Hpte2 by done. case_decide; [|by apply Hpte1].
      rewrite wrap_small, HpP by (rewrite HpP; lia).
      apply (lor_low_add _ _ 12); [lia|Z.div_mod_to_equations; lia|done].
    + intros a Ha. rewrite Hb2 by (rewrite Ha; done). rewrite Hm1, ld8_memset by (unfold PGSIZE; lia).
      rewrite decide_True; [done|]. unfold PGSIZE. Z.div_mod_to_equations. lia.
    + rewrite (Href2 p Hnin), Hr1. rewrite decide_False, decide_True; [done|done|].
      intros E. rewrite Hpte1 in E by done. destruct (decide (pte_of (mem s) r va = 0)) as [Ez|Ez].
      * rewrite Ez in E. rewrite Zdiv_0_l in E. congruence.
      * destruct (Hold Ez) as (_ & Hno & _). apply Hno. rewrite E. left.
    + intros a Ha Hd. rewrite Hb2; [apply Hb1; set_solver|set_solver|].
      rewrite Hm1. eapply data_page_clear_free; [done|left|done].
  - destruct Hfail as [Hwf2 Hfr2 Htlb2 Hb2 Hpg2]. wsteps. cbn [negb].
    change (negb (- E_NO_MEM =? 0)) with true. cbn beta iota.
    assert (pages s2 !! p = Some (mkPage None 0)) as Hp2
      by (rewrite Hpg2 by done; rewrite Hpg1; apply lookup_insert_eq).
    wuse (page_free_spec s2 l p _ Hwf2 Hp2). intros _ s3. cbn [pp_ref].
    rewrite decide_False by tauto. intros [Hwf3 Hs3]. wsteps. right. split_and!; [done| |simpl; lia].
    split; [done| | | |].
    + etrans; [exact Hfr1|]. etrans; [exact Hfr2|]. by rewrite Hs3.
    + rewrite Hs3. cbn. congruence.
    + intros a Ha. rewrite Hs3. cbn. rewrite Hb2 by set_solver. apply Hb1. set_solver.
    + intros i Hi. rewrite Hs3. cbn. rewrite lookup_insert_ne by set_solver.
      rewrite Hpg2, Hpg1, lookup_insert_ne by set_solver. done.
Qed.

Lemma sys_page_alloc_correct_witness :
  wp (sys_page_alloc 0 0x800000 7) demo (fun res s' =>
    (res = 0 /\ exists p, p ∈ demo_free /\ page_alloc_rel 1 0x800000 7 p demo demo_free s') \/
    (res = - E_NO_MEM /\ fail_rel demo demo_free s' /\ (length demo_free < 4)%nat)).
Proof.
  apply (sys_page_alloc_correct demo demo_free 1 0 0 demo_env 0x800000 7).
  - reflexivity.
  - apply lookup_insert_eq.
  - reflexivity.
  - exact demo_wf.
  - exact demo_pt.
  - exact demo_curenv.
  - exact (demo_mapped _).
  - apply demo_not_free. reflexivity.
  - lia.
  - vm_compute. reflexivity.
  - vm_compute. reflexivity.
Defined.

(** ** IPC *)

(** Environment [e], named by [envid], is blocked in sys_ipc_recv. *)
Record receiving (s : kstate) (envid e : Z) (ev : Env) : Prop := {
  rc_index : ENVX envid = e;
  rc_env : envs s !! e = Some ev;
  rc_id : env_id ev = envid;
  rc_nz : envid <> 0;
  rc_status : env_status ev = ENV_NOT_RUNNABLE;
  rc_recv : env_ipc_recving ev = true
}.

Lemma envid2env_named s envid e ev :
  ENVX envid = e -> envs s !! e = Some ev -> env_id ev = envid -> envid <> 0 ->
  env_status ev <> ENV_FREE -> envid2env envid false s = Ret (0, Some e) s.
Proof.
  intros Hx Hv Hid Hnz Hst. unfold envid2env. destruct (Z.eqb_spec envid 0); [done|].
  rewrite Hx. erewrite bind_Ret by by apply get_env_ok.
  rewrite bool_decide_false by done. destruct (Z.eqb_spec (env_id ev) envid); [|done]. done.
Qed.

Lemma sys_ipc_recv_spec s c cv dstva :
  cpu_env s !! cpunum s = Some c -> envs s !! c = Some cv ->
  sys_ipc_recv dstva s =
  if (dstva <? UTOP) && negb (dstva mod PGSIZE =? 0) then Ret (- E_INVAL) s
  else Ret 0 (with_env c (cv <| env_ipc_recving := true |> <| env_ipc_dstva := dstva |>
    <| env_ipc_value := 0 |> <| env_ipc_perm := 0 |> <| env_ipc_from := 0 |>
    <| env_status := ENV_NOT_RUNNABLE |>) s).
Proof.
  intros Hc Hcv. unfold sys_ipc_recv. erewrite bind_Ret by apply envid2env_zero. rewrite Hc.
  cbn [fst snd Z.ltb]. change (0 <? 0) with false. cbn beta iota.
  destruct (_ && _); [done|]. erewrite bind_Ret by reflexivity.
  by erewrite bind_Ret by by apply update_env_ok.
Qed.

(** The state once the message fields of the receiver are written. *)
Lemma ipc_send_begin s envid e ev c cv value srcva perm :
  receiving s envid e ev -> cpu_env s !! cpunum s = Some c -> envs s !! c = Some cv -> c <> e ->
  let ev1 := ev <| env_ipc_recving := false |> <| env_ipc_from := env_id cv |>
                <| env_ipc_value := value |> in
  let s1 := with_env e ev1 s in
  sys_ipc_try_send envid value srcva perm s =
  (sent ←
     (if srcva <? UTOP then
        src_page ← page_lookup (env_pml4e cv) srcva;
        match src_page with
        | None => mret (Some (- E_INVAL))
        | Some (src_page, _) =>
            dv ← get_env e;
            result_dst ← page_insert (env_pml4e dv) src_page (env_ipc_dstva dv) (i32 perm);
            if negb (result_dst =? 0) then mret (Some (- E_NO_MEM))
            else update_env e (fun v => v <| env_ipc_perm := i32 perm |>);; mret None
        end
      else update_env e (fun v => v <| env_ipc_perm := 0 |>);; mret None);
   match sent : option Z with
   | Some err => mret err
   | None => update_env e (fun v => v <| env_status := ENV_RUNNABLE |>);; mret 0
   end) s1.
Proof.
  intros [Hx Hv Hid Hnz Hst Hrc] Hc Hcv Hce ev1 s1. unfold sys_ipc_try_send.
  erewrite bind_Ret by (eapply envid2env_named; [done..|congruence]). cbn [fst snd].
  change (0 <? 0) with false. cbn beta iota.
  erewrite bind_Ret by apply envid2env_zero. rewrite Hc. cbn [fst snd].
  change (0 <? 0) with false. cbn beta iota.
  erewrite bind_Ret by reflexivity. erewrite bind_Ret by by apply get_env_ok.
  rewrite Hrc. cbn [negb]. erewrite bind_Ret by by apply the_curenv_ok.
  erewrite bind_Ret by by apply update_env_ok.
  erewrite bind_Ret by (apply get_env_ok; cbn; by rewrite lookup_insert_ne).
  erewrite bind_Ret by (apply update_env_ok; cbn; apply lookup_insert_eq).
  assert (s1 = s <| envs := <[e := ev <| env_ipc_recving := false |>]> (envs s) |>
     <| envs := <[e := ev1]> (<[e := ev <| env_ipc_recving := false |>]> (envs s)) |>) as ->.
  { unfold s1, with_env. cbn. by rewrite insert_insert_eq. }
  destruct (srcva <? UTOP); [|done].
  apply bind_cong. erewrite bind_Ret by reflexivity. erewrite bind_Ret; [done|].
  apply get_env_ok. cbn. by rewrite !lookup_insert_ne.
Qed.

Lemma ipc_send_value s envid e ev c cv value srcva perm :
  receiving s envid e ev -> cpu_env s !! cpunum s = Some c -> envs s !! c = Some cv -> c <> e ->
  UTOP <= srcva ->
  sys_ipc_try_send envid value srcva perm s =
  Ret 0 (with_env e (ev <| env_ipc_recving := false |> <| env_ipc_from := env_id cv |>
    <| env_ipc_value := value |> <| env_ipc_perm := 0 |> <| env_status := ENV_RUNNABLE |>) s).
Proof.
  intros Hr Hc Hcv Hce Hsrc. rewrite (ipc_send_begin _ _ _ _ _ _ _ _ _ Hr Hc Hcv Hce).
  destruct (Z.ltb_spec srcva UTOP); [lia|].
  erewrite bind_Ret; [|by erewrite bind_Ret by (apply update_env_ok; cbn; apply lookup_insert_eq)].
  cbn beta iota. erewrite bind_Ret by (apply update_env_ok; cbn; apply lookup_insert_eq).
  unfold with_env, mret, M_ret. cbn. by rewrite !insert_insert_eq.
Qed.

(** C27: Messages arrive: when [e] blocks in sys_ipc_recv and [c] then sends a value
    without a page, the send returns 0, and [e] is runnable again with the value,
    the sender's id, no page, and no longer receiving, while every other
    environment is as before; a second sender gets -E_IPC_NOT_RECV and changes
    nothing. *)
Theorem ipc_rendezvous s e ev c cv dstva value value' perm perm' :
  cpu_env s !! cpunum s = Some e -> envs s !! e = Some ev -> envs s !! c = Some cv -> c <> e ->
  ENVX (env_id ev) = e -> env_id ev <> 0 -> dstva >= UTOP \/ dstva mod PGSIZE = 0 ->
  wp (r ← sys_ipc_recv dstva;
      set_curenv (Some c);;
      r' ← sys_ipc_try_send (env_id ev) value UTOP perm;
      mret (r, r')) s (fun rs s' =>
    rs = (0, 0) /\
    envs s' = <[e := ev <| env_ipc_recving := false |> <| env_ipc_dstva := dstva |>
      <| env_ipc_value := value |> <| env_ipc_perm := 0 |> <| env_ipc_from := env_id cv |>
      <| env_status := ENV_RUNNABLE |>]> (envs s) /\
    sys_ipc_try_send (env_id ev) value' UTOP perm' s' = Ret (- E_IPC_NOT_RECV) s').
Proof.
  intros He Hev Hcv Hce Hx Hnz Hdst. apply wp_bind, wp_elim. do 2 eexists. split.
  { rewrite (sys_ipc_recv_spec s e ev dstva He Hev).
    destruct (Z.ltb_spec dstva UTOP), (Z.eqb_spec (dstva mod PGSIZE) 0); cbn [andb negb]; done || lia. }
  apply wp_bind. unfold set_curenv. apply wp_modify. set (s2 := assign cpu_env _ _).
  set (ev2 := ev <| env_ipc_recving := true |> <| env_ipc_dstva := dstva |>
    <| env_ipc_value := 0 |> <| env_ipc_perm := 0 |> <| env_ipc_from := 0 |>
    <| env_status := ENV_NOT_RUNNABLE |>).
  assert (receiving s2 (env_id ev) e ev2) as Hr.
  { split; try done. cbn. apply lookup_insert_eq. }
  assert (cpu_env s2 !! cpunum s2 = Some c) as Hc2 by (cbn; apply lookup_partial_alter_eq).
  assert (envs s2 !! c = Some cv) as Hcv2 by (cbn; by rewrite lookup_insert_ne).
  apply wp_bind, wp_elim. do 2 eexists. split; [by eapply ipc_send_value|]. wsteps.
  split_and!; [done|cbn; by rewrite insert_insert_eq|].
  unfold sys_ipc_try_send.
  erewrite bind_Ret by (eapply envid2env_named; [done|cbn; apply lookup_insert_eq|done|done|done]).
  cbn [fst snd]. change (0 <? 0) with false. cbn beta iota.
  erewrite bind_Ret by apply envid2env_zero. cbn [fst snd].
  change (0 <? 0) with false. cbn beta iota.
  erewrite bind_Ret by reflexivity.
  by erewrite bind_Ret by (apply get_env_ok; cbn; apply lookup_insert_eq).
Qed.

(** Environment 5, running in slot 5, with environment 0 as the sender. *)
Definition demo_receiver : Env := zero_env <| env_id := 0x1005 |> <| env_status := ENV_RUNNING |>.
Definition demo_ipc : kstate := (with_env 5 demo_receiver demo) <| cpu_env := {[ 0 := 5 ]} |>.

Lemma demo_ipc_sender : envs demo_ipc !! 0 = Some demo_env.
Proof. cbn. rewrite lookup_insert_ne by discriminate. apply lookup_insert_eq. Qed.

Lemma ipc_rendezvous_witness :
  wp (r ← sys_ipc_recv UTOP;
      set_curenv (Some 0);;
      r' ← sys_ipc_try_send (env_id demo_receiver) 42 UTOP 0;
      mret (r, r')) demo_ipc (fun rs s' => rs = (0, 0)).
Proof.
  eapply wp_mono.
  - apply (ipc_rendezvous demo_ipc 5 demo_receiver 0 demo_env UTOP 42 0 0 0).
    + reflexivity.
    + apply lookup_insert_eq.
    + exact demo_ipc_sender.
    + discriminate.
    + reflexivity.
    + discriminate.
    + left. apply Z.le_ge. reflexivity.
  - intros rs s' [H _]. exact H.
Defined.

(** A send that fails strands the receiver: if the sender names a page at an
    address without a page table, sys_ipc_try_send returns -E_INVAL, but the
    receiver is no longer receiving although it is still not runnable, with the
    value and sender already overwritten. *)
Theorem ipc_failed_send_strands s l r envid e ev c cv value srcva perm :
  receiving s envid e ev -> cpu_env s !! cpunum s = Some c -> envs s !! c = Some cv -> c <> e ->
  env_pml4e cv = r * 4096 + KERNBASE -> pmap_wf s l -> pt_wf (mem s) (npages s) l r ->
  0 <= srcva < UTOP -> tbl (mem s) r (va_path srcva) = None ->
  sys_ipc_try_send envid value srcva perm s =
  Ret (- E_INVAL) (with_env e (ev <| env_ipc_recving := false |> <| env_ipc_from := env_id cv |>
    <| env_ipc_value := value |>) s).
Proof.
  intros Hr Hc Hcv Hce Hroot Hwf Hpt Hsrc Ht.
  rewrite (ipc_send_begin _ _ _ _ _ _ _ _ _ Hr Hc Hcv Hce).
  destruct (Z.ltb_spec srcva UTOP); [|lia]. rewrite Hroot.
  assert (va_ok srcva) as Hva.
  { assert (srcva < 2 ^ 32) by jlia. split; [lia|]. rewrite !PML4_eq. unfold UVPT.
    Z.div_mod_to_equations. lia. }
  set (s1 := with_env e _ s). rewrite (bind_Ret _ _ s1 (Some (- E_INVAL)) s1); [done|].
  rewrite (bind_Ret _ _ s1 None s1); [done|].
  eapply page_lookup_none; [done|by eapply wf_proper, Hwf|exact Hpt|exact Ht].
Qed.

Definition demo_stuck : Env :=
  zero_env <| env_id := 0x1005 |> <| env_status := ENV_NOT_RUNNABLE |> <| env_ipc_recving := true |>.

Lemma ipc_failed_send_strands_witness :
  exists s', sys_ipc_try_send 0x1005 42 0x800000 7 (with_env 5 demo_stuck demo) = Ret (- E_INVAL) s' /\
    env_status <$> envs s' !! 5 = Some ENV_NOT_RUNNABLE /\
    env_ipc_recving <$> envs s' !! 5 = Some false.
Proof.
  eexists. split.
  - apply (ipc_failed_send_strands (with_env 5 demo_stuck demo) demo_free 1 0x1005 5 demo_stuck 0 demo_env).
    + split; [reflexivity|apply with_env_eq|reflexivity|discriminate|reflexivity|reflexivity].
    + destruct (with_env_cur 5 demo_stuck demo) as [-> ->]. reflexivity.
    + rewrite with_env_ne by discriminate. apply lookup_insert_eq.
    + discriminate.
    + reflexivity.
    + apply with_env_wf, demo_wf.
    + apply with_env_pt, demo_pt.
    + split; [discriminate|reflexivity].
    + rewrite with_env_mem. unfold va_path. cbn [tbl]. rewrite pte_at_no_memory. reflexivity.
  - rewrite with_env_eq. split; reflexivity.
Defined.

(** ** Privilege *)

(** sys_env_set_trapframe installs whatever frame it is given: the environment
    then runs with the code segment and flags of the frame, which may be the
    kernel's code segment with interrupts disabled. *)
Theorem set_trapframe_unchecked s envid e v tf t :
  envid2env envid true s = Ret (0, Some e) s -> envs s !! e = Some v ->
  load_trapframe tf s = Ret t s ->
  sys_env_set_trapframe envid tf s = Ret 0 (with_env e (v <| env_tf := t |>) s).
Proof.
  intros He Hv Ht. unfold sys_env_set_trapframe. erewrite bind_Ret by exact He. cbn [fst snd].
  change (negb (0 =? 0)) with false. cbn beta iota. erewrite bind_Ret by reflexivity.
  erewrite bind_Ret by exact Ht. by erewrite bind_Ret by by apply update_env_ok.
Qed.

(** A frame in memory with the kernel's code segment: all zero but for tf_cs. *)
Definition demo_kernel_cs : kstate := demo <| mem := st8 ∅ 0x30A0 GD_KT |>.

Lemma set_trapframe_unchecked_witness :
  sys_env_set_trapframe 0 0xF0003000 demo_kernel_cs =
  Ret 0 (with_env 0 (demo_env <| env_tf := zero_tf <| tf_cs := GD_KT |> |>) demo_kernel_cs).
Proof.
  apply (set_trapframe_unchecked demo_kernel_cs 0 0 demo_env 0xF0003000 (zero_tf <| tf_cs := GD_KT |>)).
  - reflexivity.
  - apply lookup_insert_eq.
  - reflexivity.
Defined.
