(* ===== verification/TrapThms.v ===== *)
(** * What the trap handling of kern/trap.c promises *)
From S2P Require Import Prelude Mmu CMem Console KState Pmap FreeList PageTable Walk PmapSpec DemoState Env E1000 Syscall Trap EnvThms SyscallThms.

(** ** Descriptors *)

(** The address an interrupt gate makes the processor jump to. *)
Definition gate_target (g : Gatedesc) : Z :=
  gd_off_15_0 g + gd_off_31_16 g * 2 ^ 16 + gd_off_32_63 g * 2 ^ 32.

Lemma field_land z k w : 0 <= k -> 0 <= w -> Z.land (Z.shiftr z k) (2 ^ w - 1) = z / 2 ^ k mod 2 ^ w.
Proof. intros. by rewrite land_low, Z.shiftr_div_pow2. Qed.

Lemma gate_target_SETGATE istrap sel off dpl :
  0 <= off < 2 ^ 64 -> gate_target (SETGATE istrap sel off dpl) = off.
Proof.
  intros Ho. unfold gate_target, SETGATE. cbn [gd_off_15_0 gd_off_31_16 gd_off_32_63].
  change 0xffffffff with (2 ^ 32 - 1). change 0xffff with (2 ^ 16 - 1).
  rewrite !field_land, land_low by lia. Z.div_mod_to_equations. lia.
Qed.

(** The address of the task state in a TSS descriptor. *)
Definition tss_base (d : SystemSegdesc64) : Z :=
  ssd_base_15_0 d + ssd_base_23_16 d * 2 ^ 16 + ssd_base_31_24 d * 2 ^ 24 + ssd_base_63_32 d * 2 ^ 32.
Definition tss_limit (d : SystemSegdesc64) : Z := ssd_lim_15_0 d + ssd_lim_19_16 d * 2 ^ 16.

Lemma SETTSS_fields type base lim dpl :
  0 <= base < 2 ^ 64 -> 0 <= lim < 2 ^ 20 ->
  tss_base (SETTSS type base lim dpl) = base /\ tss_limit (SETTSS type base lim dpl) = lim.
Proof.
  intros Hb Hl. unfold tss_base, tss_limit, SETTSS.
  cbn [ssd_base_15_0 ssd_base_23_16 ssd_base_31_24 ssd_base_63_32 ssd_lim_15_0 ssd_lim_19_16].
  change 0xffffffff with (2 ^ 32 - 1). change 0xffff with (2 ^ 16 - 1). change 0xff with (2 ^ 8 - 1).
  change 0xf with (2 ^ 4 - 1). rewrite !field_land, !land_low by lia.
  split; Z.div_mod_to_equations; lia.
Qed.

(** ** The interrupt descriptor table *)
Lemma trap_init_lookup entry n t d :
  (n, (t, d)) ∈ gates -> trap_init entry !! n = Some (SETGATE t GD_KT (entry n) d).
Proof.
  intros Hg. unfold trap_init. apply elem_of_list_to_map_1.
  - rewrite <- list_fmap_compose. apply (bool_decide_unpack _). vm_compute. exact I.
  - apply list_elem_of_fmap. by exists (n, (t, d)).
Qed.

(** The vectors a user program may raise with the int instruction. *)
Definition user_vectors : list Z := fst <$> filter (fun g => g.2.2 = 3) gates.

(** Every vector the kernel handles (the exceptions, the sixteen interrupt
    lines and the system call) has a present gate in the kernel's code segment
    that leads to exactly its entry point; the interrupt lines cannot be raised
    by user programs, and the system call can. *)
Theorem trap_init_gates entry n t d :
  (n, (t, d)) ∈ gates -> 0 <= entry n < 2 ^ 64 ->
  exists g, trap_init entry !! n = Some g /\ gate_target g = entry n /\ gd_p g = 1 /\
    gd_ss g = GD_KT /\ gd_dpl g = d /\ (gd_type g = STS_TG64 <-> t <> 0) /\
    (IRQ_OFFSET <= n < IRQ_OFFSET + 16 -> gd_dpl g = 0) /\ (n = T_SYSCALL -> gd_dpl g = 3).
Proof.
  intros Hg He. exists (SETGATE t GD_KT (entry n) d).
  split; [by apply trap_init_lookup|]. rewrite gate_target_SETGATE by done.
  assert (IRQ_OFFSET <= n < IRQ_OFFSET + 16 -> d = 0) as Hirq.
  { intros Hn. assert (forallb (fun g => negb ((32 <=? g.1) && (g.1 <? 48)) || (g.2.2 =? 0)) gates = true)
      as Hall by (vm_compute; reflexivity).
    rewrite forallb_forall in Hall. specialize (Hall (n, (t, d))).
    rewrite <- list_elem_of_In in Hall. specialize (Hall Hg). cbn in Hall.
    unfold IRQ_OFFSET in Hn. destruct (Z.leb_spec 32 n), (Z.ltb_spec n 48); try lia; by apply Z.eqb_eq. }
  assert (n = T_SYSCALL -> d = 3) as Hsys.
  { intros Hn. assert (forallb (fun g => negb (g.1 =? 48) || (g.2.2 =? 3)) gates = true)
      as Hall by (vm_compute; reflexivity).
    rewrite forallb_forall in Hall. specialize (Hall (n, (t, d))).
    rewrite <- list_elem_of_In in Hall. specialize (Hall Hg). cbn in Hall. unfold T_SYSCALL in Hn.
    subst n. cbn in Hall. by apply Z.eqb_eq. }
  cbn. destruct (Z.eqb_spec t 0); cbn; split_and!; try done.
Qed.

Lemma trap_init_gates_witness :
  exists g, trap_init (fun n => 0xF0104000 + 16 * n) !! 48 = Some g /\ gate_target g = 0xF0104300.
Proof.
  destruct (trap_init_gates (fun n => 0xF0104000 + 16 * n) 48 0 3) as (g & Hg & Ht & _).
  - apply (bool_decide_unpack _). vm_compute. exact I.
  - lia.
  - exists g. split; [exact Hg|exact Ht].
Defined.

(** The gate of the page fault exception, like those of most exceptions, can be
    raised from user mode with an int instruction (its privilege level is 3), which
    pushes no error code, although the entry point expects one. *)
Theorem page_fault_gate_open entry :
  exists g, trap_init entry !! T_PGFLT = Some g /\ gd_dpl g = 3 /\
    user_vectors = [3; 4; 5; 6; 7; 8; 10; 11; 12; 13; 14; 16; 17; 18; 19; 48].
Proof.
  eexists. split; [|split; [|vm_compute; reflexivity]].
  - apply (trap_init_lookup entry T_PGFLT 0 3). apply (bool_decide_unpack _). vm_compute. exact I.
  - reflexivity.
Qed.

(** ** Kernel stacks *)

(** The kernel stacks of different CPUs do not overlap: the stacks
    trap_init_percpu sets lie below KSTACKTOP, a gap apart, and their TSS
    descriptors hold the address they were given. *)
Theorem kernel_stacks_disjoint i j ts :
  0 <= i < NCPU -> 0 <= j < NCPU -> i < j -> 0 <= ts < 2 ^ 64 ->
  ts_esp0 (trap_init_percpu j ts) + KSTKGAP <= ts_esp0 (trap_init_percpu i ts) - KSTKSIZE /\
  ts_esp0 (trap_init_percpu i ts) <= KSTACKTOP /\
  MMIOLIM < ts_esp0 (trap_init_percpu j ts) - KSTKSIZE /\
  tss_base (tss_desc (trap_init_percpu i ts)) = ts /\
  tr (trap_init_percpu i ts) <> tr (trap_init_percpu j ts).
Proof.
  intros Hi Hj Hij Hts. cbn. destruct (SETTSS_fields STS_T64A ts 104 0 Hts ltac:(lia)) as [-> _].
  split_and!; try done; autounfold with jos_consts in *; lia.
Qed.

Lemma kernel_stacks_disjoint_witness :
  ts_esp0 (trap_init_percpu 1 0xF0200000) + KSTKGAP <= ts_esp0 (trap_init_percpu 0 0xF0200000) - KSTKSIZE.
Proof.
  apply (kernel_stacks_disjoint 0 1 0xF0200000); unfold NCPU; lia.
Defined.

(** ** The handler *)

Lemma noreturn_sched_yield : noreturn sched_yield.
Proof.
  unfold sched_yield. do 4 (apply noreturn_cont; intros).
  case_match; [apply noreturn_cont; intros; apply noreturn_stop|]. do 2 (apply noreturn_cont; intros).
  case_match; [apply noreturn_env_run|apply noreturn_stop].
Qed.

(** trap never returns to the interrupted code: it ends by entering an
    environment, in the monitor, or by stopping the machine. *)
Theorem trap_noreturn monitor eflags_if tf fault_va s :
  exists k s', trap monitor eflags_if tf fault_va s = Stop k s'.
Proof.
  revert s. change (noreturn (trap monitor eflags_if tf fault_va)). unfold trap.
  apply noreturn_cont. intros p. case_match; [apply noreturn_stop|].
  case_match; [apply noreturn_stop|]. do 3 (apply noreturn_cont; intros).
  case_match; [|apply noreturn_sched_yield]. apply noreturn_cont. intros v.
  case_match; [apply noreturn_env_run|apply noreturn_sched_yield].
Qed.

(** A user program can bring the kernel down with an exception whose gate is a
    trap gate (a division by zero, say): such a gate leaves interrupts enabled,
    user code runs with interrupts enabled, and trap asserts that they are
    disabled. *)
Theorem trap_gate_panics monitor entry tf fault_va d s :
  (tf_trapno tf, (1, d)) ∈ gates -> Z.land (tf_eflags tf) FL_IF <> 0 -> panicstr s = false ->
  trap_through_gate monitor (trap_init entry) tf fault_va s = Stop Panic s.
Proof.
  intros Hg Hif Hp. unfold trap_through_gate. rewrite (trap_init_lookup entry _ 1 d Hg). cbn [gd_type SETGATE].
  change (negb (1 =? 0)) with true. cbn beta iota. rewrite Z.eqb_refl.
  destruct (Z.eqb_spec (Z.land (tf_eflags tf) FL_IF) 0); [done|]. cbn [negb andb].
  unfold trap, gets, mbind, M_bind. by rewrite Hp.
Qed.

(** The frame of an environment, as env_alloc starts it, that divides by zero. *)
Lemma trap_gate_panics_witness :
  trap_through_gate (mret tt) (trap_init (fun n => n)) (initial_tf <| tf_trapno := T_DIVIDE |>) 0 demo
  = Stop Panic demo.
Proof.
  apply (trap_gate_panics (mret tt) (fun n => n) (initial_tf <| tf_trapno := T_DIVIDE |>) 0 0 demo).
  - apply (bool_decide_unpack _). vm_compute. exact I.
  - discriminate.
  - reflexivity.
Defined.

(** *** System calls from end to end *)

(** The state in which the dispatcher runs: the lock taken, the frame saved. *)
Definition trap_entered (s : kstate) (c : Z) (v : Env) (tf : Trapframe) : kstate :=
  with_env c (v <| env_tf := tf |>) (s <| kernel_lock := Some (cpunum s) |>).

Lemma trap_entered_fields s c v tf :
  cpu_env (trap_entered s c v tf) = cpu_env s /\ cpunum (trap_entered s c v tf) = cpunum s /\
  kernel_lock (trap_entered s c v tf) = Some (cpunum s).
Proof. done. Qed.

Lemma trap_user_enter monitor tf fault_va s c v :
  panicstr s = false -> kernel_lock s = None -> Z.land (tf_cs tf) 3 = 3 ->
  cpu_env s !! cpunum s = Some c -> envs s !! c = Some v -> env_status v <> ENV_DYING ->
  trap monitor false tf fault_va s =
  (trap_dispatch monitor (TfEnv c) fault_va;;
   ce ← curenv;
   match ce with
   | Some c =>
       v ← get_env c;
       if bool_decide (env_status v = ENV_RUNNING) then env_run c else sched_yield
   | None => sched_yield
   end) (trap_entered s c v tf).
Proof.
  intros Hp Hl Hcs Hc Hv Hst. unfold trap. erewrite bind_Ret by reflexivity. rewrite Hp, Hcs.
  change (3 =? 3) with true. cbn beta iota.
  rewrite (bind_Ret _ _ s (TfEnv c) (trap_entered s c v tf)); [done|].
  set (s1 := s <| kernel_lock := Some (cpunum s) |>).
  rewrite (bind_Ret _ _ s tt s1).
  2:{ unfold lock_kernel. erewrite bind_Ret by reflexivity. erewrite bind_Ret by reflexivity.
      rewrite Hl. done. }
  erewrite bind_Ret by apply curenv_eq. replace (cpu_env s1 !! cpunum s1) with (Some c) by done.
  erewrite bind_Ret by by apply (get_env_ok s1). rewrite bool_decide_false by done.
  erewrite bind_Ret by reflexivity. by erewrite bind_Ret by by apply (update_env_ok s1).
Qed.

Lemma trap_dispatch_syscall monitor tf fault_va s c v :
  envs s !! c = Some v -> env_tf v = tf -> tf_trapno tf = T_SYSCALL ->
  trap_dispatch monitor (TfEnv c) fault_va s =
  (let g := tf_regs tf in
   result ← syscall (reg_rax g) (reg_rdx g) (reg_rcx g) (reg_rbx g) (reg_rdi g) (reg_rsi g);
   update_tf (TfEnv c) (fun t => t <| tf_regs := (tf_regs t) <| reg_rax := u64 result |> |>)) s.
Proof.
  intros Hv Htf Hn. unfold trap_dispatch. rewrite (bind_Ret _ _ s tf s).
  - rewrite Hn. reflexivity.
  - unfold read_tf. erewrite bind_Ret by by apply get_env_ok. by rewrite Htf.
Qed.

(** C29: The result of a system call reaches its caller: when a running environment
    traps with T_SYSCALL and the call returns [r] with the caller still current
    and running, the kernel resumes that environment with [r] in its rax register
    and every other register as the call left it, and releases the lock. *)
Theorem trap_syscall_result monitor tf fault_va s c v r s2 v2 :
  panicstr s = false -> kernel_lock s = None -> Z.land (tf_cs tf) 3 = 3 ->
  cpu_env s !! cpunum s = Some c -> envs s !! c = Some v -> env_status v <> ENV_DYING ->
  tf_trapno tf = T_SYSCALL ->
  (let g := tf_regs tf in
   syscall (reg_rax g) (reg_rdx g) (reg_rcx g) (reg_rbx g) (reg_rdi g) (reg_rsi g)
     (trap_entered s c v tf) = Ret r s2) ->
  cpu_env s2 !! cpunum s2 = Some c -> envs s2 !! c = Some v2 -> env_status v2 = ENV_RUNNING ->
  kernel_lock s2 = Some (cpunum s2) ->
  exists s' v', trap monitor false tf fault_va s = Stop (RunEnv c) s' /\
    envs s' !! c = Some v' /\ kernel_lock s' = None /\ cr3 s' = env_cr3 v2 /\
    env_tf v' = (env_tf v2) <| tf_regs := (tf_regs (env_tf v2)) <| reg_rax := u64 r |> |>.
Proof.
  intros Hp Hl Hcs Hc Hv Hst Hn Hsys Hc2 Hv2 Hrun Hl2.
  rewrite (trap_user_enter monitor tf fault_va s c v) by done.
  set (v3 := v2 <| env_tf := (env_tf v2) <| tf_regs := (tf_regs (env_tf v2)) <| reg_rax := u64 r |> |> |>).
  set (s3 := with_env c v3 s2).
  rewrite (bind_Ret _ _ _ tt s3).
  2:{ rewrite (trap_dispatch_syscall monitor tf fault_va _ c (v <| env_tf := tf |>))
        by (done || apply with_env_eq).
      cbv zeta in Hsys |- *. erewrite bind_Ret by exact Hsys. unfold update_tf.
      by rewrite (update_env_ok s2 c v2 _ Hv2). }
  erewrite bind_Ret by apply curenv_eq.
  replace (cpu_env s3 !! cpunum s3) with (Some c) by by rewrite <- Hc2.
  erewrite bind_Ret by (apply get_env_ok, with_env_eq). cbn [env_status].
  change (env_status v3) with (env_status v2). rewrite bool_decide_true by done.
  assert (envs s3 !! c = Some v3) as Hlk by apply with_env_eq.
  assert (curenv_ok s3) as Hce.
  { intros e He. replace (cpu_env s3) with (cpu_env s2) in He by done.
    replace (cpunum s3) with (cpunum s2) in He by done. rewrite Hc2 in He. injection He as <-.
    rewrite Hlk. eauto. }
  pose proof (paused_lookup s3 c Hce) as Hpa. rewrite Hlk in Hpa. cbn in Hpa.
  rewrite decide_True in Hpa by done.
  rewrite (env_run_spec s3 c _ Hce Hl2 Hpa). do 2 eexists. split; [done|]. cbn.
  split; [apply lookup_insert_eq|]. done.
Qed.

(** Environment 0 asks for its id (system call 2). *)
Definition demo_getenvid : Trapframe :=
  initial_tf <| tf_trapno := T_SYSCALL |> <| tf_regs := zero_regs <| reg_rax := 2 |> |>.
Definition demo_user : kstate := demo <| kernel_lock := None |>.

Lemma trap_syscall_result_witness :
  exists s' v', trap (mret tt) false demo_getenvid 0 demo_user = Stop (RunEnv 0) s' /\
    envs s' !! 0 = Some v' /\ reg_rax (tf_regs (env_tf v')) = 0x1000.
Proof.
  destruct (trap_entered_fields demo_user 0 demo_env demo_getenvid) as (Ec & En & El).
  assert (envs (trap_entered demo_user 0 demo_env demo_getenvid) !! 0 =
    Some (demo_env <| env_tf := demo_getenvid |>)) as Hsaved by apply with_env_eq.
  assert (cpu_env demo_user !! cpunum demo_user = Some 0) as Hc by reflexivity.
  destruct (trap_syscall_result (mret tt) demo_getenvid 0 demo_user 0 demo_env 0x1000
    (trap_entered demo_user 0 demo_env demo_getenvid) (demo_env <| env_tf := demo_getenvid |>))
    as (s' & v' & Hs & Hv & _ & _ & Htf).
  - reflexivity.
  - reflexivity.
  - reflexivity.
  - exact Hc.
  - apply lookup_insert_eq.
  - discriminate.
  - reflexivity.
  - cbv zeta. change (syscall _ _ _ _ _ _) with sys_getenvid. unfold sys_getenvid.
    rewrite (bind_Ret _ _ _ _ _ (the_curenv_ok _ 0 ltac:(rewrite Ec, En; exact Hc))).
    rewrite (bind_Ret _ _ _ _ _ (get_env_ok _ 0 _ Hsaved)). reflexivity.
  - rewrite Ec, En. exact Hc.
  - exact Hsaved.
  - reflexivity.
  - rewrite El, En. reflexivity.
  - exists s', v'. split; [exact Hs|]. split; [exact Hv|]. rewrite Htf. reflexivity.
Defined.

(** ** The fault record on the exception stack *)

(** page_fault_handler places the fault record on the exception stack, clear
    of what is in use: from the normal stack it starts at the top of the exception
    stack, and for a fault inside the exception stack it lies wholly below the
    interrupted frame with one free word between; it is inside the stack's page
    unless fewer than 168 bytes are left. *)
Theorem utf_addr_placement rsp :
  0 <= rsp < 2 ^ 64 ->
  let utf := utf_addr rsp in
  (~ (UXSTACKTOP - PGSIZE <= rsp < UXSTACKTOP) -> utf + sizeof_UTrapframe = UXSTACKTOP) /\
  (UXSTACKTOP - PGSIZE <= rsp < UXSTACKTOP -> utf + sizeof_UTrapframe + 8 = rsp) /\
  (UXSTACKTOP - PGSIZE <= utf <->
     ~ (UXSTACKTOP - PGSIZE <= rsp < UXSTACKTOP - PGSIZE + sizeof_UTrapframe + 8)).
Proof.
  intros Hr utf. unfold utf, utf_addr, sizeof_UTrapframe. rewrite Z.geb_leb.
  autounfold with jos_consts in *.
  destruct (Z.ltb_spec rsp (0xF0000000 - 4096 * 512 - 4096 * 512 - 4096 * 512 - 4096 * 512)),
    (Z.leb_spec (0xF0000000 - 4096 * 512 - 4096 * 512 - 4096 * 512 - 4096 * 512 - 4096) rsp); cbn [andb];
    rewrite ?(wrap_small 64 (rsp - 8)) by lia; rewrite ?wrap_small by lia; split_and!; lia.
Qed.

Lemma utf_addr_placement_witness :
  utf_addr (UXSTACKTOP - 200) + sizeof_UTrapframe + 8 = UXSTACKTOP - 200.
Proof.
  apply (utf_addr_placement (UXSTACKTOP - 200)); autounfold with jos_consts; lia.
Defined.
