(* ===== verification/UserMem.v ===== *)
(** * Checking user pointers: user_mem_check of kern/pmap.c

    The loop of user_mem_check against a reference definition: the addresses it
    probes, one in each page of the range, and the first of them whose entry
    lacks a wanted permission. *)
From S2P Require Import Prelude Mmu CMem Printfmt KState Pmap FreeList PageTable Walk PmapSpec.

(** The entry of [a] has all the bits of [want]. *)
Definition grants (m : bytes) (r want a : Z) : bool :=
  match tbl m r (va_path a) with
  | Some g => Z.land (pte_at m g (PTX a)) want =? want
  | None => false
  end.

(** The [n] addresses probed from [a] on, and the first that fails. *)
Definition probes (a : Z) (n : nat) : list Z := (fun i => a + 4096 * i) <$> seqZ 0 (Z.of_nat n).
Fixpoint first_bad (ok : Z -> bool) (l : list Z) : option Z :=
  match l with
  | [] => None
  | a :: l' => if ok a then first_bad ok l' else Some a
  end.

Lemma probes_S a n : probes a (S n) = a :: probes (a + 4096) n.
Proof.
  unfold probes. replace (Z.of_nat (S n)) with (Z.succ (Z.of_nat n)) by lia.
  rewrite seqZ_cons, Z.pred_succ by lia. cbn [fmap list_fmap]. f_equal; [lia|].
  replace (Z.succ 0) with (1 + 0) by lia. rewrite <- fmap_add_seqZ, <- list_fmap_compose.
  apply list_fmap_ext. intros. cbn. lia.
Qed.

Lemma elem_of_probes a n x : x ∈ probes a n <-> exists i, 0 <= i < Z.of_nat n /\ x = a + 4096 * i.
Proof. unfold probes. rewrite list_elem_of_fmap. setoid_rewrite elem_of_seqZ. naive_solver lia. Qed.

(** The probed addresses grow. *)
Lemma probes_sorted a n l1 x l2 y : probes a n = l1 ++ x :: l2 -> y ∈ l2 -> x <= y.
Proof.
  intros E Hy. apply list_elem_of_lookup in Hy as [j Hj].
  assert (probes a n !! length l1 = Some x) as Hx by by rewrite E, list_lookup_middle.
  assert (probes a n !! (length l1 + S j)%nat = Some y) as Hy.
  { rewrite E, lookup_app_r by lia. by replace (length l1 + S j - length l1)%nat with (S j) by lia. }
  unfold probes in *. rewrite list_lookup_fmap in *.
  apply fmap_Some in Hx as (u & [-> _]%lookup_seqZ & ->).
  apply fmap_Some in Hy as (v & [-> _]%lookup_seqZ & ->). lia.
Qed.

Lemma first_bad_None ok l : first_bad ok l = None <-> Forall (fun a => ok a = true) l.
Proof.
  induction l as [|a l IH]; cbn; [done|]. rewrite Forall_cons.
  destruct (ok a); naive_solver.
Qed.

Lemma first_bad_Some ok l a :
  first_bad ok l = Some a -> exists l1 l2, l = l1 ++ a :: l2 /\ ok a = false /\
    Forall (fun b => ok b = true) l1.
Proof.
  induction l as [|b l IH]; cbn; [done|]. destruct (ok b) eqn:E.
  - intros (l1 & l2 & -> & ? & ?)%IH. exists (b :: l1), l2. by rewrite Forall_cons.
  - intros [= ->]. by exists [], l.
Qed.

Section check.
Context (r perm va : Z) (s : kstate) (l : list Z).
Abbreviation root := (r * 4096 + KERNBASE).
Abbreviation want := (u64 (Z.lor perm PTE_P)).
Hypothesis Hwf : pmap_wf s l.
Hypothesis Hpt : pt_wf (mem s) (npages s) l r.

(** What the code does at the first probed address that fails: it prints the
    entry, and reports the address. *)
Definition check_result (o : option Z) : K Z :=
  match o with
  | None => mret 0
  | Some a =>
      e ← load64 (default 0 ((fun g => g * 4096 + KERNBASE + 8 * PTX a) <$> tbl (mem s) r (va_path a)));
      cprintf (chars "*ppte = %0x, (perm|PTE_P) = %0x" ++ newline) [VI e; VI (Z.lor perm PTE_P)];;
      modify (fun s => s <| user_mem_check_addr := if a =? va then va else ROUNDDOWN a PGSIZE |>);;
      mret (- E_FAULT)
  end.

Lemma user_mem_check_loop_spec n fuel a uend :
  (n < fuel)%nat -> 0 <= a -> a + 4096 * Z.of_nat n < 2 ^ 48 - 4096 ->
  (forall i, 0 <= i <= Z.of_nat n -> a + 4096 * i < uend <-> i < Z.of_nat n) ->
  (forall x, x ∈ probes a n -> va_ok x) ->
  user_mem_check_loop fuel root va a uend perm s =
  check_result (first_bad (grants (mem s) r want) (probes a n)) s.
Proof.
  revert fuel a. induction n as [|n IH]; intros [|fuel] a Hf Ha Hb Hn Hok; try lia.
  - cbn [user_mem_check_loop]. destruct (Z.ltb_spec a uend); [|done].
    specialize (Hn 0 ltac:(lia)). lia.
  - cbn [user_mem_check_loop]. rewrite probes_S. cbn [first_bad].
    specialize (Hn 0 ltac:(lia)) as H0.
    destruct (Z.ltb_spec a uend); [|lia]. rewrite probes_S in Hok.
    assert (va_ok a) as Hva by (apply Hok; left).
    erewrite bind_Ret by by eapply pml4e_walk_lookup. unfold grants at 1.
    destruct (tbl (mem s) r (va_path a)) as [g|] eqn:Hg; cbn [fmap option_fmap option_map].
    + destruct (pt_range _ _ _ _ Hpt _ g (va_path_tpath a Hva) Hg) as [Hgr _].
      pose proof (wf_npages _ _ Hwf).
      erewrite bind_Ret; [|erewrite bind_Ret by (apply load64_table; [lia|apply index_ranges]); reflexivity].
      destruct (Z.land _ _ =? _).
      * rewrite wrap_small by (unfold PGSIZE; lia). apply IH; [lia|unfold PGSIZE; lia..| |].
        -- intros i Hi. specialize (Hn (i + 1) ltac:(lia)). unfold PGSIZE. lia.
        -- intros x Hx. apply Hok. right. exact Hx.
      * cbn [check_result]. by rewrite Hg.
    + erewrite bind_Ret by reflexivity. cbn [check_result]. by rewrite Hg.
Qed.

(** The number of pages of the range. *)
Definition range_pages (va len : Z) : nat :=
  Z.to_nat (ROUNDUP (va + len) PGSIZE / 4096 - va / 4096).

Lemma user_mem_check_range env e len :
  envs s !! env = Some e -> env_pml4e e = root ->
  0 <= va -> 0 <= len -> va + len < ULIM ->
  user_mem_check env va len perm s =
  check_result (first_bad (grants (mem s) r want) (probes va (range_pages va len))) s.
Proof.
  intros He Hroot Hva Hlen Hlim. assert (va + len < 2 ^ 32) as H32 by jlia.
  destruct (ROUNDUP_spec (va + len) PGSIZE) as [Hm Hr]; [jlia..|].
  unfold user_mem_check. rewrite (wrap_small 64 (va + len)) by lia.
  destruct (Z.geb_spec (va + len) ULIM); [lia|].
  erewrite bind_Ret by (unfold get_env; by rewrite He). rewrite Hroot.
  unfold range_pages. unfold PGSIZE in *.
  apply user_mem_check_loop_spec; try (Z.div_mod_to_equations; lia).
  intros x (i & Hi & ->)%elem_of_probes. split; [Z.div_mod_to_equations; lia|].
  autorewrite with jos_addr. unfold UVPT. Z.div_mod_to_equations. lia.
Qed.

(** Every page the range touches is probed. *)
Lemma probes_cover len a :
  0 <= va -> va <= a < va + len -> va + len < 2 ^ 63 ->
  exists x, x ∈ probes va (range_pages va len) /\ VPN x = VPN a.
Proof.
  intros Hva Ha Hlim. destruct (ROUNDUP_spec (va + len) PGSIZE) as [Hm Hr]; [unfold PGSIZE; lia..|].
  exists (va + 4096 * (a / 4096 - va / 4096)).
  unfold VPN. autorewrite with jos_addr. unfold PGSIZE in *. split.
  - apply elem_of_probes. eexists; split; [|done].
    unfold range_pages, PGSIZE. Z.div_mod_to_equations. lia.
  - Z.div_mod_to_equations. lia.
Qed.

Lemma grants_VPN want' x a : VPN x = VPN a -> grants (mem s) r want' x = grants (mem s) r want' a.
Proof. intros [E1 E2]%va_path_of_VPN. unfold grants. by rewrite E1, E2. Qed.
End check.
