(* ===== verification/PmapThms.v ===== *)
(** * What kern/pmap.c promises

    The theorems on the page allocator, on mappings and on user pointers, each
    with a concrete instance. *)
From S2P Require Import Prelude Mmu CMem KState Pmap FreeList PageTable Walk PmapSpec DemoState UserMem.

(** ** Mappings *)

(** C1: page_insert either maps the page, changing the entry of [va] and no other
    address of the space, keeping the free list and the page tables well formed,
    counting the new reference and dropping the replaced one (freeing its page
    with the last), or, only when the address has no page table yet and fewer than
    three pages are free for the tables, it fails with
    -E_NO_MEM and leaves the allocator, every mapping and every byte outside the free
    pages as they were. *)
Theorem page_insert_correct r s l va pp perm :
  va_ok va -> pmap_wf s l -> pt_wf (mem s) (npages s) l r -> curenv_ok s ->
  0 < pp < npages s -> pp ∉ l -> data_page (mem s) r pp -> mapped_ok r s l va ->
  wp (page_insert (r * 4096 + KERNBASE) pp va perm) s (fun res s' =>
    (res = 0 /\ exists l', insert_rel r va pp perm s l s' l') \/
    (res = - E_NO_MEM /\ fail_rel s l s' /\ tbl (mem s) r (va_path va) = None /\ (length l < 3)%nat)).
Proof. apply page_insert_spec. Qed.

Lemma page_insert_correct_witness :
  wp (page_insert 0xF0001000 2 0x800000 PTE_W) demo (fun res s' =>
    (res = 0 /\ exists l', insert_rel 1 0x800000 2 PTE_W demo demo_free s' l') \/
    (res = - E_NO_MEM /\ fail_rel demo demo_free s' /\ tbl (mem demo) 1 (va_path 0x800000) = None /\
     (length demo_free < 3)%nat)).
Proof.
  apply (page_insert_correct 1 demo demo_free 0x800000 2 PTE_W).
  - split; [lia|by vm_compute].
  - exact demo_wf.
  - exact demo_pt.
  - exact demo_curenv.
  - cbn. lia.
  - apply demo_not_free. reflexivity.
  - apply demo_data. discriminate.
  - exact (demo_mapped _).
Defined.

Lemma insert_entry_page pp perm :
  0 <= pp < 65536 -> 0 <= perm < 4096 ->
  Z.lor (pp * 4096) (u64 (Z.lor perm PTE_P)) = pp * 4096 + Z.lor perm PTE_P.
Proof.
  intros Hpp Hperm. assert (0 <= Z.lor perm PTE_P < 2 ^ 12) as H12 by (apply lor_range; unfold PTE_P; lia).
  rewrite wrap_small by lia. apply (lor_low_add _ _ 12); [lia|Z.div_mod_to_equations; lia|done].
Qed.

(** What was inserted is found: after a successful page_insert, page_lookup
    returns the page and the address of an entry that holds the page's address
    with the permissions given and PTE_P. *)
Theorem page_insert_lookup r s l va pp perm s' :
  va_ok va -> pmap_wf s l -> pt_wf (mem s) (npages s) l r -> curenv_ok s ->
  0 < pp < npages s -> pp ∉ l -> data_page (mem s) r pp -> mapped_ok r s l va ->
  0 <= perm < 4096 ->
  page_insert (r * 4096 + KERNBASE) pp va perm s = Ret 0 s' ->
  exists pte, page_lookup (r * 4096 + KERNBASE) va s' = Ret (Some (pp, pte)) s' /\
    load64 pte s' = Ret (pp * 4096 + Z.lor perm PTE_P) s'.
Proof.
  intros Hva Hwf Hpt Hce Hpp Hl Hd Hold Hperm Hrun. pose proof (wf_npages _ _ Hwf).
  pose proof (page_insert_spec r s l va pp perm Hva Hwf Hpt Hce Hpp Hl Hd Hold) as Hspec.
  unfold wp in Hspec. rewrite Hrun in Hspec.
  destruct Hspec as [(_ & l' & Hins)|[Hbad _]]; [|done].
  pose proof (ir_pte _ _ _ _ _ _ _ _ Hins va Hva) as He. rewrite decide_True in He by done.
  rewrite insert_entry_page in He by lia.
  assert (0 <= Z.lor perm PTE_P < 2 ^ 12) as H12 by (apply lor_range; unfold PTE_P; lia).
  assert (0 < Z.lor perm PTE_P + pp * 4096) by lia.
  destruct (tbl_of_pte r (mem s') va ltac:(lia)) as (g & Hg & Hat).
  pose proof (ir_pt _ _ _ _ _ _ _ _ Hins) as Hpt'. pose proof (ir_wf _ _ _ _ _ _ _ _ Hins) as Hwf'.
  destruct (vm_frame_fields _ _ (ir_frame _ _ _ _ _ _ _ _ Hins)) as (Hn & _).
  destruct (pt_range _ _ _ _ Hpt' _ g (va_path_tpath va Hva) Hg) as [Hgr _].
  assert ((pp * 4096 + Z.lor perm PTE_P) / 4096 = pp) as Hdiv by (Z.div_mod_to_equations; lia).
  eexists. split.
  - rewrite (page_lookup_spec r s' l' va g Hva Hwf' Hpt' Hg) by (rewrite He, Hdiv; lia).
    by rewrite He, Hdiv.
  - rewrite load64_table by (apply index_ranges || lia). by rewrite Hat, He.
Qed.

Lemma page_insert_lookup_witness :
  exists s', page_insert 0xF0001000 2 0x800000 PTE_W demo = Ret 0 s' /\
  exists pte, page_lookup 0xF0001000 0x800000 s' = Ret (Some (2, pte)) s' /\
    load64 pte s' = Ret 0x2003 s'.
Proof.
  destruct (value_of_Ret (page_insert 0xF0001000 2 0x800000 PTE_W demo) 0) as [s' E];
    [vm_compute; reflexivity|].
  exists s'. split; [exact E|].
  apply (page_insert_lookup 1 demo demo_free 0x800000 2 PTE_W s').
  - split; [lia|by vm_compute].
  - exact demo_wf.
  - exact demo_pt.
  - exact demo_curenv.
  - cbn. lia.
  - apply demo_not_free. reflexivity.
  - apply demo_data. discriminate.
  - exact (demo_mapped _).
  - unfold PTE_W. lia.
  - exact E.
Defined.

(** page_remove of a mapped address clears its entry and no other, drops one
    reference of the page and puts the page back on the free list with the last
    reference, and flushes the address from the TLB exactly when the address
    space is the current one (or there is no current environment). *)
Theorem page_remove_correct r s l va pg :
  va_ok va -> pmap_wf s l -> pt_wf (mem s) (npages s) l r -> curenv_ok s ->
  pte_of (mem s) r va <> 0 -> mapped_ok r s l va ->
  pages s !! (pte_of (mem s) r va / 4096) = Some pg ->
  wp (page_remove (r * 4096 + KERNBASE) va) s (fun _ s' =>
    let p := pte_of (mem s) r va / 4096 in
    let l' := if decide (pp_ref pg = 1) then p :: l else l in
    pmap_wf s' l' /\ pt_wf (mem s') (npages s') l' r /\ vm_frame s s' /\
    (forall va', va_ok va' ->
       pte_of (mem s') r va' = if decide (VPN va' = VPN va) then 0 else pte_of (mem s) r va') /\
    (forall i, ref s' i = if decide (i = p) then u16 (ref s i - 1) else ref s i) /\
    invlpgs s' = if flushes s (r * 4096 + KERNBASE) then va :: invlpgs s else invlpgs s).
Proof.
  intros Hva Hwf Hpt Hce Hne Hold Hpg. destruct (Hold Hne) as (_ & Hl & Hd).
  wuse (page_remove_spec r s l va _ pg); try done.
  intros _ s' (l' & Hwf' & Hpt' & Hfr & (g & Hg & Hm) & -> & Href & _ & Htlb).
  split_and!; try done. intros va' Hva'. rewrite Hm. by eapply pte_of_st_leaf.
Qed.

(** The state after mapping page 2 at 0x800000. *)
Lemma demo_inserted :
  exists s' l', page_insert 0xF0001000 2 0x800000 PTE_W demo = Ret 0 s' /\
    insert_rel 1 0x800000 2 PTE_W demo demo_free s' l'.
Proof.
  destruct (value_of_Ret (page_insert 0xF0001000 2 0x800000 PTE_W demo) 0) as [s' E];
    [vm_compute; reflexivity|].
  pose proof (page_insert_spec 1 demo demo_free 0x800000 2 PTE_W
    ltac:(split; [lia|by vm_compute]) demo_wf demo_pt demo_curenv ltac:(cbn; lia)
    (demo_not_free 2 eq_refl) (demo_data 2 ltac:(discriminate)) (demo_mapped _)) as H.
  unfold wp in H. change (1 * 4096 + KERNBASE) with 0xF0001000 in H. rewrite E in H.
  destruct H as [(_ & l' & H)|[H _]]; [exists s', l'; split; [exact E|exact H]|discriminate H].
Qed.

Lemma page_remove_correct_witness :
  exists s' l', insert_rel 1 0x800000 2 PTE_W demo demo_free s' l' /\
  wp (page_remove 0xF0001000 0x800000) s' (fun _ s'' => pmap_wf s'' (2 :: l') \/ pmap_wf s'' l').
Proof.
  destruct demo_inserted as (s' & l' & E & H). clear E. exists s', l'. split; [exact H|].
  assert (va_ok 0x800000) as Hva by (split; [lia|by vm_compute]).
  assert (pte_of (mem s') 1 0x800000 = 0x2003) as Hp.
  { rewrite (ir_pte _ _ _ _ _ _ _ _ H _ Hva). reflexivity. }
  destruct (vm_frame_fields _ _ (ir_frame _ _ _ _ _ _ _ _ H)) as (Hn & He & Hc & Hcn & _).
  assert (is_Some (pages s' !! 2)) as [pg Hpg].
  { apply (wf_pages _ _ (ir_wf _ _ _ _ _ _ _ _ H)). rewrite Hn. cbn. lia. }
  assert (2 ∉ l') as Hl.
  { destruct (ir_free _ _ _ _ _ _ _ _ H) as (l1 & Hs & ->). rewrite demo_pte.
    rewrite decide_False by tauto. eapply suffix_not_in; [exact Hs|]. apply demo_not_free. reflexivity. }
  pose proof (page_remove_correct 1 s' l' 0x800000 pg Hva (ir_wf _ _ _ _ _ _ _ _ H)
    (ir_pt _ _ _ _ _ _ _ _ H)) as T. rewrite Hp in T. eapply wp_mono; [apply T|].
  - eapply curenv_ok_frame; [apply (ir_frame _ _ _ _ _ _ _ _ H)|apply demo_curenv].
  - discriminate.
  - intros _. rewrite Hp. change (0x2003 / 4096) with 2. rewrite Hn. split_and!; [cbn; lia|exact Hl|].
    eapply (ir_data _ _ _ _ _ _ _ _ _ H); [apply demo_not_free; reflexivity|apply demo_data; discriminate].
  - exact Hpg.
  - intros _ s'' (Hw & _). revert Hw. case_decide; auto.
Defined.

(** page_remove of an address that has a page table but no page is not silent:
    it takes one reference away from physical page 0. *)
Theorem page_remove_unmapped r s l va g pg :
  va_ok va -> pmap_wf s l -> pt_wf (mem s) (npages s) l r -> curenv_ok s ->
  tbl (mem s) r (va_path va) = Some g -> pte_at (mem s) g (PTX va) = 0 ->
  pages s !! 0 = Some pg -> 0 ∉ l ->
  wp (page_remove (r * 4096 + KERNBASE) va) s (fun _ s' => ref s' 0 = u16 (ref s 0 - 1)).
Proof.
  intros Hva Hwf Hpt Hce Hg Hz Hpg Hl. pose proof (wf_npages _ _ Hwf).
  destruct (pt_range _ _ _ _ Hpt _ g (va_path_tpath va Hva) Hg) as [Hgr _].
  pose proof (pt_range _ _ _ _ Hpt [] r tpath_nil eq_refl) as [Hr0 _].
  assert (pte_of (mem s) r va = 0) as Hp by (unfold pte_of; by rewrite Hg).
  unfold page_remove. apply wp_bind, wp_elim. do 2 eexists. split.
  { eapply page_lookup_spec; [done..|]. rewrite Hp, Zdiv_0_l. lia. }
  rewrite Hp, Zdiv_0_l. cbn beta iota. wsteps. wuse (page_decref_spec s l 0 pg Hwf Hpg Hl).
  intros _ s1 (Hfr & Hm & _ & H1). destruct (vm_frame_fields _ _ Hfr) as (Hn & Hen & Hcp & Hcn & _).
  wsteps. apply wp_elim. do 2 eexists. split; [apply store64_table; [lia|apply index_ranges]|].
  apply wp_elim. do 2 eexists. split.
  { apply tlb_invalidate_spec; [lia|]. unfold curenv_ok. cbn. by rewrite Hcp, Hcn, Hen. }
  unfold ref. cbn. rewrite Hpg. cbn. destruct (decide (pp_ref pg = 1)) as [E|E];
    destruct H1 as [_ ->]; rewrite lookup_insert_eq; cbn; [by rewrite E|done].
Qed.

(** After a mapping is removed its table stays: removing it again takes a
    reference from page 0, whose count was 0. *)
Lemma page_remove_unmapped_witness :
  exists s g, tbl (mem s) 1 (va_path 0x801000) = Some g /\
    wp (page_remove 0xF0001000 0x801000) s (fun _ s' => ref s' 0 = 65535).
Proof.
  destruct demo_inserted as (s' & l' & E & H). clear E.
  assert (va_ok 0x800000) as Hva by (split; [lia|by vm_compute]).
  assert (va_ok 0x801000) as Hva1 by (split; [lia|by vm_compute]).
  assert (pte_of (mem s') 1 0x800000 = 0x2003) as Hp.
  { rewrite (ir_pte _ _ _ _ _ _ _ _ H _ Hva). reflexivity. }
  assert (pte_of (mem s') 1 0x801000 = 0) as Hp1.
  { rewrite (ir_pte _ _ _ _ _ _ _ _ H _ Hva1). apply demo_pte. }
  destruct (tbl_of_pte 1 (mem s') 0x800000) as (g & Hg & _); [rewrite Hp; discriminate|].
  change (va_path 0x800000) with (va_path 0x801000) in Hg.
  unfold pte_of in Hp1. rewrite Hg in Hp1.
  destruct (ir_free _ _ _ _ _ _ _ _ H) as (l1 & Hs & Hl).
  rewrite demo_pte, decide_False in Hl by tauto. subst l'.
  destruct (vm_frame_fields _ _ (ir_frame _ _ _ _ _ _ _ _ H)) as (Hn & He & Hc & Hcn & _).
  assert (is_Some (pages s' !! 0)) as [pg Hpg].
  { apply (wf_pages _ _ (ir_wf _ _ _ _ _ _ _ _ H)). rewrite Hn. cbn. lia. }
  assert (0 ∉ demo_free) as H0 by (apply demo_not_free; reflexivity).
  exists s', g. split; [exact Hg|]. eapply wp_mono.
  - apply (page_remove_unmapped 1 s' l1 0x801000 g pg Hva1); try assumption.
    + apply H.
    + apply H.
    + eapply curenv_ok_frame; [apply (ir_frame _ _ _ _ _ _ _ _ H)|apply demo_curenv].
    + eapply suffix_not_in; [exact Hs|exact H0].
  - intros _ s'' ->. rewrite (ir_ref _ _ _ _ _ _ _ _ H 0 H0), demo_pte. reflexivity.
Defined.

(** ** The allocator *)

(** C2: page_alloc and page_free are the pop and push of a stack: page_alloc
    returns None exactly on the empty stack and otherwise takes the top page off,
    with its link cleared and its bytes zeroed when ALLOC_ZERO is asked for;
    freeing that page again gives the stack back. *)
Theorem page_alloc_free_stack s l f :
  pmap_wf s l ->
  wp (page_alloc f) s (fun res s' =>
    match l with
    | [] => res = None /\ s' = s
    | p :: l' => res = Some p /\ pmap_wf s' l' /\ vm_frame s s' /\
        (forall i, pages s' !! i = if decide (i = p) then Some (mkPage None 0) else pages s !! i) /\
        (forall a, ld8 (mem s') a = if decide (a / 4096 = p /\ zeroing f) then 0 else ld8 (mem s) a) /\
        wp (page_free p) s' (fun _ s'' => pmap_wf s'' (p :: l'))
    end).
Proof.
  intros Hwf. destruct l as [|p l].
  { apply wp_elim. do 2 eexists. split; [by apply page_alloc_empty|done]. }
  wuse (page_alloc_cons s f p l Hwf). intros res s' (-> & Hwf' & Hfr & _ & Hpg & Hm).
  pose proof (wf_nodup _ _ Hwf) as [Hnin _]%NoDup_cons.
  assert (pages s' !! p = Some (mkPage None 0)) as Hp by (rewrite Hpg; apply lookup_insert_eq).
  split_and!; try done.
  - intros i. rewrite Hpg, lookup_insert. repeat case_decide; congruence.
  - intros a. rewrite Hm. destruct (zeroing f); [|by rewrite decide_False by naive_solver].
    rewrite ld8_memset by (unfold PGSIZE; lia). unfold PGSIZE. destruct (decide (p * 4096 <= a < p * 4096 + 4096)).
    + rewrite decide_True; [done|]. split; [Z.div_mod_to_equations; lia|done].
    + rewrite decide_False; [done|]. intros [? _]. Z.div_mod_to_equations. lia.
  - wuse (page_free_spec s' l p _ Hwf' Hp). intros _ s''. cbn. rewrite decide_False by tauto. tauto.
Qed.

Lemma page_alloc_free_stack_witness :
  wp (page_alloc ALLOC_ZERO) demo (fun res s' => res = Some 8 /\
    wp (page_free 8) s' (fun _ s'' => pmap_wf s'' demo_free)).
Proof.
  eapply wp_mono; [exact (page_alloc_free_stack demo demo_free ALLOC_ZERO demo_wf)|].
  intros res s' (Hres & _ & _ & _ & _ & Hfree). exact (conj Hres Hfree).
Defined.

(** ** User pointers *)

(** C28: user_mem_check is exact on ranges below ULIM all of whose pages have a
    page table: it returns 0 and changes nothing if the entry of every address of
    the range grants the wanted permissions, and otherwise prints a message and returns
    -E_FAULT with user_mem_check_addr the first address of the range that is not
    granted, and changes nothing else. *)
Theorem user_mem_check_exact r s l env e va len perm :
  pmap_wf s l -> pt_wf (mem s) (npages s) l r ->
  envs s !! env = Some e -> env_pml4e e = r * 4096 + KERNBASE ->
  0 <= va -> 0 < len -> va + len < ULIM ->
  (forall a, va <= a < va + len -> is_Some (tbl (mem s) r (va_path a))) ->
  let ok := grants (mem s) r (u64 (Z.lor perm PTE_P)) in
  wp (user_mem_check env va len perm) s (fun res s' =>
    (res = 0 /\ s' = s /\ forall a, va <= a < va + len -> ok a = true) \/
    (res = - E_FAULT /\ s' = s <| user_mem_check_addr := user_mem_check_addr s' |> <| cons := cons s' |> /\
     va <= user_mem_check_addr s' < va + len /\ ok (user_mem_check_addr s') = false /\
     forall a, va <= a < user_mem_check_addr s' -> ok a = true)).
Proof.
  intros Hwf Hpt He Hroot Hva Hlen Hlim Htbl ok.
  assert (va + len < 2 ^ 32) as H32 by jlia.
  eapply wp_ext; [eapply (user_mem_check_range r perm va s l); try done; lia|].
  destruct (ROUNDUP_spec (va + len) PGSIZE) as [Hm Hr]; [jlia..|]. unfold PGSIZE in Hm, Hr.
  fold ok. destruct (first_bad ok _) as [x|] eqn:Hbad; cbn [check_result].
  - destruct (first_bad_Some _ _ _ Hbad) as (l1 & l2 & Hsplit & Hx & Hl1).
    assert (x ∈ probes va (range_pages va len)) as Hin by (rewrite Hsplit; set_solver).
    apply elem_of_probes in Hin as (i & Hi & Exi). unfold range_pages, PGSIZE in Hi.
    set (bad := if x =? va then va else ROUNDDOWN x PGSIZE).
    assert (VPN bad = VPN x /\ va <= bad < va + len /\ bad <= x /\ (bad = va \/ bad mod 4096 = 0)) as (Hv & Hb & Hbx & Hbm).
    { unfold bad, VPN, ROUNDDOWN, PGSIZE. rewrite !PPN_div. destruct (Z.eqb_spec x va) as [Ex|Ex].
      - split_and!; [by rewrite Ex|Z.div_mod_to_equations; lia..|by left].
      - assert (i <> 0) by (intros ->; lia).
        split_and!; [Z.div_mod_to_equations; lia..|right; Z.div_mod_to_equations; lia]. }
    destruct (Htbl bad Hb) as [g Hg]. rewrite (proj1 (va_path_of_VPN _ _ Hv)) in Hg.
    assert (va_ok x) as Hvx.
    { split; [Z.div_mod_to_equations; lia|]. rewrite !PML4_eq. unfold UVPT. Z.div_mod_to_equations. lia. }
    destruct (pt_range _ _ _ _ Hpt _ g (va_path_tpath x Hvx) Hg) as [Hgr _].
    pose proof (wf_npages _ _ Hwf). rewrite Hg. cbn [fmap option_fmap option_map default].
    wsteps. apply wp_elim. do 2 eexists. split; [apply load64_table; [lia|apply index_ranges]|].
    wsteps. wprints cons'. wsteps. right. fold bad. cbn. split_and!; try done; try lia.
    + unfold ok. by rewrite (grants_VPN r s _ _ _ Hv).
    + intros a Ha. destruct (probes_cover va len a) as (y & Hy & Hya); [lia..|].
      unfold ok. rewrite <- (grants_VPN r s _ _ _ Hya). fold (ok y).
      rewrite Forall_forall in Hl1. apply Hl1.
      rewrite Hsplit in Hy. apply elem_of_app in Hy as [?|Hy]; [done|exfalso].
      assert (x <= y) as Hxy.
      { apply elem_of_cons in Hy as [->|Hy]; [lia|].
        apply (probes_sorted va (range_pages va len) l1 x l2 y); done. }
      unfold VPN in *. rewrite !PPN_div in *. destruct Hbm as [->|?]; [lia|]. Z.div_mod_to_equations. lia.
  - apply first_bad_None in Hbad. rewrite Forall_forall in Hbad. apply wp_ret. left. split_and!; try done.
    intros a Ha. destruct (probes_cover va len a) as (y & Hy & Hya); [lia..|].
    unfold ok. rewrite <- (grants_VPN r s _ _ _ Hya). by apply Hbad.
Qed.

Lemma demo_insert_grants :
  exists s' l', insert_rel 1 0x800000 2 PTE_W demo demo_free s' l' /\
    pmap_wf s' l' /\ pt_wf (mem s') (npages s') l' 1 /\ envs s' !! 0 = Some demo_env /\
    (forall a, 0x800000 <= a < 0x801010 -> is_Some (tbl (mem s') 1 (va_path a))).
Proof.
  destruct demo_inserted as (s' & l' & E & H). clear E. exists s', l'.
  assert (va_ok 0x800000) as Hva by (split; [lia|by vm_compute]).
  destruct (tbl_of_pte 1 (mem s') 0x800000) as (g & Hg & _).
  { rewrite (ir_pte _ _ _ _ _ _ _ _ H _ Hva). discriminate. }
  destruct (vm_frame_fields _ _ (ir_frame _ _ _ _ _ _ _ _ H)) as (Hn & He & _).
  split_and!; [exact H|apply H|apply H|rewrite He; apply lookup_insert_eq|].
  intros a Ha. exists g. rewrite <- Hg. f_equal. unfold va_path. autorewrite with jos_addr.
  f_equal; [|f_equal; [|f_equal]]; Z.div_mod_to_equations; lia.
Qed.

Lemma user_mem_check_exact_witness :
  exists s', wp (user_mem_check 0 0x800010 0x1000 PTE_W) s' (fun res _ => res = 0 \/ res = - E_FAULT).
Proof.
  destruct demo_insert_grants as (s' & l' & H & Hwf & Hpt & He & Ht). exists s'.
  eapply wp_mono.
  - apply (user_mem_check_exact 1 s' l' 0 demo_env 0x800010 0x1000 PTE_W Hwf Hpt He eq_refl);
      [lia|lia|reflexivity|]. intros a Ha. apply Ht. lia.
  - intros res s'' [[Hr _]|[Hr _]]; [left|right]; exact Hr.
Defined.

(** A range that wraps around the address space is accepted unchecked: if
    [va + len], computed in 64 bits, comes out below ULIM and not above [va],
    user_mem_check returns 0 without reading a single entry, although the range
    contains kernel addresses. *)
Theorem user_mem_check_wraps s env e va len perm :
  envs s !! env = Some e ->
  0 <= va < 2 ^ 64 -> u64 (va + len) < ULIM -> ROUNDUP (u64 (va + len)) PGSIZE <= va ->
  user_mem_check env va len perm s = Ret 0 s.
Proof.
  intros He Hva Hlim Hup. unfold user_mem_check.
  destruct (Z.geb_spec (u64 (va + len)) ULIM); [lia|].
  erewrite bind_Ret by (unfold get_env; by rewrite He). cbn [user_mem_check_loop].
  destruct (Z.ltb_spec va (ROUNDUP (u64 (va + len)) PGSIZE)); [lia|done].
Qed.

(** The kernel's own page 0xF0000000 passes as readable and writable user memory. *)
Lemma user_mem_check_wraps_witness :
  user_mem_check 0 0xF0000000 (2 ^ 64 - 0xF0000000) (Z.lor PTE_U PTE_W) demo = Ret 0 demo.
Proof.
  apply (user_mem_check_wraps demo 0 demo_env).
  - apply lookup_insert_eq.
  - lia.
  - reflexivity.
  - vm_compute. discriminate.
Defined.

(** ** The free list at boot *)

(** C31: page_init puts exactly the usable pages on the free list (not page 0, the
    application processors' start-up page, the boot page tables, the I/O hole, or
    the kernel image with what boot_alloc handed out), highest first, each once,
    with every reference count zero, and writes nothing but the page structures. *)
Theorem page_init_free_list s :
  pmap_wf s [] -> KERNBASE <= nextfree s < 2 ^ 32 -> nextfree s mod PGSIZE = 0 ->
  wp page_init s (fun _ s' =>
    pmap_wf s' (filter (page_usable (nextfree s - KERNBASE)) (reverse (seqZ 0 (npages s)))) /\
    (forall i pg, pages s' !! i = Some pg -> pp_ref pg = 0) /\
    mem s' = mem s /\ vm_frame s s').
Proof. apply page_init_spec. Qed.

Lemma pmap_wf_no_list s l v :
  pmap_wf s l -> pmap_wf (s <| page_free_list := None |> <| nextfree := v |>) [].
Proof. intros []. split; try done. - constructor. - by intros ?? ?%elem_of_nil. Qed.

Lemma page_init_free_list_witness :
  let s := demo <| page_free_list := None |> <| nextfree := 0xF0100000 |> in
  wp page_init s (fun _ s' => pmap_wf s' [31; 30; 29; 28; 27; 26; 25; 24; 23; 22; 21; 20; 19; 18; 17; 16; 15; 14; 6; 5; 4; 3; 2; 1]).
Proof.
  intros s. eapply wp_mono.
  - apply (page_init_free_list s).
    + apply (pmap_wf_no_list demo demo_free). apply demo_wf.
    + cbn. unfold KERNBASE. lia.
    + reflexivity.
  - intros _ s' [H _]. exact H.
Defined.

(** ** Block copies and addresses *)

(** memmove copies [n] bytes as if through a temporary buffer, whatever the
    overlap of source and destination and whichever of its four instruction
    loops it takes. *)
Theorem memmove_as_if_buffered m dst src n :
  0 <= n -> copied m (memmove m dst src n) dst src n.
Proof. apply memmove_copies. Qed.

Lemma memmove_as_if_buffered_witness :
  let m := memmove (st 8 (st 8 ∅ 100 0x0807060504030201) 108 0x100f0e0d0c0b0a09) 104 100 8 in
  ld 8 m 104 = 0x0807060504030201 /\ ld8 m 108 = 5.
Proof.
  intros m. assert (copied (st 8 (st 8 ∅ 100 0x0807060504030201) 108 0x100f0e0d0c0b0a09) m 104 100 8) as H
    by (apply memmove_as_if_buffered; lia).
  split; [vm_compute; reflexivity|]. rewrite H. reflexivity.
Defined.
