(* ===== verification/AddrSpace.v ===== *)
(** * Address spaces: the memory calls of environments refine maps of pages

    The environments see their memories as maps from virtual page numbers to entries
    (a physical page with permissions) and the bytes of the pages.  [vstep] says what
    sys_page_alloc, sys_page_map and sys_page_unmap do to them, [space_ok] relates
    them to the page tables of all environments, the reference counts, the free list
    and physical memory, and the simulation extends to whole programs of calls, in
    which every call may depend on the results of the earlier ones.

    Only the user part of the address spaces, below UTOP, is described: the kernel
    part is shared by the page tables of all environments. *)
From S2P Require Import Prelude Mmu CMem Console KState Pmap FreeList PageTable Walk PmapSpec DemoState Env E1000 Syscall EnvThms SyscallThms.

(** ** The abstract memories

    An address space is known by the frame of its root table, and the entries are
    keyed by address space and virtual page number.  [zero_refs] is the reference
    count of physical page 0, which is never mapped, but is what the kernel finds
    where nothing is mapped. *)
Record vspace := mkVspace { entries : gmap (Z * Z) Z; contents : Z -> Z; zero_refs : Z }.

(** The number of virtual pages that are mapped to the physical page [p]. *)
Definition uses (A : gmap (Z * Z) Z) (p : Z) : Z :=
  Z.of_nat (size (filter (fun kv : (Z * Z) * Z => kv.2 / 4096 = p) A)).

Inductive vcall :=
  | CAlloc (envid va perm : Z)
  | CMap (srcenvid srcva dstenvid dstva perm : Z)
  | CUnmap (envid va : Z).

Definition do_call (c : vcall) : K Z :=
  match c with
  | CAlloc envid va perm => sys_page_alloc envid va perm
  | CMap srcenvid srcva dstenvid dstva perm => sys_page_map srcenvid srcva dstenvid dstva perm
  | CUnmap envid va => sys_page_unmap envid va
  end.

Definition map_at (A : vspace) (r va e : Z) : vspace :=
  mkVspace (<[(r, VPN va) := e]> (entries A)) (contents A) (zero_refs A).
Definition unmap_at (A : vspace) (r va : Z) : vspace :=
  mkVspace (delete (r, VPN va) (entries A)) (contents A) (zero_refs A).
Definition zero_page (A : vspace) (p : Z) : vspace :=
  mkVspace (entries A) (fun a => if decide (a / 4096 = p) then 0 else contents A a) (zero_refs A).
Definition drop_zero_ref (A : vspace) : vspace :=
  mkVspace (entries A) (contents A) (u16 (zero_refs A - 1)).

(** Nothing is mapped in the range of 512 pages, which one page table serves. *)
Definition no_near (A : vspace) (r va : Z) : Prop :=
  forall va', 0 <= va' < UTOP -> VPN va' / 512 = VPN va / 512 -> entries A !! (r, VPN va') = None.

(** One call: its result and what it does to the memories.  [sp] is the address space
    of the environment that an id names, if the caller may name it. *)
Inductive vstep (sp : Z -> option Z) (A : vspace) : vcall -> Z -> vspace -> Prop :=
  | v_alloc_bad_env envid va perm : sp envid = None -> vstep sp A (CAlloc envid va perm) (- E_BAD_ENV) A
  | v_alloc_inval envid r va perm :
      sp envid = Some r -> bad_va va || bad_perm perm = true -> vstep sp A (CAlloc envid va perm) (- E_INVAL) A
  | v_alloc envid r va perm p :
      sp envid = Some r -> bad_va va || bad_perm perm = false -> uses (entries A) p = 0 ->
      vstep sp A (CAlloc envid va perm) 0 (map_at (zero_page A p) r va (p * 4096 + perm))
  | v_alloc_no_mem envid r va perm :
      sp envid = Some r -> bad_va va || bad_perm perm = false -> vstep sp A (CAlloc envid va perm) (- E_NO_MEM) A
  | v_map_bad_env srcid srcva dstid dstva perm :
      sp srcid = None \/ sp dstid = None -> vstep sp A (CMap srcid srcva dstid dstva perm) (- E_BAD_ENV) A
  | v_map_inval srcid rs srcva dstid rd dstva perm :
      sp srcid = Some rs -> sp dstid = Some rd -> bad_va srcva || bad_va dstva = true ->
      vstep sp A (CMap srcid srcva dstid dstva perm) (- E_INVAL) A
  | v_map srcid rs srcva dstid rd dstva perm e :
      sp srcid = Some rs -> sp dstid = Some rd -> bad_va srcva || bad_va dstva = false ->
      entries A !! (rs, VPN srcva) = Some e ->
      vstep sp A (CMap srcid srcva dstid dstva perm) 0 (map_at A rd dstva (e / 4096 * 4096 + perm))
  | v_map_no_mem srcid rs srcva dstid rd dstva perm :
      sp srcid = Some rs -> sp dstid = Some rd -> bad_va srcva || bad_va dstva = false ->
      no_near A rd dstva -> vstep sp A (CMap srcid srcva dstid dstva perm) (- E_NO_MEM) A
  | v_unmap_bad_env envid va : sp envid = None -> vstep sp A (CUnmap envid va) (- E_BAD_ENV) A
  | v_unmap_inval envid r va : sp envid = Some r -> bad_va va = true -> vstep sp A (CUnmap envid va) (- E_INVAL) A
  | v_unmap envid r va e :
      sp envid = Some r -> bad_va va = false -> entries A !! (r, VPN va) = Some e ->
      vstep sp A (CUnmap envid va) 0 (unmap_at A r va)
  | v_unmap_absent envid r va :
      sp envid = Some r -> bad_va va = false -> entries A !! (r, VPN va) = None ->
      vstep sp A (CUnmap envid va) 0 A
  | v_unmap_page_0 envid r va :
      sp envid = Some r -> bad_va va = false -> entries A !! (r, VPN va) = None ->
      vstep sp A (CUnmap envid va) 0 (drop_zero_ref A).

(** ** Counting mappings *)
Lemma uses_nonneg A p : 0 <= uses A p.
Proof. unfold uses. lia. Qed.

Lemma uses_insert_new A k e p :
  A !! k = None -> uses (<[k := e]> A) p = uses A p + if decide (e / 4096 = p) then 1 else 0.
Proof.
  intros Hk. unfold uses. rewrite map_filter_insert. cbn. case_decide.
  - rewrite map_size_insert_None by (apply map_lookup_filter_None; by left). lia.
  - rewrite delete_id by done. lia.
Qed.

Lemma uses_delete A k e p :
  A !! k = Some e -> uses (delete k A) p = uses A p - if decide (e / 4096 = p) then 1 else 0.
Proof.
  intros Hk. rewrite <- (insert_delete_id A k e Hk) at 2.
  rewrite uses_insert_new by apply lookup_delete_eq. case_decide; lia.
Qed.

Lemma uses_insert A k e p :
  uses (<[k := e]> A) p =
  uses A p + (if decide (e / 4096 = p) then 1 else 0)
           - match A !! k with Some o => if decide (o / 4096 = p) then 1 else 0 | None => 0 end.
Proof.
  destruct (A !! k) as [o|] eqn:Hk; [|rewrite uses_insert_new by done; lia].
  rewrite <- insert_delete_eq, uses_insert_new by apply lookup_delete_eq.
  rewrite (uses_delete _ _ _ _ Hk). lia.
Qed.

Lemma uses_insert_le A k e p : uses (<[k := e]> A) p <= uses A p + 1.
Proof. rewrite uses_insert. destruct (A !! k); repeat case_decide; lia. Qed.

Lemma uses_pos A k e : A !! k = Some e -> 1 <= uses A (e / 4096).
Proof.
  intros Hk. pose proof (uses_delete A k e (e / 4096) Hk) as H.
  pose proof (uses_nonneg (delete k A) (e / 4096)). case_decide; [lia|done].
Qed.

Lemma uses_zero A k e p : uses A p = 0 -> A !! k = Some e -> e / 4096 <> p.
Proof. intros H Hk <-. pose proof (uses_pos A k e Hk). lia. Qed.

Lemma uses_none A p : (forall k e, A !! k = Some e -> e / 4096 <> p) -> uses A p = 0.
Proof.
  intros H. unfold uses. replace (filter _ A) with (∅ : gmap (Z * Z) Z); [done|].
  apply map_eq. intros k. rewrite lookup_empty. symmetry. apply map_lookup_filter_None.
  destruct (A !! k) as [e|] eqn:E; [right|by left]. intros e' [= <-]. by eapply H.
Qed.

(** ** The page tables of several address spaces *)

(** When only pages outside the tables change. *)
Lemma kept_outside m m' np l r :
  pt_wf m np l r -> (forall a, a / 4096 ∉ l -> ld8 m' a = ld8 m a) -> tables_kept m m' r.
Proof. intros Hpt Hb q f a Hq Hf Ha. apply Hb. rewrite Ha. by eapply (pt_range _ _ _ _ Hpt). Qed.

Definition user_va (va : Z) : Prop := 0 <= va < UTOP.
Lemma user_va_ok va : user_va va -> va_ok va.
Proof.
  unfold user_va. intros Hva. assert (va < 2 ^ 32) by jlia. split; [lia|].
  rewrite !PML4_eq. unfold UVPT. Z.div_mod_to_equations. lia.
Qed.
Lemma good_user_va va : bad_va va = false -> 0 <= va -> user_va va.
Proof. intros H1 H2. by destruct (good_va va H1 H2) as (_ & ? & _). Qed.

(** Every address space is a tree of tables, and the tables for user addresses belong
    to one address space only. *)
Record tables_ok (roots : Z -> Prop) (m : bytes) (np : Z) (l : list Z) : Prop := {
  to_pt : forall r, roots r -> pt_wf m np l r;
  to_own : forall r r' va p f, roots r -> roots r' -> r <> r' -> user_va va -> p `prefix_of` va_path va ->
    tbl m r p = Some f -> data_page m r' f
}.

Lemma tables_ok_kept roots m m' np l :
  (forall r, roots r -> tables_kept m m' r) -> tables_ok roots m np l -> tables_ok roots m' np l.
Proof.
  intros Hk [Hpt Hown]. split.
  - intros r Hr. eapply pt_wf_kept; [by apply Hpt|by apply Hk|by left].
  - intros r r' va p f Hr Hr' Hne Hva Hp Hf. apply (kept_data m m'); [by apply Hk|].
    rewrite (kept_tbl m m') in Hf; [eauto|by apply Hk|]. by apply (prefix_tpath p va (user_va_ok va Hva)).
Qed.

(** One address space gets tables from the free list. *)
Lemma tables_ok_grow roots m m' np l l' r0 :
  tables_ok roots m np l -> pt_wf m' np l' r0 ->
  (forall p g, tpath p -> tbl m' r0 p = Some g -> g ∉ l -> tbl m r0 p = Some g) ->
  (forall r, roots r -> r <> r0 -> tables_kept m m' r /\ pt_wf m np l' r) ->
  tables_ok roots m' np l'.
Proof.
  intros [Hpt Hown] Hpt0 Hinv Hoth.
  assert (forall r q f, roots r -> tpath q -> tbl m r q = Some f -> f ∉ l) as Hnl
    by (intros; by eapply (pt_range _ _ _ _ (Hpt _ ltac:(done)))).
  split.
  - intros r Hr. destruct (decide (r = r0)) as [->|Hne]; [done|]. destruct (Hoth r Hr Hne) as [Hk Hp].
    eapply pt_wf_kept; [exact Hp|exact Hk|by left].
  - intros r r' va p f Hr Hr' Hne Hva Hp Hf q Hq Hf'.
    assert (tpath p) as Hpp by by apply (prefix_tpath p va (user_va_ok va Hva)).
    destruct (decide (r = r0)) as [->|Hn]; [|destruct (decide (r' = r0)) as [->|Hn']].
    + rewrite (kept_tbl m m') in Hf' by (done || by apply Hoth). apply Hinv in Hf; [|done|by eapply (Hnl r' q)].
      by apply (Hown r0 r' va p f Hr Hr' Hne Hva Hp Hf q).
    + rewrite (kept_tbl m m') in Hf by (done || by apply Hoth). apply Hinv in Hf'; [|done|by eapply (Hnl r p)].
      by apply (Hown r r0 va p f Hr Hr' Hne Hva Hp Hf q).
    + rewrite (kept_tbl m m') in Hf, Hf' by (done || by apply Hoth).
      by apply (Hown r r' va p f Hr Hr' Hne Hva Hp Hf q).
Qed.

(** What a memory call may change: what the page tables and the allocator change, and
    the console, where envid2env prints messages. *)
Definition call_frame (s s' : kstate) : Prop :=
  s' = s <| mem := mem s' |> <| pages := pages s' |> <| page_free_list := page_free_list s' |>
         <| invlpgs := invlpgs s' |> <| cons := cons s' |>.
#[export] Instance call_frame_refl : Reflexive call_frame.
Proof. intros []. reflexivity. Qed.
#[export] Instance call_frame_trans : Transitive call_frame.
Proof. intros s1 s2 s3 H12 H23. unfold call_frame in *. rewrite H23, H12. reflexivity. Qed.
Lemma vm_call_frame s s' : vm_frame s s' -> call_frame s s'.
Proof. unfold vm_frame, call_frame. intros ->. by destruct s. Qed.
Lemma cons_call_frame s c : call_frame s (s <| cons := c |>).
Proof. by destruct s. Qed.
Lemma call_frame_fields s s' :
  call_frame s s' ->
  npages s' = npages s /\ envs s' = envs s /\ cpu_env s' = cpu_env s /\ cpunum s' = cpunum s /\ cr3 s' = cr3 s.
Proof. intros H. unfold call_frame in H. rewrite H. done. Qed.
#[local] Hint Resolve vm_call_frame cons_call_frame : core.

(** envid2env reads nothing that memory calls change. *)
Definition env_refused (envid : Z) (s : kstate) : Prop :=
  exists c, envid2env envid true s = Ret (- E_BAD_ENV, None) (s <| cons := c |>).

(** What the answer depends on; [None] where the code reads outside the array. *)
Definition permitted (s : kstate) (envid : Z) : option bool :=
  match envs s !! ENVX envid with
  | None => None
  | Some v =>
      if bool_decide (env_status v = ENV_FREE) || negb (env_id v =? envid) then Some false
      else if bool_decide (cpu_env s !! cpunum s = Some (ENVX envid)) then Some true
      else
        match cpu_env s !! cpunum s with
        | None => None
        | Some c =>
            match envs s !! c with Some cv => Some (env_parent_id v =? env_id cv) | None => None end
        end
  end.

Lemma envid2env_permitted s envid :
  envid <> 0 ->
  match permitted s envid with
  | Some true => envid2env envid true s = Ret (0, Some (ENVX envid)) s
  | Some false => env_refused envid s
  | None => envid2env envid true s = Stop Undefined s
  end.
Proof.
  intros Hne. unfold permitted, env_refused, envid2env. destruct (Z.eqb_spec envid 0); [done|].
  destruct (envs s !! ENVX envid) as [v|] eqn:Hv.
  2:{ apply bind_Stop. unfold get_env. by rewrite Hv. }
  erewrite bind_Ret by by apply get_env_ok.
  destruct (_ || _). { prints c1. prints c2. by exists c2. }
  erewrite bind_Ret by apply curenv_eq. destruct (bool_decide _); [done|]. cbn [andb negb].
  destruct (cpu_env s !! cpunum s) as [c|] eqn:Hc.
  2:{ apply bind_Stop, bind_Stop. unfold the_curenv, curenv, gets, mbind, M_bind. by rewrite Hc. }
  destruct (envs s !! c) as [cv|] eqn:Hcv.
  2:{ apply bind_Stop. erewrite bind_Ret by by apply the_curenv_ok. apply bind_Stop. unfold get_env. by rewrite Hcv. }
  rewrite (bind_Ret _ _ s (negb (env_parent_id v =? env_id cv)) s).
  2:{ erewrite bind_Ret by by apply the_curenv_ok. by erewrite bind_Ret by by apply get_env_ok. }
  destruct (_ =? _); cbn [negb]; [done|]. prints c1. by exists c1.
Qed.

Lemma envid2env_frame s s' envid :
  call_frame s s' ->
  (forall e, envid2env envid true s = Ret (0, Some e) s -> envid2env envid true s' = Ret (0, Some e) s') /\
  (env_refused envid s -> env_refused envid s').
Proof.
  intros (_ & He & Hc & Hn & _)%call_frame_fields. destruct (decide (envid = 0)) as [->|Hne].
  { unfold env_refused. rewrite !envid2env_zero, Hc, Hn. split; [congruence|]. by intros [c [= ?]]. }
  pose proof (envid2env_permitted s envid Hne) as H. pose proof (envid2env_permitted s' envid Hne) as H'.
  assert (permitted s' envid = permitted s envid) as E by (unfold permitted; by rewrite He, Hc, Hn).
  rewrite E in H'. unfold env_refused in *.
  destruct (permitted s envid) as [[]|]; split; (intros e He1 || intros [c He1]);
    first [done|destruct H; congruence|congruence].
Qed.

(** ** The representation *)
Section space.
Context (roots : Z -> Prop) (sp : Z -> option Z) (outside : Z -> Z).
Abbreviation root r := (r * 4096 + KERNBASE).

(** What the ids name. *)
Definition named_ok (s : kstate) : Prop :=
  forall envid,
    match sp envid with
    | Some r => roots r /\ exists e v,
        envid2env envid true s = Ret (0, Some e) s /\ envs s !! e = Some v /\ env_pml4e v = root r
    | None => env_refused envid s
    end.

(** The page tables are the map; no mapped page is free or a page table; its
    reference count is the number of its mappings and of the references from
    elsewhere; its bytes are in memory. *)
Record space_ok (s : kstate) (l : list Z) (A : vspace) : Prop := {
  so_wf : pmap_wf s l;
  so_tables : tables_ok roots (mem s) (npages s) l;
  so_cur : curenv_ok s;
  so_named : named_ok s;
  so_zero : 0 ∉ l;
  so_zref : ref s 0 = zero_refs A;
  so_free : forall p, p ∈ l -> outside p = 0;
  so_pte : forall r va, roots r -> user_va va -> pte_of (mem s) r va = default 0 (entries A !! (r, VPN va));
  so_used : forall k e, entries A !! k = Some e ->
    e <> 0 /\ 0 < e / 4096 < npages s /\ e / 4096 ∉ l /\ forall r, roots r -> data_page (mem s) r (e / 4096);
  so_ref : forall k e, entries A !! k = Some e -> ref s (e / 4096) = uses (entries A) (e / 4096) + outside (e / 4096);
  so_bytes : forall k e a, entries A !! k = Some e -> a / 4096 = e / 4096 -> ld8 (mem s) a = contents A a
}.

Hypothesis outside_nonneg : forall p, 0 <= outside p.

Lemma so_pt s l A r : space_ok s l A -> roots r -> pt_wf (mem s) (npages s) l r.
Proof. intros H. apply H. Qed.

Lemma so_mapped s l A r va : roots r -> user_va va -> space_ok s l A -> mapped_ok r s l va.
Proof.
  intros Hr Hva H. unfold mapped_ok. rewrite (so_pte _ _ _ H r va Hr Hva).
  destruct (entries A !! (r, VPN va)) as [e|] eqn:He; [|done]. intros _.
  destruct (so_used _ _ _ H _ _ He) as (_ & ? & ? & ?). cbn. split_and!; [lia|done|auto].
Qed.

Lemma named_frame s s' : call_frame s s' -> named_ok s -> named_ok s'.
Proof.
  intros Hf H envid. specialize (H envid). destruct (call_frame_fields _ _ Hf) as (_ & He & _).
  destruct (envid2env_frame s s' envid Hf) as [H1 H2].
  destruct (sp envid) as [r|]; [|by apply H2]. destruct H as (Hr & e & v & Hen & Hv & Hp).
  split; [done|]. exists e, v. rewrite He. split_and!; try done. by apply H1.
Qed.

(** Messages on the console are of no concern. *)
Lemma space_ok_cons s l A c : space_ok s l A -> space_ok (s <| cons := c |>) l A.
Proof.
  intros [Hwf Ht Hc Hen H0 Hz Hf Hpte Hu Href Hby]. split; try done.
  - by eapply wf_proper, Hwf.
  - by eapply named_frame, Hen.
Qed.

(** *** When no table changes and mapped pages keep their bytes, nothing is seen *)
Lemma space_ok_kept s l s' l' A bytes' zrefs :
  space_ok s l A -> pmap_wf s' l' -> vm_frame s s' -> (forall p, p ∈ l' -> p ∈ l) ->
  (forall r, roots r -> tables_kept (mem s) (mem s') r) ->
  (forall p, p ∉ l -> p <> 0 -> ref s' p = ref s p) -> ref s' 0 = zrefs ->
  (forall k e a, entries A !! k = Some e -> a / 4096 = e / 4096 -> ld8 (mem s') a = bytes' a) ->
  space_ok s' l' (mkVspace (entries A) bytes' zrefs).
Proof.
  intros [Hwf Ht Hc Hen H0 Hz Hf Hpte Hu Href Hby] Hwf' Hfr Hl Hk Hrf Hz' Hb.
  destruct (vm_frame_fields _ _ Hfr) as (Hn & _).
  assert (forall p, p ∉ l -> p ∉ l') as Hnl by auto.
  split; try done; rewrite ?Hn.
  - apply (tables_ok_kept _ (mem s)); [done|]. destruct Ht as [Hpt Hown]. split; [|done].
    intros r Hr. apply (pt_wf_kept (mem s) (mem s) _ l); auto. done.
  - by eapply curenv_ok_frame.
  - eapply named_frame; [by apply vm_call_frame|done].
  - auto.
  - auto.
  - intros r va Hr Hva. rewrite <- Hpte by done. apply kept_pte; [auto|by apply user_va_ok].
  - intros k e Hke. destruct (Hu k e Hke) as (? & ? & ? & Hd). split_and!; try (done || lia); [auto|].
    intros r Hr. apply (kept_data (mem s)); [|auto]. auto.
  - intros k e Hke. destruct (Hu k e Hke) as (_ & ? & ? & _). rewrite Hrf by (done || lia). by apply (Href k).
Qed.

Lemma space_ok_fail s l s' A : fail_rel s l s' -> space_ok s l A -> space_ok s' l A.
Proof.
  intros [Hwf Hfr _ Hb Hpg] H. destruct A as [E c z]. apply (space_ok_kept s l s' l (mkVspace E c z)); try done.
  - intros r Hr. eapply kept_outside; [by eapply so_pt|done].
  - intros p Hp _. unfold ref. by rewrite Hpg.
  - transitivity (ref s 0); [|apply H]. unfold ref. rewrite Hpg; [done|apply H].
  - intros k e a Hke Ha. rewrite Hb; [by eapply (so_bytes _ _ _ H)|]. rewrite Ha. by apply (so_used _ _ _ H k e).
Qed.

(** The contents of a page that is not mapped are of no concern. *)
Lemma space_ok_contents s l A p :
  uses (entries A) p = 0 -> space_ok s l (zero_page A p) -> space_ok s l A.
Proof.
  intros Hp [? ? ? ? ? ? ? ? ? ? Hby]. split; try done. intros n e a Hne Ha.
  rewrite (Hby n e a Hne Ha). cbn. rewrite decide_False; [done|]. rewrite Ha. by eapply uses_zero.
Qed.

(** *** page_insert *)
(** Permissions that fit an entry and include PTE_P. *)
Definition flags_ok (perm : Z) : Prop := 0 <= perm < 4096 /\ Z.lor perm PTE_P = perm.

Lemma good_entry pp perm : flags_ok perm -> 0 <= pp < 65536 ->
  Z.lor (pp * 4096) (u64 (Z.lor perm PTE_P)) = pp * 4096 + perm /\
  (pp * 4096 + perm) / 4096 = pp /\ pp * 4096 + perm <> 0.
Proof.
  intros [Hpr HpP] Hpp. rewrite HpP, wrap_small by lia.
  assert (perm <> 0) by (intros ->; by rewrite Z.lor_0_l in HpP).
  split_and!; [|Z.div_mod_to_equations; lia|lia].
  apply (lor_low_add _ _ 12); [lia|Z.div_mod_to_equations; lia|done].
Qed.

(** The page that page_insert replaces, in terms of the map. *)
Lemma so_old s l A r va :
  roots r -> user_va va -> space_ok s l A ->
  match entries A !! (r, VPN va) with
  | Some o => pte_of (mem s) r va = o /\ o <> 0
  | None => pte_of (mem s) r va = 0
  end.
Proof.
  intros Hr Hva H. rewrite (so_pte _ _ _ H r va Hr Hva).
  destruct (entries A !! (r, VPN va)) as [o|] eqn:Ho; [|done].
  split; [done|]. by apply (so_used _ _ _ H _ _ Ho).
Qed.

Section insert.
Context (s s' : kstate) (l l' : list Z) (A : vspace) (r va pp perm : Z).
Hypothesis Hr : roots r.
Hypothesis Hva : user_va va.
Hypothesis Hso : space_ok s l A.
Hypothesis Hpp : 0 < pp < npages s.
Hypothesis Hppl : pp ∉ l.
Hypothesis Hppd : forall r', roots r' -> data_page (mem s) r' pp.
Hypothesis Hperm : flags_ok perm.
Hypothesis Hppr : ref s pp = uses (entries A) pp + outside pp.
Hypothesis Hroom : ref s pp < 65535.
Hypothesis Hppb : forall a, a / 4096 = pp -> ld8 (mem s) a = contents A a.
Hypothesis Hins : insert_rel r va pp perm s l s' l'.

(** The count of a page that stays mapped. *)
Lemma insert_count i :
  i ∉ l -> ref s i = uses (entries A) i + outside i -> 0 <= ref s i < 65536 ->
  ref s' i = uses (<[(r, VPN va) := pp * 4096 + perm]> (entries A)) i + outside i.
Proof.
  intros Hi Hri Hrng. pose proof (wf_npages _ _ (so_wf _ _ _ Hso)) as Hnp.
  rewrite (ir_ref _ _ _ _ _ _ _ _ Hins i Hi), uses_insert.
  destruct (good_entry pp perm Hperm ltac:(lia)) as (_ & -> & _).
  pose proof (so_old s l A r va Hr Hva Hso) as Ho. pose proof (outside_nonneg i).
  pose proof (uses_nonneg (entries A) i).
  destruct (entries A !! (r, VPN va)) as [o|] eqn:Eo.
  - destruct Ho as [-> Hne]. pose proof (uses_pos _ _ _ Eo) as Hup.
    repeat case_decide; subst; try lia; try tauto; rewrite wrap_small; lia.
  - rewrite Ho, Zdiv_0_l. repeat case_decide; subst; try lia; try tauto; rewrite wrap_small; lia.
Qed.

(** Physical page 0 is not concerned. *)
Lemma insert_zero_ref : ref s' 0 = ref s 0.
Proof.
  rewrite (ir_ref _ _ _ _ _ _ _ _ Hins 0 (so_zero _ _ _ Hso)).
  case_decide; [done|]. rewrite decide_False by lia. rewrite decide_False; [done|]. intros [E Hne].
  pose proof (so_old s l A r va Hr Hva Hso) as Ho. destruct (entries A !! (r, VPN va)) as [o|] eqn:Eo; [|done].
  destruct Ho as [Ho _]. rewrite Ho in E. destruct (so_used _ _ _ Hso _ _ Eo) as (_ & ? & _). lia.
Qed.

(** A page that becomes free has no mapping left. *)
Lemma insert_freed i :
  i ∉ l -> i ∈ l' -> i <> 0 /\ i <> pp /\ outside i = 0 /\
    (forall r', roots r' -> data_page (mem s) r' i) /\
    uses (<[(r, VPN va) := pp * 4096 + perm]> (entries A)) i = 0.
Proof.
  intros Hi Hi'. pose proof (wf_npages _ _ (so_wf _ _ _ Hso)) as Hnp.
  destruct (ir_free _ _ _ _ _ _ _ _ Hins) as (l1 & Hs1 & Hl1).
  pose proof (suffix_not_in _ _ _ Hs1 Hi) as Hi1.
  pose proof (so_old s l A r va Hr Hva Hso) as Ho. rewrite Hl1 in Hi'. case_decide as Hd; [|done].
  apply elem_of_cons in Hi' as [Hi'|]; [|done].
  destruct (entries A !! (r, VPN va)) as [o|] eqn:Eo; [|tauto]. destruct Ho as [Ho Hne]. rewrite Ho in *.
  destruct Hd as (_ & Hne' & Hr1). pose proof (so_ref _ _ _ Hso _ _ Eo) as Hrf. rewrite Hr1 in Hrf.
  pose proof (uses_pos _ _ _ Eo). pose proof (outside_nonneg (o / 4096)). subst i.
  destruct (so_used _ _ _ Hso _ _ Eo) as (_ & ? & _ & Hdat).
  split_and!; [lia|done|lia|done|]. rewrite uses_insert, Eo.
  destruct (good_entry pp perm Hperm ltac:(lia)) as (_ & -> & _).
  rewrite decide_False, decide_True by done. lia.
Qed.

Lemma insert_entry k e :
  <[(r, VPN va) := pp * 4096 + perm]> (entries A) !! k = Some e ->
  e <> 0 /\ (e / 4096 = pp \/ exists k, entries A !! k = Some e).
Proof.
  pose proof (wf_npages _ _ (so_wf _ _ _ Hso)).
  destruct (good_entry pp perm Hperm ltac:(lia)) as (_ & Hd & Hz).
  intros [[_ <-]|[_ He]]%lookup_insert_Some; [by split; [|left]|].
  split; [by apply (so_used _ _ _ Hso _ _ He)|right; eauto].
Qed.

(** The tables of the other address spaces. *)
Lemma insert_others r' : roots r' -> r' <> r -> tables_kept (mem s) (mem s') r' /\ pt_wf (mem s) (npages s) l' r'.
Proof.
  intros Hr' Hne. pose proof (so_pt _ _ _ r' Hso Hr') as Hpt. split.
  - intros q f a Hq Hf <-. apply (ir_bytes _ _ _ _ _ _ _ _ Hins); [by eapply (pt_range _ _ _ _ Hpt)|].
    intros p Hp Hp'. by eapply (to_own _ _ _ _ (so_tables _ _ _ Hso) r r' va p).
  - apply (pt_wf_kept (mem s) (mem s) _ l); [done|done|]. intros p Hp.
    destruct (decide (p ∈ l)) as [|Hn]; [by left|right]. by apply (insert_freed p Hn Hp).
Qed.

Lemma insert_tables : tables_ok roots (mem s') (npages s') l'.
Proof.
  destruct (vm_frame_fields _ _ (ir_frame _ _ _ _ _ _ _ _ Hins)) as (Hn & _).
  pose proof (ir_pt _ _ _ _ _ _ _ _ Hins) as Hpt. rewrite Hn in *.
  eapply (tables_ok_grow roots (mem s) _ _ l _ r); [apply Hso|done|apply Hins|apply insert_others].
Qed.

Lemma insert_refines : space_ok s' l' (map_at A r va (pp * 4096 + perm)).
Proof.
  pose proof (wf_npages _ _ (so_wf _ _ _ Hso)) as Hnp.
  destruct (good_entry pp perm Hperm ltac:(lia)) as (Hlor & Hdiv & _).
  pose proof Hins as [Hwf' Hpt' Hfr Hpte _ _ _ _ _ _].
  destruct (vm_frame_fields _ _ Hfr) as (Hn & _).
  assert (forall k e, <[(r, VPN va) := pp * 4096 + perm]> (entries A) !! k = Some e ->
    0 < e / 4096 < npages s /\ e / 4096 ∉ l /\ (forall r', roots r' -> data_page (mem s) r' (e / 4096)) /\
    ref s (e / 4096) = uses (entries A) (e / 4096) + outside (e / 4096) /\
    (forall a, a / 4096 = e / 4096 -> ld8 (mem s) a = contents A a)) as Hall.
  { intros k e [_ [->|[k' Hk]]]%insert_entry; [done|].
    destruct (so_used _ _ _ Hso _ _ Hk) as (_ & ? & ? & ?). split_and!; try done; try lia.
    - by eapply so_ref.
    - intros a. by eapply so_bytes. }
  split; try done.
  - apply insert_tables.
  - eapply curenv_ok_frame, Hso. done.
  - eapply named_frame, Hso. by apply vm_call_frame.
  - intros Hin. by destruct (insert_freed 0 (so_zero _ _ _ Hso) Hin).
  - rewrite insert_zero_ref. apply Hso.
  - intros p Hp. destruct (decide (p ∈ l)) as [|Hni]; [by eapply so_free|]. by apply insert_freed.
  - intros r' va' Hr' Hva'. cbn. destruct (decide (r' = r)) as [->|Hne].
    + rewrite Hpte by by apply user_va_ok. destruct (decide (VPN va' = VPN va)) as [->|E].
      * by rewrite lookup_insert_eq.
      * rewrite lookup_insert_ne by congruence. by eapply so_pte.
    + rewrite lookup_insert_ne by congruence. rewrite <- (so_pte _ _ _ Hso) by done.
      apply kept_pte; [by apply insert_others|by apply user_va_ok].
  - cbn. intros k e He. destruct (Hall k e He) as (? & Hnl & Hd & ? & _). rewrite Hn.
    split_and!; [by eapply insert_entry|lia..| |].
    + intros Hin. destruct (insert_freed _ Hnl Hin) as (_ & _ & _ & _ & Hz). by eapply uses_zero.
    + intros r' Hr'. destruct (decide (r' = r)) as [->|Hne]; [eapply ir_data; by auto|].
      apply (kept_data (mem s)); [by apply insert_others|auto].
  - cbn. intros k e He. destruct (Hall k e He) as (? & Hnl & ? & ? & _). apply insert_count; try done.
    destruct (wf_page s l (e / 4096) (so_wf _ _ _ Hso)) as [pg Hpg]; [lia|].
    unfold ref. rewrite Hpg. by eapply (wf_ref _ _ (so_wf _ _ _ Hso)).
  - cbn. intros k e a He Ha. destruct (Hall k e He) as (? & Hnl & Hd & _ & Hby).
    rewrite <- Hby by done. eapply ir_data_bytes; [by apply user_va_ok|done|by rewrite Ha|rewrite Ha; auto].
Qed.
End insert.

Lemma near_path va va' : VPN va' / 512 = VPN va / 512 -> va_path va' = va_path va.
Proof.
  unfold VPN, PPN, PTXSHIFT, va_path. rewrite !Z.shiftr_div_pow2, !Z.div_div by lia. change (2 ^ 12 * 512) with 2097152.
  intros H. rewrite !PML4_eq, !PDPE_eq, !PDX_eq.
  assert (forall k a, 0 < k -> a / (2097152 * k) = a / 2097152 / k) as E by (intros; by rewrite Z.div_div).
  change 549755813888 with (2097152 * 262144). change 1073741824 with (2097152 * 512). by rewrite !E, H.
Qed.

(** page_insert of a page of which the map knows the count and the bytes. *)
Lemma page_insert_refines s l A r va pp perm :
  roots r -> user_va va -> space_ok s l A -> 0 < pp < npages s -> pp ∉ l ->
  (forall r', roots r' -> data_page (mem s) r' pp) ->
  flags_ok perm -> ref s pp = uses (entries A) pp + outside pp -> ref s pp < 65535 ->
  (forall a, a / 4096 = pp -> ld8 (mem s) a = contents A a) ->
  wp (page_insert (root r) pp va perm) s (fun res s' =>
    (res = 0 /\ vm_frame s s' /\ exists l', space_ok s' l' (map_at A r va (pp * 4096 + perm)) /\
      ((forall o, entries A !! (r, VPN va) = Some o -> o / 4096 = pp) -> l' `suffix_of` l) /\
      (length l <= length l' + 3)%nat) \/
    (res = - E_NO_MEM /\ fail_rel s l s' /\ no_near A r va /\ (length l < 3)%nat)).
Proof.
  intros Hr Hva Hso Hpp Hppl Hd Hperm Hrf Hroom Hb.
  wuse (page_insert_spec r s l va pp perm (user_va_ok va Hva) (so_wf _ _ _ Hso) (so_pt _ _ _ r Hso Hr)
    (so_cur _ _ _ Hso) Hpp Hppl (Hd r Hr)).
  { by eapply so_mapped. }
  intros res s' [(-> & l' & Hins)|(-> & Hf & Hno & Hshort)]; [left|right].
  - split_and!; [done|apply Hins|]. exists l'. split; [by eapply insert_refines|]. split; [|apply Hins]. intros Hold.
    destruct (ir_free _ _ _ _ _ _ _ _ Hins) as (l1 & Hs1 & ->). rewrite decide_False; [done|]. intros (Hnz & Hnp & _).
    pose proof (so_old s l A r va Hr Hva Hso) as Ho. destruct (entries A !! (r, VPN va)) as [o|]; [|done].
    destruct Ho as [Ho _]. rewrite Ho in Hnp. by apply Hnp, Hold.
  - split_and!; [done|done| |done]. intros va' Hva' Hnear. pose proof (so_old s l A r va' Hr Hva' Hso) as Ho.
    unfold pte_of in Ho. rewrite (near_path va va'), Hno in Ho by done.
    destruct (entries A !! (r, VPN va')); [|done]. destruct Ho. congruence.
Qed.

(** *** Taking a page *)
Lemma ld8_clear_page m p a :
  ld8 (memset m (p * 4096) 0 PGSIZE) a = if decide (a / 4096 = p) then 0 else ld8 m a.
Proof.
  rewrite ld8_memset by (unfold PGSIZE; lia). unfold PGSIZE.
  repeat case_decide; try done; exfalso; Z.div_mod_to_equations; lia.
Qed.

Lemma page_alloc_refines s l p A :
  space_ok s (p :: l) A ->
  wp (page_alloc ALLOC_ZERO) s (fun res s' => res = Some p /\ vm_frame s s' /\ space_ok s' l (zero_page A p) /\
    uses (entries A) p = 0 /\ 0 < p < npages s' /\ p ∉ l /\ (forall r, roots r -> data_page (mem s') r p) /\
    pages s' !! p = Some (mkPage None 0) /\ outside p = 0 /\
    (forall a, a / 4096 = p -> ld8 (mem s') a = 0)).
Proof.
  intros Hso. pose proof (so_wf _ _ _ Hso) as Hwf.
  pose proof (wf_npages _ _ Hwf). pose proof (wf_free_range _ _ p Hwf (list_elem_of_here _ _)).
  pose proof (wf_nodup _ _ Hwf) as [Hnin _]%NoDup_cons.
  assert (p <> 0) by (pose proof (so_zero _ _ _ Hso); set_solver).
  assert (uses (entries A) p = 0) as Hz.
  { apply uses_none. intros n e Hne <-. destruct (so_used _ _ _ Hso n e Hne) as (_ & _ & Hno & _). apply Hno. left. }
  wuse (page_alloc_cons s ALLOC_ZERO p l Hwf). intros res s1 (-> & Hwf1 & Hfr1 & Htlb1 & Hpg1 & Hm1).
  change (zeroing ALLOC_ZERO) with true in Hm1. cbn beta iota in Hm1.
  destruct (vm_frame_fields _ _ Hfr1) as (Hn1 & _).
  assert (forall a, ld8 (mem s1) a = if decide (a / 4096 = p) then 0 else ld8 (mem s) a) as Hb
    by (intros; rewrite Hm1; apply ld8_clear_page).
  assert (forall r, roots r -> tables_kept (mem s) (mem s1) r) as Hk.
  { intros r Hr. eapply kept_outside; [by eapply so_pt|]. intros a Ha. rewrite Hb, decide_False; [done|set_solver]. }
  split_and!; try done; try lia.
  - apply (space_ok_kept s (p :: l)); try done.
    + intros q Hq. by right.
    + intros q [? ?]%not_elem_of_cons _. unfold ref. by rewrite Hpg1, lookup_insert_ne.
    + rewrite <- (so_zref _ _ _ Hso). unfold ref. by rewrite Hpg1, lookup_insert_ne.
    + intros k e a Hke Ha. rewrite Hb. case_decide; [done|]. by eapply (so_bytes _ _ _ Hso).
  - intros r Hr. apply (kept_data (mem s)); [by apply Hk|]. eapply free_data_page; [by eapply so_pt|left].
  - rewrite Hpg1. apply lookup_insert_eq.
  - apply (so_free _ _ _ Hso). left.
  - intros a Ha. by rewrite Hb, decide_True.
Qed.

(** Giving back a page that was taken and not used. *)
Lemma space_ok_give_back s l p A :
  space_ok s l A -> pages s !! p = Some (mkPage None 0) -> p ∉ l -> p <> 0 ->
  outside p = 0 -> uses (entries A) p = 0 -> (forall r, roots r -> data_page (mem s) r p) ->
  wp (page_free p) s (fun _ s' => vm_frame s s' /\ space_ok s' (p :: l) A).
Proof.
  intros [Hwf [Hpt Hown] Hc He H0 Hzr Hf Hpte Hu Href Hby] Hp Hnin Hpz Hpo Hz Hd.
  wuse (page_free_spec s l p _ Hwf Hp). intros _ s3. cbn [pp_ref].
  rewrite decide_False by tauto. intros [Hwf3 Hs3]. rewrite Hs3 in Hwf3 |- *. split; [done|].
  split; cbn; try done.
  - split; [|done]. intros r Hr. apply pt_wf_free; auto.
  - by eapply named_frame, He.
  - by apply not_elem_of_cons.
  - rewrite <- Hzr. unfold ref. cbn. by rewrite lookup_insert_ne.
  - intros q [->|?]%elem_of_cons; auto.
  - intros n e Hne. destruct (Hu n e Hne) as (? & ? & ? & ?). split_and!; try (done || lia).
    intros [E|?]%elem_of_cons; [|done]. by eapply uses_zero.
  - intros n e Hne. rewrite <- (Href n e Hne). unfold ref. cbn. rewrite lookup_insert_ne; [done|].
    intros E. by eapply uses_zero.
Qed.

(** *** page_remove of a mapped address deletes it from the map *)
Lemma page_remove_refines s l A r va e :
  space_ok s l A -> roots r -> user_va va -> entries A !! (r, VPN va) = Some e ->
  wp (page_remove (root r) va) s (fun _ s' => vm_frame s s' /\ exists l', space_ok s' l' (unmap_at A r va) /\ (length l <= length l')%nat).
Proof.
  intros Hso Hr Huv He. pose proof Hso as [Hwf Ht Hc Hen H0 Hzr Hf Hpte Hu Href Hby].
  pose proof (user_va_ok va Huv) as Hva. pose proof (to_pt _ _ _ _ Ht r Hr) as Hpt.
  destruct (Hu _ _ He) as (Hne & Hp & Hpl & Hd). pose proof (wf_npages _ _ Hwf).
  destruct (wf_page s l (e / 4096) Hwf) as [pg Hpg]; [lia|].
  assert (pte_of (mem s) r va = e) as Hpe by by rewrite Hpte, He.
  assert (ref s (e / 4096) = pp_ref pg) as Hrf by (unfold ref; by rewrite Hpg).
  pose proof (Href _ _ He) as Hr1. pose proof (uses_pos _ _ _ He). pose proof (outside_nonneg (e / 4096)).
  pose proof (wf_ref _ _ Hwf _ _ Hpg) as Hrng.
  wuse (page_remove_spec r s l va (e / 4096) pg); try done; [congruence|by rewrite Hpe|by apply Hd|].
  intros _ s' (l' & Hwf' & Hpt' & Hfr & (g & Hg & Hm) & Hl' & Href' & _).
  destruct (vm_frame_fields _ _ Hfr) as (Hn & _). rewrite Hn in Hpt'.
  assert (leaf_upd r va g (mem s) (mem s')) as Hup by (rewrite Hm; eapply leaf_upd_st; [exact Hpt|done|done|lia]).
  assert (forall p, uses (delete (r, VPN va) (entries A)) p = uses (entries A) p - if decide (e / 4096 = p) then 1 else 0)
    as Hud by (intros; by apply uses_delete).
  assert (forall r', roots r' -> r' <> r -> tables_kept (mem s) (mem s') r') as Hk.
  { intros r' Hr' Hnr q f a Hq Hfq Ha. apply (lu_bytes _ _ _ _ _ Hup). rewrite Ha. intros ->.
    by apply (to_own _ _ _ _ Ht r r' va (va_path va) g Hr Hr' (not_eq_sym Hnr) Huv (reflexivity _) Hg q). }
  assert (forall p, p ∈ l' -> p = e / 4096 /\ ref s p = 1 \/ p ∈ l) as Hin.
  { intros p. subst l'. case_decide; [|by right]. intros [->|?]%elem_of_cons; [left; split; [done|congruence]|by right]. }
  split; [done|]. exists l'. split; [|subst l'; case_decide; simpl; lia]. split; try done; rewrite ?Hn.
  - eapply (tables_ok_grow roots (mem s) _ _ l _ r); [done..| |].
    + intros p q Hq Hpq _. by rewrite (lu_tbl _ _ _ _ _ Hup) in Hpq.
    + intros r' Hr' Hnr. split; [by apply Hk|]. apply (pt_wf_kept (mem s) (mem s) _ l); [by apply Ht|done|].
      intros q [[-> _]|?]%Hin; [right; auto|by left].
  - by eapply curenv_ok_frame.
  - eapply named_frame; [by apply vm_call_frame|done].
  - intros [[? _]|?]%Hin; [lia|done].
  - rewrite Href', decide_False by lia. done.
  - intros p [[-> ?]|?]%Hin; [lia|by apply Hf].
  - intros r' va' Hr' Hva'. pose proof (user_va_ok va' Hva'). cbn. destruct (decide (r' = r)) as [->|Hnr].
    + destruct (decide (VPN va' = VPN va)) as [E|E].
      * rewrite E, lookup_delete_eq, (pte_of_leaf r _ va va' g E).
        -- rewrite Hm, pte_at_st, decide_True; done || apply index_ranges || lia.
        -- rewrite (lu_tbl _ _ _ _ _ Hup); [done|by apply va_path_tpath].
      * rewrite lookup_delete_ne by congruence. rewrite <- Hpte by done. by apply Hup.
    + rewrite lookup_delete_ne by congruence. rewrite <- Hpte by done. apply kept_pte; auto.
  - cbn. intros k e' [Hnn Hn']%lookup_delete_Some. destruct (Hu k e' Hn') as (? & ? & ? & Hde).
    split_and!; try (done || lia).
    + intros [[E Hone]|?]%Hin; [|done]. rewrite E in Hone.
      pose proof (uses_pos (delete (r, VPN va) (entries A)) k e') as Hup2. rewrite lookup_delete_ne in Hup2 by done.
      specialize (Hup2 Hn'). rewrite Hud, E, decide_True in Hup2 by done. lia.
    + intros r' Hr'. destruct (decide (r' = r)) as [->|Hnr]; [eapply leaf_upd_data; by auto|].
      apply (kept_data (mem s)); auto.
  - cbn. intros k e' [Hnn Hn']%lookup_delete_Some. rewrite Href', Hud, (Href k e' Hn').
    destruct (decide (e' / 4096 = e / 4096)) as [E|E].
    + rewrite decide_True by done. rewrite E in *. rewrite wrap_small by lia. lia.
    + rewrite decide_False by done. lia.
  - cbn. intros k e' a [_ Hn']%lookup_delete_Some Ha. destruct (Hu k e' Hn') as (_ & _ & Hnl & Hdp).
    rewrite (lu_bytes _ _ _ _ _ Hup); [by eapply Hby|]. rewrite Ha. intros <-.
    by apply (Hdp r Hr (va_path va) (va_path_tpath va Hva)).
Qed.

(** *** page_remove where nothing is mapped takes a reference from page 0, if the
    address has a table *)
Lemma page_remove_absent s l A r va :
  space_ok s l A -> roots r -> user_va va -> entries A !! (r, VPN va) = None -> zero_refs A <> 1 ->
  wp (page_remove (root r) va) s (fun _ s' =>
    vm_frame s s' /\ (space_ok s' l A \/ space_ok s' l (drop_zero_ref A))).
Proof.
  intros Hso Hr Huv He Hz1. pose proof (user_va_ok va Huv) as Hva. pose proof (so_pt _ _ _ r Hso Hr) as Hpt.
  pose proof (so_wf _ _ _ Hso) as Hwf. pose proof (wf_npages _ _ Hwf).
  pose proof (pt_range _ _ _ _ Hpt [] r tpath_nil eq_refl) as [Hr0 _].
  assert (pte_of (mem s) r va = 0) as Hpe by by rewrite (so_pte _ _ _ Hso r va Hr Huv), He.
  unfold page_remove. apply wp_bind, wp_elim. destruct (tbl (mem s) r (va_path va)) as [g|] eqn:Hg.
  2:{ do 2 eexists. split; [by eapply page_lookup_none|]. apply wp_ret. split; [done|by left]. }
  do 2 eexists. split; [eapply page_lookup_spec; [done..|rewrite Hpe, Zdiv_0_l; lia]|].
  rewrite Hpe, Zdiv_0_l. cbn beta iota. destruct (wf_page s l 0 Hwf) as [pg Hpg]; [lia|].
  destruct (pt_range _ _ _ _ Hpt _ g (va_path_tpath va Hva) Hg) as [Hgr _].
  wsteps. wuse (page_decref_spec s l 0 pg Hwf Hpg (so_zero _ _ _ Hso)).
  intros _ s1 (Hfr & Hm & _ & H1).
  assert (pp_ref pg <> 1) as Hp1 by (rewrite <- (so_zref _ _ _ Hso) in Hz1; unfold ref in Hz1; by rewrite Hpg in Hz1).
  rewrite decide_False in H1 by done. destruct H1 as [Hwf1 Hpg1].
  destruct (vm_frame_fields _ _ Hfr) as (Hn & Hen & Hcp & Hcn & _).
  wsteps. apply wp_elim. do 2 eexists. split; [apply store64_table; [lia|apply index_ranges]|].
  apply wp_elim. do 2 eexists. split.
  { apply tlb_invalidate_spec; [lia|]. unfold curenv_ok. cbn. rewrite Hcp, Hcn, Hen. apply Hso. }
  set (s2 := (_ <| invlpgs := _ |>)). assert (vm_frame s s2) as Hfr2 by (etrans; [exact Hfr|]; done).
  split; [done|right].
  assert (forall a, ld8 (mem s2) a = ld8 (mem s) a) as Hb.
  { intros a. cbn. rewrite Hm, ld8_st. case_decide; [|done]. rewrite Zdiv_0_l. symmetry.
    eapply (ld_zero 8); [|done]. unfold pte_of in Hpe. rewrite Hg in Hpe. exact Hpe. }
  apply (space_ok_kept s l s2 l A); try done.
  - by eapply wf_proper, Hwf1.
  - intros r' Hr' q f a _ _ _. apply Hb.
  - intros p _ Hp0. unfold ref. cbn. rewrite Hpg1, lookup_insert_ne by done. done.
  - rewrite <- (so_zref _ _ _ Hso). unfold ref. cbn. by rewrite Hpg1, lookup_insert_eq, Hpg.
  - intros k e a Hke Ha. rewrite Hb. by eapply (so_bytes _ _ _ Hso).
Qed.

(** ** The calls *)

(** What a call needs: its operands are registers; the source of a mapping is mapped,
    its permissions are sound and the reference count has room; an unmapping where
    nothing is mapped does not take the last reference from page 0. *)
Definition call_pre (A : vspace) (c : vcall) : Prop :=
  match c with
  | CAlloc _ va _ => 0 <= va
  | CMap srcid srcva dstid dstva perm =>
      0 <= srcva /\ 0 <= dstva /\
      (forall rs, sp srcid = Some rs -> bad_va srcva || bad_va dstva = false -> flags_ok perm /\
        exists e, entries A !! (rs, VPN srcva) = Some e /\ uses (entries A) (e / 4096) + outside (e / 4096) < 65535)
  | CUnmap envid va =>
      0 <= va /\ forall r, sp envid = Some r -> entries A !! (r, VPN va) = None -> zero_refs A <> 1
  end.

(** A mapping that replaces no other page, so that nothing is freed. *)
Definition keeps_pages (A : vspace) (c : vcall) : Prop :=
  match c with
  | CMap srcid srcva dstid dstva _ =>
      forall rs rd e o, sp srcid = Some rs -> sp dstid = Some rd -> entries A !! (rs, VPN srcva) = Some e ->
        entries A !! (rd, VPN dstva) = Some o -> o / 4096 = e / 4096
  | _ => False
  end.

(** The result of a call: the abstract memory makes a step to one that represents
    the state after the call; it takes at most four pages, one for the page and three
    for its tables, and memory runs out only when fewer are free. *)
Definition call_post (s : kstate) (l : list Z) (A : vspace) (c : vcall) (res : Z) (s' : kstate) : Prop :=
  call_frame s s' /\ (res = - E_NO_MEM -> (length l < 4)%nat) /\
  exists A' l', vstep sp A c res A' /\ space_ok s' l' A' /\ (keeps_pages A c -> l' `suffix_of` l) /\
    (length l <= length l' + 4)%nat.

(** A call that changes nothing, but for messages. *)
Lemma call_refused s l A c res :
  vstep sp A c res A -> (res = - E_NO_MEM -> (length l < 4)%nat) -> space_ok s l A -> call_post s l A c res s.
Proof. intros. split_and!; [done|done|]. exists A, l. split_and!; [done..|lia]. Qed.
Lemma call_refused_cons s l A c res cs :
  vstep sp A c res A -> res <> - E_NO_MEM -> space_ok s l A -> call_post s l A c res (s <| cons := cs |>).
Proof.
  intros. split_and!; [auto|done|]. exists A, l. split_and!; [done|by apply space_ok_cons|done|lia].
Qed.

Lemma alloc_refines s l A envid va perm :
  space_ok s l A -> 0 <= va -> wp (sys_page_alloc envid va perm) s (call_post s l A (CAlloc envid va perm)).
Proof.
  intros Hso Hva0. pose proof (so_named _ _ _ Hso envid) as Hen. unfold sys_page_alloc.
  apply wp_bind, wp_elim. destruct (sp envid) as [r|] eqn:Hsp.
  2:{ destruct Hen as [cs Hen]. do 2 eexists. split; [exact Hen|]. eapply call_refused_cons; [by constructor|done|done]. }
  destruct Hen as (Hr & e & v & Henv & Hv & Hroot). do 2 eexists. split; [exact Henv|]. cbn [fst snd].
  change (negb (0 =? 0)) with false. cbn beta iota.
  destruct (bad_va va || bad_perm perm) eqn:Hbad.
  { destruct (bad_va va) eqn:E; [|cbn in Hbad; rewrite Hbad];
      (eapply call_refused; [eapply v_alloc_inval; [done|by rewrite E, ?Hbad]|done|done]). }
  pose proof Hbad as [Hva Hperm]%orb_false_iff. rewrite Hva, Hperm.
  destruct (good_va va Hva Hva0) as (_ & Huv & _ & Hrd). apply wp_bind. destruct l as [|p l].
  { apply wp_elim. do 2 eexists. split; [apply page_alloc_empty, Hso|]. apply wp_ret.
    eapply call_refused; [by eapply v_alloc_no_mem|simpl; lia|done]. }
  wuse (page_alloc_refines s l p A Hso).
  intros _ s1 (-> & Hfr & Hso1 & Hz & Hp & Hpl & Hd & Hpg & Hout & Hb).
  destruct (vm_frame_fields _ _ Hfr) as (_ & He1 & _).
  assert (ref s1 p = 0) as Hr0 by (unfold ref; by rewrite Hpg).
  unfold deref. wsteps. apply wp_elim. do 2 eexists. split; [apply get_env_ok; by rewrite He1|].
  rewrite Hroot, Hrd. apply wp_bind.
  wuse (page_insert_refines s1 l (zero_page A p) r va p perm Hr (conj Hva0 Huv) Hso1 Hp Hpl Hd
    (good_perm perm Hperm)).
  { rewrite Hr0. cbn. lia. }
  { lia. }
  { intros a Ha. cbn. rewrite decide_True by done. by apply Hb. }
  intros res s2 [(-> & Hfr2 & l' & Hso2 & _ & Hcnt)|(-> & Hf & Hno & Hshort)]; wsteps.
  - split_and!; [apply vm_call_frame; by etrans|done|]. eexists _, l'. split_and!; [by eapply v_alloc|done|done|simpl; lia].
  - change (negb (- E_NO_MEM =? 0)) with true. cbn beta iota.
    wuse (space_ok_give_back s2 l p (zero_page A p)); try done.
    + by eapply space_ok_fail.
    + by rewrite (fr_pages _ _ _ Hf).
    + lia.
    + intros r' Hr'. apply (kept_data (mem s1)); [|auto]. eapply kept_outside; [by eapply so_pt|apply Hf].
    + intros _ s3 [Hfr3 Hso3]. wsteps. split_and!; [apply vm_call_frame; etrans; [exact Hfr|]; etrans; [apply Hf|done]|simpl; lia|].
      exists A, (p :: l). split_and!; [by eapply v_alloc_no_mem|by eapply space_ok_contents|done|lia].
Qed.

Lemma map_refines s l A srcid srcva dstid dstva perm :
  space_ok s l A -> call_pre A (CMap srcid srcva dstid dstva perm) ->
  wp (sys_page_map srcid srcva dstid dstva perm) s (call_post s l A (CMap srcid srcva dstid dstva perm)).
Proof.
  intros Hso (Hs0 & Hd0 & Hpre). unfold sys_page_map.
  pose proof (so_named _ _ _ Hso srcid) as Hens. pose proof (so_named _ _ _ Hso dstid) as Hend.
  apply wp_bind, wp_elim. destruct (sp srcid) as [rs|] eqn:Hsps.
  2:{ destruct Hens as [cs Hens]. do 2 eexists. split; [exact Hens|].
      pose proof (so_named _ _ _ (space_ok_cons s l A cs Hso) dstid) as Hend'. destruct (sp dstid) as [rd|];
        [destruct Hend' as (_ & ? & ? & Hend' & _)|destruct Hend' as [cs' Hend']]; apply wp_bind, wp_elim; do 2 eexists;
        (split; [exact Hend'|]); [|change (s <| cons := cs |> <| cons := cs' |>) with (s <| cons := cs' |>)];
        (eapply call_refused_cons; [by constructor; left|done|done]). }
  destruct Hens as (Hrs & es & vs & Henvs & Hvs & Hroots). do 2 eexists. split; [exact Henvs|].
  apply wp_bind, wp_elim. destruct (sp dstid) as [rd|] eqn:Hspd.
  2:{ destruct Hend as [cs Hend]. do 2 eexists. split; [exact Hend|].
      cbn [fst]. rewrite orb_true_r. eapply call_refused_cons; [by constructor; right|done|done]. }
  destruct Hend as (Hrd & ed & vd & Henvd & Hvd & Hrootd). do 2 eexists. split; [exact Henvd|]. cbn [fst snd].
  change (negb (0 =? 0) || negb (0 =? 0)) with false. cbn beta iota.
  destruct (bad_va srcva || bad_va dstva) eqn:Hbad; [eapply call_refused; [by econstructor|done|done]|].
  destruct (Hpre rs eq_refl eq_refl) as (Hperm & e & He & Hroom). pose proof Hbad as [Hbs Hbd]%orb_false_iff.
  pose proof (good_user_va srcva Hbs Hs0) as Hsu. pose proof (good_user_va dstva Hbd Hd0) as Hdu.
  destruct (so_used _ _ _ Hso _ _ He) as (Hne & Hp & Hpl & Hd).
  assert (pte_of (mem s) rs srcva = e) as Hpte by by rewrite (so_pte _ _ _ Hso rs srcva Hrs Hsu), He.
  destruct (tbl_of_pte rs (mem s) srcva) as (g & Hg & _); [congruence|].
  unfold deref. wsteps. apply wp_elim. do 2 eexists. split; [by apply get_env_ok|].
  wsteps. apply wp_elim. do 2 eexists. rewrite Hroots. split.
  { eapply page_lookup_spec; [by apply user_va_ok|apply Hso|by eapply so_pt|exact Hg|rewrite Hpte; lia]. }
  cbn beta iota. rewrite Hpte. wsteps. apply wp_elim. do 2 eexists. split; [by apply get_env_ok|].
  rewrite Hrootd. apply wp_bind.
  wuse (page_insert_refines s l A rd dstva (e / 4096) perm Hrd Hdu Hso Hp Hpl Hd Hperm).
  { by eapply so_ref. }
  { rewrite (so_ref _ _ _ Hso _ _ He). lia. }
  { intros a Ha. by eapply so_bytes. }
  intros res s2 [(-> & Hfr2 & l' & Hso2 & Hsuf & Hcnt)|(-> & Hf & Hno & Hshort)]; wsteps.
  - split_and!; [auto|done|]. eexists _, l'. split_and!; [by eapply v_map|done| |lia]. intros Hk. apply Hsuf.
    intros o Ho. by apply (Hk rs rd e o).
  - split_and!; [apply vm_call_frame, Hf|lia|]. exists A, l. split_and!; [by eapply v_map_no_mem|by eapply space_ok_fail|done|lia].
Qed.

Lemma unmap_refines s l A envid va :
  space_ok s l A -> call_pre A (CUnmap envid va) -> wp (sys_page_unmap envid va) s (call_post s l A (CUnmap envid va)).
Proof.
  intros Hso (Hva0 & Hpre). pose proof (so_named _ _ _ Hso envid) as Hen. unfold sys_page_unmap.
  apply wp_bind, wp_elim. destruct (sp envid) as [r|] eqn:Hsp.
  2:{ destruct Hen as [cs Hen]. do 2 eexists. split; [exact Hen|]. eapply call_refused_cons; [by constructor|done|done]. }
  destruct Hen as (Hr & en & v & Henv & Hv & Hroot). do 2 eexists. split; [exact Henv|]. cbn [fst snd].
  change (negb (0 =? 0)) with false. cbn beta iota.
  destruct (bad_va va) eqn:Hbad; [eapply call_refused; [by econstructor|done|done]|].
  pose proof (good_user_va va Hbad Hva0) as Huv.
  unfold deref. wsteps. apply wp_elim. do 2 eexists. split; [by apply get_env_ok|].
  rewrite Hroot. apply wp_bind. destruct (entries A !! (r, VPN va)) as [e|] eqn:He.
  - wuse (page_remove_refines s l A r va e Hso Hr Huv He).
    intros _ s' (Hfr & l' & Hso' & Hcnt). wsteps. split_and!; [auto|done|]. eexists _, l'. split_and!; [by econstructor|done|done|lia].
  - wuse (page_remove_absent s l A r va Hso Hr Huv He (Hpre r eq_refl He)).
    intros _ s' [Hfr [Hso'|Hso']]; wsteps; (split_and!; [auto|done|]); eexists _, l; (split_and!; [|exact Hso'|done|lia]);
      [by eapply v_unmap_absent|by eapply v_unmap_page_0].
Qed.

Lemma call_refines s l A c : space_ok s l A -> call_pre A c -> wp (do_call c) s (call_post s l A c).
Proof. destruct c; intros; [by eapply alloc_refines|by eapply map_refines|by eapply unmap_refines]. Qed.

(** ** Programs of calls *)

(** A program makes a call and goes on depending on its result. *)
Inductive vprog := Done | Do (c : vcall) (k : Z -> vprog).

Fixpoint exec (p : vprog) : K (list Z) :=
  match p with
  | Done => mret []
  | Do c k => res ← do_call c; rs ← exec (k res); mret (res :: rs)
  end.

Inductive vrun : vspace -> vprog -> list Z -> vspace -> Prop :=
  | vrun_done A : vrun A Done [] A
  | vrun_do A c k res A1 rs A2 :
      vstep sp A c res A1 -> vrun A1 (k res) rs A2 -> vrun A (Do c k) (res :: rs) A2.

(** A program is legal when the needs of each of its calls are met, whatever the
    results of the calls before it. *)
Fixpoint legal (A : vspace) (p : vprog) : Prop :=
  match p with
  | Done => True
  | Do c k => call_pre A c /\ forall res A', vstep sp A c res A' -> legal A' (k res)
  end.

Lemma exec_refines p s l A :
  space_ok s l A -> legal A p ->
  wp (exec p) s (fun rs s' => exists A' l', vrun A p rs A' /\ space_ok s' l' A').
Proof.
  revert s l A. induction p as [|c k IH]; intros s l A Hso Hleg.
  - apply wp_ret. exists A, l. split; [constructor|done].
  - destruct Hleg as [Hpre Hk]. cbn [exec]. apply wp_bind. wuse (call_refines s l A c Hso Hpre).
    intros res s1 (_ & _ & A1 & l1 & Hst & Hso1 & _). apply wp_bind. wuse (IH res s1 l1 A1 Hso1 (Hk _ _ Hst)).
    intros rs s2 (A2 & l2 & Hrun & Hso2). wsteps. exists A2, l2. split; [by econstructor|done].
Qed.

(** ** Isolation *)

(** The address space that a call changes. *)
Definition target (c : vcall) : option Z :=
  match c with CAlloc envid _ _ | CMap _ _ envid _ _ | CUnmap envid _ => sp envid end.
Fixpoint spares (r : Z) (p : vprog) : Prop :=
  match p with
  | Done => True
  | Do c k => target c <> Some r /\ forall res, spares r (k res)
  end.

(** What an environment with address space [r] sees: its entries, and the bytes of the
    pages they lead to. *)
Definition same_view (r : Z) (A B : vspace) : Prop :=
  forall n, entries B !! (r, n) = entries A !! (r, n) /\
    forall e a, entries A !! (r, n) = Some e -> a / 4096 = e / 4096 -> contents B a = contents A a.

Lemma step_spares r A c res B : vstep sp A c res B -> target c <> Some r -> same_view r A B.
Proof.
  destruct 1; cbn [target]; intros Ht n; split; try done; cbn;
    try (rewrite ?lookup_insert_ne, ?lookup_delete_ne by congruence; done).
  intros e a He Ha. rewrite decide_False; [done|]. rewrite Ha. by eapply uses_zero.
Qed.

Lemma run_spares r A p rs B : vrun A p rs B -> spares r p -> same_view r A B.
Proof.
  induction 1 as [A|A c k res A1 rs A2 Hst Hrun IH]; intros Hp; [done|]. destruct Hp as [Ht Hk].
  pose proof (step_spares r _ _ _ _ Hst Ht) as H1. specialize (IH (Hk res)). intros n.
  destruct (H1 n) as [E1 B1], (IH n) as [E2 B2]. split; [congruence|]. intros e a He Ha.
  rewrite <- (B1 e a) by done. apply (B2 e); [congruence|done].
Qed.
End space.
