(* ===== verification/Isolation.v ===== *)
(** * Theorems on the address spaces of several environments

    Programs of memory calls refine the maps of pages of all environments, and what
    an environment does to its own memory and to that of its children leaves the
    others alone. *)
From S2P Require Import Prelude Mmu CMem Console KState Pmap FreeList PageTable Walk PmapSpec DemoState Env E1000 Syscall EnvThms SyscallThms AddrSpace.

(** C4: A program of sys_page_alloc, sys_page_map and sys_page_unmap that an environment
    runs on its own memory and that of its children, and that keeps to the conditions
    below, runs to its end and does what the maps of virtual pages say: fresh pages are
    zero, shared pages stay shared, other mappings and their bytes are untouched, and
    ids the caller may not name are refused.  The conditions ([legal]), none of which the
    kernel checks: sys_page_map is called with a source address where a page is mapped,
    with permissions that fit the low 12 bits of an entry and include PTE_P, and for a
    page with fewer than 65535 references; and no address without a mapping is unmapped
    while physical page 0 has exactly one reference.  At the end, and so between any two calls, no mapped page is on
    the free list or a page table, the tables of different environments are apart,
    and the reference count of every mapped page is the number of its mappings and
    of the references from elsewhere. *)
Theorem memory_calls_refine roots sp outside p s l A :
  (forall q, 0 <= outside q) -> space_ok roots sp outside s l A -> legal sp outside A p ->
  wp (exec p) s (fun rs s' => exists A' l', vrun sp A p rs A' /\ space_ok roots sp outside s' l' A').
Proof. intros Hout. by apply exec_refines. Qed.

(** C3: Isolation: when a program of memory calls keeps to the conditions of the
    preceding theorem (a page is mapped at the source of every sys_page_map, whose
    permissions fit the low 12 bits of an entry and include PTE_P, with fewer than 65535
    references to the page; no address without a mapping is unmapped while physical
    page 0 has exactly one reference), an environment that is the target of none of its
    calls finds every entry of its page tables and every byte of the pages it has mapped
    as they were.  The kernel does not check these conditions, and without them isolation
    fails: see [map_of_nothing_breaks_isolation]. *)
Theorem memory_isolation roots sp outside p s l A r va :
  (forall q, 0 <= outside q) -> space_ok roots sp outside s l A -> legal sp outside A p ->
  roots r -> spares sp r p -> user_va va ->
  wp (exec p) s (fun _ s' => pte_of (mem s') r va = pte_of (mem s) r va /\
    forall a, pte_of (mem s) r va <> 0 -> a / 4096 = pte_of (mem s) r va / 4096 -> ld8 (mem s') a = ld8 (mem s) a).
Proof.
  intros Hout Hso Hleg Hr Hsp Hva. wuse (exec_refines roots sp outside Hout p s l A Hso Hleg).
  intros rs s' (A' & l' & Hrun & Hso'). destruct (run_spares sp r _ _ _ _ Hrun Hsp (VPN va)) as [He Hb].
  rewrite (so_pte _ _ _ _ _ _ Hso' r va Hr Hva), (so_pte _ _ _ _ _ _ Hso r va Hr Hva), He.
  split; [done|]. destruct (entries A !! (r, VPN va)) as [e|] eqn:E; cbn; [|done]. intros a _ Ha.
  rewrite (so_bytes _ _ _ _ _ _ Hso' (r, VPN va) e a) by done.
  rewrite (so_bytes _ _ _ _ _ _ Hso (r, VPN va) e a) by done. by apply (Hb e).
Qed.

(** ** Two environments *)
Definition child_env : Env :=
  zero_env <| env_id := 0x1001 |> <| env_parent_id := 0x1000 |> <| env_status := ENV_RUNNABLE |>
           <| env_pml4e := 0xF0002000 |> <| env_cr3 := 0x2000 |>.
Definition family : kstate := demo <| envs := <[1 := child_env]> demo_envs |>.

Definition family_roots (r : Z) : Prop := r = 1 \/ r = 2.
Definition family_sp (envid : Z) : option Z :=
  if (envid =? 0) || (envid =? 0x1000) then Some 1 else if envid =? 0x1001 then Some 2 else None.
Definition no_refs (p : Z) : Z := 0.
Definition no_memory : vspace := mkVspace ∅ (fun _ => 0) 0.

Lemma family_slot i :
  envs family !! i =
  if decide (i = 1) then Some child_env else if decide (i = 0) then Some demo_env
  else if decide (0 <= i < NENV) then Some (zero_env <| env_link := if i =? NENV - 1 then None else Some (i + 1) |>) else None.
Proof.
  cbn [envs family]. unfold demo_envs. destruct (decide (i = 1)) as [->|]; [apply lookup_insert_eq|].
  change (envs family) with (<[1 := child_env]> demo_envs). rewrite lookup_insert_ne by done. unfold demo_envs.
  destruct (decide (i = 0)) as [->|]; [apply lookup_insert_eq|]. rewrite lookup_insert_ne by done.
  by rewrite lookup_tabulate.
Qed.

Lemma family_envs_ok : envs_ok family.
Proof.
  split.
  - intros i. rewrite family_slot. change NENV with 1024. repeat case_decide; split; (by eauto) || (intros []; lia) || lia.
  - intros e He. assert (e = 0) as -> by (vm_compute in He; congruence). rewrite family_slot. by eexists.
Qed.

Lemma family_named : named_ok family_roots family_sp family.
Proof.
  intros envid. unfold family_sp. destruct (Z.eqb_spec envid 0) as [->|H0]; cbn [orb].
  { split; [by left|]. exists 0, demo_env. split_and!; [reflexivity|by rewrite family_slot|reflexivity]. }
  destruct (Z.eqb_spec envid 0x1000) as [->|H1].
  { split; [by left|]. exists 0, demo_env. split_and!; [reflexivity|by rewrite family_slot|reflexivity]. }
  destruct (Z.eqb_spec envid 0x1001) as [->|H2].
  { split; [by right|]. exists 1, child_env. split_and!; [reflexivity|by rewrite family_slot|reflexivity]. }
  destruct (envid2env_spec family envid true 0 family_envs_ok H0 eq_refl) as [(v & _ & Hn)|(c & E & _)]; [|by exists c].
  exfalso. destruct Hn as (_ & Hv & Hf & Hid & _). rewrite family_slot in Hv.
  destruct (decide (ENVX envid = 1)); [injection Hv as <-; cbn in Hid; congruence|].
  destruct (decide (ENVX envid = 0)); [injection Hv as <-; cbn in Hid; congruence|].
  destruct (decide (0 <= ENVX envid < NENV)); [injection Hv as <-; by apply Hf|done].
Qed.

Lemma wf_envs s E l : pmap_wf s l -> pmap_wf (s <| envs := E |>) l.
Proof. by apply wf_proper. Qed.

Lemma family_tbl r p f : tbl ∅ r p = Some f -> p = [] /\ f = r.
Proof. destruct p as [|i p]; simpl; [naive_solver|]. by rewrite pte_at_no_memory. Qed.

Lemma family_space : space_ok family_roots family_sp no_refs family demo_free no_memory.
Proof.
  split; try done; try (by intros; rewrite lookup_empty in *).
  - exact (wf_envs demo _ demo_free demo_wf).
  - split.
    + intros r Hr. apply pt_wf_empty.
      * cbn. unfold family_roots in Hr. lia.
      * apply demo_not_free. unfold family_roots in Hr. lia.
      * intros. apply pte_at_no_memory.
    + intros r r' va p f _ _ Hne _ _ [_ ->]%family_tbl q _ [_ ?]%family_tbl. done.
  - apply family_envs_ok.
  - exact family_named.
  - by apply demo_not_free.
Qed.

(** The parent allocates a page, maps it for the child, and drops its own mapping. *)
Definition give_prog : vprog :=
  Do (CAlloc 0 0x800000 7) (fun res =>
    if res =? 0 then Do (CMap 0 0x800000 0x1001 0x900000 5) (fun res =>
      if res =? 0 then Do (CUnmap 0 0x800000) (fun _ => Done) else Done)
    else Done).
Definition own_prog : vprog := Do (CAlloc 0 0x900000 7) (fun _ => Do (CAlloc 0x1002 0x800000 7) (fun _ => Done)).

Lemma give_legal : legal family_sp no_refs no_memory give_prog.
Proof.
  split; [done|]. intros res A' Hst. inversion Hst as [| |? r ? ? p Hsp Hbad _| | | | | | | | | |]; subst; [done..| |done].
  change (family_sp 0) with (Some 1) in Hsp. injection Hsp as <-.
  change (0 =? 0) with true. cbn beta iota. split.
  { split_and!; [done..|]. intros rs [= <-] _. split; [done|]. exists (p * 4096 + 7).
    split; [apply lookup_insert_eq|]. unfold map_at, zero_page, entries, no_memory, no_refs.
    rewrite uses_insert_new, uses_none by (done || apply lookup_empty). case_decide; lia. }
  intros res A' Hst'. destruct (Z.eqb_spec res 0); [|done]. split; [|done]. split; [done|].
  intros r Hr Hno. inversion Hst'; subst; cbn; done.
Qed.

Lemma memory_calls_refine_witness :
  wp (exec give_prog) family (fun rs s' => exists A' l',
    vrun family_sp no_memory give_prog rs A' /\ space_ok family_roots family_sp no_refs s' l' A').
Proof.
  apply (memory_calls_refine family_roots family_sp no_refs give_prog family demo_free no_memory).
  - done.
  - exact family_space.
  - exact give_legal.
Defined.

(** The calls succeed, and the page is kept by the mapping of the child. *)
Definition after_give : kstate := match exec give_prog family with Ret _ s' => s' | Stop _ s' => s' end.
Example give_prog_runs :
  match exec give_prog family with Ret rs _ => rs = [0; 0; 0] | Stop _ _ => False end /\
  pte_of (mem after_give) 1 0x800000 = 0 /\ pte_of (mem after_give) 2 0x900000 = 8 * 4096 + 5 /\ ref after_give 8 = 1.
Proof. vm_compute. split_and!; reflexivity. Qed.

Lemma after_give_space :
  wp (exec give_prog) family (fun rs s' => exists A' l',
    vrun family_sp no_memory give_prog rs A' /\ space_ok family_roots family_sp no_refs s' l' A').
Proof. apply exec_refines with demo_free; [done|exact family_space|exact give_legal]. Qed.

(** What the parent does at the same address afterwards does not touch the page of
    the child. *)
Lemma memory_isolation_witness :
  pte_of (mem after_give) 2 0x900000 = 8 * 4096 + 5 /\
  wp (exec own_prog) after_give (fun _ s' => pte_of (mem s') 2 0x900000 = 8 * 4096 + 5).
Proof.
  assert (pte_of (mem after_give) 2 0x900000 = 8 * 4096 + 5) as Hp by (vm_compute; reflexivity).
  split; [exact Hp|]. pose proof after_give_space as Hg. unfold wp in Hg.
  unfold after_give in *. destruct (exec give_prog family) as [rs s'|]; [|destruct Hg].
  destruct Hg as (A' & l' & _ & Hso). eapply wp_mono.
  - apply (memory_isolation family_roots family_sp no_refs own_prog s' l' A' 2 0x900000).
    + done.
    + exact Hso.
    + split; [done|]. intros. split; [done|]. by intros.
    + by right.
    + split; [discriminate|]. intros _. split; [discriminate|]. by intros.
    + done.
  - intros _ s2 [E _]. rewrite E. exact Hp.
Defined.

(** ** Mapping from an address where nothing is mapped *)
Definition steal_prog : vprog :=
  Do (CAlloc 0 0x800000 7) (fun _ => Do (CMap 0 0x801000 0 0x802000 7) (fun _ => Done)).

(** sys_page_map does not notice that nothing is mapped at the source when the source
    has a page table: it takes the empty entry for physical page 0, and maps that page,
    which belongs to the kernel, for the caller, writable. *)
Theorem map_of_nothing_gives_page_0 :
  match exec steal_prog family with
  | Ret rs s' => rs = [0; 0] /\ pte_of (mem s') 1 0x801000 = 0 /\ pte_of (mem s') 1 0x802000 = 0 * 4096 + 7
  | Stop _ _ => False
  end.
Proof. vm_compute. split_and!; reflexivity. Qed.

(** The page of the child holds a byte; the parent maps from an address where nothing is
    mapped, with permission bits that make the entry name the page of the child, unmaps
    it, and allocates a page: the page of the child is freed, handed out and cleared,
    although none of the calls names the child. *)
Definition break_prog : vprog :=
  Do (CAlloc 0 0x800000 7) (fun _ =>
  Do (CMap 0 0x801000 0 0x802000 0x8007) (fun _ =>
  Do (CUnmap 0 0x802000) (fun _ => Do (CAlloc 0 0x803000 7) (fun _ => Done)))).
Definition child_byte : kstate := after_give <| mem := st8 (mem after_give) (8 * 4096) 85 |>.

Theorem map_of_nothing_breaks_isolation :
  spares family_sp 2 break_prog /\ pte_of (mem child_byte) 2 0x900000 / 4096 = 8 /\
  ld8 (mem child_byte) (8 * 4096) = 85 /\
  match exec break_prog child_byte with
  | Ret rs s' => rs = [0; 0; 0; 0] /\ pte_of (mem s') 2 0x900000 / 4096 = 8 /\ ld8 (mem s') (8 * 4096) = 0
  | Stop _ _ => False
  end.
Proof.
  split; [by repeat (split; [discriminate|]; intros)|]. vm_compute. split_and!; reflexivity.
Qed.
