(* ===== verification/Fork.v ===== *)
(** * Copy-on-write fork: lib/fork.c

    The code runs in the environment that is current, on the address space in %cr3,
    and makes system calls of the kernel.  It reads its own page tables through the
    self-map at UVPT, where the processor goes once more through the root table:
    [self_read] is the entry that is found there. *)
From S2P Require Import Prelude Mmu CMem Console KState Pmap FreeList PageTable Walk PmapSpec DemoState Env E1000 Syscall EnvThms SyscallThms AddrSpace.

Definition PTE_COW : Z := 0x800.
Definition PTE_USER : Z := Z.lor (Z.lor (Z.lor 0xE00 PTE_P) PTE_W) PTE_U.
Definition FEC_WR : Z := 0x2.
Definition UTEXT : Z := 4 * PTSIZE.
Definition UTEMP : Z := 2 * PTSIZE.
Definition PFTEMP : Z := UTEMP + PTSIZE - PGSIZE.

(** ** The tables seen from user mode *)
Fixpoint self_read (m : bytes) (f : Z) (p : list Z) : option Z :=
  match p with
  | [] => None
  | i :: p' =>
      match p' with
      | [] => Some (pte_at m f i)
      | _ => if Z.odd (pte_at m f i) then self_read m (pte_at m f i / 4096) p' else None
      end
  end.

(** An access that the tables do not allow does not return. *)
Definition uvpt (p : list Z) : K Z := fun s =>
  match self_read (mem s) (cr3 s / 4096) p with Some e => Ret e s | None => Stop Undefined s end.

(** vpml4e[VPML4E(va)], vpde[VPDPE(va)], vpd[VPD(va)] and vpt[VPN(va)]. *)
Definition vpml4e (va : Z) : K Z := uvpt [PML4 va].
Definition vpde (va : Z) : K Z := uvpt [PML4 va; PDPE va].
Definition vpd (va : Z) : K Z := uvpt [PML4 va; PDPE va; PDX va].
Definition vpt (va : Z) : K Z := uvpt [PML4 va; PDPE va; PDX va; PTX va].

(** The condition of the loop of fork. *)
Definition page_present (va : Z) : K bool :=
  e4 ← vpml4e va;
  if Z.land e4 PTE_P =? 0 then mret false
  else
    e3 ← vpde va;
    if Z.land e3 PTE_P =? 0 then mret false
    else
      e2 ← vpd va;
      if Z.land e2 PTE_P =? 0 then mret false
      else
        e1 ← vpt va;
        mret (negb (Z.land e1 PTE_P =? 0)).

(** ** duppage *)
Definition COW_FLAGS : Z := Z.lor (Z.lor PTE_P PTE_U) PTE_COW.

Definition duppage (envid pn : Z) : K Z :=
  let addr := u64 (Z.shiftl pn PGSHIFT) in
  pte ← vpt addr;
  let perm := i32 (Z.land pte 0xfff) in
  let perm_share := i32 (Z.land pte PTE_USER) in
  if negb (Z.land perm_share PTE_SHARE =? 0) then
    r ← sys_page_map 0 addr envid addr perm_share;
    if r <? 0 then mret r else mret 0
  else if negb (Z.land perm PTE_W =? 0) || negb (Z.land perm PTE_COW =? 0) then
    r ← sys_page_map 0 addr envid addr COW_FLAGS;
    if r <? 0 then mret r else sys_page_map 0 addr 0 addr COW_FLAGS
  else sys_page_map 0 addr envid addr perm.

(** ** What the parent does for its child in fork

    The loop over the address space, whose results are ignored, and the stack page.
    [fuel] bounds the number of pages. *)
Fixpoint fork_loop (fuel : nat) (envid va : Z) : K unit :=
  match fuel with
  | O => stop Diverge
  | S fuel' =>
      if va <? USTACKTOP - PGSIZE then
        (if va =? UXSTACKTOP - PGSIZE then mret tt
         else
           b ← page_present va;
           if b : bool then r ← duppage envid (VPN va); mret tt else mret tt);;
        fork_loop fuel' envid (va + PGSIZE)
      else mret tt
  end.

Definition fork_pages (envid : Z) (fuel : nat) : K Z :=
  r ← sys_page_alloc envid (UXSTACKTOP - PGSIZE) (Z.lor (Z.lor PTE_P PTE_U) PTE_W);
  fork_loop fuel envid UTEXT;;
  duppage envid (VPN (USTACKTOP - PGSIZE)).

(** ** The page fault handler *)

(** memmove(dst, src, PGSIZE) in user mode, for page-aligned addresses. *)
Definition user_copy_page (dst src : Z) : K unit :=
  es ← vpt src;
  ed ← vpt dst;
  if (Z.land es (Z.lor PTE_P PTE_U) =? Z.lor PTE_P PTE_U) &&
     (Z.land ed (Z.lor (Z.lor PTE_P PTE_U) PTE_W) =? Z.lor (Z.lor PTE_P PTE_U) PTE_W)
  then modify (fun s => s <| mem := memmove (mem s) (ed / 4096 * 4096) (es / 4096 * 4096) PGSIZE |>)
  else stop Undefined.

Definition pgfault (err addr : Z) : K unit :=
  cow ← (if Z.land err FEC_WR =? 0 then mret false
         else e ← vpt addr; mret (negb (Z.land e PTE_COW =? 0)));
  if cow : bool then
    r ← sys_page_alloc 0 PFTEMP (Z.lor (Z.lor PTE_P PTE_U) PTE_W);
    if r <? 0 then stop Panic
    else
      let rounded := ROUNDDOWN addr PGSIZE in
      user_copy_page PFTEMP rounded;;
      r ← sys_page_map 0 PFTEMP 0 rounded (Z.lor (Z.lor PTE_P PTE_U) PTE_W);
      if r <? 0 then stop Panic
      else
        r ← sys_page_unmap 0 PFTEMP;
        if r <? 0 then stop Panic else mret tt
  else stop Panic.

(** ** Reading the tables *)
Lemma land_P e : (Z.land e PTE_P =? 0) = negb (Z.odd e).
Proof.
  unfold PTE_P. change 1 with (Z.ones 1). rewrite Z.land_ones by lia. change (2 ^ 1) with 2.
  rewrite Zmod_odd. by destruct (Z.odd e).
Qed.

Lemma self_read_path m np l r p i :
  pt_wf m np l r -> tpath p -> (forall q j k, p = q ++ j :: k -> tpath (q ++ [j])) ->
  self_read m r (p ++ [i]) = f ← tbl m r p; Some (pte_at m f i).
Proof.
  intros Hpt _ Hpre.
  assert (forall k q f, p = q ++ k -> tbl m r q = Some f ->
    self_read m f (k ++ [i]) = g ← tbl m f k; Some (pte_at m g i)) as H; [|by apply (H p [] r)].
  induction k as [|j k IH]; intros q f Hp Hq; [done|].
  assert (self_read m f ((j :: k) ++ [i]) =
    if Z.odd (pte_at m f j) then self_read m (pte_at m f j / 4096) (k ++ [i]) else None) as -> by by destruct k.
  cbn [tbl]. destruct (Z.eqb_spec (pte_at m f j) 0) as [->|Hne]; [done|].
  rewrite (pt_present _ _ _ _ Hpt q f j) by (done || by eapply Hpre).
  apply (IH (q ++ [j])); [by rewrite <- app_assoc|]. rewrite tbl_snoc, Hq. cbn.
  by destruct (Z.eqb_spec (pte_at m f j) 0).
Qed.

Lemma self_read_va m np l r va k i :
  pt_wf m np l r -> va_ok va -> k `prefix_of` va_path va ->
  self_read m r (k ++ [i]) = f ← tbl m r k; Some (pte_at m f i).
Proof.
  intros Hpt Hva Hk. eapply self_read_path; [done|by eapply prefix_tpath|].
  intros q j k' ->. eapply prefix_tpath; [done|]. destruct Hk as [k'' ->]. exists (k' ++ k'').
  by rewrite <- !app_assoc.
Qed.

Section tables.
Context (s : kstate) (l : list Z) (r va : Z).
Hypothesis Hpt : pt_wf (mem s) (npages s) l r.
Hypothesis Hva : va_ok va.
Hypothesis Hcr3 : cr3 s = r * 4096.

Lemma uvpt_ok k i :
  k `prefix_of` va_path va ->
  uvpt (k ++ [i]) s = match tbl (mem s) r k with Some f => Ret (pte_at (mem s) f i) s | None => Stop Undefined s end.
Proof.
  intros Hk. unfold uvpt. rewrite Hcr3, Z.div_mul by lia. erewrite self_read_va by done.
  by destruct (tbl (mem s) r k).
Qed.

Lemma vpt_ok : pte_of (mem s) r va <> 0 -> vpt va s = Ret (pte_of (mem s) r va) s.
Proof.
  intros Hne. change (vpt va s) with (uvpt (va_path va ++ [PTX va]) s). rewrite uvpt_ok by done.
  unfold pte_of in *. by destruct (tbl (mem s) r (va_path va)).
Qed.

Lemma page_present_ok : page_present va s = Ret (Z.odd (pte_of (mem s) r va)) s.
Proof.
  assert (forall k j k', va_path va = k ++ j :: k' -> forall f, tbl (mem s) r k = Some f ->
    tbl (mem s) r (k ++ [j]) = if Z.odd (pte_at (mem s) f j) then Some (pte_at (mem s) f j / 4096) else None) as Ht.
  { intros k j k' Hk f Hf. rewrite tbl_snoc, Hf. cbn. destruct (Z.eqb_spec (pte_at (mem s) f j) 0) as [->|Hne]; [done|].
    rewrite (pt_present _ _ _ _ Hpt k f j); [done| |done|done]. eapply prefix_tpath; [done|].
    exists k'. by rewrite <- app_assoc. }
  unfold page_present, pte_of, va_path. unfold mbind, M_bind.
  change (vpml4e va s) with (uvpt ([] ++ [PML4 va]) s). rewrite uvpt_ok by (by exists (va_path va)).
  change (tbl (mem s) r []) with (Some r). cbn beta iota. rewrite land_P.
  specialize (Ht [] (PML4 va) [PDPE va; PDX va] eq_refl r eq_refl) as H1. cbn [app] in H1.
  destruct (Z.odd (pte_at (mem s) r (PML4 va))); cbn [negb] in *;
    [|change [PML4 va; PDPE va; PDX va] with ([PML4 va] ++ [PDPE va; PDX va]); by rewrite tbl_app, H1].
  change (vpde va s) with (uvpt ([PML4 va] ++ [PDPE va]) s). rewrite uvpt_ok by (by exists [PDPE va; PDX va]). rewrite H1, land_P.
  set (f2 := pte_at (mem s) r (PML4 va) / 4096) in *.
  specialize (Ht [PML4 va] (PDPE va) [PDX va] eq_refl f2 H1) as H2. cbn [app] in H2.
  destruct (Z.odd (pte_at (mem s) f2 (PDPE va))); cbn [negb] in *;
    [|change [PML4 va; PDPE va; PDX va] with ([PML4 va; PDPE va] ++ [PDX va]); by rewrite tbl_app, H2].
  change (vpd va s) with (uvpt ([PML4 va; PDPE va] ++ [PDX va]) s). rewrite uvpt_ok by (by exists [PDX va]). rewrite H2, land_P.
  set (f3 := pte_at (mem s) f2 (PDPE va) / 4096) in *.
  specialize (Ht [PML4 va; PDPE va] (PDX va) [] eq_refl f3 H2) as H3. cbn [app] in H3.
  destruct (Z.odd (pte_at (mem s) f3 (PDX va))); cbn [negb] in *; rewrite H3; [|done].
  change (vpt va s) with (uvpt (va_path va ++ [PTX va]) s). rewrite uvpt_ok by done. unfold va_path. rewrite H3, land_P, negb_involutive. done.
Qed.
End tables.
