(* ===== verification/ForkThms.v ===== *)
(** * Theorems on copy-on-write fork

    The parent's loop gives the child the same pages, and leaves no page that is not
    shared on purpose writable on both sides; the fault handler replaces a
    copy-on-write page by a private copy.  The proofs are on the abstract memories of
    AddrSpace.v, which the system calls refine. *)
From S2P Require Import Prelude Mmu CMem Console KState Pmap FreeList PageTable Walk PmapSpec DemoState Env E1000 Syscall EnvThms SyscallThms AddrSpace Isolation Fork.

(** ** What becomes of an entry *)
Definition is_shared (e : Z) : bool := negb (Z.land (Z.land e PTE_USER) PTE_SHARE =? 0).
Definition is_private (e : Z) : bool :=
  negb (Z.land (Z.land e 0xfff) PTE_W =? 0) || negb (Z.land (Z.land e 0xfff) PTE_COW =? 0).
Definition child_flags (e : Z) : Z :=
  if is_shared e then Z.land e PTE_USER else if is_private e then COW_FLAGS else Z.land e 0xfff.
Definition child_entry (e : Z) : Z := e / 4096 * 4096 + child_flags e.
Definition parent_entry (e : Z) : Z :=
  if negb (is_shared e) && is_private e then e / 4096 * 4096 + COW_FLAGS else e.

Lemma land_flags e k : 0 <= k < 4096 -> 0 <= Z.land e k < 4096.
Proof.
  intros Hk. assert (Z.land e k = Z.land (Z.land e k) (2 ^ 12 - 1)) as ->.
  { rewrite <- Z.land_assoc. f_equal. rewrite land_low by lia. by rewrite Z.mod_small. }
  rewrite land_low by lia. apply Z.mod_pos_bound. lia.
Qed.

Lemma land_flags_ok e k : 0 <= k < 4096 -> Z.odd k = true -> Z.odd e = true -> flags_ok (Z.land e k).
Proof.
  intros Hk Ho He. split; [by apply land_flags|]. apply Z.bits_inj'. intros n Hn. rewrite Z.lor_spec.
  unfold PTE_P. destruct (decide (n = 0)) as [->|].
  - rewrite Z.land_spec, !Z.bit0_odd, Ho, He. done.
  - rewrite (Z.bits_above_log2 1) by (cbn; lia). apply orb_false_r.
Qed.

Lemma child_flags_ok e : Z.odd e = true -> flags_ok (child_flags e).
Proof.
  intros He. unfold child_flags. destruct (is_shared e); [by apply land_flags_ok|].
  destruct (is_private e); [|by apply land_flags_ok]. by split; [vm_compute|].
Qed.

Lemma entry_page e f : 0 <= f < 4096 -> (e / 4096 * 4096 + f) / 4096 = e / 4096.
Proof. intros. Z.div_mod_to_equations. lia. Qed.

Lemma child_page e : Z.odd e = true -> child_entry e / 4096 = e / 4096.
Proof. intros He. apply entry_page. by apply child_flags_ok. Qed.
Lemma parent_page e : parent_entry e / 4096 = e / 4096.
Proof. unfold parent_entry. destruct (_ && _); [|done]. by apply entry_page. Qed.

Lemma entry_bit f k : 0 <= k < 4096 -> Z.testbit (f * 4096 + k) 1 = Z.testbit k 1.
Proof.
  intros Hk. rewrite <- (Z.mod_pow2_bits_low (f * 4096 + k) 12) by lia. change (2 ^ 12) with 4096.
  by rewrite Z.add_comm, Z.mod_add, Z.mod_small by lia.
Qed.

(** Neither entry of a page that is not shared allows writing. *)
Lemma not_both_writable e :
  Z.odd e = true -> is_shared e = false ->
  Z.testbit (child_entry e) 1 = false /\ Z.testbit (parent_entry e) 1 = false.
Proof.
  intros He Hs. unfold child_entry. rewrite entry_bit by by apply child_flags_ok.
  unfold child_flags, parent_entry. rewrite Hs. cbn [negb andb]. destruct (is_private e) eqn:Hp.
  - by rewrite entry_bit by (by vm_compute).
  - unfold is_private in Hp. apply orb_false_iff in Hp as [Hw%negb_false_iff%Z.eqb_eq _].
    assert (Z.testbit (Z.land e 4095) 1 = false) as Hb.
    { apply (f_equal (fun z => Z.testbit z 1)) in Hw. rewrite Z.land_spec in Hw. by rewrite andb_true_r in Hw. }
    split; [done|]. rewrite Z.land_spec in Hb. by rewrite andb_true_r in Hb.
Qed.

(** ** The calls that duppage makes *)
Lemma page_addr va : user_va va -> va mod 4096 = 0 -> u64 (Z.shiftl (VPN va) PGSHIFT) = va.
Proof.
  intros Hva Hal. unfold VPN, PPN, PGSHIFT, PTXSHIFT, user_va in *. rewrite Z.shiftl_mul_pow2, Z.shiftr_div_pow2 by lia.
  change (2 ^ 12) with 4096. assert (va < 2 ^ 32) by jlia. rewrite wrap_small; Z.div_mod_to_equations; lia.
Qed.

Lemma VPN_page k : VPN (k * 4096) = k.
Proof. unfold VPN, PPN, PTXSHIFT. rewrite Z.shiftr_div_pow2 by lia. by apply Z.div_mul. Qed.

Lemma aligned_good va : user_va va -> va mod 4096 = 0 -> bad_va va = false.
Proof.
  intros Hva Hal. unfold bad_va. apply orb_false_iff. split.
  - rewrite Z.geb_leb. apply Z.leb_gt. apply Hva.
  - apply negb_false_iff, Z.eqb_eq. unfold user_va in Hva. apply ROUNDUP_PGSIZE_id; [jlia|done].
Qed.

Section fork.
Context (roots : Z -> Prop) (sp : Z -> option Z) (outside : Z -> Z) (rp rc envid : Z).
Hypothesis outside_nonneg : forall p, 0 <= outside p.
Hypothesis Hrp : sp 0 = Some rp.
Hypothesis Hrc : sp envid = Some rc.
Hypothesis Hne : rp <> rc.
Abbreviation ok := (space_ok roots sp outside).

(** The parent is running, with the memory [A], and the pages [l] are free. *)
Definition in_parent (s : kstate) (l : list Z) (A : vspace) : Prop := cr3 s = rp * 4096 /\ ok s l A.

Lemma cr3_frame s s' : call_frame s s' -> cr3 s' = cr3 s.
Proof. intros H. by destruct (call_frame_fields _ _ H) as (_ & _ & _ & _ & ?). Qed.

Lemma parent_root s l A : in_parent s l A -> roots rp.
Proof. intros [_ H]. pose proof (so_named _ _ _ _ _ _ H 0) as Hn. rewrite Hrp in Hn. apply Hn. Qed.
Lemma child_root s l A : in_parent s l A -> roots rc.
Proof. intros [_ H]. pose proof (so_named _ _ _ _ _ _ H envid) as Hn. rewrite Hrc in Hn. apply Hn. Qed.

(** sys_page_map of a page of the parent at the same address, here or in the child. *)
Lemma map_same id rd s l A va e perm :
  sp id = Some rd -> in_parent s l A -> user_va va -> va mod 4096 = 0 ->
  entries A !! (rp, VPN va) = Some e -> (forall o, entries A !! (rd, VPN va) = Some o -> o = e) ->
  flags_ok perm -> uses (entries A) (e / 4096) + outside (e / 4096) < 65535 ->
  wp (sys_page_map 0 va id va perm) s (fun res s' =>
    (res = 0 /\ exists l', l' `suffix_of` l /\ in_parent s' l' (map_at A rd va (e / 4096 * 4096 + perm))) \/
    (res = - E_NO_MEM /\ (length l < 4)%nat /\ (exists l', l' `suffix_of` l /\ in_parent s' l' A) /\
     entries A !! (rd, VPN va) = None)).
Proof.
  intros Hid [Hcr Hso] Hva Hal He Hsame Hfl Hroom. pose proof (aligned_good va Hva Hal) as Hgood.
  wuse (call_refines roots sp outside outside_nonneg s l A (CMap 0 va id va perm) Hso).
  { split_and!; [apply Hva..|]. intros rs Hrs _. rewrite Hrp in Hrs. injection Hrs as <-. eauto. }
  intros res s' (Hfr & Hmem & A' & l' & Hst & Hso' & Hsuf). pose proof (cr3_frame _ _ Hfr) as Hcr'.
  assert (l' `suffix_of` l) as Hsuf'.
  { apply Hsuf. intros rs rd' e' o Hs Hd He' Ho. rewrite Hid in Hd. rewrite Hrp in Hs. injection Hs as <-. injection Hd as <-.
    rewrite He in He'. injection He' as <-. by rewrite (Hsame o Ho). }
  inversion Hst as [| | | |? ? ? ? ? E|? ? ? ? ? ? ? _ _ E|? rs ? ? rd' ? ? e' Es Ed _ He'|? ? ? ? ? ? ? _ Ed _ E| | | | |]; subst.
  - destruct E as [E|E]; congruence.
  - by rewrite Hgood in E.
  - left. split; [done|]. exists l'. split; [done|]. split; [congruence|]. by simplify_eq.
  - right. split_and!; [done|by apply Hmem|exists l'; split; [done|split; [congruence|done]]|].
    rewrite Hid in Ed. injection Ed as <-. by apply E.
Qed.

(** The memories after duppage. *)
Definition duplicated (A : vspace) (va e : Z) : vspace :=
  let A1 := map_at A rc va (child_entry e) in
  if negb (is_shared e) && is_private e then map_at A1 rp va (parent_entry e) else A1.

Lemma duppage_spec s l A va e :
  in_parent s l A -> user_va va -> va mod 4096 = 0 ->
  entries A !! (rp, VPN va) = Some e -> Z.odd e = true -> entries A !! (rc, VPN va) = None ->
  uses (entries A) (e / 4096) + outside (e / 4096) + 1 < 65535 ->
  wp (duppage envid (VPN va)) s (fun res s' => exists l', l' `suffix_of` l /\
    (in_parent s' l' (duplicated A va e) \/ (in_parent s' l' A /\ (length l < 4)%nat))).
Proof.
  intros Hin Hva Hal He Hodd Hnone Hroom. pose proof Hin as [Hcr Hso]. pose proof (parent_root _ _ _ Hin) as Hr.
  assert (pte_of (mem s) rp va = e) as Hpte by by rewrite (so_pte _ _ _ _ _ _ Hso rp va Hr Hva), He.
  destruct (so_used _ _ _ _ _ _ Hso _ _ He) as (Hnz & _).
  unfold duppage. rewrite page_addr by done. cbv zeta. apply wp_bind, wp_elim. do 2 eexists. split.
  { eapply vpt_ok; [by eapply so_pt|by apply user_va_ok|done|congruence]. }
  rewrite Hpte. pose proof (land_flags e 0xfff ltac:(lia)). pose proof (land_flags e PTE_USER ltac:(by vm_compute)).
  rewrite !swrap_small by lia. unfold duplicated, child_entry, child_flags, is_shared.
  assert (forall perm, flags_ok perm -> wp (sys_page_map 0 va envid va perm) s (fun res s' =>
    (res = 0 /\ exists l', l' `suffix_of` l /\ in_parent s' l' (map_at A rc va (e / 4096 * 4096 + perm))) \/
    (res = - E_NO_MEM /\ exists l', l' `suffix_of` l /\ in_parent s' l' A /\ (length l < 4)%nat))) as Hmap.
  { intros perm Hfl. wuse (map_same envid rc s l A va e perm); try done; [congruence|lia|].
    intros res s' [H1|(H1 & H2 & (l' & H3 & H4) & _)]; [by left|right; eauto 6]. }
  destruct (negb (Z.land (Z.land e PTE_USER) PTE_SHARE =? 0)) eqn:Hs; cbn [negb andb].
  { apply wp_bind. wuse (Hmap (Z.land e PTE_USER)); [by apply land_flags_ok|].
    intros res s' [(-> & l' & H1 & H2)|(-> & l' & H1 & H2)]; wsteps; exists l'; (split; [done|]); [by left|by right]. }
  fold (is_private e). destruct (is_private e) eqn:Hp.
  2:{ wuse (Hmap (Z.land e 0xfff)); [by apply land_flags_ok|].
      intros res s' [(-> & l' & H1 & H2)|(-> & l' & H1 & H2)]; exists l'; (split; [done|]); [by left|by right]. }
  assert (flags_ok COW_FLAGS) as Hcf by (by split; [vm_compute|]).
  apply wp_bind. wuse (Hmap COW_FLAGS Hcf).
  intros res s1 [(-> & l1 & Hs1 & H1)|(-> & l1 & Hs1 & H1)]; [|wsteps; exists l1; split; [done|by right]].
  change (0 <? 0) with false. cbn beta iota.
  set (A1 := map_at A rc va (e / 4096 * 4096 + COW_FLAGS)) in *.
  assert (entries A1 !! (rp, VPN va) = Some e) as He1 by (cbn; rewrite lookup_insert_ne by congruence; done).
  wuse (map_same 0 rp s1 l1 A1 va e COW_FLAGS); try done; [congruence| |].
  { cbn. rewrite uses_insert, Hnone. case_decide; lia. }
  intros res s2 [(-> & l2 & Hs2 & H2)|(-> & _ & _ & H2)]; [|congruence]. exists l2. split; [by etrans|]. left.
  unfold parent_entry, is_shared. by rewrite Hs, Hp.
Qed.

(** ** The loop *)
Definition first_page : Z := UTEXT / 4096.
Definition stack_page : Z := (USTACKTOP - PGSIZE) / 4096.

(** The mappings of the parent below page [n]. *)
Definition below (n : Z) (E : gmap (Z * Z) Z) : gmap (Z * Z) Z :=
  filter (fun kv : (Z * Z) * Z => kv.1.1 = rp /\ first_page <= kv.1.2 < n) E.

Lemma uses_below n E p : uses (below n E) p <= uses E p.
Proof.
  unfold uses, below. apply inj_le, map_subseteq_size, map_subseteq_spec. intros k e.
  rewrite !map_lookup_filter_Some. tauto.
Qed.

Lemma below_none n E : E !! (rp, n) = None -> below (n + 1) E = below n E.
Proof.
  intros Hn. apply map_eq. intros [r k]. apply option_eq. intros e. unfold below. rewrite !map_lookup_filter_Some. cbn.
  split; intros (He & -> & Hk); (split_and!; [done|done|lia|]); [|lia].
  destruct (decide (k = n)) as [->|]; [congruence|lia].
Qed.

Lemma below_some n E e :
  first_page <= n -> E !! (rp, n) = Some e -> below (n + 1) E = <[(rp, n) := e]> (below n E).
Proof.
  intros Hl Hn. apply map_eq. intros [r k]. apply option_eq. intros e'. unfold below.
  rewrite lookup_insert_Some, !map_lookup_filter_Some. cbn. split.
  - intros (He & -> & Hk). destruct (decide (k = n)) as [->|]; [left; split; congruence|right].
    split; [congruence|]. split_and!; [done|done|lia|lia].
  - intros [[[= <- <-] <-]|(_ & He & -> & Hk)]; (split_and!; [done|done|lia|lia]).
Qed.

Lemma below_fresh n E : below n E !! (rp, n) = None.
Proof. unfold below. apply map_lookup_filter_None. right. cbn. lia. Qed.

Section loop.
Context (A0 : vspace).
Hypothesis Hempty : forall k, first_page <= k <= stack_page -> entries A0 !! (rc, k) = None.
Hypothesis Hroom : forall p, 2 * uses (entries A0) p + outside p + 1 < 65535.

(** What has become of page [k] of the parent and of the child: it may be missing in
    the child when memory is short. *)
Definition page_copied (A : vspace) (l : list Z) (k : Z) : Prop :=
  match entries A0 !! (rp, k) with
  | Some e =>
      if Z.odd e then
        (entries A !! (rp, k) = Some (parent_entry e) /\ entries A !! (rc, k) = Some (child_entry e)) \/
        (entries A !! (rp, k) = Some e /\ entries A !! (rc, k) = None /\ (length l < 4)%nat)
      else entries A !! (rp, k) = Some e /\ entries A !! (rc, k) = None
  | None => entries A !! (rp, k) = None /\ entries A !! (rc, k) = None
  end.

(** The memories when the pages below [n] have been copied. *)
Record copied_below (n : Z) (l : list Z) (A : vspace) : Prop := {
  cb_other : forall r k, (r <> rp /\ r <> rc) \/ ~ first_page <= k < n -> entries A !! (r, k) = entries A0 !! (r, k);
  cb_in : forall k, first_page <= k < n -> page_copied A l k;
  cb_bytes : contents A = contents A0;
  cb_zero : zero_refs A = zero_refs A0;
  cb_uses : forall p, uses (entries A) p <= uses (entries A0) p + uses (below n (entries A0)) p
}.

Lemma page_copied_mono A l l' k : l' `suffix_of` l -> page_copied A l k -> page_copied A l' k.
Proof.
  intros Hs%suffix_length. unfold page_copied. repeat case_match; intuition lia.
Qed.

Lemma copied_room n l A p : copied_below n l A -> uses (entries A) p + outside p + 1 < 65535.
Proof. intros H. pose proof (cb_uses _ _ _ H p). pose proof (uses_below n (entries A0) p). specialize (Hroom p). lia. Qed.

Lemma duplicated_lookup A k e r j :
  entries A !! (rp, k) = Some e ->
  entries (duplicated A (k * 4096) e) !! (r, j) =
  if decide (j = k) then
    if decide (r = rp) then Some (parent_entry e) else if decide (r = rc) then Some (child_entry e) else entries A !! (r, j)
  else entries A !! (r, j).
Proof.
  intros He. unfold duplicated, parent_entry. destruct (negb (is_shared e) && is_private e); cbn; rewrite !VPN_page;
    repeat case_decide; subst; try done; repeat rewrite lookup_insert_ne by congruence; rewrite ?lookup_insert_eq; try done.
  all: repeat rewrite lookup_insert_ne by congruence; by rewrite ?lookup_insert_eq.
Qed.

Lemma duplicated_uses A k e p :
  entries A !! (rp, k) = Some e -> entries A !! (rc, k) = None -> Z.odd e = true ->
  uses (entries (duplicated A (k * 4096) e)) p = uses (entries A) p + if decide (e / 4096 = p) then 1 else 0.
Proof.
  intros He Hn Ho.
  assert (uses (<[(rc, k) := child_entry e]> (entries A)) p = uses (entries A) p + if decide (e / 4096 = p) then 1 else 0) as H1
    by by rewrite uses_insert_new, child_page.
  unfold duplicated. destruct (negb (is_shared e) && is_private e); cbn; rewrite !VPN_page; [|done].
  rewrite uses_insert, lookup_insert_ne, He, parent_page, H1 by congruence. lia.
Qed.

(** A page that is not there is passed over. *)
Lemma skip_step n l A :
  first_page <= n -> copied_below n l A -> Z.odd (default 0 (entries A0 !! (rp, n))) = false -> n <= stack_page ->
  copied_below (n + 1) l A.
Proof.
  intros Hl [Ho Hi Hb Hz Hu] Hodd Hs. split; try done.
  - intros r k Hk. apply Ho. destruct Hk; [by left|right; lia].
  - intros k Hk. destruct (decide (k = n)) as [->|]; [|apply Hi; lia].
    unfold page_copied. rewrite !Ho, Hempty by (lia || right; lia).
    destruct (entries A0 !! (rp, n)) as [e|]; [|done]. cbn in Hodd. by rewrite Hodd.
  - intros p. destruct (entries A0 !! (rp, n)) as [e|] eqn:E; [|by rewrite below_none].
    rewrite (below_some n _ e), uses_insert_new by (done || apply below_fresh).
    specialize (Hu p). case_decide; lia.
Qed.

(** A page that is there is copied, or left alone when memory runs out. *)
Lemma dup_step n l l' A A' e :
  first_page <= n <= stack_page -> copied_below n l A -> entries A0 !! (rp, n) = Some e -> Z.odd e = true ->
  l' `suffix_of` l -> A' = duplicated A (n * 4096) e \/ (A' = A /\ (length l < 4)%nat) -> copied_below (n + 1) l' A'.
Proof.
  intros Hn [Ho Hi Hb Hz Hu] He Hodd Hsuf HA'.
  assert (forall k, first_page <= k < n -> page_copied A l' k) as Hi' by (intros; eapply page_copied_mono; eauto).
  assert (entries A !! (rp, n) = Some e) as HeA by (rewrite Ho; [done|right; lia]).
  assert (entries A !! (rc, n) = None) as HnA by (rewrite Ho; [apply Hempty; lia|right; lia]).
  destruct HA' as [->|[-> Hsh]]; (split; [| | | |intros p; rewrite (below_some n _ e), uses_insert_new by (done || lia || apply below_fresh);
    rewrite ?duplicated_uses by done; specialize (Hu p); case_decide; lia]).
  - intros r k Hk. rewrite duplicated_lookup by done.
    destruct (decide (k = n)) as [->|]; [destruct Hk as [[Hr1 Hr2]|Hk]; [|lia]|].
    + rewrite !decide_False by done. apply Ho. by left.
    + apply Ho. destruct Hk; [by left|right; lia].
  - intros k Hk. destruct (decide (k = n)) as [->|Hkn].
    + unfold page_copied. rewrite He, Hodd. left. rewrite !duplicated_lookup by done.
      by rewrite !decide_True, decide_False, decide_True by congruence.
    + specialize (Hi' k ltac:(lia)). unfold page_copied in *. by rewrite !duplicated_lookup, !(decide_False (P := k = n)) by done.
  - unfold duplicated. by destruct (_ && _).
  - unfold duplicated. by destruct (_ && _).
  - intros r k Hk. apply Ho. destruct Hk; [by left|right; lia].
  - intros k Hk. destruct (decide (k = n)) as [->|]; [|apply Hi'; lia].
    unfold page_copied. rewrite He, Hodd. right. split_and!; [done|done|]. apply suffix_length in Hsuf. lia.
  - done.
  - done.
Qed.

Lemma page_consts : UTEXT = first_page * 4096 /\ USTACKTOP - PGSIZE = stack_page * 4096 /\
  0 < first_page < stack_page /\ stack_page * 4096 + 4096 < UTOP.
Proof. by vm_compute. Qed.

Lemma page_va n : first_page <= n <= stack_page -> user_va (n * 4096) /\ (n * 4096) mod 4096 = 0.
Proof. intros Hn. pose proof page_consts. split; [unfold user_va; lia|]. by rewrite Z.mod_mul. Qed.

Lemma dup_page_step s l A n e :
  first_page <= n <= stack_page -> in_parent s l A -> copied_below n l A ->
  entries A0 !! (rp, n) = Some e -> Z.odd e = true ->
  wp (duppage envid (VPN (n * 4096))) s (fun _ s' => exists l' A', in_parent s' l' A' /\ copied_below (n + 1) l' A').
Proof.
  intros Hn Hin Hc He Ho. destruct (page_va n Hn) as [Hva Hal].
  assert (entries A !! (rp, n) = Some e) as HeA by (rewrite (cb_other _ _ _ Hc); [done|right; lia]).
  assert (entries A !! (rc, n) = None) as HnA by (rewrite (cb_other _ _ _ Hc); [apply Hempty; lia|right; lia]).
  wuse (duppage_spec s l A (n * 4096) e Hin Hva Hal); rewrite ?VPN_page; try done.
  { by apply (copied_room n l). }
  intros _ s' (l' & Hs & [H|[H Hsh]]); exists l'; eexists; (split; [exact H|]); eapply dup_step; eauto.
Qed.

Lemma loop_step s l A n :
  first_page <= n < stack_page -> in_parent s l A -> copied_below n l A ->
  wp (b ← page_present (n * 4096);
      if b : bool then r ← duppage envid (VPN (n * 4096)); mret tt else mret tt) s
    (fun _ s' => exists l' A', in_parent s' l' A' /\ copied_below (n + 1) l' A').
Proof.
  intros Hn Hin Hc. destruct (page_va n ltac:(lia)) as [Hva Hal]. pose proof (parent_root _ _ _ Hin) as Hr.
  pose proof Hin as [Hcr Hso]. apply wp_bind, wp_elim. do 2 eexists. split.
  { eapply page_present_ok; [by eapply so_pt|by apply user_va_ok|done]. }
  assert (pte_of (mem s) rp (n * 4096) = default 0 (entries A0 !! (rp, n))) as ->.
  { by rewrite (so_pte _ _ _ _ _ _ Hso rp (n * 4096) Hr Hva), VPN_page, (cb_other _ _ _ Hc) by (right; lia). }
  destruct (Z.odd (default 0 (entries A0 !! (rp, n)))) eqn:Ho.
  - destruct (entries A0 !! (rp, n)) as [e|] eqn:He; [|done]. apply wp_bind.
    wuse (dup_page_step s l A n e ltac:(lia) Hin Hc He Ho). intros r s' H. by wsteps.
  - apply wp_ret. exists l, A. split; [done|]. apply skip_step; try done; lia.
Qed.

Lemma fork_loop_spec fuel s l A n :
  first_page <= n <= stack_page -> (stack_page - n < Z.of_nat fuel) -> in_parent s l A -> copied_below n l A ->
  wp (fork_loop fuel envid (n * 4096)) s (fun _ s' => exists l' A', in_parent s' l' A' /\ copied_below stack_page l' A').
Proof.
  pose proof page_consts as (_ & Hst & _ & Htop). revert s l A n.
  induction fuel as [|fuel IH]; intros s l A n Hn Hfuel Hin Hc; [lia|]. cbn [fork_loop].
  destruct (Z.ltb_spec (n * 4096) (USTACKTOP - PGSIZE)) as [Hlt|Hge].
  - destruct (Z.eqb_spec (n * 4096) (UXSTACKTOP - PGSIZE)); [exfalso; unfold USTACKTOP in *; jlia|].
    apply wp_bind. wuse (loop_step s l A n ltac:(lia) Hin Hc). intros _ s1 (l1 & A1 & Hin1 & Hc1).
    replace (n * 4096 + PGSIZE) with ((n + 1) * 4096) by jlia. apply (IH s1 l1 A1); [lia|lia|done|done].
  - apply wp_ret. exists l, A. replace stack_page with n by lia. done.
Qed.
End loop.

(** ** All that the parent does *)
Definition outside_range (k : Z) : Prop := ~ first_page <= k <= stack_page.

Lemma fork_pages_spec s l A fuel e :
  in_parent s l A -> stack_page - first_page < Z.of_nat fuel ->
  (forall k, first_page <= k <= stack_page -> entries A !! (rc, k) = None) ->
  (forall p, 2 * uses (entries A) p + outside p + 3 < 65535) ->
  entries A !! (rp, stack_page) = Some e -> Z.odd e = true ->
  wp (fork_pages envid fuel) s (fun _ s' => exists l' A', in_parent s' l' A' /\
    (forall k, first_page <= k <= stack_page -> page_copied A A' l' k) /\
    (forall r k, r <> rc -> r <> rp \/ outside_range k -> entries A' !! (r, k) = entries A !! (r, k)) /\
    (forall k e a, entries A !! k = Some e -> a / 4096 = e / 4096 -> contents A' a = contents A a)).
Proof.
  intros Hin Hfuel Hempty Hroom He Hodd. pose proof page_consts as (Htx & Hst & Hlt & Htop).
  unfold fork_pages. apply wp_bind. destruct Hin as [Hcr Hso].
  assert (user_va (UXSTACKTOP - PGSIZE) /\ (UXSTACKTOP - PGSIZE) mod 4096 = 0) as [Hxv Hxa] by by vm_compute.
  wuse (call_refines roots sp outside outside_nonneg s l A (CAlloc envid (UXSTACKTOP - PGSIZE) (Z.lor (Z.lor PTE_P PTE_U) PTE_W)) Hso).
  { apply Hxv. }
  intros res s0 (Hfr & _ & A0 & l0 & Hal & Hso0 & _).
  assert (in_parent s0 l0 A0) as Hin0 by (split; [by rewrite (cr3_frame _ _ Hfr)|done]).
  (* the memory after the exception stack was allocated *)
  assert ((forall r k, r <> rc \/ k <> VPN (UXSTACKTOP - PGSIZE) -> entries A0 !! (r, k) = entries A !! (r, k)) /\
    (forall p, uses (entries A0) p <= uses (entries A) p + 1) /\
    (forall k e a, entries A !! k = Some e -> a / 4096 = e / 4096 -> contents A0 a = contents A a)) as (HE & HU & HB).
  { inversion Hal as [| |? r ? ? p Hsp _ Hz| | | | | | | | | |]; subst; (split_and!; [|intros q|]); try done; try lia; cbn.
    - intros r' k Hk. rewrite lookup_insert_ne; [done|]. intros [= <- <-]. destruct Hk as [Hk|Hk]; [|done]. congruence.
    - apply uses_insert_le.
    - intros k e' a Hk Ha. rewrite decide_False; [done|]. rewrite Ha. by eapply uses_zero. }
  assert (stack_page < VPN (UXSTACKTOP - PGSIZE)) as Hx by by vm_compute.
  assert (forall r k, k <= stack_page -> entries A0 !! (r, k) = entries A !! (r, k)) as HE0 by (intros; apply HE; right; lia).
  assert (forall k, first_page <= k <= stack_page -> entries A0 !! (rc, k) = None) as Hemp0
    by (intros; rewrite HE0 by lia; auto).
  assert (forall p, 2 * uses (entries A0) p + outside p + 1 < 65535) as Hroom0.
  { intros p. specialize (HU p). specialize (Hroom p). lia. }
  assert (copied_below A0 first_page l0 A0) as Hc0.
  { split; try done; [intros; lia|]. intros p. pose proof (uses_nonneg (below first_page (entries A0)) p). lia. }
  apply wp_bind. rewrite Htx. wuse (fork_loop_spec A0 Hemp0 Hroom0 fuel s0 l0 A0 first_page ltac:(lia) Hfuel Hin0 Hc0).
  intros _ s1 (l1 & A1 & Hin1 & Hc1). rewrite Hst.
  wuse (dup_page_step A0 Hemp0 Hroom0 s1 l1 A1 stack_page e ltac:(lia) Hin1 Hc1); [by rewrite HE0 by lia|done|].
  intros _ s2 (l2 & A2 & Hin2 & Hc2). exists l2, A2. split_and!; [done|..].
  - intros k Hk. pose proof (cb_in _ _ _ _ Hc2 k ltac:(lia)) as H. unfold page_copied in *. by rewrite HE0 in H by lia.
  - intros r k Hrc' Hk. rewrite (cb_other _ _ _ _ Hc2); [apply HE; by left|]. destruct Hk; [by left|right]. unfold outside_range in *. lia.
  - intros k e' a Hk Ha. rewrite (cb_bytes _ _ _ _ Hc2). by eapply HB.
Qed.

(** ** The fault handler *)

(** The other calls on the parent's own memory. *)
Lemma vstep_map_own A res A' src dst perm e :
  vstep sp A (CMap 0 src 0 dst perm) res A' -> bad_va src = false -> bad_va dst = false ->
  entries A !! (rp, VPN src) = Some e -> ~ no_near A rp dst ->
  res = 0 /\ A' = map_at A rp dst (e / 4096 * 4096 + perm).
Proof.
  intros Hst Hs Hd He Hdst.
  inversion Hst as [| | | |? ? ? ? ? E|? ? ? ? ? ? ? _ _ E|? rs ? ? rd ? ? e' Es Ed _ He'|? ? ? ? ? ? ? _ Ed _ E| | | | |]; subst.
  - destruct E; congruence.
  - by rewrite Hs, Hd in E.
  - split; [done|]. congruence.
  - rewrite Hrp in Ed. injection Ed as <-. done.
Qed.

Lemma vstep_unmap_own A res A' va e :
  vstep sp A (CUnmap 0 va) res A' -> bad_va va = false -> entries A !! (rp, VPN va) = Some e ->
  res = 0 /\ A' = unmap_at A rp va.
Proof.
  intros Hst Hva He. inversion Hst as [| | | | | | | |? ? E|? ? ? _ E|? ? ? ? E|? ? ? E _ E'|? ? ? E _ E']; subst; try congruence.
  split; [done|]. congruence.
Qed.

Definition copy_page (A : vspace) (p f : Z) : vspace :=
  mkVspace (entries A) (fun a => if decide (a / 4096 = p) then contents A (f * 4096 + a mod 4096) else contents A a)
           (zero_refs A).

(** The copy in user mode. *)
Lemma user_copy_spec s l A dst src ed es :
  in_parent s l A -> user_va dst -> user_va src ->
  entries A !! (rp, VPN dst) = Some ed -> entries A !! (rp, VPN src) = Some es -> ed / 4096 <> es / 4096 ->
  Z.land es (Z.lor PTE_P PTE_U) = Z.lor PTE_P PTE_U ->
  Z.land ed (Z.lor (Z.lor PTE_P PTE_U) PTE_W) = Z.lor (Z.lor PTE_P PTE_U) PTE_W ->
  wp (user_copy_page dst src) s (fun _ s' => in_parent s' l (copy_page A (ed / 4096) (es / 4096))).
Proof.
  intros Hin Hd Hs Hed Hes Hpp Hps Hpd. pose proof (parent_root _ _ _ Hin) as Hr. destruct Hin as [Hcr Hso].
  pose proof (so_used _ _ _ _ _ _ Hso _ _ Hed) as (Hnd & Hrd & Hld & Hdd).
  pose proof (so_used _ _ _ _ _ _ Hso _ _ Hes) as (Hns & _).
  assert (forall va e, user_va va -> entries A !! (rp, VPN va) = Some e -> e <> 0 -> vpt va s = Ret e s) as Hvpt.
  { intros va e Hva He Hn0. assert (pte_of (mem s) rp va = e) as Hp by by rewrite (so_pte _ _ _ _ _ _ Hso rp va Hr Hva), He.
    rewrite <- Hp. eapply vpt_ok; [by eapply so_pt|by apply user_va_ok|done|congruence]. }
  unfold user_copy_page. apply wp_bind, wp_elim. do 2 eexists. split; [by apply Hvpt|].
  apply wp_bind, wp_elim. do 2 eexists. split; [by apply Hvpt|]. rewrite Hps, Hpd, !Z.eqb_refl. cbn [andb].
  split; [done|].
  assert (forall a, ld8 (memmove (mem s) (ed / 4096 * 4096) (es / 4096 * 4096) PGSIZE) a =
    if decide (a / 4096 = ed / 4096) then ld8 (mem s) (es / 4096 * 4096 + a mod 4096) else ld8 (mem s) a) as Hb.
  { intros a. rewrite (memmove_copies (mem s) _ _ PGSIZE) by (by vm_compute). unfold PGSIZE.
    repeat case_decide; try (exfalso; Z.div_mod_to_equations; lia); [|done]. f_equal. Z.div_mod_to_equations. lia. }
  apply (space_ok_kept roots sp outside s l); try done.
  - by eapply wf_proper, Hso.
  - intros r' Hr' q f a Hq Hf Ha. cbn. rewrite Hb, decide_False; [done|]. rewrite Ha. intros ->. by apply (Hdd r' Hr' q).
  - apply Hso.
  - intros k e a Hk Ha. cbn. rewrite Hb. case_decide.
    + eapply (so_bytes _ _ _ _ _ _ Hso (rp, VPN src)); [done|]. Z.div_mod_to_equations. lia.
    + by eapply (so_bytes _ _ _ _ _ _ Hso).
Qed.

Lemma rounded_page va : user_va va ->
  user_va (ROUNDDOWN va PGSIZE) /\ ROUNDDOWN va PGSIZE mod 4096 = 0 /\ VPN (ROUNDDOWN va PGSIZE) = VPN va.
Proof.
  unfold user_va, ROUNDDOWN, PGSIZE, VPN, PPN, PTXSHIFT. intros Hva. rewrite !Z.shiftr_div_pow2 by lia.
  change (2 ^ 12) with 4096. split_and!; Z.div_mod_to_equations; lia.
Qed.

(** The memories after the handler has put the page [p] at [addr]. *)
Definition made_private (A A' : vspace) (addr p e : Z) : Prop :=
  (forall r k, entries A' !! (r, k) =
     if decide (r = rp /\ k = VPN addr) then Some (p * 4096 + 7)
     else if decide (r = rp /\ k = VPN PFTEMP) then None else entries A !! (r, k)) /\
  forall a, contents A' a =
     if decide (a / 4096 = p) then contents A (e / 4096 * 4096 + a mod 4096) else contents A a.

Lemma pgfault_spec s l A err addr e :
  cr3 s = rp * 4096 -> ok s l A -> (4 <= length l)%nat -> (forall p, uses (entries A) p + outside p + 2 < 65535) ->
  Z.land err FEC_WR <> 0 -> user_va addr -> VPN addr <> VPN PFTEMP ->
  entries A !! (rp, VPN addr) = Some e -> Z.land e PTE_COW <> 0 -> Z.land e (Z.lor PTE_P PTE_U) = Z.lor PTE_P PTE_U ->
  wp (pgfault err addr) s (fun _ s' => exists l' A' p, in_parent s' l' A' /\ uses (entries A) p = 0 /\ made_private A A' addr p e).
Proof.
  intros Hcr Hso Hlen Hroom Herr Hva Hpf He Hcow Hpu. destruct (rounded_page addr Hva) as (Hrv & Hra & Hrn).
  assert (in_parent s l A) as Hin by done. pose proof (parent_root _ _ _ Hin) as Hr.
  assert (user_va PFTEMP /\ bad_va PFTEMP || bad_perm 7 = false /\ bad_va PFTEMP = false) as (Hpv & Hpg & Hpb) by by vm_compute.
  destruct (so_used _ _ _ _ _ _ Hso _ _ He) as (Hez & _).
  assert (pte_of (mem s) rp addr = e) as Hpte by by rewrite (so_pte _ _ _ _ _ _ Hso rp addr Hr Hva), He.
  unfold pgfault. apply wp_bind. rewrite (proj2 (Z.eqb_neq _ _) Herr). apply wp_bind, wp_elim. do 2 eexists. split.
  { eapply vpt_ok; [by eapply so_pt|by apply user_va_ok|done|congruence]. }
  wsteps. rewrite Hpte, (proj2 (Z.eqb_neq _ _) Hcow). cbn [negb]. change (Z.lor (Z.lor PTE_P PTE_U) PTE_W) with 7.
  (* a fresh page *)
  apply wp_bind. wuse (call_refines roots sp outside outside_nonneg s l A (CAlloc 0 PFTEMP 7) Hso); [apply Hpv|].
  intros res s1 (Hfr1 & Hmem & A1 & l1 & Hst & Hso1 & _). pose proof (cr3_frame _ _ Hfr1) as Hcr1.
  clear Hpte. inversion Hst as [? ? ? E|? ? ? ? _ E|? r0 ? ? p E _ Hz|? ? ? ? _ _| | | | | | | | |]; subst;
    [congruence|congruence| |specialize (Hmem eq_refl); lia]. rewrite Hrp in E. injection E as <-.
  change (0 <? 0) with false. cbn beta iota. set (A1 := map_at (zero_page A p) rp PFTEMP (p * 4096 + 7)) in *.
  assert (in_parent s1 l1 A1) as Hin1 by (split; [congruence|done]).
  assert ((p * 4096 + 7) / 4096 = p) as Hpd by (Z.div_mod_to_equations; lia).
  assert (entries A1 !! (rp, VPN PFTEMP) = Some (p * 4096 + 7)) as Hp1 by apply lookup_insert_eq.
  assert (entries A1 !! (rp, VPN (ROUNDDOWN addr PGSIZE)) = Some e) as He1
    by (rewrite Hrn; cbn; rewrite lookup_insert_ne by congruence; done).
  pose proof (uses_zero _ _ _ _ Hz He) as Hep.
  (* the copy *)
  apply wp_bind. wuse (user_copy_spec s1 l1 A1 PFTEMP (ROUNDDOWN addr PGSIZE) (p * 4096 + 7) e); try done.
  { rewrite Hpd. congruence. }
  { change (Z.land (p * 4096 + 7) (2 ^ 3 - 1) = 7). rewrite land_low by lia. Z.div_mod_to_equations. lia. }
  rewrite Hpd. set (A2 := copy_page A1 p (e / 4096)). intros _ s2 [Hcr2 Hso2].
  (* its move to the address *)
  apply wp_bind. wuse (call_refines roots sp outside outside_nonneg s2 l1 A2 (CMap 0 PFTEMP 0 (ROUNDDOWN addr PGSIZE) 7) Hso2).
  { split_and!; [apply Hpv|apply Hrv|]. intros rs Hrs _. rewrite Hrp in Hrs. injection Hrs as <-.
    split; [done|]. exists (p * 4096 + 7). split; [done|]. rewrite Hpd.
    pose proof (uses_insert_le (entries A) (rp, VPN PFTEMP) (p * 4096 + 7) p). specialize (Hroom p). cbn. lia. }
  intros res s3 (Hfr3 & _ & A3 & l3 & Hst3 & Hso3 & _). pose proof (cr3_frame _ _ Hfr3) as Hcr3.
  destruct (vstep_map_own A2 res A3 PFTEMP (ROUNDDOWN addr PGSIZE) 7 (p * 4096 + 7) Hst3) as [-> ->]; try done;
    [by apply aligned_good|intros N; specialize (N (ROUNDDOWN addr PGSIZE) Hrv eq_refl); change (entries A2) with (entries A1) in N; congruence|]. rewrite Hpd in Hso3.
  change (0 <? 0) with false. cbn beta iota. set (A3 := map_at A2 rp (ROUNDDOWN addr PGSIZE) (p * 4096 + 7)) in *.
  assert (entries A3 !! (rp, VPN PFTEMP) = Some (p * 4096 + 7)) as Hp3
    by (cbn -[VPN]; rewrite Hrn, lookup_insert_ne by congruence; exact Hp1).
  (* the temporary mapping goes *)
  apply wp_bind. wuse (call_refines roots sp outside outside_nonneg s3 l3 A3 (CUnmap 0 PFTEMP) Hso3).
  { split; [apply Hpv|]. intros r0 Hr0 Hno. rewrite Hrp in Hr0. injection Hr0 as <-. congruence. }
  intros res s4 (Hfr4 & _ & A4 & l4 & Hst4 & Hso4 & _). pose proof (cr3_frame _ _ Hfr4) as Hcr4.
  destruct (vstep_unmap_own A3 res A4 PFTEMP (p * 4096 + 7) Hst4) as [-> ->]; try done.
  change (0 <? 0) with false. wsteps. exists l4, (unmap_at A3 rp PFTEMP), p.
  split_and!; [split; [congruence|done]|done|]. split.
  - intros r0 k. cbn -[VPN]. rewrite Hrn. rewrite lookup_delete, !lookup_insert.
    destruct (decide (r0 = rp /\ k = VPN addr)) as [[-> ->]|N1].
    { rewrite decide_False by congruence. by rewrite decide_True. }
    destruct (decide (r0 = rp /\ k = VPN PFTEMP)) as [[-> ->]|N2]; [by rewrite decide_True|].
    rewrite !decide_False by (intros [= <- <-]; tauto). done.
  - intros a. cbn. case_decide as Ha; [|done]. rewrite decide_False; [done|].
    replace ((e / 4096 * 4096 + a mod 4096) / 4096) with (e / 4096) by (Z.div_mod_to_equations; lia). done.
Qed.
End fork.

(** ** The theorems *)

(** An entry of the map is what the page tables hold. *)
Lemma pte_entry roots sp outside s l A r k :
  space_ok roots sp outside s l A -> roots r -> user_va (k * 4096) ->
  pte_of (mem s) r (k * 4096) = default 0 (entries A !! (r, k)) /\
  (pte_of (mem s) r (k * 4096) = 0 -> entries A !! (r, k) = None).
Proof.
  intros Hso Hr Hva. rewrite (so_pte _ _ _ _ _ _ Hso r (k * 4096) Hr Hva), VPN_page. split; [done|].
  destruct (entries A !! (r, k)) as [e|] eqn:He; [|done]. cbn. intros ->.
  by destruct (so_used _ _ _ _ _ _ Hso _ _ He).
Qed.

(** C6: fork copies the address space: when the parent is through, every page that it has
    between UTEXT and the top of its stack is at the same address in the child, on the
    same physical page; a page that is not shared on purpose is writable in neither of
    them any more; pages that the parent does not have, the child does not have either;
    no byte of the parent's memory has changed.  A page may be missing in the child, with
    the parent's entry as it was, only when fewer than four pages of memory are left:
    fork does not look at the results of duppage. *)
Theorem fork_copies_memory roots sp outside rp rc envid s l A fuel :
  (forall p, 0 <= outside p) -> sp 0 = Some rp -> sp envid = Some rc -> rp <> rc -> cr3 s = rp * 4096 ->
  space_ok roots sp outside s l A -> stack_page - first_page < Z.of_nat fuel ->
  (forall p, 2 * uses (entries A) p + outside p + 3 < 65535) ->
  (forall k, first_page <= k <= stack_page -> pte_of (mem s) rc (k * 4096) = 0) ->
  Z.odd (pte_of (mem s) rp (stack_page * 4096)) = true ->
  wp (fork_pages envid fuel) s (fun _ s' => exists l' A', space_ok roots sp outside s' l' A' /\
    forall k, first_page <= k <= stack_page ->
      let e := pte_of (mem s) rp (k * 4096) in
      let p := pte_of (mem s') rp (k * 4096) in
      let c := pte_of (mem s') rc (k * 4096) in
      (Z.odd e = true -> c = child_entry e /\ p = parent_entry e /\ c / 4096 = e / 4096 /\ p / 4096 = e / 4096 /\
         (Z.testbit c 1 = true \/ Z.testbit p 1 = true -> is_shared e = true) \/
         (c = 0 /\ p = e /\ (length l' < 4)%nat)) /\
      (Z.odd e = false -> c = 0 /\ p = e) /\
      (e <> 0 -> forall a, a / 4096 = e / 4096 -> ld8 (mem s') a = ld8 (mem s) a)).
Proof.
  intros Hout Hrp Hrc Hne Hcr Hso Hfuel Hroom Hempty Hstack. pose proof page_consts as (_ & _ & Hlt & _).
  assert (in_parent roots sp outside rp s l A) as Hin by done.
  pose proof (parent_root _ _ _ _ Hrp _ _ _ Hin) as Hr. pose proof (child_root _ _ _ _ _ _ Hrc _ _ _ Hin) as Hr'.
  assert (forall s l A r k, space_ok roots sp outside s l A -> roots r -> first_page <= k <= stack_page ->
    pte_of (mem s) r (k * 4096) = default 0 (entries A !! (r, k)) /\
    (pte_of (mem s) r (k * 4096) = 0 -> entries A !! (r, k) = None)) as Hpte.
  { intros. eapply pte_entry; [done|done|]. by apply page_va. }
  destruct (entries A !! (rp, stack_page)) as [es|] eqn:Hes.
  2:{ rewrite (proj1 (Hpte s l A rp stack_page Hso Hr ltac:(lia))), Hes in Hstack. done. }
  wuse (fork_pages_spec roots sp outside rp rc envid Hout Hrp Hrc Hne s l A fuel es Hin Hfuel); try done.
  { intros k Hk. by apply (Hpte s l A rc k Hso Hr' Hk), Hempty. }
  { by rewrite (proj1 (Hpte s l A rp stack_page Hso Hr ltac:(lia))), Hes in Hstack. }
  intros _ s' (l' & A' & [_ Hso'] & Hcop & _ & Hby). exists l', A'. split; [done|]. intros k Hk. cbv zeta.
  rewrite (proj1 (Hpte s' l' A' rp k Hso' Hr Hk)), (proj1 (Hpte s' l' A' rc k Hso' Hr' Hk)), (proj1 (Hpte s l A rp k Hso Hr Hk)).
  specialize (Hcop k Hk). unfold page_copied in Hcop. destruct (entries A !! (rp, k)) as [e|] eqn:He; cbn [from_option id].
  2:{ destruct Hcop as [-> ->]. by split_and!. }
  destruct (Z.odd e) eqn:Ho; (split_and!; [try done|try done|]).
  - intros _. destruct Hcop as [[-> ->]|(-> & -> & Hsh)]; [left|by right]. cbn [from_option id].
    split_and!; [done|done|by apply child_page|apply parent_page|]. intros Hw.
    destruct (is_shared e) eqn:Es; [done|]. destruct (not_both_writable e Ho Es) as [E1 E2].
    destruct Hw; congruence.
  - intros _ a Ha. rewrite (so_bytes _ _ _ _ _ _ Hso (rp, k) e a He Ha), <- (Hby _ _ a He Ha).
    destruct Hcop as [[Hp _]|(Hp & _)]; (eapply so_bytes; [exact Hso'|exact Hp|]); rewrite ?parent_page; done.
  - intros _. destruct Hcop as [-> ->]. done.
  - intros _ a Ha. rewrite (so_bytes _ _ _ _ _ _ Hso (rp, k) e a He Ha), <- (Hby _ _ a He Ha).
    destruct Hcop as [Hp _]. by eapply so_bytes.
Qed.

(** C7: The page fault handler of fork, called for a write to a copy-on-write page while
    at least four pages of memory are free, returns, and has put at the address a
    physical page that nothing else maps, writable, with the bytes of the old page; it
    changes no other mapping, except that PFTEMP is free again, and no byte of the pages
    that were mapped. *)
Theorem pgfault_makes_private roots sp outside rp s l A err addr :
  (forall p, 0 <= outside p) -> sp 0 = Some rp -> cr3 s = rp * 4096 ->
  space_ok roots sp outside s l A -> (4 <= length l)%nat -> (forall p, uses (entries A) p + outside p + 2 < 65535) ->
  Z.land err FEC_WR <> 0 -> user_va addr -> VPN addr <> VPN PFTEMP ->
  let e := pte_of (mem s) rp addr in
  Z.land e PTE_COW <> 0 -> Z.land e (Z.lor PTE_P PTE_U) = Z.lor PTE_P PTE_U ->
  wp (pgfault err addr) s (fun _ s' => exists p,
    pte_of (mem s') rp addr = p * 4096 + 7 /\
    (forall i, 0 <= i < 4096 -> ld8 (mem s') (p * 4096 + i) = ld8 (mem s) (e / 4096 * 4096 + i)) /\
    (forall r va, roots r -> user_va va -> pte_of (mem s') r va / 4096 = p -> pte_of (mem s') r va <> 0 ->
       r = rp /\ VPN va = VPN addr) /\
    (forall r va, roots r -> user_va va -> r <> rp \/ (VPN va <> VPN addr /\ VPN va <> VPN PFTEMP) ->
       pte_of (mem s') r va = pte_of (mem s) r va /\
       (pte_of (mem s) r va <> 0 -> forall a, a / 4096 = pte_of (mem s) r va / 4096 -> ld8 (mem s') a = ld8 (mem s) a))).
Proof.
  intros Hout Hrp Hcr Hso Hlen Hroom Herr Hva Hpf e Hcow Hpu.
  assert (in_parent roots sp outside rp s l A) as Hin by done. pose proof (parent_root _ _ _ _ Hrp _ _ _ Hin) as Hr.
  pose proof (so_pte _ _ _ _ _ _ Hso rp addr Hr Hva) as He. fold e in He.
  destruct (entries A !! (rp, VPN addr)) as [e'|] eqn:Ee; cbn [from_option id] in He; [subst e'|by rewrite He in Hcow].
  wuse (pgfault_spec roots sp outside rp Hout Hrp s l A err addr e Hcr Hso Hlen Hroom Herr Hva Hpf Ee Hcow Hpu).
  intros _ s' (l' & A' & p & [_ Hso'] & Hz & HE & HC). exists p.
  assert ((p * 4096 + 7) / 4096 = p) as Hpd by (Z.div_mod_to_equations; lia).
  assert (forall k o, entries A !! k = Some o -> o / 4096 <> p) as Hfresh by (intros; by eapply uses_zero).
  pose proof (so_pte _ _ _ _ _ _ Hso') as Hp'.
  assert (entries A' !! (rp, VPN addr) = Some (p * 4096 + 7)) as Hpa by (rewrite HE, decide_True; done).
  split_and!.
  - rewrite Hp', Hpa by done. done.
  - intros i Hi. assert ((p * 4096 + i) / 4096 = p /\ (p * 4096 + i) mod 4096 = i) as [E1 E2]
      by (split; Z.div_mod_to_equations; lia).
    rewrite (so_bytes _ _ _ _ _ _ Hso' _ _ (p * 4096 + i) Hpa) by congruence.
    rewrite HC, decide_True, E2 by done. symmetry. eapply so_bytes; [exact Hso|exact Ee|]. Z.div_mod_to_equations. lia.
  - intros r va Hr0 Hva0. rewrite Hp' by done. rewrite HE. case_decide as D; [by destruct D|].
    case_decide; [done|]. destruct (entries A !! (r, VPN va)) as [o|] eqn:Eo; cbn; [|done]. intros E. by apply Hfresh in Eo.
  - intros r va Hr0 Hva0 Hne. rewrite Hp', (so_pte _ _ _ _ _ _ Hso) by done.
    assert (entries A' !! (r, VPN va) = entries A !! (r, VPN va)) as Hsame by (rewrite HE, !decide_False; tauto).
    rewrite Hsame. split; [done|]. destruct (entries A !! (r, VPN va)) as [o|] eqn:Eo; cbn; [|done]. intros _ a Ha.
    rewrite (so_bytes _ _ _ _ _ _ Hso' _ _ a Hsame Ha), (so_bytes _ _ _ _ _ _ Hso _ _ a Eo Ha), HC.
    rewrite decide_False; [done|]. rewrite Ha. by eapply Hfresh.
Qed.

(** ** A parent with a stack and an empty child *)
(** The memory of the first of two environments after it has allocated pages. *)
Fixpoint allocs (perm : Z) (vas : list Z) : vprog :=
  match vas with [] => Done | va :: vas' => Do (CAlloc 0 va perm) (fun _ => allocs perm vas') end.

Definition allocated (perm : Z) (vas : list Z) (A : vspace) : Prop :=
  (forall p, uses (entries A) p <= Z.of_nat (length vas)) /\
  forall k e, entries A !! k = Some e -> k.1 = 1 /\ k.2 ∈ (VPN <$> vas) /\ exists p, e = p * 4096 + perm.

Lemma allocs_spec perm vas s l A done :
  Forall (Z.le 0) vas -> space_ok family_roots family_sp no_refs s l A -> allocated perm done A ->
  wp (exec (allocs perm vas)) s (fun _ s' => exists A' l', space_ok family_roots family_sp no_refs s' l' A' /\
    cr3 s' = cr3 s /\ allocated perm (done ++ vas) A').
Proof.
  revert s l A done. induction vas as [|va vas IH]; intros s l A vs Hv Hso [Hu He]; cbn [allocs exec do_call].
  { apply wp_ret. exists A, l. rewrite app_nil_r. done. }
  inversion_clear Hv as [|? ? Hva Hvas]. apply wp_bind.
  wuse (call_refines family_roots family_sp no_refs ltac:(done) s l A (CAlloc 0 va perm) Hso Hva).
  intros res s1 (Hfr & _ & A1 & l1 & Hst & Hso1 & _). apply wp_bind.
  assert (allocated perm (vs ++ [va]) A1) as HA1.
  { assert (forall A2, entries A2 = entries A -> allocated perm (vs ++ [va]) A2) as Hsame.
    { intros A2 HE. unfold allocated. rewrite HE, length_app, fmap_app. split; [intros q; specialize (Hu q); cbn [length]; lia|].
      intros k e Hk. destruct (He k e Hk) as (? & ? & ?). split_and!; [done|apply elem_of_app; by left|done]. }
    inversion Hst as [| |? r ? ? p E| | | | | | | | | |]; subst; try by apply Hsame.
    unfold allocated. rewrite length_app, fmap_app. split; [intros q; specialize (Hu q); cbn -[VPN]|].
    - pose proof (uses_insert_le (entries A) (r, VPN va) (p * 4096 + perm) q). lia.
    - cbn -[VPN]. intros k e [[<- <-]|[_ Hk]]%lookup_insert_Some.
      + change (family_sp 0) with (Some 1) in E. injection E as <-. split_and!; [done|apply elem_of_app; right; apply list_elem_of_here|by exists p].
      + destruct (He k e Hk) as (? & ? & ?). split_and!; [done|apply elem_of_app; by left|done]. }
  wuse (IH s1 l1 A1 (vs ++ [va]) Hvas Hso1 HA1). intros rs s2 (A2 & l2 & Hso2 & Hcr & HA2). apply wp_ret.
  exists A2, l2. rewrite <- app_assoc in HA2. split_and!; [done|by rewrite Hcr, (cr3_frame _ _ Hfr)|done].
Qed.

Definition after_allocs (perm : Z) (vas : list Z) : kstate :=
  match exec (allocs perm vas) family with Ret _ s' => s' | Stop _ s' => s' end.

Lemma after_allocs_ok perm vas :
  Forall (Z.le 0) vas -> exists A l, space_ok family_roots family_sp no_refs (after_allocs perm vas) l A /\
    cr3 (after_allocs perm vas) = 4096 /\ allocated perm vas A.
Proof.
  intros Hv. assert (allocated perm [] no_memory) as H0.
  { split; cbn; [intros p; rewrite uses_none; [done|]|]; intros k e Hk; by rewrite (lookup_empty k) in Hk. }
  pose proof (allocs_spec perm vas family demo_free no_memory [] Hv family_space H0) as H. unfold wp, after_allocs in *.
  destruct (exec _ family); [|done]. exact H.
Qed.

Definition with_stack : kstate := after_allocs 7 [USTACKTOP - PGSIZE].
Definition with_cow : kstate := after_allocs 0x805 [0x800000].

Lemma fork_copies_memory_witness :
  Z.odd (pte_of (mem with_stack) 1 (stack_page * 4096)) = true /\
  forall fuel, stack_page - first_page < Z.of_nat fuel ->
  wp (fork_pages 0x1001 fuel) with_stack (fun _ s' =>
    pte_of (mem s') 2 (stack_page * 4096) = 8 * 4096 + 0x805 \/ pte_of (mem s') 2 (stack_page * 4096) = 0).
Proof.
  assert (pte_of (mem with_stack) 1 (stack_page * 4096) = 8 * 4096 + 7) as Hp by (vm_compute; reflexivity).
  split; [by rewrite Hp|]. intros fuel Hfuel.
  destruct (after_allocs_ok 7 [USTACKTOP - PGSIZE] ltac:(by repeat constructor)) as (A & l & Hso & Hcr & Hu & Hc).
  fold with_stack in Hso, Hcr. generalize dependent with_stack. intros s Hp Hso Hcr. eapply wp_mono.
  - apply (fork_copies_memory family_roots family_sp no_refs 1 2 0x1001 s l A fuel); try done.
    + intros p. specialize (Hu p). simpl in Hu. unfold no_refs. lia.
    + intros k Hk. rewrite (proj1 (pte_entry _ _ _ _ _ _ 2 k Hso (or_intror eq_refl) (proj1 (page_va k Hk)))).
      destruct (entries A !! (2, k)) eqn:E; [|done]. by destruct (Hc _ _ E).
    + by rewrite Hp.
  - intros _ s2 (l2 & A2 & _ & H). pose proof page_consts as (_ & _ & Hlt & _).
    destruct (H stack_page ltac:(lia)) as (H1 & _ & _). cbv zeta in H1. rewrite Hp in H1.
    destruct (H1 eq_refl) as [(-> & _)|(-> & _)]; [by left|by right].
Defined.

(** The free list of a concrete state has at least [n] pages. *)
Fixpoint free_chain (n : nat) (pgs : gmap Z Page) (hd : option Z) : bool :=
  match n with
  | O => true
  | S n' => match hd ≫= (pgs !!.) with Some pg => free_chain n' pgs (pp_link pg) | None => false end
  end.
Lemma free_chain_length n pgs hd l : lseg pgs hd l -> free_chain n pgs hd = true -> (n <= length l)%nat.
Proof.
  revert hd l. induction n as [|n IH]; intros hd l Hl Hc; [lia|]. destruct l as [|p l]; cbn in *; [by subst hd|].
  destruct Hl as (-> & pg & Hpg & Hl). cbn in Hc. rewrite Hpg in Hc. specialize (IH _ _ Hl Hc). lia.
Qed.

Lemma pgfault_makes_private_witness :
  pte_of (mem with_cow) 1 0x800123 = 8 * 4096 + 0x805 /\
  wp (pgfault 7 0x800123) with_cow (fun _ s' => exists p, pte_of (mem s') 1 0x800123 = p * 4096 + 7 /\
    forall i, 0 <= i < 4096 -> ld8 (mem s') (p * 4096 + i) = ld8 (mem with_cow) (8 * 4096 + i)).
Proof.
  assert (pte_of (mem with_cow) 1 0x800123 = 8 * 4096 + 0x805) as Hp by (vm_compute; reflexivity).
  split; [exact Hp|]. assert (free_chain 4 (pages with_cow) (page_free_list with_cow) = true) as Hl by (vm_compute; reflexivity).
  destruct (after_allocs_ok 0x805 [0x800000] ltac:(by repeat constructor)) as (A & l & Hso & Hcr & Hu & _).
  fold with_cow in Hso, Hcr. generalize dependent with_cow. intros s Hp Hl Hso Hcr. eapply wp_mono.
  - apply (pgfault_makes_private family_roots family_sp no_refs 1 s l A 7 0x800123); try done; rewrite ?Hp; try done.
    + exact (free_chain_length _ _ _ _ (wf_lseg _ _ (so_wf _ _ _ _ _ _ Hso)) Hl).
    + intros p. specialize (Hu p). simpl in Hu. unfold no_refs. lia.
  - intros _ s2 (p & H1 & H2 & _). exists p. split; [exact H1|]. rewrite Hp in H2. exact H2.
Defined.
