(* ===== verification/BlockCache.v ===== *)
(** * The block cache as fs/fs.c sees it: fs/fs.h, inc/fs.h

    The file system keeps the whole disk in its address space: block [n] is at
    [DISKMAP + n * BLKSIZE].  [BlockCacheOps] are the operations fs.c uses on that
    memory (plain loads and stores, the block routines of lib/string.c, and
    flush_block), and [BlockCache] is what the block cache promises about them: the
    server sees a flat array of bytes, whatever is in memory and whatever is only
    on disk.  fs.c is modelled and proved over this interface, and Bc.v implements
    it. *)
From S2P Require Import Prelude Mmu CMem.

Definition E_NO_DISK : Z := 9.
Definition E_NOT_FOUND : Z := 11.
Definition E_BAD_PATH : Z := 12.
Definition E_FILE_EXISTS : Z := 13.

Definition BLKSIZE : Z := PGSIZE.
Definition BLKBITSIZE : Z := BLKSIZE * 8.
Definition MAXNAMELEN : Z := 128.
Definition MAXPATHLEN : Z := 1024.
Definition NDIRECT : Z := 10.
Definition NINDIRECT : Z := BLKSIZE / 4.
Definition MAXFILESIZE : Z := (NDIRECT + NINDIRECT) * BLKSIZE.
Definition sizeof_File : Z := 256.
Definition BLKFILES : Z := BLKSIZE / sizeof_File.
Definition FTYPE_REG : Z := 0.
Definition FTYPE_DIR : Z := 1.
Definition FS_MAGIC : Z := 0x4A0530AE.
Definition SECTSIZE : Z := 512.
Definition BLKSECTS : Z := BLKSIZE / SECTSIZE.
Definition DISKMAP : Z := 0x10000000.
Definition DISKSIZE : Z := 0xC0000000.
#[export] Hint Unfold E_NO_DISK E_NOT_FOUND E_BAD_PATH E_FILE_EXISTS BLKSIZE BLKBITSIZE MAXNAMELEN
  NDIRECT NINDIRECT sizeof_File BLKFILES SECTSIZE BLKSECTS DISKMAP DISKSIZE : jos_consts.

(** How code of the server fails to return. *)
Inductive fstop :=
| FPanic       (* panic(), or a failed assert() *)
| FUndefined   (* C leaves the behaviour undefined *)
| FDiverge     (* a loop did not end *)
| FStack.      (* page faults nest too deep for the exception stack *)

Class BlockCacheOps (St : Type) := {
  (** [n]-byte loads and stores of the server, which may fault a block in. *)
  bload : nat -> Z -> M St fstop Z;
  bstore : nat -> Z -> Z -> M St fstop unit;
  bmemset : Z -> Z -> Z -> M St fstop unit;
  bmemmove : Z -> Z -> Z -> M St fstop unit;
  flush_block : Z -> M St fstop unit;
  (** The pointers [super] and [bitmap] of fs/fs.h. *)
  super : St -> Z;
  bitmap : St -> Z
}.

(** ** Routines over the interface

    [block_is_free] of fs.c and [diskaddr] of bc.c are used on both sides.  The
    first takes the load to use, since the fault handler of bc.c calls it too. *)
Definition block_is_free_via {St} (load : nat -> Z -> M St fstop Z) (sp bm blockno : Z) : M St fstop bool :=
  if sp =? 0 then mret false
  else
    nb ← load 4%nat (sp + 4);
    if blockno >=? nb then mret false
    else w ← load 4%nat (bm + 4 * (blockno / 32)); mret (Z.testbit w (blockno mod 32)).

Section routines.
Context {St : Type} `{!BlockCacheOps St}.

Definition diskaddr (blockno : Z) : M St fstop Z :=
  sp ← gets super;
  bad ← (if blockno =? 0 then mret true
         else if sp =? 0 then mret false
         else nb ← bload 4 (sp + 4); mret (blockno >=? nb));
  if bad : bool then stop FPanic else mret (DISKMAP + blockno * BLKSIZE).

(** Bytes to and from a local array. *)
Fixpoint load_bytes (n : nat) (a : Z) : M St fstop (list Z) :=
  match n with
  | O => mret []
  | S n' => b ← bload 1 a; l ← load_bytes n' (a + 1); mret (b :: l)
  end.
Fixpoint store_bytes (a : Z) (l : list Z) : M St fstop unit :=
  match l with
  | [] => mret tt
  | b :: l' => bstore 1 a b;; store_bytes (a + 1) l'
  end.

(** strcpy from a string (its characters without the final zero) and strcmp of the
    string at [p] with [q]. *)
Definition strcpy_to (dst : Z) (src : list Z) : M St fstop unit := store_bytes dst (src ++ [0]).
Fixpoint strcmp_at (p : Z) (q : list Z) : M St fstop Z :=
  c ← bload 1 p;
  match q with
  | [] => mret c
  | d :: q' => if (c =? 0) || negb (c =? d) then mret (c - d) else strcmp_at (p + 1) q'
  end.
End routines.

(** ** Bytes as a function of the address *)
Fixpoint vld (n : nat) (v : Z -> Z) (a : Z) : Z :=
  match n with
  | O => 0
  | S n' => v a + 256 * vld n' v (a + 1)
  end.
Definition vst (n : nat) (v : Z -> Z) (a x : Z) : Z -> Z := fun b =>
  if decide (a <= b < a + Z.of_nat n) then u8 (x / 256 ^ (b - a)) else v b.
Definition vset (v : Z -> Z) (a c n : Z) : Z -> Z := fun b =>
  if decide (a <= b < a + n) then u8 c else v b.
Definition vmove (v : Z -> Z) (d s n : Z) : Z -> Z := fun b =>
  if decide (d <= b < d + n) then v (s + (b - d)) else v b.

(** The number of blocks of the disk, and whether block [b] is marked free, as the
    bytes of the super block and the bitmap say. *)
Definition v_nblocks (v : Z -> Z) : Z := vld 4 v (DISKMAP + BLKSIZE + 4).
Definition v_free (v : Z -> Z) (b : Z) : bool :=
  Z.testbit (vld 4 v (DISKMAP + 2 * BLKSIZE + 4 * (b / 32))) (b mod 32).

(** Byte [a] belongs to a block of the disk that is in use. *)
Definition disk_byte (v : Z -> Z) (a : Z) : Prop :=
  let b := (a - DISKMAP) / BLKSIZE in 0 < b < v_nblocks v /\ v_free v b = false.

(** The super block and the bitmap lie on the disk and are in use. *)
Definition reserved (v : Z -> Z) : Prop :=
  0 < v_nblocks v /\ v_free v 1 = false /\
  forall i, 0 <= i -> i * BLKBITSIZE < v_nblocks v -> 2 + i < v_nblocks v /\ v_free v (2 + i) = false.

Definition no_overlap (a n b k : Z) : Prop := a + n <= b \/ b + k <= a.

(** ** What the block cache promises

    [bview] is the flat memory the server sees, [bdisk] the contents of the disk by
    the same addresses, and [bown] the server's other memory.  The magic number and
    the size of the disk, at the start of the super block, must not be written, and the
    blocks of the bitmap must not be marked free. *)
Section promises.
Context {St : Type} (bview bdisk : St -> Z -> Z) (bown : St -> Z -> Prop) (bok : St -> Prop).

Definition usable (s : St) (a n : Z) : Prop :=
  forall i, 0 <= i < n -> bown s (a + i) \/ disk_byte (bview s) (a + i).

(** The [n] bytes from [a] may be written so that the memory becomes [v]. *)
Definition writable (s : St) (a n : Z) (v : Z -> Z) : Prop :=
  usable s a n /\ (0 < n -> no_overlap a n (DISKMAP + BLKSIZE) 8) /\ reserved v.

(** From [s] to [s'] the server's memory becomes [v] and the disk [d]. *)
Definition bstep (s s' : St) (v d : Z -> Z) : Prop :=
  bok s' /\ (forall a, bview s' a = v a) /\ (forall a, bdisk s' a = d a) /\
  (forall a, bown s' a <-> bown s a).
End promises.

Class BlockCache (St : Type) `{!BlockCacheOps St} := {
  bview : St -> Z -> Z;
  bdisk : St -> Z -> Z;
  bown : St -> Z -> Prop;
  bok : St -> Prop;
  bview_byte s a : 0 <= bview s a < 256;
  bown_apart s a : bok s -> bown s a -> ~ (DISKMAP <= a < DISKMAP + DISKSIZE);
  bok_super s : bok s -> super s = DISKMAP + BLKSIZE;
  bok_bitmap s : bok s -> bitmap s = DISKMAP + 2 * BLKSIZE;
  bok_nblocks s : bok s -> v_nblocks (bview s) <= DISKSIZE / BLKSIZE;
  bok_reserved s : bok s -> reserved (bview s);
  bload_ok n a s : bok s -> usable bview bown s a (Z.of_nat n) ->
    wp (bload n a) s (fun x s' =>
      x = vld n (bview s) a /\ bstep bview bdisk bown bok s s' (bview s) (bdisk s));
  bstore_ok n a x s : bok s -> a mod PGSIZE + Z.of_nat n <= PGSIZE ->
    writable bview bown s a (Z.of_nat n) (vst n (bview s) a x) ->
    wp (bstore n a x) s (fun _ s' =>
      bstep bview bdisk bown bok s s' (vst n (bview s) a x) (bdisk s));
  bmemset_ok a c n s : bok s -> 0 <= n -> writable bview bown s a n (vset (bview s) a c n) ->
    wp (bmemset a c n) s (fun _ s' =>
      bstep bview bdisk bown bok s s' (vset (bview s) a c n) (bdisk s));
  bmemmove_ok d a n s : bok s -> 0 <= n -> usable bview bown s a n ->
    writable bview bown s d n (vmove (bview s) d a n) ->
    wp (bmemmove d a n) s (fun _ s' =>
      bstep bview bdisk bown bok s s' (vmove (bview s) d a n) (bdisk s));
  (** After a flush the block of [a] is on disk as the server sees it. *)
  flush_block_ok a s : bok s -> DISKMAP <= a < DISKMAP + DISKSIZE ->
    wp (flush_block a) s (fun _ s' =>
      bstep bview bdisk bown bok s s' (bview s) (fun b =>
        if decide ((b - DISKMAP) / BLKSIZE = (a - DISKMAP) / BLKSIZE) then bview s b else bdisk s b))
}.

(** ** Flat memories *)
Lemma vld_ext n v v' a :
  (forall b, a <= b < a + Z.of_nat n -> v b = v' b) -> vld n v a = vld n v' a.
Proof.
  revert a. induction n as [|n IH]; intros a H; [done|].
  cbn [vld]. rewrite (H a) by lia. do 2 f_equal. apply IH. intros. apply H. lia.
Qed.

Lemma vld_ld n m a : vld n (ld8 m) a = ld n m a.
Proof. revert a. induction n as [|n IH]; intros a; [done|]. cbn [vld ld]. by rewrite IH. Qed.

Lemma vld_shift n v v' a a' :
  (forall i, 0 <= i < Z.of_nat n -> v' (a' + i) = v (a + i)) -> vld n v' a' = vld n v a.
Proof.
  revert a a'. induction n as [|n IH]; intros a a' Hv; [done|]. cbn [vld]. f_equal.
  - specialize (Hv 0 ltac:(lia)). by rewrite !Z.add_0_r in Hv.
  - f_equal. apply IH. intros i Hi. rewrite <- !Z.add_assoc. apply Hv. lia.
Qed.

Lemma vld_range n v a : (forall b, 0 <= v b < 256) -> 0 <= vld n v a < 256 ^ Z.of_nat n.
Proof.
  intros Hv. revert a. induction n as [|n IH]; intros a; [simpl; lia|].
  cbn [vld]. rewrite Nat2Z.inj_succ, Z.pow_succ_r by lia. specialize (IH (a + 1)). specialize (Hv a). lia.
Qed.

Lemma vld_vst_ne k n v a b x :
  no_overlap a (Z.of_nat n) b (Z.of_nat k) -> vld k (vst n v a x) b = vld k v b.
Proof. intros H. apply vld_ext. intros c Hc. unfold vst. rewrite decide_False; [done|]. unfold no_overlap in H. lia. Qed.

Lemma vld_vst_eq n v a x : vld n (vst n v a x) a = x mod 256 ^ Z.of_nat n.
Proof.
  assert (forall k a' x', (forall b, a' <= b < a' + Z.of_nat k -> u8 (x' / 256 ^ (b - a')) = vst n v a x b) ->
    vld k (vst n v a x) a' = x' mod 256 ^ Z.of_nat k) as H.
  { induction k as [|k IH]; intros a' x' H; [simpl; by rewrite Z.mod_1_r|].
    cbn [vld]. rewrite (IH _ (x' / 256)).
    - rewrite <- H by lia. rewrite Z.sub_diag, Z.pow_0_r, Z.div_1_r.
      rewrite Nat2Z.inj_succ, Z.pow_succ_r, Z.rem_mul_r by lia. done.
    - intros b Hb. rewrite <- H by lia. f_equal.
      replace (b - a') with (Z.succ (b - (a' + 1))) by lia.
      rewrite Z.pow_succ_r, Z.div_div by lia. done. }
  apply H. intros b Hb. unfold vst. by rewrite decide_True by lia.
Qed.

Lemma v_nblocks_ext v v' : (forall a, v a = v' a) -> v_nblocks v = v_nblocks v'.
Proof. intros H. apply vld_ext. auto. Qed.
Lemma v_free_ext v v' b : (forall a, v a = v' a) -> v_free v b = v_free v' b.
Proof. intros H. unfold v_free. f_equal. apply vld_ext. auto. Qed.
Lemma reserved_ext v v' : (forall a, v a = v' a) -> reserved v -> reserved v'.
Proof.
  intros H (Hn & H1 & Hr). unfold reserved. rewrite <- (v_nblocks_ext v v' H), <- (v_free_ext v v' _ H).
  split_and!; [done..|]. intros i Hi. rewrite <- (v_free_ext v v' _ H). by apply Hr.
Qed.
Lemma disk_byte_ext v v' a : (forall a, v a = v' a) -> disk_byte v a -> disk_byte v' a.
Proof.
  intros H. unfold disk_byte. by rewrite (v_nblocks_ext v v' H), (v_free_ext v v' _ H).
Qed.
