(* ===== verification/Bc.v ===== *)
(** * The block cache and the disk: fs/bc.c, fs/ide.c

    The state is that of the file server: the pages of its address space with
    their page table flags, the drives, and the ports of the IDE controller.  A
    load or store to a page that is not there runs bc_pgfault, which reads the
    block from the disk; it may itself fault, on the super block or the bitmap. *)
From S2P Require Import Prelude Mmu CMem BlockCache.

(** struct OpenFile of fs/serv.c, an entry of the table of open files. *)
Record OpenFile := mkOpenFile { o_fileid : Z; o_file : Z; o_mode : Z; o_fd : Z }.
#[export] Instance OpenFile_fields : Fields OpenFile := fun o =>
  mkOpenFile (o_fileid o) (o_file o) (o_mode o) (o_fd o).

Record FsState := mkFs {
  fmem : bytes;             (* the bytes of the mapped pages, by virtual address *)
  fpte : gmap Z Z;          (* vpt[]: the flags of each mapped page *)
  frames : Z;               (* physical pages the kernel can still give *)
  disks : gmap Z bytes;     (* the drives that are attached: 0 and 1 *)
  bad_sectors : gset Z;     (* sectors on which the drive reports an error *)
  float_bus : Z;            (* the status port when no drive is selected *)
  diskno : Z;
  ide_regs : gmap Z Z;      (* the registers of the controller, by port *)
  ide_cur : Z;              (* the sector the drive transfers next *)
  super_ : Z;
  bitmap_ : Z;
  opentab : gmap Z OpenFile;
  shared : gmap Z Z         (* how often other environments map each page *)
}.
#[export] Instance FsState_fields : Fields FsState := fun s =>
  mkFs (fmem s) (fpte s) (frames s) (disks s) (bad_sectors s) (float_bus s) (diskno s) (ide_regs s)
    (ide_cur s) (super_ s) (bitmap_ s) (opentab s) (shared s).

Abbreviation F := (M FsState fstop).

(** ** fs/ide.c *)
Definition IDE_BSY : Z := 0x80.
Definition IDE_DRDY : Z := 0x40.
Definition IDE_DF : Z := 0x20.
Definition IDE_ERR : Z := 0x01.

Definition ide_reg (s : FsState) (port : Z) : Z := default 0 (ide_regs s !! port).

(** The controller: the drive is selected by bit 4 of port 0x1F6; a command latches
    the sector number from its four registers. *)
Definition ide_drive (s : FsState) : Z := Z.land (Z.shiftr (ide_reg s 0x1F6) 4) 1.
Definition ide_lba (s : FsState) : Z :=
  ide_reg s 0x1F3 + 2 ^ 8 * ide_reg s 0x1F4 + 2 ^ 16 * ide_reg s 0x1F5 +
  2 ^ 24 * Z.land (ide_reg s 0x1F6) 0x0F.
Definition ide_outb (port v : Z) : F unit :=
  modify (fun s =>
    let s := s <| ide_regs := <[port := u8 v]> (ide_regs s) |> in
    if port =? 0x1F7 then s <| ide_cur := ide_lba s |> else s).
Definition ide_status (s : FsState) : Z :=
  match disks s !! ide_drive s with
  | None => float_bus s
  | Some _ => if decide (ide_cur s ∈ bad_sectors s) then Z.lor IDE_DRDY IDE_ERR else IDE_DRDY
  end.

(** The busy loop waits for ever if the drive never gets ready. *)
Definition ide_wait_ready (check_error : bool) : F Z :=
  r ← gets ide_status;
  if negb (Z.land r (Z.lor IDE_BSY IDE_DRDY) =? IDE_DRDY) then stop FDiverge
  else if check_error && negb (Z.land r (Z.lor IDE_DF IDE_ERR) =? 0) then mret (-1)
  else mret 0.

(** The status does not change while it is polled, so 1000 polls are as good as
    one. *)
Definition ide_probe_disk1 : F bool :=
  ide_wait_ready false;;
  ide_outb 0x1F6 (Z.lor 0xE0 (Z.shiftl 1 4));;
  r ← gets ide_status;
  ide_outb 0x1F6 (Z.lor 0xE0 (Z.shiftl 0 4));;
  mret (Z.land r (Z.lor (Z.lor IDE_BSY IDE_DF) IDE_ERR) =? 0).

Definition ide_set_disk (d : Z) : F unit :=
  if negb (d =? 0) && negb (d =? 1) then stop FPanic
  else modify (fun s => s <| diskno := d |>).

(** [n] bytes from [src] at [a] to [dst] at [b]. *)
Fixpoint blit (n : nat) (src : bytes) (a : Z) (dst : bytes) (b : Z) : bytes :=
  match n with
  | O => dst
  | S n' => blit n' src (a + 1) (st8 dst b (ld8 src a)) (b + 1)
  end.

Definition drive (s : FsState) : bytes := default ∅ (disks s !! ide_drive s).

(** [insl] and [outsl] of one sector; the caller has touched the memory. *)
Definition insl_sector (dst : Z) : F unit :=
  modify (fun s => s <| fmem := blit 512 (drive s) (ide_cur s * SECTSIZE) (fmem s) dst |>
                     <| ide_cur := ide_cur s + 1 |>).
Definition outsl_sector (src : Z) : F unit :=
  modify (fun s =>
    s <| disks := <[ide_drive s := blit 512 (fmem s) src (drive s) (ide_cur s * SECTSIZE)]> (disks s) |>
      <| ide_cur := ide_cur s + 1 |>).

Definition ide_command (secno nsecs cmd : Z) : F unit :=
  ide_wait_ready false;;
  d ← gets diskno;
  ide_outb 0x1F2 nsecs;;
  ide_outb 0x1F3 (Z.land secno 0xFF);;
  ide_outb 0x1F4 (Z.land (Z.shiftr secno 8) 0xFF);;
  ide_outb 0x1F5 (Z.land (Z.shiftr secno 16) 0xFF);;
  ide_outb 0x1F6 (Z.lor (Z.lor 0xE0 (Z.shiftl (Z.land d 1) 4)) (Z.land (Z.shiftr secno 24) 0x0F));;
  ide_outb 0x1F7 cmd.

(** ** Page tables of the server, and memory accesses *)
Definition pte_of_va (s : FsState) (va : Z) : Z := default 0 (fpte s !! PPN va).
Definition va_is_mapped (s : FsState) (va : Z) : bool := negb (Z.land (pte_of_va s va) PTE_P =? 0).
Definition va_is_not_accessed (s : FsState) (va : Z) : bool := negb (Z.land (pte_of_va s va) PTE_A =? 0).
Definition va_is_dirty (s : FsState) (va : Z) : bool := negb (Z.land (pte_of_va s va) PTE_D =? 0).

(** The system calls on its own address space, as the server sees them: a page of
    zeros or -E_NO_MEM; other flags for a page that stays; and no page. *)
Definition srv_page_alloc (va perm : Z) : F Z :=
  n ← gets frames;
  if n <=? 0 then mret (- E_NO_MEM)
  else
    modify (fun s => s <| fmem := memset (fmem s) va 0 PGSIZE |> <| fpte := <[PPN va := perm]> (fpte s) |>
      <| frames := if va_is_mapped s va then n else n - 1 |> <| shared := delete (PPN va) (shared s) |>);;
    mret 0.
Definition srv_page_remap (va perm : Z) : F unit :=
  modify (fun s => s <| fpte := <[PPN va := Z.lor perm PTE_P]> (fpte s) |>).
Definition srv_page_unmap (va : Z) : F unit :=
  modify (fun s => s <| frames := if va_is_mapped s va then frames s + 1 else frames s |>
    <| fpte := delete (PPN va) (fpte s) |>).

Definition pte_allows (write : bool) (e : Z) : bool :=
  negb (Z.land e PTE_P =? 0) && (negb write || negb (Z.land e PTE_W =? 0)).

(** An access to [va]: the processor raises a page fault if the page is not there or
    may not be written, restarts the instruction when the handler returns, and sets
    the accessed and dirty flags. *)
Definition touch (pgfault : Z -> F unit) (write : bool) (va : Z) : F unit :=
  e ← gets (fun s => pte_of_va s va);
  (if pte_allows write e then mret tt else pgfault va);;
  e ← gets (fun s => pte_of_va s va);
  if pte_allows write e then
    modify (fun s => s <| fpte :=
      <[PPN va := Z.lor e (if write then Z.lor PTE_A PTE_D else PTE_A)]> (fpte s) |>)
  else stop FDiverge.

Section accesses.
Variable pgfault : Z -> F unit.

Fixpoint load_with (n : nat) (va : Z) : F Z :=
  match n with
  | O => mret 0
  | S n' =>
      touch pgfault false va;;
      b ← gets (fun s => ld8 (fmem s) va);
      r ← load_with n' (va + 1);
      mret (b + 256 * r)
  end.

Fixpoint store_with (n : nat) (va x : Z) : F unit :=
  match n with
  | O => mret tt
  | S n' =>
      touch pgfault true va;;
      modify (fun s => s <| fmem := st8 (fmem s) va x |>);;
      store_with n' (va + 1) (x / 256)
  end.

(** The pages of [n] bytes from [va], the first page by its first byte used. *)
Fixpoint touch_pages (k : nat) (write : bool) (va : Z) : F unit :=
  match k with
  | O => mret tt
  | S k' => touch pgfault write va;; touch_pages k' write (ROUNDDOWN va PGSIZE + PGSIZE)
  end.
Definition touch_range (write : bool) (va n : Z) : F unit :=
  if n <=? 0 then mret tt
  else touch_pages (Z.to_nat ((va + n - 1) / PGSIZE - va / PGSIZE + 1)) write va.

(** The block routines touch their pages and then move the bytes. *)
Definition memset_with (v c n : Z) : F unit :=
  touch_range true v n;; modify (fun s => s <| fmem := memset (fmem s) v c n |>).
Definition memmove_with (dst src n : Z) : F unit :=
  touch_range false src n;; touch_range true dst n;;
  modify (fun s => s <| fmem := memmove (fmem s) dst src n |>).

Fixpoint ide_read_loop (nsecs : nat) (dst : Z) : F Z :=
  match nsecs with
  | O => mret 0
  | S n =>
      r ← ide_wait_ready true;
      if r <? 0 then mret r
      else touch_range true dst SECTSIZE;; insl_sector dst;; ide_read_loop n (dst + SECTSIZE)
  end.
Definition ide_read_with (secno dst nsecs : Z) : F Z :=
  if nsecs <=? 256 then ide_command secno nsecs 0x20;; ide_read_loop (Z.to_nat nsecs) dst
  else stop FPanic.

Fixpoint ide_write_loop (nsecs : nat) (src : Z) : F Z :=
  match nsecs with
  | O => mret 0
  | S n =>
      r ← ide_wait_ready true;
      if r <? 0 then mret r
      else touch_range false src SECTSIZE;; outsl_sector src;; ide_write_loop n (src + SECTSIZE)
  end.
Definition ide_write_with (secno src nsecs : Z) : F Z :=
  if nsecs <=? 256 then ide_command secno nsecs 0x30;; ide_write_loop (Z.to_nat nsecs) src
  else stop FPanic.
End accesses.

(** ** fs/bc.c

    [depth] bounds how deep faults may nest. *)
Fixpoint bc_pgfault (depth : nat) (va : Z) : F unit :=
  match depth with
  | O => stop FStack
  | S d =>
      let load := load_with (bc_pgfault d) in
      let blockno := u64 (va - DISKMAP) / BLKSIZE in
      if (va <? DISKMAP) || (va >=? DISKMAP + DISKSIZE) then stop FPanic
      else
        sp ← gets super_;
        beyond ← (if sp =? 0 then mret false else nb ← load 4%nat (sp + 4); mret (blockno >=? nb));
        if beyond : bool then stop FPanic
        else
          let addr := ROUNDDOWN va PGSIZE in
          r ← srv_page_alloc addr (Z.lor (Z.lor PTE_P PTE_W) PTE_U);
          if r <? 0 then stop FPanic
          else
            r ← ide_read_with (bc_pgfault d) (u32 (blockno * BLKSECTS)) addr BLKSECTS;
            if negb (r =? 0) then stop FPanic
            else
              bm ← gets bitmap_;
              free ← (if bm =? 0 then mret false
                      else sp ← gets super_; block_is_free_via load sp bm (u32 blockno));
              if free : bool then stop FPanic else mret tt
  end.

(** A fault nests at most three deep: a block, the bitmap block that tells whether
    it is in use, and the bitmap block for that one. *)
Definition FAULT_DEPTH : nat := 3.
Definition pgfault : Z -> F unit := bc_pgfault FAULT_DEPTH.

Definition ide_read : Z -> Z -> Z -> F Z := ide_read_with pgfault.
Definition ide_write : Z -> Z -> Z -> F Z := ide_write_with pgfault.

Definition bc_flush_block (addr : Z) : F unit :=
  let blockno := u64 (addr - DISKMAP) / BLKSIZE in
  if (addr <? DISKMAP) || (addr >=? DISKMAP + DISKSIZE) then stop FPanic
  else
    wanted ← gets (fun s => va_is_mapped s addr && (va_is_dirty s addr || va_is_not_accessed s addr));
    if wanted : bool then
      let addr := ROUNDDOWN addr PGSIZE in
      r ← ide_write (u32 (blockno * BLKSECTS)) addr BLKSECTS;
      if r <? 0 then stop FPanic
      else srv_page_remap addr (Z.land PTE_SYSCALL (Z.lnot PTE_D))
    else mret tt.

#[export] Instance bc_ops : BlockCacheOps FsState := {|
  bload := load_with pgfault;
  bstore := store_with pgfault;
  bmemset := memset_with pgfault;
  bmemmove := memmove_with pgfault;
  flush_block := bc_flush_block;
  super := super_;
  bitmap := bitmap_ |}.

Definition OOPS : list Z := [0x4F; 0x4F; 0x50; 0x53; 0x21; 0x0A].
Definition sizeof_Super : Z := 264.

Definition assertF (b : bool) : F unit := if b then mret tt else stop FPanic.

Definition check_bc : F unit :=
  a ← diskaddr 1;
  backup ← load_bytes (Z.to_nat sizeof_Super) a;
  strcpy_to a OOPS;;
  flush_block a;;
  m ← gets (fun s => va_is_mapped s a); assertF m;;
  d ← gets (fun s => va_is_dirty s a); assertF (negb d);;
  srv_page_unmap a;;
  m ← gets (fun s => va_is_mapped s a); assertF (negb m);;
  c ← strcmp_at a OOPS; assertF (c =? 0);;
  store_bytes a backup;;
  flush_block a.

(** Installing the handler is what makes [touch] call bc_pgfault. *)
Definition bc_init : F unit := check_bc.
