(* ===== verification/BcSpec.v ===== *)
(** * The block cache is transparent

    Whatever is in memory and whatever is only on disk, the server sees one flat
    array of bytes: [bc_view].  Faults, loads and flushes leave it alone, stores
    change just the bytes they name, and a flushed block is on disk as it is seen.
    The result is the instance [bc_cache] of the interface of BlockCache.v. *)
From S2P Require Import Prelude Mmu CMem BlockCache Bc.

(** ** What the server sees *)
Definition cur_disk (s : FsState) : bytes := default ∅ (disks s !! Z.land (diskno s) 1).
Definition in_region (k : Z) : Prop := 0x10000 <= k < 0xD0000.
#[export] Instance in_region_dec k : Decision (in_region k).
Proof. unfold in_region. apply _. Defined.

Definition bc_disk (s : FsState) (a : Z) : Z := ld8 (cur_disk s) (a - DISKMAP).
Definition bc_view (s : FsState) (a : Z) : Z :=
  if va_is_mapped s a then ld8 (fmem s) a
  else if decide (in_region (a / 4096)) then bc_disk s a else 0.
Definition bc_own (s : FsState) (a : Z) : Prop :=
  ~ in_region (a / 4096) /\ pte_allows true (pte_of_va s a) = true.
Definition mapped_blocks (s : FsState) : gset Z := filter in_region (dom (fpte s)).

Record bc_ok (s : FsState) : Prop := {
  ok_super : super_ s = DISKMAP + BLKSIZE;
  ok_bitmap : bitmap_ s = DISKMAP + 2 * BLKSIZE;
  ok_reserved : reserved (bc_view s);
  ok_nblocks : v_nblocks (bc_view s) <= 0xC0000;
  ok_map k e : fpte s !! k = Some e -> in_region k ->
    k < 0x10000 + v_nblocks (bc_view s) /\ pte_allows true e = true;
  ok_b1 : is_Some (fpte s !! 0x10001);
  ok_frames : v_nblocks (bc_view s) <= Z.of_nat (size (mapped_blocks s)) + frames s;
  ok_bad : bad_sectors s = ∅;
  ok_drive : is_Some (disks s !! Z.land (diskno s) 1);
  ok_sel : is_Some (disks s !! ide_drive s);
  ok_clean k e a : fpte s !! k = Some e -> in_region k -> Z.land e PTE_D = 0 -> a / 4096 = k ->
    ld8 (fmem s) a = bc_disk s a
}.

(** [quiet s s']: nothing the server or the disk shows has changed, and every page
    that was there still is, with its dirty flag if it had one. *)
Definition quiet (s s' : FsState) : Prop :=
  bstep bc_view bc_disk bc_own bc_ok s s' (bc_view s) (bc_disk s) /\
  (forall w a, pte_allows w (pte_of_va s a) = true -> pte_allows w (pte_of_va s' a) = true) /\
  (forall a, va_is_dirty s a = true -> va_is_dirty s' a = true).

Lemma quiet_refl s : bc_ok s -> quiet s s.
Proof. by split. Qed.

Lemma quiet_trans s1 s2 s3 : quiet s1 s2 -> quiet s2 s3 -> quiet s1 s3.
Proof.
  intros [(Ho1 & Hv1 & Hd1 & Hw1) [Hm1 Hf1]] [(Ho2 & Hv2 & Hd2 & Hw2) [Hm2 Hf2]].
  split; [split_and!|split].
  - done.
  - intros. by rewrite Hv2.
  - intros. by rewrite Hd2.
  - intros. by rewrite Hw2.
  - auto.
  - auto.
Qed.

Lemma quiet_ok s s' : quiet s s' -> bc_ok s'.
Proof. by intros [[]]. Qed.
Lemma quiet_view s s' a : quiet s s' -> bc_view s' a = bc_view s a.
Proof. intros [(_ & H & _) _]. apply H. Qed.

(** ** Page table flags *)
Lemma pte_allows_present w e : pte_allows w e = true -> Z.land e PTE_P <> 0.
Proof. unfold pte_allows. rewrite andb_true_iff, negb_true_iff, Z.eqb_neq. by intros []. Qed.

Lemma pte_allows_read w e : pte_allows true e = true -> pte_allows w e = true.
Proof. unfold pte_allows. destruct w; [done|]. by intros [-> _]%andb_true_iff. Qed.

Lemma land_lor_apart e x f : Z.land x f = 0 -> Z.land (Z.lor e x) f = Z.land e f.
Proof. intros H. by rewrite Z.land_lor_distr_l, H, Z.lor_0_r. Qed.

Lemma pte_allows_lor w e x :
  Z.land x PTE_P = 0 -> Z.land x PTE_W = 0 -> pte_allows w (Z.lor e x) = pte_allows w e.
Proof. intros H1 H2. unfold pte_allows. by rewrite !land_lor_apart. Qed.

Lemma pte_of_va_Some s va w :
  pte_allows w (pte_of_va s va) = true -> fpte s !! PPN va = Some (pte_of_va s va).
Proof. unfold pte_of_va. by destruct (fpte s !! PPN va). Qed.

Lemma pte_of_va_insert s k e va :
  pte_of_va (s <| fpte := <[k := e]> (fpte s) |>) va = if decide (va / 4096 = k) then e else pte_of_va s va.
Proof.
  unfold pte_of_va. cbn. rewrite PPN_div. case_decide as H.
  - by rewrite H, lookup_insert_eq.
  - by rewrite lookup_insert_ne.
Qed.

Lemma reserved_two v : reserved v -> 2 < v_nblocks v /\ v_free v 2 = false.
Proof. intros (Hn & _ & H). by apply (H 0). Qed.

(** Setting the accessed or dirty flag of a page that is there. *)
Lemma flags_quiet s k e x :
  bc_ok s -> fpte s !! k = Some e -> x = PTE_A \/ x = Z.lor PTE_A PTE_D ->
  quiet s (s <| fpte := <[k := Z.lor e x]> (fpte s) |>).
Proof.
  intros Hok He Hx. set (s' := s <| fpte := _ |>).
  assert (Z.land x PTE_P = 0 /\ Z.land x PTE_W = 0) as [HxP HxW] by (by destruct Hx as [-> | ->]).
  assert (forall a, pte_of_va s a = e \/ a / 4096 <> k) as Hpk.
  { intros a. destruct (decide (a / 4096 = k)) as [<-|]; [left|by right].
    unfold pte_of_va. by rewrite PPN_div, He. }
  assert (forall a w, pte_allows w (pte_of_va s' a) = pte_allows w (pte_of_va s a)) as Hall.
  { intros a w. subst s'. rewrite pte_of_va_insert. case_decide; [|done].
    destruct (Hpk a) as [->|]; [by apply pte_allows_lor|done]. }
  assert (forall a, va_is_mapped s' a = va_is_mapped s a) as Hmap.
  { intros a. specialize (Hall a false). unfold pte_allows in Hall. cbn in Hall. by rewrite !andb_true_r in Hall. }
  assert (forall a, bc_view s' a = bc_view s a) as Hv.
  { intros a. unfold bc_view. by rewrite Hmap. }
  assert (mapped_blocks s' = mapped_blocks s) as Hmb.
  { unfold mapped_blocks. cbn. by rewrite dom_insert_lookup_L by eauto. }
  split; [split_and!; try done|split; [by intros; rewrite Hall|]].
  3:{ intros a. unfold va_is_dirty. subst s'. rewrite pte_of_va_insert. case_decide; [|done].
      destruct (Hpk a) as [->|]; [|done]. rewrite !negb_true_iff, !Z.eqb_neq, Z.land_lor_distr_l.
      intros ? [? _]%Z.lor_eq_0_iff. done. }
  - destruct Hok. split; try done.
    + by eapply reserved_ext; [|exact ok_reserved0].
    + by rewrite (v_nblocks_ext _ _ Hv).
    + intros k' e' Hk' Hr. rewrite (v_nblocks_ext _ _ Hv). cbn in Hk'.
      apply lookup_insert_Some in Hk' as [[<- <-]|[_ Hk']]; [|by apply ok_map0].
      rewrite pte_allows_lor by done. by apply ok_map0.
    + cbn. destruct (decide (k = 0x10001)) as [->|]; [rewrite lookup_insert_eq; eauto|].
      by rewrite lookup_insert_ne.
    + rewrite (v_nblocks_ext _ _ Hv), Hmb. done.
    + intros k' e' a Hk' Hr Hd Ha. cbn in Hk'.
      apply lookup_insert_Some in Hk' as [[<- <-]|[_ Hk']]; [|by eapply ok_clean0].
      apply (ok_clean0 k e a); try done. rewrite Z.land_lor_distr_l in Hd.
      by apply Z.lor_eq_0_iff in Hd as [? _].
  - intros a. unfold bc_own. by rewrite Hall.
Qed.

Lemma touch_hit pf w va s :
  pte_allows w (pte_of_va s va) = true ->
  touch pf w va s = Ret tt (s <| fpte := <[PPN va := Z.lor (pte_of_va s va)
    (if w then Z.lor PTE_A PTE_D else PTE_A)]> (fpte s) |>).
Proof. intros H. unfold touch, mbind, M_bind, gets, mret, M_ret. by rewrite H, H. Qed.

(** What [touch] leaves behind: the page is there, and marked dirty for a write. *)
Definition granted (w : bool) (s : FsState) (va : Z) : bool :=
  pte_allows w (pte_of_va s va) && (negb w || va_is_dirty s va).

Lemma granted_quiet w s s' va : quiet s s' -> granted w s va = true -> granted w s' va = true.
Proof.
  intros (_ & Hm & Hd). unfold granted. rewrite !andb_true_iff, !orb_true_iff.
  intros [H [H'|H']]; split; auto.
Qed.

Lemma touched_quiet w va s :
  bc_ok s -> pte_allows w (pte_of_va s va) = true ->
  let s' := s <| fpte := <[PPN va := Z.lor (pte_of_va s va)
    (if w then Z.lor PTE_A PTE_D else PTE_A)]> (fpte s) |> in
  quiet s s' /\ granted w s' va = true.
Proof.
  intros Hok H. split.
  - apply flags_quiet; [done|by eapply pte_of_va_Some|destruct w; auto].
  - unfold granted, va_is_dirty. rewrite pte_of_va_insert, PPN_div, decide_True by done.
    rewrite pte_allows_lor, H by (by destruct w). destruct w; [|done]. cbn [negb orb andb].
    rewrite negb_true_iff, Z.eqb_neq, Z.land_lor_distr_l. intros [_ ?]%Z.lor_eq_0_iff. done.
Qed.

(** A handler that brings the page of [va] in without anybody noticing. *)
Definition faults_in (pf : Z -> F unit) (s : FsState) (va : Z) : Prop :=
  wp (pf va) s (fun _ s' => quiet s s' /\ pte_allows true (pte_of_va s' va) = true).

Lemma touch_quiet pf w va s :
  bc_ok s -> pte_allows w (pte_of_va s va) = true \/ faults_in pf s va ->
  wp (touch pf w va) s (fun _ s' => quiet s s' /\ granted w s' va = true).
Proof.
  intros Hok Hor. destruct (pte_allows w (pte_of_va s va)) eqn:Hw.
  { unfold wp. rewrite touch_hit by done. by apply touched_quiet. }
  destruct Hor as [|Hf]; [done|]. unfold touch. wsteps. rewrite Hw. wuse Hf.
  intros _ s' [Hq Hm]. wsteps. rewrite (pte_allows_read w _ Hm). wsteps.
  destruct (touched_quiet w va s') as [Hq' ?]; [by eapply quiet_ok|by apply pte_allows_read|].
  split; [by eapply quiet_trans|done].
Qed.

(** ** Loads and stores

    [va] can be accessed: its page is there or the handler brings it in. *)
Definition reach (pf : Z -> F unit) (s : FsState) (w : bool) (va : Z) : Prop :=
  forall s', quiet s s' -> pte_allows w (pte_of_va s' va) = true \/ faults_in pf s' va.

Lemma reach_quiet pf s s' w va : quiet s s' -> reach pf s w va -> reach pf s' w va.
Proof.
  intros Hq H s2 Hq2. apply H. by eapply quiet_trans.
Qed.

Lemma touch_ok pf w va s :
  bc_ok s -> reach pf s w va ->
  wp (touch pf w va) s (fun _ s' => quiet s s' /\ granted w s' va = true).
Proof.
  intros Hok H. apply touch_quiet; [done|]. by apply H, quiet_refl.
Qed.

Lemma reach_mapped pf s w va : pte_allows w (pte_of_va s va) = true -> reach pf s w va.
Proof. intros H s' Hq. left. by apply Hq. Qed.

Lemma view_mapped s va : pte_allows false (pte_of_va s va) = true -> ld8 (fmem s) va = bc_view s va.
Proof.
  intros H%pte_allows_present. unfold bc_view, va_is_mapped.
  destruct (Z.eqb_spec (Z.land (pte_of_va s va) PTE_P) 0); done.
Qed.

Lemma load_with_ok pf n va s :
  bc_ok s -> (forall i, 0 <= i < Z.of_nat n -> reach pf s false (va + i)) ->
  wp (load_with pf n va) s (fun x s' => x = vld n (bc_view s) va /\ quiet s s').
Proof.
  revert va s. induction n as [|n IH]; intros va s Hok Hr; cbn [load_with].
  - wsteps. split; [done|by apply quiet_refl].
  - wsteps. wuse touch_ok; [done|rewrite <- (Z.add_0_r va); apply Hr; lia|].
    intros _ s1 [Hq1 [Hm1 _]%andb_true_iff]. wsteps. wuse (IH (va + 1) s1).
    + by eapply quiet_ok.
    + intros i Hi. eapply reach_quiet; [done|]. rewrite <- Z.add_assoc. apply Hr. lia.
    + intros x s2 [-> Hq2]. wsteps. split; [|by eapply quiet_trans].
      rewrite view_mapped, (quiet_view s s1) by done. cbn [vld]. do 2 f_equal.
      apply vld_ext. intros. by apply quiet_view.
Qed.

(** Loads from pages that are there map no page. *)
Lemma load_hit_ok pf n va s :
  bc_ok s -> (forall i, 0 <= i < Z.of_nat n -> pte_allows false (pte_of_va s (va + i)) = true) ->
  wp (load_with pf n va) s (fun x s' =>
    x = vld n (bc_view s) va /\ quiet s s' /\ dom (fpte s') = dom (fpte s)).
Proof.
  revert va s. induction n as [|n IH]; intros va s Hok Hr; cbn [load_with].
  - wsteps. split_and!; [done|by apply quiet_refl|done].
  - assert (pte_allows false (pte_of_va s va) = true) as Hm by (rewrite <- (Z.add_0_r va); apply Hr; lia).
    destruct (touched_quiet false va s Hok Hm) as [Hq1 _].
    wsteps. unfold wp at 1. rewrite touch_hit by done. wsteps. set (s1 := assign fpte _ _) in *.
    wuse (IH (va + 1) s1).
    + by eapply quiet_ok.
    + intros i Hi. apply Hq1. rewrite <- Z.add_assoc. apply Hr. lia.
    + intros x s2 (-> & Hq2 & Hd). wsteps. split_and!.
      * change (fmem s1) with (fmem s). rewrite view_mapped by done. cbn [vld]. do 2 f_equal.
        apply vld_ext. intros. by apply quiet_view.
      * by eapply quiet_trans.
      * rewrite Hd. subst s1. cbn. apply dom_insert_lookup_L. eexists. by eapply pte_of_va_Some.
Qed.

(** New bytes in pages that are marked dirty. *)
Lemma write_step s m' :
  let s' := s <| fmem := m' |> in
  bc_ok s -> reserved (bc_view s') ->
  (forall a, ld8 m' a <> ld8 (fmem s) a ->
     granted true s a = true /\ ~ (DISKMAP + BLKSIZE <= a < DISKMAP + BLKSIZE + 8)) ->
  bstep bc_view bc_disk bc_own bc_ok s s' (bc_view s') (bc_disk s).
Proof.
  intros s' Hok Hres Hch.
  assert (v_nblocks (bc_view s') = v_nblocks (bc_view s)) as Hnb.
  { apply vld_ext. intros a Ha. unfold bc_view. change (va_is_mapped s' a) with (va_is_mapped s a).
    destruct (va_is_mapped s a); [|done]. cbn.
    destruct (decide (ld8 m' a = ld8 (fmem s) a)) as [|Hne]; [done|].
    destruct (Hch a Hne) as [_ Hn]. exfalso. jlia. }
  split_and!; try done. destruct Hok. split; try done.
  - by rewrite Hnb.
  - intros. rewrite Hnb. by apply ok_map0.
  - by rewrite Hnb.
  - intros k e a He Hr Hd Ha. change (ld8 m' a = bc_disk s a).
    rewrite <- (ok_clean0 k e a He Hr Hd Ha).
    destruct (decide (ld8 m' a = ld8 (fmem s) a)) as [|Hne]; [done|].
    destruct (Hch a Hne) as [[_ Hg]%andb_true_iff _]. cbn in Hg. unfold va_is_dirty, pte_of_va in Hg.
    cbn in He. rewrite PPN_div, Ha, He in Hg. cbn in Hg. by rewrite Hd in Hg.
Qed.

Lemma quiet_bstep s s1 s2 v d v' d' :
  quiet s s1 -> bstep bc_view bc_disk bc_own bc_ok s1 s2 v' d' ->
  (forall a, v' a = v a) -> (forall a, d' a = d a) -> bstep bc_view bc_disk bc_own bc_ok s s2 v d.
Proof.
  intros [(_ & _ & _ & Hw) _] (Ho & Hv' & Hd' & Hw') Hv Hd. split_and!; [done|..]; intros.
  - by rewrite Hv'.
  - by rewrite Hd'.
  - by rewrite Hw'.
Qed.

Lemma quiet_step s s' : quiet s s' -> bstep bc_view bc_disk bc_own bc_ok s s' (bc_view s) (bc_disk s).
Proof. by intros []. Qed.

(** An access that faults is an access in the state the handler leaves. *)
Lemma touch_miss pf w va s s1 :
  pte_allows w (pte_of_va s va) = false -> pf va s = Ret tt s1 ->
  pte_allows w (pte_of_va s1 va) = true -> touch pf w va s = touch pf w va s1.
Proof.
  intros H Hpf H1. rewrite (touch_hit pf w va s1) by done.
  unfold touch, mbind, M_bind, gets, mret, M_ret. by rewrite H, Hpf, H1.
Qed.

(** So an operation that starts with an access may start with the page there. *)
Lemma reach_start {B} pf w va (k : unit -> F B) s Q :
  bc_ok s -> reach pf s w va ->
  (forall s1, quiet s s1 -> pte_allows w (pte_of_va s1 va) = true -> wp (touch pf w va ≫= k) s1 Q) ->
  wp (touch pf w va ≫= k) s Q.
Proof.
  intros Hok Hr H. destruct (pte_allows w (pte_of_va s va)) eqn:Hw; [by apply H; [apply quiet_refl|]|].
  destruct (Hr s (quiet_refl _ Hok)) as [Hr'|Hr']; [congruence|]. clear Hr. rename Hr' into Hr.
  apply wp_elim in Hr as ([] & s1 & Hpf & Hq & Hm).
  assert (pte_allows w (pte_of_va s1 va) = true) as Hm' by by apply pte_allows_read.
  specialize (H s1 Hq Hm'). unfold wp, mbind, M_bind in *.
  by rewrite (touch_miss pf w va s s1).
Qed.

Definition dirtied (s : FsState) (va : Z) : FsState :=
  s <| fpte := <[PPN va := Z.lor (pte_of_va s va) (Z.lor PTE_A PTE_D)]> (fpte s) |>.

Lemma store_hit pf n va x s :
  pte_allows true (pte_of_va s va) = true -> va mod 4096 + Z.of_nat (S n) <= 4096 ->
  store_with pf (S n) va x s = Ret tt ((dirtied s va) <| fmem := st (S n) (fmem s) va x |>).
Proof.
  revert va x s. induction n as [|n IH]; intros va x s Hw Hpg.
  - cbn [store_with]. erewrite bind_Ret by by apply touch_hit. done.
  - change (store_with pf (S (S n)) va x) with
      (touch pf true va;; modify (fun s => s <| fmem := st8 (fmem s) va x |>);; store_with pf (S n) (va + 1) (x / 256)).
    erewrite bind_Ret by by apply touch_hit. erewrite bind_Ret by done.
    set (s1 := assign fmem _ _).
    assert (PPN (va + 1) = PPN va) as Hp by (rewrite !PPN_div; Z.div_mod_to_equations; lia).
    assert (pte_of_va s1 (va + 1) = Z.lor (pte_of_va s va) (Z.lor PTE_A PTE_D)) as He.
    { unfold pte_of_va. cbn. rewrite Hp, lookup_insert_eq. done. }
    rewrite IH; [|rewrite He, pte_allows_lor by done; done|Z.div_mod_to_equations; lia].
    unfold dirtied. rewrite He, Hp. f_equal. subst s1. destruct s; cbn. unfold assign. cbn.
    rewrite insert_insert_eq, <- Z.lor_assoc, Z.lor_diag. done.
Qed.

Lemma dirtied_granted s va :
  pte_allows true (pte_of_va s va) = true -> forall a, a / 4096 = va / 4096 -> granted true (dirtied s va) a = true.
Proof.
  intros Hw a Ha. unfold granted, va_is_dirty, dirtied.
  rewrite pte_of_va_insert, PPN_div, decide_True, pte_allows_lor, Hw by done. cbn [negb orb andb].
  rewrite negb_true_iff, Z.eqb_neq, Z.land_lor_distr_l. intros [_ ?]%Z.lor_eq_0_iff. done.
Qed.

Lemma dirtied_quiet s va :
  bc_ok s -> pte_allows true (pte_of_va s va) = true -> quiet s (dirtied s va).
Proof. intros Hok Hw. apply flags_quiet; [done|by eapply pte_of_va_Some|auto]. Qed.

(** The memory seen after writing [m'] into granted pages. *)
Lemma view_write s m' (P : Z -> Prop) (v : Z -> Z) a :
  (forall b, P b -> granted true s b = true /\ ld8 m' b = v b) ->
  (forall b, ~ P b -> ld8 m' b = ld8 (fmem s) b /\ v b = bc_view s b) -> Decision (P a) ->
  bc_view (s <| fmem := m' |>) a = v a.
Proof.
  intros HP Hn [H|H].
  - destruct (HP a H) as [[Hg _]%andb_true_iff <-].
    rewrite <- view_mapped by (by eapply (pte_allows_read false)). done.
  - destruct (Hn a H) as [Hm ->]. unfold bc_view. change (va_is_mapped _ a) with (va_is_mapped s a) at 1.
    destruct (va_is_mapped s a); done.
Qed.

Lemma write_granted s m' (P : Z -> Prop) (v : Z -> Z) :
  bc_ok s -> (forall a, Decision (P a)) -> reserved v ->
  (forall a, P a -> granted true s a = true /\ ld8 m' a = v a /\
     ~ (DISKMAP + BLKSIZE <= a < DISKMAP + BLKSIZE + 8)) ->
  (forall a, ~ P a -> ld8 m' a = ld8 (fmem s) a /\ v a = bc_view s a) ->
  bstep bc_view bc_disk bc_own bc_ok s (s <| fmem := m' |>) v (bc_disk s).
Proof.
  intros Hok HD Hres HP Hn.
  assert (forall a, bc_view (s <| fmem := m' |>) a = v a) as Hv.
  { intros a. apply (view_write s m' P v); [|done|apply _]. intros b Hb. by destruct (HP b Hb) as (? & ? & _). }
  destruct (write_step s m') as (Ho & _ & Hd & Hw).
  - done.
  - apply (reserved_ext v); [|done]. intros a. by rewrite Hv.
  - intros a Hne. destruct (HD a) as [H|H]; [by destruct (HP a H) as (? & _ & ?)|].
    by destruct (Hn a H).
  - done.
Qed.

Lemma store_with_ok pf n va x s :
  bc_ok s -> va mod 4096 + Z.of_nat n <= 4096 -> (0 < Z.of_nat n -> reach pf s true va) ->
  (0 < Z.of_nat n -> no_overlap va (Z.of_nat n) (DISKMAP + BLKSIZE) 8) -> reserved (vst n (bc_view s) va x) ->
  wp (store_with pf n va x) s (fun _ s' =>
    bstep bc_view bc_disk bc_own bc_ok s s' (vst n (bc_view s) va x) (bc_disk s)).
Proof.
  intros Hok Hpg Hr Hno Hres. destruct n as [|n].
  { cbn [store_with]. wsteps. eapply (quiet_bstep s s); [by apply quiet_refl|apply quiet_step, quiet_refl, Hok|..]; [|done].
    intros a. unfold vst. by rewrite decide_False by lia. }
  specialize (Hr ltac:(lia)). specialize (Hno ltac:(lia)).
  change (wp (touch pf true va ≫= (fun _ => modify (fun s => s <| fmem := st8 (fmem s) va x |>);;
    store_with pf n (va + 1) (x / 256))) s (fun _ s' =>
    bstep bc_view bc_disk bc_own bc_ok s s' (vst (S n) (bc_view s) va x) (bc_disk s))).
  apply reach_start; [done..|]. intros s1 Hq Hw.
  change (wp (store_with pf (S n) va x) s1 (fun _ s' =>
    bstep bc_view bc_disk bc_own bc_ok s s' (vst (S n) (bc_view s) va x) (bc_disk s))).
  unfold wp. rewrite store_hit by done.
  assert (quiet s (dirtied s1 va)) as Hq'.
  { eapply quiet_trans; [done|]. apply dirtied_quiet; [by eapply quiet_ok|done]. }
  eapply quiet_bstep; [exact Hq'| |done|intros a; apply Hq'].
  apply (write_granted (dirtied s1 va) _ (fun a => va <= a < va + Z.of_nat (S n))).
  - by eapply quiet_ok.
  - apply _.
  - done.
  - intros a Ha. split_and!.
    + apply dirtied_granted; [done|]. Z.div_mod_to_equations. lia.
    + rewrite ld8_st. unfold vst. by rewrite !decide_True by done.
    + unfold no_overlap in Hno. lia.
  - intros a Ha. rewrite ld8_st. unfold vst. rewrite !decide_False by done. split; [done|].
    symmetry. by apply quiet_view.
Qed.

(** ** Block routines *)
Lemma granted_page w s a b : a / 4096 = b / 4096 -> granted w s a = granted w s b.
Proof. intros H. unfold granted, va_is_dirty, pte_of_va. by rewrite !PPN_div, H. Qed.

Lemma touch_pages_ok pf w k va s :
  bc_ok s ->
  (forall a, va <= a -> a = va \/ a mod 4096 = 0 -> a / 4096 < va / 4096 + Z.of_nat k -> reach pf s w a) ->
  wp (touch_pages pf k w va) s (fun _ s' => quiet s s' /\
    forall a, va / 4096 <= a / 4096 < va / 4096 + Z.of_nat k -> granted w s' a = true).
Proof.
  revert va s. induction k as [|k IH]; intros va s Hok Hr; cbn [touch_pages].
  - wsteps. split; [by apply quiet_refl|]. lia.
  - wsteps. wuse touch_ok; [done|apply Hr; [lia|by left|lia]|]. intros _ s1 [Hq1 Hg1].
    assert ((ROUNDDOWN va PGSIZE + PGSIZE) / 4096 = va / 4096 + 1 /\
            (ROUNDDOWN va PGSIZE + PGSIZE) mod 4096 = 0 /\ va <= ROUNDDOWN va PGSIZE + PGSIZE) as (Hn & Hal & Hle).
    { unfold ROUNDDOWN, PGSIZE. Z.div_mod_to_equations. lia. }
    wuse (IH (ROUNDDOWN va PGSIZE + PGSIZE) s1).
    + by eapply quiet_ok.
    + intros a Ha Hor Hlt. eapply reach_quiet; [done|]. apply Hr; [lia| |lia].
      right. by destruct Hor as [-> | ?].
    + intros _ s2 [Hq2 Hg2]. split; [by eapply quiet_trans|]. intros a Ha.
      destruct (decide (a / 4096 = va / 4096)) as [He|]; [|apply Hg2; lia].
      rewrite (granted_page w s2 a va He). by eapply granted_quiet.
Qed.

Lemma touch_range_ok pf w va n s :
  bc_ok s -> (forall i, 0 <= i < n -> reach pf s w (va + i)) ->
  wp (touch_range pf w va n) s (fun _ s' => quiet s s' /\
    forall a, va <= a < va + n -> granted w s' a = true).
Proof.
  intros Hok Hr. unfold touch_range. destruct (Z.leb_spec n 0).
  { wsteps. split; [by apply quiet_refl|]. lia. }
  wuse touch_pages_ok; [done|..].
  - intros a Ha Hor Hlt. replace a with (va + (a - va)) by lia. apply Hr.
    change PGSIZE with 4096 in Hlt. destruct Hor as [-> | Hal]; [lia|].
    Z.div_mod_to_equations. lia.
  - intros _ s' [Hq Hg]. split; [done|]. intros a Ha. apply Hg. change PGSIZE with 4096.
    Z.div_mod_to_equations. lia.
Qed.

Lemma memset_with_ok pf va c n s :
  bc_ok s -> 0 <= n -> (forall i, 0 <= i < n -> reach pf s true (va + i)) ->
  (0 < n -> no_overlap va n (DISKMAP + BLKSIZE) 8) -> reserved (vset (bc_view s) va c n) ->
  wp (memset_with pf va c n) s (fun _ s' =>
    bstep bc_view bc_disk bc_own bc_ok s s' (vset (bc_view s) va c n) (bc_disk s)).
Proof.
  intros Hok Hn Hr Hno Hres. unfold memset_with. wsteps. wuse touch_range_ok; [done..|].
  intros _ s1 [Hq Hg]. wsteps. eapply quiet_bstep; [exact Hq| |done|intros a; apply Hq].
  apply (write_granted s1 _ (fun a => va <= a < va + n)); [by eapply quiet_ok|apply _|done|..].
  - intros a Ha. rewrite ld8_memset by done. unfold vset. rewrite !decide_True by done.
    split_and!; [by apply Hg|done|]. unfold no_overlap in Hno. lia.
  - intros a Ha. rewrite ld8_memset by done. unfold vset. rewrite !decide_False by done.
    split; [done|]. symmetry. by apply quiet_view.
Qed.

Lemma memmove_with_ok pf d a n s :
  bc_ok s -> 0 <= n -> (forall i, 0 <= i < n -> reach pf s false (a + i)) ->
  (forall i, 0 <= i < n -> reach pf s true (d + i)) ->
  (0 < n -> no_overlap d n (DISKMAP + BLKSIZE) 8) -> reserved (vmove (bc_view s) d a n) ->
  wp (memmove_with pf d a n) s (fun _ s' =>
    bstep bc_view bc_disk bc_own bc_ok s s' (vmove (bc_view s) d a n) (bc_disk s)).
Proof.
  intros Hok Hn Hra Hrd Hno Hres. unfold memmove_with. wsteps. wuse touch_range_ok; [done..|].
  intros _ s1 [Hq1 Hg1]. wsteps. wuse touch_range_ok; [by eapply quiet_ok|intros i Hi; eapply reach_quiet; [done|]; auto|].
  intros _ s2 [Hq2 Hg2]. wsteps. assert (quiet s s2) as Hq by by eapply quiet_trans.
  eapply quiet_bstep; [exact Hq| |done|intros b; apply Hq].
  assert (forall b, d <= b < d + n -> ld8 (fmem s2) (a + (b - d)) = bc_view s (a + (b - d))) as Hsrc.
  { intros b Hb. rewrite <- (quiet_view s s2 _ Hq). apply view_mapped.
    assert (granted false s2 (a + (b - d)) = true) as [? _]%andb_true_iff; [|done].
    apply (granted_quiet _ s1 s2); [done|]. apply Hg1. lia. }
  apply (write_granted s2 _ (fun b => d <= b < d + n)); [by eapply quiet_ok|apply _|done|..].
  - intros b Hb. rewrite (memmove_copies _ _ _ _ Hn). unfold vmove. rewrite !decide_True by done.
    split_and!; [by apply Hg2|by apply Hsrc|]. unfold no_overlap in Hno. lia.
  - intros b Hb. rewrite (memmove_copies _ _ _ _ Hn). unfold vmove. rewrite !decide_False by done.
    split; [done|]. symmetry. by apply quiet_view.
Qed.

(** ** The disk *)
Lemma wait_ready_ok s check :
  bad_sectors s = ∅ -> is_Some (disks s !! ide_drive s) -> ide_wait_ready check s = Ret 0 s.
Proof.
  intros Hb [d Hd]. unfold ide_wait_ready, mbind, M_bind, gets, ide_status. rewrite Hd, Hb.
  rewrite decide_False by set_solver. by destruct check.
Qed.

(** The drive-and-head register holds the drive and the top bits of the sector. *)
Lemma drive_register d h :
  0 <= d < 2 -> 0 <= h < 16 ->
  u8 (Z.lor (Z.lor 0xE0 (Z.shiftl d 4)) h) = 0xE0 + 16 * d + h.
Proof.
  intros Hd Hh. rewrite Z.shiftl_mul_pow2 by lia.
  rewrite (lor_low_add 0xE0 (d * 2 ^ 4) 5); [|lia|done|lia].
  rewrite (lor_low_add _ h 4); [|lia|Z.div_mod_to_equations; lia|lia].
  rewrite wrap_small by lia. lia.
Qed.

Definition command_regs (r : gmap Z Z) (d secno nsecs cmd : Z) : gmap Z Z :=
  <[0x1F7 := u8 cmd]> (
  <[0x1F6 := u8 (Z.lor (Z.lor 0xE0 (Z.shiftl (Z.land d 1) 4)) (Z.land (Z.shiftr secno 24) 0x0F))]> (
  <[0x1F5 := u8 (Z.land (Z.shiftr secno 16) 0xFF)]> (
  <[0x1F4 := u8 (Z.land (Z.shiftr secno 8) 0xFF)]> (
  <[0x1F3 := u8 (Z.land secno 0xFF)]> (<[0x1F2 := u8 nsecs]> r))))).

Lemma command_latches r d secno nsecs cmd s :
  ide_regs s = command_regs r d secno nsecs cmd -> 0 <= secno < 2 ^ 28 ->
  ide_lba s = secno /\ ide_drive s = Z.land d 1.
Proof.
  intros Hr Hs.
  assert (0 <= Z.land d 1 < 2) as Hdn by (rewrite (land_low _ 1) by lia; apply Z.mod_pos_bound; lia).
  assert (0 <= Z.land (Z.shiftr secno 24) 0x0F < 16) as Hh
    by (rewrite (land_low _ 4) by lia; apply Z.mod_pos_bound; lia).
  unfold ide_lba, ide_drive, ide_reg. rewrite Hr. unfold command_regs.
  repeat first [rewrite lookup_insert_eq | rewrite lookup_insert_ne by done]. cbn [default id from_option].
  rewrite drive_register by done. change (0xFF) with (2 ^ 8 - 1). change (0x0F) with (2 ^ 4 - 1) in *.
  change 1 with (2 ^ 1 - 1) in *.
  rewrite !land_low, !Z.shiftr_div_pow2 in * by lia. unfold wrap. split; Z.div_mod_to_equations; lia.
Qed.

Lemma ide_command_ok secno nsecs cmd s :
  bad_sectors s = ∅ -> is_Some (disks s !! ide_drive s) -> 0 <= secno < 2 ^ 28 ->
  exists r, let s' := s <| ide_regs := r |> <| ide_cur := secno |> in
    ide_command secno nsecs cmd s = Ret tt s' /\ ide_drive s' = Z.land (diskno s) 1.
Proof.
  intros Hb Hd Hs. exists (command_regs (ide_regs s) (diskno s) secno nsecs cmd). intros s'.
  destruct (command_latches (ide_regs s) (diskno s) secno nsecs cmd
    (s <| ide_regs := command_regs (ide_regs s) (diskno s) secno nsecs cmd |>)) as [Hl Hdr].
  { destruct s; reflexivity. }
  { done. }
  split; [|exact Hdr]. unfold ide_command. erewrite bind_Ret by by apply wait_ready_ok.
  subst s'. set (R := command_regs _ _ _ _ _) in *.
  transitivity (Ret (E:=fstop) tt (s <| ide_regs := R |> <| ide_cur := ide_lba (s <| ide_regs := R |>) |>)).
  - destruct s; reflexivity.
  - by rewrite Hl.
Qed.

Lemma ld8_blit n src a dst b x :
  ld8 (blit n src a dst b) x =
  if decide (b <= x < b + Z.of_nat n) then ld8 src (a + (x - b)) else ld8 dst x.
Proof.
  revert a dst b. induction n as [|n IH]; intros a dst b; cbn [blit].
  - by rewrite decide_False by lia.
  - rewrite IH, ld8_st8. destruct (decide (b = x)) as [->|].
    + rewrite decide_False, decide_True by lia. rewrite Z.sub_diag, Z.add_0_r.
      apply wrap_small, ld8_range.
    + case_decide as H.
      * rewrite decide_True by lia. f_equal. lia.
      * rewrite decide_False by lia. done.
Qed.

#[local] Opaque blit.

(** A whole sector lies in one page. *)
Lemma touch_sector pf w va s :
  pte_allows w (pte_of_va s va) = true -> va mod 4096 + 512 <= 4096 ->
  touch_range pf w va SECTSIZE s = Ret tt (s <| fpte := <[PPN va := Z.lor (pte_of_va s va)
    (if w then Z.lor PTE_A PTE_D else PTE_A)]> (fpte s) |>).
Proof.
  intros Hw Hva. unfold touch_range. change (SECTSIZE <=? 0) with false. cbv iota.
  replace ((va + SECTSIZE - 1) / PGSIZE - va / PGSIZE + 1) with 1.
  2:{ unfold SECTSIZE, PGSIZE. Z.div_mod_to_equations. lia. }
  change (Z.to_nat 1) with 1%nat. cbn [touch_pages]. by erewrite bind_Ret by by apply touch_hit.
Qed.

(** [moved s s' k e]: from [s] to [s'] only the memory, the flags of page [k] and the
    position of the drive have changed. *)
Definition moved (s s' : FsState) (k e : Z) : Prop :=
  exists m c, s' = mkFs m (<[k := e]> (fpte s)) (frames s) (disks s) (bad_sectors s) (float_bus s)
    (diskno s) (ide_regs s) c (super_ s) (bitmap_ s) (opentab s) (shared s).

Lemma moved_trans s1 s2 s3 k e e' : moved s1 s2 k e -> moved s2 s3 k e' -> moved s1 s3 k e'.
Proof.
  intros (m & c & ->) (m' & c' & ->). exists m', c'. cbn. by rewrite insert_insert_eq.
Qed.

Lemma ide_read_loop_ok pf n dst e s :
  fpte s !! PPN dst = Some e -> pte_allows true e = true -> dst mod 4096 + 512 * Z.of_nat n <= 4096 ->
  bad_sectors s = ∅ -> is_Some (disks s !! ide_drive s) ->
  wp (ide_read_loop pf n dst) s (fun r s' => r = 0 /\ (exists e', moved s s' (PPN dst) e' /\ pte_allows true e' = true) /\
    forall x, ld8 (fmem s') x = if decide (dst <= x < dst + 512 * Z.of_nat n)
      then ld8 (drive s) (ide_cur s * 512 + (x - dst)) else ld8 (fmem s) x).
Proof.
  revert dst e s. induction n as [|n IH]; intros dst e s He Hw Hpg Hb Hd; cbn [ide_read_loop].
  - wsteps. split_and!; [done| |].
    + exists e. split; [|done]. exists (fmem s), (ide_cur s). destruct s; cbn in *. by rewrite insert_id.
    + intros x. by rewrite decide_False by lia.
  - wsteps. unfold wp at 1. rewrite wait_ready_ok by done. cbn [Z.ltb Z.compare]. wsteps.
    assert (pte_of_va s dst = e) as Hpte by (unfold pte_of_va; by rewrite He).
    unfold wp at 1. rewrite touch_sector; [|by rewrite Hpte|lia]. rewrite Hpte.
    unfold insl_sector. wsteps. set (s1 := assign ide_cur _ _).
    assert (PPN (dst + SECTSIZE) = PPN dst \/ n = O) as [Hp | ->].
    { destruct n; [by right|left]. rewrite !PPN_div. unfold SECTSIZE. Z.div_mod_to_equations. lia. }
    + wuse (IH (dst + SECTSIZE) (Z.lor e (Z.lor PTE_A PTE_D)) s1).
      * rewrite Hp. subst s1. cbn. apply lookup_insert_eq.
      * by rewrite pte_allows_lor.
      * unfold SECTSIZE. rewrite !PPN_div in Hp. unfold SECTSIZE in Hp. Z.div_mod_to_equations. lia.
      * done.
      * done.
      * intros r s' (-> & (e' & Hm & He') & Hx). split_and!; [done| |].
        -- exists e'. split; [|done]. rewrite Hp in Hm.
           apply (moved_trans s s1 s' (PPN dst) (Z.lor e (Z.lor PTE_A PTE_D)) e'); [|done].
           eexists _, _. subst s1. by destruct s.
        -- intros x. rewrite Hx. change (drive s1) with (drive s). change (ide_cur s1) with (ide_cur s + 1).
           change (fmem s1) with (blit 512 (drive s) (ide_cur s * SECTSIZE) (fmem s) dst).
           rewrite ld8_blit. unfold SECTSIZE. change (Z.of_nat 512) with 512.
           destruct (decide (dst <= x < dst + 512)).
           ++ rewrite decide_False, decide_True by lia. done.
           ++ destruct (decide (dst + 512 <= x < dst + 512 * Z.of_nat (S n))).
              ** rewrite !decide_True by lia. f_equal. lia.
              ** rewrite !decide_False by lia. done.
    + cbn [ide_read_loop]. wsteps. split_and!; [done| |].
      * exists (Z.lor e (Z.lor PTE_A PTE_D)). split; [|by rewrite pte_allows_lor].
        eexists _, _. subst s1. by destruct s.
      * intros x. change (fmem s1) with (blit 512 (drive s) (ide_cur s * SECTSIZE) (fmem s) dst).
        rewrite ld8_blit. done.
Qed.

(** ** Faults *)

(** While a block is missing the kernel still has a page for it. *)
Lemma free_frame s k :
  bc_ok s -> in_region k -> fpte s !! k = None -> k < 0x10000 + v_nblocks (bc_view s) -> 0 < frames s.
Proof.
  intros Hok Hk Hn Hlt. pose proof (ok_frames _ Hok) as Hf.
  assert (k ∉ mapped_blocks s) as Hnin.
  { unfold mapped_blocks. rewrite elem_of_filter, elem_of_dom, Hn. by intros [_ []]. }
  set (all := list_to_set (seqZ 0x10000 (v_nblocks (bc_view s))) : gset Z).
  assert ({[k]} ∪ mapped_blocks s ⊆ all) as Hsub.
  { intros x. unfold all, mapped_blocks.
    rewrite elem_of_union, elem_of_singleton, elem_of_filter, elem_of_dom, elem_of_list_to_set, elem_of_seqZ.
    intros [->|[Hr [e He]]].
    - unfold in_region in Hk. lia.
    - destruct (ok_map _ Hok x e He Hr). unfold in_region in Hr. lia. }
  apply subseteq_size in Hsub. rewrite size_union, size_singleton in Hsub by set_solver.
  unfold all in Hsub. rewrite size_list_to_set, length_seqZ in Hsub by apply NoDup_seqZ. lia.
Qed.

(** A state in which the block of page [k] has been read in. *)
Definition fetched (s s' : FsState) (k e : Z) : Prop :=
  fpte s' = <[k := e]> (fpte s) /\ frames s' = frames s - 1 /\ disks s' = disks s /\ diskno s' = diskno s /\
  super_ s' = super_ s /\ bitmap_ s' = bitmap_ s /\ bad_sectors s' = bad_sectors s /\
  ide_drive s' = Z.land (diskno s) 1 /\
  (forall a, ld8 (fmem s') a = if decide (a / 4096 = k) then bc_disk s a else ld8 (fmem s) a).

Lemma fetched_quiet s s' k e :
  bc_ok s -> in_region k -> fpte s !! k = None -> k < 0x10000 + v_nblocks (bc_view s) ->
  pte_allows true e = true -> fetched s s' k e -> quiet s s'.
Proof.
  intros Hok Hk Hn Hlt He (Hpt & Hfr & Hds & Hdn & Hsu & Hbm & Hbad & Hdr & Hmem).
  assert (forall a, pte_of_va s' a = if decide (a / 4096 = k) then e else pte_of_va s a) as Hpte.
  { intros a. unfold pte_of_va. rewrite Hpt, PPN_div. case_decide as H.
    - by rewrite H, lookup_insert_eq.
    - by rewrite lookup_insert_ne. }
  assert (forall a, a / 4096 = k -> pte_of_va s a = 0) as Hz.
  { intros a Ha. unfold pte_of_va. by rewrite PPN_div, Ha, Hn. }
  assert (forall a, bc_disk s' a = bc_disk s a) as Hd.
  { intros a. unfold bc_disk, cur_disk. by rewrite Hds, Hdn. }
  assert (forall a, bc_view s' a = bc_view s a) as Hv.
  { intros a. unfold bc_view, va_is_mapped. rewrite Hpte, Hd, Hmem. case_decide as Ha; [|done].
    rewrite (Hz a Ha). cbn [Z.land Z.eqb negb]. rewrite decide_True by by rewrite Ha.
    by destruct (Z.eqb_spec (Z.land e PTE_P) 0) as [?%(pte_allows_present true)|]. }
  split; [split_and!; [|done|done|]|split].
  - destruct Hok. split; try congruence.
    + by eapply reserved_ext; [|exact ok_reserved0].
    + by rewrite (v_nblocks_ext _ _ Hv).
    + intros k' e' Hk' Hr. rewrite (v_nblocks_ext _ _ Hv). rewrite Hpt in Hk'.
      apply lookup_insert_Some in Hk' as [[<- <-]|[_ Hk']]; [done|by apply ok_map0].
    + rewrite Hpt. destruct (decide (k = 0x10001)) as [->|]; [rewrite lookup_insert_eq; eauto|].
      by rewrite lookup_insert_ne.
    + rewrite (v_nblocks_ext _ _ Hv), Hfr. unfold mapped_blocks in *. rewrite Hpt, dom_insert_L.
      rewrite filter_union_L, filter_singleton_L by apply _.
      destruct (decide (in_region k)) as [_|]; [|done].
      rewrite size_union, size_singleton; [lia|]. apply disjoint_singleton_l.
      rewrite elem_of_filter, elem_of_dom, Hn. by intros [_ []].
    + intros k' e' a Hk' Hr Hde Ha. rewrite Hmem, Hd. rewrite Hpt in Hk'.
      apply lookup_insert_Some in Hk' as [[<- <-]|[Hne Hk']]; [by rewrite decide_True|].
      rewrite decide_False by congruence. by eapply ok_clean0.
  - intros a. unfold bc_own. rewrite Hpte. case_decide as Ha; [|done].
    rewrite Ha. split; by intros [].
  - intros w a. rewrite Hpte. case_decide as Ha; [|done]. intros _. by apply pte_allows_read.
  - intros a. unfold va_is_dirty. rewrite Hpte. case_decide as Ha; [|done]. by rewrite (Hz a Ha).
Qed.

Lemma ide_read_ok pf s k a :
  bad_sectors s = ∅ -> is_Some (disks s !! ide_drive s) -> is_Some (disks s !! Z.land (diskno s) 1) ->
  in_region k -> a = k * 4096 -> (exists e, fpte s !! k = Some e /\ pte_allows true e = true) ->
  wp (ide_read_with pf (u32 ((k - 0x10000) * BLKSECTS)) a BLKSECTS) s (fun r s' => r = 0 /\
    exists e' r c m, pte_allows true e' = true /\
      s' = mkFs m (<[k := e']> (fpte s)) (frames s) (disks s) (bad_sectors s) (float_bus s)
        (diskno s) r c (super_ s) (bitmap_ s) (opentab s) (shared s) /\
      ide_drive s' = Z.land (diskno s) 1 /\
      forall x, ld8 m x = if decide (x / 4096 = k) then bc_disk s x else ld8 (fmem s) x).
Proof.
  intros Hb Hsel Hdr Hk -> (e & He & Hw). unfold ide_read_with. change (BLKSECTS <=? 256) with true. cbv iota.
  assert (BLKSECTS = 8) as H8 by done. unfold in_region in Hk.
  assert (u32 ((k - 0x10000) * BLKSECTS) = (k - 0x10000) * 8) as -> by (rewrite wrap_small; lia).
  destruct (ide_command_ok ((k - 0x10000) * 8) BLKSECTS 0x20 s Hb Hsel ltac:(lia)) as (r & Hcmd & Hd).
  wsteps. unfold wp at 1. rewrite Hcmd. set (s1 := assign ide_cur _ _) in *.
  assert (PPN (k * 4096) = k) as Hp by (rewrite PPN_div; Z.div_mod_to_equations; lia).
  wuse (ide_read_loop_ok pf (Z.to_nat BLKSECTS) (k * 4096) e s1).
  - by rewrite Hp.
  - done.
  - rewrite H8. change (Z.of_nat (Z.to_nat 8)) with 8. Z.div_mod_to_equations. lia.
  - done.
  - by rewrite Hd.
  - intros r' s' (-> & (e' & (m & c & ->) & He') & Hx). split; [done|]. rewrite Hp.
    exists e', r, c, m. split_and!; [done|reflexivity|exact Hd|]. intros x.
    rewrite Hp in Hx. cbn [fmem] in Hx. rewrite Hx. rewrite H8. change (Z.of_nat (Z.to_nat 8)) with 8.
    change (fmem s1) with (fmem s). change (ide_cur s1) with ((k - 0x10000) * 8).
    destruct (decide (x / 4096 = k)) as [Hxk|Hxk].
    + rewrite decide_True by (Z.div_mod_to_equations; lia). unfold bc_disk, drive, cur_disk. rewrite Hd.
      change (disks s1) with (disks s). f_equal. unfold DISKMAP. lia.
    + rewrite decide_False by (Z.div_mod_to_equations; lia). done.
Qed.

(** Reading a missing block in. *)
Lemma fetch_ok pf s va :
  let k := va / 4096 in
  bc_ok s -> in_region k -> fpte s !! k = None -> k < 0x10000 + v_nblocks (bc_view s) ->
  exists s1, srv_page_alloc (ROUNDDOWN va PGSIZE) (Z.lor (Z.lor PTE_P PTE_W) PTE_U) s = Ret 0 s1 /\
  wp (ide_read_with pf (u32 (u64 (va - DISKMAP) / BLKSIZE * BLKSECTS)) (ROUNDDOWN va PGSIZE) BLKSECTS) s1
    (fun r s' => r = 0 /\ quiet s s' /\ pte_allows true (pte_of_va s' va) = true).
Proof.
  intros k Hok Hk Hn Hlt. pose proof (free_frame s k Hok Hk Hn Hlt) as Hfr.
  assert (ROUNDDOWN va PGSIZE = k * 4096) as Hrd.
  { unfold ROUNDDOWN, PGSIZE, k. Z.div_mod_to_equations. lia. }
  assert (PPN (k * 4096) = k) as Hp by (rewrite PPN_div; Z.div_mod_to_equations; lia).
  assert (u64 (va - DISKMAP) / BLKSIZE = k - 0x10000) as Hbn.
  { unfold in_region in Hk. unfold DISKMAP. change BLKSIZE with 4096.
    rewrite wrap_small by (subst k; Z.div_mod_to_equations; lia). subst k. Z.div_mod_to_equations. lia. }
  assert (va_is_mapped s (k * 4096) = false) as Hnm.
  { unfold va_is_mapped, pte_of_va. by rewrite Hp, Hn. }
  rewrite Hrd, Hbn.
  set (s1 := s <| fmem := memset (fmem s) (k * 4096) 0 PGSIZE |>
    <| fpte := <[k := 7]> (fpte s) |> <| frames := frames s - 1 |> <| shared := delete k (shared s) |>). exists s1. split.
  { unfold srv_page_alloc. erewrite bind_Ret by done. destruct (Z.leb_spec (frames s) 0); [lia|].
    erewrite bind_Ret by done. rewrite Hnm, Hp. done. }
  wuse (ide_read_ok pf s1 k); try done.
  - apply Hok.
  - apply Hok.
  - apply Hok.
  - exists 7. split; [|done]. subst s1. cbn. apply lookup_insert_eq.
  - intros ? s' (-> & e' & r & c & m & He' & Hs' & Hdr & Hx). split; [done|].
    assert (fetched s s' k e') as Hf.
    { subst s'. split_and!; try done.
      - cbn. apply insert_insert_eq.
      - intros x. cbn [fmem]. rewrite Hx. case_decide as Hxk; [done|].
        change (fmem s1) with (memset (fmem s) (k * 4096) 0 PGSIZE).
        rewrite ld8_memset, decide_False by (unfold PGSIZE; Z.div_mod_to_equations; lia). done. }
    split; [by eapply fetched_quiet|]. destruct Hf as (Hpt & _).
    unfold pte_of_va. rewrite Hpt, PPN_div. fold k. by rewrite lookup_insert_eq.
Qed.

Lemma region_mapped s k e :
  bc_ok s -> in_region k -> fpte s !! k = Some e -> forall w a, a / 4096 = k -> pte_allows w (pte_of_va s a) = true.
Proof.
  intros Hok Hk He w a Ha. apply pte_allows_read. unfold pte_of_va. rewrite PPN_div, Ha, He.
  by apply (ok_map s Hok k e).
Qed.

Lemma load_nblocks pf s : bc_ok s ->
  wp (load_with pf 4 (super_ s + 4)) s (fun x s' =>
    x = v_nblocks (bc_view s) /\ quiet s s' /\ dom (fpte s') = dom (fpte s)).
Proof.
  intros Hok. rewrite (ok_super s Hok). wuse load_hit_ok; [done| |done].
  intros i Hi. destruct (ok_b1 s Hok) as [e He].
  apply (region_mapped s 0x10001 e); [done|unfold in_region; lia|done|].
  unfold DISKMAP. change BLKSIZE with 4096. Z.div_mod_to_equations. lia.
Qed.

(** The word of the bitmap that has the bit of block [b]. *)
Definition bitmap_word (b : Z) : Z := DISKMAP + 2 * BLKSIZE + 4 * (b / 32).

Lemma block_is_free_via_ok pf s b :
  bc_ok s -> 0 <= b < v_nblocks (bc_view s) ->
  (forall i, 0 <= i < 4 -> reach pf s false (bitmap_word b + i)) ->
  wp (block_is_free_via (load_with pf) (super_ s) (bitmap_ s) b) s (fun r s' =>
    r = v_free (bc_view s) b /\ quiet s s').
Proof.
  intros Hok Hb Hr. unfold block_is_free_via. pose proof (ok_super s Hok) as Hsp.
  destruct (Z.eqb_spec (super_ s) 0); [unfold DISKMAP, BLKSIZE, PGSIZE in Hsp; lia|].
  wsteps. wuse load_nblocks; [done|]. intros x s1 (-> & Hq1 & _).
  rewrite Z.geb_leb. destruct (Z.leb_spec (v_nblocks (bc_view s)) b); [lia|].
  wsteps. rewrite (ok_bitmap s Hok). wuse load_with_ok; [by eapply quiet_ok|..].
  - intros i Hi. eapply reach_quiet; [done|]. by apply Hr.
  - intros w s2 [-> Hq2]. wsteps. split; [|by eapply quiet_trans].
    unfold v_free. f_equal. apply vld_ext. intros. by apply quiet_view.
Qed.

Lemma pgfault_step d va b s :
  va / 4096 = 0x10000 + b -> bc_ok s -> 0 < b < v_nblocks (bc_view s) -> v_free (bc_view s) b = false ->
  fpte s !! (0x10000 + b) = None ->
  (forall s1 i, quiet s s1 -> pte_allows true (pte_of_va s1 va) = true -> 0 <= i < 4 ->
     reach (bc_pgfault d) s1 false (bitmap_word b + i)) ->
  faults_in (bc_pgfault (S d)) s va.
Proof.
  intros Hva Hok Hb Hfree Hn Hr. pose proof (ok_nblocks s Hok) as Hnb. pose proof (ok_super s Hok) as Hsp.
  assert (in_region (0x10000 + b)) as Hk by (unfold in_region; lia).
  assert (DISKMAP <= va < DISKMAP + DISKSIZE) as Hrg.
  { unfold DISKMAP, DISKSIZE. Z.div_mod_to_equations. lia. }
  assert (u64 (va - DISKMAP) / BLKSIZE = b) as Hbn.
  { rewrite wrap_small by (unfold DISKMAP, DISKSIZE in Hrg; unfold DISKMAP; lia).
    unfold DISKMAP, BLKSIZE, PGSIZE. Z.div_mod_to_equations. lia. }
  unfold faults_in. cbn [bc_pgfault]. cbv zeta.
  destruct (Z.ltb_spec va DISKMAP); [lia|]. rewrite Z.geb_leb. destruct (Z.leb_spec (DISKMAP + DISKSIZE) va); [lia|].
  cbn [orb]. wsteps. destruct (Z.eqb_spec (super_ s) 0); [unfold DISKMAP, BLKSIZE, PGSIZE in Hsp; lia|].
  wsteps. wuse load_nblocks; [done|]. intros x s1 (-> & Hq1 & Hdom). wsteps. rewrite Hbn, Z.geb_leb.
  destruct (Z.leb_spec (v_nblocks (bc_view s)) b); [lia|].
  assert (forall a, bc_view s1 a = bc_view s a) as Hv1 by (intros; by apply quiet_view).
  destruct (fetch_ok (bc_pgfault d) s1 va) as (s2 & Hal & Hrd).
  { by eapply quiet_ok. }
  { by rewrite Hva. }
  { rewrite Hva. apply not_elem_of_dom. rewrite Hdom. by apply not_elem_of_dom. }
  { rewrite Hva, (v_nblocks_ext _ _ Hv1). lia. }
  wsteps. unfold wp at 1. rewrite Hal. cbn [Z.ltb Z.compare]. rewrite Hbn in Hrd.
  wsteps. wuse Hrd. intros r s3 (-> & Hq3 & Hm3). cbn [Z.eqb negb]. wsteps.
  assert (quiet s s3) as Hq by by eapply quiet_trans.
  assert (forall a, bc_view s3 a = bc_view s a) as Hv3 by (intros; by apply quiet_view).
  pose proof (quiet_ok _ _ Hq) as Hok3. pose proof (ok_bitmap s3 Hok3) as Hbm.
  destruct (Z.eqb_spec (bitmap_ s3) 0); [unfold DISKMAP, BLKSIZE, PGSIZE in Hbm; lia|]. wsteps.
  rewrite wrap_small by lia. wuse block_is_free_via_ok; [done|rewrite (v_nblocks_ext _ _ Hv3); lia|eauto|].
  intros r s4 [-> Hq4]. rewrite (v_free_ext _ _ _ Hv3), Hfree. wsteps.
  split; [by eapply quiet_trans|]. by apply Hq4.
Qed.

Lemma reach_block d w a b s :
  a / 4096 = 0x10000 + b -> bc_ok s -> 0 < b < v_nblocks (bc_view s) -> v_free (bc_view s) b = false ->
  (forall s1 i, quiet s s1 -> pte_allows true (pte_of_va s1 a) = true -> 0 <= i < 4 ->
     reach (bc_pgfault d) s1 false (bitmap_word b + i)) ->
  reach (bc_pgfault (S d)) s w a.
Proof.
  intros Ha Hok Hb Hfree Hr s' Hq. pose proof (quiet_ok _ _ Hq) as Hok'.
  assert (forall x, bc_view s' x = bc_view s x) as Hv by (intros; by apply quiet_view).
  pose proof (ok_nblocks s Hok).
  destruct (fpte s' !! (0x10000 + b)) as [e|] eqn:He.
  - left. apply (region_mapped s' (0x10000 + b) e); [done|unfold in_region; lia|done|done].
  - right. apply (pgfault_step d a b s'); [done|done|by rewrite (v_nblocks_ext _ _ Hv)|
      by rewrite (v_free_ext _ _ _ Hv)|done|]. intros s1 i Hq1. apply Hr. by eapply quiet_trans.
Qed.

Lemma bitmap_word_page b i : 0 <= b -> 0 <= i < 4 -> (bitmap_word b + i) / 4096 = 0x10000 + (2 + b / 32768).
Proof. intros. unfold bitmap_word, DISKMAP. change BLKSIZE with 4096. Z.div_mod_to_equations. lia. Qed.

(** Every byte of a block in use can be reached, with faults that nest at most three
    deep: the block, its bitmap block, and the first bitmap block. *)
Lemma disk_reach d w a s :
  bc_ok s -> disk_byte (bc_view s) a -> reach (bc_pgfault (S (S (S d)))) s w a.
Proof.
  intros Hok [Hb Hfree]. set (b := (a - DISKMAP) / BLKSIZE) in *.
  pose proof (ok_nblocks s Hok). pose proof (ok_reserved s Hok) as Hres.
  assert (a / 4096 = 0x10000 + b) as Ha.
  { subst b. unfold DISKMAP. change BLKSIZE with 4096. Z.div_mod_to_equations. lia. }
  assert (forall d' w' x s', x / 4096 = 0x10002 -> quiet s s' -> reach (bc_pgfault (S d')) s' w' x) as HA.
  { intros d' w' x s' Hx Hq. assert (forall y, bc_view s' y = bc_view s y) as Hv by (intros; by apply quiet_view).
    destruct (reserved_two _ Hres) as [H2 Hf2].
    apply (reach_block d' w' x 2); [lia|by eapply quiet_ok|rewrite (v_nblocks_ext _ _ Hv); lia|
      by rewrite (v_free_ext _ _ _ Hv)|].
    intros s1 i Hq1 Hm Hi. apply reach_mapped.
    assert ((bitmap_word 2 + i) / 4096 = x / 4096) as Hpg by (rewrite bitmap_word_page by lia; rewrite Hx; done).
    unfold pte_of_va. rewrite PPN_div, Hpg, <- PPN_div. by apply pte_allows_read. }
  apply (reach_block _ w a b); [done..|]. intros s1 i Hq1 _ Hi.
  assert (forall y, bc_view s1 y = bc_view s y) as Hv1 by (intros; by apply quiet_view).
  assert (0 <= b / 32768 < 32766) as Hbb by (Z.div_mod_to_equations; lia).
  destruct (proj2 (proj2 Hres) (b / 32768)) as [Hlt Hf].
  { lia. }
  { unfold BLKBITSIZE. change (BLKSIZE * 8) with 32768. Z.div_mod_to_equations. lia. }
  apply (reach_block _ false _ (2 + b / 32768)); [by rewrite bitmap_word_page by lia|by eapply quiet_ok|
    rewrite (v_nblocks_ext _ _ Hv1); lia|by rewrite (v_free_ext _ _ _ Hv1)|].
  intros s2 j Hq2 _ Hj. apply HA; [|by eapply quiet_trans].
  rewrite bitmap_word_page by lia. rewrite (Z.div_small (2 + b / 32768)) by lia. done.
Qed.

Lemma usable_reach w a n s i :
  bc_ok s -> usable bc_view bc_own s a n -> 0 <= i < n -> reach pgfault s w (a + i).
Proof.
  intros Hok Hu Hi. destruct (Hu i Hi) as [[_ Ho]|Hd].
  - apply reach_mapped. by apply pte_allows_read.
  - by apply disk_reach.
Qed.

(** ** Flushing a block *)
Definition sent (s s' : FsState) (k e : Z) (d : bytes) : Prop :=
  exists c, s' = mkFs (fmem s) (<[k := e]> (fpte s)) (frames s) (<[ide_drive s := d]> (disks s)) (bad_sectors s)
    (float_bus s) (diskno s) (ide_regs s) c (super_ s) (bitmap_ s) (opentab s) (shared s).

Lemma sent_trans s1 s2 s3 k e e' d d' : sent s1 s2 k e d -> sent s2 s3 k e' d' -> sent s1 s3 k e' d'.
Proof.
  intros (c & ->) (c' & ->). exists c'. cbn. by rewrite !insert_insert_eq.
Qed.

Lemma ide_write_loop_ok pf n src e s :
  fpte s !! PPN src = Some e -> pte_allows true e = true -> src mod 4096 + 512 * Z.of_nat n <= 4096 ->
  bad_sectors s = ∅ -> is_Some (disks s !! ide_drive s) ->
  wp (ide_write_loop pf n src) s (fun r s' => r = 0 /\ exists e' d,
    sent s s' (PPN src) e' d /\
    forall x, ld8 d x = if decide (ide_cur s * 512 <= x < ide_cur s * 512 + 512 * Z.of_nat n)
      then ld8 (fmem s) (src + (x - ide_cur s * 512)) else ld8 (drive s) x).
Proof.
  revert src e s. induction n as [|n IH]; intros src e s He Hw Hpg Hb Hd; cbn [ide_write_loop].
  - wsteps. split; [done|]. exists e, (drive s). split.
    + exists (ide_cur s). unfold drive. destruct Hd as [d Hd]. rewrite Hd. cbn [default id from_option].
      rewrite (insert_id (disks s)), insert_id by done. by destruct s.
    + intros x. by rewrite decide_False by lia.
  - wsteps. unfold wp at 1. rewrite wait_ready_ok by done. cbn [Z.ltb Z.compare]. wsteps.
    assert (pte_of_va s src = e) as Hpte by (unfold pte_of_va; by rewrite He).
    unfold wp at 1. rewrite touch_sector; [|rewrite Hpte; by apply pte_allows_read|lia]. rewrite Hpte.
    unfold outsl_sector. wsteps. set (s1 := assign ide_cur _ _).
    set (d1 := blit 512 (fmem s) src (drive s) (ide_cur s * SECTSIZE)).
    assert (sent s s1 (PPN src) (Z.lor e PTE_A) d1) as Hs1 by (eexists; subst s1 d1; by destruct s).
    assert (forall x, ld8 d1 x = if decide (ide_cur s * 512 <= x < ide_cur s * 512 + 512)
      then ld8 (fmem s) (src + (x - ide_cur s * 512)) else ld8 (drive s) x) as Hd1 by apply ld8_blit.
    destruct n as [|n'].
    + cbn [ide_write_loop]. wsteps. split; [done|]. exists (Z.lor e PTE_A), d1. split; [done|].
      intros x. rewrite Hd1. done.
    + set (n := S n') in *.
      assert (PPN (src + SECTSIZE) = PPN src) as Hp.
      { rewrite !PPN_div. unfold SECTSIZE. Z.div_mod_to_equations. lia. }
      assert (drive s1 = d1) as Hdr.
      { subst s1 d1. unfold drive at 1. cbn [disks]. unfold ide_drive, ide_reg. cbn. by rewrite lookup_insert_eq. }
      wuse (IH (src + SECTSIZE) (Z.lor e PTE_A) s1).
      * rewrite Hp. subst s1. cbn. apply lookup_insert_eq.
      * by rewrite pte_allows_lor.
      * unfold SECTSIZE. rewrite !PPN_div in Hp. unfold SECTSIZE in Hp. Z.div_mod_to_equations. lia.
      * done.
      * subst s1. cbn. unfold ide_drive, ide_reg. cbn. rewrite lookup_insert_eq. eauto.
      * intros r s' (-> & e' & d & Hs' & Hx). split; [done|]. exists e', d. rewrite Hp in Hs'.
        split; [by eapply sent_trans|]. intros x. rewrite Hx, Hdr, Hd1.
        change (ide_cur s1) with (ide_cur s + 1). change (fmem s1) with (fmem s). unfold SECTSIZE.
        destruct (decide (ide_cur s * 512 <= x < ide_cur s * 512 + 512)).
        -- rewrite decide_False, decide_True by lia. done.
        -- destruct (decide (ide_cur s * 512 + 512 <= x < ide_cur s * 512 + 512 * Z.of_nat (S n))).
           ++ rewrite !decide_True by lia. f_equal. lia.
           ++ rewrite !decide_False by lia. done.
Qed.

(** A state in which page [k] has been written out and marked clean. *)
Lemma flushed_step s s' k e d r c :
  bc_ok s -> in_region k -> is_Some (fpte s !! k) -> pte_allows true e = true ->
  s' = mkFs (fmem s) (<[k := e]> (fpte s)) (frames s) (<[Z.land (diskno s) 1 := d]> (disks s)) (bad_sectors s)
    (float_bus s) (diskno s) r c (super_ s) (bitmap_ s) (opentab s) (shared s) ->
  is_Some (disks s' !! ide_drive s') ->
  (forall a, ld8 d (a - DISKMAP) = if decide (a / 4096 = k) then ld8 (fmem s) a else bc_disk s a) ->
  bstep bc_view bc_disk bc_own bc_ok s s' (bc_view s) (fun a =>
    if decide (a / 4096 = k) then bc_view s a else bc_disk s a).
Proof.
  intros Hok Hk [e0 He0] He Hs' Hsel Hd.
  assert (forall a, pte_of_va s' a = if decide (a / 4096 = k) then e else pte_of_va s a) as Hpte.
  { intros a. rewrite Hs'. unfold pte_of_va. cbn. rewrite PPN_div. case_decide as H.
    - by rewrite H, lookup_insert_eq.
    - by rewrite lookup_insert_ne. }
  assert (forall a w, a / 4096 = k -> pte_allows w (pte_of_va s a) = true) as Hold.
  { intros a w Ha. by apply (region_mapped s k e0). }
  assert (forall a, bc_disk s' a = if decide (a / 4096 = k) then bc_view s a else bc_disk s a) as Hdk.
  { intros a. transitivity (ld8 d (a - DISKMAP)).
    - unfold bc_disk, cur_disk. rewrite Hs'. cbn. by rewrite lookup_insert_eq.
    - rewrite Hd. case_decide; [|done]. by apply view_mapped, Hold. }
  assert (forall w a, pte_allows w (pte_of_va s' a) = pte_allows w (pte_of_va s a)) as Hall.
  { intros w a. rewrite Hpte. case_decide as Ha; [|done]. rewrite (Hold a w Ha). by apply pte_allows_read. }
  assert (forall a, bc_view s' a = bc_view s a) as Hv.
  { intros a. unfold bc_view. assert (va_is_mapped s' a = va_is_mapped s a) as ->.
    { specialize (Hall false a). unfold pte_allows in Hall. cbn in Hall. by rewrite !andb_true_r in Hall. }
    replace (fmem s') with (fmem s) by by rewrite Hs'.
    destruct (va_is_mapped s a) eqn:Hm; [done|]. case_decide; [|done]. rewrite Hdk.
    case_decide as Ha; [|done]. specialize (Hold a false Ha). apply pte_allows_present in Hold.
    unfold va_is_mapped in Hm. destruct (Z.eqb_spec (Z.land (pte_of_va s a) PTE_P) 0); done. }
  split_and!; [|done|done|intros a; unfold bc_own; by rewrite Hall].
  split; try (rewrite Hs'; apply Hok).
  - apply (reserved_ext (bc_view s)); [done|apply Hok].
  - rewrite (v_nblocks_ext _ _ Hv). apply Hok.
  - intros k' e' Hk' Hr. rewrite (v_nblocks_ext _ _ Hv). rewrite Hs' in Hk'. cbn in Hk'.
    apply lookup_insert_Some in Hk' as [[<- <-]|[_ Hk']]; [|by apply Hok].
    split; [|done]. by apply (ok_map s Hok k e0).
  - rewrite Hs'. cbn. destruct (decide (k = 0x10001)) as [->|]; [rewrite lookup_insert_eq; eauto|].
    rewrite lookup_insert_ne by done. apply Hok.
  - rewrite (v_nblocks_ext _ _ Hv). rewrite Hs'. unfold mapped_blocks. cbn.
    rewrite dom_insert_lookup_L by eauto. apply Hok.
  - rewrite Hs'. cbn. rewrite lookup_insert_eq. eauto.
  - done.
  - intros k' e' a Hk' Hr Hde Ha. rewrite Hdk. rewrite Hs' in Hk' |- *. cbn in Hk' |- *.
    apply lookup_insert_Some in Hk' as [[<- <-]|[Hne Hk']].
    + rewrite decide_True by done. by apply view_mapped, Hold.
    + rewrite decide_False by congruence. by eapply (ok_clean s Hok).
Qed.

Lemma region_of a : DISKMAP <= a < DISKMAP + DISKSIZE ->
  in_region (a / 4096) /\ u64 (a - DISKMAP) / BLKSIZE = a / 4096 - 0x10000.
Proof.
  unfold DISKMAP, DISKSIZE, in_region. change BLKSIZE with 4096. intros H.
  rewrite wrap_small by lia. Z.div_mod_to_equations. lia.
Qed.

Lemma same_block a b :
  (b - DISKMAP) / BLKSIZE = (a - DISKMAP) / BLKSIZE <-> b / 4096 = a / 4096.
Proof. unfold DISKMAP. change BLKSIZE with 4096. Z.div_mod_to_equations. lia. Qed.

Lemma flush_ok a s :
  bc_ok s -> DISKMAP <= a < DISKMAP + DISKSIZE ->
  wp (bc_flush_block a) s (fun _ s' => bstep bc_view bc_disk bc_own bc_ok s s' (bc_view s) (fun b =>
    if decide (b / 4096 = a / 4096) then bc_view s b else bc_disk s b)).
Proof.
  intros Hok Ha. destruct (region_of a Ha) as [Hk Hbn]. set (k := a / 4096) in *. unfold bc_flush_block. cbv zeta.
  destruct (Z.ltb_spec a DISKMAP); [lia|]. rewrite Z.geb_leb. destruct (Z.leb_spec (DISKMAP + DISKSIZE) a); [lia|].
  cbn [orb]. wsteps. destruct (va_is_mapped s a && _) eqn:Hwant.
  2:{ wsteps. apply (quiet_bstep s s _ _ _ (bc_view s) (bc_disk s)); [by apply quiet_refl|apply quiet_step, quiet_refl, Hok|done|].
      intros b. case_decide as Hb; [|done]. unfold bc_view.
      assert (pte_of_va s b = pte_of_va s a) as Hpb by (unfold pte_of_va; by rewrite !PPN_div, Hb).
      unfold va_is_mapped, va_is_dirty in *. rewrite Hpb.
      destruct (fpte s !! k) as [e|] eqn:He.
      - destruct (negb (Z.land (pte_of_va s a) PTE_P =? 0)) eqn:HP; [|by rewrite decide_True by by rewrite Hb].
        cbn [andb] in Hwant. apply orb_false_iff in Hwant as [Hd _]. symmetry.
        apply (ok_clean s Hok k e); [done..| |done].
        assert (pte_of_va s a = e) as <- by (unfold pte_of_va; rewrite PPN_div; fold k; by rewrite He).
        by destruct (Z.eqb_spec (Z.land (pte_of_va s a) PTE_D) 0).
      - assert (pte_of_va s a = 0) as -> by (unfold pte_of_va; rewrite PPN_div; fold k; by rewrite He).
        cbn. by rewrite decide_True by by rewrite Hb. }
  apply andb_true_iff in Hwant as [Hm _].
  destruct (fpte s !! k) as [e|] eqn:He.
  2:{ unfold va_is_mapped, pte_of_va in Hm. rewrite PPN_div in Hm. fold k in Hm. by rewrite He in Hm. }
  assert (ROUNDDOWN a PGSIZE = k * 4096) as -> by (unfold ROUNDDOWN, PGSIZE, k; Z.div_mod_to_equations; lia).
  assert (PPN (k * 4096) = k) as Hp by (rewrite PPN_div; Z.div_mod_to_equations; lia).
  rewrite Hbn. unfold ide_write, ide_write_with. change (BLKSECTS <=? 256) with true. cbv iota.
  unfold in_region in Hk. assert (BLKSECTS = 8) as H8 by done.
  assert (u32 ((k - 0x10000) * BLKSECTS) = (k - 0x10000) * 8) as -> by (rewrite wrap_small; lia).
  destruct (ide_command_ok ((k - 0x10000) * 8) BLKSECTS 0x30 s (ok_bad s Hok) (ok_sel s Hok) ltac:(lia)) as (r & Hcmd & Hdr).
  wsteps. unfold wp at 1. rewrite Hcmd. set (s1 := assign ide_cur _ _) in *.
  wuse (ide_write_loop_ok pgfault (Z.to_nat BLKSECTS) (k * 4096) e s1).
  - by rewrite Hp.
  - by apply (ok_map s Hok k e).
  - rewrite H8. change (Z.of_nat (Z.to_nat 8)) with 8. Z.div_mod_to_equations. lia.
  - apply Hok.
  - rewrite Hdr. apply Hok.
  - intros r' s2 (-> & e' & d & (c & Hs2) & Hx). cbn [Z.ltb Z.compare]. unfold srv_page_remap. wsteps.
    rewrite Hp, Hdr in *. set (e1 := Z.lor _ PTE_P). subst s2. cbn [fpte].
    eapply (flushed_step s _ k e1 d); [done|done|eauto|done|cbn; by rewrite insert_insert_eq| |].
    + cbn. unfold ide_drive, ide_reg. cbn. fold (ide_reg s1 0x1F6) (ide_drive s1). change r with (ide_regs s1).
      fold (ide_reg s1 0x1F6). change (Z.land (Z.shiftr (ide_reg s1 0x1F6) 4) 1) with (ide_drive s1).
      rewrite Hdr, lookup_insert_eq. eauto.
    + intros x. rewrite Hx, H8. change (Z.of_nat (Z.to_nat 8)) with 8. change (ide_cur s1) with ((k - 0x10000) * 8).
      change (fmem s1) with (fmem s). destruct (decide (x / 4096 = k)).
      * rewrite decide_True by (unfold DISKMAP; Z.div_mod_to_equations; lia). f_equal. unfold DISKMAP. lia.
      * rewrite decide_False by (unfold DISKMAP; Z.div_mod_to_equations; lia).
        unfold drive, bc_disk, cur_disk. by rewrite Hdr.
Qed.

(** ** The interface is implemented *)
#[export, refine] Instance bc_cache : BlockCache FsState := {|
  bview := bc_view; bdisk := bc_disk; bown := bc_own; bok := bc_ok |}.
Proof.
  - intros s a. unfold bc_view, bc_disk. repeat case_match; try apply ld8_range. lia.
  - intros s a _ [Hn _] Ha. apply Hn. by apply region_of.
  - apply ok_super.
  - apply ok_bitmap.
  - apply ok_nblocks.
  - apply ok_reserved.
  - intros n a s Hok Hu. wuse load_with_ok; [done|intros i Hi; by eapply usable_reach|].
    intros x s' [Hx Hq]. split; [done|by apply quiet_step].
  - intros n a x s Hok Hpg (Hu & Hno & Hres). apply store_with_ok; try done.
    intros Hn. rewrite <- (Z.add_0_r a). eapply usable_reach; [done|exact Hu|lia].
  - intros a c n s Hok Hn (Hu & Hno & Hres). apply memset_with_ok; try done.
    intros i Hi. by eapply usable_reach.
  - intros d a n s Hok Hn Ha (Hu & Hno & Hres). apply memmove_with_ok; try done.
    + intros i Hi. by eapply usable_reach.
    + intros i Hi. by eapply usable_reach.
  - intros a s Hok Ha. wuse flush_ok; [done..|]. intros _ s' (Ho & Hv & Hd & Hw). split_and!; try done.
    intros b. rewrite Hd. repeat case_decide; try done; exfalso; naive_solver (by apply same_block).
Defined.
