(* ===== verification/Fs.v ===== *)
(** * The file system: fs/fs.c

    Over the interface of BlockCache.v.  A [struct File *] is the address of the
    structure in the disk map, a path a list of characters without the final zero,
    and a local array a list.  [int], [off_t] and [uint32_t] arithmetic is that of
    the code: [Z.quot] and [Z.rem] are the C division of [int]s. *)
From S2P Require Import Prelude Mmu CMem BlockCache.

Section fs.
Context {St : Type} `{!BlockCacheOps St}.
Abbreviation F := (M St fstop).

Definition panic {A} : F A := stop FPanic.
Definition fs_assert (b : bool) : F unit := if b then mret tt else panic.

(** ** struct File and struct Super *)
Definition f_size (f : Z) : F Z := z ← bload 4 (f + 128); mret (i32 z).
Definition set_f_size (f z : Z) : F unit := bstore 4 (f + 128) (u32 z).
Definition f_type (f : Z) : F Z := bload 4 (f + 132).
Definition f_direct (f i : Z) : Z := f + 136 + 4 * i.
Definition f_indirect (f : Z) : F Z := bload 4 (f + 176).
Definition set_f_indirect (f z : Z) : F unit := bstore 4 (f + 176) z.

Definition s_magic : F Z := sp ← gets super; bload 4 sp.
Definition s_nblocks : F Z := sp ← gets super; bload 4 (sp + 4).
Definition s_root : F Z := sp ← gets super; mret (sp + 8).

Definition check_super : F unit :=
  m ← s_magic;
  if negb (m =? FS_MAGIC) then panic
  else n ← s_nblocks; if n >? DISKSIZE / BLKSIZE then panic else mret tt.

(** ** The free block bitmap *)
Definition block_is_free (blockno : Z) : F bool :=
  sp ← gets super; bm ← gets bitmap; block_is_free_via bload sp bm blockno.

Definition free_block (blockno : Z) : F unit :=
  if blockno =? 0 then panic
  else
    bm ← gets bitmap;
    let a := bm + 4 * (blockno / 32) in
    w ← bload 4 a;
    bstore 4 a (Z.lor w (2 ^ (blockno mod 32))).

(** [bitmap[blockno/32] ^= 1<<(blockno%32)] *)
Definition flip_bit (blockno : Z) : F unit :=
  bm ← gets bitmap;
  let a := bm + 4 * (blockno / 32) in
  w ← bload 4 a;
  bstore 4 a (Z.lxor w (2 ^ (blockno mod 32))).

Fixpoint alloc_block_loop (fuel : nat) (blockno : Z) : F Z :=
  match fuel with
  | O => stop FDiverge
  | S fuel' =>
      n ← s_nblocks;
      if blockno <? n then
        free ← block_is_free blockno;
        if free : bool then
          flip_bit blockno;;
          a ← diskaddr 2;
          flush_block a;;
          free ← block_is_free blockno;
          fs_assert (negb free);;
          mret (i32 blockno)
        else alloc_block_loop fuel' (blockno + 1)
      else mret (- E_NO_DISK)
  end.

(** [s_nblocks] is read again in each round, so the fuel is that of its first
    value. *)
Definition alloc_block : F Z := n ← s_nblocks; alloc_block_loop (Z.to_nat n + 1) 1.

Fixpoint check_bitmap_loop (fuel : nat) (i : Z) : F unit :=
  match fuel with
  | O => stop FDiverge
  | S fuel' =>
      n ← s_nblocks;
      if u32 (i * BLKBITSIZE) <? n then
        free ← block_is_free (u32 (2 + i));
        fs_assert (negb free);;
        check_bitmap_loop fuel' (i + 1)
      else mret tt
  end.

Definition check_bitmap : F unit :=
  check_bitmap_loop (Z.to_nat (DISKSIZE / BLKSIZE / BLKBITSIZE + 2)) 0;;
  free ← block_is_free 0; fs_assert (negb free);;
  free ← block_is_free 1; fs_assert (negb free).

(** ** Blocks of a file

    The first component is the code returned; the second is what the pointer
    argument was set to. *)
Definition file_block_walk (f filebno : Z) (alloc : bool) : F (Z * option Z) :=
  if filebno >=? NDIRECT + NINDIRECT then mret (- E_INVAL, None)
  else if filebno <? NDIRECT then mret (0, Some (f_direct f filebno))
  else
    ind ← f_indirect f;
    if (ind =? 0) && negb alloc then mret (- E_NOT_FOUND, None)
    else
      r ← (if ind =? 0 then
             r ← alloc_block;
             if r <? 0 then mret r
             else
               set_f_indirect f r;;
               ind ← f_indirect f;
               a ← diskaddr ind;
               bmemset a 0 BLKSIZE;;
               mret 0
           else mret 0);
      if r <? 0 then mret (r, None)
      else
        ind ← f_indirect f;
        baddr ← diskaddr ind;
        mret (0, Some (baddr + 4 * (filebno - NDIRECT))).

Definition file_get_block (f filebno : Z) : F (Z * option Z) :=
  w ← file_block_walk f filebno true;
  match w with
  | (result, Some ptr) =>
      d ← bload 4 ptr;
      r ← (if d =? 0 then
             new_block ← alloc_block;
             if new_block <? 0 then mret (- E_NO_DISK)
             else bstore 4 ptr new_block;; mret 0
           else mret 0);
      if r <? 0 then mret (r, None)
      else
        d ← bload 4 ptr;
        blk ← diskaddr d;
        mret (0, Some blk)
  | (result, None) => mret (result, None)
  end.

(** ** Directories *)
Fixpoint find_name (n : nat) (f : Z) (name : list Z) : F (option Z) :=
  match n with
  | O => mret None
  | S n' =>
      c ← strcmp_at f name;
      if c =? 0 then mret (Some f) else find_name n' (f + sizeof_File) name
  end.

Fixpoint dir_lookup_loop (n : nat) (dir i : Z) (name : list Z) : F (Z * option Z) :=
  match n with
  | O => mret (- E_NOT_FOUND, None)
  | S n' =>
      b ← file_get_block dir i;
      match b with
      | (_, Some blk) =>
          found ← find_name (Z.to_nat BLKFILES) blk name;
          match found with
          | Some f => mret (0, Some f)
          | None => dir_lookup_loop n' dir (i + 1) name
          end
      | (r, None) => mret (r, None)
      end
  end.

(** [assert((dir->f_size % BLKSIZE) == 0); nblock = dir->f_size / BLKSIZE;] *)
Definition dir_nblock (dir : Z) : F Z :=
  sz ← f_size dir;
  fs_assert (Z.rem sz BLKSIZE =? 0);;
  sz ← f_size dir;
  mret (u32 (Z.quot sz BLKSIZE)).

Definition dir_lookup (dir : Z) (name : list Z) : F (Z * option Z) :=
  nblock ← dir_nblock dir;
  dir_lookup_loop (Z.to_nat nblock) dir 0 name.

Fixpoint find_unused (n : nat) (f : Z) : F (option Z) :=
  match n with
  | O => mret None
  | S n' =>
      c ← bload 1 f;
      if c =? 0 then mret (Some f) else find_unused n' (f + sizeof_File)
  end.

Fixpoint dir_alloc_loop (n : nat) (dir i : Z) : F (Z * option Z) :=
  match n with
  | O =>
      sz ← f_size dir;
      set_f_size dir (sz + BLKSIZE);;
      file_get_block dir i
  | S n' =>
      b ← file_get_block dir i;
      match b with
      | (_, Some blk) =>
          found ← find_unused (Z.to_nat BLKFILES) blk;
          match found with
          | Some f => mret (0, Some f)
          | None => dir_alloc_loop n' dir (i + 1)
          end
      | (r, None) => mret (r, None)
      end
  end.

Definition dir_alloc_file (dir : Z) : F (Z * option Z) :=
  nblock ← dir_nblock dir;
  dir_alloc_loop (Z.to_nat nblock) dir 0.

(** ** Paths *)
Definition slash : Z := 0x2F.

Fixpoint skip_slash (p : list Z) : list Z :=
  match p with
  | c :: p' => if c =? slash then skip_slash p' else p
  | [] => []
  end.

(** The characters up to the next slash or the end, and the rest. *)
Fixpoint path_elem (path : list Z) : list Z * list Z :=
  match path with
  | c :: path' => if c =? slash then ([], path) else let '(e, r) := path_elem path' in (c :: e, r)
  | [] => ([], [])
  end.

(** What walk_path returns, with [*pdir], [*pf] and [lastelem]. *)
Record walked := mkWalked { wk_ret : Z; wk_dir : option Z; wk_file : option Z; wk_last : option (list Z) }.

Fixpoint walk_path_loop (fuel : nat) (path : list Z) (dir : option Z) (f : Z) : F walked :=
  match path with
  | [] => mret (mkWalked 0 dir (Some f) None)
  | _ =>
      match fuel with
      | O => stop FDiverge
      | S fuel' =>
          let '(name, path) := path_elem path in
          if Z.of_nat (length name) >=? MAXNAMELEN then mret (mkWalked (- E_BAD_PATH) None None None)
          else
            let path := skip_slash path in
            ty ← f_type f;
            if negb (ty =? FTYPE_DIR) then mret (mkWalked (- E_NOT_FOUND) None None None)
            else
              r ← dir_lookup f name;
              match r with
              | (_, Some f') => walk_path_loop fuel' path (Some f) f'
              | (r, None) =>
                  if (r =? - E_NOT_FOUND) && bool_decide (path = [])
                  then mret (mkWalked r (Some f) None (Some name))
                  else mret (mkWalked r None None None)
              end
      end
  end.

Definition walk_path (path : list Z) : F walked :=
  let path := skip_slash path in
  f ← s_root;
  walk_path_loop (length path) path None f.

(** ** Operations on files *)
Definition blocks_of_size (sz : Z) : Z := Z.quot (i32 (sz + BLKSIZE - 1)) BLKSIZE.

Fixpoint file_flush_loop (fuel : nat) (f i : Z) : F unit :=
  match fuel with
  | O => stop FDiverge
  | S fuel' =>
      sz ← f_size f;
      if i <? blocks_of_size sz then
        w ← file_block_walk f (u32 i) false;
        match w with
        | (_, Some ptr) =>
            d ← bload 4 ptr;
            if d =? 0 then mret tt else a ← diskaddr d; flush_block a
        | (_, None) => mret tt
        end;;
        file_flush_loop fuel' f (i + 1)
      else mret tt
  end.

Definition file_flush (f : Z) : F unit :=
  sz ← f_size f;
  file_flush_loop (Z.to_nat (blocks_of_size sz) + 1) f 0;;
  flush_block f;;
  ind ← f_indirect f;
  if ind =? 0 then mret tt else a ← diskaddr ind; flush_block a.

Definition file_create (path : list Z) : F (Z * option Z) :=
  w ← walk_path path;
  if wk_ret w =? 0 then mret (- E_FILE_EXISTS, None)
  else
    match wk_dir w with
    | Some dir =>
        if negb (wk_ret w =? - E_NOT_FOUND) then mret (wk_ret w, None)
        else
          r ← dir_alloc_file dir;
          match r with
          | (_, Some f) =>
              strcpy_to f (default [] (wk_last w));;
              file_flush dir;;
              mret (0, Some f)
          | (r, None) => mret (r, None)
          end
    | None => mret (wk_ret w, None)
    end.

Definition file_open (path : list Z) : F (Z * option Z) :=
  w ← walk_path path; mret (wk_ret w, wk_file w).

(** [MIN(a, b)] of unsigned 64-bit values. *)
Definition umin (a b : Z) : Z := if a <=? b then a else b.

Fixpoint file_read_loop (fuel : nat) (f buf count offset pos : Z) : F Z :=
  if u64 pos <? u64 (offset + count) then
    match fuel with
    | O => stop FDiverge
    | S fuel' =>
        b ← file_get_block f (u32 (Z.quot pos BLKSIZE));
        match b with
        | (_, Some blk) =>
            let off := Z.rem pos BLKSIZE in
            let bn := i32 (umin (u64 (BLKSIZE - off)) (u64 (offset + count - pos))) in
            bmemmove buf (blk + off) (u64 bn);;
            file_read_loop fuel' f (buf + bn) count offset (i32 (pos + bn))
        | (r, None) => mret r
        end
    end
  else mret (i32 count).

Definition file_read (f buf count offset : Z) : F Z :=
  sz ← f_size f;
  if offset >=? sz then mret 0
  else
    sz ← f_size f;
    let count := umin count (u64 (i32 (sz - offset))) in
    file_read_loop (Z.to_nat (count / BLKSIZE) + 2) f buf count offset offset.

Definition file_free_block (f filebno : Z) : F Z :=
  w ← file_block_walk f filebno false;
  match w with
  | (_, Some ptr) =>
      d ← bload 4 ptr;
      (if d =? 0 then mret tt
       else free_block d;; bstore 4 ptr 0);;
      mret 0
  | (r, None) => mret r
  end.

Fixpoint truncate_loop (n : nat) (f bno : Z) : F unit :=
  match n with
  | O => mret tt
  | S n' => file_free_block f bno;; truncate_loop n' f (bno + 1)
  end.

Definition file_truncate_blocks (f newsize : Z) : F unit :=
  sz ← f_size f;
  let old_nblocks := u32 (blocks_of_size sz) in
  let new_nblocks := u32 (blocks_of_size newsize) in
  truncate_loop (Z.to_nat (old_nblocks - new_nblocks)) f new_nblocks;;
  ind ← f_indirect f;
  if (new_nblocks <=? NDIRECT) && negb (ind =? 0) then
    free_block ind;; set_f_indirect f 0
  else mret tt.

Definition file_set_size (f newsize : Z) : F Z :=
  sz ← f_size f;
  (if sz >? newsize then file_truncate_blocks f newsize else mret tt);;
  set_f_size f newsize;;
  flush_block f;;
  mret 0.

Fixpoint file_write_loop (fuel : nat) (f buf count offset pos : Z) : F Z :=
  if u64 pos <? u64 (offset + count) then
    match fuel with
    | O => stop FDiverge
    | S fuel' =>
        b ← file_get_block f (u32 (Z.quot pos BLKSIZE));
        match b with
        | (_, Some blk) =>
            let off := Z.rem pos BLKSIZE in
            let bn := i32 (umin (u64 (BLKSIZE - off)) (u64 (offset + count - pos))) in
            bmemmove (blk + off) buf (u64 bn);;
            file_write_loop fuel' f (buf + bn) count offset (i32 (pos + bn))
        | (r, None) => mret r
        end
    end
  else mret (i32 count).

Definition file_write (f buf count offset : Z) : F Z :=
  sz ← f_size f;
  r ← (if u64 (offset + count) >? u64 sz then file_set_size f (i32 (offset + count)) else mret 0);
  if r <? 0 then mret r
  else file_write_loop (Z.to_nat (count / BLKSIZE) + 2) f buf count offset offset.

Definition file_remove (path : list Z) : F Z :=
  w ← walk_path path;
  match wk_file w with
  | Some f =>
      file_truncate_blocks f 0;;
      bstore 1 f 0;;
      set_f_size f 0;;
      flush_block f;;
      mret 0
  | None => mret (wk_ret w)
  end.

Fixpoint fs_sync_loop (fuel : nat) (i : Z) : F unit :=
  match fuel with
  | O => stop FDiverge
  | S fuel' =>
      n ← s_nblocks;
      if i <? n then a ← diskaddr i; flush_block a;; fs_sync_loop fuel' (i + 1)
      else mret tt
  end.
Definition fs_sync : F unit := n ← s_nblocks; fs_sync_loop (Z.to_nat n + 1) 1.
End fs.
