(* ===== verification/FsSpec.v ===== *)
(** * What fs/fs.c does, over any block cache

    The specifications are in terms of the flat memory [bview] the server sees, and
    hold for every implementation of the interface of BlockCache.v. *)
From S2P Require Import Prelude Mmu CMem BlockCache Fs.

Section fs.
Context {St : Type} {Ops : BlockCacheOps St} {BC : BlockCache St}.
Implicit Types s : St.

Definition fstep (s s' : St) (v d : Z -> Z) : Prop := bstep bview bdisk bown bok s s' v d.
Definition same (s s' : St) : Prop := fstep s s' (bview s) (bdisk s).

Lemma same_refl s : bok s -> same s s.
Proof. by split. Qed.

Lemma fstep_ok s s' v d : fstep s s' v d -> bok s'.
Proof. by intros []. Qed.
Lemma fstep_view s s' v d a : fstep s s' v d -> bview s' a = v a.
Proof. intros (_ & H & _). apply H. Qed.

Lemma fstep_trans s1 s2 s3 v d v' d' :
  fstep s1 s2 v d -> fstep s2 s3 v' d' -> fstep s1 s3 v' d'.
Proof. intros (_ & _ & _ & H1) (Ho & Hv & Hd & H2). split_and!; try done. intros a. by rewrite H2. Qed.

Lemma fstep_ext s s' v d v' d' :
  fstep s s' v d -> (forall a, v a = v' a) -> (forall a, d a = d' a) -> fstep s s' v' d'.
Proof.
  intros (Ho & Hv & Hd & Hw) H H'. split_and!; try done; intros a; [by rewrite Hv|by rewrite Hd].
Qed.

Lemma same_trans s1 s2 s3 v d : same s1 s2 -> fstep s2 s3 v d -> fstep s1 s3 v d.
Proof. apply fstep_trans. Qed.

Lemma same_then s1 s2 s3 : same s1 s2 -> same s2 s3 -> same s1 s3.
Proof.
  intros H1 H2. eapply fstep_ext; [by eapply fstep_trans|..]; apply H1.
Qed.

(** ** Blocks in use *)
Definition in_use (v : Z -> Z) (b : Z) : Prop := 0 < b < v_nblocks v /\ v_free v b = false.
Definition blkaddr (b : Z) : Z := DISKMAP + b * 4096.

Lemma in_use_ext v v' b : (forall a, v a = v' a) -> in_use v b -> in_use v' b.
Proof. intros H. unfold in_use. by rewrite (v_nblocks_ext v v' H), (v_free_ext v v' b H). Qed.

Lemma in_use_disk_byte v b a : in_use v b -> blkaddr b <= a < blkaddr b + 4096 -> disk_byte v a.
Proof.
  intros H Ha. unfold disk_byte. replace ((a - DISKMAP) / BLKSIZE) with b; [done|].
  unfold blkaddr in Ha. change BLKSIZE with 4096. Z.div_mod_to_equations. lia.
Qed.

Lemma in_use_usable s b a n :
  in_use (bview s) b -> blkaddr b <= a -> a + n <= blkaddr b + 4096 -> usable bview bown s a n.
Proof. intros H Ha Hn i Hi. right. eapply in_use_disk_byte; [done|]. lia. Qed.

(** Memory of the server that is either its own or a block in use. *)
Lemma usable_same s s' a n : same s s' -> usable bview bown s a n -> usable bview bown s' a n.
Proof.
  intros (_ & Hv & _ & Hw) H i Hi. rewrite Hw. destruct (H i Hi) as [|Hd]; [by left|right].
  eapply disk_byte_ext; [|exact Hd]. intros. by rewrite Hv.
Qed.

Lemma reserved_super v : reserved v -> in_use v 1.
Proof. intros (Hn & H1 & H). destruct (H 0 ltac:(lia) ltac:(lia)). split; [lia|done]. Qed.

Lemma reserved_bitmap v b : reserved v -> 0 <= b < v_nblocks v -> in_use v (2 + b / 32768).
Proof.
  intros (Hn & _ & H) Hb. destruct (H (b / 32768)).
  - Z.div_mod_to_equations. lia.
  - unfold BLKBITSIZE. change (BLKSIZE * 8) with 32768. Z.div_mod_to_equations. lia.
  - split; [|done]. Z.div_mod_to_equations. lia.
Qed.

(** ** Reading the super block and the bitmap *)
Lemma s_nblocks_ok s : bok s -> wp s_nblocks s (fun n s' => n = v_nblocks (bview s) /\ same s s').
Proof.
  intros Hok. unfold s_nblocks. wsteps. rewrite (bok_super s Hok). apply bload_ok; [done|].
  eapply in_use_usable; [apply reserved_super, bok_reserved, Hok|..]; unfold blkaddr; jlia.
Qed.

Definition bit_word (b : Z) : Z := DISKMAP + 2 * BLKSIZE + 4 * (b / 32).

Lemma bit_word_range b : 0 <= b -> blkaddr (2 + b / 32768) <= bit_word b /\
  bit_word b + 4 <= blkaddr (2 + b / 32768) + 4096 /\ bit_word b mod 4096 + 4 <= 4096.
Proof. intros. unfold blkaddr, bit_word, DISKMAP. change BLKSIZE with 4096. Z.div_mod_to_equations. lia. Qed.

Lemma bit_word_usable s b : bok s -> 0 <= b < v_nblocks (bview s) -> usable bview bown s (bit_word b) 4.
Proof.
  intros Hok Hb. destruct (bit_word_range b ltac:(lia)) as (? & ? & ?).
  eapply in_use_usable; [apply reserved_bitmap; [by apply bok_reserved|done]|done|lia].
Qed.

Lemma block_is_free_ok s b :
  bok s -> 0 <= b < v_nblocks (bview s) ->
  wp (block_is_free b) s (fun r s' => r = v_free (bview s) b /\ same s s').
Proof.
  intros Hok Hb. unfold block_is_free, block_is_free_via. wsteps.
  pose proof (bok_super s Hok) as Hsp. destruct (Z.eqb_spec (super s) 0); [unfold DISKMAP, BLKSIZE, PGSIZE in Hsp; lia|].
  wsteps. wuse bload_ok; [done| |].
  { rewrite Hsp. eapply in_use_usable; [apply reserved_super, bok_reserved, Hok|..]; unfold blkaddr; jlia. }
  rewrite Hsp. intros nb s1 [-> Hs1]. fold (v_nblocks (bview s)). rewrite Z.geb_leb.
  destruct (Z.leb_spec (v_nblocks (bview s)) b); [lia|].
  wsteps. rewrite (bok_bitmap s Hok). fold (bit_word b). wuse bload_ok; [apply Hs1|..].
  { eapply usable_same; [done|]. by apply bit_word_usable. }
  intros w s2 [-> Hs2]. wsteps. split; [|by eapply same_then].
  unfold v_free. f_equal. apply vld_ext. intros. apply Hs1.
Qed.

Lemma diskaddr_ok s b :
  bok s -> 0 < b < v_nblocks (bview s) ->
  wp (diskaddr b) s (fun r s' => r = blkaddr b /\ same s s').
Proof.
  intros Hok Hb. unfold diskaddr. wsteps. pose proof (bok_super s Hok) as Hsp.
  destruct (Z.eqb_spec b 0); [lia|]. destruct (Z.eqb_spec (super s) 0); [unfold DISKMAP, BLKSIZE, PGSIZE in Hsp; lia|].
  wsteps. wuse bload_ok; [done| |].
  { rewrite Hsp. eapply in_use_usable; [apply reserved_super, bok_reserved, Hok|..]; unfold blkaddr; jlia. }
  rewrite Hsp. intros nb s1 [-> Hs1]. wsteps. fold (v_nblocks (bview s)). rewrite Z.geb_leb.
  destruct (Z.leb_spec (v_nblocks (bview s)) b); [lia|]. wsteps. done.
Qed.
(** ** Changing the bitmap

    [v_word v b w] is the memory [v] with the bitmap word of block [b] set to [w]. *)
Definition v_word (v : Z -> Z) (b w : Z) : Z -> Z := vst 4 v (bit_word b) w.

Lemma v_word_nblocks v b w : 0 <= b -> v_nblocks (v_word v b w) = v_nblocks v.
Proof.
  intros Hb. apply vld_vst_ne. right. unfold bit_word, DISKMAP. change BLKSIZE with 4096.
  change (Z.of_nat 4) with 4. Z.div_mod_to_equations. lia.
Qed.

Lemma v_word_free v b w c :
  0 <= b -> 0 <= c -> 0 <= w < 2 ^ 32 ->
  v_free (v_word v b w) c = if decide (c / 32 = b / 32) then Z.testbit w (c mod 32) else v_free v c.
Proof.
  intros Hb Hc Hw. unfold v_free. fold (bit_word c). unfold v_word. case_decide as He.
  - assert (bit_word c = bit_word b) as -> by (unfold bit_word; by rewrite He).
    rewrite vld_vst_eq. f_equal. apply Z.mod_small. change (256 ^ Z.of_nat 4) with (2 ^ 32). lia.
  - rewrite vld_vst_ne; [done|]. unfold no_overlap, bit_word. change (Z.of_nat 4) with 4. lia.
Qed.

Lemma word_of_range s a : 0 <= vld 4 (bview s) a < 2 ^ 32.
Proof. apply (vld_range 4). apply bview_byte. Qed.

Lemma bit_range b : 0 <= 2 ^ (b mod 32) < 2 ^ 32.
Proof.
  pose proof (Z.mod_pos_bound b 32 ltac:(lia)). split; [apply Z.pow_nonneg; lia|].
  apply Z.pow_lt_mono_r; lia.
Qed.

Lemma testbit_pow b c : 0 <= b -> 0 <= c -> c / 32 = b / 32 ->
  Z.testbit (2 ^ (b mod 32)) (c mod 32) = bool_decide (c = b).
Proof.
  intros Hb Hc He. pose proof (Z.mod_pos_bound b 32 ltac:(lia)). rewrite Z.pow2_bits_eqb by lia.
  case_bool_decide as Hcb; [subst; apply Z.eqb_refl|]. apply Z.eqb_neq. intros ?. apply Hcb.
  rewrite (Z.div_mod c 32), (Z.div_mod b 32) by lia. congruence.
Qed.

Lemma lxor_range a b n : 0 <= n -> 0 <= a < 2 ^ n -> 0 <= b < 2 ^ n -> 0 <= Z.lxor a b < 2 ^ n.
Proof.
  intros Hn Ha Hb. assert (0 <= Z.lxor a b) as H0 by (apply Z.lxor_nonneg; lia). split; [done|].
  destruct (decide (Z.lxor a b = 0)) as [->|]; [lia|]. apply Z.log2_lt_pow2; [lia|].
  eapply Z.le_lt_trans; [apply Z.log2_lxor; lia|].
  assert (forall z, 0 <= z < 2 ^ n -> Z.log2 z < n \/ n = 0) as Hl.
  { intros z Hz. destruct (decide (z = 0)) as [->|]; [|left; apply Z.log2_lt_pow2; lia].
    destruct (decide (n = 0)); [by right|left; simpl; lia]. }
  destruct (Hl a Ha), (Hl b Hb); subst; [lia|..];
    (assert (a = 0 /\ b = 0) as [-> ->] by (change (2 ^ 0) with 1 in *; lia); done).
Qed.

(** The memory after flipping the bit of block [b]. *)
Definition v_flip (v : Z -> Z) (b : Z) : Z -> Z := v_word v b (Z.lxor (vld 4 v (bit_word b)) (2 ^ (b mod 32))).

Lemma v_flip_free s b c :
  0 <= b -> 0 <= c -> v_free (v_flip (bview s) b) c = xorb (v_free (bview s) c) (bool_decide (c = b)).
Proof.
  intros Hb Hc. unfold v_flip. rewrite v_word_free by
    (first [done | apply lxor_range; [lia|apply word_of_range|apply bit_range]]).
  case_decide as He.
  - rewrite Z.lxor_spec, testbit_pow by done. f_equal. unfold v_free. fold (bit_word c).
    assert (bit_word c = bit_word b) as -> by (unfold bit_word; by rewrite He). done.
  - rewrite bool_decide_eq_false_2, xorb_false_r; [done|]. by intros ->.
Qed.
Lemma v_flip_nblocks v b : 0 <= b -> v_nblocks (v_flip v b) = v_nblocks v.
Proof. apply v_word_nblocks. Qed.

(** A free block is none of the reserved ones, so it can be marked as used. *)
Lemma reserved_flip s b :
  bok s -> 0 <= b -> v_free (bview s) b = true -> reserved (v_flip (bview s) b).
Proof.
  intros Hok Hb Hf. destruct (bok_reserved s Hok) as (Hn & H1 & H). unfold reserved.
  rewrite v_flip_nblocks by done. split_and!; [done|..].
  - rewrite v_flip_free, H1, bool_decide_eq_false_2 by (congruence || lia). done.
  - intros i Hi Hlt. destruct (H i Hi Hlt) as [? Hr]. split; [done|].
    rewrite v_flip_free, Hr, bool_decide_eq_false_2 by (congruence || lia). done.
Qed.

Lemma flip_bit_ok s b :
  bok s -> 0 <= b < v_nblocks (bview s) -> v_free (bview s) b = true ->
  wp (flip_bit b) s (fun _ s' => fstep s s' (v_flip (bview s) b) (bdisk s)).
Proof.
  intros Hok Hb Hf. unfold flip_bit. wsteps. rewrite (bok_bitmap s Hok). cbv zeta. fold (bit_word b).
  wsteps. wuse bload_ok; [done|by apply bit_word_usable|]. intros w s1 [-> Hs1].
  assert (forall a, bview s1 a = bview s a) as Hv1 by apply Hs1.
  set (w := Z.lxor _ _). assert (forall a, vst 4 (bview s1) (bit_word b) w a = v_flip (bview s) b a) as Hfl.
  { intros a. unfold v_flip, v_word, vst. subst w. case_decide; [done|]. apply Hs1. }
  wuse bstore_ok; [apply Hs1|..].
  - change (Z.of_nat 4) with 4. change PGSIZE with 4096. apply bit_word_range. lia.
  - split_and!.
    + eapply usable_same; [done|]. by apply bit_word_usable.
    + intros _. right. destruct (bit_word_range b ltac:(lia)) as [Hlo _]. unfold blkaddr, DISKMAP in *.
      change BLKSIZE with 4096. assert (0 <= b / 32768) by (Z.div_mod_to_equations; lia). lia.
    + eapply reserved_ext; [|apply (reserved_flip s b); [done|lia|done]]. done.
  - intros _ s2 Hs2. eapply same_trans; [done|]. eapply fstep_ext; [exact Hs2|done|apply Hs1].
Qed.

(** What alloc_block does: it takes the first free block of the disk, marks it used
    and writes the first bitmap block out, or finds that there is none. *)
Definition alloc_post (s : St) (lo r : Z) (s' : St) : Prop :=
  (0 < r < v_nblocks (bview s) /\ v_free (bview s) r = true /\
   (forall c, lo <= c < r -> v_free (bview s) c = false) /\
   fstep s s' (v_flip (bview s) r) (fun a =>
     if decide ((a - DISKMAP) / BLKSIZE = 2) then v_flip (bview s) r a else bdisk s a)) \/
  (r = - E_NO_DISK /\ (forall c, lo <= c < v_nblocks (bview s) -> v_free (bview s) c = false) /\ same s s').

Lemma alloc_post_same s s1 lo lo' r s' :
  same s s1 -> (forall c, lo <= c < lo' -> v_free (bview s) c = false) ->
  alloc_post s1 lo' r s' -> alloc_post s lo r s'.
Proof.
  intros Hs Hlo. assert (forall a, bview s1 a = bview s a) as Hv by apply Hs.
  assert (forall c, v_free (bview s1) c = v_free (bview s) c) as Hvf by (intros; by apply v_free_ext).
  assert (forall c a, v_flip (bview s1) c a = v_flip (bview s) c a) as Hfl.
  { intros c a. unfold v_flip, v_word, vst. rewrite (vld_ext 4 (bview s1) (bview s)) by auto. case_decide; auto. }
  unfold alloc_post. rewrite (v_nblocks_ext _ _ Hv).
  intros [(Hr & Hf & Hmin & Hst)|(Hr & Hno & Hst)]; [left|right].
  - rewrite <- Hvf. split_and!; try done; try lia.
    + intros c Hc. destruct (Z.lt_ge_cases c lo'); [apply Hlo; lia|]. rewrite <- Hvf. apply Hmin. lia.
    + eapply same_trans; [done|]. eapply fstep_ext; [exact Hst|done|].
      intros a. cbn beta. case_decide; [done|]. apply Hs.
  - split_and!; [done| |by eapply same_then].
    intros c Hc. destruct (Z.lt_ge_cases c lo'); [apply Hlo; lia|]. rewrite <- Hvf. apply Hno. lia.
Qed.

Lemma alloc_block_loop_ok fuel b s :
  bok s -> 0 < b <= v_nblocks (bview s) -> v_nblocks (bview s) - b < Z.of_nat fuel ->
  wp (alloc_block_loop fuel b) s (fun r s' => alloc_post s b r s').
Proof.
  revert b s. induction fuel as [|fuel IH]; intros b s Hok Hb Hfuel; [lia|].
  cbn [alloc_block_loop]. wsteps. wuse s_nblocks_ok; [done|]. intros n s1 [-> Hs1].
  assert (forall a, bview s1 a = bview s a) as Hv1 by apply Hs1. pose proof (bok_nblocks s Hok) as Hmax.
  destruct (Z.ltb_spec b (v_nblocks (bview s))) as [Hlt|Hge].
  2:{ wsteps. right. split_and!; [done|lia|done]. }
  assert (v_nblocks (bview s1) = v_nblocks (bview s)) as Hn1 by by apply v_nblocks_ext.
  wsteps. wuse block_is_free_ok; [apply Hs1|lia|]. intros r s2 [-> Hs2].
  assert (same s s2) as Hs02 by by eapply same_then. rewrite (v_free_ext _ _ b Hv1).
  assert (forall a, bview s2 a = bview s a) as Hv2 by apply Hs02.
  assert (v_nblocks (bview s2) = v_nblocks (bview s)) as Hn2 by by apply v_nblocks_ext.
  destruct (v_free (bview s) b) eqn:Hf.
  2:{ wuse (IH (b + 1) s2); [apply Hs02|lia|lia|]. intros r s3 H.
      eapply alloc_post_same; [exact Hs02| |exact H]. intros c Hc. by replace c with b by lia. }
  wsteps. wuse flip_bit_ok; [apply Hs02|lia|by rewrite (v_free_ext _ _ b Hv2)|]. intros _ s3 Hs3.
  assert (v_nblocks (bview s3) = v_nblocks (bview s)) as Hn3.
  { rewrite (v_nblocks_ext _ (v_flip (bview s2) b)) by apply Hs3. rewrite v_flip_nblocks by lia. done. }
  destruct (bok_reserved s2 (fstep_ok _ _ _ _ Hs2)) as (_ & _ & Hbm). destruct (Hbm 0 ltac:(lia) ltac:(lia)) as [H2 _].
  wsteps. wuse diskaddr_ok; [apply Hs3|lia|]. intros a s4 [-> Hs4].
  wsteps. wuse flush_block_ok; [apply Hs4|unfold blkaddr; jlia|]. intros _ s5 Hs5.
  assert (forall a, bview s5 a = v_flip (bview s2) b a) as Hv5.
  { intros a. destruct Hs5 as (_ & -> & _). destruct Hs4 as (_ & -> & _). apply Hs3. }
  wsteps. wuse block_is_free_ok; [apply Hs5|rewrite (v_nblocks_ext _ _ Hv5), v_flip_nblocks by lia; lia|].
  intros r s6 [-> Hs6]. rewrite (v_free_ext _ _ b Hv5), v_flip_free, (v_free_ext _ _ b Hv2), Hf by lia.
  rewrite bool_decide_eq_true_2 by done. cbn [xorb negb fs_assert]. wsteps.
  rewrite swrap_small by (change (DISKSIZE / BLKSIZE) with 786432 in Hmax; lia).
  eapply (alloc_post_same s s2 b b); [exact Hs02|lia|]. left. rewrite Hn2, (v_free_ext _ _ b Hv2).
  split_and!; [lia|lia|done|lia|]. eapply fstep_ext.
  - eapply fstep_trans; [exact Hs3|]. eapply same_trans; [exact Hs4|]. eapply fstep_trans; [exact Hs5|exact Hs6].
  - exact Hv5.
  - intros a. cbn beta. destruct Hs5 as (_ & _ & -> & _).
    replace ((blkaddr 2 - DISKMAP) / BLKSIZE) with 2 by done.
    case_decide; [|destruct Hs4 as (_ & _ & -> & _); apply Hs3].
    destruct Hs4 as (_ & -> & _). apply Hs3.
Qed.

Lemma alloc_block_ok s : bok s -> wp alloc_block s (fun r s' => alloc_post s 1 r s').
Proof.
  intros Hok. unfold alloc_block. wsteps. wuse s_nblocks_ok; [done|]. intros n s1 [-> Hs1].
  assert (forall a, bview s1 a = bview s a) as Hv1 by apply Hs1.
  destruct (bok_reserved s Hok) as (Hn & _).
  wuse alloc_block_loop_ok; [apply Hs1|rewrite (v_nblocks_ext _ _ Hv1); lia..|].
  intros r s2 H. eapply alloc_post_same; [exact Hs1| |exact H]. lia.
Qed.
End fs.
