(* ===== verification/FileSpec.v ===== *)
(** * Reading and writing files, over any block cache

    The contents of a file are found through its block pointers, [blk_of]; reads and
    writes move exactly these bytes. *)
From S2P Require Import Prelude Mmu CMem BlockCache Fs FsSpec.

(** ** The layout of a file, in a flat memory *)
Definition f_indirect_of (v : Z -> Z) (f : Z) : Z := vld 4 v (f + 176).
Definition slot (v : Z -> Z) (f n : Z) : Z :=
  if n <? NDIRECT then f_direct f n else blkaddr (f_indirect_of v f) + 4 * (n - NDIRECT).
Definition blk_of (v : Z -> Z) (f n : Z) : Z := vld 4 v (slot v f n).
Definition f_size_of (v : Z -> Z) (f : Z) : Z := i32 (vld 4 v (f + 128)).

(** Where byte [p] of the file is. *)
Definition file_addr (v : Z -> Z) (f p : Z) : Z := blkaddr (blk_of v f (p / 4096)) + p mod 4096.

(** The [struct File] at [f] lies in a block in use. *)
Definition file_at (v : Z -> Z) (f : Z) : Prop :=
  exists b, in_use v b /\ blkaddr b <= f /\ f + 256 <= blkaddr b + 4096.

(** Block [n] of the file exists. *)
Definition present (v : Z -> Z) (f n : Z) : Prop :=
  0 <= n < NDIRECT + NINDIRECT /\ (NDIRECT <= n -> in_use v (f_indirect_of v f)) /\ in_use v (blk_of v f n).

Lemma blk_of_ext v v' f n : (forall a, v a = v' a) -> blk_of v f n = blk_of v' f n.
Proof.
  intros Hv. unfold blk_of, slot, f_indirect_of.
  rewrite (vld_ext 4 v v' (f + 176)) by auto. apply vld_ext. auto.
Qed.
Lemma present_ext v v' f n : (forall a, v a = v' a) -> present v f n -> present v' f n.
Proof.
  intros Hv (Hn & Hi & Hb). unfold present, f_indirect_of.
  rewrite <- (blk_of_ext v v') by done. rewrite <- (vld_ext 4 v v' (f + 176)) by auto.
  split_and!; [lia|lia| |by apply (in_use_ext v)]. intros Hx. apply (in_use_ext v); [done|]. by apply Hi.
Qed.

(** ** Memories that agree on what the file system says about a file

    The size of the disk, the bitmap, the structure of the file and its indirect
    block. *)
Definition meta_agree (v v' : Z -> Z) (f : Z) : Prop :=
  v_nblocks v = v_nblocks v' /\ (forall b, 0 <= b < v_nblocks v -> v_free v b = v_free v' b) /\
  (forall a, f <= a < f + 256 -> v a = v' a) /\
  (in_use v (f_indirect_of v f) -> forall a,
     blkaddr (f_indirect_of v f) <= a < blkaddr (f_indirect_of v f) + 4096 -> v a = v' a).

Section meta.
Context (v v' : Z -> Z) (f : Z) (Hag : meta_agree v v' f).

Lemma meta_in_use b : in_use v b -> in_use v' b.
Proof.
  destruct Hag as (Hn & Hf & _). intros [Hb Hu]. split; [by rewrite <- Hn|]. rewrite <- Hf; [done|lia].
Qed.

Lemma meta_reserved : reserved v -> reserved v'.
Proof.
  destruct Hag as (Hn & Hf & _). intros (H0 & H1 & H). unfold reserved. rewrite <- Hn.
  split_and!; [done|..].
  - rewrite <- Hf; [done|]. destruct (H 0); lia.
  - intros i Hi Hlt. destruct (H i Hi Hlt). rewrite <- Hf; [done|lia].
Qed.

Lemma meta_file_at : file_at v f -> file_at v' f.
Proof. intros (b & Hb & ?). exists b. split; [by apply meta_in_use|done]. Qed.

Lemma meta_struct n off : 0 <= off -> off + Z.of_nat n <= 256 -> vld n v (f + off) = vld n v' (f + off).
Proof. destruct Hag as (_ & _ & H & _). intros. apply vld_ext. intros a Ha. apply H. lia. Qed.

Lemma meta_size : f_size_of v f = f_size_of v' f.
Proof. unfold f_size_of. f_equal. by apply meta_struct. Qed.

Lemma meta_indirect : f_indirect_of v f = f_indirect_of v' f.
Proof. by apply meta_struct. Qed.

Lemma meta_blk n :
  0 <= n < NDIRECT + NINDIRECT -> (NDIRECT <= n -> in_use v (f_indirect_of v f)) ->
  blk_of v f n = blk_of v' f n.
Proof.
  intros Hn Hi. unfold blk_of, slot, f_direct. rewrite <- meta_indirect.
  change (NDIRECT + NINDIRECT) with 1034 in Hn. change NDIRECT with 10 in *.
  destruct (Z.ltb_spec n 10).
  - rewrite <- !Z.add_assoc. apply meta_struct; lia.
  - destruct Hag as (_ & _ & _ & H'). apply vld_ext. intros a Ha. apply H'; [apply Hi; lia|lia].
Qed.

Lemma meta_present n : present v f n -> present v' f n.
Proof.
  intros (Hn & Hi & Hb). split; [done|]. rewrite <- meta_indirect, <- meta_blk by done.
  split; [|by apply meta_in_use]. intros ?. apply meta_in_use. auto.
Qed.

Lemma meta_file_addr p : present v f (p / 4096) -> file_addr v f p = file_addr v' f p.
Proof. intros (Hn & Hi & _). unfold file_addr. by rewrite meta_blk. Qed.
End meta.

(** Memories that agree on the whole disk. *)
Definition agree (v v' : Z -> Z) : Prop := forall a, DISKMAP <= a < DISKMAP + DISKSIZE -> v a = v' a.

Lemma agree_meta v v' f : agree v v' -> v_nblocks v <= 786432 -> file_at v f -> meta_agree v v' f.
Proof.
  intros Hag Hmax (b & [Hb _] & Hlo & Hhi). unfold blkaddr in *. split_and!.
  - apply vld_ext. intros a Ha. apply Hag. jlia.
  - intros c Hc. unfold v_free. f_equal. apply vld_ext. intros a Ha. apply Hag.
    unfold DISKMAP, DISKSIZE in *. change BLKSIZE with 4096 in *. Z.div_mod_to_equations. lia.
  - intros a Ha. apply Hag. unfold DISKMAP, DISKSIZE in *. lia.
  - intros [Hi _] a Ha. apply Hag. unfold blkaddr, DISKMAP, DISKSIZE in *. lia.
Qed.

Lemma file_addr_block v f p :
  v_nblocks v <= 786432 -> present v f (p / 4096) ->
  blkaddr (blk_of v f (p / 4096)) <= file_addr v f p < blkaddr (blk_of v f (p / 4096)) + 4096 /\
  DISKMAP <= file_addr v f p < DISKMAP + DISKSIZE.
Proof.
  intros Hmax (_ & _ & [Hb _]). unfold file_addr, blkaddr, DISKMAP, DISKSIZE in *.
  pose proof (Z.mod_pos_bound p 4096 ltac:(lia)). lia.
Qed.

(** The next piece that file_read and file_write move: up to the end of the block or
    of the range. *)
Definition piece (pos e : Z) : Z := Z.min (4096 - pos mod 4096) (e - pos).

Lemma piece_spec pos e :
  0 <= pos < e -> 0 < piece pos e <= 4096 /\ pos + piece pos e <= e /\
  pos mod 4096 + piece pos e <= 4096 /\
  (pos + piece pos e = e \/ (pos + piece pos e) / 4096 = pos / 4096 + 1) /\
  forall p, pos <= p < pos + piece pos e -> p / 4096 = pos / 4096 /\ p mod 4096 = pos mod 4096 + (p - pos).
Proof.
  intros H. unfold piece. pose proof (Z.mod_pos_bound pos 4096 ltac:(lia)). split_and!; [lia..| |].
  - destruct (Z.min_spec (4096 - pos mod 4096) (e - pos)) as [[_ ->]|[_ ->]]; [right|left; lia].
    Z.div_mod_to_equations. lia.
  - intros p Hp. assert (pos <= p /\ p - pos < 4096 - pos mod 4096) as Hp' by lia. clear Hp.
    Z.div_mod_to_equations. lia.
Qed.

Lemma piece_code pos e :
  0 <= pos < e -> e < 2 ^ 31 ->
  i32 (umin (u64 (BLKSIZE - Z.rem pos BLKSIZE)) (u64 (e - pos))) = piece pos e.
Proof.
  intros Hp He. destruct (piece_spec pos e Hp) as (Hpc & _). unfold piece in *. change BLKSIZE with 4096.
  rewrite Z.rem_mod_nonneg by lia. pose proof (Z.mod_pos_bound pos 4096 ltac:(lia)).
  rewrite !wrap_small by lia. unfold umin. rewrite swrap_small; destruct (Z.leb_spec (4096 - pos mod 4096) (e - pos)); lia.
Qed.

Section files.
Context {St : Type} {Ops : BlockCacheOps St} {BC : BlockCache St}.
Implicit Types s : St.

Lemma file_usable s f off n :
  file_at (bview s) f -> 0 <= off -> off + n <= 256 -> usable bview bown s (f + off) n.
Proof. intros (b & Hb & Hlo & Hhi) Hoff Hn. apply (in_use_usable s b); [done|lia|lia]. Qed.

Lemma file_at_ext v v' f : (forall a, v a = v' a) -> file_at v f -> file_at v' f.
Proof. intros H (b & Hb & ?). exists b. split; [by eapply in_use_ext|done]. Qed.

Lemma file_at_same s s' f : same s s' -> file_at (bview s) f -> file_at (bview s') f.
Proof. intros Hs. apply file_at_ext. intros a. symmetry. apply Hs. Qed.

Lemma f_size_ok s f :
  bok s -> file_at (bview s) f -> wp (f_size f) s (fun r s' => r = f_size_of (bview s) f /\ same s s').
Proof.
  intros Hok Hf. unfold f_size. wsteps. wuse bload_ok; [done|by apply file_usable|].
  intros z s1 [-> Hs1]. wsteps. done.
Qed.

Lemma f_indirect_ok s f :
  bok s -> file_at (bview s) f -> wp (f_indirect f) s (fun r s' => r = f_indirect_of (bview s) f /\ same s s').
Proof. intros Hok Hf. apply bload_ok; [done|by apply file_usable]. Qed.

(** ** Finding a block that exists *)
Lemma slot_usable s f n :
  file_at (bview s) f -> 0 <= n < NDIRECT + NINDIRECT ->
  (NDIRECT <= n -> in_use (bview s) (f_indirect_of (bview s) f)) ->
  usable bview bown s (slot (bview s) f n) 4.
Proof.
  intros Hf Hn Hi. unfold slot, f_direct. change (NDIRECT + NINDIRECT) with 1034 in Hn. change NDIRECT with 10 in *.
  destruct (Z.ltb_spec n 10).
  - rewrite <- Z.add_assoc. apply file_usable; [done|lia|lia].
  - eapply in_use_usable; [apply Hi; lia|lia|lia].
Qed.

Lemma file_block_walk_ok s f n alloc :
  bok s -> file_at (bview s) f -> 0 <= n < NDIRECT + NINDIRECT ->
  (NDIRECT <= n -> in_use (bview s) (f_indirect_of (bview s) f)) ->
  wp (file_block_walk f n alloc) s (fun r s' => r = (0, Some (slot (bview s) f n)) /\ same s s').
Proof.
  intros Hok Hf Hn Hi. unfold file_block_walk, slot. rewrite Z.geb_leb.
  destruct (Z.leb_spec (NDIRECT + NINDIRECT) n); [lia|]. destruct (Z.ltb_spec n NDIRECT).
  { wsteps. split; [done|by apply same_refl]. }
  specialize (Hi ltac:(lia)). destruct Hi as [Hr Hfr].
  wsteps. wuse f_indirect_ok; [done..|]. intros ind s1 [-> Hs1].
  destruct (Z.eqb_spec (f_indirect_of (bview s) f) 0); [lia|]. cbn [andb]. wsteps. cbn [Z.ltb Z.compare].
  assert (forall a, bview s1 a = bview s a) as Hv1 by apply Hs1.
  assert (f_indirect_of (bview s1) f = f_indirect_of (bview s) f) as He1 by (apply vld_ext; auto).
  wsteps. wuse f_indirect_ok; [apply Hs1|by eapply file_at_same|]. intros ind s2 [-> Hs2]. rewrite He1.
  assert (same s s2) as Hs by by eapply same_then.
  wsteps. wuse diskaddr_ok; [apply Hs2| |].
  { rewrite (v_nblocks_ext (bview s2) (bview s)) by apply Hs. lia. }
  intros a s3 [-> Hs3]. wsteps. split; [done|]. by eapply same_then.
Qed.

Lemma file_get_block_ok s f n :
  bok s -> file_at (bview s) f -> present (bview s) f n ->
  wp (file_get_block f n) s (fun r s' => r = (0, Some (blkaddr (blk_of (bview s) f n))) /\ same s s').
Proof.
  intros Hok Hf (Hn & Hi & [Hb Hfr]). unfold file_get_block. wsteps.
  wuse file_block_walk_ok; [done..|]. intros r s1 [-> Hs1].
  assert (forall a, bview s1 a = bview s a) as Hv1 by apply Hs1.
  assert (usable bview bown s1 (slot (bview s) f n) 4) as Hu.
  { eapply usable_same; [done|]. by apply slot_usable. }
  assert (vld 4 (bview s1) (slot (bview s) f n) = blk_of (bview s) f n) as He1 by (apply vld_ext; auto).
  wsteps. wuse bload_ok; [apply Hs1|done|]. intros d s2 [-> Hs2]. rewrite He1.
  destruct (Z.eqb_spec (blk_of (bview s) f n) 0); [lia|]. wsteps. cbn [Z.ltb Z.compare].
  assert (same s s2) as Hs by by eapply same_then.
  wsteps. wuse bload_ok; [apply Hs2|by apply (usable_same s1)|]. intros d s3 [-> Hs3].
  assert (vld 4 (bview s2) (slot (bview s) f n) = blk_of (bview s) f n) as -> by (apply vld_ext; intros; apply Hs).
  assert (same s s3) as Hs' by by eapply same_then.
  wsteps. wuse diskaddr_ok; [apply Hs'|rewrite (v_nblocks_ext (bview s3) (bview s)) by apply Hs'; lia|].
  intros a s4 [-> Hs4]. wsteps. split; [done|by eapply same_then].
Qed.
(** ** file_read *)

(** The memory after reading [n] bytes of the file, from [pos], to [buf]. *)
Definition v_read (v : Z -> Z) (f buf pos n : Z) : Z -> Z := fun a =>
  if decide (buf <= a < buf + n) then v (file_addr v f (pos + (a - buf))) else v a.

Definition own_range (s : St) (a n : Z) : Prop := forall i, 0 <= i < n -> bown s (a + i).

Lemma own_apart s a n x : bok s -> own_range s a n -> a <= x < a + n -> ~ (DISKMAP <= x < DISKMAP + DISKSIZE).
Proof. intros Hok Ho Hx. apply (bown_apart s x Hok). replace x with (a + (x - a)) by lia. apply Ho. lia. Qed.

Lemma own_writable s a n v :
  bok s -> own_range s a n -> reserved v -> writable bview bown s a n v.
Proof.
  intros Hok Ho Hres. split_and!; [| |done].
  - intros i Hi. left. by apply Ho.
  - intros Hn. unfold no_overlap. assert (~ (a < DISKMAP + BLKSIZE + 8 /\ DISKMAP + BLKSIZE < a + n)) as H; [|lia].
    intros [Hlo Hhi]. apply (own_apart s a n (Z.max a (DISKMAP + BLKSIZE)) Hok Ho); [lia|jlia].
Qed.

Lemma own_range_step s s' v d a n : fstep s s' v d -> own_range s a n -> own_range s' a n.
Proof. intros (_ & _ & _ & H) Ho i Hi. apply H. by apply Ho. Qed.

Lemma nblocks_max s : bok s -> v_nblocks (bview s) <= 786432.
Proof. apply bok_nblocks. Qed.

Lemma file_read_loop_ok fuel f buf count offset pos s :
  bok s -> file_at (bview s) f -> 0 <= offset -> offset <= pos <= offset + count -> offset + count < 2 ^ 31 ->
  own_range s buf (offset + count - pos) ->
  (forall p, pos <= p < offset + count -> present (bview s) f (p / 4096)) ->
  (pos < offset + count -> (offset + count - 1) / 4096 - pos / 4096 < Z.of_nat fuel) ->
  wp (file_read_loop fuel f buf count offset pos) s (fun r s' => r = count /\
    fstep s s' (v_read (bview s) f buf pos (offset + count - pos)) (bdisk s)).
Proof.
  revert buf pos s. induction fuel as [|fuel IH]; intros buf pos s Hok Hf Hoff Hpos Hmax Hown Hpr Hfuel;
    cbn [file_read_loop]; rewrite !(wrap_small 64) by lia; destruct (Z.ltb_spec pos (offset + count)) as [Hlt|Hge].
  1:{ exfalso. specialize (Hfuel Hlt). Z.div_mod_to_equations. lia. }
  1,3:(wsteps; rewrite swrap_small by lia; split; [done|]; eapply fstep_ext; [by apply same_refl| |done];
    intros a; unfold v_read; by rewrite decide_False by lia).
  destruct (piece_spec pos (offset + count) ltac:(lia)) as (Hp1 & Hp2 & Hp3 & Hp4 & Hp5).
  cbv zeta. rewrite piece_code by lia. set (bn := piece pos (offset + count)) in *.
  change BLKSIZE with 4096. rewrite Z.quot_div_nonneg, Z.rem_mod_nonneg by lia.
  rewrite (wrap_small 32) by (Z.div_mod_to_equations; lia).
  pose proof (Hpr pos ltac:(lia)) as Hpres.
  wsteps. wuse file_get_block_ok; [done..|]. intros r s1 [-> Hs1].
  pose proof (nblocks_max s Hok) as Hnb. destruct (file_addr_block (bview s) f pos Hnb Hpres) as [Hblk _].
  assert (forall a, bview s1 a = bview s a) as Hv1 by apply Hs1.
  assert (own_range s buf bn) as Hob by (intros i Hi; apply Hown; lia).
  assert (forall x, agree (bview s) (vmove (bview s1) buf x bn)) as Hag.
  { intros x a Ha. unfold vmove. rewrite decide_False; [by rewrite Hv1|].
    intros Hin. by apply (own_apart s buf bn a Hok Hob). }
  wsteps. rewrite wrap_small by lia.
  wuse bmemmove_ok; [apply Hs1|lia|..].
  - eapply usable_same; [exact Hs1|]. destruct Hpres as (_ & _ & Hu). pose proof (Z.mod_pos_bound pos 4096 ltac:(lia)). eapply in_use_usable; [exact Hu|lia|lia].
  - apply own_writable; [apply Hs1|by eapply own_range_step|].
    eapply meta_reserved; [eapply agree_meta; [apply Hag|done|exact Hf]|by apply bok_reserved].
  - intros _ s2 Hs2. rewrite swrap_small by lia.
    assert (agree (bview s) (bview s2)) as Hag2.
    { intros a Ha. destruct Hs2 as (_ & -> & _). by apply Hag. }
    pose proof (agree_meta _ _ f Hag2 Hnb Hf) as Hm2.
    wuse (IH (buf + bn) (pos + bn) s2).
    + apply Hs2.
    + by eapply meta_file_at.
    + done.
    + lia.
    + done.
    + intros i Hi. destruct Hs2 as (_ & _ & _ & ->). destruct Hs1 as (_ & _ & _ & ->).
      rewrite <- Z.add_assoc. apply Hown. lia.
    + intros p Hp. eapply meta_present; [done|]. apply Hpr. lia.
    + destruct Hp4 as [He|He]; lia.
    + intros r s3 [-> Hs3]. split; [done|]. eapply fstep_ext.
      * eapply same_trans; [exact Hs1|]. eapply fstep_trans; [exact Hs2|exact Hs3].
      * intros a. unfold v_read.
        destruct (decide (buf + bn <= a < buf + bn + (offset + count - (pos + bn)))) as [Ha|Ha].
        -- rewrite (decide_True _ _ (P := buf <= a < _)) by lia.
           replace (pos + bn + (a - (buf + bn))) with (pos + (a - buf)) by lia.
           assert (present (bview s) f ((pos + (a - buf)) / 4096)) as Hpa by (apply Hpr; lia).
           rewrite <- (meta_file_addr _ _ f Hm2) by done.
           symmetry. apply Hag2. by apply file_addr_block.
        -- destruct Hs2 as (_ & -> & _). unfold vmove. destruct (decide (buf <= a < buf + bn)) as [Hb|Hb].
           ++ rewrite (decide_True _ _ (P := buf <= a < _)) by lia. rewrite Hv1. f_equal. unfold file_addr.
              destruct (Hp5 (pos + (a - buf)) ltac:(lia)) as [-> ->]. lia.
           ++ rewrite (decide_False _ _ (P := buf <= a < _)) by lia. apply Hv1.
      * intros a. destruct Hs2 as (_ & _ & -> & _). apply Hs1.
Qed.

Lemma file_read_ok s f buf count offset :
  let n := Z.min count (f_size_of (bview s) f - offset) in
  bok s -> file_at (bview s) f -> 0 <= offset < f_size_of (bview s) f -> 0 <= count < 2 ^ 64 ->
  own_range s buf n -> (forall p, offset <= p < offset + n -> present (bview s) f (p / 4096)) ->
  wp (file_read f buf count offset) s (fun r s' =>
    r = n /\ fstep s s' (v_read (bview s) f buf offset n) (bdisk s)).
Proof.
  intros n Hok Hf Hoff Hc Hown Hpr. unfold file_read.
  assert (f_size_of (bview s) f < 2 ^ 31) as Hsz by apply (swrap_range 32), eq_refl.
  wsteps. wuse f_size_ok; [done..|]. intros sz s1 [-> Hs1]. rewrite Z.geb_leb.
  destruct (Z.leb_spec (f_size_of (bview s) f) offset); [lia|].
  assert (forall a, bview s1 a = bview s a) as Hv1 by apply Hs1.
  wsteps. wuse f_size_ok; [apply Hs1|by eapply file_at_same|]. intros sz s2 [-> Hs2].
  assert (same s s2) as Hs by by eapply same_then. assert (forall a, bview s2 a = bview s a) as Hv2 by apply Hs.
  assert (f_size_of (bview s1) f = f_size_of (bview s) f) as -> by (unfold f_size_of; f_equal; apply vld_ext; auto).
  rewrite swrap_small, wrap_small by lia.
  assert (umin count (f_size_of (bview s) f - offset) = n) as ->.
  { subst n. unfold umin. destruct (Z.leb_spec count (f_size_of (bview s) f - offset)); lia. }
  assert (forall p, present (bview s) f p -> present (bview s2) f p) as Hpr2.
  { intros p. eapply meta_present. apply agree_meta; [|by apply nblocks_max|done]. intros a _. by rewrite Hv2. }
  wuse file_read_loop_ok; [apply Hs|by eapply file_at_same|lia|lia|lia|..].
  - replace (offset + n - offset) with n by lia. by eapply own_range_step.
  - intros p Hp. apply Hpr2. by apply Hpr.
  - intros Hn. change BLKSIZE with 4096.
    rewrite Nat2Z.inj_add, Z2Nat.id by (Z.div_mod_to_equations; lia). Z.div_mod_to_equations. lia.
  - intros r s3 [-> Hs3]. split; [done|]. replace (offset + n - offset) with n in Hs3 by lia.
    eapply fstep_ext; [eapply same_trans; [exact Hs|exact Hs3]| |apply Hs].
    intros a. unfold v_read. case_decide as Ha; [|apply Hv2]. rewrite Hv2. f_equal.
    symmetry. apply meta_file_addr; [|apply Hpr; lia].
    apply agree_meta; [|by apply nblocks_max|done]. intros b _. by rewrite Hv2.
Qed.

(** ** file_write, inside the file *)

(** Block [n] of the file holds data only: it is not the super block or part of the
    bitmap, not the block of the [struct File], and not the indirect block. *)
Definition plain (v : Z -> Z) (f n : Z) : Prop :=
  let b := blk_of v f n in
  2 + (v_nblocks v - 1) / 32768 < b /\ (f + 256 <= blkaddr b \/ blkaddr b + 4096 <= f) /\
  (in_use v (f_indirect_of v f) -> b <> f_indirect_of v f).

(** The bytes on which [meta_agree] rests. *)
Definition meta_addr (v : Z -> Z) (f a : Z) : Prop :=
  DISKMAP + BLKSIZE + 4 <= a < DISKMAP + BLKSIZE + 8 \/
  (exists c, 0 <= c < v_nblocks v /\ bit_word c <= a < bit_word c + 4) \/
  f <= a < f + 256 \/
  (in_use v (f_indirect_of v f) /\ blkaddr (f_indirect_of v f) <= a < blkaddr (f_indirect_of v f) + 4096).

Lemma meta_agree_of v v' f : (forall a, meta_addr v f a -> v' a = v a) -> meta_agree v v' f.
Proof.
  intros H. split_and!.
  - symmetry. apply vld_ext. intros a Ha. apply H. left. lia.
  - intros c Hc. unfold v_free. fold (bit_word c). f_equal. symmetry. apply vld_ext. intros a Ha.
    apply H. right. left. exists c. lia.
  - intros a Ha. symmetry. apply H. right. right. by left.
  - intros Hu a Ha. symmetry. apply H. by do 3 right.
Qed.

Lemma plain_not_meta v f n a :
  plain v f n -> in_use v (blk_of v f n) -> meta_addr v f a ->
  ~ (blkaddr (blk_of v f n) <= a < blkaddr (blk_of v f n) + 4096).
Proof.
  intros (Hbm & Hf & Hi) [Hb _] Hm. unfold blkaddr in *.
  assert (0 <= (v_nblocks v - 1) / 32768) as Hnn by (Z.div_mod_to_equations; lia).
  destruct Hm as [Hm|[(c & Hc & Hm)|[Hm|[Hu Hm]]]].
  - change BLKSIZE with 4096 in *. lia.
  - assert (c / 32768 <= (v_nblocks v - 1) / 32768) by (apply Z.div_le_mono; lia).
    unfold bit_word in Hm. change BLKSIZE with 4096 in *. unfold DISKMAP in *. clear Hi Hf.
    Z.div_mod_to_equations. lia.
  - lia.
  - specialize (Hi Hu). unfold blkaddr, DISKMAP in *. lia.
Qed.

(** Writing to a data block changes nothing the file system says about the file. *)
Lemma plain_meta v v' f n :
  plain v f n -> in_use v (blk_of v f n) ->
  (forall a, ~ (blkaddr (blk_of v f n) <= a < blkaddr (blk_of v f n) + 4096) -> v' a = v a) -> meta_agree v v' f.
Proof. intros Hp Hu Hch. apply meta_agree_of. intros a Ha. apply Hch. by eapply plain_not_meta. Qed.

(** The bytes [pos, e) of the file can be written: the blocks exist, hold data only,
    and are different blocks of the disk. *)
Definition data_range (v : Z -> Z) (f pos e : Z) : Prop :=
  (forall p, pos <= p < e -> present v f (p / 4096) /\ plain v f (p / 4096)) /\
  (forall p q, pos <= p < e -> pos <= q < e -> blk_of v f (p / 4096) = blk_of v f (q / 4096) -> p / 4096 = q / 4096).

Lemma plain_agree v v' f n : meta_agree v v' f -> present v f n -> plain v f n -> plain v' f n.
Proof.
  intros Hm (Hn & Hi & _) (H1 & H2 & H3). destruct (id Hm) as (Hnb & _). unfold plain.
  rewrite <- (meta_blk v v' f Hm n Hn Hi), <- (meta_indirect v v' f Hm), <- Hnb.
  split_and!; [done|done|]. intros Hu. apply H3. destruct Hm as (_ & Hf & _). destruct Hu as [Hr Hu].
  rewrite <- Hnb in Hr. split; [done|]. rewrite Hf; [done|lia].
Qed.

Lemma data_range_agree v v' f pos pos' e :
  meta_agree v v' f -> pos <= pos' -> data_range v f pos e -> data_range v' f pos' e.
Proof.
  intros Hm Hle [H1 H2]. assert (forall p, pos' <= p < e -> blk_of v f (p / 4096) = blk_of v' f (p / 4096)) as Hb.
  { intros p Hp. destruct (H1 p ltac:(lia)) as [(Hn & Hi & _) _]. by apply meta_blk. }
  split.
  - intros p Hp. destruct (H1 p ltac:(lia)) as [Hpr Hpl]. split; [by eapply meta_present|by eapply plain_agree].
  - intros p q Hp Hq. rewrite <- !Hb by done. apply H2; lia.
Qed.

Lemma file_addr_inj v f pos e p q :
  data_range v f pos e -> pos <= p < e -> pos <= q < e -> file_addr v f p = file_addr v f q -> p = q.
Proof.
  intros [_ Hinj] Hp Hq He. unfold file_addr, blkaddr in He.
  pose proof (Z.mod_pos_bound p 4096 ltac:(lia)). pose proof (Z.mod_pos_bound q 4096 ltac:(lia)).
  assert (blk_of v f (p / 4096) = blk_of v f (q / 4096)) as Hb by lia.
  specialize (Hinj p q Hp Hq Hb). rewrite Hb in He.
  rewrite (Z.div_mod p 4096), (Z.div_mod q 4096) by lia. lia.
Qed.

(** From [s] to [s'] the bytes [pos, e) of the file are those at [buf], and nothing
    else has changed. *)
Definition written (v v' : Z -> Z) (f buf pos e : Z) : Prop :=
  (forall p, pos <= p < e -> v' (file_addr v f p) = v (buf + (p - pos))) /\
  (forall a, (forall p, pos <= p < e -> a <> file_addr v f p) -> v' a = v a).

Lemma file_write_loop_ok fuel f buf count offset pos s :
  bok s -> file_at (bview s) f -> 0 <= offset -> offset <= pos <= offset + count -> offset + count < 2 ^ 31 ->
  own_range s buf (offset + count - pos) -> data_range (bview s) f pos (offset + count) ->
  (pos < offset + count -> (offset + count - 1) / 4096 - pos / 4096 < Z.of_nat fuel) ->
  wp (file_write_loop fuel f buf count offset pos) s (fun r s' => r = count /\ exists v',
    fstep s s' v' (bdisk s) /\ written (bview s) v' f buf pos (offset + count)).
Proof.
  revert buf pos s. induction fuel as [|fuel IH]; intros buf pos s Hok Hf Hoff Hpos Hmax Hown Hdr Hfuel;
    cbn [file_write_loop]; rewrite !(wrap_small 64) by lia; destruct (Z.ltb_spec pos (offset + count)) as [Hlt|Hge].
  1:{ exfalso. specialize (Hfuel Hlt). Z.div_mod_to_equations. lia. }
  1,3:(wsteps; rewrite swrap_small by lia; split; [done|]; exists (bview s); split; [by apply same_refl|];
    split; [lia|done]).
  destruct (piece_spec pos (offset + count) ltac:(lia)) as (Hp1 & Hp2 & Hp3 & Hp4 & Hp5).
  cbv zeta. rewrite piece_code by lia. set (bn := piece pos (offset + count)) in *.
  change BLKSIZE with 4096. rewrite Z.quot_div_nonneg, Z.rem_mod_nonneg by lia.
  rewrite (wrap_small 32) by (Z.div_mod_to_equations; lia).
  destruct (proj1 Hdr pos ltac:(lia)) as [Hpres Hplain]. pose proof (nblocks_max s Hok) as Hnb.
  wsteps. wuse file_get_block_ok; [done..|]. intros r s1 [-> Hs1].
  assert (forall a, bview s1 a = bview s a) as Hv1 by apply Hs1.
  set (b := blk_of (bview s) f (pos / 4096)) in *.
  set (dst := blkaddr b + pos mod 4096). set (v2 := vmove (bview s1) dst buf bn).
  pose proof (Z.mod_pos_bound pos 4096 ltac:(lia)) as Hmod.
  assert (forall a, ~ (dst <= a < dst + bn) -> v2 a = bview s a) as Hout.
  { intros a Ha. subst v2. unfold vmove. by rewrite decide_False by done. }
  assert (meta_agree (bview s) v2 f) as Hm2.
  { apply (plain_meta _ _ _ (pos / 4096)); [done|apply Hpres|]. fold b. intros a Ha. apply Hout. lia. }
  wsteps. rewrite wrap_small by lia. fold dst.
  wuse bmemmove_ok; [apply Hs1|lia|..].
  - intros i Hi. left. apply Hs1. apply Hown. lia.
  - split_and!.
    + eapply usable_same; [exact Hs1|]. eapply in_use_usable; [apply Hpres|fold b; lia|fold b; lia].
    + intros _. right. unfold dst, blkaddr. destruct Hplain as (Hbm & _). fold b in Hbm.
      destruct Hpres as (_ & _ & [Hb _]). fold b in Hb.
      assert (0 <= (v_nblocks (bview s) - 1) / 32768) by (Z.div_mod_to_equations; lia). jlia.
    + eapply meta_reserved; [exact Hm2|]. by apply bok_reserved.
  - intros _ s2 Hs2. fold v2 in Hs2. rewrite swrap_small by lia.
    assert (forall a, bview s2 a = v2 a) as Hv2 by apply Hs2.
    assert (meta_agree (bview s) (bview s2) f) as Hm.
    { apply (plain_meta _ _ _ (pos / 4096)); [done|apply Hpres|]. fold b. intros a Ha. rewrite Hv2. apply Hout. lia. }
    assert (forall p, pos <= p < offset + count -> file_addr (bview s) f p = file_addr (bview s2) f p) as Hfa.
    { intros p Hp. apply meta_file_addr; [done|]. by apply Hdr. }
    wuse (IH (buf + bn) (pos + bn) s2).
    + apply Hs2.
    + by eapply meta_file_at.
    + done.
    + lia.
    + done.
    + intros i Hi. destruct Hs2 as (_ & _ & _ & ->). destruct Hs1 as (_ & _ & _ & ->).
      rewrite <- Z.add_assoc. apply Hown. lia.
    + eapply data_range_agree; [exact Hm| |exact Hdr]. lia.
    + destruct Hp4 as [He|He]; lia.
    + intros r s3 (-> & v3 & Hs3 & Hin & Hno). split; [done|]. exists v3. split.
      { eapply fstep_ext; [eapply same_trans; [exact Hs1|]; eapply fstep_trans; [exact Hs2|exact Hs3]|done|].
        intros a. destruct Hs2 as (_ & _ & -> & _). apply Hs1. }
      assert (forall p, pos <= p < pos + bn -> file_addr (bview s) f p = dst + (p - pos)) as Hhead.
      { intros p Hp. unfold file_addr. destruct (Hp5 p Hp) as [-> ->]. fold b. unfold dst. lia. }
      split.
      * intros p Hp. destruct (Z.lt_ge_cases p (pos + bn)) as [Hh|Hh].
        -- rewrite Hno, Hv2, Hhead by first [lia | intros q Hq; rewrite <- Hfa by lia; intros He;
             apply (file_addr_inj _ _ _ _ p q Hdr) in He; lia].
           subst v2. unfold vmove. rewrite decide_True, Hv1 by lia. f_equal. lia.
        -- rewrite Hfa, Hin by lia. rewrite Hv2, Hout; [f_equal; lia|].
           intros Hx. apply (own_apart s buf (offset + count - pos) (buf + bn + (p - (pos + bn))) Hok Hown); [lia|].
           destruct Hpres as (_ & _ & [Hb _]). fold b in Hb. unfold dst, blkaddr, DISKMAP, DISKSIZE in *. lia.
      * intros a Ha. rewrite Hno by (intros q Hq; rewrite <- Hfa by lia; apply Ha; lia).
        rewrite Hv2, Hout; [done|]. intros Hx. apply (Ha (pos + (a - dst))); [lia|]. rewrite Hhead; lia.
Qed.

Lemma written_meta v v' f buf pos e :
  v_nblocks v <= 786432 -> data_range v f pos e -> written v v' f buf pos e -> meta_agree v v' f.
Proof.
  intros Hmax [Hdr _] [_ Hno]. apply meta_agree_of. intros a Ha. apply Hno. intros p Hp ->.
  destruct (Hdr p Hp) as [Hpr Hpl]. apply (plain_not_meta v f (p / 4096) (file_addr v f p)); [done|apply Hpr|done|].
  by apply file_addr_block.
Qed.

Lemma file_write_ok s f buf count offset :
  bok s -> file_at (bview s) f -> 0 <= offset -> 0 <= count -> offset + count <= f_size_of (bview s) f ->
  own_range s buf count -> data_range (bview s) f offset (offset + count) ->
  wp (file_write f buf count offset) s (fun r s' => r = count /\ exists v',
    fstep s s' v' (bdisk s) /\ written (bview s) v' f buf offset (offset + count)).
Proof.
  intros Hok Hf Hoff Hc Hle Hown Hdr. unfold file_write.
  assert (f_size_of (bview s) f < 2 ^ 31) as Hsz by apply (swrap_range 32), eq_refl.
  wsteps. wuse f_size_ok; [done..|]. intros sz s1 [-> Hs1]. rewrite !(wrap_small 64) by lia.
  rewrite Z.gtb_ltb. destruct (Z.ltb_spec (f_size_of (bview s) f) (offset + count)); [lia|]. wsteps.
  cbn [Z.ltb Z.compare]. assert (forall a, bview s1 a = bview s a) as Hv1 by apply Hs1.
  assert (meta_agree (bview s) (bview s1) f) as Hm by (apply meta_agree_of; auto).
  wuse file_write_loop_ok; [apply Hs1|by eapply file_at_same|lia|lia|lia|..].
  - replace (offset + count - offset) with count by lia. by eapply own_range_step.
  - eapply data_range_agree; [exact Hm| |exact Hdr]. lia.
  - intros Hn. change BLKSIZE with 4096.
    rewrite Nat2Z.inj_add, Z2Nat.id by (Z.div_mod_to_equations; lia). Z.div_mod_to_equations. lia.
  - intros r s2 (-> & v' & Hs2 & Hin & Hno). split; [done|]. exists v'. split.
    + eapply fstep_ext; [eapply same_trans; [exact Hs1|exact Hs2]|done|apply Hs1].
    + assert (forall p, offset <= p < offset + count -> file_addr (bview s) f p = file_addr (bview s1) f p) as Hfa.
      { intros p Hp. apply meta_file_addr; [done|]. by apply Hdr. }
      split.
      * intros p Hp. rewrite Hfa, Hin, Hv1 by done. done.
      * intros a Ha. rewrite Hno, Hv1; [done|]. intros p Hp. rewrite <- Hfa by done. by apply Ha.
Qed.

Lemma file_write_then_read s f buf buf' count offset :
  bok s -> file_at (bview s) f -> 0 <= offset -> 0 < count -> offset + count <= f_size_of (bview s) f ->
  own_range s buf count -> own_range s buf' count -> data_range (bview s) f offset (offset + count) ->
  wp (r ← file_write f buf count offset; r' ← file_read f buf' count offset; mret (r, r')) s (fun rs s' =>
    rs = (count, count) /\ forall i, 0 <= i < count -> bview s' (buf' + i) = bview s (buf + i)).
Proof.
  intros Hok Hf Hoff Hc Hle Hown Hown' Hdr. wsteps. wuse file_write_ok; [done..|lia|done|done|done|].
  intros r s1 (-> & v' & Hs1 & Hw). assert (forall a, bview s1 a = v' a) as Hv1 by apply Hs1.
  assert (meta_agree (bview s) (bview s1) f) as Hm.
  { eapply written_meta; [by apply nblocks_max|done|]. destruct Hw as [Hin Hno].
    split; [intros p Hp; rewrite Hv1; by apply Hin|intros a Ha; rewrite Hv1; by apply Hno]. }
  assert (f_size_of (bview s) f < 2 ^ 31) as Hsz by apply (swrap_range 32), eq_refl.
  wsteps. wuse file_read_ok.
  - apply Hs1.
  - by eapply meta_file_at.
  - rewrite <- (meta_size _ _ _ Hm). lia.
  - lia.
  - rewrite <- (meta_size _ _ _ Hm). rewrite Z.min_l by lia. by eapply own_range_step.
  - intros p Hp. eapply meta_present; [exact Hm|]. apply Hdr. lia.
  - intros r s2 [-> Hs2]. rewrite <- (meta_size _ _ _ Hm) in *. rewrite Z.min_l in * by lia.
    wsteps. split; [done|]. intros i Hi. destruct Hs2 as (_ & -> & _). unfold v_read.
    rewrite decide_True by lia. replace (offset + (buf' + i - buf')) with (offset + i) by lia.
    rewrite <- (meta_file_addr _ _ _ Hm) by (apply Hdr; lia). rewrite Hv1.
    rewrite (proj1 Hw) by lia. f_equal. lia.
Qed.

(** ** A block that does not exist yet *)

(** The [struct File] does not overlap the bitmap or the head of the super block. *)
Definition file_apart (v : Z -> Z) (f : Z) : Prop :=
  exists b, in_use v b /\ blkaddr b <= f /\ f + 256 <= blkaddr b + 4096 /\
    (2 + (v_nblocks v - 1) / 32768 < b \/ (b = 1 /\ blkaddr 1 + 8 <= f)).

Lemma file_apart_at v f : file_apart v f -> file_at v f.
Proof. intros (b & ? & ? & ? & _). by exists b. Qed.

(** Writing into the structure of a file leaves the bitmap alone. *)
Lemma file_apart_bitmap v f c a :
  file_apart v f -> 0 <= c < v_nblocks v -> bit_word c <= a < bit_word c + 4 -> ~ (f <= a < f + 256).
Proof.
  intros (b & [Hb _] & Hlo & Hhi & Hor) Hc Ha Hin.
  assert (c / 32768 <= (v_nblocks v - 1) / 32768) by (apply Z.div_le_mono; lia).
  destruct (bit_word_range c ltac:(lia)) as (Hw & Hw' & _). unfold blkaddr in *.
  assert (0 <= c / 32768) by (Z.div_mod_to_equations; lia). unfold DISKMAP in *. lia.
Qed.

Lemma v_flip_apart v f r off n :
  file_apart v f -> 0 <= r < v_nblocks v -> 0 <= off -> off + Z.of_nat n <= 256 ->
  vld n (v_flip v r) (f + off) = vld n v (f + off).
Proof.
  intros Hf Hr Hoff Hn. apply vld_ext. intros a Ha. unfold v_flip, v_word, vst. rewrite decide_False; [done|].
  intros Hin. by apply (file_apart_bitmap v f r a Hf Hr Hin); lia.
Qed.

(** Storing a block number into a direct slot leaves the bitmap alone. *)
Lemma slot_store_bitmap v f n x :
  file_apart v f -> 0 <= n < 10 ->
  v_nblocks (vst 4 v (f_direct f n) x) = v_nblocks v /\
  (forall c, 0 <= c < v_nblocks v -> v_free (vst 4 v (f_direct f n) x) c = v_free v c).
Proof.
  intros Hf Hn. split.
  - apply vld_vst_ne. right. destruct Hf as (b & [Hb _] & Hlo & Hhi & Hor). unfold f_direct, blkaddr in *.
    assert (0 <= (v_nblocks v - 1) / 32768) by (Z.div_mod_to_equations; lia). jlia.
  - intros c Hc. unfold v_free. fold (bit_word c). f_equal. apply vld_ext. intros a Ha. unfold vst.
    rewrite decide_False; [done|]. intros Hin. apply (file_apart_bitmap _ f c a Hf Hc Ha). unfold f_direct in Hin. lia.
Qed.

Lemma file_apart_keep v v' f :
  v_nblocks v' = v_nblocks v -> (forall b, in_use v b -> in_use v' b) -> file_apart v f -> file_apart v' f.
Proof. intros Hn Hu (b & Hb & Hr). exists b. rewrite Hn. split; [by apply Hu|done]. Qed.

Lemma store_slot_ok s f n x :
  bok s -> file_apart (bview s) f -> 0 <= n < 10 ->
  wp (bstore 4 (f_direct f n) x) s (fun _ s' => fstep s s' (vst 4 (bview s) (f_direct f n) x) (bdisk s)).
Proof.
  intros Hok Hf Hn. destruct (slot_store_bitmap (bview s) f n x Hf Hn) as [Hnb Hvf]. apply bstore_ok; [done|..].
  - destruct Hf as (b & Hb & Hlo & Hhi & _). unfold f_direct, blkaddr, DISKMAP in *. change PGSIZE with 4096.
    change (Z.of_nat 4) with 4. Z.div_mod_to_equations. lia.
  - split_and!.
    + unfold f_direct. rewrite <- Z.add_assoc. apply file_usable; [by apply file_apart_at|lia|lia].
    + intros _. destruct Hf as (b & [Hb _] & Hlo & Hhi & Hor). right. unfold f_direct, blkaddr in *.
      assert (0 <= (v_nblocks (bview s) - 1) / 32768) by (Z.div_mod_to_equations; lia). jlia.
    + destruct (bok_reserved s Hok) as (H0 & H1 & H). unfold reserved. rewrite Hnb.
      split_and!; [done|rewrite Hvf; [done|]; destruct (H 0 ltac:(lia) ltac:(lia)); lia|].
      intros i Hi Hlt. destruct (H i Hi Hlt). split; [done|]. rewrite Hvf; [done|lia].
Qed.

Lemma file_get_block_hole s f n :
  bok s -> file_apart (bview s) f -> 0 <= n < NDIRECT -> blk_of (bview s) f n = 0 ->
  (exists c, 0 < c < v_nblocks (bview s) /\ v_free (bview s) c = true) ->
  wp (file_get_block f n) s (fun res s' => exists r,
    res = (0, Some (blkaddr r)) /\ 0 < r < v_nblocks (bview s) /\ v_free (bview s) r = true /\
    (forall c, 0 < c < r -> v_free (bview s) c = false) /\
    bok s' /\ forall a, bview s' a = vst 4 (v_flip (bview s) r) (f_direct f n) r a).
Proof.
  intros Hok Hfa Hn Hz (c & Hc & Hcf). pose proof (file_apart_at _ _ Hfa) as Hf.
  assert (slot (bview s) f n = f_direct f n) as Hsl.
  { unfold slot. destruct (Z.ltb_spec n NDIRECT); [done|lia]. }
  unfold blk_of in Hz. rewrite Hsl in Hz. change (NDIRECT) with 10 in Hn.
  unfold file_get_block. wsteps. wuse file_block_walk_ok; [done|done|change (NDIRECT + NINDIRECT) with 1034; lia|
    change NDIRECT with 10; lia|]. rewrite Hsl. intros w s1 [-> Hs1].
  assert (forall s', file_at (bview s') f -> usable bview bown s' (f_direct f n) 4) as Hus.
  { intros s' H. unfold f_direct. rewrite <- Z.add_assoc. apply file_usable; [done|lia|lia]. }
  wsteps. wuse bload_ok; [apply Hs1|by apply Hus; eapply file_at_same|]. intros d s2 [-> Hs2].
  assert (same s s2) as Hs by by eapply same_then. assert (forall a, bview s2 a = bview s a) as Hv2 by apply Hs.
  assert (vld 4 (bview s1) (f_direct f n) = 0) as -> by (rewrite <- Hz; apply vld_ext; intros; apply Hs1).
  cbn [Z.eqb]. wsteps. wuse alloc_block_ok; [apply Hs|]. intros r s3 Hal.
  apply (alloc_post_same s s2 1 1 r s3 Hs ltac:(lia)) in Hal.
  destruct Hal as [(Hr & Hrf & Hmin & Hs3)|(_ & Hno & _)]; [|by rewrite Hno in Hcf by lia].
  pose proof (nblocks_max s Hok) as Hmax. destruct (Z.ltb_spec r 0); [lia|].
  assert (forall a, bview s3 a = v_flip (bview s) r a) as Hv3 by apply Hs3.
  assert (file_apart (bview s3) f) as Hfa3.
  { apply (file_apart_keep (bview s)); [rewrite (v_nblocks_ext _ _ Hv3); apply v_flip_nblocks; lia| |done].
    intros b [Hb Hbf]. split; [rewrite (v_nblocks_ext _ _ Hv3), v_flip_nblocks by lia; done|].
    rewrite (v_free_ext _ _ _ Hv3), v_flip_free, Hbf, bool_decide_eq_false_2 by (lia || congruence). done. }
  wsteps. wuse store_slot_ok; [apply Hs3|done|done|]. intros _ s4 Hs4. wsteps. cbn [Z.ltb Z.compare].
  destruct (slot_store_bitmap (bview s3) f n r Hfa3 Hn) as [Hnb Hvf].
  assert (forall a, bview s4 a = vst 4 (bview s3) (f_direct f n) r a) as Hv4 by apply Hs4.
  assert (v_nblocks (bview s4) = v_nblocks (bview s)) as Hnb4.
  { rewrite (v_nblocks_ext _ _ Hv4), Hnb, (v_nblocks_ext _ _ Hv3). apply v_flip_nblocks. lia. }
  assert (file_at (bview s4) f) as Hf4.
  { apply file_apart_at, (file_apart_keep (bview s3)); [by rewrite (v_nblocks_ext _ _ Hv4), Hnb| |done].
    intros b [Hb Hbf]. split; [by rewrite (v_nblocks_ext _ _ Hv4), Hnb|].
    rewrite (v_free_ext _ _ _ Hv4), Hvf by lia. done. }
  wsteps. wuse bload_ok; [apply Hs4|by apply Hus|]. intros d s5 [-> Hs5].
  rewrite (vld_ext 4 _ _ _ (fun a _ => Hv4 a)), vld_vst_eq, Z.mod_small by (change (256 ^ Z.of_nat 4) with (2 ^ 32); lia).
  assert (forall a, bview s5 a = bview s4 a) as Hv5 by apply Hs5.
  wsteps. wuse diskaddr_ok; [apply Hs5|rewrite (v_nblocks_ext _ _ Hv5), Hnb4; lia|]. intros a s6 [-> Hs6]. wsteps.
  exists r. split_and!; [done|lia|lia|done|intros; apply Hmin; lia|apply Hs6|].
  intros a. destruct Hs6 as (_ & -> & _). rewrite Hv5, Hv4. unfold vst. case_decide; [done|apply Hv3].
Qed.
End files.
