(* ===== verification/DirSpec.v ===== *)
(** * Directories and paths, over any block cache

    dir_lookup goes through the entries of a directory, in the order of its blocks, and
    finds the first one that has the name; file_open of a name in the root directory
    gives that entry. *)
From S2P Require Import Prelude Mmu CMem BlockCache Fs FsSpec FileSpec.

(** The string [l] is at [p]. *)
Definition cstr (v : Z -> Z) (p : Z) (l : list Z) : Prop :=
  forall i c, (l ++ [0]) !! i = Some c -> v (p + Z.of_nat i) = c.

Lemma cstr_nil v p : cstr v p [] <-> v p = 0.
Proof.
  split.
  - intros Hc. replace p with (p + Z.of_nat 0) by lia. by apply Hc.
  - intros Hp [|i] c; [|done]. intros [= <-]. by rewrite Z.add_0_r.
Qed.

Lemma cstr_cons v p d l : cstr v p (d :: l) <-> v p = d /\ cstr v (p + 1) l.
Proof.
  split.
  - intros Hc. split; [rewrite <- (Z.add_0_r p); by apply (Hc 0%nat)|]. intros i c Hi.
    replace (p + 1 + Z.of_nat i) with (p + Z.of_nat (S i)) by lia. by apply Hc.
  - intros [<- Hc] [|i] c; [intros [= <-]; by rewrite Z.add_0_r|]. intros Hi.
    replace (p + Z.of_nat (S i)) with (p + 1 + Z.of_nat i) by lia. by apply Hc.
Qed.

Lemma cstr_shift v v' p p' l :
  (forall i, 0 <= i <= Z.of_nat (length l) -> v' (p' + i) = v (p + i)) -> cstr v p l -> cstr v' p' l.
Proof.
  intros Hv Hc i c Hi. rewrite Hv; [by apply Hc|]. apply lookup_lt_Some in Hi. rewrite length_app in Hi. simpl in Hi. lia.
Qed.

Lemma cstr_ext v v' p l : (forall a, v a = v' a) -> cstr v p l <-> cstr v' p l.
Proof. intros Hv. split; apply cstr_shift; intros; by rewrite Hv. Qed.

#[export] Instance cstr_dec v p l : Decision (cstr v p l).
Proof.
  revert p. induction l as [|d l IH]; intros p.
  - destruct (decide (v p = 0)); [left|right]; by rewrite cstr_nil.
  - destruct (decide (v p = d)), (IH (p + 1)); [left|right..]; rewrite cstr_cons; tauto.
Defined.

(** A name: characters, none of them zero. *)
Definition chars (l : list Z) : Prop := Forall (fun c => 0 < c < 256) l.

(** A string is read in one way only. *)
Lemma cstr_inj v p l l' : chars l -> chars l' -> cstr v p l -> cstr v p l' -> l = l'.
Proof.
  intros Hl. revert p l'. induction Hl as [|d l Hd _ IH]; intros p l' Hl' Hc Hc'.
  - destruct Hl' as [|d' l' Hd' _]; [done|]. rewrite cstr_nil in Hc. rewrite cstr_cons in Hc'. lia.
  - rewrite cstr_cons in Hc. destruct Hl' as [|d' l' Hd' Hl'].
    + rewrite cstr_nil in Hc'. lia.
    + rewrite cstr_cons in Hc'. f_equal; [lia|]. apply (IH (p + 1)); [done|apply Hc|apply Hc'].
Qed.

(** Entry [k] of a directory. *)
Definition dir_entry (v : Z -> Z) (dir k : Z) : Z := blkaddr (blk_of v dir (k / 16)) + 256 * (k mod 16).
Definition dir_entries (v : Z -> Z) (dir : Z) : Z := f_size_of v dir / 256.

(** The blocks of the directory are there. *)
Definition dir_at (v : Z -> Z) (dir : Z) : Prop :=
  file_at v dir /\ 0 <= f_size_of v dir /\ f_size_of v dir mod 4096 = 0 /\
  forall n, 0 <= n < f_size_of v dir / 4096 -> present v dir n.

(** [k] is the first entry from [lo] on with the name. *)
Definition first_named (v : Z -> Z) (dir : Z) (name : list Z) (lo k : Z) : Prop :=
  lo <= k /\ cstr v (dir_entry v dir k) name /\ forall j, lo <= j < k -> ~ cstr v (dir_entry v dir j) name.

Section dirs.
Context {St : Type} {Ops : BlockCacheOps St} {BC : BlockCache St}.
Implicit Types s : St.

Lemma strcmp_at_ok s p q :
  bok s -> chars q -> usable bview bown s p (Z.of_nat (length q) + 1) ->
  wp (strcmp_at p q) s (fun r s' => (r = 0 <-> cstr (bview s) p q) /\ same s s').
Proof.
  intros Hok Hq. revert p s Hok. induction Hq as [|d q Hd _ IH]; intros p s Hok Hu; cbn [strcmp_at];
    (assert (usable bview bown s p 1) as Hu1 by (intros i Hi; apply Hu; simpl; lia));
    wsteps; (wuse bload_ok; [done|exact Hu1|]); intros c s1 [-> Hs1];
    (assert (vld 1 (bview s) p = bview s p) as -> by (cbn [vld]; lia)).
  - wsteps. by rewrite cstr_nil.
  - pose proof (cstr_cons (bview s) p d q) as Hcc. destruct (Z.eqb_spec (bview s p) 0) as [E0|E0]; cbn [orb].
    { wsteps. split; [|done]. rewrite Hcc. lia. }
    destruct (Z.eqb_spec (bview s p) d) as [Ed|Ed]; cbn [negb].
    2:{ wsteps. split; [|done]. rewrite Hcc. lia. }
    wuse (IH (p + 1) s1); [apply Hs1| |].
    { eapply usable_same; [exact Hs1|]. intros i Hi. rewrite <- Z.add_assoc. apply Hu. simpl. lia. }
    intros r s2 [Hr Hs2]. split; [|by eapply same_then].
    rewrite Hr, (cstr_ext _ (bview s)) by apply Hs1. rewrite Hcc. tauto.
Qed.

Lemma find_name_ok s n f name :
  bok s -> chars name -> Z.of_nat (length name) < 256 -> usable bview bown s f (256 * Z.of_nat n) ->
  wp (find_name n f name) s (fun r s' => same s s' /\
    ((exists j, r = Some (f + 256 * j) /\ 0 <= j < Z.of_nat n /\ cstr (bview s) (f + 256 * j) name /\
        forall i, 0 <= i < j -> ~ cstr (bview s) (f + 256 * i) name) \/
     (r = None /\ forall i, 0 <= i < Z.of_nat n -> ~ cstr (bview s) (f + 256 * i) name))).
Proof.
  intros Hok Hc Hl. revert f s Hok. induction n as [|n IH]; intros f s Hok Hu; cbn [find_name].
  { wsteps. split; [by apply same_refl|]. right. split; [done|]. lia. }
  wsteps. wuse strcmp_at_ok; [done|done|intros i Hi; apply Hu; lia|]. intros c s1 [Hc1 Hs1].
  destruct (Z.eqb_spec c 0) as [->|Hne].
  { wsteps. split; [done|]. left. exists 0. rewrite Z.add_0_r. split_and!; [done|lia|lia|by apply Hc1|lia]. }
  assert (~ cstr (bview s) f name) as H0 by (rewrite <- Hc1; done).
  change sizeof_File with 256. wuse (IH (f + 256) s1); [apply Hs1| |].
  { eapply usable_same; [exact Hs1|]. intros i Hi. rewrite <- Z.add_assoc. apply Hu. lia. }
  assert (forall a, bview s1 a = bview s a) as Hv1 by apply Hs1.
  intros r s2 [Hs2 Hr]. split; [by eapply same_then|].
  destruct Hr as [(j & -> & Hj & Hin & Hmin)|[-> Hno]]; [left|right].
  - exists (j + 1). replace (f + 256 * (j + 1)) with (f + 256 + 256 * j) by lia.
    split_and!; [done|lia|lia|by apply (cstr_ext _ _ _ _ Hv1)|]. intros i Hi Hx. destruct (decide (i = 0)) as [->|].
    + by rewrite Z.add_0_r in Hx.
    + apply (Hmin (i - 1) ltac:(lia)). apply (cstr_ext _ _ _ _ Hv1).
      by replace (f + 256 + 256 * (i - 1)) with (f + 256 * i) by lia.
  - split; [done|]. intros i Hi Hx. destruct (decide (i = 0)) as [->|].
    + by rewrite Z.add_0_r in Hx.
    + apply (Hno (i - 1) ltac:(lia)). apply (cstr_ext _ _ _ _ Hv1).
      by replace (f + 256 + 256 * (i - 1)) with (f + 256 * i) by lia.
Qed.

Lemma dir_entry_at v dir b j : 0 <= j < 16 -> dir_entry v dir (16 * b + j) = blkaddr (blk_of v dir b) + 256 * j.
Proof.
  intros Hj. unfold dir_entry. replace ((16 * b + j) / 16) with b by (Z.div_mod_to_equations; lia).
  replace ((16 * b + j) mod 16) with j by (Z.div_mod_to_equations; lia). done.
Qed.

(** What dir_lookup finds from block [i] on. *)
Definition looked_up (v : Z -> Z) (dir : Z) (name : list Z) (i : Z) (r : Z * option Z) : Prop :=
  (exists k, first_named v dir name (16 * i) k /\ k < dir_entries v dir /\ r = (0, Some (dir_entry v dir k))) \/
  (r = (- E_NOT_FOUND, None) /\ forall k, 16 * i <= k < dir_entries v dir -> ~ cstr v (dir_entry v dir k) name).

Lemma looked_up_ext v v' dir name i r :
  (forall a, v a = v' a) -> looked_up v dir name i r -> looked_up v' dir name i r.
Proof.
  intros Hv. assert (forall k, dir_entry v' dir k = dir_entry v dir k) as He
    by (intros; unfold dir_entry; by rewrite (blk_of_ext v v')).
  assert (dir_entries v' dir = dir_entries v dir) as Hn.
  { unfold dir_entries, f_size_of. by rewrite (vld_ext 4 v v') by auto. }
  unfold looked_up, first_named. rewrite Hn. intros [(k & (Hk & Hc & Hmin) & Hlt & ->)|[-> Hno]]; [left|right].
  - exists k. rewrite He. split_and!; [done|by rewrite <- (cstr_ext v)| |done|done].
    intros j Hj. rewrite He, <- (cstr_ext v) by done. by apply Hmin.
  - split; [done|]. intros k Hk. rewrite He, <- (cstr_ext v) by done. by apply Hno.
Qed.

Lemma dir_lookup_loop_ok s n dir i name :
  bok s -> chars name -> Z.of_nat (length name) < 256 -> dir_at (bview s) dir -> 0 <= i ->
  i + Z.of_nat n = f_size_of (bview s) dir / 4096 ->
  wp (dir_lookup_loop n dir i name) s (fun r s' => looked_up (bview s) dir name i r /\ same s s').
Proof.
  intros Hok Hc Hl Hd Hi. revert i Hi s Hok Hd. induction n as [|n IH]; intros i Hi s Hok Hd Hn.
  { cbn [dir_lookup_loop]. wsteps. split; [|by apply same_refl]. right. split; [done|].
    unfold dir_entries. destruct Hd as (_ & _ & Hm & _). Z.div_mod_to_equations. lia. }
  assert (dir_entries (bview s) dir = 16 * (i + Z.of_nat (S n))) as Hent.
  { unfold dir_entries. destruct Hd as (_ & _ & Hm & _). Z.div_mod_to_equations. lia. }
  destruct (id Hd) as (Hf & Hsz & Hm & Hpr). specialize (Hpr i ltac:(lia)).
  cbn [dir_lookup_loop]. wsteps. wuse file_get_block_ok; [done..|]. intros r s1 [-> Hs1].
  assert (forall a, bview s1 a = bview s a) as Hv1 by apply Hs1. assert (forall a, bview s a = bview s1 a) as Hv1' by done.
  wsteps. wuse find_name_ok; [apply Hs1|done|done| |].
  { eapply usable_same; [exact Hs1|]. destruct Hpr as (_ & _ & Hu). change (256 * _) with 4096.
    eapply in_use_usable; [exact Hu|lia|lia]. }
  change (Z.of_nat (Z.to_nat BLKFILES)) with 16. intros r s2 [Hs2 Hr]. assert (same s s2) as Hs02 by by eapply same_then.
  assert (forall a, bview s a = bview s2 a) as Hv2 by (intros; symmetry; apply Hs02).
  destruct Hr as [(j & -> & Hj & Hin & Hmin)|[-> Hno]].
  - wsteps. split; [|done]. left. exists (16 * i + j). unfold first_named. rewrite dir_entry_at by done.
    split_and!; [lia|by apply (cstr_ext _ _ _ _ Hv1)| |lia|done].
    intros k Hk. replace k with (16 * i + (k - 16 * i)) by lia. rewrite dir_entry_at by lia.
    rewrite <- (cstr_ext _ _ _ _ Hv1). apply Hmin. lia.
  - wuse (IH (i + 1) ltac:(lia) s2); [apply Hs02|..].
    { destruct Hd as (_ & _ & _ & Hpr'). unfold dir_at, f_size_of in *. rewrite <- (vld_ext 4 (bview s)) by auto.
      split_and!; [by apply (file_at_ext (bview s))|done|done|]. intros k Hk. by apply (present_ext (bview s)), Hpr'. }
    { unfold f_size_of in *. rewrite <- (vld_ext 4 (bview s)) by auto. lia. }
    intros r s3 [Hr Hs3]. split; [|by eapply same_then].
    apply (looked_up_ext _ (bview s)) in Hr; [|done].
    assert (forall k, 16 * i <= k < 16 * (i + 1) -> ~ cstr (bview s) (dir_entry (bview s) dir k) name) as Hno'.
    { intros k Hk. replace k with (16 * i + (k - 16 * i)) by lia. rewrite dir_entry_at by lia.
      rewrite <- (cstr_ext _ _ _ _ Hv1). apply Hno. lia. }
    destruct Hr as [(k & (Hk & Hck & Hmin) & Hlt & ->)|[-> Hno2]]; [left|right].
    + exists k. split_and!; [|done|done]. split_and!; [lia|done|]. intros j Hj.
      destruct (Z.lt_ge_cases j (16 * (i + 1))); [apply Hno'; lia|apply Hmin; lia].
    + split; [done|]. intros k Hk. destruct (Z.lt_ge_cases k (16 * (i + 1))); [apply Hno'; lia|apply Hno2; lia].
Qed.

Lemma dir_lookup_ok s dir name :
  bok s -> chars name -> Z.of_nat (length name) < 256 -> dir_at (bview s) dir ->
  wp (dir_lookup dir name) s (fun r s' => looked_up (bview s) dir name 0 r /\ same s s').
Proof.
  intros Hok Hc Hl Hd. destruct (id Hd) as (Hf & Hsz & Hm & Hpr). unfold dir_lookup, dir_nblock.
  assert (f_size_of (bview s) dir < 2 ^ 31) as Hmax by apply (swrap_range 32), eq_refl.
  wsteps. wuse f_size_ok; [done..|]. intros sz s1 [-> Hs1].
  assert (forall a, bview s a = bview s1 a) as Hv1 by (intros; symmetry; apply Hs1).
  change BLKSIZE with 4096. rewrite Z.rem_mod_nonneg, Hm by lia. cbn [Z.eqb fs_assert]. wsteps.
  wuse f_size_ok; [apply Hs1|by eapply file_at_same|]. intros sz s2 [-> Hs2].
  assert (same s s2) as Hs02 by by eapply same_then.
  assert (forall a, bview s a = bview s2 a) as Hv2 by (intros; symmetry; apply Hs02).
  assert (f_size_of (bview s1) dir = f_size_of (bview s) dir) as ->
    by (unfold f_size_of; f_equal; apply vld_ext; auto).
  assert (f_size_of (bview s2) dir = f_size_of (bview s) dir) as Hz2
    by (unfold f_size_of; f_equal; apply vld_ext; auto).
  rewrite Z.quot_div_nonneg, wrap_small by (try lia; Z.div_mod_to_equations; lia). wsteps.
  wuse dir_lookup_loop_ok; [apply Hs02|done|done| |lia| |].
  { unfold dir_at. rewrite Hz2. split_and!; [by apply (file_at_ext (bview s))|done|done|].
    intros k Hk. by apply (present_ext (bview s)), Hpr. }
  { rewrite Hz2, Z2Nat.id; [lia|]. Z.div_mod_to_equations. lia. }
  intros r s3 [Hr Hs3]. split; [|by eapply same_then]. by apply (looked_up_ext (bview s2)).
Qed.

(** ** A name in the root directory *)
Definition root_file : Z := DISKMAP + BLKSIZE + 8.

Lemma path_elem_name name : slash ∉ name -> path_elem name = (name, []).
Proof.
  induction name as [|c name IH]; [done|]. intros [Hc Hn]%not_elem_of_cons. cbn [path_elem].
  destruct (Z.eqb_spec c slash); [congruence|]. by rewrite IH.
Qed.

Lemma dir_at_ext v v' dir : (forall a, v a = v' a) -> dir_at v dir -> dir_at v' dir.
Proof.
  intros Hv (Hf & Hz & Hm & Hpr). unfold dir_at, f_size_of in *. rewrite <- (vld_ext 4 v v') by auto.
  split_and!; [by apply (file_at_ext v)|done|done|]. intros n Hn. by apply (present_ext v), Hpr.
Qed.

Lemma file_open_ok s name :
  bok s -> chars name -> name <> [] -> slash ∉ name -> Z.of_nat (length name) < MAXNAMELEN ->
  dir_at (bview s) root_file -> vld 4 (bview s) (root_file + 132) = FTYPE_DIR ->
  wp (file_open (slash :: name)) s (fun r s' => looked_up (bview s) root_file name 0 r /\ same s s').
Proof.
  intros Hok Hc Hne Hsl Hl Hd Hty. destruct name as [|c name]; [done|].
  assert (skip_slash (slash :: c :: name) = c :: name) as Hsk.
  { apply not_elem_of_cons in Hsl as [Hcs _]. cbn [skip_slash]. rewrite Z.eqb_refl.
    destruct (Z.eqb_spec c slash); [congruence|done]. }
  unfold file_open, walk_path. rewrite Hsk. unfold s_root. wsteps. rewrite (bok_super s Hok). fold root_file.
  cbn [length walk_path_loop]. rewrite path_elem_name by done. rewrite Z.geb_leb.
  destruct (Z.leb_spec MAXNAMELEN (Z.of_nat (length (c :: name)))); [lia|].
  cbn [skip_slash]. destruct (id Hd) as (Hf & _). unfold f_type.
  wsteps. wuse bload_ok; [done|by apply file_usable|]. intros ty s1 [-> Hs1]. rewrite Hty, Z.eqb_refl. cbn [negb].
  assert (forall a, bview s a = bview s1 a) as Hv1 by (intros; symmetry; apply Hs1).
  wsteps. wuse dir_lookup_ok; [apply Hs1|done|change MAXNAMELEN with 128 in Hl; lia|by apply (dir_at_ext (bview s))|].
  intros r s2 [Hr Hs2]. apply (looked_up_ext _ (bview s)) in Hr; [|done].
  assert (same s s2) by by eapply same_then.
  destruct Hr as [(k & Hk & Hlt & ->)|[-> Hno]].
  - destruct name; cbn [walk_path_loop]; wsteps; cbn [wk_ret wk_file]; (split; [|done]); left; by exists k.
  - rewrite Z.eqb_refl. cbn [andb]. rewrite bool_decide_eq_true_2 by done. wsteps. cbn [wk_ret wk_file].
    split; [|done]. by right.
Qed.
End dirs.
