(* ===== verification/FsMain.v ===== *)
(** * The file server on its block cache: fs_init, and a small disk

    fs.c at the implementation of Bc.v, the routines of fs.c that use the page
    tables and the disk directly, and a concrete disk of sixteen blocks on which
    the operations can be evaluated. *)
From S2P Require Import Prelude Mmu CMem BlockCache Bc Fs.

Definition fs_init : F unit :=
  present ← ide_probe_disk1;
  (if present : bool then ide_set_disk 1 else ide_set_disk 0);;
  bc_init;;
  sp ← diskaddr 1;
  modify (fun s => s <| super_ := sp |>);;
  bm ← diskaddr 2;
  modify (fun s => s <| bitmap_ := bm |>);;
  check_super;;
  check_bitmap.

Definition block_is_mapped (blockno : Z) : F bool :=
  va ← diskaddr blockno;
  m ← gets (fun s => va_is_mapped s va);
  mret (m && negb (va =? 0)).

Definition map_block (blockno : Z) : F Z :=
  m ← block_is_mapped blockno;
  if m : bool then mret 0
  else va ← diskaddr blockno; srv_page_alloc va (Z.lor (Z.lor PTE_U PTE_P) PTE_W).

(** PTE_USER: the flags a user may set. *)
Definition write_block (blockno : Z) : F unit :=
  m ← block_is_mapped blockno;
  if negb m then stop FPanic
  else
    addr ← diskaddr blockno;
    r ← ide_write (u32 (BLKSECTS * blockno)) addr BLKSECTS;
    if negb (r =? 0) then stop FPanic
    else
      perm ← gets (fun s => Z.land (pte_of_va s addr) PTE_SYSCALL);
      srv_page_remap addr perm.

(** ** A small disk

    Sixteen blocks.  Block 1 is the super block, block 2 the bitmap; the root
    directory has one block, block 3, whose first entry is the file "a" of 5000
    bytes in blocks 4 and 5; blocks 6 to 15 are free, with old bytes left in them. *)
Definition byte_run (a n v : Z) : bytes -> bytes := fun m => memset m a v n.
Definition demo_disk : bytes :=
  let m := st32 ∅ 4096 FS_MAGIC in
  let m := st32 m (4096 + 4) 16 in
  let root := 4096 + 8 in
  let m := st8 m root 0x2F in
  let m := st32 m (root + 128) 4096 in
  let m := st32 m (root + 132) FTYPE_DIR in
  let m := st32 m (root + 136) 3 in
  let m := st32 m 8192 0xFFC0 in
  let a := 3 * 4096 in
  let m := st8 m a 0x61 in
  let m := st32 m (a + 128) 5000 in
  let m := st32 m (a + 136) 4 in
  let m := st32 m (a + 140) 5 in
  let m := byte_run (4 * 4096) 4096 0x11 m in
  let m := byte_run (5 * 4096) 4096 0x22 m in
  byte_run (6 * 4096) 4096 0x77 m.

(** The server's own page at 0x800000 is a buffer. *)
Definition demo_server : FsState := {|
  fmem := ∅; fpte := {[ 0x800 := 7 ]}; frames := 64;
  disks := {[ 1 := demo_disk ]}; bad_sectors := ∅; float_bus := 0x40; diskno := 1;
  ide_regs := ∅; ide_cur := 0; super_ := 0; bitmap_ := 0; opentab := ∅; shared := ∅ |}.
