(* ===== verification/FsThms.v ===== *)
(** * What the file server's core promises

    The theorems on the block cache, on block allocation and on reading and writing
    files.  Those on fs.c hold over any block cache; the concrete instances are on
    the block cache of bc.c with a disk of sixteen blocks. *)
From S2P Require Import Prelude Mmu CMem BlockCache Bc BcSpec Fs FsSpec FileSpec.

(** ** A server that is ready

    Block 1 is the super block, block 2 the bitmap, block 3 the root directory with
    the file "a" of 5000 bytes in blocks 4 and 5; blocks 6 to 15 are free.  Only the
    super block is in memory, and the page at 0x800000 is the server's own. *)
Definition small_disk : bytes :=
  let m := st32 (st32 ∅ 4096 FS_MAGIC) (4096 + 4) 16 in
  let m := st32 m 8192 0xFFC0 in
  let a := 3 * 4096 in
  let m := st8 m a 0x61 in
  let m := st32 m (a + 128) 5000 in
  let m := st32 (st32 m (a + 136) 4) (a + 140) 5 in
  st8 (st8 m (4 * 4096 + 7) 0x2A) (6 * 4096 + 9) 0x77.

Definition small_server : FsState := {|
  fmem := st32 (st32 ∅ (DISKMAP + 4096) FS_MAGIC) (DISKMAP + 4096 + 4) 16;
  fpte := {[ 0x10001 := 0x67; 0x800 := 7 ]}; frames := 64;
  disks := {[ 1 := small_disk ]}; bad_sectors := ∅; float_bus := 0x40; diskno := 1;
  ide_regs := {[ 0x1F6 := 0xF0 ]}; ide_cur := 0; super_ := DISKMAP + 4096; bitmap_ := DISKMAP + 2 * 4096;
  opentab := ∅; shared := ∅ |}.

Definition file_a : Z := DISKMAP + 3 * 4096.

Lemma small_nblocks : v_nblocks (bc_view small_server) = 16.
Proof. vm_compute. reflexivity. Qed.

Lemma small_used b : 0 < b < 6 -> in_use (bc_view small_server) b.
Proof.
  intros Hb. split; [rewrite small_nblocks; lia|].
  assert (b = 1 \/ b = 2 \/ b = 3 \/ b = 4 \/ b = 5) as H by lia.
  destruct H as [-> | [-> | [-> | [-> | ->]]]]; vm_compute; reflexivity.
Qed.

Lemma small_reserved : reserved (bc_view small_server).
Proof.
  unfold reserved. rewrite small_nblocks. split_and!; [lia|apply small_used; lia|].
  intros i Hi Hlt. unfold BLKBITSIZE, BLKSIZE, PGSIZE in Hlt. assert (i = 0) as -> by lia.
  split; [lia|apply small_used; lia].
Qed.

Lemma small_pte k e : fpte small_server !! k = Some e -> (k = 0x10001 /\ e = 0x67) \/ (k = 0x800 /\ e = 7).
Proof.
  unfold small_server. cbn [fpte]. rewrite lookup_insert_Some, lookup_singleton_Some. naive_solver.
Qed.

Lemma small_ok : bc_ok small_server.
Proof.
  split.
  - reflexivity.
  - reflexivity.
  - apply small_reserved.
  - rewrite small_nblocks. lia.
  - intros k e [[-> ->]|[-> ->]]%small_pte Hr; [|unfold in_region in Hr; lia].
    rewrite small_nblocks. split; [lia|done].
  - exists 0x67. reflexivity.
  - rewrite small_nblocks. change (frames small_server) with 64. lia.
  - reflexivity.
  - exists small_disk. reflexivity.
  - exists small_disk. reflexivity.
  - intros k e a [[-> ->]|[-> ->]]%small_pte Hr Hd; [done|unfold in_region in Hr; lia].
Qed.

Lemma usable_block s b a n :
  in_use (bc_view s) b -> blkaddr b <= a -> a + n <= blkaddr b + 4096 -> usable bc_view bc_own s a n.
Proof. apply (in_use_usable (BC := bc_cache) s b a n). Qed.

Lemma small_own i : 0 <= i < 4096 -> bc_own small_server (0x800000 + i).
Proof.
  intros Hi. assert ((0x800000 + i) / 4096 = 0x800) as Hk by (Z.div_mod_to_equations; lia).
  split; [rewrite Hk; unfold in_region; lia|]. unfold pte_of_va. rewrite PPN_div, Hk. done.
Qed.

Lemma small_file : file_at (bc_view small_server) file_a.
Proof.
  exists 3. split; [apply small_used; lia|]. unfold file_a, blkaddr. lia.
Qed.

(** ** The block cache *)

(** C13: The block cache is invisible: a load from any byte of a block in use returns
    what the server last stored there, or what is on disk if it never did, whether or
    not the block is in memory, and a store inside a page (not to the first words of the
    super block, and not one that frees a reserved block in the bitmap) changes exactly the
    bytes stored to; faulting blocks in changes neither what the server sees nor the disk. *)
Theorem block_cache_transparent n a x s :
  bc_ok s -> usable bc_view bc_own s a (Z.of_nat n) ->
  wp (bload n a) s (fun r s' => r = vld n (bc_view s) a /\ bc_ok s' /\
    (forall b, bc_view s' b = bc_view s b) /\ (forall b, bc_disk s' b = bc_disk s b)) /\
  (a mod PGSIZE + Z.of_nat n <= PGSIZE -> no_overlap a (Z.of_nat n) (DISKMAP + BLKSIZE) 8 ->
   reserved (vst n (bc_view s) a x) ->
   wp (bstore n a x) s (fun _ s' => bc_ok s' /\
     (forall b, bc_view s' b = vst n (bc_view s) a x b) /\ (forall b, bc_disk s' b = bc_disk s b))).
Proof.
  intros Hok Hu. split.
  - wuse (bload_ok (St := FsState)); [done..|]. intros r s' (-> & Ho & Hv & Hd & _). done.
  - intros Hpg Hno Hres. wuse (bstore_ok (St := FsState)); [done|done|done|].
    intros _ s' (Ho & Hv & Hd & _). done.
Qed.

Lemma block_cache_transparent_witness :
  wp (bload 1 (DISKMAP + 4 * 4096 + 7)) small_server (fun r s' => r = 0x2A /\ bc_ok s').
Proof.
  assert (usable bc_view bc_own small_server (DISKMAP + 4 * 4096 + 7) (Z.of_nat 1)) as Hu
    by (apply (usable_block small_server 4); [apply small_used; lia| |]; unfold blkaddr, DISKMAP; lia).
  destruct (block_cache_transparent 1 (DISKMAP + 4 * 4096 + 7) 0 small_server small_ok Hu) as [H _].
  eapply wp_mono; [exact H|].
  intros r s' (Hr & Ho & _). split; [|exact Ho]. rewrite Hr. vm_compute. reflexivity.
Defined.

(** C38: flush_block makes a block durable: afterwards the block is on disk exactly as the
    server sees it, no other block of the disk has changed, and neither has
    anything the server sees. *)
Theorem flush_block_durable a s :
  bc_ok s -> DISKMAP <= a < DISKMAP + DISKSIZE ->
  wp (flush_block a) s (fun _ s' => bc_ok s' /\ (forall b, bc_view s' b = bc_view s b) /\
    (forall b, bc_disk s' b = if decide ((b - DISKMAP) / BLKSIZE = (a - DISKMAP) / BLKSIZE)
                              then bc_view s b else bc_disk s b)).
Proof.
  intros Hok Ha. wuse (flush_block_ok (St := FsState)); [done..|]. intros _ s' (Ho & Hv & Hd & _). done.
Qed.

Lemma flush_block_durable_witness :
  wp (flush_block (DISKMAP + 4096)) small_server (fun _ s' => bc_disk s' (DISKMAP + 4096 + 4) = 16).
Proof.
  eapply wp_mono.
  - apply (flush_block_durable (DISKMAP + 4096) small_server small_ok). unfold DISKMAP, DISKSIZE. lia.
  - intros _ s' (_ & _ & Hd). rewrite Hd. vm_compute. reflexivity.
Defined.

(** ** Blocks and files, over any block cache *)
Section files.
Context {St : Type} {Ops : BlockCacheOps St} {BC : BlockCache St}.

(** alloc_block returns the first block the bitmap marks free, marks it used,
    changing no other bit, and has the first bitmap block written to disk; it returns
    -E_NO_DISK exactly when no block is free, and then changes nothing. *)
Theorem alloc_block_first_free (s : St) :
  bok s ->
  wp alloc_block s (fun r s' => bok s' /\
    ((0 < r < v_nblocks (bview s) /\ v_free (bview s) r = true /\
      (forall c, 0 < c < r -> v_free (bview s) c = false) /\
      (forall c, 0 <= c -> v_free (bview s') c = if decide (c = r) then false else v_free (bview s) c) /\
      (forall a, (a - DISKMAP) / BLKSIZE = 2 -> bdisk s' a = bview s' a)) \/
     (r = - E_NO_DISK /\ (forall c, 0 < c < v_nblocks (bview s) -> v_free (bview s) c = false) /\
      forall a, bview s' a = bview s a))).
Proof.
  intros Hok. wuse alloc_block_ok; [done|]. intros r s' [(Hr & Hf & Hmin & Hs)|(-> & Hno & Hs)].
  - destruct Hs as (Ho & Hv & Hd & _). split; [done|left]. split_and!; [lia|lia|done|intros; apply Hmin; lia|..].
    + intros c Hc. rewrite (v_free_ext _ _ c Hv), v_flip_free by lia.
      case_decide as He; [subst; rewrite Hf, bool_decide_eq_true_2 by done; done|].
      rewrite bool_decide_eq_false_2 by done. apply xorb_false_r.
    + intros a Ha. rewrite Hd, decide_True by done. symmetry. apply Hv.
  - split; [apply Hs|right]. split_and!; [done|intros; apply Hno; lia|apply Hs].
Qed.

(** file_read returns min(count, size - offset) and copies exactly these bytes of
    the file, found through its direct and indirect block pointers, to the buffer,
    changing nothing else, when all blocks of the range exist. *)
Theorem file_read_contents (s : St) f buf count offset :
  let n := Z.min count (f_size_of (bview s) f - offset) in
  bok s -> file_at (bview s) f -> 0 <= offset < f_size_of (bview s) f -> 0 <= count < 2 ^ 64 ->
  own_range s buf n -> (forall p, offset <= p < offset + n -> present (bview s) f (p / 4096)) ->
  wp (file_read f buf count offset) s (fun r s' => r = n /\ bok s' /\
    (forall i, 0 <= i < n -> bview s' (buf + i) = bview s (file_addr (bview s) f (offset + i))) /\
    (forall a, ~ (buf <= a < buf + n) -> bview s' a = bview s a)).
Proof.
  intros n Hok Hf Hoff Hc Hown Hpr. wuse file_read_ok; [done..|].
  intros r s' [-> (Ho & Hv & _)]. fold n in Hv |- *. split_and!; [done|done|..].
  - intros i Hi. rewrite Hv. unfold v_read. rewrite decide_True by lia. do 2 f_equal. lia.
  - intros a Ha. rewrite Hv. unfold v_read. by rewrite decide_False.
Qed.

(** C40: What is written is read back: after file_write of [count] bytes inside the
    file, in a range whose blocks are all allocated and distinct data blocks, file_read of the same range returns [count] and delivers the same bytes,
    across block boundaries and through the indirect block. *)
Theorem file_write_read_back (s : St) f buf buf' count offset :
  bok s -> file_at (bview s) f -> 0 <= offset -> 0 < count -> offset + count <= f_size_of (bview s) f ->
  own_range s buf count -> own_range s buf' count -> data_range (bview s) f offset (offset + count) ->
  wp (r ← file_write f buf count offset; r' ← file_read f buf' count offset; mret (r, r')) s (fun rs s' =>
    rs = (count, count) /\ forall i, 0 <= i < count -> bview s' (buf' + i) = bview s (buf + i)).
Proof. apply file_write_then_read. Qed.

(** When block [n] of a file (a direct one) does not exist, file_get_block takes
    the first free block of the disk and enters it in the file; the bytes of the block
    are those it had before, of whatever file it belonged to last. *)
Theorem file_get_block_fresh (s : St) f n :
  bok s -> file_apart (bview s) f -> 0 <= n < NDIRECT -> blk_of (bview s) f n = 0 ->
  (exists c, 0 < c < v_nblocks (bview s) /\ v_free (bview s) c = true) ->
  wp (file_get_block f n) s (fun res s' => exists r,
    res = (0, Some (blkaddr r)) /\ v_free (bview s) r = true /\ 0 < r < v_nblocks (bview s) /\
    (forall c, 0 < c < r -> v_free (bview s) c = false) /\ blk_of (bview s') f n = r /\
    forall a, blkaddr r <= a < blkaddr r + 4096 -> bview s' a = bview s a).
Proof.
  intros Hok Hf Hn Hz Hc. pose proof (nblocks_max s Hok) as Hmax. pose proof (bok_reserved s Hok) as Hres.
  wuse file_get_block_hole; [done..|]. intros res s' (r & -> & Hr & Hrf & Hmin & Ho & Hv).
  exists r. split_and!; try done; try lia.
  - unfold blk_of, slot. destruct (Z.ltb_spec n NDIRECT); [|lia].
    rewrite (vld_ext 4 _ _ _ (fun a _ => Hv a)), vld_vst_eq. apply Z.mod_small.
    change (256 ^ Z.of_nat 4) with (2 ^ 32). lia.
  - intros a Ha. rewrite Hv. destruct (file_apart_at _ _ Hf) as (b & [Hb Hbf] & Hlo & Hhi).
    assert (b <> r) by congruence. change NDIRECT with 10 in Hn.
    destruct (reserved_bitmap _ r Hres ltac:(lia)) as [_ Hbm].
    assert (2 + r / 32768 <> r) by congruence.
    destruct (bit_word_range r ltac:(lia)) as (Hw1 & Hw2 & _).
    unfold vst, v_flip, v_word, vst, f_direct, blkaddr, DISKMAP in *. rewrite !decide_False by lia. done.
Qed.
End files.

(** ** Concrete instances *)
Lemma alloc_block_first_free_witness :
  wp alloc_block small_server (fun r _ => r = 6).
Proof.
  eapply wp_mono; [apply (alloc_block_first_free (BC := bc_cache) small_server small_ok)|].
  assert (v_free (bc_view small_server) 6 = true) as H6 by (vm_compute; reflexivity).
  change (bview small_server) with (bc_view small_server). rewrite small_nblocks.
  intros r s' [_ [(Hr & Hf & Hmin & _)|(_ & Hno & _)]]; [|by rewrite Hno in H6 by lia].
  destruct (Z.lt_trichotomy r 6) as [H|[H|H]]; [|done|].
  - destruct (small_used r ltac:(lia)) as [_ Hu]. congruence.
  - specialize (Hmin 6 ltac:(lia)). congruence.
Defined.

Lemma small_present n : 0 <= n < 2 -> present (bc_view small_server) file_a n /\
  blk_of (bc_view small_server) file_a n = 4 + n.
Proof.
  intros Hn. assert (blk_of (bc_view small_server) file_a n = 4 + n) as Hb.
  { assert (n = 0 \/ n = 1) as [-> | ->] by lia; vm_compute; reflexivity. }
  split; [|done]. split_and!; [lia|change (NDIRECT + NINDIRECT) with 1034; lia|change NDIRECT with 10; lia|].
  rewrite Hb. apply small_used. lia.
Qed.

Lemma small_size : f_size_of (bc_view small_server) file_a = 5000.
Proof. vm_compute. reflexivity. Qed.

Lemma small_own_range : own_range small_server 0x800000 4096.
Proof. intros i Hi. by apply small_own. Qed.

(** Reading eight bytes across the end of the first block. *)
Lemma file_read_contents_witness :
  wp (file_read file_a 0x800000 8 4092) small_server (fun r s' => r = 8 /\ bc_view s' 0x800000 = 0).
Proof.
  assert (Z.min 8 (f_size_of (bc_view small_server) file_a - 4092) = 8) as Hn by (rewrite small_size; done).
  eapply wp_mono.
  - apply (file_read_contents (BC := bc_cache) small_server file_a 0x800000 8 4092 small_ok small_file).
    + change (bview small_server) with (bc_view small_server). rewrite small_size. lia.
    + lia.
    + change (bview small_server) with (bc_view small_server). rewrite Hn.
      intros i Hi. apply small_own. lia.
    + change (bview small_server) with (bc_view small_server). rewrite Hn. intros p Hp.
      apply small_present. Z.div_mod_to_equations. lia.
  - change (bview small_server) with (bc_view small_server). rewrite Hn.
    intros r s' (Hr & _ & Hb & _). split; [exact Hr|]. specialize (Hb 0 ltac:(lia)).
    change (0x800000 + 0) with 0x800000 in Hb. change (bview s') with (bc_view s') in Hb. rewrite Hb.
    vm_compute. reflexivity.
Defined.

Lemma small_data : data_range (bc_view small_server) file_a 4092 4100.
Proof.
  assert (forall p, 4092 <= p < 4100 -> 0 <= p / 4096 < 2) as Hr by (intros; Z.div_mod_to_equations; lia).
  split.
  - intros p Hp. destruct (small_present (p / 4096) (Hr p Hp)) as [Hpr Hb]. split; [done|].
    specialize (Hr p Hp). unfold plain. rewrite Hb, small_nblocks. change (2 + (16 - 1) / 32768) with 2.
    split_and!; [lia|left; unfold file_a, blkaddr; lia|].
    assert (f_indirect_of (bc_view small_server) file_a = 0) as -> by (vm_compute; reflexivity). lia.
  - intros p q Hp Hq. destruct (small_present (p / 4096) (Hr p Hp)) as [_ ->].
    destruct (small_present (q / 4096) (Hr q Hq)) as [_ ->]. lia.
Qed.

Lemma file_write_read_back_witness :
  wp (r ← file_write file_a 0x800000 8 4092; r' ← file_read file_a 0x800100 8 4092; mret (r, r')) small_server
    (fun rs s' => rs = (8, 8) /\ forall i, 0 <= i < 8 -> bc_view s' (0x800100 + i) = bc_view small_server (0x800000 + i)).
Proof.
  apply (file_write_read_back (BC := bc_cache) small_server file_a 0x800000 0x800100 8 4092 small_ok small_file).
  - lia.
  - lia.
  - change (bview small_server) with (bc_view small_server). rewrite small_size. lia.
  - intros i Hi. apply small_own. lia.
  - intros i Hi. change 0x800100 with (0x800000 + 0x100). rewrite <- Z.add_assoc. apply small_own. lia.
  - exact small_data.
Defined.

(** The third block of "a" is block 6 of the disk, with the byte 0x77 left in it. *)
Lemma file_get_block_fresh_witness :
  wp (file_get_block file_a 2) small_server (fun res s' => exists r,
    res = (0, Some (blkaddr r)) /\ (r = 6 -> bc_view s' (blkaddr 6 + 9) = 0x77)).
Proof.
  eapply wp_mono.
  - apply (file_get_block_fresh (BC := bc_cache) small_server file_a 2 small_ok).
    + exists 3. change (bview small_server) with (bc_view small_server). rewrite small_nblocks.
      split; [apply small_used; lia|]. unfold file_a, blkaddr. change ((16 - 1) / 32768) with 0. lia.
    + change NDIRECT with 10. lia.
    + vm_compute. reflexivity.
    + exists 6. change (bview small_server) with (bc_view small_server). rewrite small_nblocks. split; [lia|].
      vm_compute. reflexivity.
  - intros res s' (r & Hres & _ & _ & _ & _ & Hb). exists r. split; [exact Hres|]. intros ->.
    specialize (Hb (blkaddr 6 + 9) ltac:(lia)). change (bview s') with (bc_view s') in Hb. rewrite Hb.
    vm_compute. reflexivity.
Defined.
