(* ===== verification/Serv.v ===== *)
(** * The file server's requests: fs/serv.c, with lib/pageref.c

    A request arrives by IPC with a page, which the kernel maps at [fsreq]; the page
    stays shared with the client, which finds the answer in it.  [shared] counts the
    mappings that other environments have of a page of the server, so that the
    reference count pageref reads is one more.  A [struct Fd *] is the address of the
    structure; the table of open files is a map from indices. *)
From S2P Require Import Prelude Mmu CMem BlockCache Bc Fs FsMain.

Definition MAXOPEN : Z := 1024.
Definition FILEVA : Z := 0xD0000000.
Definition fsreq : Z := 0x0ffff000.
Definition O_CREAT : Z := 0x0100.
Definition O_TRUNC : Z := 0x0200.
Definition O_EXCL : Z := 0x0400.
Definition devfile_id : Z := 0x66.

Definition FSREQ_OPEN : Z := 1.
Definition FSREQ_SET_SIZE : Z := 2.
Definition FSREQ_READ : Z := 3.
Definition FSREQ_WRITE : Z := 4.
Definition FSREQ_STAT : Z := 5.
Definition FSREQ_FLUSH : Z := 6.
Definition FSREQ_REMOVE : Z := 7.
Definition FSREQ_SYNC : Z := 8.

(** struct Fd of inc/fd.h. *)
Definition set_fd_dev_id (fd z : Z) : F unit := bstore 4 fd (u32 z).
Definition fd_offset (fd : Z) : F Z := z ← bload 4 (fd + 4); mret (i32 z).
Definition set_fd_offset (fd z : Z) : F unit := bstore 4 (fd + 4) (u32 z).
Definition set_fd_omode (fd z : Z) : F unit := bstore 4 (fd + 8) (u32 z).
Definition set_fd_file_id (fd z : Z) : F unit := bstore 4 (fd + 12) (u32 z).

(** The members of union Fsipc, with the alignment of [size_t] to 8 bytes. *)
Definition sizeof_req_buf : Z := PGSIZE - (4 + 8).
Definition req_fileid (ipc : Z) : F Z := z ← bload 4 ipc; mret (i32 z).
Definition req_size (ipc : Z) : F Z := z ← bload 4 (ipc + 4); mret (i32 z).
Definition req_n (ipc : Z) : F Z := bload 8 (ipc + 8).
Definition req_buf (ipc : Z) : Z := ipc + 16.
Definition req_omode (ipc : Z) : F Z := z ← bload 4 (ipc + MAXPATHLEN); mret (i32 z).

(** ** lib/pageref.c *)
Definition pageref (v : Z) : F Z :=
  gets (fun s => if va_is_mapped s v then u16 (1 + default 0 (shared s !! PPN v)) else 0).

(** ** The table of open files *)
Definition open_entry (i : Z) (s : FsState) : OpenFile := default (mkOpenFile 0 0 0 0) (opentab s !! i).
Definition set_open (i : Z) (f : OpenFile -> OpenFile) : F unit :=
  modify (fun s => s <| opentab := <[i := f (open_entry i s)]> (opentab s) |>).

Fixpoint serve_init_loop (n : nat) (i va : Z) : F unit :=
  match n with
  | O => mret tt
  | S n' =>
      set_open i (fun o => o <| o_fileid := i |>);;
      set_open i (fun o => o <| o_fd := va |>);;
      serve_init_loop n' (i + 1) (u64 (va + PGSIZE))
  end.
Definition serve_init : F unit := serve_init_loop (Z.to_nat MAXOPEN) 0 FILEVA.

(** The id and the entry, or an error. *)
Definition openfile_take (i : Z) : F (Z * option Z) :=
  set_open i (fun o => o <| o_fileid := u32 (o_fileid o + MAXOPEN) |>);;
  o ← gets (open_entry i);
  bmemset (o_fd o) 0 PGSIZE;;
  mret (i32 (o_fileid o), Some i).

Fixpoint openfile_alloc_loop (n : nat) (i : Z) : F (Z * option Z) :=
  match n with
  | O => mret (- E_MAX_OPEN, None)
  | S n' =>
      o ← gets (open_entry i);
      c ← pageref (o_fd o);
      if c =? 0 then
        r ← srv_page_alloc (o_fd o) (Z.lor (Z.lor PTE_P PTE_U) PTE_W);
        if r <? 0 then mret (r, None) else openfile_take i
      else if c =? 1 then openfile_take i
      else openfile_alloc_loop n' (i + 1)
  end.
Definition openfile_alloc : F (Z * option Z) := openfile_alloc_loop (Z.to_nat MAXOPEN) 0.

Definition openfile_lookup (envid fileid : Z) : F (Z * option Z) :=
  let i := u32 fileid mod MAXOPEN in
  o ← gets (open_entry i);
  c ← pageref (o_fd o);
  if (c =? 1) || negb (o_fileid o =? u32 fileid) then mret (- E_INVAL, None) else mret (0, Some i).

Definition the {A} (x : option A) : F A :=
  match x with Some a => mret a | None => stop FUndefined end.

(** ** The handlers *)

(** The path of a request: MAXPATHLEN bytes, the last one set to zero, as a C
    string. *)
Fixpoint c_string (l : list Z) : list Z :=
  match l with
  | [] => []
  | c :: l' => if c =? 0 then [] else c :: c_string l'
  end.
Definition req_path (req : Z) : F (list Z) :=
  l ← load_bytes (Z.to_nat MAXPATHLEN) req;
  mret (c_string (take (Z.to_nat (MAXPATHLEN - 1)) l)).

Definition has (mode bit : Z) : bool := negb (Z.land mode bit =? 0).

(** The result, and the page and permissions to share. *)
Definition serve_open (envid req perm : Z) : F (Z * option Z * Z) :=
  path ← req_path req;
  ro ← openfile_alloc;
  if ro.1 <? 0 then mret (ro.1, None, perm)
  else
    o ← the ro.2;
    omode ← req_omode req;
    rf ← (if has omode O_CREAT then
            rf ← file_create path;
            if rf.1 <? 0 then
              if negb (has omode O_EXCL) && (rf.1 =? - E_FILE_EXISTS) then file_open path else mret rf
            else mret rf
          else file_open path);
    if rf.1 <? 0 then mret (rf.1, None, perm)
    else
      f ← the rf.2;
      omode ← req_omode req;
      r ← (if has omode O_TRUNC then file_set_size f 0 else mret 0);
      if r <? 0 then mret (r, None, perm)
      else
        set_open o (fun e => e <| o_file := f |>);;
        e ← gets (open_entry o);
        set_fd_file_id (o_fd e) (o_fileid e);;
        omode ← req_omode req;
        set_fd_omode (o_fd e) (Z.land omode O_ACCMODE);;
        set_fd_dev_id (o_fd e) devfile_id;;
        omode ← req_omode req;
        set_open o (fun e => e <| o_mode := omode |>);;
        mret (0, Some (o_fd e), Z.lor (Z.lor (Z.lor PTE_SHARE PTE_P) PTE_U) PTE_W).

Definition serve_set_size (envid req : Z) : F Z :=
  fileid ← req_fileid req;
  ro ← openfile_lookup envid fileid;
  if ro.1 <? 0 then mret ro.1
  else
    o ← the ro.2;
    e ← gets (open_entry o);
    size ← req_size req;
    file_set_size (o_file e) size.

Definition serve_read (envid ipc : Z) : F Z :=
  n ← req_n ipc;
  let n := umin n PGSIZE in
  fileid ← req_fileid ipc;
  ro ← openfile_lookup envid fileid;
  if ro.1 <? 0 then mret ro.1
  else
    o ← the ro.2;
    e ← gets (open_entry o);
    off ← fd_offset (o_fd e);
    bytes_read ← file_read (o_file e) ipc n off;
    if bytes_read <? 0 then mret bytes_read
    else
      off ← fd_offset (o_fd e);
      set_fd_offset (o_fd e) (off + bytes_read);;
      mret bytes_read.

Definition serve_write (envid req : Z) : F Z :=
  fileid ← req_fileid req;
  ro ← openfile_lookup envid fileid;
  if ro.1 <? 0 then mret ro.1
  else
    o ← the ro.2;
    e ← gets (open_entry o);
    n ← req_n req;
    let bytes := umin n sizeof_req_buf in
    off ← fd_offset (o_fd e);
    bytes_written ← file_write (o_file e) (req_buf req) bytes off;
    off ← fd_offset (o_fd e);
    set_fd_offset (o_fd e) (off + bytes_written);;
    mret bytes_written.

(** strcpy; a string that does not end within a page is taken for endless. *)
Fixpoint strcpy_at (fuel : nat) (dst src : Z) : F unit :=
  match fuel with
  | O => stop FDiverge
  | S fuel' =>
      c ← bload 1 src;
      bstore 1 dst c;;
      if c =? 0 then mret tt else strcpy_at fuel' (dst + 1) (src + 1)
  end.

Definition serve_stat (envid ipc : Z) : F Z :=
  fileid ← req_fileid ipc;
  ro ← openfile_lookup envid fileid;
  if ro.1 <? 0 then mret ro.1
  else
    o ← the ro.2;
    e ← gets (open_entry o);
    strcpy_at (Z.to_nat PGSIZE) ipc (o_file e);;
    sz ← f_size (o_file e);
    bstore 4 (ipc + MAXNAMELEN) (u32 sz);;
    t ← f_type (o_file e);
    bstore 4 (ipc + MAXNAMELEN + 4) (if t =? FTYPE_DIR then 1 else 0);;
    mret 0.

Definition serve_flush (envid req : Z) : F Z :=
  fileid ← req_fileid req;
  ro ← openfile_lookup envid fileid;
  if ro.1 <? 0 then mret ro.1
  else
    o ← the ro.2;
    e ← gets (open_entry o);
    file_flush (o_file e);;
    mret 0.

Definition serve_remove (envid req : Z) : F Z :=
  path ← req_path req;
  file_remove path.

Definition serve_sync (envid req : Z) : F Z := fs_sync;; mret 0.

Definition handlers (req : Z) : option (Z -> Z -> F Z) :=
  if req =? FSREQ_SET_SIZE then Some serve_set_size
  else if req =? FSREQ_READ then Some serve_read
  else if req =? FSREQ_WRITE then Some serve_write
  else if req =? FSREQ_STAT then Some serve_stat
  else if req =? FSREQ_FLUSH then Some serve_flush
  else if req =? FSREQ_REMOVE then Some serve_remove
  else if req =? FSREQ_SYNC then Some serve_sync
  else None.

(** ** The main loop *)

(** What ipc_recv delivers: the value, the sender, the permissions of the page sent
    with it (0 for none) and the bytes of the page; and what ipc_send answers: the
    value and the page shared, with the bytes the client then finds in its request
    page. *)
Record Request := mkRequest { rq_req : Z; rq_whom : Z; rq_perm : Z; rq_page : bytes }.
Record Reply := mkReply { rp_whom : Z; rp_val : Z; rp_pg : option Z; rp_perm : Z; rp_page : bytes }.

Definition map_request (q : Request) : F unit :=
  modify (fun s => s <| fmem := blit (Z.to_nat PGSIZE) (rq_page q) 0 (fmem s) fsreq |>
                     <| fpte := <[PPN fsreq := rq_perm q]> (fpte s) |>).
Definition unmap_request : F unit :=
  modify (fun s => s <| fpte := delete (PPN fsreq) (fpte s) |>).

(** The answer; a page sent gets one more mapping. *)
Definition ipc_send (whom val : Z) (pg : option Z) (perm : Z) : F Reply :=
  match pg with
  | Some va => modify (fun s => s <| shared := <[PPN va := default 0 (shared s !! PPN va) + 1]> (shared s) |>)
  | None => mret tt
  end;;
  page ← gets (fun s => blit (Z.to_nat PGSIZE) (fmem s) fsreq ∅ 0);
  mret (mkReply whom (u32 val) pg perm page).

(** One round of the loop of serve. *)
Definition serve_one (q : Request) : F (option Reply) :=
  let req := u32 (rq_req q) in
  if Z.land (rq_perm q) PTE_P =? 0 then mret None
  else
    map_request q;;
    rpp ← (if req =? FSREQ_OPEN then serve_open (rq_whom q) fsreq (rq_perm q)
           else match handlers req with
                | Some h => r ← h (rq_whom q) fsreq; mret (r, None, rq_perm q)
                | None => mret (- E_INVAL, None, rq_perm q)
                end);
    reply ← ipc_send (rq_whom q) rpp.1.1 rpp.1.2 rpp.2;
    unmap_request;;
    mret (Some reply).

(** The loop, over the requests that arrive. *)
Fixpoint serve (qs : list Request) : F (list (option Reply)) :=
  match qs with
  | [] => mret []
  | q :: qs' => a ← serve_one q; l ← serve qs'; mret (a :: l)
  end.

(** What happens to the server: a round of the loop, and between two rounds what the
    clients do with the pages they share with it.  A client unmaps a page, maps it once
    more (for a child, or with dup), as long as the 16-bit reference count has room, or
    stores a byte in it.  [serve] is the case that the clients do nothing in between. *)
Definition shares (s : FsState) (k : Z) : Z := default 0 (shared s !! k).
Inductive server_step (s : FsState) : FsState -> Prop :=
| step_request q a s' : serve_one q s = Ret a s' -> server_step s s'
| step_unmap k : 0 < shares s k -> server_step s (s <| shared := <[k := shares s k - 1]> (shared s) |>)
| step_map k : 0 < shares s k < 65534 -> server_step s (s <| shared := <[k := shares s k + 1]> (shared s) |>)
| step_store a b : 0 < shares s (PPN a) -> server_step s (s <| fmem := st8 (fmem s) a b |>).

Definition umain (qs : list Request) : F (list (option Reply)) := serve_init;; fs_init;; serve qs.
