(* ===== verification/ServSpec.v ===== *)
(** * What the file server's requests promise

    The file system never touches the table of open files or the descriptor pages'
    presence and sharing; from this follow the invariants of the table and that an
    open file stays the same file as long as a client holds its descriptor page. *)
From S2P Require Import Prelude Mmu CMem BlockCache Bc BcSpec Fs FsSpec FileSpec FsMain FsThms Serv.

(** ** What the file system leaves alone *)
Definition page_there (s : FsState) (k : Z) : bool := negb (Z.land (default 0 (fpte s !! k)) PTE_P =? 0).

(** The table of open files, and of the pages outside the request page and the disk
    map how often they are shared and whether they are there. *)
Definition fds_kept (s s' : FsState) : Prop :=
  opentab s' = opentab s /\
  forall k, k < 0xffff \/ 0xD0000 <= k -> shared s' !! k = shared s !! k /\ page_there s' k = page_there s k.

#[export] Instance fds_kept_preorder : PreOrder fds_kept.
Proof.
  split; [by split|]. intros s1 s2 s3 [Ho1 H1] [Ho2 H2]. split; [congruence|].
  intros k Hk. destruct (H1 k Hk), (H2 k Hk). split; congruence.
Qed.

Abbreviation keeps_fds := (keeps fds_kept).
Ltac kbind := apply keeps_bind; [apply _| |].

Lemma keeps_plain f :
  (forall s, opentab (f s) = opentab s /\ shared (f s) = shared s /\ fpte (f s) = fpte s) ->
  keeps_fds (modify f : F unit).
Proof.
  intros H. apply keeps_modify. intros s. destruct (H s) as (Ho & Hs & Hp). split; [done|].
  intros k _. unfold page_there. by rewrite Hs, Hp.
Qed.

Lemma present_flag s k e x :
  Z.land x PTE_P = 0 -> default 0 (fpte s !! k) = e ->
  negb (Z.land (Z.lor e x) PTE_P =? 0) = page_there s k.
Proof. intros Hx He. unfold page_there. by rewrite He, Z.land_lor_distr_l, Hx, Z.lor_0_r. Qed.

Lemma keeps_touch pf write va : (forall a, keeps_fds (pf a)) -> keeps_fds (touch pf write va).
Proof.
  intros Hpf. unfold touch. kbind; [keeps_auto|]. intros e0. kbind; [keeps_auto|]. intros _.
  intros s a s'. unfold mbind, M_bind, gets. set (e := pte_of_va s va).
  destruct (pte_allows write e); [|done]. intros [= _ <-]. split; [done|]. intros k _. split; [done|].
  unfold page_there at 1. cbn. destruct (decide (PPN va = k)) as [<-|Hne].
  - rewrite lookup_insert_eq. apply present_flag; [by destruct write|done].
  - by rewrite lookup_insert_ne.
Qed.

Section accesses.
Context (pf : Z -> F unit).
Hypothesis Hpf : forall a, keeps_fds (pf a).

Lemma keeps_load_with n a : keeps_fds (load_with pf n a).
Proof.
  revert a. induction n as [|n IH]; intros a; cbn [load_with]; [keeps_auto|].
  kbind; [by apply keeps_touch|]. keeps_auto.
Qed.

Lemma keeps_store_with n a x : keeps_fds (store_with pf n a x).
Proof.
  revert a x. induction n as [|n IH]; intros a x; cbn [store_with]; [keeps_auto|].
  kbind; [by apply keeps_touch|]. intros _. kbind; [by apply keeps_plain|]. auto.
Qed.

Lemma keeps_touch_range w a n : keeps_fds (touch_range pf w a n).
Proof.
  unfold touch_range. destruct (n <=? 0); [keeps_auto|].
  generalize (Z.to_nat ((a + n - 1) / PGSIZE - a / PGSIZE + 1)) as k. intros k. revert a.
  induction k as [|k IH]; intros a; cbn [touch_pages]; [keeps_auto|].
  kbind; [by apply keeps_touch|]. auto.
Qed.

Lemma keeps_memset_with a c n : keeps_fds (memset_with pf a c n).
Proof. kbind; [apply keeps_touch_range|]. intros _. by apply keeps_plain. Qed.

Lemma keeps_memmove_with d a n : keeps_fds (memmove_with pf d a n).
Proof. do 2 (kbind; [apply keeps_touch_range|intros _]). by apply keeps_plain. Qed.

Lemma keeps_ide_outb p v : keeps_fds (ide_outb p v).
Proof. apply keeps_plain. intros s. by case_match. Qed.
Lemma keeps_ide_wait b : keeps_fds (ide_wait_ready b).
Proof. unfold ide_wait_ready. keeps_auto. Qed.
Hint Resolve keeps_ide_outb keeps_ide_wait : keeps.
Lemma keeps_ide_command a n c : keeps_fds (ide_command a n c).
Proof. unfold ide_command. keeps_auto. Qed.
Hint Resolve keeps_ide_command keeps_touch_range : keeps.

Lemma keeps_ide_read a d n : keeps_fds (ide_read_with pf a d n).
Proof.
  unfold ide_read_with. keeps_auto. revert d. generalize (Z.to_nat n) as k.
  induction k as [|k IH]; intros d; cbn [ide_read_loop]; keeps_auto. by apply keeps_plain.
Qed.
Lemma keeps_ide_write a d n : keeps_fds (ide_write_with pf a d n).
Proof.
  unfold ide_write_with. keeps_auto. revert d. generalize (Z.to_nat n) as k.
  induction k as [|k IH]; intros d; cbn [ide_write_loop]; keeps_auto. by apply keeps_plain.
Qed.
End accesses.

Lemma keeps_page_alloc va perm : 0x10000 <= PPN va < 0xD0000 -> keeps_fds (srv_page_alloc va perm).
Proof.
  intros Hva. unfold srv_page_alloc. kbind; [keeps_auto|]. intros n.
  destruct (n <=? 0); [keeps_auto|]. kbind; [|intros; keeps_auto].
  apply keeps_modify. intros s. split; [done|]. intros k Hk. cbn. unfold page_there. cbn.
  rewrite lookup_delete_ne, lookup_insert_ne by lia. done.
Qed.

Lemma in_disk_PPN va :
  (va <? DISKMAP) || (va >=? DISKMAP + DISKSIZE) = false -> 0x10000 <= PPN (ROUNDDOWN va PGSIZE) < 0xD0000.
Proof.
  intros [H1 H2]%orb_false_iff. rewrite Z.geb_leb in H2. apply Z.ltb_ge in H1. apply Z.leb_gt in H2.
  rewrite PPN_div. unfold ROUNDDOWN, PGSIZE, DISKMAP, DISKSIZE in *. Z.div_mod_to_equations. lia.
Qed.

Lemma keeps_pgfault d va : keeps_fds (bc_pgfault d va).
Proof.
  revert va. induction d as [|d IH]; intros va; cbn [bc_pgfault]; [apply keeps_stop|].
  destruct ((va <? DISKMAP) || (va >=? DISKMAP + DISKSIZE)) eqn:Hin; [apply keeps_stop|].
  pose proof (keeps_load_with _ IH) as Hl. pose proof (keeps_ide_read _ IH) as Hr.
  pose proof (keeps_page_alloc _ (Z.lor (Z.lor PTE_P PTE_W) PTE_U) (in_disk_PPN va Hin)) as Ha.
  unfold block_is_free_via. keeps_auto.
Qed.
Lemma keeps_handler va : keeps_fds (pgfault va).
Proof. apply keeps_pgfault. Qed.
#[export] Hint Resolve keeps_handler : keeps.

Lemma keeps_flush_block a : keeps_fds (bc_flush_block a).
Proof.
  unfold bc_flush_block. destruct ((a <? DISKMAP) || (a >=? DISKMAP + DISKSIZE)) eqn:Hin; [apply keeps_stop|].
  keeps_auto; [apply keeps_ide_write; auto with keeps|].
  unfold srv_page_remap. apply keeps_modify. intros s. split; [done|]. intros k Hk. split; [done|]. unfold page_there. cbn.
  pose proof (in_disk_PPN a Hin). by rewrite lookup_insert_ne by lia.
Qed.

(** The operations of the interface, and then all of fs.c. *)
Lemma keeps_bload n a : keeps_fds (bload n a).
Proof. apply keeps_load_with. auto with keeps. Qed.
Lemma keeps_bstore n a x : keeps_fds (bstore n a x).
Proof. apply keeps_store_with. auto with keeps. Qed.
Lemma keeps_bmemset a c n : keeps_fds (bmemset a c n).
Proof. apply keeps_memset_with. auto with keeps. Qed.
Lemma keeps_bmemmove d a n : keeps_fds (bmemmove d a n).
Proof. apply keeps_memmove_with. auto with keeps. Qed.
Lemma keeps_flush a : keeps_fds (flush_block a).
Proof. apply keeps_flush_block. Qed.
#[export] Hint Resolve keeps_bload keeps_bstore keeps_bmemset keeps_bmemmove keeps_flush : keeps.

Ltac keeps_def := intros; lazymatch goal with |- keeps _ ?m => let h := get_head m in unfold h end; keeps_auto.

Lemma keeps_f_size f : keeps_fds (f_size f). Proof. keeps_def. Qed.
Lemma keeps_set_f_size f z : keeps_fds (set_f_size f z). Proof. keeps_def. Qed.
Lemma keeps_f_type f : keeps_fds (f_type f). Proof. keeps_def. Qed.
Lemma keeps_f_indirect f : keeps_fds (f_indirect f). Proof. keeps_def. Qed.
Lemma keeps_set_f_indirect f z : keeps_fds (set_f_indirect f z). Proof. keeps_def. Qed.
Lemma keeps_s_nblocks : keeps_fds s_nblocks. Proof. keeps_def. Qed.
Lemma keeps_s_root : keeps_fds s_root. Proof. keeps_def. Qed.
Lemma keeps_assert b : keeps_fds (fs_assert b). Proof. unfold fs_assert, panic. keeps_auto. Qed.
Lemma keeps_diskaddr b : keeps_fds (diskaddr b). Proof. keeps_def. Qed.
Lemma keeps_load_bytes n a : keeps_fds (load_bytes n a).
Proof. revert a. induction n as [|n IH]; intros a; cbn [load_bytes]; keeps_auto. Qed.
Lemma keeps_store_bytes l a : keeps_fds (store_bytes a l).
Proof. revert a. induction l as [|b l IH]; intros a; cbn [store_bytes]; keeps_auto. Qed.
Lemma keeps_strcmp_at q a : keeps_fds (strcmp_at a q).
Proof. revert a. induction q as [|b l IH]; intros a; cbn [strcmp_at]; keeps_auto. Qed.
#[export] Hint Resolve keeps_f_size keeps_set_f_size keeps_f_type keeps_f_indirect keeps_set_f_indirect
  keeps_s_nblocks keeps_s_root keeps_assert keeps_diskaddr keeps_load_bytes keeps_store_bytes keeps_strcmp_at : keeps.

Lemma keeps_block_is_free b : keeps_fds (block_is_free b).
Proof. unfold block_is_free, block_is_free_via. keeps_auto. Qed.
Lemma keeps_free_block b : keeps_fds (free_block b). Proof. unfold free_block, panic. keeps_auto. Qed.
Lemma keeps_flip_bit b : keeps_fds (flip_bit b). Proof. keeps_def. Qed.
#[export] Hint Resolve keeps_block_is_free keeps_free_block keeps_flip_bit : keeps.
Lemma keeps_alloc_block_loop n b : keeps_fds (alloc_block_loop n b).
Proof. revert b. induction n as [|n IH]; intros b; cbn [alloc_block_loop]; keeps_auto. Qed.
#[export] Hint Resolve keeps_alloc_block_loop : keeps.
Lemma keeps_alloc_block : keeps_fds alloc_block. Proof. keeps_def. Qed.
#[export] Hint Resolve keeps_alloc_block : keeps.
Lemma keeps_file_block_walk f n a : keeps_fds (file_block_walk f n a). Proof. keeps_def. Qed.
#[export] Hint Resolve keeps_file_block_walk : keeps.
Lemma keeps_file_get_block f n : keeps_fds (file_get_block f n). Proof. keeps_def. Qed.
#[export] Hint Resolve keeps_file_get_block : keeps.

Lemma keeps_find_name n f name : keeps_fds (find_name n f name).
Proof. revert f. induction n as [|n IH]; intros f; cbn [find_name]; keeps_auto. Qed.
Lemma keeps_find_unused n f : keeps_fds (find_unused n f).
Proof. revert f. induction n as [|n IH]; intros f; cbn [find_unused]; keeps_auto. Qed.
Lemma keeps_dir_nblock d : keeps_fds (dir_nblock d). Proof. keeps_def. Qed.
#[export] Hint Resolve keeps_find_name keeps_find_unused keeps_dir_nblock : keeps.
Lemma keeps_dir_lookup d name : keeps_fds (dir_lookup d name).
Proof.
  unfold dir_lookup. kbind; [keeps_auto|]. intros nb. generalize 0 as i. generalize (Z.to_nat nb) as n.
  induction n as [|n IH]; intros i; cbn [dir_lookup_loop]; keeps_auto.
Qed.
Lemma keeps_dir_alloc_file d : keeps_fds (dir_alloc_file d).
Proof.
  unfold dir_alloc_file. kbind; [keeps_auto|]. intros nb. generalize 0 as i. generalize (Z.to_nat nb) as n.
  induction n as [|n IH]; intros i; cbn [dir_alloc_loop]; keeps_auto.
Qed.
#[export] Hint Resolve keeps_dir_lookup keeps_dir_alloc_file : keeps.
Lemma keeps_walk_path_loop n path d f : keeps_fds (walk_path_loop n path d f).
Proof.
  revert path d f. induction n as [|n IH]; intros path d f; destruct path as [|c path]; cbn [walk_path_loop]; keeps_auto.
Qed.
#[export] Hint Resolve keeps_walk_path_loop : keeps.
Lemma keeps_walk_path path : keeps_fds (walk_path path). Proof. keeps_def. Qed.
#[export] Hint Resolve keeps_walk_path : keeps.

Lemma keeps_file_flush_loop n f i : keeps_fds (file_flush_loop n f i).
Proof. revert i. induction n as [|n IH]; intros i; cbn [file_flush_loop]; keeps_auto. Qed.
#[export] Hint Resolve keeps_file_flush_loop : keeps.
Lemma keeps_file_flush f : keeps_fds (file_flush f). Proof. keeps_def. Qed.
Lemma keeps_strcpy_to a l : keeps_fds (strcpy_to a l). Proof. keeps_def. Qed.
#[export] Hint Resolve keeps_file_flush keeps_strcpy_to : keeps.
Lemma keeps_file_create path : keeps_fds (file_create path). Proof. keeps_def. Qed.
Lemma keeps_file_open path : keeps_fds (file_open path). Proof. keeps_def. Qed.
Lemma keeps_file_read_loop n f b c o p : keeps_fds (file_read_loop n f b c o p).
Proof. revert b p. induction n as [|n IH]; intros b p; cbn [file_read_loop]; keeps_auto. Qed.
Lemma keeps_file_write_loop n f b c o p : keeps_fds (file_write_loop n f b c o p).
Proof. revert b p. induction n as [|n IH]; intros b p; cbn [file_write_loop]; keeps_auto. Qed.
Lemma keeps_file_free_block f b : keeps_fds (file_free_block f b). Proof. keeps_def. Qed.
#[export] Hint Resolve keeps_file_create keeps_file_open keeps_file_read_loop keeps_file_write_loop
  keeps_file_free_block : keeps.
Lemma keeps_truncate_loop n f b : keeps_fds (truncate_loop n f b).
Proof. revert b. induction n as [|n IH]; intros b; cbn [truncate_loop]; keeps_auto. Qed.
#[export] Hint Resolve keeps_truncate_loop : keeps.
Lemma keeps_file_truncate_blocks f n : keeps_fds (file_truncate_blocks f n). Proof. keeps_def. Qed.
#[export] Hint Resolve keeps_file_truncate_blocks : keeps.
Lemma keeps_file_set_size f n : keeps_fds (file_set_size f n). Proof. keeps_def. Qed.
#[export] Hint Resolve keeps_file_set_size : keeps.
Lemma keeps_file_read f b c o : keeps_fds (file_read f b c o). Proof. keeps_def. Qed.
Lemma keeps_file_write f b c o : keeps_fds (file_write f b c o). Proof. keeps_def. Qed.
Lemma keeps_file_remove path : keeps_fds (file_remove path). Proof. keeps_def. Qed.
Lemma keeps_fs_sync : keeps_fds fs_sync.
Proof.
  unfold fs_sync. kbind; [keeps_auto|]. intros nb. generalize 1 as i. generalize (Z.to_nat nb + 1)%nat as n.
  induction n as [|n IH]; intros i; cbn [fs_sync_loop]; keeps_auto.
Qed.
#[export] Hint Resolve keeps_file_read keeps_file_write keeps_file_remove keeps_fs_sync : keeps.

(** The handlers that do not open a file. *)
Lemma keeps_the {A} (x : option A) : keeps_fds (the x). Proof. unfold the. keeps_auto. Qed.
Lemma keeps_pageref a : keeps_fds (pageref a). Proof. keeps_def. Qed.
#[export] Hint Resolve keeps_the keeps_pageref : keeps.
Lemma keeps_openfile_lookup e i : keeps_fds (openfile_lookup e i). Proof. keeps_def. Qed.
Lemma keeps_req_fileid a : keeps_fds (req_fileid a). Proof. keeps_def. Qed.
Lemma keeps_req_size a : keeps_fds (req_size a). Proof. keeps_def. Qed.
Lemma keeps_req_n a : keeps_fds (req_n a). Proof. keeps_def. Qed.
Lemma keeps_req_omode a : keeps_fds (req_omode a). Proof. keeps_def. Qed.
Lemma keeps_req_path a : keeps_fds (req_path a). Proof. keeps_def. Qed.
Lemma keeps_fd_offset a : keeps_fds (fd_offset a). Proof. keeps_def. Qed.
Lemma keeps_set_fd_offset a z : keeps_fds (set_fd_offset a z). Proof. keeps_def. Qed.
Lemma keeps_set_fd_omode a z : keeps_fds (set_fd_omode a z). Proof. keeps_def. Qed.
Lemma keeps_set_fd_dev_id a z : keeps_fds (set_fd_dev_id a z). Proof. keeps_def. Qed.
Lemma keeps_set_fd_file_id a z : keeps_fds (set_fd_file_id a z). Proof. keeps_def. Qed.
Lemma keeps_strcpy_at n d a : keeps_fds (strcpy_at n d a).
Proof. revert d a. induction n as [|n IH]; intros d a; cbn [strcpy_at]; keeps_auto. Qed.
#[export] Hint Resolve keeps_openfile_lookup keeps_req_fileid keeps_req_size keeps_req_n keeps_req_omode keeps_req_path
  keeps_fd_offset keeps_set_fd_offset keeps_set_fd_omode keeps_set_fd_dev_id keeps_set_fd_file_id keeps_strcpy_at : keeps.

Lemma keeps_handlers req h whom a : handlers req = Some h -> keeps_fds (h whom a).
Proof.
  unfold handlers. intros H. repeat (case_match; [injection H as <-; keeps_def|]). done.
Qed.

(** ** The table of open files *)

(** Entry [i] has its own descriptor page and an id that leads back to it. *)
Definition entry_wf (i : Z) (o : OpenFile) : Prop :=
  o_fd o = FILEVA + i * PGSIZE /\ o_fileid o mod MAXOPEN = i /\ 0 <= o_fileid o < 2 ^ 32.
Definition opentab_wf (s : FsState) : Prop :=
  forall i, 0 <= i < MAXOPEN -> exists o, opentab s !! i = Some o /\ entry_wf i o.

(** The reference count of the descriptor page of entry [i]; the entry is held when
    a client maps the page too. *)
Definition fd_refs (s : FsState) (i : Z) : Z :=
  if page_there s (0xD0000 + i) then u16 (1 + default 0 (shared s !! (0xD0000 + i))) else 0.
Definition held (s : FsState) (i : Z) : Prop := fd_refs s i <> 0 /\ fd_refs s i <> 1.

Lemma fd_PPN i : PPN (FILEVA + i * PGSIZE) = 0xD0000 + i.
Proof. rewrite PPN_div. unfold FILEVA, PGSIZE. Z.div_mod_to_equations. lia. Qed.
Lemma pageref_fd s i : pageref (FILEVA + i * PGSIZE) s = Ret (fd_refs s i) s.
Proof. unfold pageref, gets, va_is_mapped, pte_of_va. by rewrite fd_PPN. Qed.

(** The table stays well formed, and the entries outside [X] stay as they are, with
    their descriptor pages. *)
Definition kept_but (X : Z -> Prop) (s s' : FsState) : Prop :=
  (opentab_wf s -> opentab_wf s') /\
  forall i, 0 <= i < MAXOPEN -> ~ X i ->
    opentab s' !! i = opentab s !! i /\ shared s' !! (0xD0000 + i) = shared s !! (0xD0000 + i) /\
    page_there s' (0xD0000 + i) = page_there s (0xD0000 + i).

#[export] Instance kept_but_preorder X : PreOrder (kept_but X).
Proof.
  split; [by split|]. intros s1 s2 s3 [W1 H1] [W2 H2]. split; [auto|].
  intros i Hi Hx. destruct (H1 i Hi Hx) as (?&?&?), (H2 i Hi Hx) as (?&?&?). split_and!; congruence.
Qed.

Lemma fds_kept_but X s s' : fds_kept s s' -> kept_but X s s'.
Proof.
  intros [Ho H]. split.
  - intros W i Hi. rewrite Ho. by apply W.
  - intros i Hi _. rewrite Ho. destruct (H (0xD0000 + i) ltac:(lia)). done.
Qed.
Lemma fds_kept_refs s s' i : 0 <= i -> fds_kept s s' -> fd_refs s' i = fd_refs s i.
Proof. intros Hi [_ H]. unfold fd_refs. destruct (H (0xD0000 + i) ltac:(lia)) as [-> ->]. done. Qed.
Lemma kept_but_refs X s s' i : kept_but X s s' -> 0 <= i < MAXOPEN -> ~ X i -> fd_refs s' i = fd_refs s i.
Proof. intros [_ H] Hi Hx. unfold fd_refs. destruct (H i Hi Hx) as (_ & -> & ->). done. Qed.

(** ** Runs that may stop *)
Definition wlp {A} (m : F A) (s : FsState) (Q : A -> FsState -> Prop) : Prop :=
  forall a s', m s = Ret a s' -> Q a s'.
Lemma wlp_ret {A} (a : A) s (Q : A -> FsState -> Prop) : Q a s -> wlp (mret a) s Q.
Proof. by intros HQ b s' [= <- <-]. Qed.
Lemma wlp_bind {A B} (m : F A) (k : A -> F B) s Q :
  wlp m s (fun a s' => wlp (k a) s' Q) -> wlp (m ≫= k) s Q.
Proof. intros H b s'. unfold mbind, M_bind. destruct (m s) eqn:E1; [|done]. by apply H. Qed.
Lemma wlp_keeps {A} (m : F A) R s (Q : A -> FsState -> Prop) :
  keeps R m -> (forall a s', R s s' -> Q a s') -> wlp m s Q.
Proof. intros Hk H a s' E1. apply H. by eapply Hk. Qed.
Lemma wlp_gets {A} (f : FsState -> A) s (Q : A -> FsState -> Prop) : Q (f s) s -> wlp (gets f) s Q.
Proof. by intros HQ b s' [= <- <-]. Qed.
Lemma wlp_modify f s (Q : unit -> FsState -> Prop) : Q tt (f s) -> wlp (modify f) s Q.
Proof. by intros HQ [] s' [= <-]. Qed.
Lemma wlp_mono {A} (m : F A) s (P Q : A -> FsState -> Prop) :
  wlp m s P -> (forall a s', P a s' -> Q a s') -> wlp m s Q.
Proof. unfold wlp. auto. Qed.

(** ** openfile_alloc *)
Lemma set_open_ok X i f s :
  X i -> 0 <= i < MAXOPEN -> (forall o, entry_wf i o -> entry_wf i (f o)) ->
  kept_but X s (s <| opentab := <[i := f (open_entry i s)]> (opentab s) |>).
Proof.
  intros Hx Hi Hf. split.
  - intros W j Hj. cbn. destruct (decide (i = j)) as [<-|Hne].
    + rewrite lookup_insert_eq. eexists. split; [done|]. apply Hf. unfold open_entry.
      destruct (W i Hi) as (o & -> & Ho). done.
    + rewrite lookup_insert_ne by done. by apply W.
  - intros j Hj Hxj. cbn. rewrite lookup_insert_ne by congruence. done.
Qed.

Lemma entry_wf_next i o : entry_wf i o -> entry_wf i (o <| o_fileid := u32 (o_fileid o + MAXOPEN) |>).
Proof.
  intros (Hf & Hm & Hr). split; [done|]. split; [|by apply wrap_range].
  unfold MAXOPEN in *. unfold wrap. cbn. change (2 ^ 32) with (4194304 * 1024).
  rewrite Z.mod_mod_divide by (by exists 4194304).
  replace (o_fileid o + 1024) with (o_fileid o + 1 * 1024) by lia. by rewrite Z_mod_plus_full.
Qed.

(** What openfile_alloc gives: an entry that was not held and now has a page of its
    own that only the server maps. *)
Definition taken (X : Z -> Prop) (s : FsState) (r : Z * option Z) (s' : FsState) : Prop :=
  kept_but X s s' /\ forall i, r.2 = Some i -> 0 <= i < MAXOPEN /\ X i.

Lemma openfile_take_ok X i s :
  X i -> 0 <= i < MAXOPEN -> wlp (openfile_take i) s (taken X s).
Proof.
  intros Hx Hi. unfold openfile_take. apply wlp_bind, wlp_modify.
  pose proof (set_open_ok X i _ s Hx Hi (entry_wf_next i)) as H1.
  apply wlp_bind, wlp_gets, wlp_bind. eapply wlp_keeps; [apply keeps_bmemset|].
  intros _ s2 H2. apply wlp_ret. split; [|by intros j [= <-]].
  etrans; [exact H1|]. by apply fds_kept_but.
Qed.

Lemma open_entry_wf s i : opentab_wf s -> 0 <= i < MAXOPEN -> entry_wf i (open_entry i s).
Proof. intros W Hi. unfold open_entry. destruct (W i Hi) as (o & -> & Ho). done. Qed.

Lemma fd_alloc_ok X s i perm :
  X i -> 0 <= i < MAXOPEN ->
  wlp (srv_page_alloc (FILEVA + i * PGSIZE) perm) s (fun _ s' => kept_but X s s').
Proof.
  intros Hx Hi. unfold srv_page_alloc. apply wlp_bind, wlp_gets.
  destruct (frames s <=? 0); [by apply wlp_ret|]. apply wlp_bind, wlp_modify, wlp_ret.
  split; [done|]. intros j Hj Hxj. unfold page_there. cbn. rewrite fd_PPN.
  assert (i <> j) by congruence. rewrite lookup_delete_ne, lookup_insert_ne by lia. done.
Qed.

Lemma openfile_alloc_loop_ok X s n i :
  opentab_wf s -> (forall i, 0 <= i < MAXOPEN -> ~ held s i -> X i) -> 0 <= i ->
  i + Z.of_nat n = MAXOPEN -> wlp (openfile_alloc_loop n i) s (taken X s).
Proof.
  intros W Hx. revert i. induction n as [|n IH]; intros i Hi Hn; cbn [openfile_alloc_loop]; [by apply wlp_ret; split|].
  apply wlp_bind, wlp_gets. assert (0 <= i < MAXOPEN) as Hr by lia.
  destruct (open_entry_wf s i W Hr) as (-> & _).
  apply wlp_bind. intros c s1. rewrite pageref_fd. intros [= <- <-].
  destruct (Z.eqb_spec (fd_refs s i) 0) as [E0|E0].
  - assert (X i) by (apply Hx; [done|]; intros []; done).
    apply wlp_bind. eapply wlp_mono; [by eapply (fd_alloc_ok X)|]. intros r s1 H1.
    destruct (r <? 0); [by apply wlp_ret; split|].
    eapply wlp_mono; [by eapply (openfile_take_ok X)|]. intros a s2 [H2 H3]. split; [etrans; [exact H1|exact H2]|done].
  - destruct (Z.eqb_spec (fd_refs s i) 1) as [E1|E1].
    + apply openfile_take_ok; [|done]. apply Hx; [done|]. intros []. done.
    + apply IH; lia.
Qed.

Lemma openfile_alloc_ok X s :
  opentab_wf s -> (forall i, 0 <= i < MAXOPEN -> ~ held s i -> X i) -> wlp openfile_alloc s (taken X s).
Proof. intros W Hx. by apply openfile_alloc_loop_ok. Qed.

(** ** serve_open *)

(** A step of the file system after others, from [s0] on. *)
Lemma wlp_bind_fds {A B} (m : F A) (k : A -> F B) s0 s Q :
  fds_kept s0 s -> keeps_fds m -> (forall a s', fds_kept s0 s' -> wlp (k a) s' Q) -> wlp (m ≫= k) s Q.
Proof.
  intros H0 Hm Hk. apply wlp_bind. eapply wlp_keeps; [exact Hm|]. intros a s' H. apply Hk. by etrans.
Qed.
Tactic Notation "wlp_fds" hyp(H) :=
  eapply (wlp_bind_fds _ _ _ _ _ H); [solve [keeps_auto]|]; clear H; intros ? ? H; cbn beta.
Lemma fds_kept_refl s : fds_kept s s.
Proof. done. Qed.

(** The page that serve_open shares is the descriptor page of an entry of [X]. *)
Definition opened (X : Z -> Prop) (s : FsState) (r : Z * option Z * Z) (s' : FsState) : Prop :=
  kept_but X s s' /\
  forall va, r.1.2 = Some va -> exists i, va = FILEVA + i * PGSIZE /\ 0 <= i < MAXOPEN /\ X i.

Lemma serve_open_fill X (o f perm : Z) (req : Z) s :
  opentab_wf s -> 0 <= o < MAXOPEN -> X o ->
  wlp (set_open o (fun e => e <| o_file := f |>);;
       e ← gets (open_entry o);
       set_fd_file_id (o_fd e) (o_fileid e);;
       omode ← req_omode req;
       set_fd_omode (o_fd e) (Z.land omode O_ACCMODE);;
       set_fd_dev_id (o_fd e) devfile_id;;
       omode ← req_omode req;
       set_open o (fun e => e <| o_mode := omode |>);;
       mret (0, Some (o_fd e), perm)) s (opened X s).
Proof.
  intros W Hi Hx. apply wlp_bind, wlp_modify.
  match goal with |- wlp _ ?st _ => set (s1 := st) end.
  assert (kept_but X s s1) as H1 by (by apply (set_open_ok X o (fun e => e <| o_file := f |>))).
  pose proof (proj1 H1 W) as W1.
  apply wlp_bind, wlp_gets. pose proof (open_entry_wf s1 o W1 Hi) as (Hfd & _).
  pose proof (fds_kept_refl s1) as Hf. do 5 wlp_fds Hf. apply wlp_bind, wlp_modify, wlp_ret.
  match goal with H : fds_kept s1 ?s' |- _ =>
    assert (kept_but X s s') as Hk by (etrans; [exact H1|by apply fds_kept_but]) end.
  split; [|intros va [= <-]; eauto].
  etrans; [exact Hk|]. by apply set_open_ok.
Qed.

Lemma serve_open_ok s whom req perm :
  opentab_wf s -> wlp (serve_open whom req perm) s (opened (fun i => ~ held s i) s).
Proof.
  intros W. set (X := fun i => ~ held s i). unfold serve_open.
  pose proof (fds_kept_refl s) as Hf. wlp_fds Hf. rename s' into s1.
  assert (opentab_wf s1) as W1 by by eapply (fds_kept_but X).
  apply wlp_bind. eapply wlp_mono; [apply (openfile_alloc_ok X s1 W1)|].
  { intros i Hi Hno [Hh1 Hh2]. apply Hno. unfold held. by rewrite (fds_kept_refs s s1) by (done || lia). }
  intros ro s2 [H2 Ho]. assert (kept_but X s s2) as Hk2 by (etrans; [by apply fds_kept_but|exact H2]).
  destruct (ro.1 <? 0); [by apply wlp_ret; split|].
  destruct ro.2 as [o|] eqn:Ero; [|by intros ? ?]. destruct (Ho o eq_refl) as [Hi Hx]. cbn [the].
  assert (forall s', fds_kept s2 s' -> kept_but X s s') as Hk.
  { intros s' H'. etrans; [exact Hk2|]. by apply fds_kept_but. }
  pose proof (fds_kept_refl s2) as Hf2. apply wlp_bind, wlp_ret. do 2 wlp_fds Hf2.
  case_match; [apply wlp_ret; by split; [apply Hk|]|]. do 3 wlp_fds Hf2.
  case_match; [apply wlp_ret; by split; [apply Hk|]|].
  eapply wlp_mono; [apply (serve_open_fill X); try done; by apply (Hk _ Hf2)|].
  intros r s6 [H6 H7]. split; [|done]. etrans; [by apply Hk|exact H6].
Qed.

(** ** A round of the server *)
Lemma ipc_send_ok X whom val pg perm s :
  (forall va, pg = Some va -> exists i, va = FILEVA + i * PGSIZE /\ 0 <= i < MAXOPEN /\ X i) ->
  wlp (ipc_send whom val pg perm) s (fun _ s' => kept_but X s s').
Proof.
  intros Hpg. unfold ipc_send. apply wlp_bind. destruct pg as [va|].
  - destruct (Hpg va eq_refl) as (i & -> & Hi & Hx). apply wlp_modify, wlp_bind, wlp_gets, wlp_ret.
    split; [done|]. intros j Hj Hxj. cbn. rewrite fd_PPN, lookup_insert_ne; [done|].
    intros E. apply Hxj. by replace j with i by lia.
  - apply wlp_ret, wlp_bind, wlp_gets, wlp_ret. done.
Qed.

Lemma map_request_ok q : keeps_fds (map_request q).
Proof.
  apply keeps_modify. intros s. split; [done|]. intros k Hk. split; [done|]. unfold page_there. cbn.
  change (PPN fsreq) with 0xffff. by rewrite lookup_insert_ne by lia.
Qed.
Lemma unmap_request_ok : keeps_fds unmap_request.
Proof.
  apply keeps_modify. intros s. split; [done|]. intros k Hk. split; [done|]. unfold page_there. cbn.
  change (PPN fsreq) with 0xffff. by rewrite lookup_delete_ne by lia.
Qed.
#[export] Hint Resolve map_request_ok unmap_request_ok : keeps.

Lemma serve_one_ok s q :
  opentab_wf s -> wlp (serve_one q) s (fun _ s' => kept_but (fun i => ~ held s i) s s').
Proof.
  intros W. set (X := fun i => ~ held s i). unfold serve_one.
  destruct (Z.land (rq_perm q) PTE_P =? 0); [by apply wlp_ret|].
  pose proof (fds_kept_refl s) as Hf. wlp_fds Hf. rename s' into s1.
  assert (opentab_wf s1) as W1 by by eapply (fds_kept_but X).
  assert (forall i, 0 <= i < MAXOPEN -> ~ held s1 i -> X i) as HX.
  { intros i Hi Hno [Hh1 Hh2]. apply Hno. unfold held. by rewrite (fds_kept_refs s s1) by (done || lia). }
  apply wlp_bind. apply (wlp_mono _ _ (opened X s1)).
  - destruct (u32 (rq_req q) =? FSREQ_OPEN).
    + eapply wlp_mono; [by apply serve_open_ok|]. intros r s2 [[W2 H2] H3]. split; [split; [done|]|].
      * intros i Hi Hx. apply H2; [done|]. intros Hno. apply Hx, HX; done.
      * intros va Hva. destruct (H3 va Hva) as (i & -> & Hi & Hno). eauto.
    + destruct (handlers (u32 (rq_req q))) as [h|] eqn:Hh; [|by apply wlp_ret; split].
      apply wlp_bind. eapply wlp_keeps; [by eapply keeps_handlers|]. intros r s2 H2.
      apply wlp_ret. split; [by apply fds_kept_but|done].
  - intros r s2 [H2 Hpg]. apply wlp_bind. eapply wlp_mono; [by apply (ipc_send_ok X)|]. intros rp s3 H3.
    pose proof (fds_kept_refl s3) as Hf3. wlp_fds Hf3. apply wlp_ret.
    etrans; [by apply fds_kept_but|]. etrans; [exact H2|]. etrans; [exact H3|]. by apply fds_kept_but.
Qed.
