(* ===== verification/ServThms.v ===== *)
(** * Theorems on the file server's requests *)
From S2P Require Import Prelude Mmu CMem BlockCache Bc BcSpec Fs FsSpec FileSpec FsMain FsThms Serv ServSpec.

#[local] Opaque blit.

(** ** The table of open files *)
Lemma serve_init_loop_ok n s i :
  0 <= i -> i + Z.of_nat n = MAXOPEN -> (forall j, 0 <= j < i -> exists o, opentab s !! j = Some o /\ entry_wf j o) ->
  wp (serve_init_loop n i (FILEVA + i * PGSIZE)) s (fun _ s' => opentab_wf s').
Proof.
  revert s i. induction n as [|n IH]; intros s i Hi Hn Hlt; cbn [serve_init_loop].
  - apply wp_ret. intros j Hj. apply Hlt. lia.
  - unfold set_open. wsteps.
    replace (u64 (FILEVA + i * PGSIZE + PGSIZE)) with (FILEVA + (i + 1) * PGSIZE).
    2:{ unfold FILEVA, PGSIZE, MAXOPEN in *. rewrite wrap_small; lia. }
    apply IH; [lia|lia|]. intros j Hj. cbn. destruct (decide (i = j)) as [<-|Hne].
    + rewrite lookup_insert_eq. eexists. split; [done|]. unfold open_entry. cbn. rewrite lookup_insert_eq. cbn.
      unfold entry_wf. cbn. unfold MAXOPEN in *. split_and!; [done|apply Z.mod_small; lia|lia|lia].
    + rewrite !lookup_insert_ne by done. apply Hlt. lia.
Qed.

Lemma serve_init_wf s : wp serve_init s (fun _ s' => opentab_wf s').
Proof. apply (serve_init_loop_ok (Z.to_nat MAXOPEN) s 0); [done|done|]. intros. lia. Qed.

(** Any number of rounds. *)
Lemma serve_kept qs s rs s' :
  opentab_wf s -> serve qs s = Ret rs s' ->
  opentab_wf s' /\ forall i, 0 <= i < MAXOPEN -> held s i ->
    opentab s' !! i = opentab s !! i /\ fd_refs s' i = fd_refs s i.
Proof.
  revert s rs. induction qs as [|q qs IH]; intros s rs W; cbn [serve].
  { by intros [= _ <-]. }
  unfold mbind, M_bind. destruct (serve_one q s) as [a s1|] eqn:E1; [|done].
  pose proof (serve_one_ok s q W a s1 E1) as Hk. pose proof (proj1 Hk W) as W1.
  destruct (serve qs s1) as [l s2|] eqn:E2; [|done]. intros [= _ <-].
  destruct (IH s1 l W1 E2) as [W2 H2]. split; [done|]. intros i Hi Hh.
  assert (fd_refs s1 i = fd_refs s i) as Hr by (apply (kept_but_refs _ _ _ _ Hk Hi); tauto).
  destruct (H2 i Hi) as [-> ->]; [unfold held; by rewrite Hr|]. split; [|done].
  apply (proj2 Hk i Hi). tauto.
Qed.

(** C19: The table of open files is well formed once serve_init has run, and after any
    requests of any clients, however malformed: each entry keeps its own descriptor
    page, at the address of its index, and an id that leads back to it. *)
Theorem open_table_well_formed s0 :
  wp serve_init s0 (fun _ s => opentab_wf s) /\
  forall s qs rs s', opentab_wf s -> serve qs s = Ret rs s' -> opentab_wf s'.
Proof. split; [apply serve_init_wf|]. intros s qs rs s' W E. by eapply serve_kept. Qed.

Lemma server_step_kept s s' i :
  opentab_wf s -> 0 <= i < MAXOPEN -> held s i -> server_step s s' ->
  opentab_wf s' /\ opentab s' !! i = opentab s !! i.
Proof.
  intros W Hi Hh [q a s1 E|k Hk|k Hk|a b Ha]; [|done..].
  pose proof (serve_one_ok s q W a s1 E) as Hkept. split; [by apply (proj1 Hkept W)|].
  apply (proj2 Hkept i Hi). tauto.
Qed.

(** A run of the server and its clients in which entry [i] has a client at each step. *)
Definition held_step (i : Z) (s s' : FsState) : Prop := held s i /\ server_step s s'.

Lemma held_run s s' i :
  rtc (held_step i) s s' -> opentab_wf s -> 0 <= i < MAXOPEN -> opentab_wf s' /\ opentab s' !! i = opentab s !! i.
Proof.
  intros Hrun. induction Hrun as [s|s s1 s2 [Hh Hstep] _ IH]; intros W Hi; [done|].
  destruct (server_step_kept s s1 i W Hi Hh Hstep) as [W1 E1]. destruct (IH W1 Hi) as [W2 E2].
  split; [done|congruence].
Qed.

Lemma openfile_lookup_accepts s whom i o :
  opentab s !! i = Some o -> entry_wf i o -> fd_refs s i <> 1 ->
  openfile_lookup whom (i32 (o_fileid o)) s = Ret (0, Some i) s.
Proof.
  intros Ho (Hfd & Hmod & Hr) Hh. unfold openfile_lookup.
  assert (u32 (i32 (o_fileid o)) = o_fileid o) as -> by (rewrite wrap_swrap by done; by apply wrap_small).
  cbn zeta. rewrite Hmod. erewrite bind_Ret by done.
  assert (open_entry i s = o) as -> by (unfold open_entry; by rewrite Ho).
  rewrite Hfd. erewrite bind_Ret by apply pageref_fd. destruct (Z.eqb_spec (fd_refs s i) 1) as [E|_]; [done|].
  by rewrite Z.eqb_refl.
Qed.

(** C18: As long as some client maps the descriptor page of an open file, its entry in the
    table is not reused: whatever requests arrive, and whatever clients do in between
    with the pages they share with the server (unmap them, map them again, store bytes
    in them), the entry keeps its id, the address of the file structure, the mode and the
    descriptor page, and as long as it has a client its id is accepted and leads to it.
    (The claim is about the entry: the file structure it points at may be reused when the
    file is removed, see [removed_file_id].) *)
Theorem open_files_stable s s' i o :
  opentab_wf s -> 0 <= i < MAXOPEN -> opentab s !! i = Some o -> rtc (held_step i) s s' ->
  opentab s' !! i = Some o /\
  (held s' i -> forall whom, openfile_lookup whom (i32 (o_fileid o)) s' = Ret (0, Some i) s').
Proof.
  intros W Hi Ho Hrun. destruct (held_run s s' i Hrun W Hi) as [W' E]. rewrite Ho in E. split; [exact E|].
  intros [_ Hh] whom. apply openfile_lookup_accepts; [done| |done].
  destruct (W' i Hi) as (o' & Ho' & Hwf). congruence.
Qed.

(** ** Memory outside the disk map *)
Lemma agree_reserved v v' :
  agree v v' -> v_nblocks v <= 786432 -> v_nblocks v = v_nblocks v' /\ (reserved v -> reserved v').
Proof.
  intros Hag Hmax.
  assert (v_nblocks v = v_nblocks v') as Hn by (apply vld_ext; intros a Ha; apply Hag; jlia).
  assert (forall c, 0 <= c < v_nblocks v -> v_free v c = v_free v' c) as Hf.
  { intros c Hc. unfold v_free. f_equal. apply vld_ext. intros a Ha. apply Hag.
    unfold DISKMAP, DISKSIZE in *. change BLKSIZE with 4096 in *. Z.div_mod_to_equations. lia. }
  split; [done|]. intros (H0 & H1 & H). unfold reserved. rewrite <- Hn. split_and!; [done|..].
  - rewrite <- Hf; [done|]. destruct (H 0); lia.
  - intros i Hi Hlt. destruct (H i Hi Hlt). rewrite <- Hf; [done|lia].
Qed.

Lemma region_page a : DISKMAP <= a < DISKMAP + DISKSIZE <-> in_region (a / 4096).
Proof. unfold in_region, DISKMAP, DISKSIZE. Z.div_mod_to_equations. lia. Qed.

Section other.
Context (s s' : FsState).
Hypothesis Hother : super_ s' = super_ s /\ bitmap_ s' = bitmap_ s /\ frames s' = frames s /\ disks s' = disks s /\
  bad_sectors s' = bad_sectors s /\ diskno s' = diskno s /\ ide_regs s' = ide_regs s.
Hypothesis Hpte : forall k, in_region k -> fpte s' !! k = fpte s !! k.
Hypothesis Hmem : forall a, in_region (a / 4096) -> ld8 (fmem s') a = ld8 (fmem s) a.

Lemma other_pte a : in_region (a / 4096) -> pte_of_va s' a = pte_of_va s a.
Proof. intros Ha. unfold pte_of_va. rewrite PPN_div. by rewrite Hpte. Qed.

Lemma other_view : agree (bc_view s) (bc_view s').
Proof.
  intros a Ha%region_page. unfold bc_view, bc_disk, cur_disk, va_is_mapped.
  destruct Hother as (_ & _ & _ & -> & _ & -> & _). by rewrite (other_pte a Ha), (Hmem a Ha).
Qed.

(** The block cache is in order whatever happens to the server's other pages. *)
Lemma bc_ok_other : bc_ok s -> bc_ok s'.
Proof.
  intros [? ? Hres Hmax Hmap Hb1 Hfr Hbad Hdrv Hsel Hclean].
  destruct Hother as (Es & Eb & Ef & Ed & Ebad & Edn & Er).
  destruct (agree_reserved _ _ other_view Hmax) as [Hn Hres'].
  assert (mapped_blocks s' = mapped_blocks s) as Hmb.
  { apply set_eq. intros k. unfold mapped_blocks. rewrite !elem_of_filter, !elem_of_dom.
    split; intros [Hk ?]; split; try done; [rewrite <- Hpte|rewrite Hpte]; done. }
  split; try congruence.
  - by apply Hres'.
  - intros k e Hk Hin. rewrite Hpte in Hk by done. rewrite <- Hn. by apply Hmap.
  - rewrite Hpte; [done|]. unfold in_region. lia.
  - unfold ide_drive, ide_reg. by rewrite Er, Ed.
  - intros k e a Hk Hin Hd Ha. rewrite Hpte in Hk by done. unfold bc_disk, cur_disk. rewrite Ed, Edn.
    rewrite Hmem by by rewrite Ha. by eapply Hclean.
Qed.
End other.

(** ** A request arrives *)
Definition with_request (q : Request) (s : FsState) : FsState :=
  s <| fmem := blit (Z.to_nat PGSIZE) (rq_page q) 0 (fmem s) fsreq |>
    <| fpte := <[PPN fsreq := rq_perm q]> (fpte s) |>.

Section request.
Context (q : Request) (s : FsState).
Hypothesis Hperm : pte_allows true (rq_perm q) = true.
Let s1 := with_request q s.

Lemma ld8_request a :
  ld8 (fmem s1) a = if decide (a / 4096 = 0xffff) then ld8 (rq_page q) (a - fsreq) else ld8 (fmem s) a.
Proof.
  change (fmem s1) with (blit (Z.to_nat PGSIZE) (rq_page q) 0 (fmem s) fsreq).
  rewrite ld8_blit. change (Z.of_nat (Z.to_nat PGSIZE)) with 4096. unfold fsreq.
  repeat case_decide; try (f_equal; lia); exfalso; Z.div_mod_to_equations; lia.
Qed.

Lemma pte_request a :
  pte_of_va s1 a = if decide (a / 4096 = 0xffff) then rq_perm q else pte_of_va s a.
Proof.
  unfold pte_of_va. rewrite !PPN_div. change (fpte s1) with (<[0xffff := rq_perm q]> (fpte s)).
  case_decide as E; [by rewrite E, lookup_insert_eq|by rewrite lookup_insert_ne].
Qed.

Lemma request_ok : bc_ok s -> bc_ok s1.
Proof.
  apply bc_ok_other; [done| |].
  - intros k Hk. change (fpte s1) with (<[0xffff := rq_perm q]> (fpte s)).
    unfold in_region in Hk. by rewrite lookup_insert_ne by lia.
  - intros a Ha. rewrite ld8_request, decide_False; [done|]. unfold in_region in Ha. lia.
Qed.

Lemma request_view a :
  bc_view s1 a = if decide (a / 4096 = 0xffff) then ld8 (rq_page q) (a - fsreq) else bc_view s a.
Proof.
  unfold bc_view, va_is_mapped, bc_disk, cur_disk. rewrite pte_request, ld8_request.
  change (disks s1) with (disks s). change (diskno s1) with (diskno s). case_decide; [|done].
  apply andb_true_iff in Hperm as [-> _]. done.
Qed.

Lemma request_own a : bc_own s1 a <-> a / 4096 = 0xffff \/ bc_own s a.
Proof.
  unfold bc_own. rewrite pte_request. case_decide as E; [|tauto]. split; [by left|].
  intros _. split; [|done]. unfold in_region. lia.
Qed.
End request.

(** ** serve_read *)
Lemma own_load s n a :
  bok s -> own_range s a (Z.of_nat n) ->
  wp (bload n a) s (fun x s' => (x = vld n (bview s) a /\ same s s') /\ fds_kept s s').
Proof.
  intros Hok Ho. apply (keeps_wp fds_kept); [keeps_auto|]. apply bload_ok; [done|].
  intros i Hi. left. by apply Ho.
Qed.

Lemma own_range_sub s a n b k : own_range s a n -> a <= b -> b + k <= a + n -> own_range s b k.
Proof. intros H Hb Hk i Hi. replace (b + i) with (a + (b - a + i)) by lia. apply H. lia. Qed.

(** Views that are equal everywhere give equal file contents. *)
Lemma v_read_ext v v' f buf off n a : (forall a, v a = v' a) -> v_read v f buf off n a = v_read v' f buf off n a.
Proof. intros H. unfold v_read, file_addr. by rewrite (blk_of_ext v v' _ _ H), !H. Qed.
Lemma f_size_ext v v' f : (forall a, v a = v' a) -> f_size_of v f = f_size_of v' f.
Proof. intros H. unfold f_size_of. f_equal. apply vld_ext. auto. Qed.

Lemma file_read_from s s1 f buf count off :
  let n := Z.min count (f_size_of (bview s) f - off) in
  same s s1 -> file_at (bview s) f -> 0 <= off <= f_size_of (bview s) f -> 0 <= count < 2 ^ 64 ->
  own_range s buf n -> (forall p, off <= p < off + n -> FileSpec.present (bview s) f (p / 4096)) ->
  wp (file_read f buf count off) s1 (fun r s' => r = n /\ fstep s s' (v_read (bview s) f buf off n) (bdisk s)).
Proof.
  intros n Hs Hf Hoff Hc Hown Hpr. assert (forall a, bview s1 a = bview s a) as Hv by apply Hs.
  pose proof (f_size_ext _ _ f Hv) as Hsz. destruct (decide (off = f_size_of (bview s) f)) as [Heof|Heof].
  { unfold file_read. wsteps. wuse f_size_ok; [apply Hs|by eapply file_at_same|]. rewrite Hsz. intros z s2 [-> Hs2].
    rewrite Z.geb_leb, Heof, Z.leb_refl. wsteps. split; [lia|]. eapply fstep_ext; [eapply same_then; [exact Hs|exact Hs2]| |done].
    intros a. unfold v_read. rewrite decide_False; [done|]. lia. }
  wuse file_read_ok; rewrite ?Hsz; [apply Hs|by eapply file_at_same|lia|done|by eapply own_range_step| |].
  - intros p Hp. eapply present_ext; [intros a; symmetry; apply Hv|]. by apply Hpr.
  - intros r s' [-> Hs']. fold n in Hs' |- *. split; [done|]. eapply fstep_ext; [eapply same_trans; [exact Hs|exact Hs']|..].
    + intros a. by apply v_read_ext.
    + apply Hs.
Qed.

Section read.
Context (s : FsState) (whom i : Z) (o : OpenFile).
Let v := bc_view s.
Let f := o_file o.
Let off := i32 (vld 4 v (o_fd o + 4)).
Let n := Z.min (Z.min (vld 8 v (fsreq + 8)) PGSIZE) (f_size_of v f - off).
Hypothesis Hok : bc_ok s.
Hypothesis Hi : 0 <= i < MAXOPEN.
Hypothesis Hio : opentab s !! i = Some o.
Hypothesis Hwf : entry_wf i o.
Hypothesis Hheld : held s i.
Hypothesis Hreq : own_range s fsreq PGSIZE.
Hypothesis Hfd : own_range s (o_fd o) PGSIZE.
Hypothesis Hid : vld 4 v fsreq = o_fileid o.
Hypothesis Hf : file_at v f.
Hypothesis Hoff : 0 <= off <= f_size_of v f.
Hypothesis Hpr : forall p, off <= p < off + n -> FileSpec.present v f (p / 4096).

Lemma fd_off_range k : 0 <= k < PGSIZE -> fsreq + PGSIZE <= o_fd o + k.
Proof. destruct Hwf as (-> & _). unfold fsreq, FILEVA, PGSIZE. lia. Qed.

Lemma serve_read_ok :
  wp (serve_read whom fsreq) s (fun r s' => r = n /\
    fstep s s' (vst 4 (v_read v f fsreq off n) (o_fd o + 4) (u32 (off + n))) (bdisk s)).
Proof.
  pose proof (vld_range 8 v (fsreq + 8) (bview_byte s)) as Hn8.
  unfold serve_read, req_n, req_fileid. wsteps.
  wuse own_load; [done|eapply own_range_sub; [exact Hreq|unfold PGSIZE; lia..]|].
  intros x s1 [[-> Hs1] Hk1]. wsteps.
  wuse own_load; [apply Hs1|eapply own_range_step, own_range_sub; [exact Hs1|exact Hreq|unfold PGSIZE; lia..]|].
  intros x s2 [[-> Hs2'] Hk2]. assert (same s s2) as Hs2 by by eapply same_then.
  assert (fds_kept s s2) as Hk by by etrans. clear Hk1 Hk2.
  rewrite (vld_ext 4 (bview s1) v fsreq), Hid by (intros; apply Hs1).
  wsteps. apply wp_elim. do 2 eexists. split.
  { apply openfile_lookup_accepts; [by rewrite (proj1 Hk)|exact Hwf|].
    rewrite (fds_kept_refs s s2) by (done || lia). apply Hheld. }
  cbn [fst snd the]. change (0 <? 0) with false. cbn beta iota. wsteps.
  assert (open_entry i s2 = o) as -> by (unfold open_entry; by rewrite (proj1 Hk), Hio).
  unfold fd_offset. wsteps.
  wuse own_load; [apply Hs2|eapply own_range_step, own_range_sub; [exact Hs2|exact Hfd|unfold PGSIZE; lia..]|].
  intros x s3 [[-> Hs3'] _]. assert (same s s3) as Hs3 by by eapply same_then.
  rewrite (vld_ext 4 (bview s2) v) by (intros; apply Hs2). wsteps. fold off f.
  assert (umin (vld 8 v (fsreq + 8)) PGSIZE = Z.min (vld 8 v (fsreq + 8)) PGSIZE) as Hum.
  { unfold umin. destruct (Z.leb_spec (vld 8 v (fsreq + 8)) PGSIZE); lia. }
  change (bview s) with v. rewrite Hum.
  wuse (file_read_from s s3 f fsreq (Z.min (vld 8 v (fsreq + 8)) PGSIZE) off); [done|done|done|unfold PGSIZE; lia| |done|].
  { eapply own_range_sub; [exact Hreq|lia|]. change (bview s) with v. lia. }
  change (bview s) with v. fold n. intros r s4 [-> Hs4].
  assert (0 <= n <= PGSIZE) as Hn by (unfold n, PGSIZE; lia).
  destruct (Z.ltb_spec n 0); [lia|]. wsteps.
  assert (own_range s4 (o_fd o + 4) 4) as Ho4
    by (eapply own_range_step, own_range_sub; [exact Hs4|exact Hfd|unfold PGSIZE; lia..]).
  wuse own_load; [apply Hs4|exact Ho4|]. intros x s5 [[-> Hs5'] _].
  assert (fstep s s5 (v_read v f fsreq off n) (bdisk s)) as Hs5.
  { eapply fstep_ext; [eapply fstep_trans; [exact Hs4|exact Hs5']|..]; apply Hs4. }
  assert (vld 4 (bview s4) (o_fd o + 4) = vld 4 v (o_fd o + 4)) as ->.
  { apply vld_ext. intros b Hb. rewrite (fstep_view _ _ _ _ _ Hs4). unfold v_read. rewrite decide_False; [done|].
    pose proof (fd_off_range (b - o_fd o) ltac:(unfold PGSIZE; lia)). lia. }
  fold off. wsteps.
  wuse (bstore_ok 4); [apply Hs5|..].
  - destruct Hwf as (-> & _). unfold FILEVA, PGSIZE. Z.div_mod_to_equations. lia.
  - apply own_writable; [apply Hs5|eapply own_range_step; [exact Hs5'|exact Ho4]|].
    apply (agree_reserved (bview s5)); [|apply (bok_nblocks s5), Hs5|apply bok_reserved, Hs5].
    intros a Ha. unfold vst. rewrite decide_False; [done|].
    destruct Hwf as (-> & _). unfold FILEVA, DISKMAP, DISKSIZE, PGSIZE, MAXOPEN in *. lia.
  - intros _ s6 Hs6. wsteps. split; [done|]. eapply fstep_ext; [eapply fstep_trans; [exact Hs5|exact Hs6]|..].
    + intros a. unfold vst. case_decide; [done|]. apply (fstep_view _ _ _ _ _ Hs5).
    + apply Hs5.
Qed.
End read.

(** ** A read request, from the client's side *)
Lemma view_own s a : bc_own s a -> bc_view s a = ld8 (fmem s) a.
Proof. intros [_ Ha]. unfold bc_view, va_is_mapped. apply andb_true_iff in Ha as [-> _]. done. Qed.

(** The answer to a request that shares no page. *)
Lemma ipc_send_reply s whom val perm :
  own_range s fsreq PGSIZE ->
  wp (ipc_send whom val None perm) s (fun rp s' => s' = s /\ rp_whom rp = whom /\ rp_val rp = u32 val /\
    rp_pg rp = None /\ forall k, 0 <= k < PGSIZE -> ld8 (rp_page rp) k = bview s (fsreq + k)).
Proof.
  intros Ho. unfold ipc_send. wsteps. split_and!; try done. intros k Hk. cbn [rp_page].
  rewrite ld8_blit. change (Z.of_nat (Z.to_nat PGSIZE)) with PGSIZE. rewrite decide_True by lia.
  symmetry. rewrite Z.sub_0_r. apply view_own. by apply Ho.
Qed.

Lemma reply_view s a : a / 4096 <> 0xffff ->
  bc_view (s <| fpte := delete (PPN fsreq) (fpte s) |>) a = bc_view s a.
Proof.
  intros Ha. unfold bc_view, va_is_mapped, pte_of_va. cbn. rewrite PPN_div.
  change (PPN fsreq) with 0xffff. by rewrite lookup_delete_ne.
Qed.

(** The state in which serve_read runs. *)
Section arrived.
Context (q : Request) (s : FsState).
Hypothesis Hperm : pte_allows true (rq_perm q) = true.
Let s1 := with_request q s.

Lemma arrived_agree : agree (bc_view s) (bc_view s1).
Proof.
  intros a Ha%region_page. unfold s1. rewrite request_view, decide_False; [done| |done].
  unfold in_region in Ha. lia.
Qed.

Lemma arrived_page m k :
  0 <= k -> k + Z.of_nat m <= 4096 -> vld m (bc_view s1) (fsreq + k) = vld m (ld8 (rq_page q)) k.
Proof.
  intros Hk. revert k Hk. induction m as [|m IH]; intros k Hk Hle; [done|]. cbn [vld].
  rewrite <- Z.add_assoc, IH by lia. unfold s1.
  rewrite request_view, decide_True by (done || unfold fsreq; Z.div_mod_to_equations; lia).
  do 2 f_equal. lia.
Qed.

Lemma arrived_own a n : own_range s a n -> own_range s1 a n.
Proof. intros H k Hk. apply request_own; [done|]. right. by apply H. Qed.
Lemma arrived_own_page : own_range s1 fsreq PGSIZE.
Proof.
  intros k Hk. apply request_own; [done|]. left. unfold fsreq, PGSIZE in *. Z.div_mod_to_equations. lia.
Qed.

Context (o : OpenFile) (i : Z).
Hypothesis Hwf : entry_wf i o.
Hypothesis Hi : 0 <= i < MAXOPEN.

Lemma fd_page_apart b : o_fd o <= b < o_fd o + PGSIZE -> b / 4096 <> 0xffff.
Proof. destruct Hwf as (-> & _). unfold FILEVA, PGSIZE. intros Hb. Z.div_mod_to_equations. lia. Qed.

Lemma arrived_fd : vld 4 (bc_view s1) (o_fd o + 4) = vld 4 (bc_view s) (o_fd o + 4).
Proof.
  apply vld_ext. intros b Hb. unfold s1. rewrite request_view, decide_False; [done| |done].
  apply (fd_page_apart). unfold PGSIZE. lia.
Qed.
End arrived.

Lemma reply_ok s : bc_ok s -> bc_ok (s <| fpte := delete (PPN fsreq) (fpte s) |>).
Proof.
  apply bc_ok_other; [done| |done]. intros k Hk. change (PPN fsreq) with 0xffff. cbn.
  unfold in_region in Hk. by rewrite lookup_delete_ne by lia.
Qed.

Lemma reply_own s a n : (forall k, 0 <= k < n -> (a + k) / 4096 <> 0xffff) -> own_range s a n ->
  own_range (s <| fpte := delete (PPN fsreq) (fpte s) |>) a n.
Proof.
  intros Hk Ho k Hr. destruct (Ho k Hr) as [H1 H2]. split; [done|]. unfold pte_of_va in *. cbn.
  rewrite PPN_div in *. change (PPN fsreq) with 0xffff. rewrite lookup_delete_ne; [done|]. specialize (Hk k Hr). congruence.
Qed.

(** What a read request does to the server: the answer, and that only the seek position
    has changed. *)
Definition read_answer (s : FsState) (o : OpenFile) (q : Request) (off n : Z) (a : option Reply) (s' : FsState) : Prop :=
  let v := bc_view s in
  (exists rp, a = Some rp /\ rp_whom rp = rq_whom q /\ rp_val rp = n /\ rp_pg rp = None /\
     forall k, 0 <= k < n -> ld8 (rp_page rp) k = v (file_addr v (o_file o) (off + k))) /\
  bc_ok s' /\ agree v (bc_view s') /\ own_range s' (o_fd o) PGSIZE /\ fds_kept s s' /\
  forall b, o_fd o <= b < o_fd o + PGSIZE -> bc_view s' b = vst 4 v (o_fd o + 4) (off + n) b.

Section read_request.
Context (s : FsState) (q : Request) (i : Z) (o : OpenFile).
Let v := bc_view s.
Let f := o_file o.
Let page := ld8 (rq_page q).
Let off := i32 (vld 4 v (o_fd o + 4)).
Let n := Z.min (Z.min (vld 8 page 8) PGSIZE) (f_size_of v f - off).
Hypothesis Hok : bc_ok s.
Hypothesis Hi : 0 <= i < MAXOPEN.
Hypothesis Hio : opentab s !! i = Some o.
Hypothesis Hwf : entry_wf i o.
Hypothesis Hheld : held s i.
Hypothesis Hfd : own_range s (o_fd o) PGSIZE.
Hypothesis Hrq : u32 (rq_req q) = FSREQ_READ.
Hypothesis Hperm : pte_allows true (rq_perm q) = true.
Hypothesis Hid : vld 4 page 0 = o_fileid o.
Hypothesis Hf : file_at v f.
Hypothesis Hoff : 0 <= off <= f_size_of v f.
Hypothesis Hpr : forall p, off <= p < off + n -> FileSpec.present v f (p / 4096).
Let s1 := with_request q s.

Lemma request_range : 0 <= n <= PGSIZE /\ off + n < 2 ^ 31.
Proof.
  pose proof (vld_range 8 page 8 (ld8_range (rq_page q))). assert (f_size_of v f < 2 ^ 31) by apply (swrap_range 32), eq_refl.
  unfold n, PGSIZE. lia.
Qed.

(** The view at the end, outside the page of the request. *)
Lemma read_view s2 b :
  (forall b, bc_view s2 b = vst 4 (v_read (bc_view s1) f fsreq off n) (o_fd o + 4) (u32 (off + n)) b) ->
  b / 4096 <> 0xffff -> bc_view s2 b = vst 4 v (o_fd o + 4) (off + n) b.
Proof.
  intros Hv Hb. pose proof request_range. rewrite Hv. unfold vst, v_read. rewrite (wrap_small 32) by lia.
  case_decide; [done|]. rewrite decide_False by (unfold fsreq, PGSIZE in *; Z.div_mod_to_equations; lia).
  unfold s1. by rewrite request_view, decide_False.
Qed.

Lemma serve_one_read : wp (serve_one q) s (read_answer s o q off n).
Proof.
  pose proof (arrived_agree q s Hperm) as Hag. fold s1 v in Hag.
  pose proof (agree_meta v _ f Hag (ok_nblocks _ Hok) Hf) as Hm. pose proof request_range as Hnr.
  assert (i32 (vld 4 (bc_view s1) (o_fd o + 4)) = off) as Hoff1 by (unfold s1, off; by rewrite (arrived_fd q s Hperm o i Hwf)).
  assert (Z.min (Z.min (vld 8 (bc_view s1) (fsreq + 8)) PGSIZE) (f_size_of (bc_view s1) f - off) = n) as Hn1
    by (unfold n; rewrite <- (meta_size _ _ _ Hm); unfold s1; by rewrite arrived_page).
  assert (fds_kept s s1) as Hk1 by exact (map_request_ok q s tt s1 eq_refl).
  unfold serve_one, map_request, unmap_request. rewrite Hrq. change (FSREQ_READ =? FSREQ_OPEN) with false.
  change (handlers FSREQ_READ) with (Some serve_read).
  pose proof Hperm as [HP _]%andb_true_iff. apply negb_true_iff in HP. rewrite HP. wsteps.
  match goal with |- wp _ ?st _ => change st with s1 end.
  eapply wp_mono; [apply (keeps_wp fds_kept); [exact (keeps_handlers FSREQ_READ serve_read _ _ eq_refl)|];
    apply (serve_read_ok s1 (rq_whom q) i o); try done; cbn zeta; change (o_file o) with f; rewrite ?Hoff1, ?Hn1|].
  - by apply request_ok.
  - unfold held. rewrite (fds_kept_refs s s1); [done|lia|done].
  - by apply arrived_own_page.
  - by apply arrived_own.
  - unfold s1. replace fsreq with (fsreq + 0) by done. by rewrite arrived_page.
  - by eapply meta_file_at.
  - by rewrite <- (meta_size _ _ _ Hm).
  - intros p Hp. eapply meta_present; [exact Hm|]. by apply Hpr.
  - cbv zeta. change (o_file o) with f. rewrite Hoff1, Hn1. intros r s2 [[-> Hs2] Hk2]. wsteps. cbn [fst snd].
    wuse ipc_send_reply; [eapply own_range_step; [exact Hs2|by apply arrived_own_page]|].
    intros rp s3 (-> & Hw & Hval & Hpgn & Hbytes). wsteps.
    assert (forall b, b / 4096 <> 0xffff -> bc_view s2 b = vst 4 v (o_fd o + 4) (off + n) b) as Hv2
      by (intros b Hb; apply read_view; [apply Hs2|done]).
    assert (forall k, 0 <= k < PGSIZE -> (o_fd o + k) / 4096 <> 0xffff) as Hpg
      by (intros k Hk; apply (fd_page_apart o i Hwf Hi); lia).
    split_and!.
    + exists rp. split_and!; [done|done|rewrite Hval; apply wrap_small; unfold PGSIZE in *; lia|done|].
      intros k Hk. rewrite Hbytes by lia. rewrite (fstep_view _ _ _ _ _ Hs2). unfold vst.
      pose proof (fd_page_apart o i Hwf Hi (fsreq + k)) as Hap.
      rewrite decide_False by (intros Hb; apply Hap; [unfold PGSIZE; lia|unfold fsreq, PGSIZE in *; Z.div_mod_to_equations; lia]).
      unfold v_read. rewrite decide_True by lia. replace (fsreq + k - fsreq) with k by lia.
      assert (FileSpec.present v f ((off + k) / 4096)) as Hpk by (apply Hpr; lia).
      change (bview s1) with (bc_view s1). rewrite <- (meta_file_addr v (bc_view s1) f Hm) by done. symmetry. apply Hag.
      apply (file_addr_block v f); [apply (ok_nblocks _ Hok)|done].
    + apply reply_ok, Hs2.
    + intros b Hb. assert (b / 4096 <> 0xffff) as Hb' by (unfold DISKMAP in Hb; Z.div_mod_to_equations; lia).
      rewrite reply_view, Hv2 by done. unfold vst. rewrite decide_False; [done|]. destruct Hwf as (-> & _).
      unfold FILEVA, DISKMAP, DISKSIZE, PGSIZE in *. lia.
    + apply reply_own; [done|]. eapply own_range_step; [exact Hs2|]. by apply arrived_own.
    + etrans; [exact Hk1|]. etrans; [exact Hk2|]. exact (unmap_request_ok s2 tt _ eq_refl).
    + intros b Hb. assert (b / 4096 <> 0xffff) as Hb' by (replace b with (o_fd o + (b - o_fd o)) by lia; apply Hpg; lia).
      by rewrite reply_view, Hv2.
Qed.
End read_request.

(** C17: A well-formed read request on a file that the client has open is answered with
    the number of bytes read, at most a page, and with exactly the bytes of the file
    from the seek position on in the page of the request; the seek position in the
    descriptor page moves on by as much.  The request may have any sender and the
    blocks may be in memory or only on disk. *)
Theorem read_request_answered s q i o :
  let v := bc_view s in
  let f := o_file o in
  let page := ld8 (rq_page q) in
  let off := i32 (vld 4 v (o_fd o + 4)) in
  let n := Z.min (Z.min (vld 8 page 8) PGSIZE) (f_size_of v f - off) in
  bc_ok s -> 0 <= i < MAXOPEN -> opentab s !! i = Some o -> entry_wf i o -> held s i ->
  own_range s (o_fd o) PGSIZE ->
  u32 (rq_req q) = FSREQ_READ -> pte_allows true (rq_perm q) = true -> vld 4 page 0 = o_fileid o ->
  file_at v f -> 0 <= off <= f_size_of v f ->
  (forall p, off <= p < off + n -> FileSpec.present v f (p / 4096)) ->
  wp (serve_one q) s (fun a s' => exists rp, a = Some rp /\ rp_whom rp = rq_whom q /\ rp_val rp = n /\
    rp_pg rp = None /\
    (forall k, 0 <= k < n -> ld8 (rp_page rp) k = v (file_addr v f (off + k))) /\
    vld 4 (bc_view s') (o_fd o + 4) = off + n).
Proof.
  intros v f page off n Hok Hi Hio Hwf Hheld Hfd Hrq Hperm Hid Hf Hoff Hpr.
  wuse (serve_one_read s q i o); [done..|]. intros a s' ((rp & Ha & Hw & Hval & Hpg & Hb) & _ & _ & _ & _ & Hfdv).
  exists rp. split_and!; [done..|]. rewrite (vld_ext 4 _ (vst 4 v (o_fd o + 4) (off + n))).
  - rewrite vld_vst_eq. apply Z.mod_small. pose proof (request_range s q o Hoff) as Hr. change (256 ^ Z.of_nat 4) with (2 ^ 32).
    fold v f page off n in Hr. lia.
  - intros b Hb'. apply Hfdv. unfold PGSIZE. lia.
Qed.

(** ** Ids that were never given out *)

Lemma null_set_size s size : page_there s 0 = false -> file_set_size 0 size s = Stop FPanic s.
Proof.
  intros H. unfold file_set_size. apply bind_Stop. unfold f_size. apply bind_Stop.
  change (0 + 128) with 128. change (bload 4 128) with (load_with pgfault 4 128). cbn [load_with].
  apply bind_Stop. unfold touch. erewrite bind_Ret by done. apply bind_Stop.
  unfold page_there in H. unfold pte_allows, pte_of_va. change (PPN 128) with 0. rewrite H. done.
Qed.

(** openfile_lookup rejects an entry whose page has exactly one reference and not one
    whose page was never allocated, so that the ids 0 to MAXOPEN-1, which serve_init
    gives to entries that nobody opened, are accepted; the file of such an entry is
    the null pointer, and a request to set its size panics the server. *)
Theorem unopened_id_panics s q i o :
  bc_ok s -> 0 <= i < MAXOPEN -> opentab s !! i = Some o -> entry_wf i o -> o_file o = 0 ->
  fd_refs s i = 0 -> page_there s 0 = false ->
  u32 (rq_req q) = FSREQ_SET_SIZE -> pte_allows true (rq_perm q) = true ->
  vld 4 (ld8 (rq_page q)) 0 = o_fileid o ->
  exists s', serve_one q s = Stop FPanic s'.
Proof.
  intros Hok Hi Hio Hwf Hnull Hrefs Hzero Hrq Hperm Hid.
  set (s1 := with_request q s). pose proof Hwf as (Hfd & Hmod & Hr).
  assert (fds_kept s s1) as Hk1 by exact (map_request_ok q s tt s1 eq_refl).
  pose proof (request_ok q s Hok) as Hok1. fold s1 in Hok1.
  pose proof (arrived_own_page q s Hperm) as Ho1. fold s1 in Ho1.
  destruct (proj1 (wp_elim _ _ _) (own_load s1 4 fsreq Hok1 ltac:(eapply own_range_sub; [exact Ho1|unfold PGSIZE; lia..])))
    as (x & s2 & E2 & [-> Hs2] & Hk2).
  destruct (proj1 (wp_elim _ _ _) (own_load s2 4 (fsreq + 4) (fstep_ok _ _ _ _ Hs2)
    ltac:(eapply own_range_sub; [eapply own_range_step; [exact Hs2|exact Ho1]|unfold PGSIZE; lia..])))
    as (x & s3 & E3 & _ & Hk3).
  assert (fds_kept s s2) as Hk by by etrans.
  assert (page_there s3 0 = false) as Hz3.
  { rewrite <- Hzero. assert (fds_kept s s3) as [_ H0] by by etrans. apply H0. lia. }
  pose proof Hperm as [HP _]%andb_true_iff. apply negb_true_iff in HP.
  assert (vld 4 (bview s1) fsreq = o_fileid o) as Hid1.
  { unfold s1. rewrite <- Hid, <- (arrived_page q s Hperm 4 0) by (done || lia). by rewrite Z.add_0_r. }
  assert (openfile_lookup (rq_whom q) (i32 (o_fileid o)) s2 = Ret (0, Some i) s2) as Hl.
  { apply openfile_lookup_accepts; [by rewrite (proj1 Hk)|done|]. rewrite (fds_kept_refs s s2) by (done || lia). lia. }
  assert (open_entry i s2 = o) as He2 by (unfold open_entry; by rewrite (proj1 Hk), Hio).
  assert (serve_set_size (rq_whom q) fsreq s1 = Stop FPanic s3) as Hstop.
  { unfold serve_set_size. erewrite bind_Ret by (unfold req_fileid; erewrite bind_Ret by exact E2; done).
    rewrite Hid1. erewrite bind_Ret by exact Hl. cbn [fst snd]. change (0 <? 0) with false. cbn beta iota.
    erewrite bind_Ret by done. erewrite bind_Ret by done. rewrite He2.
    erewrite bind_Ret by (unfold req_size; erewrite bind_Ret by exact E3; done).
    rewrite Hnull. by apply null_set_size. }
  unfold serve_one. rewrite HP, Hrq. change (FSREQ_SET_SIZE =? FSREQ_OPEN) with false.
  change (handlers FSREQ_SET_SIZE) with (Some serve_set_size). exists s3.
  erewrite bind_Ret by done. apply bind_Stop, bind_Stop. exact Hstop.
Qed.

(** ** Concrete runs *)
Definition str_page (l : list Z) : bytes := list_to_map (zip (seqZ 0 (Z.of_nat (length l))) l).
Definition open_request (name : Z) (omode : Z) : Request :=
  mkRequest FSREQ_OPEN 0x1001 7 (st32 (str_page [name]) MAXPATHLEN omode).
Definition read_request (id n : Z) : Request := mkRequest FSREQ_READ 0x1001 7 (st64 (st32 ∅ 0 id) 8 n).
Definition size_request (id n : Z) : Request := mkRequest FSREQ_SET_SIZE 0x1001 7 (st32 (st32 ∅ 0 id) 4 n).
Definition write_request (id n : Z) : Request :=
  mkRequest FSREQ_WRITE 0x1001 7 (memset (st64 (st32 ∅ 0 id) 8 n) 16 0x55 (PGSIZE - 16)).

(** The server after its start, and after it has opened the file "a" for a client. *)
Definition state_of {A} (o : outcome FsState fstop A) : FsState :=
  match o with Ret _ s => s | Stop _ s => s end.
Definition started : FsState := state_of ((serve_init;; fs_init) demo_server).
Definition opened_a : FsState := state_of (serve [open_request 0x61 2] started).

Definition entry_ok (s : FsState) (i : Z) : bool :=
  match opentab s !! i with
  | Some o => (o_fd o =? FILEVA + i * PGSIZE) && (o_fileid o mod MAXOPEN =? i) &&
              (0 <=? o_fileid o) && (o_fileid o <? 2 ^ 32)
  | None => false
  end.
Lemma opentab_wf_check s : forallb (entry_ok s) (seqZ 0 MAXOPEN) = true -> opentab_wf s.
Proof.
  rewrite forallb_forall. intros H i Hi. specialize (H i). rewrite <- list_elem_of_In, elem_of_seqZ in H.
  specialize (H ltac:(lia)). unfold entry_ok in H. destruct (opentab s !! i) as [o|]; [|done].
  exists o. split; [done|]. rewrite !andb_true_iff in H. unfold entry_wf. lia.
Qed.

Lemma opened_wf : opentab_wf opened_a.
Proof. apply opentab_wf_check. vm_compute. reflexivity. Qed.

Definition returned {A} (o : outcome FsState fstop A) : bool := match o with Ret _ _ => true | Stop _ _ => false end.
Lemma returned_Ret {A} (o : outcome FsState fstop A) : returned o = true -> exists a s', o = Ret a s'.
Proof. destruct o; [eauto|done]. Qed.

(** A second client maps the descriptor page, a size is set for the file, the first client
    drops the page, and another file is opened. *)
Definition busy1 : FsState := opened_a <| shared := <[0xD0000 := shares opened_a 0xD0000 + 1]> (shared opened_a) |>.
Definition busy2 : FsState := state_of (serve_one (size_request 1024 100) busy1).
Definition busy3 : FsState := busy2 <| shared := <[0xD0000 := shares busy2 0xD0000 - 1]> (shared busy2) |>.
Definition busy4 : FsState := state_of (serve_one (open_request 0x62 (2 + O_CREAT)) busy3).

Definition held_check (s : FsState) (i : Z) : bool := negb (fd_refs s i =? 0) && negb (fd_refs s i =? 1).
Lemma held_check_ok s i : held_check s i = true -> held s i.
Proof. unfold held_check, held. rewrite andb_true_iff, !negb_true_iff. lia. Qed.

Lemma held_step_check s s' : held_check s 0 = true -> server_step s s' -> held_step 0 s s'.
Proof. intros H1 H2. split; [by apply held_check_ok|done]. Qed.

Lemma serve_state {A} (m : F A) s : returned (m s) = true -> exists a, m s = Ret a (state_of (m s)).
Proof. destruct (m s); [by eexists|done]. Qed.

Lemma busy_run : rtc (held_step 0) opened_a busy4.
Proof.
  assert (returned (serve_one (size_request 1024 100) busy1) = true) as R2 by (vm_compute; reflexivity).
  assert (returned (serve_one (open_request 0x62 (2 + O_CREAT)) busy3) = true) as R4 by (vm_compute; reflexivity).
  assert (0 < shares opened_a 0xD0000 < 65534) as H1 by (vm_compute; split; reflexivity).
  assert (0 < shares busy2 0xD0000) as H3 by (vm_compute; reflexivity).
  assert (held_check opened_a 0 = true) as h0 by (vm_compute; reflexivity).
  assert (held_check busy1 0 = true) as h1 by (vm_compute; reflexivity).
  assert (held_check busy2 0 = true) as h2 by (vm_compute; reflexivity).
  assert (held_check busy3 0 = true) as h3 by (vm_compute; reflexivity).
  destruct (serve_state _ _ R2) as [a2 E2]. destruct (serve_state _ _ R4) as [a4 E4].
  refine (rtc_l _ _ _ _ (held_step_check _ busy1 h0 (step_map _ _ H1)) _).
  refine (rtc_l _ _ _ _ (held_step_check _ busy2 h1 (step_request _ _ _ _ E2)) _).
  refine (rtc_l _ _ _ _ (held_step_check _ busy3 h2 (step_unmap _ _ H3)) _).
  refine (rtc_l _ _ _ _ (held_step_check _ busy4 h3 (step_request _ _ _ _ E4)) _).
  apply rtc_refl.
Qed.

Lemma open_files_stable_witness :
  opentab busy4 !! 0 = Some (open_entry 0 opened_a) /\ openfile_lookup 0x1001 1024 busy4 = Ret (0, Some 0) busy4.
Proof.
  assert (opentab opened_a !! 0 = Some (open_entry 0 opened_a)) as Ho by (vm_compute; reflexivity).
  assert (i32 (o_fileid (open_entry 0 opened_a)) = 1024) as Hid by (vm_compute; reflexivity).
  assert (held_check busy4 0 = true) as Hh by (vm_compute; reflexivity).
  destruct (open_files_stable opened_a busy4 0 (open_entry 0 opened_a)) as [E H].
  - exact opened_wf.
  - unfold MAXOPEN. lia.
  - exact Ho.
  - exact busy_run.
  - split; [exact E|]. rewrite <- Hid. apply H. apply held_check_ok. exact Hh.
Defined.

(** A file that is removed while it is open: its structure in the directory is free, the
    next file that is created takes it, and the id of the open file leads to the new
    file. *)
Definition remove_request (name : Z) : Request := mkRequest FSREQ_REMOVE 0x1001 7 (str_page [name]).
Example removed_file_id :
  let s' := state_of (serve [remove_request 0x61; open_request 0x62 (2 + O_CREAT)] opened_a) in
  open_entry 0 s' = open_entry 0 opened_a /\
  value_of (load_bytes 2 (o_file (open_entry 0 opened_a)) opened_a) = Some [0x61; 0] /\
  value_of (load_bytes 2 (o_file (open_entry 0 s')) s') = Some [0x62; 0].
Proof. vm_compute. split_and!; reflexivity. Qed.

(** The server of FsThms with the file "a" open as entry 0, its descriptor page shared
    with one client. *)
Definition entry_a : OpenFile := mkOpenFile 1024 file_a 2 FILEVA.
Definition serving : FsState :=
  small_server <| fpte := <[0xD0000 := 7]> (fpte small_server) |>
    <| opentab := {[ 0 := entry_a; 5 := mkOpenFile 5 0 0 (FILEVA + 5 * PGSIZE) ]} |>
    <| shared := {[ 0xD0000 := 1 ]} |>.

Lemma serving_ok : bc_ok serving.
Proof.
  apply (bc_ok_other small_server); [done| |done|exact small_ok].
  intros k Hk. unfold in_region in Hk.
  change (fpte serving) with (<[0xD0000 := 7]> (fpte small_server)). by rewrite lookup_insert_ne by lia.
Qed.

Lemma serving_view : agree (bc_view small_server) (bc_view serving).
Proof.
  apply (other_view small_server serving); [done| |done]. intros k Hk. unfold in_region in Hk.
  change (fpte serving) with (<[0xD0000 := 7]> (fpte small_server)). by rewrite lookup_insert_ne by lia.
Qed.

Lemma serving_meta : meta_agree (bc_view small_server) (bc_view serving) file_a.
Proof. apply agree_meta; [exact serving_view|apply (ok_nblocks _ small_ok)|exact small_file]. Qed.

Lemma serving_fd : own_range serving FILEVA PGSIZE.
Proof.
  intros k Hk. split.
  - unfold in_region, FILEVA, PGSIZE in *. Z.div_mod_to_equations. lia.
  - unfold pte_of_va. replace (PPN (FILEVA + k)) with 0xD0000; [reflexivity|].
    rewrite PPN_div. unfold FILEVA, PGSIZE in *. Z.div_mod_to_equations. lia.
Qed.

Lemma read_request_answered_witness :
  wp (serve_one (read_request 1024 8)) serving (fun a s' => exists rp, a = Some rp /\ rp_val rp = 8 /\
    ld8 (rp_page rp) 7 = 0x2A).
Proof.
  assert (i32 (vld 4 (bc_view serving) (o_fd entry_a + 4)) = 0) as Hoff by (vm_compute; reflexivity).
  assert (f_size_of (bc_view serving) (o_file entry_a) = 5000) as Hsz by (vm_compute; reflexivity).
  assert (vld 8 (ld8 (rq_page (read_request 1024 8))) 8 = 8) as Hn by (vm_compute; reflexivity).
  eapply wp_mono.
  - apply (read_request_answered serving (read_request 1024 8) 0 entry_a serving_ok).
    + unfold MAXOPEN. lia.
    + reflexivity.
    + split_and!; done.
    + split; vm_compute; discriminate.
    + exact serving_fd.
    + reflexivity.
    + reflexivity.
    + vm_compute. reflexivity.
    + eapply meta_file_at; [exact serving_meta|exact small_file].
    + rewrite Hoff, Hsz. lia.
    + rewrite Hoff, Hsz, Hn. intros p Hp. eapply meta_present; [exact serving_meta|].
      apply small_present. change (Z.min (Z.min 8 PGSIZE) (5000 - 0)) with 8 in Hp. Z.div_mod_to_equations. lia.
  - rewrite Hoff, Hsz, Hn. change (Z.min (Z.min 8 PGSIZE) (5000 - 0)) with 8.
    intros a s' (rp & Ha & _ & Hval & _ & Hb & _). exists rp. split_and!; [exact Ha|exact Hval|].
    rewrite (Hb 7) by lia. vm_compute. reflexivity.
Defined.

Lemma unopened_id_panics_witness : exists s', serve_one (size_request 5 0) serving = Stop FPanic s'.
Proof.
  apply (unopened_id_panics serving (size_request 5 0) 5 (mkOpenFile 5 0 0 (FILEVA + 5 * PGSIZE))).
  - exact serving_ok.
  - unfold MAXOPEN. lia.
  - reflexivity.
  - split_and!; done.
  - reflexivity.
  - vm_compute. reflexivity.
  - vm_compute. reflexivity.
  - reflexivity.
  - reflexivity.
  - vm_compute. reflexivity.
Defined.

(** A write of sizeof(req_buf) bytes: the buffer starts at offset 16 of the request
    page and is declared 12 bytes shorter than a page, so that its last four bytes lie
    beyond the page; the server takes them from the page after it, which is block 0
    of the disk. *)
Example full_write_overruns :
  value_of ((serve_one (write_request 1024 PGSIZE);;
             blk ← file_get_block (DISKMAP + 3 * 4096) 0;
             b ← the blk.2;
             load_bytes 6 (b + 4078)) opened_a) = Some [0x55; 0x55; 0; 0; 0; 0].
Proof. vm_compute. reflexivity. Qed.
