(* ===== verification/Umem.v ===== *)
(** * Loads and stores of user code, and strings in user memory

    A byte is read or written through the page tables of the running environment, where
    the entry of its page allows it; more bytes are so many accesses.  The strings are
    those of lib/string.c for user programs.  In the proofs a byte that the environment
    reads is [vchar] in its abstract memory. *)
From S2P Require Import Prelude Mmu CMem Console KState Pmap FreeList PageTable Walk PmapSpec DemoState Env E1000 Syscall EnvThms SyscallThms AddrSpace Isolation Fork ForkThms Str.

Definition uload8 (va : Z) : K Z :=
  e ← vpt va;
  if Z.land e (Z.lor PTE_P PTE_U) =? Z.lor PTE_P PTE_U
  then gets (fun s => ld8 (mem s) (e / 4096 * 4096 + va mod 4096))
  else stop Undefined.
Definition ustore8 (va v : Z) : K unit :=
  e ← vpt va;
  if Z.land e (Z.lor (Z.lor PTE_P PTE_U) PTE_W) =? Z.lor (Z.lor PTE_P PTE_U) PTE_W
  then modify (fun s => s <| mem := st8 (mem s) (e / 4096 * 4096 + va mod 4096) v |>)
  else stop Undefined.

Fixpoint uloadn (n : nat) (va : Z) : K Z :=
  match n with
  | O => mret 0
  | S n' => b ← uload8 va; r ← uloadn n' (va + 1); mret (b + 256 * r)
  end.
Fixpoint ustoren (n : nat) (va v : Z) : K unit :=
  match n with
  | O => mret tt
  | S n' => ustore8 va v;; ustoren n' (va + 1) (v / 256)
  end.

(** strlen and strcpy. *)
Fixpoint ustrlen_loop (fuel : nat) (s n : Z) : K Z :=
  match fuel with
  | O => stop Diverge
  | S fuel' => c ← uload8 s; if c =? 0 then mret n else ustrlen_loop fuel' (s + 1) (i32 (n + 1))
  end.
Definition ustrlen (fuel : nat) (s : Z) : K Z := ustrlen_loop fuel s 0.
Fixpoint ustrcpy (fuel : nat) (dst src : Z) : K unit :=
  match fuel with
  | O => stop Diverge
  | S fuel' => c ← uload8 src; ustore8 dst c;; if c =? 0 then mret tt else ustrcpy fuel' (dst + 1) (src + 1)
  end.

(** ** What an environment reads *)
Lemma in_page e va : (e / 4096 * 4096 + va mod 4096) / 4096 = e / 4096.
Proof. Z.div_mod_to_equations. lia. Qed.
Section umem.
Context (roots : Z -> Prop) (sp : Z -> option Z) (outside : Z -> Z) (rp : Z).
Hypothesis Hrp : sp 0 = Some rp.
Abbreviation running := (in_parent roots sp outside rp).

Definition vchar (A : vspace) (va b : Z) : Prop :=
  user_va va /\ exists e, entries A !! (rp, VPN va) = Some e /\ Z.land e (Z.lor PTE_P PTE_U) = Z.lor PTE_P PTE_U /\
    contents A (e / 4096 * 4096 + va mod 4096) = b.
Fixpoint vstr (A : vspace) (va : Z) (l : list Z) : Prop :=
  match l with [] => vchar A va 0 | c :: l' => vchar A va c /\ c <> 0 /\ vstr A (va + 1) l' end.
Fixpoint vword (A : vspace) (n : nat) (va v : Z) : Prop :=
  match n with O => v = 0 | S n' => vchar A va (v mod 256) /\ vword A n' (va + 1) (v / 256) end.

Lemma vpt_entry s l A va e :
  running s l A -> user_va va -> entries A !! (rp, VPN va) = Some e -> vpt va s = Ret e s.
Proof.
  intros Hin Hva He. pose proof (parent_root _ _ _ _ Hrp _ _ _ Hin) as Hr. destruct Hin as [Hcr Hso].
  destruct (so_used _ _ _ _ _ _ Hso _ _ He) as (Hz & _).
  assert (pte_of (mem s) rp va = e) as Hp by by rewrite (so_pte _ _ _ _ _ _ Hso rp va Hr Hva), He.
  rewrite <- Hp. eapply vpt_ok; [by eapply so_pt|by apply user_va_ok|done|congruence].
Qed.

Lemma uload8_ok s l A va b : running s l A -> vchar A va b -> uload8 va s = Ret b s.
Proof.
  intros Hin (Hva & e & He & Hfl & Hb). unfold uload8, mbind, M_bind. rewrite (vpt_entry s l A va e) by done.
  rewrite Hfl, Z.eqb_refl. destruct Hin as [_ Hso]. unfold gets. f_equal. rewrite <- Hb.
  eapply so_bytes; [done|exact He|apply in_page].
Qed.

Lemma uloadn_ok n s l A va v : running s l A -> vword A n va v -> uloadn n va s = Ret v s.
Proof.
  intros Hin. revert va v. induction n as [|n IH]; intros va v; cbn [vword uloadn]; [by intros ->|]. intros [Hb Hr].
  unfold mbind, M_bind. rewrite (uload8_ok _ _ _ _ _ Hin Hb), (IH _ _ Hr). unfold mret, M_ret. f_equal.
  pose proof (Z.div_mod v 256). lia.
Qed.

Lemma ustrlen_ok fuel s l A va str :
  running s l A -> vstr A va str -> (length str < fuel)%nat -> Z.of_nat (length str) < 2 ^ 31 ->
  ustrlen fuel va s = Ret (Z.of_nat (length str)) s.
Proof.
  intros Hin Hs Hf Hl. unfold ustrlen.
  assert (forall n, 0 <= n -> n + Z.of_nat (length str) < 2 ^ 31 -> ustrlen_loop fuel va n s = Ret (n + Z.of_nat (length str)) s) as H;
    [|rewrite H by lia; f_equal; lia].
  clear Hl. revert va str Hs Hf. induction fuel as [|fuel IH]; intros va str Hs Hf n Hn Hl; [lia|]. cbn [ustrlen_loop].
  unfold mbind, M_bind. destruct str as [|c str]; cbn [vstr length] in *.
  - rewrite (uload8_ok _ _ _ _ _ Hin Hs). cbn. unfold mret, M_ret. f_equal. lia.
  - destruct Hs as (Hc & Hc0 & Hs). rewrite (uload8_ok _ _ _ _ _ Hin Hc), (proj2 (Z.eqb_neq c 0)) by done.
    rewrite swrap_small by lia. rewrite (IH (va + 1) str Hs) by lia. f_equal. lia.
Qed.

(** A store in user mode. *)
Definition overwrite (A : vspace) (p : Z) (m : bytes) : vspace :=
  mkVspace (entries A) (fun a => if decide (a / 4096 = p) then ld8 m a else contents A a) (zero_refs A).

Lemma store_own s l A k m e :
  running s l A -> entries A !! (rp, k) = Some e -> (forall a, a / 4096 <> e / 4096 -> ld8 m a = ld8 (mem s) a) ->
  running (s <| mem := m |>) l (overwrite A (e / 4096) m).
Proof.
  intros [Hcr Hso] He Hm. pose proof (so_used _ _ _ _ _ _ Hso _ _ He) as (_ & _ & _ & Hd). split; [done|].
  apply (space_ok_kept roots sp outside s l); try done.
  - by eapply wf_proper, Hso.
  - intros r' Hr' q f a Hq Hf Ha. apply Hm. rewrite Ha. intros ->. by apply (Hd r' Hr' q).
  - apply Hso.
  - intros k' e' a Hk Ha. case_decide; [done|]. cbn. rewrite Hm by done. by eapply (so_bytes _ _ _ _ _ _ Hso).
Qed.

(** ** A page that is being filled

    [base] is the address of a page that only this mapping leads to; the other pages
    are as in [A0], and the bytes of the page are those of the memory [img] from 0 on. *)
Section draft.
Context (A0 : vspace) (k p : Z).
Hypothesis Hk : user_va (k * 4096).
Hypothesis Hkp : entries A0 !! (rp, k) = Some (p * 4096 + 7).
Hypothesis Halone : forall k' e, entries A0 !! k' = Some e -> e / 4096 = p -> k' = (rp, k).

Definition draft (s : kstate) (l : list Z) (img : bytes) : Prop :=
  exists A, running s l A /\ entries A = entries A0 /\ zero_refs A = zero_refs A0 /\ (forall a, a / 4096 <> p -> contents A a = contents A0 a) /\
    forall o, 0 <= o < 4096 -> contents A (p * 4096 + o) = ld8 img o.

Lemma draft_addr o : 0 <= o < 4096 ->
  user_va (k * 4096 + o) /\ VPN (k * 4096 + o) = k /\ (k * 4096 + o) mod 4096 = o /\ (p * 4096 + 7) / 4096 = p.
Proof using Hk.
  clear - Hk. intros Ho. unfold user_va in *. split; [jlia|]. unfold VPN, PPN, PTXSHIFT. rewrite Z.shiftr_div_pow2 by lia. change (2 ^ 12) with 4096.
  split_and!; Z.div_mod_to_equations; lia.
Qed.

Lemma draft_store8 s l img o v :
  draft s l img -> 0 <= o < 4096 -> wp (ustore8 (k * 4096 + o) v) s (fun _ s' => draft s' l (st8 img o v)).
Proof.
  intros (A & Hin & HE & HZ & HC & Hp) Ho. destruct (draft_addr o Ho) as (Hva & Hv & Hm & Hd).
  assert (entries A !! (rp, VPN (k * 4096 + o)) = Some (p * 4096 + 7)) as He by by rewrite Hv, HE.
  unfold ustore8. apply wp_bind, wp_elim. do 2 eexists. split; [by eapply vpt_entry|].
  assert (Z.land (p * 4096 + 7) (Z.lor (Z.lor PTE_P PTE_U) PTE_W) = Z.lor (Z.lor PTE_P PTE_U) PTE_W) as ->.
  { change (Z.land (p * 4096 + 7) (2 ^ 3 - 1) = 7). rewrite land_low by lia. Z.div_mod_to_equations. lia. }
  rewrite Z.eqb_refl, Hd, Hm. destruct Hin as [Hcr Hso].
  pose proof (so_used _ _ _ _ _ _ Hso _ _ He) as (_ & _ & _ & Hdp). rewrite Hd in Hdp.
  exists (overwrite A p (st8 (mem s) (p * 4096 + o) v)). split_and!.
  - rewrite <- Hd at 1. eapply (store_own s l A _ _ _ (conj Hcr Hso) He). intros a Ha. rewrite ld8_st8, decide_False; [done|].
    rewrite Hd in Ha. intros <-. apply Ha. Z.div_mod_to_equations. lia.
  - done.
  - done.
  - intros a Ha. cbn. rewrite decide_False by done. auto.
  - intros o' Ho'. cbn. rewrite decide_True by (Z.div_mod_to_equations; lia). rewrite !ld8_st8.
    destruct (decide (o = o')) as [->|]; [by rewrite decide_True|]. rewrite decide_False by lia. rewrite <- Hp by done.
    eapply so_bytes; [done|exact He|]. Z.div_mod_to_equations. lia.
Qed.

Lemma draft_storen n s l img o v :
  draft s l img -> 0 <= o -> o + Z.of_nat n <= 4096 ->
  wp (ustoren n (k * 4096 + o) v) s (fun _ s' => draft s' l (st n img o v)).
Proof.
  revert s img o v. induction n as [|n IH]; intros s img o v Hd Ho Hn; cbn [ustoren st]; [by apply wp_ret|].
  apply wp_bind. wuse (draft_store8 s l img o v Hd); [lia|]. intros _ s1 Hd1. rewrite <- Z.add_assoc.
  apply IH; [done|lia|lia].
Qed.

(** The other pages are read as before. *)
Lemma draft_vchar A va b :
  entries A = entries A0 -> (forall a, a / 4096 <> p -> contents A a = contents A0 a) -> VPN va <> k -> vchar A0 va b -> vchar A va b.
Proof.
  intros HE HC Hne (Hva & e & He & Hfl & Hb). split; [done|]. exists e. rewrite HE, HC; [done|]. rewrite in_page. intros Hp.
  specialize (Halone _ _ He Hp). congruence.
Qed.
Lemma draft_load8 s l img va b : draft s l img -> VPN va <> k -> vchar A0 va b -> uload8 va s = Ret b s.
Proof. intros (A & Hin & HE & HZ & HC & _) Hne Hb. eapply uload8_ok; [done|]. by apply draft_vchar. Qed.

Lemma draft_strcpy fuel s l img o src str :
  draft s l img -> 0 <= o -> o + Z.of_nat (length str) < 4096 -> vstr A0 src str -> (length str < fuel)%nat ->
  (forall i, 0 <= i <= Z.of_nat (length str) -> VPN (src + i) <> k) ->
  wp (ustrcpy fuel (k * 4096 + o) src) s (fun _ s' => exists img', draft s' l img' /\ str_at img' o str /\
    forall a, ~ (o <= a <= o + Z.of_nat (length str)) -> ld8 img' a = ld8 img a).
Proof.
  revert s img o src str. induction fuel as [|fuel IH]; intros s img o src str Hd Ho Hlen Hs Hf Hk'; [lia|]. cbn [ustrcpy].
  pose proof (Hk' 0 ltac:(lia)) as H0. rewrite Z.add_0_r in H0.
  destruct str as [|c str]; cbn [vstr length] in *.
  - apply wp_bind, wp_elim. do 2 eexists. split; [by eapply draft_load8|]. apply wp_bind. wuse (draft_store8 s l img o 0 Hd); [lia|].
    intros _ s1 Hd1. change (0 =? 0) with true. apply wp_ret. eexists. split; [exact Hd1|]. split; [cbn; by rewrite ld8_st8, decide_True|].
    intros a Ha. rewrite ld8_st8, decide_False by lia. done.
  - destruct Hs as (Hc & Hc0 & Hs). apply wp_bind, wp_elim. do 2 eexists. split; [by eapply draft_load8|].
    apply wp_bind. wuse (draft_store8 s l img o c Hd); [lia|]. intros _ s1 Hd1. rewrite (proj2 (Z.eqb_neq c 0)) by done.
    rewrite <- Z.add_assoc. wuse (IH s1 (st8 img o c) (o + 1) (src + 1) str Hd1); [lia|lia|done|lia| |].
    { intros i Hi. rewrite <- Z.add_assoc. apply Hk'. lia. }
    intros _ s2 (img' & Hd2 & Hstr & Hout). exists img'. split; [done|]. split.
    + cbn. split_and!; [|done|done]. rewrite Hout by lia. rewrite ld8_st8, decide_True by done. apply wrap_small.
      destruct Hc as (Hva & e & He & _ & <-). destruct Hd as (A & [_ Hso] & HE & HZ & HC & _). rewrite <- HC.
      * rewrite <- HE in He. rewrite <- (so_bytes _ _ _ _ _ _ Hso _ _ _ He (in_page e src)). apply ld8_range.
      * rewrite in_page. intros Hp. specialize (Halone _ _ He Hp). congruence.
    + intros a Ha. rewrite Hout by lia. rewrite ld8_st8, decide_False by lia. done.
Qed.
End draft.
End umem.
