(* ===== verification/Pipe.v ===== *)
(** * Pipes: lib/pipe.c, with the descriptor numbers of lib/fd.c

    A pipe is a page with a circular buffer that the reading and the writing side
    share, without locks.  devpipe_read and devpipe_write are modelled as threads that
    make one access to the shared structure at a time; [sstep] interleaves them.

    The page of the pipe is mapped once for each descriptor of either end, next to
    the page of the descriptor itself, and _pipeisclosed compares the reference counts
    of the two.  It is a thread of its own, [_pipeisclosed_step], which reads one number
    at a time while other environments change them ([closed_step]); the message it prints
    when it repeats a round is left out.  In [sstep] it may answer anything. *)
From S2P Require Import Prelude Mmu.

Definition PIPEBUFSIZ : Z := 32.
Definition MAXFD : Z := 32.
Definition FDTABLE : Z := 0xD0000000.
Definition FILEDATA : Z := FDTABLE + MAXFD * PGSIZE.

Definition INDEX2FD (i : Z) : Z := u64 (FDTABLE + u64 i * PGSIZE).
Definition INDEX2DATA (i : Z) : Z := u64 (FILEDATA + i * PGSIZE).
Definition fd2num (fd : Z) : Z := u64 (fd - FDTABLE) / PGSIZE.
Definition fd2data (fd : Z) : Z := INDEX2DATA (fd2num fd).

(** ** The shared page *)
Record Pipe := mkPipe { p_rpos : Z; p_wpos : Z; p_buf : gmap Z Z }.
#[export] Instance Pipe_fields : Fields Pipe := fun p => mkPipe (p_rpos p) (p_wpos p) (p_buf p).

(** ** devpipe_read

    The places between its accesses to the pipe. *)
Inductive rpc := RLoop | RWhile | RClosed | RTake | RInc | RRet (r : Z).
Record rthread := mkReader { r_pc : rpc; r_n : Z; r_i : Z; r_buf : list Z }.
#[export] Instance rthread_fields : Fields rthread := fun t => mkReader (r_pc t) (r_n t) (r_i t) (r_buf t).

(** [closed] is what _pipeisclosed says, if it is asked. *)
Definition devpipe_read_step (closed : bool) (p : Pipe) (t : rthread) : Pipe * rthread :=
  match r_pc t with
  | RLoop => (p, t <| r_pc := if r_i t <? r_n t then RWhile else RRet (i32 (r_i t)) |>)
  | RWhile =>
      (p, t <| r_pc := if p_rpos p =? p_wpos p then if 0 <? r_i t then RRet (i32 (r_i t)) else RClosed
                       else RTake |>)
  | RClosed => (p, t <| r_pc := if closed then RRet 0 else RWhile |>)
  | RTake =>
      (p, t <| r_buf := r_buf t ++ [default 0 (p_buf p !! Z.rem (p_rpos p) PIPEBUFSIZ)] |> <| r_pc := RInc |>)
  | RInc => (p <| p_rpos := i32 (p_rpos p + 1) |>, t <| r_i := r_i t + 1 |> <| r_pc := RLoop |>)
  | RRet _ => (p, t)
  end.

(** ** devpipe_write *)
Inductive wpc := WLoop | WWhile | WClosed | WStore | WInc | WRet (r : Z).
Record wthread := mkWriter { w_pc : wpc; w_data : list Z; w_i : Z }.
#[export] Instance wthread_fields : Fields wthread := fun t => mkWriter (w_pc t) (w_data t) (w_i t).

Definition w_byte (t : wthread) : Z := default 0 (w_data t !! Z.to_nat (w_i t)).
Definition devpipe_write_step (closed : bool) (p : Pipe) (t : wthread) : Pipe * wthread :=
  match w_pc t with
  | WLoop => (p, t <| w_pc := if w_i t <? Z.of_nat (length (w_data t)) then WWhile else WRet (i32 (w_i t)) |>)
  | WWhile =>
      (p, t <| w_pc := if u64 (p_wpos p) >=? u64 (u64 (p_rpos p) + PIPEBUFSIZ) then WClosed else WStore |>)
  | WClosed => (p, t <| w_pc := if closed then WRet 0 else WWhile |>)
  | WStore =>
      (p <| p_buf := <[Z.rem (p_wpos p) PIPEBUFSIZ := w_byte t]> (p_buf p) |>, t <| w_pc := WInc |>)
  | WInc => (p <| p_wpos := i32 (p_wpos p + 1) |>, t <| w_i := w_i t + 1 |> <| w_pc := WLoop |>)
  | WRet _ => (p, t)
  end.

(** ** _pipeisclosed

    What it reads: how often its environment has been run, and the reference counts of
    the page of the descriptor and of the page of the pipe. *)
Record counts := mkCounts { c_runs : Z; c_fd : Z; c_pipe : Z }.

(** The places between its reads: [n] and [ret] are its variables, [f] the first of the two
    counts it compares. *)
Inductive cpc := CRuns | CFd (n : Z) | CPipe (n f : Z) | CAgain (n : Z) (ret : bool) | CRet (ret : bool).

Definition _pipeisclosed_step (c : counts) (pc : cpc) : cpc :=
  match pc with
  | CRuns => CFd (i32 (c_runs c))
  | CFd n => CPipe n (c_fd c)
  | CPipe n f => CAgain n (f =? c_pipe c)
  | CAgain n ret => if n =? i32 (c_runs c) then CRet ret else CRuns
  | CRet ret => CRet ret
  end.

(** On one CPU: the environment makes a step, or others run, and change the counts, before
    env_run resumes it and increments env_runs. *)
Inductive closed_step : counts * cpc -> counts * cpc -> Prop :=
| c_own c pc : closed_step (c, pc) (c, _pipeisclosed_step c pc)
| c_others c pc f p : closed_step (c, pc) (mkCounts (u32 (c_runs c + 1)) f p, pc).

(** ** The whole system

    [s_written] and [s_taken] are the bytes for which wpos and rpos have been
    incremented, and [s_past] the bytes that earlier calls of devpipe_read returned. *)
Record sys := mkSys {
  s_pipe : Pipe; s_rd : rthread; s_wr : wthread;
  s_written : list Z; s_taken : list Z; s_past : list Z
}.

Definition last_byte (l : list Z) : list Z := match last l with Some b => [b] | None => [] end.

Inductive sstep : sys -> sys -> Prop :=
  | s_read closed p t p' t' w wl rl past :
      devpipe_read_step closed p t = (p', t') -> (forall r, r_pc t <> RRet r) ->
      sstep (mkSys p t w wl rl past)
            (mkSys p' t' w wl (match r_pc t with RInc => rl ++ last_byte (r_buf t) | _ => rl end) past)
  | s_read_call p t w wl rl past r n :
      r_pc t = RRet r -> 0 <= n ->
      sstep (mkSys p t w wl rl past) (mkSys p (mkReader RLoop n 0 []) w wl rl (past ++ r_buf t))
  | s_write closed p t w p' w' wl rl past :
      devpipe_write_step closed p w = (p', w') -> (forall r, w_pc w <> WRet r) ->
      sstep (mkSys p t w wl rl past)
            (mkSys p' t w' (match w_pc w with WInc => wl ++ [w_byte w] | _ => wl end) rl past)
  | s_write_call p t w wl rl past r data :
      w_pc w = WRet r ->
      sstep (mkSys p t w wl rl past) (mkSys p t (mkWriter WLoop data 0) wl rl past).

(** The pipe after pipe(), whose page is zero. *)
Definition pipe_start : sys :=
  mkSys (mkPipe 0 0 ∅) (mkReader (RRet 0) 0 0 []) (mkWriter (WRet 0) [] 0) [] [] [].
