(* ===== verification/PipeThms.v ===== *)
(** * Theorems on pipes *)
From S2P Require Import Prelude Mmu Pipe.

(** ** Bytes come out as they went in *)
Abbreviation zlen l := (Z.of_nat (length l)).

(** Byte [k] of the history, [rpos <= k < wpos], is in the buffer. *)
Definition buffered (buf : gmap Z Z) (l : list Z) (lo hi : Z) : Prop :=
  forall k, lo <= k < hi -> buf !! (k mod PIPEBUFSIZ) = l !! Z.to_nat k.

Definition reader_inv (t : rthread) (taken written past : list Z) : Prop :=
  match r_pc t with
  | RInc => zlen taken < zlen written /\ zlen (r_buf t) = r_i t + 1 /\ 0 <= r_i t /\
      exists b, written !! length taken = Some b /\ past ++ r_buf t = taken ++ [b]
  | RTake => zlen taken < zlen written /\ zlen (r_buf t) = r_i t /\ past ++ r_buf t = taken
  | RClosed => r_i t = 0 /\ zlen (r_buf t) = r_i t /\ past ++ r_buf t = taken
  | RRet r => r = zlen (r_buf t) /\ past ++ r_buf t = taken
  | _ => zlen (r_buf t) = r_i t /\ past ++ r_buf t = taken
  end.

Definition writer_inv (w : wthread) (buf : gmap Z Z) (taken written : list Z) : Prop :=
  match w_pc w with
  | WStore => zlen written < zlen taken + PIPEBUFSIZ
  | WInc => zlen written < zlen taken + PIPEBUFSIZ /\ buf !! (zlen written mod PIPEBUFSIZ) = Some (w_byte w)
  | _ => True
  end.

Record pipe_inv (s : sys) : Prop := {
  pi_rpos : p_rpos (s_pipe s) = zlen (s_taken s);
  pi_wpos : p_wpos (s_pipe s) = zlen (s_written s);
  pi_prefix : s_taken s `prefix_of` s_written s;
  pi_room : zlen (s_written s) <= zlen (s_taken s) + PIPEBUFSIZ;
  pi_buf : buffered (p_buf (s_pipe s)) (s_written s) (zlen (s_taken s)) (zlen (s_written s));
  pi_rd : reader_inv (s_rd s) (s_taken s) (s_written s) (s_past s);
  pi_wr : writer_inv (s_wr s) (p_buf (s_pipe s)) (s_taken s) (s_written s)
}.

Lemma last_byte_snoc l b : last_byte (l ++ [b]) = [b].
Proof. unfold last_byte. by rewrite last_snoc. Qed.

Lemma take_byte s :
  pipe_inv s -> zlen (s_taken s) < zlen (s_written s) -> zlen (s_written s) < 2 ^ 31 ->
  exists b, s_written s !! length (s_taken s) = Some b /\
    default 0 (p_buf (s_pipe s) !! Z.rem (p_rpos (s_pipe s)) PIPEBUFSIZ) = b.
Proof.
  intros Hi Hlt Hs. destruct (lookup_lt_is_Some_2 (s_written s) (length (s_taken s))) as [b Hb]; [lia|].
  exists b. split; [done|]. rewrite (pi_rpos _ Hi), Z.rem_mod_nonneg by (unfold PIPEBUFSIZ; lia).
  rewrite (pi_buf _ Hi) by lia. by rewrite Nat2Z.id, Hb.
Qed.

Lemma prefix_snoc (l k : list Z) b : l `prefix_of` k -> k !! length l = Some b -> (l ++ [b]) `prefix_of` k.
Proof.
  intros [k' ->] Hb. rewrite lookup_app_r, Nat.sub_diag in Hb by lia. destruct k' as [|c k']; [done|].
  injection Hb as ->. exists k'. by rewrite <- app_assoc.
Qed.

(** What a call has read fits the type of its result. *)
Lemma short_result t past rl wl :
  rl `prefix_of` wl -> past ++ r_buf t = rl -> zlen (r_buf t) = r_i t -> zlen wl < 2 ^ 31 -> i32 (r_i t) = zlen (r_buf t).
Proof. intros Hp <- Hb Hl. apply prefix_length in Hp. rewrite length_app in Hp. rewrite swrap_small; lia. Qed.

(** One step of devpipe_read. *)
Lemma reader_step_inv p t p' t' w wl rl past closed :
  pipe_inv (mkSys p t w wl rl past) -> zlen wl < 2 ^ 31 -> (forall r, r_pc t <> RRet r) ->
  devpipe_read_step closed p t = (p', t') ->
  pipe_inv (mkSys p' t' w wl (match r_pc t with RInc => rl ++ last_byte (r_buf t) | _ => rl end) past).
Proof.
  intros Hi Hl Hne E. pose proof Hi as [Hr Hw Hp Hroom Hbuf Hrd Hwr]. cbn in *. unfold reader_inv in Hrd.
  unfold devpipe_read_step in E. destruct (r_pc t) eqn:Epc; [..|by destruct (Hne r)]; injection E as <- <-.
  - split; try done. cbn. unfold reader_inv. cbn. destruct (r_i t <? r_n t); [tauto|].
    destruct Hrd as [Hb Hd]. split; [by apply (short_result _ _ _ wl Hp Hd)|done].
  - split; try done. cbn. unfold reader_inv. cbn. destruct Hrd as [Hb Hd].
    destruct (Z.eqb_spec (p_rpos p) (p_wpos p)) as [E|E].
    + destruct (Z.ltb_spec 0 (r_i t)); [|split_and!; [lia|done|done]].
      split; [by apply (short_result _ _ _ wl Hp Hd)|done].
    + split_and!; [|done|done]. apply prefix_length in Hp. lia.
  - split; try done. cbn. unfold reader_inv. cbn. destruct Hrd as (H0 & Hb & Hd). destruct closed; [|done]. split; [lia|done].
  - split; try done. cbn. unfold reader_inv. cbn. destruct Hrd as (Hlt & Hb & Hd).
    destruct (take_byte _ Hi Hlt Hl) as (b & Hb1 & Hb2). cbn in Hb1, Hb2. rewrite Hb2.
    split_and!; [done|rewrite length_app; cbn; lia|lia|]. exists b. split; [done|]. by rewrite app_assoc, Hd.
  - destruct Hrd as (Hlt & Hlen & H0 & b & Hb & Hd).
    assert (exists bs, r_buf t = bs ++ [b] /\ past ++ bs = rl) as (bs & Hbs & Hps).
    { destruct (r_buf t) as [|x l0 _] using rev_ind; [cbn in Hlen; lia|].
      rewrite app_assoc in Hd. apply app_inj_tail in Hd as [Hd1 ->]. by exists l0. }
    rewrite Hbs, last_byte_snoc. split; cbn.
    + rewrite Hr, length_app, swrap_small; cbn; lia.
    + done.
    + by apply prefix_snoc.
    + rewrite length_app. cbn. lia.
    + intros k Hk. apply Hbuf. rewrite length_app in Hk. cbn in Hk. lia.
    + unfold reader_inv. cbn. split; [lia|]. rewrite Hbs. by rewrite app_assoc, Hps.
    + unfold writer_inv in *. rewrite length_app. cbn. destruct (w_pc w); try done; [lia|]. split; [lia|]. tauto.
Qed.

Lemma mod_apart a b n : 0 < n -> a < b < a + n -> b mod n <> a mod n.
Proof. intros Hn Hab E. apply Z.cong_iff_0 in E. rewrite Z.mod_small in E; lia. Qed.

(** One step of devpipe_write. *)
Lemma writer_step_inv p t w p' w' wl rl past closed :
  pipe_inv (mkSys p t w wl rl past) ->
  let wl' := match w_pc w with WInc => wl ++ [w_byte w] | _ => wl end in
  zlen wl' < 2 ^ 31 -> (forall r, w_pc w <> WRet r) ->
  devpipe_write_step closed p w = (p', w') ->
  pipe_inv (mkSys p' t w' wl' rl past).
Proof.
  intros Hi wl' Hl Hne E. pose proof Hi as [Hr Hw Hp Hroom Hbuf Hrd Hwr]. cbn in *. unfold writer_inv in Hwr.
  pose proof (prefix_length _ _ Hp) as Hpl. unfold PIPEBUFSIZ in *.
  unfold devpipe_write_step in E. destruct (w_pc w) eqn:Epc; [..|by destruct (Hne r)]; injection E as <- <-; subst wl'.
  - split; try done. cbn. unfold writer_inv. cbn. by destruct (_ <? _).
  - split; try done. cbn. unfold writer_inv. cbn. rewrite Hr, Hw, Z.geb_leb.
    rewrite !wrap_small by (rewrite ?wrap_small; unfold PIPEBUFSIZ; lia).
    destruct (Z.leb_spec (zlen rl + PIPEBUFSIZ) (zlen wl)); [done|]. unfold PIPEBUFSIZ in *. lia.
  - split; try done. cbn. unfold writer_inv. cbn. by destruct closed.
  - split; try done; cbn.
    + rewrite Hw, Z.rem_mod_nonneg by (unfold PIPEBUFSIZ; lia). intros k Hk. unfold PIPEBUFSIZ in *.
      rewrite lookup_insert_ne; [by apply Hbuf|]. apply mod_apart; lia.
    + unfold writer_inv. cbn. split; [done|].
      rewrite Hw, Z.rem_mod_nonneg by (unfold PIPEBUFSIZ; lia). apply lookup_insert_eq.
  - rewrite length_app in Hl. cbn in Hl. destruct Hwr as [Hlt Hst]. split; cbn; try done.
    + rewrite Hw, length_app, swrap_small; cbn; lia.
    + by apply prefix_app_r.
    + rewrite length_app. cbn. unfold PIPEBUFSIZ. lia.
    + intros k Hk. rewrite length_app in Hk. cbn in Hk. destruct (decide (k = zlen wl)) as [->|Hkne].
      * rewrite Nat2Z.id, lookup_app_r, Nat.sub_diag by lia. exact Hst.
      * rewrite lookup_app_l by lia. apply Hbuf. lia.
    + unfold reader_inv in *. rewrite length_app. cbn. destruct (r_pc t); try done.
      * split; [lia|tauto].
      * destruct Hrd as (? & ? & ? & b & Hb & ?). split_and!; [lia|done|done|]. exists b.
        split; [|done]. rewrite lookup_app_l; [done|lia].
Qed.

Lemma sstep_inv s s' : sstep s s' -> zlen (s_written s') < 2 ^ 31 -> pipe_inv s -> pipe_inv s'.
Proof.
  intros Hst. destruct Hst; intros Hl Hi; cbn [s_written] in Hl.
  - by eapply reader_step_inv.
  - destruct Hi as [Hr Hw Hp Hroom Hbuf Hrd Hwr]. split; try done. cbn in *.
    unfold reader_inv in *. rewrite H in Hrd. cbn. split; [done|]. rewrite app_nil_r. tauto.
  - by eapply writer_step_inv.
  - destruct Hi as [Hr Hw Hp Hroom Hbuf Hrd Hwr]. by split.
Qed.

Lemma sstep_grows s s' : sstep s s' -> (length (s_written s) <= length (s_written s'))%nat.
Proof. intros Hst. destruct Hst; cbn; try lia. destruct (w_pc w); rewrite ?length_app; lia. Qed.

Lemma pipe_start_inv : pipe_inv pipe_start.
Proof. by split. Qed.

Lemma pipe_inv_reach s : rtc sstep pipe_start s -> zlen (s_written s) < 2 ^ 31 -> pipe_inv s.
Proof.
  intros Hr. pattern s. revert s Hr. apply rtc_ind_r; [intros _; exact pipe_start_inv|].
  intros s1 s2 Hr Hst IH Hl. eapply sstep_inv; [done|done|]. apply IH. pose proof (sstep_grows _ _ Hst). lia.
Qed.

(** C20: Whatever the interleaving of a reading and a writing process, whatever
    _pipeisclosed answers them while descriptors are duplicated and closed, and whatever
    the sizes of the calls: the bytes that
    all calls of devpipe_read together have put into their buffers are the first ones
    of those that were written, in order, none lost, doubled or made up; at most
    PIPEBUFSIZ bytes are in the pipe, and a call that returns says how many bytes it
    read.  This is so for the first 2^31 bytes that go through the pipe. *)
Theorem pipe_fifo s :
  rtc sstep pipe_start s -> zlen (s_written s) < 2 ^ 31 ->
  (s_past s ++ r_buf (s_rd s)) `prefix_of` s_written s /\
  zlen (s_written s) <= zlen (s_taken s) + PIPEBUFSIZ /\
  (forall r, r_pc (s_rd s) = RRet r -> r = zlen (r_buf (s_rd s))).
Proof.
  intros Hr Hl. destruct (pipe_inv_reach s Hr Hl) as [_ _ Hp Hroom _ Hrd _]. split_and!; [|done|].
  - unfold reader_inv in Hrd. destruct (r_pc (s_rd s)).
    all: try (destruct Hrd as (_ & _ & ->) || destruct Hrd as (_ & ->); done).
    destruct Hrd as (_ & _ & _ & b & Hb & ->). by apply prefix_snoc.
  - intros r E. unfold reader_inv in Hrd. rewrite E in Hrd. tauto.
Qed.

(** A byte goes through the pipe. *)
Definition byte_through : sys :=
  mkSys (mkPipe 1 1 {[0 := 5]}) (mkReader RLoop 1 1 [5]) (mkWriter WLoop [5] 1) [5] [5] [].

Ltac pipe_run lem := eapply rtc_l; [eapply (lem false); [reflexivity|discriminate]|]; cbn.
Lemma byte_through_reached : rtc sstep pipe_start byte_through.
Proof.
  unfold pipe_start. eapply rtc_l; [eapply (s_write_call _ _ _ _ _ _ 0 [5]); reflexivity|].
  do 4 pipe_run s_write. eapply rtc_l; [eapply (s_read_call _ _ _ _ _ _ 0 1); [reflexivity|lia]|].
  do 4 pipe_run s_read. apply rtc_refl.
Qed.

Lemma pipe_fifo_witness :
  (s_past byte_through ++ r_buf (s_rd byte_through)) `prefix_of` s_written byte_through.
Proof.
  apply (pipe_fifo byte_through).
  - exact byte_through_reached.
  - reflexivity.
Defined.

(** ** The end of the pipe *)

(** A run in which others have run [k] times. *)
Inductive closed_run : nat -> counts * cpc -> counts * cpc -> Prop :=
| cr_refl x : closed_run 0 x x
| cr_own k x c pc : closed_run k x (c, pc) -> closed_run k x (c, _pipeisclosed_step c pc)
| cr_others k x c pc f p :
    closed_run k x (c, pc) -> closed_run (S k) x (mkCounts (u32 (c_runs c + 1)) f p, pc).

Lemma closed_run_steps k x y : closed_run k x y -> rtc closed_step x y.
Proof. induction 1 as [x|k x c pc _ IH|k x c pc f p _ IH]; [done|eapply rtc_r; [exact IH|constructor]..]. Qed.

(** Others have run [d] times since env_runs was [n]; if they have not, what was read is
    what is there. *)
Definition since (n : Z) (c : counts) (k : nat) (P : Prop) : Prop :=
  exists r d, n = i32 r /\ c_runs c = u32 (r + Z.of_nat d) /\ (d <= k)%nat /\ (d = 0%nat -> P).
Definition closed_inv (k : nat) (c : counts) (pc : cpc) : Prop :=
  match pc with
  | CFd n => since n c k True
  | CPipe n f => since n c k (f = c_fd c)
  | CAgain n ret => since n c k (ret = (c_fd c =? c_pipe c))
  | _ => True
  end.

Lemma since_others n c k P Q f p : since n c k P -> since n (mkCounts (u32 (c_runs c + 1)) f p) (S k) Q.
Proof.
  intros (r & d & Hn & Hr & Hd & _). exists r, (S d). split_and!; [done| |lia|done]. cbn. rewrite Hr.
  unfold wrap. rewrite Zplus_mod_idemp_l. f_equal. lia.
Qed.
Lemma since_mono n c k (P Q : Prop) : (P -> Q) -> since n c k P -> since n c k Q.
Proof. intros HPQ (r & d & ? & ? & ? & HP). exists r, d. split_and!; auto. Qed.

Lemma closed_run_inv k c0 c pc :
  0 <= c_runs c0 < 2 ^ 32 -> closed_run k (c0, CRuns) (c, pc) -> 0 <= c_runs c < 2 ^ 32 /\ closed_inv k c pc.
Proof.
  intros H0 Hrun. remember (c0, CRuns) as x eqn:Ex. remember (c, pc) as y eqn:Ey. revert c pc Ey.
  induction Hrun as [x|k x c1 pc1 Hrun IH|k x c1 pc1 f p Hrun IH]; intros c pc Ey.
  - rewrite Ex in Ey. injection Ey as <- <-. done.
  - injection Ey as <- <-. destruct (IH Ex c1 pc1 eq_refl) as [Hr Hi]. split; [done|].
    destruct pc1 as [|n|n f|n ret|ret]; cbn [_pipeisclosed_step closed_inv] in *.
    + exists (c_runs c1), 0%nat. split_and!; [done| |lia|done]. by rewrite Z.add_0_r, wrap_small.
    + eapply since_mono; [|exact Hi]. done.
    + eapply since_mono; [|exact Hi]. by intros ->.
    + by destruct (n =? i32 (c_runs c1)).
    + done.
  - injection Ey as <- <-. destruct (IH Ex c1 pc1 eq_refl) as [Hr Hi]. split; [by apply wrap_range|].
    destruct pc1; cbn [closed_inv] in *; try done; by eapply since_others.
Qed.

Lemma i32_cong r d : i32 r = i32 (u32 (r + d)) -> 0 <= d < 2 ^ 32 -> d = 0.
Proof.
  intros E Hd. apply (f_equal u32) in E. rewrite !wrap_swrap in E by lia. rewrite (wrap_small 32 (u32 _)) in E by by apply wrap_range.
  unfold wrap in E. symmetry in E. apply Z.cong_iff_0 in E. replace (r + d - r) with d in E by lia.
  rewrite Z.mod_small in E; lia.
Qed.

(** C37: _pipeisclosed on one CPU tells the truth of an instant: it reads the count of its own
    runs, the reference counts of the page of the descriptor and of the page of the pipe
    one after the other, and the count of its runs again, while other environments may run
    between any two reads and change the counts in any way.  When it returns, the answer
    is whether the two reference counts are equal at that very moment, unless others have
    run 2^32 times or more.  And it does return: eight of its own steps are enough once
    others leave it alone. *)
Theorem pipeisclosed_consistent k c0 c n ret ret' :
  0 <= c_runs c0 < 2 ^ 32 -> Z.of_nat k < 2 ^ 32 ->
  closed_run k (c0, CRuns) (c, CAgain n ret) -> _pipeisclosed_step c (CAgain n ret) = CRet ret' ->
  ret' = (c_fd c =? c_pipe c) /\
  forall c pc, exists b, Nat.iter 8 (_pipeisclosed_step c) pc = CRet b.
Proof.
  intros H0 Hk Hrun Hret. split.
  - destruct (closed_run_inv k c0 c _ H0 Hrun) as [_ (r & d & Hn & Hr & Hd & HP)]. cbn in Hret.
    destruct (Z.eqb_spec n (i32 (c_runs c))) as [E|]; [|done]. injection Hret as <-. apply HP.
    rewrite Hn, Hr in E. apply i32_cong in E; lia.
  - clear. intros c pc. destruct pc as [|n|n f|n ret|ret]; cbn; rewrite ?Z.eqb_refl; try (by eexists);
      destruct (n =? i32 (c_runs c)); cbn; rewrite ?Z.eqb_refl; by eexists.
Qed.

(** The writer closes its end between the two reads: the first round is void, and the
    second finds the pipe closed. *)
Lemma pipeisclosed_consistent_witness :
  closed_run 1 (mkCounts 7 1 2, CRuns) (mkCounts 8 1 1, CAgain 8 true) /\ true = (1 =? 1).
Proof.
  assert (closed_run 1 (mkCounts 7 1 2, CRuns) (mkCounts 8 1 1, CAgain 8 true)) as Hrun.
  { apply (cr_own 1 _ (mkCounts 8 1 1) (CPipe 8 1)). apply (cr_own 1 _ (mkCounts 8 1 1) (CFd 8)).
    apply (cr_own 1 _ (mkCounts 8 1 1) CRuns). apply (cr_own 1 _ (mkCounts 8 1 1) (CAgain 7 true)).
    apply (cr_own 1 _ (mkCounts 8 1 1) (CPipe 7 1)). apply (cr_others 0 _ (mkCounts 7 1 2) (CPipe 7 1) 1 1).
    apply (cr_own 0 _ (mkCounts 7 1 2) (CFd 7)). apply (cr_own 0 _ (mkCounts 7 1 2) CRuns). apply cr_refl. }
  split; [exact Hrun|].
  apply (pipeisclosed_consistent 1 (mkCounts 7 1 2) (mkCounts 8 1 1) 8 true true).
  - cbn. lia.
  - lia.
  - exact Hrun.
  - reflexivity.
Defined.

(** On several CPUs the count of its own runs does not tell that others ran.  A reader with a
    second descriptor in a child, and a writer: two references to its descriptor page,
    three to the pipe.  Between its reads the child, on another CPU, closes its
    descriptor, first the one page and then the other; the counts are never equal, and
    the answer is that the pipe is closed. *)
Example closed_race_on_two_cpus :
  let c1 := mkCounts 7 2 3 in let c2 := mkCounts 7 1 3 in let c3 := mkCounts 7 1 2 in
  _pipeisclosed_step c3 (_pipeisclosed_step c3 (_pipeisclosed_step c1 (_pipeisclosed_step c1 CRuns))) = CRet true /\
  Forall (fun c => c_fd c <> c_pipe c) [c1; c2; c3].
Proof. split; [reflexivity|by repeat constructor]. Qed.
