(* ===== verification/Fd.v ===== *)
(** * File descriptors: lib/fd.c, and pipe() of lib/pipe.c

    The code runs in the current environment, like that of Fork.v.  A descriptor is a
    page at INDEX2FD(i), and is open when the page is mapped.  The devices are a table
    of records of functions, a parameter of the code; the one of pipes closes a
    descriptor as lib/pipe.c does.  Messages for debugging are left out. *)
From S2P Require Import Prelude Mmu CMem Console KState Pmap PageTable Env E1000 Syscall AddrSpace Fork Pipe.

(** Loads and stores of user code. *)
Definition uload32 (va : Z) : K Z :=
  e ← vpt va;
  if Z.land e (Z.lor PTE_P PTE_U) =? Z.lor PTE_P PTE_U
  then gets (fun s => i32 (ld32 (mem s) (e / 4096 * 4096 + va mod 4096)))
  else stop Undefined.
Definition ustore32 (va v : Z) : K unit :=
  e ← vpt va;
  if Z.land e (Z.lor (Z.lor PTE_P PTE_U) PTE_W) =? Z.lor (Z.lor PTE_P PTE_U) PTE_W
  then modify (fun s => s <| mem := st32 (mem s) (e / 4096 * 4096 + va mod 4096) (u32 v) |>)
  else stop Undefined.

(** The addresses of the fields of struct Fd. *)
Definition fd_dev_id_addr (fd : Z) : Z := fd.
Definition fd_offset_addr (fd : Z) : Z := fd + 4.
Definition fd_omode_addr (fd : Z) : Z := fd + 8.

(** The test for a mapped page, which looks at the last two levels only. *)
Definition page_mapped (va : Z) : K bool :=
  e2 ← vpd va;
  if Z.land e2 PTE_P =? 0 then mret false
  else e1 ← vpt va; mret (negb (Z.land e1 PTE_P =? 0)).

(** ** Descriptors *)
Fixpoint fd_alloc_loop (n : nat) (i : Z) : K (Z * option Z) :=
  match n with
  | O => mret (- E_MAX_OPEN, None)
  | S n' =>
      let fd := INDEX2FD i in
      b ← page_mapped fd;
      if b : bool then fd_alloc_loop n' (i + 1) else mret (0, Some fd)
  end.
Definition fd_alloc : K (Z * option Z) := fd_alloc_loop (Z.to_nat MAXFD) 0.

Definition fd_lookup (fdnum : Z) : K (Z * option Z) :=
  if (fdnum <? 0) || (fdnum >=? MAXFD) then mret (- E_INVAL, None)
  else
    let fd := INDEX2FD fdnum in
    b ← page_mapped fd;
    if b : bool then mret (0, Some fd) else mret (- E_INVAL, None).

(** struct Dev: null pointers are [None]. *)
Record Dev := mkDev {
  dev_id : Z;
  dev_read : option (Z -> Z -> Z -> K Z);
  dev_write : option (Z -> Z -> Z -> K Z);
  dev_close : option (Z -> K Z);
  dev_stat : option (Z -> Z -> K Z);
  dev_trunc : option (Z -> Z -> K Z)
}.

Section devices.
Context (devtab : list Dev).

Fixpoint dev_lookup_in (tab : list Dev) (id : Z) : Z * option Dev :=
  match tab with
  | [] => (- E_INVAL, None)
  | d :: tab' => if dev_id d =? id then (0, Some d) else dev_lookup_in tab' id
  end.
Definition dev_lookup (id : Z) : K (Z * option Dev) := mret (dev_lookup_in devtab id).

Definition fd_close (fd : Z) (must_exist : bool) : K Z :=
  found ← fd_lookup (i32 (fd2num fd));
  if (found.1 <? 0) || negb (bool_decide (found.2 = Some fd)) then mret (if must_exist then found.1 else 0)
  else
    id ← uload32 (fd_dev_id_addr fd);
    d ← dev_lookup id;
    r ← (match d.2 with
         | Some dev => match dev_close dev with Some f => f fd | None => mret 0 end
         | None => mret d.1
         end);
    _ ← sys_page_unmap 0 fd;
    mret r.

Definition close (fdnum : Z) : K Z :=
  found ← fd_lookup fdnum;
  match found with
  | (_, Some fd) => fd_close fd true
  | (r, None) => mret r
  end.

Fixpoint close_all_loop (n : nat) (i : Z) : K unit :=
  match n with
  | O => mret tt
  | S n' => _ ← close i; close_all_loop n' (i + 1)
  end.
Definition close_all : K unit := close_all_loop (Z.to_nat MAXFD) 0.

Definition dup_error (newfd nva r : Z) : K Z := _ ← sys_page_unmap 0 newfd; _ ← sys_page_unmap 0 nva; mret r.

Definition dup (oldfdnum newfdnum : Z) : K Z :=
  found ← fd_lookup oldfdnum;
  match found with
  | (r, None) => mret r
  | (_, Some oldfd) =>
      _ ← close newfdnum;
      let newfd := INDEX2FD newfdnum in
      let ova := fd2data oldfd in
      let nva := fd2data newfd in
      b ← page_mapped ova;
      r ← (if b : bool then e ← vpt ova; sys_page_map 0 ova 0 nva (Z.land e PTE_SYSCALL) else mret 0);
      if r <? 0 then dup_error newfd nva r
      else
        e ← vpt oldfd;
        r ← sys_page_map 0 oldfd 0 newfd (Z.land e PTE_SYSCALL);
        if r <? 0 then dup_error newfd nva r else mret newfdnum
  end.

(** The prologue of read, write, ftruncate and fstat: the descriptor and its device. *)
Definition fd_dev (fdnum : Z) : K (Z + Z * Dev) :=
  found ← fd_lookup fdnum;
  match found with
  | (r, None) => mret (inl r)
  | (_, Some fd) =>
      id ← uload32 (fd_dev_id_addr fd);
      d ← dev_lookup id;
      mret (match d with (_, Some dev) => inr (fd, dev) | (r, None) => inl r end)
  end.

Definition read (fdnum buf n : Z) : K Z :=
  x ← fd_dev fdnum;
  match x with
  | inl r => mret r
  | inr (fd, dev) =>
      omode ← uload32 (fd_omode_addr fd);
      if Z.land omode O_ACCMODE =? O_WRONLY then mret (- E_INVAL)
      else match dev_read dev with Some f => f fd buf n | None => mret (- E_NOT_SUPP) end
  end.

Fixpoint readn_loop (fuel : nat) (fdnum buf n tot : Z) : K Z :=
  match fuel with
  | O => stop Diverge
  | S fuel' =>
      if u64 tot <? n then
        m64 ← read fdnum (u64 (buf + tot)) (u64 (n - tot));
        let m := i32 m64 in
        if m <? 0 then mret m
        else if m =? 0 then mret tot
        else readn_loop fuel' fdnum buf n (i32 (tot + m))
      else mret tot
  end.
Definition readn (fuel : nat) (fdnum buf n : Z) : K Z := readn_loop fuel fdnum buf n 0.

Definition write (fdnum buf n : Z) : K Z :=
  x ← fd_dev fdnum;
  match x with
  | inl r => mret r
  | inr (fd, dev) =>
      omode ← uload32 (fd_omode_addr fd);
      if Z.land omode O_ACCMODE =? O_RDONLY then mret (- E_INVAL)
      else match dev_write dev with Some f => f fd buf n | None => mret (- E_NOT_SUPP) end
  end.

Definition seek (fdnum offset : Z) : K Z :=
  found ← fd_lookup fdnum;
  match found with
  | (r, None) => mret r
  | (_, Some fd) => ustore32 (fd_offset_addr fd) offset;; mret 0
  end.

Definition ftruncate (fdnum newsize : Z) : K Z :=
  x ← fd_dev fdnum;
  match x with
  | inl r => mret r
  | inr (fd, dev) =>
      omode ← uload32 (fd_omode_addr fd);
      if Z.land omode O_ACCMODE =? O_RDONLY then mret (- E_INVAL)
      else match dev_trunc dev with Some f => f fd newsize | None => mret (- E_NOT_SUPP) end
  end.
End devices.

(** ** Pipes *)
Definition devpipe_id : Z := 0x70.
Definition PIPE_PERM : Z := Z.lor (Z.lor (Z.lor PTE_P PTE_W) PTE_U) PTE_SHARE.

Definition devpipe_close (fd : Z) : K Z := _ ← sys_page_unmap 0 fd; sys_page_unmap 0 (fd2data fd).

(** The errors undo what was done, from the label on. *)
Definition pipe_err1 (r fd0 : Z) : K (Z * option (Z * Z)) := _ ← sys_page_unmap 0 fd0; mret (r, None).
Definition pipe_err2 (r fd0 fd1 : Z) : K (Z * option (Z * Z)) := _ ← sys_page_unmap 0 fd1; pipe_err1 r fd0.
Definition pipe_err3 (r fd0 fd1 va : Z) : K (Z * option (Z * Z)) := _ ← sys_page_unmap 0 va; pipe_err2 r fd0 fd1.

(** The result, and the numbers of the two descriptors. *)
Definition pipe : K (Z * option (Z * Z)) :=
  a0 ← fd_alloc;
  match a0 with
  | (r, None) => mret (r, None)
  | (_, Some fd0) =>
      r ← sys_page_alloc 0 fd0 PIPE_PERM;
      if r <? 0 then mret (r, None)
      else
        a1 ← fd_alloc;
        match a1 with
        | (r, None) => pipe_err1 r fd0
        | (_, Some fd1) =>
            r ← sys_page_alloc 0 fd1 PIPE_PERM;
            if r <? 0 then pipe_err1 r fd0
            else
              let va := fd2data fd0 in
              r ← sys_page_alloc 0 va PIPE_PERM;
              if r <? 0 then pipe_err2 r fd0 fd1
              else
                r ← sys_page_map 0 va 0 (fd2data fd1) PIPE_PERM;
                if r <? 0 then pipe_err3 r fd0 fd1 va
                else
                  ustore32 (fd_dev_id_addr fd0) devpipe_id;;
                  ustore32 (fd_omode_addr fd0) O_RDONLY;;
                  ustore32 (fd_dev_id_addr fd1) devpipe_id;;
                  ustore32 (fd_omode_addr fd1) O_WRONLY;;
                  mret (0, Some (i32 (fd2num fd0), i32 (fd2num fd1)))
        end
  end.
