(* ===== verification/FdThms.v ===== *)
(** * Theorems on file descriptors

    A descriptor is a page of the current environment, and which descriptors are open
    is which pages are mapped: fd_alloc finds the first that is not, pipe() makes two
    that share a page, dup makes another name of one.  The proofs are on the abstract
    memories of AddrSpace.v. *)
From S2P Require Import Prelude Mmu CMem Console KState Pmap FreeList PageTable Walk PmapSpec DemoState Env E1000 Syscall EnvThms SyscallThms AddrSpace Isolation Fork ForkThms Umem Pipe Fd.

(** ** The pages of the descriptors *)
Definition fd_page (i : Z) : Z := 0xD0000 + i.
Definition data_pg (i : Z) : Z := 0xD0020 + i.

Lemma INDEX2FD_page i : 0 <= i < 64 -> INDEX2FD i = fd_page i * 4096.
Proof.
  intros Hi. unfold INDEX2FD, FDTABLE, fd_page, PGSIZE. rewrite (wrap_small 64 i), wrap_small by lia. lia.
Qed.
Lemma fd2num_page i : 0 <= i < 64 -> fd2num (INDEX2FD i) = i.
Proof.
  intros Hi. rewrite INDEX2FD_page by lia. unfold fd2num, FDTABLE, fd_page, PGSIZE. rewrite wrap_small by lia.
  Z.div_mod_to_equations. lia.
Qed.
Lemma fd2data_page i : 0 <= i < 64 -> fd2data (INDEX2FD i) = data_pg i * 4096.
Proof.
  intros Hi. unfold fd2data. rewrite fd2num_page by lia. unfold INDEX2DATA, FILEDATA, FDTABLE, MAXFD, data_pg, PGSIZE.
  rewrite wrap_small by lia. lia.
Qed.

(** The pages from FDTABLE to the end of the data pages are user pages, served by one
    page table; the stack is in the same gigabyte. *)
Lemma table_page k : 0xD0000 <= k < 0xD0080 ->
  user_va (k * 4096) /\ bad_va (k * 4096) = false /\ k <> stack_page /\ k / 512 = 1664 /\
  PML4 (k * 4096) = PML4 (stack_page * 4096) /\ PDPE (k * 4096) = PDPE (stack_page * 4096).
Proof.
  intros Hk. assert (user_va (k * 4096)) as Hu by (unfold user_va; jlia).
  assert (0xE0000 <= stack_page < 0x100000) as Hs by by vm_compute.
  split_and!; [done|apply aligned_good; [done|by apply Z.mod_mul]|lia|Z.div_mod_to_equations; lia|..];
    rewrite ?PML4_eq, ?PDPE_eq; Z.div_mod_to_equations; lia.
Qed.

(** The test of two levels, where the upper levels are there. *)
Lemma page_mapped_ok s l r va :
  pt_wf (mem s) (npages s) l r -> va_ok va -> cr3 s = r * 4096 -> tbl (mem s) r [PML4 va; PDPE va] <> None ->
  page_mapped va s = Ret (Z.odd (pte_of (mem s) r va)) s.
Proof.
  intros Hpt Hva Hcr Hup. unfold page_mapped, mbind, M_bind.
  change (vpd va s) with (uvpt ([PML4 va; PDPE va] ++ [PDX va]) s).
  rewrite (uvpt_ok s l r va) by (done || by exists [PDX va]).
  destruct (tbl (mem s) r [PML4 va; PDPE va]) as [f|] eqn:Hf; [|done]. rewrite land_P.
  assert (tbl (mem s) r (va_path va) =
    if Z.odd (pte_at (mem s) f (PDX va)) then Some (pte_at (mem s) f (PDX va) / 4096) else None) as Ht.
  { change (va_path va) with ([PML4 va; PDPE va] ++ [PDX va]). rewrite tbl_snoc, Hf. cbn.
    destruct (Z.eqb_spec (pte_at (mem s) f (PDX va)) 0) as [->|Hne]; [done|].
    rewrite (pt_present _ _ _ _ Hpt [PML4 va; PDPE va] f (PDX va)); [done|by apply (va_path_tpath va)|done|done]. }
  unfold pte_of. destruct (Z.odd (pte_at (mem s) f (PDX va))); cbn [negb]; rewrite Ht; [|done].
  change (vpt va s) with (uvpt (va_path va ++ [PTX va]) s). rewrite (uvpt_ok s l r va) by done.
  by rewrite Ht, land_P, negb_involutive.
Qed.

Section descriptors.
Context (roots : Z -> Prop) (sp : Z -> option Z) (outside : Z -> Z) (rp : Z).
Hypothesis outside_nonneg : forall p, 0 <= outside p.
Hypothesis Hrp : sp 0 = Some rp.
Abbreviation running := (in_parent roots sp outside rp).

(** ** Memory calls of an environment on its own pages *)
Lemma alloc_own s l A va perm :
  running s l A -> user_va va -> bad_va va || bad_perm perm = false ->
  wp (sys_page_alloc 0 va perm) s (fun res s' => exists l', (length l <= length l' + 4)%nat /\
    ((res = 0 /\ exists p, uses (entries A) p = 0 /\ running s' l' (map_at (zero_page A p) rp va (p * 4096 + perm))) \/
     (res = - E_NO_MEM /\ (length l < 4)%nat /\ running s' l' A))).
Proof.
  intros [Hcr Hso] Hva Hgood. wuse (call_refines roots sp outside outside_nonneg s l A (CAlloc 0 va perm) Hso); [apply Hva|].
  intros res s' (Hfr & Hmem & A' & l' & Hst & Hso' & _ & Hcnt). pose proof (cr3_frame _ _ Hfr) as Hcr'.
  exists l'. split; [done|].
  inversion Hst as [? ? ? E|? ? ? ? _ E|? r0 ? ? p E _ Hz|? ? ? ? _ _| | | | | | | | |]; subst; [congruence|congruence|left|right].
  - rewrite Hrp in E. injection E as <-. split; [done|]. exists p. split; [done|]. split; [congruence|done].
  - split_and!; [done|by apply Hmem|]. split; [congruence|done].
Qed.

Lemma unmap_own_len s l A va e :
  running s l A -> user_va va -> bad_va va = false -> entries A !! (rp, VPN va) = Some e ->
  wp (sys_page_unmap 0 va) s (fun _ s' => exists l', (length l <= length l' + 4)%nat /\ running s' l' (unmap_at A rp va)).
Proof.
  intros [Hcr Hso] Hva Hgood He. wuse (call_refines roots sp outside outside_nonneg s l A (CUnmap 0 va) Hso).
  { split; [apply Hva|]. intros r0 Hr0 Hno. rewrite Hrp in Hr0. injection Hr0 as <-. congruence. }
  intros res s' (Hfr & _ & A' & l' & Hst & Hso' & _ & Hlen). pose proof (cr3_frame _ _ Hfr) as Hcr'.
  destruct (vstep_unmap_own _ _ Hrp A res A' va e Hst) as [-> ->]; try done. exists l'. split; [done|]. split; [congruence|done].
Qed.
Lemma unmap_own s l A va e :
  running s l A -> user_va va -> bad_va va = false -> entries A !! (rp, VPN va) = Some e ->
  wp (sys_page_unmap 0 va) s (fun _ s' => exists l', running s' l' (unmap_at A rp va)).
Proof. intros. wuse (unmap_own_len s l A va e); try done. intros _ s' (l' & _ & H'). by exists l'. Qed.

Lemma map_own s l A src dst perm e :
  running s l A -> user_va src -> user_va dst -> bad_va src = false -> bad_va dst = false ->
  entries A !! (rp, VPN src) = Some e -> ~ no_near A rp dst -> flags_ok perm ->
  uses (entries A) (e / 4096) + outside (e / 4096) < 65535 ->
  wp (sys_page_map 0 src 0 dst perm) s (fun res s' => res = 0 /\
    exists l', running s' l' (map_at A rp dst (e / 4096 * 4096 + perm))).
Proof.
  intros [Hcr Hso] Hs Hd Hgs Hgd He Hnear Hfl Hroom.
  wuse (call_refines roots sp outside outside_nonneg s l A (CMap 0 src 0 dst perm) Hso).
  { split_and!; [apply Hs|apply Hd|]. intros rs Hrs _. rewrite Hrp in Hrs. injection Hrs as <-. eauto. }
  intros res s' (Hfr & _ & A' & l' & Hst & Hso' & _). pose proof (cr3_frame _ _ Hfr) as Hcr'.
  destruct (vstep_map_own _ _ Hrp A res A' src dst perm e Hst) as [-> ->]; try done.
  split; [done|]. exists l'. split; [congruence|done].
Qed.

Lemma ustore32_own s l A k i v e :
  running s l A -> user_va (k * 4096) -> entries A !! (rp, k) = Some e -> 0 <= i <= 4092 ->
  Z.land e (Z.lor (Z.lor PTE_P PTE_U) PTE_W) = Z.lor (Z.lor PTE_P PTE_U) PTE_W ->
  wp (ustore32 (k * 4096 + i) v) s (fun _ s' =>
    mem s' = st32 (mem s) (e / 4096 * 4096 + i) (u32 v) /\ running s' l (overwrite A (e / 4096) (mem s'))).
Proof.
  intros Hin Hva He Hi Hfl. pose proof (parent_root _ _ _ _ Hrp _ _ _ Hin) as Hr. destruct (Hin) as [Hcr Hso].
  assert (user_va (k * 4096 + i)) as Hva' by (unfold user_va in *; jlia).
  assert (VPN (k * 4096 + i) = k) as Hk.
  { unfold VPN, PPN, PTXSHIFT. rewrite Z.shiftr_div_pow2 by lia. change (2 ^ 12) with 4096. Z.div_mod_to_equations. lia. }
  assert (pte_of (mem s) rp (k * 4096 + i) = e) as Hp by by rewrite (so_pte _ _ _ _ _ _ Hso rp _ Hr Hva'), Hk, He.
  destruct (so_used _ _ _ _ _ _ Hso _ _ He) as (Hz & _).
  unfold ustore32. apply wp_bind, wp_elim. do 2 eexists. split.
  { eapply vpt_ok; [by eapply so_pt|by apply user_va_ok|done|congruence]. }
  rewrite Hp, Hfl, Z.eqb_refl. replace ((k * 4096 + i) mod 4096) with i by (Z.div_mod_to_equations; lia).
  split; [done|]. apply (store_own roots sp outside rp s l A k (st32 (mem s) (e / 4096 * 4096 + i) (u32 v))); [done..|]. intros a Ha. rewrite ld8_st. rewrite decide_False; [done|].
  Z.div_mod_to_equations. lia.
Qed.

Lemma ustore32_first s l A k v e :
  running s l A -> user_va (k * 4096) -> entries A !! (rp, k) = Some e ->
  Z.land e (Z.lor (Z.lor PTE_P PTE_U) PTE_W) = Z.lor (Z.lor PTE_P PTE_U) PTE_W ->
  wp (ustore32 (k * 4096) v) s (fun _ s' =>
    mem s' = st32 (mem s) (e / 4096 * 4096) (u32 v) /\ running s' l (overwrite A (e / 4096) (mem s'))).
Proof.
  intros Hin Hva He Hfl. pose proof (ustore32_own s l A k 0 v e Hin Hva He ltac:(lia) Hfl) as H. by rewrite !Z.add_0_r in H.
Qed.

(** ** fd_alloc and fd_lookup *)

(** Entries are present, and the stack is mapped. *)
Definition tidy (A : vspace) : Prop :=
  (forall k e, entries A !! (rp, k) = Some e -> Z.odd e = true) /\ entries A !! (rp, stack_page) <> None.
Definition fd_open (A : vspace) (i : Z) : Prop := entries A !! (rp, fd_page i) <> None.

(** The test of a page, where another page of the same gigabyte is mapped. *)
Lemma page_mapped_near s l A k k0 e0 :
  running s l A -> user_va (k * 4096) -> user_va (k0 * 4096) -> entries A !! (rp, k0) = Some e0 ->
  PML4 (k * 4096) = PML4 (k0 * 4096) -> PDPE (k * 4096) = PDPE (k0 * 4096) ->
  (forall e, entries A !! (rp, k) = Some e -> Z.odd e = true) ->
  page_mapped (k * 4096) s = Ret (bool_decide (entries A !! (rp, k) <> None)) s.
Proof.
  intros Hin Hva Hva0 E0 E4 E3 Hodd. pose proof (parent_root _ _ _ _ Hrp _ _ _ Hin) as Hr. destruct (Hin) as [Hcr Hso].
  rewrite (page_mapped_ok s l rp); [|by eapply so_pt|by apply user_va_ok|done|].
  - rewrite (so_pte _ _ _ _ _ _ Hso rp _ Hr Hva), VPN_page. destruct (entries A !! (rp, k)) as [e|] eqn:E; [|done].
    cbn [from_option id]. rewrite (Hodd _ eq_refl). by rewrite bool_decide_true.
  - rewrite E4, E3. pose proof (so_pte _ _ _ _ _ _ Hso rp _ Hr Hva0) as Hp. rewrite VPN_page, E0 in Hp. cbn in Hp. unfold pte_of in Hp.
    destruct (so_used _ _ _ _ _ _ Hso _ _ E0) as (Hz & _).
    change (va_path (k0 * 4096)) with ([PML4 (k0 * 4096); PDPE (k0 * 4096)] ++ [PDX (k0 * 4096)]) in Hp.
    rewrite tbl_snoc in Hp. destruct (tbl _ _ [_; _]); [done|]. by subst e0.
Qed.

Lemma table_mapped s l A k :
  running s l A -> tidy A -> 0xD0000 <= k < 0xD0080 ->
  page_mapped (k * 4096) s = Ret (bool_decide (entries A !! (rp, k) <> None)) s.
Proof.
  intros Hin [Hodd Hst] Hk. destruct (table_page k Hk) as (Hva & _ & _ & _ & E4 & E3).
  destruct (entries A !! (rp, stack_page)) as [e|] eqn:E; [|done].
  eapply (page_mapped_near s l A k stack_page); [done|done|by vm_compute|done|done|done|]. by intros; eapply Hodd.
Qed.

(** The result of fd_alloc: the first descriptor that is not open, if there is one. *)
Definition first_free (A : vspace) (x : Z * option Z) : Prop :=
  (exists i, x = (0, Some (INDEX2FD i)) /\ 0 <= i < MAXFD /\ ~ fd_open A i /\ forall j, 0 <= j < i -> fd_open A j) \/
  (x = (- E_MAX_OPEN, None) /\ forall j, 0 <= j < MAXFD -> fd_open A j).

Lemma fd_alloc_loop_spec s l A n i :
  running s l A -> tidy A -> 0 <= i -> i + Z.of_nat n = 32 -> (forall j, 0 <= j < i -> fd_open A j) ->
  exists x, fd_alloc_loop n i s = Ret x s /\ first_free A x.
Proof.
  intros Hin Ht. revert i. induction n as [|n IH]; intros i Hi Hn Hop.
  - exists (- E_MAX_OPEN, None). split; [done|]. right. split; [done|]. intros j Hj. apply Hop. unfold MAXFD in Hj. lia.
  - cbn [fd_alloc_loop]. unfold mbind, M_bind. rewrite INDEX2FD_page by lia.
    rewrite (table_mapped s l A (fd_page i)) by (done || unfold fd_page; lia). case_bool_decide as Ho.
    + apply IH; [lia|lia|]. intros j Hj. destruct (decide (j = i)) as [->|]; [done|apply Hop; lia].
    + eexists. split; [reflexivity|]. left. exists i. rewrite INDEX2FD_page by lia. split_and!; [reflexivity|done|unfold MAXFD; lia|intros N; by apply N|exact Hop].
Qed.

Lemma fd_alloc_spec s l A : running s l A -> tidy A -> exists x, fd_alloc s = Ret x s /\ first_free A x.
Proof. intros. by eapply fd_alloc_loop_spec; try done; lia. Qed.

Lemma fd_lookup_spec s l A i :
  running s l A -> tidy A ->
  fd_lookup i s = Ret (if decide (0 <= i < MAXFD /\ fd_open A i) then (0, Some (INDEX2FD i)) else (- E_INVAL, None)) s.
Proof.
  intros Hin Ht. unfold fd_lookup, MAXFD, fd_open. destruct (decide (0 <= i < 32)) as [Hi|Hi].
  - rewrite (proj2 (Z.ltb_ge _ _)), Z.geb_leb, (proj2 (Z.leb_gt _ _)) by lia. cbn [orb]. unfold mbind, M_bind.
    rewrite INDEX2FD_page by lia. rewrite (table_mapped s l A (fd_page i)) by (done || unfold fd_page; lia).
    case_bool_decide as E; [by rewrite decide_True|rewrite decide_False; [done|tauto]].
  - rewrite decide_False by tauto. destruct ((i <? 0) || (i >=? 32)) eqn:E; [done|].
    apply orb_false_iff in E as [?%Z.ltb_ge E]. rewrite Z.geb_leb in E. apply Z.leb_gt in E. lia.
Qed.

(** ** pipe *)

(** A fresh page of zeros, as pipe() asks for them. *)
Definition got (A : vspace) (k p : Z) : vspace := map_at (zero_page A p) rp (k * 4096) (p * 4096 + PIPE_PERM).

Lemma got_entries A k p : entries (got A k p) = <[(rp, k) := p * 4096 + PIPE_PERM]> (entries A).
Proof. unfold got. cbn -[VPN]. by rewrite VPN_page. Qed.

Lemma pipe_entry p : (p * 4096 + PIPE_PERM) / 4096 = p /\ Z.odd (p * 4096 + PIPE_PERM) = true /\
  Z.land (p * 4096 + PIPE_PERM) (Z.lor (Z.lor PTE_P PTE_U) PTE_W) = Z.lor (Z.lor PTE_P PTE_U) PTE_W.
Proof.
  change PIPE_PERM with 1031. change (Z.lor (Z.lor PTE_P PTE_U) PTE_W) with (2 ^ 3 - 1).
  split_and!; [Z.div_mod_to_equations; lia| |].
  - rewrite Z.odd_add, Z.odd_mul. by rewrite andb_false_r.
  - rewrite land_low by lia. Z.div_mod_to_equations. lia.
Qed.

Lemma got_tidy A k p : tidy A -> tidy (got A k p).
Proof.
  intros [Ho Hs]. split; rewrite got_entries.
  - intros k' e [[_ <-]|[_ He]]%lookup_insert_Some; [apply pipe_entry|by eapply Ho].
  - rewrite lookup_insert. by case_decide.
Qed.

Lemma got_open A k p i : fd_open (got A k p) i <-> k = fd_page i \/ fd_open A i.
Proof.
  unfold fd_open. rewrite got_entries, lookup_insert. case_decide as H; [naive_solver|].
  split; [by right|]. intros [->|?]; [congruence|done].
Qed.

Lemma got_uses A k p q : uses (entries (got A k p)) q = 0 -> q <> p /\ (entries A !! (rp, k) = None -> uses (entries A) q = 0).
Proof.
  intros Hu. split.
  - intros ->. rewrite got_entries in Hu. pose proof (uses_pos _ (rp, k) _ (lookup_insert_eq (entries A) (rp, k) (p * 4096 + PIPE_PERM))) as H.
    destruct (pipe_entry p) as (E & _). rewrite E in H. lia.
  - intros Hn. rewrite got_entries, uses_insert_new in Hu by done. pose proof (uses_nonneg (entries A) q). case_decide; lia.
Qed.

Lemma alloc_table s l A k :
  running s l A -> 0xD0000 <= k < 0xD0080 ->
  wp (sys_page_alloc 0 (k * 4096) PIPE_PERM) s (fun res s' => exists l', (length l <= length l' + 4)%nat /\
    ((res = 0 /\ exists p, uses (entries A) p = 0 /\ running s' l' (got A k p)) \/
     (res = - E_NO_MEM /\ (length l < 4)%nat /\ running s' l' A))).
Proof. intros Hin Hk. destruct (table_page k Hk) as (Hva & Hb & _). apply alloc_own; [done|done|by rewrite Hb]. Qed.

(** Giving a page back on the way out. *)
Definition same_bytes (A A' : vspace) : Prop :=
  forall k e a, entries A !! k = Some e -> a / 4096 = e / 4096 -> contents A' a = contents A a.

Lemma undo s l A A' k e :
  running s l A' -> 0xD0000 <= k < 0xD0080 -> entries A !! (rp, k) = None -> entries A' = <[(rp, k) := e]> (entries A) ->
  wp (sys_page_unmap 0 (k * 4096)) s (fun _ s' => exists l' A'', running s' l' A'' /\ entries A'' = entries A /\ contents A'' = contents A').
Proof.
  intros Hin Hk Hn He. destruct (table_page k Hk) as (Hva & Hb & _).
  wuse (unmap_own s l A' (k * 4096) e Hin Hva Hb); [rewrite He, VPN_page; apply lookup_insert_eq|].
  intros _ s' (l' & Hin'). exists l', (unmap_at A' rp (k * 4096)). split_and!; [done| |done].
  cbn -[VPN]. rewrite VPN_page, He. by apply delete_insert_id.
Qed.

Lemma got_bytes A k p : uses (entries A) p = 0 -> same_bytes A (got A k p).
Proof. intros Hp k' e a He Ha. cbn. rewrite decide_False; [done|]. rewrite Ha. by eapply uses_zero. Qed.

Lemma got_keeps A k p k' e : entries A !! (rp, k) = None -> entries A !! k' = Some e -> entries (got A k p) !! k' = Some e.
Proof. intros Hn He. rewrite got_entries, lookup_insert_ne; [done|]. intros <-. congruence. Qed.

(** *** The stores *)

(** The contents of a new pair of descriptors. *)
Record pipe_fields (m : bytes) (p0 p1 : Z) : Prop := {
  pf_dev0 : ld32 m (p0 * 4096) = devpipe_id;
  pf_mode0 : ld32 m (p0 * 4096 + 8) = O_RDONLY;
  pf_dev1 : ld32 m (p1 * 4096) = devpipe_id;
  pf_mode1 : ld32 m (p1 * 4096 + 8) = O_WRONLY
}.

Definition pipe_stores (fd0 fd1 : Z) : K (Z * option (Z * Z)) :=
  ustore32 (fd_dev_id_addr fd0) devpipe_id;;
  ustore32 (fd_omode_addr fd0) O_RDONLY;;
  ustore32 (fd_dev_id_addr fd1) devpipe_id;;
  ustore32 (fd_omode_addr fd1) O_WRONLY;;
  mret (0, Some (i32 (fd2num fd0), i32 (fd2num fd1))).

Lemma pipe_stores_spec s l A i j p0 p1 :
  running s l A -> 0 <= i < 32 -> 0 <= j < 32 -> p0 <> p1 ->
  entries A !! (rp, fd_page i) = Some (p0 * 4096 + PIPE_PERM) -> entries A !! (rp, fd_page j) = Some (p1 * 4096 + PIPE_PERM) ->
  wp (pipe_stores (INDEX2FD i) (INDEX2FD j)) s (fun x s' => x = (0, Some (i, j)) /\
    exists A', running s' l A' /\ entries A' = entries A /\ pipe_fields (mem s') p0 p1 /\
      (forall a, a / 4096 <> p0 -> a / 4096 <> p1 -> contents A' a = contents A a)).
Proof.
  intros Hin Hi Hj Hne H0 H1. destruct (pipe_entry p0) as (E0 & _ & F0), (pipe_entry p1) as (E1 & _ & F1).
  destruct (table_page (fd_page i)) as (V0 & _); [unfold fd_page; lia|].
  destruct (table_page (fd_page j)) as (V1 & _); [unfold fd_page; lia|].
  unfold pipe_stores, fd_dev_id_addr, fd_omode_addr. rewrite !fd2num_page, !INDEX2FD_page by lia.
  apply wp_bind. wuse (ustore32_first s l A (fd_page i) devpipe_id _ Hin V0 H0 F0). intros _ s1 [M1 Hin1].
  apply wp_bind. wuse (ustore32_own s1 l _ (fd_page i) 8 O_RDONLY _ Hin1 V0 H0 ltac:(lia) F0). intros _ s2 [M2 Hin2].
  apply wp_bind. wuse (ustore32_first s2 l _ (fd_page j) devpipe_id _ Hin2 V1 H1 F1). intros _ s3 [M3 Hin3].
  apply wp_bind. wuse (ustore32_own s3 l _ (fd_page j) 8 O_WRONLY _ Hin3 V1 H1 ltac:(lia) F1). intros _ s4 [M4 Hin4].
  rewrite E0, E1 in *. wsteps. rewrite !swrap_small by lia. split; [done|]. eexists. split_and!; [exact Hin4|done| |].
  - rewrite M4, M3, M2, M1. split; repeat (rewrite ld_st_eq || rewrite ld_st_ne by lia); done.
  - intros a Ha0 Ha1. cbn. by rewrite !decide_False by done.
Qed.

Lemma not_open A i : ~ fd_open A i -> entries A !! (rp, fd_page i) = None.
Proof. intros H. destruct (entries A !! (rp, fd_page i)) eqn:E; [|done]. exfalso. apply H. unfold fd_open. congruence. Qed.

(** *** The whole of pipe *)
Definition pipe_made (A A' : vspace) (m : bytes) (i j p0 p1 p : Z) : Prop :=
  0 <= i < j /\ j < MAXFD /\ ~ fd_open A i /\ ~ fd_open A j /\ (forall k, 0 <= k < j -> k <> i -> fd_open A k) /\
  p0 <> p1 /\ p <> p0 /\ p <> p1 /\ uses (entries A) p0 = 0 /\ uses (entries A) p1 = 0 /\ uses (entries A) p = 0 /\
  entries A' = <[(rp, data_pg j) := p * 4096 + PIPE_PERM]> (<[(rp, data_pg i) := p * 4096 + PIPE_PERM]>
    (<[(rp, fd_page j) := p1 * 4096 + PIPE_PERM]> (<[(rp, fd_page i) := p0 * 4096 + PIPE_PERM]> (entries A)))) /\
  pipe_fields m p0 p1 /\ (forall a, a / 4096 = p -> contents A' a = 0) /\ same_bytes A A'.

Definition pipe_post (A : vspace) (l : list Z) (x : Z * option (Z * Z)) (s' : kstate) : Prop :=
  exists l' A', running s' l' A' /\
    ((exists i j p0 p1 p, x = (0, Some (i, j)) /\ pipe_made A A' (mem s') i j p0 p1 p) \/
     (entries A' = entries A /\ same_bytes A A' /\
       ((x = (- E_MAX_OPEN, None) /\ exists i, forall k, 0 <= k < MAXFD -> k <> i -> fd_open A k) \/
        (x = (- E_NO_MEM, None) /\ (length l < 12)%nat)))).

Lemma pipe_err1_spec s l0 l A A' i e r :
  running s l A' -> 0 <= i < 32 -> ~ fd_open A i -> entries A' = <[(rp, fd_page i) := e]> (entries A) -> same_bytes A A' ->
  (r = - E_MAX_OPEN /\ (exists i, forall k, 0 <= k < MAXFD -> k <> i -> fd_open A k)) \/ (r = - E_NO_MEM /\ (length l0 < 12)%nat) ->
  wp (pipe_err1 r (INDEX2FD i)) s (pipe_post A l0).
Proof.
  intros Hin Hi Hop HE' Hby Hr. unfold pipe_err1. rewrite INDEX2FD_page by lia. apply wp_bind.
  wuse (undo s l A A' (fd_page i) e Hin); [unfold fd_page; lia|by apply not_open|done|].
  intros _ s' (l' & A'' & Hin' & HE & HC). wsteps. exists l', A''. split; [done|right]. split_and!; [done| |].
  - intros k e' a Hk Ha. rewrite HC. by eapply Hby.
  - destruct Hr as [[-> Hr]|[-> Hr]]; [left|right]; done.
Qed.

Lemma pipe_finish s l0 l A i j p0 p1 p :
  let A3 := got (got (got A (fd_page i) p0) (fd_page j) p1) (data_pg i) p in
  running s l A3 -> 0 <= i < j -> j < 32 -> ~ fd_open A i -> ~ fd_open A j ->
  (forall k, 0 <= k < j -> k <> i -> fd_open A k) ->
  uses (entries A) p0 = 0 -> uses (entries (got A (fd_page i) p0)) p1 = 0 ->
  uses (entries (got (got A (fd_page i) p0) (fd_page j) p1)) p = 0 -> outside p < 65534 ->
  wp (r ← sys_page_map 0 (data_pg i * 4096) 0 (data_pg j * 4096) PIPE_PERM;
      if r <? 0 then pipe_err3 r (INDEX2FD i) (INDEX2FD j) (data_pg i * 4096) else pipe_stores (INDEX2FD i) (INDEX2FD j)) s
    (pipe_post A l0).
Proof.
  intros A3 Hin Hij Hj Oi Oj Hfirst U0 U1' U2' Hout.
  pose proof (not_open A) as Hcl.
  destruct (got_uses _ _ _ _ U1') as [N1 U1]. specialize (U1 (Hcl i Oi)).
  destruct (got_uses _ _ _ _ U2') as [N2 U2]. rewrite got_entries, lookup_insert_ne in U2 by (unfold fd_page; congruence || (intros [=]; lia)).
  specialize (U2 (Hcl j Oj)). rewrite <- got_entries in U2. destruct (got_uses _ _ _ _ U2) as [N3 U3]. specialize (U3 (Hcl i Oi)).
  destruct (table_page (data_pg i)) as (Vi & Bi & _ & Ki & _); [unfold data_pg; lia|].
  destruct (table_page (data_pg j)) as (Vj & Bj & _ & Kj & _); [unfold data_pg; lia|]. destruct (pipe_entry p) as (Ep & _).
  assert (entries A3 !! (rp, data_pg i) = Some (p * 4096 + PIPE_PERM)) as Hd by (unfold A3; rewrite got_entries; apply lookup_insert_eq).
  assert (uses (entries A3) p <= 1) as Hu by (unfold A3; rewrite got_entries; etrans; [apply uses_insert_le|lia]).
  apply wp_bind. wuse (map_own s l A3 (data_pg i * 4096) (data_pg j * 4096) PIPE_PERM (p * 4096 + PIPE_PERM) Hin Vi Vj Bi Bj).
  { by rewrite VPN_page. }
  { intros N. specialize (N (data_pg i * 4096) Vi). rewrite !VPN_page, Ki, Kj in N. by rewrite N in Hd. }
  { by split; [vm_compute|]. }
  { rewrite Ep. lia. }
  rewrite Ep. set (A4 := map_at A3 rp (data_pg j * 4096) (p * 4096 + PIPE_PERM)). intros res s4 (-> & l4 & Hin4).
  change (0 <? 0) with false. cbn beta iota.
  assert (entries A4 = <[(rp, data_pg j) := p * 4096 + PIPE_PERM]> (<[(rp, data_pg i) := p * 4096 + PIPE_PERM]>
    (<[(rp, fd_page j) := p1 * 4096 + PIPE_PERM]> (<[(rp, fd_page i) := p0 * 4096 + PIPE_PERM]> (entries A))))) as HE.
  { unfold A4, A3. cbn -[VPN]. by rewrite !VPN_page. }
  wuse (pipe_stores_spec s4 l4 A4 i j p0 p1 Hin4); [lia|lia|done|..].
  { rewrite HE, !lookup_insert_ne by (intros [=]; unfold data_pg, fd_page in *; lia). apply lookup_insert_eq. }
  { rewrite HE, !lookup_insert_ne by (intros [=]; unfold data_pg, fd_page in *; lia). apply lookup_insert_eq. }
  intros x s' (-> & A' & Hin' & HE' & Hf & HC). exists l4, A'. split; [done|left]. exists i, j, p0, p1, p. split; [done|].
  split_and!; try done; try lia; try congruence.
  - intros a Ha. rewrite HC by congruence. cbn. by rewrite decide_True.
  - intros k e a Hk Ha. rewrite HC by (rewrite Ha; by eapply uses_zero). cbn.
    by rewrite !decide_False by (rewrite Ha; by eapply uses_zero).
Qed.

Lemma pipe_spec s l A :
  running s l A -> tidy A -> (forall p, outside p < 65534) -> wp pipe s (pipe_post A l).
Proof.
  intros Hin Ht Hout. unfold pipe. apply wp_bind, wp_elim. destruct (fd_alloc_spec s l A Hin Ht) as (x & Hx & Hff).
  exists x, s. split; [exact Hx|]. destruct Hff as [(i & -> & Hi & Oi & Hlt)|[-> Hall]].
  2:{ apply wp_ret. exists l, A. split; [done|right]. split_and!; [done|done|left]. split; [done|]. exists (-1). auto. }
  cbn beta iota. rewrite fd2data_page by (unfold MAXFD in *; lia). apply wp_bind. rewrite INDEX2FD_page at 1 by (unfold MAXFD in *; lia).
  wuse (alloc_table s l A (fd_page i) Hin); [unfold fd_page, MAXFD in *; lia|].
  intros res s1 (l1 & Hc1 & [(-> & p0 & U0 & Hin1)|(-> & Hsh & Hin1)]).
  2:{ apply wp_ret. exists l1, A. split; [done|right]. split_and!; [done|done|right]. split; [done|lia]. }
  change (0 <? 0) with false. cbn beta iota. set (A1 := got A (fd_page i) p0) in *. pose proof (got_tidy A (fd_page i) p0 Ht) as Ht1.
  apply wp_bind, wp_elim. destruct (fd_alloc_spec s1 l1 A1 Hin1 Ht1) as (y & Hy & Hff).
  exists y, s1. split; [exact Hy|].
  assert (forall k, fd_open A1 k -> k <> i -> fd_open A k) as Hop.
  { intros k [E|?]%got_open Hk; [unfold fd_page in E; lia|done]. }
  destruct Hff as [(j & -> & Hj & Oj & Hltj)|[-> Hall]].
  2:{ eapply (pipe_err1_spec s1 l l1 A A1 i _ _ Hin1); [done|done|apply got_entries|by apply got_bytes|]. left. split; [done|]. exists i. intros k Hk Hki. by apply Hop; [apply Hall|]. }
  assert (i < j /\ ~ fd_open A j /\ forall k, 0 <= k < j -> k <> i -> fd_open A k) as (Hij & OjA & Hfirst).
  { assert (~ fd_open A j) as OjA by (intros H; apply Oj, got_open; by right).
    assert (j <> i) by (intros ->; apply Oj, got_open; by left). split_and!; [|done|].
    - destruct (decide (j < i)); [|lia]. exfalso. apply OjA, Hlt. lia.
    - intros k Hk Hki. apply Hop; [by apply Hltj|done]. }
  cbn beta iota. rewrite fd2data_page by (unfold MAXFD in *; lia). apply wp_bind. rewrite INDEX2FD_page at 1 by (unfold MAXFD in *; lia).
  wuse (alloc_table s1 l1 A1 (fd_page j) Hin1); [unfold fd_page, MAXFD in *; lia|].
  intros res s2 (l2 & Hc2 & [(-> & p1 & U1 & Hin2)|(-> & Hsh & Hin2)]).
  2:{ change (- E_NO_MEM <? 0) with true. cbn beta iota. eapply (pipe_err1_spec s2 l l2 A A1 i _ _ Hin2); [done|done|apply got_entries|by apply got_bytes|]. right. split; [done|lia]. }
  change (0 <? 0) with false. cbn beta iota zeta. apply wp_bind.
  wuse (alloc_table s2 l2 (got A1 (fd_page j) p1) (data_pg i) Hin2); [unfold data_pg, MAXFD in *; lia|].
  intros res s3 (l3 & Hc3 & [(-> & p & U2 & Hin3)|(-> & Hsh & Hin3)]).
  2:{ change (- E_NO_MEM <? 0) with true. cbn beta iota. unfold pipe_err2. rewrite (INDEX2FD_page j) by (unfold MAXFD in *; lia). apply wp_bind.
      wuse (undo s3 l3 A1 _ (fd_page j) _ Hin3); [unfold fd_page, MAXFD in *; lia|by apply not_open|apply got_entries|].
      intros _ s4 (l4 & A4 & Hin4 & HE & HC). eapply (pipe_err1_spec s4 l l4 A A4 i _ _ Hin4); try done.
      - rewrite HE. apply got_entries.
      - intros k e a Hk Ha. rewrite HC. etrans; [|by eapply (got_bytes A (fd_page i) p0)].
        by eapply (got_bytes A1 _ p1 U1); [apply got_keeps; [by apply not_open|]|].
      - right. split; [done|lia]. }
  change (0 <? 0) with false. cbn beta iota.
  apply (pipe_finish s3 l l3 A i j p0 p1 p); try done; unfold MAXFD in *; lia || apply Hout.
Qed.

(** ** dup *)

(** The entry that a page gets when it is mapped again with the permissions it has. *)
Definition again (e : Z) : Z := e / 4096 * 4096 + Z.land e PTE_SYSCALL.

Lemma map_again s l A k k' e :
  running s l A -> tidy A -> 0xD0000 <= k < 0xD0080 -> 0xD0000 <= k' < 0xD0080 ->
  entries A !! (rp, k) = Some e -> uses (entries A) (e / 4096) + outside (e / 4096) < 65535 ->
  wp (e ← vpt (k * 4096); sys_page_map 0 (k * 4096) 0 (k' * 4096) (Z.land e PTE_SYSCALL)) s (fun res s' =>
    res = 0 /\ exists l', running s' l' (map_at A rp (k' * 4096) (again e))).
Proof.
  intros Hin [Hodd _] Hk Hk' He Hroom. pose proof (parent_root _ _ _ _ Hrp _ _ _ Hin) as Hr. destruct (Hin) as [Hcr Hso].
  destruct (table_page k Hk) as (V & B & _ & N & _), (table_page k' Hk') as (V' & B' & _ & N' & _).
  assert (pte_of (mem s) rp (k * 4096) = e) as Hp by by rewrite (so_pte _ _ _ _ _ _ Hso rp _ Hr V), VPN_page, He.
  destruct (so_used _ _ _ _ _ _ Hso _ _ He) as (Hz & _). apply wp_bind, wp_elim. do 2 eexists. split.
  { eapply vpt_ok; [by eapply so_pt|by apply user_va_ok|done|congruence]. }
  rewrite Hp. wuse (map_own s l A (k * 4096) (k' * 4096) (Z.land e PTE_SYSCALL) e Hin V V' B B').
  { by rewrite VPN_page. }
  { intros Hno. specialize (Hno (k * 4096) V). rewrite !VPN_page, N, N' in Hno. by rewrite Hno in He. }
  { apply land_flags_ok; [by vm_compute|done|by eapply Hodd]. }
  { done. }
  done.
Qed.

(** The memory after dup: the data page first, if there is one. *)
Definition dup_entries (A : vspace) (old new e : Z) : gmap (Z * Z) Z :=
  <[(rp, fd_page new) := again e]>
    match entries A !! (rp, data_pg old) with
    | Some d => <[(rp, data_pg new) := again d]> (entries A)
    | None => entries A
    end.

Lemma dup_spec devtab s l A old new e :
  running s l A -> tidy A -> 0 <= old < 32 -> 0 <= new < 64 -> (new < 32 -> ~ fd_open A new) ->
  entries A !! (rp, fd_page old) = Some e -> (forall p, uses (entries A) p + outside p + 1 < 65535) ->
  wp (dup devtab old new) s (fun res s' => res = new /\
    exists l' A', running s' l' A' /\ entries A' = dup_entries A old new e /\ contents A' = contents A).
Proof.
  intros Hin Ht Hold Hnew Hcl He Hroom. unfold dup. apply wp_bind, wp_elim. do 2 eexists. split; [by apply (fd_lookup_spec s l A)|].
  rewrite decide_True by (split; [done|unfold fd_open; congruence]). cbn beta iota.
  apply wp_bind. unfold close. apply wp_bind, wp_elim. do 2 eexists. split; [by apply (fd_lookup_spec s l A)|].
  rewrite decide_False by (unfold MAXFD; intros [? ?]; by apply Hcl; [lia|]). apply wp_ret. cbn beta iota zeta.
  rewrite !fd2data_page, !INDEX2FD_page by lia.
  assert (forall k, 0xD0000 <= fd_page k < 0xD0080 <-> 0 <= k < 128) as Hf by (intros; unfold fd_page; lia).
  assert (forall k, 0 <= k < 64 -> 0xD0000 <= data_pg k < 0xD0080) as Hd by (intros; unfold data_pg; lia).
  set (A1 := match entries A !! (rp, data_pg old) with
             | Some d => map_at A rp (data_pg new * 4096) (again d) | None => A end).
  assert (tidy A1 /\ entries A1 !! (rp, fd_page old) = Some e /\ (forall p, uses (entries A1) p <= uses (entries A) p + 1)) as (Ht1 & He1 & Hu1).
  { unfold A1. destruct (entries A !! (rp, data_pg old)) as [d|] eqn:Ed; [|split_and!; [done|done|intros; lia]].
    cbn -[VPN]. rewrite VPN_page, lookup_insert_ne by (intros [=]; unfold data_pg, fd_page in *; lia).
    split_and!; [|done|intros; apply uses_insert_le]. destruct Ht as [Ho Hs]. split; cbn -[VPN]; rewrite VPN_page.
    - intros k e' [[_ <-]|[_ He']]%lookup_insert_Some; [|by eapply Ho]. unfold again.
      rewrite Z.odd_add, Z.odd_mul, andb_false_r. cbn [xorb]. rewrite <- Z.bit0_odd, Z.land_spec, Z.bit0_odd. by rewrite (Ho _ _ Ed).
    - rewrite lookup_insert. by case_decide. }
  apply wp_bind, wp_elim. do 2 eexists. split; [exact (table_mapped s l A _ Hin Ht (Hd old ltac:(lia)))|]. apply wp_bind.
  assert (wp (if bool_decide (entries A !! (rp, data_pg old) <> None)
     then e ← vpt (data_pg old * 4096); sys_page_map 0 (data_pg old * 4096) 0 (data_pg new * 4096) (Z.land e PTE_SYSCALL)
     else mret 0) s (fun res s' => res = 0 /\ exists l', running s' l' A1)) as H1.
  { unfold A1. destruct (entries A !! (rp, data_pg old)) as [d|] eqn:Ed.
    - rewrite bool_decide_true by done. specialize (Hroom (d / 4096)). apply (map_again s l A (data_pg old) (data_pg new) d); try done; [apply Hd; lia|by apply Hd|lia].
    - rewrite bool_decide_false by (intros N; by apply N). apply wp_ret. eauto. }
  wuse H1. intros res s1 (-> & l1 & Hin1). change (0 <? 0) with false. cbn beta iota.
  specialize (Hu1 (e / 4096)). specialize (Hroom (e / 4096)).
  pose proof (map_again s1 l1 A1 (fd_page old) (fd_page new) e Hin1 Ht1 ltac:(apply Hf; lia) ltac:(apply Hf; lia) He1 ltac:(lia)) as H2.
  apply wp_bind_assoc, wp_bind. wuse H2. intros res s2 (-> & l2 & Hin2).
  change (0 <? 0) with false. apply wp_ret. split; [done|]. exists l2. eexists. split_and!; [exact Hin2| |].
  - cbn -[VPN]. rewrite VPN_page. unfold dup_entries, A1. destruct (entries A !! (rp, data_pg old)); [|done]. cbn -[VPN]. by rewrite VPN_page.
  - unfold A1. by destruct (entries A !! (rp, data_pg old)).
Qed.
End descriptors.

(** ** The theorems *)

(** C8: pipe() returns.  When it succeeds, its two results are the two smallest
    descriptors that were not open, the first for reading and the second for writing;
    their pages are two fresh pages, and their data addresses lead to one fresh page of
    zeros, which is an empty pipe.  It fails with -E_MAX_OPEN only when all descriptors
    but one are open, and with -E_NO_MEM only when fewer than twelve pages are free, and
    then the environment has the mappings it had.  In both cases no byte of a page that
    was mapped changes. *)
Theorem pipe_connects roots sp outside rp s l A :
  (forall p, 0 <= outside p < 65534) -> sp 0 = Some rp -> cr3 s = rp * 4096 ->
  space_ok roots sp outside s l A -> tidy rp A ->
  wp pipe s (fun x s' => exists l' A', space_ok roots sp outside s' l' A' /\
    ((exists i j p0 p1 p, x = (0, Some (i, j)) /\ pipe_made rp A A' (mem s') i j p0 p1 p) \/
     (entries A' = entries A /\ same_bytes A A' /\
       ((x = (- E_MAX_OPEN, None) /\ exists i, forall k, 0 <= k < MAXFD -> k <> i -> fd_open rp A k) \/
        (x = (- E_NO_MEM, None) /\ (length l < 12)%nat))))).
Proof.
  intros Hout Hrp Hcr Hso Ht.
  wuse (pipe_spec roots sp outside rp ltac:(apply Hout) Hrp s l A); [done|done|intros; apply Hout|].
  intros x s' (l' & A' & [_ Hso'] & H). exists l', A'. done.
Qed.

(** C9: dup of an open descriptor to a number that is not open returns the number, and
    never runs out of memory: the new descriptor has the same page as the old one, with
    the same permissions, and so has its data page if the old one has a data page; no
    other mapping and no byte of memory changes.  dup of a descriptor that is not open
    returns -E_INVAL and changes nothing.  The new number is not checked: from MAXFD on,
    its descriptor is the data page of another one. *)
Theorem dup_shares devtab roots sp outside rp s l A old new :
  (forall p, 0 <= outside p) -> sp 0 = Some rp -> cr3 s = rp * 4096 ->
  space_ok roots sp outside s l A -> tidy rp A -> 0 <= new < 2 * MAXFD -> (new < MAXFD -> ~ fd_open rp A new) ->
  (forall p, uses (entries A) p + outside p + 1 < 65535) ->
  match entries A !! (rp, fd_page old) with
  | Some e => 0 <= old < MAXFD ->
      wp (dup devtab old new) s (fun res s' => res = new /\ exists l' A', space_ok roots sp outside s' l' A' /\
        entries A' = dup_entries rp A old new e /\ contents A' = contents A)
  | None => dup devtab old new s = Ret (- E_INVAL) s
  end.
Proof.
  intros Hout Hrp Hcr Hso Ht Hnew Hcl Hroom. unfold MAXFD in *.
  assert (in_parent roots sp outside rp s l A) as Hin by done. destruct (entries A !! (rp, fd_page old)) as [e|] eqn:He.
  - intros Hold. wuse (dup_spec roots sp outside rp Hout Hrp devtab s l A old new e); try done.
    intros res s' (-> & l' & A' & [_ Hso'] & H1 & H2). split; [done|]. by exists l', A'.
  - unfold dup, mbind, M_bind. rewrite (fd_lookup_spec roots sp outside rp Hrp s l A old Hin Ht).
    rewrite decide_False; [done|]. intros [_ Ho]. by apply Ho.
Qed.

(** *** A program with a stack, and one with an open descriptor *)
Lemma allocated_tidy n A l s :
  space_ok family_roots family_sp no_refs s l A -> allocated 7 n A ->
  pte_of (mem s) 1 (stack_page * 4096) <> 0 -> tidy 1 A.
Proof.
  intros Hso [_ He] Hp. split.
  - intros k e (_ & _ & p & ->)%He. rewrite Z.odd_add, Z.odd_mul, andb_false_r. done.
  - intros Hn. apply Hp. rewrite (so_pte _ _ _ _ _ _ Hso), VPN_page, Hn by (by left || by vm_compute). done.
Qed.

Lemma pipe_connects_witness :
  exists s', pipe with_stack = Ret (0, Some (0, 1)) s' /\
    exists A A' p0 p1 p, tidy 1 A /\ pipe_made 1 A A' (mem s') 0 1 p0 p1 p.
Proof.
  destruct (after_allocs_ok 7 [USTACKTOP - PGSIZE] ltac:(by repeat constructor)) as (A & l & Hso & Hcr & Hal).
  assert (match pipe with_stack with Ret x _ => x = (0, Some (0, 1)) | Stop _ _ => False end) as Hs by (vm_compute; reflexivity).
  assert (pte_of (mem with_stack) 1 (stack_page * 4096) = 8 * 4096 + 7) as Hp by (vm_compute; reflexivity).
  fold with_stack in Hso, Hcr. generalize dependent with_stack. intros s Hso Hcr Hs Hp.
  pose proof (allocated_tidy _ A l s Hso Hal ltac:(by rewrite Hp)) as Ht.
  pose proof (pipe_connects family_roots family_sp no_refs 1 s l A ltac:(done) eq_refl Hcr Hso Ht) as H.
  unfold wp in H. destruct (pipe s) as [x s'|]; [subst x|done]. exists s'. split; [reflexivity|]. destruct H as (l' & A' & _ & [(i & j & p0 & p1 & p & [= <- <-] & H)|(_ & _ & [[? _]|[? _]])]);
    [|discriminate..]. exists A, A', p0, p1, p. split; [exact Ht|exact H].
Defined.

Lemma dup_shares_witness :
  wp (dup [] 0 5) (after_allocs 7 [USTACKTOP - PGSIZE; INDEX2FD 0]) (fun res s' => res = 5 /\
    pte_of (mem s') 1 (INDEX2FD 5) = pte_of (mem (after_allocs 7 [USTACKTOP - PGSIZE; INDEX2FD 0])) 1 (INDEX2FD 0)).
Proof.
  assert (Forall (Z.le 0) [USTACKTOP - PGSIZE; INDEX2FD 0]) as Hv by (repeat constructor; vm_compute; congruence).
  assert (pte_of (mem (after_allocs 7 [USTACKTOP - PGSIZE; INDEX2FD 0])) 1 (stack_page * 4096) = 8 * 4096 + 7) as Hp by (vm_compute; reflexivity).
  assert (pte_of (mem (after_allocs 7 [USTACKTOP - PGSIZE; INDEX2FD 0])) 1 (INDEX2FD 0) = 12 * 4096 + 7) as Hp0 by (vm_compute; reflexivity).
  assert (pte_of (mem (after_allocs 7 [USTACKTOP - PGSIZE; INDEX2FD 0])) 1 (INDEX2FD 5) = 0) as Hp5 by (vm_compute; reflexivity).
  destruct (after_allocs_ok 7 _ Hv) as (A & l & Hso & Hcr & Hal).
  generalize dependent (after_allocs 7 [USTACKTOP - PGSIZE; INDEX2FD 0]). intros s Hp Hp0 Hp5 Hso Hcr.
  pose proof (allocated_tidy _ A l s Hso Hal ltac:(by rewrite Hp)) as Ht. destruct Hal as [Hu _].
  assert (forall k, 0 <= k < 64 -> pte_of (mem s) 1 (INDEX2FD k) = default 0 (entries A !! (1, fd_page k))) as Hpte.
  { intros k Hk. rewrite INDEX2FD_page by lia. destruct (table_page (fd_page k)) as (V & _); [unfold fd_page; lia|].
    rewrite (so_pte _ _ _ _ _ _ Hso), VPN_page by (by left || done). done. }
  rewrite Hpte in Hp5 by lia. pose proof Hp0 as Hp0'. rewrite Hpte in Hp0' by lia.
  pose proof (dup_shares [] family_roots family_sp no_refs 1 s l A 0 5 ltac:(done) eq_refl Hcr Hso Ht ltac:(unfold MAXFD; lia)) as H.
  destruct (entries A !! (1, fd_page 0)) as [e|] eqn:E0; cbn in Hp0'; [subst e|discriminate].
  assert (entries A !! (1, fd_page 5) = None) as E5.
  { destruct (entries A !! (1, fd_page 5)) as [e|] eqn:E5; [|done]. cbn in Hp5. subst e. by destruct (so_used _ _ _ _ _ _ Hso _ _ E5). }
  eapply wp_mono; [apply H|].
  - intros _ Ho. by apply Ho.
  - intros p. specialize (Hu p). simpl in Hu. unfold no_refs. lia.
  - unfold MAXFD. lia.
  - intros res s' (-> & l' & A' & Hso' & HE & _). split; [done|]. rewrite Hp0, INDEX2FD_page by lia.
    destruct (table_page (fd_page 5)) as (V & _); [unfold fd_page; lia|].
    rewrite (so_pte _ _ _ _ _ _ Hso'), VPN_page, HE by (by left || done). unfold dup_entries. rewrite lookup_insert_eq. done.
Defined.
