(* ===== verification/Spawn.v ===== *)
(** * Loading programs: lib/spawn.c

    The code runs in the parent, which is current, and builds the memory of the child
    with system calls.  Local arrays and structures of spawn are at addresses that are
    arguments; open() is an argument too, as the code of another device, the files.
    Messages are left out. *)
From S2P Require Import Prelude Mmu CMem Console KState Pmap PageTable Env E1000 Syscall AddrSpace Fork Umem Pipe Fd.

Definition E_NOT_EXEC : Z := 14.
Definition ELF_MAGIC : Z := 0x464C457F.
Definition ELF_PROG_FLAG_WRITE : Z := 2.

Definition UTEMP2USTACK (addr : Z) : Z := u64 (addr + (USTACKTOP - PGSIZE) - UTEMP).

(** ** init_stack *)

(** The first loop: the number of arguments and the size of their strings. *)
Fixpoint count_strings (n fuel : nat) (argv argc string_size : Z) : K (Z * Z) :=
  match n with
  | O => stop Diverge
  | S n' =>
      a ← uloadn 8 (argv + 8 * argc);
      if a =? 0 then mret (argc, string_size)
      else len ← ustrlen fuel a; count_strings n' fuel argv (i32 (argc + 1)) (u64 (string_size + i32 (len + 1)))
  end.

(** The second loop, for the [n] arguments from [i] on: the end of the strings. *)
Fixpoint store_strings (n fuel : nat) (argv argv_store i string_store : Z) : K Z :=
  match n with
  | O => mret string_store
  | S n' =>
      ustoren 8 (argv_store + 8 * i) (UTEMP2USTACK string_store);;
      a ← uloadn 8 (argv + 8 * i);
      ustrcpy fuel string_store a;;
      a ← uloadn 8 (argv + 8 * i);
      len ← ustrlen fuel a;
      store_strings n' fuel argv argv_store (i + 1) (string_store + i32 (len + 1))
  end.

Definition init_stack_error (r : Z) : K (Z * Z) := _ ← sys_page_unmap 0 UTEMP; mret (r, 0).

(** The result and the initial stack pointer. *)
Definition init_stack (fuel : nat) (child argv : Z) : K (Z * Z) :=
  x ← count_strings fuel fuel argv 0 0;
  let '(argc, string_size) := x in
  let string_store := u64 (UTEMP + PGSIZE - string_size) in
  let argv_store := u64 (ROUNDDOWN string_store 8 - 8 * (argc + 1)) in
  if u64 (argv_store - 16) <? UTEMP then mret (- E_NO_MEM, 0)
  else
    r ← sys_page_alloc 0 UTEMP (Z.lor (Z.lor PTE_P PTE_U) PTE_W);
    if r <? 0 then mret (r, 0)
    else
      string_store ← store_strings (Z.to_nat argc) fuel argv argv_store 0 string_store;
      ustoren 8 (argv_store + 8 * argc) 0;;
      if negb (string_store =? UTEMP + PGSIZE) then stop Panic
      else
        ustoren 8 (argv_store - 8) (UTEMP2USTACK argv_store);;
        ustoren 8 (argv_store - 16) argc;;
        let init_esp := UTEMP2USTACK (argv_store - 16) in
        r ← sys_page_map 0 UTEMP child (USTACKTOP - PGSIZE) (Z.lor (Z.lor PTE_P PTE_U) PTE_W);
        if r <? 0 then init_stack_error r
        else
          r ← sys_page_unmap 0 UTEMP;
          if r <? 0 then init_stack_error r else mret (0, init_esp).

(** ** Segments and shared pages *)
Section files.
Context (devtab : list Dev) (open : Z -> Z -> K Z) (fuel : nat).

Fixpoint map_segment_loop (n : nat) (child va memsz fd filesz fileoffset perm i : Z) : K Z :=
  match n with
  | O => stop Diverge
  | S n' =>
      if u64 i <? memsz then
        r ← (if u64 i >=? filesz then sys_page_alloc child (u64 (va + i)) perm
             else
               r ← sys_page_alloc 0 UTEMP (Z.lor (Z.lor PTE_P PTE_U) PTE_W);
               if r <? 0 then mret r
               else
                 r ← seek fd (i32 (fileoffset + i));
                 if r <? 0 then mret r
                 else
                   m ← readn devtab fuel fd UTEMP (Z.min PGSIZE (u64 (filesz - i)));
                   if i32 m <? 0 then mret (i32 m)
                   else
                     r ← sys_page_map 0 UTEMP child (u64 (va + i)) perm;
                     if r <? 0 then stop Panic else _ ← sys_page_unmap 0 UTEMP; mret 0);
        if r <? 0 then mret r
        else map_segment_loop n' child va memsz fd filesz fileoffset perm (i32 (i + PGSIZE))
      else mret 0
  end.
Definition map_segment (child va memsz fd filesz fileoffset perm : Z) : K Z :=
  let i := i32 (PGOFF va) in
  map_segment_loop fuel child (u64 (va - i)) (u64 (memsz + i)) fd (u64 (filesz + i)) (i32 (fileoffset - i)) perm 0.

(** The loop ignores the results of sys_page_map. *)
Fixpoint shared_loop (n : nat) (child va : Z) : K unit :=
  match n with
  | O => stop Diverge
  | S n' =>
      if va <? USTACKTOP - PGSIZE then
        b ← page_present va;
        (if b : bool then
           e ← vpt va;
           let perm := i32 (Z.land e PTE_USER) in
           if negb (Z.land perm PTE_SHARE =? 0) then r ← sys_page_map 0 va child va perm; mret tt else mret tt
         else mret tt);;
        shared_loop n' child (va + PGSIZE)
      else mret tt
  end.
Definition copy_shared_pages (child : Z) : K Z := shared_loop fuel child UTEXT;; mret 0.

(** ** spawn *)
Definition ustore_trapframe (tf : Z) (t : Trapframe) : K unit :=
  let r := tf_regs t in
  ustoren 8 tf (reg_r15 r);; ustoren 8 (tf + 8) (reg_r14 r);; ustoren 8 (tf + 16) (reg_r13 r);;
  ustoren 8 (tf + 24) (reg_r12 r);; ustoren 8 (tf + 32) (reg_r11 r);; ustoren 8 (tf + 40) (reg_r10 r);;
  ustoren 8 (tf + 48) (reg_r9 r);; ustoren 8 (tf + 56) (reg_r8 r);; ustoren 8 (tf + 64) (reg_rsi r);;
  ustoren 8 (tf + 72) (reg_rdi r);; ustoren 8 (tf + 80) (reg_rbp r);; ustoren 8 (tf + 88) (reg_rdx r);;
  ustoren 8 (tf + 96) (reg_rcx r);; ustoren 8 (tf + 104) (reg_rbx r);; ustoren 8 (tf + 112) (reg_rax r);;
  ustoren 2 (tf + 120) (tf_es t);; ustoren 2 (tf + 128) (tf_ds t);; ustoren 8 (tf + 136) (tf_trapno t);;
  ustoren 8 (tf + 144) (tf_err t);; ustoren 8 (tf + 152) (tf_rip t);; ustoren 2 (tf + 160) (tf_cs t);;
  ustoren 8 (tf + 168) (tf_eflags t);; ustoren 8 (tf + 176) (tf_rsp t);; ustoren 2 (tf + 184) (tf_ss t).

(** The loop over the program headers, from [ph] on. *)
Fixpoint spawn_segments (n : nat) (child fd ph : Z) : K Z :=
  match n with
  | O => mret 0
  | S n' =>
      t ← uloadn 4 ph;
      r ← (if t =? ELF_PROG_LOAD then
             flags ← uloadn 4 (ph + 4);
             let perm := if Z.land flags ELF_PROG_FLAG_WRITE =? 0 then Z.lor PTE_P PTE_U else Z.lor (Z.lor PTE_P PTE_U) PTE_W in
             va ← uloadn 8 (ph + 16);
             memsz ← uloadn 8 (ph + 40);
             filesz ← uloadn 8 (ph + 32);
             offset ← uloadn 8 (ph + 8);
             map_segment child va memsz fd filesz (i32 offset) perm
           else mret 0);
      if r <? 0 then mret r else spawn_segments n' child fd (ph + sizeof_Proghdr)
  end.

Definition spawn (elf_buf child_tf prog argv : Z) : K Z :=
  r ← open prog O_RDONLY;
  if r <? 0 then mret r
  else
    let fd := r in
    n ← readn devtab fuel fd elf_buf 512;
    magic ← (if n =? 512 then uloadn 4 elf_buf else mret 0);
    if negb (n =? 512) || negb (magic =? ELF_MAGIC) then _ ← close devtab fd; mret (- E_NOT_EXEC)
    else
      r ← sys_exofork;
      if r <? 0 then mret r
      else
        let child := r in
        v ← get_env (ENVX child);
        entry ← uloadn 8 (elf_buf + 24);
        ustore_trapframe child_tf ((env_tf v) <| tf_rip := entry |>);;
        x ← init_stack fuel child argv;
        if x.1 <? 0 then mret x.1
        else
          ustoren 8 (child_tf + 176) x.2;;
          phoff ← uloadn 8 (elf_buf + 32);
          phnum ← uloadn 2 (elf_buf + 56);
          r ← spawn_segments (Z.to_nat phnum) child fd (elf_buf + phoff);
          if r <? 0 then _ ← sys_env_destroy child; _ ← close devtab fd; mret r
          else
            _ ← close devtab fd;
            r ← copy_shared_pages child;
            if r <? 0 then stop Panic
            else
              r ← sys_env_set_trapframe child child_tf;
              if r <? 0 then stop Panic
              else
                r ← sys_env_set_status child 2;
                if r <? 0 then stop Panic else mret child.
End files.
