(* ===== verification/SpawnThms.v ===== *)
(** * Theorems on program loading

    The stack that init_stack builds for a child: through its own page tables the child
    reads the argument vector that the parent passed. *)
From S2P Require Import Prelude Mmu CMem Console KState Pmap FreeList PageTable Walk PmapSpec DemoState Env E1000 Syscall EnvThms SyscallThms AddrSpace Isolation Fork ForkThms Str Umem Pipe Fd FdThms Spawn.

(** ** Argument vectors *)

(** An array of pointers to strings, as the environment with page tables [r] reads it. *)
Fixpoint vargs (r : Z) (A : vspace) (va : Z) (strs : list (list Z)) : Prop :=
  match strs with
  | [] => vword r A 8 va 0
  | str :: rest => exists a, a <> 0 /\ vword r A 8 va a /\ vstr r A a str /\ vargs r A (va + 8) rest
  end.

Fixpoint strings_size (strs : list (list Z)) : Z :=
  match strs with [] => 0 | str :: rest => Z.of_nat (length str) + 1 + strings_size rest end.

(** The place of the array in the page, and of the stack pointer below it. *)
Definition argv_offset (strs : list (list Z)) : Z := (4096 - strings_size strs) / 8 * 8 - 8 * (Z.of_nat (length strs) + 1).
Definition stack_pointer (strs : list (list Z)) : Z := USTACKTOP - PGSIZE + (argv_offset strs - 16).

Lemma strings_size_le strs : Z.of_nat (length strs) <= strings_size strs.
Proof. induction strs; cbn [length strings_size]; lia. Qed.

Lemma argv_offset_bounds strs :
  argv_offset strs + 8 * Z.of_nat (length strs) + 8 <= 4096 - strings_size strs /\
  4096 - strings_size strs - 8 < argv_offset strs + 8 * Z.of_nat (length strs) + 8.
Proof. unfold argv_offset. Z.div_mod_to_equations. lia. Qed.
Lemma stack_page_range : 0 < stack_page < 2 ^ 40 /\ user_va (stack_page * 4096).
Proof. done. Qed.
Lemma temp_to_stack o : 0 <= o <= 4096 -> UTEMP2USTACK (UTEMP + o) = stack_page * 4096 + o.
Proof. intros Ho. unfold UTEMP2USTACK. destruct page_consts as (_ & -> & _). rewrite wrap_small; [lia|]. pose proof stack_page_range. lia. Qed.
Lemma ld_frame (P : Z -> Prop) n m m' a :
  (forall b, ~ P b -> ld8 m' b = ld8 m b) -> (forall b, a <= b < a + Z.of_nat n -> ~ P b) -> ld n m' a = ld n m a.
Proof. intros H HP. apply ld_ext. intros b Hb. by apply H, HP. Qed.

Section reading.
Context (r : Z) (A A' : vspace).
Hypothesis Hsame : forall va b, vchar r A va b -> vchar r A' va b.

Lemma vword_mono n va v : vword r A n va v -> vword r A' n va v.
Proof. revert va v. induction n; cbn; naive_solver. Qed.
Lemma vstr_mono va str : vstr r A va str -> vstr r A' va str.
Proof. revert va. induction str; cbn; naive_solver. Qed.
End reading.

(** A page of an environment whose bytes are those of [img]. *)
Section image.
Context (r : Z) (A : vspace) (k p : Z) (img : bytes).
Hypothesis Hk : user_va (k * 4096).
Hypothesis Hkp : entries A !! (r, k) = Some (p * 4096 + 7).
Hypothesis Himg : forall o, 0 <= o < 4096 -> contents A (p * 4096 + o) = ld8 img o.

Lemma image_vchar o : 0 <= o < 4096 -> vchar r A (k * 4096 + o) (ld8 img o).
Proof.
  intros Ho. destruct (draft_addr k p Hk o Ho) as (Hva & Hv & Hm & Hd). split; [done|]. exists (p * 4096 + 7).
  rewrite Hv, Hm, Hd, Himg by done. split_and!; [done| |done].
  change (Z.land (p * 4096 + 7) (Z.lor PTE_P PTE_U)) with (Z.land (p * 4096 + 7) 5). change (Z.lor PTE_P PTE_U) with (Z.land (2 ^ 3 - 1) 5).
  replace (Z.land (p * 4096 + 7) 5) with (Z.land (Z.land (p * 4096 + 7) (2 ^ 3 - 1)) 5) by (rewrite <- Z.land_assoc; done).
  rewrite land_low by lia. f_equal. Z.div_mod_to_equations. lia.
Qed.

Lemma image_vword n o : 0 <= o -> o + Z.of_nat n <= 4096 -> vword r A n (k * 4096 + o) (ld n img o).
Proof.
  revert o. induction n as [|n IH]; intros o Ho Hn; [done|]. cbn [vword].
  change (ld (S n) img o) with (ld8 img o + 256 * ld n img (o + 1)). pose proof (ld8_range img o) as Hb.
  replace ((ld8 img o + 256 * ld n img (o + 1)) mod 256) with (ld8 img o) by (Z.div_mod_to_equations; lia).
  replace ((ld8 img o + 256 * ld n img (o + 1)) / 256) with (ld n img (o + 1)) by (Z.div_mod_to_equations; lia).
  split; [apply image_vchar; lia|]. rewrite <- Z.add_assoc. apply IH; lia.
Qed.

Lemma image_vstr o str : 0 <= o -> o + Z.of_nat (length str) < 4096 -> str_at img o str -> vstr r A (k * 4096 + o) str.
Proof.
  revert o. induction str as [|c str IH]; intros o Ho Hn; cbn [vstr str_at length] in *.
  - intros <-. apply image_vchar. lia.
  - intros (<- & Hc & Hs). split_and!; [apply image_vchar; lia|done|]. rewrite <- Z.add_assoc. apply IH; [lia|lia|done].
Qed.

(** The array at [a] of pointers to the strings from [so] on. *)
Fixpoint args_img (m : bytes) (a so : Z) (strs : list (list Z)) : Prop :=
  match strs with
  | [] => True
  | str :: rest => ld64 m a = k * 4096 + so /\ str_at m so str /\ args_img m (a + 8) (so + (Z.of_nat (length str) + 1)) rest
  end.

Lemma image_vargs a so strs :
  args_img img a so strs -> ld64 img (a + 8 * Z.of_nat (length strs)) = 0 -> 0 <= a -> 0 < k -> 0 <= so ->
  a + 8 * Z.of_nat (length strs) + 8 <= 4096 -> so + strings_size strs <= 4096 -> vargs r A (k * 4096 + a) strs.
Proof.
  revert a so. induction strs as [|str strs IH]; intros a so; cbn [args_img vargs length strings_size].
  - intros _ Hz Ha Hk0 Hs Hl _. rewrite Z.add_0_r in Hz. rewrite <- Hz. apply image_vword; lia.
  - intros (Hp & Hs & Hrest) Hz Ha Hk0 Hso Hl Hsz. pose proof (strings_size_le strs). exists (k * 4096 + so). split_and!; [lia| | |].
    + rewrite <- Hp. apply image_vword; lia.
    + apply image_vstr; [lia|lia|done].
    + rewrite <- Z.add_assoc. apply (IH _ _ Hrest); try lia. rewrite <- Hz. f_equal. lia.
Qed.
End image.

Section stack.
Context (roots : Z -> Prop) (sp : Z -> option Z) (outside : Z -> Z) (rp rc child : Z).
Hypothesis outside_nonneg : forall p, 0 <= outside p.
Hypothesis Hrp : sp 0 = Some rp.
Hypothesis Hrc : sp child = Some rc.
Hypothesis Hne : rp <> rc.
Abbreviation running := (in_parent roots sp outside rp).

Lemma ustrlen_size fuel s l A va str :
  running s l A -> vstr rp A va str -> (length str < fuel)%nat -> Z.of_nat (length str) + 1 < 2 ^ 31 ->
  ustrlen fuel va s = Ret (Z.of_nat (length str)) s /\ i32 (Z.of_nat (length str) + 1) = Z.of_nat (length str) + 1.
Proof. intros. split; [by eapply ustrlen_ok; try done; lia|apply swrap_small; lia]. Qed.

Definition enough (fuel : nat) (strs : list (list Z)) : Prop :=
  (length strs < fuel)%nat /\ Forall (fun str => (length str < fuel)%nat) strs.

Lemma count_strings_ok n fuel s l A argv i sz strs :
  running s l A -> vargs rp A (argv + 8 * i) strs -> (length strs < n)%nat -> Forall (fun str => (length str < fuel)%nat) strs ->
  0 <= i -> 0 <= sz -> i + strings_size strs < 2 ^ 31 -> sz + strings_size strs < 2 ^ 31 ->
  count_strings n fuel argv i sz s = Ret (i + Z.of_nat (length strs), sz + strings_size strs) s.
Proof.
  intros Hin. revert n i sz. induction strs as [|str strs IH]; intros n i sz Ha Hn Hf Hi Hsz Hmi Hms;
    (destruct n as [|n]; [cbn in Hn; lia|]); cbn [vargs length strings_size count_strings] in *; unfold mbind, M_bind.
  - rewrite (uloadn_ok _ _ _ _ Hrp _ _ _ _ _ _ Hin Ha). cbn. unfold mret, M_ret. do 2 f_equal; lia.
  - destruct Ha as (a & Ha0 & Hw & Hs & Hrest). inversion_clear Hf as [|? ? Hf1 Hf2]. pose proof (strings_size_le strs).
    rewrite (uloadn_ok _ _ _ _ Hrp _ _ _ _ _ _ Hin Hw), (proj2 (Z.eqb_neq a 0)) by done.
    destruct (ustrlen_size fuel s l A a str Hin Hs Hf1 ltac:(lia)) as [-> ->].
    rewrite swrap_small, wrap_small by lia. rewrite IH; [do 2 f_equal; lia| |lia|done|lia..].
    replace (argv + 8 * (i + 1)) with (argv + 8 * i + 8) by lia. done.
Qed.

(** ** Filling the page *)
Section filling.
Context (A : vspace) (p : Z).
Hypothesis Hfree : uses (entries A) p = 0.
Hypothesis Htemp : entries A !! (rp, VPN UTEMP) = None.
Definition temp_mapped : vspace := map_at (zero_page A p) rp UTEMP (p * 4096 + 7).

Lemma temp_page : UTEMP = 1024 * 4096 /\ VPN UTEMP = 1024 /\ user_va (1024 * 4096).
Proof. done. Qed.
Lemma temp_entries : entries temp_mapped = <[(rp, 1024) := p * 4096 + 7]> (entries A).
Proof. done. Qed.
Lemma temp_entry : entries temp_mapped !! (rp, 1024) = Some (p * 4096 + 7).
Proof. apply lookup_insert_eq. Qed.
Lemma temp_alone k e : entries temp_mapped !! k = Some e -> e / 4096 = p -> k = (rp, 1024).
Proof. rewrite temp_entries. intros [[<- _]|[_ H]]%lookup_insert_Some Hp; [done|]. exfalso. by eapply uses_zero. Qed.
Abbreviation filling := (draft roots sp outside rp temp_mapped p).

(** What the parent read before, it still reads. *)
Lemma filling_reads s l img : filling s l img -> exists A', running s l A' /\ forall va b, vchar rp A va b -> vchar rp A' va b.
Proof.
  intros (A' & Hin & HE & HZ & HC & _). exists A'. split; [done|]. intros va b (Hva & e & He & Hfl & Hb).
  pose proof (uses_zero _ _ _ _ Hfree He) as Hp. split; [done|]. exists e. rewrite HE, HC by (by rewrite in_page).
  unfold temp_mapped. cbn -[VPN]. rewrite decide_False by (by rewrite in_page). split_and!; [|done|done].
  rewrite lookup_insert_ne; [done|]. intros [= E]. change 1024 with (VPN UTEMP) in E. congruence.
Qed.
Lemma old_char va b : vchar rp A va b -> vchar rp temp_mapped va b /\ VPN va <> 1024.
Proof.
  intros (Hva & e & He & Hfl & Hb). pose proof (uses_zero _ _ _ _ Hfree He) as Hp.
  assert (VPN va <> 1024) as Hk by (intros E; change 1024 with (VPN UTEMP) in E; congruence). split; [|done]. split; [done|].
  exists e. unfold temp_mapped. cbn -[VPN]. rewrite decide_False by (by rewrite in_page). split_and!; [|done|done].
  rewrite lookup_insert_ne; [done|]. intros [=]. change (VPN UTEMP) with 1024 in *. congruence.
Qed.
Lemma old_str va str : vstr rp A va str -> forall i, 0 <= i <= Z.of_nat (length str) -> VPN (va + i) <> 1024.
Proof.
  revert va. induction str as [|c str IH]; intros va; cbn [vstr length].
  - intros H i Hi. replace i with 0 by lia. rewrite Z.add_0_r. by apply old_char in H as [].
  - intros (Hc & _ & Hs) i Hi. destruct (decide (i = 0)) as [->|]; [rewrite Z.add_0_r; by apply old_char in Hc as []|].
    replace (va + i) with (va + 1 + (i - 1)) by lia. apply IH; [done|lia].
Qed.

Lemma filling_word s l img o v :
  filling s l img -> 0 <= o -> o + 8 <= 4096 -> wp (ustoren 8 (UTEMP + o) v) s (fun _ s' => filling s' l (st64 img o v)).
Proof.
  intros Hd Ho Hl. apply (draft_storen _ _ _ _ Hrp temp_mapped 1024 p ltac:(done) temp_entry); [done|lia|lia].
Qed.



Lemma store_strings_ok fuel strs s l img argv av i so :
  filling s l img -> vargs rp A (argv + 8 * i) strs -> Forall (fun str => (length str < fuel)%nat) strs ->
  0 <= i -> 0 <= av -> av + 8 * (i + Z.of_nat (length strs)) <= so -> so + strings_size strs <= 4096 ->
  wp (store_strings (length strs) fuel argv (UTEMP + av) i (UTEMP + so)) s (fun x s' =>
    x = UTEMP + so + strings_size strs /\ exists img', filling s' l img' /\ args_img stack_page img' (av + 8 * i) so strs /\
    forall a, ~ (av + 8 * i <= a < av + 8 * (i + Z.of_nat (length strs)) \/ so <= a < so + strings_size strs) -> ld8 img' a = ld8 img a).
Proof.
  revert s img i so. induction strs as [|str strs IH]; intros s img i so Hd Ha Hf Hi Hav Hle Hso;
    cbn [vargs length strings_size store_strings args_img] in *.
  { apply wp_ret. split; [lia|]. by exists img. }
  destruct Ha as (a & Ha0 & Hw & Hs & Hrest). inversion_clear Hf as [|? ? Hf1 Hf2]. pose proof (strings_size_le strs) as Hsz.
  apply wp_bind. rewrite temp_to_stack by lia. rewrite <- Z.add_assoc.
  wuse (filling_word s l img (av + 8 * i) (stack_page * 4096 + so) Hd); [lia|lia|]. intros _ s1 Hd1.
  destruct (filling_reads _ _ _ Hd1) as (A1 & Hin1 & Hr1).
  apply wp_bind, wp_elim. exists a, s1. split; [eapply (uloadn_ok _ _ _ _ Hrp _ _ _ _ _ _ Hin1), vword_mono; done|].
  apply wp_bind. assert (forall i, 0 <= i <= Z.of_nat (length str) -> VPN (a + i) <> 1024) as Hks by by apply old_str.
  assert (vstr rp temp_mapped a str) as Hs0 by (eapply vstr_mono; [|exact Hs]; intros ? ? H; apply old_char in H as []; done).
  wuse (draft_strcpy _ _ _ _ Hrp temp_mapped 1024 p ltac:(done) temp_entry temp_alone fuel s1 l _ so a str Hd1); try done; try lia.
  intros _ s2 (img2 & Hd2 & Hst2 & Hout2). destruct (filling_reads _ _ _ Hd2) as (A2 & Hin2 & Hr2).
  apply wp_bind, wp_elim. exists a, s2. split; [eapply (uloadn_ok _ _ _ _ Hrp _ _ _ _ _ _ Hin2), vword_mono; done|].
  destruct (ustrlen_size fuel s2 l A2 a str Hin2) as [Hlen Hi32]; [by eapply vstr_mono|done|lia|].
  apply wp_bind, wp_elim. exists (Z.of_nat (length str)), s2. split; [exact Hlen|]. rewrite Hi32, <- Z.add_assoc.
  wuse (IH s2 img2 (i + 1) (so + (Z.of_nat (length str) + 1)) Hd2); try done; try lia.
  { replace (argv + 8 * (i + 1)) with (argv + 8 * i + 8) by lia. done. }
  intros x s3 (-> & img3 & Hd3 & Hargs & Hout3). split; [lia|]. exists img3. split; [done|]. split.
  - replace (av + 8 * i + 8) with (av + 8 * (i + 1)) by lia. split_and!; [| |done].
    + rewrite (ld_frame _ 8 _ _ _ Hout3) by lia. rewrite (ld_frame _ 8 _ _ _ Hout2) by lia. apply ld64_st64. pose proof stack_page_range. lia.
    + eapply str_at_ext, Hst2. intros b Hb. apply Hout3. lia.
  - intros b Hb. rewrite Hout3, Hout2 by lia. rewrite ld8_st, decide_False by lia. done.
Qed.

(** The page with the strings, the array, and the two words of umain below it. *)
Definition stack_img (img : bytes) (strs : list (list Z)) : Prop :=
  let a := argv_offset strs in
  args_img stack_page img a (4096 - strings_size strs) strs /\ ld64 img (a + 8 * Z.of_nat (length strs)) = 0 /\
  ld64 img (a - 8) = stack_page * 4096 + a /\ ld64 img (a - 16) = Z.of_nat (length strs).

Lemma args_img_frame m m' a so strs :
  args_img stack_page m a so strs ->
  (forall b, a <= b < a + 8 * Z.of_nat (length strs) \/ so <= b < so + strings_size strs -> ld8 m' b = ld8 m b) ->
  args_img stack_page m' a so strs.
Proof.
  revert a so. induction strs as [|str strs IH]; intros a so; cbn [args_img length strings_size]; [done|].
  intros (Hp & Hs & Hr) H. pose proof (strings_size_le strs). split_and!.
  - rewrite <- Hp. apply ld_ext. intros b Hb. apply H. lia.
  - eapply str_at_ext, Hs. intros b Hb. apply H. lia.
  - apply IH; [done|]. intros b Hb. apply H. lia.
Qed.


Lemma fill_stack fuel s l img argv strs {B} (k : Z -> K B) Q :
  filling s l img -> vargs rp A argv strs -> enough fuel strs -> 16 <= argv_offset strs ->
  (forall s' img', filling s' l img' -> stack_img img' strs -> wp (k (UTEMP + PGSIZE)) s' Q) ->
  wp (string_store ← store_strings (length strs) fuel argv (UTEMP + argv_offset strs) 0 (UTEMP + (4096 - strings_size strs));
      ustoren 8 (UTEMP + argv_offset strs + 8 * Z.of_nat (length strs)) 0;;
      if negb (string_store =? UTEMP + PGSIZE) then stop Panic
      else ustoren 8 (UTEMP + argv_offset strs - 8) (UTEMP2USTACK (UTEMP + argv_offset strs));;
           ustoren 8 (UTEMP + argv_offset strs - 16) (Z.of_nat (length strs));; k string_store) s Q.
Proof.
  intros Hd Ha [Hf1 Hf2] Hoff Hk. pose proof (argv_offset_bounds strs) as [Hb1 Hb2]. pose proof (strings_size_le strs) as Hsz.
  pose proof stack_page_range as Hsp. set (a := argv_offset strs) in *. set (n := Z.of_nat (length strs)) in *. apply wp_bind.
  wuse (store_strings_ok fuel strs s l img argv a 0 (4096 - strings_size strs) Hd); try done; try lia.
  { by rewrite Z.mul_0_r, Z.add_0_r. }
  rewrite Z.mul_0_r, Z.add_0_r. intros x s1 (-> & img1 & Hd1 & Hargs & _).
  replace (UTEMP + (4096 - strings_size strs) + strings_size strs) with (UTEMP + PGSIZE) by (unfold PGSIZE; lia).
  rewrite Z.eqb_refl. cbn [negb]. rewrite temp_to_stack by lia.
  replace (UTEMP + a + 8 * n) with (UTEMP + (a + 8 * n)) by lia. replace (UTEMP + a - 8) with (UTEMP + (a - 8)) by lia.
  replace (UTEMP + a - 16) with (UTEMP + (a - 16)) by lia.
  apply wp_bind. wuse (filling_word s1 l img1 (a + 8 * n) 0 Hd1); [lia|lia|]. intros _ s2 Hd2.
  apply wp_bind. wuse (filling_word s2 l _ (a - 8) (stack_page * 4096 + a) Hd2); [lia|lia|]. intros _ s3 Hd3.
  apply wp_bind. wuse (filling_word s3 l _ (a - 16) n Hd3); [lia|lia|]. intros _ s4 Hd4.
  eapply Hk; [exact Hd4|]. unfold stack_img. fold a n. split_and!.
  - eapply args_img_frame; [exact Hargs|]. intros b Hb. rewrite !ld8_st, !decide_False by lia. done.
  - rewrite !ld64_st64_ne by lia. by rewrite ld64_st64.
  - rewrite ld64_st64_ne by lia. rewrite ld64_st64 by lia. done.
  - rewrite ld64_st64 by lia. done.
Qed.

(** The page moves to the child. *)
Definition child_stack (A' : vspace) (strs : list (list Z)) : Prop :=
  entries A' = <[(rc, stack_page) := p * 4096 + 7]> (entries A) /\
  vword rc A' 8 (stack_pointer strs) (Z.of_nat (length strs)) /\
  vword rc A' 8 (stack_pointer strs + 8) (stack_pointer strs + 16) /\ vargs rc A' (stack_pointer strs + 16) strs.

Lemma img_child_stack A' img strs :
  entries A' = <[(rc, stack_page) := p * 4096 + 7]> (entries A) -> (forall o, 0 <= o < 4096 -> contents A' (p * 4096 + o) = ld8 img o) ->
  stack_img img strs -> 16 <= argv_offset strs -> child_stack A' strs.
Proof.
  intros HE HC (Hargs & Hz & Hav & Hac) Hoff. pose proof (argv_offset_bounds strs) as [Hb1 Hb2]. pose proof (strings_size_le strs) as Hsz.
  pose proof stack_page_range as [Hsp Hva].
  assert (entries A' !! (rc, stack_page) = Some (p * 4096 + 7)) as Hk by (rewrite HE; apply lookup_insert_eq).
  unfold child_stack, stack_pointer. destruct page_consts as (_ & -> & _). split_and!; [done|..].
  - rewrite <- Hac. apply (image_vword rc A' stack_page p img Hva Hk HC); lia.
  - replace (_ + 16) with (ld64 img (argv_offset strs - 8)) by lia.
    replace (stack_page * 4096 + (argv_offset strs - 16) + 8) with (stack_page * 4096 + (argv_offset strs - 8)) by lia.
    apply (image_vword rc A' stack_page p img Hva Hk HC); lia.
  - replace (stack_page * 4096 + (argv_offset strs - 16) + 16) with (stack_page * 4096 + argv_offset strs) by lia.
    eapply (image_vargs rc A' stack_page p img Hva Hk HC); [exact Hargs|done|lia..].
Qed.

Lemma unmap_temp s l A' E :
  running s l A' -> entries A' = <[(rp, 1024) := p * 4096 + 7]> E -> E !! (rp, 1024) = None ->
  wp (sys_page_unmap 0 UTEMP) s (fun res s' => res = 0 /\ exists l', running s' l' (unmap_at A' rp UTEMP) /\ entries (unmap_at A' rp UTEMP) = E).
Proof.
  intros [Hcr Hso] HE Hn. wuse (call_refines roots sp outside outside_nonneg s l A' (CUnmap 0 UTEMP) Hso).
  { split; [done|]. intros r0 Hr0 Hno. rewrite Hrp in Hr0. injection Hr0 as <-. rewrite HE in Hno. change (VPN UTEMP) with 1024 in Hno. by rewrite lookup_insert_eq in Hno. }
  intros res s' (Hfr & _ & A2 & l' & Hst & Hso' & _). pose proof (cr3_frame _ _ Hfr) as Hcr'.
  destruct (vstep_unmap_own _ _ Hrp A' res A2 UTEMP (p * 4096 + 7) Hst) as [-> ->]; [done|by rewrite HE; apply lookup_insert_eq|].
  split; [done|]. exists l'. split; [split; [congruence|done]|]. cbn -[VPN]. change (VPN UTEMP) with 1024. rewrite HE. by apply delete_insert_id.
Qed.

Lemma move_stack s l img strs esp :
  filling s l img -> stack_img img strs -> 16 <= argv_offset strs -> outside p < 65534 ->
  wp (r ← sys_page_map 0 UTEMP child (USTACKTOP - PGSIZE) (Z.lor (Z.lor PTE_P PTE_U) PTE_W);
      if r <? 0 then init_stack_error r
      else r ← sys_page_unmap 0 UTEMP; if r <? 0 then init_stack_error r else mret (0, esp)) s
    (fun x s' => exists l' A', running s' l' A' /\ same_bytes A A' /\
      ((x = (0, esp) /\ child_stack A' strs) \/ (x = (- E_NO_MEM, 0) /\ (length l < 4)%nat /\ entries A' = entries A))).
Proof.
  intros (A1 & Hin & HE & HZ & HC & Hp) Himg Hoff Hout. pose proof Hin as [Hcr Hso]. pose proof stack_page_range as [_ Hva].
  destruct page_consts as (_ & -> & _). assert ((p * 4096 + 7) / 4096 = p) as Hdiv by (Z.div_mod_to_equations; lia).
  assert (forall A', contents A' = contents A1 -> same_bytes A A') as Hsame.
  { intros A' HC' k e a Hk Ha. pose proof (uses_zero _ _ _ _ Hfree Hk). rewrite HC', HC by congruence. cbn. by rewrite decide_False by congruence. }
  change (VPN UTEMP) with 1024 in Htemp. apply wp_bind.
  wuse (call_refines roots sp outside outside_nonneg s l A1 (CMap 0 UTEMP child (stack_page * 4096) 7) Hso).
  { split_and!; [done|done|]. intros rs Hrs _. rewrite Hrp in Hrs. injection Hrs as <-. split; [done|]. exists (p * 4096 + 7).
    rewrite HE. split; [apply temp_entry|]. rewrite Hdiv, temp_entries. pose proof (uses_insert_le (entries A) (rp, 1024) (p * 4096 + 7) p). lia. }
  intros res s1 (Hfr & Hmem & A2 & l1 & Hst & Hso1 & _). pose proof (cr3_frame _ _ Hfr) as Hcr1.
  assert (bad_va UTEMP || bad_va (stack_page * 4096) = false) as Hgood by done.
  inversion Hst as [| | | |? ? ? ? ? E|? ? ? ? ? ? ? _ _ E|? rs ? ? rd ? ? e' Es Ed _ He'|? ? ? ? rd ? ? _ Ed _ Hnear| | | | |]; subst.
  - destruct E; congruence.
  - congruence.
  - assert (rs = rp) as -> by congruence. assert (rd = rc) as -> by congruence. clear Es Ed.
    rewrite HE in He'. change (VPN UTEMP) with 1024 in He'. rewrite temp_entry in He'. injection He' as <-. rewrite Hdiv in *.
    change (0 <? 0) with false. cbn beta iota. apply wp_bind.
    wuse (unmap_temp s1 l1 _ (<[(rc, stack_page) := p * 4096 + 7]> (entries A)) (conj (eq_trans Hcr1 Hcr) Hso1)).
    { cbn -[VPN]. rewrite HE, temp_entries, VPN_page. apply insert_insert_ne. congruence. }
    { rewrite lookup_insert_ne by congruence. done. }
    intros res s2 (-> & l2 & Hin2 & HE2). change (0 <? 0) with false. apply wp_ret. eexists l2, _. split; [exact Hin2|].
    split; [by apply Hsame|left]. split; [done|]. by eapply img_child_stack.
  - change (- E_NO_MEM <? 0) with true. cbn beta iota. unfold init_stack_error. apply wp_bind.
    wuse (unmap_temp s1 l1 A2 (entries A) (conj (eq_trans Hcr1 Hcr) Hso1)); [done|done|].
    intros res s2 (_ & l2 & Hin2 & HE2). apply wp_ret. eexists l2, _. split; [exact Hin2|]. split; [by apply Hsame|right].
    split_and!; [done|by apply Hmem|done].
Qed.

Lemma fresh_temp s l : running s l temp_mapped -> filling s l ∅.
Proof.
  intros Hin. exists temp_mapped. split_and!; [done|done|done|done|]. intros o Ho. cbn. by rewrite decide_True by (Z.div_mod_to_equations; lia).
Qed.
End filling.
End stack.

(** C10: The stack of a child, for arguments whose strings and pointers take at most 4 MB
    together (UTEMP - 32 bytes, beyond which the address computed for the argument array
    would wrap around): init_stack maps a fresh page at the top of the child's stack, and
    through its own page tables the child finds there, at the stack pointer that is
    returned, the number of arguments and, above it, a pointer to an array of exactly the
    strings that the parent passed, with the null pointer that ends it; the parent's
    temporary mapping, at an address where it had nothing mapped, is gone, no other mapping of any
    environment changed, and no page that was mapped has changed its bytes.  Within the
    4 MB, it fails, with no mapping changed, when the strings and pointers do not fit in
    the page, and otherwise only when fewer than eight pages are free. *)
Theorem init_stack_passes_arguments roots sp outside rp rc child s l A fuel argv strs :
  (forall p, 0 <= outside p < 65534) -> sp 0 = Some rp -> sp child = Some rc -> rp <> rc ->
  cr3 s = rp * 4096 -> space_ok roots sp outside s l A -> entries A !! (rp, VPN UTEMP) = None ->
  vargs rp A argv strs -> enough fuel strs -> strings_size strs + 8 * Z.of_nat (length strs) + 32 <= UTEMP ->
  wp (init_stack fuel child argv) s (fun x s' => exists l' A',
    cr3 s' = rp * 4096 /\ space_ok roots sp outside s' l' A' /\ same_bytes A A' /\
    ((x = (0, stack_pointer strs) /\ 16 <= argv_offset strs /\ exists p, uses (entries A) p = 0 /\ child_stack rc A p A' strs) \/
     (x = (- E_NO_MEM, 0) /\ (argv_offset strs < 16 \/ (length l < 8)%nat) /\ entries A' = entries A))).
Proof.
  intros Hout Hrp Hrc Hne Hcr Hso Htemp Ha [Hf1 Hf2] Hsz. assert (in_parent roots sp outside rp s l A) as Hin by done.
  assert (UTEMP = 4194304) as HU by done. pose proof (strings_size_le strs) as Hn. pose proof (argv_offset_bounds strs) as [Hb1 Hb2].
  unfold init_stack. apply wp_bind, wp_elim. exists (Z.of_nat (length strs), strings_size strs), s. split.
  { rewrite (count_strings_ok roots sp outside rp Hrp fuel fuel s l A argv 0 0 strs); try done; try lia. by rewrite Z.mul_0_r, Z.add_0_r. }
  cbn beta iota zeta. replace (u64 (UTEMP + PGSIZE - strings_size strs)) with (UTEMP + (4096 - strings_size strs)) by (rewrite wrap_small; unfold PGSIZE; lia).
  replace (u64 (ROUNDDOWN (UTEMP + (4096 - strings_size strs)) 8 - 8 * (Z.of_nat (length strs) + 1))) with (UTEMP + argv_offset strs).
  2:{ assert (ROUNDDOWN (UTEMP + (4096 - strings_size strs)) 8 = UTEMP + (4096 - strings_size strs) / 8 * 8) as ->
        by (unfold ROUNDDOWN; rewrite HU; Z.div_mod_to_equations; lia).
      rewrite wrap_small; unfold argv_offset in *; lia. }
  rewrite wrap_small by lia. destruct (Z.ltb_spec (UTEMP + argv_offset strs - 16) UTEMP) as [Hbig|Hfit].
  { apply wp_ret. exists l, A. split_and!; try done. right. split_and!; [done|left; lia|done]. }
  apply wp_bind. wuse (alloc_own roots sp outside rp ltac:(intros p; apply Hout) Hrp s l A UTEMP _ Hin); [done|done|].
  intros res s1 (l1 & Hl1 & [(-> & p & Hp & Hin1)|(-> & Hl & [Hcr1 Hso1])]).
  2:{ apply wp_ret. exists l1, A. split_and!; try done. right. split_and!; [done|right; lia|done]. }
  change (0 <? 0) with false. cbn beta iota. rewrite Nat2Z.id.
  eapply (fill_stack roots sp outside rp Hrp A p Hp Htemp fuel s1 l1 ∅ argv strs
    (fun _ => r ← sys_page_map 0 UTEMP child (USTACKTOP - PGSIZE) (Z.lor (Z.lor PTE_P PTE_U) PTE_W);
      if r <? 0 then init_stack_error r
      else r ← sys_page_unmap 0 UTEMP; if r <? 0 then init_stack_error r else mret (0, UTEMP2USTACK (UTEMP + argv_offset strs - 16))));
    [by apply fresh_temp|done|done|lia|].
  intros s2 img Hd Himg. eapply wp_mono; [apply (move_stack roots sp outside rp rc child) with (A := A) (p := p) (img := img) (strs := strs) (l := l1); try done; try lia|].
  { intros q. apply Hout. } { apply Hout. }
  intros x s3 (l3 & A3 & [Hcr3 Hso3] & Hsame & Hx). exists l3, A3. split_and!; try done. destruct Hx as [[-> Hc]|(-> & Hl & HE)].
  - left. split_and!; [|lia|by exists p]. f_equal. replace (UTEMP + argv_offset strs - 16) with (UTEMP + (argv_offset strs - 16)) by lia.
    rewrite temp_to_stack by lia. unfold stack_pointer. destruct page_consts as (_ & -> & _). done.
  - right. split_and!; [done|right; lia|done].
Qed.

(** ** A parent that passes one argument *)
Lemma uses_alone A k k' e e' p :
  uses A p <= 1 -> A !! k = Some e -> e / 4096 = p -> A !! k' = Some e' -> e' / 4096 = p -> k' = k.
Proof.
  intros Hu Hk He Hk' He'. destruct (decide (k' = k)) as [|Hne]; [done|]. pose proof (uses_delete A k e p Hk) as Hd.
  rewrite He, decide_True in Hd by done. assert (delete k A !! k' = Some e') as H by by rewrite lookup_delete_ne.
  apply uses_pos in H. rewrite He' in H. lia.
Qed.

Definition args_base : Z := USTACKTOP - PGSIZE.
Definition store_args : K unit := ustoren 8 args_base (args_base + 16);; ustoren 2 (args_base + 16) 0x736c.
Definition with_args : kstate := match store_args with_stack with Ret _ s' => s' | Stop _ s' => s' end.
Definition args_image : bytes := st 2 (st64 ∅ 0 (args_base + 16)) 16 0x736c.

Lemma store_args_ok s l A :
  space_ok family_roots family_sp no_refs s l A -> cr3 s = 4096 -> uses (entries A) 8 <= 1 ->
  pte_of (mem s) 1 (stack_page * 4096) = 8 * 4096 + 7 -> pte_of (mem s) 1 (1024 * 4096) = 0 ->
  forallb (fun o => ld8 (mem s) (8 * 4096 + Z.of_nat o) =? 0) (seq 0 4096) = true ->
  exists s' A', store_args s = Ret tt s' /\ space_ok family_roots family_sp no_refs s' l A' /\ cr3 s' = 4096 /\
    entries A' !! (1, VPN UTEMP) = None /\ vargs 1 A' args_base [[0x6c; 0x73]].
Proof.
  intros Hso Hcr Hu Hp Ht Hz. pose proof stack_page_range as [_ Hva]. destruct page_consts as (_ & Hbase & _).
  assert (family_roots 1) as Hr by by left.
  destruct (pte_entry _ _ _ s l A 1 stack_page Hso Hr Hva) as [He _]. rewrite Hp in He.
  destruct (entries A !! (1, stack_page)) as [e|] eqn:HE; [|done]. cbn in He. subst e.
  destruct (pte_entry _ _ _ s l A 1 1024 Hso Hr ltac:(done)) as [_ Htemp]. specialize (Htemp Ht).
  assert (draft family_roots family_sp no_refs 1 A 8 s l ∅) as Hd.
  { exists A. split_and!; [done|done|done|done|]. intros o Ho. rewrite <- (so_bytes _ _ _ _ _ _ Hso _ _ (8 * 4096 + o) HE) by (Z.div_mod_to_equations; lia).
    rewrite forallb_forall in Hz. specialize (Hz (Z.to_nat o) ltac:(apply in_seq; lia)). rewrite Z2Nat.id in Hz by lia. by apply Z.eqb_eq in Hz. }
  pose proof (draft_storen family_roots family_sp no_refs 1 eq_refl A stack_page 8 Hva HE) as Hst.
  assert (wp store_args s (fun _ s' => draft family_roots family_sp no_refs 1 A 8 s' l args_image)) as Hw.
  { unfold store_args, args_base. rewrite Hbase. apply wp_bind. rewrite <- (Z.add_0_r (stack_page * 4096)) at 1.
    wuse (Hst 8%nat s l ∅ 0); [done|done|done|]. intros _ s1 Hd1. rewrite Z.add_0_l || idtac. by apply Hst. }
  apply wp_elim in Hw as ([] & s' & Hrun & A' & [Hcr' Hso'] & HE' & _ & _ & Himg). exists s', A'. split_and!; try done; [by rewrite HE'|].
  unfold args_base. rewrite Hbase, <- (Z.add_0_r (stack_page * 4096)).
  eapply (image_vargs 1 A' stack_page 8 args_image Hva ltac:(by rewrite HE') Himg 0 16); try done; vm_compute; split_and!; done.
Qed.

Lemma with_args_ok :
  exists l A, space_ok family_roots family_sp no_refs with_args l A /\ cr3 with_args = 4096 /\
    entries A !! (1, VPN UTEMP) = None /\ vargs 1 A args_base [[0x6c; 0x73]].
Proof.
  assert (pte_of (mem with_stack) 1 (stack_page * 4096) = 8 * 4096 + 7) as Hp by (vm_compute; reflexivity).
  assert (pte_of (mem with_stack) 1 (1024 * 4096) = 0) as Ht by (vm_compute; reflexivity).
  assert (forallb (fun o => ld8 (mem with_stack) (8 * 4096 + Z.of_nat o) =? 0) (seq 0 4096) = true) as Hz by (vm_compute; reflexivity).
  destruct (after_allocs_ok 7 [USTACKTOP - PGSIZE] ltac:(by repeat constructor)) as (A & l & Hso & Hcr & Hu & _).
  fold with_stack in Hso, Hcr. unfold with_args. generalize dependent with_stack. intros s Hp Ht Hz Hso Hcr.
  destruct (store_args_ok s l A Hso Hcr (Hu 8) Hp Ht Hz) as (s' & A' & -> & H). by exists l, A'.
Qed.

Lemma init_stack_passes_arguments_witness :
  wp (init_stack 10 0x1001 args_base) with_args (fun x s' => x = (0, USTACKTOP - 40) /\
    exists l' A', space_ok family_roots family_sp no_refs s' l' A' /\ vword 2 A' 8 (USTACKTOP - 40) 1 /\
      vargs 2 A' (USTACKTOP - 24) [[0x6c; 0x73]]).
Proof.
  assert (free_chain 8 (pages with_args) (page_free_list with_args) = true) as Hl by (vm_compute; reflexivity).
  destruct with_args_ok as (l & A & Hso & Hcr & Ht & Ha). generalize dependent with_args. intros s Hl Hso Hcr.
  pose proof (free_chain_length _ _ _ _ (wf_lseg _ _ (so_wf _ _ _ _ _ _ Hso)) Hl) as Hn.
  eapply wp_mono.
  - apply (init_stack_passes_arguments family_roots family_sp no_refs 1 2 0x1001 s l A 10 args_base [[0x6c; 0x73]]); try done.
    repeat constructor.
  - intros x s' (l' & A' & _ & Hso' & _ & [(-> & _ & p & _ & _ & H1 & _ & H2)|(_ & [H|H] & _)]); [|done|lia].
    split; [done|]. by exists l', A'.
Defined.
