(* ===== verification/Malloc.v ===== *)
(** * Memory allocation in user programs: lib/malloc.c

    The code runs in the current environment, like that of Fork.v, and takes its pages
    from the kernel.  The static variable mptr is an argument and a result. *)
From S2P Require Import Prelude Mmu CMem Console KState Pmap PageTable Env E1000 Syscall AddrSpace Fork Umem Pipe Fd.

Definition MAXMALLOC : Z := 1024 * 1024.
Definition PTE_CONTINUED : Z := 0x400.
Definition mbegin : Z := 0x08000000.
Definition mend : Z := 0x10000000.

(** The loop makes at most one test for each page that the range touches. *)
Fixpoint isfree_loop (k : nat) (va end_va : Z) : K bool :=
  match k with
  | O => stop Diverge
  | S k' =>
      if va <? end_va then
        if va >=? mend then mret false
        else b ← page_mapped va; if b : bool then mret false else isfree_loop k' (u64 (va + PGSIZE)) end_va
      else mret true
  end.
Definition isfree (v n : Z) : K bool := isfree_loop (Z.to_nat (n / PGSIZE + 2)) v (u64 (v + n)).

(** ** free *)

(** The loop over the pages of a large chunk; it returns the page with the count. *)
Fixpoint free_loop (k : nat) (c : Z) : K Z :=
  match k with
  | O => stop Diverge
  | S k' =>
      e ← vpt c;
      if Z.land e PTE_CONTINUED =? 0 then mret c
      else
        _ ← sys_page_unmap 0 c;
        let c := u64 (c + PGSIZE) in
        if negb ((mbegin <=? c) && (c <? mend)) then stop Panic else free_loop k' c
  end.
Definition free (v : Z) : K unit :=
  if v =? 0 then mret tt
  else if negb ((mbegin <=? v) && (v <? mend)) then stop Panic
  else
    c ← free_loop (Z.to_nat ((mend - mbegin) / PGSIZE)) (ROUNDDOWN v PGSIZE);
    let ref := c + PGSIZE - 4 in
    r ← uloadn 4 ref;
    let r := u32 (r - 1) in
    ustoren 4 ref r;;
    if r =? 0 then _ ← sys_page_unmap 0 c; mret tt else mret tt.

(** ** malloc *)

(** The search for address space: none when it has gone around twice. *)
Fixpoint find_space (fuel : nat) (mptr n nwrap : Z) : K (option Z) :=
  match fuel with
  | O => stop Diverge
  | S fuel' =>
      b ← isfree mptr (n + 4);
      if b : bool then mret (Some mptr)
      else
        let mptr := u64 (mptr + PGSIZE) in
        if mptr =? mend then if nwrap + 1 =? 2 then mret None else find_space fuel' mbegin n (nwrap + 1)
        else find_space fuel' mptr n nwrap
  end.

(** The loop that gives the pages back, from the [k]-th down to the first. *)
Fixpoint unmap_down (k : nat) (mptr : Z) : K unit :=
  _ ← sys_page_unmap 0 (u64 (mptr + Z.of_nat k * PGSIZE));
  match k with O => mret tt | S k' => unmap_down k' mptr end.

(** The loop that allocates [m] pages from the [k]-th on; false when memory runs out. *)
Fixpoint alloc_run (m k : nat) (mptr n : Z) : K bool :=
  match m with
  | O => mret true
  | S m' =>
      let i := Z.of_nat k * PGSIZE in
      let cont := if i + PGSIZE <? n + 4 then PTE_CONTINUED else 0 in
      r ← sys_page_alloc 0 (u64 (mptr + i)) (Z.lor (Z.lor (Z.lor PTE_P PTE_U) PTE_W) cont);
      if r <? 0 then unmap_down k mptr;; mret false else alloc_run m' (S k) mptr n
  end.

(** From the search on: the result and the new value of mptr. *)
Definition malloc_new (fuel : nat) (n mptr : Z) : K (Z * Z) :=
  x ← find_space fuel mptr n 0;
  match x with
  | None => mret (0, mbegin)
  | Some mptr =>
      let m := Z.to_nat ((n + 4 + PGSIZE - 1) / PGSIZE) in
      ok ← alloc_run m 0 mptr n;
      if negb ok then mret (0, mptr)
      else ustoren 4 (u64 (mptr + Z.of_nat m * PGSIZE - 4)) 2;; mret (mptr, u64 (mptr + n))
  end.

Definition malloc (fuel : nat) (n mptr : Z) : K (Z * Z) :=
  let mptr := if mptr =? 0 then mbegin else mptr in
  let n := ROUNDUP n 4 in
  if n >=? MAXMALLOC then mret (0, mptr)
  else if mptr mod PGSIZE =? 0 then malloc_new fuel n mptr
  else
    let ref := u64 (ROUNDUP mptr PGSIZE - 4) in
    if mptr / PGSIZE =? u64 (mptr + n - 1 + 4) / PGSIZE
    then r ← uloadn 4 ref; ustoren 4 ref (u32 (r + 1));; mret (mptr, u64 (mptr + n))
    else free mptr;; malloc_new fuel n (ROUNDDOWN (u64 (mptr + PGSIZE)) PGSIZE).
