(* ===== verification/MallocThms.v ===== *)
(** * Theorems on malloc and free

    The pages of the arena are described by two functions: which pages are part of a
    large chunk and are followed by another of its pages, and how many references each
    other page counts in its last word.  The allocator's own step through pages changes
    them one page at a time; the chunks that a program holds determine them. *)
From S2P Require Import Prelude Mmu CMem Console KState Pmap FreeList PageTable Walk PmapSpec DemoState BootMap Env E1000 Syscall EnvThms SyscallThms AddrSpace Isolation Fork ForkThms Str Umem Pipe Fd FdThms Spawn SpawnThms Malloc.

Definition arena (k : Z) : Prop := 0x8000 <= k < 0x10000.

Lemma arena_page k : arena k ->
  user_va (k * 4096) /\ bad_va (k * 4096) = false /\ 0 <= k * 4096 < 2 ^ 29 /\ mbegin <= k * 4096 < mend /\
  forall k0, 0 <= k0 < 0x40000 -> user_va (k0 * 4096) /\ PML4 (k * 4096) = PML4 (k0 * 4096) /\ PDPE (k * 4096) = PDPE (k0 * 4096).
Proof.
  unfold arena. intros Hk. assert (user_va (k * 4096)) as Hu by (unfold user_va; jlia).
  split_and!; [done|apply aligned_good; [done|by apply Z.mod_mul]|lia|lia|unfold mbegin; lia|unfold mend; lia|].
  intros k0 H0. split; [unfold user_va; jlia|]. rewrite !PML4_eq, !PDPE_eq. split; Z.div_mod_to_equations; lia.
Qed.

Lemma flags_page p f : 0 <= f < 4096 -> (p * 4096 + f) / 4096 = p.
Proof. intros. Z.div_mod_to_equations. lia. Qed.

(** The state of a page of the arena: part of a large chunk that goes on, or a page with a
    count of references in its last word. *)
Inductive pstate := Gone | Cont | Held (n : Z).
Definition upd (st : Z -> pstate) (k : Z) (x : pstate) (j : Z) : pstate := if decide (j = k) then x else st j.

(** The states when the pages from [a] to [b] are taken away, and a reference of [b]. *)
Definition gone_between (a b : Z) (st : Z -> pstate) (k : Z) : pstate := if decide (a <= k < b) then Gone else st k.
Definition released (b h : Z) (st : Z -> pstate) : Z -> pstate := upd st b (if h =? 1 then Gone else Held (h - 1)).

(** ** Chunks

    A chunk of [n] bytes at [v] has its count in the last of its pages, which it touches
    with the four bytes after its end.  The page that malloc still fills has a reference
    of its own, which is like that of an empty chunk at the end of the page. *)
Definition cfirst (c : Z * Z) : Z := c.1 / 4096.
Definition clast (c : Z * Z) : Z := (c.1 + c.2 + 3) / 4096.
Definition pin (k : Z) : Z * Z := (k * 4096 + 4092, 0).

Definition count (all : list (Z * Z)) (k : Z) : Z := Z.of_nat (length (filter (fun c => clast c = k) all)).
Definition state_of (all : list (Z * Z)) (k : Z) : pstate :=
  if existsb (fun c => (cfirst c <=? k) && (k <? clast c)) all then Cont
  else if count all k =? 0 then Gone else Held (count all k).

Definition chunk_ok (c : Z * Z) : Prop := mbegin <= c.1 /\ c.1 mod 4 = 0 /\ 0 <= c.2 /\ c.2 mod 4 = 0 /\ clast c < 0x10000.
Definition excl (c d : Z * Z) : Prop := cfirst c = clast c \/ clast d < cfirst c \/ clast c <= cfirst d.
Definition apart (c d : Z * Z) : Prop := excl c d /\ excl d c /\ (c.1 + c.2 <= d.1 \/ d.1 + d.2 <= c.1).
Fixpoint chunks_ok (all : list (Z * Z)) : Prop :=
  match all with [] => True | c :: rest => chunk_ok c /\ Forall (apart c) rest /\ chunks_ok rest end.

Lemma apart_sym c d : apart c d -> apart d c.
Proof. unfold apart. tauto. Qed.
Lemma chunk_pages c : chunk_ok c -> cfirst c <= clast c /\ arena (cfirst c) /\ arena (clast c) /\
  mbegin <= c.1 < mend /\ c.1 + c.2 <= clast c * 4096 + 4092.
Proof. unfold chunk_ok, cfirst, clast, arena, mbegin, mend. intros (? & ? & ? & ? & ?). Z.div_mod_to_equations. lia. Qed.

Lemma chunks_in all c : chunks_ok all -> c ∈ all -> chunk_ok c.
Proof. induction all as [|d all IH]; cbn [chunks_ok]; [by intros _ ?%elem_of_nil|]. intros (Hd & _ & Hl) [->|Hc]%elem_of_cons; auto. Qed.
Lemma chunks_ok_perm all all' : all ≡ₚ all' -> chunks_ok all -> chunks_ok all'.
Proof.
  induction 1 as [|c l l' HP IH|c d l|l1 l2 l3 _ IH1 _ IH2]; cbn [chunks_ok]; [done| | |by auto].
  - intros (Hc & Ha & Hl). split_and!; [done|by rewrite <- HP|by apply IH].
  - rewrite !Forall_cons. intros (Hc & [Hcd Ha] & Hd & Hda & Hl). split_and!; try done. by apply apart_sym.
Qed.
Lemma count_perm all all' k : all ≡ₚ all' -> count all k = count all' k.
Proof. intros HP. unfold count. by rewrite HP. Qed.
Lemma state_of_perm all all' k : all ≡ₚ all' -> state_of all k = state_of all' k.
Proof.
  intros HP. unfold state_of. rewrite (count_perm _ _ _ HP).
  assert (forall f : Z * Z -> bool, existsb f all = existsb f all') as ->; [|done]. intros f. apply eq_true_iff_eq. rewrite !existsb_exists.
  by setoid_rewrite <- list_elem_of_In; setoid_rewrite HP.
Qed.

Lemma count_cons c all k : count (c :: all) k = count all k + if decide (clast c = k) then 1 else 0.
Proof. unfold count. rewrite filter_cons. case_decide; cbn [length]; lia. Qed.
Lemma count_nonneg all k : 0 <= count all k.
Proof. unfold count. lia. Qed.
Lemma count_in c all : c ∈ all -> 1 <= count all (clast c).
Proof.
  intros Hc. unfold count. destruct (filter _ all) as [|d fl] eqn:E; [|cbn; lia].
  assert (c ∈ filter (fun d => clast d = clast c) all) as H by by apply list_elem_of_filter. rewrite E in H. by apply elem_of_nil in H.
Qed.
Lemma cont_spec all k : existsb (fun c => (cfirst c <=? k) && (k <? clast c)) all = true <-> exists c, c ∈ all /\ cfirst c <= k < clast c.
Proof.
  rewrite existsb_exists. setoid_rewrite <- list_elem_of_In. split; intros (c & Hc & H); exists c; (split; [done|]).
  - apply andb_true_iff in H as [?%Z.leb_le ?%Z.ltb_lt]. lia.
  - apply andb_true_iff. by rewrite Z.leb_le, Z.ltb_lt.
Qed.
Lemma state_cont all c k : c ∈ all -> cfirst c <= k < clast c -> state_of all k = Cont.
Proof. intros Hc Hk. unfold state_of. rewrite (proj2 (cont_spec all k)); [done|by exists c]. Qed.

Lemma not_cont c all k : chunk_ok c -> Forall (apart c) all -> cfirst c <= k <= clast c ->
  existsb (fun c => (cfirst c <=? k) && (k <? clast c)) all = false.
Proof.
  intros Hok Ha Hk. apply not_true_iff_false. intros (d & Hd & Hk')%cont_spec. rewrite Forall_forall in Ha. destruct (Ha d Hd) as (_ & He & _).
  unfold excl in He. lia.
Qed.
Lemma state_last c all : chunk_ok c -> Forall (apart c) all -> state_of (c :: all) (clast c) = Held (count (c :: all) (clast c)).
Proof.
  intros Hok Ha. destruct (chunk_pages c Hok) as (Hfl & _). unfold state_of. cbn [existsb]. rewrite Z.ltb_irrefl, andb_false_r. cbn [orb].
  rewrite (not_cont c) by (done || lia). rewrite (proj2 (Z.eqb_neq _ 0)); [done|]. pose proof (count_in c (c :: all) ltac:(apply list_elem_of_here)). lia.
Qed.

(** Without a chunk, its large pages are gone and its last page has lost a reference. *)
Lemma state_remove c all k : chunks_ok (c :: all) ->
  state_of all k = released (clast c) (count (c :: all) (clast c)) (gone_between (cfirst c) (clast c) (state_of (c :: all))) k.
Proof.
  intros (Hok & Ha & Hall). destruct (chunk_pages c Hok) as (Hfl & _). unfold released, upd. pose proof (count_nonneg all (clast c)) as Hn. case_decide as E.
  - subst k. rewrite count_cons, decide_True by done. unfold state_of. rewrite (not_cont c) by (done || lia).
    destruct (Z.eqb_spec (count all (clast c)) 0) as [->|]; [done|]. rewrite (proj2 (Z.eqb_neq _ 1)) by lia. f_equal. lia.
  - unfold gone_between. case_decide as Hk.
    + unfold state_of. rewrite (not_cont c) by (done || lia). assert (count all k = 0) as ->; [|done].
      unfold count. destruct (filter _ all) as [|d fl] eqn:Ef; [done|]. exfalso.
      assert (d ∈ filter (fun d => clast d = k) all) as H by (rewrite Ef; apply list_elem_of_here). apply list_elem_of_filter in H as [Hd Hin].
      rewrite Forall_forall in Ha. destruct (Ha d Hin) as (He & He' & _). destruct (chunk_pages d (chunks_in _ _ Hall Hin)) as (Hd' & _). unfold excl in *. lia.
    + unfold state_of. rewrite count_cons, decide_False by done. rewrite Z.add_0_r. cbn [existsb].
      replace ((cfirst c <=? k) && (k <? clast c)) with false; [done|]. symmetry. apply andb_false_iff. rewrite Z.leb_gt, Z.ltb_ge. lia.
Qed.

(** A chunk on new pages, with the reference of malloc, and a chunk on a page that is there. *)
Definition cont_between (a b : Z) (st : Z -> pstate) (k : Z) : pstate := if decide (a <= k < b) then Cont else st k.

Lemma pin_pages k : cfirst (pin k) = k /\ clast (pin k) = k.
Proof. unfold cfirst, clast, pin. cbn [fst snd]. Z.div_mod_to_equations. lia. Qed.

Lemma state_of_gone all k : state_of all k = Gone ->
  existsb (fun c => (cfirst c <=? k) && (k <? clast c)) all = false /\ count all k = 0.
Proof. unfold state_of. destruct (existsb _ all); [done|]. by destruct (Z.eqb_spec (count all k) 0). Qed.
Lemma state_of_held all k h : state_of all k = Held h ->
  existsb (fun c => (cfirst c <=? k) && (k <? clast c)) all = false /\ count all k = h.
Proof. unfold state_of. destruct (existsb _ all); [done|]. destruct (Z.eqb_spec (count all k) 0); [done|]. by intros [= ->]. Qed.

Lemma touched all d k : d ∈ all -> cfirst d <= k <= clast d -> state_of all k <> Gone.
Proof.
  intros Hd Hk [Hc Hn]%state_of_gone. destruct (decide (k = clast d)) as [->|Hne].
  - pose proof (count_in d all Hd). lia.
  - apply not_true_iff_false in Hc. apply Hc, cont_spec. exists d. split; [done|lia].
Qed.

Lemma state_new c all k :
  (forall k, cfirst c <= k <= clast c -> state_of all k = Gone) -> cfirst c <= clast c ->
  state_of (c :: pin (clast c) :: all) k = upd (cont_between (cfirst c) (clast c) (state_of all)) (clast c) (Held 2) k.
Proof.
  intros Hg Hfl. destruct (pin_pages (clast c)) as [Hp1 Hp2]. unfold upd, cont_between.
  assert (forall k, (clast c <=? k) && (k <? clast c) = false) as Hpin by (intros; apply andb_false_iff; rewrite Z.leb_gt, Z.ltb_ge; lia).
  unfold state_of at 1. cbn [existsb]. rewrite !count_cons, Hp1, Hp2, Hpin. cbn [orb]. case_decide as E.
  - subst k. destruct (state_of_gone _ _ (Hg (clast c) ltac:(lia))) as [-> ->]. rewrite Z.ltb_irrefl, andb_false_r, !decide_True by done. done.
  - rewrite !decide_False, !Z.add_0_r by congruence. case_decide as Hk.
    + by rewrite (proj2 (Z.leb_le _ _)), (proj2 (Z.ltb_lt _ _)) by lia.
    + replace ((cfirst c <=? k) && (k <? clast c)) with false; [done|]. symmetry. apply andb_false_iff. rewrite Z.leb_gt, Z.ltb_ge. lia.
Qed.

Lemma chunks_new c all :
  chunk_ok c -> chunks_ok all -> (forall k, cfirst c <= k <= clast c -> state_of all k = Gone) -> chunks_ok (c :: pin (clast c) :: all).
Proof.
  intros Hc Hall Hg. destruct (chunk_pages c Hc) as (Hfl & Hf & Hl & _ & He). destruct (pin_pages (clast c)) as [Hp1 Hp2].
  assert (forall d, d ∈ all -> chunk_ok d /\ (clast d < cfirst c \/ clast c < cfirst d)) as Hd.
  { intros d Hd. pose proof (chunks_in _ _ Hall Hd) as Hdo. split; [done|]. destruct (chunk_pages d Hdo) as (Hdl & _).
    destruct (decide (clast d < cfirst c)); [by left|]. destruct (decide (clast c < cfirst d)); [by right|]. exfalso.
    apply (touched all d (Z.max (cfirst c) (cfirst d)) Hd); [lia|]. apply Hg. lia. }
  cbn [chunks_ok]. rewrite Forall_cons, !Forall_forall. split_and!; [done| | | | |done].
  - split_and!; [right; right; lia|left; lia|left; cbn; lia].
  - intros d Hdin. destruct (Hd d Hdin) as [Hdo Hdis]. destruct (chunk_pages d Hdo) as (Hdl & _ & _ & _ & Hde). unfold apart, excl.
    destruct Hc as (_ & _ & Hc0 & _), Hdo as (_ & _ & Hd0 & _). unfold cfirst, clast in *. split_and!; [lia|lia|].
    destruct Hdis; [right|left]; Z.div_mod_to_equations; lia.
  - unfold chunk_ok. rewrite Hp2. unfold pin, arena, mbegin in *. cbn [fst snd]. split_and!; try lia. all: Z.div_mod_to_equations; lia.
  - intros d Hdin. destruct (Hd d Hdin) as [Hdo Hdis]. destruct (chunk_pages d Hdo) as (Hdl & _ & _ & _ & Hde). unfold apart, excl.
    rewrite Hp1, Hp2. split_and!; [lia|lia|]. unfold pin. cbn [fst snd]. destruct Hdo as (_ & _ & Hd0 & _).
    destruct Hdis; [right|left]; unfold cfirst, clast in *; Z.div_mod_to_equations; lia.
Qed.

Lemma state_inc c all k h : cfirst c = clast c -> state_of all (clast c) = Held h ->
  state_of (c :: all) k = upd (state_of all) (clast c) (Held (h + 1)) k.
Proof.
  intros Hfl [Hc Hn]%state_of_held. pose proof (count_nonneg all (clast c)). unfold upd. unfold state_of at 1. cbn [existsb]. rewrite Hfl, count_cons.
  replace ((clast c <=? k) && (k <? clast c)) with false by (symmetry; apply andb_false_iff; rewrite Z.leb_gt, Z.ltb_ge; lia). cbn [orb].
  case_decide as E; [subst k; rewrite Hc, decide_True by done|by rewrite decide_False, Z.add_0_r by congruence].
  rewrite (proj2 (Z.eqb_neq _ 0)) by lia. by rewrite Hn.
Qed.

Lemma state_held all d : chunks_ok all -> d ∈ all -> state_of all (clast d) = Held (count all (clast d)).
Proof.
  intros Hall [rest HP]%elem_of_Permutation. pose proof (chunks_ok_perm _ _ HP Hall) as (Hd & Ha & _).
  rewrite (state_of_perm _ _ _ HP), (count_perm _ _ _ HP). by apply state_last.
Qed.
Lemma count_le_length all k : count all k <= Z.of_nat (length all).
Proof. unfold count. pose proof (length_filter (fun c => clast c = k) all). lia. Qed.

(** A chunk at an address of a held page, from which on the page is free. *)
Lemma chunk_inside all mptr n k h :
  chunks_ok all -> mbegin <= mptr < mend -> mptr mod 4 = 0 -> 0 <= n -> n mod 4 = 0 -> mptr / 4096 = k -> (mptr + n + 3) / 4096 = k ->
  state_of all k = Held h -> Forall (fun d => clast d = k -> d.1 + d.2 <= mptr \/ mptr + n <= d.1) all -> chunks_ok ((mptr, n) :: all).
Proof.
  intros Hall Hm H4 Hn Hn4 Hk Hk' Hst Hf. rewrite Forall_forall in Hf. assert (cfirst (mptr, n) = k /\ clast (mptr, n) = k) as [E1 E2] by done.
  cbn [chunks_ok]. split_and!; [|apply Forall_forall|done].
  { unfold chunk_ok. rewrite E2. unfold mbegin, mend in *. cbn [fst snd]. split_and!; try lia. Z.div_mod_to_equations. lia. }
  intros d Hd. pose proof (chunks_in _ _ Hall Hd) as Hdo. destruct (chunk_pages d Hdo) as (Hdl & _ & _ & _ & Hde).
  assert (~ cfirst d <= k < clast d) as Hnc by (intros Hr; rewrite (state_cont all d k Hd Hr) in Hst; done).
  unfold apart, excl. rewrite E1, E2. split_and!; [lia|lia|]. cbn [fst snd]. destruct (decide (clast d = k)) as [E|E]; [specialize (Hf d Hd E); lia|].
  destruct Hdo as (_ & _ & Hd0 & _). destruct (decide (clast d < k)) as [Hlt|Hge]; [right|left]; unfold cfirst, clast in *; Z.div_mod_to_equations; lia.
Qed.

Section heap.
Context (roots : Z -> Prop) (sp : Z -> option Z) (outside : Z -> Z) (rp : Z).
Hypothesis outside_nonneg : forall p, 0 <= outside p.
Hypothesis Hrp : sp 0 = Some rp.
Abbreviation running := (in_parent roots sp outside rp).
Abbreviation count_addr k := (k * 4096 + 4092).

(** ** Stores to a page that is mapped once *)
Lemma page_image A p : (forall o, 0 <= o < 4096 -> 0 <= contents A (p * 4096 + o) < 256) ->
  exists img, forall o, 0 <= o < 4096 -> contents A (p * 4096 + o) = ld8 img o.
Proof.
  intros Hr. exists (list_to_map ((fun o => (o, contents A (p * 4096 + o))) <$> seqZ 0 4096)). intros o Ho. unfold ld8.
  rewrite lookup_tabulate, decide_True by done. cbn. by rewrite wrap_small by (by apply Hr).
Qed.

(** What is read at the addresses of [P] stays. *)
Definition keeps_bytes (P : Z -> Prop) (A A' : vspace) : Prop := forall va b, P va -> vchar rp A va b -> vchar rp A' va b.

Lemma set_count s l A k p v :
  running s l A -> arena k -> entries A !! (rp, k) = Some (p * 4096 + 7) -> uses (entries A) p = 1 ->
  wp (ustoren 4 (count_addr k) v) s (fun _ s' => exists A', running s' l A' /\ entries A' = entries A /\
    zero_refs A' = zero_refs A /\
    vword rp A' 4 (count_addr k) (u32 v) /\ keeps_bytes (fun va => ~ (count_addr k <= va < k * 4096 + 4096)) A A').
Proof.
  intros Hin Hk He Hu. destruct (arena_page k Hk) as (Hva & _). assert ((p * 4096 + 7) / 4096 = p) as Hd by (Z.div_mod_to_equations; lia).
  destruct (page_image A p) as [img Himg].
  { intros o Ho. destruct Hin as [_ Hso]. rewrite <- (so_bytes _ _ _ _ _ _ Hso _ _ _ He) by (Z.div_mod_to_equations; lia). apply ld8_range. }
  wuse (draft_storen roots sp outside rp Hrp A k p Hva He 4 s l img 4092 v); [by exists A|lia|lia|].
  intros _ s' (A' & Hin' & HE' & HZ' & HC' & Himg'). exists A'. split_and!; [done|done|done|..].
  - assert (u32 v = ld 4 (st 4 img 4092 v) 4092) as -> by by rewrite ld_st_eq.
    apply (image_vword rp A' k p _ Hva ltac:(by rewrite HE') Himg'); lia.
  - intros va b Hn (Hva' & e & He' & Hfl & Hb). split; [done|]. exists e. rewrite HE'. split_and!; [done|done|]. rewrite <- Hb.
    destruct (decide (e / 4096 = p)) as [Hp|Hp]; [|by apply HC'; rewrite in_page].
    assert ((rp, VPN va) = (rp, k)) as [= Hkv] by (eapply uses_alone; [by rewrite Hu|done|done|done|done]).
    rewrite Hp, Himg, Himg' by (Z.div_mod_to_equations; lia). rewrite ld8_st, decide_False; [done|].
    unfold VPN, PPN, PTXSHIFT in Hkv. rewrite Z.shiftr_div_pow2 in Hkv by lia. change (2 ^ 12) with 4096 in Hkv.
    Z.div_mod_to_equations. lia.
Qed.

(** ** The pages of the arena *)
Definition page_is (A : vspace) (k : Z) (x : pstate) : Prop :=
  match x with
  | Gone => entries A !! (rp, k) = None
  | Cont => exists p, entries A !! (rp, k) = Some (p * 4096 + 0x407) /\ uses (entries A) p = 1
  | Held n => 0 < n /\ vword rp A 4 (count_addr k) n /\ exists p, entries A !! (rp, k) = Some (p * 4096 + 7) /\ uses (entries A) p = 1
  end.
Definition pages_ok (A : vspace) (st : Z -> pstate) : Prop := forall k, arena k -> page_is A k (st k).
Definition others_ok (A : vspace) (k0 : Z) (st : Z -> pstate) : Prop := forall k, arena k -> k <> k0 -> page_is A k (st k).

Lemma pages_ok_upd A st k x : others_ok A k st -> page_is A k x -> pages_ok A (upd st k x).
Proof. intros Ho Hx j Hj. unfold upd. case_decide as E; [by subst j|by apply Ho]. Qed.

Lemma count_word A A' k n : keeps_bytes (fun va => count_addr k <= va < k * 4096 + 4096) A A' ->
  vword rp A 4 (count_addr k) n -> vword rp A' 4 (count_addr k) n.
Proof. intros Hk. cbn [vword]. intros (H0 & H1 & H2 & H3 & H4). split_and!; try done; apply Hk; try done; lia. Qed.

(** A page keeps its state. *)
Lemma page_frame A A' k x :
  page_is A k x -> entries A' !! (rp, k) = entries A !! (rp, k) ->
  (forall p f, 0 <= f < 4096 -> entries A !! (rp, k) = Some (p * 4096 + f) -> uses (entries A) p = 1 -> uses (entries A') p = 1) ->
  keeps_bytes (fun va => count_addr k <= va < k * 4096 + 4096) A A' -> page_is A' k x.
Proof.
  intros Hx HE Hu Hb. destruct x as [| |n]; cbn [page_is] in *; rewrite HE.
  - done.
  - destruct Hx as (p & He & Hp). exists p. split; [done|]. by apply (Hu p 0x407).
  - destruct Hx as (Hn & Hw & p & He & Hp). split_and!; [done|by eapply count_word|]. exists p. split; [done|]. by apply (Hu p 7).
Qed.

(** A new page. *)
Lemma map_page A st k p f :
  pages_ok A st -> arena k -> entries A !! (rp, k) = None -> uses (entries A) p = 0 -> 0 <= f < 4096 ->
  let A' := map_at (zero_page A p) rp (k * 4096) (p * 4096 + f) in
  others_ok A' k st /\ entries A' = <[(rp, k) := p * 4096 + f]> (entries A) /\ uses (entries A') p = 1 /\ keeps_bytes (fun _ => True) A A'.
Proof.
  intros Hok Hk Hg Hp Hf A'. assert (entries A' = <[(rp, k) := p * 4096 + f]> (entries A)) as HE by (cbn -[VPN]; by rewrite VPN_page).
  assert (keeps_bytes (fun _ => True) A A') as Hkeep.
  { intros va b _ (Hva & e & He & Hfl & Hb). split; [done|]. exists e. rewrite HE, lookup_insert_ne; [|intros [= ->]; congruence].
    split_and!; [done|done|]. cbn. rewrite decide_False; [exact Hb|].
    rewrite in_page. by eapply uses_zero. }
  split_and!; [|done| |done].
  - intros j Hj Hne. eapply (page_frame A); [by apply Hok|by rewrite HE, lookup_insert_ne by congruence| |by intros va b _; apply Hkeep].
    intros q g Hg' Hq Hu. rewrite HE, uses_insert_new by done. rewrite flags_page by done. rewrite decide_False by congruence. lia.
  - rewrite HE, uses_insert_new by done. rewrite flags_page, decide_True by done. lia.
Qed.

Lemma unmap_page A st k p f :
  others_ok A k st -> arena k -> entries A !! (rp, k) = Some (p * 4096 + f) -> 0 <= f < 4096 -> uses (entries A) p = 1 ->
  pages_ok (unmap_at A rp (k * 4096)) (upd st k Gone) /\ keeps_bytes (fun va => VPN va <> k) A (unmap_at A rp (k * 4096)).
Proof.
  intros Hok Hk He Hf Hu. set (A' := unmap_at A rp (k * 4096)).
  assert (entries A' = delete (rp, k) (entries A)) as HE by (cbn -[VPN]; by rewrite VPN_page).
  assert (keeps_bytes (fun va => VPN va <> k) A A') as Hkeep.
  { intros va b Hne (Hva & e & He' & Hfl & Hb). split; [done|]. exists e. rewrite HE, lookup_delete_ne by congruence. done. }
  split; [|done]. apply pages_ok_upd; [|cbn [page_is]; rewrite HE; apply lookup_delete_eq].
  intros j Hj Hne. eapply (page_frame A); [by apply Hok|by rewrite HE, lookup_delete_ne by congruence| |].
  - intros q g Hg Hq Hu'. rewrite HE. pose proof (uses_delete _ _ _ q He) as Hd. rewrite flags_page in Hd by done.
    rewrite decide_False in Hd; [lia|]. intros ->. assert ((rp, j) = (rp, k)) as [= ->]; [|done].
    eapply (uses_alone _ _ _ _ _ q); [by rewrite Hu|exact He|by apply flags_page|exact Hq|by apply flags_page].
  - intros va b Hva. apply Hkeep. rewrite VPN_div. Z.div_mod_to_equations. lia.
Qed.

(** A new count. *)
Lemma count_others A A' st k :
  others_ok A k st -> entries A' = entries A -> keeps_bytes (fun va => ~ (count_addr k <= va < k * 4096 + 4096)) A A' -> others_ok A' k st.
Proof.
  intros Ho HE Hb j Hj Hne. eapply page_frame; [by apply Ho|by rewrite HE|by rewrite HE|]. intros va b Hva. apply Hb. lia.
Qed.
Lemma pages_others A k st : pages_ok A st -> others_ok A k st.
Proof. intros H j Hj _. by apply H. Qed.
Lemma count_page s l A st k p v :
  running s l A -> others_ok A k st -> arena k -> entries A !! (rp, k) = Some (p * 4096 + 7) -> uses (entries A) p = 1 -> 0 < v < 2 ^ 32 ->
  wp (ustoren 4 (count_addr k) v) s (fun _ s' => exists A', running s' l A' /\ entries A' = entries A /\ zero_refs A' = zero_refs A /\
    pages_ok A' (upd st k (Held v)) /\ keeps_bytes (fun va => ~ (count_addr k <= va < k * 4096 + 4096)) A A').
Proof.
  intros Hin Ho Hk He Hu Hv. wuse (set_count s l A k p v Hin Hk He Hu).
  intros _ s' (A' & Hin' & HE & HZ & Hw & Hb). exists A'. split_and!; [done|done|done| |done]. apply pages_ok_upd.
  - by eapply count_others.
  - rewrite wrap_small in Hw by lia. cbn [page_is]. split_and!; [lia|done|]. exists p. by rewrite HE.
Qed.

(** ** free on pages *)
Definition keeps_out (A A' : vspace) : Prop := forall r k, r <> rp \/ ~ arena k -> entries A' !! (r, k) = entries A !! (r, k).
Record heap_step (P : Z -> Prop) (A A' : vspace) : Prop := {
  hs_zero : zero_refs A' = zero_refs A;
  hs_out : keeps_out A A';
  hs_bytes : keeps_bytes P A A'
}.

Lemma heap_step_refl P A : heap_step P A A.
Proof. by split; [|intros r k _|intros va b _]. Qed.
Lemma heap_step_trans (P P1 P2 : Z -> Prop) A B C :
  heap_step P1 A B -> heap_step P2 B C -> (forall va, P va -> P1 va /\ P2 va) -> heap_step P A C.
Proof.
  intros [Z1 O1 B1] [Z2 O2 B2] HP. split; [congruence|intros r k Hk; by rewrite O2, O1|].
  intros va b [H1 H2]%HP Hb. apply B2, B1; done.
Qed.
Lemma heap_step_unmap A k : arena k -> heap_step (fun va => VPN va <> k) A (unmap_at A rp (k * 4096)).
Proof.
  intros Hk. split; [done|..].
  - intros r j Hj. cbn -[VPN]. rewrite VPN_page, lookup_delete_ne; [done|]. intros [= <- <-]. by destruct Hj.
  - intros va b Hne (Hva & e & He' & Hfl & Hb). split; [done|]. exists e. cbn -[VPN]. rewrite VPN_page, lookup_delete_ne by congruence. done.
Qed.

Lemma land_continued p f : 0 <= f < 4096 -> Z.land (p * 4096 + f) PTE_CONTINUED = Z.land f PTE_CONTINUED.
Proof.
  intros Hf. change PTE_CONTINUED with (Z.land (2 ^ 12 - 1) PTE_CONTINUED) at 1. rewrite Z.land_assoc, land_low by lia.
  f_equal. Z.div_mod_to_equations. lia.
Qed.

Lemma pages_ok_ext A st st' : pages_ok A st -> (forall k, arena k -> st' k = st k) -> pages_ok A st'.
Proof. intros H E k Hk. rewrite E by done. by apply H. Qed.

(** A large page is given back. *)
Lemma unmap_cont s l A st k :
  running s l A -> pages_ok A st -> arena k -> st k = Cont ->
  wp (sys_page_unmap 0 (k * 4096)) s (fun _ s' => exists l' A', (length l <= length l' + 4)%nat /\ running s' l' A' /\
    pages_ok A' (upd st k Gone) /\ heap_step (fun va => VPN va <> k) A A').
Proof.
  intros Hin Hok Hk Hc. destruct (arena_page k Hk) as (Hva & Hbad & _). pose proof (Hok k Hk) as Hp. rewrite Hc in Hp. destruct Hp as (p & He & Hu).
  wuse (unmap_own_len roots sp outside rp outside_nonneg Hrp s l A (k * 4096) _ Hin Hva Hbad); [rewrite VPN_page; exact He|].
  intros _ s1 (l1 & Hl1 & Hin1). destruct (unmap_page A st k p 0x407 (pages_others _ _ _ Hok) Hk He ltac:(lia) Hu) as [Hok1 _].
  eexists l1, _. split_and!; [done|exact Hin1|done|by apply heap_step_unmap].
Qed.

Lemma free_loop_spec n s l A st a b h :
  running s l A -> pages_ok A st -> arena a -> arena b -> a <= b -> (forall k, a <= k < b -> st k = Cont) -> st b = Held h ->
  b - a < Z.of_nat n ->
  wp (free_loop n (a * 4096)) s (fun c s' => c = b * 4096 /\ exists l' A', Z.of_nat (length l) <= Z.of_nat (length l') + 4 * (b - a) /\ running s' l' A' /\
    pages_ok A' (gone_between a b st) /\ heap_step (fun va => ~ a <= VPN va < b) A A').
Proof.
  revert s l A st a. induction n as [|n IH]; intros s l A st a Hin Hok Ha Hb Hab Hc Hh Hn; [lia|]. cbn [free_loop].
  destruct (arena_page a Ha) as (Hva & Hbad & Hr & Hm & _). pose proof (Hok a Ha) as Hpa. apply wp_bind, wp_elim.
  destruct (decide (a = b)) as [->|Hne].
  - rewrite Hh in Hpa. destruct Hpa as (_ & _ & p & He & Hu). do 2 eexists. split; [eapply vpt_entry; try done; by rewrite VPN_page|].
    rewrite land_continued by lia. apply wp_ret. split; [done|]. exists l, A. split_and!; [lia|done| |apply heap_step_refl].
    eapply pages_ok_ext; [done|]. intros k _. unfold gone_between. by rewrite decide_False by lia.
  - rewrite Hc in Hpa by lia. destruct Hpa as (p & He & Hu). do 2 eexists. split; [eapply vpt_entry; try done; by rewrite VPN_page|].
    rewrite land_continued by lia. change (Z.land 0x407 PTE_CONTINUED =? 0) with false. cbn beta iota. apply wp_bind.
    wuse (unmap_cont s l A st a Hin Hok Ha); [apply Hc; lia|]. intros _ s1 (l1 & A1 & Hl1 & Hin1 & Hok1 & Hs1).
    assert (arena (a + 1)) as Ha1 by (unfold arena in *; lia). destruct (arena_page _ Ha1) as (_ & _ & Hr1 & [Hm1%Z.leb_le Hm2%Z.ltb_lt] & _).
    cbv zeta. unfold PGSIZE. replace (a * 4096 + 4096) with ((a + 1) * 4096) by lia. rewrite wrap_small by lia. rewrite Hm1, Hm2. cbn [andb negb].
    wuse (IH s1 l1 _ (upd st a Gone) (a + 1) Hin1 Hok1 Ha1 Hb); [lia| | |lia|].
    { intros k Hk. unfold upd. rewrite decide_False by lia. apply Hc. lia. }
    { unfold upd. by rewrite decide_False by lia. }
    intros c s2 (-> & l2 & A2 & Hl2 & Hin2 & Hok2 & Hs2). split; [done|]. exists l2, A2. split_and!; [lia|done| |].
    + eapply pages_ok_ext; [done|]. intros k _. unfold gone_between, upd. repeat case_decide; lia || done.
    + eapply heap_step_trans; [exact Hs1|exact Hs2|]. intros va Hv. cbn beta. lia.
Qed.

Lemma held_range A b h : page_is A b (Held h) -> 0 < h < 2 ^ 32.
Proof. intros (Hh & Hw & _). cbn [vword] in Hw. destruct Hw as (_ & _ & _ & _ & Hw). split; [done|]. Z.div_mod_to_equations. lia. Qed.

Lemma free_pages_spec s l A st v b h :
  running s l A -> pages_ok A st -> mbegin <= v < mend -> arena b -> v / 4096 <= b ->
  (forall k, v / 4096 <= k < b -> st k = Cont) -> st b = Held h ->
  wp (free v) s (fun _ s' => exists l' A', Z.of_nat (length l) <= Z.of_nat (length l') + 4 * (b - v / 4096 + 1) /\
    running s' l' A' /\ pages_ok A' (released b h (gone_between (v / 4096) b st)) /\
    heap_step (fun va => ~ v / 4096 <= VPN va < b /\ ~ count_addr b <= va < b * 4096 + 4096 /\ (h = 1 -> VPN va <> b)) A A').
Proof.
  intros Hin Hok Hv Hb Hab Hc Hh. set (a := v / 4096) in *.
  assert (arena a) as Ha by (unfold arena, a, mbegin, mend in *; Z.div_mod_to_equations; lia).
  unfold free. rewrite (proj2 (Z.eqb_neq v 0)) by (unfold mbegin in Hv; lia).
  destruct Hv as [Hv1%Z.leb_le Hv2%Z.ltb_lt]. rewrite Hv1, Hv2. cbn [andb negb].
  replace (ROUNDDOWN v PGSIZE) with (a * 4096) by (unfold ROUNDDOWN, a, PGSIZE; Z.div_mod_to_equations; lia). apply wp_bind.
  wuse (free_loop_spec _ s l A st a b h Hin Hok Ha Hb Hab Hc Hh).
  { change ((mend - mbegin) / PGSIZE) with 32768. unfold arena in *. lia. }
  intros c s1 (-> & l1 & A1 & Hl1 & Hin1 & Hok1 & Hs1). cbv zeta. unfold PGSIZE. replace (b * 4096 + 4096 - 4) with (count_addr b) by lia.
  pose proof (Hok1 b Hb) as Hpb. unfold gone_between in Hpb at 1. rewrite decide_False, Hh in Hpb by lia.
  pose proof (held_range _ _ _ Hpb) as Hhr. destruct Hpb as (_ & Hw & p & He & Hu).
  apply wp_bind, wp_elim. do 2 eexists. split; [by eapply uloadn_ok|]. rewrite wrap_small by lia.
  destruct (arena_page b Hb) as (Hvb & Hbb & _). unfold released. apply wp_bind. destruct (Z.eqb_spec h 1) as [->|Hne].
  - wuse (set_count s1 l1 A1 b p 0 Hin1 Hb He Hu). intros _ s2 (A2 & Hin2 & HE2 & HZ2 & _ & Hk2). cbn [Z.eqb]. change (1 - 1 =? 0) with true.
    cbn beta iota. apply wp_bind.
    wuse (unmap_own_len roots sp outside rp outside_nonneg Hrp s2 l1 A2 (b * 4096) _ Hin2 Hvb Hbb); [rewrite VPN_page, HE2; exact He|].
    intros _ s3 (l3 & Hl3 & Hin3). apply wp_ret. eexists l3, _. split; [lia|]. split; [exact Hin3|]. split.
    + eapply (unmap_page A2 _ b p 7); [|done|by rewrite HE2|lia|by rewrite HE2]. eapply count_others; [by apply pages_others|done|done].
    + eapply heap_step_trans; [exact Hs1| |].
      * eapply heap_step_trans; [|exact (heap_step_unmap A2 b Hb)|intros va Hva; exact Hva].
        split; [done|intros r k _; by rewrite HE2|exact Hk2].
      * intros va (H1 & H2 & H3). cbn beta. auto.
  - wuse (count_page s1 l1 A1 _ b p (h - 1) Hin1 (pages_others _ _ _ Hok1) Hb He Hu); [lia|].
    intros _ s2 (A2 & Hin2 & HE2 & HZ2 & Hok2 & Hk2). rewrite (proj2 (Z.eqb_neq (h - 1) 0)) by lia. apply wp_ret.
    exists l1, A2. split_and!; [lia|done|done|]. eapply heap_step_trans; [exact Hs1|split; [done|intros r k _; by rewrite HE2|exact Hk2]|].
    intros va (H1 & H2 & H3). cbn beta. auto.
Qed.

(** ** The heap *)
Definition refs (live : list (Z * Z)) (pins : list Z) : list (Z * Z) := live ++ (pin <$> pins).

(** [live] are the chunks that the program holds; [pins] the pages that malloc holds.
    The page of mptr, when it is inside a page, is held, and free from mptr on. *)
Record heap_ok (A : vspace) (mptr : Z) (live : list (Z * Z)) (pins : list Z) : Prop := {
  hp_chunks : chunks_ok (refs live pins);
  hp_pages : pages_ok A (state_of (refs live pins));
  hp_open : mptr = 0 \/ (mbegin <= mptr < mend /\ mptr mod 4 = 0 /\
    (mptr mod 4096 <> 0 -> mptr / 4096 ∈ pins /\ Forall (fun c => clast c = mptr / 4096 -> c.1 + c.2 <= mptr) live));
  hp_low : exists k0 e0, 0 <= k0 < 0x40000 /\ ~ arena k0 /\ entries A !! (rp, k0) = Some e0
}.

(** The addresses that a program may use. *)
Definition data (live : list (Z * Z)) (va : Z) : Prop := ~ arena (VPN va) \/ exists c, c ∈ live /\ c.1 <= va < c.1 + c.2.

Lemma low_kept A A' : keeps_out A A' -> (exists k0 e0, 0 <= k0 < 0x40000 /\ ~ arena k0 /\ entries A !! (rp, k0) = Some e0) ->
  exists k0 e0, 0 <= k0 < 0x40000 /\ ~ arena k0 /\ entries A' !! (rp, k0) = Some e0.
Proof. intros Ho (k0 & e0 & H0 & Hn & He). exists k0, e0. rewrite Ho by (by right). done. Qed.

(** The bytes of the chunks are not on the large pages of another, nor in a count. *)
Lemma data_page c d va : chunk_ok c -> chunk_ok d -> apart c d -> d.1 <= va < d.1 + d.2 ->
  ~ cfirst c <= VPN va < clast c /\ ~ count_addr (clast c) <= va < clast c * 4096 + 4096 /\ (VPN va = clast c -> clast d = clast c).
Proof.
  intros Hc Hd (H1 & H2 & _) Hva. destruct (chunk_pages c Hc) as (Hc' & _), (chunk_pages d Hd) as (Hd' & _ & _ & _ & He).
  rewrite !VPN_div. unfold excl in *. assert (cfirst d <= va / 4096 <= clast d) as Hr.
  { unfold cfirst, clast. destruct Hd as (_ & _ & ? & _). Z.div_mod_to_equations. lia. }
  assert (va / 4096 = clast c -> clast d = clast c) as Hl by lia. split_and!; [lia| |done]. intros Hw.
  assert (va / 4096 = clast c) as E by (Z.div_mod_to_equations; lia). rewrite (Hl E) in He. lia.
Qed.

(** free of any address in the first page of a chunk. *)
Lemma free_chunk s l A all c rest v (P : Z -> Prop) :
  running s l A -> chunks_ok all -> pages_ok A (state_of all) -> all ≡ₚ c :: rest -> mbegin <= v < mend -> v / 4096 = cfirst c ->
  (forall va, P va -> ~ arena (VPN va) \/ exists d, d ∈ rest /\ d.1 <= va < d.1 + d.2) ->
  wp (free v) s (fun _ s' => exists l' A', Z.of_nat (length l) <= Z.of_nat (length l') + 4 * (clast c - cfirst c + 1) /\
    running s' l' A' /\ chunks_ok rest /\ pages_ok A' (state_of rest) /\ heap_step P A A').
Proof.
  intros Hin Hall Hok HP Hv Hva Hdata. pose proof (chunks_ok_perm _ _ HP Hall) as Hall'. pose proof Hall' as (Hc & Ha & Hrest).
  destruct (chunk_pages c Hc) as (Hfl & Hf & Hl & _).
  wuse (free_pages_spec s l A (state_of (c :: rest)) v (clast c) (count (c :: rest) (clast c)) Hin); [|done|done|lia| |by apply state_last|].
  { eapply pages_ok_ext; [done|]. intros k _. by apply state_of_perm. }
  { intros k Hk. apply (state_cont _ c); [apply list_elem_of_here|lia]. }
  intros _ s' (l' & A' & Hl' & Hin' & Hok' & Hs). exists l', A'. rewrite Hva in *. split_and!; [done|done|done| |].
  - eapply pages_ok_ext; [done|]. intros k _. by apply state_remove.
  - eapply (heap_step_trans _ _ (fun _ => True)); [exact Hs|apply heap_step_refl|]. intros va Hp. split; [|done]. destruct (Hdata va Hp) as [Hn|(d & Hd & Hin2)].
    + assert (VPN va <> clast c) as Hne by congruence. split_and!; [unfold arena in *; lia| |done]. intros Hw. apply Hne. rewrite VPN_div. Z.div_mod_to_equations. lia.
    + rewrite Forall_forall in Ha. destruct (data_page c d va Hc (chunks_in _ _ Hrest Hd) (Ha d Hd) Hin2) as (H1 & H2 & H3).
      split_and!; [done|done|]. intros Hone E. rewrite count_cons, decide_True in Hone by done. pose proof (count_in d rest Hd) as Hcd.
      rewrite (H3 E) in Hcd. lia.
Qed.

Lemma free_spec s l A mptr live pins c live' :
  running s l A -> heap_ok A mptr live pins -> live ≡ₚ c :: live' ->
  wp (free c.1) s (fun _ s' => exists l' A', running s' l' A' /\ heap_ok A' mptr live' pins /\ heap_step (data live') A A').
Proof.
  intros Hin [Hch Hpg Hop Hlow] HP. assert (refs live pins ≡ₚ c :: refs live' pins) as HP' by (unfold refs; by rewrite HP).
  destruct (chunk_pages c) as (_ & _ & _ & Hm & _); [by eapply chunks_in; [exact Hch|]; rewrite HP'; apply list_elem_of_here|].
  wuse (free_chunk s l A (refs live pins) c (refs live' pins) c.1 (data live') Hin Hch Hpg HP' Hm); [done| |].
  { intros va [Hn|(d & Hd & Hva)]; [by left|right]. exists d. split; [|done]. unfold refs. apply elem_of_app. by left. }
  intros _ s' (l' & A' & _ & Hin' & Hch' & Hpg' & Hs). exists l', A'. split_and!; [done| |done]. split; [done|done| |by eapply low_kept; [apply Hs|]].
  destruct Hop as [|(Hr & H4 & Ho)]; [by left|right]. split; [exact Hr|]. split; [exact H4|]. intros Hne. destruct (Ho Hne) as [Hp Hf]. split; [done|].
  rewrite HP in Hf. by apply Forall_cons in Hf as [].
Qed.

(** ** The search *)

(** The pages of a chunk of [n] bytes from page [a] on can be allocated. *)
Definition run_free (A : vspace) (a n : Z) : Prop :=
  forall k, a <= k <= a + (n + 3) / 4096 -> arena k /\ entries A !! (rp, k) = None.
Definition has_low (A : vspace) : Prop := exists k0 e0, 0 <= k0 < 0x40000 /\ ~ arena k0 /\ entries A !! (rp, k0) = Some e0.

Lemma arena_mapped s l A st k :
  running s l A -> pages_ok A st -> has_low A -> arena k ->
  page_mapped (k * 4096) s = Ret (bool_decide (entries A !! (rp, k) <> None)) s.
Proof.
  intros Hin Hok (k0 & e0 & Hk0 & _ & He0) Hk. destruct (arena_page k Hk) as (Hva & _ & _ & _ & Hnear). destruct (Hnear k0 Hk0) as (H0 & H4 & H3).
  eapply page_mapped_near; try done. intros e He. specialize (Hok k Hk). destruct (st k) as [| |h]; cbn [page_is] in Hok.
  - congruence.
  - destruct Hok as (p & E & _). rewrite E in He. injection He as <-. rewrite Z.odd_add, Z.odd_mul. by rewrite andb_false_r.
  - destruct Hok as (_ & _ & p & E & _). rewrite E in He. injection He as <-. rewrite Z.odd_add, Z.odd_mul. by rewrite andb_false_r.
Qed.

Lemma isfree_loop_spec m s l A st a k n :
  running s l A -> pages_ok A st -> has_low A -> arena a -> 0 <= n < MAXMALLOC -> a <= k <= 0x10000 ->
  (forall j, a <= j < k -> arena j /\ entries A !! (rp, j) = None) -> k <= a + (n + 3) / 4096 + 1 -> a + (n + 3) / 4096 + 1 - k < Z.of_nat m ->
  exists b, isfree_loop m (k * 4096) (a * 4096 + (n + 4)) s = Ret b s /\ (b = true <-> run_free A a n).
Proof.
  intros Hin Hok Hlow Ha Hn. revert k. induction m as [|m IH]; intros k Hk Hj Hle Hm; [lia|]. cbn [isfree_loop]. unfold arena in Ha.
  destruct (Z.ltb_spec (k * 4096) (a * 4096 + (n + 4))) as [Hlt|Hge].
  2:{ exists true. split; [done|]. split; [intros _|done]. intros j Hj'. apply Hj. Z.div_mod_to_equations. lia. }
  assert (k <= a + (n + 3) / 4096) as Hkr by (Z.div_mod_to_equations; lia).
  rewrite Z.geb_leb. destruct (Z.leb_spec mend (k * 4096)) as [He|He].
  { exists false. split; [done|]. split; [done|]. intros Hr. destruct (Hr k ltac:(lia)) as [Hk' _]. unfold arena, mend in *. lia. }
  assert (arena k) as Hka by (unfold arena, mend in *; lia). unfold mbind, M_bind. rewrite (arena_mapped s l A st k) by done.
  case_bool_decide as Hmap.
  { exists false. split; [done|]. split; [done|]. intros Hr. by destruct (Hr k ltac:(lia)). }
  unfold PGSIZE. unfold arena in Hka. rewrite wrap_small by lia. replace (k * 4096 + 4096) with ((k + 1) * 4096) by lia.
  apply IH; try lia. intros j Hj'. destruct (decide (j = k)) as [->|]; [done|apply Hj; lia].
Qed.

Lemma isfree_spec s l A st a n :
  running s l A -> pages_ok A st -> has_low A -> arena a -> 0 <= n < MAXMALLOC ->
  exists b, isfree (a * 4096) (n + 4) s = Ret b s /\ (b = true <-> run_free A a n).
Proof.
  intros Hin Hok Hlow Ha Hn. unfold isfree. unfold arena, MAXMALLOC in *. rewrite wrap_small by lia.
  apply (isfree_loop_spec _ s l A st a a n); try done; try (unfold MAXMALLOC; Z.div_mod_to_equations; lia). unfold PGSIZE. Z.div_mod_to_equations. lia.
Qed.

Lemma find_space_spec fuel s l A st k n w :
  running s l A -> pages_ok A st -> has_low A -> 0 <= n < MAXMALLOC -> arena k -> w = 0 \/ w = 1 ->
  (w = 1 -> forall j, 0x8000 <= j < k -> ~ run_free A j n) -> 0x10000 - k + (1 - w) * 0x8000 <= Z.of_nat fuel ->
  exists x, find_space fuel (k * 4096) n w s = Ret x s /\
    match x with
    | Some v => exists j, v = j * 4096 /\ arena j /\ run_free A j n
    | None => forall j, arena j -> ~ run_free A j n
    end.
Proof.
  intros Hin Hok Hlow Hn. revert k w. induction fuel as [|fuel IH]; intros k w Hk Hw Hj Hf; [unfold arena in Hk; destruct Hw; subst; lia|]. cbn [find_space].
  unfold mbind, M_bind. destruct (isfree_spec s l A st k n Hin Hok Hlow Hk Hn) as (b & -> & Hb). destruct b.
  { eexists. split; [reflexivity|]. exists k. split_and!; [done|done|]. by apply Hb. }
  assert (~ run_free A k n) as Hno by (intros H; by apply Hb in H). clear Hb.
  cbv zeta. unfold arena in Hk. unfold PGSIZE. rewrite wrap_small by lia. destruct (Z.eqb_spec (k * 4096 + 4096) mend) as [E|E].
  - unfold mend in E. assert (k = 0xFFFF) as -> by lia. destruct Hw as [->| ->].
    + change (0 + 1 =? 2) with false. cbn beta iota. change mbegin with (0x8000 * 4096). apply (IH 0x8000 (0 + 1)); [by unfold arena|by right|lia|lia].
    + change (1 + 1 =? 2) with true. eexists. split; [reflexivity|]. intros j Hja. destruct (decide (j = 0xFFFF)) as [->|]; [done|].
      apply Hj; [done|unfold arena in Hja; lia].
  - replace (k * 4096 + 4096) with ((k + 1) * 4096) by lia. unfold mend in E. apply IH; [unfold arena; lia|done| |lia].
    intros Hw1 j Hj'. destruct (decide (j = k)) as [->|]; [done|apply Hj; [done|lia]].
Qed.

(** ** Allocating a run of pages *)
Lemma unmap_absent s l A k :
  running s l A -> arena k -> entries A !! (rp, k) = None -> zero_refs A <> 1 ->
  wp (sys_page_unmap 0 (k * 4096)) s (fun _ s' => exists l' A', running s' l' A' /\ entries A' = entries A /\ contents A' = contents A).
Proof.
  intros [Hcr Hso] Hk Hn Hz. destruct (arena_page k Hk) as (Hva & Hbad & _).
  wuse (call_refines roots sp outside outside_nonneg s l A (CUnmap 0 (k * 4096)) Hso); [by split; [apply Hva|]|].
  intros res s' (Hfr & _ & A' & l' & Hst & Hso' & _). pose proof (cr3_frame _ _ Hfr) as Hcr'. exists l', A'. split; [split; [congruence|done]|].
  inversion Hst as [| | | | | | | |? ? E|? ? ? _ E|? r0 ? e E _ E'|? ? ? E _ E'|? ? ? E _ E']; subst; try done; try congruence.
  rewrite Hrp in E. injection E as <-. rewrite VPN_page in E'. congruence.
Qed.

Lemma pages_same A A' st : pages_ok A st -> entries A' = entries A -> contents A' = contents A -> pages_ok A' st.
Proof.
  intros Hok HE HC k Hk. eapply page_frame; [by apply Hok|by rewrite HE|by rewrite HE|].
  intros va b _ (Hva & e & He & Hb). split; [done|]. exists e. by rewrite HE, HC.
Qed.

Lemma run_addr a j : arena (a + Z.of_nat j) -> u64 (a * 4096 + Z.of_nat j * PGSIZE) = (a + Z.of_nat j) * 4096.
Proof. intros Hk. unfold arena in Hk. unfold PGSIZE. rewrite wrap_small; lia. Qed.

Lemma unmap_down_spec j s l A st a (P : Z -> Prop) :
  running s l A -> pages_ok A (cont_between a (a + Z.of_nat j + 1) st) -> (forall k, a <= k <= a + Z.of_nat j -> arena k /\ st k = Gone) ->
  (forall va, P va -> ~ a <= VPN va <= a + Z.of_nat j) ->
  wp (unmap_down j (a * 4096)) s (fun _ s' => exists l' A', running s' l' A' /\ pages_ok A' st /\ heap_step P A A').
Proof.
  revert s l A. induction j as [|j IH]; intros s l A Hin Hok Hst HP; cbn [unmap_down].
  all: rewrite run_addr by (apply Hst; lia); apply wp_bind.
  all: wuse (unmap_cont s l A _ _ Hin Hok); [apply Hst; lia|unfold cont_between; rewrite decide_True by lia; done|].
  all: intros _ s1 (l1 & A1 & _ & Hin1 & Hok1 & Hs1).
  - apply wp_ret. exists l1, A1. split_and!; [done| |].
    + eapply pages_ok_ext; [done|]. intros i _. unfold upd, cont_between. case_decide; [apply Hst; lia|]. by rewrite decide_False by lia.
    + eapply heap_step_trans; [exact Hs1|apply (heap_step_refl (fun _ => True))|]. intros va Hv. split; [|done]. specialize (HP va Hv). lia.
  - wuse (IH s1 l1 A1 Hin1).
    + eapply pages_ok_ext; [done|]. intros i _. unfold upd, cont_between.
      destruct (decide (i = a + Z.of_nat (S j))) as [->|]; [rewrite decide_False by lia; by apply Hst; lia|]. repeat case_decide; lia || done.
    + intros i Hi. apply Hst. lia.
    + intros va Hv. specialize (HP va Hv). lia.
    + intros _ s2 (l2 & A2 & Hin2 & Hok2 & Hs2). exists l2, A2. split_and!; [done|done|].
      eapply heap_step_trans; [exact Hs1|exact Hs2|]. intros va Hv. split; [|done]. specialize (HP va Hv). lia.
Qed.

Lemma run_length n : 0 <= n -> (n + 4 + PGSIZE - 1) / PGSIZE = (n + 3) / 4096 + 1.
Proof. intros. unfold PGSIZE. Z.div_mod_to_equations. lia. Qed.

(** The pages but the last are marked, the last has the plain flags. *)
Lemma run_flags n i : 0 <= n -> 0 <= i ->
  Z.lor (Z.lor (Z.lor PTE_P PTE_U) PTE_W) (if i * PGSIZE + PGSIZE <? n + 4 then PTE_CONTINUED else 0) = if i <? (n + 3) / 4096 then 0x407 else 7.
Proof.
  intros Hn Hi. unfold PGSIZE. destruct (Z.ltb_spec (i * 4096 + 4096) (n + 4)), (Z.ltb_spec i ((n + 3) / 4096)); try done; exfalso; Z.div_mod_to_equations; lia.
Qed.

Section run.
Context (a n : Z) (st : Z -> pstate).
Abbreviation M := ((n + 3) / 4096).
Hypothesis Hn : 0 <= n.
Hypothesis Hgone : forall k, a <= k <= a + M -> arena k /\ st k = Gone.

Lemma run_next A j : pages_ok A (cont_between a (a + Z.of_nat j) st) -> Z.of_nat j <= M -> entries A !! (rp, a + Z.of_nat j) = None.
Proof.
  intros Hok Hj. destruct (Hgone (a + Z.of_nat j) ltac:(lia)) as [Hk Hg]. specialize (Hok _ Hk). unfold cont_between in Hok.
  rewrite decide_False, Hg in Hok by lia. done.
Qed.

(** The way out when memory has run out at the [j]-th page. *)
Lemma cleanup_spec j s l A :
  running s l A -> pages_ok A (cont_between a (a + Z.of_nat j) st) -> Z.of_nat j <= M -> zero_refs A <> 1 ->
  wp (unmap_down j (a * 4096)) s (fun _ s' => exists l' A', running s' l' A' /\ pages_ok A' st /\
    keeps_out A A' /\ keeps_bytes (fun va => ~ a <= VPN va < a + Z.of_nat j) A A').
Proof.
  intros Hin Hok Hj Hz. pose proof (run_next A j Hok Hj) as Hno. destruct (Hgone (a + Z.of_nat j) ltac:(lia)) as [Hk _].
  assert (forall A', entries A' = entries A -> contents A' = contents A -> keeps_out A A' /\ forall P, keeps_bytes P A A') as Hsame.
  { intros A' HE HC. split; [intros r k _; by rewrite HE|]. intros P va b _ (Hva & e & He & Hb). split; [done|]. exists e. by rewrite HE, HC. }
  destruct j as [|j]; cbn [unmap_down]; rewrite run_addr by done; apply wp_bind;
    wuse (unmap_absent s l A _ Hin Hk Hno Hz); intros _ s1 (l1 & A1 & Hin1 & HE & HC); destruct (Hsame A1 HE HC) as [Ho1 Hb1].
  - apply wp_ret. exists l1, A1. split_and!; [done| |done|apply Hb1]. eapply pages_ok_ext; [by eapply pages_same|].
    intros k _. unfold cont_between. by rewrite decide_False by lia.
  - wuse (unmap_down_spec j s1 l1 A1 st a (fun va => ~ a <= VPN va < a + Z.of_nat (S j)) Hin1).
    + eapply pages_same; [|done|done]. eapply pages_ok_ext; [done|]. intros k _. unfold cont_between. repeat case_decide; lia || done.
    + intros k Hk'. apply Hgone. lia.
    + intros va Hv. lia.
    + intros _ s2 (l2 & A2 & Hin2 & Hok2 & [_ Ho2 Hb2]). exists l2, A2. split_and!; [done|done| |].
      * intros r k Hrk. by rewrite Ho2, Ho1.
      * intros va b Hv Hva. apply Hb2; [done|]. by apply (Hb1 (fun _ => True)).
Qed.

Lemma alloc_run_S m j : Z.of_nat j <= M ->
  alloc_run (S m) j (a * 4096) n =
    (r ← sys_page_alloc 0 ((a + Z.of_nat j) * 4096) (if Z.of_nat j <? M then 0x407 else 7);
     if r <? 0 then unmap_down j (a * 4096);; mret false else alloc_run m (S j) (a * 4096) n).
Proof.
  intros Hj. rewrite <- run_addr by (apply Hgone; lia). rewrite <- run_flags by lia. reflexivity.
Qed.

Lemma alloc_run_spec m j s l A :
  running s l A -> pages_ok A (cont_between a (a + Z.of_nat j) st) -> Z.of_nat j + Z.of_nat m = M -> zero_refs A <> 1 ->
  wp (alloc_run (S m) j (a * 4096) n) s (fun ok s' => exists l' A', running s' l' A' /\
    keeps_out A A' /\ keeps_bytes (fun va => ~ a <= VPN va < a + Z.of_nat j) A A' /\
    if ok : bool
    then exists p, others_ok A' (a + M) (cont_between a (a + M) st) /\ entries A' !! (rp, a + M) = Some (p * 4096 + 7) /\ uses (entries A') p = 1
    else pages_ok A' st /\ Z.of_nat (length l) < 4 * (M - Z.of_nat j + 1)).
Proof.
  revert j s l A. induction m as [|m IH]; intros j s l A Hin Hok Hj Hz;
    pose proof (run_next A j Hok ltac:(lia)) as Hno; destruct (Hgone (a + Z.of_nat j) ltac:(lia)) as [Hk _];
    destruct (arena_page _ Hk) as (Hva & Hbad & _); rewrite alloc_run_S by lia; set (f := if _ <? M then _ else _); apply wp_bind;
    (assert (0 <= f < 4096 /\ bad_perm f = false) as [Hf Hbp] by (unfold f; by case_match));
    (wuse (alloc_own roots sp outside rp outside_nonneg Hrp s l A _ f Hin Hva); [by rewrite Hbad, Hbp|]);
    intros res s1 (l1 & Hl1 & [(-> & p & Hu & Hin1)|(-> & Hshort & Hin1)]).
  2, 4: change (- E_NO_MEM <? 0) with true; cbn beta iota; apply wp_bind; wuse (cleanup_spec j s1 l1 A Hin1 Hok); [lia|done|];
    intros _ s2 (l2 & A2 & Hin2 & Hok2 & Ho2 & Hb2); apply wp_ret; exists l2, A2; split_and!; try done; lia.
  all: change (0 <? 0) with false; cbn beta iota; destruct (map_page A _ (a + Z.of_nat j) p f Hok Hk Hno Hu Hf) as (Hoth & HE & Hu1 & Hb1);
    set (A1 := map_at _ _ _ _) in *.
  all: assert (keeps_out A A1) as Ho1 by (intros r k Hrk; rewrite HE, lookup_insert_ne; [done|intros [= <- <-]; by destruct Hrk]).
  - cbn [alloc_run]. apply wp_ret. exists l1, A1. unfold f in HE. rewrite (proj2 (Z.ltb_ge _ _)) in HE by lia. replace (a + M) with (a + Z.of_nat j) by lia.
    split_and!; [done|done|by intros va b _; apply Hb1|]. exists p. split_and!; [done|rewrite HE; apply lookup_insert_eq|done].
  - assert (pages_ok A1 (cont_between a (a + Z.of_nat (S j)) st)) as Hok1.
    { eapply pages_ok_ext; [apply (pages_ok_upd A1 _ (a + Z.of_nat j) Cont Hoth)|].
      - unfold f in HE. rewrite (proj2 (Z.ltb_lt _ _)) in HE by lia. exists p. split; [rewrite HE; apply lookup_insert_eq|done].
      - intros k _. unfold upd, cont_between. repeat case_decide; lia || done. }
    wuse (IH (S j) s1 l1 A1 Hin1 Hok1); [lia|done|]. intros ok s2 (l2 & A2 & Hin2 & Ho2 & Hb2 & Hres). exists l2, A2. split_and!; [done| | |].
    + intros r k Hrk. by rewrite Ho2, Ho1.
    + intros va b Hv Hva'. apply Hb2; [|by apply Hb1]. destruct Hva' as (_ & e & He & _).
      assert (VPN va <> a + Z.of_nat j) by congruence. lia.
    + destruct ok; [done|]. destruct Hres as [? ?]. split; [done|lia].
Qed.
End run.

(** ** malloc *)
Abbreviation pages_for n := ((n + 3) / 4096 + 1).

Lemma run_gone A all j n : pages_ok A (state_of all) -> run_free A j n ->
  forall k, j <= k <= j + (n + 3) / 4096 -> arena k /\ state_of all k = Gone.
Proof.
  intros Hok Hr k Hk. destruct (Hr k Hk) as [Ha Hn]. split; [done|]. specialize (Hok k Ha).
  destruct (state_of all k); [done|destruct Hok as (p & E & _); congruence|destruct Hok as (_ & _ & p & E & _); congruence].
Qed.

Lemma new_chunk j n : arena j -> arena (j + (n + 3) / 4096) -> 0 <= n -> n mod 4 = 0 ->
  chunk_ok (j * 4096, n) /\ cfirst (j * 4096, n) = j /\ clast (j * 4096, n) = j + (n + 3) / 4096.
Proof.
  intros Hj Hl Hn H4. unfold chunk_ok, cfirst, clast, arena, mbegin in *. cbn [fst snd].
  assert ((j * 4096 + n + 3) / 4096 = j + (n + 3) / 4096) as -> by (Z.div_mod_to_equations; lia).
  split_and!; try lia; Z.div_mod_to_equations; lia.
Qed.

Definition new_post (A : vspace) (l : list Z) (all : list (Z * Z)) (n : Z) (x : Z * Z) (s' : kstate) : Prop :=
  exists l' A', running s' l' A' /\ keeps_out A A' /\ keeps_bytes (fun _ => True) A A' /\
    ((exists j, x = (0, j * 4096) /\ arena j /\ pages_ok A' (state_of all) /\
        ((forall j, arena j -> ~ run_free A' j n) \/ Z.of_nat (length l) < 4 * pages_for n)) \/
     (exists j, x = (j * 4096, j * 4096 + n) /\ chunk_ok (j * 4096, n) /\ arena j /\
        chunks_ok ((j * 4096, n) :: pin (clast (j * 4096, n)) :: all) /\
        (forall k, j <= k <= clast (j * 4096, n) -> state_of all k = Gone) /\
        pages_ok A' (state_of ((j * 4096, n) :: pin (clast (j * 4096, n)) :: all)))).

Lemma malloc_new_spec fuel s l A all k n :
  running s l A -> chunks_ok all -> pages_ok A (state_of all) -> has_low A -> zero_refs A <> 1 -> arena k ->
  0 <= n < MAXMALLOC -> n mod 4 = 0 -> 0x10000 <= Z.of_nat fuel ->
  wp (malloc_new fuel n (k * 4096)) s (new_post A l all n).
Proof.
  intros Hin Hch Hok Hlow Hz Hk Hn H4 Hfuel. unfold malloc_new.
  destruct (find_space_spec fuel s l A _ k n 0 Hin Hok Hlow Hn Hk ltac:(by left) ltac:(done) ltac:(unfold arena in Hk; lia)) as (x & Hx & Hres).
  apply wp_bind, wp_elim. exists x, s. split; [exact Hx|]. destruct x as [v|].
  2:{ apply wp_ret. exists l, A. split_and!; [done|done|by intros va b _|left]. exists 0x8000. split; [done|]. split; [done|]. split; [done|by left]. }
  destruct Hres as (j & -> & Hj & Hrun). cbv zeta. rewrite run_length by lia. pose proof (run_gone A all j n Hok Hrun) as Hg.
  assert (0 <= (n + 3) / 4096) as HM by (Z.div_mod_to_equations; lia). destruct (Hg (j + (n + 3) / 4096) ltac:(lia)) as [Hl _].
  destruct (new_chunk j n Hj Hl ltac:(lia) H4) as (Hc & Hcf & Hcl). set (M := (n + 3) / 4096) in *.
  replace (Z.to_nat (M + 1)) with (S (Z.to_nat M)) by lia. apply wp_bind.
  wuse (alloc_run_spec j n (state_of all) ltac:(lia) Hg (Z.to_nat M) 0 s l A Hin); [|fold M; lia|done|].
  { eapply pages_ok_ext; [done|]. intros i _. unfold cont_between. by rewrite decide_False by lia. }
  fold M. intros ok s1 (l1 & A1 & Hin1 & Ho1 & Hb1 & Hok1).
  assert (keeps_bytes (fun _ => True) A A1) as Hb1' by (intros va b _; apply Hb1; lia). destruct ok; cbn [negb].
  2:{ apply wp_ret. exists l1, A1. destruct Hok1 as [Hok1 Hshort]. split_and!; [done|done|done|left]. exists j. split_and!; [done|done|done|right; lia]. }
  destruct Hok1 as (p & Hoth & He & Hu). unfold arena in Hl, Hj. rewrite !wrap_small by (unfold MAXMALLOC, PGSIZE in *; lia).
  replace (j * 4096 + Z.of_nat (S (Z.to_nat M)) * PGSIZE - 4) with (count_addr (j + M)) by (unfold PGSIZE; lia). apply wp_bind.
  wuse (count_page s1 l1 A1 _ (j + M) p 2 Hin1 Hoth); [unfold arena; lia|done|done|lia|].
  intros _ s2 (A2 & Hin2 & HE2 & _ & Hok2 & Hb2). apply wp_ret. exists l1, A2. split_and!; [done| | |right].
  - intros r i Hi. by rewrite HE2, Ho1.
  - intros va b _ Hva. apply Hb2; [|by apply Hb1']. destruct Hva as (_ & e & Hev & _). intros Hw.
    destruct (Hrun (VPN va)) as [_ Hno]; [|congruence]. rewrite VPN_div. fold M. Z.div_mod_to_equations. lia.
  - exists j. assert (forall i, j <= i <= j + M -> state_of all i = Gone) as Hg' by (intros i Hi; by apply Hg).
    rewrite Hcl. split_and!; try done.
    + rewrite <- Hcl. apply chunks_new; [done|done|]. rewrite Hcf, Hcl. done.
    + eapply pages_ok_ext; [done|]. intros i _. rewrite <- Hcl. rewrite state_new; [by rewrite Hcf, Hcl| |rewrite Hcf, Hcl; lia]. by rewrite Hcf, Hcl.
Qed.

Definition malloc_post (A : vspace) (l : list Z) (live : list (Z * Z)) (n : Z) (x : Z * Z) (s' : kstate) : Prop :=
  exists l' A' live' pins', running s' l' A' /\ heap_ok A' x.2 live' pins' /\ keeps_out A A' /\ keeps_bytes (data live) A A' /\
    ((x.1 = 0 /\ live' = live /\
        (MAXMALLOC <= n \/ (forall j, arena j -> ~ run_free A' j n) \/ Z.of_nat (length l) < 4 * pages_for n + 4)) \/
     (x.1 <> 0 /\ live' = (x.1, n) :: live /\ n < MAXMALLOC)).

Lemma new_heap A A1 l l1 live pins n x s' :
  chunks_ok (refs live pins) -> has_low A1 -> keeps_out A A1 -> keeps_bytes (data live) A A1 -> n mod 4 = 0 -> 0 <= n < MAXMALLOC ->
  Z.of_nat (length l) <= Z.of_nat (length l1) + 4 -> new_post A1 l1 (refs live pins) n x s' -> malloc_post A l live n x s'.
Proof.
  intros Hch Hlow Ho Hb H4 Hn Hl (l2 & A2 & Hin & Ho2 & Hb2 & Hres).
  assert (keeps_out A A2) as HO by (intros r k Hrk; by rewrite Ho2, Ho).
  assert (keeps_bytes (data live) A A2) as HB by (intros va b Hv Hva; by apply Hb2, Hb).
  destruct Hres as [(j & -> & Hj & Hok & Hwhy)|(j & -> & Hc & Hj & Hch2 & Hg & Hok)]; destruct (arena_page j Hj) as (_ & _ & _ & Hmr & _).
  - exists l2, A2, live, pins. split_and!; [done| |done|done|left]; cbn [fst snd]; [split; [done|done| |exact (low_kept _ _ Ho2 Hlow)]|].
    + right. split; [exact Hmr|]. split; [Z.div_mod_to_equations; lia|]. by rewrite Z.mod_mul.
    + split_and!; [done|done|]. destruct Hwhy as [?|?]; [right; by left|right; right; lia].
  - set (c := (j * 4096, n)) in *. destruct (chunk_pages c Hc) as (_ & _ & Hla & _ & Hce).
    assert (refs (c :: live) (clast c :: pins) ≡ₚ c :: pin (clast c) :: refs live pins) as HP.
    { unfold refs. cbn [app fmap list_fmap]. by rewrite <- Permutation_middle. }
    exists l2, A2, (c :: live), (clast c :: pins). split_and!; [done| |done|done|right]; cbn [fst snd].
    + split; [by eapply chunks_ok_perm; [symmetry; exact HP|]| |right|exact (low_kept _ _ Ho2 Hlow)].
      * eapply pages_ok_ext; [exact Hok|]. intros k _. by apply state_of_perm.
      * assert ((j * 4096 + n) / 4096 = clast c \/ (j * 4096 + n) mod 4096 = 0) as Hcl by (unfold clast, c; cbn [fst snd]; Z.div_mod_to_equations; lia).
        split; [|split; [Z.div_mod_to_equations; lia|]].
        -- unfold c, arena, mend, mbegin in *. cbn [fst snd] in *. lia.
        -- intros Hne. destruct Hcl as [Hcl|]; [|done]. rewrite Hcl. split; [apply list_elem_of_here|]. apply Forall_cons. split; [by intros _|].
           apply Forall_forall. intros d Hd E. exfalso. eapply (touched (refs live pins) d (clast c)); [by apply elem_of_app; left| |].
           ++ rewrite <- E. split; [|lia]. apply (chunk_pages d). eapply chunks_in; [exact Hch|]. by apply elem_of_app; left.
           ++ apply Hg. split; [|lia]. unfold clast, c. cbn [fst snd]. Z.div_mod_to_equations. lia.
    + unfold mbegin in Hmr. split_and!; [lia|done|lia].
Qed.

(** The count of the page that is being filled goes up. *)
Lemma malloc_inside s l A mptr live pins n :
  running s l A -> heap_ok A mptr live pins -> Z.of_nat (length (refs live pins)) < 2 ^ 32 - 1 -> mptr <> 0 -> mptr mod 4096 <> 0 ->
  0 <= n < MAXMALLOC -> n mod 4 = 0 -> mptr / 4096 = (mptr + n + 3) / 4096 ->
  wp (r ← uloadn 4 (count_addr (mptr / 4096)); ustoren 4 (count_addr (mptr / 4096)) (u32 (r + 1));; mret (mptr, mptr + n)) s (malloc_post A l live n).
Proof.
  intros Hin [Hch Hpg Hop Hlow] Hlen Hm0 Hm Hn H4 Hk. destruct Hop as [|(Hr & Hm4 & Ho)]; [done|]. destruct (Ho Hm) as [Hpin Hf].
  set (k := mptr / 4096) in *. set (all := refs live pins) in *. assert (pin k ∈ all) as Hp by (apply elem_of_app; right; by apply list_elem_of_fmap_2).
  destruct (pin_pages k) as [_ Hpk]. pose proof (state_held all (pin k) Hch Hp) as Hst. rewrite Hpk in Hst. set (h := count all k) in *.
  assert (arena k) as Hka by (unfold arena, k, mbegin, mend in *; Z.div_mod_to_equations; lia).
  pose proof (Hpg k Hka) as Hpage. rewrite Hst in Hpage. pose proof (held_range _ _ _ Hpage) as Hhr. destruct Hpage as (_ & Hw & p & He & Hu).
  assert (h + 1 < 2 ^ 32) as Hh by (pose proof (count_le_length all k); unfold h; lia).
  apply wp_bind, wp_elim. do 2 eexists. split; [by eapply uloadn_ok|]. rewrite wrap_small by lia. apply wp_bind.
  wuse (count_page s l A _ k p (h + 1) Hin (pages_others _ _ _ Hpg) Hka He Hu); [lia|].
  intros _ s1 (A1 & Hin1 & HE1 & _ & Hok1 & Hb1). apply wp_ret.
  set (c := (mptr, n)). assert (cfirst c = k /\ clast c = k) as [E1 E2] by done.
  assert (chunks_ok (c :: all)) as Hch1.
  { apply (chunk_inside all mptr n k h); try done; [lia|]. unfold all, refs. apply Forall_app. split.
    - eapply Forall_impl; [exact Hf|]. intros d Hd E. left. by apply Hd.
    - apply Forall_fmap, Forall_true. intros k' E. cbn [compose] in E. destruct (pin_pages k') as [_ E']. rewrite E' in E. subst k'. right. cbn [pin fst].
      unfold k in *. Z.div_mod_to_equations. lia. }
  exists l, A1, (c :: live), pins. split_and!; [done| | | |right]; cbn [fst snd].
  - split; [done| |right|].
    + eapply pages_ok_ext; [exact Hok1|]. intros i _. change (refs (c :: live) pins) with (c :: all). rewrite (state_inc c all i h); [by rewrite E2|by rewrite E1|by rewrite E2].
    + assert ((mptr + n) / 4096 = k) as Hk' by (unfold k in *; Z.div_mod_to_equations; lia). rewrite Hk'.
      split; [unfold arena, mbegin, mend, k in *; Z.div_mod_to_equations; lia|]. split; [Z.div_mod_to_equations; lia|]. intros _. split; [done|].
      apply Forall_cons. split; [by intros _|]. eapply Forall_impl; [exact Hf|]. intros d Hd E. specialize (Hd E). lia.
    + apply (low_kept A); [intros r i _; by rewrite HE1|done].
  - intros r i _. by rewrite HE1.
  - intros va b Hv. apply Hb1. destruct Hch1 as (Hc & Ha & _). rewrite Forall_forall in Ha. destruct Hv as [Hna|(d & Hd & Hva)].
    + intros Hw'. apply Hna. rewrite VPN_div. replace (va / 4096) with k by (Z.div_mod_to_equations; lia). done.
    + assert (d ∈ all) as Hd' by (apply elem_of_app; by left). pose proof (data_page c d va Hc (chunks_in _ _ Hch Hd') (Ha d Hd') Hva) as (_ & H2 & _). by rewrite E2 in H2.
  - split_and!; [done|done|lia].
Qed.

Lemma heap_ok_start A live pins : heap_ok A 0 live pins -> heap_ok A mbegin live pins.
Proof. intros [H1 H2 _ H4]. split; [done|done| |done]. right. split; [done|]. by split. Qed.

Lemma roundup_4 n : 0 <= n < 2 ^ 64 -> 0 <= ROUNDUP n 4 /\ ROUNDUP n 4 mod 4 = 0 /\ (n <= 2 ^ 64 - 4 -> n <= ROUNDUP n 4 < n + 4).
Proof.
  intros Hn. unfold ROUNDUP, ROUNDDOWN. pose proof (wrap_range 64 (n + 4 - 1) ltac:(lia)) as Hw. set (w := wrap 64 (n + 4 - 1)) in *.
  split_and!; [Z.div_mod_to_equations; lia|Z.div_mod_to_equations; lia|]. intros Hs. unfold w. rewrite wrap_small by lia. Z.div_mod_to_equations. lia.
Qed.

Lemma malloc_spec fuel s l A mptr live pins n :
  running s l A -> heap_ok A mptr live pins -> zero_refs A <> 1 -> Z.of_nat (length (refs live pins)) < 2 ^ 32 - 1 -> mptr / 4096 <> 0xFFFF ->
  0 <= n < 2 ^ 64 -> 0x10000 <= Z.of_nat fuel -> wp (malloc fuel n mptr) s (malloc_post A l live (ROUNDUP n 4)).
Proof.
  intros Hin Hheap Hz Hlen Hlast Hn Hfuel. destruct (roundup_4 n Hn) as (Hn0 & Hn4 & _). unfold malloc. cbv zeta.
  assert (exists m, (if mptr =? 0 then mbegin else mptr) = m /\ heap_ok A m live pins /\ mbegin <= m < mend /\ m / 4096 <> 0xFFFF) as (m & -> & Hheap' & Hm & Hlast').
  { destruct (Z.eqb_spec mptr 0) as [->|Hne]; eexists; (split; [reflexivity|]); [split; [by apply heap_ok_start|done]|].
    split_and!; [done|..|done]; destruct (hp_open _ _ _ _ Hheap) as [|[Hr _]]; done || lia. }
  clear mptr Hheap Hlast. generalize dependent (ROUNDUP n 4). clear n Hn. intros n Hn0 Hn4. rewrite Z.geb_leb. destruct (Z.leb_spec MAXMALLOC n) as [Hbig|Hsmall].
  { apply wp_ret. exists l, A, live, pins. split_and!; [done|done|done|by intros va b _|left]. split_and!; [done|done|by left]. }
  pose proof Hheap' as [Hch Hpg Hop Hlow]. unfold PGSIZE. destruct (Z.eqb_spec (m mod 4096) 0) as [Hal|Hin'].
  { assert (m = m / 4096 * 4096) as E by (Z.div_mod_to_equations; lia). rewrite E.
    eapply wp_mono; [apply (malloc_new_spec fuel s l A (refs live pins) (m / 4096) n); try done|].
    - unfold arena, mbegin, mend in *. Z.div_mod_to_equations. lia.
    - intros x s' Hnew. apply (new_heap A A l l live pins n x s'); try done; [by intros va b _|lia]. }
  set (k := m / 4096) in *. assert (ROUNDUP m 4096 = (k + 1) * 4096) as HR.
  { unfold ROUNDUP, ROUNDDOWN, k, mend, mbegin in *. rewrite wrap_small by lia. Z.div_mod_to_equations. lia. }
  rewrite HR. unfold mbegin, mend in Hm. rewrite !(wrap_small 64) by (unfold MAXMALLOC, k in *; Z.div_mod_to_equations; lia).
  replace (m + n - 1 + 4) with (m + n + 3) by lia. replace ((k + 1) * 4096 - 4) with (count_addr k) by lia.
  destruct (Z.eqb_spec k ((m + n + 3) / 4096)) as [Hfit|Hno].
  { eapply malloc_inside; try done. lia. }
  destruct Hop as [->|(Hr & Hm4 & Ho)]; [done|]. destruct (Ho Hin') as [Hpin Hf]. apply elem_of_Permutation in Hpin as [pins' HP].
  assert (refs live pins ≡ₚ pin k :: refs live pins') as HP'.
  { unfold refs. rewrite HP. cbn [fmap list_fmap]. by rewrite <- Permutation_middle. }
  destruct (pin_pages k) as [Hp1 Hp2]. apply wp_bind.
  wuse (free_chunk s l A (refs live pins) (pin k) (refs live pins') m (data live) Hin Hch Hpg HP' Hr); [done| |].
  { intros va [Hna|(d & Hd & Hva)]; [by left|right]. exists d. split; [apply elem_of_app; by left|done]. }
  intros _ s1 (l1 & A1 & Hl1 & Hin1 & Hch1 & Hpg1 & [HZ1 Ho1 Hb1]). rewrite Hp1, Hp2 in Hl1.
  replace (ROUNDDOWN (m + 4096) 4096) with ((k + 1) * 4096) by (unfold ROUNDDOWN, k; Z.div_mod_to_equations; lia).
  eapply wp_mono; [apply (malloc_new_spec fuel s1 l1 A1 (refs live pins') (k + 1) n); try done|].
  - exact (low_kept _ _ Ho1 Hlow).
  - congruence.
  - unfold arena, k in *. Z.div_mod_to_equations. lia.
  - intros x s' Hnew. apply (new_heap A A1 l l1 live pins' n x s'); try done; [exact (low_kept _ _ Ho1 Hlow)|lia].
Qed.
End heap.

(** ** The theorems *)
Lemma heap_mapped rp A mptr live pins c va :
  heap_ok rp A mptr live pins -> c ∈ live -> c.1 <= va < c.1 + c.2 ->
  exists e, entries A !! (rp, VPN va) = Some e /\ Z.land e 7 = 7.
Proof.
  intros [Hch Hpg _ _] Hc Hva. assert (c ∈ refs live pins) as Hin by (apply elem_of_app; by left).
  pose proof (chunks_in _ _ Hch Hin) as Hco. destruct (chunk_pages c Hco) as (_ & Hf & Hl & _ & He).
  assert (cfirst c <= VPN va <= clast c) as Hr.
  { rewrite VPN_div. unfold cfirst, clast. destruct Hco as (_ & _ & ? & _). Z.div_mod_to_equations. lia. }
  pose proof (touched _ c (VPN va) Hin Hr) as Ht. specialize (Hpg (VPN va) ltac:(unfold arena in *; lia)).
  assert (forall p f, 0 <= f < 4096 -> Z.land (p * 4096 + f) 7 = Z.land f 7) as Hland.
  { intros p f Hf'. change 7 with (2 ^ 3 - 1). rewrite !land_low by lia. Z.div_mod_to_equations. lia. }
  destruct (state_of _ _) as [| |h]; [done|destruct Hpg as (p & E & _)|destruct Hpg as (_ & _ & p & E & _)]; eexists; (split; [exact E|]); by rewrite Hland.
Qed.

(** C11: malloc: from a heap that is well formed, malloc(n) makes one that is well formed
    and in which the program holds one more chunk, of [n] bytes rounded up to a multiple
    of four, that overlaps no other chunk and whose pages it may read and write; or it
    returns null and the program holds what it held, because the chunk is too large, or
    there is no address space for it, or memory is short.  The bytes of the other chunks
    and of the rest of the program's memory stay, and no mapping outside the arena
    changes.  It is assumed that mptr is not in the last page of the arena. *)
Theorem malloc_correct roots sp outside rp fuel s l A mptr live pins n :
  (forall p, 0 <= outside p) -> sp 0 = Some rp -> cr3 s = rp * 4096 -> space_ok roots sp outside s l A ->
  heap_ok rp A mptr live pins -> zero_refs A <> 1 -> Z.of_nat (length (refs live pins)) < 2 ^ 32 - 1 -> mptr / 4096 <> 0xFFFF ->
  0 <= n < 2 ^ 64 -> 0x10000 <= Z.of_nat fuel ->
  wp (malloc fuel n mptr) s (fun x s' => let '(v, mptr') := x in let n' := ROUNDUP n 4 in
    exists l' A' live' pins', cr3 s' = rp * 4096 /\ space_ok roots sp outside s' l' A' /\ heap_ok rp A' mptr' live' pins' /\
      keeps_out rp A A' /\ keeps_bytes rp (data live) A A' /\
      ((v = 0 /\ live' = live /\
          (MAXMALLOC <= n' \/ (forall j, arena j -> ~ run_free rp A' j n') \/ Z.of_nat (length l) < 4 * ((n' + 3) / 4096 + 1) + 4)) \/
       (v <> 0 /\ live' = (v, n') :: live /\ Forall (fun d => v + n' <= d.1 \/ d.1 + d.2 <= v) live /\
          forall va, v <= va < v + n' -> exists e, entries A' !! (rp, VPN va) = Some e /\ Z.land e 7 = 7))).
Proof.
  intros Hout Hrp Hcr Hso Hheap Hz Hlen Hlast Hn Hfuel.
  wuse (malloc_spec roots sp outside rp Hout Hrp fuel s l A mptr live pins n); try done.
  intros [v mptr'] s' (l' & A' & live' & pins' & [Hcr' Hso'] & Hheap' & Ho & Hb & Hres). exists l', A', live', pins'. split_and!; try done.
  destruct Hres as [?|(Hv & -> & _)]; [by left|right]. cbn [fst snd] in *. split_and!; [done|done| |].
  - destruct (hp_chunks _ _ _ _ _ Hheap') as (_ & Ha & _). apply Forall_app in Ha as [Ha _]. eapply Forall_impl; [exact Ha|]. by intros d (_ & _ & H).
  - intros va Hva. by eapply (heap_mapped _ _ _ _ _ (v, ROUNDUP n 4)); [exact Hheap'|apply list_elem_of_here|].
Qed.

(** C12: free: giving back a chunk leaves a well formed heap without it; the bytes of all
    other chunks stay, no mapping outside the arena changes, and every page of the arena
    that no other chunk touches, and that malloc does not hold, is unmapped. *)
Theorem free_correct roots sp outside rp s l A mptr live pins c live' :
  (forall p, 0 <= outside p) -> sp 0 = Some rp -> cr3 s = rp * 4096 -> space_ok roots sp outside s l A ->
  heap_ok rp A mptr live pins -> live ≡ₚ c :: live' ->
  wp (free c.1) s (fun _ s' => exists l' A', cr3 s' = rp * 4096 /\ space_ok roots sp outside s' l' A' /\
    heap_ok rp A' mptr live' pins /\ keeps_out rp A A' /\ keeps_bytes rp (data live') A A' /\
    forall k, arena k -> k ∉ pins -> (forall d, d ∈ live' -> ~ cfirst d <= k <= clast d) -> entries A' !! (rp, k) = None).
Proof.
  intros Hout Hrp Hcr Hso Hheap HP. wuse (free_spec roots sp outside rp Hout Hrp s l A mptr live pins c live'); try done.
  intros _ s' (l' & A' & [Hcr' Hso'] & Hheap' & [_ Ho Hb]). exists l', A'. split_and!; try done.
  intros k Hk Hp Hd. pose proof (hp_pages _ _ _ _ _ Hheap' k Hk) as Hpk.
  assert (forall d, d ∈ refs live' pins -> ~ cfirst d <= k <= clast d) as Hno.
  { intros d [Hl|Hi]%elem_of_app; [by apply Hd|]. apply list_elem_of_fmap in Hi as (k' & -> & Hk'). destruct (pin_pages k') as [-> ->].
    intros E. assert (k' = k) as -> by lia. done. }
  unfold state_of in Hpk. destruct (existsb _ _) eqn:E.
  { apply cont_spec in E as (d & Hd' & Hr). exfalso. apply (Hno d Hd'). lia. }
  destruct (Z.eqb_spec (count (refs live' pins) k) 0) as [|Hc]; [done|]. exfalso. unfold count in Hc.
  destruct (filter _ _) as [|d fl] eqn:Ef; [done|].
  assert (d ∈ filter (fun d => clast d = k) (refs live' pins)) as H by (rewrite Ef; apply list_elem_of_here). apply list_elem_of_filter in H as [Hl Hin].
  apply (Hno d Hin). rewrite Hl. split; [|lia]. rewrite <- Hl. apply chunk_pages. by eapply chunks_in; [apply (hp_chunks _ _ _ _ _ Hheap')|].
Qed.

(** ** What malloc does not expect *)

(** When the last page of the arena was being filled and the program goes on, the search
    begins at mend, goes past it and does not come back. *)
Lemma past_end_not_free v n s : mend <= v -> 0 <= n -> v + (n + 4) < 2 ^ 64 -> isfree v (n + 4) s = Ret false s.
Proof.
  intros Hv Hn Hw. unfold isfree. unfold mend in Hv. rewrite wrap_small by lia.
  destruct (Z.to_nat ((n + 4) / PGSIZE + 2)) as [|m] eqn:E; [unfold PGSIZE in E; Z.div_mod_to_equations; lia|]. cbn [isfree_loop].
  rewrite (proj2 (Z.ltb_lt _ _)) by lia. rewrite Z.geb_leb, (proj2 (Z.leb_le _ _)) by (unfold mend; lia). done.
Qed.
Lemma malloc_runs_past_end fuel v n w s :
  mend <= v -> 0 <= n -> v + Z.of_nat fuel * 4096 + (n + 4) < 2 ^ 64 -> find_space fuel v n w s = Stop Diverge s.
Proof.
  revert v. induction fuel as [|fuel IH]; intros v Hv Hn Hw; [done|]. cbn [find_space]. unfold mbind, M_bind.
  rewrite past_end_not_free by lia. cbv zeta. unfold PGSIZE, mend in *. rewrite wrap_small by lia. rewrite (proj2 (Z.eqb_neq _ _)) by lia.
  apply IH; lia.
Qed.

(** The mark of a large chunk is the bit by which fork and spawn know shared pages: they
    leave such a page writable in parent and child. *)
Lemma large_chunks_are_shared p : let e := p * 4096 + Z.lor (Z.lor (Z.lor PTE_P PTE_U) PTE_W) PTE_CONTINUED in
  is_shared e = true /\ child_entry e = e.
Proof.
  cbv zeta. change (Z.lor _ PTE_CONTINUED) with 0x407. unfold is_shared, child_entry, child_flags.
  assert (Z.land (p * 4096 + 0x407) PTE_USER = 0x407) as HU.
  { change PTE_USER with (Z.land (2 ^ 12 - 1) PTE_USER). rewrite Z.land_assoc, land_low by lia.
    change (2 ^ 12) with 4096. replace ((p * 4096 + 1031) mod 4096) with 1031 by (Z.div_mod_to_equations; lia). done. }
  unfold is_private, is_shared. rewrite HU. split; [done|]. rewrite flags_page by lia. done.
Qed.

(** A size next to 2^64 becomes 0. *)
Lemma malloc_size_wraps n : 2 ^ 64 - 3 <= n < 2 ^ 64 -> ROUNDUP n 4 = 0.
Proof. intros Hn. unfold ROUNDUP, ROUNDDOWN, wrap. rewrite <- (Z_mod_plus_full _ (-1)), Z.mod_small by lia. Z.div_mod_to_equations. lia. Qed.

(** ** A program that allocates a chunk *)
Definition with_text : kstate := after_allocs 7 [UTEXT].
Definition heap_fuel : nat := Z.to_nat 0x10000.
Lemma heap_fuel_enough : 0x10000 <= Z.of_nat heap_fuel.
Proof. unfold heap_fuel. rewrite Z2Nat.id; lia. Qed.
Definition chunk_addr : Z := 0x08000000.
Definition with_chunk : kstate := match malloc heap_fuel 100 0 with_text with Ret _ s' => s' | Stop _ s' => s' end.

Lemma with_text_ok : exists l A, space_ok family_roots family_sp no_refs with_text l A /\ cr3 with_text = 4096 /\
  heap_ok 1 A 0 [] [] /\ zero_refs A <> 1.
Proof.
  assert (pte_of (mem with_text) 1 (0x800 * 4096) = 8 * 4096 + 7 /\ ref with_text 0 = 0) as [Hp Hr] by (vm_compute; split; reflexivity).
  destruct (after_allocs_ok 7 [UTEXT] ltac:(by repeat constructor)) as (A & l & Hso & Hcr & _ & He).
  fold with_text in Hso, Hcr. generalize dependent with_text. intros s Hp Hr Hso Hcr. exists l, A.
  split_and!; [done|done| |rewrite <- (so_zref _ _ _ _ _ _ Hso), Hr; done].
  assert (forall k, arena k -> entries A !! (1, k) = None) as Hno.
  { intros k Hk. destruct (entries A !! (1, k)) as [e|] eqn:E; [|done]. destruct (He _ _ E) as (_ & H & _).
    apply list_elem_of_singleton in H. change (VPN UTEXT) with 0x800 in H. cbn [snd] in H. unfold arena in Hk. lia. }
  split; [done| |by left|].
  - intros k Hk. by apply Hno.
  - exists 0x800, (8 * 4096 + 7). split; [done|]. split; [by intros []|]. destruct (pte_entry _ _ _ s l A 1 0x800 Hso ltac:(by left) ltac:(done)) as [H1 H2].
    rewrite Hp in *. destruct (entries A !! (1, 0x800)) as [e|]; cbn in H1; [by subst e|done].
Qed.

Lemma with_chunk_ok : exists l A pins, space_ok family_roots family_sp no_refs with_chunk l A /\ cr3 with_chunk = 4096 /\
  heap_ok 1 A (chunk_addr + 100) [(chunk_addr, 100)] pins.
Proof.
  assert (value_of (malloc heap_fuel 100 0 with_text) = Some (chunk_addr, chunk_addr + 100)) as Hv by (vm_compute; reflexivity).
  destruct with_text_ok as (l & A & Hso & Hcr & Hh & Hz). unfold with_chunk. generalize dependent with_text. intros s Hv Hso Hcr.
  pose proof heap_fuel_enough as Hf. generalize dependent heap_fuel. intros f Hv Hf.
  pose proof (malloc_spec family_roots family_sp no_refs 1 ltac:(done) eq_refl f s l A 0 [] [] 100 (conj Hcr Hso) Hh Hz
    ltac:(done) ltac:(done) ltac:(done) Hf) as H. unfold wp in H. destruct (malloc f 100 0 s) as [x s'|]; [|done].
  injection Hv as ->. destruct H as (l' & A' & live' & pins' & [Hcr' Hso'] & Hh' & _ & _ & [(H0 & _)|(_ & -> & _)]); [done|].
  by exists l', A', pins'.
Qed.

Lemma malloc_correct_witness :
  exists s', malloc heap_fuel 100 0 with_text = Ret (chunk_addr, chunk_addr + 100) s' /\
    exists l' A' pins', space_ok family_roots family_sp no_refs s' l' A' /\ heap_ok 1 A' (chunk_addr + 100) [(chunk_addr, 100)] pins' /\
      forall va, chunk_addr <= va < chunk_addr + 100 -> exists e, entries A' !! (1, VPN va) = Some e /\ Z.land e 7 = 7.
Proof.
  assert (value_of (malloc heap_fuel 100 0 with_text) = Some (chunk_addr, chunk_addr + 100)) as Hv by (vm_compute; reflexivity).
  destruct with_text_ok as (l & A & Hso & Hcr & Hh & Hz). generalize dependent with_text. intros s Hv Hso Hcr.
  pose proof heap_fuel_enough as Hf. generalize dependent heap_fuel. intros f Hv Hf.
  pose proof (malloc_correct family_roots family_sp no_refs 1 f s l A 0 [] [] 100 ltac:(done) eq_refl Hcr Hso Hh Hz
    ltac:(done) ltac:(done) ltac:(done) Hf) as H. unfold wp in H. destruct (malloc f 100 0 s) as [x s'|]; [|done].
  injection Hv as ->. exists s'. split; [done|].
  destruct H as (l' & A' & live' & pins' & _ & Hso' & Hh' & _ & _ & [(H0 & _)|(_ & -> & _ & Hm)]); [done|]. by exists l', A', pins'.
Defined.

Lemma free_correct_witness :
  wp (free chunk_addr) with_chunk (fun _ s' => exists l' A' pins, space_ok family_roots family_sp no_refs s' l' A' /\ heap_ok 1 A' (chunk_addr + 100) [] pins).
Proof.
  destruct with_chunk_ok as (l & A & pins & Hso & Hcr & Hh). generalize dependent with_chunk. intros s Hso Hcr.
  wuse (free_correct family_roots family_sp no_refs 1 s l A (chunk_addr + 100) [(chunk_addr, 100)] pins (chunk_addr, 100) []); try done.
  intros _ s' (l' & A' & _ & Hso' & Hh' & _). by exists l', A', pins.
Defined.

(** A chunk of a whole page, when it is given back, leaves the page with its count: the
    reference of malloc is never dropped, since mptr is at the beginning of that page. *)
Definition leaked : K Z := x ← malloc heap_fuel 4096 0; free x.1;; y ← malloc heap_fuel 8 x.2; free y.1;; vpt (chunk_addr + 4096).
Lemma malloc_page_leaks : value_of (leaked with_text) <> Some 0.
Proof. vm_compute. discriminate. Qed.
