(* ===== verification/Fsformat.v ===== *)
(** * The builder of disk images: fs/fsformat.c

    A program of the host.  Its memory is one array of bytes: the image, which it maps
    with mmap, and the directory entries, which it keeps in a block of malloc.  What
    the system answers is part of the state: the files of the host, how many bytes
    each read transfers, and whether the calls on the image succeed.  The image file
    is the memory that is mapped. *)
From S2P Require Import Prelude Mmu CMem Str BlockCache.

(** A file of the host: whether fstat succeeds and it is a regular file, and its
    bytes. *)
Record hfile := mkHfile { hf_stat : bool; hf_reg : bool; hf_data : list Z }.

Record host := mkHost {
  h_files : gmap (list Z) hfile;
  h_reads : list Z;     (* what the next reads transfer at most, or -1; then all *)
  h_open : Z;           (* results of open, ftruncate, mmap, malloc and msync *)
  h_truncate : Z;
  h_mmap : Z;
  h_malloc : Z;
  h_msync : Z;
  h_mem : bytes;
  nblocks : Z;
  diskmap : Z;
  diskpos : Z;
  h_super : Z;
  h_bitmap : Z
}.

#[export] Instance host_fields : Fields host := fun h =>
  mkHost (h_files h) (h_reads h) (h_open h) (h_truncate h) (h_mmap h) (h_malloc h) (h_msync h)
    (h_mem h) (nblocks h) (diskmap h) (diskpos h) (h_super h) (h_bitmap h).

Inductive hstop :=
| HPanic             (* panic(): abort() *)
| HExit (code : Z)   (* exit() *)
| HDiverge.          (* a loop did not end *)

Abbreviation H := (M host hstop).

Definition fmt_panic {A} : H A := stop HPanic.
Definition usage {A} : H A := stop (HExit 2).

(** ** Memory of the program *)
Definition upd_mem (f : bytes -> bytes) : H unit := modify (fun h => h <| h_mem := f (h_mem h) |>).
Definition hstore32 (a v : Z) : H unit := upd_mem (fun m => st32 m a v).
Definition hload32 (a : Z) : H Z := gets (fun h => ld32 (h_mem h) a).
(** strcpy of a string given by its characters. *)
Definition hstrcpy (dst : Z) (src : list Z) : H unit := upd_mem (fun m => st_list m dst (src ++ [0])).

(** ** ROUNDUP

    [((n) - 1 + (v) - ((n) - 1) % (v))], in the arithmetic of the type of [n]. *)
Definition FMT_ROUNDUP_u (n v : Z) : Z := u32 (n - 1 + v - u32 (n - 1) mod v).
Definition FMT_ROUNDUP_i (n v : Z) : Z := n - 1 + v - Z.rem (n - 1) v.

Definition MAX_DIR_ENTS : Z := 128.

(** [struct Dir]: the addresses of the directory's [struct File] and of the entries. *)
Record Dir := mkDir { d_f : Z; d_ents : Z; d_n : Z }.
#[export] Instance Dir_fields : Fields Dir := fun d => mkDir (d_f d) (d_ents d) (d_n d).

(** ** Reading a file of the host

    [rest] is what is left of the file behind the descriptor. *)
Definition host_read (rest : list Z) (out n : Z) : H (Z * list Z) :=
  rs ← gets h_reads;
  modify (fun h => h <| h_reads := tl rs |>);;
  let k := default n (head rs) in
  if k <? 0 then mret (-1, rest)
  else
    let m := Z.min (Z.min n k) (Z.of_nat (length rest)) in
    upd_mem (fun mem => st_list mem out (take (Z.to_nat m) rest));;
    mret (m, drop (Z.to_nat m) rest).

(** [m] is a [size_t], so that [m < 0] never holds. *)
Fixpoint fmt_readn_loop (fuel : nat) (rest : list Z) (out n p : Z) : H unit :=
  if p <? n then
    match fuel with
    | O => stop HDiverge
    | S fuel' =>
        '(r, rest) ← host_read rest (out + p) (n - p);
        let m := u64 r in
        if m <? 0 then fmt_panic
        else if m =? 0 then fmt_panic
        else fmt_readn_loop fuel' rest out n (u64 (p + m))
    end
  else mret tt.
(** Past the answers of [h_reads] a read transfers all it can. *)
Definition fmt_readn (data : list Z) (out n : Z) : H unit :=
  rs ← gets h_reads; fmt_readn_loop (length rs + 2) data out n 0.

(** ** Blocks of the image *)
Definition blockof (pos : Z) (h : host) : Z := u32 (Z.quot (pos - diskmap h) BLKSIZE).

Definition alloc (bytes : Z) : H Z :=
  start ← gets diskpos;
  modify (fun h => h <| diskpos := diskpos h + FMT_ROUNDUP_u bytes BLKSIZE |>);;
  full ← gets (fun h => blockof (diskpos h) h >=? nblocks h);
  if full : bool then fmt_panic else mret start.

(** ftruncate to nothing and then to the size of the image gives zeros, and mmap shows
    them. *)
Definition map_image (a n : Z) : H unit := upd_mem (fun m => memset m a 0 n).

(** The assignments to [*super]. *)
Definition init_super (sp n : Z) : H unit :=
  hstore32 sp FS_MAGIC;;
  hstore32 (sp + 4) n;;
  hstore32 (sp + 8 + 132) FTYPE_DIR;;
  hstrcpy (sp + 8) [0x2F].

Definition opendisk : H unit :=
  fd ← gets h_open;
  if fd <? 0 then fmt_panic
  else
    r ← gets h_truncate;
    if r <? 0 then fmt_panic
    else
      a ← gets h_mmap;
      if a =? -1 then fmt_panic
      else
        n ← gets nblocks;
        map_image a (u32 (n * BLKSIZE));;
        modify (fun h => h <| diskmap := a |>);;
        modify (fun h => h <| diskpos := a |>);;
        alloc BLKSIZE;;
        sp ← alloc BLKSIZE;
        modify (fun h => h <| h_super := sp |>);;
        init_super sp n;;
        let nbitblocks := (n + BLKBITSIZE - 1) / BLKBITSIZE in
        bm ← alloc (nbitblocks * BLKSIZE);
        modify (fun h => h <| h_bitmap := bm |>);;
        upd_mem (fun m => memset m bm 0xFF (nbitblocks * BLKSIZE)).

(** [bitmap[i/32] &= ~(1<<(i%32))] *)
Fixpoint finishdisk_loop (n : nat) (i : Z) : H unit :=
  match n with
  | O => mret tt
  | S n' =>
      bm ← gets h_bitmap;
      w ← hload32 (bm + 4 * (i / 32));
      hstore32 (bm + 4 * (i / 32)) (Z.land w (u32 (Z.lnot (2 ^ (i mod 32)))));;
      finishdisk_loop n' (i + 1)
  end.

Definition finishdisk : H unit :=
  n ← gets (fun h => blockof (diskpos h) h);
  finishdisk_loop (Z.to_nat n) 0;;
  r ← gets h_msync;
  if r <? 0 then fmt_panic else mret tt.

(** ** Files *)
(** [for (; i < e; ++i) a[i - k] = start + i;] with [a] at [base]. *)
Fixpoint number_blocks (n : nat) (base start i : Z) : H unit :=
  match n with
  | O => mret tt
  | S n' => hstore32 base (u32 (start + i));; number_blocks n' (base + 4) start (i + 1)
  end.

Definition finishfile (f start len : Z) : H unit :=
  hstore32 (f + 128) len;;
  let len := FMT_ROUNDUP_u len BLKSIZE in
  let n := len / BLKSIZE in
  let i := Z.min n NDIRECT in
  number_blocks (Z.to_nat i) (f + 136) start 0;;
  if i =? NDIRECT then
    ind ← alloc BLKSIZE;
    b ← gets (blockof ind);
    hstore32 (f + 176) b;;
    number_blocks (Z.to_nat (n - NDIRECT)) ind start NDIRECT
  else mret tt.

(** ** Directories *)
Definition startdir (f : Z) : H Dir := a ← gets h_malloc; mret (mkDir f a 0).

Definition diradd (d : Dir) (type : Z) (name : list Z) : H (Z * Dir) :=
  let out := d_ents d + sizeof_File * d_n d in
  let d := d <| d_n := d_n d + 1 |> in
  if d_n d >? MAX_DIR_ENTS then fmt_panic
  else
    hstrcpy out name;;
    hstore32 (out + 132) type;;
    mret (out, d).

Definition finishdir (d : Dir) : H unit :=
  let size := i32 (d_n d * sizeof_File) in
  start ← alloc (u32 size);
  upd_mem (fun m => memmove m start (d_ents d) (u64 size));;
  b ← gets (blockof start);
  finishfile (d_f d) b (u32 (FMT_ROUNDUP_i size BLKSIZE)).

(** What follows the last slash: [strrchr], and the choice of [last]. *)
Fixpoint last_elem (name : list Z) : list Z :=
  match name with
  | [] => []
  | c :: name' => if bool_decide (0x2F ∈ name') then last_elem name'
                  else if c =? 0x2F then name' else name
  end.

Definition writefile (dir : Dir) (name : list Z) : H Dir :=
  f ← gets (fun h => h_files h !! name);
  match f with
  | None => fmt_panic
  | Some f =>
      if negb (hf_stat f) then fmt_panic
      else if negb (hf_reg f) then fmt_panic
      else
        let st_size := Z.of_nat (length (hf_data f)) in
        if st_size >=? MAXFILESIZE then fmt_panic
        else
          '(out, dir) ← diradd dir FTYPE_REG (last_elem name);
          start ← alloc (u32 st_size);
          fmt_readn (hf_data f) start st_size;;
          b ← gets (blockof start);
          finishfile out b (u32 st_size);;
          mret dir
  end.

Fixpoint writefiles (dir : Dir) (names : list (list Z)) : H Dir :=
  match names with
  | [] => mret dir
  | name :: names' => dir ← writefile dir name; writefiles dir names'
  end.

(** ** main

    strtol of the C library, with base 0: the value, and what follows the number, or
    [None] when there is no number. *)
Fixpoint number_digits (base : Z) (val : Z) (s : list Z) : Z * list Z :=
  match s with
  | c :: s' =>
      match digit_of c with
      | Some d => if d <? base then number_digits base (val * base + d) s' else (val, s)
      | None => (val, s)
      end
  | [] => (val, [])
  end.

Definition starts_digit (base : Z) (s : list Z) : bool :=
  match head s ≫= digit_of with Some d => d <? base | None => false end.

Definition is_space (c : Z) : bool := (c =? 0x20) || ((0x09 <=? c) && (c <=? 0x0D)).
Fixpoint skip_space (s : list Z) : list Z :=
  match s with
  | c :: s' => if is_space c then skip_space s' else s
  | [] => []
  end.

Definition strtol0 (s : list Z) : option (Z * list Z) :=
  let s := skip_space s in
  let '(neg, s) := match s with 0x2B :: s' => (false, s') | 0x2D :: s' => (true, s') | _ => (false, s) end in
  let '(base, s) :=
    match s with
    | 0x30 :: x :: s' =>
        if ((x =? 0x78) || (x =? 0x58)) && starts_digit 16 s' then (16, s') else (8, s)
    | 0x30 :: _ => (8, s)
    | _ => (10, s)
    end in
  if starts_digit base s then
    let '(val, rest) := number_digits base 0 s in
    Some (Z.max (- 2 ^ 63) (Z.min (2 ^ 63 - 1) (if neg : bool then - val else val)), rest)
  else None.

Definition fmt_main (argv : list (list Z)) : H Z :=
  match argv with
  | _ :: _ :: nb :: names =>
      match strtol0 nb with
      | Some (v, []) =>
          modify (fun h => h <| nblocks := u32 v |>);;
          if (u32 v <? 2) || (u32 v >? 10240) then usage
          else
            opendisk;;
            sp ← gets h_super;
            root ← startdir (sp + 8);
            root ← writefiles root names;
            finishdir root;;
            finishdisk;;
            mret 0
      | _ => usage
      end
  | _ => usage
  end.
