(* ===== verification/FsformatThms.v ===== *)
(** * What fsformat writes, and that the file server reads it

    Each routine of fsformat.c is specified by the bytes it leaves in memory and by
    what it does not touch; together they describe the image, and the file server
    finds in it the files of the host. *)
From S2P Require Import Prelude Mmu CMem Str BlockCache Bc Fs FsSpec FileSpec DirSpec Fsformat.

Definition byte_list (l : list Z) : Prop := Forall (fun c => 0 <= c < 256) l.
Lemma chars_bytes l : chars l -> byte_list (l ++ [0]).
Proof. intros Hl. apply Forall_app. split; [eapply Forall_impl; [exact Hl|]; simpl; lia|repeat constructor; lia]. Qed.

Lemma cstr_st_list m a l : chars l -> cstr (ld8 (st_list m a (l ++ [0]))) a l.
Proof.
  intros Hl i c Hi. rewrite ld8_st_list by by apply chars_bytes. pose proof (lookup_lt_Some _ _ _ Hi).
  rewrite decide_True by lia. replace (Z.to_nat (a + Z.of_nat i - a)) with i by lia. by rewrite Hi.
Qed.

(** ** The rounding macro *)
Definition nblk (n : Z) : Z := (n + 4095) / 4096.

Lemma FMT_ROUNDUP_u_ok n : 0 <= n < 2 ^ 31 -> FMT_ROUNDUP_u n BLKSIZE = 4096 * nblk n.
Proof.
  intros Hn. unfold FMT_ROUNDUP_u, nblk, wrap. change BLKSIZE with 4096.
  rewrite (Z.mod_mod_divide (n - 1)) by (by exists (2 ^ 20)). rewrite Z.mod_small; Z.div_mod_to_equations; lia.
Qed.

Lemma FMT_ROUNDUP_i_ok n : 1 <= n -> FMT_ROUNDUP_i n BLKSIZE = 4096 * nblk n.
Proof.
  intros Hn. unfold FMT_ROUNDUP_i, nblk. change BLKSIZE with 4096. rewrite Z.rem_mod_nonneg by lia.
  Z.div_mod_to_equations. lia.
Qed.

Lemma nblk_nonneg n : 0 <= n -> 0 <= nblk n /\ n <= 4096 * nblk n < n + 4096.
Proof. intros. unfold nblk. Z.div_mod_to_equations. lia. Qed.

(** ** The state of the program

    What the routines leave alone, and that what remains of the answers to read stays
    free of errors. *)
Definition positive_reads (h : host) : Prop := Forall (fun k => 0 < k) (h_reads h).
Record kept (h h' : host) : Prop := {
  kept_files : h_files h' = h_files h;
  kept_malloc : h_malloc h' = h_malloc h;
  kept_msync : h_msync h' = h_msync h;
  kept_nblocks : nblocks h' = nblocks h;
  kept_diskmap : diskmap h' = diskmap h;
  kept_super : h_super h' = h_super h;
  kept_bitmap : h_bitmap h' = h_bitmap h;
  kept_reads : positive_reads h -> positive_reads h'
}.
#[export] Instance kept_preorder : PreOrder kept.
Proof.
  split; [by split|]. intros h1 h2 h3 [] []. split; try congruence. auto.
Qed.

Definition hview (h : host) : Z -> Z := ld8 (h_mem h).

Lemma hview_mem h m : hview (h <| h_mem := m |>) = ld8 m.
Proof. done. Qed.
Lemma hview_pos h p : hview (h <| diskpos := p |>) = hview h.
Proof. done. Qed.
Lemma vld_hview n h a : vld n (hview h) a = ld n (h_mem h) a.
Proof. apply vld_ld. Qed.

(** [unchanged v v' P]: the bytes outside of [P] are the same. *)
Definition unchanged (v v' : Z -> Z) (P : Z -> Prop) : Prop := forall a, ~ P a -> v' a = v a.

(** The program is at block [c] of the image. *)
Definition at_block (h : host) (c : Z) : Prop :=
  diskpos h = diskmap h + 4096 * c /\ 0 <= c < nblocks h /\ nblocks h <= 10240.

Lemma blockof_ok h c : 0 <= c < 2 ^ 31 -> blockof (diskmap h + 4096 * c) h = c.
Proof.
  intros Hc. unfold blockof. change BLKSIZE with 4096. replace (diskmap h + 4096 * c - diskmap h) with (c * 4096) by lia.
  rewrite Z.quot_mul by lia. apply wrap_small. lia.
Qed.

Lemma alloc_ok h c bytes :
  at_block h c -> 0 <= bytes < 2 ^ 31 -> c + nblk bytes < nblocks h ->
  wp (alloc bytes) h (fun r h' => r = diskmap h + 4096 * c /\ at_block h' (c + nblk bytes) /\
    kept h h' /\ h_mem h' = h_mem h).
Proof.
  intros (Hp & Hc & Hn) Hb Hlt. unfold alloc. wsteps. rewrite FMT_ROUNDUP_u_ok by done.
  pose proof (nblk_nonneg bytes ltac:(lia)). set (h1 := h <| diskpos := diskpos h + 4096 * nblk bytes |>).
  assert (diskpos h1 = diskmap h1 + 4096 * (c + nblk bytes)) as Hp1
    by (change (diskpos h + 4096 * nblk bytes = diskmap h + 4096 * (c + nblk bytes)); lia).
  rewrite Hp1, blockof_ok by lia. change (nblocks h1) with (nblocks h). rewrite Z.geb_leb.
  destruct (Z.leb_spec (nblocks h) (c + nblk bytes)); [lia|]. wsteps.
  split_and!; [done| |by split|done]. split_and!; [done|lia| |done]. change (nblocks h1) with (nblocks h). lia.
Qed.

(** ** Block numbers *)
Definition within (lo hi a : Z) : Prop := lo <= a < hi.
Ltac out := unfold unchanged, within in *; intros; match goal with H : forall a, _ -> _ = _ |- _ => apply H end; lia.

Lemma hstore32_ok h a x :
  wp (hstore32 a x) h (fun _ h' => kept h h' /\ diskpos h' = diskpos h /\
    vld 4 (hview h') a = x mod 2 ^ 32 /\ unchanged (hview h) (hview h') (within a (a + 4))).
Proof.
  unfold hstore32, upd_mem. wsteps. split_and!; [by split|done|..].
  - rewrite vld_hview. apply (ld_st_eq 4).
  - intros b Hb. unfold within in Hb. change (ld8 (st32 (h_mem h) a x) b = ld8 (h_mem h) b).
    by rewrite ld8_st, decide_False by (simpl; lia).
Qed.

Lemma vld_unchanged v v' P n a : unchanged v v' P -> (forall b, a <= b < a + Z.of_nat n -> ~ P b) -> vld n v' a = vld n v a.
Proof. intros Hu HP. apply vld_ext. intros b Hb. apply Hu. by apply HP. Qed.

Lemma unchanged_trans v1 v2 v3 (P Q R : Z -> Prop) :
  unchanged v1 v2 P -> unchanged v2 v3 Q -> (forall a, P a \/ Q a -> R a) -> unchanged v1 v3 R.
Proof. intros H1 H2 HR a Ha. rewrite H2, H1; [done|..]; intros Hx; apply Ha, HR; tauto. Qed.

Lemma number_blocks_ok n : forall h base start i,
  0 <= start + i -> start + i + Z.of_nat n < 2 ^ 32 ->
  wp (number_blocks n base start i) h (fun _ h' => kept h h' /\ diskpos h' = diskpos h /\
    (forall j, 0 <= j < Z.of_nat n -> vld 4 (hview h') (base + 4 * j) = start + i + j) /\
    unchanged (hview h) (hview h') (within base (base + 4 * Z.of_nat n))).
Proof.
  induction n as [|n IH]; intros h base start i Hlo Hhi; cbn [number_blocks].
  { wsteps. split_and!; [done|done|lia|done]. }
  wsteps. wuse hstore32_ok. intros _ h1 (Hk1 & Hp1 & Hv1 & Hu1).
  wuse (IH h1 (base + 4) start (i + 1)); [lia|lia|]. intros _ h2 (Hk2 & Hp2 & Hv2 & Hu2).
  split_and!; [by etrans|congruence|..].
  - intros j Hj. destruct (decide (j = 0)) as [->|].
    + rewrite Z.mul_0_r, !Z.add_0_r. rewrite (vld_unchanged _ _ _ 4 base Hu2) by (unfold within; lia).
      rewrite Hv1. rewrite wrap_small by lia. apply Z.mod_small. lia.
    + replace (base + 4 * j) with (base + 4 + 4 * (j - 1)) by lia. rewrite Hv2 by lia. lia.
  - eapply unchanged_trans; [exact Hu1|exact Hu2|]. unfold within. lia.
Qed.

(** ** finishfile

    The [struct File] at [f] gets its size and its block numbers; for ten blocks or
    more there is an indirect block, the next one of the image. *)
Definition has_ind (len : Z) : Z := if 10 <=? nblk len then 1 else 0.
Definition numbered (v : Z -> Z) (f ind start n : Z) : Prop :=
  (forall j, 0 <= j < Z.min n 10 -> vld 4 v (f + 136 + 4 * j) = start + j) /\
  (forall j, 10 <= j < n -> vld 4 v (ind + 4 * (j - 10)) = start + j).

Lemma has_ind_range len : 0 <= has_ind len <= 1 /\ (has_ind len = 1 <-> 10 <= nblk len).
Proof. unfold has_ind. destruct (Z.leb_spec 10 (nblk len)); lia. Qed.

Lemma finishfile_ok h f start len c :
  at_block h c -> 0 <= len <= MAXFILESIZE -> 0 <= start -> start + nblk len < 2 ^ 31 ->
  c + has_ind len < nblocks h ->
  f + 256 <= diskmap h + 4096 * c \/ diskmap h + 4096 * (c + 1) <= f ->
  wp (finishfile f start len) h (fun _ h' => kept h h' /\ at_block h' (c + has_ind len) /\
    vld 4 (hview h') (f + 128) = len /\ numbered (hview h') f (diskmap h + 4096 * c) start (nblk len) /\
    (10 <= nblk len -> vld 4 (hview h') (f + 176) = c) /\
    unchanged (hview h) (hview h') (fun a => within (f + 128) (f + 132) a \/ within (f + 136) (f + 180) a \/
      within (diskmap h + 4096 * c) (diskmap h + 4096 * (c + has_ind len)) a)).
Proof.
  intros Hc Hlen Hst Hst' Hroom Hap. change MAXFILESIZE with 4235264 in Hlen. unfold finishfile.
  pose proof (nblk_nonneg len ltac:(lia)) as Hnb. pose proof (has_ind_range len) as Hind.
  cbv zeta. rewrite FMT_ROUNDUP_u_ok by lia. change BLKSIZE with 4096.
  rewrite (Z.mul_comm 4096 (nblk len)), Z.div_mul by lia. change NDIRECT with 10. set (n := nblk len) in *.
  wsteps. wuse hstore32_ok. intros _ h1 (Hk1 & Hp1 & Hv1 & Hu1). rewrite Z.mod_small in Hv1 by lia.
  wsteps. wuse number_blocks_ok; [lia|lia|]. rewrite Z2Nat.id by lia. intros _ h2 (Hk2 & Hp2 & Hv2 & Hu2).
  assert (kept h h2) as Hk02 by by etrans.
  assert (vld 4 (hview h2) (f + 128) = len) as Hsz2.
  { rewrite (vld_unchanged _ _ _ 4 _ Hu2) by (unfold within; lia). done. }
  destruct Hc as (Hpos & Hc & HN).
  assert (at_block h2 c) as Hc2.
  { split; [rewrite Hp2, Hp1, (kept_diskmap _ _ Hk02); done|]. rewrite (kept_nblocks _ _ Hk02). done. }
  destruct (Z.eqb_spec (Z.min n 10) 10) as [H10|H10].
  - assert (has_ind len = 1) as Hi1 by (apply Hind; lia). rewrite Hi1 in *.
    wsteps. wuse alloc_ok; [exact Hc2|done|rewrite (kept_nblocks _ _ Hk02); change (nblk 4096) with 1; lia|].
    change (nblk 4096) with 1. intros ind h3 (-> & Hc3 & Hk3 & Hm3). rewrite (kept_diskmap _ _ Hk02).
    assert (blockof (diskmap h + 4096 * c) h3 = c) as Hbo.
    { rewrite <- (kept_diskmap _ _ Hk02), <- (kept_diskmap _ _ Hk3). apply blockof_ok. lia. }
    assert (hview h3 = hview h2) as Hv32 by (unfold hview; by rewrite Hm3).
    wsteps. rewrite Hbo. wuse hstore32_ok. rewrite Hv32. intros _ h4 (Hk4 & Hp4 & Hv4 & Hu4).
    rewrite Z.mod_small in Hv4 by lia.
    wuse number_blocks_ok; [lia|rewrite Z2Nat.id by lia; lia|]. rewrite Z2Nat.id by lia. intros _ h5 (Hk5 & Hp5 & Hv5 & Hu5).
    assert (kept h h5) as Hk05 by (etrans; [exact Hk02|]; etrans; [exact Hk3|]; by etrans).
    assert (unchanged (hview h2) (hview h5) (fun a => within (f + 176) (f + 180) a \/
      within (diskmap h + 4096 * c) (diskmap h + 4096 * (c + 1)) a)) as Hu25.
    { eapply unchanged_trans; [exact Hu4|exact Hu5|]. unfold within. lia. }
    split_and!; [done|..].
    + split; [rewrite Hp5, Hp4, (kept_diskmap _ _ Hk05); destruct Hc3 as (-> & _);
        rewrite (kept_diskmap _ _ Hk3), (kept_diskmap _ _ Hk02); done|]. rewrite (kept_nblocks _ _ Hk05). lia.
    + rewrite (vld_unchanged _ _ _ 4 _ Hu25); [done|]. unfold within. lia.
    + split.
      * intros j Hj. rewrite (vld_unchanged _ _ _ 4 _ Hu25) by (unfold within; lia). rewrite Hv2 by lia. lia.
      * intros j Hj. rewrite Hv5 by lia. lia.
    + intros _. rewrite (vld_unchanged _ _ _ 4 _ Hu5); [done|]. unfold within. lia.
    + eapply unchanged_trans; [|exact Hu25|]; [eapply unchanged_trans; [exact Hu1|exact Hu2|intros a Ha; exact Ha]|].
      unfold within. lia.
  - assert (has_ind len = 0) as Hi0 by lia. rewrite Hi0 in *. wsteps. rewrite !Z.add_0_r.
    split_and!; [done|done|done|..].
    + split; [|lia]. intros j Hj. rewrite Hv2 by lia. lia.
    + lia.
    + eapply unchanged_trans; [exact Hu1|exact Hu2|]. unfold within. lia.
Qed.

(** ** readn *)
Definition byte_at (l : list Z) (i : Z) : Z := default 0 (l !! Z.to_nat i).

Lemma upd_list_ok h a l :
  byte_list l ->
  wp (upd_mem (fun m => st_list m a l)) h (fun _ h' => kept h h' /\ diskpos h' = diskpos h /\ h_reads h' = h_reads h /\
    (forall i, 0 <= i < Z.of_nat (length l) -> hview h' (a + i) = byte_at l i) /\
    unchanged (hview h) (hview h') (within a (a + Z.of_nat (length l)))).
Proof.
  intros Hl. unfold upd_mem. wsteps. split_and!; [by split|done|done|..].
  - intros i Hi. rewrite hview_mem, ld8_st_list, decide_True by (done || lia). unfold byte_at. do 2 f_equal. lia.
  - intros b Hb. rewrite hview_mem, ld8_st_list, decide_False by done. done.
Qed.

Lemma read_ok h rest out n :
  positive_reads h -> byte_list rest -> 0 < n -> n = Z.of_nat (length rest) ->
  wp (host_read rest out n) h (fun '(m, rest') h' => 0 < m <= n /\ rest' = drop (Z.to_nat m) rest /\
    (length (h_reads h') < length (h_reads h) \/ m = n)%nat /\ kept h h' /\ diskpos h' = diskpos h /\
    (forall i, 0 <= i < m -> hview h' (out + i) = byte_at rest i) /\
    unchanged (hview h) (hview h') (within out (out + m))).
Proof.
  intros Hpos Hb Hn Hlen. unfold host_read. wsteps. cbv zeta.
  assert (0 < default n (head (h_reads h))) as Hk by (destruct (id Hpos); simpl; lia).
  set (k := default n (head (h_reads h))) in *. destruct (Z.ltb_spec k 0); [lia|].
  set (m := Z.min (Z.min n k) (Z.of_nat (length rest))).
  assert (length (take (Z.to_nat m) rest) = Z.to_nat m) as Hlm by (rewrite length_take; lia).
  wsteps. wuse upd_list_ok; [by apply Forall_take|]. rewrite Hlm, Z2Nat.id by lia.
  intros _ h2 (Hk2 & Hp2 & Hr2 & Hv2 & Hu2). wsteps. split_and!; [lia|lia|done|..].
  - rewrite Hr2. change (h_reads (h <| h_reads := tl (h_reads h) |>)) with (tl (h_reads h)).
    destruct (h_reads h) as [|k0 rs]; simpl; [|left; lia]. right. subst k. simpl in *. lia.
  - etrans; [|exact Hk2]. split; try done. unfold positive_reads. intros Hp.
    destruct (id Hp) as [|k0 rs Hk0 Hrs] eqn:E; [done|exact Hrs].
  - done.
  - intros i Hi. rewrite Hv2 by lia. unfold byte_at. rewrite lookup_take_lt by lia. done.
  - done.
Qed.

Lemma fmt_readn_loop_ok fuel : forall h data out n p,
  positive_reads h -> byte_list data -> n = Z.of_nat (length data) -> n < 2 ^ 31 -> 0 <= p <= n ->
  (length (h_reads h) < fuel)%nat ->
  wp (fmt_readn_loop fuel (drop (Z.to_nat p) data) out n p) h (fun _ h' => kept h h' /\ diskpos h' = diskpos h /\
    (forall i, p <= i < n -> hview h' (out + i) = byte_at data i) /\
    unchanged (hview h) (hview h') (within (out + p) (out + n))).
Proof.
  induction fuel as [|fuel IH]; intros h data out n p Hpos Hb Hn Hmax Hp Hf; [lia|].
  cbn [fmt_readn_loop]. destruct (Z.ltb_spec p n).
  2:{ wsteps. split_and!; [done|done|lia|done]. }
  wsteps. wuse read_ok; [done|by apply Forall_drop|lia|rewrite length_drop; lia|].
  intros [m rest'] h1 (Hm & -> & Hr & Hk1 & Hp1 & Hv1 & Hu1). rewrite (wrap_small 64 m) by lia.
  destruct (Z.ltb_spec m 0); [lia|]. destruct (Z.eqb_spec m 0); [lia|].
  rewrite wrap_small by lia. rewrite drop_drop. replace (Z.to_nat p + Z.to_nat m)%nat with (Z.to_nat (p + m)) by lia.
  assert (forall i, p <= i < p + m -> hview h1 (out + i) = byte_at data i) as Hv1'.
  { intros i Hi. replace (out + i) with (out + p + (i - p)) by lia. rewrite Hv1 by lia. unfold byte_at.
    rewrite lookup_drop. do 2 f_equal. lia. }
  destruct (decide (p + m = n)) as [He|He].
  { rewrite He. assert (fmt_readn_loop fuel (drop (Z.to_nat n) data) out n n = mret tt) as ->.
    { destruct fuel; cbn [fmt_readn_loop]; by rewrite Z.ltb_irrefl. }
    wsteps. split_and!; [done|done|intros; apply Hv1'; lia|]. eapply unchanged_trans; [exact Hu1|by intros a|].
    intros a [Ha|Ha]; [|exact Ha]. unfold within in *. lia. }
  wuse (IH h1 data out n (p + m)); [by apply (kept_reads _ _ Hk1)|done|done|done|lia|lia|].
  intros _ h2 (Hk2 & Hp2 & Hv2 & Hu2). split_and!; [by etrans|congruence|..].
  - intros i Hi. destruct (Z.lt_ge_cases i (p + m)); [|apply Hv2; lia].
    rewrite Hu2 by (unfold within; lia). apply Hv1'. lia.
  - eapply unchanged_trans; [exact Hu1|exact Hu2|]. unfold within. lia.
Qed.

Lemma fmt_readn_ok h data out n :
  positive_reads h -> byte_list data -> n = Z.of_nat (length data) -> n < 2 ^ 31 ->
  wp (fmt_readn data out n) h (fun _ h' => kept h h' /\ diskpos h' = diskpos h /\
    (forall i, 0 <= i < n -> hview h' (out + i) = byte_at data i) /\
    unchanged (hview h) (hview h') (within out (out + n))).
Proof.
  intros Hpos Hb Hn Hmax. unfold fmt_readn. wsteps.
  wuse (fmt_readn_loop_ok (length (h_reads h) + 2) h data out n 0); [done|done|done|done|lia|lia|].
  intros _ h' (Hk & Hp & Hv & Hu). rewrite Z.add_0_r in Hu. done.
Qed.

(** ** The files in the image

    A file of the host, by its name in the image and its bytes, with its first block
    and, for ten blocks or more, its indirect block. *)
Record placed := mkPlaced { p_name : list Z; p_data : list Z; p_start : Z }.
Definition p_size (p : placed) : Z := Z.of_nat (length (p_data p)).
Definition p_ind (p : placed) : Z := p_start p + nblk (p_size p).
Definition p_end (p : placed) : Z := p_ind p + has_ind (p_size p).

Definition file_entry (v : Z -> Z) (e : Z) (p : placed) : Prop :=
  cstr v e (p_name p) /\ vld 4 v (e + 128) = p_size p /\ vld 4 v (e + 132) = FTYPE_REG /\
  (forall j, 0 <= j < Z.min (nblk (p_size p)) 10 -> vld 4 v (e + 136 + 4 * j) = p_start p + j) /\
  (10 <= nblk (p_size p) -> vld 4 v (e + 176) = p_ind p).
Definition data_ok (v : Z -> Z) (base : Z) (p : placed) : Prop :=
  (forall i, 0 <= i < p_size p -> v (base + 4096 * p_start p + i) = byte_at (p_data p) i) /\
  (forall j, 10 <= j < nblk (p_size p) -> vld 4 v (base + 4096 * p_ind p + 4 * (j - 10)) = p_start p + j).

Definition file_fits (p : placed) : Prop :=
  chars (p_name p) /\ Z.of_nat (length (p_name p)) < MAXNAMELEN /\ byte_list (p_data p) /\ p_size p < MAXFILESIZE.

Lemma p_end_range p : 0 <= nblk (p_size p) /\ p_size p <= 4096 * nblk (p_size p) < p_size p + 4096 /\
  p_ind p <= p_end p <= p_ind p + 1 /\ (10 <= nblk (p_size p) -> p_end p = p_ind p + 1).
Proof.
  pose proof (nblk_nonneg (p_size p) ltac:(unfold p_size; lia)). pose proof (has_ind_range (p_size p)).
  unfold p_end. lia.
Qed.

Lemma file_entry_shift v v' e e' p :
  file_fits p -> file_entry v e p -> (forall i, 0 <= i < 256 -> v' (e' + i) = v (e + i)) -> file_entry v' e' p.
Proof.
  intros (_ & Hl & _) (Hc & Hs & Ht & Hd & Hi) Hv. change MAXNAMELEN with 128 in Hl.
  assert (forall off, 0 <= off <= 252 -> vld 4 v' (e' + off) = vld 4 v (e + off)) as Hw.
  { intros off Ho. apply vld_shift. intros i Hi'. rewrite <- !Z.add_assoc. apply Hv. lia. }
  split_and!.
  - eapply cstr_shift; [|exact Hc]. intros i Hi'. apply Hv. lia.
  - by rewrite Hw.
  - by rewrite Hw.
  - intros j Hj. rewrite <- Z.add_assoc, Hw by lia. rewrite Z.add_assoc. by apply Hd.
  - intros H10. rewrite Hw by lia. by apply Hi.
Qed.

Lemma data_ok_shift v v' base base' p :
  data_ok v base p -> (forall i, 4096 * p_start p <= i < 4096 * p_end p -> v' (base' + i) = v (base + i)) ->
  p_size p < MAXFILESIZE -> data_ok v' base' p.
Proof.
  intros [Hd Hi] Hv Hmax. pose proof (p_end_range p) as (Hn & Hs & He & H10). unfold p_ind in *.
  change MAXFILESIZE with 4235264 in Hmax. split.
  - intros i Hi'. rewrite <- Z.add_assoc, Hv by lia. rewrite Z.add_assoc. by apply Hd.
  - intros j Hj. rewrite <- (Hi j Hj). apply vld_shift. intros i Hi'. rewrite <- !Z.add_assoc. apply Hv.
    specialize (H10 ltac:(lia)). unfold p_ind. lia.
Qed.

(** The entries and the image do not overlap. *)
Definition ents_apart (h : host) (ents : Z) : Prop :=
  ents + 256 * MAX_DIR_ENTS <= diskmap h \/ diskmap h + 4096 * nblocks h <= ents.

Lemma diradd_ok h d name :
  d_n d < MAX_DIR_ENTS -> chars name -> Z.of_nat (length name) < MAXNAMELEN ->
  wp (diradd d FTYPE_REG name) h (fun '(out, d') h' => out = d_ents d + 256 * d_n d /\
    d' = d <| d_n := d_n d + 1 |> /\ kept h h' /\ diskpos h' = diskpos h /\
    cstr (hview h') out name /\ vld 4 (hview h') (out + 132) = FTYPE_REG /\
    unchanged (hview h) (hview h') (within out (out + 136))).
Proof.
  intros Hn Hc Hl. change MAXNAMELEN with 128 in Hl. unfold diradd. change sizeof_File with 256. cbv zeta.
  change (d_n (d <| d_n := d_n d + 1 |>)) with (d_n d + 1). rewrite Z.gtb_ltb.
  destruct (Z.ltb_spec MAX_DIR_ENTS (d_n d + 1)); [lia|]. set (out := d_ents d + 256 * d_n d).
  unfold hstrcpy. wsteps. wuse upd_list_ok; [by apply chars_bytes|]. rewrite length_app. cbn [length].
  intros _ h1 (Hk1 & Hp1 & _ & Hv1 & Hu1).
  wsteps. wuse hstore32_ok. intros _ h2 (Hk2 & Hp2 & Hv2 & Hu2). wsteps.
  split_and!; [done|done|by etrans|congruence| |done|].
  - assert (cstr (hview h1) out name) as Hc1.
    { intros i c Hi. pose proof (lookup_lt_Some _ _ _ Hi) as Hlt. rewrite length_app in Hlt. simpl in Hlt.
      rewrite Hv1 by lia. unfold byte_at. by rewrite Nat2Z.id, Hi. }
    eapply cstr_shift; [|exact Hc1]. intros i Hi. apply Hu2. unfold within. lia.
  - eapply unchanged_trans; [exact Hu1|exact Hu2|]. unfold within. lia.
Qed.

(** writefile puts the file at the next free block of the image, and its entry at the
    end of the directory. *)
Lemma writefile_ok h d name f c :
  let p := mkPlaced (last_elem name) (hf_data f) c in
  at_block h c -> p_end p < nblocks h -> positive_reads h -> h_files h !! name = Some f ->
  hf_stat f = true -> hf_reg f = true -> file_fits p -> 0 <= d_n d < MAX_DIR_ENTS -> ents_apart h (d_ents d) ->
  wp (writefile d name) h (fun d' h' => d' = d <| d_n := d_n d + 1 |> /\ kept h h' /\ at_block h' (p_end p) /\
    file_entry (hview h') (d_ents d + 256 * d_n d) p /\ data_ok (hview h') (diskmap h) p /\
    unchanged (hview h) (hview h') (fun a =>
      within (d_ents d + 256 * d_n d) (d_ents d + 256 * (d_n d + 1)) a \/
      within (diskmap h + 4096 * c) (diskmap h + 4096 * p_end p) a)).
Proof.
  intros p Hc Hroom Hpos Hf Hst Hreg (Hch & Hnl & Hby & Hsz) Hn Hap.
  pose proof (p_end_range p) as (Hnb & Hsz4 & Hend & H10). unfold p_end, p_ind in Hroom, Hend, H10.
  change (p_name p) with (last_elem name) in *. change (p_data p) with (hf_data f) in *.
  change (p_start p) with c in *. set (len := p_size p) in *. unfold ents_apart in Hap.
  change MAX_DIR_ENTS with 128 in *. change MAXFILESIZE with 4235264 in Hsz.
  unfold writefile. wsteps. rewrite Hf, Hst, Hreg. cbn [negb]. change (Z.of_nat (length (hf_data f))) with len.
  rewrite Z.geb_leb. change MAXFILESIZE with 4235264. destruct (Z.leb_spec 4235264 len); [lia|].
  assert (0 <= len) as Hlen0 by (unfold len, p_size; lia). rewrite (wrap_small 32) by lia.
  wsteps. wuse diradd_ok; [change MAX_DIR_ENTS with 128; lia|done|done|]. intros [out d'] h1 (-> & -> & Hk1 & Hp1 & Hc1 & Ht1 & Hu1).
  set (e := d_ents d + 256 * d_n d) in *. destruct (id Hc) as (Hpos0 & Hc0 & HN).
  assert (at_block h1 c) as Hb1.
  { split; [by rewrite Hp1, (kept_diskmap _ _ Hk1)|]. by rewrite (kept_nblocks _ _ Hk1). }
  wsteps. wuse alloc_ok; [exact Hb1|lia|rewrite (kept_nblocks _ _ Hk1); lia|].
  intros start h2 (-> & Hb2 & Hk2 & Hm2). assert (kept h h2) as Hk02 by by etrans.
  assert (hview h2 = hview h1) as Hv21 by (unfold hview; by rewrite Hm2). rewrite (kept_diskmap _ _ Hk1).
  wsteps. wuse fmt_readn_ok; [by apply (kept_reads _ _ Hk02)|done|done|lia|]. rewrite Hv21.
  intros _ h3 (Hk3 & Hp3 & Hv3 & Hu3). assert (kept h h3) as Hk03 by by etrans.
  assert (blockof (diskmap h + 4096 * c) h3 = c) as Hbo.
  { rewrite <- (kept_diskmap _ _ Hk03). apply blockof_ok. lia. }
  wsteps. rewrite Hbo. assert (at_block h3 (c + nblk len)) as Hb3.
  { destruct Hb2 as (Hb2 & Hb2' & _). split; [rewrite Hp3, Hb2, (kept_diskmap _ _ Hk03), (kept_diskmap _ _ Hk02); done|].
    rewrite (kept_nblocks _ _ Hk03), <- (kept_nblocks _ _ Hk02). rewrite (kept_nblocks _ _ Hk02) in *. lia. }
  wuse finishfile_ok; [exact Hb3|change MAXFILESIZE with 4235264; lia|lia|lia|rewrite (kept_nblocks _ _ Hk03); lia|..].
  { rewrite (kept_diskmap _ _ Hk03). lia. }
  rewrite (kept_diskmap _ _ Hk03). intros _ h4 (Hk4 & Hb4 & Hs4 & [Hd4 Hi4] & H176 & Hu4). wsteps.
  assert (forall i, 0 <= i < 136 -> ~ within (e + 128) (e + 132) (e + i) -> hview h4 (e + i) = hview h1 (e + i)) as Hkeep.
  { intros i Hi Hx. rewrite Hu4 by (unfold within in *; lia). apply Hu3. unfold within. lia. }
  split_and!; [done|by etrans|done|..].
  - split_and!; [|done| |exact Hd4|exact H176].
    + eapply cstr_shift; [|exact Hc1]. change (p_name p) with (last_elem name). intros i Hi.
      change MAXNAMELEN with 128 in Hnl. apply Hkeep; unfold within; lia.
    + rewrite <- Ht1. apply vld_shift. intros i Hi. rewrite <- !Z.add_assoc. apply Hkeep; unfold within; lia.
  - split; [|exact Hi4]. intros i Hi. fold len in Hi. change (p_start p) with c.
    rewrite Hu4 by (unfold within in *; lia). by apply Hv3.
  - intros a Ha. unfold within, p_end, p_ind in *. change (p_start p) with c in *. fold len in Ha.
    rewrite Hu4, Hu3, Hu1 by lia. done.
Qed.

(** The files of the command line, by path and bytes, one after the other. *)
Fixpoint layout (c : Z) (fs : list (list Z * list Z)) : list placed :=
  match fs with
  | [] => []
  | (path, data) :: fs' => let p := mkPlaced (last_elem path) data c in p :: layout (p_end p) fs'
  end.
Fixpoint layout_end (c : Z) (fs : list (list Z * list Z)) : Z :=
  match fs with
  | [] => c
  | (path, data) :: fs' => layout_end (p_end (mkPlaced (last_elem path) data c)) fs'
  end.
Definition given (h : host) (fl : list Z * list Z) : Prop := h_files h !! fl.1 = Some (mkHfile true true fl.2).

Lemma layout_length fs : forall c, length (layout c fs) = length fs.
Proof. induction fs as [|[path data] fs IH]; intros c; [done|]. simpl. by rewrite IH. Qed.
Lemma layout_end_ge fs : forall c, c <= layout_end c fs.
Proof.
  induction fs as [|[path data] fs IH]; intros c; cbn [layout_end]; [lia|].
  pose proof (p_end_range (mkPlaced (last_elem path) data c)) as (Hn & _ & He & _). unfold p_ind in He.
  simpl p_start in He. specialize (IH (p_end (mkPlaced (last_elem path) data c))). lia.
Qed.
Lemma layout_within fs : forall c p, p ∈ layout c fs -> c <= p_start p /\ p_end p <= layout_end c fs.
Proof.
  induction fs as [|[path data] fs IH]; intros c p; cbn [layout layout_end]; [by rewrite elem_of_nil|].
  set (q := mkPlaced (last_elem path) data c). rewrite elem_of_cons. intros [->|Hp].
  - split; [simpl; lia|]. apply layout_end_ge.
  - apply IH in Hp. pose proof (p_end_range q) as (Hn & _ & He & _). unfold p_ind in He.
    change (p_start q) with c in He. lia.
Qed.

Lemma writefiles_ok fs : forall h d c,
  at_block h c -> layout_end c fs < nblocks h -> positive_reads h -> Forall (given h) fs ->
  Forall file_fits (layout c fs) -> 0 <= d_n d -> d_n d + Z.of_nat (length fs) <= MAX_DIR_ENTS ->
  ents_apart h (d_ents d) ->
  wp (writefiles d (map fst fs)) h (fun d' h' => d' = d <| d_n := d_n d + Z.of_nat (length fs) |> /\
    kept h h' /\ at_block h' (layout_end c fs) /\
    (forall i p, layout c fs !! i = Some p ->
      file_entry (hview h') (d_ents d + 256 * (d_n d + Z.of_nat i)) p /\ data_ok (hview h') (diskmap h) p) /\
    unchanged (hview h) (hview h') (fun a =>
      within (d_ents d + 256 * d_n d) (d_ents d + 256 * (d_n d + Z.of_nat (length fs))) a \/
      within (diskmap h + 4096 * c) (diskmap h + 4096 * layout_end c fs) a)).
Proof.
  induction fs as [|[path data] fs IH]; intros h d c Hc Hroom Hpos Hg Hfit Hn Hn' Hap.
  { cbn [map writefiles layout layout_end length] in *. wsteps. split_and!; [|done|done|by intros ? ?|done].
    destruct d; cbn. unfold assign; cbn. f_equal. lia. }
  cbn [map writefiles layout layout_end length fst] in *. set (p := mkPlaced (last_elem path) data c) in *.
  inversion_clear Hg as [|? ? Hg1 Hg2]. inversion_clear Hfit as [|? ? Hfit1 Hfit2].
  pose proof (layout_end_ge fs (p_end p)) as Hge. pose proof (p_end_range p) as (Hnb & Hsz & Hend & H10).
  unfold p_ind in *. change (p_start p) with c in *. change MAX_DIR_ENTS with 128 in *.
  wsteps. wuse (writefile_ok h d path (mkHfile true true data) c); [done|change (p_end p < nblocks h); lia|done|exact Hg1|done|done|done|
    change MAX_DIR_ENTS with 128; lia|done|]. change (mkPlaced (last_elem path) (hf_data (mkHfile true true data)) c) with p.
  intros d1 h1 (-> & Hk1 & Hb1 & He1 & Hd1 & Hu1). set (d1 := d <| d_n := d_n d + 1 |>).
  change (d_ents d) with (d_ents d1) in *. assert (d_n d = d_n d1 - 1) as Hdn by (change (d_n d1) with (d_n d + 1); lia).
  wuse (IH h1 d1 (p_end p)).
  { done. }
  { rewrite (kept_nblocks _ _ Hk1). lia. }
  { by apply (kept_reads _ _ Hk1). }
  { eapply Forall_impl; [exact Hg2|]. intros fl. unfold given. by rewrite (kept_files _ _ Hk1). }
  { done. }
  { lia. }
  { change MAX_DIR_ENTS with 128. lia. }
  { unfold ents_apart in *. by rewrite (kept_diskmap _ _ Hk1), (kept_nblocks _ _ Hk1). }
  rewrite (kept_diskmap _ _ Hk1). intros d2 h2 (-> & Hk2 & Hb2 & Hin2 & Hu2). rewrite Hdn in *.
  assert (diskmap h + 4096 * c <= diskmap h + 4096 * p_end p) as Hce by lia. destruct (id Hc) as (_ & Hc0 & _).
  unfold ents_apart in Hap. change MAX_DIR_ENTS with 128 in *. split_and!.
  - subst d1. destruct d; cbn. unfold assign; cbn. f_equal. lia.
  - by etrans.
  - done.
  - intros [|i] q Hq.
    + injection Hq as <-. split.
      * eapply file_entry_shift; [done|exact He1|]. rewrite Z.add_0_r. intros i Hi. apply Hu2. unfold within. lia.
      * eapply data_ok_shift; [exact Hd1| |apply Hfit1]. change (p_start p) with c. intros i Hi. apply Hu2. unfold within. lia.
    + destruct (Hin2 i q Hq) as [He2 Hd2]. split; [|done].
      by replace (d_n d1 - 1 + Z.of_nat (S i)) with (d_n d1 + Z.of_nat i) by lia.
  - eapply unchanged_trans; [exact Hu1|exact Hu2|]. unfold within. lia.
Qed.

(** ** The image before and after the files *)
Definition calls_succeed (h : host) : Prop := 0 <= h_open h /\ 0 <= h_truncate h /\ h_mmap h <> -1 /\ 0 <= h_msync h.

(** The super block at [sb], but for the size and blocks of the root directory. *)
Definition super_ok (v : Z -> Z) (sb n : Z) : Prop :=
  vld 4 v sb = FS_MAGIC /\ vld 4 v (sb + 4) = n /\ vld 4 v (sb + 8 + 132) = FTYPE_DIR /\ cstr v (sb + 8) [0x2F].

Lemma upd_memset_ok h a c n :
  0 <= n ->
  wp (upd_mem (fun m => memset m a c n)) h (fun _ h' => kept h h' /\ diskpos h' = diskpos h /\
    h_reads h' = h_reads h /\ (forall b, within a (a + n) b -> hview h' b = u8 c) /\
    unchanged (hview h) (hview h') (within a (a + n))).
Proof.
  intros Hn. unfold upd_mem. wsteps. split_and!; [by split|done|done|..]; intros b Hb; rewrite hview_mem, ld8_memset by done.
  - by rewrite decide_True by exact Hb.
  - by rewrite decide_False by exact Hb.
Qed.

Lemma init_super_ok h sp n :
  0 <= n < 2 ^ 32 ->
  wp (init_super sp n) h (fun _ h' => kept h h' /\ diskpos h' = diskpos h /\ super_ok (hview h') sp n /\
    unchanged (hview h) (hview h') (within sp (sp + 4096))).
Proof.
  intros Hn. unfold init_super, hstrcpy.
  wsteps. wuse hstore32_ok. intros _ h1 (Hk1 & Hp1 & Hv1 & Hu1).
  wsteps. wuse hstore32_ok. intros _ h2 (Hk2 & Hp2 & Hv2 & Hu2).
  wsteps. wuse hstore32_ok. intros _ h3 (Hk3 & Hp3 & Hv3 & Hu3).
  wuse upd_list_ok; [repeat constructor; lia|]. intros _ h4 (Hk4 & Hp4 & _ & Hv4 & Hu4).
  change (Z.of_nat (length ([0x2F] ++ [0]))) with 2 in *. rewrite Z.mod_small in Hv2 by lia.
  split_and!; [etrans; [exact Hk1|]; etrans; [exact Hk2|]; by etrans|congruence|split_and!|].
  - rewrite (vld_unchanged _ _ _ 4 _ Hu4), (vld_unchanged _ _ _ 4 _ Hu3), (vld_unchanged _ _ _ 4 _ Hu2), Hv1 by (unfold within; lia).
    done.
  - rewrite (vld_unchanged _ _ _ 4 _ Hu4), (vld_unchanged _ _ _ 4 _ Hu3), Hv2 by (unfold within; lia). done.
  - rewrite (vld_unchanged _ _ _ 4 _ Hu4), Hv3 by (unfold within; lia). done.
  - rewrite cstr_cons, cstr_nil. split; [rewrite <- (Z.add_0_r (sp + 8))|]; by rewrite Hv4 by lia.
  - intros a Ha. unfold within in Ha. rewrite Hu4, Hu3, Hu2, Hu1 by (unfold within; lia). done.
Qed.

Lemma super_ok_keep v v' sb n : super_ok v sb n -> (forall i, 0 <= i < 8 + 136 -> ~ within 136 140 i -> v' (sb + i) = v (sb + i)) -> super_ok v' sb n.
Proof.
  intros (Hm & Hn & Ht & Hc) Hv. unfold within in Hv. split_and!.
  - rewrite <- Hm. apply vld_shift. intros i Hi. apply Hv; lia.
  - rewrite <- Hn. apply vld_shift. intros i Hi. rewrite <- !Z.add_assoc. apply Hv; lia.
  - rewrite <- Ht. apply vld_shift. intros i Hi. rewrite <- !Z.add_assoc. apply Hv; lia.
  - eapply cstr_shift; [|exact Hc]. intros i Hi. simpl in Hi. rewrite <- !Z.add_assoc. apply Hv; lia.
Qed.

(** What opendisk does not assign. *)
Record kept_env (h h' : host) : Prop := {
  ke_files : h_files h' = h_files h;
  ke_malloc : h_malloc h' = h_malloc h;
  ke_msync : h_msync h' = h_msync h;
  ke_nblocks : nblocks h' = nblocks h;
  ke_reads : positive_reads h -> positive_reads h'
}.
#[export] Instance kept_env_preorder : PreOrder kept_env.
Proof. split; [by split|]. intros h1 h2 h3 [] []. split; try congruence. auto. Qed.
Lemma kept_kept_env h h' : kept h h' -> kept_env h h'.
Proof. intros []. by split. Qed.
#[local] Hint Resolve kept_kept_env : core.

(** The image is mapped and the super block filled in: the program is at block 2. *)
Definition super_done (h h' : host) : Prop :=
  kept_env h h' /\ diskmap h' = h_mmap h /\ at_block h' 2 /\ h_super h' = h_mmap h + 4096 /\
  super_ok (hview h') (h_mmap h + 4096) (nblocks h) /\
  forall a, within (h_mmap h + 8192) (h_mmap h + 4096 * nblocks h) a -> hview h' a = 0.

Definition open_super (a n : Z) : H unit :=
  map_image a (u32 (n * BLKSIZE));;
  modify (fun h => h <| diskmap := a |>);;
  modify (fun h => h <| diskpos := a |>);;
  alloc BLKSIZE;;
  sp ← alloc BLKSIZE;
  modify (fun h => h <| h_super := sp |>);;
  init_super sp n.

Lemma open_super_ok h :
  3 < nblocks h <= 10240 -> wp (open_super (h_mmap h) (nblocks h)) h (fun _ h' => super_done h h').
Proof.
  intros HN. unfold open_super. wsteps. change BLKSIZE with 4096. rewrite (wrap_small 32) by lia.
  unfold map_image. wuse upd_memset_ok; [lia|]. intros _ h1 (Hk1 & _ & _ & Hv1 & _). change (u8 0) with 0 in Hv1.
  wsteps. set (h2 := h1 <| diskmap := h_mmap h |> <| diskpos := h_mmap h |>).
  assert (kept_env h h2) as Ke2 by (etrans; [by apply kept_kept_env|by split]).
  assert (at_block h2 0) as Hb2.
  { split; [change (h_mmap h = h_mmap h + 4096 * 0); lia|]. rewrite (ke_nblocks _ _ Ke2). lia. }
  wuse alloc_ok; [exact Hb2|lia|rewrite (ke_nblocks _ _ Ke2); change (nblk 4096) with 1; lia|]. change (0 + nblk 4096) with 1.
  intros r3 h3 (_ & Hb3 & Hk3 & Hm3). assert (kept_env h h3) as Ke3 by (etrans; [exact Ke2|auto]).
  wsteps. wuse alloc_ok; [exact Hb3|lia|rewrite (ke_nblocks _ _ Ke3); change (nblk 4096) with 1; lia|].
  change (1 + nblk 4096) with 2. intros sp h4 (-> & (Hb4 & Hb4') & Hk4 & Hm4).
  assert (kept_env h h4) as Ke4 by (etrans; [exact Ke3|auto]).
  assert (diskmap h4 = h_mmap h) as HD4 by (rewrite (kept_diskmap _ _ Hk4), (kept_diskmap _ _ Hk3); done).
  rewrite <- (kept_diskmap _ _ Hk4), HD4. replace (h_mmap h + 4096 * 1) with (h_mmap h + 4096) by lia.
  wsteps. set (h5 := h4 <| h_super := h_mmap h + 4096 |>). wuse init_super_ok; [lia|].
  change (hview h5) with (hview h4). assert (hview h4 = hview h1) as -> by (unfold hview; by rewrite Hm4, Hm3).
  intros _ h6 (Hk6 & Hp6 & Hs6 & Hu6).
  assert (kept_env h h6) as Ke6 by (etrans; [exact Ke4|]; transitivity h5; [by split|auto]).
  split_and!; [done|by rewrite (kept_diskmap _ _ Hk6)| |by rewrite (kept_super _ _ Hk6)|done|].
  - split; [rewrite Hp6, (kept_diskmap _ _ Hk6); exact Hb4|]. rewrite (ke_nblocks _ _ Ke6). lia.
  - intros a Ha. unfold within in *. rewrite Hu6 by lia. apply Hv1. lia.
Qed.

(** After opendisk the program is at block 3, past the super block and the bitmap. *)
Record disk_opened (h h' : host) : Prop := {
  op_env : kept_env h h';
  op_diskmap : diskmap h' = h_mmap h;
  op_at : at_block h' 3;
  op_super : h_super h' = h_mmap h + 4096;
  op_bitmap : h_bitmap h' = h_mmap h + 8192;
  op_super_ok : super_ok (hview h') (h_mmap h + 4096) (nblocks h);
  op_bits : forall a, within (h_mmap h + 8192) (h_mmap h + 12288) a -> hview h' a = 255;
  op_zero : forall a, within (h_mmap h + 12288) (h_mmap h + 4096 * nblocks h) a -> hview h' a = 0
}.

(** The rest of opendisk. *)
Definition open_bitmap (n : Z) : H unit :=
  let nbitblocks := (n + BLKBITSIZE - 1) / BLKBITSIZE in
  bm ← alloc (nbitblocks * BLKSIZE);
  modify (fun h => h <| h_bitmap := bm |>);;
  upd_mem (fun m => memset m bm 0xFF (nbitblocks * BLKSIZE)).

Lemma open_bitmap_ok h0 h :
  3 < nblocks h0 <= 10240 -> super_done h0 h -> wp (open_bitmap (nblocks h0)) h (fun _ h' => disk_opened h0 h').
Proof.
  intros HN (Ke & HD & Hb & Hsp & Hs & Hz). unfold open_bitmap.
  assert ((nblocks h0 + BLKBITSIZE - 1) / BLKBITSIZE = 1) as ->.
  { unfold BLKBITSIZE. change (BLKSIZE * 8) with 32768. Z.div_mod_to_equations. lia. }
  cbv zeta. change (1 * BLKSIZE) with 4096. wsteps.
  wuse alloc_ok; [exact Hb|lia|rewrite (ke_nblocks _ _ Ke); change (nblk 4096) with 1; lia|].
  change (2 + nblk 4096) with 3. rewrite HD. intros bm h1 (-> & (Hb1 & Hb1') & Hk1 & Hm1).
  replace (h_mmap h0 + 4096 * 2) with (h_mmap h0 + 8192) by lia.
  wsteps. set (h2 := h1 <| h_bitmap := h_mmap h0 + 8192 |>). wuse upd_memset_ok; [lia|].
  change (hview h2) with (hview h1). assert (hview h1 = hview h) as -> by (unfold hview; by rewrite Hm1).
  intros _ h3 (Hk3 & Hp3 & _ & Hv3 & Hu3). replace (h_mmap h0 + 8192 + 4096) with (h_mmap h0 + 12288) in * by lia.
  assert (kept_env h0 h3) as Ke3.
  { etrans; [exact Ke|]. etrans; [by apply kept_kept_env|]. transitivity h2; [by split|auto]. }
  assert (diskmap h3 = h_mmap h0) as HD3 by (rewrite (kept_diskmap _ _ Hk3), <- HD; apply Hk1).
  split; [done|done| | |by rewrite (kept_bitmap _ _ Hk3)| |exact Hv3|].
  - split; [rewrite Hp3, HD3, <- HD, <- (kept_diskmap _ _ Hk1); exact Hb1|]. rewrite (ke_nblocks _ _ Ke3). lia.
  - rewrite (kept_super _ _ Hk3), <- Hsp. apply Hk1.
  - eapply super_ok_keep; [exact Hs|]. intros i Hi _. apply Hu3. unfold within. lia.
  - intros a Ha. unfold within in Ha. rewrite Hu3 by (unfold within; lia). apply Hz. unfold within. lia.
Qed.

Lemma opendisk_ok h :
  calls_succeed h -> 3 < nblocks h <= 10240 -> wp opendisk h (fun _ h' => disk_opened h h').
Proof.
  intros (Ho & Ht & Hm & _) HN. unfold opendisk. wsteps. destruct (Z.ltb_spec (h_open h) 0); [lia|].
  wsteps. destruct (Z.ltb_spec (h_truncate h) 0); [lia|]. wsteps. destruct (Z.eqb_spec (h_mmap h) (-1)); [done|].
  apply wp_bind, wp_gets. eapply (wp_ext _ (open_super (h_mmap h) (nblocks h);; open_bitmap (nblocks h))).
  { unfold open_super, open_bitmap. unfold mbind, M_bind. by repeat (case_match; simplify_eq). }
  wsteps. wuse open_super_ok; [done|]. intros _ h1 H1. by apply open_bitmap_ok.
Qed.

(** ** The root directory and the bitmap *)
Lemma finishdir_ok h d c :
  at_block h c -> 1 <= d_n d <= MAX_DIR_ENTS -> c + nblk (256 * d_n d) < nblocks h -> ents_apart h (d_ents d) ->
  d_f d + 256 <= diskmap h + 4096 * c -> diskmap h <= d_f d ->
  wp (finishdir d) h (fun _ h' => kept h h' /\ at_block h' (c + nblk (256 * d_n d)) /\
    vld 4 (hview h') (d_f d + 128) = 4096 * nblk (256 * d_n d) /\
    (forall j, 0 <= j < nblk (256 * d_n d) -> vld 4 (hview h') (d_f d + 136 + 4 * j) = c + j) /\
    (forall i, 0 <= i < 256 * d_n d -> hview h' (diskmap h + 4096 * c + i) = hview h (d_ents d + i)) /\
    unchanged (hview h) (hview h') (fun a => within (d_f d + 128) (d_f d + 132) a \/
      within (d_f d + 136) (d_f d + 180) a \/ within (diskmap h + 4096 * c) (diskmap h + 4096 * c + 256 * d_n d) a)).
Proof.
  intros Hc Hn Hroom Hap Hf Hf0. change MAX_DIR_ENTS with 128 in Hn. unfold ents_apart in Hap.
  change MAX_DIR_ENTS with 128 in Hap. destruct (id Hc) as (_ & Hc0 & HN). pose proof (nblk_nonneg (256 * d_n d) ltac:(lia)) as Hnb.
  set (n := nblk (256 * d_n d)) in *. assert (n <= 8) as Hn8 by lia.
  assert (nblk (4096 * n) = n) as Hnn by (unfold nblk; Z.div_mod_to_equations; lia).
  assert (has_ind (4096 * n) = 0) as Hi0 by (unfold has_ind; rewrite Hnn; destruct (Z.leb_spec 10 n); lia).
  unfold finishdir. change sizeof_File with 256. rewrite (Z.mul_comm (d_n d)), swrap_small by lia. cbv zeta.
  rewrite FMT_ROUNDUP_i_ok by lia. fold n. rewrite !(wrap_small 32), (wrap_small 64) by lia.
  wsteps. wuse alloc_ok; [exact Hc|lia|done|]. fold n. intros st h1 (-> & Hb1 & Hk1 & Hm1).
  assert (hview h1 = hview h) as Hv1 by (unfold hview; by rewrite Hm1).
  unfold upd_mem. wsteps. set (h2 := h1 <| h_mem := _ |>).
  assert (forall a, hview h2 a = if decide (diskmap h + 4096 * c <= a < diskmap h + 4096 * c + 256 * d_n d)
    then hview h (d_ents d + (a - (diskmap h + 4096 * c))) else hview h a) as Hv2.
  { intros a. rewrite <- Hv1. apply memmove_copies. lia. }
  assert (blockof (diskmap h + 4096 * c) h2 = c) as ->.
  { change (blockof (diskmap h + 4096 * c) h1 = c). rewrite <- (kept_diskmap _ _ Hk1). apply blockof_ok. lia. }
  assert (kept h h2) as Hk2 by (etrans; [exact Hk1|by split]).
  wuse finishfile_ok; [exact Hb1|change MAXFILESIZE with 4235264; lia|lia|lia|..].
  { rewrite Hi0, (kept_nblocks _ _ Hk2). lia. }
  { rewrite (kept_diskmap _ _ Hk2). lia. }
  rewrite Hi0, Hnn, (kept_diskmap _ _ Hk2), !Z.add_0_r. intros _ h3 (Hk3 & Hb3 & Hs3 & [Hd3 _] & _ & Hu3).
  split_and!; [by etrans|done|done|intros j Hj; apply Hd3; lia|..].
  - intros i Hi. rewrite Hu3 by (unfold within; lia). rewrite Hv2, decide_True by lia. f_equal. lia.
  - intros a Ha. unfold within in Ha. rewrite Hu3, Hv2, decide_False by (unfold within; lia). done.
Qed.

Definition bit (v : Z -> Z) (bm b : Z) : bool := Z.testbit (vld 4 v (bm + 4 * (b / 32))) (b mod 32).

Lemma clear_bit w i k : 0 <= i < 32 -> 0 <= k < 32 -> 0 <= w < 2 ^ 32 ->
  0 <= Z.land w (u32 (Z.lnot (2 ^ i))) < 2 ^ 32 /\
  Z.testbit (Z.land w (u32 (Z.lnot (2 ^ i)))) k = Z.testbit w k && negb (k =? i).
Proof.
  intros Hi Hk Hw. assert (Z.land w (u32 (Z.lnot (2 ^ i))) = Z.ldiff w (2 ^ i)) as ->.
  { apply Z.bits_inj'. intros j Hj. rewrite Z.land_spec, Z.ldiff_spec. unfold wrap.
    destruct (Z.lt_ge_cases j 32).
    - rewrite Z.mod_pow2_bits_low, Z.lnot_spec by lia. done.
    - rewrite <- (Z.mod_small w (2 ^ 32)) by lia. rewrite !Z.mod_pow2_bits_high by lia. done. }
  split.
  - assert (Z.ldiff w (2 ^ i) = Z.ldiff w (2 ^ i) mod 2 ^ 32) as ->; [|by apply Z.mod_pos_bound].
    apply Z.bits_inj'. intros j Hj. destruct (Z.lt_ge_cases j 32); [by rewrite Z.mod_pow2_bits_low|].
    rewrite Z.mod_pow2_bits_high, Z.ldiff_spec by lia. rewrite <- (Z.mod_small w (2 ^ 32)) by lia.
    by rewrite Z.mod_pow2_bits_high by lia.
  - rewrite Z.ldiff_spec, Z.pow2_bits_eqb by lia. by rewrite (Z.eqb_sym i k).
Qed.

Lemma finishdisk_loop_ok n : forall h i,
  0 <= i -> i + Z.of_nat n <= 32768 ->
  wp (finishdisk_loop n i) h (fun _ h' => kept h h' /\
    (forall b, 0 <= b -> bit (hview h') (h_bitmap h) b = bit (hview h) (h_bitmap h) b && negb ((i <=? b) && (b <? i + Z.of_nat n))) /\
    unchanged (hview h) (hview h') (within (h_bitmap h) (h_bitmap h + 4096))).
Proof.
  induction n as [|n IH]; intros h i Hi Hn; cbn [finishdisk_loop].
  { wsteps. split_and!; [done| |done]. intros b Hb. destruct (Z.leb_spec i b), (Z.ltb_spec b (i + Z.of_nat 0)); try lia; by rewrite andb_true_r. }
  unfold hload32. wsteps. set (bm := h_bitmap h). set (w := ld32 (h_mem h) (bm + 4 * (i / 32))).
  assert (0 <= w < 2 ^ 32) as Hw by apply (ld_range 4).
  pose proof (Z.mod_pos_bound i 32 ltac:(lia)) as Him.
  wuse hstore32_ok. intros _ h1 (Hk1 & _ & Hv1 & Hu1). rewrite Z.mod_small in Hv1 by (apply (clear_bit w _ 0); lia).
  assert (forall b, 0 <= b -> bit (hview h1) bm b = bit (hview h) bm b && negb (b =? i)) as Hbit.
  { intros b Hb. unfold bit. pose proof (Z.mod_pos_bound b 32 ltac:(lia)). destruct (decide (b / 32 = i / 32)) as [E|E].
    - rewrite E, Hv1, (proj2 (clear_bit w (i mod 32) (b mod 32) Him ltac:(lia) Hw)). rewrite vld_hview. f_equal. f_equal.
      destruct (Z.eqb_spec b i), (Z.eqb_spec (b mod 32) (i mod 32)); try done; subst; Z.div_mod_to_equations; lia.
    - rewrite (vld_unchanged _ _ _ 4 _ Hu1) by (unfold within; lia). destruct (Z.eqb_spec b i); [congruence|]. by rewrite andb_true_r. }
  wuse (IH h1 (i + 1)); [lia|lia|]. rewrite (kept_bitmap _ _ Hk1). fold bm. intros _ h2 (Hk2 & Hb2 & Hu2).
  split_and!; [by etrans|..].
  - intros b Hb. rewrite Hb2, Hbit by done. rewrite <- andb_assoc. f_equal.
    destruct (Z.eqb_spec b i), (Z.leb_spec (i + 1) b), (Z.leb_spec i b), (Z.ltb_spec b (i + 1 + Z.of_nat n)),
      (Z.ltb_spec b (i + Z.of_nat (S n))); try done; lia.
  - eapply unchanged_trans; [exact Hu1|exact Hu2|]. unfold within. intros a [Ha|Ha]; [|done]. Z.div_mod_to_equations. lia.
Qed.

Lemma finishdisk_ok h c :
  at_block h c -> 0 <= h_msync h ->
  wp finishdisk h (fun _ h' => kept h h' /\
    (forall b, 0 <= b -> bit (hview h') (h_bitmap h) b = bit (hview h) (h_bitmap h) b && negb (b <? c)) /\
    unchanged (hview h) (hview h') (within (h_bitmap h) (h_bitmap h + 4096))).
Proof.
  intros (Hp & Hc & HN) Hs. unfold finishdisk. wsteps. rewrite Hp, blockof_ok by lia.
  wuse finishdisk_loop_ok; [lia|lia|]. rewrite Z2Nat.id by lia. intros _ h1 (Hk1 & Hb1 & Hu1).
  wsteps. rewrite (kept_msync _ _ Hk1). destruct (Z.ltb_spec (h_msync h) 0); [lia|]. wsteps.
  split_and!; [done| |done]. intros b Hb. rewrite Hb1 by done. f_equal. f_equal.
  destruct (Z.leb_spec 0 b); [|lia]. by rewrite Z.add_0_l.
Qed.

(** ** The whole image

    Block 1 is the super block, block 2 the bitmap; then the files, and the root
    directory. *)
Definition root_block (fs : list (list Z * list Z)) : Z := layout_end 3 fs.
Definition dir_blocks (fs : list (list Z * list Z)) : Z := nblk (256 * Z.of_nat (length fs)).

Record image_ok (v : Z -> Z) (base n : Z) (fs : list (list Z * list Z)) : Prop := {
  im_super : super_ok v (base + 4096) n;
  im_size : vld 4 v (base + 4096 + 8 + 128) = 4096 * dir_blocks fs;
  im_direct : forall j, 0 <= j < dir_blocks fs -> vld 4 v (base + 4096 + 8 + 136 + 4 * j) = root_block fs + j;
  im_bits : forall b, 0 <= b < 32768 -> bit v (base + 8192) b = negb (b <? root_block fs + dir_blocks fs);
  im_files : forall i p, layout 3 fs !! i = Some p ->
    file_entry v (base + 4096 * root_block fs + 256 * Z.of_nat i) p /\ data_ok v base p;
  im_rest : forall i, Z.of_nat (length fs) <= i < 16 * dir_blocks fs ->
    v (base + 4096 * root_block fs + 256 * i) = 0
}.

(** What fsformat is run on: the files exist and are regular, no read fails, names and
    sizes are those of a file system, and there is room. *)
Record input_ok (h : host) (n : Z) (fs : list (list Z * list Z)) : Prop := {
  in_calls : calls_succeed h;
  in_n : n <= 10240;
  in_reads : positive_reads h;
  in_given : Forall (given h) fs;
  in_fit : Forall file_fits (layout 3 fs);
  in_some : 1 <= Z.of_nat (length fs) <= MAX_DIR_ENTS;
  in_room : root_block fs + dir_blocks fs < n;
  in_apart : h_malloc h + 256 * MAX_DIR_ENTS <= h_mmap h \/ h_mmap h + 4096 * n <= h_malloc h
}.

Lemma bits_set v bm b : (forall a, within bm (bm + 4096) a -> v a = 255) -> 0 <= b < 32768 -> bit v bm b = true.
Proof.
  intros Hv Hb. unfold bit. assert (vld 4 v (bm + 4 * (b / 32)) = 2 ^ 32 - 1) as ->.
  { cbn [vld]. rewrite !Hv by (unfold within; Z.div_mod_to_equations; lia). done. }
  pose proof (Z.mod_pos_bound b 32 ltac:(lia)).
  replace (2 ^ 32 - 1) with (Z.ones 32) by done. apply Z.ones_spec_low. lia.
Qed.

Lemma bit_ext v v' bm b :
  (forall a, within bm (bm + 4096) a -> v' a = v a) -> 0 <= b < 32768 -> bit v' bm b = bit v bm b.
Proof. intros Hv Hb. unfold bit. f_equal. apply vld_ext. intros a Ha. apply Hv. unfold within. Z.div_mod_to_equations. lia. Qed.

Lemma root_block_ge fs : 3 <= root_block fs.
Proof. apply layout_end_ge. Qed.

(** What is left after the files are written: the directory and the bitmap. *)
Lemma finish_ok h0 h1 h n fs d :
  let D := h_mmap h0 in
  disk_opened h0 h1 -> nblocks h0 = n -> input_ok h0 n fs -> kept h1 h -> at_block h (root_block fs) ->
  d = mkDir (D + 4096 + 8) (h_malloc h0) (Z.of_nat (length fs)) ->
  (forall i p, layout 3 fs !! i = Some p ->
     file_entry (hview h) (h_malloc h0 + 256 * Z.of_nat i) p /\ data_ok (hview h) D p) ->
  unchanged (hview h1) (hview h) (fun a =>
    within (h_malloc h0) (h_malloc h0 + 256 * Z.of_nat (length fs)) a \/
    within (D + 4096 * 3) (D + 4096 * root_block fs) a) ->
  wp (finishdir d;; finishdisk) h (fun _ h' => kept h h' /\ image_ok (hview h') D n fs).
Proof.
  intros D [Ke HD _ _ Hbm Hsu Hbits Hz] Hn0 [(_ & _ & _ & Hms) HN _ _ Hfit Hsome Hroom Hap] Hk Hb -> Hin Hu. change (h_mmap h0) with D in HD, Hbm, Hsu, Hbits, Hz, Hap.
  pose proof (root_block_ge fs) as Hr3. pose proof (ke_nblocks _ _ Ke) as Hn1.
  assert (diskmap h = D) as HDh by (rewrite (kept_diskmap _ _ Hk); done).
  assert (nblocks h = n) as HNh by (rewrite (kept_nblocks _ _ Hk); congruence). change MAX_DIR_ENTS with 128 in *.
  wsteps. wuse finishdir_ok; cbn [d_n d_f d_ents].
  - exact Hb.
  - done.
  - fold (dir_blocks fs). lia.
  - unfold ents_apart. rewrite HDh, HNh. done.
  - lia.
  - lia.
  - rewrite HDh. fold (dir_blocks fs). intros _ h2 (Hk2 & Hb2 & Hs2 & Hd2 & Hv2 & Hu2).
    assert (kept h1 h2) as Hk12 by by etrans.
    wuse finishdisk_ok; [exact Hb2|rewrite (kept_msync _ _ Hk12), (ke_msync _ _ Ke); done|].
    rewrite (kept_bitmap _ _ Hk12), Hbm. intros _ h3 (Hk3 & Hb3 & Hu3). split; [by etrans|].
    set (R := root_block fs) in *. assert (0 <= 256 * Z.of_nat (length fs) <= 4096 * dir_blocks fs /\ dir_blocks fs <= 8) as [Hdb Hd8]
      by (pose proof (nblk_nonneg (256 * Z.of_nat (length fs)) ltac:(lia)) as Hx; unfold dir_blocks; lia).
    assert (forall a, D + 4096 * R <= a < D + 4096 * R + 4096 * dir_blocks fs -> hview h3 a = hview h2 a) as Hdirv
      by (intros a Ha; apply Hu3; unfold within; lia).
    split.
    + rewrite Hn0 in Hsu. eapply super_ok_keep; [exact Hsu|]. intros i Hi Hx. unfold within in *.
      rewrite Hu3, Hu2, Hu by lia. done.
    + rewrite (vld_unchanged _ _ _ 4 _ Hu3) by (unfold within; lia). exact Hs2.
    + intros j Hj. rewrite (vld_unchanged _ _ _ 4 _ Hu3) by (unfold within; lia). by apply Hd2.
    + intros b Hb'. rewrite Hb3 by lia. rewrite (bit_ext (hview h1)), (bits_set (hview h1)); [done| |lia| |lia].
      * intros a Ha. apply Hbits. unfold within in *. lia.
      * intros a Ha. unfold within in *. rewrite Hu2, Hu by lia. done.
    + intros i p Hp. destruct (Hin i p Hp) as [He Hd]. pose proof (lookup_lt_Some _ _ _ Hp) as Hlt.
      rewrite layout_length in Hlt. pose proof (proj1 (Forall_lookup _ _) Hfit i p Hp) as Hpf.
      apply list_elem_of_lookup_2 in Hp. apply layout_within in Hp as [Hps Hpe]. fold (root_block fs) in Hpe. fold R in Hpe. split.
      * eapply (file_entry_shift (hview h) _ (h_malloc h0 + 256 * Z.of_nat i)); [done|exact He|]. intros j Hj.
        rewrite Hdirv by lia. rewrite <- Z.add_assoc, Hv2 by lia. f_equal. lia.
      * eapply data_ok_shift; [exact Hd| |apply Hpf]. intros j Hj. unfold within in *. rewrite Hu3, Hu2 by lia. done.
    + intros i Hi. rewrite Hdirv by lia. unfold within in *. rewrite Hu2, Hu by lia. apply Hz. unfold within. lia.
Qed.

Lemma fmt_main_ok h prog img nb n fs :
  strtol0 nb = Some (n, []) -> input_ok h n fs ->
  wp (fmt_main (prog :: img :: nb :: map fst fs)) h (fun r h' =>
    r = 0 /\ diskmap h' = h_mmap h /\ image_ok (hview h') (h_mmap h) n fs).
Proof.
  intros Hnb Hin. unfold fmt_main. rewrite Hnb. pose proof (root_block_ge fs) as Hr3.
  pose proof (nblk_nonneg (256 * Z.of_nat (length fs)) ltac:(lia)) as Hd. fold (dir_blocks fs) in Hd.
  pose proof (in_n _ _ _ Hin) as HN. pose proof (in_room _ _ _ Hin) as Hroom. pose proof (in_some _ _ _ Hin) as Hsome.
  wsteps. rewrite wrap_small by lia. destruct (Z.ltb_spec n 2); [lia|]. rewrite Z.gtb_ltb.
  destruct (Z.ltb_spec 10240 n); [lia|]. cbn [orb]. set (h0 := h <| nblocks := n |>).
  assert (input_ok h0 n fs) as Hin0 by (destruct Hin; by split).
  wsteps. wuse opendisk_ok; [apply Hin0|change (nblocks h0) with n; lia|]. intros _ h1 Hop.
  destruct (id Hop) as [Ke HD Hat Hsp _ _ _ _]. change (h_mmap h0) with (h_mmap h) in *.
  pose proof (ke_nblocks _ _ Ke) as Hn1. change (nblocks h0) with n in Hn1.
  unfold startdir. wsteps. rewrite Hsp, (ke_malloc _ _ Ke). change (h_malloc h0) with (h_malloc h).
  wuse (writefiles_ok fs h1 _ 3); cbn [d_n d_ents].
  - done.
  - fold (root_block fs). lia.
  - apply Ke, Hin0.
  - eapply Forall_impl; [apply Hin0|]. intros fl. unfold given. by rewrite (ke_files _ _ Ke).
  - apply Hin0.
  - done.
  - lia.
  - unfold ents_apart. rewrite HD, Hn1. apply Hin0.
  - fold (root_block fs). rewrite HD, Z.mul_0_r, !Z.add_0_r. intros d h2 (Hd2 & Hk2 & Hb2 & Hin2 & Hu2).
    change ((mkDir (h_mmap h + 4096 + 8) (h_malloc h) 0) <| d_n := 0 + Z.of_nat (length fs) |>)
      with (mkDir (h_mmap h0 + 4096 + 8) (h_malloc h0) (Z.of_nat (length fs))) in Hd2.
    pose proof (finish_ok h0 h1 h2 n fs d Hop eq_refl Hin0 Hk2 Hb2 Hd2 Hin2 Hu2) as Hfin. clear Hd2.
    apply wp_elim in Hfin as (_u & h3 & Hrun & Hk3 & Him). unfold mbind, M_bind in Hrun.
    unfold wp, mbind, M_bind. destruct (finishdir d h2) as [[] h2'|]; [|done]. rewrite Hrun.
    split_and!; [done| |done]. rewrite (kept_diskmap _ _ Hk3), (kept_diskmap _ _ Hk2). done.
Qed.

(** The image at another place. *)
Lemma image_shift v v' base base' n fs :
  Forall file_fits (layout 3 fs) -> root_block fs + dir_blocks fs < n -> dir_blocks fs <= 8 -> 0 < Z.of_nat (length fs) ->
  image_ok v base n fs -> (forall i, 0 <= i < 4096 * n -> v' (base' + i) = v (base + i)) -> image_ok v' base' n fs.
Proof.
  intros Hfit Hroom Hd8 Hlen [Hs Hz Hd Hb Hf Hr] Hv. pose proof (root_block_ge fs) as Hr3.
  pose proof (nblk_nonneg (256 * Z.of_nat (length fs)) ltac:(lia)) as Hdb. fold (dir_blocks fs) in Hdb.
  assert (forall a a', a' - base' = a - base -> 0 <= a - base < 4096 * n -> v' a' = v a) as Hv1.
  { intros a a' Ha Hr'. specialize (Hv (a - base) ltac:(lia)).
    replace (base' + (a - base)) with a' in Hv by lia. by replace (base + (a - base)) with a in Hv by lia. }
  assert (forall a a' m, a' - base' = a - base -> 0 <= a - base -> a - base + Z.of_nat m <= 4096 * n ->
    vld m v' a' = vld m v a) as Hw by (intros; apply vld_shift; intros; apply Hv1; lia).
  split.
  - destruct Hs as (H1 & H2 & H3 & H4). split_and!.
    + rewrite <- H1. apply Hw; lia.
    + rewrite <- H2. apply Hw; lia.
    + rewrite <- H3. apply Hw; lia.
    + eapply cstr_shift; [|exact H4]. intros i Hi. simpl in Hi. apply Hv1; lia.
  - rewrite <- Hz. apply Hw; lia.
  - intros j Hj. rewrite <- (Hd j Hj). apply Hw; lia.
  - intros b Hb'. rewrite <- (Hb b Hb'). unfold bit. f_equal. apply Hw; Z.div_mod_to_equations; lia.
  - intros i p Hp. destruct (Hf i p Hp) as [He Hdt]. pose proof (lookup_lt_Some _ _ _ Hp) as Hlt.
    rewrite layout_length in Hlt. pose proof (proj1 (Forall_lookup _ _) Hfit i p Hp) as Hpf.
    apply list_elem_of_lookup_2 in Hp. apply layout_within in Hp as [Hps Hpe]. fold (root_block fs) in Hpe. split.
    + eapply file_entry_shift; [done|exact He|]. intros j Hj. rewrite <- !Z.add_assoc. apply Hv. lia.
    + eapply data_ok_shift; [exact Hdt| |apply Hpf]. intros j Hj. apply Hv. lia.
  - intros i Hi. rewrite <- (Hr i Hi). apply Hv1; lia.
Qed.

(** ** What goes wrong

    A read that fails goes unnoticed: its result is compared with zero as an unsigned
    number, and then it ends the loop.  The file in the image is then whatever the
    image held. *)
Lemma read_error_unnoticed h rs data out n :
  h_reads h = -1 :: rs -> 0 < n < 2 ^ 63 -> fmt_readn data out n h = Ret tt (h <| h_reads := rs |>).
Proof.
  intros Hr Hn. unfold fmt_readn. erewrite bind_Ret by done. rewrite Hr. cbn [length Nat.add fmt_readn_loop].
  destruct (Z.ltb_spec 0 n); [|lia].
  assert (host_read data (out + 0) (n - 0) h = Ret (-1, data) (h <| h_reads := rs |>)) as Hrd.
  { unfold host_read. erewrite bind_Ret by done. rewrite Hr. done. }
  erewrite bind_Ret by exact Hrd. replace (u64 (-1)) with (2 ^ 64 - 1) by done.
  destruct (Z.ltb_spec (2 ^ 64 - 1) 0); [lia|]. destruct (Z.eqb_spec (2 ^ 64 - 1) 0); [lia|].
  replace (u64 (0 + (2 ^ 64 - 1))) with (2 ^ 64 - 1) by done.
  assert (forall k, fmt_readn_loop k data out n (2 ^ 64 - 1) = mret tt) as ->; [|done].
  intros k. destruct k; cbn [fmt_readn_loop]; destruct (Z.ltb_spec (2 ^ 64 - 1) n); (lia || done).
Qed.

(** Without files the root directory gets one block that was not allocated, and which
    the bitmap marks as free: the rounding of 0 is a block in [int] and nothing in
    [uint32_t]. *)
Lemma empty_directory_block h d c :
  at_block h c -> c + 1 < nblocks h -> d_n d = 0 -> d_f d + 256 <= diskmap h + 4096 * c ->
  wp (finishdir d) h (fun _ h' => at_block h' c /\
    vld 4 (hview h') (d_f d + 128) = 4096 /\ vld 4 (hview h') (d_f d + 136) = c).
Proof.
  intros Hc Hroom Hn Hf. destruct (id Hc) as (_ & Hc0 & HN). unfold finishdir. rewrite Hn.
  change (i32 (0 * sizeof_File)) with 0. change (u32 (FMT_ROUNDUP_i 0 BLKSIZE)) with 4096. change (u32 0) with 0.
  wsteps. wuse alloc_ok; [exact Hc|done|change (nblk 0) with 0; lia|]. change (nblk 0) with 0. rewrite Z.add_0_r.
  intros st h1 (-> & Hb1 & Hk1 & Hm1). unfold upd_mem. wsteps. set (h2 := h1 <| h_mem := _ |>).
  assert (blockof (diskmap h + 4096 * c) h2 = c) as ->.
  { change (blockof (diskmap h + 4096 * c) h1 = c). rewrite <- (kept_diskmap _ _ Hk1). apply blockof_ok. lia. }
  assert (kept h h2) as Hk2 by (etrans; [exact Hk1|by split]).
  wuse finishfile_ok; [exact Hb1|done|lia|change (nblk 4096) with 1; lia|..].
  { change (has_ind 4096) with 0. rewrite (kept_nblocks _ _ Hk2). lia. }
  { rewrite (kept_diskmap _ _ Hk2). lia. }
  change (has_ind 4096) with 0. rewrite Z.add_0_r. intros _ h3 (_ & Hb3 & Hs3 & [Hd3 _] & _).
  split_and!; [done|done|]. specialize (Hd3 0 ltac:(done)). by rewrite Z.mul_0_r, !Z.add_0_r in Hd3.
Qed.
