(* ===== verification/ImageThms.v ===== *)
(** * The image of fsformat in the file server

    The file server accepts the image that fsformat writes, and opens and reads in it
    every file of the host under the last part of its path. *)
From S2P Require Import Prelude Mmu CMem Str BlockCache Bc BcSpec Fs FsSpec FileSpec DirSpec FsMain FsThms Fsformat FsformatThms.

(** ** The checks at the start of the server *)
Section checks.
Context {St : Type} {Ops : BlockCacheOps St} {BC : BlockCache St}.
Implicit Types s : St.

Lemma check_super_ok s :
  bok s -> vld 4 (bview s) (DISKMAP + BLKSIZE) = FS_MAGIC -> wp check_super s (fun _ s' => same s s').
Proof.
  intros Hok Hm. unfold check_super, s_magic. wsteps. rewrite (bok_super s Hok). wuse bload_ok; [done|..].
  { eapply in_use_usable; [apply reserved_super, bok_reserved, Hok|..]; unfold blkaddr; jlia. }
  rewrite Hm. intros m s1 [-> Hs1]. rewrite Z.eqb_refl. cbn [negb].
  wsteps. wuse s_nblocks_ok; [apply Hs1|]. intros n s2 [-> Hs2]. rewrite Z.gtb_ltb.
  destruct (Z.ltb_spec (DISKSIZE / BLKSIZE) (v_nblocks (bview s1))) as [Hx|_].
  { pose proof (bok_nblocks s1 ltac:(apply Hs1)). lia. }
  wsteps. by eapply same_then.
Qed.

Lemma check_bitmap_loop_ok fuel : forall s i,
  bok s -> 0 <= i -> i <= 24 -> (25 - i < Z.of_nat fuel) -> wp (check_bitmap_loop fuel i) s (fun _ s' => same s s').
Proof.
  induction fuel as [|fuel IH]; intros s i Hok Hi Hi' Hf; [lia|]. cbn [check_bitmap_loop].
  wsteps. wuse s_nblocks_ok; [done|]. intros n s1 [-> Hs1]. pose proof (bok_nblocks s Hok) as Hmax.
  change (DISKSIZE / BLKSIZE) with 786432 in Hmax. change BLKBITSIZE with 32768. rewrite (wrap_small 32 (i * 32768)) by lia.
  destruct (Z.ltb_spec (i * 32768) (v_nblocks (bview s))) as [Hlt|]; [|by wsteps].
  destruct (bok_reserved s Hok) as (_ & _ & Hr). destruct (Hr i Hi) as [H2 Hu]; [exact Hlt|].
  assert (forall a, bview s1 a = bview s a) as Hv1 by apply Hs1. rewrite wrap_small by lia.
  wsteps. wuse block_is_free_ok; [apply Hs1|rewrite (v_nblocks_ext _ _ Hv1); lia|]. intros r s2 [-> Hs2].
  rewrite (v_free_ext _ _ _ Hv1), Hu. cbn [negb fs_assert]. wsteps. assert (same s s2) as Hs by by eapply same_then.
  wuse (IH s2 (i + 1)); [apply Hs|lia|lia|lia|]. intros _ s3 Hs3. by eapply same_then.
Qed.

Lemma check_bitmap_ok s : bok s -> v_free (bview s) 0 = false -> wp check_bitmap s (fun _ s' => same s s').
Proof.
  intros Hok H0. unfold check_bitmap. wsteps. wuse check_bitmap_loop_ok; [done|lia|lia|done|]. intros _ s1 Hs1.
  destruct (bok_reserved s Hok) as (Hn & H1 & Hr). destruct (Hr 0 ltac:(lia)) as [H2 _]; [lia|].
  assert (forall a, bview s1 a = bview s a) as Hv1 by apply Hs1.
  wsteps. wuse block_is_free_ok; [apply Hs1|rewrite (v_nblocks_ext _ _ Hv1); lia|]. intros r s2 [-> Hs2].
  rewrite (v_free_ext _ _ _ Hv1), H0. cbn [negb fs_assert]. assert (same s s2) as Hs02 by by eapply same_then.
  assert (forall a, bview s2 a = bview s a) as Hv2 by apply Hs02.
  wsteps. wuse block_is_free_ok; [apply Hs02|rewrite (v_nblocks_ext _ _ Hv2); lia|]. intros r s3 [-> Hs3].
  rewrite (v_free_ext _ _ _ Hv2), H1. cbn [negb fs_assert]. wsteps. by eapply same_then.
Qed.
End checks.

(** ** An image as a disk *)
Definition names_ok (fs : list (list Z * list Z)) : Prop :=
  NoDup (map (fun fl => last_elem fl.1) fs) /\ Forall (fun fl => last_elem fl.1 <> []) fs.

Lemma layout_names fs : forall c i p, layout c fs !! i = Some p ->
  exists path data, fs !! i = Some (path, data) /\ p_name p = last_elem path /\ p_data p = data.
Proof.
  induction fs as [|[path data] fs IH]; intros c i p; [done|]. destruct i as [|i]; cbn [layout].
  - intros [= <-]. by exists path, data.
  - apply IH.
Qed.

Lemma last_elem_no_slash name : slash ∉ last_elem name.
Proof.
  induction name as [|c name IH]; cbn [last_elem]; [apply not_elem_of_nil|]. case_bool_decide as Hin; [done|].
  destruct (Z.eqb_spec c 0x2F); [exact Hin|]. rewrite not_elem_of_cons. split; [unfold slash; congruence|exact Hin].
Qed.

Section image.
Context (v : Z -> Z) (n : Z) (fs : list (list Z * list Z)).
Context (Him : image_ok v DISKMAP n fs) (Hn : n <= 10240) (Hlen : 1 <= Z.of_nat (length fs) <= MAX_DIR_ENTS)
  (Hroom : root_block fs + dir_blocks fs < n) (Hfit : Forall file_fits (layout 3 fs)).

Lemma dir_blocks_range : 0 < dir_blocks fs <= 8 /\ 256 * Z.of_nat (length fs) <= 4096 * dir_blocks fs.
Proof.
  change MAX_DIR_ENTS with 128 in Hlen. pose proof (nblk_nonneg (256 * Z.of_nat (length fs)) ltac:(lia)) as Hd.
  unfold dir_blocks. lia.
Qed.

Lemma image_nblocks : v_nblocks v = n.
Proof. apply (im_super _ _ _ _ Him). Qed.

Lemma image_free b : 0 <= b < n -> v_free v b = negb (b <? root_block fs + dir_blocks fs).
Proof. intros Hb. apply (im_bits _ _ _ _ Him). lia. Qed.

Lemma image_used b : 0 < b < root_block fs + dir_blocks fs -> in_use v b.
Proof.
  intros Hb. split; [rewrite image_nblocks; lia|]. rewrite image_free by lia.
  destruct (Z.ltb_spec b (root_block fs + dir_blocks fs)); [done|lia].
Qed.

Lemma image_reserved : reserved v.
Proof.
  pose proof (root_block_ge fs). pose proof dir_blocks_range. unfold reserved. rewrite image_nblocks.
  split_and!; [lia|apply image_used; lia|]. intros i Hi Hlt. unfold BLKBITSIZE in Hlt. change (BLKSIZE * 8) with 32768 in Hlt.
  assert (i = 0) as -> by lia. split; [lia|]. apply image_used. lia.
Qed.

Lemma root_size : f_size_of v root_file = 4096 * dir_blocks fs.
Proof.
  pose proof dir_blocks_range. unfold f_size_of, root_file. change BLKSIZE with 4096. rewrite (im_size _ _ _ _ Him).
  apply swrap_small; lia.
Qed.

Lemma root_blk j : 0 <= j < dir_blocks fs -> blk_of v root_file j = root_block fs + j.
Proof.
  intros Hj. pose proof dir_blocks_range. unfold blk_of, slot, f_direct. change NDIRECT with 10.
  destruct (Z.ltb_spec j 10); [|lia]. apply (im_direct _ _ _ _ Him). done.
Qed.

Lemma root_dir_at : dir_at v root_file.
Proof.
  pose proof dir_blocks_range as Hd. pose proof (root_block_ge fs). unfold dir_at. rewrite root_size. split_and!.
  - exists 1. split; [apply image_used; lia|]. unfold root_file, blkaddr. change BLKSIZE with 4096. lia.
  - lia.
  - rewrite Z.mul_comm. apply Z.mod_mul. lia.
  - intros j Hj. rewrite Z.mul_comm, Z.div_mul in Hj by lia. unfold present. rewrite root_blk by lia.
    change (NDIRECT + NINDIRECT) with 1034. change NDIRECT with 10. split_and!; [lia|lia|lia|apply image_used; lia].
Qed.

Lemma root_entry k : 0 <= k < 16 * dir_blocks fs -> dir_entry v root_file k = DISKMAP + 4096 * root_block fs + 256 * k.
Proof. intros Hk. unfold dir_entry. rewrite root_blk by (Z.div_mod_to_equations; lia). unfold blkaddr. Z.div_mod_to_equations. lia. Qed.

(** ** A file *)
Section file.
Context (i : nat) (p : placed) (Hp : layout 3 fs !! i = Some p).
Let f : Z := DISKMAP + 4096 * root_block fs + 256 * Z.of_nat i.

Lemma placed_facts : file_fits p /\ 3 <= p_start p /\ p_end p <= root_block fs /\ (i < length fs)%nat.
Proof.
  destruct (layout_within fs 3 p (list_elem_of_lookup_2 _ _ _ Hp)) as [Hs He].
  split_and!; [exact (proj1 (Forall_lookup _ _) Hfit i p Hp)|done|done|].
  pose proof (lookup_lt_Some _ _ _ Hp) as Hlt. by rewrite layout_length in Hlt.
Qed.

Lemma placed_file_at : file_at v f.
Proof.
  destruct placed_facts as (_ & _ & _ & Hi). pose proof dir_blocks_range as Hd. pose proof (root_block_ge fs).
  exists (root_block fs + Z.of_nat i / 16). split; [apply image_used; Z.div_mod_to_equations; lia|].
  unfold f, blkaddr. Z.div_mod_to_equations. lia.
Qed.

Lemma placed_size : f_size_of v f = p_size p.
Proof.
  destruct placed_facts as ((_ & _ & _ & Hs) & _). destruct (im_files _ _ _ _ Him i p Hp) as [(_ & Hsz & _) _].
  unfold f_size_of, f. rewrite Hsz. change MAXFILESIZE with 4235264 in Hs. unfold p_size in *. apply swrap_small; lia.
Qed.

Lemma placed_blk j : 0 <= j < nblk (p_size p) -> blk_of v f j = p_start p + j /\ present v f j.
Proof.
  intros Hj. destruct placed_facts as ((_ & _ & _ & Hs) & H3 & He & _). pose proof (p_end_range p) as (Hnb & Hsz & Hpe & H10).
  destruct (im_files _ _ _ _ Him i p Hp) as [(_ & _ & _ & Hd & Hi) [_ Hdi]]. pose proof dir_blocks_range.
  change MAXFILESIZE with 4235264 in Hs. unfold p_ind in *.
  assert (10 <= j -> f_indirect_of v f = p_start p + nblk (p_size p)) as Hind by (intros; apply Hi; lia).
  assert (blk_of v f j = p_start p + j) as Hb.
  { unfold blk_of, slot, f_direct. change NDIRECT with 10. destruct (Z.ltb_spec j 10) as [Hlt|Hge].
    - apply Hd. lia.
    - rewrite Hind by done. specialize (Hdi j ltac:(lia)). rewrite <- Hdi. unfold p_ind, blkaddr. f_equal. lia. }
  split; [done|]. unfold present. rewrite Hb. change (NDIRECT + NINDIRECT) with 1034. change NDIRECT with 10.
  split_and!; [lia|lia| |apply image_used; lia]. intros H10'. rewrite Hind by done. apply image_used. lia.
Qed.

Lemma placed_byte q : 0 <= q < p_size p -> present v f (q / 4096) /\ v (file_addr v f q) = byte_at (p_data p) q.
Proof.
  intros Hq. pose proof (p_end_range p) as (Hnb & Hsz & _). destruct (placed_blk (q / 4096)) as [Hb Hpr].
  { split; [Z.div_mod_to_equations; lia|]. apply Z.div_lt_upper_bound; lia. }
  split; [done|]. destruct (im_files _ _ _ _ Him i p Hp) as [_ [Hd _]]. rewrite <- Hd by done.
  unfold file_addr, blkaddr. rewrite Hb. f_equal. Z.div_mod_to_equations. lia.
Qed.

(** The entry with the name of the file is that of the file. *)
Lemma placed_found k :
  names_ok fs -> 0 <= k < 16 * dir_blocks fs -> cstr v (dir_entry v root_file k) (p_name p) -> k = Z.of_nat i.
Proof.
  intros [Hnd Hne] Hk Hc. rewrite root_entry in Hc by done. destruct placed_facts as ((Hch & _) & _).
  destruct (layout_names fs 3 i p Hp) as (path & data & Hfs & Hname & _).
  destruct (Z.lt_ge_cases k (Z.of_nat (length fs))) as [Hlt|Hge].
  - destruct (lookup_lt_is_Some_2 (layout 3 fs) (Z.to_nat k)) as [q Hq]; [rewrite layout_length; lia|].
    destruct (im_files _ _ _ _ Him _ _ Hq) as [(Hcq & _) _]. rewrite Z2Nat.id in Hcq by lia.
    destruct (proj1 (Forall_lookup _ _) Hfit _ _ Hq) as (Hchq & _).
    pose proof (cstr_inj _ _ _ _ Hchq Hch Hcq Hc) as He. destruct (layout_names fs 3 _ q Hq) as (path' & data' & Hfs' & Hname' & _).
    assert (Z.to_nat k = i) as Hki; [|lia]. apply (NoDup_lookup _ _ _ (p_name p) Hnd); rewrite list_lookup_fmap.
    + rewrite Hfs'. simpl. congruence.
    + rewrite Hfs. simpl. congruence.
  - exfalso. pose proof (im_rest _ _ _ _ Him k ltac:(lia)) as Hz. rewrite <- cstr_nil in Hz.
    pose proof (cstr_inj _ _ _ _ Hch (Forall_nil_2 _) Hc Hz) as Hnil.
    apply (proj1 (Forall_lookup _ _) Hne i _ Hfs). simpl. congruence.
Qed.
End file.
End image.

(** ** The theorem *)
Section readable.
Context {St : Type} {Ops : BlockCacheOps St} {BC : BlockCache St}.

(** The server has the image on its disk. *)
Definition holds_image (s : St) (h : host) (n : Z) : Prop :=
  forall i, 0 <= i < 4096 * n -> bview s (DISKMAP + i) = hview h (diskmap h + i).

(** Opening a file and reading from it. *)
Definition open_and_read (name : list Z) (buf count offset : Z) : M St fstop Z :=
  r ← file_open (slash :: name);
  match r with
  | (_, Some f) => file_read f buf count offset
  | (r, None) => mret r
  end.

(** file_open finds the file. *)
Lemma open_placed (s : St) n fs i p path data :
  image_ok (bview s) DISKMAP n fs -> n <= 10240 -> 1 <= Z.of_nat (length fs) <= MAX_DIR_ENTS ->
  root_block fs + dir_blocks fs < n -> Forall file_fits (layout 3 fs) -> names_ok fs ->
  bok s -> fs !! i = Some (path, data) -> layout 3 fs !! i = Some p ->
  wp (file_open (slash :: last_elem path)) s (fun r s' =>
    r = (0, Some (DISKMAP + 4096 * root_block fs + 256 * Z.of_nat i)) /\ same s s').
Proof.
  intros Him Hn Hlen Hroom Hfit Hnames Hok Hi Hp.
  destruct (layout_names fs 3 i p Hp) as (path' & data' & Hi' & Hname & Hdata). rewrite Hi in Hi'. injection Hi' as <- <-.
  destruct (placed_facts fs Hfit i p Hp) as ((Hch & Hnl & _) & _ & _ & Hlt).
  pose proof (root_dir_at _ _ _ Him Hn Hlen Hroom) as Hdir. pose proof (dir_blocks_range fs Hlen) as Hdb.
  assert (dir_entries (bview s) root_file = 16 * dir_blocks fs) as Hent.
  { unfold dir_entries. rewrite (root_size _ _ _ Him Hlen). Z.div_mod_to_equations. lia. }
  wuse file_open_ok; [done| | |apply last_elem_no_slash| |done| |].
  { by rewrite <- Hname. }
  { destruct Hnames as [_ Hne]. apply (proj1 (Forall_lookup _ _) Hne i _ Hi). }
  { by rewrite <- Hname. }
  { apply (im_super _ _ _ _ Him). }
  rewrite <- Hname. intros r s1 [Hr Hs1]. split; [|exact Hs1].
  destruct Hr as [(k & (Hk & Hck & _) & Hkl & ->)|[-> Hno]].
  2:{ exfalso. apply (Hno (Z.of_nat i)); [lia|]. rewrite (root_entry _ _ _ Him Hlen) by lia. apply (im_files _ _ _ _ Him i p Hp). }
  assert (k = Z.of_nat i) as -> by (eapply placed_found; [done|exact Hlen|done|exact Hp|done| |exact Hck]; lia).
  by rewrite (root_entry _ _ _ Him Hlen) by lia.
Qed.

Lemma open_and_read_ok (s : St) n fs path data buf count offset :
  let m := Z.max 0 (Z.min count (Z.of_nat (length data) - offset)) in
  image_ok (bview s) DISKMAP n fs -> n <= 10240 -> 1 <= Z.of_nat (length fs) <= MAX_DIR_ENTS ->
  root_block fs + dir_blocks fs < n -> Forall file_fits (layout 3 fs) -> names_ok fs ->
  bok s -> (path, data) ∈ fs -> 0 <= offset -> 0 <= count < 2 ^ 64 -> own_range s buf m ->
  wp (open_and_read (last_elem path) buf count offset) s (fun r s' => r = m /\ bok s' /\
    (forall i, 0 <= i < m -> bview s' (buf + i) = byte_at data (offset + i)) /\
    forall a, ~ (buf <= a < buf + m) -> bview s' a = bview s a).
Proof.
  intros m Him Hn Hlen Hroom Hfit Hnames Hok Hin Hoff Hcnt Hown. apply list_elem_of_lookup_1 in Hin as [i Hi].
  destruct (lookup_lt_is_Some_2 (layout 3 fs) i) as [p Hp]; [rewrite layout_length; by eapply lookup_lt_Some|].
  destruct (layout_names fs 3 i p Hp) as (path' & data' & Hi' & Hname & Hdata). rewrite Hi in Hi'. injection Hi' as <- <-.
  pose proof (dir_blocks_range fs Hlen) as Hdb.
  unfold open_and_read. wsteps. wuse (open_placed s n fs i p path data); [done..|].
  intros r s1 [-> Hs1]. assert (forall a, bview s1 a = bview s a) as Hv1 by apply Hs1.
  set (f := DISKMAP + 4096 * root_block fs + 256 * Z.of_nat i).
  assert (image_ok (bview s1) DISKMAP n fs) as Him1
    by (apply (image_shift (bview s) _ DISKMAP); [done|lia|lia|lia|done|intros; apply Hv1]).
  pose proof (placed_file_at _ _ _ Him1 Hn Hlen Hroom Hfit i p Hp) as Hfa. fold f in Hfa.
  pose proof (placed_size _ _ _ Him1 Hfit i p Hp) as Hsz. fold f in Hsz. unfold p_size in Hsz. rewrite Hdata in Hsz.
  destruct (Z.lt_ge_cases offset (Z.of_nat (length data))) as [Hlo|Hhi].
  - assert (m = Z.min count (f_size_of (bview s1) f - offset)) as Hm by (rewrite Hsz; lia).
    wuse file_read_ok; [apply Hs1|done|lia|done| | |].
    { rewrite <- Hm. by eapply own_range_step. }
    { intros q Hq. eapply placed_byte; try done. unfold p_size. rewrite Hdata. lia. }
    rewrite <- Hm. intros r s2 [-> (Ho2 & Hv2 & _)]. split_and!; [done|done|..].
    + intros j Hj. rewrite Hv2. unfold v_read. rewrite decide_True by lia. replace (buf + j - buf) with j by lia.
      rewrite <- Hdata. eapply placed_byte; try done. unfold p_size. rewrite Hdata. lia.
    + intros a Ha. rewrite Hv2. unfold v_read. by rewrite decide_False by done.
  - unfold file_read. wsteps. wuse f_size_ok; [apply Hs1|done|]. rewrite Hsz. intros z s2 [-> Hs2]. rewrite Z.geb_leb.
    destruct (Z.leb_spec (Z.of_nat (length data)) offset); [|lia]. wsteps.
    split_and!; [lia|apply Hs2|lia|]. intros a _. destruct Hs2 as (_ & -> & _). apply Hv1.
Qed.

(** The checks at the start of the server, on the image. *)
Lemma image_accepted (s : St) n fs :
  bok s -> image_ok (bview s) DISKMAP n fs -> n <= 10240 -> 1 <= Z.of_nat (length fs) <= MAX_DIR_ENTS ->
  root_block fs + dir_blocks fs < n -> wp (check_super;; check_bitmap) s (fun _ s' => same s s').
Proof.
  intros Hok Him Hn Hlen Hroom. pose proof (dir_blocks_range fs Hlen) as Hdb. pose proof (root_block_ge fs) as Hr3.
  wsteps. wuse check_super_ok; [done|apply (im_super _ _ _ _ Him)|]. intros _ s1 Hs1.
  wuse check_bitmap_ok; [apply Hs1| |].
  - rewrite (v_free_ext _ (bview s)) by apply Hs1. rewrite (image_free _ _ _ Him) by lia.
    by destruct (Z.ltb_spec 0 (root_block fs + dir_blocks fs)); [|lia].
  - intros _ s2 Hs2. by eapply same_then.
Qed.
End readable.

(** The server when fs_init comes to its checks, on a disk of [n] blocks: the pointers are
    set, and the block cache has some blocks of the disk in memory, the super block at
    least, unchanged where they are not marked dirty, and enough memory for the others.
    Nothing is said of what the blocks hold. *)
Record cache_ready (s : FsState) (n : Z) : Prop := {
  cr_super : super_ s = DISKMAP + BLKSIZE;
  cr_bitmap : bitmap_ s = DISKMAP + 2 * BLKSIZE;
  cr_map k e : fpte s !! k = Some e -> in_region k -> k < 0x10000 + n /\ pte_allows true e = true;
  cr_b1 : is_Some (fpte s !! 0x10001);
  cr_frames : n <= Z.of_nat (size (mapped_blocks s)) + frames s;
  cr_bad : bad_sectors s = ∅;
  cr_drive : is_Some (disks s !! Z.land (diskno s) 1);
  cr_sel : is_Some (disks s !! ide_drive s);
  cr_clean k e a : fpte s !! k = Some e -> in_region k -> Z.land e PTE_D = 0 -> a / 4096 = k ->
    ld8 (fmem s) a = bc_disk s a
}.

Lemma cache_ready_ok s n fs :
  cache_ready s n -> image_ok (bc_view s) DISKMAP n fs -> n <= 10240 -> 1 <= Z.of_nat (length fs) <= MAX_DIR_ENTS ->
  root_block fs + dir_blocks fs < n -> bc_ok s.
Proof.
  intros [? ? ? ? ? ? ? ? ?] Him Hn Hlen Hroom. pose proof (image_nblocks _ _ _ Him) as En.
  split; rewrite ?En; try done; [|lia]. by apply (image_reserved _ _ _ Him).
Qed.

(** C14: fsformat, run on files that it can read (input_ok: at least one and at most 128 of
    them, with names of fewer than 128 characters, each shorter than MAXFILESIZE, and all
    fitting with their directory on the disk of [n] <= 10240 blocks; no call to the host
    fails) and whose paths end in
    different, non-empty names (names_ok), succeeds; and a file server that has the image
    on its disk, in whatever state its block cache is, passes check_super and
    check_bitmap and then finds every file of the command line: opening the last part of
    its path and reading [count] bytes at any offset delivers the bytes of the host's
    file, up to its end. *)
Theorem fsformat_readable h prog img nb n fs :
  strtol0 nb = Some (n, []) -> input_ok h n fs -> names_ok fs ->
  wp (fmt_main (prog :: img :: nb :: map fst fs)) h (fun r h' => r = 0 /\
    forall s : FsState, cache_ready s n -> holds_image s h' n ->
      wp (check_super;; check_bitmap) s (fun _ s1 => same s s1 /\
        forall path data buf count offset,
          let m := Z.max 0 (Z.min count (Z.of_nat (length data) - offset)) in
          (path, data) ∈ fs -> 0 <= offset -> 0 <= count < 2 ^ 64 -> own_range s buf m ->
          wp (open_and_read (last_elem path) buf count offset) s1 (fun r s' => r = m /\
            (forall i, 0 <= i < m -> bview s' (buf + i) = byte_at data (offset + i)) /\
            forall a, ~ (buf <= a < buf + m) -> bview s' a = bview s a))).
Proof.
  intros Hnb Hin Hnames. wuse fmt_main_ok; [done..|]. intros r h' (-> & HD & Him). split; [done|].
  intros s Hready Hs. unfold holds_image in Hs. rewrite HD in Hs. destruct Hin as [_ Hn _ _ Hfit Hlen Hroom _].
  pose proof (dir_blocks_range fs Hlen) as Hdb. pose proof (root_block_ge fs) as Hr3.
  assert (image_ok (bview s) DISKMAP n fs) as Him' by (eapply image_shift; [done|done|lia|lia|exact Him|exact Hs]).
  pose proof (cache_ready_ok s n fs Hready Him' Hn Hlen Hroom) as Hok.
  wuse (image_accepted s n fs); [done..|]. intros _ s1 Hs1. split; [exact Hs1|].
  intros path data buf count offset m Hpath Hoff Hcnt Hown. assert (forall a, bview s1 a = bview s a) as Hv1 by apply Hs1.
  assert (image_ok (bview s1) DISKMAP n fs) as Him1
    by (apply (image_shift (bview s) _ DISKMAP); [done|lia|lia|lia|done|intros; apply Hv1]).
  wuse (open_and_read_ok s1 n fs path data); [done..|apply Hs1|done|done|done|by eapply own_range_step|].
  intros r s2 (-> & _ & Hb & Hrest). split_and!; [done|done|]. intros a Ha. by rewrite Hrest, Hv1.
Qed.

(** ** A run

    Two files, one of them in a directory of the host, and an image of eight blocks
    that is read in pieces of at most one byte at first. *)
Definition demo_files : list (list Z * list Z) := [([0x68; 0x69], [0x48; 0x69]); ([0x62; 0x2F; 0x78], [7])].
Definition demo_host : host := {|
  h_files := list_to_map (map (fun fl => (fl.1, mkHfile true true fl.2)) demo_files);
  h_reads := [1]; h_open := 3; h_truncate := 0; h_mmap := 0; h_malloc := 0x100000; h_msync := 0;
  h_mem := st32 ∅ (0x100000 + 140) 0x99; nblocks := 0; diskmap := 0; diskpos := 0; h_super := 0; h_bitmap := 0 |}.
Lemma demo_input : input_ok demo_host 8 demo_files.
Proof.
  split; [by repeat split|done|by repeat constructor|by repeat constructor| |done|done|by right].
  apply Forall_forall. intros p Hp. cbn [layout demo_files] in Hp.
  rewrite !elem_of_cons, elem_of_nil in Hp. destruct Hp as [->|[->|[]]]; split_and!; by repeat constructor.
Qed.

Lemma demo_files_names : names_ok demo_files.
Proof. split; [|by repeat constructor]. by apply (bool_decide_unpack _). Qed.

(** A server that has just started on a disk: the super block is in memory, and the
    page at 0x800000 is the server's own. *)
Definition server_ptes : gmap Z Z := {[ 0x10001 := 0x67; 0x800 := 7 ]}.
Definition server_on (disk : bytes) : FsState := {|
  fmem := foldr (fun i m => st8 m (DISKMAP + i) (ld8 disk i)) ∅ (seqZ 4096 4096);
  fpte := server_ptes; frames := 64;
  disks := {[ 1 := disk ]}; bad_sectors := ∅; float_bus := 0x40; diskno := 1;
  ide_regs := {[ 0x1F6 := 0xF0 ]}; ide_cur := 0; super_ := DISKMAP + 4096; bitmap_ := DISKMAP + 2 * 4096;
  opentab := ∅; shared := ∅ |}.

Lemma server_ptes_only k e : server_ptes !! k = Some e -> (k = 0x10001 /\ e = 0x67) \/ (k = 0x800 /\ e = 7).
Proof. unfold server_ptes. rewrite lookup_insert_Some, lookup_singleton_Some. naive_solver. Qed.

Lemma ld8_copied disk l a :
  ld8 (foldr (fun i m => st8 m (DISKMAP + i) (ld8 disk i)) ∅ l) a =
  if decide (a - DISKMAP ∈ l) then ld8 disk (a - DISKMAP) else 0.
Proof.
  induction l as [|i l IH]; [done|]. cbn [foldr]. rewrite ld8_st8, IH.
  destruct (decide (DISKMAP + i = a)) as [<-|Hne].
  - replace (DISKMAP + i - DISKMAP) with i by lia. rewrite decide_True by (by left).
    apply wrap_small. apply ld8_range.
  - destruct (decide (a - DISKMAP ∈ l)); [by rewrite decide_True by (by right)|].
    rewrite decide_False; [done|]. rewrite not_elem_of_cons. split; [lia|done].
Qed.

Section server_on.
Context (disk : bytes).
Let s : FsState := server_on disk.

Lemma server_view i : 0 <= i < DISKSIZE -> bc_view s (DISKMAP + i) = ld8 disk i.
Proof.
  intros Hi. unfold bc_view, va_is_mapped, pte_of_va. rewrite PPN_div. change (fpte s) with server_ptes.
  assert ((DISKMAP + i) / 4096 = 0x10000 + i / 4096) as Hk by (unfold DISKMAP; Z.div_mod_to_equations; lia).
  rewrite Hk. destruct (decide (i / 4096 = 1)) as [E|E].
  - rewrite E. change (fmem s) with (fmem (server_on disk)). unfold server_on. cbn [fmem]. rewrite ld8_copied.
    replace (DISKMAP + i - DISKMAP) with i by lia. rewrite decide_True; [done|]. apply elem_of_seqZ.
    Z.div_mod_to_equations. lia.
  - assert (server_ptes !! (0x10000 + i / 4096) = None) as ->.
    { destruct (server_ptes !! _) eqn:He; [|done]. apply server_ptes_only in He. Z.div_mod_to_equations. lia. }
    cbn. rewrite decide_True by (unfold in_region, DISKSIZE in *; Z.div_mod_to_equations; lia).
    unfold bc_disk. by replace (DISKMAP + i - DISKMAP) with i by lia.
Qed.

Lemma server_on_ready n : 1 < n <= 64 -> cache_ready s n.
Proof.
  intros Hn. split.
  - reflexivity.
  - reflexivity.
  - intros k e [[-> ->]|[-> ->]]%server_ptes_only Hk; [|unfold in_region in Hk; lia]. split; [lia|done].
  - exists 0x67. reflexivity.
  - change (frames s) with 64. lia.
  - reflexivity.
  - exists disk. reflexivity.
  - exists disk. reflexivity.
  - intros k e a [[-> ->]|[-> ->]]%server_ptes_only Hk Hd; [discriminate Hd|unfold in_region in Hk; lia].
Qed.

Lemma server_on_ok n :
  reserved (bc_view s) -> v_nblocks (bc_view s) = n -> 1 < n <= 64 -> bc_ok s.
Proof.
  intros Hr Hv Hn. destruct (server_on_ready n Hn) as [H1 H2 H3 H4 H5 H6 H7 H8 H9].
  split; [exact H1|exact H2|exact Hr|lia|rewrite Hv; exact H3|exact H4|rewrite Hv; exact H5|exact H6|exact H7|exact H8|exact H9].
Qed.

Lemma server_on_own i : 0 <= i < 4096 -> bc_own s (0x800000 + i).
Proof.
  intros Hi. assert ((0x800000 + i) / 4096 = 0x800) as Hk by (Z.div_mod_to_equations; lia).
  split; [rewrite Hk; unfold in_region; lia|]. unfold pte_of_va. rewrite PPN_div, Hk. done.
Qed.
End server_on.

Lemma wp_and {S E A} (m : M S E A) s (P Q : A -> S -> Prop) :
  wp m s P -> wp m s Q -> wp m s (fun a s' => P a s' /\ Q a s').
Proof. unfold wp. by destruct (m s). Qed.

Lemma fsformat_readable_witness :
  wp (fmt_main ([] :: [] :: [0x38] :: map fst demo_files)) demo_host (fun r h' => r = 0 /\
    wp (check_super;; check_bitmap;; open_and_read [0x68; 0x69] 0x800000 10 0) (server_on (h_mem h')) (fun r s' =>
      r = 2 /\ bc_view s' 0x800000 = 0x48 /\ bc_view s' 0x800001 = 0x69)).
Proof.
  assert (strtol0 [0x38] = Some (8, [])) as Hnb by (vm_compute; reflexivity).
  pose proof (fsformat_readable demo_host [] [] [0x38] 8 demo_files Hnb demo_input demo_files_names) as Hw.
  pose proof (fmt_main_ok demo_host [] [] [0x38] 8 demo_files Hnb demo_input) as Him.
  eapply wp_mono; [exact (wp_and _ _ _ _ Hw Him)|]. clear Hw Him. cbn beta.
  intros r h' [[-> Hs] (_ & HD & _)]. split; [reflexivity|]. change (h_mmap demo_host) with 0 in HD.
  apply wp_bind_assoc, wp_bind. eapply wp_mono.
  - apply (Hs (server_on (h_mem h')) (server_on_ready _ 8 ltac:(lia))).
    intros i Hi. rewrite HD. apply server_view. unfold DISKSIZE. lia.
  - intros _ s1 [_ Hread]. eapply wp_mono; [apply (Hread [0x68; 0x69] [0x48; 0x69] 0x800000 10 0)|].
    + constructor.
    + lia.
    + lia.
    + intros i Hi. apply server_on_own. simpl in Hi. lia.
    + intros r' s' (-> & Hb & _). split_and!; [reflexivity|exact (Hb 0 ltac:(simpl; lia))|exact (Hb 1 ltac:(simpl; lia))].
Defined.

(** The whole of fs_init, self-test of the block cache included, on the image. *)
Example fs_init_accepts_image :
  match fmt_main ([] :: [] :: [0x38] :: map fst demo_files) demo_host with
  | Ret _ h' =>
      match fs_init (demo_server <| disks := {[ 1 := h_mem h' ]} |>) with
      | Ret _ s => super_ s = DISKMAP + BLKSIZE /\ bitmap_ s = DISKMAP + 2 * BLKSIZE
      | Stop _ _ => False
      end
  | Stop _ _ => False
  end.
Proof. vm_compute. split; reflexivity. Qed.
