(* ===== verification/File.v ===== *)
(** * The client side of files: lib/file.c

    A program and the file server it calls.  The program has memory of its own, and
    pages of the server that it maps: the descriptor pages of the files it has open.
    A request is a round of the server's loop, with the page [fsipcbuf] of the program
    mapped in the server while it runs; the messages themselves are those of the
    kernel.  The routines of lib/fd.c that files use are here too, for a program whose
    descriptors are all files. *)
From S2P Require Import Prelude Mmu CMem BlockCache Bc Pipe Serv.

Record client := mkClient {
  c_mem : bytes;
  c_fds : gmap Z Z;       (* pages of the program that are pages of the server *)
  c_env : Z;
  c_srv : FsState
}.
#[export] Instance client_fields : Fields client := fun c => mkClient (c_mem c) (c_fds c) (c_env c) (c_srv c).

Inductive cstop :=
| CServer (e : fstop)   (* the server does not answer: it panics or loops *)
| CBlocked              (* the server takes the next request without an answer *)
| CDiverge.
Abbreviation C := (M client cstop).

Section file.
(** The address of the page [fsipcbuf], which the linker chooses. *)
Context (fsipcbuf : Z).

(** ** Memory of the program *)
Definition cview (c : client) (va : Z) : Z :=
  match c_fds c !! (va / 4096) with
  | Some k => ld8 (fmem (c_srv c)) (k * 4096 + va mod 4096)
  | None => ld8 (c_mem c) va
  end.
Definition cload (n : nat) (va : Z) : C Z := gets (fun c => vld n (cview c) va).
Definition cstore (n : nat) (va v : Z) : C unit := modify (fun c =>
  match c_fds c !! (va / 4096) with
  | Some k => c <| c_srv := (c_srv c) <| fmem := st n (fmem (c_srv c)) (k * 4096 + va mod 4096) v |> |>
  | None => c <| c_mem := st n (c_mem c) va v |>
  end).
Definition cmemmove (dst src n : Z) : C unit := modify (fun c => c <| c_mem := memmove (c_mem c) dst src n |>).
Definition cstrcpy (dst : Z) (src : list Z) : C unit := modify (fun c => c <| c_mem := st_list (c_mem c) dst (src ++ [0]) |>).

(** ** fsipc

    ipc_send gives the server the page; ipc_recv waits for its answer, and maps the page
    that comes with it at [dstva]. *)
Definition FSIPC_PERM : Z := Z.lor (Z.lor PTE_P PTE_W) PTE_U.

Definition fsipc (type dstva : Z) : C Z := fun c =>
  let page := blit (Z.to_nat PGSIZE) (c_mem c) fsipcbuf ∅ 0 in
  match serve_one (mkRequest type (c_env c) FSIPC_PERM page) (c_srv c) with
  | Ret (Some rp) s =>
      let c := c <| c_srv := s |> <| c_mem := blit (Z.to_nat PGSIZE) (rp_page rp) 0 (c_mem c) fsipcbuf |> in
      let c := match rp_pg rp with
               | Some va => if dstva =? 0 then c else c <| c_fds := <[dstva / 4096 := va / 4096]> (c_fds c) |>
               | None => c
               end in
      Ret (i32 (rp_val rp)) c
  | Ret None s => Stop CBlocked (c <| c_srv := s |>)
  | Stop e s => Stop (CServer e) (c <| c_srv := s |>)
  end.

(** ** The device *)
Definition fd_file_id (fd : Z) : C Z := cload 4 (fd + 12).

Definition devfile_flush (fd : Z) : C Z :=
  id ← fd_file_id fd;
  cstore 4 fsipcbuf id;;
  fsipc FSREQ_FLUSH 0.

Definition devfile_read (fd buf n : Z) : C Z :=
  id ← fd_file_id fd;
  cstore 4 fsipcbuf id;;
  cstore 8 (fsipcbuf + 8) n;;
  r ← fsipc FSREQ_READ 0;
  if r <? 0 then mret r
  else cmemmove buf fsipcbuf r;; mret r.

(** sizeof(struct Fsreq_write): the buffer begins at 16, and the size is a multiple of
    eight. *)
Definition sizeof_Fsreq_write : Z := 4104.

Definition devfile_write (fd buf n : Z) : C Z :=
  id ← fd_file_id fd;
  cstore 4 fsipcbuf id;;
  cstore 8 (fsipcbuf + 8) n;;
  let buffer_size := sizeof_Fsreq_write - (4 + 8) in
  req_n ← cload 8 (fsipcbuf + 8);
  let bytes_written := if req_n <? buffer_size then req_n else buffer_size in
  cmemmove (fsipcbuf + 16) buf bytes_written;;
  fsipc FSREQ_WRITE 0.

(** The name at [src], up to its zero; one that does not end within a page is taken for
    endless. *)
Fixpoint cstrcpy_at (fuel : nat) (dst src : Z) : C unit :=
  match fuel with
  | O => stop CDiverge
  | S fuel' => ch ← cload 1 src; cstore 1 dst ch;; if ch =? 0 then mret tt else cstrcpy_at fuel' (dst + 1) (src + 1)
  end.

(** struct Stat: the name, the size and whether it is a directory. *)
Definition devfile_stat (fd stt : Z) : C Z :=
  id ← fd_file_id fd;
  cstore 4 fsipcbuf id;;
  r ← fsipc FSREQ_STAT 0;
  if r <? 0 then mret r
  else
    cstrcpy_at (Z.to_nat PGSIZE) stt fsipcbuf;;
    sz ← cload 4 (fsipcbuf + MAXNAMELEN);
    cstore 4 (stt + MAXNAMELEN) sz;;
    d ← cload 4 (fsipcbuf + MAXNAMELEN + 4);
    cstore 4 (stt + MAXNAMELEN + 4) d;;
    mret 0.

Definition devfile_trunc (fd newsize : Z) : C Z :=
  id ← fd_file_id fd;
  cstore 4 fsipcbuf id;;
  cstore 4 (fsipcbuf + 4) (u32 newsize);;
  fsipc FSREQ_SET_SIZE 0.

(** ** Descriptors *)
Definition fd_mapped (fd : Z) (c : client) : bool := bool_decide (is_Some (c_fds c !! (fd / 4096))).

Fixpoint cfd_alloc_loop (n : nat) (i : Z) : C (Z * option Z) :=
  match n with
  | O => mret (- E_MAX_OPEN, None)
  | S n' =>
      b ← gets (fd_mapped (INDEX2FD i));
      if b : bool then cfd_alloc_loop n' (i + 1) else mret (0, Some (INDEX2FD i))
  end.
Definition cfd_alloc : C (Z * option Z) := cfd_alloc_loop (Z.to_nat MAXFD) 0.

Definition cfd_lookup (fdnum : Z) : C (Z * option Z) :=
  if (fdnum <? 0) || (fdnum >=? MAXFD) then mret (- E_INVAL, None)
  else
    b ← gets (fd_mapped (INDEX2FD fdnum));
    if b : bool then mret (0, Some (INDEX2FD fdnum)) else mret (- E_INVAL, None).

(** sys_page_unmap of a descriptor page: the server's page has one mapping less. *)
Definition cfd_unmap (fd : Z) : C unit := modify (fun c =>
  match c_fds c !! (fd / 4096) with
  | Some k => c <| c_fds := delete (fd / 4096) (c_fds c) |>
      <| c_srv := (c_srv c) <| shared := <[k := default 0 (shared (c_srv c) !! k) - 1]> (shared (c_srv c)) |> |>
  | None => c
  end).

(** The device of a descriptor: that of files, or none. *)
Definition is_devfile (fd : Z) : C bool := id ← cload 4 fd; mret (i32 id =? devfile_id).

Definition cfd_close (fd : Z) (must_exist : bool) : C Z :=
  found ← cfd_lookup (i32 (fd2num fd));
  if (found.1 <? 0) || negb (bool_decide (found.2 = Some fd)) then mret (if must_exist then found.1 else 0)
  else
    isf ← is_devfile fd;
    r ← (if isf : bool then devfile_flush fd else mret (- E_INVAL));
    cfd_unmap fd;;
    mret r.

Definition cread (fdnum buf n : Z) : C Z :=
  found ← cfd_lookup fdnum;
  match found with
  | (r, None) => mret r
  | (_, Some fd) =>
      isf ← is_devfile fd;
      if negb isf then mret (- E_INVAL)
      else
        omode ← cload 4 (fd + 8);
        if Z.land omode O_ACCMODE =? O_WRONLY then mret (- E_INVAL) else devfile_read fd buf n
  end.

Fixpoint creadn_loop (fuel : nat) (fdnum buf n tot : Z) : C Z :=
  match fuel with
  | O => stop CDiverge
  | S fuel' =>
      if u64 tot <? n then
        m ← cread fdnum (u64 (buf + tot)) (u64 (n - tot));
        if m <? 0 then mret m
        else if m =? 0 then mret tot
        else creadn_loop fuel' fdnum buf n (i32 (tot + m))
      else mret tot
  end.
Definition creadn (fuel : nat) (fdnum buf n : Z) : C Z := creadn_loop fuel fdnum buf n 0.

Definition cseek (fdnum offset : Z) : C Z :=
  found ← cfd_lookup fdnum;
  match found with
  | (r, None) => mret r
  | (_, Some fd) => cstore 4 (fd + 4) (u32 offset);; mret 0
  end.

(** ** Files by name *)
Definition open (path : list Z) (mode : Z) : C Z :=
  if Z.of_nat (length path) >=? MAXPATHLEN then mret (- E_BAD_PATH)
  else
    a ← cfd_alloc;
    match a with
    | (r, None) => mret r
    | (_, Some fd) =>
        cstore 4 (fsipcbuf + MAXPATHLEN) (u32 mode);;
        cstrcpy fsipcbuf path;;
        r ← fsipc FSREQ_OPEN fd;
        if r <? 0 then cfd_close fd true;; mret r
        else mret (i32 (fd2num fd))
    end.

Definition remove (path : list Z) : C Z :=
  if Z.of_nat (length path) >=? MAXPATHLEN then mret (- E_BAD_PATH)
  else cstrcpy fsipcbuf path;; fsipc FSREQ_REMOVE 0.

Definition sync : C Z := fsipc FSREQ_SYNC 0.
End file.
