(* ===== verification/FileThms.v ===== *)
(** * Reading files from a program

    The calls of the program go through the server to the disk: what read and readn of
    an open file deliver is what is in the file. *)
From S2P Require Import Prelude Mmu CMem BlockCache Bc BcSpec Fs FsSpec FileSpec FsThms Pipe Serv ServSpec ServThms File.

#[local] Opaque blit memmove serve_one.

Lemma vld_blit m mem a k : 0 <= k -> k + Z.of_nat m <= 4096 ->
  vld m (ld8 (blit (Z.to_nat PGSIZE) mem a ∅ 0)) k = vld m (ld8 mem) (a + k).
Proof.
  intros Hk Hm. apply vld_shift. intros i Hi. rewrite ld8_blit. change (Z.of_nat (Z.to_nat PGSIZE)) with 4096.
  rewrite decide_True by lia. f_equal. lia.
Qed.

Section reads.
Context (fsipcbuf : Z).

(** The program has the file of entry [i] open at [fd], for reading, at [off]. *)
Record reading (c : client) (fd i : Z) (o : OpenFile) (off : Z) : Prop := {
  rd_fd : c_fds c !! (fd / 4096) = Some (0xD0000 + i);
  rd_buf : c_fds c !! (fsipcbuf / 4096) = None;
  rd_ok : bc_ok (c_srv c);
  rd_i : 0 <= i < MAXOPEN;
  rd_entry : opentab (c_srv c) !! i = Some o;
  rd_wf : entry_wf i o;
  rd_held : held (c_srv c) i;
  rd_own : own_range (c_srv c) (o_fd o) PGSIZE;
  rd_file : file_at (bc_view (c_srv c)) (o_file o);
  rd_present : forall p, 0 <= p < f_size_of (bc_view (c_srv c)) (o_file o) -> present (bc_view (c_srv c)) (o_file o) (p / 4096);
  rd_dev : vld 4 (bc_view (c_srv c)) (o_fd o) = devfile_id;
  rd_off : vld 4 (bc_view (c_srv c)) (o_fd o + 4) = off;
  rd_mode : Z.land (vld 4 (bc_view (c_srv c)) (o_fd o + 8)) O_ACCMODE <> O_WRONLY;
  rd_id : vld 4 (bc_view (c_srv c)) (o_fd o + 12) = o_fileid o;
  rd_range : 0 <= off <= f_size_of (bc_view (c_srv c)) (o_file o)
}.

(** The size and the bytes of the file. *)
Definition fsize (c : client) (o : OpenFile) : Z := f_size_of (bc_view (c_srv c)) (o_file o).
Definition fbyte (c : client) (o : OpenFile) (p : Z) : Z :=
  bc_view (c_srv c) (file_addr (bc_view (c_srv c)) (o_file o) p).

Section one.
Context (c : client) (fd i : Z) (o : OpenFile) (off : Z) (Hr : reading c fd i o off) (Hfd : fd mod 4096 = 0).

(** The program sees the descriptor page as the server does. *)
Lemma fd_load n k : 0 <= k -> k + Z.of_nat n <= 4096 -> vld n (cview c) (fd + k) = vld n (bc_view (c_srv c)) (o_fd o + k).
Proof using Hr Hfd.
  intros Hk Hn. apply vld_shift. intros j Hj. unfold cview.
  replace ((fd + k + j) / 4096) with (fd / 4096) by (Z.div_mod_to_equations; lia). rewrite (rd_fd _ _ _ _ _ Hr).
  replace (o_fd o + k + j) with (o_fd o + (k + j)) by lia.
  rewrite view_own by (apply (rd_own _ _ _ _ _ Hr); unfold PGSIZE; lia). f_equal.
  destruct (rd_wf _ _ _ _ _ Hr) as (-> & _). unfold FILEVA, PGSIZE. Z.div_mod_to_equations. lia.
Qed.

Lemma fsize_range : 0 <= off <= fsize c o /\ fsize c o < 2 ^ 31.
Proof using Hr. split; [exact (rd_range _ _ _ _ _ Hr)|]. apply (swrap_range 32), eq_refl. Qed.
End one.

Lemma cstore_own c n va x :
  c_fds c !! (va / 4096) = None -> cstore n va x c = Ret tt (c <| c_mem := st n (c_mem c) va x |>).
Proof. intros H. unfold cstore, modify. by rewrite H. Qed.

(** The descriptor after a read of [m] bytes. *)
Lemma reading_step c c' fd i o off m :
  reading c fd i o off -> c_fds c' = c_fds c -> bc_ok (c_srv c') -> agree (bc_view (c_srv c)) (bc_view (c_srv c')) ->
  own_range (c_srv c') (o_fd o) PGSIZE -> fds_kept (c_srv c) (c_srv c') ->
  (forall b, o_fd o <= b < o_fd o + PGSIZE -> bc_view (c_srv c') b = vst 4 (bc_view (c_srv c)) (o_fd o + 4) (off + m) b) ->
  0 <= m -> off + m <= fsize c o -> reading c' fd i o (off + m) /\ fsize c' o = fsize c o.
Proof using Type.
  intros Hr Efds Hok' Hag Hown' Hkept Hfdv Hm Hle. pose proof (fsize_range c fd i o off Hr) as [Hoff Hsz].
  destruct Hr as [Rfd Rbuf Rok Ri Rent Rwf Rheld Rown Rfile Rpres Rdev Roff Rmode Rid Rrange].
  pose proof (agree_meta _ _ (o_file o) Hag (ok_nblocks _ Rok) Rfile) as Hmeta.
  assert (forall k, 0 <= k -> k + 4 <= 4096 -> k + 4 <= 4 \/ 8 <= k ->
    vld 4 (bc_view (c_srv c')) (o_fd o + k) = vld 4 (bc_view (c_srv c)) (o_fd o + k)) as Hsame.
  { intros k Hk Hk' Hk''. apply vld_ext. intros b Hb. rewrite Hfdv by (unfold PGSIZE; lia). unfold vst.
    rewrite decide_False by lia. reflexivity. }
  assert (fsize c' o = fsize c o) as Esz by (symmetry; apply (meta_size _ _ _ Hmeta)).
  split; [|exact Esz]. split.
  - by rewrite Efds.
  - by rewrite Efds.
  - exact Hok'.
  - exact Ri.
  - by rewrite (proj1 Hkept).
  - exact Rwf.
  - unfold held. rewrite (fds_kept_refs _ _ i) by (lia || exact Hkept). exact Rheld.
  - exact Hown'.
  - by eapply meta_file_at.
  - intros p Hp. fold (fsize c' o) in Hp. rewrite Esz in Hp. eapply meta_present; [exact Hmeta|]. by apply Rpres.
  - rewrite <- Rdev. specialize (Hsame 0). rewrite !Z.add_0_r in Hsame. apply Hsame; lia.
  - rewrite (vld_ext 4 _ (vst 4 (bc_view (c_srv c)) (o_fd o + 4) (off + m))) by (intros b Hb; apply Hfdv; unfold PGSIZE; lia).
    rewrite vld_vst_eq. apply Z.mod_small. change (256 ^ Z.of_nat 4) with (2 ^ 32). lia.
  - by rewrite Hsame by lia.
  - by rewrite Hsame by lia.
  - fold (fsize c' o). lia.
Qed.

(** The answer to a read request, in the program. *)
Lemma fsipc_read c fd i o off n :
  reading c fd i o off -> 0 <= n < 2 ^ 64 -> vld 4 (ld8 (c_mem c)) fsipcbuf = o_fileid o ->
  vld 8 (ld8 (c_mem c)) (fsipcbuf + 8) = n ->
  let m := Z.min (Z.min n PGSIZE) (fsize c o - off) in
  wp (fsipc fsipcbuf FSREQ_READ 0) c (fun r c' => r = m /\ c_fds c' = c_fds c /\
    agree (bc_view (c_srv c)) (bc_view (c_srv c')) /\ (reading c' fd i o (off + m) /\ fsize c' o = fsize c o) /\
    (forall a, ld8 (c_mem c') a = ld8 (c_mem c) a \/ fsipcbuf <= a < fsipcbuf + 4096) /\
    forall k, 0 <= k < m -> ld8 (c_mem c') (fsipcbuf + k) = fbyte c o (off + k)).
Proof using Type.
  intros Hr Hn Hid Hn8 m. destruct (fsize_range c fd i o off Hr) as [Hoff Hsz].
  assert (i32 (vld 4 (bc_view (c_srv c)) (o_fd o + 4)) = off) as Hoff'
    by (rewrite (rd_off _ _ _ _ _ Hr); apply swrap_small; lia).
  set (q := mkRequest FSREQ_READ (c_env c) FSIPC_PERM (blit (Z.to_nat PGSIZE) (c_mem c) fsipcbuf ∅ 0)).
  assert (vld 8 (ld8 (rq_page q)) 8 = n) as Hq8 by (change (rq_page q) with (blit (Z.to_nat PGSIZE) (c_mem c) fsipcbuf ∅ 0);
    rewrite vld_blit by lia; exact Hn8).
  assert (0 <= m <= PGSIZE) as Hm by (unfold m, PGSIZE; lia).
  pose proof (serve_one_read (c_srv c) q i o) as Hs. cbv zeta in Hs. rewrite Hoff', Hq8 in Hs.
  change (f_size_of (bc_view (c_srv c)) (o_file o)) with (fsize c o) in Hs. fold m in Hs.
  unfold wp, fsipc. fold q. cbv zeta.
  assert (wp (serve_one q) (c_srv c) (read_answer (c_srv c) o q off m)) as Hw.
  { pose proof Hr as [Rfd Rbuf Rok Ri Rent Rwf Rheld Rown Rfile Rpres Rdev Roff Rmode Rid Rrange].
    apply Hs; [exact Rok|exact Ri|exact Rent|exact Rwf|exact Rheld|exact Rown|reflexivity|reflexivity| |exact Rfile|exact Rrange|].
    - change (rq_page q) with (blit (Z.to_nat PGSIZE) (c_mem c) fsipcbuf ∅ 0). rewrite vld_blit by lia. by rewrite Z.add_0_r.
    - intros p Hp. apply Rpres. fold (fsize c o). lia. }
  destruct (proj1 (wp_elim _ _ _) Hw) as (a & s' & -> & Hans). clear Hs Hw.
  destruct Hans as ((rp & -> & _ & Hval & Hpg & Hbytes) & Hok' & Hag & Hown' & Hkept & Hfdv). rewrite Hpg.
  pose proof (fun a => ld8_blit (Z.to_nat PGSIZE) (rp_page rp) 0 (c_mem c) fsipcbuf a) as Hblit.
  set (mem' := blit _ (rp_page rp) 0 (c_mem c) fsipcbuf) in *. clearbody mem'.
  set (c' := _ <| c_mem := mem' |>). change (Z.of_nat (Z.to_nat PGSIZE)) with 4096 in Hblit.
  split; [rewrite Hval; apply swrap_small; unfold PGSIZE in Hm; lia|].
  split; [reflexivity|]. split; [exact Hag|]. split; [|split].
  - apply (reading_step c c'); [exact Hr|reflexivity|exact Hok'|exact Hag|exact Hown'|exact Hkept|exact Hfdv|lia|unfold m; lia].
  - intros a. change (c_mem c') with mem'. rewrite Hblit. case_decide; [by right|by left].
  - intros k Hk. change (c_mem c') with mem'. rewrite Hblit. rewrite decide_True by (unfold PGSIZE in Hm; lia).
    replace (0 + (fsipcbuf + k - fsipcbuf)) with k by lia. apply Hbytes, Hk.
Qed.

Lemma reading_mem c c' fd i o off :
  c_fds c' = c_fds c -> c_srv c' = c_srv c -> reading c fd i o off -> reading c' fd i o off.
Proof using Type. intros E1 E2 [? ? ? ? ? ? ? ? ? ? ? ? ? ? ?]. split; by rewrite ?E1, ?E2. Qed.

(** The bytes of the file as long as only the seek position changes. *)
Lemma fbyte_agree c c' fd i o off p :
  reading c fd i o off -> agree (bc_view (c_srv c)) (bc_view (c_srv c')) -> 0 <= p < fsize c o ->
  fbyte c' o p = fbyte c o p.
Proof using Type.
  intros Hr Hag Hp. unfold fbyte. pose proof (rd_present _ _ _ _ _ Hr p Hp) as Hpr.
  pose proof (ok_nblocks _ (rd_ok _ _ _ _ _ Hr)) as Hnb.
  pose proof (agree_meta _ _ (o_file o) Hag Hnb (rd_file _ _ _ _ _ Hr)) as Hm.
  rewrite <- (meta_file_addr _ _ _ Hm) by exact Hpr. symmetry. apply Hag. by apply (file_addr_block _ (o_file o)).
Qed.

(** What a read of [m] bytes does. *)
Record delivered (c c' : client) (fd i : Z) (o : OpenFile) (off buf m : Z) : Prop := {
  dl_fds : c_fds c' = c_fds c;
  dl_agree : agree (bc_view (c_srv c)) (bc_view (c_srv c'));
  dl_reading : reading c' fd i o (off + m);
  dl_size : fsize c' o = fsize c o;
  dl_frame : forall a, ~ (fsipcbuf <= a < fsipcbuf + 4096) -> ~ (buf <= a < buf + m) -> ld8 (c_mem c') a = ld8 (c_mem c) a;
  dl_bytes : forall k, 0 <= k < m -> ld8 (c_mem c') (buf + k) = fbyte c o (off + k)
}.

Lemma devfile_read_ok c fd i o off buf n :
  reading c fd i o off -> fd mod 4096 = 0 -> fsipcbuf mod 4096 = 0 -> 0 <= n < 2 ^ 64 ->
  let m := Z.min (Z.min n PGSIZE) (fsize c o - off) in
  wp (devfile_read fsipcbuf fd buf n) c (fun r c' => r = m /\ delivered c c' fd i o off buf m).
Proof using Type.
  intros Hr Hfd Hbuf Hn m. pose proof (fsize_range c fd i o off Hr) as [Hoff Hsz].
  assert (0 <= m <= PGSIZE) as Hm by (unfold m, PGSIZE; lia).
  unfold devfile_read, fd_file_id. apply wp_bind. unfold cload. apply wp_gets.
  rewrite (fd_load c fd i o off Hr Hfd) by lia. rewrite (rd_id _ _ _ _ _ Hr).
  pose proof (rd_buf _ _ _ _ _ Hr) as Hb.
  apply wp_bind, wp_elim. do 2 eexists. split; [by apply cstore_own|].
  set (mem1 := st 4 _ fsipcbuf _). set (c1 := _ <| c_mem := mem1 |>).
  apply wp_bind, wp_elim. do 2 eexists. split.
  { apply cstore_own. replace ((fsipcbuf + 8) / 4096) with (fsipcbuf / 4096) by (Z.div_mod_to_equations; lia). exact Hb. }
  change (c_mem c1) with mem1. set (mem2 := st 8 mem1 (fsipcbuf + 8) n). set (c2 := _ <| c_mem := mem2 |>).
  assert (reading c2 fd i o off) as Hr2 by (apply (reading_mem c); [reflexivity|reflexivity|exact Hr]).
  assert (forall a, ~ (fsipcbuf <= a < fsipcbuf + 4096) -> ld8 mem2 a = ld8 (c_mem c) a) as Hm2.
  { intros a Ha. unfold mem2, mem1. rewrite ld8_st, decide_False by lia. by rewrite ld8_st, decide_False by lia. }
  destruct (rd_wf _ _ _ _ _ Hr) as (_ & _ & Hidr).
  apply wp_bind. wuse (fsipc_read c2 fd i o off n Hr2 Hn).
  - change (c_mem c2) with mem2. unfold mem2, mem1. rewrite vld_ld, ld_st_ne by lia. rewrite ld_st_eq.
    apply Z.mod_small. change (256 ^ Z.of_nat 4) with (2 ^ 32). exact Hidr.
  - change (c_mem c2) with mem2. unfold mem2. rewrite vld_ld, ld_st_eq. by apply Z.mod_small.
  - change (fsize c2 o) with (fsize c o). fold m. intros r c3 (-> & E3 & Hag & [Hr3 Hsz3] & Hf3 & Hb3).
    destruct (Z.ltb_spec m 0); [lia|]. unfold cmemmove. wsteps. split; [reflexivity|].
    pose proof (memmove_copies (c_mem c3) buf fsipcbuf m ltac:(lia)) as Hcp.
    set (mem4 := memmove _ _ _ _) in *. clearbody mem4.
    set (c4 := _ <| c_mem := mem4 |>). split.
    + exact E3.
    + exact Hag.
    + eapply reading_mem; [| |exact Hr3]; reflexivity.
    + exact Hsz3.
    + intros a Ha1 Ha2. change (c_mem c4) with mem4. rewrite Hcp, decide_False by exact Ha2.
      destruct (Hf3 a) as [->|Hin]; [by apply Hm2|by destruct Ha1].
    + intros k Hk. change (c_mem c4) with mem4. rewrite Hcp, decide_True by lia.
      replace (fsipcbuf + (buf + k - buf)) with (fsipcbuf + k) by lia. apply Hb3, Hk.
Qed.

Lemma delivered_none c fd i o off buf : reading c fd i o off -> delivered c c fd i o off buf 0.
Proof using Type. intros Hr. split; [done|done|by rewrite Z.add_0_r|done|done|lia]. Qed.

Lemma delivered_trans c c1 c2 fd i o off buf m1 m2 :
  reading c fd i o off -> 0 <= off -> off + m1 + m2 <= fsize c o -> 0 <= m1 -> 0 <= m2 ->
  no_overlap buf (m1 + m2) fsipcbuf 4096 ->
  delivered c c1 fd i o off buf m1 -> delivered c1 c2 fd i o (off + m1) (buf + m1) m2 ->
  delivered c c2 fd i o off buf (m1 + m2).
Proof using Type.
  intros Hr Ho Hle H1 H2 Hno D1 D2. unfold no_overlap in Hno. split.
  - by rewrite (dl_fds _ _ _ _ _ _ _ _ D2), (dl_fds _ _ _ _ _ _ _ _ D1).
  - intros a Ha. rewrite (dl_agree _ _ _ _ _ _ _ _ D1 a Ha). exact (dl_agree _ _ _ _ _ _ _ _ D2 a Ha).
  - rewrite Z.add_assoc. exact (dl_reading _ _ _ _ _ _ _ _ D2).
  - by rewrite (dl_size _ _ _ _ _ _ _ _ D2), (dl_size _ _ _ _ _ _ _ _ D1).
  - intros a Ha Hb. rewrite (dl_frame _ _ _ _ _ _ _ _ D2) by lia. apply (dl_frame _ _ _ _ _ _ _ _ D1); lia.
  - intros k Hk. destruct (decide (k < m1)) as [Hlt|Hge].
    + rewrite (dl_frame _ _ _ _ _ _ _ _ D2) by lia. apply (dl_bytes _ _ _ _ _ _ _ _ D1). lia.
    + replace (buf + k) with (buf + m1 + (k - m1)) by lia. rewrite (dl_bytes _ _ _ _ _ _ _ _ D2) by lia.
      replace (off + m1 + (k - m1)) with (off + k) by lia.
      apply (fbyte_agree c c1 fd i o off); [exact Hr|exact (dl_agree _ _ _ _ _ _ _ _ D1)|lia].
Qed.

Lemma cread_ok c fdnum i o off buf n :
  reading c (INDEX2FD fdnum) i o off -> 0 <= fdnum < MAXFD -> fsipcbuf mod 4096 = 0 -> 0 <= n < 2 ^ 64 ->
  let m := Z.min (Z.min n PGSIZE) (fsize c o - off) in
  wp (cread fsipcbuf fdnum buf n) c (fun r c' => r = m /\ delivered c c' (INDEX2FD fdnum) i o off buf m).
Proof using Type.
  intros Hr Hfn Hbuf Hn m.
  assert (INDEX2FD fdnum mod 4096 = 0) as Hal.
  { unfold INDEX2FD, FDTABLE, MAXFD, PGSIZE in *. rewrite (wrap_small 64 fdnum), wrap_small by lia. Z.div_mod_to_equations. lia. }
  unfold cread, cfd_lookup. rewrite (proj2 (orb_false_iff _ _)) by (split; lia). wsteps.
  unfold fd_mapped. rewrite bool_decide_true by (rewrite (rd_fd _ _ _ _ _ Hr); by eexists). wsteps.
  unfold is_devfile, cload. wsteps. pose proof (fd_load c _ i o off Hr Hal) as Hld.
  pose proof (Hld 4%nat 0) as H0. rewrite !Z.add_0_r in H0. rewrite H0, (rd_dev _ _ _ _ _ Hr) by lia.
  change (i32 devfile_id =? devfile_id) with true. cbn [negb]. wsteps. rewrite Hld by lia.
  rewrite (proj2 (Z.eqb_neq _ _)) by apply (rd_mode _ _ _ _ _ Hr). by apply devfile_read_ok.
Qed.

Lemma creadn_loop_ok fuel : forall c fdnum i o off buf n tot,
  reading c (INDEX2FD fdnum) i o off -> 0 <= fdnum < MAXFD -> fsipcbuf mod 4096 = 0 ->
  0 <= tot <= n -> n < 2 ^ 64 -> 0 <= buf -> buf + n < 2 ^ 64 -> tot + (fsize c o - off) < 2 ^ 31 ->
  no_overlap (buf + tot) (n - tot) fsipcbuf 4096 ->
  let m := Z.min (n - tot) (fsize c o - off) in
  m <= PGSIZE * (Z.of_nat fuel - 1) ->
  wp (creadn_loop fsipcbuf fuel fdnum buf n tot) c (fun r c' =>
    r = tot + m /\ delivered c c' (INDEX2FD fdnum) i o off (buf + tot) m).
Proof using Type.
  induction fuel as [|fuel IH]; intros c fdnum i o off buf n tot Hr Hfn Hbuf Htot Hn Hb Hbn Hsz Hno m Hf;
    pose proof (fsize_range c _ i o off Hr) as [Hoff Hsz31]; [unfold PGSIZE, m in *; lia|].
  cbn [creadn_loop]. rewrite (wrap_small 64 tot) by lia. destruct (Z.ltb_spec tot n) as [Hlt|Hge].
  2:{ apply wp_ret. assert (m = 0) as -> by (unfold m; lia). split; [lia|by apply delivered_none]. }
  rewrite !wrap_small by lia. apply wp_bind. wuse (cread_ok c fdnum i o off (buf + tot) (n - tot) Hr Hfn Hbuf); [lia|].
  set (k := Z.min (Z.min (n - tot) PGSIZE) (fsize c o - off)). intros r c1 [-> D1].
  assert (0 <= k <= m) as Hk by (unfold k, m, PGSIZE; lia).
  destruct (Z.ltb_spec k 0); [lia|]. destruct (Z.eqb_spec k 0) as [E0|Hne].
  { apply wp_ret. assert (m = 0) as -> by (unfold k, m, PGSIZE in *; lia). rewrite E0 in D1. split; [lia|exact D1]. }
  rewrite swrap_small by (unfold k, PGSIZE in *; lia). pose proof (dl_size _ _ _ _ _ _ _ _ D1) as Es.
  assert (Z.min (n - (tot + k)) (fsize c1 o - (off + k)) = m - k) as Em by (rewrite Es; unfold m; lia).
  unfold no_overlap in *. wuse (IH c1 fdnum i o (off + k) buf n (tot + k)).
  - exact (dl_reading _ _ _ _ _ _ _ _ D1).
  - exact Hfn.
  - exact Hbuf.
  - unfold k. lia.
  - exact Hn.
  - exact Hb.
  - exact Hbn.
  - rewrite Es. lia.
  - unfold k in *. lia.
  - rewrite Em. unfold k, m, PGSIZE in *. lia.
  - rewrite Em. intros r c2 [-> D2]. split; [lia|]. replace m with (k + (m - k)) by lia.
    apply (delivered_trans c c1 c2); try done; unfold no_overlap; try lia.
    by rewrite <- Z.add_assoc.
Qed.
End reads.

(** C16: readn of an open file delivers the rest of the file, or as much of it as was asked
    for: it returns the number of bytes, they are the bytes of the file from the seek
    position on, and the seek position is after them.  The reads of a page each, the
    requests to the server and the blocks that it takes from the disk do not show; nothing
    else of the program's memory changes but the page of the requests. *)
Theorem readn_delivers fsipcbuf c fdnum i o off buf n fuel :
  reading fsipcbuf c (INDEX2FD fdnum) i o off -> 0 <= fdnum < MAXFD -> fsipcbuf mod 4096 = 0 ->
  0 <= buf -> 0 <= n -> buf + n < 2 ^ 64 -> no_overlap buf n fsipcbuf 4096 ->
  (forall k, 0 <= k < n -> c_fds c !! ((buf + k) / 4096) = None) ->
  let m := Z.min n (fsize c o - off) in
  m <= PGSIZE * (Z.of_nat fuel - 1) ->
  wp (creadn fsipcbuf fuel fdnum buf n) c (fun r c' => r = m /\
    (forall k, 0 <= k < m -> cview c' (buf + k) = fbyte c o (off + k)) /\
    reading fsipcbuf c' (INDEX2FD fdnum) i o (off + m) /\ fsize c' o = fsize c o /\
    (forall p, 0 <= p < fsize c o -> fbyte c' o p = fbyte c o p) /\
    (forall a, ~ (fsipcbuf <= a < fsipcbuf + 4096) -> ~ (buf <= a < buf + m) -> ld8 (c_mem c') a = ld8 (c_mem c) a)).
Proof.
  intros Hr Hfn Hbuf Hb Hn Hbn Hno Hown m Hf. destruct (fsize_range _ c _ i o off Hr) as [Hoff Hsz].
  unfold creadn. wuse (creadn_loop_ok fsipcbuf fuel c fdnum i o off buf n 0 Hr Hfn Hbuf); [lia..|by rewrite Z.add_0_r, Z.sub_0_r|by rewrite Z.sub_0_r|].
  rewrite Z.sub_0_r, Z.add_0_r. fold m. intros r c' [-> D]. split; [lia|]. split; [|split; [|split; [|split]]].
  - intros k Hk. unfold cview. rewrite (dl_fds _ _ _ _ _ _ _ _ _ D), Hown by lia. by apply (dl_bytes _ _ _ _ _ _ _ _ _ D).
  - exact (dl_reading _ _ _ _ _ _ _ _ _ D).
  - exact (dl_size _ _ _ _ _ _ _ _ _ D).
  - intros p Hp. by apply (fbyte_agree fsipcbuf c c' _ i o off p Hr (dl_agree _ _ _ _ _ _ _ _ _ D)).
  - exact (dl_frame _ _ _ _ _ _ _ _ _ D).
Qed.

(** ** A program that has the file [a] open as descriptor 3 *)
Definition reader : client :=
  mkClient ∅ {[ 0xD0003 := 0xD0000 ]} 0x1001
    (serving <| fmem := st 4 (st 4 (fmem serving) FILEVA devfile_id) (FILEVA + 12) 1024 |>).

Lemma reader_same a : in_region (a / 4096) -> ld8 (fmem (c_srv reader)) a = ld8 (fmem serving) a.
Proof.
  intros Ha. change (fmem (c_srv reader)) with (st 4 (st 4 (fmem serving) FILEVA devfile_id) (FILEVA + 12) 1024).
  unfold in_region, FILEVA in *. rewrite !ld8_st, !decide_False; [done|Z.div_mod_to_equations; lia..].
Qed.

Lemma reader_view : agree (bc_view serving) (bc_view (c_srv reader)).
Proof. apply other_view; [split_and!; reflexivity|reflexivity|exact reader_same]. Qed.

Lemma reader_meta : meta_agree (bc_view small_server) (bc_view (c_srv reader)) file_a.
Proof.
  apply agree_meta; [|apply (ok_nblocks _ small_ok)|exact small_file].
  intros a Ha. rewrite (serving_view a Ha). exact (reader_view a Ha).
Qed.

Lemma reader_reading : reading 0x804000 reader (INDEX2FD 3) 0 entry_a 0.
Proof.
  assert (f_size_of (bc_view (c_srv reader)) (o_file entry_a) = 5000) as Hsz by (vm_compute; reflexivity).
  split; rewrite ?Hsz.
  - vm_compute. reflexivity.
  - vm_compute. reflexivity.
  - apply (bc_ok_other serving); [split_and!; reflexivity|reflexivity|exact reader_same|exact serving_ok].
  - unfold MAXOPEN. lia.
  - reflexivity.
  - split_and!; done.
  - split; vm_compute; discriminate.
  - exact serving_fd.
  - eapply meta_file_at; [exact reader_meta|exact small_file].
  - intros p Hp. eapply meta_present; [exact reader_meta|]. apply small_present. Z.div_mod_to_equations. lia.
  - vm_compute. reflexivity.
  - vm_compute. reflexivity.
  - vm_compute. discriminate.
  - vm_compute. reflexivity.
  - lia.
Qed.

Lemma readn_delivers_witness :
  wp (creadn 0x804000 3 3 0x1000 8000) reader (fun r c' => r = 5000 /\ cview c' (0x1000 + 7) = 0x2A).
Proof.
  assert (fsize reader entry_a = 5000) as Hsz by (vm_compute; reflexivity).
  eapply wp_mono.
  - apply (readn_delivers 0x804000 reader 3 0 entry_a 0 0x1000 8000 3 reader_reading).
    + unfold MAXFD. lia.
    + reflexivity.
    + lia.
    + lia.
    + lia.
    + left. lia.
    + intros k Hk. apply lookup_singleton_None. Z.div_mod_to_equations. lia.
    + rewrite Hsz. unfold PGSIZE. lia.
  - rewrite Hsz. change (Z.min 8000 (5000 - 0)) with 5000. intros r c' (-> & Hb & _). split; [reflexivity|].
    rewrite (Hb 7) by lia. vm_compute. reflexivity.
Defined.
