(* ===== verification/OpenThms.v ===== *)
(** * Opening files from a program

    What the server does for an open request on a file that is there, and what the
    program then has; with the reads of FileThms and the images of fsformat, what a
    program reads is what was on the host. *)
From S2P Require Import Prelude Mmu CMem BlockCache Bc BcSpec Fs FsSpec FileSpec DirSpec FsThms Pipe Serv ServSpec ServThms Fsformat FsformatThms ImageThms File FileThms.

#[local] Opaque blit memmove serve_one.

(** ** The path of a request *)
Section bytes.
Context {St : Type} {Ops : BlockCacheOps St} {BC : BlockCache St}.

Lemma load_bytes_ok n : forall (s : St) a,
  bok s -> own_range s a (Z.of_nat n) ->
  wp (load_bytes n a) s (fun l s' => l = map (bview s) (seqZ a (Z.of_nat n)) /\ same s s').
Proof.
  induction n as [|n IH]; intros s a Hok Hown; cbn [load_bytes].
  { wsteps. split; [done|by apply same_refl]. }
  wsteps. wuse bload_ok; [done|intros i Hi; left; apply Hown; lia|]. intros x s1 [-> Hs1].
  wsteps. wuse (IH s1 (a + 1)); [apply Hs1| |].
  { eapply own_range_step; [exact Hs1|]. intros i Hi. rewrite <- Z.add_assoc. apply Hown. lia. }
  intros l s2 [-> Hs2]. wsteps. split; [|by eapply same_then].
  rewrite (seqZ_cons a) by lia. cbn [map]. f_equal.
  - cbn [vld]. lia.
  - replace (Z.succ a) with (a + 1) by lia. replace (Z.pred (Z.of_nat (S n))) with (Z.of_nat n) by lia.
    apply map_ext. intros b. apply Hs1.
Qed.
End bytes.

Lemma c_string_at v : forall path a n,
  chars path -> cstr v a path -> (length path < n)%nat -> c_string (map v (seqZ a (Z.of_nat n))) = path.
Proof.
  induction path as [|d path IH]; intros a n Hc Hs Hn; (destruct n as [|n]; [simpl in Hn; lia|]);
    rewrite (seqZ_cons a) by lia; replace (Z.pred (Z.of_nat (S n))) with (Z.of_nat n) by lia;
    replace (Z.succ a) with (a + 1) by lia; cbn [map c_string].
  - rewrite cstr_nil in Hs. by rewrite Hs.
  - apply cstr_cons in Hs as [-> Hs]. inversion Hc as [|? ? Hd Hc']; subst.
    destruct (Z.eqb_spec d 0); [lia|]. f_equal. apply IH; [done|done|]. simpl in Hn. lia.
Qed.

(** ** The server during an open request

    From [s0] on the disk stays as it is; the page of the request is there; entry [i] is
    being filled, its descriptor page shows [w], and no other environment maps it. *)
Record filling (s0 : FsState) (q : Request) (s : FsState) (i : Z) (o : OpenFile) (w : Z -> Z) : Prop := {
  fl_ok : bc_ok s;
  fl_agree : agree (bc_view s0) (bc_view s);
  fl_i : 0 <= i < MAXOPEN;
  fl_entry : opentab s !! i = Some o;
  fl_wf : entry_wf i o;
  fl_req : own_range s fsreq PGSIZE;
  fl_page : forall k, 0 <= k < PGSIZE -> bc_view s (fsreq + k) = ld8 (rq_page q) k;
  fl_own : own_range s (o_fd o) PGSIZE;
  fl_fd : forall b, o_fd o <= b < o_fd o + PGSIZE -> bc_view s b = w b;
  fl_refs : fd_refs s i = 1
}.

Section fill.
Context (s0 : FsState) (q : Request).

(** A memory that differs only in the descriptor page. *)
Definition in_fd_page (s : FsState) (o : OpenFile) (v : Z -> Z) : Prop :=
  forall a, ~ (o_fd o <= a < o_fd o + PGSIZE) -> v a = bc_view s a.

Lemma fd_page_agree s i o w v : filling s0 q s i o w -> in_fd_page s o v -> agree (bc_view s) v /\ reserved v.
Proof.
  intros H Hv. destruct (fl_wf _ _ _ _ _ _ H) as (Efd & _). pose proof (fl_i _ _ _ _ _ _ H) as Hi.
  assert (agree (bc_view s) v) as Hag.
  { intros a Ha. rewrite Hv; [done|]. unfold FILEVA, PGSIZE, DISKMAP, DISKSIZE in *. lia. }
  split; [exact Hag|]. pose proof (fl_ok _ _ _ _ _ _ H) as Hok.
  apply (agree_reserved (bc_view s)); [exact Hag|apply (ok_nblocks _ Hok)|apply (ok_reserved _ Hok)].
Qed.

Lemma filling_step s s' i o w v d :
  filling s0 q s i o w -> in_fd_page s o v -> fstep s s' v d -> fds_kept s s' -> filling s0 q s' i o v.
Proof.
  intros H Hin Hs Hk. destruct (fd_page_agree s i o w v H Hin) as [Hag1 _].
  destruct H as [Hok Hag Hi Ho Hwf Hr Hp Hown Hfd Hrefs].
  assert (forall a, bc_view s' a = v a) as Hv by apply Hs. split.
  - apply Hs.
  - intros a Ha. by rewrite Hv, <- Hag1, <- Hag.
  - exact Hi.
  - by rewrite (proj1 Hk).
  - exact Hwf.
  - by eapply own_range_step.
  - intros k Hkk. rewrite Hv, Hin; [by apply Hp|]. destruct Hwf as (-> & _). unfold fsreq, FILEVA, PGSIZE in *. lia.
  - by eapply own_range_step.
  - intros b Hb. apply Hv.
  - by rewrite (fds_kept_refs s s') by (lia || done).
Qed.

Lemma filling_ext s i o w w' :
  (forall b, o_fd o <= b < o_fd o + PGSIZE -> w b = w' b) -> filling s0 q s i o w -> filling s0 q s i o w'.
Proof. intros He []. split; try assumption. intros b Hb. rewrite <- He by exact Hb. auto. Qed.

Lemma filling_same s s' i o w : filling s0 q s i o w -> same s s' -> fds_kept s s' -> filling s0 q s' i o w.
Proof.
  intros H Hs Hk. apply (filling_ext s' i o (bc_view s)); [apply (fl_fd _ _ _ _ _ _ H)|].
  by apply (filling_step s s' i o w _ _ H (fun a _ => eq_refl) Hs).
Qed.

Lemma filling_set s i o w f :
  filling s0 q s i o w -> entry_wf i (f o) -> o_fd (f o) = o_fd o ->
  filling s0 q (s <| opentab := <[i := f (open_entry i s)]> (opentab s) |>) i (f o) w.
Proof.
  intros [Hok Hag Hi Ho Hwf Hr Hp Hown Hfd Hrefs] Hf Efd.
  split; rewrite ?Efd; try assumption.
  - by apply (bc_ok_other s).
  - cbn. rewrite lookup_insert_eq. unfold open_entry. by rewrite Ho.
Qed.

Lemma filling_store s i o w k x :
  filling s0 q s i o w -> 0 <= k -> k + 4 <= 4096 ->
  wp (bstore 4 (o_fd o + k) x) s (fun _ s' => filling s0 q s' i o (vst 4 w (o_fd o + k) x)).
Proof.
  intros H Hk Hk'. assert (in_fd_page s o (vst 4 (bc_view s) (o_fd o + k) x)) as Hin.
  { intros a Ha. unfold vst. rewrite decide_False by (unfold PGSIZE in Ha; lia). reflexivity. }
  wuse (keeps_wp fds_kept); [apply keeps_bstore|apply (bstore_ok 4)|].
  - apply H.
  - destruct (fl_wf _ _ _ _ _ _ H) as (-> & _). unfold FILEVA, PGSIZE. Z.div_mod_to_equations. lia.
  - apply own_writable; [apply H|eapply own_range_sub; [exact (fl_own _ _ _ _ _ _ H)|lia|unfold PGSIZE; lia]|].
    exact (proj2 (fd_page_agree s i o w _ H Hin)).
  - intros _ s' [Hs Hkept]. eapply filling_ext; [|exact (filling_step s s' i o w _ _ H Hin Hs Hkept)].
    intros b Hb. unfold vst. case_decide; [done|]. by apply (fl_fd _ _ _ _ _ _ H).
Qed.

Lemma filling_clear s i o w :
  filling s0 q s i o w -> wp (bmemset (o_fd o) 0 PGSIZE) s (fun _ s' => filling s0 q s' i o (fun _ => 0)).
Proof.
  intros H. assert (in_fd_page s o (vset (bc_view s) (o_fd o) 0 PGSIZE)) as Hin.
  { intros a Ha. unfold vset. rewrite decide_False by exact Ha. reflexivity. }
  wuse (keeps_wp fds_kept); [apply keeps_bmemset|apply bmemset_ok|].
  - apply H.
  - unfold PGSIZE. lia.
  - apply own_writable; [apply H|exact (fl_own _ _ _ _ _ _ H)|]. exact (proj2 (fd_page_agree s i o w _ H Hin)).
  - intros _ s' [Hs Hkept]. eapply filling_ext; [|exact (filling_step s s' i o w _ _ H Hin Hs Hkept)].
    intros b Hb. unfold vset. by rewrite decide_True by exact Hb.
Qed.

Lemma filling_omode s i o w :
  filling s0 q s i o w ->
  wp (req_omode fsreq) s (fun r s' => r = i32 (vld 4 (ld8 (rq_page q)) MAXPATHLEN) /\ filling s0 q s' i o w).
Proof.
  intros H. unfold req_omode. wsteps.
  wuse own_load; [apply H|eapply own_range_sub; [apply H|unfold MAXPATHLEN, PGSIZE; lia..]|].
  intros x s' [[-> Hs] Hk]. wsteps. split; [|by eapply filling_same]. f_equal. apply vld_shift. intros j Hj.
  rewrite <- Z.add_assoc. apply (fl_page _ _ _ _ _ _ H). unfold MAXPATHLEN, PGSIZE. lia.
Qed.
End fill.

(** ** A free entry *)

(** The server can open a file: an entry is free whose ids are not used up, and there are
    frames for its page and for the blocks of the disk. *)
Record ready (s : FsState) : Prop := {
  ry_ok : bc_ok s;
  ry_tab : opentab_wf s;
  ry_frames : v_nblocks (bc_view s) < frames s;
  ry_free : exists i, 0 <= i < MAXOPEN /\ ~ held s i;
  ry_ids : forall i o, 0 <= i < MAXOPEN -> opentab s !! i = Some o -> ~ held s i -> o_fileid o + MAXOPEN < 2 ^ 31;
  ry_pages : forall i, 0 <= i < MAXOPEN -> page_there s (0xD0000 + i) = true -> own_range s (FILEVA + i * PGSIZE) PGSIZE;
  ry_shared : forall i, 0 <= i < MAXOPEN -> 0 <= default 0 (shared s !! (0xD0000 + i)) < 65535
}.

Lemma load_bytes_frames n : forall s a,
  bc_ok s -> own_range s a (Z.of_nat n) -> wp (load_bytes n a : F (list Z)) s (fun _ s' => frames s' = frames s).
Proof.
  induction n as [|n IH]; intros s a Hok Hown; cbn [load_bytes]; [by wsteps|].
  assert (pte_allows false (pte_of_va s a) = true) as Ha.
  { destruct (Hown 0 ltac:(lia)) as [_ Ho]. rewrite Z.add_0_r in Ho. by apply pte_allows_read. }
  destruct (touched_quiet false a s Hok Ha) as [[Hs1 _] _]. wsteps.
  change (bload 1 a) with (load_with pgfault 1 a). cbn [load_with]. wsteps. unfold wp at 1. rewrite touch_hit by exact Ha.
  set (s1 := s <| fpte := _ |>) in *. wsteps. wuse (IH s1); [apply Hs1| |intros l s' E; wsteps; exact E].
  eapply (own_range_step s); [exact Hs1|]. eapply own_range_sub; [exact Hown|lia..].
Qed.

Lemma bc_ok_frames s n :
  bc_ok s -> v_nblocks (bc_view s) <= Z.of_nat (size (mapped_blocks s)) + n -> bc_ok (s <| frames := n |>).
Proof. intros [] Hn. by split. Qed.

(** A page for the descriptor of entry [i]. *)
Section page.
Context (s : FsState) (i : Z) (Hi : 0 <= i < MAXOPEN) (Hok : bc_ok s) (Hfr : v_nblocks (bc_view s) < frames s).
Let s1 := s <| fmem := memset (fmem s) (FILEVA + i * PGSIZE) 0 PGSIZE |> <| fpte := <[0xD0000 + i := 7]> (fpte s) |>
  <| frames := frames s - 1 |> <| shared := delete (0xD0000 + i) (shared s) |>.

Lemma fd_alloc_pte a : pte_of_va s1 a = if decide (a / 4096 = 0xD0000 + i) then 7 else pte_of_va s a.
Proof.
  unfold pte_of_va. rewrite !PPN_div. change (fpte s1) with (<[0xD0000 + i := 7]> (fpte s)).
  case_decide as E; [by rewrite E, lookup_insert_eq|by rewrite lookup_insert_ne].
Qed.

Lemma fd_alloc_mem a : a / 4096 <> 0xD0000 + i -> ld8 (fmem s1) a = ld8 (fmem s) a.
Proof.
  intros Ha. change (fmem s1) with (memset (fmem s) (FILEVA + i * PGSIZE) 0 PGSIZE). unfold FILEVA, PGSIZE.
  rewrite ld8_memset, decide_False; [done| |lia]. Z.div_mod_to_equations. lia.
Qed.

Lemma fd_alloc_bc_ok : bc_ok s1.
Proof.
  pose proof (reserved_super _ (ok_reserved _ Hok)) as [Hnb _].
  apply (bc_ok_other (s <| frames := frames s - 1 |>)); [split_and!; reflexivity|..].
  - intros k Hk. change (fpte s1) with (<[0xD0000 + i := 7]> (fpte s)). unfold in_region in Hk.
    by rewrite lookup_insert_ne by lia.
  - intros a Ha. apply fd_alloc_mem. unfold in_region in Ha. lia.
  - apply bc_ok_frames; [exact Hok|lia].
Qed.

Lemma fd_alloc_view a : a / 4096 <> 0xD0000 + i -> bc_view s1 a = bc_view s a.
Proof.
  intros Ha. unfold bc_view, va_is_mapped. rewrite fd_alloc_pte, decide_False, fd_alloc_mem by exact Ha. reflexivity.
Qed.

Lemma fd_alloc_own a : bc_own s1 a <-> a / 4096 = 0xD0000 + i \/ bc_own s a.
Proof.
  unfold bc_own. rewrite fd_alloc_pte. case_decide as E; [|tauto]. split; [by left|]. intros _. split; [|done].
  unfold in_region. lia.
Qed.

Lemma fd_alloc_refs : fd_refs s1 i = 1.
Proof.
  unfold fd_refs, page_there. change (fpte s1) with (<[0xD0000 + i := 7]> (fpte s)).
  change (shared s1) with (delete (0xD0000 + i) (shared s)). by rewrite lookup_insert_eq, lookup_delete_eq.
Qed.

Lemma srv_page_alloc_ok : page_there s (0xD0000 + i) = false ->
  srv_page_alloc (FILEVA + i * PGSIZE) (Z.lor (Z.lor PTE_P PTE_U) PTE_W) s = Ret 0 s1.
Proof.
  intros Hp. pose proof (reserved_super _ (ok_reserved _ Hok)) as [Hnb _]. unfold srv_page_alloc.
  erewrite bind_Ret by done. destruct (Z.leb_spec (frames s) 0); [lia|]. erewrite bind_Ret by done.
  unfold s1, va_is_mapped, pte_of_va. rewrite fd_PPN. unfold page_there in Hp. rewrite Hp. done.
Qed.
End page.

Section alloc.
Context (s0 : FsState) (q : Request).

Lemma openfile_take_fills s i o w :
  filling s0 q s i o w -> o_fileid o + MAXOPEN < 2 ^ 31 ->
  let o' := o <| o_fileid := o_fileid o + MAXOPEN |> in
  wp (openfile_take i) s (fun r s' => r = (o_fileid o', Some i) /\ filling s0 q s' i o' (fun _ => 0)).
Proof.
  intros H Hid o'. pose proof (fl_wf _ _ _ _ _ _ H) as Hwf. pose proof Hwf as (_ & _ & Hr).
  assert (o <| o_fileid := u32 (o_fileid o + MAXOPEN) |> = o') as Ho'.
  { unfold o'. rewrite wrap_small by (unfold MAXOPEN in *; lia). reflexivity. }
  assert (entry_wf i o') as Hwf' by (rewrite <- Ho'; by apply entry_wf_next).
  pose proof (filling_set s0 q s i o w (fun o => o <| o_fileid := u32 (o_fileid o + MAXOPEN) |>) H) as H1.
  cbv beta in H1. rewrite Ho' in H1. specialize (H1 Hwf' eq_refl).
  unfold openfile_take, set_open. wsteps. match goal with |- wp _ ?st _ => set (s1 := st) in * end.
  wsteps. unfold open_entry. rewrite (fl_entry _ _ _ _ _ _ H1). cbn [default].
  wsteps. wuse filling_clear; [exact H1|]. intros _ s2 H2. wsteps. split; [|exact H2].
  f_equal. apply swrap_small; change (o_fileid o') with (o_fileid o + MAXOPEN); unfold MAXOPEN in *; lia.
Qed.

(** The first entry that nobody holds. *)
Section free.
Context (s : FsState) (Hry : ready s) (Hag : agree (bc_view s0) (bc_view s)) (Hreq : own_range s fsreq PGSIZE)
  (Hpage : forall k, 0 <= k < PGSIZE -> bc_view s (fsreq + k) = ld8 (rq_page q) k).

Lemma entry_filling i o :
  opentab s !! i = Some o -> 0 <= i < MAXOPEN -> fd_refs s i = 1 -> filling s0 q s i o (bc_view s).
Proof.
  intros Ho Hi Hr. destruct Hry as [Hok Htab Hfr _ _ Hpg _]. destruct (Htab i Hi) as (o' & Ho' & Hwf).
  rewrite Ho in Ho'. injection Ho' as <-. split; try assumption; [|done].
  destruct Hwf as (-> & _). apply Hpg; [exact Hi|]. unfold fd_refs in Hr. by destruct (page_there s (0xD0000 + i)).
Qed.

Lemma fresh_filling i o :
  opentab s !! i = Some o -> 0 <= i < MAXOPEN -> fd_refs s i = 0 ->
  exists s', srv_page_alloc (FILEVA + i * PGSIZE) (Z.lor (Z.lor PTE_P PTE_U) PTE_W) s = Ret 0 s' /\
    filling s0 q s' i o (bc_view s').
Proof.
  intros Ho Hi Hr. destruct Hry as [Hok Htab Hfr _ _ Hpg Hsh]. destruct (Htab i Hi) as (o' & Ho' & Hwf).
  rewrite Ho in Ho'. injection Ho' as <-.
  assert (page_there s (0xD0000 + i) = false) as Hnp.
  { specialize (Hsh i Hi). unfold fd_refs in Hr. destruct (page_there s (0xD0000 + i)); [|done].
    rewrite wrap_small in Hr by lia. lia. }
  eexists. split; [exact (srv_page_alloc_ok s i Hok Hfr Hnp)|].
  pose proof (fd_alloc_bc_ok s i Hi Hok Hfr) as Hok1. pose proof (fd_alloc_view s i Hi) as Hv. pose proof (fd_alloc_own s i Hi) as Hown.
  pose proof (fd_alloc_refs s i) as Hr1. set (s1 := assign shared _ _) in *. split.
  - exact Hok1.
  - intros a Ha. rewrite Hv; [by apply Hag|]. apply region_page in Ha. unfold in_region in Ha. lia.
  - exact Hi.
  - exact Ho.
  - exact Hwf.
  - intros k Hk. apply Hown. right. by apply Hreq.
  - intros k Hk. rewrite Hv; [by apply Hpage|]. unfold fsreq, PGSIZE in *. Z.div_mod_to_equations. lia.
  - intros k Hk. apply Hown. left. destruct Hwf as (-> & _). unfold FILEVA, PGSIZE in *. Z.div_mod_to_equations. lia.
  - done.
  - exact Hr1.
Qed.

Lemma openfile_alloc_loop_fills n i :
  0 <= i -> i + Z.of_nat n = MAXOPEN -> (exists j, i <= j < MAXOPEN /\ ~ held s j) ->
  wp (openfile_alloc_loop n i) s (fun r s' => exists j o, ~ held s j /\ r = (o_fileid o, Some j) /\ 0 <= o_fileid o < 2 ^ 31 /\
    filling s0 q s' j o (fun _ => 0)).
Proof.
  revert i. induction n as [|n IH]; intros i Hi Hn (j & Hj & Hnh); [lia|]. cbn [openfile_alloc_loop].
  assert (0 <= i < MAXOPEN) as Hir by lia. destruct (ry_tab _ Hry i Hir) as (o & Ho & Hwf).
  pose proof (ry_ids _ Hry i o Hir Ho) as Hids. pose proof Hwf as (Efd & _ & Hidr).
  wsteps. assert (open_entry i s = o) as -> by (unfold open_entry; by rewrite Ho). rewrite Efd.
  apply wp_elim. do 2 eexists. split; [apply pageref_fd|]. destruct (Z.eqb_spec (fd_refs s i) 0) as [E0|E0].
  { destruct (fresh_filling i o Ho Hir E0) as (s1 & Es1 & Hf1). apply wp_bind, wp_elim. do 2 eexists. split; [exact Es1|].
    assert (~ held s i) as Hni by (intros []; done). change (0 <? 0) with false. cbv iota.
    wuse openfile_take_fills; [exact Hf1|by apply Hids|]. intros r s2 [-> H2].
    exists i. eexists. split; [exact Hni|]. split; [reflexivity|]. split; [|exact H2]. specialize (Hids Hni). cbn. unfold MAXOPEN in *. lia. }
  destruct (Z.eqb_spec (fd_refs s i) 1) as [E1|E1].
  { assert (~ held s i) as Hni by (intros []; done). wuse openfile_take_fills; [by apply entry_filling|by apply Hids|].
    intros r s2 [-> H2]. exists i. eexists. split; [exact Hni|]. split; [reflexivity|]. split; [|exact H2].
    specialize (Hids Hni). cbn. unfold MAXOPEN in *. lia. }
  apply IH; [lia|lia|]. exists j. split; [|exact Hnh]. assert (i <> j) by (intros <-; by apply Hnh). lia.
Qed.
End free.
End alloc.

Lemma ready_step s s' :
  ready s -> bc_ok s' -> agree (bc_view s) (bc_view s') -> (forall a n, own_range s a n -> own_range s' a n) ->
  fds_kept s s' -> frames s' = frames s -> ready s'.
Proof.
  intros [Hok Htab Hfr (j & Hj & Hnh) Hids Hpg Hsh] Hok' Hag Hown Hk Ef.
  assert (forall i, 0 <= i -> held s' i <-> held s i) as Hh
    by (intros i Hi; unfold held; by rewrite (fds_kept_refs s s')).
  pose proof (proj1 (agree_reserved _ _ Hag (ok_nblocks _ Hok))) as Hnb. split.
  - exact Hok'.
  - unfold opentab_wf. by rewrite (proj1 Hk).
  - by rewrite <- Hnb, Ef.
  - exists j. split; [exact Hj|]. by rewrite Hh by lia.
  - intros i o Hi Ho Hn. rewrite (proj1 Hk) in Ho. apply (Hids i o Hi Ho). by rewrite <- Hh by lia.
  - intros i Hi Hp. apply Hown, Hpg; [exact Hi|]. rewrite <- Hp. symmetry. apply (proj2 Hk). lia.
  - intros i Hi. rewrite (proj1 (proj2 Hk (0xD0000 + i) ltac:(lia))). by apply Hsh.
Qed.

(** ** serve_open *)
Lemma take_seqZ a n k : take n (seqZ a (Z.of_nat (n + k))) = seqZ a (Z.of_nat n).
Proof.
  rewrite Nat2Z.inj_add, seqZ_app by lia. apply take_app_length'. rewrite length_seqZ. lia.
Qed.

(** The descriptor page of a file that was just opened. *)
Definition fresh_fd (o : OpenFile) (omode : Z) : Z -> Z :=
  vst 4 (vst 4 (vst 4 (fun _ => 0) (o_fd o + 12) (u32 (o_fileid o))) (o_fd o + 8) (u32 (Z.land omode O_ACCMODE)))
    (o_fd o + 0) (u32 devfile_id).

Section open.
Context (s0 : FsState) (q : Request) (path : list Z) (f : Z).
Let omode := i32 (vld 4 (ld8 (rq_page q)) MAXPATHLEN).
Context (Hchars : chars path) (Hlen : Z.of_nat (length path) < MAXPATHLEN - 1) (Hpath : cstr (ld8 (rq_page q)) 0 path)
  (Hcreat : has omode O_CREAT = false) (Htrunc : has omode O_TRUNC = false).
Context (Hopen : forall s, bc_ok s -> agree (bc_view s0) (bc_view s) ->
  wp (file_open path) s (fun r s' => r = (0, Some f) /\ same s s')).

Lemma req_path_ok s :
  ready s -> agree (bc_view s0) (bc_view s) -> own_range s fsreq PGSIZE ->
  (forall k, 0 <= k < PGSIZE -> bc_view s (fsreq + k) = ld8 (rq_page q) k) ->
  wp (req_path fsreq) s (fun r s' => r = path /\ ready s' /\ same s s' /\ fds_kept s s').
Proof using Hchars Hlen Hpath.
  intros Hry Hag Hown Hpg. unfold req_path. pose proof (ry_ok _ Hry) as Hok.
  assert (own_range s fsreq (Z.of_nat (Z.to_nat MAXPATHLEN))) as Ho
    by (eapply own_range_sub; [exact Hown|unfold MAXPATHLEN, PGSIZE; lia..]).
  apply wp_bind. eapply wp_mono; [exact (wp_and _ _ _ _ (keeps_wp fds_kept _ _ _ (keeps_load_bytes _ _) (load_bytes_ok _ s _ Hok Ho))
    (load_bytes_frames _ s _ Hok Ho))|]. cbn beta. intros l s' [[[-> Hs] Hk] Hf]. apply wp_ret.
  split; [|split; [|done]].
  2:{ eapply ready_step; [exact Hry|apply Hs| |intros; by eapply own_range_step|exact Hk|exact Hf]. intros a _. symmetry. apply Hs. }
  change (Z.to_nat MAXPATHLEN) with (Z.to_nat (MAXPATHLEN - 1) + 1)%nat. rewrite firstn_map, take_seqZ.
  apply c_string_at; [exact Hchars| |lia]. eapply cstr_shift; [|exact Hpath]. intros k Hk'. cbn [Z.add].
  apply Hpg. unfold MAXPATHLEN, PGSIZE in *. lia.
Qed.

Lemma serve_open_fills s whom perm :
  ready s -> agree (bc_view s0) (bc_view s) -> own_range s fsreq PGSIZE ->
  (forall k, 0 <= k < PGSIZE -> bc_view s (fsreq + k) = ld8 (rq_page q) k) ->
  wp (serve_open whom fsreq perm) s (fun r s' => exists i o,
    r = (0, Some (o_fd o), Z.lor (Z.lor (Z.lor PTE_SHARE PTE_P) PTE_U) PTE_W) /\ ~ held s i /\ o_file o = f /\
    filling s0 q s' i o (fresh_fd o omode)).
Proof.
  intros Hry Hag Hown Hpg. unfold serve_open. apply wp_bind. wuse req_path_ok; [done..|].
  intros p s1 (-> & Hry1 & Hs1 & Hk1). assert (forall a, bc_view s1 a = bc_view s a) as Hv1 by apply Hs1.
  apply wp_bind. wuse (openfile_alloc_loop_fills s0 q s1 Hry1).
  { intros a Ha. by rewrite Hv1, <- Hag. }
  { by eapply own_range_step. }
  { intros k Hk. by rewrite Hv1, Hpg. }
  { lia. }
  { reflexivity. }
  { exact (ry_free _ Hry1). }
  intros ro s2 (i & o & Hni & -> & Hid & H2). cbn [fst snd the].
  assert (~ held s i) as Hni'.
  { unfold held in *. pose proof (fl_i _ _ _ _ _ _ H2). by rewrite <- (fds_kept_refs s s1 i) by (lia || done). }
  destruct (Z.ltb_spec (o_fileid o) 0); [lia|]. wsteps. wuse filling_omode; [exact H2|]. fold omode.
  intros m s3 [-> H3]. rewrite Hcreat. wsteps.
  wuse (keeps_wp fds_kept); [apply keeps_file_open|apply Hopen; [apply H3|apply (fl_agree _ _ _ _ _ _ H3)]|].
  intros rf s4 [[-> Hs4] Hk4]. pose proof (filling_same _ _ _ _ _ _ _ H3 Hs4 Hk4) as H4. cbn [fst snd the].
  change (0 <? 0) with false. cbv iota. wsteps. wuse filling_omode; [exact H4|]. fold omode. intros m s5 [-> H5].
  rewrite Htrunc. wsteps. change (0 <? 0) with false. cbv iota. unfold set_open. wsteps.
  pose proof (filling_set _ _ _ _ _ _ (fun e : OpenFile => e <| o_file := f |>) H5) as H6. cbv beta in H6.
  specialize (H6 (fl_wf _ _ _ _ _ _ H5) eq_refl).
  match goal with |- wp _ ?st _ => set (s6 := st) end. change (filling s0 q s6 i (o <| o_file := f |>) (fun _ => 0)) in H6.
  wsteps. assert (open_entry i s6 = o <| o_file := f |>) as -> by (unfold open_entry; by rewrite (fl_entry _ _ _ _ _ _ H6)).
  set (o6 := o <| o_file := f |>) in *. wsteps. unfold set_fd_file_id, set_fd_omode, set_fd_dev_id.
  wuse filling_store; [exact H6|lia|lia|]. intros _ s7 H7. wsteps. wuse filling_omode; [exact H7|]. fold omode.
  intros m s8 [-> H8]. wsteps. wuse filling_store; [exact H8|lia|lia|]. intros _ s9 H9. wsteps.
  replace (o_fd o6) with (o_fd o6 + 0) at 1 by lia. wuse filling_store; [exact H9|lia|lia|]. intros _ s10 H10. wsteps.
  wuse filling_omode; [exact H10|]. fold omode. intros m s11 [-> H11]. wsteps.
  pose proof (filling_set _ _ _ _ _ _ (fun e : OpenFile => e <| o_mode := omode |>) H11) as H12. cbv beta in H12.
  specialize (H12 (fl_wf _ _ _ _ _ _ H11) eq_refl).
  exists i, (o6 <| o_mode := omode |>). split; [reflexivity|]. split; [exact Hni'|]. split; [reflexivity|]. exact H12.
Qed.
End open.

(** ** An open request *)
Record answered (s0 : FsState) (q : Request) (f omode : Z) (a : option Reply) (s' : FsState) (i : Z) (o : OpenFile) : Prop := {
  an_reply : exists rp, a = Some rp /\ rp_val rp = 0 /\ rp_pg rp = Some (o_fd o);
  an_i : 0 <= i < MAXOPEN;
  an_free : ~ held s0 i;
  an_ok : bc_ok s';
  an_agree : agree (bc_view s0) (bc_view s');
  an_entry : opentab s' !! i = Some o;
  an_wf : entry_wf i o;
  an_file : o_file o = f;
  an_held : held s' i;
  an_own : own_range s' (o_fd o) PGSIZE;
  an_fd : forall b, o_fd o <= b < o_fd o + PGSIZE -> bc_view s' b = fresh_fd o omode b
}.

(** The page goes to the program: one mapping more, and the request page is unmapped. *)
Lemma sent_answered s0 q f omode s i o rp :
  ~ held s0 i -> filling s0 q s i o (fresh_fd o omode) -> o_file o = f -> rp_val rp = 0 -> rp_pg rp = Some (o_fd o) ->
  let n := default 0 (shared s !! (0xD0000 + i)) + 1 in
  let s' := s <| shared := <[0xD0000 + i := n]> (shared s) |> <| fpte := delete (PPN fsreq) (fpte s) |> in
  answered s0 q f omode (Some rp) s' i o.
Proof.
  intros Hn [Hok Hag Hi Ho Hwf Hr Hp Hown Hfd Hrefs] Hf Hval Hpg n s'.
  assert (forall b, o_fd o <= b < o_fd o + PGSIZE -> b / 4096 <> 0xffff) as Hap by (apply (fd_page_apart o i Hwf Hi)).
  set (sh := s <| shared := <[0xD0000 + i := n]> (shared s) |>).
  assert (bc_ok sh) as Hok1 by (apply (bc_ok_other s); [split_and!; reflexivity|reflexivity|reflexivity|exact Hok]).
  split.
  - by exists rp.
  - exact Hi.
  - exact Hn.
  - apply (reply_ok sh Hok1).
  - intros a Ha. change (bc_view s' a) with (bc_view (sh <| fpte := delete (PPN fsreq) (fpte sh) |>) a).
    rewrite reply_view; [exact (Hag a Ha)|]. apply region_page in Ha. unfold in_region in Ha. lia.
  - exact Ho.
  - exact Hwf.
  - exact Hf.
  - assert (fd_refs s' i = 2) as E; [|unfold held; rewrite E; lia].
    unfold fd_refs, page_there in *. change (fpte s') with (delete 0xffff (fpte s)).
    change (shared s') with (<[0xD0000 + i := n]> (shared s)). rewrite lookup_delete_ne, lookup_insert_eq by lia.
    destruct (negb (Z.land (default 0 (fpte s !! (0xD0000 + i))) PTE_P =? 0)); [|done]. cbn [default id].
    unfold n, wrap in *. change (2 ^ 16) with 65536 in *. Z.div_mod_to_equations. lia.
  - apply (reply_own sh); [|exact Hown]. intros k Hk. apply Hap. lia.
  - intros b Hb. change (bc_view s' b) with (bc_view (sh <| fpte := delete (PPN fsreq) (fpte sh) |>) b).
    rewrite reply_view by (by apply Hap). exact (Hfd b Hb).
Qed.

Section request.
Context (s0 : FsState) (q : Request) (path : list Z) (f : Z).
Let omode := i32 (vld 4 (ld8 (rq_page q)) MAXPATHLEN).
Context (Hchars : chars path) (Hlen : Z.of_nat (length path) < MAXPATHLEN - 1) (Hpath : cstr (ld8 (rq_page q)) 0 path)
  (Hcreat : has omode O_CREAT = false) (Htrunc : has omode O_TRUNC = false).
Context (Hopen : forall s, bc_ok s -> agree (bc_view s0) (bc_view s) ->
  wp (file_open path) s (fun r s' => r = (0, Some f) /\ same s s')).

#[local] Transparent serve_one.
Lemma serve_one_open :
  ready s0 -> u32 (rq_req q) = FSREQ_OPEN -> pte_allows true (rq_perm q) = true ->
  wp (serve_one q) s0 (fun a s' => exists i o, answered s0 q f omode a s' i o).
Proof.
  intros Hry Hrq Hperm. unfold serve_one, map_request, unmap_request. rewrite Hrq.
  change (FSREQ_OPEN =? FSREQ_OPEN) with true. pose proof Hperm as [HP _]%andb_true_iff. apply negb_true_iff in HP.
  rewrite HP. apply wp_bind, wp_modify. match goal with |- wp _ ?st _ => change st with (with_request q s0) end.
  assert (fds_kept s0 (with_request q s0)) as Hk by exact (map_request_ok q s0 tt _ eq_refl).
  apply wp_bind. wuse (serve_open_fills s0 q path f); [done..| | | | |].
  - eapply ready_step; [exact Hry|apply request_ok, Hry|by apply arrived_agree|intros; by apply arrived_own|exact Hk|reflexivity].
  - by apply arrived_agree.
  - by apply arrived_own_page.
  - intros k Hk'. rewrite request_view, decide_True by (done || unfold fsreq, PGSIZE in *; Z.div_mod_to_equations; lia).
    f_equal. lia.
  - fold omode. intros r s2 (i & o & -> & Hnh & Hf & H2). cbn [fst snd]. unfold ipc_send. wsteps.
    exists i, o. pose proof (proj1 (fl_wf _ _ _ _ _ _ H2)) as Efd.
    rewrite Efd, fd_PPN. apply (sent_answered s0 q f omode s2 i o); [|exact H2|exact Hf|reflexivity|by rewrite Efd].
    unfold held in *. pose proof (fl_i _ _ _ _ _ _ H2). by rewrite <- (fds_kept_refs s0 _ i) by (lia || exact Hk).
Qed.
End request.

Lemma fresh_fd_fields o omode :
  0 <= o_fileid o < 2 ^ 32 ->
  vld 4 (fresh_fd o omode) (o_fd o) = devfile_id /\ vld 4 (fresh_fd o omode) (o_fd o + 4) = 0 /\
  vld 4 (fresh_fd o omode) (o_fd o + 8) = Z.land omode O_ACCMODE /\
  vld 4 (fresh_fd o omode) (o_fd o + 12) = o_fileid o.
Proof.
  intros Hid. unfold fresh_fd. assert (0 <= Z.land omode O_ACCMODE < 4) as Hm.
  { change O_ACCMODE with (2 ^ 2 - 1). rewrite land_low by lia. by apply Z.mod_pos_bound. }
  split; [|split; [|split]].
  - rewrite Z.add_0_r, vld_vst_eq. reflexivity.
  - rewrite !vld_vst_ne by (unfold no_overlap; lia). reflexivity.
  - rewrite vld_vst_ne by (unfold no_overlap; lia). rewrite vld_vst_eq.
    change (256 ^ Z.of_nat 4) with (2 ^ 32). rewrite wrap_small, Z.mod_small; lia.
  - rewrite !vld_vst_ne by (unfold no_overlap; lia). rewrite vld_vst_eq.
    change (256 ^ Z.of_nat 4) with (2 ^ 32). rewrite wrap_small, Z.mod_small; lia.
Qed.

(** ** Opening a file *)
Lemma fd_page_index j : 0 <= j < MAXFD -> INDEX2FD j / 4096 = 0xD0000 + j /\ fd2num (INDEX2FD j) = j.
Proof.
  intros Hj. unfold fd2num, INDEX2FD, FDTABLE, MAXFD, PGSIZE in *. rewrite (wrap_small 64 j), (wrap_small 64) by lia.
  rewrite wrap_small by lia. split; Z.div_mod_to_equations; lia.
Qed.

Lemma cfd_alloc_ok n : forall c i,
  0 <= i -> i + Z.of_nat n = MAXFD -> (exists j, i <= j < MAXFD /\ c_fds c !! (0xD0000 + j) = None) ->
  exists j, 0 <= j < MAXFD /\ c_fds c !! (0xD0000 + j) = None /\
    cfd_alloc_loop n i c = Ret (0, Some (INDEX2FD j)) c.
Proof.
  induction n as [|n IH]; intros c i Hi Hn (j & Hj & Hnone); [lia|]. cbn [cfd_alloc_loop]. erewrite bind_Ret by done.
  unfold fd_mapped at 1. rewrite (proj1 (fd_page_index i ltac:(lia))). case_bool_decide as Hs.
  - destruct (IH c (i + 1)) as (k & Hk & Hkn & Ek); [lia|lia| |by exists k]. exists j. split; [|done].
    assert (i <> j) by (intros <-; rewrite Hnone in Hs; by destruct Hs). lia.
  - exists i. split; [lia|]. split; [|done]. by apply eq_None_not_Some.
Qed.

(** The program can open a file. *)
Record opening (fsipcbuf : Z) (c : client) : Prop := {
  op_align : fsipcbuf mod 4096 = 0;
  op_below : 0 <= fsipcbuf < FDTABLE;
  op_buf : c_fds c !! (fsipcbuf / 4096) = None;
  op_slot : exists j, 0 <= j < MAXFD /\ c_fds c !! (0xD0000 + j) = None;
  op_srv : ready (c_srv c)
}.

Lemma answered_reading fsipcbuf c c' q f mode a i o j :
  opening fsipcbuf c -> answered (c_srv c) q f mode a (c_srv c') i o -> 0 <= j < MAXFD ->
  c_fds c' = <[0xD0000 + j := 0xD0000 + i]> (c_fds c) -> Z.land mode O_ACCMODE <> O_WRONLY ->
  file_at (bc_view (c_srv c)) f -> 0 <= f_size_of (bc_view (c_srv c)) f ->
  (forall p, 0 <= p < f_size_of (bc_view (c_srv c)) f -> present (bc_view (c_srv c)) f (p / 4096)) ->
  reading fsipcbuf c' (INDEX2FD j) i o 0 /\ fsize c' o = f_size_of (bc_view (c_srv c)) f /\
  forall p, 0 <= p < fsize c' o -> fbyte c' o p = bc_view (c_srv c) (file_addr (bc_view (c_srv c)) f p).
Proof.
  intros Hop [_ Hi Hfree Hok Hag Hent Hwf Hf Hheld Hown Hfd] Hj Efds Hmode Hfa Hsz Hpr.
  pose proof (ok_nblocks _ (ry_ok _ (op_srv _ _ Hop))) as Hnb.
  pose proof (agree_meta _ _ f Hag Hnb Hfa) as Hm. destruct (fd_page_index j Hj) as [Ej _].
  destruct (fresh_fd_fields o mode) as (Fdev & Foff & Fmode & Fid); [apply Hwf|].
  assert (forall k, 0 <= k <= 12 -> vld 4 (bc_view (c_srv c')) (o_fd o + k) = vld 4 (fresh_fd o mode) (o_fd o + k)) as Hld.
  { intros k Hk. apply vld_ext. intros b Hb. apply Hfd. unfold PGSIZE. lia. }
  assert (fsize c' o = f_size_of (bc_view (c_srv c)) f) as Esz by (unfold fsize; rewrite Hf; symmetry; apply (meta_size _ _ _ Hm)).
  split; [|split; [exact Esz|]].
  - split.
    + by rewrite Ej, Efds, lookup_insert_eq.
    + rewrite Efds, lookup_insert_ne; [apply Hop|]. pose proof (op_below _ _ Hop) as Hb. unfold FDTABLE, MAXFD in *.
      Z.div_mod_to_equations. lia.
    + exact Hok.
    + exact Hi.
    + exact Hent.
    + exact Hwf.
    + exact Hheld.
    + exact Hown.
    + rewrite Hf. by eapply meta_file_at.
    + fold (fsize c' o). rewrite Esz, Hf. intros p Hp. eapply meta_present; [exact Hm|]. by apply Hpr.
    + rewrite <- (Z.add_0_r (o_fd o)), Hld, Z.add_0_r by lia. exact Fdev.
    + rewrite Hld by lia. exact Foff.
    + rewrite Hld, Fmode by lia. by rewrite <- Z.land_assoc.
    + rewrite Hld by lia. exact Fid.
    + fold (fsize c' o). lia.
  - rewrite Esz. intros p Hp. unfold fbyte. rewrite Hf. rewrite <- (meta_file_addr _ _ _ Hm) by (by apply Hpr).
    symmetry. apply Hag. apply (file_addr_block _ f); [exact Hnb|by apply Hpr].
Qed.

Section client.
Context (fsipcbuf : Z) (c : client) (path : list Z) (mode f : Z).
Context (Hop : opening fsipcbuf c) (Hchars : chars path) (Hlen : Z.of_nat (length path) < MAXPATHLEN - 1).
Context (Hmode : 0 <= mode < 2 ^ 31) (Hcreat : has mode O_CREAT = false) (Htrunc : has mode O_TRUNC = false)
  (Hacc : Z.land mode O_ACCMODE <> O_WRONLY).
Context (Hopen : forall s, bc_ok s -> agree (bc_view (c_srv c)) (bc_view s) ->
  wp (file_open path) s (fun r s' => r = (0, Some f) /\ same s s')).

(** The page of the request. *)
Definition open_mem : bytes := st_list (st 4 (c_mem c) (fsipcbuf + MAXPATHLEN) mode) fsipcbuf (path ++ [0]).
Let q := mkRequest FSREQ_OPEN (c_env c) FSIPC_PERM (blit (Z.to_nat PGSIZE) open_mem fsipcbuf ∅ 0).

Lemma ld8_open_mem a : ld8 open_mem a =
  if decide (fsipcbuf <= a < fsipcbuf + Z.of_nat (length path) + 1) then default 0 ((path ++ [0]) !! Z.to_nat (a - fsipcbuf))
  else ld8 (st 4 (c_mem c) (fsipcbuf + MAXPATHLEN) mode) a.
Proof using Hchars.
  unfold open_mem. rewrite ld8_st_list.
  - rewrite length_app, Nat2Z.inj_add, Z.add_assoc. reflexivity.
  - apply Forall_app. split; [|by repeat constructor]. eapply Forall_impl; [exact Hchars|]. cbn. lia.
Qed.

Lemma open_page k : 0 <= k < PGSIZE -> ld8 (rq_page q) k = ld8 open_mem (fsipcbuf + k).
Proof using Type.
  intros Hk. change (rq_page q) with (blit (Z.to_nat PGSIZE) open_mem fsipcbuf ∅ 0). rewrite ld8_blit.
  rewrite decide_True by lia. f_equal. lia.
Qed.

Lemma open_path : cstr (ld8 (rq_page q)) 0 path.
Proof using Hchars Hlen.
  intros k ch Hk. pose proof (lookup_lt_Some _ _ _ Hk) as Hlt. rewrite length_app in Hlt. simpl in Hlt.
  unfold MAXPATHLEN in Hlen. rewrite open_page by (unfold PGSIZE; lia). rewrite ld8_open_mem, decide_True by lia.
  replace (Z.to_nat (fsipcbuf + (0 + Z.of_nat k) - fsipcbuf)) with k by lia. by rewrite Hk.
Qed.

Lemma open_mode : i32 (vld 4 (ld8 (rq_page q)) MAXPATHLEN) = mode.
Proof using Hchars Hlen Hmode.
  assert (vld 4 (ld8 (rq_page q)) MAXPATHLEN = mode) as ->; [|apply swrap_small; lia].
  transitivity (vld 4 (ld8 (st 4 (c_mem c) (fsipcbuf + MAXPATHLEN) mode)) (fsipcbuf + MAXPATHLEN)).
  - apply vld_shift. unfold MAXPATHLEN in *. intros j Hj. rewrite open_page by (unfold PGSIZE; lia).
    rewrite ld8_open_mem, decide_False by lia. f_equal. lia.
  - rewrite vld_ld, ld_st_eq. apply Z.mod_small. change (256 ^ Z.of_nat 4) with (2 ^ 32). lia.
Qed.

(** What the program has then: a descriptor of the file, at the beginning. *)
Definition just_opened (j : Z) (c' : client) : Prop := exists i o,
  c_fds c' = <[0xD0000 + j := 0xD0000 + i]> (c_fds c) /\ reading fsipcbuf c' (INDEX2FD j) i o 0 /\
  fsize c' o = f_size_of (bc_view (c_srv c)) f /\
  (forall p, 0 <= p < fsize c' o -> fbyte c' o p = bc_view (c_srv c) (file_addr (bc_view (c_srv c)) f p)) /\
  forall a, ~ (fsipcbuf <= a < fsipcbuf + 4096) -> ld8 (c_mem c') a = ld8 (c_mem c) a.

Context (Hfa : file_at (bc_view (c_srv c)) f) (Hsz : 0 <= f_size_of (bc_view (c_srv c)) f)
  (Hpr : forall p, 0 <= p < f_size_of (bc_view (c_srv c)) f -> present (bc_view (c_srv c)) f (p / 4096)).

Lemma fsipc_open j : 0 <= j < MAXFD ->
  wp (fsipc fsipcbuf FSREQ_OPEN (INDEX2FD j)) (c <| c_mem := open_mem |>) (fun r c' => r = 0 /\ just_opened j c').
Proof.
  intros Hj. pose proof (serve_one_open (c_srv c) q path f Hchars Hlen open_path) as Hs. rewrite open_mode in Hs.
  specialize (Hs Hcreat Htrunc Hopen (op_srv _ _ Hop) eq_refl eq_refl).
  destruct (proj1 (wp_elim _ _ _) Hs) as (a & s' & Es & i & o & Ha). clear Hs.
  destruct (fd_page_index j Hj) as [Ej _]. destruct (an_reply _ _ _ _ _ _ _ _ Ha) as (rp & -> & Hval & Hpg).
  unfold wp, fsipc. cbv zeta. fold open_mem. change (c_mem (c <| c_mem := open_mem |>)) with open_mem.
  change (c_env (c <| c_mem := open_mem |>)) with (c_env c). change (c_srv (c <| c_mem := open_mem |>)) with (c_srv c).
  fold q. rewrite Es, Hval, Hpg, Ej. destruct (Z.eqb_spec (INDEX2FD j) 0) as [E0|_]; [rewrite E0 in Ej; change (0 / 4096) with 0 in Ej; lia|].
  pose proof (fun a => ld8_blit (Z.to_nat PGSIZE) (rp_page rp) 0 open_mem fsipcbuf a) as Hblit.
  set (mem' := blit _ (rp_page rp) 0 open_mem fsipcbuf) in *. clearbody mem'. change (Z.of_nat (Z.to_nat PGSIZE)) with 4096 in Hblit.
  set (c' := _ <| c_fds := _ |>). split; [reflexivity|].
  assert (c_fds c' = <[0xD0000 + j := 0xD0000 + i]> (c_fds c)) as Efds.
  { transitivity (<[0xD0000 + j := o_fd o / 4096]> (c_fds c)); [reflexivity|]. f_equal.
    destruct (an_wf _ _ _ _ _ _ _ _ Ha) as (-> & _). unfold FILEVA, PGSIZE. Z.div_mod_to_equations. lia. }
  destruct (answered_reading fsipcbuf c c' q f mode (Some rp) i o j Hop Ha Hj Efds Hacc Hfa Hsz Hpr) as (Hrd & Hfs & Hfb).
  exists i, o. split; [exact Efds|]. split; [exact Hrd|]. split; [exact Hfs|]. split; [exact Hfb|].
  intros b Hb. change (c_mem c') with mem'. rewrite Hblit, decide_False by exact Hb.
  unfold MAXPATHLEN in *. rewrite ld8_open_mem, decide_False by lia. unfold MAXPATHLEN. rewrite ld8_st, decide_False by lia. reflexivity.
Qed.

Lemma open_ok :
  wp (open fsipcbuf path mode) c (fun r c' => 0 <= r < MAXFD /\ c_fds c !! (0xD0000 + r) = None /\ just_opened r c').
Proof.
  unfold open. rewrite Z.geb_leb. destruct (Z.leb_spec MAXPATHLEN (Z.of_nat (length path))) as [Hx|_]; [lia|].
  destruct (op_slot _ _ Hop) as (j0 & Hj0 & Hn0).
  destruct (cfd_alloc_ok (Z.to_nat MAXFD) c 0) as (j & Hj & Hnone & Ej); [lia|reflexivity|by exists j0|].
  apply wp_bind, wp_elim. do 2 eexists. split; [exact Ej|]. cbv iota beta.
  apply wp_bind, wp_elim. do 2 eexists. split.
  { apply cstore_own. pose proof (op_align _ _ Hop). unfold MAXPATHLEN.
    replace ((fsipcbuf + 1024) / 4096) with (fsipcbuf / 4096) by (Z.div_mod_to_equations; lia). apply (op_buf _ _ Hop). }
  rewrite (wrap_small 32 mode) by lia. apply wp_bind. unfold cstrcpy. apply wp_modify, wp_bind.
  wuse (fsipc_open j Hj). intros r c' [-> Ho]. change (0 <? 0) with false. cbv iota. apply wp_ret.
  rewrite (proj2 (fd_page_index j Hj)). rewrite swrap_small by (unfold MAXFD in *; lia). done.
Qed.
End client.

(** ** From the host to a program *)
Section image.
Context (fsipcbuf : Z) (c : client) (n : Z) (fs : list (list Z * list Z)).
Context (Him : image_ok (bc_view (c_srv c)) DISKMAP n fs) (Hn : n <= 10240) (Hlen : 1 <= Z.of_nat (length fs) <= MAX_DIR_ENTS)
  (Hroom : root_block fs + dir_blocks fs < n) (Hfit : Forall file_fits (layout 3 fs)) (Hnames : names_ok fs).
Context (Hop : opening fsipcbuf c) (path data : list Z) (Hin : (path, data) ∈ fs).

(** The file, opened: its size and bytes are those of the host's. *)
Lemma open_host_file :
  wp (open fsipcbuf (slash :: last_elem path) O_RDONLY) c (fun r c' => 0 <= r < MAXFD /\ exists i o,
    c_fds c' = <[0xD0000 + r := 0xD0000 + i]> (c_fds c) /\ reading fsipcbuf c' (INDEX2FD r) i o 0 /\
    fsize c' o = Z.of_nat (length data) /\ forall p, 0 <= p < Z.of_nat (length data) -> fbyte c' o p = byte_at data p).
Proof.
  pose proof (list_elem_of_lookup_1 _ _ Hin) as [i Hi].
  destruct (lookup_lt_is_Some_2 (layout 3 fs) i) as [p Hp]; [rewrite layout_length; by eapply lookup_lt_Some|].
  destruct (layout_names fs 3 i p Hp) as (path' & data' & Hi' & Hname & Hdata). rewrite Hi in Hi'. injection Hi' as <- <-.
  destruct (placed_facts fs Hfit i p Hp) as ((Hch & Hnl & _) & _). rewrite Hname in Hch, Hnl.
  set (f := DISKMAP + 4096 * root_block fs + 256 * Z.of_nat i).
  pose proof (placed_size _ _ _ Him Hfit i p Hp) as Hsz. fold f in Hsz. unfold p_size in Hsz. rewrite Hdata in Hsz.
  pose proof (dir_blocks_range fs Hlen) as Hdb. pose proof (root_block_ge fs) as Hr3.
  assert (forall k, 0 <= k < Z.of_nat (length data) -> present (bc_view (c_srv c)) f (k / 4096) /\
    bc_view (c_srv c) (file_addr (bc_view (c_srv c)) f k) = byte_at data k) as Hb.
  { intros k Hk. rewrite <- Hdata. apply (placed_byte _ _ _ Him Hn Hlen Hroom Hfit i p Hp). unfold p_size. by rewrite Hdata. }
  wuse (open_ok fsipcbuf c (slash :: last_elem path) O_RDONLY f Hop).
  - constructor; [done|exact Hch].
  - unfold MAXPATHLEN. change MAXNAMELEN with 128 in Hnl. simpl. lia.
  - done.
  - reflexivity.
  - reflexivity.
  - discriminate.
  - intros s Hok Hag. apply (open_placed s n fs i p path data); try done.
    apply (image_shift (bc_view (c_srv c)) _ DISKMAP); [done|lia|lia|lia|exact Him|].
    intros k Hk. symmetry. apply Hag. unfold DISKSIZE. lia.
  - exact (placed_file_at _ _ _ Him Hn Hlen Hroom Hfit i p Hp).
  - lia.
  - rewrite Hsz. intros k Hk. by apply Hb.
  - intros r c' (Hr & _ & k & o & Efds & Hrd & Hfs & Hfb & _). split; [exact Hr|]. exists k, o. rewrite Hfs, Hsz in Hfb |- *.
    split; [exact Efds|]. split; [exact Hrd|]. split; [done|]. intros x Hx. rewrite Hfb by exact Hx. by apply Hb.
Qed.
End image.

(** C15: From a file on the host to a program of the system: fsformat writes an image with
    the files of its command line (readable ones, at least one and at most 128, with names of fewer than
    128 characters, each shorter than MAXFILESIZE and all fitting on the disk, whose paths
    end in different, non-empty names); on a server that has the image as its disk, a program
    opens the last part of the path of any of them in the root directory, calls readn
    and gets the bytes of the host's file, up to its end or as many as it asked for.
    Between are the directory, the block lists and the bitmap of the image, the block
    cache and its faults, the table of open files, the requests by messages and the
    descriptor page that server and program share. *)
Theorem program_reads_host_file h prog img nb n fs :
  strtol0 nb = Some (n, []) -> input_ok h n fs -> names_ok fs ->
  wp (fmt_main (prog :: img :: nb :: map fst fs)) h (fun r h' => r = 0 /\
    forall fsipcbuf c path data buf count fuel,
      let m := Z.min count (Z.of_nat (length data)) in
      (path, data) ∈ fs -> opening fsipcbuf c -> holds_image (c_srv c) h' n ->
      0 <= buf -> 0 <= count -> buf + count <= FDTABLE -> no_overlap buf count fsipcbuf 4096 ->
      (forall k, 0 <= k < count -> c_fds c !! ((buf + k) / 4096) = None) ->
      m <= PGSIZE * (Z.of_nat fuel - 1) ->
      wp (fd ← open fsipcbuf (slash :: last_elem path) O_RDONLY; creadn fsipcbuf fuel fd buf count) c
        (fun r c' => r = m /\ forall k, 0 <= k < m -> cview c' (buf + k) = byte_at data k)).
Proof.
  intros Hnb Hin Hnames. wuse fmt_main_ok; [done..|]. intros r h' (-> & HD & Him). split; [done|].
  intros fsipcbuf c path data buf count fuel m Hpath Hop Hs Hb Hc Hbc Hno Hown Hf.
  unfold holds_image in Hs. rewrite HD in Hs. destruct Hin as [_ Hn _ _ Hfit Hlen Hroom _].
  pose proof (dir_blocks_range fs Hlen) as Hdb. pose proof (root_block_ge fs) as Hr3.
  assert (image_ok (bc_view (c_srv c)) DISKMAP n fs) as Hs' by (eapply image_shift; [done|done|lia|lia|exact Him|exact Hs]).
  apply wp_bind. wuse (open_host_file fsipcbuf c n fs Hs' Hn Hlen Hroom Hfit Hnames Hop path data Hpath).
  intros fd c1 (Hfd & i & o & Efds & Hrd & Hsz & Hbytes).
  assert (Z.of_nat (length data) < 2 ^ 31) as Hl by (rewrite <- Hsz; apply (fsize_range _ _ _ _ _ _ Hrd)).
  unfold creadn. wuse (creadn_loop_ok fsipcbuf fuel c1 fd i o 0 buf count 0 Hrd Hfd (op_align _ _ Hop));
    rewrite ?Hsz, ?Z.add_0_r, ?Z.sub_0_r; [unfold FDTABLE in *; lia..|exact Hno|exact Hf|].
  fold m. intros r c2 [-> D]. split; [lia|]. intros k Hk. unfold cview.
  rewrite (dl_fds _ _ _ _ _ _ _ _ _ D), Efds, lookup_insert_ne, Hown.
  - rewrite (dl_bytes _ _ _ _ _ _ _ _ _ D) by exact Hk. apply Hbytes. unfold m in Hk. lia.
  - unfold m in Hk. lia.
  - unfold m, FDTABLE in *. Z.div_mod_to_equations. lia.
Qed.

(** ** A run: a program on the server of the demonstration image *)
Definition empty_entry (i : Z) : OpenFile := mkOpenFile i 0 0 (FILEVA + i * PGSIZE).
Definition empty_table : gmap Z OpenFile := list_to_map ((fun i => (i, empty_entry i)) <$> seqZ 0 MAXOPEN).

Lemma empty_table_lookup i o : 0 <= i < MAXOPEN -> empty_table !! i = Some o <-> o = empty_entry i.
Proof.
  intros Hi. unfold empty_table. assert (NoDup ((fun i => (i, empty_entry i)) <$> seqZ 0 MAXOPEN).*1) as Hnd.
  { assert (((fun i => (i, empty_entry i)) <$> seqZ 0 MAXOPEN).*1 = seqZ 0 MAXOPEN) as ->; [|apply NoDup_seqZ].
    rewrite <- list_fmap_compose. apply list_fmap_id. }
  rewrite <- elem_of_list_to_map by exact Hnd. rewrite list_elem_of_fmap. split.
  - by intros (j & [= -> ->] & _).
  - intros ->. exists i. split; [done|]. apply elem_of_seqZ. lia.
Qed.

Definition program_on (disk : bytes) : client := mkClient ∅ ∅ 0x1001 ((server_on disk) <| opentab := empty_table |>).

Lemma program_opening disk : bc_ok (server_on disk) -> v_nblocks (bc_view (server_on disk)) < 64 -> opening 0x804000 (program_on disk).
Proof.
  intros Hok Hnb. set (s := (server_on disk) <| opentab := empty_table |>).
  assert (forall i, 0 <= i -> page_there s (0xD0000 + i) = false) as Hp.
  { intros i Hi. unfold page_there. change (fpte s) with server_ptes.
    destruct (server_ptes !! (0xD0000 + i)) eqn:E; [|done]. apply server_ptes_only in E. lia. }
  split; [reflexivity|unfold FDTABLE; lia|reflexivity|exists 0; split; [unfold MAXFD; lia|reflexivity]|].
  change (c_srv (program_on disk)) with s. split.
  - apply (bc_ok_other (server_on disk)); [split_and!; reflexivity|reflexivity|reflexivity|exact Hok].
  - intros i Hi. exists (empty_entry i). split; [by apply empty_table_lookup|]. unfold MAXOPEN in *.
    split_and!; [done|apply Z.mod_small; done|cbn; lia|cbn; lia].
  - exact Hnb.
  - exists 0. split; [unfold MAXOPEN; lia|]. unfold held, fd_refs. rewrite Hp by lia. tauto.
  - intros i o Hi Ho _. apply empty_table_lookup in Ho as ->; [|done]. cbn. unfold MAXOPEN in *. lia.
  - intros i Hi. rewrite Hp by lia. discriminate.
  - intros i _. change (shared s) with (∅ : gmap Z Z). rewrite lookup_empty. cbn. lia.
Qed.

Lemma program_reads_host_file_witness :
  wp (fmt_main ([] :: [] :: [0x38] :: map fst demo_files)) demo_host (fun r h' => r = 0 /\
    wp (fd ← open 0x804000 [slash; 0x68; 0x69] O_RDONLY; creadn 0x804000 2 fd 0x1000 10) (program_on (h_mem h'))
      (fun r c' => r = 2 /\ cview c' 0x1000 = 0x48 /\ cview c' 0x1001 = 0x69)).
Proof.
  assert (strtol0 [0x38] = Some (8, [])) as Hnb by (vm_compute; reflexivity).
  pose proof (program_reads_host_file demo_host [] [] [0x38] 8 demo_files Hnb demo_input demo_files_names) as Hw.
  pose proof (fmt_main_ok demo_host [] [] [0x38] 8 demo_files Hnb demo_input) as Him.
  eapply wp_mono; [exact (wp_and _ _ _ _ Hw Him)|]. clear Hw Him. cbn beta.
  intros r h' [[-> Hs] (_ & HD & Him)]. split; [reflexivity|]. change (h_mmap demo_host) with 0 in HD, Him.
  assert (forall i, 0 <= i < 4096 * 8 -> bc_view (server_on (h_mem h')) (DISKMAP + i) = hview h' (0 + i)) as Hview
    by (intros i Hi; apply server_view; unfold DISKSIZE; lia).
  assert (image_ok (bc_view (server_on (h_mem h'))) DISKMAP 8 demo_files) as Him'
    by (apply (image_shift (hview h') _ 0); [apply demo_input|done|done|done|exact Him|exact Hview]).
  pose proof (image_nblocks _ _ _ Him') as Hn8.
  assert (bc_ok (server_on (h_mem h'))) as Hok.
  { destruct demo_input as [_ _ _ _ _ Hlen Hroom _].
    apply (server_on_ok _ 8); [|exact Hn8|lia]. apply (image_reserved _ _ _ Him'); [lia|exact Hlen|exact Hroom]. }
  eapply wp_mono; [apply (Hs 0x804000 (program_on (h_mem h')) [0x68; 0x69] [0x48; 0x69] 0x1000 10 2%nat)|].
  - constructor.
  - apply program_opening; [exact Hok|lia].
  - intros i Hi. rewrite HD. exact (Hview i Hi).
  - lia.
  - lia.
  - unfold FDTABLE. lia.
  - left. lia.
  - intros k _. apply lookup_empty.
  - unfold PGSIZE. simpl. lia.
  - intros r' c' (-> & Hb). split_and!; [reflexivity|exact (Hb 0 ltac:(simpl; lia))|exact (Hb 1 ltac:(simpl; lia))].
Defined.
