(* ===== verification/Boot.v ===== *)
(** * The boot loader: boot1/main.c

    It runs with physical addresses, reads the kernel from the first disk, which is an ELF
    image from sector 3 on, and enters it.  The disk drive takes a command when it is
    written to its port, and has the sector at the data port. *)
From S2P Require Import Prelude Mmu CMem BlockCache Bc BcSpec Spawn.

Record bootstate := mkBoot { b_mem : bytes; b_disk : bytes; b_regs : gmap Z Z; b_status : Z; b_sector : Z }.
#[export] Instance bootstate_fields : Fields bootstate := fun s => mkBoot (b_mem s) (b_disk s) (b_regs s) (b_status s) (b_sector s).

Inductive bstop :=
| BEnter (entry : Z)   (* control goes to the kernel *)
| BHang.               (* an endless loop: no kernel (two writes to a port of the emulator come first, and
                          are left out), or the disk is never ready *)
Abbreviation B := (M bootstate bstop).

Definition ELFHDR : Z := 0x10000.

(** The drive. *)
Definition boot_reg (s : bootstate) (port : Z) : Z := default 0 (b_regs s !! port).
Definition boot_lba (s : bootstate) : Z :=
  boot_reg s 0x1F3 + 256 * boot_reg s 0x1F4 + 65536 * boot_reg s 0x1F5 + 16777216 * (boot_reg s 0x1F6 mod 16).
Definition boot_outb (port v : Z) : B unit := modify (fun s =>
  if port =? 0x1F7 then s <| b_sector := boot_lba s |> else s <| b_regs := <[port := u8 v]> (b_regs s) |>).

Definition waitdisk : B unit := fun s => if Z.land (b_status s) 0xC0 =? 0x40 then Ret tt s else Stop BHang s.

Definition insl_boot (dst : Z) : B unit := modify (fun s =>
  s <| b_mem := blit (Z.to_nat SECTSIZE) (b_disk s) (b_sector s * SECTSIZE) (b_mem s) dst |>).

Definition readsect (dst offset : Z) : B unit :=
  waitdisk;;
  boot_outb 0x1F2 1;;
  boot_outb 0x1F3 offset;;
  boot_outb 0x1F4 (Z.shiftr offset 8);;
  boot_outb 0x1F5 (Z.shiftr offset 16);;
  boot_outb 0x1F6 (Z.lor (Z.shiftr offset 24) 0xE0);;
  boot_outb 0x1F7 0x20;;
  waitdisk;;
  insl_boot dst.

Fixpoint readseg_loop (n : nat) (pa offset : Z) : B unit :=
  match n with
  | O => mret tt
  | S n' => readsect pa offset;; readseg_loop n' (pa + SECTSIZE) (offset + 1)
  end.
Definition readseg (pa count offset : Z) : B unit :=
  let end_pa := u64 (pa + count) in
  let pa := pa - pa mod SECTSIZE in
  let offset := offset / SECTSIZE + 3 in
  readseg_loop (Z.to_nat ((end_pa - pa + SECTSIZE - 1) / SECTSIZE)) pa offset.

(** struct Elf and struct Proghdr. *)
Definition boot_ld (n : nat) (a : Z) : B Z := gets (fun s => ld n (b_mem s) a).

Fixpoint boot_segments (n : nat) (ph : Z) : B unit :=
  match n with
  | O => mret tt
  | S n' =>
      pa ← boot_ld 8 (ph + 24);
      memsz ← boot_ld 8 (ph + 40);
      off ← boot_ld 8 (ph + 8);
      readseg pa memsz off;;
      boot_segments n' (ph + 56)
  end.

Definition bootmain : B unit :=
  readseg ELFHDR (SECTSIZE * 8) 0;;
  magic ← boot_ld 4 ELFHDR;
  if negb (magic =? ELF_MAGIC) then stop BHang
  else
    phoff ← boot_ld 8 (ELFHDR + 32);
    phnum ← boot_ld 2 (ELFHDR + 56);
    boot_segments (Z.to_nat phnum) (ELFHDR + phoff);;
    entry ← boot_ld 8 (ELFHDR + 24);
    stop (BEnter entry).

(** ** A sector *)
Lemma readsect_ok s dst offset :
  Z.land (b_status s) 0xC0 = 0x40 -> 0 <= offset < 2 ^ 28 ->
  wp (readsect dst offset) s (fun _ s' => b_disk s' = b_disk s /\ b_status s' = b_status s /\
    forall a, ld8 (b_mem s') a = if decide (dst <= a < dst + 512) then ld8 (b_disk s) (512 * offset + (a - dst)) else ld8 (b_mem s) a).
Proof.
  intros Hst Ho. assert (forall s', b_status s' = b_status s -> waitdisk s' = Ret tt s') as Hw by (intros s' E; unfold waitdisk; by rewrite E, Hst).
  assert (Z.lor (Z.shiftr offset 24) 0xE0 = offset / 2 ^ 24 + 0xE0) as Hl.
  { rewrite Z.shiftr_div_pow2, Z.lor_comm by lia. rewrite (lor_low_add 0xE0 (offset / 2 ^ 24) 4); [lia|lia|done|].
    change (2 ^ 24) with 16777216. Z.div_mod_to_equations. lia. }
  unfold readsect. apply wp_bind, wp_elim. do 2 eexists. split; [by apply Hw|]. unfold boot_outb at 1 2 3 4 5 6. wsteps.
  match goal with |- wp _ ?st _ => set (s1 := st) end.
  apply wp_elim. do 2 eexists. split; [by apply Hw|]. wsteps. unfold insl_boot. wsteps.
  split; [reflexivity|]. split; [reflexivity|]. intros a.
  assert (b_sector s1 = offset) as Hsec.
  { set (regs := <[0x1F6 := u8 (Z.lor (Z.shiftr offset 24) 0xE0)]> (<[0x1F5 := u8 (Z.shiftr offset 16)]>
      (<[0x1F4 := u8 (Z.shiftr offset 8)]> (<[0x1F3 := u8 offset]> (<[0x1F2 := u8 1]> (b_regs s)))))).
    transitivity (boot_lba (s <| b_regs := regs |>)); [reflexivity|]. unfold boot_lba, boot_reg.
    change (b_regs (s <| b_regs := regs |>)) with regs. unfold regs.
    repeat (rewrite lookup_insert_eq || rewrite lookup_insert_ne by done). cbn [default id].
    rewrite Hl, !Z.shiftr_div_pow2 by lia. unfold wrap. change (2 ^ 8) with 256. change (2 ^ 16) with 65536. change (2 ^ 24) with 16777216.
    change (2 ^ 28) with 268435456 in Ho. Z.div_mod_to_equations. lia. }
  transitivity (ld8 (blit (Z.to_nat SECTSIZE) (b_disk s) (b_sector s1 * SECTSIZE) (b_mem s) dst) a); [reflexivity|].
  rewrite ld8_blit, Hsec. change (Z.of_nat (Z.to_nat SECTSIZE)) with 512. case_decide; [|done]. f_equal. unfold SECTSIZE. lia.
Qed.

(** ** Segments *)
Lemma readseg_loop_ok n : forall s pa offset,
  Z.land (b_status s) 0xC0 = 0x40 -> 0 <= offset -> offset + Z.of_nat n <= 2 ^ 28 ->
  wp (readseg_loop n pa offset) s (fun _ s' => b_disk s' = b_disk s /\ b_status s' = b_status s /\
    forall a, ld8 (b_mem s') a = if decide (pa <= a < pa + 512 * Z.of_nat n) then ld8 (b_disk s) (512 * offset + (a - pa)) else ld8 (b_mem s) a).
Proof.
  induction n as [|n IH]; intros s pa offset Hst Ho Hn; cbn [readseg_loop].
  { apply wp_ret. split_and!; [done|done|]. intros a. by rewrite decide_False by lia. }
  apply wp_bind. wuse readsect_ok; [done|lia|]. intros _ s1 (Hd1 & Hs1 & Hm1).
  wuse (IH s1); [by rewrite Hs1|lia|lia|]. intros _ s2 (Hd2 & Hs2 & Hm2). unfold SECTSIZE in *.
  split_and!; [congruence|congruence|]. intros a. rewrite Hm2, Hd1, Hm1.
  repeat case_decide; try lia; try done; f_equal; lia.
Qed.

(** The bytes of the image, and what a segment takes up in memory when whole sectors are
    read. *)
Definition image (s : bootstate) (i : Z) : Z := ld8 (b_disk s) (1536 + i).
Definition seg_lo (pa : Z) : Z := pa - pa mod 512.
Definition seg_hi (pa count : Z) : Z := seg_lo pa + 512 * ((pa + count - seg_lo pa + 511) / 512).

Lemma seg_bounds pa count : 0 <= count -> seg_lo pa <= pa /\ pa + count <= seg_hi pa count /\ (pa + count - seg_lo pa + 511) / 512 <= count / 512 + 2.
Proof. intros Hc. unfold seg_hi, seg_lo. Z.div_mod_to_equations. lia. Qed.

Lemma readseg_ok s pa count offset :
  Z.land (b_status s) 0xC0 = 0x40 -> 0 <= pa -> 0 <= count -> pa + count < 2 ^ 32 -> 0 <= offset < 2 ^ 32 -> pa mod 512 = offset mod 512 ->
  wp (readseg pa count offset) s (fun _ s' => b_disk s' = b_disk s /\ b_status s' = b_status s /\
    forall a, ld8 (b_mem s') a = if decide (seg_lo pa <= a < seg_hi pa count) then image s (offset + (a - pa)) else ld8 (b_mem s) a).
Proof.
  intros Hst Hp Hc Hpc Ho Hm. destruct (seg_bounds pa count Hc) as (Hlo & Hhi & Hsec). unfold readseg, SECTSIZE. rewrite wrap_small by lia. fold (seg_lo pa).
  replace (pa + count - seg_lo pa + 512 - 1) with (pa + count - seg_lo pa + 511) by lia.
  assert (0 <= (pa + count - seg_lo pa + 511) / 512) as Hn by (apply Z.div_pos; lia).
  assert (count / 512 <= 2 ^ 32 / 512) as Hq by (apply Z.div_le_mono; lia). change (2 ^ 32 / 512) with 8388608 in Hq.
  assert (offset / 512 <= 8388608) as Hq' by (change 8388608 with (2 ^ 32 / 512); apply Z.div_le_mono; lia).
  assert (0 <= offset / 512) as Hq0 by (apply Z.div_pos; lia).
  wuse readseg_loop_ok; [done|lia|rewrite Z2Nat.id; lia|].
  intros _ s' (Hd & Hs & Hmem). split_and!; [done|done|]. intros a. rewrite Hmem, Z2Nat.id by lia.
  unfold seg_hi. case_decide; [|done]. unfold image. f_equal. unfold seg_lo. Z.div_mod_to_equations. lia.
Qed.

(** ** The kernel *)
Record segment := mkSegment { sg_pa : Z; sg_size : Z; sg_off : Z }.

(** The program header [i] of the image. *)
Definition phdr (s : bootstate) (i : Z) : segment :=
  let ph := vld 8 (image s) 32 + 56 * i in
  mkSegment (vld 8 (image s) (ph + 24)) (vld 8 (image s) (ph + 40)) (vld 8 (image s) (ph + 8)).

(** It lies in memory and leaves the page with the headers alone. *)
Record segment_fits (g : segment) : Prop := {
  sf_pa : 0 <= sg_pa g;
  sf_size : 0 <= sg_size g;
  sf_end : sg_pa g + sg_size g < 2 ^ 32;
  sf_off : 0 <= sg_off g < 2 ^ 32;
  sf_align : sg_pa g mod 512 = sg_off g mod 512;
  sf_hdr : seg_hi (sg_pa g) (sg_size g) <= ELFHDR \/ ELFHDR + 4096 <= seg_lo (sg_pa g)
}.

(** A later segment does not reach into an earlier one with the sectors it is read by. *)
Definition spared (g later : segment) : Prop :=
  sg_pa g + sg_size g <= seg_lo (sg_pa later) \/ seg_hi (sg_pa later) (sg_size later) <= sg_pa g.

Definition loaded (s : bootstate) (g : segment) (s' : bootstate) : Prop :=
  forall k, 0 <= k < sg_size g -> ld8 (b_mem s') (sg_pa g + k) = image s (sg_off g + k).

(** The headers are in memory. *)
Definition headers_in (s s' : bootstate) : Prop :=
  b_disk s' = b_disk s /\ Z.land (b_status s') 0xC0 = 0x40 /\ forall i, 0 <= i < 4096 -> ld8 (b_mem s') (ELFHDR + i) = image s i.

Lemma header_ld s s' n i : headers_in s s' -> 0 <= i -> i + Z.of_nat n <= 4096 -> ld n (b_mem s') (ELFHDR + i) = vld n (image s) i.
Proof. intros (_ & _ & H) Hi Hn. rewrite <- vld_ld. apply vld_shift. intros j Hj. rewrite <- Z.add_assoc. apply H. lia. Qed.

Lemma boot_segments_ok s n : forall s1 i,
  headers_in s s1 -> 0 <= i -> 0 <= vld 8 (image s) 32 -> vld 8 (image s) 32 + 56 * (i + Z.of_nat n) <= 4096 ->
  (forall j, i <= j < i + Z.of_nat n -> segment_fits (phdr s j)) ->
  (forall j k, 0 <= j < k -> k < i + Z.of_nat n -> spared (phdr s j) (phdr s k)) ->
  (forall j, 0 <= j < i -> loaded s (phdr s j) s1) ->
  wp (boot_segments n (ELFHDR + (vld 8 (image s) 32 + 56 * i))) s1 (fun _ s' =>
    headers_in s s' /\ forall j, 0 <= j < i + Z.of_nat n -> loaded s (phdr s j) s').
Proof.
  induction n as [|n IH]; intros s1 i Hh Hi Hph Hend Hfit Hsp Hld; cbn [boot_segments].
  { apply wp_ret. split; [done|]. intros j Hj. apply Hld. lia. }
  set (ph := vld 8 (image s) 32 + 56 * i) in *. unfold boot_ld. wsteps. rewrite <- !Z.add_assoc, !(header_ld s s1) by (done || lia).
  change (vld 8 (image s) (ph + 24)) with (sg_pa (phdr s i)). change (vld 8 (image s) (ph + 40)) with (sg_size (phdr s i)).
  change (vld 8 (image s) (ph + 8)) with (sg_off (phdr s i)). destruct (Hfit i) as [F1 F2 F3 F4 F5 F6]; [lia|].
  destruct (seg_bounds (sg_pa (phdr s i)) (sg_size (phdr s i)) F2) as (Blo & Bhi & _). destruct Hh as (Hd & Hst & Hhdr).
  assert (forall k, image s1 k = image s k) as Him by (intros k; unfold image; by rewrite Hd).
  wuse readseg_ok; [done..|]. intros _ s2 (Hd2 & Hst2 & Hm2).
  replace (ELFHDR + (ph + 56)) with (ELFHDR + (vld 8 (image s) 32 + 56 * (i + 1))) by (unfold ph; lia).
  wuse (IH s2 (i + 1)).
  - split; [congruence|]. split; [by rewrite Hst2|]. intros j Hj. rewrite Hm2, decide_False by lia. by apply Hhdr.
  - lia.
  - exact Hph.
  - lia.
  - intros j Hj. apply Hfit. lia.
  - intros j k Hj Hk. apply Hsp; lia.
  - intros j Hj k Hk. rewrite Hm2. destruct (decide (j = i)) as [->|Hne].
    + rewrite decide_True, Him by lia. f_equal. lia.
    + destruct (Hsp j i) as [Hs|Hs]; [lia|lia| |]; rewrite decide_False by lia; apply Hld; lia.
  - intros _ s3 [H3 H4]. split; [exact H3|]. intros j Hj. apply H4. lia.
Qed.

(** C36: The boot loader enters the kernel with all of it in memory: on a disk that is ready and
    has a valid ELF image from sector 3 on, with the program headers in its first page and
    segments whose addresses and file offsets are equal modulo the sector size and that, in whole sectors, reach neither into the headers nor into a segment that
    comes before, every segment is at its address byte for byte, and control goes to the
    entry point of the image. *)
Theorem bootmain_loads_kernel s :
  Z.land (b_status s) 0xC0 = 0x40 -> vld 4 (image s) 0 = ELF_MAGIC ->
  let phnum := vld 2 (image s) 56 in
  vld 8 (image s) 32 + 56 * phnum <= 4096 ->
  (forall i, 0 <= i < phnum -> segment_fits (phdr s i)) ->
  (forall i j, 0 <= i < j -> j < phnum -> spared (phdr s i) (phdr s j)) ->
  exists s', bootmain s = Stop (BEnter (vld 8 (image s) 24)) s' /\ forall i, 0 <= i < phnum -> loaded s (phdr s i) s'.
Proof.
  intros Hst Hmagic phnum Hend Hfit Hsp.
  assert (forall n a, 0 <= vld n (image s) a) as Hpos by (intros n a; apply (vld_range n); intros b; apply ld8_range).
  assert (wp (readseg ELFHDR (SECTSIZE * 8) 0) s (fun _ s' => headers_in s s')) as Hread.
  { wuse readseg_ok; [done|done|done|done|done|done|]. intros _ s1 (Hd & Hs & Hm). split; [done|]. split; [by rewrite Hs|].
    intros i Hi. rewrite Hm. change (seg_lo ELFHDR) with 65536. change (seg_hi ELFHDR (SECTSIZE * 8)) with 69632. unfold ELFHDR in *.
    rewrite decide_True by lia. f_equal. lia. }
  destruct (proj1 (wp_elim _ _ _) Hread) as (? & s1 & E1 & H1). unfold bootmain. erewrite bind_Ret by exact E1.
  assert (forall n i, 0 <= i -> i + Z.of_nat n <= 4096 -> boot_ld n (ELFHDR + i) s1 = Ret (vld n (image s) i) s1) as Hl.
  { intros n i Hi Hn. unfold boot_ld, gets. by rewrite (header_ld s s1) by done. }
  erewrite bind_Ret by (rewrite <- (Z.add_0_r ELFHDR); apply Hl; lia). rewrite Hmagic, Z.eqb_refl. cbn [negb].
  erewrite bind_Ret by (apply Hl; lia). erewrite bind_Ret by (apply Hl; lia). fold phnum.
  pose proof (Hpos 2%nat 56) as Hphn. fold phnum in Hphn. pose proof (Hpos 8%nat 32) as Hoff.
  destruct (proj1 (wp_elim _ _ _) (boot_segments_ok s (Z.to_nat phnum) s1 0 H1 ltac:(lia) Hoff ltac:(rewrite Z2Nat.id; lia)
    ltac:(intros j Hj; apply Hfit; lia) ltac:(intros j k Hj Hk; apply Hsp; lia) ltac:(intros j Hj; lia))) as ([] & s2 & E2 & H2 & Hload).
  rewrite Z.mul_0_r, Z.add_0_r in E2. erewrite bind_Ret by exact E2. exists s2. split.
  - unfold boot_ld, gets, mbind, M_bind, stop. by rewrite (header_ld s s2) by (done || lia).
  - intros i Hi. apply Hload. lia.
Qed.

(** A kernel of two segments, the second of which begins in the middle of a sector. *)
Definition boot_disk : bytes :=
  let w n i x m := st n m (1536 + i) x in
  w 4%nat 0 ELF_MAGIC (w 8%nat 24 0x100000 (w 8%nat 32 64 (w 2%nat 56 2
  (w 8%nat 72 0x1000 (w 8%nat 88 0x100000 (w 8%nat 104 700
  (w 8%nat 128 0x1810 (w 8%nat 144 0x100810 (w 8%nat 160 3
  (w 4%nat 0x1000 0x11223344 (w 4%nat 0x1810 0x00C0FFEE ∅))))))))))).
Definition small_boot : bootstate := mkBoot ∅ boot_disk ∅ 0x50 0.

Lemma bootmain_loads_kernel_witness :
  exists s', bootmain small_boot = Stop (BEnter 0x100000) s' /\ ld8 (b_mem s') 0x100812 = 0xC0.
Proof.
  assert (vld 2 (image small_boot) 56 = 2) as Hn by (vm_compute; reflexivity).
  assert (phdr small_boot 0 = mkSegment 0x100000 700 0x1000) as H0 by (vm_compute; reflexivity).
  assert (phdr small_boot 1 = mkSegment 0x100810 3 0x1810) as H1 by (vm_compute; reflexivity).
  destruct (bootmain_loads_kernel small_boot) as (s' & E & Hl).
  - reflexivity.
  - vm_compute. reflexivity.
  - rewrite Hn. vm_compute. discriminate.
  - rewrite Hn. intros i Hi. assert (i = 0 \/ i = 1) as [-> | ->] by lia; rewrite ?H0, ?H1;
      (split; cbn [sg_pa sg_size sg_off]; [lia|lia|lia|lia|reflexivity|right; vm_compute; discriminate]).
  - rewrite Hn. intros i j Hi Hj. assert (i = 0 /\ j = 1) as [-> ->] by lia. rewrite H0, H1. left. vm_compute. discriminate.
  - exists s'. split; [exact E|]. rewrite Hn in Hl. specialize (Hl 1 ltac:(lia)). rewrite H1 in Hl.
    specialize (Hl 2 ltac:(cbn; lia)). cbn [sg_pa sg_off Z.add] in Hl. change (0x100810 + 2) with 0x100812 in Hl. rewrite Hl. vm_compute. reflexivity.
Defined.
