(* ===== verification/Mpconfig.v ===== *)
(** * The processors of the machine: kern/mpconfig.c

    The firmware leaves a table of the processors in memory.  The state is the physical
    memory, of which [npages] pages are mapped at KERNBASE, and the variables of the
    file; messages to the console are left out.  [bootcpu] is the index of the CPU it
    points at. *)
From S2P Require Import Prelude Mmu CMem KState.

Record Cpu := mkCpu { cpu_id : Z; cpu_status : Z }.
#[export] Instance Cpu_fields : Fields Cpu := fun c => mkCpu (cpu_id c) (cpu_status c).

Record mpstate := mkMpstate {
  mp_mem : bytes;
  mp_npages : Z;
  mp_cpus : gmap Z Cpu;
  bootcpu : Z;
  ismp : Z;
  ncpu : Z;
  lapicaddr : Z;
  mp_ports : gmap Z Z
}.
#[export] Instance mpstate_fields : Fields mpstate := fun s =>
  mkMpstate (mp_mem s) (mp_npages s) (mp_cpus s) (bootcpu s) (ismp s) (ncpu s) (lapicaddr s) (mp_ports s).

Inductive mpstop :=
| MPanic      (* KADDR of an address that is not memory *)
| MFault      (* a load past the memory that is mapped *)
| MOverrun.   (* a store past the end of cpus *)
Abbreviation P := (M mpstate mpstop).

Definition CPU_UNUSED : Z := 0.
Definition CPU_STARTED : Z := 1.
Definition MPPROC_BOOT : Z := 0x02.
Definition MPPROC : Z := 0x00.
Definition MPBUS : Z := 0x01.
Definition MPIOAPIC : Z := 0x02.
Definition MPIOINTR : Z := 0x03.
Definition MPLINTR : Z := 0x04.
Definition sizeof_mp : Z := 16.
Definition sizeof_mpproc : Z := 20.

(** Memory at a physical address, and KADDR, which gives the address back. *)
Definition mp_ld (n : nat) (a : Z) : P Z := fun s =>
  if (0 <=? a) && (a + Z.of_nat n <=? mp_npages s * PGSIZE) then Ret (ld n (mp_mem s) a) s else Stop MFault s.
Definition mp_kaddr (pa : Z) : P Z := fun s => if u32 (pa / PGSIZE) >=? mp_npages s then Stop MPanic s else Ret pa s.

(** The fields of struct mp, struct mpconf and struct mpproc. *)
Definition mp_physaddr (mp : Z) : P Z := mp_ld 4 (mp + 4).
Definition mp_type (mp : Z) : P Z := mp_ld 1 (mp + 11).
Definition mp_imcrp (mp : Z) : P Z := mp_ld 1 (mp + 12).
Definition conf_length (conf : Z) : P Z := mp_ld 2 (conf + 4).
Definition conf_version (conf : Z) : P Z := mp_ld 1 (conf + 6).
Definition conf_entry (conf : Z) : P Z := mp_ld 2 (conf + 34).
Definition conf_lapicaddr (conf : Z) : P Z := mp_ld 4 (conf + 36).
Definition conf_xlength (conf : Z) : P Z := mp_ld 2 (conf + 40).
Definition conf_xchecksum (conf : Z) : P Z := mp_ld 1 (conf + 42).
Definition conf_entries (conf : Z) : Z := conf + 44.
Definition proc_flags (p : Z) : P Z := mp_ld 1 (p + 3).

Fixpoint sum_loop (n : nat) (a acc : Z) : P Z :=
  match n with
  | O => mret acc
  | S n' => b ← mp_ld 1 a; sum_loop n' (a + 1) (i32 (acc + b))
  end.
Definition sum (addr len : Z) : P Z := s ← sum_loop (Z.to_nat len) addr 0; mret (u8 s).

(** memcmp with four characters, which are a word in memory. *)
Definition MP_SIGNATURE : Z := 0x5F504D5F.
Definition PCMP_SIGNATURE : Z := 0x504D4350.

Fixpoint mpsearch1_loop (n : nat) (mp : Z) : P (option Z) :=
  match n with
  | O => mret None
  | S n' =>
      sig ← mp_ld 4 mp;
      ok ← (if sig =? MP_SIGNATURE then c ← sum mp sizeof_mp; mret (c =? 0) else mret false);
      if ok : bool then mret (Some mp) else mpsearch1_loop n' (mp + sizeof_mp)
  end.
Definition mpsearch1 (a len : Z) : P (option Z) :=
  mp ← mp_kaddr a;
  e ← mp_kaddr (u64 (a + len));
  mpsearch1_loop (Z.to_nat ((e - mp + sizeof_mp - 1) / sizeof_mp)) mp.

Definition mpsearch : P (option Z) :=
  bda ← mp_kaddr (Z.shiftl 0x40 4);
  p ← mp_ld 2 (bda + 0x0E);
  mp ← (if negb (p =? 0) then mpsearch1 (u32 (Z.shiftl p 4)) 1024
        else p ← mp_ld 2 (bda + 0x13); mpsearch1 (u32 (p * 1024 - 1024)) 1024);
  match mp with
  | Some mp => mret (Some mp)
  | None => mpsearch1 0xF0000 0x10000
  end.

(** The table and the floating pointer. *)
Definition mpconfig : P (option (Z * Z)) :=
  r ← mpsearch;
  match r with
  | None => mret None
  | Some mp =>
      pa ← mp_physaddr mp;
      ty ← mp_type mp;
      if (pa =? 0) || negb (ty =? 0) then mret None
      else
        conf ← mp_kaddr pa;
        sig ← mp_ld 4 conf;
        if negb (sig =? PCMP_SIGNATURE) then mret None
        else
          len ← conf_length conf;
          c ← sum conf len;
          if negb (c =? 0) then mret None
          else
            v ← conf_version conf;
            if negb (v =? 1) && negb (v =? 4) then mret None
            else
              xlen ← conf_xlength conf;
              c ← sum (conf + len) xlen;
              x ← conf_xchecksum conf;
              if negb (c =? x) then mret None else mret (Some (conf, mp))
  end.

Definition set_cpu (i : Z) (f : Cpu -> Cpu) : P unit := fun s =>
  if (0 <=? i) && (i <? NCPU) then
    Ret tt (s <| mp_cpus := <[i := f (default (mkCpu 0 CPU_UNUSED) (mp_cpus s !! i))]> (mp_cpus s) |>)
  else Stop MOverrun s.

(** The entries of the table: [n] more from [p] on. *)
Fixpoint mp_entries (n : nat) (p : Z) : P unit :=
  match n with
  | O => mret tt
  | S n' =>
      ty ← mp_ld 1 p;
      if ty =? MPPROC then
        fl ← proc_flags p;
        k ← gets ncpu;
        (if negb (Z.land fl MPPROC_BOOT =? 0) then modify (fun s => s <| bootcpu := k |>) else mret tt);;
        (if k <? NCPU then
           set_cpu k (fun c => c <| cpu_id := u8 k |>);;
           modify (fun s => s <| ncpu := i32 (k + 1) |>)
         else mret tt);;
        mp_entries n' (p + sizeof_mpproc)
      else if (ty =? MPBUS) || (ty =? MPIOAPIC) || (ty =? MPIOINTR) || (ty =? MPLINTR) then mp_entries n' (p + 8)
      else modify (fun s => s <| ismp := 0 |>)
  end.

Definition mp_outb (port v : Z) : P unit := modify (fun s => s <| mp_ports := <[port := v]> (mp_ports s) |>).
Definition mp_inb (port : Z) : P Z := gets (fun s => default 0 (mp_ports s !! port)).

Definition mp_init : P unit :=
  modify (fun s => s <| bootcpu := 0 |>);;
  r ← mpconfig;
  match r with
  | None => mret tt
  | Some (conf, mp) =>
      modify (fun s => s <| ismp := 1 |>);;
      la ← conf_lapicaddr conf;
      modify (fun s => s <| lapicaddr := la |>);;
      n ← conf_entry conf;
      mp_entries (Z.to_nat n) (conf_entries conf);;
      b ← gets bootcpu;
      set_cpu b (fun c => c <| cpu_status := CPU_STARTED |>);;
      m ← gets ismp;
      if m =? 0 then
        modify (fun s => s <| ncpu := 1 |>);;
        modify (fun s => s <| lapicaddr := 0 |>)
      else
        imcrp ← mp_imcrp mp;
        if negb (imcrp =? 0) then
          mp_outb 0x22 0x70;;
          x ← mp_inb 0x23;
          mp_outb 0x23 (Z.lor x 1)
        else mret tt
  end.

(** ** Checksums and the search *)
Fixpoint bsum (n : nat) (m : bytes) (a : Z) : Z :=
  match n with O => 0 | S n' => ld8 m a + bsum n' m (a + 1) end.

Lemma bsum_range n m : forall a, 0 <= bsum n m a <= 255 * Z.of_nat n.
Proof. induction n as [|n IH]; intros a; cbn [bsum]; [lia|]. pose proof (ld8_range m a). pose proof (IH (a + 1)). lia. Qed.

Definition mapped_at (s : mpstate) (a n : Z) : Prop := 0 <= a /\ a + n <= mp_npages s * PGSIZE.

Lemma mp_ld_ok s n a : mapped_at s a (Z.of_nat n) -> mp_ld n a s = Ret (ld n (mp_mem s) a) s.
Proof.
  intros [H1 H2]. unfold mp_ld. destruct (Z.leb_spec 0 a); [|lia].
  by destruct (Z.leb_spec (a + Z.of_nat n) (mp_npages s * PGSIZE)); [|lia].
Qed.
Lemma mp_ld_inv n a s x s' : mp_ld n a s = Ret x s' -> s' = s /\ x = ld n (mp_mem s) a.
Proof. unfold mp_ld. case_match; [|done]. by intros [= <- <-]. Qed.
Lemma ld1 m a : ld 1 m a = ld8 m a.
Proof. change (ld 1 m a) with (ld8 m a + 256 * 0). lia. Qed.

Lemma sum_loop_ok s n : forall a acc,
  mapped_at s a (Z.of_nat n) -> 0 <= acc -> acc + 255 * Z.of_nat n < 2 ^ 31 ->
  sum_loop n a acc s = Ret (acc + bsum n (mp_mem s) a) s.
Proof.
  induction n as [|n IH]; intros a acc Ha H0 Hacc; cbn [sum_loop bsum]; [by rewrite Z.add_0_r|].
  destruct Ha as [Ha1 Ha2]. erewrite bind_Ret by (apply mp_ld_ok; split; lia). rewrite ld1.
  pose proof (ld8_range (mp_mem s) a). rewrite swrap_small by lia. rewrite IH by (split || lia; lia). f_equal. lia.
Qed.

Lemma sum_ok s a len : mapped_at s a len -> 0 <= len <= 65535 -> sum a len s = Ret (bsum (Z.to_nat len) (mp_mem s) a mod 256) s.
Proof.
  intros Ha Hl. unfold sum. erewrite bind_Ret by (apply sum_loop_ok; [destruct Ha; split|..]; lia). done.
Qed.

(** A floating pointer at [a]. *)
Definition valid_mp (m : bytes) (a : Z) : bool := (ld 4 m a =? MP_SIGNATURE) && (bsum 16 m a mod 256 =? 0).
Fixpoint first_mp (m : bytes) (n : nat) (a : Z) : option Z :=
  match n with O => None | S n' => if valid_mp m a then Some a else first_mp m n' (a + 16) end.

Lemma mpsearch1_loop_ok s n : forall a, mapped_at s a (16 * Z.of_nat n) -> mpsearch1_loop n a s = Ret (first_mp (mp_mem s) n a) s.
Proof.
  induction n as [|n IH]; intros a Ha; cbn [mpsearch1_loop first_mp]; [done|]. destruct Ha as [H1 H2].
  erewrite bind_Ret by (apply mp_ld_ok; split; lia). unfold valid_mp.
  assert (mpsearch1_loop n (a + sizeof_mp) s = Ret (first_mp (mp_mem s) n (a + 16)) s) as Hnext by (apply IH; unfold sizeof_mp; split; lia).
  destruct (ld 4 (mp_mem s) a =? MP_SIGNATURE).
  - erewrite bind_Ret.
    2:{ erewrite bind_Ret by (apply sum_ok; [split|]; unfold sizeof_mp; lia). done. }
    cbn [andb]. change (Z.to_nat sizeof_mp) with 16%nat. by destruct (bsum 16 (mp_mem s) a mod 256 =? 0).
  - erewrite bind_Ret by done. exact Hnext.
Qed.

(** Where the firmware may have left it. *)
Definition mp_place (m : bytes) : Z :=
  if ld 2 m 0x40E =? 0 then u32 (ld 2 m 0x413 * 1024 - 1024) else u32 (ld 2 m 0x40E * 16).
Definition found_mp (m : bytes) : option Z :=
  match first_mp m 64 (mp_place m) with Some a => Some a | None => first_mp m 4096 0xF0000 end.

Lemma mp_kaddr_ok s a : 0 <= a -> a < mp_npages s * PGSIZE -> a < 2 ^ 44 -> mp_kaddr a s = Ret a s.
Proof.
  intros H0 H1 H2. unfold mp_kaddr, PGSIZE in *. rewrite Z.geb_leb, wrap_small by (Z.div_mod_to_equations; lia).
  destruct (Z.leb_spec (mp_npages s) (a / 4096)); [Z.div_mod_to_equations; lia|done].
Qed.

Lemma mpsearch1_ok s a len : 0 <= a < 2 ^ 32 -> 0 <= len <= 65536 -> len mod 16 = 0 -> a + len < mp_npages s * PGSIZE ->
  mpsearch1 a len s = Ret (first_mp (mp_mem s) (Z.to_nat (len / 16)) a) s.
Proof.
  intros Ha Hl Hm Hn. unfold mpsearch1. erewrite bind_Ret by (apply mp_kaddr_ok; lia). rewrite wrap_small by lia.
  erewrite bind_Ret by (apply mp_kaddr_ok; lia). unfold sizeof_mp.
  replace ((a + len - a + 16 - 1) / 16) with (len / 16) by (Z.div_mod_to_equations; lia).
  apply mpsearch1_loop_ok. split; [lia|]. Z.div_mod_to_equations. lia.
Qed.

Lemma mpsearch_ok s :
  0x100000 < mp_npages s * PGSIZE -> mp_place (mp_mem s) + 1024 < mp_npages s * PGSIZE -> mpsearch s = Ret (found_mp (mp_mem s)) s.
Proof.
  intros Hn Hp. unfold mpsearch. erewrite bind_Ret by (apply mp_kaddr_ok; change (Z.shiftl 64 4) with 0x400; lia).
  change (Z.shiftl 64 4) with 0x400. erewrite bind_Ret by (apply mp_ld_ok; split; lia). change (0x400 + 14) with 0x40E.
  unfold found_mp, mp_place in *. assert (forall x, 0 <= u32 x < 2 ^ 32) as Hu by (intros; by apply wrap_range).
  assert (forall a, 0 <= a < 2 ^ 32 -> a + 1024 < mp_npages s * PGSIZE -> mpsearch1 a 1024 s = Ret (first_mp (mp_mem s) 64 a) s) as H1
    by (intros a Ha Hb; by apply (mpsearch1_ok s a 1024)).
  assert (forall (x : P (option Z)) a, x s = Ret (first_mp (mp_mem s) 64 a) s ->
    (mp ← x; match mp with Some mp => mret (Some mp) | None => mpsearch1 0xF0000 0x10000 end) s =
    Ret match first_mp (mp_mem s) 64 a with Some b => Some b | None => first_mp (mp_mem s) 4096 0xF0000 end s) as H2.
  { intros x a Hx. erewrite bind_Ret by exact Hx. destruct (first_mp (mp_mem s) 64 a); [done|].
    apply (mpsearch1_ok s 0xF0000 0x10000); [lia|lia|reflexivity|lia]. }
  destruct (Z.eqb_spec (ld 2 (mp_mem s) 0x40E) 0) as [E|E]; cbn [negb]; apply H2.
  - erewrite bind_Ret by (apply mp_ld_ok; split; lia). apply H1; [apply Hu|exact Hp].
  - rewrite Z.shiftl_mul_pow2 by lia. apply H1; [apply Hu|exact Hp].
Qed.

(** ** The table *)
Record good_conf (m : bytes) (mp conf : Z) : Prop := {
  gc_addr : ld 4 m (mp + 4) = conf /\ 0 < conf;
  gc_type : ld 1 m (mp + 11) = 0;
  gc_sig : ld 4 m conf = PCMP_SIGNATURE;
  gc_sum : bsum (Z.to_nat (ld 2 m (conf + 4))) m conf mod 256 = 0;
  gc_version : ld 1 m (conf + 6) = 1 \/ ld 1 m (conf + 6) = 4;
  gc_xsum : bsum (Z.to_nat (ld 2 m (conf + 40))) m (conf + ld 2 m (conf + 4)) mod 256 = ld 1 m (conf + 42)
}.

(** The memory has the low megabyte, and all of the table. *)
Record mp_memory (s : mpstate) (conf : Z) : Prop := {
  mm_low : 0x100000 < mp_npages s * PGSIZE;
  mm_place : mp_place (mp_mem s) + 1024 < mp_npages s * PGSIZE;
  mm_conf : conf + 2 * 65536 < mp_npages s * PGSIZE
}.

Lemma first_mp_range m n : forall a b, first_mp m n a = Some b -> a <= b <= a + 16 * (Z.of_nat n - 1).
Proof.
  induction n as [|n IH]; intros a b; cbn [first_mp]; [done|]. destruct (valid_mp m a); [intros [= <-]; lia|].
  intros H%IH. lia.
Qed.

(** The places that are searched for a floating pointer, and a memory with just one. *)
Inductive mp_spot (m : bytes) : Z -> Prop :=
| spot_ebda i : ld 2 m 0x40E <> 0 -> 0 <= i < 64 -> mp_spot m (u32 (ld 2 m 0x40E * 16) + 16 * i)
| spot_base i : ld 2 m 0x40E = 0 -> 0 <= i < 64 -> mp_spot m (u32 (ld 2 m 0x413 * 1024 - 1024) + 16 * i)
| spot_rom i : 0 <= i < 4096 -> mp_spot m (0xF0000 + 16 * i).
Record only_mp (m : bytes) (mp : Z) : Prop := {
  om_spot : mp_spot m mp;
  om_valid : valid_mp m mp = true;
  om_only : forall a, mp_spot m a -> valid_mp m a = true -> a = mp
}.

Lemma mp_spot_place m a :
  mp_spot m a <-> exists i, (0 <= i < 64 /\ a = mp_place m + 16 * i) \/ (0 <= i < 4096 /\ a = 0xF0000 + 16 * i).
Proof.
  unfold mp_place. split.
  - intros [i H1 H2|i H1 H2|i H2]; exists i; [left|left|right]; [| |done].
    + by destruct (Z.eqb_spec (ld 2 m 0x40E) 0).
    + by destruct (Z.eqb_spec (ld 2 m 0x40E) 0).
  - intros (i & [[Hi ->]|[Hi ->]]); [|by constructor].
    destruct (Z.eqb_spec (ld 2 m 0x40E) 0); by constructor.
Qed.

Lemma first_mp_spec m n : forall a,
  match first_mp m n a with
  | Some b => valid_mp m b = true /\ exists i, 0 <= i < Z.of_nat n /\ b = a + 16 * i
  | None => forall i, 0 <= i < Z.of_nat n -> valid_mp m (a + 16 * i) = false
  end.
Proof.
  induction n as [|n IH]; intros a; cbn [first_mp]; [lia|]. destruct (valid_mp m a) eqn:E.
  { split; [done|]. exists 0. lia. }
  specialize (IH (a + 16)). destruct (first_mp m n (a + 16)) as [b|].
  - destruct IH as (Hv & i & Hi & ->). split; [done|]. exists (i + 1). lia.
  - intros i Hi. destruct (decide (i = 0)) as [->|]; [by rewrite Z.mul_0_r, Z.add_0_r|].
    replace (a + 16 * i) with (a + 16 + 16 * (i - 1)) by lia. apply IH. lia.
Qed.

Lemma only_mp_found m mp : only_mp m mp -> found_mp m = Some mp.
Proof.
  intros [Hs Hv Ho]. unfold found_mp. pose proof (first_mp_spec m 64 (mp_place m)) as H1.
  pose proof (first_mp_spec m 4096 0xF0000) as H2. change (Z.of_nat 64) with 64 in H1.
  change (Z.of_nat 4096) with 4096 in H2.
  destruct (first_mp m 64 (mp_place m)) as [b|].
  { destruct H1 as (Hb & i & Hi & ->). f_equal. apply Ho; [|done]. apply mp_spot_place. exists i. by left. }
  destruct (first_mp m 4096 0xF0000) as [b|].
  { destruct H2 as (Hb & i & Hi & ->). f_equal. apply Ho; [|done]. by constructor. }
  apply mp_spot_place in Hs as (i & [[Hi ->]|[Hi ->]]); [rewrite H1 in Hv|rewrite H2 in Hv]; done.
Qed.

Lemma found_mp_mapped s mp :
  0x100000 < mp_npages s * PGSIZE -> mp_place (mp_mem s) + 1024 < mp_npages s * PGSIZE ->
  found_mp (mp_mem s) = Some mp -> mapped_at s mp 16.
Proof.
  intros Hlow Hplace Hmp. assert (0 <= mp_place (mp_mem s)) as Hp0 by (unfold mp_place; case_match; by apply wrap_range).
  unfold found_mp in Hmp. destruct (first_mp (mp_mem s) 64 (mp_place (mp_mem s))) eqn:E1.
  - injection Hmp as <-. apply first_mp_range in E1. split; lia.
  - apply first_mp_range in Hmp. split; lia.
Qed.

Lemma mpconfig_ok s mp conf :
  mp_memory s conf -> found_mp (mp_mem s) = Some mp -> good_conf (mp_mem s) mp conf -> mpconfig s = Ret (Some (conf, mp)) s.
Proof.
  intros [Hlow Hplace Hconf] Hmp [[Haddr Hpos] Hty Hsig Hsum Hv Hx]. unfold mpconfig.
  pose proof (found_mp_mapped s mp Hlow Hplace Hmp) as Hmapped.
  destruct Hmapped as [Hm1 Hm2]. pose proof (ld_range 4 (mp_mem s) (mp + 4)) as Hc4. rewrite Haddr in Hc4.
  change (256 ^ Z.of_nat 4) with (2 ^ 32) in Hc4.
  pose proof (ld_range 2 (mp_mem s) (conf + 4)) as Hl. pose proof (ld_range 2 (mp_mem s) (conf + 40)) as Hxl.
  change (256 ^ Z.of_nat 2) with 65536 in Hl, Hxl.
  erewrite bind_Ret by (by apply mpsearch_ok). rewrite Hmp. unfold mp_physaddr, mp_type, conf_length, conf_version, conf_xlength, conf_xchecksum.
  erewrite bind_Ret by (apply mp_ld_ok; split; lia). erewrite bind_Ret by (apply mp_ld_ok; split; lia).
  rewrite Haddr, Hty. destruct (Z.eqb_spec conf 0); [lia|]. cbn [orb negb Z.eqb].
  erewrite bind_Ret by (apply mp_kaddr_ok; lia). erewrite bind_Ret by (apply mp_ld_ok; split; lia).
  rewrite Hsig, Z.eqb_refl. cbn [negb]. erewrite bind_Ret by (apply mp_ld_ok; split; lia).
  erewrite bind_Ret by (apply sum_ok; [split|]; lia). rewrite Hsum. cbn [Z.eqb negb].
  erewrite bind_Ret by (apply mp_ld_ok; split; lia).
  assert (negb (ld 1 (mp_mem s) (conf + 6) =? 1) && negb (ld 1 (mp_mem s) (conf + 6) =? 4) = false) as -> by (by destruct Hv as [-> | ->]).
  erewrite bind_Ret by (apply mp_ld_ok; split; lia). erewrite bind_Ret by (apply sum_ok; [split|]; lia).
  erewrite bind_Ret by (apply mp_ld_ok; split; lia). by rewrite Hx, Z.eqb_refl.
Qed.

(** ** The processors *)
Inductive mpentry := EProc (boot : bool) | EOther.
Definition esize (e : mpentry) : Z := match e with EProc _ => 20 | EOther => 8 end.
Fixpoint encodes (m : bytes) (p : Z) (es : list mpentry) : Prop :=
  match es with
  | [] => True
  | e :: es' =>
      match e with
      | EProc boot => ld8 m p = MPPROC /\ negb (Z.land (ld8 m (p + 3)) MPPROC_BOOT =? 0) = boot
      | EOther => 1 <= ld8 m p <= 4
      end /\ encodes m (p + esize e) es'
  end.
Fixpoint nprocs (es : list mpentry) : Z :=
  match es with [] => 0 | EProc _ :: es' => 1 + nprocs es' | EOther :: es' => nprocs es' end.
(** The last processor that is marked as the one that boots; [k] is the next index. *)
Fixpoint boot_index (es : list mpentry) (k b : Z) : Z :=
  match es with
  | [] => b
  | EProc boot :: es' => boot_index es' (k + 1) (if boot then k else b)
  | EOther :: es' => boot_index es' k b
  end.

Lemma nprocs_nonneg es : 0 <= nprocs es.
Proof. induction es as [|[boot|] es IH]; cbn [nprocs]; lia. Qed.
Lemma boot_index_range es : forall k b, 0 <= k -> 0 <= b -> 0 <= boot_index es k b /\ (boot_index es k b = b \/ boot_index es k b < k + nprocs es).
Proof.
  induction es as [|[boot|] es IH]; intros k b Hk Hb; cbn [boot_index nprocs]; [lia| |apply IH; lia].
  pose proof (nprocs_nonneg es). destruct (IH (k + 1) (if boot then k else b)) as [H1 H2]; [lia|destruct boot; lia|].
  destruct boot; lia.
Qed.

(** The CPUs below [k] have their index as id. *)
Definition ids_upto (s : mpstate) (k : Z) : Prop := forall i, 0 <= i < k -> exists c, mp_cpus s !! i = Some c /\ cpu_id c = i.

Lemma set_cpu_ok s i f : 0 <= i < NCPU ->
  set_cpu i f s = Ret tt (s <| mp_cpus := <[i := f (default (mkCpu 0 CPU_UNUSED) (mp_cpus s !! i))]> (mp_cpus s) |>).
Proof. intros Hi. unfold set_cpu. destruct (Z.leb_spec 0 i); [|lia]. by destruct (Z.ltb_spec i NCPU); [|lia]. Qed.

Lemma mp_entries_ok es : forall s p,
  encodes (mp_mem s) p es -> 0 <= p -> p + 20 * Z.of_nat (length es) <= mp_npages s * PGSIZE ->
  0 <= ncpu s -> ncpu s + nprocs es <= NCPU -> ids_upto s (ncpu s) ->
  wp (mp_entries (length es) p) s (fun _ s' =>
    mp_mem s' = mp_mem s /\ mp_npages s' = mp_npages s /\ ismp s' = ismp s /\ lapicaddr s' = lapicaddr s /\
    ncpu s' = ncpu s + nprocs es /\ bootcpu s' = boot_index es (ncpu s) (bootcpu s) /\ ids_upto s' (ncpu s')).
Proof.
  induction es as [|e es IH]; intros s p He Hp Hm Hn Hk Hids; cbn [mp_entries length nprocs boot_index].
  { apply wp_ret. split_and!; try done. cbn. lia. }
  cbn [encodes length] in He, Hm. destruct He as [He Hes]. pose proof (nprocs_nonneg es) as Hnn.
  apply wp_bind, wp_elim. do 2 eexists. split; [apply mp_ld_ok; split; lia|]. rewrite ld1. destruct e as [boot|].
  - destruct He as [-> Hb]. cbn [nprocs esize] in *. unfold NCPU in *. rewrite Z.eqb_refl. apply wp_bind, wp_elim. do 2 eexists.
    split; [apply mp_ld_ok; split; lia|]. rewrite ld1, Hb. wsteps.
    set (s1 := if boot then s <| bootcpu := ncpu s |> else s).
    assert (wp (if boot then modify (fun st => st <| bootcpu := ncpu s |>) else mret tt : P unit) s (fun _ st => st = s1)) as Hw
      by (unfold s1; destruct boot; by wsteps).
    wuse Hw. intros _ s' ->. destruct (Z.ltb_spec (ncpu s) 8) as [_|]; [|lia].
    assert (mp_mem s1 = mp_mem s /\ mp_npages s1 = mp_npages s /\ ismp s1 = ismp s /\ lapicaddr s1 = lapicaddr s /\ ncpu s1 = ncpu s /\
      mp_cpus s1 = mp_cpus s /\ bootcpu s1 = if boot then ncpu s else bootcpu s) as (E1 & E2 & E3 & E4 & E5 & E6 & E7) by (unfold s1; by destruct boot).
    wsteps. apply wp_elim. do 2 eexists. split; [apply set_cpu_ok; unfold NCPU; lia|]. wsteps.
    match goal with |- wp _ ?st _ => set (s2 := st) end.
    assert (ncpu s2 = ncpu s + 1) as En2 by (apply swrap_small; lia).
    wuse (IH s2 (p + sizeof_mpproc)); rewrite ?En2.
    + change (mp_mem s2) with (mp_mem s1). rewrite E1. exact Hes.
    + unfold sizeof_mpproc. lia.
    + change (mp_npages s2) with (mp_npages s1). rewrite E2. unfold sizeof_mpproc. lia.
    + lia.
    + unfold NCPU. lia.
    + intros i Hi. change (mp_cpus s2) with (<[ncpu s := (default (mkCpu 0 CPU_UNUSED) (mp_cpus s1 !! ncpu s)) <| cpu_id := u8 (ncpu s) |>]> (mp_cpus s1)).
      destruct (decide (ncpu s = i)) as [<-|Hne].
      * rewrite lookup_insert_eq. eexists. split; [done|]. cbn. apply wrap_small. lia.
      * rewrite lookup_insert_ne, E6 by done. apply Hids. lia.
    + intros _ s3 (G1 & G2 & G3 & G4 & G5 & G6 & G7).
      change (mp_mem s2) with (mp_mem s1) in G1. change (mp_npages s2) with (mp_npages s1) in G2. change (ismp s2) with (ismp s1) in G3.
      change (lapicaddr s2) with (lapicaddr s1) in G4. change (bootcpu s2) with (bootcpu s1) in G6. rewrite E7 in G6.
      split_and!; [congruence|congruence|congruence|congruence|lia|exact G6|exact G7].
  - assert ((ld8 (mp_mem s) p =? MPPROC) = false) as -> by (unfold MPPROC; lia).
    assert ((ld8 (mp_mem s) p =? MPBUS) || (ld8 (mp_mem s) p =? MPIOAPIC) || (ld8 (mp_mem s) p =? MPIOINTR) || (ld8 (mp_mem s) p =? MPLINTR) = true) as ->
      by (unfold MPBUS, MPIOAPIC, MPIOINTR, MPLINTR; lia).
    cbn [esize nprocs boot_index] in *. apply IH; [exact Hes|lia|lia|lia|lia|exact Hids].
Qed.

(** What mp_init finds. *)
Definition found_cpus (s : mpstate) (conf : Z) (es : list mpentry) (s' : mpstate) : Prop :=
  ncpu s' = nprocs es /\ ismp s' = 1 /\ lapicaddr s' = ld 4 (mp_mem s) (conf + 36) /\
  bootcpu s' = boot_index es 0 0 /\ cpu_status <$> mp_cpus s' !! bootcpu s' = Some CPU_STARTED /\
  forall i, 0 <= i < nprocs es -> cpu_id <$> mp_cpus s' !! i = Some i.

(** The boot processor is started. *)
Lemma boot_started s conf es s2 :
  ismp s2 = 1 -> lapicaddr s2 = ld 4 (mp_mem s) (conf + 36) -> ncpu s2 = nprocs es -> bootcpu s2 = boot_index es 0 0 ->
  ids_upto s2 (ncpu s2) -> nprocs es <= NCPU ->
  wp (set_cpu (bootcpu s2) (fun c => c <| cpu_status := CPU_STARTED |>)) s2 (fun _ s' =>
    found_cpus s conf es s' /\ mp_mem s' = mp_mem s2 /\ mp_npages s' = mp_npages s2).
Proof.
  intros Hm Hl Hn Hb Hids Hk. destruct (boot_index_range es 0 0) as [B1 B2]; [lia|lia|]. pose proof (nprocs_nonneg es) as Hnn.
  apply wp_elim. do 2 eexists. split; [apply set_cpu_ok; rewrite Hb; unfold NCPU in *; lia|].
  split; [|done]. unfold found_cpus.
  split_and!; [exact Hn|exact Hm|exact Hl|exact Hb|by cbn; rewrite lookup_insert_eq|].
  intros i Hi. destruct (Hids i) as (c & Hc' & Hid); [lia|]. cbn.
  destruct (decide (bootcpu s2 = i)) as [<-|Hne]; [rewrite lookup_insert_eq, Hc'|rewrite lookup_insert_ne, Hc' by done]; cbn; congruence.
Qed.

(** C39: On a machine whose firmware left one valid floating pointer, at a multiple of 16
    bytes into the first KB of the EBDA, or, without an EBDA, into the last KB of base
    memory, or in the ROM from 0xF0000 to 0xFFFFF (the comment of mpsearch also names
    0xE0000 to 0xEFFFF, where the code does not look), and a valid table with at most NCPU
    processors, mp_init finds them: [ncpu] is their number, each has its index as id,
    [bootcpu] is the one that is marked in the table and is started, and the address of
    the local APIC is that of the table. *)
Theorem mp_init_finds_processors s mp conf es :
  mp_memory s conf -> only_mp (mp_mem s) mp -> good_conf (mp_mem s) mp conf ->
  ld 2 (mp_mem s) (conf + 34) = Z.of_nat (length es) -> encodes (mp_mem s) (conf + 44) es ->
  conf + 44 + 20 * Z.of_nat (length es) <= mp_npages s * PGSIZE -> ncpu s = 0 -> nprocs es <= NCPU ->
  wp mp_init s (fun _ s' => found_cpus s conf es s').
Proof.
  intros Hmem Hmp%only_mp_found Hgood Hn He Hfit Hz Hk. destruct (gc_addr _ _ _ Hgood) as [Haddr Hpos]. pose proof (mm_conf _ _ Hmem) as Hc.
  destruct (found_mp_mapped s mp (mm_low _ _ Hmem) (mm_place _ _ Hmem) Hmp) as [Hm1 Hm2].
  unfold mp_init. wsteps. apply wp_elim. do 2 eexists. split; [apply (mpconfig_ok (s <| bootcpu := 0 |>) mp conf); [by destruct Hmem|exact Hmp|exact Hgood]|].
  cbv iota beta. wsteps. unfold conf_lapicaddr. apply wp_elim. do 2 eexists. split; [apply mp_ld_ok; split; [lia|change (mp_npages _) with (mp_npages s); lia]|].
  wsteps. unfold conf_entry. apply wp_elim. do 2 eexists. split; [apply mp_ld_ok; split; [lia|change (mp_npages _) with (mp_npages s); lia]|].
  match goal with |- wp _ ?st _ => set (s1 := st) end. change (mp_mem s1) with (mp_mem s). rewrite Hn, Nat2Z.id. wsteps.
  wuse (mp_entries_ok es s1 (conf_entries conf)).
  - exact He.
  - unfold conf_entries. lia.
  - exact Hfit.
  - change (ncpu s1) with (ncpu s). lia.
  - change (ncpu s1) with (ncpu s). lia.
  - intros i Hi. change (ncpu s1) with (ncpu s) in Hi. lia.
  - change (ncpu s1) with (ncpu s). rewrite Hz. change (bootcpu s1) with 0. change (mp_mem s1) with (mp_mem s).
    intros _ s2 (G1 & G2 & G3 & G4 & G5 & G6 & G7).
    pose proof (boot_started s conf es s2 G3 G4 G5 G6 G7 Hk) as Hb.
    wsteps. wuse Hb. intros _ s3 (Hf & E1 & E2). wsteps.
    pose proof Hf as (_ & Hm3 & _). rewrite Hm3. cbn [Z.eqb]. unfold mp_imcrp. wsteps. apply wp_elim. do 2 eexists.
    split; [apply mp_ld_ok; split; [lia|rewrite E2, G2; change (mp_npages s1) with (mp_npages s); lia]|].
    case_match; unfold mp_outb, mp_inb; wsteps; exact Hf.
Qed.

(** ** Tables of firmware *)
Definition proc_bytes (flags : Z) : list Z := [0; 0; 0x14; flags] ++ repeat 0 16.
Definition bus_bytes : list Z := [1; 0; 0x49; 0x53; 0x41; 0x20; 0x20; 0x20].

(** A table with [n] entries, with its checksum. *)
Definition conf_bytes (n : Z) (entries : list Z) : list Z :=
  let len := 44 + Z.of_nat (length entries) in
  let table c := [0x50; 0x43; 0x4D; 0x50; len mod 256; len / 256; 4; c] ++ repeat 0 26 ++ [n; 0; 0; 0; 0xE0; 0xFE; 0; 0; 0; 0] ++ entries in
  table (- foldr Z.add 0 (table 0) mod 256).

(** Four megabytes of memory: the floating pointer in the EBDA at 0x9FC00, which points to
    the table at 0x2000. *)
Definition firmware (n : Z) (entries : list Z) : mpstate :=
  let m := st 2 ∅ 0x40E 0x9FC0 in
  let m := st_list m 0x9FC10 [0x5F; 0x4D; 0x50; 0x5F; 0; 0x20; 0; 0; 1; 4; 128; 0; 0; 0; 0; 0] in
  mkMpstate (st_list m 0x2000 (conf_bytes n entries)) 1024 ∅ 0 0 0 0 ∅.

Definition two_cpus : mpstate := firmware 3 (proc_bytes 1 ++ bus_bytes ++ proc_bytes 3).

Lemma two_cpus_mp : only_mp (mp_mem two_cpus) 0x9FC10.
Proof.
  assert (filter (fun i => valid_mp (mp_mem two_cpus) (mp_place (mp_mem two_cpus) + 16 * i) = true) (seqZ 0 64) = [1]) as H1
    by (vm_compute; reflexivity).
  assert (filter (fun i => valid_mp (mp_mem two_cpus) (0xF0000 + 16 * i) = true) (seqZ 0 4096) = []) as H2
    by (vm_compute; reflexivity).
  assert (mp_place (mp_mem two_cpus) = 0x9FC00) as Hp by (vm_compute; reflexivity).
  split; [|vm_compute; reflexivity|].
  - apply mp_spot_place. exists 1. left. rewrite Hp. lia.
  - intros a (i & [[Hi ->]|[Hi ->]])%mp_spot_place Hv.
    + assert (i ∈ [1]) as ->%list_elem_of_singleton by (rewrite <- H1; apply list_elem_of_filter; rewrite elem_of_seqZ; by split).
      rewrite Hp. lia.
    + assert (i ∈ @nil Z) as []%not_elem_of_nil by (rewrite <- H2; apply list_elem_of_filter; rewrite elem_of_seqZ; by split).
Qed.

Lemma mp_init_finds_processors_witness :
  wp mp_init two_cpus (fun _ s' => ncpu s' = 2 /\ bootcpu s' = 1 /\ lapicaddr s' = 0xFEE00000).
Proof.
  eapply wp_mono; [apply (mp_init_finds_processors two_cpus 0x9FC10 0x2000 [EProc false; EOther; EProc true])|].
  - split; vm_compute; reflexivity.
  - exact two_cpus_mp.
  - split; [split|..]; try (vm_compute; reflexivity). right. vm_compute. reflexivity.
  - vm_compute. reflexivity.
  - repeat (split || vm_compute; try reflexivity; try discriminate).
  - vm_compute. discriminate.
  - reflexivity.
  - vm_compute. discriminate.
  - intros _ s' (Hn & _ & Hl & Hb & _). split; [exact Hn|]. split; [exact Hb|]. rewrite Hl. vm_compute. reflexivity.
Defined.

(** With more than NCPU processors and the one that boots behind the others, [bootcpu]
    points past the end of cpus, and mp_init stores there. *)
Example mp_init_overruns :
  exists s', mp_init (firmware 9 (concat (repeat (proc_bytes 1) 8) ++ proc_bytes 3)) = Stop MOverrun s' /\ bootcpu s' = NCPU.
Proof. eexists. split; [vm_compute; reflexivity|reflexivity]. Qed.

(** A floating pointer in the lower half of the ROM, where the comment of mpsearch says
    that it may be, is not found. *)
Definition low_rom : mpstate :=
  let m := st 2 ∅ 0x413 640 in
  let m := st_list m 0xE0000 [0x5F; 0x4D; 0x50; 0x5F; 0; 0x20; 0; 0; 1; 4; 128; 0; 0; 0; 0; 0] in
  mkMpstate (st_list m 0x2000 (conf_bytes 1 (proc_bytes 3))) 1024 ∅ 0 0 0 0 ∅.
Example low_rom_not_searched :
  valid_mp (mp_mem low_rom) 0xE0000 = true /\ mpsearch low_rom = Ret None low_rom.
Proof. split; vm_compute; reflexivity. Qed.
