(* ===== verification/Spinlock.v ===== *)
(** * The big kernel lock: kern/spinlock.c

    Any number of CPUs run spin_lock and spin_unlock on one lock, each making one
    access to the lock at a time; the xchg instruction reads and writes in one step.
    DEBUG_SPINLOCK is defined, so the owner is recorded and checked.  [lk_cpu] is the
    CPU that [lock->cpu] points at, [None] for a null pointer. *)
From S2P Require Import Prelude.

Record spinlock := mkSpinlock { locked : Z; lk_cpu : option Z }.
#[export] Instance spinlock_fields : Fields spinlock := fun l => mkSpinlock (locked l) (lk_cpu l).

Definition __spin_initlock : spinlock := mkSpinlock 0 None.

(** Where a CPU is: outside; in spin_lock, testing [holding] (first [locked], then
    [cpu]), spinning, about to record itself; with the lock; in spin_unlock, testing
    [holding], about to clear the owner, about to release. *)
Inductive cpu_pc :=
  | Outside
  | LHolding | LHoldingCpu | LSpin | LRecord
  | Inside
  | UHolding | UHoldingCpu | UClear | URelease
  | Panicked.
#[export] Instance cpu_pc_dec : EqDecision cpu_pc.
Proof. solve_decision. Defined.

(** One access of CPU [c] in spin_lock. *)
Definition spin_lock_step (c : Z) (lk : spinlock) (pc : cpu_pc) : option (spinlock * cpu_pc) :=
  match pc with
  | LHolding => Some (lk, if locked lk =? 0 then LSpin else LHoldingCpu)
  | LHoldingCpu => Some (lk, if decide (lk_cpu lk = Some c) then Panicked else LSpin)
  | LSpin => Some (lk <| locked := 1 |>, if locked lk =? 0 then LRecord else LSpin)
  | LRecord => Some (lk <| lk_cpu := Some c |>, Inside)
  | _ => None
  end.

(** One access of CPU [c] in spin_unlock. *)
Definition spin_unlock_step (c : Z) (lk : spinlock) (pc : cpu_pc) : option (spinlock * cpu_pc) :=
  match pc with
  | UHolding => Some (lk, if locked lk =? 0 then Panicked else UHoldingCpu)
  | UHoldingCpu => Some (lk, if decide (lk_cpu lk = Some c) then UClear else Panicked)
  | UClear => Some (lk <| lk_cpu := None |>, URelease)
  | URelease => Some (lk <| locked := 0 |>, Outside)
  | _ => None
  end.

(** A CPU that is outside calls spin_lock and one that is inside spin_unlock. *)
Record lstate := mkLstate { the_lock : spinlock; pcs : Z -> cpu_pc }.
Definition move (c : Z) (pc : cpu_pc) (pcs : Z -> cpu_pc) : Z -> cpu_pc :=
  fun d => if decide (d = c) then pc else pcs d.

Inductive lstep : lstate -> lstate -> Prop :=
  | l_call c lk ps : ps c = Outside -> lstep (mkLstate lk ps) (mkLstate lk (move c LHolding ps))
  | l_lock c lk ps lk' pc' :
      spin_lock_step c lk (ps c) = Some (lk', pc') -> lstep (mkLstate lk ps) (mkLstate lk' (move c pc' ps))
  | l_leave c lk ps : ps c = Inside -> lstep (mkLstate lk ps) (mkLstate lk (move c UHolding ps))
  | l_unlock c lk ps lk' pc' :
      spin_unlock_step c lk (ps c) = Some (lk', pc') -> lstep (mkLstate lk ps) (mkLstate lk' (move c pc' ps)).

Definition lstart : lstate := mkLstate __spin_initlock (fun _ => Outside).

(** ** Mutual exclusion *)
Definition owns (pc : cpu_pc) : bool :=
  match pc with LRecord | Inside | UHolding | UHoldingCpu | UClear | URelease => true | _ => false end.
Definition recorded (pc : cpu_pc) : bool :=
  match pc with Inside | UHolding | UHoldingCpu | UClear => true | _ => false end.

(** [o] is the CPU that owns the lock, if any. *)
Record lock_inv (o : option Z) (s : lstate) : Prop := {
  li_owner : forall c, owns (pcs s c) = true <-> o = Some c;
  li_locked : locked (the_lock s) = if o then 1 else 0;
  li_cpu : lk_cpu (the_lock s) = match o with Some c => if recorded (pcs s c) then Some c else None | None => None end;
  li_panic : forall c, pcs s c <> Panicked
}.

Lemma move_eq c pc ps : move c pc ps c = pc.
Proof. unfold move. by rewrite decide_True. Qed.
Lemma move_ne c d pc ps : d <> c -> move c pc ps d = ps d.
Proof. intros. unfold move. by rewrite decide_False. Qed.

(** CPU [c] moves without getting or losing the lock and without a change of owner
    record. *)
Lemma inv_move o lk ps c pc' :
  lock_inv o (mkLstate lk ps) -> owns pc' = owns (ps c) -> recorded pc' = recorded (ps c) -> pc' <> Panicked ->
  lock_inv o (mkLstate lk (move c pc' ps)).
Proof.
  intros [Ho Hl Hc Hp] Hown Hrec Hpc. cbn in *.
  assert (forall d, owns (move c pc' ps d) = owns (ps d) /\ recorded (move c pc' ps d) = recorded (ps d)) as H.
  { intros d. destruct (decide (d = c)) as [->|]; [by rewrite move_eq|by rewrite move_ne]. }
  split; cbn.
  - intros d. rewrite (proj1 (H d)). apply Ho.
  - done.
  - rewrite Hc. destruct o as [d|]; [by rewrite (proj2 (H d))|done].
  - intros d. destruct (decide (d = c)) as [->|]; [by rewrite move_eq|by rewrite move_ne].
Qed.

(** [pcs] after CPU [c] has moved, for all CPUs. *)
Ltac cpu_cases c := intros d; destruct (decide (d = c)) as [->|]; [rewrite move_eq|rewrite move_ne by done].

Lemma lock_step_inv o c lk ps lk' pc' :
  lock_inv o (mkLstate lk ps) -> spin_lock_step c lk (ps c) = Some (lk', pc') ->
  exists o', lock_inv o' (mkLstate lk' (move c pc' ps)).
Proof.
  intros Hi E. pose proof Hi as [Ho Hl Hc Hp]. cbn in *. unfold spin_lock_step in E.
  destruct (ps c) eqn:Epc; try done; injection E as <- <-.
  - exists o. apply inv_move; rewrite ?Epc; try done; by destruct (locked lk =? 0).
  - exists o. rewrite decide_False; [by apply inv_move; rewrite ?Epc|].
    rewrite Hc. destruct o as [d|]; [|done]. destruct (recorded (ps d)) eqn:Er; [|done]. intros [= ->].
    by rewrite Epc in Er.
  - destruct (Z.eqb_spec (locked lk) 0) as [E0|E0].
    + exists (Some c). destruct o as [d|]; [lia|]. split; cbn.
      * cpu_cases c; [done|]. rewrite Ho. split; congruence.
      * done.
      * by rewrite move_eq, Hc.
      * by cpu_cases c.
    + exists o. destruct o as [d|]; [|done]. assert (lk <| locked := 1 |> = lk) as ->.
      { destruct lk as [lo lc]. cbn in *. by subst lo. }
      apply inv_move; by rewrite ?Epc.
  - assert (o = Some c) as -> by (apply Ho; by rewrite Epc). exists (Some c). split; cbn.
    + cpu_cases c; [by rewrite <- Ho, Epc|apply Ho].
    + done.
    + by rewrite move_eq.
    + by cpu_cases c.
Qed.

Lemma unlock_step_inv o c lk ps lk' pc' :
  lock_inv o (mkLstate lk ps) -> spin_unlock_step c lk (ps c) = Some (lk', pc') ->
  exists o', lock_inv o' (mkLstate lk' (move c pc' ps)).
Proof.
  intros Hi E. pose proof Hi as [Ho Hl Hc Hp]. cbn in *. unfold spin_unlock_step in E.
  assert (o = Some c) as -> by (apply Ho; by destruct (ps c)).
  destruct (ps c) eqn:Epc; try done; injection E as <- <-.
  - exists (Some c). rewrite Hl. by apply inv_move; rewrite ?Epc.
  - exists (Some c). rewrite decide_True by by rewrite Hc. by apply inv_move; rewrite ?Epc.
  - exists (Some c). split; cbn.
    + cpu_cases c; [by rewrite <- Ho, Epc|apply Ho].
    + done.
    + by rewrite move_eq.
    + by cpu_cases c.
  - exists None. split; cbn.
    + cpu_cases c; [done|]. rewrite Ho. split; congruence.
    + done.
    + done.
    + by cpu_cases c.
Qed.

Lemma lock_inv_reach s : rtc lstep lstart s -> exists o, lock_inv o s.
Proof.
  intros Hr. pattern s. revert s Hr. apply rtc_ind_r; [by exists None|].
  intros s1 s2 _ Hst [o Hi]. destruct Hst.
  - exists o. by apply inv_move; rewrite ?H.
  - by eapply lock_step_inv.
  - exists o. by apply inv_move; rewrite ?H.
  - by eapply unlock_step_inv.
Qed.

(** C21: However the accesses of any number of CPUs to the lock interleave, at most one of
    them is between the xchg that got the lock and the xchg that releases it, and
    no CPU ever panics in the checks of the owner, neither one that takes the lock
    while another releases it nor one that releases it. *)
Theorem spinlock_mutual_exclusion s c d :
  rtc lstep lstart s ->
  (owns (pcs s c) = true -> owns (pcs s d) = true -> c = d) /\ pcs s c <> Panicked.
Proof.
  intros Hr. destruct (lock_inv_reach s Hr) as [o [Ho _ _ Hp]]. split; [|apply Hp].
  intros H1%Ho H2%Ho. congruence.
Qed.

(** CPU 0 gets the lock, and CPU 1 spins. *)
Definition contended : lstate :=
  mkLstate (mkSpinlock 1 (Some 0)) (move 1 LSpin (move 1 LSpin (move 1 LHoldingCpu (move 1 LHolding
    (move 0 Inside (move 0 LRecord (move 0 LSpin (move 0 LHolding (fun _ => Outside))))))))).
Lemma contended_reached : rtc lstep lstart contended.
Proof.
  unfold lstart. eapply rtc_l; [by apply (l_call 0)|].
  do 3 (eapply rtc_l; [apply (l_lock 0); reflexivity|]).
  eapply rtc_l; [by apply (l_call 1)|]. do 3 (eapply rtc_l; [apply (l_lock 1); reflexivity|]). apply rtc_refl.
Qed.

Lemma spinlock_mutual_exclusion_witness :
  owns (pcs contended 0) = true /\ owns (pcs contended 1) = false /\ pcs contended 1 <> Panicked.
Proof.
  destruct (spinlock_mutual_exclusion contended 1 0) as [_ Hp].
  - exact contended_reached.
  - split_and!; [reflexivity|reflexivity|exact Hp].
Defined.
