(* ===== verification/Kdebug.v ===== *)
(** * Debug information: kern/kdebug.c

    The stabs of a program are a table of entries; those that mark source files,
    functions and lines are in the order of their addresses, each kind among entries of
    other kinds.  [stab_binsearch] is a binary search in it, and [debuginfo_rip] makes
    three of them.  A result [None] is an access outside of the table, or fuel that ran
    out. *)
From S2P Require Import Prelude Mmu CMem Str.

Definition N_FUN : Z := 0x24.
Definition N_SLINE : Z := 0x44.
Definition N_SO : Z := 0x64.
Definition N_SOL : Z := 0x84.
Definition N_PSYM : Z := 0xa0.

Record Stab := mkStab { n_strx : Z; n_type : Z; n_other : Z; n_desc : Z; n_value : Z }.

Section stabs.
Context (stabs : list Stab).

Definition stab (i : Z) : option Stab := if 0 <=? i then stabs !! Z.to_nat i else None.

(** ** stab_binsearch *)

(** The loops that go down from [m] to [l] for an entry of the type. *)
Fixpoint down_to_type (fuel : nat) (type l m : Z) : option Z :=
  match fuel with
  | O => None
  | S fuel' =>
      if m >=? l then
        st ← stab m;
        if n_type st =? type then Some m else down_to_type fuel' type l (m - 1)
      else Some m
  end.

(** The variables of the search. *)
Record search := mkSearch { s_l : Z; s_r : Z; s_left : Z; s_right : Z; any_matches : bool; s_addr : Z }.

Fixpoint binsearch_loop (fuel : nat) (type : Z) (s : search) : option search :=
  match fuel with
  | O => None
  | S fuel' =>
      let '(mkSearch l r rleft rright any addr) := s in
      if l <=? r then
        let true_m := Z.quot (i32 (l + r)) 2 in
        m ← down_to_type (Z.to_nat (true_m - l + 2)) type l true_m;
        if m <? l then binsearch_loop fuel' type (mkSearch (true_m + 1) r rleft rright any addr)
        else
          st ← stab m;
          if n_value st <? addr then binsearch_loop fuel' type (mkSearch (true_m + 1) r m rright true addr)
          else if addr <? n_value st then binsearch_loop fuel' type (mkSearch l (m - 1) rleft (m - 1) true addr)
          else binsearch_loop fuel' type (mkSearch m r m rright true (u64 (addr + 1)))
      else Some s
  end.

(** The last loop stops at the left end, which it does not look at. *)
Definition stab_binsearch (region_left region_right type addr : Z) : option (Z * Z) :=
  s ← binsearch_loop (Z.to_nat (2 * (region_right - region_left + 1) + 2)) type
        (mkSearch region_left region_right region_left region_right false addr);
  if any_matches s then
    l ← down_to_type (Z.to_nat (s_right s - s_left s + 2)) type (s_left s + 1) (s_right s);
    Some (l, s_right s)
  else Some (s_left s, s_left s - 1).

(** ** The search is correct *)
Section search.
Context (L R type addr : Z).
Definition typed (i : Z) : Prop := exists st, stab i = Some st /\ n_type st = type.
Definition value (i : Z) : Z := match stab i with Some st => n_value st | None => 0 end.

Hypothesis HL : 0 <= L.
Hypothesis HR : R < 2 ^ 30.
Hypothesis in_table : forall i, L <= i <= R -> is_Some (stab i).
Hypothesis sorted : forall i j, L <= i <= j -> j <= R -> typed i -> typed j -> value i <= value j.
Hypothesis no_next : forall i, L <= i <= R -> typed i -> value i <> addr + 1.
Hypothesis addr_range : 0 <= addr < 2 ^ 64 - 1.

(** What the loop downwards finds. *)
Lemma down_spec fuel l m :
  L <= l -> m <= R -> l - 1 <= m -> (Z.to_nat (m - l + 1) < fuel)%nat ->
  exists k, down_to_type fuel type l m = Some k /\ l - 1 <= k <= m /\
    (l <= k -> typed k) /\ forall i, k < i <= m -> ~ typed i.
Proof.
  intros Hl Hm. revert m Hm. induction fuel as [|fuel IH]; intros m Hm Hlm Hf; [lia|]. cbn [down_to_type].
  rewrite Z.geb_leb. destruct (Z.leb_spec l m).
  - destruct (in_table m ltac:(lia)) as [st Hst]. rewrite Hst. cbn. destruct (Z.eqb_spec (n_type st) type) as [Ht|Ht].
    + exists m. split_and!; [done|lia|lia|by exists st|intros; lia].
    + destruct (IH (m - 1)) as (k & -> & Hk & Htk & Hno); [lia..|]. exists k. split_and!; [done|lia|lia|done|].
      intros i Hi (st' & Hst' & Ht'). destruct (decide (i = m)) as [->|]; [congruence|]. apply (Hno i); [lia|by exists st'].
  - exists m. split_and!; [done|lia|lia|lia|intros; lia].
Qed.

(** The invariant: the entries of the type left of [l] begin at or before the address,
    those right of [r] after it. *)
Record search_inv (s : search) (bumped : bool) : Prop := {
  si_addr : s_addr s = addr + if bumped then 1 else 0;
  si_range : L <= s_l s <= s_r s + 1 /\ s_r s <= R;
  si_right : s_right s = s_r s;
  si_low : forall i, L <= i < s_l s -> typed i -> value i <= addr;
  si_high : forall i, s_r s < i <= R -> typed i -> addr < value i;
  si_next : s_r s < R -> typed (s_r s + 1);
  si_left : s_left s = L \/ (L <= s_left s <= s_r s /\ s_left s <= s_l s /\ typed (s_left s) /\ value (s_left s) <= addr);
  si_any : any_matches s = true -> exists i, L <= i <= R /\ typed i;
  si_none : any_matches s = false -> s_left s = L /\ forall i, L <= i < s_l s -> ~ typed i
}.

Lemma typed_value i st : stab i = Some st -> value i = n_value st.
Proof. unfold value. by intros ->. Qed.

Lemma loop_spec fuel s b :
  search_inv s b -> (Z.to_nat (2 * (s_r s - s_l s + 1) + if b then 0 else 1) < fuel)%nat ->
  exists s' b', binsearch_loop fuel type s = Some s' /\ search_inv s' b' /\ s_l s' = s_r s' + 1.
Proof.
  revert s b. induction fuel as [|fuel IH]; intros [l r lf rg any cur] b Hinv Hf; [lia|]. cbn [binsearch_loop].
  pose proof Hinv as [Hcur Hrng Hrg Hlow Hhigh Hnext Hlf Hany Hnone]. cbn in *. subst cur rg.
  destruct (Z.leb_spec l r) as [Hlr|Hlr]; [|exists (mkSearch l r lf r any (addr + if b then 1 else 0)), b; split_and!; [done|done|cbn; lia]].
  rewrite swrap_small, Z.quot_div_nonneg by lia. set (t := (l + r) / 2).
  assert (l <= t <= r) as Ht by (unfold t; Z.div_mod_to_equations; lia).
  destruct (down_spec (Z.to_nat (t - l + 2)) l t) as (m & -> & Hm & Htm & Hno); [lia..|]. cbn.
  destruct (Z.ltb_spec m l) as [Hml|Hml].
  { (* no entry of the type in [l, t] *)
    apply (IH _ b); [|cbn; destruct b; lia]. assert (m = l - 1) as -> by lia.
    assert (forall i, L <= i < t + 1 -> typed i -> i < l) as Hlt.
    { intros i Hi Hti. destruct (decide (i < l)); [done|]. exfalso. apply (Hno i); [lia|done]. }
    split; cbn; try done; try lia.
    - intros i Hi Hti. apply Hlow; [|done]. specialize (Hlt i Hi Hti). lia.
    - destruct Hlf as [?|?]; [by left|right]. split_and!; try tauto; lia.
    - intros Ha. destruct (Hnone Ha) as [? Hn]. split; [done|]. intros i Hi Hti. apply (Hn i); [|done]. specialize (Hlt i Hi Hti). lia. }
  specialize (Htm Hml). destruct (in_table m ltac:(lia)) as [st Hst]. rewrite Hst. cbn. rewrite <- (typed_value m st Hst).
  assert (forall i, L <= i < t + 1 -> typed i -> i <= m) as Hle.
  { intros i Hi Hti. destruct (decide (i <= m)); [done|]. exfalso. apply (Hno i); [lia|done]. }
  specialize (no_next m ltac:(lia) Htm) as Hnn.
  destruct (Z.ltb_spec (value m) (addr + if b then 1 else 0)) as [Hv|Hv].
  { assert (value m <= addr) as Hva by (destruct b; lia). apply (IH _ b); [|cbn; destruct b; lia]. split; cbn; try done; try lia.
    - intros i Hi Hti. specialize (Hle i Hi Hti). etrans; [apply (sorted i m); done || lia|done].
    - right. split_and!; [lia|lia|lia|done|done].
    - intros _. exists m. split; [lia|done]. }
  destruct (Z.ltb_spec (addr + if b then 1 else 0) (value m)) as [Hv'|Hv'].
  { assert (addr < value m) as Hva by (destruct b; lia). apply (IH _ b); [|cbn; destruct b; lia]. split; cbn; try done; try lia.
    - intros i Hi Hti. eapply Z.lt_le_trans; [exact Hva|]. apply (sorted m i); done || lia.
    - intros _. by replace (m - 1 + 1) with m by lia.
    - destruct Hlf as [?|(H1 & H2 & H3 & H4)]; [by left|right]. assert (lf <> m) by (intros ->; lia). split_and!; try done; lia.
    - intros _. exists m. split; [lia|done]. }
  destruct b; [exfalso; lia|]. rewrite Z.add_0_r in *. assert (value m = addr) as Hva by lia.
  rewrite wrap_small by lia. apply (IH _ true); [|cbn; lia]. split; cbn; try done; try lia.
  - intros i Hi Hti. rewrite <- Hva. apply (sorted i m); done || lia.
  - right. split_and!; try done; lia.
  - intros _. exists m. split; [lia|done].
Qed.

(** The bounds that a search returns: the last entry of the type that begins at or
    before the address, and the place before the next entry of the type. *)
Definition brackets (left right : Z) : Prop :=
  L <= left <= right /\ right <= R /\ typed left /\ value left <= addr /\
  (forall i, left < i <= right -> ~ typed i) /\ (right < R -> typed (right + 1) /\ addr < value (right + 1)).

Lemma binsearch_spec :
  L <= R + 1 ->
  exists x, stab_binsearch L R type addr = Some x /\
    ((exists i, L <= i <= R /\ typed i /\ value i <= addr) -> brackets x.1 x.2) /\
    ((forall i, L <= i <= R -> ~ typed i) -> x = (L, L - 1)).
Proof.
  intros HLR. unfold stab_binsearch.
  destruct (loop_spec (Z.to_nat (2 * (R - L + 1) + 2)) (mkSearch L R L R false addr) false) as ([l r lf rg any cur] & b & -> & Hinv & Hex).
  { split; cbn; try done; try lia. intros _. split; [done|]. intros; lia. }
  { cbn. lia. }
  destruct Hinv as [_ Hrng Hrg Hlow Hhigh Hnext Hlf Hany Hnone]. cbn in *. subst l rg.
  assert (L <= lf) as Hlf0 by lia.
  destruct any; cbn.
  2:{ eexists. split; [done|]. destruct (Hnone eq_refl) as [-> Hno]. split; [|done]. intros (i & Hi & Hti & Hv). exfalso.
      apply (Hno i); [|done]. destruct (decide (i < r + 1)); [lia|]. specialize (Hhigh i ltac:(lia) Hti). lia. }
  destruct (decide (r < lf)) as [Hempty|Hne].
  { assert (r = lf - 1) as -> by (destruct Hlf; lia). replace (lf - 1 - lf + 2) with 1 by lia.
    assert (down_to_type (Z.to_nat 1) type (lf + 1) (lf - 1) = Some (lf - 1)) as ->
      by (change (Z.to_nat 1) with 1%nat; cbn [down_to_type]; by rewrite Z.geb_leb, (proj2 (Z.leb_gt _ _)) by lia).
    cbn. eexists. split; [done|]. split.
    - intros (i & Hi & Ht & Hv). specialize (Hhigh i). destruct Hlf; [subst lf|]; [|lia]. specialize (Hhigh ltac:(lia) Ht). lia.
    - intros N. destruct (Hany eq_refl) as (i & Hi & Ht). by destruct (N i). }
  destruct (down_spec (Z.to_nat (r - lf + 2)) (lf + 1) r) as (k & -> & Hk & Htk & Hno); [lia..|].
  cbn. eexists. split; [done|]. cbn. split; [|intros N; destruct (Hany eq_refl) as (i & Hi & Ht); by destruct (N i)].
  intros (i0 & Hi0 & Ht0 & Hv0).
  assert (i0 <= r) by (destruct (decide (i0 <= r)); [done|]; specialize (Hhigh i0 ltac:(lia) Ht0); lia).
  assert (typed k /\ value k <= addr) as [Tk Vk].
  { destruct (decide (lf < k)) as [Hlk|Hlk]; [split; [apply Htk; lia|apply Hlow; [lia|apply Htk; lia]]|].
    assert (k = lf) as -> by lia. destruct Hlf as [->|(_ & _ & ? & ?)]; [|done]. destruct (decide (i0 = L)) as [->|]; [done|].
    exfalso. apply (Hno i0); [lia|done]. }
  split_and!; try done; try lia. intros Hr. split; [auto|]. apply Hhigh; [lia|auto].
Qed.

Lemma brackets_unique a b a' b' : brackets a b -> brackets a' b' -> a = a' /\ b = b'.
Proof.
  intros (H1 & H2 & Ta & Va & No & Nx) (H1' & H2' & Ta' & Va' & No' & Nx').
  assert (~ a < a') as N1.
  { intros Hlt. destruct (decide (a' <= b)); [by apply (No a'); [lia|]|]. destruct (Nx ltac:(lia)) as [Tb Vb].
    pose proof (sorted (b + 1) a' ltac:(lia) ltac:(lia) Tb Ta'). lia. }
  assert (~ a' < a) as N2.
  { intros Hlt. destruct (decide (a <= b')); [by apply (No' a); [lia|]|]. destruct (Nx' ltac:(lia)) as [Tb Vb].
    pose proof (sorted (b' + 1) a ltac:(lia) ltac:(lia) Tb Ta). lia. }
  assert (a = a') as <- by lia. split; [done|].
  assert (~ b < b') by (intros Hlt; apply (No' (b + 1)); [lia|apply Nx; lia]).
  assert (~ b' < b) by (intros Hlt; apply (No (b' + 1)); [lia|apply Nx'; lia]). lia.
Qed.
End search.

(** What a search needs of a part of the table. *)
Record searchable (L R type addr : Z) : Prop := {
  sb_range : 0 <= L <= R + 1 /\ R < 2 ^ 30;
  sb_table : forall i, L <= i <= R -> is_Some (stab i);
  sb_sorted : forall i j, L <= i <= j -> j <= R -> typed type i -> typed type j -> value i <= value j;
  sb_next : forall i, L <= i <= R -> typed type i -> value i <> addr + 1;
  sb_addr : 0 <= addr < 2 ^ 64 - 1
}.

Lemma stab_binsearch_found L R type addr left right :
  searchable L R type addr -> brackets L R type addr left right -> stab_binsearch L R type addr = Some (left, right).
Proof.
  intros [Hr Ht Hs Hn Ha] Hb. destruct (binsearch_spec L R type addr) as ([a b] & -> & Hx & _); [lia|lia|done..|lia|].
  destruct (brackets_unique L R type addr Hs a b left right) as [-> ->]; try done. apply Hx.
  exists left. destruct Hb as (? & ? & ? & ? & _). split_and!; done || lia.
Qed.
End stabs.

(** ** debuginfo_rip *)

(** The stabs of a program and the place of their strings. *)
Record StabData := mkStabData { sd_stabs : list Stab; sd_stabstr : Z; sd_stabstr_end : Z }.

Record Ripdebuginfo := mkRip {
  rip_file : Z; rip_line : Z; rip_fn_name : Z; rip_fn_namelen : Z; rip_fn_addr : Z; rip_fn_narg : Z
}.
#[export] Instance Ripdebuginfo_fields : Fields Ripdebuginfo :=
  fun i => mkRip (rip_file i) (rip_line i) (rip_fn_name i) (rip_fn_namelen i) (rip_fn_addr i) (rip_fn_narg i).

Section debuginfo.
Context (m : bytes) (unknown : Z) (fuel : nat).

(** The loops over the entries around the line. *)
Fixpoint file_above (n : nat) (stabs : list Stab) (lfile lline : Z) : option Z :=
  match n with
  | O => None
  | S n' =>
      if lline >=? lfile then
        st ← stab stabs lline;
        if negb (n_type st =? N_SOL) && (negb (n_type st =? N_SO) || (n_value st =? 0))
        then file_above n' stabs lfile (lline - 1) else Some lline
      else Some lline
  end.
Fixpoint count_args (n : nat) (stabs : list Stab) (lline rfun narg : Z) : option Z :=
  match n with
  | O => None
  | S n' =>
      if lline <? rfun then
        st ← stab stabs lline;
        if n_type st =? N_PSYM then count_args n' stabs (lline + 1) rfun (i32 (narg + 1)) else Some narg
      else Some narg
  end.

(** The part after the function was looked for: the line, the file and the arguments. *)
Definition rip_lines (d : StabData) (lfile lfun rfun lline rline addr : Z) (info : Ripdebuginfo) : option (Z * Ripdebuginfo) :=
  e ← strfind fuel m (rip_fn_name info) 0x3a;
  let info := info <| rip_fn_namelen := i32 (e - rip_fn_name info) |> in
  found ← stab_binsearch (sd_stabs d) lline rline N_SLINE addr;
  let '(lline, rline) := found in
  if lline >? rline then Some (-1, info)
  else
    st ← stab (sd_stabs d) lline;
    let info := info <| rip_line := n_desc st |> in
    lline ← file_above (Z.to_nat (lline - lfile + 2)) (sd_stabs d) lfile lline;
    info ← (if lline >=? lfile then
              st ← stab (sd_stabs d) lline;
              Some (if n_strx st <? sd_stabstr_end d - sd_stabstr d
                    then info <| rip_file := sd_stabstr d + n_strx st |> else info)
            else Some info);
    info ← (if lfun <? rfun then
              narg ← count_args (Z.to_nat (rfun - lfun + 1)) (sd_stabs d) (lfun + 1) rfun (rip_fn_narg info);
              Some (info <| rip_fn_narg := narg |>)
            else Some info);
    Some (0, info).

Definition rip_function (d : StabData) (lfile rfile addr : Z) (info : Ripdebuginfo) : option (Z * Ripdebuginfo) :=
  found ← stab_binsearch (sd_stabs d) lfile rfile N_FUN addr;
  let '(lfun, rfun) := found in
  if lfun <=? rfun then
    st ← stab (sd_stabs d) lfun;
    let info := if n_strx st <? sd_stabstr_end d - sd_stabstr d
                then info <| rip_fn_name := sd_stabstr d + n_strx st |> else info in
    rip_lines d lfile lfun rfun lfun rfun (u64 (addr - n_value st)) (info <| rip_fn_addr := n_value st |>)
  else rip_lines d lfile lfun rfun lfile rfile addr (info <| rip_fn_addr := addr |>).

(** The tables of the kernel, or the ones that user memory holds at USTABDATA. *)
Definition debuginfo_rip (kernel user : StabData) (addr : Z) : option (Z * Ripdebuginfo) :=
  let info := mkRip unknown 0 unknown 9 addr 0 in
  let d := if addr >=? ULIM then kernel else user in
  if (sd_stabstr_end d <=? sd_stabstr d) || negb (ld8 m (sd_stabstr_end d - 1) =? 0) then Some (-1, info)
  else
    found ← stab_binsearch (sd_stabs d) 0 (Z.of_nat (length (sd_stabs d)) - 1) N_SO addr;
    let '(lfile, rfile) := found in
    if lfile =? 0 then Some (-1, info) else rip_function d lfile rfile addr info.

(** The characters of a string before the first [c]. *)
Fixpoint before (c : Z) (l : list Z) : list Z :=
  match l with [] => [] | a :: l' => if a =? c then [] else a :: before c l' end.

Lemma schar_inj a b : 0 <= a < 256 -> 0 <= b < 256 -> schar a = schar b -> a = b.
Proof. unfold schar, swrap. change (2 ^ 8) with 256. change (2 ^ (8 - 1)) with 128. intros. Z.div_mod_to_equations. lia. Qed.

Lemma strfind_ok n s c l :
  str_at m s l -> (length l < n)%nat -> 0 <= c < 256 -> strfind n m s c = Some (s + Z.of_nat (length (before c l))).
Proof.
  revert s l. induction n as [|n IH]; intros s l Hs Hl Hc; [lia|]. cbn [strfind]. destruct l as [|a l]; cbn [str_at before length] in *.
  - rewrite Hs. cbn. f_equal. lia.
  - destruct Hs as (Ha & Ha0 & Hs). pose proof (ld8_range m s) as Hr. rewrite Ha in *. rewrite (proj2 (Z.eqb_neq a 0)) by done. cbn [orb].
    destruct (Z.eqb_spec (schar a) (schar c)) as [E|E].
    + apply schar_inj in E; [|lia..]. rewrite E, Z.eqb_refl. cbn. f_equal. lia.
    + destruct (Z.eqb_spec a c) as [->|]; [done|]. rewrite (IH (s + 1) l Hs) by (done || lia). cbn [length]. f_equal. lia.
Qed.

Lemma file_above_ok n stabs lfile lline :
  0 <= lfile -> (forall i, lfile <= i <= lline -> is_Some (stab stabs i)) -> lfile - 1 <= lline -> (Z.to_nat (lline - lfile + 1) < n)%nat ->
  exists k, file_above n stabs lfile lline = Some k /\ lfile - 1 <= k <= lline.
Proof.
  intros H0. revert lline. induction n as [|n IH]; intros lline Hin Hl Hn; [lia|]. cbn [file_above]. rewrite Z.geb_leb.
  destruct (Z.leb_spec lfile lline); [|exists lline; split; [done|lia]]. destruct (Hin lline ltac:(lia)) as [st Hst]. rewrite Hst. cbn.
  case_match; [|exists lline; split; [done|lia]].
  destruct (IH (lline - 1)) as (k & -> & Hk); [intros; apply Hin; lia|lia|lia|]. exists k. split; [done|lia].
Qed.

Lemma count_args_ok n stabs lline rfun narg :
  (forall i, lline <= i < rfun -> is_Some (stab stabs i)) -> (Z.to_nat (rfun - lline) < n)%nat ->
  is_Some (count_args n stabs lline rfun narg).
Proof.
  revert lline narg. induction n as [|n IH]; intros lline narg Hin Hn; [lia|]. cbn [count_args].
  destruct (Z.ltb_spec lline rfun); [|by eexists]. destruct (Hin lline ltac:(lia)) as [st Hst]. rewrite Hst. cbn.
  case_match; [|by eexists]. apply IH; [intros; apply Hin; lia|lia].
Qed.
End debuginfo.

(** The name that the function entry gives, if it is in the string table. *)
Definition fn_name (d : StabData) (unknown : Z) (st : Stab) : Z :=
  if n_strx st <? sd_stabstr_end d - sd_stabstr d then sd_stabstr d + n_strx st else unknown.

(** C34: The debug information of an instruction: when the address is in a source file, in
    it in a function, and in that in a line, each kind of entries being in the order of
    addresses, debuginfo_rip returns 0 with the function that contains the address, its
    name up to the colon, and the line of the last line entry at or before the address;
    the searches stay in the table and end.  No entry may begin at the address after the
    one that is looked for: the search would take it (see [search_takes_next]). *)
Theorem debuginfo_rip_correct m unknown fuel kernel user addr lfile rfile lfun rfun lline rline fn line name :
  let d := if addr >=? ULIM then kernel else user in
  let last := Z.of_nat (length (sd_stabs d)) - 1 in
  sd_stabstr d < sd_stabstr_end d -> ld8 m (sd_stabstr_end d - 1) = 0 ->
  searchable (sd_stabs d) 0 last N_SO addr -> brackets (sd_stabs d) 0 last N_SO addr lfile rfile -> lfile <> 0 ->
  searchable (sd_stabs d) lfile rfile N_FUN addr -> brackets (sd_stabs d) lfile rfile N_FUN addr lfun rfun ->
  stab (sd_stabs d) lfun = Some fn -> 0 <= n_value fn ->
  searchable (sd_stabs d) lfun rfun N_SLINE (addr - n_value fn) ->
  brackets (sd_stabs d) lfun rfun N_SLINE (addr - n_value fn) lline rline -> stab (sd_stabs d) lline = Some line ->
  str_at m (fn_name d unknown fn) name -> (length name < fuel)%nat -> Z.of_nat (length name) < 2 ^ 31 ->
  exists info, debuginfo_rip m unknown fuel kernel user addr = Some (0, info) /\
    rip_fn_addr info = n_value fn /\ rip_fn_name info = fn_name d unknown fn /\
    rip_fn_namelen info = Z.of_nat (length (before 0x3a name)) /\ rip_line info = n_desc line.
Proof.
  intros d last Hstr Hend Sf Bf Hf0 Su Bu Hfn Hv Sl Bl Hline Hname Hfuel Hlen. unfold debuginfo_rip. fold d.
  rewrite (proj2 (Z.leb_gt _ _)), Hend by lia. cbn [orb negb Z.eqb]. fold last.
  rewrite (stab_binsearch_found _ _ _ _ _ _ _ Sf Bf). cbn. rewrite (proj2 (Z.eqb_neq _ _)) by done.
  unfold rip_function. rewrite (stab_binsearch_found _ _ _ _ _ _ _ Su Bu). cbn -[u64].
  destruct Bf as (Lf & Rf & _), Bu as (Lu & Ru & Tu & Vu & _), Sf as [[S0 _] Stab _ _ Sa].
  rewrite (proj2 (Z.leb_le _ _)), Hfn by lia. cbn -[u64]. unfold value in Vu. rewrite Hfn in Vu. rewrite wrap_small by lia.
  set (info := (if n_strx fn <? _ then _ else _) <| rip_fn_addr := n_value fn |>).
  assert (rip_fn_name info = fn_name d unknown fn /\ rip_fn_addr info = n_value fn) as [Hn Ha]
    by (unfold info, fn_name; by destruct (_ <? _)).
  unfold rip_lines. rewrite Hn, (strfind_ok m fuel _ 0x3a name Hname Hfuel) by lia. cbn -[i32].
  assert (length (before 0x3a name) <= length name)%nat as Hb by (clear; induction name as [|a l IH]; cbn; [|case_match; cbn]; lia).
  rewrite Z.add_simpl_l, swrap_small by lia.
  rewrite (stab_binsearch_found _ _ _ _ _ _ _ Sl Bl). cbn. destruct Bl as (Ll & Rl & _).
  rewrite Z.gtb_ltb, (proj2 (Z.ltb_ge _ _)), Hline by lia. cbn.
  destruct (file_above_ok (Z.to_nat (lline - lfile + 2)) (sd_stabs d) lfile lline) as (k & -> & Hk); [lia|intros; apply Stab; lia|lia|lia|].
  cbn -[Z.geb]. destruct (k >=? lfile) eqn:Hkl; [rewrite Z.geb_leb in Hkl; apply Z.leb_le in Hkl; destruct (Stab k ltac:(lia)) as [sk ->]|];
    cbn -[Z.geb]; (destruct (lfun <? rfun) eqn:Hlr;
    [apply Z.ltb_lt in Hlr; edestruct (count_args_ok (Z.to_nat (rfun - lfun + 1)) (sd_stabs d) (lfun + 1) rfun) as [na ->];
      [intros; apply Stab; lia|lia|]|]); cbn -[Z.geb]; eexists; (split; [reflexivity|]); try case_match; cbn; done.
Qed.

(** *** A table with two files, a function and two lines *)
Definition demo_stabs : list Stab :=
  [mkStab 0 0 0 0 0; mkStab 1 N_SO 0 0 0x800000; mkStab 5 N_FUN 0 0 0x800020; mkStab 0 N_PSYM 0 0 8;
   mkStab 0 N_SLINE 0 17 0; mkStab 0 N_SLINE 0 18 9; mkStab 1 N_SO 0 0 0x800100].
Definition demo_strings : bytes := st8 (st8 (st8 ∅ 5 0x66) 6 0x3a) 7 0x46.
Definition demo_table : StabData := mkStabData demo_stabs 0 16.


(** The hypotheses on a concrete table, by evaluation. *)
Definition typedb (stabs : list Stab) (type i : Z) : bool :=
  match stab stabs i with Some st => n_type st =? type | None => false end.
Definition searchableb (stabs : list Stab) (L R type addr : Z) : bool :=
  forallb (fun i => match stab stabs i with
                    | Some st => negb (n_type st =? type) ||
                        (negb (n_value st =? addr + 1) &&
                         forallb (fun j => negb (i <=? j) || negb (typedb stabs type j) || (n_value st <=? value stabs j)) (seqZ L (R - L + 1)))
                    | None => false
                    end) (seqZ L (R - L + 1)).
Definition bracketsb (stabs : list Stab) (R type addr left right : Z) : bool :=
  typedb stabs type left && (value stabs left <=? addr) &&
  forallb (fun i => negb (typedb stabs type i)) (seqZ (left + 1) (right - left)) &&
  ((R <=? right) || (typedb stabs type (right + 1) && (addr <? value stabs (right + 1)))).

Lemma typedb_ok stabs type i : typedb stabs type i = true <-> typed stabs type i.
Proof.
  unfold typedb, typed. destruct (stab stabs i) as [st|]; [|split; [done|by intros (? & ? & _)]].
  rewrite Z.eqb_eq. split; [eauto|]. by intros (? & [= <-] & ?).
Qed.

Lemma searchableb_ok stabs L R type addr :
  searchableb stabs L R type addr = true -> 0 <= L <= R + 1 -> R < 2 ^ 30 -> 0 <= addr < 2 ^ 64 - 1 -> searchable stabs L R type addr.
Proof.
  unfold searchableb. intros H. rewrite forallb_forall in H. intros. assert (forall i, L <= i <= R -> i ∈ seqZ L (R - L + 1)) as Hin by (intros; apply elem_of_seqZ; lia).
  split; [lia|..|lia].
  - intros i Hi. specialize (H i (proj1 (list_elem_of_In _ _) (Hin i Hi))). destruct (stab stabs i); [by eexists|done].
  - intros i j Hij Hj (st & Hst & Ht) Htj. specialize (H i (proj1 (list_elem_of_In _ _) (Hin i ltac:(lia)))).
    rewrite Hst, (proj2 (Z.eqb_eq _ _) Ht) in H. cbn in H. apply andb_true_iff in H as [_ H]. rewrite forallb_forall in H.
    specialize (H j (proj1 (list_elem_of_In _ _) (Hin j ltac:(lia)))). rewrite (proj2 (typedb_ok _ _ _) Htj), (proj2 (Z.leb_le i j)) in H by lia.
    unfold value at 1. rewrite Hst. by apply Z.leb_le.
  - intros i Hi (st & Hst & Ht). specialize (H i (proj1 (list_elem_of_In _ _) (Hin i Hi))).
    rewrite Hst, (proj2 (Z.eqb_eq _ _) Ht) in H. cbn in H. apply andb_true_iff in H as [H _]. unfold value. rewrite Hst.
    by apply negb_true_iff, Z.eqb_neq in H.
Qed.

Lemma bracketsb_ok stabs L R type addr left right :
  bracketsb stabs R type addr left right = true -> L <= left <= right -> right <= R -> brackets stabs L R type addr left right.
Proof.
  unfold bracketsb. rewrite !andb_true_iff, forallb_forall. intros [[[Ht%typedb_ok Hv%Z.leb_le] Hno] Hx] H1 H2.
  split_and!; try done; try lia.
  - intros i Hi Hti%typedb_ok. specialize (Hno i (proj1 (list_elem_of_In _ _) (proj2 (elem_of_seqZ (left + 1) (right - left) i) ltac:(lia)))). by rewrite Hti in Hno.
  - intros Hr. rewrite (proj2 (Z.leb_gt _ _)) in Hx by lia. apply andb_true_iff in Hx as [?%typedb_ok ?%Z.ltb_lt]. done.
Qed.

Lemma debuginfo_rip_correct_witness :
  exists info, debuginfo_rip demo_strings 100 10 demo_table demo_table 0x80002a = Some (0, info) /\
    rip_fn_addr info = 0x800020 /\ rip_fn_name info = 5 /\ rip_fn_namelen info = 1 /\ rip_line info = 18.
Proof.
  apply (debuginfo_rip_correct demo_strings 100 10 demo_table demo_table 0x80002a 1 5 2 5 5 5
    (mkStab 5 N_FUN 0 0 0x800020) (mkStab 0 N_SLINE 0 18 9) [0x66; 0x3a; 0x46]); try reflexivity; try (cbn; lia);
    try (apply searchableb_ok; [reflexivity|vm_compute; intuition congruence..]);
    try (apply bracketsb_ok; [reflexivity|vm_compute; intuition congruence..]).
  vm_compute. intuition congruence.
Defined.

(** An entry that begins one byte after the address is taken for the one that contains
    it: the search goes on with the next address when it finds an exact match. *)
Lemma search_takes_next :
  stab_binsearch [mkStab 0 N_SLINE 0 17 0x10; mkStab 0 N_SLINE 0 18 0x11] 0 1 N_SLINE 0x10 = Some (1, 1).
Proof. reflexivity. Qed.

(** When all entries of the type begin after the address, the bounds that are returned
    do not say so: the first entry, of another type, is taken. *)
Lemma search_takes_other_type :
  stab_binsearch [mkStab 0 N_FUN 0 0 0; mkStab 0 N_SLINE 0 18 0x11] 0 1 N_SLINE 0x10 = Some (0, 0).
Proof. reflexivity. Qed.
