(* ===== verification/Args.v ===== *)
(** * Command line arguments: lib/args.c

    A string is the list of its characters, and a pointer into it what is left of it.
    argv is an array of such pointers, [None] for null, shared with the program, with a
    null pointer after the arguments; the code removes the options that it has read.
    A result [None] is an access outside of the array. *)
From S2P Require Import Prelude.

Abbreviation cstring := (list Z).

(** struct Argstate, with what its pointers argc and argv lead to. *)
Record Argstate := mkArgs {
  args_argc : Z;
  args_argv : list (option cstring);
  curarg : option cstring;
  args_argvalue : option cstring
}.
#[export] Instance Argstate_fields : Fields Argstate :=
  fun a => mkArgs (args_argc a) (args_argv a) (curarg a) (args_argvalue a).

Definition argstart (argc : Z) (argv : list (option cstring)) : Argstate :=
  mkArgs argc argv (if 1 <? argc then Some [] else None) None.

(** The character at a place of a string; the end is a zero. *)
Definition char_at (s : cstring) (i : nat) : Z := default 0 (s !! i).

(** memmove(argv + 1, argv + 2, sizeof(char* ) * (argc - 1)), and one argument less. *)
Definition shift_args (a : Argstate) : option Argstate :=
  let n := Z.to_nat (args_argc a) in
  let v := args_argv a in
  if (length v <=? n)%nat then None
  else Some (a <| args_argv := take 1 v ++ take (n - 1) (drop 2 v) ++ drop n v |> <| args_argc := args_argc a - 1 |>).

(** The result is the next option character, or -1. *)
Definition take_char (a : Argstate) (s : cstring) : Z * Argstate :=
  (char_at s 0, a <| curarg := Some (drop 1 s) |>).
Definition endofargs (a : Argstate) : Z * Argstate := (-1, a <| curarg := None |>).

Definition argnext (a : Argstate) : option (Z * Argstate) :=
  let a := a <| args_argvalue := None |> in
  match curarg a with
  | None => Some (-1, a)
  | Some cur =>
      if char_at cur 0 =? 0 then
        if args_argc a =? 1 then Some (endofargs a)
        else
          w ← args_argv a !! 1%nat;
          arg ← w;
          if negb (char_at arg 0 =? 0x2d) || (char_at arg 1 =? 0) then Some (endofargs a)
          else
            let cur := drop 1 arg in
            a ← shift_args (a <| curarg := Some cur |>);
            if (char_at cur 0 =? 0x2d) && (char_at cur 1 =? 0) then Some (endofargs a)
            else Some (take_char a cur)
      else Some (take_char a cur)
  end.

Definition argnextvalue (a : Argstate) : option (option cstring * Argstate) :=
  match curarg a with
  | None => Some (None, a)
  | Some cur =>
      if negb (char_at cur 0 =? 0) then Some (Some cur, a <| args_argvalue := Some cur |> <| curarg := Some [] |>)
      else if 1 <? args_argc a then
        w ← args_argv a !! 1%nat;
        a ← shift_args (a <| args_argvalue := w |>);
        Some (w, a)
      else Some (None, a <| args_argvalue := None |> <| curarg := None |>)
  end.

Definition argvalue (a : Argstate) : option (option cstring * Argstate) :=
  match args_argvalue a with Some v => Some (Some v, a) | None => argnextvalue a end.

(** The loop of a program over its options, as in user/sh.c: while ((r = argnext(&args)) >= 0). *)
Fixpoint arg_loop (fuel : nat) (a : Argstate) : option (list Z * Argstate) :=
  match fuel with
  | O => None
  | S fuel' =>
      x ← argnext a;
      if x.1 >=? 0 then y ← arg_loop fuel' x.2; Some (x.1 :: y.1, y.2) else Some ([], x.2)
  end.

(** ** What the options are

    The arguments that begin with a dash and go on, up to an argument that does not or
    up to a double dash, which is dropped; each of their characters is an option. *)
Definition is_flag (w : cstring) : bool := match w with c :: _ :: _ => c =? 0x2d | _ => false end.
Fixpoint options (args : list cstring) : list Z * list cstring :=
  match args with
  | [] => ([], [])
  | w :: rest =>
      if is_flag w then
        if decide (w = [0x2d; 0x2d]) then ([], rest) else (drop 1 w ++ (options rest).1, (options rest).2)
      else ([], args)
  end.

(** A program's arguments: the array ends with a null pointer. *)
Definition args_of (prog : cstring) (args : list cstring) : list (option cstring) :=
  map Some (prog :: args) ++ [None].

(** C strings hold no zero, and characters are bytes. *)
Definition cstr (s : cstring) : Prop := Forall (fun c => 0 < c < 256) s.

Lemma char_at_cons c s : char_at (c :: s) 0 = c.
Proof. done. Qed.
Lemma char_at_zero s i : cstr s -> char_at s i = 0 <-> (length s <= i)%nat.
Proof.
  intros Hs. unfold char_at. destruct (s !! i) as [c|] eqn:E; cbn.
  - pose proof (lookup_lt_Some _ _ _ E). apply (Forall_lookup_1 _ _ _ _ Hs) in E. cbn in E. split; lia.
  - apply lookup_ge_None in E. done.
Qed.

Lemma shift_args_ok prog w rest junk cur v :
  shift_args (mkArgs (1 + Z.of_nat (length (w :: rest))) (args_of prog (w :: rest) ++ junk) cur v) =
  Some (mkArgs (1 + Z.of_nat (length rest)) (args_of prog rest ++ None :: junk) cur v).
Proof.
  unfold shift_args. cbn [args_argc args_argv length]. replace (Z.to_nat (1 + Z.of_nat (S (length rest)))) with (S (S (length rest))) by lia.
  unfold args_of. rewrite (proj2 (Nat.leb_gt _ _)) by (rewrite !length_app, length_map; simpl; lia).
  cbn [map app take drop Nat.sub]. rewrite drop_0.
  assert (take (S (length rest)) ((map Some rest ++ [None]) ++ junk) = map Some rest ++ [None]) as ->.
  { rewrite take_app_le, take_ge; [done|..]; rewrite length_app, length_map; simpl; lia. }
  assert (drop (length rest) ((map Some rest ++ [None]) ++ junk) = None :: junk) as ->.
  { rewrite <- app_assoc, drop_app_length'; [done|]. by rewrite length_map. }
  by replace (1 + Z.of_nat (S (length rest)) - 1) with (1 + Z.of_nat (length rest)) by lia.
Qed.

Definition total_length (args : list cstring) : nat := sum_list (length <$> args).

Lemma is_flag_ok w : cstr w ->
  negb (char_at w 0 =? 0x2d) || (char_at w 1 =? 0) = negb (is_flag w).
Proof.
  intros Hw. destruct w as [|c [|d w]]; [done| |].
  - change (char_at [c] 1 =? 0) with true. by rewrite orb_true_r.
  - change (char_at (c :: d :: w) 0) with c. change (char_at (c :: d :: w) 1) with d. cbn [is_flag].
    inversion_clear Hw as [|? ? _ Hd]. inversion_clear Hd as [|? ? Hd' _].
    rewrite (proj2 (Z.eqb_neq d 0)) by lia. by rewrite orb_false_r.
Qed.

Lemma double_dash d w : cstr (d :: w) ->
  (char_at (d :: w) 0 =? 0x2d) && (char_at (d :: w) 1 =? 0) = bool_decide (0x2d :: d :: w = [0x2d; 0x2d]).
Proof.
  intros Hw. change (char_at (d :: w) 0) with d. destruct (Z.eqb_spec d 0x2d) as [->|Hd]; cbn [andb];
    [|symmetry; apply bool_decide_eq_false; congruence].
  destruct w as [|e w]; [by rewrite bool_decide_true|]. change (char_at (45 :: e :: w) 1) with e.
  inversion_clear Hw as [|? ? _ He]. inversion_clear He as [|? ? He' _].
  rewrite (proj2 (Z.eqb_neq e 0)) by lia. symmetry. apply bool_decide_eq_false. congruence.
Qed.

Lemma bind_some {A B} (x : A) (f : A -> option B) : Some x ≫= f = f x.
Proof. done. Qed.

Lemma argnext_eq n v cur x :
  argnext (mkArgs n v (Some cur) x) =
  if char_at cur 0 =? 0 then
    if n =? 1 then Some (-1, mkArgs n v None None)
    else
      w ← v !! 1%nat; arg ← w;
      if negb (char_at arg 0 =? 0x2d) || (char_at arg 1 =? 0) then Some (-1, mkArgs n v None None)
      else
        a ← shift_args (mkArgs n v (Some (drop 1 arg)) None);
        if (char_at (drop 1 arg) 0 =? 0x2d) && (char_at (drop 1 arg) 1 =? 0) then Some (endofargs a)
        else Some (take_char a (drop 1 arg))
  else Some (take_char (mkArgs n v (Some cur) None) cur).
Proof. reflexivity. Qed.

(** The loop from any point: the rest of the current argument, then the arguments. *)
Lemma arg_loop_spec fuel prog args junk cur v :
  cstr cur -> Forall cstr args -> (length cur + total_length args < fuel)%nat ->
  exists junk', arg_loop fuel (mkArgs (1 + Z.of_nat (length args)) (args_of prog args ++ junk) (Some cur) v) =
    Some (cur ++ (options args).1,
          mkArgs (1 + Z.of_nat (length (options args).2)) (args_of prog (options args).2 ++ junk') None None).
Proof.
  revert args junk cur v. induction fuel as [|fuel IH]; intros args junk cur v Hcur Hargs Hf; [lia|]. cbn [arg_loop].
  assert (forall args junk c s v, cstr (c :: s) -> Forall cstr args -> (length s + total_length args < fuel)%nat ->
    exists junk', (x ← Some (take_char (mkArgs (1 + Z.of_nat (length args)) (args_of prog args ++ junk) v None) (c :: s));
      if x.1 >=? 0 then y ← arg_loop fuel x.2; Some (x.1 :: y.1, y.2) else Some ([], x.2)) =
    Some ((c :: s) ++ (options args).1,
          mkArgs (1 + Z.of_nat (length (options args).2)) (args_of prog (options args).2 ++ junk') None None)) as Htake.
  { clear args junk cur v Hcur Hargs Hf. intros args junk c s v Hcs Hargs Hf. inversion_clear Hcs as [|? ? Hc Hs].
    destruct (IH args junk s None Hs Hargs Hf) as [junk' HIH]. exists junk'. unfold take_char. cbn -[arg_loop args_of Z.add Z.of_nat options char_at Z.geb].
    change (char_at (c :: s) 0) with c. rewrite drop_0, Z.geb_leb, (proj2 (Z.leb_le _ _)) by lia.
    change (arg_loop fuel _) with (arg_loop fuel (mkArgs (1 + Z.of_nat (length args)) (args_of prog args ++ junk) (Some s) None)).
    rewrite HIH. done. }
  rewrite argnext_eq. destruct cur as [|c s].
  2:{ change (char_at (c :: s) 0) with c. inversion_clear Hcur as [|? ? Hc Hs].
      rewrite (proj2 (Z.eqb_neq c 0)) by lia. apply Htake; [by constructor|done|simpl in Hf; lia]. }
  change (char_at [] 0 =? 0) with true. cbn beta iota. destruct args as [|w rest].
  { exists junk. reflexivity. }
  rewrite (proj2 (Z.eqb_neq _ _)) by (cbn [length]; lia). inversion_clear Hargs as [|? ? Hw Hrest].
  change ((args_of prog (w :: rest) ++ junk) !! 1%nat) with (Some (Some w)).
  rewrite (bind_some (Some w)), (bind_some w).
  rewrite is_flag_ok by done. cbn [options]. destruct (is_flag w) eqn:Hfl; cbn [negb].
  2:{ exists junk. reflexivity. }
  destruct w as [|c [|d w]]; [done|done|]. cbn in Hfl. apply Z.eqb_eq in Hfl as ->. inversion_clear Hw as [|? ? _ Hdw].
  change (drop 1 (0x2d :: d :: w)) with (d :: w). rewrite shift_args_ok.
  rewrite (bind_some (mkArgs _ _ _ _)), double_dash by done.
  case_bool_decide as Hdd; [rewrite decide_True by done; eexists; reflexivity|]. rewrite decide_False by done. cbn [fst snd].
  apply Htake; [done|done|]. unfold total_length in *. change (length w + sum_list (list_fmap cstring nat length rest) < fuel)%nat. simpl in Hf. lia.
Qed.

(** C35: Calling argnext until it returns a negative number gives the characters of the
    options in order, and leaves in argc and argv the program and the other arguments,
    the first of which is not an option, with a null pointer after them; every further
    call returns -1. *)
Theorem argnext_options fuel prog args :
  Forall cstr args -> (total_length args < fuel)%nat ->
  exists a, arg_loop fuel (argstart (1 + Z.of_nat (length args)) (args_of prog args)) = Some ((options args).1, a) /\
    args_argc a = 1 + Z.of_nat (length (options args).2) /\
    args_of prog (options args).2 `prefix_of` args_argv a /\ argnext a = Some (-1, a).
Proof.
  intros Hargs Hf. unfold argstart. destruct args as [|w rest].
  { destruct fuel as [|fuel]; [lia|]. eexists. split_and!; [reflexivity|reflexivity|done|reflexivity]. }
  rewrite (proj2 (Z.ltb_lt _ _)) by (cbn [length]; lia).
  destruct (arg_loop_spec fuel prog (w :: rest) [] [] None (Forall_nil_2 _) Hargs Hf) as [junk H]. rewrite app_nil_r in H.
  rewrite H. eexists. split_and!; [reflexivity|reflexivity|by eexists|reflexivity].
Qed.

(** "-rx" "-f" "--" "-r" "duh" *)
Lemma argnext_options_witness :
  exists a, arg_loop 20 (argstart 6 (args_of [0x73] [[0x2d; 0x72; 0x78]; [0x2d; 0x66]; [0x2d; 0x2d]; [0x2d; 0x72]; [0x64; 0x75; 0x68]])) =
    Some ([0x72; 0x78; 0x66], a) /\ args_argc a = 3 /\ args_of [0x73] [[0x2d; 0x72]; [0x64; 0x75; 0x68]] `prefix_of` args_argv a /\
    argnext a = Some (-1, a).
Proof.
  apply (argnext_options 20 [0x73] [[0x2d; 0x72; 0x78]; [0x2d; 0x66]; [0x2d; 0x2d]; [0x2d; 0x72]; [0x64; 0x75; 0x68]]).
  - repeat constructor.
  - vm_compute. lia.
Defined.

(** The value of an option: the rest of its argument, or the next argument, which is
    removed; a second call gives the same value. *)
Lemma argvalue_same a v a' : argvalue a = Some (Some v, a') -> argvalue a' = Some (Some v, a').
Proof.
  unfold argvalue, argnextvalue. destruct (args_argvalue a) as [w|] eqn:E; [intros [= -> ->]; by rewrite E|].
  destruct (curarg a) as [cur|]; [|done]. destruct (negb (char_at cur 0 =? 0)); [by intros [= <- <-]|].
  destruct (1 <? args_argc a); [|done]. destruct (args_argv a !! 1%nat) as [w|]; [|done]. cbn. unfold shift_args.
  destruct (_ <=? _)%nat; [done|]. by intros [= -> <-].
Qed.
