(* ===== verification/Cmdline.v ===== *)
(** * Command lines: the tokens of user/sh.c and the arguments of kern/monitor.c

    Both take a line apart in place: the characters between words are overwritten with
    zeros, so that the words become strings, and the tokens are pointers into the line.
    The reference is a lexer on the list of characters. *)
From S2P Require Import Prelude Mmu CMem Str.

(** strchr in a constant string, which never finds the zero at its end. *)
Definition one_of (set : list Z) (c : Z) : bool := existsb (Z.eqb c) set.

Definition WHITESPACE : list Z := [0x20; 0x09; 0x0d; 0x0a].
Definition SYMBOLS : list Z := [0x3c; 0x7c; 0x3e; 0x26; 0x3b; 0x28; 0x29].
Definition word_char (c : Z) : bool := negb (one_of (WHITESPACE ++ SYMBOLS) c).

(** ** The code *)

(** while (strchr(WHITESPACE, *s)) *s++ = 0; *)
Fixpoint skip_white (fuel : nat) (m : bytes) (s : Z) : option (bytes * Z) :=
  match fuel with
  | O => None
  | S fuel' => if one_of WHITESPACE (ld8 m s) then skip_white fuel' (st8 m s 0) (s + 1) else Some (m, s)
  end.
Fixpoint scan_word (fuel : nat) (m : bytes) (s : Z) : option Z :=
  match fuel with
  | O => None
  | S fuel' => if negb (ld8 m s =? 0) && word_char (ld8 m s) then scan_word fuel' m (s + 1) else Some s
  end.

(** The static variables of gettoken, and the line. *)
Record Lexer := mkLexer { nc : Z; np1 : option Z; np2 : option Z; line : bytes }.

(** The calls of _gettoken store its results in nc, np1 and np2. *)
Definition _gettoken (fuel : nat) (s : option Z) (x : Lexer) : option Lexer :=
  match s with
  | None => Some (mkLexer 0 (np1 x) (np2 x) (line x))
  | Some s =>
      y ← skip_white fuel (line x) s;
      let '(m, s) := y in
      let c := ld8 m s in
      if c =? 0 then Some (mkLexer 0 None None m)
      else if one_of SYMBOLS c then Some (mkLexer c (Some s) (Some (s + 1)) (st8 m s 0))
      else
        e ← scan_word fuel m s;
        Some (mkLexer 0x77 (Some s) (Some e) m)
  end.

Definition gettoken (fuel : nat) (s : option Z) (x : Lexer) : option (Z * option Z * Lexer) :=
  match s with
  | Some _ => x ← _gettoken fuel s x; Some (0, None, x)
  | None =>
      let c := nc x in
      let p1 := np1 x in
      x ← _gettoken fuel (np2 x) x;
      Some (c, p1, x)
  end.

(** All tokens of a line, as runcmd asks for them. *)
Fixpoint all_tokens (n fuel : nat) (x : Lexer) : option (list (Z * option Z) * Lexer) :=
  match n with
  | O => None
  | S n' =>
      y ← gettoken fuel None x;
      let '(c, p, x) := y in
      if c =? 0 then Some ([], x) else z ← all_tokens n' fuel x; Some ((c, p) :: z.1, z.2)
  end.

(** *** The parser of the kernel monitor *)
Definition MAXARGS : Z := 16.
Fixpoint mon_scan (fuel : nat) (m : bytes) (buf : Z) : option Z :=
  match fuel with
  | O => None
  | S fuel' => if negb (ld8 m buf =? 0) && negb (one_of WHITESPACE (ld8 m buf)) then mon_scan fuel' m (buf + 1) else Some buf
  end.

(** The arguments, or [None] inside when there are too many. *)
Fixpoint mon_args (n fuel : nat) (m : bytes) (buf argc : Z) : option (option (list Z) * bytes) :=
  match n with
  | O => None
  | S n' =>
      y ← skip_white fuel m buf;
      let '(m, buf) := y in
      if ld8 m buf =? 0 then Some (Some [], m)
      else if argc =? MAXARGS - 1 then Some (None, m)
      else
        e ← mon_scan fuel m buf;
        z ← mon_args n' fuel m e (argc + 1);
        Some (option_map (cons buf) z.1, z.2)
  end.

(** What runcmd does with a line: nothing, one of the two messages, or the call of the
    command with that number. *)
Inductive mon_action := MonNothing | MonTooMany | MonUnknown (name : Z) | MonCall (i : nat) (argv : list Z).

(** [names] are the names of the table of commands. *)
Fixpoint mon_lookup (fuel : nat) (m : bytes) (names : list Z) (i : nat) (argv0 : Z) (argv : list Z) : option mon_action :=
  match names with
  | [] => Some (MonUnknown argv0)
  | name :: names' =>
      r ← strcmp fuel m argv0 name;
      if r =? 0 then Some (MonCall i argv) else mon_lookup fuel m names' (S i) argv0 argv
  end.
Definition mon_runcmd (fuel : nat) (names : list Z) (m : bytes) (buf : Z) : option (mon_action * bytes) :=
  y ← mon_args fuel fuel m buf 0;
  match y.1 with
  | None => Some (MonTooMany, y.2)
  | Some [] => Some (MonNothing, y.2)
  | Some (argv0 :: rest) => a ← mon_lookup fuel y.2 names 0 argv0 (argv0 :: rest); Some (a, y.2)
  end.

(** ** The reference lexer *)
Inductive token := Sym (c : Z) | Word (w : list Z).

Fixpoint skip_list (l : list Z) : list Z :=
  match l with c :: l' => if one_of WHITESPACE c then skip_list l' else l | [] => [] end.
Fixpoint word_of (p : Z -> bool) (l : list Z) : list Z :=
  match l with c :: l' => if p c then c :: word_of p l' else [] | [] => [] end.
Fixpoint after_word (p : Z -> bool) (l : list Z) : list Z :=
  match l with c :: l' => if p c then after_word p l' else l | [] => [] end.

Definition lex1 (l : list Z) : option (token * list Z) :=
  match skip_list l with
  | [] => None
  | c :: r => if one_of SYMBOLS c then Some (Sym c, r) else Some (Word (word_of word_char (c :: r)), after_word word_char (c :: r))
  end.
Fixpoint lex (n : nat) (l : list Z) : list token :=
  match n with
  | O => []
  | S n' => match lex1 l with Some (t, r) => t :: lex n' r | None => [] end
  end.

(** ** Lemmas on the reference *)
Lemma word_split p l : l = word_of p l ++ after_word p l.
Proof. induction l as [|c l IH]; cbn; [done|]. destruct (p c); cbn; congruence. Qed.
Lemma after_word_head p l : match after_word p l with c :: _ => p c = false | [] => True end.
Proof. induction l as [|c l IH]; cbn; [done|]. by destruct (p c) eqn:E. Qed.
Lemma skip_list_length l : (length (skip_list l) <= length l)%nat.
Proof. induction l as [|c l IH]; cbn [skip_list]; [done|]. destruct (one_of WHITESPACE c); cbn [length]; lia. Qed.
Lemma after_word_length p l : (length (after_word p l) <= length l)%nat.
Proof. rewrite (word_split p l) at 2. rewrite length_app. lia. Qed.
Lemma skip_list_head l : match skip_list l with c :: _ => one_of WHITESPACE c = false | [] => True end.
Proof. induction l as [|c l IH]; cbn [skip_list]; [done|]. by destruct (one_of WHITESPACE c) eqn:E. Qed.

Lemma lex1_shorter l t r : lex1 l = Some (t, r) -> (length r < length l)%nat.
Proof.
  unfold lex1. pose proof (skip_list_length l) as H. pose proof (skip_list_head l) as Hh. destruct (skip_list l) as [|c s]; [done|].
  cbn in H. destruct (one_of SYMBOLS c) eqn:E; intros [= <- <-]; [lia|]. cbn [after_word].
  assert (word_char c = true) as ->.
  { unfold word_char, one_of in *. by rewrite existsb_app, Hh, E. }
  pose proof (after_word_length word_char s). lia.
Qed.

Lemma lex_enough n l : (length l <= n)%nat -> lex n l = lex (length l) l.
Proof.
  revert l. induction n as [n IH] using lt_wf_ind. intros l Hl. destruct n as [|n].
  { destruct l; [done|simpl in Hl; lia]. }
  destruct l as [|c l]; [done|]. cbn [lex length]. destruct (lex1 (c :: l)) as [[t r]|] eqn:E; [|done].
  pose proof (lex1_shorter _ _ _ E) as Hs. cbn [length] in *. rewrite (IH n), (IH (length l)) by lia. done.
Qed.

(** ** Lemmas on the code *)

(** Only zeros are written, and only from [s] to [e]. *)
Definition zeroes (m m' : bytes) (s e : Z) : Prop :=
  forall a, ld8 m' a = ld8 m a \/ (ld8 m' a = 0 /\ s <= a < e).

Lemma zeroes_refl m s e : zeroes m m s e.
Proof. by left. Qed.
Lemma zeroes_trans m1 m2 m3 s1 e1 s2 e2 :
  s1 <= s2 -> e1 <= e2 -> zeroes m1 m2 s1 e1 -> zeroes m2 m3 s2 e2 -> zeroes m1 m3 s1 e2.
Proof.
  intros Hs He H1 H2 a. destruct (H2 a) as [->|[-> ?]]; [|right; split; [done|lia]].
  destruct (H1 a) as [->|[-> ?]]; [by left|right; split; [done|lia]].
Qed.
Lemma zeroes_keep m m' s e a : zeroes m m' s e -> ~ (s <= a < e) -> ld8 m' a = ld8 m a.
Proof. intros H Ha. by destruct (H a) as [?|[_ ?]]. Qed.
Lemma zeroes_zero m m' s e a : zeroes m m' s e -> ld8 m a = 0 -> ld8 m' a = 0.
Proof. intros H Ha. destruct (H a) as [->|[? _]]; done. Qed.
Lemma zeroes_st m s : zeroes m (st8 m s 0) s (s + 1).
Proof. intros a. rewrite ld8_st8. case_decide; [right; subst; split; [done|lia]|by left]. Qed.

Lemma str_at_st m s c l : str_at m s (c :: l) -> str_at (st8 m s 0) (s + 1) l.
Proof. intros (_ & _ & H). eapply str_at_ext, H. intros a Ha. rewrite ld8_st8, decide_False; [done|lia]. Qed.

Lemma one_of_zero set : Forall (fun c => c <> 0) set -> one_of set 0 = false.
Proof. induction 1 as [|c l Hc _ IH]; cbn; [done|]. destruct c; done. Qed.

(** Skipping blanks: what is left is at the pointer, and when there was a blank or the
    end at [s], there is a zero at [s]. *)
Lemma skip_white_ok fuel m s l :
  str_at m s l -> (length l < fuel)%nat ->
  exists m' s', skip_white fuel m s = Some (m', s') /\ str_at m' s' (skip_list l) /\ s <= s' /\
    s' + Z.of_nat (length (skip_list l)) = s + Z.of_nat (length l) /\ zeroes m m' s s' /\ (s < s' -> ld8 m' s = 0).
Proof.
  revert m s l. induction fuel as [|fuel IH]; intros m s l Hs Hl; [lia|]. cbn [skip_white]. destruct l as [|c l].
  - cbn in Hs. rewrite Hs. rewrite one_of_zero by (by repeat constructor). exists m, s.
    split_and!; [done|done|lia|done|apply zeroes_refl|lia].
  - cbn [skip_list]. pose proof Hs as (Hc & _). rewrite Hc. destruct (one_of WHITESPACE c) eqn:E.
    + destruct (IH (st8 m s 0) (s + 1) l) as (m' & s' & -> & H1 & H2 & H3 & H4 & _); [by eapply str_at_st|simpl in Hl; lia|].
      exists m', s'. cbn [length] in *. split_and!; [done|done|lia|lia| |].
      * eapply (zeroes_trans _ (st8 m s 0)); [..|apply zeroes_st|exact H4]; lia.
      * intros _. rewrite (zeroes_keep _ _ _ _ _ H4) by lia. by rewrite ld8_st8, decide_True.
    + exists m, s. split_and!; [done|done|lia|lia|apply zeroes_refl|lia].
Qed.

(** A word: its characters, without a zero after them yet. *)
Fixpoint chars_at (m : bytes) (p : Z) (w : list Z) : Prop :=
  match w with [] => True | c :: w' => ld8 m p = c /\ c <> 0 /\ chars_at m (p + 1) w' end.

Lemma chars_at_ext m m' p w : (forall a, p <= a < p + Z.of_nat (length w) -> ld8 m' a = ld8 m a) -> chars_at m p w -> chars_at m' p w.
Proof.
  revert p. induction w as [|c w IH]; intros p H; cbn [chars_at length] in *; [done|]. intros (? & ? & ?).
  rewrite H by lia. split_and!; [done|done|]. apply IH; [|done]. intros a Ha. apply H. lia.
Qed.
Lemma chars_str m p w : chars_at m p w -> ld8 m (p + Z.of_nat (length w)) = 0 -> str_at m p w.
Proof.
  revert p. induction w as [|c w IH]; intros p; cbn [chars_at str_at length]; [by rewrite Z.add_0_r|]. intros (? & ? & ?) Hz.
  split_and!; [done|done|]. apply IH; [done|]. rewrite <- Hz. f_equal. lia.
Qed.
Lemma str_split m p w r : str_at m p (w ++ r) -> chars_at m p w /\ str_at m (p + Z.of_nat (length w)) r.
Proof.
  revert p. induction w as [|c w IH]; intros p; cbn [chars_at str_at length app]; [by rewrite Z.add_0_r|]. intros (? & ? & H).
  apply IH in H as [? H]. split_and!; [done..|]. replace (p + Z.of_nat (S (length w))) with (p + 1 + Z.of_nat (length w)) by lia. done.
Qed.

Lemma scan_ok (scan : nat -> bytes -> Z -> option Z) p :
  (forall fuel m s, scan (S fuel) m s = if negb (ld8 m s =? 0) && p (ld8 m s) then scan fuel m (s + 1) else Some s) ->
  forall fuel m s l, str_at m s l -> (length l < fuel)%nat -> scan fuel m s = Some (s + Z.of_nat (length (word_of p l))).
Proof.
  intros Hscan fuel m. induction fuel as [|fuel IH]; intros s l Hs Hl; [lia|]. rewrite Hscan. destruct l as [|c l].
  - cbn in *. rewrite Hs. cbn. f_equal. lia.
  - destruct Hs as (-> & Hc & Hs). rewrite (proj2 (Z.eqb_neq c 0)) by done. cbn [negb andb word_of]. destruct (p c).
    + rewrite (IH (s + 1) l Hs) by (simpl in Hl; lia). cbn [length]. f_equal. lia.
    + cbn. f_equal. lia.
Qed.

(** *** One token *)

(** The lexer holds the next token [t], and [r] is what is left after it. *)
Definition holds (x : Lexer) (n : option (token * list Z)) (bound : Z) : Prop :=
  match n with
  | None => nc x = 0 /\ np2 x = None
  | Some (t, r) => exists p q, np1 x = Some p /\ np2 x = Some q /\ str_at (line x) q r /\ q + Z.of_nat (length r) = bound /\ p < q /\
      match t with
      | Sym c => nc x = c /\ c <> 0
      | Word w => nc x = 0x77 /\ chars_at (line x) p w /\ q = p + Z.of_nat (length w) /\
          match r with c :: _ => word_char c = false | [] => True end
      end
  end.

Lemma _gettoken_ok fuel x s l :
  str_at (line x) s l -> (length l < fuel)%nat ->
  exists x', _gettoken fuel (Some s) x = Some x' /\ holds x' (lex1 l) (s + Z.of_nat (length l)) /\
    zeroes (line x) (line x') s (s + Z.of_nat (length l)) /\
    (forall p, np1 x' = Some p -> s <= p) /\
    (match l with c :: _ => word_char c = false | [] => True end -> ld8 (line x') s = 0).
Proof.
  intros Hs Hl. unfold _gettoken, lex1.
  destruct (skip_white_ok fuel (line x) s l Hs Hl) as (m & s' & -> & Hs' & Hle & Hlen & Hz & H0).
  pose proof (skip_list_head l) as Hh. pose proof (skip_list_length l) as Hll. rewrite <- Hlen.
  assert (s = s' -> skip_list l = l) as Hsame.
  { intros ->. assert (length (skip_list l) = length l) as E by lia. clear - E. destruct l as [|c l]; [done|]. cbn [skip_list] in *.
    destruct (one_of WHITESPACE c); [|done]. pose proof (skip_list_length l). cbn [length] in E. lia. }
  destruct (skip_list l) as [|c r]; cbn -[one_of SYMBOLS word_char].
  { rewrite Hs'. cbn. eexists. split; [reflexivity|]. cbn. split_and!; [done|done| |done|].
    - rewrite Z.add_0_r. exact Hz.
    - intros _. destruct (decide (s < s')); [auto|]. assert (s = s') as -> by lia. exact Hs'. }
  pose proof Hs' as (Hc & Hc0 & Hr). rewrite Hc, (proj2 (Z.eqb_neq c 0)) by done. destruct (one_of SYMBOLS c) eqn:Esym.
  { eexists. split; [reflexivity|]. cbn -[one_of SYMBOLS word_char str_at Z.of_nat]. split_and!.
    - exists s', (s' + 1). split_and!; [done|done|by eapply str_at_st|cbn [length]; lia|lia|done|done].
    - cbn [length]. eapply (zeroes_trans _ m); [exact Hle| |exact Hz|eapply (zeroes_trans _ (st8 m s' 0)); [..|apply zeroes_st|apply (zeroes_refl _ s')]; lia]. lia.
    - by intros p [= <-].
    - intros _. destruct (decide (s < s')); [|assert (s = s') as -> by lia; by rewrite ld8_st8, decide_True].
      rewrite ld8_st8, decide_False by lia. auto. }
  rewrite (scan_ok scan_word word_char ltac:(done) fuel m s' (c :: r) Hs') by lia. cbn -[one_of SYMBOLS word_of after_word word_char str_at Z.of_nat length].
  eexists. split; [reflexivity|]. cbn -[one_of SYMBOLS word_of after_word word_char str_at Z.of_nat length].
  pose proof (word_split word_char (c :: r)) as Hsplit. rewrite Hsplit in Hs' at 1. apply str_split in Hs' as [Hw Hrest].
  assert (word_char c = true) as Hwc by (unfold word_char, one_of in *; by rewrite existsb_app, Hh, Esym).
  assert (0 < length (word_of word_char (c :: r)))%nat by (cbn [word_of]; rewrite Hwc; cbn [length]; lia).
  split_and!.
  - exists s', (s' + Z.of_nat (length (word_of word_char (c :: r)))). split_and!; [done|done|done| |lia|done|done|done|exact (after_word_head word_char (c :: r))].
    pose proof (f_equal length Hsplit) as HL. rewrite length_app in HL.
    change (if word_char c then after_word word_char r else c :: r) with (after_word word_char (c :: r)).
    change (length (c :: r)) with (S (length r)) in HL. lia.
  - eapply (zeroes_trans _ m); [exact Hle| |exact Hz|apply zeroes_refl]. lia.
  - by intros p [= <-].
  - intros Hh'. destruct (decide (s < s')); [auto|]. assert (s = s') as E by lia. rewrite <- (Hsame E) in Hh'. congruence.
Qed.

(** *** A whole line *)

(** A pointer to a token, in the memory at the end. *)
Definition token_at (m : bytes) (t : token) (x : Z * option Z) : Prop :=
  match t with
  | Sym c => x.1 = c
  | Word w => x.1 = 0x77 /\ exists p, x.2 = Some p /\ str_at m p w
  end.

Lemma all_tokens_ok n fuel x t r bound :
  holds x (Some (t, r)) bound -> (length r < fuel)%nat -> (length r + 1 < n)%nat ->
  exists toks x', all_tokens n fuel x = Some (toks, x') /\
    Forall2 (token_at (line x')) (t :: lex (length r) r) toks /\
    (forall q, np2 x = Some q -> zeroes (line x) (line x') q bound).
Proof.
  revert x t r. induction n as [|n IH]; intros x t r Hh Hf Hn; [lia|].
  destruct Hh as (p & q & Hp & Hq & Hr & Hb & Hpq & Ht). cbn [all_tokens]. unfold gettoken. rewrite Hq, Hp.
  destruct (_gettoken_ok fuel x q r Hr Hf) as (x1 & -> & Hh1 & Hz1 & Hp1 & H01). rewrite Hb in *. cbn -[lex].
  assert (nc x <> 0) as Hnc by (destruct t; destruct Ht as [-> ?]; done). rewrite (proj2 (Z.eqb_neq _ _)) by done.
  (* the token stays in place, and gets its zero *)
  assert (forall x', zeroes (line x1) (line x') q bound -> token_at (line x') t (nc x, Some p)) as Htok.
  { intros x' Hz. destruct t as [c|w]; [apply Ht|]. destruct Ht as (Hw1 & Hw & Hqw & Hhead). split; [done|]. exists p. split; [done|].
    apply chars_str; [|rewrite <- Hqw; by eapply zeroes_zero, H01]. eapply chars_at_ext, Hw. intros a Ha.
    rewrite (zeroes_keep _ _ _ _ _ Hz), (zeroes_keep _ _ _ _ _ Hz1) by lia. done. }
  destruct (lex1 r) as [[t1 r1]|] eqn:El.
  - pose proof (lex1_shorter _ _ _ El) as Hsh.
    destruct (IH x1 t1 r1 Hh1) as (toks & x' & -> & Hall & Hz); [lia|lia|]. cbn. exists ((nc x, Some p) :: toks), x'. split; [done|].
    destruct Hh1 as (p1 & q1 & Ep1 & Eq1 & _ & Hb1 & Hpq1 & _). specialize (Hz q1 Eq1). specialize (Hp1 p1 Ep1).
    assert (zeroes (line x1) (line x') q bound) as Hz' by (eapply (zeroes_trans _ (line x1)); [..|apply (zeroes_refl _ q q1)|exact Hz]; lia).
    split.
    + constructor; [by apply Htok|]. destruct r as [|c r]; [by cbn in El|]. cbn [length lex]. rewrite El.
      pose proof (lex1_shorter _ _ _ El) as Hs. cbn [length] in Hs. rewrite lex_enough by lia. done.
    + intros q' [= <-]. eapply (zeroes_trans _ (line x1)); [..|exact Hz1|exact Hz']; lia.
  - destruct n as [|n]; [lia|]. destruct Hh1 as [E1 E2]. cbn [all_tokens]. unfold gettoken. rewrite E1, E2. cbn.
    eexists _, _. split; [reflexivity|]. cbn. split; [|by intros q' [= <-]].
    assert (lex (length r) r = []) as -> by (destruct r; cbn [length lex]; [done|by rewrite El]).
    constructor; [apply (Htok x1), zeroes_refl|constructor].
Qed.

Lemma no_token n fuel x : nc x = 0 -> np2 x = None -> all_tokens (S n) fuel x = Some ([], mkLexer 0 (np1 x) None (line x)).
Proof. intros H1 H2. cbn [all_tokens]. unfold gettoken, _gettoken. rewrite H1, H2. reflexivity. Qed.

(** C33: The shell's tokens: after gettoken(s, 0), the calls gettoken(0, &t) up to the first
    that returns 0 give the tokens of the line in order, as a lexer on its characters
    does, and when they have all been read, every pointer to a word leads to a string
    that is the word.  Nothing outside of the line is written. *)
Theorem gettoken_lexes fuel n s l x :
  str_at (line x) s l -> (length l < fuel)%nat -> (length l < n)%nat ->
  exists x1 toks x2, gettoken fuel (Some s) x = Some (0, None, x1) /\ all_tokens n fuel x1 = Some (toks, x2) /\
    Forall2 (token_at (line x2)) (lex (length l) l) toks /\
    forall a, ~ (s <= a < s + Z.of_nat (length l)) -> ld8 (line x2) a = ld8 (line x) a.
Proof.
  intros Hs Hf Hn. unfold gettoken. destruct (_gettoken_ok fuel x s l Hs Hf) as (x1 & -> & Hh & Hz & Hp & _). cbn -[all_tokens lex].
  exists x1. destruct (lex1 l) as [[t r]|] eqn:El.
  - pose proof (lex1_shorter _ _ _ El) as Hsh.
    destruct (all_tokens_ok n fuel x1 t r _ Hh) as (toks & x2 & -> & Hall & Hz2); [lia|lia|]. exists toks, x2. split_and!; [done|done| |].
    + destruct l as [|c l]; [by cbn in El|]. cbn [length lex]. rewrite El. cbn [length] in Hsh. rewrite lex_enough by lia. done.
    + intros a Ha. destruct Hh as (p & q & Ep & Eq & _ & _ & Hpq & _). specialize (Hp p Ep). specialize (Hz2 q Eq).
      rewrite (zeroes_keep _ _ _ _ _ Hz2), (zeroes_keep _ _ _ _ _ Hz) by lia. done.
  - destruct Hh as [E1 E2]. destruct n as [|n]; [lia|]. rewrite (no_token n fuel x1 E1 E2). eexists _, _. split_and!; [done|done| |].
    + assert (lex (length l) l = []) as -> by (destruct l; cbn [length lex]; [done|by rewrite El]). constructor.
    + intros a Ha. cbn. by rewrite (zeroes_keep _ _ _ _ _ Hz) by lia.
Qed.

(** "ls | cat<f" *)
Definition demo_line : list Z := [0x6c; 0x73; 0x20; 0x7c; 0x20; 0x63; 0x61; 0x74; 0x3c; 0x66].
Fixpoint put_string (m : bytes) (p : Z) (l : list Z) : bytes :=
  match l with [] => st8 m p 0 | c :: l' => put_string (st8 m p c) (p + 1) l' end.

Lemma gettoken_lexes_witness :
  lex 10 demo_line = [Word [0x6c; 0x73]; Sym 0x7c; Word [0x63; 0x61; 0x74]; Sym 0x3c; Word [0x66]] /\
  exists x1 toks x2, gettoken 20 (Some 100) (mkLexer 0 None None (put_string ∅ 100 demo_line)) = Some (0, None, x1) /\
    all_tokens 20 20 x1 = Some (toks, x2) /\ Forall2 (token_at (line x2)) (lex 10 demo_line) toks /\
    forall a, ~ (100 <= a < 110) -> ld8 (line x2) a = ld8 (put_string ∅ 100 demo_line) a.
Proof.
  split; [reflexivity|].
  apply (gettoken_lexes 20 20 100 demo_line (mkLexer 0 None None (put_string ∅ 100 demo_line))); [|simpl; lia|simpl; lia].
  cbn [line]. repeat (split; [vm_compute; congruence|]). vm_compute. reflexivity.
Defined.

(** ** The monitor *)
Definition not_white (c : Z) : bool := negb (one_of WHITESPACE c).
Fixpoint mon_words (n : nat) (l : list Z) : list (list Z) :=
  match n with
  | O => []
  | S n' =>
      match skip_list l with
      | [] => []
      | c :: r => word_of not_white (c :: r) :: mon_words n' (after_word not_white (c :: r))
      end
  end.

Lemma after_shorter l c r : skip_list l = c :: r -> (length (after_word not_white (c :: r)) < length l)%nat.
Proof.
  intros E. pose proof (skip_list_length l) as Hl. pose proof (skip_list_head l) as Hh. rewrite E in *. cbn [after_word]. unfold not_white at 1.
  rewrite Hh. cbn [negb length] in *. pose proof (after_word_length not_white r). lia.
Qed.

Lemma mon_words_enough n l : (length l < n)%nat -> mon_words n l = mon_words (S (length l)) l.
Proof.
  revert l. induction n as [n IH] using lt_wf_ind. intros l Hl. destruct n as [|n]; [lia|]. cbn [mon_words].
  destruct (skip_list l) as [|c r] eqn:E; [done|]. pose proof (after_shorter l c r E) as Hs. f_equal.
  destruct (decide (n = length l)) as [->|]; [done|]. rewrite (IH n), (IH (length l)) by lia. done.
Qed.

Lemma mon_args_ok n fuel m buf l argc :
  str_at m buf l -> (length l < fuel)%nat -> (length l < n)%nat -> 0 <= argc ->
  exists argv m', mon_args n fuel m buf argc = Some (argv, m') /\ zeroes m m' buf (buf + Z.of_nat (length l)) /\
    (match l with c :: _ => one_of WHITESPACE c = true | [] => True end -> ld8 m' buf = 0) /\
    if decide (argc + Z.of_nat (length (mon_words n l)) < MAXARGS) then
      exists v, argv = Some v /\ Forall2 (str_at m') v (mon_words n l)
    else argc < MAXARGS -> argv = None.
Proof.
  revert m buf l argc. induction n as [|n IH]; intros m buf l argc Hs Hf Hn Ha; [lia|]. cbn [mon_args].
  destruct (skip_white_ok fuel m buf l Hs Hf) as (m1 & s & -> & Hs1 & Hle & Hlen & Hz & H0). rewrite <- Hlen.
  assert (match l with c :: _ => one_of WHITESPACE c = true | [] => True end -> buf = s -> l = []) as Hhd.
  { intros Hw ->. destruct l as [|c l]; [done|]. cbn [skip_list] in Hlen. rewrite Hw in Hlen. pose proof (skip_list_length l). cbn [length] in Hlen. lia. }
  assert (match l with c :: _ => one_of WHITESPACE c = true | [] => True end -> ld8 m1 buf = 0) as Hz0.
  { intros Hw. destruct (decide (buf < s)); [auto|]. assert (buf = s) as E by lia. rewrite (Hhd Hw E) in Hs1. by rewrite E. }
  cbn [mbind option_bind]. cbn [mon_words]. destruct (skip_list l) as [|c r] eqn:El.
  { cbn in Hs1. rewrite Hs1. cbn. exists (Some []), m1. split_and!; [done|by rewrite Z.add_0_r|done|].
    case_decide; [exists []; split; [done|constructor]|unfold MAXARGS in *; cbn in *; lia]. }
  pose proof Hs1 as (Hc & Hc0 & Hr). rewrite Hc, (proj2 (Z.eqb_neq c 0)) by done. destruct (Z.eqb_spec argc (MAXARGS - 1)) as [->|Hne]; unfold MAXARGS in *.
  { exists None, m1. split_and!; [done| |done|].
    - eapply (zeroes_trans _ m1); [exact Hle| |exact Hz|apply zeroes_refl]. lia.
    - cbn [length]. rewrite decide_False by lia. done. }
  rewrite (scan_ok mon_scan not_white ltac:(done) fuel m1 s (c :: r) Hs1) by (pose proof (skip_list_length l); rewrite El in *; lia).
  cbn [mbind option_bind]. pose proof (after_shorter l c r El) as Hsh.
  pose proof (word_split not_white (c :: r)) as Hsplit. rewrite Hsplit in Hs1. apply str_split in Hs1 as [Hw Hrest].
  pose proof (f_equal length Hsplit) as HL. rewrite length_app in HL.
  destruct (IH m1 (s + Z.of_nat (length (word_of not_white (c :: r)))) (after_word not_white (c :: r)) (argc + 1) Hrest)
    as (argv & m' & -> & Hz' & H0' & Hcase); [lia|lia|lia|].
  cbn [mbind option_bind fst snd]. exists (option_map (cons s) argv), m'.
  split; [done|].
  replace (s + Z.of_nat (length (word_of not_white (c :: r))) + Z.of_nat (length (after_word not_white (c :: r))))
    with (s + Z.of_nat (length (c :: r))) in Hz' by lia.
  assert (zeroes m m' buf (s + Z.of_nat (length (c :: r)))) as Hzz by (eapply (zeroes_trans _ m1); [| |exact Hz|exact Hz']; lia).
  split_and!; [done|intros Hh; by eapply zeroes_zero, Hz0|].
  assert (str_at m' s (word_of not_white (c :: r))) as Hword.
  { apply chars_str.
    - eapply chars_at_ext, Hw. intros a Ha'. by rewrite (zeroes_keep _ _ _ _ _ Hz') by lia.
    - apply H0'. pose proof (after_word_head not_white (c :: r)) as Hh. destruct (after_word not_white (c :: r)); [done|].
      unfold not_white in Hh. by apply negb_false_iff in Hh. }
  cbn [length]. destruct (decide (argc + 1 + Z.of_nat (length (mon_words n (after_word not_white (c :: r)))) < 16)).
  - rewrite decide_True by lia. destruct Hcase as (v & -> & Hv). exists (s :: v). split; [done|]. by constructor.
  - rewrite decide_False by lia. intros Hlt. rewrite Hcase by lia. done.
Qed.

(** The first command with a name. *)
Definition first_command (cnames : list (list Z)) (w : list Z) : option nat := fst <$> list_find (eq w) cnames.

Lemma mon_lookup_ok fuel m names cnames k p w argv :
  Forall2 (str_at m) names cnames -> str_at m p w -> (length w < fuel)%nat ->
  mon_lookup fuel m names k p argv =
  Some match first_command cnames w with Some i => MonCall (k + i) argv | None => MonUnknown p end.
Proof.
  intros Hn Hp Hf. revert k. unfold first_command. induction Hn as [|a s names cnames Ha _ IH]; intros k; cbn [mon_lookup list_find]; [done|].
  destruct (strcmp_ok fuel m p a w s Hp Ha Hf) as (r & -> & Hr). cbn -[list_find]. destruct (Z.eqb_spec r 0) as [E|E].
  - rewrite decide_True by by apply Hr. cbn. by rewrite Nat.add_0_r.
  - rewrite decide_False by (intros N; by apply E, Hr). rewrite IH. destruct (list_find _ cnames) as [[i ?]|]; cbn; [|done].
    by rewrite Nat.add_succ_r.
Qed.

(** The command line of the kernel monitor: a line of blanks does nothing; a line of more
    than 15 words is refused; otherwise the first command of the table whose name is the
    first word is called, with the words of the line as its arguments, and there is the
    message on an unknown command when there is none.  Nothing outside of the line is
    written. *)
Theorem mon_runcmd_dispatches fuel names cnames m buf l :
  str_at m buf l -> (length l < fuel)%nat -> Forall2 (str_at m) names cnames ->
  Forall2 (fun a s => a + Z.of_nat (length s) < buf \/ buf + Z.of_nat (length l) <= a) names cnames ->
  let words := mon_words (S (length l)) l in
  exists act m', mon_runcmd fuel names m buf = Some (act, m') /\
    (forall a, ~ (buf <= a < buf + Z.of_nat (length l)) -> ld8 m' a = ld8 m a) /\
    match words with
    | [] => act = MonNothing
    | w :: _ =>
        if decide (Z.of_nat (length words) < MAXARGS) then exists argv, Forall2 (str_at m') argv words /\
          act = match first_command cnames w with Some i => MonCall i argv | None => MonUnknown (hd 0 argv) end
        else act = MonTooMany
    end.
Proof.
  intros Hs Hf Hn Hap words. unfold mon_runcmd.
  destruct (mon_args_ok fuel fuel m buf l 0 Hs Hf Hf) as (argv & m' & -> & Hz & _ & Hcase); [lia|].
  rewrite (mon_words_enough fuel l Hf) in Hcase. fold words in Hcase. rewrite Z.add_0_l in Hcase. cbn [mbind option_bind fst snd].
  assert (forall a, ~ (buf <= a < buf + Z.of_nat (length l)) -> ld8 m' a = ld8 m a) as Hout by (intros; by eapply zeroes_keep).
  assert (match words with w :: _ => (length w <= length l)%nat | [] => True end) as Hw.
  { unfold words. cbn [mon_words]. pose proof (skip_list_length l) as Hsl. destruct (skip_list l) as [|c r]; [done|].
    pose proof (f_equal length (word_split not_white (c :: r))) as HL. rewrite length_app in HL. lia. }
  clearbody words. destruct (decide (Z.of_nat (length words) < MAXARGS)) as [Hlt|Hge].
  2:{ rewrite (Hcase eq_refl). destruct words as [|w ws]; [unfold MAXARGS in Hge; cbn in Hge; lia|].
    by exists MonTooMany, m'. }
  destruct Hcase as (v & -> & Hv). destruct Hv as [|p w v ws Hp Hv]; [by exists MonNothing, m'|].
  erewrite (mon_lookup_ok fuel m' names cnames 0 p w); [| |exact Hp|].
  - cbn. eexists _, m'. split_and!; [reflexivity|done|]. exists (p :: v). split; [by constructor|done].
  - apply Forall2_same_length_lookup_2; [by eapply Forall2_length|]. intros i a s Ha Hcs.
    pose proof (Forall2_lookup_lr _ _ _ _ _ _ Hn Ha Hcs). pose proof (Forall2_lookup_lr _ _ _ _ _ _ Hap Ha Hcs) as Hapart. cbn in Hapart.
    eapply str_at_ext; [|done]. intros b Hb. apply Hout. lia.
  - lia.
Qed.

(** "help" and "kerninfo" at 10 and 20; the line " kerninfo x" at 100 *)
Definition demo_names : bytes :=
  put_string (put_string (put_string ∅ 10 [0x68; 0x65; 0x6c; 0x70]) 20 [0x6b; 0x69]) 100 [0x20; 0x6b; 0x69; 0x20; 0x78].

Lemma mon_runcmd_dispatches_witness :
  exists act m', mon_runcmd 20 [10; 20] demo_names 100 = Some (act, m') /\
    (forall a, ~ (100 <= a < 105) -> ld8 m' a = ld8 demo_names a) /\
    exists argv, Forall2 (str_at m') argv [[0x6b; 0x69]; [0x78]] /\ act = MonCall 1 argv.
Proof.
  apply (mon_runcmd_dispatches 20 [10; 20] [[0x68; 0x65; 0x6c; 0x70]; [0x6b; 0x69]] demo_names 100 [0x20; 0x6b; 0x69; 0x20; 0x78]).
  - repeat (split; [vm_compute; congruence|]). vm_compute. reflexivity.
  - simpl. lia.
  - repeat constructor; vm_compute; congruence.
  - repeat constructor; simpl; lia.
Defined.
